(* ===== verification/_CoqProject ===== *)
-Q . S2P
Prelude.v
Memory.v
Wire.v
Packet.v
PacketRead.v
Publish.v
Connect.v
Subscribe.v
Topic.v
Timer.v
Print.v
Network.v
Client.v
Transport.v
ClientInv.v
ClientIO.v
ClientFlow.v
ClientApi.v
ClientSpec.v
Tcp.v
Format.v
Broker.v
Handover.v
Modbus.v
Main.v
ConstTime.v
Heap.v
Ctype.v
OStr.v
TlsPacket.v
BufMem.v
Vlint.v
TlsWriter.v
TlsMessages.v
Base64.v
Md32.v
Sha256.v
Md5.v
Sha1.v
Der.v
AsnString.v
DerInt.v
OTime.v
BioPrint.v
AsnTime.v
DerWriter.v
Utf8.v
