(* ===== verification/Prelude.v ===== *)
(** * Verification of the QUBIP MQTT client for Linux

    The program (src/) is a gateway.  A Modbus thread reads a counter register of a
    PLC, hands the value over to an MQTT publisher thread and writes the value plus
    one back; the publisher sends each value as a JSON text to a broker over TLS, and
    a subscriber thread receives the messages of the same topic.  The packets are
    those of the Paho embedded C library (src/mqtt/MQTTPacket), the client is
    src/mqtt/MQTTClient.c, the transport src/mqtt/MQTTInterface.c on the vendored
    OpenSSL (src/openssl-3.2.2), the TCP layer of the Modbus side src/platform.h.

    ** How the code is modelled

    A C function is a Rocq function of the same name.  A computation with effects is
    a value of the monad [M S A] of this file: it returns a value and a new state, has
    undefined behaviour ([UB]: an access outside an object, a signed overflow, a use
    of an unassigned pointer), or is still running when the fuel of its loops is spent
    ([NoFuel]).  Integers are [Z] with the conversions of C written out ([to_int],
    [to_uchar], ...), bit-fields are [get_bits] and [set_bits].  Memory (Memory.v) is a
    finite map from objects to their octets; pointers are an object and an offset.
    An out-parameter is a component of the result; a local variable that the code
    leaves unassigned is a parameter named [garbage], or [Indet] for a pointer.
    A [goto exit] is an early result.

    Code that is not under src/ is a parameter: the C library and the system calls as
    an oracle of answers (Network.v, Tcp.v) or a class ([Platform] and [PlatformLaws]
    for reads, writes and the clock, [TaskHost] for sleeping and attaching a stream,
    [Nmbs] and [NmbsLaws] for the nanoMODBUS submodule, [Allocator] and
    [AllocatorLaws] for the heap, [SSL_api] and [SSL_laws] for
    SSL_read and SSL_write, whose documentation the laws restate).  Instances of each
    class on concrete peers are in the witnesses.

    ** The files

    - Prelude.v (this file): integers, bit-fields, the monad, lists, tactics and hint
      databases.  Memory.v: objects, pointers, <string.h>.
    - Packet.v, PacketRead.v: MQTTPacket.c and MQTTPacket.h.  Wire.v: the abstract MQTT
      wire format, against which the serializers are specified.
    - Publish.v, Connect.v, Subscribe.v: the serializers and deserializers of
      MQTTSerializePublish.c, MQTTDeserializePublish.c, MQTTConnectClient.c,
      MQTTConnectServer.c, MQTTSubscribeClient.c, MQTTSubscribeServer.c,
      MQTTUnsubscribeClient.c and MQTTUnsubscribeServer.c.
    - Topic.v: isTopicMatched of MQTTClient.c.  Timer.v: the timers of MQTTInterface.c
      and sleep_ms of utilis.c.  Print.v: snprintf and atoi.  Format.v: MQTTFormat.c.
    - Network.v: MQTTInterface.c (Module [Tls]: connection set-up and tear-down with the
      objects they own; the read and write loops).
    - Client.v: MQTTClient.c and MQTTClient.h, over [Platform].  Transport.v: the
      platform over TLS as an instance.  ClientInv.v: the invariant of the client object
      and the table of handlers; ClientIO.v, ClientFlow.v, ClientApi.v: runs of the
      internal functions, of the receive loop and of the public functions;
      ClientSpec.v: the theorems about them.
    - Broker.v: mqtt_task.c.  Handover.v: the interleaving of the Modbus and the
      publisher thread on the shared value, as a step function with its reachable
      states.  Modbus.v: modbus_task.c.  Tcp.v: platform.h (Module [Tcp]).
      Main.v: main.c and config.h.
    - ConstTime.v, Heap.v, Ctype.v, OStr.v, TlsPacket.v, BufMem.v, Vlint.v, TlsWriter.v,
      TlsMessages.v, Base64.v, Md32.v, Sha256.v, Md5.v, Sha1.v, Der.v, AsnString.v,
      DerInt.v, OTime.v, BioPrint.v, AsnTime.v, DerWriter.v and Utf8.v: parts of the
      vendored OpenSSL beneath the connection of the program, namely the constant-time primitives
      (include/internal/constant_time.h), the reader of messages
      (include/internal/packet.h), allocation (crypto/mem.c), character classes
      (crypto/ctype.c), strings and hexadecimal text (crypto/o_str.c), growing buffers
      (crypto/buffer/buffer.c), QUIC integers (crypto/quic_vlint.c) and the writer of
      messages (crypto/packet.c), the Base64 of PEM files (crypto/evp/encode.c),
      and digests, the collecting of messages (include/crypto/md32_common.h) in Md32.v
      and its users SHA-256, MD5 and SHA-1 (crypto/sha/sha256.c, crypto/md5/md5_dgst.c,
      crypto/sha/sha_local.h),
      and of ASN.1 the headers of objects in Der.v, the strings in AsnString.v (both
      crypto/asn1/asn1_lib.c) and the integers in DerInt.v (crypto/asn1/a_int.c),
      and for the times of certificates the calendar (crypto/o_time.c), the format
      interpreter (crypto/bio/bio_print.c) and UTCTime and GeneralizedTime in AsnTime.v
      (crypto/asn1/a_time.c, a_utctm.c, a_gentm.c), the writer of DER in DerWriter.v
      (crypto/der_writer.c), and characters in UTF-8 (crypto/asn1/a_utf8.c);
      TlsMessages.v joins the writer and the reader.

    ** What the theorems show

    - Encoding: the variable-length integer, and each packet, is read back as it was
      written; the serializers write exactly the octets of the abstract packet, or
      refuse a buffer that is too short; decoding is total and bounded.
    - Reading: a packet that arrives in pieces, however it is cut, is assembled by
      the resumable reader in the end and never before its last octet.
    - Client: every public function keeps the client invariant; connected sessions
      come only from an accepted connect; packet identifiers cycle through 1..65535;
      one pass of the receive loop dispatches a packet to the handlers of the matching
      filters; connect, publish, subscribe and unsubscribe are the exchanges of the
      protocol; the handler table refines a finite map from filters to handlers.
    - Transport: the loops end on a peer that makes progress, transfer exactly what was
      asked, and connect and disconnect balance what they allocate and free.
    - Tasks: each value the publisher is given becomes one PUBLISH with its JSON text,
      in order; a failed connection attempt leaves no session; the shared value is
      accessed by one thread at a time, and without spurious wake-ups the published
      values are a subsequence of those read, in order; the register counts modulo
      2^16; the threads are started with the configuration of the command line.
    - OpenSSL: the constant-time comparisons, selections, exchanges and look-ups compute
      what they are named after at each width; the message reader implements parsers of
      octet lists and never reads outside the message; the message writer refines a stack
      of open packets, and a message built in an array, vectors nested to any depth, is
      read back from it; growing a buffer keeps its contents and touches no other object;
      octets printed as hexadecimal text and integers in QUIC encoding are read back, and
      so are octets in Base64, the two streams cut into any pieces;
      the digest functions, their unrolled and their short forms, compute the digests of
      the standards for a message given in any pieces;
      the header of an ASN.1 object is read back as it was written, and what is read is a
      valid class, tag and length whatever the octets; the contents of an INTEGER are the
      minimal octets of its value, exactly these are accepted, and they give sign and
      magnitude back; a 64-bit integer stored in an ASN1_INTEGER is read back;
      a format of any directives but those for floating-point numbers and addresses is
      printed as its text, cut to the array; days are numbered in the order of the
      calendar, and the difference of two times, added to the first, gives the second; a
      time written in ASN.1 is read back, and two strings of any octets are compared as
      the moments they denote;
      values nested to any depth are written as their DER encoding, and a number is read
      back from it; a character in UTF-8 is read back, and octets are read as a character
      exactly when they begin with one.
    - Lemmas at the end of the files, under "Where the code departs", prove the
      places where the code does not do what its comments, its callers or the protocol
      ask for.

    ** Bounds and fuel

    Loops whose number of iterations the data bounds are structural.  The others take
    fuel: 5 for the digits of a remaining length (an [int] has five digits in base
    128; the reader stops after four), 8 for the octets of a 64-bit integer, 10 for the
    connection attempts (the constant of the code), the length of the input for the
    scans, seven times the length of a format for its interpreter (at most seven states
    are passed for a character).  Theorems about them state that
    the result is returned, so that the fuel is enough; the endless loops of the
    threads are followed for any number of passes, and the loops that wait for the
    network for a number of passes that the theorem requires to exceed the number the
    input needs.

    ** Not modelled

    - The rest of OpenSSL: protocol state machines, ciphers, public keys and the
      other digests, the rest of ASN.1, providers.  Of the files above, the functions
      for BIGNUM (a_int.c, der_writer.c), for floating-point numbers and for output to
      a BIO (bio_print.c, a_time.c), and those that only pass on a text or a time of
      the C library (openssl_strerror_r, ossl_asn1_string_to_time_t).
      libssl appears as the class [SSL_api] and as objects that are created and freed.
    - nanoMODBUS, a git submodule, which is not under src/.
    - Data races: the subscriber and the publisher share the client object without a
      lock; each is verified as if it ran alone, and only the hand-over of the value
      is verified under interleaving.
    - The configuration with MQTT_TASK (a thread of the client library), StackTrace.h
      (empty macros), the texts written to stdout and stderr. *)

From Stdlib Require Export ZArith Lia ZifyBool ZifyNat.
From stdpp Require Export base tactics list numbers gmap.

#[export] Set Default Proof Using "Type".

(** Notations of the development. *)
Declare Scope c_scope.
Delimit Scope c_scope with c.

#[global] Open Scope Z_scope.

(** ** C integers

    The ABI is the one of the Makefile's target (gcc on x86-64 Linux):
    [char] is signed, [int] has 32 bits, [size_t] and [long] have 64.  A C value
    of integer type is a [Z] in its range; a conversion is the function of its
    target type. *)

Definition INT_MIN : Z := -2147483648.
Definition INT_MAX : Z := 2147483647.

Definition to_uchar (z : Z) : Z := z mod 256.
Definition to_char (z : Z) : Z := (z + 128) mod 256 - 128.
Definition to_ushort (z : Z) : Z := z mod 65536.
Definition to_uint (z : Z) : Z := z mod 4294967296.
Definition to_int (z : Z) : Z := (z + 2147483648) mod 4294967296 - 2147483648.
Definition to_size (z : Z) : Z := z mod 18446744073709551616.

(** The truth value of an [int]. *)
Definition truthy (z : Z) : bool := negb (z =? 0).

(** The [int] a comparison yields. *)
Definition of_bool (b : bool) : Z := if b then 1 else 0.

Definition is_int (z : Z) : bool := (INT_MIN <=? z) && (z <=? INT_MAX).

(** An octet: the value of an [unsigned char]. *)
Definition is_byte (z : Z) : Prop := 0 <= z < 256.

#[export] Instance is_byte_dec z : Decision (is_byte z).
Proof. unfold is_byte. apply _. Defined.

(** ** Bit-fields

    [get_bits pos w b] reads the bit-field of width [w] at position [pos] of the
    storage unit [b]; [set_bits pos w v b] assigns [v] to it (the value is
    reduced modulo [2^w], the other bits keep their value). *)

Definition get_bits (pos w b : Z) : Z :=
  Z.land (Z.shiftr b pos) (Z.ones w).

Definition set_bits (pos w v b : Z) : Z :=
  Z.lor (Z.ldiff b (Z.shiftl (Z.ones w) pos))
        (Z.shiftl (Z.land v (Z.ones w)) pos).

(** ** Outcomes and the state monad

    A C computation over a state [S] either returns a value and a new state,
    has undefined behaviour (an access outside an object, a signed overflow, a
    use of an indeterminate pointer), or runs out of the fuel its loops were
    given (it is still running). *)

Inductive outcome (A : Type) : Type :=
| Ret (a : A)
| UB
| NoFuel.
Arguments Ret {A} a.
Arguments UB {A}.
Arguments NoFuel {A}.

Definition M (S A : Type) : Type := S -> outcome (A * S).

#[export] Instance M_ret {S} : MRet (M S) := fun A a s => Ret (a, s).

#[export] Instance M_bind {S} : MBind (M S) := fun A B f m s =>
  match m s with
  | Ret (a, s') => f a s'
  | UB => UB
  | NoFuel => NoFuel
  end.

Definition ub {S A} : M S A := fun _ => UB.
Definition nofuel {S A} : M S A := fun _ => NoFuel.
Definition get {S} : M S S := fun s => Ret (s, s).
Definition put {S} (s : S) : M S unit := fun _ => Ret (tt, s).
Definition modify {S} (f : S -> S) : M S unit := fun s => Ret (tt, f s).

(** The result of a signed [int] operation: undefined when it does not fit. *)
Definition int_result {S} (z : Z) : M S Z :=
  if is_int z then mret z else ub.

(** Reading and assigning an element of an array: undefined out of range. *)
Definition array_get {S A} (l : list A) (i : Z) : M S A :=
  if (0 <=? i) && (i <? Z.of_nat (length l))
  then match l !! Z.to_nat i with Some x => mret x | None => ub end else ub.

Definition array_set {S A} (l : list A) (i : Z) (x : A) : M S (list A) :=
  if (0 <=? i) && (i <? Z.of_nat (length l)) then mret (<[Z.to_nat i := x]> l) else ub.

(** [defined o]: the computation returned. *)
Definition defined {A} (o : outcome A) : Prop := exists a, o = Ret a.

(** ** Generic lemmas *)

(** [splice o bs l] overwrites [l] from index [o] with [bs]. *)
Definition splice {A} (o : nat) (bs l : list A) : list A :=
  take o l ++ bs ++ drop (o + length bs) l.

(** *** Bit-fields *)

Lemma ones_range w : 0 <= w -> 0 <= Z.ones w.
Proof. intros. rewrite Z.ones_equiv. pose proof (Z.pow_pos_nonneg 2 w). lia. Qed.

(** Equality of two words bit by bit. *)
Ltac bitwise :=
  apply Z.bits_inj'; intros ?i ?Hi;
  repeat first
    [ rewrite Z.land_spec | rewrite Z.lor_spec | rewrite Z.ldiff_spec
    | rewrite Z.shiftr_spec by lia | rewrite Z.shiftl_spec by lia
    | rewrite Z.testbit_ones_nonneg by lia ].

(** Evaluate the powers of two in the goal. *)
Ltac pow2 :=
  repeat match goal with
  | |- context [2 ^ Zpos ?n] => let v := eval compute in (2 ^ Zpos n) in change (2 ^ Zpos n) with v
  | |- context [2 ^ 0] => change (2 ^ 0) with 1
  end.

Lemma get_bits_mod pos w b :
  0 <= pos -> 0 <= w -> get_bits pos w b = (b / 2 ^ pos) mod 2 ^ w.
Proof.
  intros. unfold get_bits. rewrite Z.land_ones, Z.shiftr_div_pow2 by lia. done.
Qed.

Lemma get_bits_range pos w b :
  0 <= pos -> 0 <= w -> 0 <= get_bits pos w b < 2 ^ w.
Proof.
  intros. rewrite get_bits_mod by lia. apply Z.mod_pos_bound.
  apply Z.pow_pos_nonneg; lia.
Qed.

Lemma get_set_bits_eq pos w v b :
  0 <= pos -> 0 <= w -> get_bits pos w (set_bits pos w v b) = v mod 2 ^ w.
Proof.
  intros. rewrite <- Z.land_ones by lia. unfold get_bits, set_bits. bitwise.
  replace (i + pos - pos) with i by lia.
  destruct (Z.ltb_spec i w) as [?|?]; simpl; by rewrite ?andb_false_r, ?andb_true_r.
Qed.

Lemma get_set_bits_ne pos w pos' w' v b :
  0 <= pos -> 0 <= w -> 0 <= pos' -> 0 <= w' ->
  pos + w <= pos' \/ pos' + w' <= pos ->
  get_bits pos w (set_bits pos' w' v b) = get_bits pos w b.
Proof.
  intros. unfold get_bits, set_bits. bitwise.
  rewrite (Z.testbit_ones_nonneg w i) by lia.
  destruct (Z.ltb_spec i w) as [?|?]; [|by rewrite !andb_false_r].
  rewrite !andb_true_r.
  destruct (Z.leb_spec pos' (i + pos)) as [?|?].
  - rewrite Z.testbit_ones_nonneg by lia.
    destruct (Z.ltb_spec (i + pos - pos') w') as [?|?]; [lia|].
    by rewrite !andb_false_r, andb_true_r, orb_false_r.
  - rewrite !(Z.testbit_neg_r _ (i + pos - pos')) by lia.
    by rewrite !andb_false_l, andb_true_r, orb_false_r.
Qed.

Lemma testbit_byte_high b i : is_byte b -> 8 <= i -> Z.testbit b i = false.
Proof.
  unfold is_byte. intros. destruct (decide (b = 0)) as [->|]; [apply Z.testbit_0_l|].
  apply Z.bits_above_log2; [lia|].
  apply Z.log2_lt_pow2; [lia|]. apply Z.lt_le_trans with (2 ^ 8); [lia|].
  apply Z.pow_le_mono_r; lia.
Qed.

Lemma byte_of_bits b :
  (forall i, 8 <= i -> Z.testbit b i = false) -> 0 <= b -> is_byte b.
Proof.
  intros Hb ?. destruct (decide (b = 0)) as [->|]; [done|].
  split; [done|]. change 256 with (2 ^ 8). apply Z.log2_lt_pow2; [lia|].
  destruct (Z.lt_ge_cases (Z.log2 b) 8) as [?|Hge]; [done|].
  specialize (Hb _ Hge). rewrite Z.bit_log2 in Hb by lia. done.
Qed.

Lemma set_bits_byte pos w v b :
  0 <= pos -> 0 <= w -> pos + w <= 8 -> is_byte b -> is_byte (set_bits pos w v b).
Proof.
  intros ??? Hb. apply byte_of_bits.
  - intros i Hi. unfold set_bits.
    rewrite Z.lor_spec, Z.ldiff_spec, (testbit_byte_high b) by done.
    rewrite !Z.shiftl_spec, Z.land_spec, Z.testbit_ones_nonneg by lia.
    destruct (Z.ltb_spec (i - pos) w); [lia|]. by rewrite andb_false_r.
  - unfold set_bits. apply Z.lor_nonneg; split.
    + apply Z.ldiff_nonneg. left. unfold is_byte in Hb. lia.
    + apply Z.shiftl_nonneg, Z.land_nonneg. right. by apply ones_range.
Qed.

(** Assigning a bit-field that holds 0 is an addition. *)
Lemma set_bits_add pos w v b :
  0 <= pos -> 0 <= w -> get_bits pos w b = 0 ->
  set_bits pos w v b = b + v mod 2 ^ w * 2 ^ pos.
Proof.
  intros Hp Hw Hg. unfold set_bits, get_bits in *.
  set (mask := Z.shiftl (Z.ones w) pos).
  assert (Z.land b mask = 0) as Hm.
  { replace (Z.land b mask) with (Z.shiftl (Z.land (Z.shiftr b pos) (Z.ones w)) pos).
    - by rewrite Hg, Z.shiftl_0_l.
    - unfold mask. bitwise. destruct (Z.leb_spec pos i).
      + rewrite Z.shiftr_spec by lia. by rewrite Z.sub_add.
      + rewrite !(Z.testbit_neg_r _ (i - pos)) by lia. by rewrite !andb_false_r. }
  replace (Z.ldiff b mask) with b by (rewrite <- (Z.lor_ldiff_and b mask) at 1; by rewrite Hm, Z.lor_0_r).
  rewrite <- Z.add_nocarry_lor.
  - by rewrite Z.shiftl_mul_pow2, Z.land_ones by lia.
  - apply Z.bits_inj'. intros i Hi. apply (f_equal (fun z => Z.testbit z i)) in Hm.
    unfold mask in Hm. rewrite Z.land_spec, Z.shiftl_spec, ?Z.bits_0, ?Z.land_spec in * by lia.
    destruct (Z.testbit b i); [|done]. simpl in *. by rewrite Hm, andb_false_r.
Qed.

(** *** Conversions *)

(** Linear arithmetic with the conversions and [/], [mod] by constants. *)
Ltac conv_lia :=
  unfold is_byte, to_uchar, to_char, to_ushort, to_uint, to_int, to_size,
    INT_MIN, INT_MAX in *;
  Z.div_mod_to_equations; lia.

Lemma to_uchar_byte z : is_byte (to_uchar z).
Proof. conv_lia. Qed.

(** Bits that do not overlap. *)
Lemma lor_low a x k : 0 <= k -> 0 <= x < 2 ^ k -> Z.lor (a * 2 ^ k) x = a * 2 ^ k + x.
Proof.
  intros Hk Hx. rewrite <- Z.add_lor_land. replace (Z.land (a * 2 ^ k) x) with 0; [lia|].
  rewrite <- (Z.mod_small x (2 ^ k)) by lia. rewrite <- Z.land_ones by lia.
  rewrite (Z.land_comm x), Z.land_assoc, Z.land_ones, Z.mod_mul by lia. done.
Qed.

Lemma lor_128 d : 0 <= d < 128 -> Z.lor d 128 = d + 128.
Proof.
  intros. rewrite Z.add_nocarry_lxor, <- Z.lxor_lor; [done| |];
  apply Z.bits_inj'; intros i Hi; rewrite Z.land_spec, Z.bits_0;
  change 128 with (2 ^ 7); rewrite Z.pow2_bits_eqb by lia;
  (destruct (Z.eqb_spec 7 i) as [<-|]; [|apply andb_false_r]);
  rewrite andb_true_r; apply Z.testbit_false; [lia| |lia|];
  change (2 ^ 7) with 128; Z.div_mod_to_equations; lia.
Qed.

Lemma land_127 c : Z.land c 127 = c mod 128.
Proof. apply (Z.land_ones c 7). lia. Qed.

Lemma land_128 c : is_byte c -> Z.land c 128 = if 128 <=? c then 128 else 0.
Proof.
  unfold is_byte. intros. apply Z.bits_inj'. intros i Hi. rewrite Z.land_spec.
  change 128 with (2 ^ 7). rewrite Z.pow2_bits_eqb by lia.
  destruct (Z.eqb_spec 7 i) as [<-|].
  - rewrite andb_true_r. destruct (Z.leb_spec (2 ^ 7) c).
    + rewrite Z.testbit_true by lia. Z.div_mod_to_equations. lia.
    + rewrite Z.bits_0, Z.testbit_false by lia. Z.div_mod_to_equations. lia.
  - rewrite andb_false_r. case_match; [by rewrite Z.pow2_bits_false by lia|by rewrite Z.bits_0].
Qed.

Lemma land_255 z : Z.land z 255 = z mod 256.
Proof. change 255 with (Z.ones 8). rewrite Z.land_ones by lia. done. Qed.

Lemma to_uchar_id z : is_byte z -> to_uchar z = z.
Proof. intros. conv_lia. Qed.

Lemma to_uchar_char z : to_uchar (to_char z) = to_uchar z.
Proof. conv_lia. Qed.

Lemma to_uchar_idemp z : to_uchar (to_uchar z) = to_uchar z.
Proof. conv_lia. Qed.

Lemma is_int_spec z : is_int z = true <-> INT_MIN <= z <= INT_MAX.
Proof. unfold is_int. lia. Qed.

Lemma truthy_spec z : truthy z = true <-> z ≠ 0.
Proof. unfold truthy. lia. Qed.

Create HintDb cint discriminated.
Create Rewrite HintDb cint.
#[export] Hint Constants Opaque : cint.
#[export] Hint Resolve to_uchar_byte set_bits_byte : cint.
#[export] Hint Rewrite to_uchar_char to_uchar_idemp : cint.

(** *** Lists *)

Section splice.
Context {A : Type}.
Implicit Types l bs : list A.

Lemma splice_length o bs l :
  (o + length bs <= length l)%nat -> length (splice o bs l) = length l.
Proof. intros. unfold splice. rewrite !length_app, length_take, length_drop. lia. Qed.

Lemma splice_nil o l : splice o [] l = l.
Proof. unfold splice. simpl. by rewrite Nat.add_0_r, take_drop. Qed.

(** Consecutive writes are one write. *)
Lemma splice_app o bs1 bs2 l :
  (o + length bs1 + length bs2 <= length l)%nat ->
  splice (o + length bs1) bs2 (splice o bs1 l) = splice o (bs1 ++ bs2) l.
Proof.
  intros. unfold splice. rewrite length_app.
  assert (Ht : length (take o l) = o) by (rewrite length_take; lia).
  rewrite take_app_ge by lia. rewrite Ht.
  replace (o + length bs1 - o)%nat with (length bs1) by lia.
  rewrite take_app_length.
  rewrite drop_app_ge by lia. rewrite Ht.
  rewrite drop_app_ge by lia.
  rewrite drop_drop, <- !app_assoc. do 4 f_equal. lia.
Qed.

Lemma splice_insert o x l :
  (o < length l)%nat -> <[o := x]> l = splice o [x] l.
Proof.
  intros. unfold splice. rewrite insert_take_drop by done. simpl.
  by rewrite Nat.add_1_r.
Qed.

(** What was written is what is read back. *)
Lemma take_drop_splice o bs l :
  (o + length bs <= length l)%nat ->
  take (length bs) (drop o (splice o bs l)) = bs.
Proof.
  intros. unfold splice.
  assert (Ht : length (take o l) = o) by (rewrite length_take; lia).
  rewrite drop_app_ge, Ht, Nat.sub_diag, drop_0 by lia. apply take_app_length.
Qed.

Lemma lookup_splice_inside o bs l i :
  (o + length bs <= length l)%nat -> (o <= i < o + length bs)%nat ->
  splice o bs l !! i = bs !! (i - o)%nat.
Proof.
  intros. unfold splice.
  assert (Ht : length (take o l) = o) by (rewrite length_take; lia).
  rewrite lookup_app_r by lia. rewrite Ht. by rewrite lookup_app_l by lia.
Qed.

Lemma lookup_splice_outside o bs l i :
  (o + length bs <= length l)%nat -> (i < o \/ o + length bs <= i)%nat ->
  splice o bs l !! i = l !! i.
Proof.
  intros Hl Hi. unfold splice.
  assert (Ht : length (take o l) = o) by (rewrite length_take; lia).
  destruct Hi.
  - rewrite lookup_app_l by lia. by rewrite lookup_take_lt.
  - rewrite !lookup_app_r by lia. rewrite Ht, lookup_drop. f_equal. lia.
Qed.

Lemma Forall_splice (P : A -> Prop) o bs l :
  Forall P bs -> Forall P l -> Forall P (splice o bs l).
Proof.
  intros. unfold splice. rewrite !Forall_app. eauto using Forall_take, Forall_drop.
Qed.
End splice.

Create HintDb splice discriminated.
Create Rewrite HintDb splice.
#[export] Hint Rewrite @splice_nil : splice.
#[export] Hint Resolve Forall_splice : splice.

(** *** The monad *)

(** Run the head of a sequence with a lemma that gives its outcome. *)
Lemma bind_ret {S A B} (m : M S A) (f : A -> M S B) s a s' :
  m s = Ret (a, s') -> mbind f m s = f a s'.
Proof. intros H. unfold mbind, M_bind. by rewrite H. Qed.

Lemma bind_ub {S A B} (m : M S A) (f : A -> M S B) s :
  m s = UB -> mbind f m s = UB.
Proof. intros H. unfold mbind, M_bind. by rewrite H. Qed.

Lemma bind_inv {S A B} (m : M S A) (f : A -> M S B) s r :
  mbind f m s = Ret r -> exists a s', m s = Ret (a, s') /\ f a s' = Ret r.
Proof.
  unfold mbind, M_bind. destruct (m s) as [[a s']| |]; [|done|done]. eauto.
Qed.

Lemma bind_assoc {S A B C} (m : M S A) (f : A -> M S B) (g : B -> M S C) s :
  mbind g (mbind f m) s = mbind (fun a => mbind g (f a)) m s.
Proof. unfold mbind, M_bind. by destruct (m s) as [[a s']| |]. Qed.

Lemma bind_ext {S A B} (f g : A -> M S B) (m : M S A) s :
  (forall a s, f a s = g a s) -> mbind f m s = mbind g m s.
Proof. intros H. unfold mbind, M_bind. destruct (m s) as [[a s']| |]; [apply H|done|done]. Qed.

Lemma mbind_mret {S A B} (a : A) (f : A -> M S B) : mbind (M := M S) f (mret a) = f a.
Proof. done. Qed.

Lemma mret_run {S A} (a : A) (s : S) : mret (M := M S) a s = Ret (a, s).
Proof. done. Qed.

Lemma int_result_ok {S} z (s : S) :
  INT_MIN <= z <= INT_MAX -> int_result z s = Ret (z, s).
Proof. intros. unfold int_result. by rewrite (proj2 (is_int_spec z)). Qed.

Lemma int_result_inv {S} z (s : S) r :
  int_result z s = Ret r -> r = (z, s) /\ INT_MIN <= z <= INT_MAX.
Proof.
  unfold int_result. destruct (is_int z) eqn:E; [|done].
  intros [= <-]. by apply is_int_spec in E.
Qed.

(** [mstep lem]: the head of the sequence in the goal returns, by [lem]. *)
Ltac mstep lem :=
  first
    [ erewrite bind_ret by (eapply lem; eauto; try lia)
    | erewrite bind_ret; [|eapply lem; eauto; try lia] ]; cbv beta.

Lemma array_get_at {S A} (l : list A) i x (s : S) :
  l !! i = Some x -> array_get l (Z.of_nat i) s = Ret (x, s).
Proof.
  intros H. pose proof (lookup_lt_Some _ _ _ H). unfold array_get.
  replace (_ && _) with true by lia. by rewrite Nat2Z.id, H.
Qed.

Lemma array_set_at {S A} (l : list A) i x (s : S) :
  (i < length l)%nat -> array_set l (Z.of_nat i) x s = Ret (<[i := x]> l, s).
Proof. intros H. unfold array_set. replace (_ && _) with true by lia. by rewrite Nat2Z.id. Qed.

Lemma insert_at_end {A} (l1 l2 : list A) n x y :
  n = length l1 -> <[n := y]> (l1 ++ x :: l2) = (l1 ++ [y]) ++ l2.
Proof. intros ->. by rewrite insert_app_r_alt, Nat.sub_diag, <- app_assoc by lia. Qed.

Lemma array_set_out {S A} (l : list A) i x (s : S) :
  Z.of_nat (length l) <= i -> array_set l i x s = UB.
Proof. intros H. unfold array_set. by replace (_ && _) with false by lia. Qed.

Lemma array_get_inv {S A} (l : list A) i (s s' : S) x : array_get l i s = Ret (x, s') -> s' = s.
Proof. unfold array_get. destruct (_ && _); [|done]. destruct (_ !! _); by inversion 1. Qed.

Lemma array_set_inv {S A} (l l' : list A) i (s s' : S) x : array_set l i x s = Ret (l', s') -> s' = s.
Proof. unfold array_set. destruct (_ && _); by inversion 1. Qed.

(** *** Total triples

    From every state with [P] the computation returns, and [Q] holds of its value
    and the state it leaves. *)
Definition triple {S A} (P : S -> Prop) (m : M S A) (Q : A -> S -> Prop) : Prop :=
  forall s, P s -> exists a s', m s = Ret (a, s') /\ Q a s'.

Lemma triple_ret {S A} (a : A) (P : S -> Prop) (Q : A -> S -> Prop) :
  (forall s, P s -> Q a s) -> triple P (mret a) Q.
Proof. intros H s Hs. exists a, s. split; [done|by apply H]. Qed.

Lemma triple_bind {S A B} (P : S -> Prop) (m : M S A) (R : A -> S -> Prop) (f : A -> M S B) Q :
  triple P m R -> (forall a, triple (R a) (f a) Q) -> triple P (mbind f m) Q.
Proof.
  intros Hm Hf s Hs. destruct (Hm s Hs) as (a & s' & E & HR).
  destruct (Hf a s' HR) as (b & s'' & E' & HQ). exists b, s''. split; [|done].
  by rewrite (bind_ret _ _ _ _ _ E).
Qed.

Lemma triple_conseq {S A} (P P' : S -> Prop) (m : M S A) (Q Q' : A -> S -> Prop) :
  triple P' m Q' -> (forall s, P s -> P' s) -> (forall a s, Q' a s -> Q a s) -> triple P m Q.
Proof. intros H HP HQ s Hs. destruct (H s (HP s Hs)) as (a & s' & ? & ?). eauto. Qed.

Lemma triple_pure {S A} (P : S -> Prop) (m : M S A) Q (X : Prop) :
  (X -> triple P m Q) -> triple (fun s => X /\ P s) m Q.
Proof. intros H s [HX Hs]. by apply H. Qed.

Lemma triple_get {S} (P : S -> Prop) : triple P get (fun a s => a = s /\ P s).
Proof. intros s Hs. by exists s, s. Qed.

Lemma triple_modify {S} (f : S -> S) (P : S -> Prop) (Q : unit -> S -> Prop) :
  (forall s, P s -> Q tt (f s)) -> triple P (modify f) Q.
Proof. intros H s Hs. exists tt, (f s). split; [done|by apply H]. Qed.

Lemma triple_or {S A} (P1 P2 : S -> Prop) (m : M S A) Q :
  triple P1 m Q -> triple P2 m Q -> triple (fun s => P1 s \/ P2 s) m Q.
Proof. intros H1 H2 s [Hs|Hs]; [by apply H1|by apply H2]. Qed.

(** Computations that cannot run out of fuel. *)
Create HintDb total.

Lemma bind_not_nofuel {S A B} (m : M S A) (f : A -> M S B) s :
  m s ≠ NoFuel -> (forall a s', m s = Ret (a, s') -> f a s' ≠ NoFuel) -> mbind f m s ≠ NoFuel.
Proof. unfold mbind, M_bind. destruct (m s) as [[a s']| |]; auto. Qed.

Lemma int_result_not_nofuel {S} z (s : S) : int_result z s ≠ NoFuel.
Proof. unfold int_result. by destruct (is_int z). Qed.

Lemma array_get_not_nofuel {S A} (l : list A) i (s : S) : array_get l i s ≠ NoFuel.
Proof. unfold array_get. destruct (_ && _); [|done]. by destruct (l !! _). Qed.

Lemma array_set_not_nofuel {S A} (l : list A) i x (s : S) : array_set l i x s ≠ NoFuel.
Proof. unfold array_set. by destruct (_ && _). Qed.

#[export] Hint Resolve int_result_not_nofuel array_get_not_nofuel array_set_not_nofuel : total.

(** Decide the boolean comparison a branch of the code tests. *)
Ltac decide_branch :=
  match goal with
  | |- context [if ?b then _ else _] =>
      first [ replace b with true by (symmetry; lia)
            | replace b with false by (symmetry; lia) ]; cbv iota
  end.

(** Invert a run that returned. *)
Ltac minv H :=
  match type of H with
  | mbind _ _ _ = Ret _ =>
      let a := fresh "a" in let s := fresh "s" in let E := fresh "E" in
      apply bind_inv in H as (a & s & E & H)
  | mret _ _ = Ret _ => injection H as <- <- || injection H; intros; subst
  | ub _ = Ret _ => discriminate H
  end.
