(* ===== verification/Memory.v ===== *)
(** * C objects and pointers

    The memory the packet library works on: byte arrays (buffers, C strings,
    payloads), pointers into them, and the functions of <string.h> the code
    calls.  An access outside an object is undefined behaviour; forming a
    pointer is not checked, only using it is. *)

From S2P Require Import Prelude.

(** A pointer: null, never assigned, or an offset into an object. *)
Inductive ptr : Type :=
| NULL
| Indet
| Ptr (b : positive) (o : Z).

#[export] Instance ptr_eq_dec : EqDecision ptr.
Proof. solve_decision. Defined.

(** Objects by their block number, each the list of its octets. *)
Abbreviation mem := (gmap positive (list Z)).

Definition is_null (p : ptr) : bool :=
  match p with NULL => true | _ => false end.

(** [p + n]. *)
Definition padd (p : ptr) (n : Z) : ptr :=
  match p with Ptr b o => Ptr b (o + n) | q => q end.

(** [p - q], defined for pointers into one object. *)
Definition psub {S} (p q : ptr) : M S Z :=
  match p, q with
  | Ptr b o, Ptr b' o' => if bool_decide (b = b') then mret (o - o') else ub
  | _, _ => ub
  end.

#[global] Arguments psub : simpl never.

(** [p < q] for pointers into one object. *)
Definition plt {S} (p q : ptr) : M S bool :=
  d ← psub p q; mret (d <? 0).

(** The octets from [p] to the end of its object. *)
Definition tail_at (m : mem) (p : ptr) : option (list Z) :=
  match p with
  | Ptr b o =>
      match m !! b with
      | Some l => if (0 <=? o) && (o <=? Z.of_nat (length l))
                  then Some (drop (Z.to_nat o) l) else None
      | None => None
      end
  | _ => None
  end.

(** [*p] *)
Definition load (p : ptr) : M mem Z := fun m =>
  match tail_at m p with
  | Some (v :: _) => Ret (v, m)
  | _ => UB
  end.

(** The memory after [bs] is written from [p] on. *)
Definition mwrite (m : mem) (p : ptr) (bs : list Z) : mem :=
  match p with
  | Ptr b o => alter (splice (Z.to_nat o) bs) b m
  | _ => m
  end.

(** [n] octets from [p]. *)
Definition load_bytes (p : ptr) (n : Z) : M mem (list Z) := fun m =>
  if n =? 0 then Ret ([], m)
  else match tail_at m p with
       | Some t => if (0 <=? n) && (n <=? Z.of_nat (length t))
                   then Ret (take (Z.to_nat n) t, m) else UB
       | None => UB
       end.

Definition store_bytes (p : ptr) (bs : list Z) : M mem unit := fun m =>
  match bs with
  | [] => Ret (tt, m)
  | _ => match tail_at m p with
         | Some t => if Z.of_nat (length bs) <=? Z.of_nat (length t)
                     then Ret (tt, mwrite m p bs) else UB
         | None => UB
         end
  end.

(** [*p = v] for [unsigned char* p]. *)
Definition store (p : ptr) (v : Z) : M mem unit := store_bytes p [to_uchar v].

(** The two regions of [n] octets share one. *)
Definition overlap (p q : ptr) (n : Z) : bool :=
  match p, q with
  | Ptr b o, Ptr b' o' => bool_decide (b = b') && (Z.abs (o - o') <? n)
  | _, _ => false
  end.

(** [memcpy(dst, src, n)]; [n] is converted to [size_t]. *)
Definition memcpy (dst src : ptr) (n : Z) : M mem unit :=
  let n := to_size n in
  if overlap dst src n then ub
  else bs ← load_bytes src n; store_bytes dst bs.

(** [memset(p, c, n)] *)
Definition memset (p : ptr) (c n : Z) : M mem unit :=
  store_bytes p (replicate (Z.to_nat (to_size n)) (to_uchar c)).

Fixpoint find_nul (l : list Z) : option nat :=
  match l with
  | [] => None
  | v :: l' => if v =? 0 then Some 0%nat else S <$> find_nul l'
  end.

(** [strlen(s)] *)
Definition strlen (s : ptr) : M mem Z := fun m =>
  match tail_at m s with
  | Some t => match find_nul t with
              | Some n => Ret (Z.of_nat n, m)
              | None => UB
              end
  | None => UB
  end.

(** The first difference of two lists of octets, as [memcmp] orders them. *)
Fixpoint cmp_bytes (l1 l2 : list Z) : Z :=
  match l1, l2 with
  | a :: l1', b :: l2' => if a =? b then cmp_bytes l1' l2' else a - b
  | _, _ => 0
  end.

(** [memcmp(p, q, n)] *)
Definition memcmp (p q : ptr) (n : Z) : M mem Z :=
  a ← load_bytes p (to_size n);
  b ← load_bytes q (to_size n);
  mret (cmp_bytes a b).

(** [memcmp] against a string literal of at least [n] characters. *)
Definition memcmp_lit (p : ptr) (lit : list Z) (n : Z) : M mem Z :=
  a ← load_bytes p (to_size n);
  mret (cmp_bytes a (take (Z.to_nat n) lit)).

(** [strncmp] on the octets from the two pointers on: it stops at a
    difference, at a NUL or after [n] octets. *)
Fixpoint strncmp_from (n : nat) (l1 l2 : list Z) : option Z :=
  match n with
  | O => Some 0
  | S n' =>
      match l1, l2 with
      | a :: l1', b :: l2' =>
          if a =? b then (if a =? 0 then Some 0 else strncmp_from n' l1' l2')
          else Some (a - b)
      | _, _ => None
      end
  end.

Definition strncmp (p q : ptr) (n : Z) : M mem Z := fun m =>
  if to_size n =? 0 then Ret (0, m) else
  match tail_at m p, tail_at m q with
  | Some t, Some u =>
      (* no run compares more octets than the first object has *)
      match strncmp_from (Z.to_nat (Z.min (to_size n) (Z.of_nat (length t) + 1))) t u with
      | Some r => Ret (r, m)
      | None => UB
      end
  | _, _ => UB
  end.

(** [strcmp] *)
Definition strcmp (p q : ptr) : M mem Z := fun m =>
  match tail_at m p, tail_at m q with
  | Some t, Some u =>
      match strncmp_from (S (length t)) t u with
      | Some r => Ret (r, m)
      | None => UB
      end
  | _, _ => UB
  end.

(** ** Assertions on memory *)

(** [bs] lies at [p]. *)
Definition bytes_at (m : mem) (p : ptr) (bs : list Z) : Prop :=
  exists t, tail_at m p = Some (bs ++ t).

(** [bs] can be read from [p]; an empty source needs no object. *)
Definition source_at (m : mem) (p : ptr) (bs : list Z) : Prop :=
  bs = [] \/ bytes_at m p bs.

(** [n] octets can be written from [p] on. *)
Definition room (m : mem) (p : ptr) (n : Z) : Prop :=
  exists t, tail_at m p = Some t /\ n <= Z.of_nat (length t).

(** A C string with the characters [s]. *)
Definition cstr_at (m : mem) (p : ptr) (s : list Z) : Prop :=
  bytes_at m p (s ++ [0]) /\ 0 ∉ s.

Definition in_block (p : ptr) (b : positive) : Prop :=
  match p with Ptr b' _ => b' = b | _ => False end.

(** Every octet of every object is an octet. *)
Definition wf_mem (m : mem) : Prop :=
  map_Forall (fun _ l => Forall is_byte l) m.

(** ** Lemmas *)

Lemma padd_0 p : padd p 0 = p.
Proof. destruct p; simpl; f_equal; lia. Qed.

Lemma padd_padd p i j : padd (padd p i) j = padd p (i + j).
Proof. destruct p; simpl; f_equal; lia. Qed.

Lemma psub_same {S} b o o' (s : S) : psub (Ptr b o) (Ptr b o') s = Ret (o - o', s).
Proof. unfold psub. by rewrite bool_decide_eq_true_2. Qed.

Lemma load_not_nofuel p m : load p m ≠ NoFuel.
Proof. unfold load. by destruct (tail_at m p) as [[|? ?]|]. Qed.

Lemma psub_not_nofuel {S} p q (s : S) : psub p q s ≠ NoFuel.
Proof. unfold psub. destruct p, q; try done. by destruct (bool_decide _). Qed.

Lemma plt_not_nofuel {S} p q (s : S) : plt p q s ≠ NoFuel.
Proof. apply bind_not_nofuel; [apply psub_not_nofuel|done]. Qed.

Lemma plt_same {S} b o o' (s : S) : plt (Ptr b o) (Ptr b o') s = Ret (o - o' <? 0, s).
Proof. unfold plt. by erewrite bind_ret by apply psub_same. Qed.

#[export] Hint Resolve load_not_nofuel psub_not_nofuel plt_not_nofuel : total.

Lemma tail_at_Some m b o t :
  tail_at m (Ptr b o) = Some t <->
  exists l, m !! b = Some l /\ 0 <= o <= Z.of_nat (length l) /\ t = drop (Z.to_nat o) l.
Proof.
  unfold tail_at. destruct (m !! b) as [l|] eqn:E.
  - destruct (0 <=? o) eqn:?, (o <=? Z.of_nat (length l)) eqn:?; simpl;
      (split; [intros H | intros (l' & [= <-] & ? & ->)]); try lia; try done;
      simplify_eq; eauto with lia.
  - split; [done|]. by intros (l & ? & _).
Qed.

Lemma tail_at_app m p bs t :
  tail_at m p = Some (bs ++ t) -> tail_at m (padd p (Z.of_nat (length bs))) = Some t.
Proof.
  destruct p as [| |b o]; [done|done|]. intros (l & Hl & Ho & Ht)%tail_at_Some.
  apply tail_at_Some. exists l. split; [done|].
  assert (length (bs ++ t) = (length l - Z.to_nat o)%nat) as Hlen.
  { rewrite Ht. apply length_drop. }
  rewrite length_app in Hlen. split; [lia|].
  replace (Z.to_nat (o + Z.of_nat (length bs))) with (Z.to_nat o + length bs)%nat by lia.
  rewrite <- drop_drop, <- Ht. by rewrite drop_app_length.
Qed.

Lemma bytes_at_app m p a b :
  bytes_at m p (a ++ b) <-> bytes_at m p a /\ bytes_at m (padd p (Z.of_nat (length a))) b.
Proof.
  split.
  - intros [t Ht]. rewrite <- app_assoc in Ht. split; [by exists (b ++ t)|].
    exists t. by apply tail_at_app.
  - intros [[t Ht] [u Hu]]. pose proof (tail_at_app _ _ _ _ Ht) as Ht'.
    rewrite Hu in Ht'. injection Ht' as <-. exists u. by rewrite <- app_assoc.
Qed.

Lemma bytes_at_app_l m p a b : bytes_at m p (a ++ b) -> bytes_at m p a.
Proof. by intros [? _]%bytes_at_app. Qed.

Lemma bytes_at_cons m p x bs :
  bytes_at m p (x :: bs) <-> bytes_at m p [x] /\ bytes_at m (padd p 1) bs.
Proof. apply (bytes_at_app m p [x] bs). Qed.

Lemma bytes_at_eq m b o o' bs :
  bytes_at m (Ptr b o) bs -> o = o' -> bytes_at m (Ptr b o') bs.
Proof. by intros ? <-. Qed.

Lemma load_at m p v bs : bytes_at m p (v :: bs) -> load p m = Ret (v, m).
Proof. intros [t Ht]. unfold load. by rewrite Ht. Qed.

Lemma load_inv m p v m' : load p m = Ret (v, m') -> m' = m /\ bytes_at m p [v].
Proof.
  unfold load. destruct (tail_at m p) as [[|x t]|] eqn:E; [done| |done].
  intros [= <- <-]. split; [done|]. by exists t.
Qed.

Lemma load_bytes_at m p bs :
  source_at m p bs -> load_bytes p (Z.of_nat (length bs)) m = Ret (bs, m).
Proof.
  intros [->|[t Ht]]; [done|]. unfold load_bytes.
  destruct (Z.eqb_spec (Z.of_nat (length bs)) 0) as [E|E].
  { destruct bs; [done|simpl in E; lia]. }
  rewrite Ht, length_app.
  decide_branch. rewrite Nat2Z.id. by rewrite take_app_length.
Qed.

(** *** Writing *)

Lemma room_le m p n k : room m p n -> k <= n -> room m p k.
Proof. intros (t & ? & ?) ?. exists t. split; [done|lia]. Qed.

Lemma room_padd m p n k : room m p n -> 0 <= k <= n -> room m (padd p k) (n - k).
Proof.
  intros (t & Ht & ?) ?.
  assert (tail_at m p = Some (take (Z.to_nat k) t ++ drop (Z.to_nat k) t)) as Ht'
    by by rewrite take_drop.
  apply tail_at_app in Ht'. rewrite length_take in Ht'.
  replace (Z.of_nat (Z.to_nat k `min` length t)) with k in Ht' by lia.
  exists (drop (Z.to_nat k) t). split; [done|]. rewrite length_drop. lia.
Qed.

Lemma bytes_at_room m p bs : bytes_at m p bs -> room m p (Z.of_nat (length bs)).
Proof. intros [t Ht]. exists (bs ++ t). split; [done|]. rewrite length_app. lia. Qed.

Lemma store_bytes_room m p bs :
  room m p (Z.of_nat (length bs)) -> store_bytes p bs m = Ret (tt, mwrite m p bs).
Proof.
  intros (t & Ht & Hlen). unfold store_bytes. destruct bs as [|x bs].
  - destruct p as [| |b o]; [done|done|]. simpl. do 2 f_equal.
    symmetry. apply alter_id. intros l _. apply splice_nil.
  - rewrite Ht. by decide_branch.
Qed.

Lemma store_room m p v : room m p 1 -> store p v m = Ret (tt, mwrite m p [to_uchar v]).
Proof. intros. by apply store_bytes_room. Qed.

Lemma room_block m b o n :
  0 <= n -> room m (Ptr b o) n <->
  exists l, m !! b = Some l /\ 0 <= o /\ o + n <= Z.of_nat (length l).
Proof.
  intros Hn. split.
  - intros (t & (l & Hl & Ho & ->)%tail_at_Some & Hlen). rewrite length_drop in Hlen.
    exists l. split; [done|]. lia.
  - intros (l & Hl & Ho & Hlen). exists (drop (Z.to_nat o) l). split.
    + apply tail_at_Some. exists l. split; [done|]. split; [lia|done].
    + rewrite length_drop. lia.
Qed.

Lemma room_mwrite m p bs q n :
  room m p (Z.of_nat (length bs)) -> 0 <= n ->
  room (mwrite m p bs) q n <-> room m q n.
Proof.
  intros Hp Hn. destruct p as [| |b o]; [done|done|].
  apply room_block in Hp as (l & Hl & Ho & Hlen); [|lia].
  destruct q as [| |b' o']; [done|done|]. rewrite !room_block by lia. simpl.
  destruct (decide (b = b')) as [<-|Hne].
  - rewrite lookup_alter_eq, Hl. simpl.
    split; intros (k & [= <-] & ? & ?); eexists; (split; [done|]);
      rewrite splice_length in * by lia; lia.
  - by rewrite lookup_alter_ne.
Qed.

Lemma mwrite_app m p bs1 bs2 :
  room m p (Z.of_nat (length bs1 + length bs2)) ->
  mwrite (mwrite m p bs1) (padd p (Z.of_nat (length bs1))) bs2 = mwrite m p (bs1 ++ bs2).
Proof.
  intros Hr. destruct p as [| |b o]; [done|done|].
  apply room_block in Hr as (l & Hl & Ho & Hlen); [|lia]. simpl.
  rewrite alter_alter_eq. apply alter_ext. intros l' Hl'. simpl.
  replace (Z.to_nat (o + Z.of_nat (length bs1))) with (Z.to_nat o + length bs1)%nat by lia.
  apply splice_app. rewrite Hl in Hl'. injection Hl' as <-. lia.
Qed.

(** Storing [bs2] right behind [bs1]. *)
Lemma store_bytes_after m p bs1 bs2 :
  room m p (Z.of_nat (length bs1 + length bs2)) ->
  store_bytes (padd p (Z.of_nat (length bs1))) bs2 (mwrite m p bs1) = Ret (tt, mwrite m p (bs1 ++ bs2)).
Proof.
  intros Hr. rewrite store_bytes_room; [by rewrite mwrite_app|].
  rewrite room_mwrite; [|eapply room_le; [done|lia]|lia].
  apply (room_padd _ _ _ (Z.of_nat (length bs1))) in Hr; [|lia]. eapply room_le; [done|lia].
Qed.

Lemma mwrite_cons m p x bs :
  room m p (Z.of_nat (S (length bs))) ->
  mwrite (mwrite m p [x]) (padd p 1) bs = mwrite m p (x :: bs).
Proof. apply (mwrite_app m p [x] bs). Qed.

Lemma tail_at_mwrite_ne m p bs q b :
  in_block p b -> ~ in_block q b -> tail_at (mwrite m p bs) q = tail_at m q.
Proof.
  intros Hp Hq. destruct p as [| |b' o]; [done|done|]. simpl in Hp. subst b'.
  destruct q as [| |b' o']; [done|done|]. simpl in *.
  by rewrite lookup_alter_ne by congruence.
Qed.

Lemma bytes_at_mwrite_ne m p bs q cs b :
  in_block p b -> ~ in_block q b -> bytes_at m q cs -> bytes_at (mwrite m p bs) q cs.
Proof. intros ?? [t Ht]. exists t. by rewrite (tail_at_mwrite_ne _ _ _ _ b). Qed.

Lemma source_at_mwrite_ne m p bs q cs b :
  in_block p b -> ~ in_block q b -> source_at m q cs -> source_at (mwrite m p bs) q cs.
Proof. intros ?? [->|?]; [by left|right]. by eapply bytes_at_mwrite_ne. Qed.

Lemma bytes_at_mwrite_eq m p bs :
  room m p (Z.of_nat (length bs)) -> bytes_at (mwrite m p bs) p bs.
Proof.
  intros Hr. destruct p as [| |b o]; [by destruct Hr as (?&?&?)..|].
  apply room_block in Hr as (l & Hl & Ho & Hlen); [|lia].
  set (l' := splice (Z.to_nat o) bs l).
  assert (length l' = length l) as Hl' by (apply splice_length; lia).
  exists (drop (length bs) (drop (Z.to_nat o) l')).
  apply tail_at_Some. exists l'. simpl. rewrite lookup_alter_eq, Hl. simpl.
  split; [done|]. split; [lia|].
  rewrite <- (take_drop (length bs) (drop (Z.to_nat o) l')) at 2. f_equal.
  symmetry. apply take_drop_splice. lia.
Qed.

(** A write leaves the octets behind it as they were. *)
Lemma tail_at_mwrite_after m p bs :
  room m p (Z.of_nat (length bs)) ->
  tail_at (mwrite m p bs) (padd p (Z.of_nat (length bs))) = tail_at m (padd p (Z.of_nat (length bs))).
Proof.
  intros Hr. destruct p as [| |b o]; [done|done|].
  apply room_block in Hr as (l & Hl & Ho & Hlen); [|lia]. simpl.
  rewrite lookup_alter_eq, Hl. simpl. rewrite splice_length by lia.
  decide_branch. f_equal. unfold splice.
  replace (Z.to_nat (o + Z.of_nat (length bs))) with (Z.to_nat o + length bs)%nat by lia.
  rewrite app_assoc, drop_app_length'; [done|]. rewrite length_app, length_take. lia.
Qed.

Lemma bytes_at_mwrite_after m p v x bs :
  bytes_at m p (v :: bs) -> bytes_at (mwrite m p [x]) (padd p 1) bs.
Proof.
  intros H. pose proof (bytes_at_room _ _ _ H) as Hr. cbn [length] in Hr.
  apply bytes_at_cons in H as [_ [t Ht]]. exists t.
  pose proof (tail_at_mwrite_after m p [x]) as E. cbn [length] in E.
  change (Z.of_nat 1) with 1 in E. rewrite E; [done|]. eapply room_le; [done|lia].
Qed.

Lemma mwrite_same m p bs : bytes_at m p bs -> mwrite m p bs = m.
Proof.
  intros [t Ht]. destruct p as [| |b o]; [done|done|].
  apply tail_at_Some in Ht as (l & Hl & Ho & Ht). simpl. apply alter_id. intros l' Hl'. simplify_eq.
  unfold splice. rewrite <- drop_drop, <- Ht, drop_app_length, Ht. apply take_drop.
Qed.

Lemma cstr_at_mwrite_ne m p bs q s b :
  in_block p b -> ~ in_block q b -> cstr_at m q s -> cstr_at (mwrite m p bs) q s.
Proof. intros ?? [? ?]. split; [by eapply bytes_at_mwrite_ne|done]. Qed.

Lemma wf_mem_mwrite m p bs : wf_mem m -> Forall is_byte bs -> wf_mem (mwrite m p bs).
Proof.
  intros Hm Hbs. destruct p as [| |b o]; [done|done|]. intros b' l. simpl.
  destruct (decide (b = b')) as [<-|]; [rewrite lookup_alter_eq|rewrite lookup_alter_ne by done].
  - intros (l0 & Hl0 & ->)%fmap_Some. apply Forall_splice; [done|]. by eapply Hm.
  - apply Hm.
Qed.

Lemma wf_mem_tail m p t : wf_mem m -> tail_at m p = Some t -> Forall is_byte t.
Proof.
  intros Hm. destruct p as [| |b o]; [done|done|].
  intros (l & Hl & _ & ->)%tail_at_Some. apply Forall_drop. by eapply Hm.
Qed.

Lemma wf_mem_bytes_at m p bs : wf_mem m -> bytes_at m p bs -> Forall is_byte bs.
Proof. intros Hm [t Ht]. apply wf_mem_tail in Ht; [|done]. by apply Forall_app in Ht as [? _]. Qed.

(** *** The functions of <string.h> *)

Lemma find_nul_app s t : 0 ∉ s -> find_nul (s ++ 0 :: t) = Some (length s).
Proof.
  induction s as [|x s IH]; intros Hs; [done|]. simpl.
  rewrite not_elem_of_cons in Hs. destruct Hs as [? ?].
  destruct (Z.eqb_spec x 0); [congruence|]. by rewrite IH.
Qed.

Lemma find_nul_inv l n : find_nul l = Some n -> exists s t, l = s ++ 0 :: t /\ (0 ∉ s) /\ length s = n.
Proof.
  revert n. induction l as [|x l IH]; intros n; simpl; [done|].
  destruct (Z.eqb_spec x 0) as [->|].
  - intros [= <-]. exists [], l. split_and!; [done|apply not_elem_of_nil|done].
  - intros (k & Hk & ->)%fmap_Some. destruct (IH k Hk) as (s & t & -> & ? & <-).
    exists (x :: s), t. split_and!; [done| |done]. rewrite not_elem_of_cons. done.
Qed.

Lemma strlen_at m p s : cstr_at m p s -> strlen p m = Ret (Z.of_nat (length s), m).
Proof.
  intros [[t Ht] Hs]. unfold strlen. rewrite Ht, <- app_assoc. simpl.
  by rewrite find_nul_app.
Qed.

Lemma strlen_inv m p n m' :
  strlen p m = Ret (n, m') -> m' = m /\ exists s, cstr_at m p s /\ n = Z.of_nat (length s).
Proof.
  unfold strlen. destruct (tail_at m p) as [t|] eqn:Et; [|done].
  destruct (find_nul t) as [k|] eqn:Ek; [|done]. intros [= <- <-]. split; [done|].
  apply find_nul_inv in Ek as (s & u & -> & ? & <-). exists s. split; [|done].
  split; [|done]. exists u. by rewrite <- app_assoc.
Qed.

Lemma to_size_id n : 0 <= n < 18446744073709551616 -> to_size n = n.
Proof. intros. unfold to_size. by rewrite Z.mod_small. Qed.

Lemma memcpy_at m dst src b bs :
  source_at m src bs -> room m dst (Z.of_nat (length bs)) ->
  in_block dst b -> ~ in_block src b ->
  Z.of_nat (length bs) < 18446744073709551616 ->
  memcpy dst src (Z.of_nat (length bs)) m = Ret (tt, mwrite m dst bs).
Proof.
  intros Hs Hd Hb Hnb Hlen. unfold memcpy. rewrite to_size_id by lia.
  replace (overlap dst src (Z.of_nat (length bs))) with false.
  2: { destruct dst as [| |b1 o1], src as [| |b2 o2]; simpl in *; try done. subst b1.
       by rewrite bool_decide_eq_false_2 by congruence. }
  erewrite bind_ret by by apply load_bytes_at. by apply store_bytes_room.
Qed.

Lemma cmp_bytes_eq a b : length a = length b -> cmp_bytes a b = 0 <-> a = b.
Proof.
  revert b. induction a as [|x a IH]; intros [|y b] Hlen; simplify_eq/=; [done|].
  destruct (Z.eqb_spec x y) as [->|].
  - rewrite IH by done. split; [by intros -> | by intros [= ->]].
  - split; [lia | congruence].
Qed.

(** A length-delimited string against a C string of the same length. *)
Lemma strncmp_from_eq a b t u :
  length a = length b -> 0 ∉ b ->
  exists r, strncmp_from (length a) (a ++ t) (b ++ 0 :: u) = Some r /\ (r = 0 <-> a = b).
Proof.
  revert b. induction a as [|x a IH]; intros [|y b] Hlen Hb; simplify_eq/=; [by exists 0|].
  rewrite not_elem_of_cons in Hb. destruct Hb as [? Hb].
  destruct (Z.eqb_spec x y) as [->|Hne].
  - destruct (Z.eqb_spec y 0); [congruence|].
    destruct (IH b Hlen Hb) as (r & -> & Hr). exists r. split; [done|].
    rewrite Hr. split; [by intros -> | by intros [= ->]].
  - exists (x - y). split; [done|]. split; [lia | congruence].
Qed.

Lemma strncmp_from_cstr a b t u n :
  0 ∉ a -> 0 ∉ b -> (length a < n)%nat ->
  exists r, strncmp_from n (a ++ 0 :: t) (b ++ 0 :: u) = Some r /\ (r = 0 <-> a = b).
Proof.
  revert b n. induction a as [|x a IH]; intros b n Ha Hb Hn;
    (destruct n as [|n]; [simpl in Hn; lia|]); destruct b as [|y b];
    cbn [strncmp_from app].
  - by exists 0.
  - apply not_elem_of_cons in Hb as [? ?].
    destruct (Z.eqb_spec 0 y); [congruence|]. exists (0 - y).
    split; [done|]. split; [lia|done].
  - apply not_elem_of_cons in Ha as [? ?].
    destruct (Z.eqb_spec x 0); [congruence|]. exists (x - 0).
    split; [done|]. split; [lia|done].
  - apply not_elem_of_cons in Ha as [? Ha], Hb as [? Hb].
    simpl in Hn. destruct (Z.eqb_spec x y) as [->|Hne].
    + destruct (Z.eqb_spec y 0); [congruence|].
      destruct (IH b n Ha Hb) as (r & -> & Hr); [lia|]. exists r. split; [done|].
      rewrite Hr. split; [by intros -> | by intros [= ->]].
    + exists (x - y). split; [done|]. split; [lia | congruence].
Qed.

Lemma strcmp_at m p q a b :
  cstr_at m p a -> cstr_at m q b -> exists r, strcmp p q m = Ret (r, m) /\ (r = 0 <-> a = b).
Proof.
  intros [[t Ht] Ha] [[u Hu] Hb]. unfold strcmp. rewrite Ht, Hu, <- !app_assoc. cbn [app].
  destruct (strncmp_from_cstr a b t u (S (length (a ++ 0 :: t))) Ha Hb) as (r & E & Hr);
    [rewrite length_app; lia|].
  exists r. by rewrite E.
Qed.

Lemma strncmp_at m p q cs s :
  source_at m p cs -> cstr_at m q s -> length cs = length s ->
  Z.of_nat (length cs) < 18446744073709551616 ->
  exists r, strncmp p q (Z.of_nat (length cs)) m = Ret (r, m) /\ (r = 0 <-> cs = s).
Proof.
  intros Hp [[u Hu] Hs] Hlen Hmax. unfold strncmp. rewrite to_size_id by lia.
  destruct (Z.eqb_spec (Z.of_nat (length cs)) 0) as [E|E].
  { exists 0. split; [done|]. by destruct cs, s. }
  destruct Hp as [->|[t Ht]]; [done|]. rewrite Ht, Hu, <- app_assoc, length_app. simpl.
  replace (Z.to_nat _) with (length cs) by lia.
  destruct (strncmp_from_eq cs s t u Hlen Hs) as (r & -> & Hr). by exists r.
Qed.

(** *** Writers

    A writer advances a pointer past the octets it stores.  [writes b P f bs]:
    [f], started at a pointer into object [b] with room for [bs], stores exactly
    [bs]; [P] is what it needs of the rest of the memory. *)

Definition stable (b : positive) (P : mem -> Prop) : Prop :=
  forall m o bs, P m -> P (mwrite m (Ptr b o) bs).

Definition writes (b : positive) (P : mem -> Prop) (f : ptr -> M mem ptr) (bs : list Z) : Prop :=
  forall m o, P m -> room m (Ptr b o) (Z.of_nat (length bs)) ->
    f (Ptr b o) m = Ret (Ptr b (o + Z.of_nat (length bs)), mwrite m (Ptr b o) bs).

Lemma writes_bind b P f g bs cs :
  stable b P -> writes b P f bs -> writes b P g cs ->
  writes b P (fun p => q ← f p; g q) (bs ++ cs).
Proof.
  intros Hst Hf Hg m o HP Hr. rewrite length_app in Hr.
  erewrite bind_ret by (apply Hf; [done|eapply room_le; [done|lia]]).
  rewrite Hg; [|by apply Hst|].
  - rewrite length_app. f_equal. f_equal; [f_equal; lia|].
    apply (mwrite_app m (Ptr b o)). done.
  - rewrite room_mwrite; [|eapply room_le; [done|lia]|lia].
    apply (room_padd _ _ _ (Z.of_nat (length bs))) in Hr; [|lia]. simpl in Hr.
    eapply room_le; [done|lia].
Qed.

Lemma writes_nil b P : writes b P (fun p => mret p) [].
Proof.
  intros m o HP (t & (l & Hl & Ho & ->)%tail_at_Some & _). unfold mret, M_ret. simpl.
  do 2 f_equal; [f_equal; lia|]. symmetry. apply alter_id. intros x _. apply splice_nil.
Qed.

Lemma writes_weaken b (P Q : mem -> Prop) f bs :
  (forall m, Q m -> P m) -> writes b P f bs -> writes b Q f bs.
Proof. intros HQ Hf m o HP Hr. apply Hf; auto. Qed.

Lemma writes_ext b P f g bs :
  (forall p m, f p m = g p m) -> writes b P f bs -> writes b P g bs.
Proof. intros Hfg Hf m o HP Hr. rewrite <- Hfg. by apply Hf. Qed.

(** A writer run after the octets [acc] were stored at [Ptr b o]. *)
Lemma writes_step {A} b P f bs acc (k : ptr -> M mem A) m o :
  writes b P f bs -> stable b P -> P m ->
  room m (Ptr b o) (Z.of_nat (length acc + length bs)) ->
  mbind k (f (Ptr b (o + Z.of_nat (length acc)))) (mwrite m (Ptr b o) acc) =
  k (Ptr b (o + Z.of_nat (length (acc ++ bs)))) (mwrite m (Ptr b o) (acc ++ bs)).
Proof.
  intros Hf Hst HP Hr.
  erewrite bind_ret; [|apply Hf; [by apply Hst|]].
  - rewrite length_app, <- (mwrite_app m (Ptr b o)) by done. simpl.
    f_equal. f_equal. lia.
  - rewrite room_mwrite; [|eapply room_le; [done|lia]|lia].
    apply (room_padd _ _ _ (Z.of_nat (length acc))) in Hr; [|lia]. simpl in Hr.
    eapply room_le; [done|lia].
Qed.

Lemma writes_first {A} b P f bs (k : ptr -> M mem A) m o :
  writes b P f bs -> P m -> room m (Ptr b o) (Z.of_nat (length bs)) ->
  mbind k (f (Ptr b o)) m = k (Ptr b (o + Z.of_nat (length bs))) (mwrite m (Ptr b o) bs).
Proof. intros Hf HP Hr. erewrite bind_ret; [done|]. by apply Hf. Qed.

Lemma mwrite_nil m p : mwrite m p [] = m.
Proof.
  destruct p as [| |b o]; [done|done|]. simpl. apply alter_id. intros x _. apply splice_nil.
Qed.

(** A write of the same length over another replaces it. *)
Lemma mwrite_over m p bs bs' :
  room m p (Z.of_nat (length bs)) -> length bs = length bs' ->
  mwrite (mwrite m p bs) p bs' = mwrite m p bs'.
Proof.
  intros Hr Hlen. destruct p as [| |b o]; [done|done|].
  apply room_block in Hr as (l & Hl & Ho & Hb); [|lia]. simpl.
  rewrite alter_alter_eq. apply alter_ext. intros l' Hl'. rewrite Hl in Hl'.
  injection Hl' as <-. simpl. unfold splice.
  assert (length (take (Z.to_nat o) l) = Z.to_nat o) as Ht by (rewrite length_take; lia).
  rewrite <- Hlen, take_app_length' by done. do 2 f_equal.
  rewrite app_assoc, drop_app_length'; [done|]. rewrite length_app. lia.
Qed.

(** Writes to two objects commute. *)
Lemma mwrite_comm m b o bs b' o' bs' :
  b <> b' ->
  mwrite (mwrite m (Ptr b o) bs) (Ptr b' o') bs' = mwrite (mwrite m (Ptr b' o') bs') (Ptr b o) bs.
Proof. intros. simpl. by rewrite alter_alter_ne. Qed.

(** Octets in front of others that are written already. *)
Lemma mwrite_before m p xs ys :
  room m p (Z.of_nat (length xs + length ys)) ->
  mwrite (mwrite m (padd p (Z.of_nat (length xs))) ys) p xs = mwrite m p (xs ++ ys).
Proof.
  intros Hr. destruct p as [| |b o]; [done|done|].
  apply room_block in Hr as (l & Hl & Ho & Hlen); [|lia]. cbn [padd mwrite].
  rewrite alter_alter_eq. apply alter_ext. intros l' Hl'. rewrite Hl in Hl'. injection Hl' as <-.
  cbn [compose]. replace (Z.to_nat (o + Z.of_nat (length xs))) with (Z.to_nat o + length xs)%nat by lia.
  unfold splice. assert (length (take (Z.to_nat o + length xs) l) = (Z.to_nat o + length xs)%nat) as Ht
    by (rewrite length_take; lia).
  rewrite take_app_le, take_take by lia. replace (Z.to_nat o `min` (Z.to_nat o + length xs))%nat with (Z.to_nat o) by lia.
  f_equal. rewrite <- app_assoc. f_equal. rewrite drop_app_length' by done. do 2 f_equal.
  rewrite length_app. lia.
Qed.

(** *** Frames *)

(** The call changes the objects [b] and [e] only. *)
Definition elsewhere (m m' : mem) (b e : positive) : Prop := forall b', b' <> b -> b' <> e -> m' !! b' = m !! b'.

Lemma bytes_at_grow m p d x :
  bytes_at m p d -> room m p (Z.of_nat (length d + length x)) ->
  bytes_at (mwrite m (padd p (Z.of_nat (length d))) x) p (d ++ x).
Proof.
  intros Hb Hr. rewrite <- (mwrite_same m p d Hb) at 1. rewrite mwrite_app by done.
  apply bytes_at_mwrite_eq. by rewrite length_app.
Qed.

Lemma source_at_split m f x n :
  source_at m f x -> (n <= length x)%nat -> source_at m f (take n x) /\ source_at m (padd f (Z.of_nat n)) (drop n x).
Proof.
  intros [->|Hs] Hn; [by rewrite take_nil, drop_nil; split; left|].
  rewrite <- (take_drop n x) in Hs. apply bytes_at_app in Hs as [H1 H2]. rewrite length_take_le in H2 by done.
  by split; right.
Qed.

Lemma lookup_mwrite_ne (m : mem) b o bs b' : b' <> b -> mwrite m (Ptr b o) bs !! b' = m !! b'.
Proof. intros H. cbn [mwrite]. by rewrite lookup_alter_ne. Qed.

Lemma tail_at_same (m m' : mem) p :
  (forall b, in_block p b -> m' !! b = m !! b) -> tail_at m' p = tail_at m p.
Proof. intros H. destruct p as [| |b o]; [done|done|]. cbn [tail_at]. by rewrite H. Qed.

Lemma source_elsewhere m m' b e p x :
  elsewhere m m' b e -> ~ in_block p b -> ~ in_block p e -> source_at m p x -> source_at m' p x.
Proof.
  intros He Hb Hne [->|[t Ht]]; [by left|]. right. exists t. rewrite <- Ht. apply tail_at_same. intros b' Hin. apply He; congruence.
Qed.

(** [ptr - buf] at the end of a serializer. *)
Lemma writes_result b o n (m : mem) :
  (r ← psub (Ptr b (o + n)) (Ptr b o); mret r) m = Ret (n, m).
Proof. erewrite bind_ret by apply psub_same. unfold mret, M_ret. do 2 f_equal. lia. Qed.

(** Symbolic execution of a serializer: [wfirst]/[wnext] run the next writer,
    given its [writes] lemma. *)
Ltac solve_room :=
  eapply room_le; [eassumption|]; rewrite ?length_app; simpl; lia.

Ltac wfirst lem :=
  etransitivity; [eapply (writes_first _ _ _ _ _ _ _ lem); [eauto | solve_room] | cbv beta].

Ltac wnext lem :=
  etransitivity;
    [eapply (writes_step _ _ _ _ _ _ _ _ lem); [eauto | eauto | solve_room] | cbv beta].

(** A concrete string has no NUL. *)
Ltac no_nul := apply (bool_decide_unpack _); vm_compute; exact I.
