(* ===== verification/Wire.v ===== *)
(** * The MQTT wire format

    The packets of MQTT 3.1/3.1.1 as data and their encoding as octets, written
    from the protocol and independent of the C code: the contract of the
    serializers and deserializers of src/mqtt/MQTTPacket. *)

From S2P Require Import Prelude.

(** The largest remaining length the protocol can express. *)
Definition MAX_REMAINING : Z := 268435455.

(** The remaining length: base 128, least significant digit first, the top bit
    of a digit saying that another one follows. *)
Definition remaining_length (n : Z) : list Z :=
  if n <? 128 then [n]
  else if n <? 16384 then [n mod 128 + 128; n / 128]
  else if n <? 2097152 then
    [n mod 128 + 128; (n / 128) mod 128 + 128; n / 16384]
  else
    [n mod 128 + 128; (n / 128) mod 128 + 128; (n / 16384) mod 128 + 128; n / 2097152].

(** A two-octet integer, most significant octet first. *)
Definition u16 (n : Z) : list Z := [n / 256; n mod 256].

(** A string: its length on two octets, then its characters. *)
Definition utf8 (s : list Z) : list Z := u16 (Z.of_nat (length s)) ++ s.

#[global] Arguments utf8 : simpl never.

(** The first octet of a packet. *)
Definition fixed_header (type dup qos retain : Z) : Z :=
  16 * type + 8 * dup + 2 * qos + retain.

(** A packet of the given first octet and body. *)
Definition frame (h : Z) (body : list Z) : list Z :=
  h :: remaining_length (Z.of_nat (length body)) ++ body.

Record will : Type := mk_will {
  will_topic : list Z;
  will_message : list Z;
  will_qos : Z;
  will_retain : Z
}.

Record connect : Type := mk_connect {
  cn_version : Z;
  cn_clean : Z;
  cn_will : option will;
  cn_keepalive : Z;
  cn_client : list Z;
  cn_user : option (list Z);
  cn_pass : option (list Z)
}.

Inductive packet : Type :=
| PConnect (c : connect)
| PConnack (session_present code : Z)
| PPublish (dup qos retain : Z) (topic : list Z) (id : Z) (payload : list Z)
| PAck (type dup id : Z)
| PSubscribe (dup id : Z) (topics : list (list Z * Z))
| PSuback (id : Z) (codes : list Z)
| PUnsubscribe (dup id : Z) (topics : list (list Z))
| PEmpty (type : Z).

(** The protocol name: "MQTT" from 3.1.1 (level 4) on, "MQIsdp" before. *)
Definition protocol_name (version : Z) : list Z :=
  if version =? 4 then [77; 81; 84; 84] else [77; 81; 73; 115; 100; 112].

Definition opt_string (o : option (list Z)) : list Z := from_option utf8 [] o.

Definition opt_flag {A} (o : option A) : Z :=
  match o with Some _ => 1 | None => 0 end.

Definition connect_flags (c : connect) : Z :=
  128 * opt_flag (cn_user c) + 64 * opt_flag (cn_pass c) +
  match cn_will c with
  | Some w => 32 * will_retain w + 8 * will_qos w + 4
  | None => 0
  end + 2 * cn_clean c.

Definition connect_body (c : connect) : list Z :=
  utf8 (protocol_name (cn_version c)) ++ [cn_version c; connect_flags c] ++
  u16 (cn_keepalive c) ++ utf8 (cn_client c) ++
  match cn_will c with
  | Some w => utf8 (will_topic w) ++ utf8 (will_message w)
  | None => []
  end ++ opt_string (cn_user c) ++ opt_string (cn_pass c).

Definition publish_body (qos : Z) (topic : list Z) (id : Z) (payload : list Z) : list Z :=
  utf8 topic ++ (if 0 <? qos then u16 id else []) ++ payload.

Definition subscribe_body (id : Z) (topics : list (list Z * Z)) : list Z :=
  u16 id ++ concat (map (fun t => utf8 (fst t) ++ [snd t]) topics).

Definition unsubscribe_body (id : Z) (topics : list (list Z)) : list Z :=
  u16 id ++ concat (map utf8 topics).

(** Acknowledgements have flags 0, but a PUBREL (6) has QoS 1. *)
Definition encode (p : packet) : list Z :=
  match p with
  | PConnect c => frame (fixed_header 1 0 0 0) (connect_body c)
  | PConnack sp code => frame (fixed_header 2 0 0 0) [sp; code]
  | PPublish dup qos retain topic id payload =>
      frame (fixed_header 3 dup qos retain) (publish_body qos topic id payload)
  | PAck type dup id =>
      frame (fixed_header type dup (if type =? 6 then 1 else 0) 0) (u16 id)
  | PSubscribe dup id topics =>
      frame (fixed_header 8 dup 1 0) (subscribe_body id topics)
  | PSuback id codes => frame (fixed_header 9 0 0 0) (u16 id ++ codes)
  | PUnsubscribe dup id topics =>
      frame (fixed_header 10 dup 1 0) (unsubscribe_body id topics)
  | PEmpty type => frame (fixed_header type 0 0 0) []
  end.

(** ** Facts about the format *)

Lemma length_u16 n : length (u16 n) = 2%nat.
Proof. done. Qed.

Lemma length_utf8 s : length (utf8 s) = (2 + length s)%nat.
Proof. done. Qed.

Lemma u16_value n : 0 <= n < 65536 -> 256 * (n / 256) + n mod 256 = n.
Proof. intros. Z.div_mod_to_equations. lia. Qed.

Lemma remaining_length_bytes n :
  0 <= n <= MAX_REMAINING -> Forall is_byte (remaining_length n).
Proof.
  unfold MAX_REMAINING, remaining_length, is_byte. intros.
  repeat case_match; repeat constructor; Z.div_mod_to_equations; lia.
Qed.

(** The octets of the remaining length by the size of the number. *)
Definition rl_size (n : Z) : Z :=
  if n <? 128 then 1 else if n <? 16384 then 2 else if n <? 2097152 then 3 else 4.

Lemma length_remaining_length n : Z.of_nat (length (remaining_length n)) = rl_size n.
Proof. unfold remaining_length, rl_size. by repeat case_match. Qed.

Lemma rl_size_range n : 1 <= rl_size n <= 4.
Proof. unfold rl_size. repeat case_match; lia. Qed.

Lemma length_frame h body :
  Z.of_nat (length (frame h body)) =
  1 + rl_size (Z.of_nat (length body)) + Z.of_nat (length body).
Proof. unfold frame. simpl. rewrite length_app, <- length_remaining_length. lia. Qed.
