(* ===== verification/Packet.v ===== *)
(** * MQTTPacket.c

    The primitives of src/mqtt/MQTTPacket/MQTTPacket.c: the remaining length,
    integers and strings in a buffer, and the readers that assemble a packet
    from a transport, blocking and non-blocking; with the types of
    MQTTPacket.h. *)

From S2P Require Import Prelude Memory Wire.

(** ** Constants and types (MQTTPacket.h) *)

(** [enum errors] *)
Definition MQTTPACKET_BUFFER_TOO_SHORT : Z := -2.
Definition MQTTPACKET_READ_ERROR : Z := -1.

(** [enum msgTypes] *)
Definition CONNECT : Z := 1.
Definition CONNACK : Z := 2.
Definition PUBLISH : Z := 3.
Definition PUBACK : Z := 4.
Definition PUBREC : Z := 5.
Definition PUBREL : Z := 6.
Definition PUBCOMP : Z := 7.
Definition SUBSCRIBE : Z := 8.
Definition SUBACK : Z := 9.
Definition UNSUBSCRIBE : Z := 10.
Definition UNSUBACK : Z := 11.
Definition PINGREQ : Z := 12.
Definition PINGRESP : Z := 13.
Definition DISCONNECT : Z := 14.

(** [union MQTTHeader]: the octet and its bit-fields (the layout of a
    little-endian target, [REVERSED] not defined). *)
Module MQTTHeader.
Definition type (h : Z) : Z := get_bits 4 4 h.
Definition dup (h : Z) : Z := get_bits 3 1 h.
Definition qos (h : Z) : Z := get_bits 1 2 h.
Definition retain (h : Z) : Z := get_bits 0 1 h.
Definition set_type (v h : Z) : Z := set_bits 4 4 v h.
Definition set_dup (v h : Z) : Z := set_bits 3 1 v h.
Definition set_qos (v h : Z) : Z := set_bits 1 2 v h.
Definition set_retain (v h : Z) : Z := set_bits 0 1 v h.
End MQTTHeader.

Record MQTTLenString : Type := mkLenString { len : Z; data : ptr }.

Record MQTTString : Type := mkMQTTString { cstring : ptr; lenstring : MQTTLenString }.

Definition MQTTString_initializer : MQTTString := mkMQTTString NULL (mkLenString 0 NULL).

(** ** The remaining length *)

Fixpoint MQTTPacket_encode_loop (fuel : nat) (buf : ptr) (rc length : Z) : M mem Z :=
  match fuel with
  | O => nofuel
  | S fuel =>
      let d := to_char (Z.rem length 128) in
      let length := Z.quot length 128 in
      let d := if 0 <? length then to_char (Z.lor d 128) else d in
      store (padd buf rc) d;;
      let rc := rc + 1 in
      if 0 <? length then MQTTPacket_encode_loop fuel buf rc length else mret rc
  end.

(** An [int] has at most five digits in base 128. *)
Definition MQTTPacket_encode (buf : ptr) (length : Z) : M mem Z :=
  MQTTPacket_encode_loop 5 buf 0 length.

Definition MAX_NO_OF_REMAINING_LENGTH_BYTES : Z := 4.

(** A source of octets (the type of [getcharfn] and [getfn]): asked for [n]
    octets it returns its result code and the octets it stored. *)
Definition getfn_t (T : Type) : Type := Z -> M T (Z * list Z).

Section decode.
Context {T : Type} (getcharfn : getfn_t T).

Fixpoint MQTTPacket_decode_loop (fuel : nat) (multiplier len value : Z) : M T (Z * Z) :=
  match fuel with
  | O => nofuel
  | S fuel =>
      let len := len + 1 in
      if MAX_NO_OF_REMAINING_LENGTH_BYTES <? len then mret (len, value)
      else
        '(rc, cs) ← getcharfn 1;
        if negb (rc =? 1) then mret (len, value)
        else
          match cs with
          | [] => ub
          | c :: _ =>
              value ← int_result (value + Z.land c 127 * multiplier);
              multiplier ← int_result (multiplier * 128);
              if negb (Z.land c 128 =? 0)
              then MQTTPacket_decode_loop fuel multiplier len value
              else mret (len, value)
          end
  end.

(** The result and [*value]; the fifth pass always leaves the loop. *)
Definition MQTTPacket_decode : M T (Z * Z) := MQTTPacket_decode_loop 5 1 0 0.
End decode.

Definition MQTTPacket_len (rem_len : Z) : M mem Z :=
  rem_len ← int_result (rem_len + 1);
  if rem_len <? 128 then int_result (rem_len + 1)
  else if rem_len <? 16384 then int_result (rem_len + 2)
  else if rem_len <? 2097151 then int_result (rem_len + 3)
  else int_result (rem_len + 4).

(** [bufchar] with the static [bufptr] as its state: every octet goes to the
    same [*c]. *)
Fixpoint bufchar_loop (n : nat) (c : list Z) : M (mem * ptr) (list Z) :=
  match n with
  | O => mret c
  | S n => fun '(m, bufptr) =>
      match load bufptr m with
      | Ret (v, m) => bufchar_loop n [v] (m, padd bufptr 1)
      | UB => UB
      | NoFuel => NoFuel
      end
  end.

Definition bufchar : getfn_t (mem * ptr) := fun count =>
  c ← bufchar_loop (Z.to_nat count) [];
  mret (count, c).

Definition MQTTPacket_decodeBuf (buf : ptr) : M mem (Z * Z) := fun m =>
  match MQTTPacket_decode bufchar (m, buf) with
  | Ret (r, (m, _)) => Ret (r, m)
  | UB => UB
  | NoFuel => NoFuel
  end.

(** ** Integers and strings in a buffer *)

Definition readInt (pptr : ptr) : M mem (Z * ptr) :=
  a ← load pptr;
  b ← load (padd pptr 1);
  mret (256 * a + b, padd pptr 2).

Definition readChar (pptr : ptr) : M mem (Z * ptr) :=
  c ← load pptr;
  mret (to_char c, padd pptr 1).

Definition writeChar (pptr : ptr) (c : Z) : M mem ptr :=
  let c := to_char c in
  store pptr c;;
  mret (padd pptr 1).

Definition writeInt (pptr : ptr) (anInt : Z) : M mem ptr :=
  store pptr (to_uchar (Z.quot anInt 256));;
  let pptr := padd pptr 1 in
  store pptr (to_uchar (Z.rem anInt 256));;
  mret (padd pptr 1).

Definition writeCString (pptr : ptr) (string : ptr) : M mem ptr :=
  n ← strlen string;
  let len := to_int n in
  pptr ← writeInt pptr len;
  memcpy pptr string len;;
  mret (padd pptr len).

(** [writeCString] of a string literal. *)
Definition writeLiteral (pptr : ptr) (s : list Z) : M mem ptr :=
  let len := Z.of_nat (length s) in
  pptr ← writeInt pptr len;
  store_bytes pptr s;;
  mret (padd pptr len).

Definition getLenStringLen (p : ptr) : M mem Z :=
  a ← load p;
  b ← load (padd p 1);
  mret (256 * a + b).

Definition writeMQTTString (pptr : ptr) (mqttstring : MQTTString) : M mem ptr :=
  if 0 <? len (lenstring mqttstring) then
    pptr ← writeInt pptr (len (lenstring mqttstring));
    memcpy pptr (data (lenstring mqttstring)) (len (lenstring mqttstring));;
    mret (padd pptr (len (lenstring mqttstring)))
  else if negb (is_null (cstring mqttstring)) then
    writeCString pptr (cstring mqttstring)
  else
    writeInt pptr 0.

(** Returns [rc], the string and the advanced pointer. *)
Definition readMQTTLenString (s : MQTTString) (pptr enddata : ptr) : M mem (Z * MQTTString * ptr) :=
  left ← psub enddata pptr;
  if 1 <? left then
    '(n, pptr) ← readInt pptr;
    over ← psub (padd pptr n) enddata;
    if over <=? 0
    then mret (1, mkMQTTString NULL (mkLenString n pptr), padd pptr n)
    else mret (0, mkMQTTString NULL (mkLenString n (data (lenstring s))), pptr)
  else
    mret (0, mkMQTTString NULL (lenstring s), pptr).

Definition MQTTstrlen (mqttstring : MQTTString) : M mem Z :=
  if negb (is_null (cstring mqttstring)) then
    n ← strlen (cstring mqttstring); mret (to_int n)
  else mret (len (lenstring mqttstring)).

Definition MQTTPacket_equals (a : MQTTString) (bptr : ptr) : M mem Z :=
  '(aptr, alen) ←
    (if negb (is_null (cstring a)) then
       n ← strlen (cstring a); mret (cstring a, to_int n)
     else mret (data (lenstring a), len (lenstring a)));
  n ← strlen bptr;
  let blen := to_int n in
  if alen =? blen then
    r ← strncmp aptr bptr alen;
    mret (of_bool (r =? 0))
  else mret 0.

(** [ptr += MQTTPacket_encode(ptr, length)] *)
Definition writeRemaining (pptr : ptr) (length : Z) : M mem ptr :=
  n ← MQTTPacket_encode pptr length;
  mret (padd pptr n).

(** [memcpy(ptr, src, n); ptr += n] *)
Definition writeBytes (pptr src : ptr) (n : Z) : M mem ptr :=
  memcpy pptr src n;;
  mret (padd pptr n).

(** [header.byte = readChar(&curdata)] *)
Definition readByte (pptr : ptr) : M mem (Z * ptr) :=
  '(c, pptr) ← readChar pptr;
  mret (to_uchar c, pptr).

(** ** Reading a packet from a transport

    [T] is the state of the transport behind [getfn], next to the memory. *)

Section transport.
Context {T : Type} (getfn : getfn_t T).

Definition on_mem {A} (f : M mem A) : M (mem * T) A := fun '(m, t) =>
  match f m with
  | Ret (a, m) => Ret (a, (m, t))
  | UB => UB
  | NoFuel => NoFuel
  end.

Definition on_transport {A} (f : M T A) : M (mem * T) A := fun '(m, t) =>
  match f t with
  | Ret (a, t) => Ret (a, (m, t))
  | UB => UB
  | NoFuel => NoFuel
  end.

(** A call of [getfn] with destination [dst]: what it delivers is stored at [dst]. *)
Definition getfn_into (dst : ptr) (n : Z) : M (mem * T) Z :=
  '(rc, bs) ← on_transport (getfn n);
  on_mem (store_bytes dst bs);;
  mret rc.

Definition MQTTPacket_read (buf : ptr) (buflen : Z) : M (mem * T) Z :=
  r ← getfn_into buf 1;
  if negb (r =? 1) then mret (-1)
  else
    '(_, rem_len) ← on_transport (MQTTPacket_decode getfn);
    n ← on_mem (MQTTPacket_encode (padd buf 1) rem_len);
    let len := 1 + n in
    total ← int_result (rem_len + len);
    if buflen <? total then mret (-1)
    else
      r ← (if truthy rem_len
           then r ← getfn_into (padd buf len) rem_len; mret (negb (r =? rem_len))
           else mret false);
      if (r : bool) then mret (-1)
      else h ← on_mem (load buf); mret (MQTTHeader.type h).

(** [MQTTTransport] without the source, which is [getfn] and [T]. *)
Record MQTTTransport : Type := mkTransport {
  trp_multiplier : Z;
  trp_rem_len : Z;
  trp_len : Z;
  trp_state : Z
}.

Fixpoint MQTTPacket_decodenb_loop (fuel : nat) (trp : MQTTTransport) :
    M (mem * T) (Z * MQTTTransport) :=
  match fuel with
  | O => nofuel
  | S fuel =>
      if MAX_NO_OF_REMAINING_LENGTH_BYTES <=? trp_len trp
      then mret (MQTTPACKET_READ_ERROR, trp)
      else
        '(frc, cs) ← on_transport (getfn 1);
        if frc =? -1 then mret (MQTTPACKET_READ_ERROR, trp)
        else if frc =? 0 then mret (0, trp)
        else
          match cs with
          | [] => ub
          | c :: _ =>
              n ← int_result (trp_len trp + 1);
              rem_len ← int_result (trp_rem_len trp + Z.land c 127 * trp_multiplier trp);
              multiplier ← int_result (trp_multiplier trp * 128);
              let trp := mkTransport multiplier rem_len n (trp_state trp) in
              if negb (Z.land c 128 =? 0)
              then MQTTPacket_decodenb_loop fuel trp
              else mret (trp_len trp, trp)
          end
  end.

Definition MQTTPacket_decodenb (trp : MQTTTransport) : M (mem * T) (Z * MQTTTransport) :=
  let trp := if trp_len trp =? 0
             then mkTransport 1 0 (trp_len trp) (trp_state trp) else trp in
  MQTTPacket_decodenb_loop 5 trp.

(** [exit:] of [MQTTPacket_readnb]. *)
Definition readnb_exit (rc : Z) (trp : MQTTTransport) : M (mem * T) (Z * MQTTTransport) :=
  mret (rc, mkTransport (trp_multiplier trp) (trp_rem_len trp) (trp_len trp) 0).

(** [case 2:] the rest of the packet. *)
Definition readnb_state2 (buf : ptr) (buflen : Z) (trp : MQTTTransport) :
    M (mem * T) (Z * MQTTTransport) :=
  let finish trp := h ← on_mem (load buf); readnb_exit (MQTTHeader.type h) trp in
  if truthy (trp_rem_len trp) then
    frc ← getfn_into (padd buf (trp_len trp)) (trp_rem_len trp);
    if frc =? -1 then readnb_exit (-1) trp
    else if frc =? 0 then mret (0, trp)
    else
      rem_len ← int_result (trp_rem_len trp - frc);
      n ← int_result (trp_len trp + frc);
      let trp := mkTransport (trp_multiplier trp) rem_len n (trp_state trp) in
      if truthy rem_len then mret (0, trp) else finish trp
  else finish trp.

(** [case 1:] the remaining length, falling through to [case 2]. *)
Definition readnb_state1 (buf : ptr) (buflen : Z) (trp : MQTTTransport) :
    M (mem * T) (Z * MQTTTransport) :=
  '(frc, trp) ← MQTTPacket_decodenb trp;
  if frc =? MQTTPACKET_READ_ERROR then readnb_exit (-1) trp
  else if frc =? 0 then mret (0, trp)
  else
    n ← on_mem (MQTTPacket_encode (padd buf 1) (trp_rem_len trp));
    let trp := mkTransport (trp_multiplier trp) (trp_rem_len trp) (1 + n) (trp_state trp) in
    total ← int_result (trp_rem_len trp + trp_len trp);
    if buflen <? total then readnb_exit (-1) trp
    else readnb_state2 buf buflen
           (mkTransport (trp_multiplier trp) (trp_rem_len trp) (trp_len trp)
              (to_char (trp_state trp + 1))).

(** [default:] and [case 0:] the header octet, falling through to [case 1]. *)
Definition readnb_state0 (buf : ptr) (buflen : Z) (trp : MQTTTransport) :
    M (mem * T) (Z * MQTTTransport) :=
  frc ← getfn_into buf 1;
  if frc =? -1 then readnb_exit (-1) trp
  else if frc =? 0 then mret (0, trp)
  else readnb_state1 buf buflen
         (mkTransport (trp_multiplier trp) (trp_rem_len trp) 0
            (to_char (trp_state trp + 1))).

Definition MQTTPacket_readnb (buf : ptr) (buflen : Z) (trp : MQTTTransport) :
    M (mem * T) (Z * MQTTTransport) :=
  if trp_state trp =? 1 then readnb_state1 buf buflen trp
  else if trp_state trp =? 2 then readnb_state2 buf buflen trp
  else
    readnb_state0 buf buflen
      (mkTransport (trp_multiplier trp) (trp_rem_len trp) (trp_len trp) 0).
End transport.

(** ** Representation of strings

    [mstring m b s cs]: the structure [s] denotes the characters [cs], which lie
    outside object [b] (the buffer being written). *)

Inductive mstring (m : mem) (b : positive) : MQTTString -> list Z -> Prop :=
| mstring_c p d cs n :
    cstr_at m p cs -> ~ in_block p b -> n <= 0 ->
    mstring m b (mkMQTTString p (mkLenString n d)) cs
| mstring_len d cs :
    source_at m d cs -> ~ in_block d b ->
    mstring m b (mkMQTTString NULL (mkLenString (Z.of_nat (length cs)) d)) cs.

Lemma mstring_stable b s cs : stable b (fun m => mstring m b s cs).
Proof.
  intros m o bs H. inversion H; subst; econstructor; eauto;
    first [eapply cstr_at_mwrite_ne | eapply source_at_mwrite_ne]; eauto; done.
Qed.

(** ** Writers *)

Lemma writeChar_writes b P c : writes b P (fun p => writeChar p c) [to_uchar c].
Proof.
  intros m o _ Hr. unfold writeChar. rewrite <- to_uchar_char.
  by erewrite bind_ret by by apply store_room.
Qed.

Lemma writeChar_byte b P c : is_byte c -> writes b P (fun p => writeChar p c) [c].
Proof.
  intros Hc. pose proof (writeChar_writes b P c) as H. by rewrite to_uchar_id in H.
Qed.

Lemma writeInt_writes b P n : 0 <= n < 65536 -> writes b P (fun p => writeInt p n) (u16 n).
Proof.
  intros Hn.
  assert (0 <= n / 256 < 256) by (Z.div_mod_to_equations; lia).
  assert (0 <= n mod 256 < 256) by (Z.div_mod_to_equations; lia).
  eapply (writes_ext _ _ (fun p => q ← writeChar p (n / 256); writeChar q (n mod 256))).
  - intros p m. unfold writeInt, writeChar.
    rewrite Z.quot_div_nonneg, Z.rem_mod_nonneg by lia.
    unfold store. rewrite !to_uchar_char, !to_uchar_idemp.
    unfold mbind, M_bind, mret, M_ret. by destruct (store_bytes p _ m) as [[[] ?]| |].
  - apply (writes_weaken _ (fun _ => True)); [done|].
    apply (writes_bind _ _ _ _ [_] [_]); [done| |]; by apply writeChar_byte.
Qed.

Lemma writeBytes_writes b P src cs n :
  n = Z.of_nat (length cs) -> n < 18446744073709551616 ->
  (forall m, P m -> source_at m src cs) -> ~ in_block src b ->
  writes b P (fun p => writeBytes p src n) cs.
Proof.
  intros -> Hn HP Hb m o Hm Hr. unfold writeBytes.
  erewrite bind_ret by (eapply (memcpy_at _ _ _ b); eauto; done). done.
Qed.

(** The digits of the remaining length as the loop produces them. *)
Fixpoint rl_digits (fuel : nat) (n : Z) : list Z :=
  match fuel with
  | O => []
  | S fuel => if n <? 128 then [n] else n mod 128 + 128 :: rl_digits fuel (n / 128)
  end.

Lemma rl_digits_remaining fuel n :
  (4 <= fuel)%nat -> 0 <= n <= MAX_REMAINING -> rl_digits fuel n = remaining_length n.
Proof.
  unfold MAX_REMAINING, remaining_length. intros Hf Hn.
  do 4 (destruct fuel as [|fuel]; [lia|]). cbn [rl_digits].
  assert (n / 128 / 128 = n / 16384) as -> by (Z.div_mod_to_equations; lia).
  assert (n / 16384 / 128 = n / 2097152) as -> by (Z.div_mod_to_equations; lia).
  assert (n / 2097152 < 128) by (Z.div_mod_to_equations; lia).
  repeat case_match; try done; Z.div_mod_to_equations; lia.
Qed.

Lemma encode_loop_digits fuel buf rc n m :
  fuel ≠ 0%nat -> 0 <= n < 128 ^ Z.of_nat fuel ->
  room m (padd buf rc) (Z.of_nat (length (rl_digits fuel n))) ->
  MQTTPacket_encode_loop fuel buf rc n m =
  Ret (rc + Z.of_nat (length (rl_digits fuel n)), mwrite m (padd buf rc) (rl_digits fuel n)).
Proof.
  revert rc n m. induction fuel as [|fuel IH]; intros rc n m Hf Hn Hr; [done|].
  rewrite Nat2Z.inj_succ, Z.pow_succ_r in Hn by lia.
  cbn [MQTTPacket_encode_loop rl_digits] in *.
  rewrite Z.quot_div_nonneg, Z.rem_mod_nonneg by lia.
  pose proof (Z.mod_pos_bound n 128 ltac:(lia)).
  destruct (Z.ltb_spec n 128) as [Hlt|Hge].
  - rewrite Z.div_small, Z.mod_small by lia. cbn [Z.ltb Z.compare].
    erewrite bind_ret by (apply store_room; done).
    by rewrite to_uchar_char, to_uchar_id by (unfold is_byte; lia).
  - assert (0 < n / 128) by (Z.div_mod_to_equations; lia).
    assert (n / 128 < 128 ^ Z.of_nat fuel) by (apply Z.div_lt_upper_bound; lia).
    replace (0 <? n / 128) with true by lia. cbv iota.
    cbn [length] in Hr.
    erewrite bind_ret by (apply store_room; eapply room_le; [done|lia]).
    rewrite to_uchar_char. unfold to_char.
    rewrite (Z.mod_small (n mod 128 + 128)), Z.add_simpl_r, lor_128 by lia.
    rewrite to_uchar_id by (unfold is_byte; lia).
    apply (room_padd _ _ _ 1) in Hr as Hr'; [|lia].
    rewrite padd_padd in Hr'. rewrite IH.
    + cbn [length]. f_equal. f_equal; [lia|].
      rewrite <- (mwrite_cons m _ _ (rl_digits _ _)) by done. by rewrite padd_padd.
    + intros ->. simpl in *. lia.
    + lia.
    + rewrite room_mwrite; [eapply room_le; [done|lia]| |lia].
      eapply room_le; [done|simpl; lia].
Qed.

Lemma MQTTPacket_encode_spec buf n m :
  0 <= n <= MAX_REMAINING -> room m buf (rl_size n) ->
  MQTTPacket_encode buf n m = Ret (rl_size n, mwrite m buf (remaining_length n)).
Proof.
  intros Hn Hr. unfold MQTTPacket_encode. pose proof (rl_digits_remaining 5 n ltac:(lia) Hn) as Hd.
  rewrite encode_loop_digits; rewrite ?Hd, ?length_remaining_length, ?padd_0; try done.
  unfold MAX_REMAINING in Hn. change (128 ^ Z.of_nat 5) with 34359738368. lia.
Qed.

Lemma writeRemaining_writes b P n :
  0 <= n <= MAX_REMAINING ->
  writes b P (fun p => writeRemaining p n) (remaining_length n).
Proof.
  intros Hn m o _ Hr. unfold writeRemaining. rewrite length_remaining_length in Hr.
  erewrite bind_ret by by apply MQTTPacket_encode_spec.
  by rewrite length_remaining_length.
Qed.

Lemma counted_copy_writes b src cs :
  ~ in_block src b -> Z.of_nat (length cs) < 65536 ->
  writes b (fun m => source_at m src cs)
    (fun p => q ← writeInt p (Z.of_nat (length cs));
              memcpy q src (Z.of_nat (length cs));;
              mret (padd q (Z.of_nat (length cs)))) (utf8 cs).
Proof.
  intros Hb Hlen.
  apply (writes_bind b _ _
    (fun q => memcpy q src (Z.of_nat (length cs));; mret (padd q (Z.of_nat (length cs))))).
  - intros m o bs ?. by eapply source_at_mwrite_ne.
  - apply writeInt_writes. lia.
  - apply writeBytes_writes; try done; lia.
Qed.

Lemma writeLiteral_writes b P s :
  Z.of_nat (length s) < 65536 -> writes b P (fun p => writeLiteral p s) (utf8 s).
Proof.
  intros Hlen. apply (writes_weaken _ (fun _ => True)); [done|].
  apply (writes_bind b _ (fun p => writeInt p (Z.of_nat (length s)))
    (fun q => store_bytes q s;; mret (padd q (Z.of_nat (length s))))); [done|..].
  - apply writeInt_writes. lia.
  - intros m o _ Hr. by erewrite bind_ret by by apply store_bytes_room.
Qed.

Lemma writeMQTTString_writes b (P : mem -> Prop) s cs :
  (forall m, P m -> mstring m b s cs) -> Z.of_nat (length cs) < 65536 ->
  writes b P (fun p => writeMQTTString p s) (utf8 cs).
Proof.
  intros HP Hlen m o Hm Hr. pose proof (HP m Hm) as Hs. unfold writeMQTTString.
  destruct Hs as [p d cs n [Hc H0] Hb Hn|d cs Hc Hb]; simpl.
  - replace (0 <? n) with false by lia. destruct p as [| |bp op]; [by destruct Hc as [? ?]..|].
    simpl. unfold writeCString. erewrite bind_ret by by apply strlen_at.
    replace (to_int (Z.of_nat (length cs))) with (Z.of_nat (length cs)) by conv_lia.
    apply counted_copy_writes; [done|done| |done]. right. by eapply bytes_at_app_l.
  - destruct (Z.ltb_spec 0 (Z.of_nat (length cs))) as [?|?]; [by apply counted_copy_writes|].
    destruct cs; [|simpl in *; lia]. by apply (writeInt_writes b P 0).
Qed.

(** ** Readers *)

Lemma readChar_at m p c bs :
  bytes_at m p (c :: bs) -> readChar p m = Ret ((to_char c, padd p 1), m).
Proof. intros H. unfold readChar. by erewrite bind_ret by by eapply load_at. Qed.

Lemma readByte_at m p c bs :
  is_byte c -> bytes_at m p (c :: bs) -> readByte p m = Ret ((c, padd p 1), m).
Proof.
  intros Hc H. unfold readByte. erewrite bind_ret by by eapply readChar_at. cbv iota beta.
  unfold mret, M_ret. by rewrite to_uchar_char, to_uchar_id.
Qed.

Lemma readInt_at m p n bs :
  0 <= n < 65536 -> bytes_at m p (u16 n ++ bs) -> readInt p m = Ret ((n, padd p 2), m).
Proof.
  intros Hn H. unfold readInt, u16 in *. simpl in H.
  pose proof (proj2 (proj1 (bytes_at_cons _ _ _ _) H)) as H'.
  erewrite bind_ret by exact (load_at _ _ _ _ H).
  erewrite bind_ret by exact (load_at _ _ _ _ H'). by rewrite u16_value.
Qed.

(** A string whose characters lie at a pointer into the buffer. *)
Definition lstring (n : Z) (p : ptr) : MQTTString := mkMQTTString NULL (mkLenString n p).

Lemma readMQTTLenString_at m s b o e cs bs :
  bytes_at m (Ptr b o) (utf8 cs ++ bs) -> Z.of_nat (length cs) < 65536 ->
  o + 2 + Z.of_nat (length cs) <= e ->
  readMQTTLenString s (Ptr b o) (Ptr b e) m =
  Ret ((1, lstring (Z.of_nat (length cs)) (Ptr b (o + 2)),
        Ptr b (o + 2 + Z.of_nat (length cs))), m).
Proof.
  intros H Hlen He. unfold readMQTTLenString. erewrite bind_ret by apply psub_same.
  decide_branch. unfold utf8 in H. rewrite <- app_assoc in H.
  erewrite bind_ret by (eapply readInt_at; [|done]; lia). simpl.
  erewrite bind_ret by apply psub_same. by decide_branch.
Qed.

(** A source that delivers, octet by octet, the octets [bs]. *)
Inductive delivers {T} (getfn : getfn_t T) : T -> list Z -> T -> Prop :=
| delivers_nil t : delivers getfn t [] t
| delivers_cons t c t1 bs t2 :
    getfn 1 t = Ret ((1, [c]), t1) -> delivers getfn t1 bs t2 ->
    delivers getfn t (c :: bs) t2.


(** One pass of the decoding loop. *)
Lemma pow128_step len : 0 <= len <= 3 -> 
  0 < 128 ^ len /\ 128 ^ (len + 1) = 128 * 128 ^ len /\ 128 * 128 ^ len <= 268435456.
Proof.
  intros Hl. split; [apply Z.pow_pos_nonneg; lia|].
  rewrite Z.add_1_r, Z.pow_succ_r by lia. split; [done|].
  assert (128 ^ len <= 128 ^ 3) by (apply Z.pow_le_mono_r; lia). lia.
Qed.

Section decode_lemmas.
Context {T : Type} (getcharfn : getfn_t T).

Lemma decode_loop_step fuel len value t c cs t' :
  getcharfn 1 t = Ret ((1, c :: cs), t') -> is_byte c ->
  0 <= len <= 3 -> 0 <= value < 128 ^ len ->
  MQTTPacket_decode_loop getcharfn (S fuel) (128 ^ len) len value t =
  let value' := value + c mod 128 * 128 ^ len in
  if 128 <=? c
  then MQTTPacket_decode_loop getcharfn fuel (128 ^ (len + 1)) (len + 1) value' t'
  else Ret ((len + 1, value'), t').
Proof.
  intros Hg Hc Hl Hv. destruct (pow128_step len Hl) as (? & Hp & ?).
  cbn [MQTTPacket_decode_loop]. unfold MAX_NO_OF_REMAINING_LENGTH_BYTES.
  replace (4 <? len + 1) with false by lia. erewrite bind_ret by exact Hg. simpl.
  rewrite land_127, (land_128 c Hc).
  pose proof (Z.mod_pos_bound c 128 ltac:(lia)).
  erewrite bind_ret by (apply int_result_ok; unfold INT_MIN, INT_MAX; nia).
  erewrite bind_ret by (apply int_result_ok; unfold INT_MIN, INT_MAX; lia).
  rewrite Hp, (Z.mul_comm 128). by destruct (128 <=? c).
Qed.

Lemma decode_value_step len value c :
  0 <= len <= 3 -> 0 <= value < 128 ^ len ->
  0 <= value + c mod 128 * 128 ^ len < 128 ^ (len + 1).
Proof.
  intros Hl Hv. destruct (pow128_step len Hl) as (? & -> & ?).
  pose proof (Z.mod_pos_bound c 128 ltac:(lia)). nia.
Qed.

Lemma decode_loop_digits k fuel len value n t t' :
  k ≠ 0%nat -> (k <= fuel)%nat -> 0 <= len -> len + Z.of_nat k <= 4 ->
  0 <= value < 128 ^ len -> 0 <= n < 128 ^ Z.of_nat k ->
  delivers getcharfn t (rl_digits k n) t' ->
  MQTTPacket_decode_loop getcharfn fuel (128 ^ len) len value t =
  Ret ((len + Z.of_nat (length (rl_digits k n)), value + n * 128 ^ len), t').
Proof.
  revert fuel len value n t. induction k as [|k IH]; intros fuel len value n t Hk Hf Hl Hl' Hv Hn Hd; [done|].
  destruct fuel as [|fuel]; [lia|]. rewrite Nat2Z.inj_succ, Z.pow_succ_r in Hn by lia.
  cbn [rl_digits] in *. destruct (Z.ltb_spec n 128) as [Hlt|Hge]; inversion Hd as [|? ? ? ? ? Hg Hd']; subst.
  - inversion Hd'; subst. erewrite decode_loop_step by (eauto; unfold is_byte; lia). simpl.
    replace (128 <=? n) with false by lia. by rewrite Z.mod_small by lia.
  - pose proof (Z.mod_pos_bound n 128 ltac:(lia)).
    assert (0 < n / 128 < 128 ^ Z.of_nat k).
    { split; [apply Z.div_str_pos; lia|]. apply Z.div_lt_upper_bound; lia. }
    erewrite decode_loop_step by (eauto; unfold is_byte; lia). simpl.
    replace (128 <=? n mod 128 + 128) with true by lia.
    rewrite (IH _ _ _ (n / 128)); [| |lia|lia|lia| |lia|done].
    + cbn [length]. do 3 f_equal; [lia|]. destruct (pow128_step len) as (? & -> & ?); [lia|].
      replace ((n mod 128 + 128) mod 128) with (n mod 128) by (Z.div_mod_to_equations; lia).
      rewrite (Z.div_mod n 128) at 3 by lia. ring.
    + intros ->. simpl in *. lia.
    + apply decode_value_step; lia.
Qed.

Lemma MQTTPacket_decode_spec n t t' :
  0 <= n <= MAX_REMAINING -> delivers getcharfn t (remaining_length n) t' ->
  MQTTPacket_decode getcharfn t = Ret ((rl_size n, n), t').
Proof.
  intros Hn Hd. rewrite <- (rl_digits_remaining 4) in Hd by (done || lia).
  unfold MQTTPacket_decode. change 1 with (128 ^ 0) at 1.
  rewrite (decode_loop_digits 4 5 0 0 n t t'); try done; try lia.
  2: { change (128 ^ Z.of_nat 4) with 268435456. unfold MAX_REMAINING in Hn. lia. }
  rewrite rl_digits_remaining, length_remaining_length by (done || lia).
  do 2 f_equal. simpl. f_equal. lia.
Qed.

(** Whatever the source delivers, the loop stops after at most five octets with
    a value in range, and no [int] operation overflows. *)
Lemma decode_loop_total fuel len value t :
  (forall t, exists rc cs t', getcharfn 1 t = Ret ((rc, cs), t') /\
     (rc = 1 -> exists c cs', cs = c :: cs' /\ is_byte c)) ->
  0 <= len <= 4 -> 4 - len < Z.of_nat fuel -> 0 <= value < 128 ^ len ->
  exists l v t', MQTTPacket_decode_loop getcharfn fuel (128 ^ len) len value t = Ret ((l, v), t') /\
    len < l <= 5 /\ 0 <= v <= MAX_REMAINING.
Proof.
  intros Hsrc. revert len value t. induction fuel as [|fuel IH]; intros len value t Hl Hf Hv; [lia|].
  assert (128 ^ len <= 128 ^ 4) by (apply Z.pow_le_mono_r; lia).
  change (128 ^ 4) with 268435456 in *.
  destruct (decide (len = 4)) as [->|].
  { exists 5, value, t. split; [done|]. unfold MAX_REMAINING. lia. }
  destruct (Hsrc t) as (rc & cs & t1 & Hg & Hc). destruct (decide (rc = 1)) as [->|Hrc].
  - destruct (Hc eq_refl) as (c & cs' & -> & Hb).
    erewrite decode_loop_step by (eauto; lia). simpl.
    pose proof (decode_value_step len value c ltac:(lia) Hv) as Hv'.
    destruct (128 <=? c).
    + destruct (IH (len + 1) _ t1 ltac:(lia) ltac:(lia) Hv') as (l & v & t2 & -> & ? & ?).
      exists l, v, t2. split; [done|]. lia.
    + eexists _, _, t1. split; [done|]. destruct (pow128_step len) as (? & Hp & ?); [lia|].
      unfold MAX_REMAINING. lia.
  - exists (len + 1), value, t1. split; [|unfold MAX_REMAINING; lia].
    cbn [MQTTPacket_decode_loop]. unfold MAX_NO_OF_REMAINING_LENGTH_BYTES.
    replace (4 <? len + 1) with false by lia. erewrite bind_ret by exact Hg. simpl.
    destruct (Z.eqb_spec rc 1); done.
Qed.
End decode_lemmas.

Lemma bufchar_at m p c bs :
  bytes_at m p (c :: bs) -> bufchar 1 (m, p) = Ret ((1, [c]), (m, padd p 1)).
Proof. intros H. unfold bufchar, mbind, M_bind. simpl. by rewrite (load_at _ _ _ _ H). Qed.

Lemma bufchar_delivers m p bs :
  bytes_at m p bs -> delivers bufchar (m, p) bs (m, padd p (Z.of_nat (length bs))).
Proof.
  revert p. induction bs as [|c bs IH]; intros p H; [rewrite padd_0; constructor|].
  econstructor; [by eapply bufchar_at|].
  apply bytes_at_cons in H as [_ H]. apply IH in H. rewrite padd_padd in H.
  cbn [length]. by replace (Z.of_nat (S (length bs))) with (1 + Z.of_nat (length bs)) by lia.
Qed.

Lemma MQTTPacket_decodeBuf_at m p n bs :
  0 <= n <= MAX_REMAINING -> bytes_at m p (remaining_length n ++ bs) ->
  MQTTPacket_decodeBuf p m = Ret ((rl_size n, n), m).
Proof.
  intros Hn H. unfold MQTTPacket_decodeBuf.
  by erewrite MQTTPacket_decode_spec by (done || eapply bufchar_delivers, bytes_at_app_l, H).
Qed.

Lemma decode_loop_bounds {T} (getcharfn : getfn_t T) (I : T -> Prop) fuel len value t l v t' :
  (forall t rc cs t', I t -> getcharfn 1 t = Ret ((rc, cs), t') ->
     I t' /\ forall c cs', rc = 1 -> cs = c :: cs' -> is_byte c) ->
  I t -> 0 <= len <= 4 -> 0 <= value < 128 ^ len ->
  MQTTPacket_decode_loop getcharfn fuel (128 ^ len) len value t = Ret ((l, v), t') ->
  I t' /\ len < l <= 5 /\ 0 <= v <= MAX_REMAINING.
Proof.
  intros Hsrc. revert len value t. induction fuel as [|fuel IH]; intros len value t HI Hl Hv; [done|].
  assert (128 ^ len <= 128 ^ 4) by (apply Z.pow_le_mono_r; lia).
  change (128 ^ 4) with 268435456 in *. unfold MAX_REMAINING in *.
  destruct (decide (len = 4)) as [->|]; [simpl; intros [= <- <- <-]; split; [done|lia]|].
  destruct (getcharfn 1 t) as [[[rc cs] t1]| |] eqn:Hg.
  2-3: cbn [MQTTPacket_decode_loop]; unfold MAX_NO_OF_REMAINING_LENGTH_BYTES;
    replace (4 <? len + 1) with false by lia; unfold mbind, M_bind; by rewrite Hg.
  destruct (Hsrc _ _ _ _ HI Hg) as [HI' Hc]. destruct (decide (rc = 1)) as [->|Hrc].
  - destruct cs as [|c cs].
    { cbn [MQTTPacket_decode_loop]. unfold MAX_NO_OF_REMAINING_LENGTH_BYTES.
      replace (4 <? len + 1) with false by lia. by erewrite bind_ret by exact Hg. }
    erewrite decode_loop_step by (eauto; lia). simpl.
    pose proof (decode_value_step len value c ltac:(lia) Hv) as Hv'.
    destruct (128 <=? c).
    + intros H'. apply IH in H' as (? & ? & ?); [split; [done|lia]|done|lia|done].
    + intros [= <- <- <-]. split; [done|]. destruct (pow128_step len) as (? & Hp & ?); lia.
  - cbn [MQTTPacket_decode_loop]. unfold MAX_NO_OF_REMAINING_LENGTH_BYTES.
    replace (4 <? len + 1) with false by lia. erewrite bind_ret by exact Hg. simpl.
    destruct (Z.eqb_spec rc 1); [done|]. intros [= <- <- <-]. split; [done|lia].
Qed.

Lemma MQTTPacket_decodeBuf_inv m p l v m' :
  wf_mem m -> MQTTPacket_decodeBuf p m = Ret ((l, v), m') ->
  m' = m /\ 1 <= l <= 5 /\ 0 <= v <= MAX_REMAINING.
Proof.
  intros Hm. unfold MQTTPacket_decodeBuf.
  destruct (MQTTPacket_decode bufchar (m, p)) as [[[l1 v1] [m1 p1]]| |] eqn:E; [|done|done].
  intros [= <- <- <-]. unfold MQTTPacket_decode in E.
  apply (decode_loop_bounds _ (fun s => fst s = m)) with (len := 0) in E.
  - destruct E as (? & ? & ?). split; [done|lia].
  - intros [m2 q] rc cs t' Hm2. simpl in Hm2. subst m2. unfold bufchar, mbind, M_bind. simpl.
    destruct (load q m) as [[v m2]| |] eqn:El; [|done|done]. intros [= <- <- <-].
    apply load_inv in El as [-> Hq]. split; [done|]. intros c cs' _ [= <- <-].
    apply (wf_mem_bytes_at _ _ _ Hm) in Hq. by apply Forall_cons in Hq as [? _].
  - done.
  - lia.
  - simpl. lia.
Qed.

(** ** Lengths *)

Lemma MQTTPacket_len_spec n m :
  0 <= n <= MAX_REMAINING -> exists L, MQTTPacket_len n m = Ret (L, m) /\
    1 + rl_size n + n <= L <= 2 + rl_size n + n.
Proof.
  intros Hn. unfold MQTTPacket_len, rl_size, MAX_REMAINING in *.
  erewrite bind_ret by (apply int_result_ok; unfold INT_MIN, INT_MAX; lia).
  repeat case_match; (eexists; split; [apply int_result_ok; unfold INT_MIN, INT_MAX; lia|lia]).
Qed.

Lemma MQTTstrlen_spec m b s cs :
  mstring m b s cs -> Z.of_nat (length cs) <= INT_MAX ->
  MQTTstrlen s m = Ret (Z.of_nat (length cs), m).
Proof.
  intros Hs Hlen. unfold MQTTstrlen. destruct Hs as [p d cs n [Hc H0] Hb Hn|d cs Hc Hb]; simpl; [|done].
  destruct p as [| |bp op]; [by destruct Hc as [? ?]..|]. simpl.
  erewrite bind_ret by by apply strlen_at. unfold mret, M_ret. do 2 f_equal. conv_lia.
Qed.

(** [s] denotes the characters [cs]. *)
Definition denotes (m : mem) (s : MQTTString) (cs : list Z) : Prop :=
  if is_null (cstring s)
  then len (lenstring s) = Z.of_nat (length cs) /\ source_at m (data (lenstring s)) cs
  else cstr_at m (cstring s) cs.

(** ** The header octet *)

Lemma header_byte t d q r :
  MQTTHeader.set_retain r (MQTTHeader.set_qos q (MQTTHeader.set_dup d (MQTTHeader.set_type t 0))) =
  fixed_header (t mod 16) (d mod 2) (q mod 4) (r mod 2).
Proof.
  unfold fixed_header, MQTTHeader.set_retain, MQTTHeader.set_qos, MQTTHeader.set_dup, MQTTHeader.set_type.
  rewrite (set_bits_add 4) by (lia || done).
  rewrite (set_bits_add 3) by (lia || rewrite get_bits_mod by lia; Z.div_mod_to_equations; lia).
  rewrite (set_bits_add 1) by (lia || rewrite get_bits_mod by lia; Z.div_mod_to_equations; lia).
  rewrite (set_bits_add 0) by (lia || rewrite get_bits_mod by lia; Z.div_mod_to_equations; lia).
  pow2. lia.
Qed.

(** Only the type, or all but the retain flag, assigned. *)
Lemma header_byte_type t : MQTTHeader.set_type t 0 = fixed_header (t mod 16) 0 0 0.
Proof.
  unfold fixed_header, MQTTHeader.set_type. rewrite (set_bits_add 4) by (lia || done).
  pow2. lia.
Qed.

Lemma header_byte_qos t d q :
  MQTTHeader.set_qos q (MQTTHeader.set_dup d (MQTTHeader.set_type t 0)) =
  fixed_header (t mod 16) (d mod 2) (q mod 4) 0.
Proof.
  unfold fixed_header, MQTTHeader.set_qos, MQTTHeader.set_dup, MQTTHeader.set_type.
  rewrite (set_bits_add 4) by (lia || done).
  rewrite (set_bits_add 3) by (lia || rewrite get_bits_mod by lia; Z.div_mod_to_equations; lia).
  rewrite (set_bits_add 1) by (lia || rewrite get_bits_mod by lia; Z.div_mod_to_equations; lia).
  pow2. lia.
Qed.

Lemma fixed_header_fields t d q r :
  0 <= t < 16 -> 0 <= d < 2 -> 0 <= q < 4 -> 0 <= r < 2 ->
  let h := fixed_header t d q r in
  is_byte h /\ MQTTHeader.type h = t /\ MQTTHeader.dup h = d /\ MQTTHeader.qos h = q /\
  MQTTHeader.retain h = r.
Proof.
  intros. unfold h, MQTTHeader.type, MQTTHeader.dup, MQTTHeader.qos, MQTTHeader.retain, fixed_header, is_byte.
  rewrite !get_bits_mod by lia.
  pow2. split_and!; Z.div_mod_to_equations; lia.
Qed.

(** The start of a packet in a buffer: its header octet and remaining length. *)
Lemma frame_at m b o h body rest :
  is_byte h -> Z.of_nat (length body) <= MAX_REMAINING ->
  bytes_at m (Ptr b o) (frame h body ++ rest) ->
  let n := Z.of_nat (length body) in
  readByte (Ptr b o) m = Ret ((h, Ptr b (o + 1)), m) /\
  MQTTPacket_decodeBuf (Ptr b (o + 1)) m = Ret ((rl_size n, n), m) /\
  bytes_at m (Ptr b (o + 1 + rl_size n)) (body ++ rest).
Proof.
  intros Hh Hn H n. unfold frame in H. rewrite <- app_comm_cons, <- app_assoc in H.
  split; [by eapply readByte_at|]. apply bytes_at_cons in H as [_ H]. simpl in H.
  split; [eapply MQTTPacket_decodeBuf_at; [lia|done]|].
  apply bytes_at_app in H as [_ H]. by rewrite length_remaining_length in H.
Qed.

(** The string read at a cursor, and the cursor after it. *)
Lemma read_string m b o e s cs rest :
  bytes_at m (Ptr b o) (utf8 cs ++ rest) -> Z.of_nat (length cs) < 65536 ->
  o + Z.of_nat (length (utf8 cs)) <= e ->
  exists s', readMQTTLenString s (Ptr b o) (Ptr b e) m =
    Ret ((1, s', Ptr b (o + Z.of_nat (length (utf8 cs)))), m) /\ denotes m s' cs /\
  bytes_at m (Ptr b (o + Z.of_nat (length (utf8 cs)))) rest.
Proof.
  intros H Hlen He. rewrite length_utf8 in *. eexists. split.
  - erewrite readMQTTLenString_at; [|done|done|lia]. do 4 f_equal. lia.
  - split.
    + split; [done|]. right. unfold utf8 in H. rewrite <- app_assoc in H.
      apply bytes_at_app in H as [_ H]. by apply bytes_at_app_l in H.
    + apply bytes_at_app in H as [_ H]. by rewrite length_utf8 in H.
Qed.

Lemma decode_loop_not_nofuel {T} (getcharfn : getfn_t T) fuel multiplier len value t :
  (forall t, getcharfn 1 t ≠ NoFuel) -> 4 - len < Z.of_nat fuel -> 0 <= len <= 4 ->
  MQTTPacket_decode_loop getcharfn fuel multiplier len value t ≠ NoFuel.
Proof.
  intros Hg. revert multiplier len value t. induction fuel as [|fuel IH]; intros multiplier len value t Hf Hl; [lia|].
  simpl. unfold MAX_NO_OF_REMAINING_LENGTH_BYTES. destruct (Z.ltb_spec 4 (len + 1)); [done|].
  apply bind_not_nofuel; [apply Hg|]. intros [rc cs] t' _. destruct (negb (rc =? 1)); [done|].
  destruct cs as [|c cs]; [done|]. do 2 (apply bind_not_nofuel; [auto with total|]; intros ? ? _).
  destruct (negb _); [|done]. apply IH; lia.
Qed.

Lemma MQTTPacket_decodeBuf_not_nofuel p m : MQTTPacket_decodeBuf p m ≠ NoFuel.
Proof.
  unfold MQTTPacket_decodeBuf, MQTTPacket_decode.
  pose proof (decode_loop_not_nofuel bufchar 5 1 0 0 (m, p)) as H.
  destruct (MQTTPacket_decode_loop bufchar 5 1 0 0 (m, p)) as [[? [? ?]]| |]; [done|done|].
  exfalso. apply H; [|lia|lia|done]. intros [m' p'].
  unfold bufchar, mbind, M_bind. simpl. pose proof (load_not_nofuel p' m').
  by destruct (load p' m') as [[? ?]| |].
Qed.

#[export] Hint Resolve MQTTPacket_decodeBuf_not_nofuel : total.

Lemma readChar_not_nofuel p m : readChar p m ≠ NoFuel.
Proof. apply bind_not_nofuel; [apply load_not_nofuel|done]. Qed.

Lemma readByte_not_nofuel p m : readByte p m ≠ NoFuel.
Proof. apply bind_not_nofuel; [apply readChar_not_nofuel|]. by intros [? ?] ? _. Qed.

Lemma readInt_not_nofuel p m : readInt p m ≠ NoFuel.
Proof.
  apply bind_not_nofuel; [apply load_not_nofuel|]. intros ? ? _.
  apply bind_not_nofuel; [apply load_not_nofuel|done].
Qed.

Lemma readMQTTLenString_not_nofuel s p e m : readMQTTLenString s p e m ≠ NoFuel.
Proof.
  apply bind_not_nofuel; [apply psub_not_nofuel|]. intros l ? _. destruct (1 <? l); [|done].
  apply bind_not_nofuel; [apply readInt_not_nofuel|]. intros [? ?] ? _.
  apply bind_not_nofuel; [apply psub_not_nofuel|]. intros v ? _. by destruct (v <=? 0).
Qed.

#[export] Hint Resolve readChar_not_nofuel readByte_not_nofuel readInt_not_nofuel
  readMQTTLenString_not_nofuel : total.

(** A packet with a one-octet remaining length. *)
Lemma short_header_at m b o h n rest :
  is_byte h -> 0 <= n < 128 -> bytes_at m (Ptr b o) (h :: n :: rest) ->
  readByte (Ptr b o) m = Ret ((h, Ptr b (o + 1)), m) /\
  MQTTPacket_decodeBuf (Ptr b (o + 1)) m = Ret ((1, n), m) /\
  bytes_at m (Ptr b (o + 2)) rest.
Proof.
  intros Hh Hn H. split; [by eapply readByte_at|]. apply bytes_at_cons in H as [_ H]. simpl in H. split.
  - replace 1 with (rl_size n) at 2 by (unfold rl_size; by decide_branch).
    eapply (MQTTPacket_decodeBuf_at _ _ n rest); [unfold MAX_REMAINING; lia|].
    unfold remaining_length. decide_branch. exact H.
  - apply bytes_at_cons in H as [_ H]. eapply bytes_at_eq; [exact H|lia].
Qed.

Lemma MQTTPacket_equals_run m a cs bptr s :
  denotes m a cs -> cstr_at m bptr s ->
  Z.of_nat (length cs) <= INT_MAX -> Z.of_nat (length s) <= INT_MAX ->
  MQTTPacket_equals a bptr m = Ret (of_bool (bool_decide (cs = s)), m).
Proof.
  intros Ha Hb Hlc Hls. unfold MQTTPacket_equals.
  set (src := if is_null (cstring a) then data (lenstring a) else cstring a).
  assert (source_at m src cs) as Hsrc.
  { unfold denotes, src in *. destruct (is_null (cstring a)); [by destruct Ha|].
    right. destruct Ha as [Ha _]. by eapply bytes_at_app_l. }
  rewrite (bind_ret _ _ _ (src, Z.of_nat (length cs)) m).
  2: { unfold denotes, src in *. destruct (is_null (cstring a)); simpl.
       - by destruct Ha as [-> _].
       - erewrite bind_ret by by apply strlen_at. unfold mret, M_ret. do 3 f_equal. conv_lia. }
  erewrite bind_ret by by apply strlen_at.
  replace (to_int (Z.of_nat (length s))) with (Z.of_nat (length s)) by conv_lia.
  destruct (Z.eqb_spec (Z.of_nat (length cs)) (Z.of_nat (length s))) as [E|E].
  - destruct (strncmp_at m src bptr cs s) as (r & Hr & Hr0); [done|done|lia|unfold INT_MAX in *; lia|].
    erewrite bind_ret by exact Hr. unfold mret, M_ret. do 3 f_equal.
    destruct (Z.eqb_spec r 0); symmetry; case_bool_decide; naive_solver.
  - rewrite bool_decide_eq_false_2; [done|]. intros ->. done.
Qed.

(** ** Properties *)

(** C1: the remaining length round-trips through a buffer: what MQTTPacket_encode
    stores, MQTTPacket_decodeBuf reads back with the same number of octets, for
    every length the protocol allows; the octets are those of the protocol. *)
Theorem MQTTPacket_encode_decode n m p :
  0 <= n <= MAX_REMAINING -> room m p (rl_size n) ->
  exists m', MQTTPacket_encode p n m = Ret (rl_size n, m') /\
    bytes_at m' p (remaining_length n) /\
    MQTTPacket_decodeBuf p m' = Ret ((rl_size n, n), m').
Proof.
  intros Hn Hr. eexists. split; [by apply MQTTPacket_encode_spec|].
  assert (bytes_at (mwrite m p (remaining_length n)) p (remaining_length n)) as Hb.
  { apply bytes_at_mwrite_eq. by rewrite length_remaining_length. }
  split; [done|]. apply (MQTTPacket_decodeBuf_at _ _ _ []); [done|]. by rewrite app_nil_r.
Qed.

Lemma MQTTPacket_encode_decode_witness :
  exists m', MQTTPacket_encode (Ptr 1 0) 321 {[1%positive := [0; 0; 0; 0]]} = Ret (2, m') /\
    bytes_at m' (Ptr 1 0) [193; 2] /\
    MQTTPacket_decodeBuf (Ptr 1 0) m' = Ret ((2, 321), m').
Proof.
  apply (MQTTPacket_encode_decode 321 {[1%positive := [0; 0; 0; 0]]} (Ptr 1 0)).
  - unfold MAX_REMAINING. lia.
  - exists [0; 0; 0; 0]. split; [reflexivity|vm_compute; discriminate].
Defined.



(** MQTTPacket_len never underestimates the size of a packet, and
    overestimates it, by one octet, exactly for the remaining lengths 127, 16383,
    2097150 and 2097151. *)
Theorem MQTTPacket_len_bound n m :
  0 <= n <= MAX_REMAINING ->
  MQTTPacket_len n m =
  Ret (1 + rl_size n + n +
       of_bool (bool_decide (n ∈ [127; 16383; 2097150; 2097151])), m).
Proof.
  intros Hn. unfold MQTTPacket_len, rl_size, MAX_REMAINING in *.
  erewrite bind_ret by (apply int_result_ok; unfold INT_MIN, INT_MAX; lia).
  destruct (decide (n ∈ [127; 16383; 2097150; 2097151])) as [Hi|Hi].
  - rewrite bool_decide_eq_true_2 by done. rewrite !elem_of_cons in Hi.
    by destruct Hi as [->|[->|[->|[->|[]%elem_of_nil]]]].
  - rewrite bool_decide_eq_false_2 by done. simpl.
    rewrite !not_elem_of_cons in Hi. destruct Hi as (? & ? & ? & ? & _).
    repeat case_match; rewrite int_result_ok by (unfold INT_MIN, INT_MAX; lia); do 2 f_equal; lia.
Qed.

Lemma MQTTPacket_len_bound_witness :
  MQTTPacket_len 127 ∅ = Ret (130, ∅).
Proof. apply (MQTTPacket_len_bound 127 ∅). unfold MAX_REMAINING. lia. Defined.

(** MQTTPacket_equals decides the equality of the characters an MQTTString
    (C string or counted) and a C string stand for. *)
Theorem MQTTPacket_equals_spec m a cs bptr s :
  denotes m a cs -> cstr_at m bptr s ->
  Z.of_nat (length cs) <= INT_MAX -> Z.of_nat (length s) <= INT_MAX ->
  MQTTPacket_equals a bptr m = Ret (of_bool (bool_decide (cs = s)), m).
Proof. apply MQTTPacket_equals_run. Qed.

Lemma MQTTPacket_equals_spec_witness :
  let m : mem := {[1%positive := [97; 47; 98; 0]; 2%positive := [9; 97; 47; 98; 7]]} in
  MQTTPacket_equals (lstring 3 (Ptr 2 1)) (Ptr 1 0) m = Ret (1, m).
Proof.
  intros m. apply (MQTTPacket_equals_spec m (lstring 3 (Ptr 2 1)) [97; 47; 98] (Ptr 1 0) [97; 47; 98]).
  - split; [reflexivity|]. right. exists [7]. reflexivity.
  - split; [exists []; reflexivity|]. apply (bool_decide_unpack _). vm_compute. exact I.
  - vm_compute. discriminate.
  - vm_compute. discriminate.
Defined.
