(* ===== verification/PacketRead.v ===== *)
(** * Reading packets

    Correctness of the two readers of MQTTPacket.c modelled in Packet.v:
    MQTTPacket_read, for a blocking transport, and MQTTPacket_readnb, which
    returns 0 ("call again") whenever the transport has nothing to offer and
    resumes where it stopped. *)

From S2P Require Import Prelude Memory Wire Packet.

(** ** Non-blocking sources

    What MQTTPacket_readnb relies on: the source holds a stream of octets, a
    request for [n] octets gets some of the next ones, possibly none, and it does
    not answer "none" for ever while there are octets to come. *)
Class StreamSource {T : Type} (getfn : getfn_t T) : Type := {
  pending : T -> list Z;
  patience : T -> nat;
  source_law : forall t n, 0 < n -> pending t ≠ [] ->
    exists k t', getfn n t = Ret ((Z.of_nat k, take k (pending t)), t') /\
      Z.of_nat k <= n /\ (k <= length (pending t))%nat /\ pending t' = drop k (pending t) /\
      (k = 0%nat -> (patience t' < patience t)%nat)
}.

(** The stream cut into pieces, of which a request gets one at most; an empty
    piece is a moment without data. *)
Definition chunks_getfn : getfn_t (list (list Z)) := fun n t =>
  match t with
  | [] => Ret ((0, []), [])
  | c :: cs =>
      let k := Nat.min (Z.to_nat n) (length c) in
      match c with
      | [] => Ret ((0, []), cs)
      | _ => Ret ((Z.of_nat k, take k c), drop k c :: cs)
      end
  end.

Fixpoint leading_empty (t : list (list Z)) : nat :=
  match t with
  | [] :: cs => S (leading_empty cs)
  | _ => O
  end.

#[export] Instance chunks_source : StreamSource chunks_getfn.
Proof.
  refine {| pending := @concat Z; patience := leading_empty |}.
  intros [|[|x c] cs] n Hn Hp; [done| |].
  - exists 0%nat, cs. simpl. rewrite take_0, drop_0. split_and!; try done; lia.
  - set (k := Nat.min (Z.to_nat n) (length (x :: c))).
    assert (1 <= k <= length (x :: c))%nat by (unfold k; simpl; lia).
    exists k, (drop k (x :: c) :: cs). cbn [concat].
    rewrite take_app_le, drop_app_le, length_app by lia. unfold k. split_and!; try done; lia.
Defined.

(** The caller's loop: call again while the result is 0. *)
Fixpoint poll {T} (getfn : getfn_t T) (fuel : nat) (buf : ptr) (buflen : Z) (trp : MQTTTransport) :
    M (mem * T) (Z * MQTTTransport) :=
  match fuel with
  | O => nofuel
  | S fuel =>
      '(rc, trp) ← MQTTPacket_readnb getfn buf buflen trp;
      if rc =? 0 then poll getfn fuel buf buflen trp else mret (rc, trp)
  end.

Section readnb.
Context {T : Type} (getfn : getfn_t T) `{!StreamSource getfn}.

(** The stream got shorter, or is the same with less waiting to come. *)
Definition less (t' t : T) : Prop :=
  (length (pending t') < length (pending t))%nat \/
  (pending t' = pending t /\ (patience t' < patience t)%nat).

Lemma less_trans t1 t2 t3 : less t1 t2 -> less t2 t3 -> less t1 t3.
Proof. unfold less. intros [?|[-> ?]] [?|[E ?]]; rewrite ?E in *; auto with lia. Qed.

Lemma less_ind (P : T -> Prop) : (forall t, (forall t', less t' t -> P t') -> P t) -> forall t, P t.
Proof.
  intros HP t. remember (length (pending t)) as n eqn:En. revert t En.
  induction n as [n IHn] using lt_wf_ind. intros t ->.
  remember (patience t) as k eqn:Ek. revert t Ek IHn.
  induction k as [k IHk] using lt_wf_ind. intros t -> IHn.
  apply HP. intros t' [Hl|[El Hp]]; [by eapply IHn|].
  eapply IHk; [done|done|]. by rewrite El.
Qed.

(** A request while octets are to come. *)
Lemma request t n m :
  0 < n -> pending t ≠ [] -> exists k t',
    on_transport (getfn n) (m, t) = Ret ((Z.of_nat k, take k (pending t)), (m, t')) /\
    Z.of_nat k <= n /\ (k <= length (pending t))%nat /\ pending t' = drop k (pending t) /\ less t' t.
Proof.
  intros Hn Hp. destruct (source_law t n Hn Hp) as (k & t' & E & Hk & Hl & Ep & Hpat).
  exists k, t'. unfold on_transport. rewrite E. split_and!; try done.
  destruct k as [|k].
  - right. rewrite Ep, drop_0. auto.
  - left. rewrite Ep, length_drop. lia.
Qed.

(** A request for one octet. *)
Lemma request_one t m c s :
  pending t = c :: s -> exists t', less t' t /\
    ((on_transport (getfn 1) (m, t) = Ret ((0, []), (m, t')) /\ pending t' = c :: s) \/
     (on_transport (getfn 1) (m, t) = Ret ((1, [c]), (m, t')) /\ pending t' = s)).
Proof.
  intros Hp. destruct (request t 1 m) as (k & t' & E & Hk & _ & Ep & Hless); [lia|by rewrite Hp|].
  exists t'. split; [done|]. rewrite Hp in *.
  destruct k as [|[|k]]; [left|right|lia]; (split; [by rewrite E|by rewrite Ep]).
Qed.

(** The remaining length is resumed with [d] digits to come: [value] of the ones
    read so far, [n'] of the others. *)
Record digits (total : Z) (d : nat) (value n' : Z) : Prop := mkDigits {
  dg_range : (1 <= d <= 4)%nat;
  dg_value : 0 <= value < 128 ^ (4 - Z.of_nat d);
  dg_rest : 0 <= n' < 128 ^ Z.of_nat d;
  dg_total : value + n' * 128 ^ (4 - Z.of_nat d) = total
}.

Definition digit_state (st : Z) (d : nat) (value : Z) : MQTTTransport :=
  mkTransport (128 ^ (4 - Z.of_nat d)) value (4 - Z.of_nat d) st.

Lemma digits_next total d value n' :
  digits total d value n' -> 128 <= n' ->
  digits total (pred d) (value + n' mod 128 * 128 ^ (4 - Z.of_nat d)) (n' / 128).
Proof.
  intros [Hd Hv Hn Ht] Hge.
  assert (2 <= d)%nat as Hd2.
  { destruct d as [|[|d]]; [lia| |lia]. change (128 ^ Z.of_nat 1) with 128 in Hn. lia. }
  assert (4 - Z.of_nat (pred d) = (4 - Z.of_nat d) + 1) as E4 by lia.
  assert (128 ^ Z.of_nat d = 128 ^ Z.of_nat (pred d) * 128) as Ed.
  { rewrite Z.mul_comm, <- Z.pow_succ_r by lia. f_equal. lia. }
  pose proof (decode_value_step (4 - Z.of_nat d) value n' ltac:(lia) Hv).
  constructor; rewrite ?E4; [lia|done| |].
  - split; [apply Z.div_pos; lia|]. apply Z.div_lt_upper_bound; lia.
  - destruct (pow128_step (4 - Z.of_nat d)) as (_ & -> & _); [lia|]. rewrite <- Ht.
    rewrite (Z.div_mod n' 128) at 3 by lia. ring.
Qed.

(** An octet of the remaining length arrives. *)
Lemma decodenb_loop_step fuel st d value n' t m t' c :
  digits (value + n' * 128 ^ (4 - Z.of_nat d)) d value n' ->
  on_transport (getfn 1) (m, t) = Ret ((1, [c]), (m, t')) -> is_byte c ->
  MQTTPacket_decodenb_loop getfn (S fuel) (digit_state st d value) (m, t) =
  let trp := mkTransport (128 ^ (4 - Z.of_nat d + 1)) (value + c mod 128 * 128 ^ (4 - Z.of_nat d))
               (4 - Z.of_nat d + 1) st in
  if 128 <=? c then MQTTPacket_decodenb_loop getfn fuel trp (m, t')
  else Ret ((4 - Z.of_nat d + 1, trp), (m, t')).
Proof.
  intros [Hd Hv _ _] Hg Hc. destruct (pow128_step (4 - Z.of_nat d)) as (? & Hp & ?); [lia|].
  cbn [MQTTPacket_decodenb_loop digit_state trp_len trp_rem_len trp_multiplier trp_state].
  unfold MAX_NO_OF_REMAINING_LENGTH_BYTES. replace (4 <=? _) with false by lia.
  erewrite bind_ret by exact Hg. cbn. rewrite land_127, (land_128 c Hc).
  pose proof (Z.mod_pos_bound c 128 ltac:(lia)).
  erewrite bind_ret by (apply int_result_ok; unfold INT_MIN, INT_MAX; lia).
  erewrite bind_ret by (apply int_result_ok; unfold INT_MIN, INT_MAX; nia).
  erewrite bind_ret by (apply int_result_ok; unfold INT_MIN, INT_MAX; lia).
  rewrite Hp, (Z.mul_comm 128). by destruct (128 <=? c).
Qed.

(** What a call of MQTTPacket_decodenb came to: all the digits were read, or it
    stopped with some to come. *)
Inductive decodenb_result (total st : Z) (tail : list Z) (m : mem) (t : T) :
    outcome (Z * MQTTTransport * (mem * T)) -> Prop :=
| decodenb_done l mult t' :
    0 < l -> pending t' = tail -> less t' t ->
    decodenb_result total st tail m t (Ret ((l, mkTransport mult total l st), (m, t')))
| decodenb_again d value n' t' :
    digits total d value n' -> pending t' = rl_digits d n' ++ tail -> less t' t ->
    decodenb_result total st tail m t (Ret ((0, digit_state st d value), (m, t'))).

Lemma decodenb_result_less total st tail m t t0 r :
  decodenb_result total st tail m t r -> less t t0 -> decodenb_result total st tail m t0 r.
Proof. intros [] ?; econstructor; eauto using less_trans. Qed.

Lemma decodenb_loop_run fuel total st d value n' tail m t :
  digits total d value n' -> (d <= fuel)%nat -> pending t = rl_digits d n' ++ tail ->
  decodenb_result total st tail m t
    (MQTTPacket_decodenb_loop getfn fuel (digit_state st d value) (m, t)).
Proof.
  revert d value n' t. induction fuel as [|fuel IH]; intros d value n' t Hd Hf Hp;
    [by destruct Hd; lia|].
  pose proof Hd as [Hr Hv Hn Ht]. destruct d as [|d]; [lia|]. cbn [rl_digits] in Hp.
  assert (exists c s, pending t = c :: s /\ is_byte c /\
    (n' < 128 /\ c = n' /\ s = tail \/
     128 <= n' /\ c = n' mod 128 + 128 /\ s = rl_digits d (n' / 128) ++ tail)) as (c & s & Hcs & Hc & Hs).
  { rewrite Hp. pose proof (Z.mod_pos_bound n' 128 ltac:(lia)). unfold is_byte.
    destruct (Z.ltb_spec n' 128); eexists _, _; (split; [done|]); (split; [lia|]); [left|right]; auto. }
  destruct (request_one t m c s Hcs) as (t' & Hless & [[E Ep]|[E Ep]]).
  - cbn [MQTTPacket_decodenb_loop]. unfold MAX_NO_OF_REMAINING_LENGTH_BYTES. unfold digit_state at 1.
    cbn [trp_len]. replace (4 <=? _) with false by lia.
    erewrite bind_ret by exact E. cbn. econstructor; [done|cbn [rl_digits]; by rewrite Ep, <- Hcs, Hp|done].
  - erewrite decodenb_loop_step by (eauto; by rewrite Ht). cbv zeta.
    destruct Hs as [(Hlt & -> & ->)|(Hge & -> & ->)].
    + replace (128 <=? n') with false by lia. rewrite Z.mod_small, Ht by lia.
      econstructor; [lia|done|done].
    + pose proof (Z.mod_pos_bound n' 128 ltac:(lia)).
      replace (128 <=? n' mod 128 + 128) with true by lia.
      replace ((n' mod 128 + 128) mod 128) with (n' mod 128) by (Z.div_mod_to_equations; lia).
      apply digits_next in Hd; [|done]. cbn [pred] in Hd.
      eapply decodenb_result_less; [|exact Hless].
      replace (4 - Z.of_nat (S d) + 1) with (4 - Z.of_nat d) by lia.
      apply IH with (n' := n' / 128); [done|lia|done].
Qed.

(** ** One packet *)

Context (h : Z) (body rest : list Z) (m0 : mem) (b : positive) (o buflen : Z).
Let n := Z.of_nat (length body).
Context (Hh : is_byte h) (Hn : n <= MAX_REMAINING) (Hroom : room m0 (Ptr b o) buflen)
  (Hfit : 1 + rl_size n + n <= buflen).

(** How far the reader has come, by the state it keeps, the memory and the
    octets still to come. *)
Inductive progress : MQTTTransport -> mem -> list Z -> Prop :=
| at_header trp :
    trp_state trp ≠ 1 -> trp_state trp ≠ 2 -> progress trp m0 (frame h body ++ rest)
| at_length_start trp :
    trp_state trp = 1 -> trp_len trp = 0 ->
    progress trp (mwrite m0 (Ptr b o) [h]) (remaining_length n ++ body ++ rest)
| at_length d value n' :
    digits n d value n' -> (d < 4)%nat ->
    progress (digit_state 1 d value) (mwrite m0 (Ptr b o) [h]) (rl_digits d n' ++ body ++ rest)
| at_body mult (j : nat) :
    (j < length body)%nat ->
    progress (mkTransport mult (n - Z.of_nat j) (1 + rl_size n + Z.of_nat j) 2)
      (mwrite m0 (Ptr b o) (h :: remaining_length n ++ take j body)) (drop j body ++ rest).

(** What a call came to: "call again" and closer to the end, or the packet. *)
Inductive advanced (t : T) : outcome (Z * MQTTTransport * (mem * T)) -> Prop :=
| call_again trp m t' :
    progress trp m (pending t') -> less t' t -> advanced t (Ret ((0, trp), (m, t')))
| packet_read trp t' :
    pending t' = rest -> trp_state trp = 0 ->
    advanced t (Ret ((MQTTHeader.type h, trp), (mwrite m0 (Ptr b o) (frame h body), t'))).

Lemma advanced_less t t0 r : advanced t r -> less t t0 -> advanced t0 r.
Proof. intros [] ?; econstructor; eauto using less_trans. Qed.

Lemma finish_read trp t :
  pending t = rest ->
  advanced t ((h ← on_mem (load (Ptr b o)); readnb_exit (MQTTHeader.type h) trp)
    (mwrite m0 (Ptr b o) (frame h body), t)).
Proof using Hh Hn Hroom Hfit.
  intros Hp. assert (load (Ptr b o) (mwrite m0 (Ptr b o) (frame h body)) =
    Ret (h, mwrite m0 (Ptr b o) (frame h body))) as E.
  { assert (bytes_at (mwrite m0 (Ptr b o) (frame h body)) (Ptr b o) (frame h body)) as Hb.
    { apply bytes_at_mwrite_eq. eapply room_le; [done|]. rewrite length_frame. fold n. lia. }
    unfold frame in Hb at 2. by apply load_at in Hb. }
  unfold mbind, M_bind, on_mem. rewrite E. by constructor.
Qed.

Lemma readnb_state2_run mult (j : nat) t :
  (j <= length body)%nat -> pending t = drop j body ++ rest ->
  advanced t (readnb_state2 getfn (Ptr b o) buflen
    (mkTransport mult (n - Z.of_nat j) (1 + rl_size n + Z.of_nat j) 2)
    (mwrite m0 (Ptr b o) (h :: remaining_length n ++ take j body), t)).
Proof using Hh Hn Hroom Hfit.
  intros Hj Hp. unfold readnb_state2. cbn [trp_rem_len trp_len trp_multiplier trp_state].
  assert (Z.of_nat (length (h :: remaining_length n ++ take j body)) = 1 + rl_size n + Z.of_nat j) as El.
  { cbn [length]. rewrite length_app, length_take.
    pose proof (length_remaining_length n). lia. }
  unfold truthy. destruct (Z.eqb_spec (n - Z.of_nat j) 0) as [E0|E0]; cbn [negb].
  { rewrite take_ge by lia. rewrite drop_ge in Hp by lia. by apply finish_read. }
  destruct (request t (n - Z.of_nat j) (mwrite m0 (Ptr b o) (h :: remaining_length n ++ take j body)))
    as (k & t' & E & Hk & Hkl & Ep & Hless).
  { lia. }
  { rewrite Hp. destruct (drop j body) eqn:Ed; [|done].
    apply (f_equal length) in Ed. rewrite length_drop in Ed. simpl in Ed. lia. }
  assert (take k (pending t) = take k (drop j body)) as Et.
  { rewrite Hp. apply take_app_le. rewrite length_drop. lia. }
  assert (pending t' = drop (j + k) body ++ rest) as Ep'.
  { rewrite Ep, Hp, <- drop_drop. apply drop_app_le. rewrite length_drop. lia. }
  assert (length (take k (drop j body)) = k) as Elk by (rewrite length_take, length_drop; lia).
  unfold getfn_into. rewrite bind_assoc. erewrite bind_ret by exact E. cbv iota beta. rewrite Et, bind_assoc.
  set (written := h :: remaining_length n ++ take j body) in *.
  erewrite bind_ret.
  2: { unfold on_mem. rewrite <- El. change (Ptr b (o + Z.of_nat (length written)))
         with (padd (Ptr b o) (Z.of_nat (length written))).
       rewrite store_bytes_after; [reflexivity|]. eapply room_le; [done|]. lia. }
  erewrite bind_ret by apply mret_run. cbv beta.
  assert (written ++ take k (drop j body) = h :: remaining_length n ++ take (j + k) body) as Ew.
  { unfold written. cbn [app]. by rewrite <- app_assoc, take_take_drop. }
  rewrite Ew. replace (Z.of_nat k =? -1) with false by lia. cbv iota.
  destruct (Z.eqb_spec (Z.of_nat k) 0) as [Ek|Ek].
  { apply call_again; [|done]. rewrite Ep'. replace (j + k)%nat with j by lia. constructor. lia. }
  pose proof (rl_size_range n).
  erewrite bind_ret by (apply int_result_ok; unfold MAX_REMAINING, INT_MIN, INT_MAX in *; lia).
  erewrite bind_ret by (apply int_result_ok; unfold MAX_REMAINING, INT_MIN, INT_MAX in *; lia).
  replace (n - Z.of_nat j - Z.of_nat k) with (n - Z.of_nat (j + k)) by lia.
  replace (1 + rl_size n + Z.of_nat j + Z.of_nat k) with (1 + rl_size n + Z.of_nat (j + k)) by lia.
  unfold truthy. destruct (Z.eqb_spec (n - Z.of_nat (j + k)) 0) as [E1|E1]; cbn [negb].
  - eapply advanced_less; [|exact Hless]. rewrite take_ge by lia. apply finish_read.
    rewrite Ep', drop_ge by lia. done.
  - apply call_again; [|done]. rewrite Ep'. constructor. lia.
Qed.

Lemma digits_progress d value n' :
  digits n d value n' ->
  progress (digit_state 1 d value) (mwrite m0 (Ptr b o) [h]) (rl_digits d n' ++ body ++ rest).
Proof using Hn.
  intros Hd. destruct (decide (d = 4%nat)) as [->|]; [|apply at_length; [done|by destruct Hd; lia]].
  destruct Hd as [_ Hv _ Ht]. change (4 - Z.of_nat 4) with 0 in *. change (128 ^ 0) with 1 in *.
  rewrite rl_digits_remaining by (unfold n in *; lia). replace n' with n by lia.
  by apply at_length_start.
Qed.

Lemma readnb_state1_run trp d value n' t :
  (if trp_len trp =? 0 then mkTransport 1 0 (trp_len trp) (trp_state trp) else trp) = digit_state 1 d value ->
  digits n d value n' -> pending t = rl_digits d n' ++ body ++ rest ->
  advanced t (readnb_state1 getfn (Ptr b o) buflen trp (mwrite m0 (Ptr b o) [h], t)).
Proof using Hh Hn Hroom Hfit.
  intros Htrp Hd Hp. unfold readnb_state1, MQTTPacket_decodenb. cbv zeta. rewrite Htrp.
  assert (room m0 (Ptr b o) (1 + rl_size n)) as Hr1 by (eapply room_le; [done|lia]).
  pose proof (rl_size_range n).
  pose proof (decodenb_loop_run 5 n 1 d value n' (body ++ rest) (mwrite m0 (Ptr b o) [h]) t Hd
    ltac:(destruct Hd; lia) Hp) as Hrun.
  remember (mwrite m0 (Ptr b o) [h]) as m1 eqn:Em1.
  inversion Hrun as [l mult t' Hl Hp' Hless Er|d' value' n'' t' Hd' Hp' Hless Er]; symmetry in Er;
    rewrite (bind_ret _ _ _ _ _ Er); cbv iota beta; clear Er Hrun; rewrite Em1; clear m1 Em1.
  - unfold MQTTPACKET_READ_ERROR. replace (l =? -1) with false by lia. replace (l =? 0) with false by lia.
    cbn [trp_rem_len trp_multiplier trp_state].
    assert (mwrite (mwrite m0 (Ptr b o) [h]) (padd (Ptr b o) 1) (remaining_length n) =
      mwrite m0 (Ptr b o) (h :: remaining_length n)) as Ew.
    { apply mwrite_cons. eapply room_le; [done|].
      pose proof (length_remaining_length n). lia. }
    erewrite bind_ret.
    2: { unfold on_mem. rewrite MQTTPacket_encode_spec; [|unfold n in *; lia|].
         - rewrite Ew. reflexivity.
         - rewrite room_mwrite; [|eapply room_le; [done|simpl; lia]|lia].
           apply (room_padd _ _ _ 1) in Hr1; [|lia]. eapply room_le; [done|lia]. }
    cbn [trp_rem_len trp_len]. erewrite bind_ret by
      (apply int_result_ok; unfold n, MAX_REMAINING, INT_MIN, INT_MAX in *; lia).
    replace (buflen <? _) with false by lia. cbv iota. cbn [trp_multiplier trp_state trp_rem_len trp_len].
    eapply advanced_less; [|exact Hless].
    pose proof (readnb_state2_run mult 0 t' ltac:(lia)) as H2. rewrite take_0, app_nil_r, drop_0 in H2.
    rewrite Z.sub_0_r, Z.add_0_r in H2. by apply H2.
  - unfold MQTTPACKET_READ_ERROR. cbn. constructor; [|done]. rewrite Hp'. by apply digits_progress.
Qed.

Lemma readnb_call trp m t :
  progress trp m (pending t) -> advanced t (MQTTPacket_readnb getfn (Ptr b o) buflen trp (m, t)).
Proof using Hh Hn Hroom Hfit.
  intros Hpr. assert (digits n 4 0 n) as Hd4.
  { constructor; [lia|done| |].
    - change (128 ^ Z.of_nat 4) with 268435456. unfold MAX_REMAINING, n in *. lia.
    - change (128 ^ (4 - Z.of_nat 4)) with 1. lia. }
  assert (rl_digits 4 n = remaining_length n) as E4 by (apply rl_digits_remaining; unfold n in *; lia).
  unfold MQTTPacket_readnb. remember (pending t) as s eqn:Es.
  destruct Hpr as [trp H1 H2|trp H1 H2|d value n' Hd Hlt|mult j Hj].
  - replace (trp_state trp =? 1) with false by lia. replace (trp_state trp =? 2) with false by lia. cbv iota.
    unfold readnb_state0, getfn_into. rewrite bind_assoc. unfold frame in Es. rewrite <- app_comm_cons in Es.
    destruct (request_one t m0 _ _ (eq_sym Es)) as (t' & Hless & [[E Ep]|[E Ep]]);
      erewrite bind_ret by exact E; cbv iota beta; rewrite bind_assoc.
    + erewrite bind_ret by reflexivity. erewrite bind_ret by apply mret_run.
      change (0 =? -1) with false. change (0 =? 0) with true. cbv iota. apply call_again; [|done]. rewrite Ep. by apply at_header.
    + erewrite bind_ret by (unfold on_mem; rewrite store_bytes_room; [reflexivity|]; simpl;
        eapply room_le; [done|]; pose proof (rl_size_range n); unfold n in *; lia).
      erewrite bind_ret by apply mret_run. change (1 =? -1) with false. change (1 =? 0) with false. cbv iota.
      eapply advanced_less; [|exact Hless]. apply (readnb_state1_run _ 4 0 n); [done|done|]. rewrite E4, Ep, <- app_assoc. done.
  - rewrite H1. cbn [Z.eqb Pos.eqb]. apply (readnb_state1_run _ 4 0 n); [by rewrite H2, H1|done|]. by rewrite E4.
  - change (trp_state (digit_state 1 d value) =? 1) with true. cbv iota.
    apply (readnb_state1_run _ d value n'); [|done|done].
    cbn. replace (4 - Z.of_nat d =? 0) with false by lia. done.
  - cbn [trp_state Z.eqb Pos.eqb]. apply readnb_state2_run; [lia|done].
Qed.
End readnb.

(** ** Blocking sources

    What MQTTPacket_read relies on: a request is answered in full while the
    stream has the octets, and with another result when it has not. *)
Class BlockingSource {T : Type} (getfn : getfn_t T) : Type := {
  stream : T -> list Z;
  full_law : forall t n, 0 < n -> n <= Z.of_nat (length (stream t)) ->
    exists t', getfn n t = Ret ((n, take (Z.to_nat n) (stream t)), t') /\
      stream t' = drop (Z.to_nat n) (stream t);
  short_law : forall t n, Z.of_nat (length (stream t)) < n ->
    exists rc t', getfn n t = Ret ((rc, []), t') /\ rc ≠ n
}.

(** A file or socket that has all its octets; a request beyond them fails. *)
Definition file_getfn : getfn_t (list Z) := fun n t =>
  if n <=? Z.of_nat (length t) then Ret ((n, take (Z.to_nat n) t), drop (Z.to_nat n) t)
  else Ret ((-1, []), t).

#[export] Instance file_source : BlockingSource file_getfn.
Proof.
  refine {| stream := fun t => t |}; unfold file_getfn; intros t n.
  - intros Hn Hl. rewrite (proj2 (Z.leb_le _ _) Hl). by eexists.
  - intros Hl. rewrite (proj2 (Z.leb_gt _ _) Hl). exists (-1), t. split; [done|lia].
Defined.

Section read.
Context {T : Type} (getfn : getfn_t T) `{!BlockingSource getfn}.

Lemma full_request t n bs s :
  stream t = bs ++ s -> n = Z.of_nat (length bs) -> 0 < n ->
  exists t', getfn n t = Ret ((n, bs), t') /\ stream t' = s.
Proof.
  intros Hs -> Hn. destruct (full_law t (Z.of_nat (length bs))) as (t' & E & Es); [done|rewrite Hs, length_app; lia|].
  exists t'. rewrite Nat2Z.id, Hs, take_app_length in E. rewrite Nat2Z.id, Hs, drop_app_length in Es. done.
Qed.

Lemma stream_delivers t bs s :
  stream t = bs ++ s -> exists t', delivers getfn t bs t' /\ stream t' = s.
Proof.
  revert t. induction bs as [|c bs IH]; intros t Hs.
  - exists t. split; [constructor|done].
  - destruct (full_request t 1 [c] (bs ++ s) Hs) as (t1 & E & Hs1); [done|lia|].
    destruct (IH t1 Hs1) as (t' & Hd & Hs'). exists t'. split; [|done]. by econstructor.
Qed.

Lemma getfn_into_run p n m t rc bs t' :
  getfn n t = Ret ((rc, bs), t') -> room m p (Z.of_nat (length bs)) ->
  getfn_into getfn p n (m, t) = Ret (rc, (mwrite m p bs, t')).
Proof.
  intros E Hr. unfold getfn_into, mbind, M_bind, on_transport, on_mem. rewrite E.
  by rewrite store_bytes_room.
Qed.

(** The header, the remaining length and the check of its size. *)
Lemma MQTTPacket_read_start h body rest m b o buflen t :
  is_byte h -> Z.of_nat (length body) <= MAX_REMAINING -> stream t = frame h body ++ rest ->
  let n := Z.of_nat (length body) in
  room m (Ptr b o) (1 + rl_size n) ->
  exists t', stream t' = body ++ rest /\
  MQTTPacket_read getfn (Ptr b o) buflen (m, t) =
  (if buflen <? 1 + rl_size n + n then mret (-1)
   else
     r ← (if truthy n
          then r ← getfn_into getfn (Ptr b (o + (1 + rl_size n))) n; mret (negb (r =? n))
          else mret false);
     if (r : bool) then mret (-1)
     else h ← on_mem (load (Ptr b o)); mret (MQTTHeader.type h))
  (mwrite m (Ptr b o) (h :: remaining_length n), t').
Proof.
  intros Hh Hn Hs n Hr. pose proof (rl_size_range n). unfold frame in Hs. rewrite <- app_comm_cons, <- app_assoc in Hs.
  destruct (full_request t 1 [h] _ Hs) as (t1 & E1 & Hs1); [done|lia|].
  destruct (stream_delivers t1 (remaining_length n) _ Hs1) as (t2 & Hd & Hs2).
  exists t2. split; [done|]. unfold MQTTPacket_read.
  erewrite bind_ret by (eapply getfn_into_run; [exact E1|]; eapply room_le; [done|simpl; lia]).
  change (negb (1 =? 1)) with false. cbv iota.
  erewrite bind_ret by (unfold on_transport; erewrite MQTTPacket_decode_spec; [reflexivity| |exact Hd];
    unfold n; lia).
  cbv iota beta. erewrite bind_ret.
  2: { unfold on_mem. rewrite MQTTPacket_encode_spec; [|unfold n; lia|].
       - rewrite mwrite_cons; [reflexivity|]. eapply room_le; [done|]. pose proof (length_remaining_length n). lia.
       - rewrite room_mwrite; [|eapply room_le; [done|simpl; lia]|lia].
         apply (room_padd _ _ _ 1) in Hr; [|lia]. eapply room_le; [done|lia]. }
  cbv zeta. erewrite bind_ret by (apply int_result_ok; unfold n, MAX_REMAINING, INT_MIN, INT_MAX in *; lia).
  by replace (n + (1 + rl_size n)) with (1 + rl_size n + n) by lia.
Qed.
End read.

(** ** Properties *)

(** C2: MQTTPacket_readnb resumes under any delivery: however the source cuts the
    octets of a packet into pieces and however often it has nothing to offer in
    between, calling again while the result is 0 ends, with the type of the packet as
    the result, the packet in the buffer, the source at the octet after the packet and
    the state machine back in its initial state. *)
Theorem readnb_resumes {T} (getfn : getfn_t T) `{!StreamSource getfn} h body rest m b o buflen trp t :
  is_byte h -> MQTTHeader.type h ≠ 0 -> Z.of_nat (length body) <= MAX_REMAINING ->
  room m (Ptr b o) buflen -> Z.of_nat (length (frame h body)) <= buflen -> trp_state trp = 0 ->
  pending t = frame h body ++ rest ->
  exists fuel t' trp',
    poll getfn fuel (Ptr b o) buflen trp (m, t) =
    Ret ((MQTTHeader.type h, trp'), (mwrite m (Ptr b o) (frame h body), t')) /\
    pending t' = rest /\ trp_state trp' = 0.
Proof.
  intros Hh Hty Hn Hr Hfit Hst Hp. rewrite length_frame in Hfit.
  assert (progress h body rest m b o trp m (pending t)) as Hpr.
  { rewrite Hp. apply at_header; lia. }
  clear Hp Hst. revert Hpr. generalize m at 2 3 as m1. revert trp.
  induction t as [t IH] using (less_ind getfn). intros trp m1 Hpr.
  apply (readnb_call getfn _ _ _ _ _ _ buflen Hh Hn Hr Hfit) in Hpr.
  inversion Hpr as [trp' m' t' Hpr' Hless Er|trp' t' Hp' Hst' Er]; symmetry in Er.
  - destruct (IH t' Hless trp' m' Hpr') as (fuel & t'' & trp'' & E & ?).
    exists (S fuel), t'', trp''. split; [|done]. cbn [poll]. by rewrite (bind_ret _ _ _ _ _ Er).
  - exists 1%nat, t', trp'. split; [|done]. cbn [poll]. rewrite (bind_ret _ _ _ _ _ Er).
    by replace (MQTTHeader.type h =? 0) with false by lia.
Qed.

(** A PUBLISH of five octets in three pieces with pauses, followed by a PINGRESP. *)
Lemma readnb_resumes_witness :
  let t := [[]; [48]; []; [3; 0]; [1; 97; 208]; [0]] in
  exists fuel t' trp',
    poll chunks_getfn fuel (Ptr 1 0) 8 (mkTransport 0 0 0 0) ({[1%positive := replicate 8 0]}, t) =
    Ret ((3, trp'), (mwrite {[1%positive := replicate 8 0]} (Ptr 1 0) [48; 3; 0; 1; 97], t')) /\
    pending t' = [208; 0] /\ trp_state trp' = 0.
Proof.
  intros t.
  apply (readnb_resumes chunks_getfn 48 [0; 1; 97] [208; 0] {[1%positive := replicate 8 0]} 1 0 8).
  - split; vm_compute; [discriminate|reflexivity].
  - vm_compute. discriminate.
  - vm_compute. discriminate.
  - eexists. split; [reflexivity|]. vm_compute. discriminate.
  - vm_compute. discriminate.
  - reflexivity.
  - reflexivity.
Defined.

(** MQTTPacket_read on a blocking source: a packet that fits the buffer is stored
    there and its type returned, with the source at the next packet; one that does not
    fit is refused with -1. *)
Theorem MQTTPacket_read_spec {T} (getfn : getfn_t T) `{!BlockingSource getfn} h body rest m b o buflen t :
  is_byte h -> Z.of_nat (length body) <= MAX_REMAINING -> stream t = frame h body ++ rest ->
  room m (Ptr b o) (Z.max 5 buflen) ->
  exists r m' t', MQTTPacket_read getfn (Ptr b o) buflen (m, t) = Ret (r, (m', t')) /\
    (Z.of_nat (length (frame h body)) <= buflen ->
       r = MQTTHeader.type h /\ m' = mwrite m (Ptr b o) (frame h body) /\ stream t' = rest) /\
    (buflen < Z.of_nat (length (frame h body)) -> r = -1).
Proof.
  intros Hh Hn Hs Hr. rewrite !length_frame. set (n := Z.of_nat (length body)) in *.
  pose proof (rl_size_range n).
  destruct (MQTTPacket_read_start getfn h body rest m b o buflen t Hh Hn Hs) as (t1 & Hs1 & ->);
    [eapply room_le; [done|]; fold n; lia|]. fold n.
  destruct (Z.ltb_spec buflen (1 + rl_size n + n)) as [Hlt|Hge].
  { eexists _, _, _. split; [reflexivity|]. split; [lia|done]. }
  pose proof (length_remaining_length n) as El.
  assert (bytes_at (mwrite m (Ptr b o) (frame h body)) (Ptr b o) (frame h body)) as Hb.
  { apply bytes_at_mwrite_eq. rewrite length_frame. eapply room_le; [done|]. fold n. lia. }
  unfold frame in Hb at 2. apply load_at in Hb.
  assert (exists t', stream t' = rest /\
    (if truthy n then r ← getfn_into getfn (Ptr b (o + (1 + rl_size n))) n; mret (negb (r =? n)) else mret false)
    (mwrite m (Ptr b o) (h :: remaining_length n), t1) =
    Ret (false, (mwrite m (Ptr b o) (frame h body), t'))) as (t' & Hs' & E).
  { unfold truthy. destruct (Z.eqb_spec n 0) as [E0|E0]; cbn [negb].
    - exists t1. destruct body; [|simpl in *; lia]. split; [done|]. unfold frame. by rewrite app_nil_r.
    - destruct (full_request getfn t1 n body rest Hs1) as (t' & E & Hs'); [done|lia|]. exists t'. split; [done|].
      erewrite bind_ret.
      2: { eapply getfn_into_run; [exact E|]. rewrite room_mwrite; [|eapply room_le; [done|simpl; lia]|lia].
           apply (room_padd _ _ _ (1 + rl_size n)) in Hr; [|lia]. eapply room_le; [exact Hr|]. fold n. lia. }
      rewrite Z.eqb_refl. cbn [negb]. unfold mret, M_ret. do 3 f_equal.
      pose proof (mwrite_app m (Ptr b o) (h :: remaining_length n) body) as Hm. cbn [length padd] in Hm.
      replace (Z.of_nat (S (length (remaining_length n)))) with (1 + rl_size n) in Hm by lia.
      rewrite Hm by (eapply room_le; [done|lia]). done. }
  erewrite bind_ret by exact E. cbv iota. unfold mbind, M_bind, on_mem. rewrite Hb.
  eexists _, _, _. split; [reflexivity|]. split; [done|lia].
Qed.

Lemma MQTTPacket_read_spec_witness :
  let m : mem := {[1%positive := replicate 8 0]} in
  exists r m' t', MQTTPacket_read file_getfn (Ptr 1 0) 8 (m, [48; 3; 0; 1; 97; 208; 0]) = Ret (r, (m', t')) /\
    (5 <= 8 -> r = 3 /\ m' = mwrite m (Ptr 1 0) [48; 3; 0; 1; 97] /\ stream t' = [208; 0]) /\
    (8 < 5 -> r = -1).
Proof.
  intros m.
  apply (MQTTPacket_read_spec file_getfn 48 [0; 1; 97] [208; 0] m 1 0 8 [48; 3; 0; 1; 97; 208; 0]).
  - split; vm_compute; [discriminate|reflexivity].
  - vm_compute. discriminate.
  - reflexivity.
  - eexists. split; [reflexivity|]. vm_compute. discriminate.
Defined.

(** ** Where the code departs from its contract *)

(** MQTTPacket_read does not look at the result of MQTTPacket_decode: a stream that
    ends inside the remaining length is reported as a packet. *)
Lemma MQTTPacket_read_truncated :
  MQTTPacket_read file_getfn (Ptr 1 0) 4 ({[1%positive := [0; 0; 0; 0]]}, [208; 128]) =
  Ret (PINGRESP, ({[1%positive := [208; 0; 0; 0]]}, [])).
Proof. reflexivity. Qed.
