(* ===== verification/Publish.v ===== *)
(** * Publish packets and acknowledgements

    src/mqtt/MQTTPacket/MQTTSerializePublish.c and MQTTDeserializePublish.c. *)

From S2P Require Import Prelude Memory Wire Packet.

(** ** MQTTSerializePublish.c *)

Definition MQTTSerialize_publishLength (qos : Z) (topicName : MQTTString) (payloadlen : Z) : M mem Z :=
  n ← MQTTstrlen topicName;
  len ← int_result (2 + n);
  len ← int_result (len + payloadlen);
  if 0 <? qos then int_result (len + 2) else mret len.

Definition MQTTSerialize_publish (buf : ptr) (buflen dup qos retained packetid : Z)
    (topicName : MQTTString) (payload : ptr) (payloadlen : Z) : M mem Z :=
  rem_len ← MQTTSerialize_publishLength qos topicName payloadlen;
  total ← MQTTPacket_len rem_len;
  if buflen <? total then mret MQTTPACKET_BUFFER_TOO_SHORT
  else
    let header := MQTTHeader.set_type PUBLISH 0 in
    let header := MQTTHeader.set_dup dup header in
    let header := MQTTHeader.set_qos qos header in
    let header := MQTTHeader.set_retain retained header in
    p ← writeChar buf header;
    p ← writeRemaining p rem_len;
    p ← writeMQTTString p topicName;
    p ← (if 0 <? qos then writeInt p packetid else mret p);
    p ← writeBytes p payload payloadlen;
    rc ← psub p buf;
    mret rc.

Definition MQTTSerialize_ack (buf : ptr) (buflen packettype dup packetid : Z) : M mem Z :=
  if buflen <? 4 then mret MQTTPACKET_BUFFER_TOO_SHORT
  else
    let header := MQTTHeader.set_type packettype 0 in
    let header := MQTTHeader.set_dup dup header in
    let header := MQTTHeader.set_qos (if packettype =? PUBREL then 1 else 0) header in
    p ← writeChar buf header;
    p ← writeRemaining p 2;
    p ← writeInt p packetid;
    rc ← psub p buf;
    mret rc.

Definition MQTTSerialize_puback (buf : ptr) (buflen packetid : Z) : M mem Z :=
  MQTTSerialize_ack buf buflen PUBACK 0 packetid.

Definition MQTTSerialize_pubrel (buf : ptr) (buflen dup packetid : Z) : M mem Z :=
  MQTTSerialize_ack buf buflen PUBREL dup packetid.

Definition MQTTSerialize_pubcomp (buf : ptr) (buflen packetid : Z) : M mem Z :=
  MQTTSerialize_ack buf buflen PUBCOMP 0 packetid.

(** ** MQTTDeserializePublish.c *)

(** The objects the out parameters point to. *)
Record publish_out : Type := mkPublishOut {
  po_dup : Z;
  po_qos : Z;
  po_retained : Z;
  po_packetid : Z;
  po_topicName : MQTTString;
  po_payload : ptr;
  po_payloadlen : Z
}.

Definition MQTTDeserialize_publish (out : publish_out) (buf : ptr) (buflen : Z) : M mem (Z * publish_out) :=
  '(header, curdata) ← readByte buf;
  if negb (MQTTHeader.type header =? PUBLISH) then mret (0, out)
  else
    let out := mkPublishOut (MQTTHeader.dup header) (MQTTHeader.qos header)
                 (MQTTHeader.retain header) (po_packetid out) (po_topicName out)
                 (po_payload out) (po_payloadlen out) in
    '(rc, mylen) ← MQTTPacket_decodeBuf curdata;
    let curdata := padd curdata rc in
    let enddata := padd curdata mylen in
    '(ok, topicName, curdata) ← readMQTTLenString (po_topicName out) curdata enddata;
    let out := mkPublishOut (po_dup out) (po_qos out) (po_retained out) (po_packetid out)
                 topicName (po_payload out) (po_payloadlen out) in
    left ← (if truthy ok then psub enddata curdata else mret 0);
    if negb (truthy ok) || (left <? 0) then mret (rc, out)
    else
      '(packetid, curdata) ←
        (if 0 <? po_qos out
         then '(n, curdata) ← readInt curdata; mret (to_ushort n, curdata)
         else mret (po_packetid out, curdata));
      left ← psub enddata curdata;
      mret (1, mkPublishOut (po_dup out) (po_qos out) (po_retained out) packetid
                 (po_topicName out) curdata (to_int left)).

Record ack_out : Type := mkAckOut {
  ao_packettype : Z;
  ao_dup : Z;
  ao_packetid : Z
}.

Definition MQTTDeserialize_ack (out : ack_out) (buf : ptr) (buflen : Z) : M mem (Z * ack_out) :=
  '(header, curdata) ← readByte buf;
  let out := mkAckOut (MQTTHeader.type header) (MQTTHeader.dup header) (ao_packetid out) in
  '(rc, mylen) ← MQTTPacket_decodeBuf curdata;
  let curdata := padd curdata rc in
  let enddata := padd curdata mylen in
  left ← psub enddata curdata;
  if left <? 2 then mret (rc, out)
  else
    '(n, curdata) ← readInt curdata;
    mret (1, mkAckOut (ao_packettype out) (ao_dup out) (to_ushort n)).

(** ** Lemmas *)

(** What a caller of MQTTSerialize_publish supplies: a buffer at [Ptr b o] and
    the topic and payload elsewhere. *)
Record publish_args (m : mem) (b : positive) (o buflen : Z) (qos packetid : Z)
    (topicName : MQTTString) (topic : list Z) (payload : ptr) (bytes : list Z) : Prop :=
  mkPublishArgs {
  pa_room : room m (Ptr b o) buflen;
  pa_qos : 0 <= qos < 4;
  pa_id : 0 <= packetid < 65536;
  pa_topic : mstring m b topicName topic;
  pa_topic_len : Z.of_nat (length topic) < 65536;
  pa_payload : source_at m payload bytes;
  pa_payload_out : ~ in_block payload b;
  pa_size : Z.of_nat (length (publish_body qos topic packetid bytes)) <= MAX_REMAINING
}.

Lemma length_publish_body qos topic id bytes :
  Z.of_nat (length (publish_body qos topic id bytes)) =
  2 + Z.of_nat (length topic) + (if 0 <? qos then 2 else 0) + Z.of_nat (length bytes).
Proof. unfold publish_body. rewrite !length_app, length_utf8. case_match; simpl; lia. Qed.

Lemma MQTTSerialize_publishLength_spec m b o buflen qos packetid topicName topic payload bytes :
  publish_args m b o buflen qos packetid topicName topic payload bytes ->
  MQTTSerialize_publishLength qos topicName (Z.of_nat (length bytes)) m =
  Ret (Z.of_nat (length (publish_body qos topic packetid bytes)), m).
Proof.
  intros [Hr Hq Hi Ht Htl Hp Hpo Hs]. unfold MQTTSerialize_publishLength, MAX_REMAINING in *.
  rewrite length_publish_body in *.
  erewrite bind_ret by (eapply MQTTstrlen_spec; [done|unfold INT_MAX; lia]).
  erewrite bind_ret by (apply int_result_ok; unfold INT_MIN, INT_MAX; destruct (0 <? qos); lia).
  erewrite bind_ret by (apply int_result_ok; unfold INT_MIN, INT_MAX; destruct (0 <? qos); lia).
  destruct (0 <? qos).
  - rewrite int_result_ok by (unfold INT_MIN, INT_MAX; lia). do 2 f_equal. lia.
  - unfold mret, M_ret. do 2 f_equal. lia.
Qed.

Definition publish_sources (b : positive) (topicName : MQTTString) (topic : list Z)
    (payload : ptr) (bytes : list Z) (m : mem) : Prop :=
  mstring m b topicName topic /\ source_at m payload bytes.

Lemma publish_sources_stable b topicName topic payload bytes :
  ~ in_block payload b -> stable b (publish_sources b topicName topic payload bytes).
Proof.
  intros Hb m o bs [? ?]. split; [by apply mstring_stable|]. by eapply source_at_mwrite_ne.
Qed.

Lemma packetid_writes b P qos packetid :
  0 <= packetid < 65536 ->
  writes b P (fun p => if 0 <? qos then writeInt p packetid else mret p)
    (if 0 <? qos then u16 packetid else []).
Proof. intros. destruct (0 <? qos); [by apply writeInt_writes|apply writes_nil]. Qed.

(** MQTTSerialize_publish, when the packet fits, stores the packet of the
    protocol and returns its length. *)
Lemma MQTTSerialize_publish_run m b o buflen dup qos retained packetid topicName topic payload bytes L :
  publish_args m b o buflen qos packetid topicName topic payload bytes ->
  MQTTPacket_len (Z.of_nat (length (publish_body qos topic packetid bytes))) m = Ret (L, m) ->
  L <= buflen ->
  let pkt := encode (PPublish (dup mod 2) qos (retained mod 2) topic packetid bytes) in
  MQTTSerialize_publish (Ptr b o) buflen dup qos retained packetid topicName payload
    (Z.of_nat (length bytes)) m =
  Ret (Z.of_nat (length pkt), mwrite m (Ptr b o) pkt).
Proof.
  intros Hargs HL Hfit pkt. pose proof Hargs as [Hr Hq Hi Ht Htl Hp Hpo Hs].
  pose proof (publish_sources_stable b topicName topic payload bytes Hpo) as Hst.
  set (P := publish_sources b topicName topic payload bytes) in Hst.
  assert (P m) as HPm by done.
  assert (Z.of_nat (length bytes) < 18446744073709551616) as Hbl.
  { unfold MAX_REMAINING in Hs. rewrite length_publish_body in Hs. destruct (0 <? qos); lia. }
  set (body := publish_body qos topic packetid bytes) in *.
  destruct (MQTTPacket_len_spec (Z.of_nat (length body)) m) as (L' & HL' & ? & _); [lia|].
  rewrite HL in HL'. injection HL' as <-.
  assert (room m (Ptr b o) (Z.of_nat (length pkt))) as Hrp.
  { eapply room_le; [done|]. unfold pkt, encode. rewrite length_frame. fold body. lia. }
  unfold MQTTSerialize_publish.
  erewrite bind_ret by by eapply MQTTSerialize_publishLength_spec. fold body.
  erewrite bind_ret by exact HL. decide_branch.
  rewrite header_byte. change (PUBLISH mod 16) with 3. rewrite (Z.mod_small qos 4) by lia.
  destruct (fixed_header_fields 3 (dup mod 2) qos (retained mod 2)) as [Hh _];
    [lia|apply Z.mod_pos_bound; lia|lia|apply Z.mod_pos_bound; lia|].
  assert (pkt = (((([fixed_header 3 (dup mod 2) qos (retained mod 2)] ++
    remaining_length (Z.of_nat (length body))) ++ utf8 topic) ++
    (if 0 <? qos then u16 packetid else [])) ++ bytes)) as Epkt.
  { unfold pkt, encode, frame, body, publish_body. by rewrite <- !app_assoc. }
  rewrite Epkt in *. rewrite !length_app in Hrp.
  wfirst (writeChar_byte b P _ Hh).
  wnext (writeRemaining_writes b P (Z.of_nat (length body)) ltac:(lia)).
  wnext (writeMQTTString_writes b P topicName topic ltac:(by intros ? []) Htl).
  wnext (packetid_writes b P qos packetid Hi).
  wnext (writeBytes_writes b P payload bytes _ eq_refl Hbl ltac:(by intros ? []) Hpo).
  apply writes_result.
Qed.

(** MQTTSerialize_ack on a buffer of at least four octets. *)
Lemma MQTTSerialize_ack_run m b o buflen type dup packetid :
  room m (Ptr b o) buflen -> 4 <= buflen -> 0 <= type < 16 -> 0 <= packetid < 65536 ->
  let pkt := encode (PAck type (dup mod 2) packetid) in
  MQTTSerialize_ack (Ptr b o) buflen type dup packetid m = Ret (4, mwrite m (Ptr b o) pkt).
Proof.
  intros Hr Hb Ht Hi pkt. unfold MQTTSerialize_ack. decide_branch.
  rewrite header_byte_qos, Z.mod_small by lia.
  set (q := if type =? PUBREL then 1 else 0).
  assert (0 <= q < 4) by (unfold q; destruct (type =? PUBREL); lia).
  rewrite (Z.mod_small q) by lia. pose proof (Z.mod_pos_bound dup 2 ltac:(lia)).
  destruct (fixed_header_fields type (dup mod 2) q 0) as [Hh _]; [lia..|].
  assert (pkt = ([fixed_header type (dup mod 2) q 0] ++ remaining_length 2) ++ u16 packetid) as -> by done.
  wfirst (writeChar_byte b (fun _ => True) _ Hh).
  assert (stable b (fun _ => True)) by done.
  wnext (writeRemaining_writes b (fun _ => True) 2 ltac:(unfold MAX_REMAINING; lia)).
  wnext (writeInt_writes b (fun _ => True) packetid Hi).
  apply writes_result.
Qed.

Lemma MQTTDeserialize_ack_at m b o out buflen type dup id q rest :
  0 <= type < 16 -> 0 <= dup < 2 -> 0 <= q < 4 -> 0 <= id < 65536 ->
  bytes_at m (Ptr b o) (frame (fixed_header type dup q 0) (u16 id) ++ rest) ->
  MQTTDeserialize_ack out (Ptr b o) buflen m = Ret ((1, mkAckOut type dup id), m).
Proof.
  intros Ht Hd Hq Hi H.
  destruct (fixed_header_fields type dup q 0) as (Hh & Ety & Edup & _ & _); [lia..|].
  apply frame_at in H as (Hread & Hdec & Hbody); [|done|unfold MAX_REMAINING; simpl; lia].
  unfold MQTTDeserialize_ack. erewrite bind_ret by exact Hread. cbv iota beta. rewrite Ety, Edup.
  erewrite bind_ret by exact Hdec. cbv iota beta. simpl padd. erewrite bind_ret by apply psub_same.
  rewrite length_u16. decide_branch.
  erewrite bind_ret by by eapply readInt_at. cbv iota beta.
  unfold mret, M_ret, to_ushort. by rewrite Z.mod_small.
Qed.

(** MQTTDeserialize_publish on a packet of the protocol. *)
Lemma MQTTDeserialize_publish_at m b o out buflen dup qos retain topic id bytes rest :
  0 <= dup < 2 -> 0 <= qos < 4 -> 0 <= retain < 2 -> 0 <= id < 65536 ->
  Z.of_nat (length topic) < 65536 ->
  Z.of_nat (length (publish_body qos topic id bytes)) <= MAX_REMAINING ->
  bytes_at m (Ptr b o) (encode (PPublish dup qos retain topic id bytes) ++ rest) ->
  let t := o + 3 + rl_size (Z.of_nat (length (publish_body qos topic id bytes))) in
  let p := t + Z.of_nat (length topic) + (if 0 <? qos then 2 else 0) in
  bytes_at m (Ptr b t) topic /\ bytes_at m (Ptr b p) (bytes ++ rest) /\
  MQTTDeserialize_publish out (Ptr b o) buflen m =
  Ret ((1, mkPublishOut dup qos retain (if 0 <? qos then id else po_packetid out)
             (lstring (Z.of_nat (length topic)) (Ptr b t)) (Ptr b p)
             (Z.of_nat (length bytes))), m).
Proof.
  intros Hd Hq Hr Hi Ht Hs H t p. unfold encode in H.
  destruct (fixed_header_fields 3 dup qos retain) as (Hh & Ety & Edup & Eqos & Eret); [lia..|].
  apply frame_at in H as (Hread & Hdec & Hbody); [|done|done].
  subst p t. rewrite length_publish_body in *.
  set (n := 2 + Z.of_nat (length topic) + (if 0 <? qos then 2 else 0) + Z.of_nat (length bytes)) in *.
  set (t := o + 3 + rl_size n). set (p := t + _ + _).
  unfold publish_body in Hbody. rewrite <- !app_assoc in Hbody.
  assert (bytes_at m (Ptr b t) topic) as Htopic.
  { unfold utf8 in Hbody. rewrite <- app_assoc in Hbody. apply bytes_at_app in Hbody as [_ Hbody].
    apply bytes_at_app_l in Hbody. rewrite length_u16 in Hbody. simpl in Hbody.
    replace t with (o + 1 + rl_size n + 2) by (unfold t; lia). done. }
  pose proof Hbody as Hafter. apply bytes_at_app in Hafter as [_ Hafter].
  rewrite length_utf8 in Hafter. simpl in Hafter.
  assert (bytes_at m (Ptr b p) (bytes ++ rest)) as Hpay.
  { apply bytes_at_app in Hafter as [_ Hafter]. simpl in Hafter. unfold p, t.
    eapply bytes_at_eq; [exact Hafter|]. destruct (0 <? qos); simpl; lia. }
  split; [done|]. split; [done|]. unfold MQTTDeserialize_publish.
  erewrite bind_ret by exact Hread. cbv iota beta. rewrite Ety, Edup, Eqos, Eret. simpl.
  erewrite bind_ret by exact Hdec. cbv iota beta.
  erewrite bind_ret by (eapply readMQTTLenString_at; [done|done|];
    unfold n; destruct (0 <? qos); lia).
  cbv iota beta. simpl. erewrite bind_ret by apply psub_same. cbv iota beta.
  replace (_ <? 0) with false by (unfold n; destruct (0 <? qos); lia). cbv iota.
  rewrite (bind_ret _ _ _ (if 0 <? qos then id else po_packetid out, Ptr b p) m).
  - erewrite bind_ret by apply psub_same. unfold mret, M_ret, lstring.
    replace (o + 1 + rl_size n + 2) with t by (unfold t; lia). do 4 f_equal.
    unfold p, t, n, MAX_REMAINING in *. destruct (0 <? qos); conv_lia.
  - unfold p. destruct (0 <? qos); [|unfold mret, M_ret, t; do 4 f_equal; lia].
    erewrite bind_ret by (eapply readInt_at; [done|]; eapply bytes_at_eq; [exact Hafter|lia]).
    unfold mret, M_ret, to_ushort. rewrite Z.mod_small by lia. simpl. do 4 f_equal. unfold t; lia.
Qed.

(** ** Properties *)

(** MQTTSerialize_publish stores exactly the PUBLISH packet of the protocol
    and returns its length, never writing past the buffer; a packet that does not
    fit is refused with MQTTPACKET_BUFFER_TOO_SHORT and nothing is written. *)
Theorem MQTTSerialize_publish_refines m b o buflen dup qos retained packetid topicName topic payload bytes :
  publish_args m b o buflen qos packetid topicName topic payload bytes ->
  let pkt := encode (PPublish (dup mod 2) qos (retained mod 2) topic packetid bytes) in
  let run := MQTTSerialize_publish (Ptr b o) buflen dup qos retained packetid topicName payload
               (Z.of_nat (length bytes)) m in
  (Z.of_nat (length pkt) <= buflen /\ run = Ret (Z.of_nat (length pkt), mwrite m (Ptr b o) pkt)) \/
  (buflen <= Z.of_nat (length pkt) /\ run = Ret (MQTTPACKET_BUFFER_TOO_SHORT, m)).
Proof.
  intros Hargs pkt run.
  destruct (MQTTPacket_len_spec (Z.of_nat (length (publish_body qos topic packetid bytes))) m)
    as (L & HL & HL1 & HL2); [pose proof (pa_size _ _ _ _ _ _ _ _ _ _ Hargs); lia|].
  assert (Z.of_nat (length pkt) <= L <= Z.of_nat (length pkt) + 1) as HLp.
  { unfold pkt, encode. rewrite length_frame. lia. }
  destruct (Z.ltb_spec buflen L) as [Hlt|Hge].
  - right. split; [lia|]. unfold run, MQTTSerialize_publish.
    erewrite bind_ret by by eapply MQTTSerialize_publishLength_spec.
    erewrite bind_ret by exact HL. by decide_branch.
  - left. split; [lia|]. by eapply MQTTSerialize_publish_run.
Qed.

(** A concrete call: topic "a/b" as a C string, two octets of payload, an empty
    ten-octet buffer. *)
Definition example_mem : mem :=
  {[1%positive := replicate 12 0; 2%positive := [97; 47; 98; 0]; 3%positive := [104; 105]]}.

Lemma example_publish_args :
  publish_args example_mem 1 0 12 1 7 (mkMQTTString (Ptr 2 0) (mkLenString 0 NULL)) [97; 47; 98]
    (Ptr 3 0) [104; 105].
Proof.
  constructor; try (simpl; lia); try (unfold MAX_REMAINING; simpl; lia).
  - eexists. split; [reflexivity|]. vm_compute. discriminate.
  - apply mstring_c; [|simpl; lia|lia]. split; [by exists []|no_nul].
  - right. by exists [].
Qed.

Lemma MQTTSerialize_publish_refines_witness :
  let pkt := [50; 9; 0; 3; 97; 47; 98; 0; 7; 104; 105] in
  (11 <= 12 /\ MQTTSerialize_publish (Ptr 1 0) 12 0 1 0 7
      (mkMQTTString (Ptr 2 0) (mkLenString 0 NULL)) (Ptr 3 0) 2 example_mem =
    Ret (11, mwrite example_mem (Ptr 1 0) pkt)) \/
  (12 <= 11 /\ MQTTSerialize_publish (Ptr 1 0) 12 0 1 0 7
      (mkMQTTString (Ptr 2 0) (mkLenString 0 NULL)) (Ptr 3 0) 2 example_mem =
    Ret (MQTTPACKET_BUFFER_TOO_SHORT, example_mem)).
Proof.
  exact (MQTTSerialize_publish_refines example_mem 1 0 12 0 1 0 7 _ [97; 47; 98] (Ptr 3 0)
           [104; 105] example_publish_args).
Defined.

(** C24: a PUBLISH packet round-trips: what MQTTSerialize_publish stored,
    MQTTDeserialize_publish accepts and takes apart into the same flags, packet id,
    topic and payload, the latter two in place in the buffer. *)
Theorem publish_roundtrip m b o buflen dup qos retained packetid topicName topic payload bytes out len2 :
  publish_args m b o buflen qos packetid topicName topic payload bytes ->
  Z.of_nat (length (encode (PPublish (dup mod 2) qos (retained mod 2) topic packetid bytes))) < buflen ->
  exists n m' out',
    MQTTSerialize_publish (Ptr b o) buflen dup qos retained packetid topicName payload
      (Z.of_nat (length bytes)) m = Ret (n, m') /\ 0 < n <= buflen /\
    MQTTDeserialize_publish out (Ptr b o) len2 m' = Ret ((1, out'), m') /\
    po_dup out' = dup mod 2 /\ po_qos out' = qos /\ po_retained out' = retained mod 2 /\
    (0 < qos -> po_packetid out' = packetid) /\
    denotes m' (po_topicName out') topic /\
    po_payloadlen out' = Z.of_nat (length bytes) /\ bytes_at m' (po_payload out') bytes.
Proof.
  intros Hargs Hfit. set (pkt := encode _) in Hfit.
  pose proof Hargs as [Hr Hq Hi Ht Htl Hp Hpo Hs].
  destruct (MQTTPacket_len_spec (Z.of_nat (length (publish_body qos topic packetid bytes))) m)
    as (L & HL & HL1 & HL2); [lia|].
  assert (Z.of_nat (length pkt) = 1 + rl_size (Z.of_nat (length (publish_body qos topic packetid bytes))) +
    Z.of_nat (length (publish_body qos topic packetid bytes))) as Elen
    by (unfold pkt, encode; by rewrite length_frame).
  pose proof (rl_size_range (Z.of_nat (length (publish_body qos topic packetid bytes)))).
  assert (bytes_at (mwrite m (Ptr b o) pkt) (Ptr b o) (pkt ++ [])) as Hb.
  { rewrite app_nil_r. apply bytes_at_mwrite_eq. eapply room_le; [done|lia]. }
  pose proof (Z.mod_pos_bound dup 2 ltac:(lia)). pose proof (Z.mod_pos_bound retained 2 ltac:(lia)).
  edestruct (MQTTDeserialize_publish_at (mwrite m (Ptr b o) pkt) b o out len2) as (Htop & Hpay & Hrun);
    [..|exact Hb|]; [lia..|done|].
  eexists _, _, _. split; [eapply MQTTSerialize_publish_run; [done|done|lia]|].
  split; [fold pkt; lia|]. split; [exact Hrun|]. simpl. split_and!; try done.
  - intros. by decide_branch.
  - split; [done|by right].
  - by rewrite app_nil_r in Hpay.
Qed.

Lemma publish_roundtrip_witness :
  let out := mkPublishOut 0 0 0 0 MQTTString_initializer NULL 0 in
  exists n m' out',
    MQTTSerialize_publish (Ptr 1 0) 12 0 1 0 7 (mkMQTTString (Ptr 2 0) (mkLenString 0 NULL))
      (Ptr 3 0) 2 example_mem = Ret (n, m') /\ 0 < n <= 12 /\
    MQTTDeserialize_publish out (Ptr 1 0) 12 m' = Ret ((1, out'), m') /\
    po_dup out' = 0 /\ po_qos out' = 1 /\ po_retained out' = 0 /\ (0 < 1 -> po_packetid out' = 7) /\
    denotes m' (po_topicName out') [97; 47; 98] /\
    po_payloadlen out' = 2 /\ bytes_at m' (po_payload out') [104; 105].
Proof.
  intros out.
  apply (publish_roundtrip example_mem 1 0 12 0 1 0 7 _ [97; 47; 98] (Ptr 3 0) [104; 105] out 12
           example_publish_args).
  vm_compute. reflexivity.
Defined.

(** Acknowledgements round-trip: MQTTSerialize_ack stores the four octets of
    the PUBACK, PUBREC, PUBREL, PUBCOMP or UNSUBACK packet (with QoS 1 in a PUBREL)
    and MQTTDeserialize_ack recovers its type, dup flag and packet id; a buffer
    shorter than four octets is refused untouched. *)
Theorem ack_roundtrip m b o buflen type dup packetid out len2 :
  room m (Ptr b o) buflen -> type ∈ [PUBACK; PUBREC; PUBREL; PUBCOMP; UNSUBACK] ->
  0 <= packetid < 65536 ->
  let run := MQTTSerialize_ack (Ptr b o) buflen type dup packetid m in
  (buflen < 4 -> run = Ret (MQTTPACKET_BUFFER_TOO_SHORT, m)) /\
  (4 <= buflen -> exists m', run = Ret (4, m') /\
     bytes_at m' (Ptr b o) (encode (PAck type (dup mod 2) packetid)) /\
     MQTTDeserialize_ack out (Ptr b o) len2 m' = Ret ((1, mkAckOut type (dup mod 2) packetid), m')).
Proof.
  intros Hr Htype Hi run.
  assert (0 <= type < 16) as Ht.
  { unfold PUBACK, PUBREC, PUBREL, PUBCOMP, UNSUBACK in Htype. rewrite !elem_of_cons in Htype.
    destruct Htype as [->|[->|[->|[->|[->|[]%elem_of_nil]]]]]; lia. }
  pose proof (Z.mod_pos_bound dup 2 ltac:(lia)). split; intros Hb.
  - unfold run, MQTTSerialize_ack. by decide_branch.
  - eexists. split; [by apply MQTTSerialize_ack_run|].
    assert (bytes_at (mwrite m (Ptr b o) (encode (PAck type (dup mod 2) packetid))) (Ptr b o)
      (encode (PAck type (dup mod 2) packetid))) as Hat.
    { apply bytes_at_mwrite_eq. eapply room_le; [done|simpl; lia]. }
    split; [done|]. eapply (MQTTDeserialize_ack_at _ _ _ _ _ _ _ _ (if type =? 6 then 1 else 0) []);
      try lia; [by destruct (type =? 6)|]. by rewrite app_nil_r.
Qed.

Lemma ack_roundtrip_witness :
  let run := MQTTSerialize_ack (Ptr 1 0) 12 PUBREL 0 513 example_mem in
  (12 < 4 -> run = Ret (MQTTPACKET_BUFFER_TOO_SHORT, example_mem)) /\
  (4 <= 12 -> exists m', run = Ret (4, m') /\
     bytes_at m' (Ptr 1 0) [98; 2; 2; 1] /\
     MQTTDeserialize_ack (mkAckOut 0 0 0) (Ptr 1 0) 12 m' = Ret ((1, mkAckOut PUBREL 0 513), m')).
Proof.
  apply (ack_roundtrip example_mem 1 0 12 PUBREL 0 513 (mkAckOut 0 0 0) 12).
  - eexists. split; [reflexivity|]. vm_compute. discriminate.
  - apply (bool_decide_unpack _). vm_compute. exact I.
  - lia.
Defined.

(** The result of MQTTDeserialize_ack does not tell success from failure: an
    acknowledgement cut short (remaining length 0 or 1) makes the function leave
    early, but with the size of the length field, 1, as its result, which callers
    read as success, and without having set the packet id. *)
Theorem MQTTDeserialize_ack_truncated m b o out buflen h n rest :
  is_byte h -> 0 <= n < 2 -> bytes_at m (Ptr b o) (h :: n :: rest) ->
  MQTTDeserialize_ack out (Ptr b o) buflen m =
  Ret ((1, mkAckOut (MQTTHeader.type h) (MQTTHeader.dup h) (ao_packetid out)), m).
Proof.
  intros Hh Hn H. unfold MQTTDeserialize_ack.
  erewrite bind_ret by by eapply readByte_at. cbv iota beta.
  apply bytes_at_cons in H as [_ H].
  assert (rl_size n = 1) as E1 by (unfold rl_size; decide_branch; done).
  erewrite bind_ret.
  2: { eapply (MQTTPacket_decodeBuf_at _ _ n rest); [unfold MAX_REMAINING; lia|].
       unfold remaining_length. decide_branch. exact H. }
  cbv iota beta. simpl padd. erewrite bind_ret by apply psub_same. decide_branch. by rewrite E1.
Qed.

Lemma MQTTDeserialize_ack_truncated_witness :
  MQTTDeserialize_ack (mkAckOut 0 0 99) (Ptr 1 0) 2 {[1%positive := [64; 0]]} =
  Ret ((1, mkAckOut PUBACK 0 99), {[1%positive := [64; 0]]}).
Proof.
  apply (MQTTDeserialize_ack_truncated {[1%positive := [64; 0]]} 1 0 (mkAckOut 0 0 99) 2 64 0 []).
  - split; vm_compute; [discriminate|reflexivity].
  - lia.
  - exists []. reflexivity.
Defined.

(** The same for MQTTDeserialize_publish: a PUBLISH whose remaining length
    leaves no room for the topic length is reported as success (result 1) with
    neither the topic characters nor the payload set. *)
Theorem MQTTDeserialize_publish_truncated m b o out buflen h n rest :
  is_byte h -> MQTTHeader.type h = PUBLISH -> 0 <= n < 2 ->
  bytes_at m (Ptr b o) (h :: n :: rest) ->
  exists out', MQTTDeserialize_publish out (Ptr b o) buflen m = Ret ((1, out'), m) /\
    data (lenstring (po_topicName out')) = data (lenstring (po_topicName out)) /\
    po_payload out' = po_payload out /\ po_payloadlen out' = po_payloadlen out.
Proof.
  intros Hh Hty Hn H. unfold MQTTDeserialize_publish.
  erewrite bind_ret by by eapply readByte_at. cbv iota beta. rewrite Hty. simpl.
  apply bytes_at_cons in H as [_ H].
  assert (rl_size n = 1) as E1 by (unfold rl_size; decide_branch; done).
  erewrite bind_ret.
  2: { eapply (MQTTPacket_decodeBuf_at _ _ n rest); [unfold MAX_REMAINING; lia|].
       unfold remaining_length. decide_branch. exact H. }
  cbv iota beta. simpl padd. unfold readMQTTLenString.
  rewrite bind_assoc. erewrite bind_ret by apply psub_same. decide_branch.
  erewrite bind_ret by apply mret_run. simpl. erewrite bind_ret by apply mret_run. simpl.
  eexists. split; [by rewrite E1|]. done.
Qed.

Lemma MQTTDeserialize_publish_truncated_witness :
  let out := mkPublishOut 0 0 0 0 (lstring 0 Indet) Indet 0 in
  exists out', MQTTDeserialize_publish out (Ptr 1 0) 2 {[1%positive := [48; 0]]} =
      Ret ((1, out'), {[1%positive := [48; 0]]}) /\
    data (lenstring (po_topicName out')) = Indet /\
    po_payload out' = Indet /\ po_payloadlen out' = 0.
Proof.
  intros out.
  apply (MQTTDeserialize_publish_truncated {[1%positive := [48; 0]]} 1 0 out 2 48 0 []).
  - split; vm_compute; [discriminate|reflexivity].
  - reflexivity.
  - lia.
  - exists []. reflexivity.
Defined.

(** A PUBLISH with QoS above 0 whose remaining length ends right after the
    topic makes MQTTDeserialize_publish read the packet id from beyond the packet
    and report success with payload length -2. *)
Theorem MQTTDeserialize_publish_negative_length m b o out buflen dup qos retain topic rest x y :
  0 <= dup < 2 -> 0 < qos < 4 -> 0 <= retain < 2 -> is_byte x -> is_byte y ->
  Z.of_nat (length topic) < 65536 ->
  bytes_at m (Ptr b o) (frame (fixed_header 3 dup qos retain) (utf8 topic) ++ x :: y :: rest) ->
  exists out', MQTTDeserialize_publish out (Ptr b o) buflen m = Ret ((1, out'), m) /\
    po_payloadlen out' = -2 /\ po_packetid out' = 256 * x + y.
Proof.
  intros Hd Hq Hr Hx Hy Ht H. unfold is_byte in *.
  destruct (fixed_header_fields 3 dup qos retain) as (Hh & Ety & Edup & Eqos & Eret); [lia..|].
  apply frame_at in H as (Hread & Hdec & Hbody); [|done|rewrite length_utf8; unfold MAX_REMAINING; lia].
  set (n := Z.of_nat (length (utf8 topic))) in *.
  unfold MQTTDeserialize_publish.
  erewrite bind_ret by exact Hread. cbv iota beta. rewrite Ety, Edup, Eqos, Eret. simpl.
  erewrite bind_ret by exact Hdec. cbv iota beta.
  erewrite bind_ret by (eapply readMQTTLenString_at; [done|done|]; unfold n; rewrite length_utf8; lia).
  cbv iota beta. simpl. erewrite bind_ret by apply psub_same. cbv iota beta.
  replace (_ <? 0) with false by (unfold n; rewrite length_utf8; lia). cbv iota.
  replace (0 <? qos) with true by lia. cbv iota.
  rewrite bind_assoc. erewrite bind_ret.
  2: { apply (readInt_at _ _ (256 * x + y) rest); [lia|].
       apply bytes_at_app in Hbody as [_ Hbody]. unfold u16.
       replace ((256 * x + y) / 256) with x by (Z.div_mod_to_equations; lia).
       replace ((256 * x + y) mod 256) with y by (Z.div_mod_to_equations; lia).
       eapply bytes_at_eq; [exact Hbody|]. rewrite length_utf8. lia. }
  cbv iota beta. erewrite bind_ret by apply mret_run. cbv iota beta. simpl padd.
  erewrite bind_ret by apply psub_same. eexists. split; [done|]. simpl. split.
  - unfold n. rewrite length_utf8. conv_lia.
  - unfold to_ushort. by rewrite Z.mod_small by lia.
Qed.

Lemma MQTTDeserialize_publish_negative_length_witness :
  let out := mkPublishOut 0 0 0 0 (lstring 0 Indet) Indet 0 in
  exists out', MQTTDeserialize_publish out (Ptr 1 0) 7 {[1%positive := [50; 3; 0; 1; 97; 0; 9]]} =
      Ret ((1, out'), {[1%positive := [50; 3; 0; 1; 97; 0; 9]]}) /\
    po_payloadlen out' = -2 /\ po_packetid out' = 256 * 0 + 9.
Proof.
  intros out.
  apply (MQTTDeserialize_publish_negative_length {[1%positive := [50; 3; 0; 1; 97; 0; 9]]} 1 0 out 7
           0 1 0 [97] [] 0 9); try lia.
  - split; vm_compute; [discriminate|reflexivity].
  - split; vm_compute; [discriminate|reflexivity].
  - simpl. lia.
  - exists []. reflexivity.
Defined.
