(* ===== verification/Connect.v ===== *)
(** * Connect packets

    The types of src/mqtt/MQTTPacket/MQTTConnect.h and the functions of
    MQTTConnectClient.c (CONNECT out, CONNACK in, the packets without a body)
    and MQTTConnectServer.c (CONNECT in, CONNACK out). *)

From S2P Require Import Prelude Memory Wire Packet.

(** ** MQTTConnect.h *)

(** [union MQTTConnectFlags] *)
Module MQTTConnectFlags.
Definition cleansession (f : Z) : Z := get_bits 1 1 f.
Definition will (f : Z) : Z := get_bits 2 1 f.
Definition willQoS (f : Z) : Z := get_bits 3 2 f.
Definition willRetain (f : Z) : Z := get_bits 5 1 f.
Definition password (f : Z) : Z := get_bits 6 1 f.
Definition username (f : Z) : Z := get_bits 7 1 f.
Definition set_cleansession (v f : Z) : Z := set_bits 1 1 v f.
Definition set_will (v f : Z) : Z := set_bits 2 1 v f.
Definition set_willQoS (v f : Z) : Z := set_bits 3 2 v f.
Definition set_willRetain (v f : Z) : Z := set_bits 5 1 v f.
Definition set_password (v f : Z) : Z := set_bits 6 1 v f.
Definition set_username (v f : Z) : Z := set_bits 7 1 v f.
End MQTTConnectFlags.

(** [union MQTTConnackFlags] *)
Module MQTTConnackFlags.
Definition sessionpresent (f : Z) : Z := get_bits 0 1 f.
Definition set_sessionpresent (v f : Z) : Z := set_bits 0 1 v f.
End MQTTConnackFlags.

Record MQTTPacket_willOptions : Type := mkWillOptions {
  wo_struct_id : list Z;
  wo_struct_version : Z;
  topicName : MQTTString;
  message : MQTTString;
  retained : Z;
  wo_qos : Z
}.

Definition MQTTPacket_willOptions_initializer : MQTTPacket_willOptions :=
  mkWillOptions [77; 81; 84; 87] 0 MQTTString_initializer MQTTString_initializer 0 0.

Record MQTTPacket_connectData : Type := mkConnectData {
  struct_id : list Z;
  struct_version : Z;
  MQTTVersion : Z;
  clientID : MQTTString;
  keepAliveInterval : Z;
  cleansession : Z;
  willFlag : Z;
  will : MQTTPacket_willOptions;
  username : MQTTString;
  password : MQTTString
}.

Definition MQTTPacket_connectData_initializer : MQTTPacket_connectData :=
  mkConnectData [77; 81; 84; 67] 0 4 MQTTString_initializer 60 1 0
    MQTTPacket_willOptions_initializer MQTTString_initializer MQTTString_initializer.

(** ** MQTTConnectClient.c *)

(** [s.cstring || s.lenstring.data] *)
Definition supplied (s : MQTTString) : bool :=
  negb (is_null (cstring s)) || negb (is_null (data (lenstring s))).

Definition MQTTSerialize_connectLength (options : MQTTPacket_connectData) : M mem Z :=
  let len := if MQTTVersion options =? 3 then 12
             else if MQTTVersion options =? 4 then 10 else 0 in
  n ← MQTTstrlen (clientID options);
  len ← int_result (len + (n + 2));
  len ← (if truthy (willFlag options) then
           t ← MQTTstrlen (topicName (will options));
           s ← MQTTstrlen (message (will options));
           int_result (len + (t + 2 + s + 2))
         else mret len);
  len ← (if supplied (username options) then
           n ← MQTTstrlen (username options); int_result (len + (n + 2))
         else mret len);
  if supplied (password options) then
    n ← MQTTstrlen (password options); int_result (len + (n + 2))
  else mret len.

(** The flags octet MQTTSerialize_connect builds. *)
Definition connectFlags (options : MQTTPacket_connectData) : Z :=
  let flags := MQTTConnectFlags.set_cleansession (cleansession options) 0 in
  let flags := MQTTConnectFlags.set_will (if truthy (willFlag options) then 1 else 0) flags in
  let flags :=
    if truthy (MQTTConnectFlags.will flags) then
      MQTTConnectFlags.set_willRetain (retained (will options))
        (MQTTConnectFlags.set_willQoS (wo_qos (will options)) flags)
    else flags in
  let flags := if supplied (username options)
               then MQTTConnectFlags.set_username 1 flags else flags in
  if supplied (password options) then MQTTConnectFlags.set_password 1 flags else flags.

Definition MQTTSerialize_connect (buf : ptr) (buflen : Z) (options : MQTTPacket_connectData) : M mem Z :=
  len ← MQTTSerialize_connectLength options;
  total ← MQTTPacket_len len;
  if buflen <? total then mret MQTTPACKET_BUFFER_TOO_SHORT
  else
    let header := MQTTHeader.set_type CONNECT 0 in
    p ← writeChar buf header;
    p ← writeRemaining p len;
    p ← (if MQTTVersion options =? 4
         then p ← writeLiteral p [77; 81; 84; 84]; writeChar p 4
         else p ← writeLiteral p [77; 81; 73; 115; 100; 112]; writeChar p 3);
    let flags := connectFlags options in
    p ← writeChar p flags;
    p ← writeInt p (keepAliveInterval options);
    p ← writeMQTTString p (clientID options);
    p ← (if truthy (willFlag options)
         then p ← writeMQTTString p (topicName (will options));
              writeMQTTString p (message (will options))
         else mret p);
    p ← (if truthy (MQTTConnectFlags.username flags)
         then writeMQTTString p (username options) else mret p);
    p ← (if truthy (MQTTConnectFlags.password flags)
         then writeMQTTString p (password options) else mret p);
    rc ← psub p buf;
    mret rc.

Record connack_out : Type := mkConnackOut {
  co_sessionPresent : Z;
  co_connack_rc : Z
}.

Definition MQTTDeserialize_connack (out : connack_out) (buf : ptr) (buflen : Z) : M mem (Z * connack_out) :=
  '(header, curdata) ← readByte buf;
  if negb (MQTTHeader.type header =? CONNACK) then mret (0, out)
  else
    '(rc, mylen) ← MQTTPacket_decodeBuf curdata;
    let curdata := padd curdata rc in
    let enddata := padd curdata mylen in
    left ← psub enddata curdata;
    if left <? 2 then mret (rc, out)
    else
      '(flags, curdata) ← readByte curdata;
      '(code, curdata) ← readByte curdata;
      mret (1, mkConnackOut (MQTTConnackFlags.sessionpresent flags) code).

Definition MQTTSerialize_zero (buf : ptr) (buflen packettype : Z) : M mem Z :=
  if buflen <? 2 then mret MQTTPACKET_BUFFER_TOO_SHORT
  else
    let header := MQTTHeader.set_type packettype 0 in
    p ← writeChar buf header;
    p ← writeRemaining p 0;
    rc ← psub p buf;
    mret rc.

Definition MQTTSerialize_disconnect (buf : ptr) (buflen : Z) : M mem Z :=
  MQTTSerialize_zero buf buflen DISCONNECT.

Definition MQTTSerialize_pingreq (buf : ptr) (buflen : Z) : M mem Z :=
  MQTTSerialize_zero buf buflen PINGREQ.

(** ** MQTTConnectServer.c *)

Definition MQTTPacket_checkVersion (protocol : MQTTString) (version : Z) : M mem Z :=
  let n := len (lenstring protocol) in
  let p := data (lenstring protocol) in
  a ← (if version =? 3
       then r ← memcmp_lit p [77; 81; 73; 115; 100; 112] (Z.min 6 n); mret (r =? 0)
       else mret false);
  if (a : bool) then mret 1
  else
    b ← (if version =? 4
         then r ← memcmp_lit p [77; 81; 84; 84] (Z.min 4 n); mret (r =? 0)
         else mret false);
    if (b : bool) then mret 1 else mret 0.

(** The fields MQTTDeserialize_connect assigns, one at a time. *)
Definition set_session (clean keepalive : Z) (d : MQTTPacket_connectData) : MQTTPacket_connectData :=
  mkConnectData (struct_id d) (struct_version d) (MQTTVersion d) (clientID d) keepalive clean
    (willFlag d) (will d) (username d) (password d).

Definition set_clientID (s : MQTTString) (d : MQTTPacket_connectData) : MQTTPacket_connectData :=
  mkConnectData (struct_id d) (struct_version d) (MQTTVersion d) s (keepAliveInterval d)
    (cleansession d) (willFlag d) (will d) (username d) (password d).

Definition set_willFlag (v : Z) (d : MQTTPacket_connectData) : MQTTPacket_connectData :=
  mkConnectData (struct_id d) (struct_version d) (MQTTVersion d) (clientID d) (keepAliveInterval d)
    (cleansession d) v (will d) (username d) (password d).

Definition set_willOptions (w : MQTTPacket_willOptions) (d : MQTTPacket_connectData) : MQTTPacket_connectData :=
  mkConnectData (struct_id d) (struct_version d) (MQTTVersion d) (clientID d) (keepAliveInterval d)
    (cleansession d) (willFlag d) w (username d) (password d).

Definition set_username (s : MQTTString) (d : MQTTPacket_connectData) : MQTTPacket_connectData :=
  mkConnectData (struct_id d) (struct_version d) (MQTTVersion d) (clientID d) (keepAliveInterval d)
    (cleansession d) (willFlag d) (will d) s (password d).

Definition set_password (s : MQTTString) (d : MQTTPacket_connectData) : MQTTPacket_connectData :=
  mkConnectData (struct_id d) (struct_version d) (MQTTVersion d) (clientID d) (keepAliveInterval d)
    (cleansession d) (willFlag d) (will d) (username d) s.

(** [enddata - curdata < 3 || !readMQTTLenString(...)]: reads a credential. *)
Definition read_credential (s : MQTTString) (curdata enddata : ptr) : M mem (bool * MQTTString * ptr) :=
  left ← psub enddata curdata;
  if left <? 3 then mret (false, s, curdata)
  else '(ok, s, curdata) ← readMQTTLenString s curdata enddata; mret (truthy ok, s, curdata).

(** The user name and password of MQTTDeserialize_connect. *)
Definition read_credentials (flags : Z) (d : MQTTPacket_connectData) (curdata enddata : ptr) :
    M mem (Z * MQTTPacket_connectData) :=
  if truthy (MQTTConnectFlags.username flags) then
    '(ok, s, curdata) ← read_credential (username d) curdata enddata;
    let d := set_username s d in
    if negb ok then mret (0, d)
    else if truthy (MQTTConnectFlags.password flags) then
      '(ok, s, curdata) ← read_credential (password d) curdata enddata;
      let d := set_password s d in
      if negb ok then mret (0, d) else mret (1, d)
    else mret (1, d)
  else if truthy (MQTTConnectFlags.password flags) then mret (0, d)
  else mret (1, d).

(** The will of MQTTDeserialize_connect: whether to go on, the data and the
    pointer. *)
Definition read_will (flags : Z) (d : MQTTPacket_connectData) (curdata enddata : ptr) :
    M mem (bool * MQTTPacket_connectData * ptr) :=
  if truthy (MQTTConnectFlags.will flags) then
    let w := will d in
    let w := mkWillOptions (wo_struct_id w) (wo_struct_version w) (topicName w) (message w)
               (MQTTConnectFlags.willRetain flags) (MQTTConnectFlags.willQoS flags) in
    '(ok, s, curdata) ← readMQTTLenString (topicName w) curdata enddata;
    let w := mkWillOptions (wo_struct_id w) (wo_struct_version w) s (message w) (retained w) (wo_qos w) in
    if negb (truthy ok) then mret (false, set_willOptions w d, curdata)
    else
      '(ok, s, curdata) ← readMQTTLenString (message w) curdata enddata;
      let w := mkWillOptions (wo_struct_id w) (wo_struct_version w) (topicName w) s (retained w) (wo_qos w) in
      mret (truthy ok, set_willOptions w d, curdata)
  else mret (true, d, curdata).

Definition MQTTDeserialize_connect (d : MQTTPacket_connectData) (buf : ptr) (len : Z) :
    M mem (Z * MQTTPacket_connectData) :=
  let enddata := padd buf len in
  '(header, curdata) ← readByte buf;
  if negb (MQTTHeader.type header =? CONNECT) then mret (0, d)
  else
    '(n, mylen) ← MQTTPacket_decodeBuf curdata;
    let curdata := padd curdata n in
    '(ok, Protocol, curdata) ← readMQTTLenString (mkMQTTString Indet (mkLenString 0 Indet)) curdata enddata;
    left ← (if truthy ok then psub enddata curdata else mret 0);
    if negb (truthy ok) || (left <? 0) then mret (0, d)
    else
      '(version, curdata) ← readChar curdata;
      known ← MQTTPacket_checkVersion Protocol version;
      if negb (truthy known) then mret (0, d)
      else
        '(flags, curdata) ← readByte curdata;
        '(keepalive, curdata) ← readInt curdata;
        let d := set_session (MQTTConnectFlags.cleansession flags) (to_ushort keepalive) d in
        '(ok, s, curdata) ← readMQTTLenString (clientID d) curdata enddata;
        let d := set_clientID s d in
        if negb (truthy ok) then mret (0, d)
        else
          let d := set_willFlag (MQTTConnectFlags.will flags) d in
          '(ok, d, curdata) ← read_will flags d curdata enddata;
          if negb (ok : bool) then mret (0, d)
          else read_credentials flags d curdata enddata.

Definition MQTTSerialize_connack (buf : ptr) (buflen connack_rc sessionPresent : Z) : M mem Z :=
  if buflen <? 2 then mret MQTTPACKET_BUFFER_TOO_SHORT
  else
    let header := MQTTHeader.set_type CONNACK 0 in
    p ← writeChar buf header;
    p ← writeRemaining p 2;
    let flags := MQTTConnackFlags.set_sessionpresent sessionPresent 0 in
    p ← writeChar p flags;
    p ← writeChar p connack_rc;
    rc ← psub p buf;
    mret rc.

(** ** Lemmas *)

(** An optional credential: absent, or supplied with the given characters. *)
Definition credential (m : mem) (b : positive) (s : MQTTString) (o : option (list Z)) : Prop :=
  if supplied s
  then exists cs, o = Some cs /\ mstring m b s cs /\ Z.of_nat (length cs) < 65536
  else o = None.

Definition will_repr (m : mem) (b : positive) (options : MQTTPacket_connectData) (o : option Wire.will) : Prop :=
  if truthy (willFlag options)
  then exists w, o = Some w /\
    mstring m b (topicName (will options)) (will_topic w) /\
    mstring m b (message (will options)) (will_message w) /\
    Z.of_nat (length (will_topic w)) < 65536 /\ Z.of_nat (length (will_message w)) < 65536 /\
    will_qos w = wo_qos (will options) mod 4 /\ will_retain w = retained (will options) mod 2
  else o = None.

(** The options denote the connect packet [c]. *)
Record connect_repr (m : mem) (b : positive) (options : MQTTPacket_connectData) (c : connect) : Prop :=
  mkConnectRepr {
  cr_version : MQTTVersion options = cn_version c;
  cr_level : cn_version c = 3 \/ cn_version c = 4;
  cr_clean : cn_clean c = cleansession options mod 2;
  cr_keepalive : keepAliveInterval options = cn_keepalive c;
  cr_keepalive_range : 0 <= cn_keepalive c < 65536;
  cr_client : mstring m b (clientID options) (cn_client c);
  cr_client_len : Z.of_nat (length (cn_client c)) < 65536;
  cr_will : will_repr m b options (cn_will c);
  cr_user : credential m b (username options) (cn_user c);
  cr_pass : credential m b (password options) (cn_pass c)
}.

Lemma credential_stable b s o : stable b (fun m => credential m b s o).
Proof.
  intros m o' bs. unfold credential. destruct (supplied s); [|done].
  intros (cs & -> & ? & ?). exists cs. split; [done|]. split; [by apply mstring_stable|done].
Qed.

Lemma connect_repr_stable b options c : stable b (fun m => connect_repr m b options c).
Proof.
  intros m o bs [H1 H2 H3 H4 H5 H6 H7 H8 H9 H10]. constructor; try done.
  - by apply mstring_stable.
  - unfold will_repr in *. destruct (truthy (willFlag options)); [|done].
    destruct H8 as (w & -> & ? & ? & ?). exists w. split; [done|].
    split; [by apply mstring_stable|]. split; [by apply mstring_stable|done].
  - by apply (credential_stable b).
  - by apply (credential_stable b).
Qed.

Definition opt_len (o : option (list Z)) : Z :=
  match o with Some s => 2 + Z.of_nat (length s) | None => 0 end.

Lemma length_opt_string o : Z.of_nat (length (opt_string o)) = opt_len o.
Proof. destruct o; simpl; [lia|done]. Qed.

Lemma length_connect_body c :
  cn_version c = 3 \/ cn_version c = 4 ->
  Z.of_nat (length (connect_body c)) =
  (if cn_version c =? 3 then 12 else 10) + (Z.of_nat (length (cn_client c)) + 2) +
  match cn_will c with
  | Some w => Z.of_nat (length (will_topic w)) + 2 + Z.of_nat (length (will_message w)) + 2
  | None => 0
  end + opt_len (cn_user c) + opt_len (cn_pass c).
Proof.
  intros Hv. unfold connect_body. rewrite !length_app, !length_utf8, !Nat2Z.inj_add, !length_opt_string.
  rewrite length_u16. unfold protocol_name.
  destruct Hv as [-> | ->]; destruct (cn_will c);
    rewrite ?length_app, ?length_utf8; simpl; lia.
Qed.

Lemma credential_length m b s o :
  credential m b s o ->
  forall len, 0 <= len -> len + opt_len o <= INT_MAX ->
  (if supplied s then n ← MQTTstrlen s; int_result (len + (n + 2)) else mret len) m =
  Ret (len + opt_len o, m).
Proof.
  unfold credential. intros Hc len Hlen Hmax. destruct (supplied s).
  - destruct Hc as (cs & -> & Hs & Hcs). simpl in *.
    erewrite bind_ret by (eapply MQTTstrlen_spec; [done|unfold INT_MAX; lia]).
    rewrite int_result_ok by (unfold INT_MIN; lia). do 2 f_equal. lia.
  - subst o. simpl. unfold mret, M_ret. do 2 f_equal. lia.
Qed.

Lemma opt_len_nonneg o : 0 <= opt_len o.
Proof. destruct o; simpl; lia. Qed.

Lemma MQTTSerialize_connectLength_spec m b options c :
  connect_repr m b options c -> Z.of_nat (length (connect_body c)) <= MAX_REMAINING ->
  MQTTSerialize_connectLength options m = Ret (Z.of_nat (length (connect_body c)), m).
Proof.
  intros [H1 H2 H3 H4 H5 H6 H7 H8 H9 H10] Hs. unfold MQTTSerialize_connectLength, MAX_REMAINING in *.
  rewrite length_connect_body in * by done. rewrite H1.
  pose proof (opt_len_nonneg (cn_user c)). pose proof (opt_len_nonneg (cn_pass c)).
  replace (if cn_version c =? 3 then 12 else if cn_version c =? 4 then 10 else 0)
    with (if cn_version c =? 3 then 12 else 10) by (destruct H2 as [-> | ->]; done).
  set (base := if cn_version c =? 3 then 12 else 10) in *.
  assert (10 <= base <= 12) by (unfold base; destruct (cn_version c =? 3); lia).
  set (w := match cn_will c with Some w => _ | None => _ end) in *.
  assert (0 <= w) by (unfold w; destruct (cn_will c); lia).
  erewrite bind_ret by (eapply MQTTstrlen_spec; [done|unfold INT_MAX; lia]).
  erewrite bind_ret by (apply int_result_ok; unfold INT_MIN, INT_MAX; lia).
  rewrite (bind_ret _ _ _ (base + (Z.of_nat (length (cn_client c)) + 2) + w) m).
  2: { unfold will_repr in H8. destruct (truthy (willFlag options)).
       - destruct H8 as (w' & E & Ht & Hm & ? & ? & _). subst w. rewrite E in *.
         erewrite bind_ret by (eapply MQTTstrlen_spec; [done|unfold INT_MAX; lia]).
         erewrite bind_ret by (eapply MQTTstrlen_spec; [done|unfold INT_MAX; lia]).
         apply int_result_ok. unfold INT_MIN, INT_MAX. lia.
       - subst w. rewrite H8. unfold mret, M_ret. do 2 f_equal. lia. }
  erewrite bind_ret by (eapply credential_length; [done|lia|unfold INT_MAX; lia]).
  eapply credential_length; [done|lia|unfold INT_MAX; lia].
Qed.

Ltac bit_zero := rewrite get_bits_mod by lia; pow2; Z.div_mod_to_equations; lia.

Lemma connectFlags_spec m b options c :
  connect_repr m b options c ->
  let f := connectFlags options in
  f = connect_flags c /\ is_byte f /\
  MQTTConnectFlags.username f = opt_flag (cn_user c) /\
  MQTTConnectFlags.password f = opt_flag (cn_pass c).
Proof.
  intros [_ _ H3 _ _ _ _ H8 H9 H10] f.
  assert (f = connect_flags c /\ 0 <= connect_flags c < 256 /\
    (connect_flags c / 128) mod 2 = opt_flag (cn_user c) /\
    (connect_flags c / 64) mod 2 = opt_flag (cn_pass c)) as (E & Hb & Eu & Ep).
  2: { split; [done|]. split; [by rewrite E|]. unfold MQTTConnectFlags.username, MQTTConnectFlags.password.
       rewrite E, !get_bits_mod by lia. done. }
  unfold f, connectFlags, connect_flags, will_repr, credential in *.
  pose proof (Z.mod_pos_bound (cleansession options) 2 ltac:(lia)) as Hcl. rewrite <- H3 in Hcl.
  unfold MQTTConnectFlags.set_cleansession, MQTTConnectFlags.set_will, MQTTConnectFlags.set_username,
    MQTTConnectFlags.set_password, MQTTConnectFlags.set_willQoS, MQTTConnectFlags.set_willRetain,
    MQTTConnectFlags.will.
  rewrite (set_bits_add 1) by (lia || done). pow2. rewrite <- H3.
  rewrite (set_bits_add 2) by (lia || bit_zero).
  set (w := if truthy (willFlag options) then 1 else 0).
  assert (0 <= w < 2) as Hw by (unfold w; destruct (truthy (willFlag options)); lia).
  pow2. rewrite (Z.mod_small w) by lia.
  assert (truthy (get_bits 2 1 (0 + cn_clean c * 2 + w * 4)) = truthy (willFlag options)) as ->.
  { assert (get_bits 2 1 (0 + cn_clean c * 2 + w * 4) = w) as -> by bit_zero.
    unfold w. by destruct (truthy (willFlag options)). }
  set (base := if truthy (willFlag options) then _ else _).
  assert (exists k, base = 2 * cn_clean c + 4 * k /\ 0 <= k < 16 /\ 4 * k =
    match cn_will c with Some w => 32 * will_retain w + 8 * will_qos w + 4 | None => 0 end) as (k & Eb & Hk & Ek).
  { unfold base, w in *. destruct (truthy (willFlag options)).
    - destruct H8 as (wl & E & _ & _ & _ & _ & Eq & Er). rewrite E.
      pose proof (Z.mod_pos_bound (wo_qos (will options)) 4 ltac:(lia)) as Hq. rewrite <- Eq in Hq.
      pose proof (Z.mod_pos_bound (retained (will options)) 2 ltac:(lia)) as Hr. rewrite <- Er in Hr.
      rewrite (set_bits_add 3) by (lia || bit_zero). pow2. rewrite <- Eq.
      rewrite (set_bits_add 5) by (lia || bit_zero). pow2. rewrite <- Er.
      exists (8 * will_retain wl + 2 * will_qos wl + 1). lia.
    - exists 0. rewrite H8. lia. }
  rewrite Eb, <- Ek. clear base Eb.
  destruct (supplied (username options)), (supplied (password options));
    repeat match goal with H : exists cs, _ |- _ => destruct H as (? & -> & _) end; subst;
    rewrite ?H9, ?H10; simpl opt_flag;
    rewrite ?(set_bits_add 7) by (lia || bit_zero); pow2;
    rewrite ?(set_bits_add 6) by (lia || bit_zero); pow2;
    change (1 mod 2) with 1; split_and!; Z.div_mod_to_equations; lia.
Qed.

(** The parts of MQTTSerialize_connect as writers. *)
Lemma version_writes b P v :
  v = 3 \/ v = 4 ->
  writes b P
    (fun p => if v =? 4 then p ← writeLiteral p [77; 81; 84; 84]; writeChar p 4
              else p ← writeLiteral p [77; 81; 73; 115; 100; 112]; writeChar p 3)
    (utf8 (protocol_name v) ++ [v]).
Proof.
  intros Hv. apply (writes_weaken _ (fun _ => True)); [done|].
  destruct Hv as [-> | ->].
  - exact (writes_bind b (fun _ => True) _ _ _ [3] ltac:(done)
             (writeLiteral_writes b _ [77; 81; 73; 115; 100; 112] eq_refl)
             (writeChar_byte b _ 3 ltac:(unfold is_byte; lia))).
  - exact (writes_bind b (fun _ => True) _ _ _ [4] ltac:(done)
             (writeLiteral_writes b _ [77; 81; 84; 84] eq_refl) (writeChar_byte b _ 4 ltac:(unfold is_byte; lia))).
Qed.

Lemma credential_writes b (P : mem -> Prop) s o f :
  (forall m, P m -> credential m b s o) -> f = opt_flag o ->
  writes b P (fun p => if truthy f then writeMQTTString p s else mret p) (opt_string o).
Proof.
  intros HP -> m o' Hm Hr. specialize (HP m Hm) as Hc. unfold credential in Hc.
  destruct o as [cs|]; simpl.
  - apply (writeMQTTString_writes b (fun m' => mstring m' b s cs)); [done| |..];
      destruct (supplied s); try done; by destruct Hc as (? & [= <-] & ? & ?).
  - by apply (writes_nil b (fun _ => True)).
Qed.

Lemma will_writes b (P : mem -> Prop) options o :
  stable b P -> (forall m, P m -> will_repr m b options o) ->
  writes b P
    (fun p => if truthy (willFlag options)
              then p ← writeMQTTString p (topicName (will options));
                   writeMQTTString p (message (will options))
              else mret p)
    match o with
    | Some w => utf8 (will_topic w) ++ utf8 (will_message w)
    | None => []
    end.
Proof.
  intros Hst HP. unfold will_repr in HP. destruct (truthy (willFlag options)).
  - intros m o' Hm Hr. destruct (HP m Hm) as (w & -> & _ & _ & Ht & Hs & _).
    apply (writes_bind b P (fun p => writeMQTTString p _) (fun p => writeMQTTString p _)); [done| | |done|done].
    + apply writeMQTTString_writes; [|done].
      intros m' Hm'. destruct (HP m' Hm') as (w' & [= <-] & ? & _). done.
    + apply writeMQTTString_writes; [|done].
      intros m' Hm'. destruct (HP m' Hm') as (w' & [= <-] & _ & ? & _). done.
  - intros m o' Hm Hr. specialize (HP m Hm). subst o. by apply (writes_nil b P).
Qed.

Lemma MQTTSerialize_connect_run m b o buflen options c L :
  connect_repr m b options c -> Z.of_nat (length (connect_body c)) <= MAX_REMAINING ->
  room m (Ptr b o) buflen ->
  MQTTPacket_len (Z.of_nat (length (connect_body c))) m = Ret (L, m) -> L <= buflen ->
  let pkt := encode (PConnect c) in
  MQTTSerialize_connect (Ptr b o) buflen options m =
  Ret (Z.of_nat (length pkt), mwrite m (Ptr b o) pkt).
Proof.
  intros Hc Hs Hr HL Hfit pkt. pose proof (connect_repr_stable b options c) as Hst.
  set (P := fun m => connect_repr m b options c) in Hst. assert (P m) as HPm by done.
  destruct (MQTTPacket_len_spec (Z.of_nat (length (connect_body c))) m) as (L' & HL' & ? & _); [lia|].
  rewrite HL in HL'. injection HL' as <-.
  destruct (connectFlags_spec m b options c Hc) as (Ef & Hfb & Eu & Ep).
  pose proof Hc as [Ev Hv _ Ek Hk _ Hcl _ _ _].
  assert (pkt = ((((((((([fixed_header 1 0 0 0] ++
    remaining_length (Z.of_nat (length (connect_body c)))) ++ (utf8 (protocol_name (cn_version c)) ++ [cn_version c])) ++
    [connectFlags options]) ++ u16 (cn_keepalive c)) ++ utf8 (cn_client c)) ++
    match cn_will c with Some w => utf8 (will_topic w) ++ utf8 (will_message w) | None => [] end) ++
    opt_string (cn_user c)) ++ opt_string (cn_pass c)))) as Epkt.
  { unfold pkt, encode, frame. rewrite Ef. unfold connect_body at 2. by rewrite <- !app_assoc. }
  assert (room m (Ptr b o) (Z.of_nat (length pkt))) as Hrp.
  { eapply room_le; [done|]. unfold pkt, encode. rewrite length_frame. lia. }
  unfold MQTTSerialize_connect.
  erewrite bind_ret by by eapply MQTTSerialize_connectLength_spec.
  erewrite bind_ret by exact HL. decide_branch. rewrite header_byte_type. change (CONNECT mod 16) with 1.
  rewrite Epkt in *. clear Epkt. rewrite !length_app in Hrp. rewrite Ev, Ek.
  wfirst (writeChar_byte b P (fixed_header 1 0 0 0) ltac:(split; vm_compute; congruence)).
  wnext (writeRemaining_writes b P (Z.of_nat (length (connect_body c))) ltac:(lia)).
  wnext (version_writes b P _ Hv).
  wnext (writeChar_byte b P _ Hfb).
  wnext (writeInt_writes b P _ Hk).
  wnext (writeMQTTString_writes b P (clientID options) (cn_client c) ltac:(by intros ? []) Hcl).
  wnext (will_writes b P options (cn_will c) Hst ltac:(by intros ? [])).
  wnext (credential_writes b P (username options) (cn_user c) _ ltac:(by intros ? []) Eu).
  wnext (credential_writes b P (password options) (cn_pass c) _ ltac:(by intros ? []) Ep).
  apply writes_result.
Qed.

(** *** Taking a CONNECT packet apart *)

(** Evaluate the tests on constant flags. *)
Ltac truth :=
  cbv beta iota; cbn [opt_flag]; try change (truthy 1) with true; try change (truthy 0) with false;
  cbn [negb orb]; cbv beta iota.

Lemma connect_flags_fields c :
  0 <= cn_clean c < 2 ->
  (forall w, cn_will c = Some w -> 0 <= will_qos w < 4 /\ 0 <= will_retain w < 2) ->
  let f := connect_flags c in
  is_byte f /\ MQTTConnectFlags.cleansession f = cn_clean c /\
  MQTTConnectFlags.will f = opt_flag (cn_will c) /\
  MQTTConnectFlags.username f = opt_flag (cn_user c) /\
  MQTTConnectFlags.password f = opt_flag (cn_pass c) /\
  (forall w, cn_will c = Some w ->
     MQTTConnectFlags.willQoS f = will_qos w /\ MQTTConnectFlags.willRetain f = will_retain w).
Proof.
  intros Hc Hw f. unfold f, connect_flags, is_byte.
  unfold MQTTConnectFlags.cleansession, MQTTConnectFlags.will, MQTTConnectFlags.username,
    MQTTConnectFlags.password, MQTTConnectFlags.willQoS, MQTTConnectFlags.willRetain.
  rewrite !get_bits_mod by lia. pow2.
  assert (0 <= opt_flag (cn_user c) < 2) by (destruct (cn_user c); simpl; lia).
  assert (0 <= opt_flag (cn_pass c) < 2) by (destruct (cn_pass c); simpl; lia).
  destruct (cn_will c) as [w|].
  - destruct (Hw w eq_refl). change (opt_flag (Some w)) with 1.
    split_and!; try (Z.div_mod_to_equations; lia).
    intros ? [= <-]. split; Z.div_mod_to_equations; lia.
  - change (opt_flag (@None Wire.will)) with 0.
    split_and!; try done; Z.div_mod_to_equations; lia.
Qed.

Lemma memcmp_lit_at m p cs lit rest n :
  bytes_at m p (cs ++ rest) -> lit = cs -> n = Z.of_nat (length cs) ->
  n < 18446744073709551616 -> memcmp_lit p lit n m = Ret (0, m).
Proof.
  intros H -> -> Hn. unfold memcmp_lit. rewrite to_size_id by lia.
  erewrite bind_ret by (apply load_bytes_at; right; by eapply bytes_at_app_l).
  rewrite Nat2Z.id, take_ge by lia. unfold mret, M_ret. do 2 f_equal. by apply cmp_bytes_eq.
Qed.

Lemma MQTTPacket_checkVersion_at m p v rest :
  v = 3 \/ v = 4 -> bytes_at m p (protocol_name v ++ rest) ->
  MQTTPacket_checkVersion (lstring (Z.of_nat (length (protocol_name v))) p) v m = Ret (1, m).
Proof.
  intros [-> | ->] H; unfold MQTTPacket_checkVersion; simpl len; simpl data;
    cbn [Z.eqb Pos.eqb].
  - rewrite bind_assoc. erewrite bind_ret by (eapply memcmp_lit_at; [exact H|done|done|done]). done.
  - erewrite bind_ret by apply mret_run. cbv iota beta. rewrite bind_assoc.
    erewrite bind_ret by (eapply memcmp_lit_at; [exact H|done|done|done]). done.
Qed.

(** A connect packet MQTTDeserialize_connect accepts: a password comes with a
    user name, and neither is empty. *)
Record connect_valid (c : connect) : Prop := mkConnectValid {
  cv_level : cn_version c = 3 \/ cn_version c = 4;
  cv_clean : 0 <= cn_clean c < 2;
  cv_keepalive : 0 <= cn_keepalive c < 65536;
  cv_client : Z.of_nat (length (cn_client c)) < 65536;
  cv_will : forall w, cn_will c = Some w ->
    0 <= will_qos w < 4 /\ 0 <= will_retain w < 2 /\
    Z.of_nat (length (will_topic w)) < 65536 /\ Z.of_nat (length (will_message w)) < 65536;
  cv_user : forall s, cn_user c = Some s -> s ≠ [] /\ Z.of_nat (length s) < 65536;
  cv_pass : forall s, cn_pass c = Some s -> s ≠ [] /\ Z.of_nat (length s) < 65536 /\ is_Some (cn_user c);
  cv_size : Z.of_nat (length (connect_body c)) <= MAX_REMAINING
}.

Lemma read_credential_at m b o e s cs rest :
  bytes_at m (Ptr b o) (utf8 cs ++ rest) -> cs ≠ [] -> Z.of_nat (length cs) < 65536 ->
  o + Z.of_nat (length (utf8 cs)) <= e ->
  exists s', read_credential s (Ptr b o) (Ptr b e) m =
    Ret ((true, s', Ptr b (o + Z.of_nat (length (utf8 cs)))), m) /\ denotes m s' cs /\
  bytes_at m (Ptr b (o + Z.of_nat (length (utf8 cs)))) rest.
Proof.
  intros H Hne Hlen He. destruct (read_string m b o e s cs rest H Hlen He) as (s' & Hr & Hd & Ha).
  exists s'. split; [|done]. unfold read_credential. erewrite bind_ret by apply psub_same.
  rewrite length_utf8 in *. destruct cs as [|x cs]; [done|]. cbn [length] in *.
  decide_branch. by erewrite bind_ret by exact Hr.
Qed.

(** The data MQTTDeserialize_connect fills in denote [c]. *)
Record connect_read (m : mem) (d : MQTTPacket_connectData) (c : connect) : Prop := mkConnectRead {
  rd_clean : cleansession d = cn_clean c;
  rd_keepalive : keepAliveInterval d = cn_keepalive c;
  rd_client : denotes m (clientID d) (cn_client c);
  rd_willFlag : willFlag d = opt_flag (cn_will c);
  rd_will : forall w, cn_will c = Some w ->
    denotes m (topicName (will d)) (will_topic w) /\ denotes m (message (will d)) (will_message w) /\
    wo_qos (will d) = will_qos w /\ retained (will d) = will_retain w;
  rd_user : forall s, cn_user c = Some s -> denotes m (username d) s;
  rd_pass : forall s, cn_pass c = Some s -> denotes m (password d) s
}.

Lemma read_will_at m b o e d c f rest :
  MQTTConnectFlags.will f = opt_flag (cn_will c) ->
  (forall w, cn_will c = Some w ->
     MQTTConnectFlags.willQoS f = will_qos w /\ MQTTConnectFlags.willRetain f = will_retain w /\
     Z.of_nat (length (will_topic w)) < 65536 /\ Z.of_nat (length (will_message w)) < 65536) ->
  let body := match cn_will c with
              | Some w => utf8 (will_topic w) ++ utf8 (will_message w) | None => [] end in
  bytes_at m (Ptr b o) (body ++ rest) -> o + Z.of_nat (length body) <= e ->
  exists w', read_will f d (Ptr b o) (Ptr b e) m =
    Ret ((true, set_willOptions w' d, Ptr b (o + Z.of_nat (length body))), m) /\
    bytes_at m (Ptr b (o + Z.of_nat (length body))) rest /\
    (forall w, cn_will c = Some w ->
       denotes m (topicName w') (will_topic w) /\ denotes m (message w') (will_message w) /\
       wo_qos w' = will_qos w /\ retained w' = will_retain w).
Proof.
  intros Hf Hw body H He. unfold body in *. unfold read_will. rewrite Hf.
  destruct (cn_will c) as [w|]; truth.
  - destruct (Hw w eq_refl) as (Eq & Er & Ht & Hm). rewrite length_app in *.
    rewrite <- app_assoc in H.
    edestruct read_string with (e := e) as (s1 & R1 & D1 & H1); [exact H|done|lia|].
    erewrite bind_ret by exact R1. truth.
    edestruct read_string with (e := e) as (s2 & R2 & D2 & H2); [exact H1|done|lia|].
    erewrite bind_ret by exact R2. truth.
    eexists. split; [unfold mret, M_ret; do 4 f_equal; lia|].
    split; [eapply bytes_at_eq; [exact H2|lia]|]. by intros ? [= <-].
  - exists (will d). simpl in *. rewrite Z.add_0_r. split; [|done]. by destruct d.
Qed.

Lemma read_credentials_at m b o e d c f rest :
  MQTTConnectFlags.username f = opt_flag (cn_user c) ->
  MQTTConnectFlags.password f = opt_flag (cn_pass c) -> connect_valid c ->
  bytes_at m (Ptr b o) (opt_string (cn_user c) ++ opt_string (cn_pass c) ++ rest) ->
  o + Z.of_nat (length (opt_string (cn_user c))) + Z.of_nat (length (opt_string (cn_pass c))) <= e ->
  exists u p, read_credentials f d (Ptr b o) (Ptr b e) m =
    Ret ((1, set_password p (set_username u d)), m) /\
    (forall s, cn_user c = Some s -> denotes m u s) /\ (forall s, cn_pass c = Some s -> denotes m p s).
Proof.
  intros Hfu Hfp Hv H He. unfold read_credentials. rewrite Hfu, Hfp.
  pose proof (cv_user c Hv) as Hu. pose proof (cv_pass c Hv) as Hp.
  destruct (cn_user c) as [us|] eqn:Eu; truth.
  - destruct (Hu us eq_refl) as [Hne Hl]. change (opt_string (Some us)) with (utf8 us) in *.
    edestruct read_credential_at with (e := e) as (s1 & R1 & D1 & H1); [exact H|done|done|lia|].
    erewrite bind_ret by exact R1. truth.
    destruct (cn_pass c) as [ps|]; truth.
    + destruct (Hp ps eq_refl) as (Hne' & Hl' & _). change (opt_string (Some ps)) with (utf8 ps) in *.
      edestruct read_credential_at with (e := e) as (s2 & R2 & D2 & H2); [exact H1|done|done|lia|].
      erewrite bind_ret by exact R2. exists s1, s2. split; [done|]. split; by intros ? [= <-].
    + exists s1, (password d). split; [done|]. split; [by intros ? [= <-]|done].
  - destruct (cn_pass c) as [ps|]; truth.
    + destruct (Hp ps eq_refl) as (_ & _ & [? ?]). done.
    + exists (username d), (password d). split; [by destruct d|done].
Qed.

Lemma MQTTDeserialize_connect_at m b o len d c rest :
  connect_valid c -> bytes_at m (Ptr b o) (encode (PConnect c) ++ rest) ->
  Z.of_nat (length (encode (PConnect c))) <= len ->
  exists d', MQTTDeserialize_connect d (Ptr b o) len m = Ret ((1, d'), m) /\ connect_read m d' c.
Proof.
  intros Hv H Hlen. pose proof Hv as [Hlev Hcl Hk Hc Hw Hu Hp Hs].
  unfold encode in *. rewrite length_frame in Hlen.
  apply frame_at in H as (Hread & Hdec & Hbody); [|split; vm_compute; congruence|done].
  set (n := rl_size (Z.of_nat (length (connect_body c)))) in *.
  destruct (connect_flags_fields c Hcl) as (Hfb & Fc & Fw & Fu & Fp & Fwo);
    [intros w Ew; by destruct (Hw w Ew) as (? & ? & _)|].
  unfold connect_body in Hbody, Hlen. rewrite <- !app_assoc in Hbody. rewrite !length_app in Hlen.
  unfold MQTTDeserialize_connect. cbv zeta. simpl padd.
  erewrite bind_ret by exact Hread. cbv iota beta.
  change (negb (MQTTHeader.type (fixed_header 1 0 0 0) =? CONNECT)) with false. cbv iota beta.
  erewrite bind_ret by exact Hdec. cbv iota beta. simpl padd. fold n.
  assert (Z.of_nat (length (protocol_name (cn_version c))) < 65536) as Hpn
    by (destruct Hlev as [-> | ->]; done).
  rewrite !length_u16, !length_utf8 in Hlen.
  change (length [cn_version c; connect_flags c]) with 2%nat in Hlen.
  erewrite bind_ret by (eapply readMQTTLenString_at; [exact Hbody|done|lia]). truth.
  pose proof (proj2 (proj1 (bytes_at_app _ _ _ _) Hbody)) as H1.
  eapply (bytes_at_eq _ _ _ (o + 1 + n + 2 + Z.of_nat (length (protocol_name (cn_version c))))) in H1;
    [|rewrite length_utf8; lia].
  erewrite bind_ret by apply psub_same. cbv beta.
  replace (_ <? 0) with false by lia. truth.
  erewrite bind_ret by (eapply readChar_at; exact H1). cbv iota beta. simpl padd.
  replace (to_char (cn_version c)) with (cn_version c) by (destruct Hlev as [-> | ->]; done).
  erewrite bind_ret.
  2: { eapply MQTTPacket_checkVersion_at; [done|]. unfold utf8 in Hbody. rewrite <- app_assoc in Hbody.
       apply bytes_at_app in Hbody as [_ Hbody]. exact Hbody. }
  truth.
  apply bytes_at_cons in H1 as [_ H1]. simpl padd in H1.
  erewrite bind_ret by (eapply readByte_at; [done|exact H1]). truth. simpl padd.
  apply bytes_at_cons in H1 as [_ H1]. simpl padd in H1.
  erewrite bind_ret by (eapply readInt_at; [done|exact H1]). truth. simpl padd.
  apply bytes_at_app in H1 as [_ H1]. simpl padd in H1.
  edestruct read_string with (e := o + len) as (s2 & R2 & D2 & H2);
    [exact H1|done|rewrite ?length_utf8; lia|].
  erewrite bind_ret by exact R2. truth.
  edestruct read_will_at with (c := c) (e := o + len) as (w' & R3 & H3 & D3);
    [exact Fw| |exact H2|rewrite ?length_utf8; lia|].
  { intros w Ew. destruct (Hw w Ew) as (_ & _ & ? & ?), (Fwo w Ew) as (? & ?). done. }
  erewrite bind_ret by exact R3. truth.
  edestruct read_credentials_at with (c := c) (e := o + len) as (u & p & R4 & D4 & D5);
    [exact Fu|exact Fp|done|exact H3|rewrite ?length_utf8; lia|].
  eexists. split; [exact R4|]. constructor; simpl; try done.
  unfold to_ushort. by rewrite Z.mod_small.
Qed.

Lemma MQTTSerialize_connack_run m b o buflen rc sp :
  room m (Ptr b o) buflen -> 4 <= buflen -> is_byte rc ->
  MQTTSerialize_connack (Ptr b o) buflen rc sp m =
  Ret (4, mwrite m (Ptr b o) (encode (PConnack (sp mod 2) rc))).
Proof.
  intros Hr Hb Hrc. unfold MQTTSerialize_connack. decide_branch. rewrite header_byte_type.
  assert (stable b (fun _ => True)) by done.
  assert (MQTTConnackFlags.set_sessionpresent sp 0 = sp mod 2) as Ef.
  { unfold MQTTConnackFlags.set_sessionpresent. rewrite set_bits_add by (vm_compute; intuition congruence).
    pow2. lia. }
  pose proof (Z.mod_pos_bound sp 2 ltac:(lia)). rewrite Ef.
  assert (encode (PConnack (sp mod 2) rc) =
    (([fixed_header 2 0 0 0] ++ remaining_length 2) ++ [sp mod 2]) ++ [rc]) as -> by done.
  wfirst (writeChar_byte b (fun _ => True) (fixed_header 2 0 0 0) ltac:(split; vm_compute; congruence)).
  wnext (writeRemaining_writes b (fun _ => True) 2 ltac:(unfold MAX_REMAINING; lia)).
  wnext (writeChar_byte b (fun _ => True) (sp mod 2) ltac:(unfold is_byte; lia)).
  wnext (writeChar_byte b (fun _ => True) rc Hrc).
  apply writes_result.
Qed.

Lemma MQTTDeserialize_connack_at m b o out len sp rc rest :
  0 <= sp < 2 -> is_byte rc -> bytes_at m (Ptr b o) (encode (PConnack sp rc) ++ rest) ->
  MQTTDeserialize_connack out (Ptr b o) len m = Ret ((1, mkConnackOut sp rc), m).
Proof.
  intros Hsp Hrc Hat.
  destruct (short_header_at m b o 32 2 ([sp; rc] ++ rest)) as (R & D & H); [unfold is_byte; lia|lia|done|].
  unfold MQTTDeserialize_connack. erewrite bind_ret by exact R. cbv iota beta.
  change (negb (MQTTHeader.type 32 =? CONNACK)) with false. cbv iota.
  erewrite bind_ret by exact D. cbv iota beta. simpl padd. erewrite bind_ret by apply psub_same. decide_branch.
  replace (o + 1 + 1) with (o + 2) by lia. cbn [app] in H.
  erewrite bind_ret by (eapply readByte_at; [|exact H]; unfold is_byte; lia). cbv iota beta.
  apply bytes_at_cons in H as [_ H].
  erewrite bind_ret by (eapply readByte_at; [|exact H]; done). cbv iota beta.
  unfold mret, M_ret, MQTTConnackFlags.sessionpresent. rewrite get_bits_mod by lia. pow2.
  rewrite Z.div_1_r. by rewrite Z.mod_small by lia.
Qed.

Lemma MQTTSerialize_zero_run m b o buflen type :
  room m (Ptr b o) buflen -> 2 <= buflen -> 0 <= type < 16 ->
  MQTTSerialize_zero (Ptr b o) buflen type m =
  Ret (2, mwrite m (Ptr b o) (encode (PEmpty type))).
Proof.
  intros Hr Hb Ht. unfold MQTTSerialize_zero. decide_branch. rewrite header_byte_type, Z.mod_small by lia.
  assert (stable b (fun _ => True)) by done.
  destruct (fixed_header_fields type 0 0 0) as [Hh _]; [lia..|].
  assert (encode (PEmpty type) = [fixed_header type 0 0 0] ++ remaining_length 0) as -> by done.
  wfirst (writeChar_byte b (fun _ => True) _ Hh).
  wnext (writeRemaining_writes b (fun _ => True) 0 ltac:(unfold MAX_REMAINING; lia)).
  apply writes_result.
Qed.

(** ** Properties *)

(** C22: MQTTSerialize_connect stores exactly the CONNECT packet its options denote
    (protocol name and level, flags, keep-alive, client id, will, credentials) and
    returns its length, never writing past the buffer; a packet that does not fit is
    refused with MQTTPACKET_BUFFER_TOO_SHORT and nothing is written. *)
Theorem MQTTSerialize_connect_refines m b o buflen options c :
  connect_repr m b options c -> Z.of_nat (length (connect_body c)) <= MAX_REMAINING ->
  room m (Ptr b o) buflen ->
  let pkt := encode (PConnect c) in
  let run := MQTTSerialize_connect (Ptr b o) buflen options m in
  (Z.of_nat (length pkt) <= buflen /\ run = Ret (Z.of_nat (length pkt), mwrite m (Ptr b o) pkt)) \/
  (buflen <= Z.of_nat (length pkt) /\ run = Ret (MQTTPACKET_BUFFER_TOO_SHORT, m)).
Proof.
  intros Hc Hs Hr pkt run.
  destruct (MQTTPacket_len_spec (Z.of_nat (length (connect_body c))) m) as (L & HL & HL1 & HL2); [lia|].
  assert (Z.of_nat (length pkt) <= L <= Z.of_nat (length pkt) + 1) as HLp.
  { unfold pkt, encode. rewrite length_frame. lia. }
  destruct (Z.ltb_spec buflen L) as [Hlt|Hge].
  - right. split; [lia|]. unfold run, MQTTSerialize_connect.
    erewrite bind_ret by by eapply MQTTSerialize_connectLength_spec.
    erewrite bind_ret by exact HL. by decide_branch.
  - left. split; [lia|]. by eapply MQTTSerialize_connect_run.
Qed.

(** A concrete call: client id "c1", a will, a user name and a password. *)
Definition example_connect_mem : mem :=
  {[1%positive := replicate 64 0; 2%positive := [99; 49; 0]; 3%positive := [116; 0];
    4%positive := [98; 121; 101; 0]; 5%positive := [117; 0]; 6%positive := [112; 119; 0]]}.

Definition cstr (p : ptr) : MQTTString := mkMQTTString p (mkLenString 0 NULL).

Definition example_options : MQTTPacket_connectData :=
  mkConnectData [77; 81; 84; 67] 0 4 (cstr (Ptr 2 0)) 60 1 1
    (mkWillOptions [77; 81; 84; 87] 0 (cstr (Ptr 3 0)) (cstr (Ptr 4 0)) 0 1)
    (cstr (Ptr 5 0)) (cstr (Ptr 6 0)).

Definition example_connect : connect :=
  mk_connect 4 1 (Some (mk_will [116] [98; 121; 101] 1 0)) 60 [99; 49] (Some [117]) (Some [112; 119]).

Lemma example_connect_repr : connect_repr example_connect_mem 1 example_options example_connect.
Proof.
  assert (forall p s, cstr_at example_connect_mem p s -> ~ in_block p 1 ->
    mstring example_connect_mem 1 (cstr p) s) as Hs by (intros; apply mstring_c; [done|done|lia]).
  constructor; simpl; try lia; try (split; lia).
  - apply Hs; [split; [by exists []|no_nul]|done].
  - eexists. split; [done|]. simpl. split_and!; try lia.
    + apply Hs; [split; [by exists []|no_nul]|done].
    + apply Hs; [split; [by exists []|no_nul]|done].
  - eexists. split; [done|]. split; [|simpl; lia].
    apply Hs; [split; [by exists []|no_nul]|done].
  - eexists. split; [done|]. split; [|simpl; lia].
    apply Hs; [split; [by exists []|no_nul]|done].
Qed.

Lemma example_connect_valid : connect_valid example_connect.
Proof.
  constructor; simpl; try lia.
  - intros w [= <-]. simpl. lia.
  - intros s [= <-]. split; [done|]. simpl. lia.
  - intros s [= <-]. split; [done|]. split; [simpl; lia|by eexists].
  - vm_compute. congruence.
Qed.

Lemma example_connect_room : room example_connect_mem (Ptr 1 0) 64.
Proof. eexists. split; [reflexivity|]. vm_compute. discriminate. Qed.

Lemma MQTTSerialize_connect_refines_witness :
  let pkt := encode (PConnect example_connect) in
  let run := MQTTSerialize_connect (Ptr 1 0) 64 example_options example_connect_mem in
  (Z.of_nat (length pkt) <= 64 /\
   run = Ret (Z.of_nat (length pkt), mwrite example_connect_mem (Ptr 1 0) pkt)) \/
  (64 <= Z.of_nat (length pkt) /\ run = Ret (MQTTPACKET_BUFFER_TOO_SHORT, example_connect_mem)).
Proof.
  apply (MQTTSerialize_connect_refines example_connect_mem 1 0 64 example_options example_connect).
  - exact example_connect_repr.
  - vm_compute. discriminate.
  - exact example_connect_room.
Defined.



(** A CONNACK round-trips: MQTTSerialize_connack stores the four octets of the
    packet in a buffer that has them, and MQTTDeserialize_connack recovers the session
    flag and the return code. *)
Theorem connack_roundtrip m b o buflen rc sp out len :
  room m (Ptr b o) buflen -> 4 <= buflen -> is_byte rc ->
  exists m', MQTTSerialize_connack (Ptr b o) buflen rc sp m = Ret (4, m') /\
    bytes_at m' (Ptr b o) (encode (PConnack (sp mod 2) rc)) /\
    MQTTDeserialize_connack out (Ptr b o) len m' = Ret ((1, mkConnackOut (sp mod 2) rc), m').
Proof.
  intros Hr Hb Hrc. eexists. split; [by apply MQTTSerialize_connack_run|].
  set (m' := mwrite _ _ _).
  assert (bytes_at m' (Ptr b o) (encode (PConnack (sp mod 2) rc))) as Hat.
  { apply bytes_at_mwrite_eq. eapply room_le; [done|simpl; lia]. }
  split; [done|].
  pose proof (Z.mod_pos_bound sp 2 ltac:(lia)).
  apply (MQTTDeserialize_connack_at m' b o out len (sp mod 2) rc []); [lia|done|by rewrite app_nil_r].
Qed.

Lemma connack_roundtrip_witness :
  exists m', MQTTSerialize_connack (Ptr 1 0) 64 5 1 example_connect_mem = Ret (4, m') /\
    bytes_at m' (Ptr 1 0) [32; 2; 1; 5] /\
    MQTTDeserialize_connack (mkConnackOut 0 0) (Ptr 1 0) 4 m' = Ret ((1, mkConnackOut 1 5), m').
Proof.
  apply (connack_roundtrip example_connect_mem 1 0 64 5 1 (mkConnackOut 0 0) 4).
  - exact example_connect_room.
  - lia.
  - split; vm_compute; [discriminate|reflexivity].
Defined.

(** A CONNACK without a body is reported as success: MQTTDeserialize_connack
    returns 1 for a packet of remaining length 0 or 1 and leaves the session flag and
    the return code as they were. *)
Theorem MQTTDeserialize_connack_truncated m b o out buflen low n rest :
  0 <= low < 16 -> 0 <= n < 2 -> bytes_at m (Ptr b o) (32 + low :: n :: rest) ->
  MQTTDeserialize_connack out (Ptr b o) buflen m = Ret ((1, out), m).
Proof.
  intros Hl Hn H. apply short_header_at in H as (R & D & _); [|unfold is_byte; lia|lia].
  unfold MQTTDeserialize_connack. erewrite bind_ret by exact R. cbv iota beta.
  assert (MQTTHeader.type (32 + low) = CONNACK) as ->.
  { unfold MQTTHeader.type, CONNACK. rewrite get_bits_mod by lia. pow2. Z.div_mod_to_equations; lia. }
  change (negb (CONNACK =? CONNACK)) with false. cbv iota.
  erewrite bind_ret by exact D. cbv iota beta. simpl padd. erewrite bind_ret by apply psub_same.
  by decide_branch.
Qed.

Lemma MQTTDeserialize_connack_truncated_witness :
  MQTTDeserialize_connack (mkConnackOut 0 0) (Ptr 1 0) 2 {[1%positive := [32; 0]]} =
  Ret ((1, mkConnackOut 0 0), {[1%positive := [32; 0]]}).
Proof.
  apply (MQTTDeserialize_connack_truncated {[1%positive := [32; 0]]} 1 0 (mkConnackOut 0 0) 2 0 0 []);
    [lia|lia|]. exists []. reflexivity.
Defined.

(** MQTTSerialize_pingreq and MQTTSerialize_disconnect store the two octets of
    their packets and return 2; a shorter buffer is refused untouched. *)
Theorem MQTTSerialize_empty_packets m b o buflen :
  room m (Ptr b o) buflen ->
  (buflen < 2 ->
     MQTTSerialize_pingreq (Ptr b o) buflen m = Ret (MQTTPACKET_BUFFER_TOO_SHORT, m) /\
     MQTTSerialize_disconnect (Ptr b o) buflen m = Ret (MQTTPACKET_BUFFER_TOO_SHORT, m)) /\
  (2 <= buflen ->
     MQTTSerialize_pingreq (Ptr b o) buflen m = Ret (2, mwrite m (Ptr b o) (encode (PEmpty PINGREQ))) /\
     MQTTSerialize_disconnect (Ptr b o) buflen m = Ret (2, mwrite m (Ptr b o) (encode (PEmpty DISCONNECT)))).
Proof.
  intros Hr. unfold MQTTSerialize_pingreq, MQTTSerialize_disconnect. split; intros Hb.
  - unfold MQTTSerialize_zero. by decide_branch.
  - split; apply MQTTSerialize_zero_run; done.
Qed.

Lemma MQTTSerialize_empty_packets_witness :
  (64 < 2 ->
     MQTTSerialize_pingreq (Ptr 1 0) 64 example_connect_mem = Ret (MQTTPACKET_BUFFER_TOO_SHORT, example_connect_mem) /\
     MQTTSerialize_disconnect (Ptr 1 0) 64 example_connect_mem = Ret (MQTTPACKET_BUFFER_TOO_SHORT, example_connect_mem)) /\
  (2 <= 64 ->
     MQTTSerialize_pingreq (Ptr 1 0) 64 example_connect_mem =
       Ret (2, mwrite example_connect_mem (Ptr 1 0) [192; 0]) /\
     MQTTSerialize_disconnect (Ptr 1 0) 64 example_connect_mem =
       Ret (2, mwrite example_connect_mem (Ptr 1 0) [224; 0])).
Proof.
  apply (MQTTSerialize_empty_packets example_connect_mem 1 0 64). exact example_connect_room.
Defined.

(** ** Where the code departs from its contract *)

(** The length check of MQTTSerialize_connack admits a buffer of two or three
    octets, and the function then writes past its end. *)
Lemma MQTTSerialize_connack_overflow rc sp :
  MQTTSerialize_connack (Ptr 1 0) 2 rc sp {[1%positive := [0; 0]]} = UB /\
  MQTTSerialize_connack (Ptr 1 0) 3 rc sp {[1%positive := [0; 0; 0]]} = UB.
Proof. by split. Qed.

(** MQTTPacket_checkVersion compares a prefix only: an empty protocol name passes
    for both versions. *)
Lemma MQTTPacket_checkVersion_empty m p version :
  version = 3 \/ version = 4 -> MQTTPacket_checkVersion (lstring 0 p) version m = Ret (1, m).
Proof. by intros [-> | ->]. Qed.
