(* ===== verification/Subscribe.v ===== *)
(** * Subscribe and unsubscribe packets

    MQTTSubscribeClient.c, MQTTSubscribeServer.c, MQTTUnsubscribeClient.c and
    MQTTUnsubscribeServer.c of src/mqtt/MQTTPacket.  The arrays of the C
    functions are lists whose length is the size of the array; an index out of
    range is undefined behaviour. *)

From S2P Require Import Prelude Memory Wire Packet Publish.

(** [for (i = 0; i < n; ++i) f] over an accumulator. *)
Fixpoint for_loop {S A} (n : nat) (i : Z) (f : Z -> A -> M S A) (a : A) : M S A :=
  match n with
  | O => mret a
  | S n => a ← f i a; for_loop n (i + 1) f a
  end.

(** ** MQTTSubscribeClient.c *)

Definition MQTTSerialize_subscribeLength (count : Z) (topicFilters : list MQTTString) : M mem Z :=
  for_loop (Z.to_nat count) 0 (fun i len =>
    s ← array_get topicFilters i;
    n ← MQTTstrlen s;
    int_result (len + (2 + n + 1))) 2.

Definition MQTTSerialize_subscribe (buf : ptr) (buflen dup packetid count : Z)
    (topicFilters : list MQTTString) (requestedQoSs : list Z) : M mem Z :=
  rem_len ← MQTTSerialize_subscribeLength count topicFilters;
  total ← MQTTPacket_len rem_len;
  if buflen <? total then mret MQTTPACKET_BUFFER_TOO_SHORT
  else
    let header := MQTTHeader.set_qos 1 (MQTTHeader.set_dup dup (MQTTHeader.set_type SUBSCRIBE 0)) in
    p ← writeChar buf header;
    p ← writeRemaining p rem_len;
    p ← writeInt p packetid;
    p ← for_loop (Z.to_nat count) 0 (fun i p =>
          s ← array_get topicFilters i;
          p ← writeMQTTString p s;
          q ← array_get requestedQoSs i;
          writeChar p q) p;
    rc ← psub p buf;
    mret rc.

(** What MQTTDeserialize_suback stores through its pointers. *)
Record suback_out : Type := mkSubackOut {
  so_packetid : Z;
  so_count : Z;
  so_grantedQoSs : list Z
}.

Fixpoint suback_loop (fuel : nat) (maxcount : Z) (out : suback_out) (curdata enddata : ptr) :
    M mem (Z * suback_out) :=
  match fuel with
  | O => nofuel
  | S fuel =>
      more ← plt curdata enddata;
      if (more : bool) then
        if maxcount <? so_count out then mret (-1, out)
        else
          '(c, curdata) ← readChar curdata;
          qs ← array_set (so_grantedQoSs out) (so_count out) c;
          n ← int_result (so_count out + 1);
          suback_loop fuel maxcount (mkSubackOut (so_packetid out) n qs) curdata enddata
      else mret (1, out)
  end.

Definition MQTTDeserialize_suback (out : suback_out) (maxcount : Z) (buf : ptr) (buflen : Z) :
    M mem (Z * suback_out) :=
  '(header, curdata) ← readByte buf;
  if negb (MQTTHeader.type header =? SUBACK) then mret (0, out)
  else
    '(rc, mylen) ← MQTTPacket_decodeBuf curdata;
    let curdata := padd curdata rc in
    let enddata := padd curdata mylen in
    left ← psub enddata curdata;
    if left <? 2 then mret (rc, out)
    else
      '(id, curdata) ← readInt curdata;
      let out := mkSubackOut (to_ushort id) 0 (so_grantedQoSs out) in
      (* every pass consumes an octet of the packet *)
      suback_loop (S (Z.to_nat mylen)) maxcount out curdata enddata.

(** ** MQTTSubscribeServer.c *)

Record subscribe_out : Type := mkSubscribeOut {
  sb_dup : Z;
  sb_packetid : Z;
  sb_count : Z;
  sb_topicFilters : list MQTTString;
  sb_requestedQoSs : list Z
}.

Definition set_filter (fs : list MQTTString) (o : subscribe_out) : subscribe_out :=
  mkSubscribeOut (sb_dup o) (sb_packetid o) (sb_count o) fs (sb_requestedQoSs o).

(** Whether the loop ran to the end of the packet, and what it stored. *)
Fixpoint subscribe_loop (fuel : nat) (out : subscribe_out) (curdata enddata : ptr) :
    M mem (bool * subscribe_out) :=
  match fuel with
  | O => nofuel
  | S fuel =>
      more ← plt curdata enddata;
      if (more : bool) then
        s ← array_get (sb_topicFilters out) (sb_count out);
        '(ok, s, curdata) ← readMQTTLenString s curdata enddata;
        fs ← array_set (sb_topicFilters out) (sb_count out) s;
        let out := set_filter fs out in
        if negb (truthy ok) then mret (false, out)
        else
          more ← plt curdata enddata;
          if negb more then mret (false, out)
          else
            '(c, curdata) ← readChar curdata;
            qs ← array_set (sb_requestedQoSs out) (sb_count out) c;
            n ← int_result (sb_count out + 1);
            subscribe_loop fuel
              (mkSubscribeOut (sb_dup out) (sb_packetid out) n (sb_topicFilters out) qs) curdata enddata
      else mret (true, out)
  end.

Definition MQTTDeserialize_subscribe (out : subscribe_out) (maxcount : Z) (buf : ptr) (buflen : Z) :
    M mem (Z * subscribe_out) :=
  '(header, curdata) ← readByte buf;
  if negb (MQTTHeader.type header =? SUBSCRIBE) then mret (-1, out)
  else
    '(rc, mylen) ← MQTTPacket_decodeBuf curdata;
    let curdata := padd curdata rc in
    let enddata := padd curdata mylen in
    '(id, curdata) ← readInt curdata;
    let out := mkSubscribeOut (MQTTHeader.dup header) (to_ushort id) 0
                 (sb_topicFilters out) (sb_requestedQoSs out) in
    '(complete, out) ← subscribe_loop (S (Z.to_nat mylen)) out curdata enddata;
    mret (if (complete : bool) then 1 else rc, out).

Definition MQTTSerialize_suback (buf : ptr) (buflen packetid count : Z) (grantedQoSs : list Z) : M mem Z :=
  need ← int_result (2 + count);
  if buflen <? need then mret MQTTPACKET_BUFFER_TOO_SHORT
  else
    let header := MQTTHeader.set_type SUBACK 0 in
    p ← writeChar buf header;
    p ← writeRemaining p need;
    p ← writeInt p packetid;
    p ← for_loop (Z.to_nat count) 0 (fun i p =>
          q ← array_get grantedQoSs i;
          writeChar p q) p;
    rc ← psub p buf;
    mret rc.

(** ** MQTTUnsubscribeClient.c *)

Definition MQTTSerialize_unsubscribeLength (count : Z) (topicFilters : list MQTTString) : M mem Z :=
  for_loop (Z.to_nat count) 0 (fun i len =>
    s ← array_get topicFilters i;
    n ← MQTTstrlen s;
    int_result (len + (2 + n))) 2.

Definition MQTTSerialize_unsubscribe (buf : ptr) (buflen dup packetid count : Z)
    (topicFilters : list MQTTString) : M mem Z :=
  rem_len ← MQTTSerialize_unsubscribeLength count topicFilters;
  total ← MQTTPacket_len rem_len;
  if buflen <? total then mret MQTTPACKET_BUFFER_TOO_SHORT
  else
    let header := MQTTHeader.set_qos 1 (MQTTHeader.set_dup dup (MQTTHeader.set_type UNSUBSCRIBE 0)) in
    p ← writeChar buf header;
    p ← writeRemaining p rem_len;
    p ← writeInt p packetid;
    p ← for_loop (Z.to_nat count) 0 (fun i p =>
          s ← array_get topicFilters i;
          writeMQTTString p s) p;
    rc ← psub p buf;
    mret rc.

(** [*packetid] goes in and out. *)
Definition MQTTDeserialize_unsuback (packetid : Z) (buf : ptr) (buflen : Z) : M mem (Z * Z) :=
  '(rc, out) ← MQTTDeserialize_ack (mkAckOut 0 0 packetid) buf buflen;
  mret (if ao_packettype out =? UNSUBACK then 1 else rc, ao_packetid out).

(** ** MQTTUnsubscribeServer.c *)

Record unsubscribe_out : Type := mkUnsubscribeOut {
  us_dup : Z;
  us_packetid : Z;
  us_count : Z;
  us_topicFilters : list MQTTString
}.

Fixpoint unsubscribe_loop (fuel : nat) (out : unsubscribe_out) (curdata enddata : ptr) :
    M mem (bool * unsubscribe_out) :=
  match fuel with
  | O => nofuel
  | S fuel =>
      more ← plt curdata enddata;
      if (more : bool) then
        s ← array_get (us_topicFilters out) (us_count out);
        '(ok, s, curdata) ← readMQTTLenString s curdata enddata;
        fs ← array_set (us_topicFilters out) (us_count out) s;
        if negb (truthy ok)
        then mret (false, mkUnsubscribeOut (us_dup out) (us_packetid out) (us_count out) fs)
        else
          n ← int_result (us_count out + 1);
          unsubscribe_loop fuel (mkUnsubscribeOut (us_dup out) (us_packetid out) n fs) curdata enddata
      else mret (true, out)
  end.

Definition MQTTDeserialize_unsubscribe (out : unsubscribe_out) (maxcount : Z) (buf : ptr) (len : Z) :
    M mem (Z * unsubscribe_out) :=
  '(header, curdata) ← readByte buf;
  if negb (MQTTHeader.type header =? UNSUBSCRIBE) then mret (0, out)
  else
    '(rc, mylen) ← MQTTPacket_decodeBuf curdata;
    let curdata := padd curdata rc in
    let enddata := padd curdata mylen in
    '(id, curdata) ← readInt curdata;
    let out := mkUnsubscribeOut (MQTTHeader.dup header) (to_ushort id) 0 (us_topicFilters out) in
    '(complete, out) ← unsubscribe_loop (S (Z.to_nat mylen)) out curdata enddata;
    mret (if (complete : bool) then 1 else rc, out).

Definition MQTTSerialize_unsuback (buf : ptr) (buflen packetid : Z) : M mem Z :=
  if buflen <? 2 then mret MQTTPACKET_BUFFER_TOO_SHORT
  else
    let header := MQTTHeader.set_type UNSUBACK 0 in
    p ← writeChar buf header;
    p ← writeRemaining p 2;
    p ← writeInt p packetid;
    rc ← psub p buf;
    mret rc.

(** ** Lemmas *)

(** A loop whose passes are writers is a writer. *)
Lemma for_loop_writes {A} b P (f : Z -> ptr -> M mem ptr) (w : A -> list Z) (xs : list A) i :
  stable b P ->
  (forall k x, xs !! k = Some x -> writes b P (f (i + Z.of_nat k)) (w x)) ->
  writes b P (fun p => for_loop (length xs) i f p) (concat (map w xs)).
Proof.
  intros Hst. revert i. induction xs as [|x xs IH]; intros i Hf; simpl; [apply writes_nil|].
  apply writes_bind; [done| |].
  - specialize (Hf 0%nat x eq_refl). simpl in Hf. by rewrite Z.add_0_r in Hf.
  - apply IH. intros k y Hk. replace (i + 1 + Z.of_nat k) with (i + Z.of_nat (S k)) by lia.
    by apply Hf.
Qed.

(** A loop that adds up the sizes of what is to be written. *)
Lemma for_loop_size {A} (f : Z -> Z -> M mem Z) (w : A -> list Z) (xs : list A) i n m :
  0 <= n ->
  (forall k x a, xs !! k = Some x -> 0 <= a ->
     a + Z.of_nat (length (w x)) <= n + Z.of_nat (length (concat (map w xs))) ->
     f (i + Z.of_nat k) a m = Ret (a + Z.of_nat (length (w x)), m)) ->
  for_loop (length xs) i f n m = Ret (n + Z.of_nat (length (concat (map w xs))), m).
Proof.
  revert i n. induction xs as [|x xs IH]; intros i n Hn Hf; simpl.
  - unfold mret, M_ret. do 2 f_equal. lia.
  - simpl in Hf. rewrite length_app in *. pose proof (Hf 0%nat x n eq_refl) as H0.
    rewrite Z.add_0_r in H0. erewrite bind_ret by (apply H0; lia).
    rewrite IH; [do 2 f_equal; lia|lia|].
    intros k y a Hk Ha Hle. replace (i + 1 + Z.of_nat k) with (i + Z.of_nat (S k)) by lia.
    apply Hf; [done|done|lia].
Qed.

(** The array [fs] holds the topic filters [ts]. *)
Definition filters (m : mem) (b : positive) (fs : list MQTTString) (ts : list (list Z)) : Prop :=
  Forall2 (fun s cs => mstring m b s cs /\ Z.of_nat (length cs) < 65536) fs ts.

Lemma filters_stable b fs ts : stable b (fun m => filters m b fs ts).
Proof.
  intros m o bs H. eapply Forall2_impl; [exact H|]. intros s cs [? ?]. split; [|done].
  by apply mstring_stable.
Qed.

Lemma filters_lookup m b fs ts k cs :
  filters m b fs ts -> ts !! k = Some cs ->
  exists s, fs !! k = Some s /\ mstring m b s cs /\ Z.of_nat (length cs) < 65536.
Proof.
  intros H Hk. destruct (Forall2_lookup_r _ _ _ _ _ H Hk) as (s & Hs & ? & ?). by exists s.
Qed.

Definition sub_topic (t : list Z * Z) : list Z := utf8 (fst t) ++ [snd t].
#[global] Arguments sub_topic : simpl never.

Lemma MQTTSerialize_subscribeLength_spec m b fs (topics : list (list Z * Z)) id :
  filters m b fs (map fst topics) -> Z.of_nat (length (subscribe_body id topics)) <= MAX_REMAINING ->
  MQTTSerialize_subscribeLength (Z.of_nat (length topics)) fs m =
  Ret (Z.of_nat (length (subscribe_body id topics)), m).
Proof.
  intros Hf Hs. unfold subscribe_body in *. fold sub_topic in *. rewrite length_app, length_u16 in *.
  unfold MQTTSerialize_subscribeLength. rewrite Nat2Z.id.
  rewrite (for_loop_size _ sub_topic); [do 2 f_equal; lia|lia|].
  intros k [cs q] a Hk Ha Hle. destruct (filters_lookup m b fs (map fst topics) k cs) as (s & Hs' & Hm & Hl);
    [done|by rewrite list_lookup_fmap, Hk|].
  rewrite Z.add_0_l. erewrite bind_ret by by apply array_get_at.
  erewrite bind_ret by (eapply MQTTstrlen_spec; [done|unfold INT_MAX; lia]). unfold sub_topic in *. simpl fst in *.
  rewrite length_app, length_utf8 in *. simpl length in *.
  rewrite int_result_ok by (unfold MAX_REMAINING, INT_MIN, INT_MAX in *; lia). do 2 f_equal. lia.
Qed.

Lemma MQTTSerialize_unsubscribeLength_spec m b fs topics id :
  filters m b fs topics -> Z.of_nat (length (unsubscribe_body id topics)) <= MAX_REMAINING ->
  MQTTSerialize_unsubscribeLength (Z.of_nat (length topics)) fs m =
  Ret (Z.of_nat (length (unsubscribe_body id topics)), m).
Proof.
  intros Hf Hs. unfold unsubscribe_body in *. rewrite length_app, length_u16 in *.
  unfold MQTTSerialize_unsubscribeLength. rewrite Nat2Z.id.
  rewrite (for_loop_size _ utf8); [do 2 f_equal; lia|lia|].
  intros k cs a Hk Ha Hle. destruct (filters_lookup m b fs topics k cs) as (s & Hs' & Hm & Hl); [done..|].
  rewrite Z.add_0_l. erewrite bind_ret by by apply array_get_at.
  erewrite bind_ret by (eapply MQTTstrlen_spec; [done|unfold INT_MAX; lia]).
  rewrite length_utf8 in *.
  rewrite int_result_ok by (unfold MAX_REMAINING, INT_MIN, INT_MAX in *; lia). do 2 f_equal. lia.
Qed.

(** The pass that writes filter [k]. *)
Lemma filter_writes m b fs ts k cs :
  filters m b fs ts -> ts !! k = Some cs ->
  writes b (fun m => filters m b fs ts) (fun p => s ← array_get fs (Z.of_nat k); writeMQTTString p s) (utf8 cs).
Proof.
  intros Hf Hk. destruct (filters_lookup m b fs ts k cs Hf Hk) as (s & Hs & _ & Hl).
  apply (writes_ext _ _ (fun p => writeMQTTString p s)).
  { intros p m'. by erewrite bind_ret by by apply array_get_at. }
  apply writeMQTTString_writes; [|done]. intros m' Hf'.
  destruct (filters_lookup m' b fs ts k cs Hf' Hk) as (s' & Hs' & ? & _). by simplify_eq.
Qed.

Lemma MQTTSerialize_subscribe_run m b o buflen dup id fs topics L :
  room m (Ptr b o) buflen -> 0 <= id < 65536 -> filters m b fs (map fst topics) ->
  Forall (fun t => is_byte (snd t)) topics ->
  Z.of_nat (length (subscribe_body id topics)) <= MAX_REMAINING ->
  MQTTPacket_len (Z.of_nat (length (subscribe_body id topics))) m = Ret (L, m) -> L <= buflen ->
  let pkt := encode (PSubscribe (dup mod 2) id topics) in
  MQTTSerialize_subscribe (Ptr b o) buflen dup id (Z.of_nat (length topics)) fs (map snd topics) m =
  Ret (Z.of_nat (length pkt), mwrite m (Ptr b o) pkt).
Proof.
  intros Hr Hi Hf Hq Hs HL Hfit pkt. pose proof (filters_stable b fs (map fst topics)) as Hst.
  set (P := fun m => filters m b fs (map fst topics)) in Hst. assert (P m) as HPm by done.
  destruct (MQTTPacket_len_spec (Z.of_nat (length (subscribe_body id topics))) m) as (L' & HL' & ? & _); [lia|].
  rewrite HL in HL'. injection HL' as <-. pose proof (Z.mod_pos_bound dup 2 ltac:(lia)).
  destruct (fixed_header_fields 8 (dup mod 2) 1 0) as [Hh _]; [lia..|].
  assert (pkt = (([fixed_header 8 (dup mod 2) 1 0] ++
    remaining_length (Z.of_nat (length (subscribe_body id topics)))) ++ u16 id) ++
    concat (map sub_topic topics)) as Epkt.
  { unfold pkt, encode, frame. unfold subscribe_body at 2. fold sub_topic. by rewrite <- !app_assoc. }
  assert (room m (Ptr b o) (Z.of_nat (length pkt))) as Hrp.
  { eapply room_le; [done|]. unfold pkt, encode. rewrite length_frame. lia. }
  unfold MQTTSerialize_subscribe.
  erewrite bind_ret by by eapply MQTTSerialize_subscribeLength_spec.
  erewrite bind_ret by exact HL. decide_branch. rewrite header_byte_qos.
  change (SUBSCRIBE mod 16) with 8. change (1 mod 4) with 1.
  rewrite Epkt in *. clear Epkt. rewrite !length_app in Hrp. rewrite Nat2Z.id.
  wfirst (writeChar_byte b P _ Hh).
  wnext (writeRemaining_writes b P (Z.of_nat (length (subscribe_body id topics))) ltac:(lia)).
  wnext (writeInt_writes b P id Hi).
  assert (writes b P (fun p => for_loop (length topics) 0 (fun i p =>
    s ← array_get fs i; p ← writeMQTTString p s; q ← array_get (map snd topics) i; writeChar p q) p)
    (concat (map sub_topic topics))) as Hloop.
  { apply for_loop_writes; [done|]. intros k [cs q] Hk. rewrite Z.add_0_l.
    rewrite Forall_forall in Hq. specialize (Hq _ (list_elem_of_lookup_2 _ _ _ Hk)).
    eapply writes_ext; [|apply writes_bind; [done| |apply (writeChar_byte b P q Hq)]].
    2: { apply (filter_writes m b fs (map fst topics) k cs); [done|by rewrite list_lookup_fmap, Hk]. }
    intros p m'. cbv beta. rewrite bind_assoc. apply bind_ext. intros s m1. apply bind_ext.
    intros p' m2. erewrite bind_ret; [done|]. apply array_get_at. by rewrite list_lookup_fmap, Hk. }
  wnext Hloop. apply writes_result.
Qed.

Lemma MQTTSerialize_unsubscribe_run m b o buflen dup id fs topics L :
  room m (Ptr b o) buflen -> 0 <= id < 65536 -> filters m b fs topics ->
  Z.of_nat (length (unsubscribe_body id topics)) <= MAX_REMAINING ->
  MQTTPacket_len (Z.of_nat (length (unsubscribe_body id topics))) m = Ret (L, m) -> L <= buflen ->
  let pkt := encode (PUnsubscribe (dup mod 2) id topics) in
  MQTTSerialize_unsubscribe (Ptr b o) buflen dup id (Z.of_nat (length topics)) fs m =
  Ret (Z.of_nat (length pkt), mwrite m (Ptr b o) pkt).
Proof.
  intros Hr Hi Hf Hs HL Hfit pkt. pose proof (filters_stable b fs topics) as Hst.
  set (P := fun m => filters m b fs topics) in Hst. assert (P m) as HPm by done.
  destruct (MQTTPacket_len_spec (Z.of_nat (length (unsubscribe_body id topics))) m) as (L' & HL' & ? & _); [lia|].
  rewrite HL in HL'. injection HL' as <-. pose proof (Z.mod_pos_bound dup 2 ltac:(lia)).
  destruct (fixed_header_fields 10 (dup mod 2) 1 0) as [Hh _]; [lia..|].
  assert (pkt = (([fixed_header 10 (dup mod 2) 1 0] ++
    remaining_length (Z.of_nat (length (unsubscribe_body id topics)))) ++ u16 id) ++
    concat (map utf8 topics)) as Epkt.
  { unfold pkt, encode, frame. unfold unsubscribe_body at 2. by rewrite <- !app_assoc. }
  assert (room m (Ptr b o) (Z.of_nat (length pkt))) as Hrp.
  { eapply room_le; [done|]. unfold pkt, encode. rewrite length_frame. lia. }
  unfold MQTTSerialize_unsubscribe.
  erewrite bind_ret by by eapply MQTTSerialize_unsubscribeLength_spec.
  erewrite bind_ret by exact HL. decide_branch. rewrite header_byte_qos.
  change (UNSUBSCRIBE mod 16) with 10. change (1 mod 4) with 1.
  rewrite Epkt in *. clear Epkt. rewrite !length_app in Hrp. rewrite Nat2Z.id.
  wfirst (writeChar_byte b P _ Hh).
  wnext (writeRemaining_writes b P (Z.of_nat (length (unsubscribe_body id topics))) ltac:(lia)).
  wnext (writeInt_writes b P id Hi).
  assert (writes b P (fun p => for_loop (length topics) 0 (fun i p =>
    s ← array_get fs i; writeMQTTString p s) p) (concat (map utf8 topics))) as Hloop.
  { apply for_loop_writes; [done|]. intros k cs Hk. rewrite Z.add_0_l. by apply (filter_writes m). }
  wnext Hloop. apply writes_result.
Qed.

Lemma MQTTSerialize_suback_run m b o buflen id codes :
  room m (Ptr b o) buflen -> 0 <= id < 65536 -> Forall is_byte codes ->
  2 + Z.of_nat (length codes) <= MAX_REMAINING ->
  let pkt := encode (PSuback id codes) in
  Z.of_nat (length pkt) <= buflen ->
  MQTTSerialize_suback (Ptr b o) buflen id (Z.of_nat (length codes)) codes m =
  Ret (Z.of_nat (length pkt), mwrite m (Ptr b o) pkt).
Proof.
  intros Hr Hi Hq Hs pkt Hfit. assert (stable b (fun _ => True)) by done.
  assert (Z.of_nat (length (u16 id ++ codes)) = 2 + Z.of_nat (length codes)) as El
    by (rewrite length_app, length_u16; lia).
  assert (concat (map (fun c => [c]) codes) = codes) as Ec.
  { clear. induction codes as [|c codes IH]; [done|]. simpl. by rewrite IH. }
  assert (pkt = (([fixed_header 9 0 0 0] ++ remaining_length (2 + Z.of_nat (length codes))) ++ u16 id) ++
    concat (map (fun c => [c]) codes)) as Epkt.
  { unfold pkt, encode, frame. rewrite El, Ec. by rewrite <- !app_assoc. }
  assert (Z.of_nat (length pkt) >= 3 + Z.of_nat (length codes)) as Hge.
  { unfold pkt, encode. rewrite length_frame, El. pose proof (rl_size_range (2 + Z.of_nat (length codes))). lia. }
  unfold MQTTSerialize_suback. unfold MAX_REMAINING in Hs.
  erewrite bind_ret by (apply int_result_ok; unfold INT_MIN, INT_MAX; lia).
  decide_branch. rewrite header_byte_type. change (SUBACK mod 16) with 9.
  assert (room m (Ptr b o) (Z.of_nat (length pkt))) as Hrp by (by eapply room_le).
  rewrite Epkt in *. clear Epkt Hr. rewrite !length_app in Hrp. rewrite Nat2Z.id.
  wfirst (writeChar_byte b (fun _ => True) (fixed_header 9 0 0 0) ltac:(split; vm_compute; congruence)).
  wnext (writeRemaining_writes b (fun _ => True) (2 + Z.of_nat (length codes)) ltac:(unfold MAX_REMAINING; lia)).
  wnext (writeInt_writes b (fun _ => True) id Hi).
  assert (writes b (fun _ => True) (fun p => for_loop (length codes) 0 (fun i p =>
    q ← array_get codes i; writeChar p q) p) (concat (map (fun c => [c]) codes))) as Hloop.
  { apply for_loop_writes; [done|]. intros k c Hk. rewrite Z.add_0_l.
    rewrite Forall_forall in Hq. specialize (Hq _ (list_elem_of_lookup_2 _ _ _ Hk)).
    eapply writes_ext; [|by apply writeChar_byte]. intros p m'. cbv beta.
    by erewrite bind_ret by by apply array_get_at. }
  wnext Hloop. apply writes_result.
Qed.

Lemma suback_loop_at m b o codes rest maxcount id pre old fuel :
  bytes_at m (Ptr b o) (codes ++ rest) -> (length codes <= length old)%nat ->
  Z.of_nat (length pre + length codes) <= maxcount + 1 ->
  Z.of_nat (length pre + length codes) <= INT_MAX -> (length codes < fuel)%nat ->
  suback_loop fuel maxcount (mkSubackOut id (Z.of_nat (length pre)) (pre ++ old)) (Ptr b o)
    (Ptr b (o + Z.of_nat (length codes))) m =
  Ret ((1, mkSubackOut id (Z.of_nat (length pre + length codes))
             (pre ++ map to_char codes ++ drop (length codes) old)), m).
Proof.
  revert o pre old fuel. induction codes as [|c codes IH]; intros o pre old fuel H Hold Hmax Hint Hfuel;
    (destruct fuel as [|fuel]; [simpl in Hfuel; lia|]); simpl suback_loop; erewrite bind_ret by apply plt_same; simpl length in *.
  - replace (_ <? 0) with false by lia. unfold mret, M_ret. simpl. rewrite drop_0, Nat.add_0_r. done.
  - replace (_ <? 0) with true by lia. cbv iota. replace (maxcount <? _) with false by lia. cbv iota.
    destruct old as [|q old]; [simpl in Hold; lia|].
    erewrite bind_ret by (eapply readChar_at; exact H). cbv iota beta.
    erewrite bind_ret by (apply array_set_at; rewrite length_app; simpl; lia).
    erewrite bind_ret by (apply int_result_ok; unfold INT_MIN, INT_MAX in *; lia).
    rewrite insert_at_end by done. apply bytes_at_cons in H as [_ H].
    simpl in H. specialize (IH (o + 1) (pre ++ [to_char c]) old fuel H). rewrite length_app in IH.
    simpl length in IH, Hold.
    replace (Z.of_nat (length pre) + 1) with (Z.of_nat (length pre + 1)) by lia.
    replace (o + Z.of_nat (S (length codes))) with (o + 1 + Z.of_nat (length codes)) by lia.
    simpl padd. rewrite IH by lia. rewrite <- app_assoc. simpl.
    replace (length pre + 1 + length codes)%nat with (length pre + S (length codes))%nat by lia. done.
Qed.

(** One pass of the subscribe loop over a complete topic. *)
Lemma subscribe_loop_step m b o e cs c rest d id pre s old preq q oldq fuel :
  bytes_at m (Ptr b o) (utf8 cs ++ c :: rest) -> Z.of_nat (length cs) < 65536 ->
  length preq = length pre -> Z.of_nat (length pre) < INT_MAX ->
  let o' := o + Z.of_nat (length (utf8 cs)) + 1 in
  o' <= e ->
  bytes_at m (Ptr b o') rest /\
  exists s', denotes m s' cs /\
  subscribe_loop (S fuel) (mkSubscribeOut d id (Z.of_nat (length pre)) (pre ++ s :: old) (preq ++ q :: oldq))
    (Ptr b o) (Ptr b e) m =
  subscribe_loop fuel (mkSubscribeOut d id (Z.of_nat (length (pre ++ [s'])))
    ((pre ++ [s']) ++ old) ((preq ++ [to_char c]) ++ oldq)) (Ptr b o') (Ptr b e) m.
Proof.
  intros H Hl Hp Hint o' He.
  destruct (read_string m b o e s cs (c :: rest) H Hl) as (s' & R & D & H1); [lia|].
  pose proof (proj2 (proj1 (bytes_at_cons _ _ _ _) H1)) as H2. split; [exact H2|].
  exists s'. split; [done|]. simpl subscribe_loop. erewrite bind_ret by apply plt_same.
  replace (o - e <? 0) with true by lia. cbv iota.
  erewrite bind_ret by (apply array_get_at; by apply list_lookup_middle).
  erewrite bind_ret by exact R. cbv iota beta.
  erewrite bind_ret by (apply array_set_at; rewrite length_app; simpl; lia).
  cbv zeta. change (negb (truthy 1)) with false. cbv iota.
  erewrite bind_ret by apply plt_same.
  replace (_ - e <? 0) with true by lia. cbn [negb]. cbv iota.
  erewrite bind_ret by (eapply readChar_at; exact H1). cbv iota beta. unfold set_filter. simpl sb_requestedQoSs.
  simpl sb_count. erewrite bind_ret by (apply array_set_at; rewrite length_app, Hp; simpl; lia).
  erewrite bind_ret by (apply int_result_ok; unfold INT_MIN, INT_MAX in *; lia).
  simpl sb_topicFilters. rewrite !insert_at_end by done. rewrite length_app. simpl length.
  by replace (Z.of_nat (length pre) + 1) with (Z.of_nat (length pre + 1)) by lia.
Qed.

Lemma subscribe_loop_at m b o (topics : list (list Z * Z)) rest d id pre old preq oldq fuel :
  bytes_at m (Ptr b o) (concat (map sub_topic topics) ++ rest) ->
  Forall (fun t => Z.of_nat (length (fst t)) < 65536) topics ->
  length preq = length pre -> (length topics <= length old)%nat -> (length topics <= length oldq)%nat ->
  Z.of_nat (length pre + length topics) <= INT_MAX -> (length topics < fuel)%nat ->
  exists new, Forall2 (denotes m) new (map fst topics) /\
  subscribe_loop fuel (mkSubscribeOut d id (Z.of_nat (length pre)) (pre ++ old) (preq ++ oldq)) (Ptr b o)
    (Ptr b (o + Z.of_nat (length (concat (map sub_topic topics))))) m =
  Ret ((true, mkSubscribeOut d id (Z.of_nat (length pre + length topics))
     (pre ++ new ++ drop (length topics) old)
     (preq ++ map (fun t => to_char (snd t)) topics ++ drop (length topics) oldq)), m).
Proof.
  revert o pre old preq oldq fuel.
  induction topics as [|[cs c] topics IH]; intros o pre old preq oldq fuel H Ht Hp Hold Holdq Hint Hfuel;
    (destruct fuel as [|fuel]; [simpl in Hfuel; lia|]).
  { exists []. split; [constructor|]. simpl subscribe_loop. erewrite bind_ret by apply plt_same. simpl length in *.
    replace (_ <? 0) with false by lia. unfold mret, M_ret. simpl. by rewrite !drop_0, Nat.add_0_r. }
  cbn [map concat] in *. apply Forall_cons in Ht as [Hl Ht]. simpl in Hl.
  destruct old as [|s old]; [simpl in Hold; lia|]. destruct oldq as [|q oldq]; [simpl in Holdq; lia|].
  cbn [length] in *. set (tl := concat (map sub_topic topics)) in *.
  assert (length (sub_topic (cs, c) ++ tl) = (length (utf8 cs) + S (length tl))%nat) as El.
  { rewrite length_app. unfold sub_topic. rewrite length_app. simpl. lia. }
  assert (sub_topic (cs, c) ++ tl ++ rest = utf8 cs ++ c :: tl ++ rest) as Es.
  { unfold sub_topic. by rewrite <- app_assoc. }
  rewrite <- app_assoc, Es in H.
  destruct (subscribe_loop_step m b o (o + Z.of_nat (length (sub_topic (cs, c) ++ tl))) cs c (tl ++ rest)
    d id pre s old preq q oldq fuel) as (H' & s' & D & Hstep); [done|done|done|lia|lia|].
  edestruct (IH (o + Z.of_nat (length (utf8 cs)) + 1) (pre ++ [s']) old (preq ++ [to_char c]) oldq fuel)
    as (new & Hnew & Hrun); [done|done|rewrite !length_app; simpl; lia|lia|lia|rewrite length_app; simpl; lia|lia|].
  exists (s' :: new). split; [by constructor|]. rewrite Hstep, El.
  replace (o + Z.of_nat (length (utf8 cs) + S (length tl)))
    with (o + Z.of_nat (length (utf8 cs)) + 1 + Z.of_nat (length tl)) by lia.
  rewrite Hrun. rewrite length_app, <- !app_assoc. simpl.
  by replace (length pre + 1 + length topics)%nat with (length pre + S (length topics))%nat by lia.
Qed.

Lemma unsubscribe_loop_at m b o e topics rest d id pre old fuel :
  bytes_at m (Ptr b o) (concat (map utf8 topics) ++ rest) ->
  e = o + Z.of_nat (length (concat (map utf8 topics))) ->
  Forall (fun t => Z.of_nat (length t) < 65536) topics ->
  (length topics <= length old)%nat ->
  Z.of_nat (length pre + length topics) <= INT_MAX -> (length topics < fuel)%nat ->
  exists new, Forall2 (denotes m) new topics /\
  unsubscribe_loop fuel (mkUnsubscribeOut d id (Z.of_nat (length pre)) (pre ++ old)) (Ptr b o) (Ptr b e) m =
  Ret ((true, mkUnsubscribeOut d id (Z.of_nat (length pre + length topics))
     (pre ++ new ++ drop (length topics) old)), m).
Proof.
  revert o pre old fuel.
  induction topics as [|cs topics IH]; intros o pre old fuel H He Ht Hold Hint Hfuel;
    (destruct fuel as [|fuel]; [simpl in Hfuel; lia|]);
    simpl unsubscribe_loop; erewrite bind_ret by apply plt_same; cbn [map concat length] in *.
  { exists []. split; [constructor|].
    replace (_ <? 0) with false by lia. unfold mret, M_ret. simpl. by rewrite !drop_0, Nat.add_0_r. }
  apply Forall_cons in Ht as [Hl Ht]. destruct old as [|s old]; [simpl in Hold; lia|].
  cbn [length] in *. rewrite <- app_assoc in H. rewrite length_app, length_utf8 in He.
  destruct (read_string m b o e s cs (concat (map utf8 topics) ++ rest) H Hl) as (s' & R & D & H1);
    [rewrite length_utf8; lia|].
  edestruct (IH (o + Z.of_nat (length (utf8 cs))) (pre ++ [s']) old fuel)
    as (new & Hnew & Hrun); [done|rewrite length_utf8; lia|done|lia|rewrite length_app; simpl; lia|lia|].
  exists (s' :: new). split; [by constructor|].
  replace (o - e <? 0) with true by lia. cbv iota.
  erewrite bind_ret by (apply array_get_at; by apply list_lookup_middle).
  erewrite bind_ret by exact R. cbv iota beta.
  erewrite bind_ret by (apply array_set_at; rewrite length_app; simpl; lia).
  change (negb (truthy 1)) with false. cbv iota. rewrite insert_at_end by done.
  erewrite bind_ret by (apply int_result_ok; unfold INT_MIN, INT_MAX in *; simpl; lia).
  cbn [us_count us_dup us_packetid]. rewrite length_app in Hrun. cbn [length] in Hrun.
  replace (Z.of_nat (length pre) + 1) with (Z.of_nat (length pre + 1)) by lia.
  rewrite Hrun, <- !app_assoc. cbn [app drop].
  by replace (length pre + 1 + length topics)%nat with (length pre + S (length topics))%nat by lia.
Qed.

Lemma length_concat_ge {A B} (w : A -> list B) xs :
  (forall x, (1 <= length (w x))%nat) -> (length xs <= length (concat (map w xs)))%nat.
Proof.
  intros Hw. induction xs as [|x xs IH]; [done|]. cbn [map concat length]. rewrite length_app.
  pose proof (Hw x). lia.
Qed.

Lemma MQTTDeserialize_subscribe_at m b o out maxcount buflen dup id (topics : list (list Z * Z)) rest :
  bytes_at m (Ptr b o) (encode (PSubscribe dup id topics) ++ rest) -> 0 <= dup < 2 -> 0 <= id < 65536 ->
  Z.of_nat (length (subscribe_body id topics)) <= MAX_REMAINING ->
  Forall (fun t => Z.of_nat (length (fst t)) < 65536) topics ->
  (length topics <= length (sb_topicFilters out))%nat -> (length topics <= length (sb_requestedQoSs out))%nat ->
  exists new, Forall2 (denotes m) new (map fst topics) /\
  MQTTDeserialize_subscribe out maxcount (Ptr b o) buflen m =
  Ret ((1, mkSubscribeOut dup id (Z.of_nat (length topics))
     (new ++ drop (length topics) (sb_topicFilters out))
     (map (fun t => to_char (snd t)) topics ++ drop (length topics) (sb_requestedQoSs out))), m).
Proof.
  intros H Hd Hi Hs Ht Hfs Hqs. destruct (fixed_header_fields 8 dup 1 0) as (Hh & Ety & Edup & _); [lia..|].
  unfold encode in H. apply frame_at in H as (R & D & B); [|done|done].
  unfold subscribe_body in B. fold sub_topic in B. rewrite <- app_assoc in B.
  pose proof (proj2 (proj1 (bytes_at_app _ _ _ _) B)) as B2. rewrite length_u16 in B2. simpl in B2.
  assert (length topics <= length (concat (map sub_topic topics)))%nat as Hge.
  { apply length_concat_ge. intros t. unfold sub_topic. rewrite length_app. simpl. lia. }
  assert (length (subscribe_body id topics) = (2 + length (concat (map sub_topic topics)))%nat) as El
    by (unfold subscribe_body; by rewrite length_app).
  set (n := Z.of_nat (length (subscribe_body id topics))) in *.
  destruct (subscribe_loop_at m b (o + 1 + rl_size n + 2) topics rest dup id [] (sb_topicFilters out) []
    (sb_requestedQoSs out) (S (Z.to_nat n))) as (new & Hnew & Hrun);
    [done|done|done|done|done|unfold MAX_REMAINING, INT_MAX in *; simpl; lia|lia|].
  exists new. split; [done|]. unfold MQTTDeserialize_subscribe.
  erewrite bind_ret by exact R. cbv iota beta. rewrite Ety. change (negb (8 =? SUBSCRIBE)) with false. cbv iota.
  erewrite bind_ret by exact D. cbv iota beta zeta.
  erewrite bind_ret by (eapply readInt_at; [done|exact B]). cbv iota beta zeta. rewrite Edup.
  replace (to_ushort id) with id by (unfold to_ushort; by rewrite Z.mod_small).
  cbn [padd]. replace (o + 1 + rl_size n + n)
    with (o + 1 + rl_size n + 2 + Z.of_nat (length (concat (map sub_topic topics)))) by lia.
  erewrite bind_ret by exact Hrun. done.
Qed.

Lemma MQTTDeserialize_unsubscribe_at m b o out maxcount len dup id topics rest :
  bytes_at m (Ptr b o) (encode (PUnsubscribe dup id topics) ++ rest) -> 0 <= dup < 2 -> 0 <= id < 65536 ->
  Z.of_nat (length (unsubscribe_body id topics)) <= MAX_REMAINING ->
  Forall (fun t => Z.of_nat (length t) < 65536) topics -> (length topics <= length (us_topicFilters out))%nat ->
  exists new, Forall2 (denotes m) new topics /\
  MQTTDeserialize_unsubscribe out maxcount (Ptr b o) len m =
  Ret ((1, mkUnsubscribeOut dup id (Z.of_nat (length topics))
     (new ++ drop (length topics) (us_topicFilters out))), m).
Proof.
  intros H Hd Hi Hs Ht Hfs. destruct (fixed_header_fields 10 dup 1 0) as (Hh & Ety & Edup & _); [lia..|].
  unfold encode in H. apply frame_at in H as (R & D & B); [|done|done].
  unfold unsubscribe_body in B. rewrite <- app_assoc in B.
  pose proof (proj2 (proj1 (bytes_at_app _ _ _ _) B)) as B2. rewrite length_u16 in B2. simpl in B2.
  assert (length topics <= length (concat (map utf8 topics)))%nat as Hge.
  { apply length_concat_ge. intros t. rewrite length_utf8. lia. }
  assert (length (unsubscribe_body id topics) = (2 + length (concat (map utf8 topics)))%nat) as El
    by (unfold unsubscribe_body; by rewrite length_app).
  set (n := Z.of_nat (length (unsubscribe_body id topics))) in *.
  destruct (unsubscribe_loop_at m b (o + 1 + rl_size n + 2) (o + 1 + rl_size n + n) topics rest dup id []
    (us_topicFilters out) (S (Z.to_nat n))) as (new & Hnew & Hrun);
    [done|lia|done|done|unfold MAX_REMAINING, INT_MAX in *; simpl; lia|lia|].
  exists new. split; [done|]. unfold MQTTDeserialize_unsubscribe.
  erewrite bind_ret by exact R. cbv iota beta. rewrite Ety. change (negb (10 =? UNSUBSCRIBE)) with false. cbv iota.
  erewrite bind_ret by exact D. cbv iota beta zeta.
  erewrite bind_ret by (eapply readInt_at; [done|exact B]). cbv iota beta zeta. rewrite Edup.
  replace (to_ushort id) with id by (unfold to_ushort; by rewrite Z.mod_small).
  cbn [padd]. erewrite bind_ret by exact Hrun. done.
Qed.

Lemma MQTTDeserialize_suback_at m b o out maxcount buflen id codes rest :
  bytes_at m (Ptr b o) (encode (PSuback id codes) ++ rest) -> 0 <= id < 65536 ->
  2 + Z.of_nat (length codes) <= MAX_REMAINING -> Z.of_nat (length codes) <= maxcount + 1 ->
  (length codes <= length (so_grantedQoSs out))%nat ->
  MQTTDeserialize_suback out maxcount (Ptr b o) buflen m =
  Ret ((1, mkSubackOut id (Z.of_nat (length codes))
     (map to_char codes ++ drop (length codes) (so_grantedQoSs out))), m).
Proof.
  intros H Hi Hs Hmax Hqs. destruct (fixed_header_fields 9 0 0 0) as (Hh & Ety & _); [lia..|].
  assert (Z.of_nat (length (u16 id ++ codes)) = 2 + Z.of_nat (length codes)) as El
    by (rewrite length_app, length_u16; lia).
  unfold encode in H. apply frame_at in H as (R & D & B); [|done|lia].
  rewrite <- app_assoc in B. rewrite El in *. set (n := 2 + Z.of_nat (length codes)) in *.
  pose proof (proj2 (proj1 (bytes_at_app _ _ _ _) B)) as B2. rewrite length_u16 in B2. simpl in B2.
  pose proof (suback_loop_at m b (o + 1 + rl_size n + 2) codes rest maxcount id [] (so_grantedQoSs out)
    (S (Z.to_nat n)) B2) as Hrun.
  unfold MQTTDeserialize_suback.
  erewrite bind_ret by exact R. cbv iota beta. rewrite Ety. change (negb (9 =? SUBACK)) with false. cbv iota.
  erewrite bind_ret by exact D. cbv iota beta zeta. cbn [padd]. erewrite bind_ret by apply psub_same.
  decide_branch. erewrite bind_ret by (eapply readInt_at; [done|exact B]). cbv iota beta zeta.
  replace (to_ushort id) with id by (unfold to_ushort; by rewrite Z.mod_small).
  cbn [padd]. replace (o + 1 + rl_size n + n) with (o + 1 + rl_size n + 2 + Z.of_nat (length codes)) by lia.
  apply Hrun; unfold MAX_REMAINING, INT_MAX in *; simpl; lia.
Qed.


(** *** Termination *)

Lemma readChar_inv p m c p' m' : readChar p m = Ret ((c, p'), m') -> p' = padd p 1 /\ m' = m.
Proof.
  unfold readChar, load, mbind, M_bind. destruct (tail_at m p) as [[|v t]|]; [done| |done].
  by intros [= _ <- <-].
Qed.

Lemma readInt_inv p m n p' m' :
  wf_mem m -> readInt p m = Ret ((n, p'), m') -> 0 <= n < 65536 /\ p' = padd p 2 /\ m' = m.
Proof.
  intros Hm. unfold readInt, load, mbind, M_bind.
  destruct (tail_at m p) as [[|x t]|] eqn:E1; [done| |done].
  destruct (tail_at m (padd p 1)) as [[|y u]|] eqn:E2; [done| |done]. intros [= <- <- <-].
  apply wf_mem_tail, Forall_cons in E1 as [Hx _]; [|done].
  apply wf_mem_tail, Forall_cons in E2 as [Hy _]; [|done]. unfold is_byte in *. split; [lia|done].
Qed.

(** A string that was read moves the cursor by two octets at least. *)
Lemma readMQTTLenString_inv s b o e m ok s' p' m' :
  wf_mem m -> readMQTTLenString s (Ptr b o) (Ptr b e) m = Ret ((ok, s', p'), m') ->
  m' = m /\ (truthy ok = true -> exists o', p' = Ptr b o' /\ o + 2 <= o').
Proof.
  intros Hm. unfold readMQTTLenString. erewrite bind_ret by apply psub_same.
  destruct (1 <? e - o); [|by intros [= <- _ _ <-]].
  intros ([n p] & m1 & E1 & H)%bind_inv. apply readInt_inv in E1 as (Hn & -> & ->); [|done].
  cbn [padd] in H. erewrite bind_ret in H by apply psub_same.
  destruct (_ <=? 0); injection H as <- _ <- <-; split; try done.
  intros _. eexists. split; [done|]. lia.
Qed.

(** Consume one call of a run that is to be shown not to exhaust its fuel. *)
Ltac tstep := apply bind_not_nofuel; [auto with total|].

Lemma suback_loop_terminates fuel maxcount out b o e m :
  Z.max 0 (e - o) < Z.of_nat fuel -> suback_loop fuel maxcount out (Ptr b o) (Ptr b e) m ≠ NoFuel.
Proof.
  revert out o m. induction fuel as [|fuel IH]; intros out o m Hf; [lia|]. simpl.
  erewrite bind_ret by apply plt_same. destruct (Z.ltb_spec (o - e) 0); [|done].
  destruct (maxcount <? so_count out); [done|].
  tstep. intros [c p] m1 [-> ->]%readChar_inv. tstep. intros qs m2 _. tstep. intros n m3 _.
  apply IH. lia.
Qed.

Lemma subscribe_loop_terminates fuel out b o e m :
  wf_mem m -> Z.max 0 (e - o) < Z.of_nat fuel -> subscribe_loop fuel out (Ptr b o) (Ptr b e) m ≠ NoFuel.
Proof.
  intros Hm. revert out o. induction fuel as [|fuel IH]; intros out o Hf; [lia|]. simpl.
  erewrite bind_ret by apply plt_same. destruct (Z.ltb_spec (o - e) 0); [|done].
  tstep. intros s m1 ->%array_get_inv.
  tstep. intros [[ok s'] p'] m2 E2. apply readMQTTLenString_inv in E2 as [-> Hp]; [|done].
  tstep. intros fs m3 ->%array_set_inv.
  destruct (truthy ok) eqn:Eok; [|done]. destruct (Hp eq_refl) as (o' & -> & Ho'). cbn [negb].
  erewrite bind_ret by apply plt_same. destruct (o' - e <? 0); [|done]. cbn [negb].
  tstep. intros [c p] m4 [-> ->]%readChar_inv. tstep. intros qs m5 ->%array_set_inv.
  tstep. intros n m6 [[= -> ->] _]%int_result_inv. apply IH. lia.
Qed.

Lemma unsubscribe_loop_terminates fuel out b o e m :
  wf_mem m -> Z.max 0 (e - o) < Z.of_nat fuel -> unsubscribe_loop fuel out (Ptr b o) (Ptr b e) m ≠ NoFuel.
Proof.
  intros Hm. revert out o. induction fuel as [|fuel IH]; intros out o Hf; [lia|]. simpl.
  erewrite bind_ret by apply plt_same. destruct (Z.ltb_spec (o - e) 0); [|done].
  tstep. intros s m1 ->%array_get_inv.
  tstep. intros [[ok s'] p'] m2 E2. apply readMQTTLenString_inv in E2 as [-> Hp]; [|done].
  tstep. intros fs m3 ->%array_set_inv.
  destruct (truthy ok) eqn:Eok; [|done]. destruct (Hp eq_refl) as (o' & -> & Ho'). cbn [negb].
  tstep. intros n m6 [[= -> ->] _]%int_result_inv. apply IH. lia.
Qed.

Lemma readByte_inv p m c p' m' : readByte p m = Ret ((c, p'), m') -> p' = padd p 1 /\ m' = m.
Proof. intros ([c1 p1] & m1 & [-> ->]%readChar_inv & [= _ <- <-])%bind_inv. done. Qed.

(** ** Properties *)

(** The loops of MQTTDeserialize_suback, MQTTDeserialize_subscribe and
    MQTTDeserialize_unsubscribe end on every packet, well formed or not: no run
    exhausts the fuel, which is one more than the remaining length. *)
Theorem deserialize_loops_terminate m p so sb us maxcount len :
  wf_mem m ->
  MQTTDeserialize_suback so maxcount p len m ≠ NoFuel /\
  MQTTDeserialize_subscribe sb maxcount p len m ≠ NoFuel /\
  MQTTDeserialize_unsubscribe us maxcount p len m ≠ NoFuel.
Proof.
  intros Hm. destruct p as [| |b o]; [done|done|].
  split_and!; (tstep; intros [h p] m1 [-> ->]%readByte_inv; destruct (negb _); [done|];
    tstep; intros [rc n] m2 E; apply MQTTPacket_decodeBuf_inv in E as (-> & ? & ?); [|done]; cbv zeta; cbn [padd]).
  - erewrite bind_ret by apply psub_same. destruct (_ <? 2); [done|].
    tstep. intros [id p] m3 (_ & -> & ->)%readInt_inv; [|done]. apply suback_loop_terminates. lia.
  - tstep. intros [id p] m3 (_ & -> & ->)%readInt_inv; [|done].
    apply bind_not_nofuel; [apply subscribe_loop_terminates; [done|lia]|]. by intros [? ?] ? _.
  - tstep. intros [id p] m3 (_ & -> & ->)%readInt_inv; [|done].
    apply bind_not_nofuel; [apply unsubscribe_loop_terminates; [done|lia]|]. by intros [? ?] ? _.
Qed.

Lemma deserialize_loops_terminate_witness :
  let m : mem := {[1%positive := [144; 3; 0; 1; 0]]} in
  MQTTDeserialize_suback (mkSubackOut 0 0 [9]) 1 (Ptr 1 0) 5 m ≠ NoFuel /\
  MQTTDeserialize_subscribe (mkSubscribeOut 0 0 0 [] []) 1 (Ptr 1 0) 5 m ≠ NoFuel /\
  MQTTDeserialize_unsubscribe (mkUnsubscribeOut 0 0 0 []) 1 (Ptr 1 0) 5 m ≠ NoFuel.
Proof.
  intros m. apply (deserialize_loops_terminate m (Ptr 1 0)).
  intros b l Hl. apply lookup_singleton_Some in Hl as [<- <-].
  repeat (apply List.Forall_cons; [split; vm_compute; [discriminate|reflexivity]|]). apply List.Forall_nil.
Defined.

(** The arguments of a call of MQTTSerialize_subscribe. *)
Record subscribe_args (m : mem) (b : positive) (o buflen id : Z) (fs : list MQTTString)
    (topics : list (list Z * Z)) : Prop := mkSubscribeArgs {
  sa_room : room m (Ptr b o) buflen;
  sa_id : 0 <= id < 65536;
  sa_filters : filters m b fs (map fst topics);
  sa_qos : Forall (fun t => 0 <= snd t < 128) topics;
  sa_size : Z.of_nat (length (subscribe_body id topics)) <= MAX_REMAINING
}.

(** C25: a SUBSCRIBE packet round-trips.  MQTTSerialize_subscribe stores exactly the
    packet of the protocol and returns its length, and MQTTDeserialize_subscribe, given
    arrays that have room, recovers the dup flag, the packet id, the filters and the
    requested QoS, leaving the rest of the arrays alone; a packet that does not fit the
    buffer is refused with nothing written. *)
Theorem subscribe_roundtrip m b o buflen dup id fs topics out maxcount len :
  subscribe_args m b o buflen id fs topics ->
  (length topics <= length (sb_topicFilters out))%nat -> (length topics <= length (sb_requestedQoSs out))%nat ->
  let pkt := encode (PSubscribe (dup mod 2) id topics) in
  let n := length topics in
  let run := MQTTSerialize_subscribe (Ptr b o) buflen dup id (Z.of_nat n) fs (map snd topics) m in
  (buflen <= Z.of_nat (length pkt) /\ run = Ret (MQTTPACKET_BUFFER_TOO_SHORT, m)) \/
  (Z.of_nat (length pkt) <= buflen /\ exists m' new, m' = mwrite m (Ptr b o) pkt /\
   run = Ret (Z.of_nat (length pkt), m') /\ Forall2 (denotes m') new (map fst topics) /\
   MQTTDeserialize_subscribe out maxcount (Ptr b o) len m' =
   Ret ((1, mkSubscribeOut (dup mod 2) id (Z.of_nat n) (new ++ drop n (sb_topicFilters out))
              (map snd topics ++ drop n (sb_requestedQoSs out))), m')).
Proof.
  intros [Hr Hi Hf Hq Hs] Hof Hoq pkt n run.
  destruct (MQTTPacket_len_spec (Z.of_nat (length (subscribe_body id topics))) m) as (L & HL & HL1 & HL2); [lia|].
  assert (Z.of_nat (length pkt) <= L <= Z.of_nat (length pkt) + 1) as HLp.
  { unfold pkt, encode. rewrite length_frame. lia. }
  destruct (Z.ltb_spec buflen L) as [Hlt|Hge].
  - left. split; [lia|]. unfold run, n, MQTTSerialize_subscribe.
    erewrite bind_ret by by eapply MQTTSerialize_subscribeLength_spec.
    erewrite bind_ret by exact HL. by decide_branch.
  - right. split; [lia|].
    assert (bytes_at (mwrite m (Ptr b o) pkt) (Ptr b o) (pkt ++ [])) as Hb.
    { rewrite app_nil_r. apply bytes_at_mwrite_eq. eapply room_le; [done|lia]. }
    pose proof (Z.mod_pos_bound dup 2 ltac:(lia)).
    assert (Forall (fun t => Z.of_nat (length (fst t)) < 65536) topics) as Ht.
    { apply Forall_forall. intros t [k Hk]%list_elem_of_lookup_1.
      edestruct (filters_lookup m b fs (map fst topics) k (fst t)) as (_ & _ & _ & ?); [done| |done].
      by rewrite list_lookup_fmap, Hk. }
    destruct (MQTTDeserialize_subscribe_at _ b o out maxcount len (dup mod 2) id topics [] Hb) as (new & Hn & Hd);
      [lia|done|done|done|done|done|].
    exists (mwrite m (Ptr b o) pkt), new. split; [done|]. split; [|split; [done|]].
    + eapply MQTTSerialize_subscribe_run; [done|done|done| |done|exact HL|lia].
      eapply Forall_impl; [exact Hq|]. unfold is_byte. simpl. lia.
    + rewrite Hd. do 4 f_equal. f_equal. apply map_ext_Forall. eapply Forall_impl; [exact Hq|].
      simpl. intros t Htq. conv_lia.
Qed.

(** Filters "a/+" and "b" (counted), QoS 1 and 0. *)
Definition example_sub_mem : mem :=
  {[1%positive := replicate 32 0; 2%positive := [97; 47; 43; 0]; 3%positive := [98]]}.

Definition example_filters : list MQTTString :=
  [mkMQTTString (Ptr 2 0) (mkLenString 0 NULL); mkMQTTString NULL (mkLenString 1 (Ptr 3 0))].

Lemma example_filters_repr : filters example_sub_mem 1 example_filters [[97; 47; 43]; [98]].
Proof.
  constructor; [|constructor; [|constructor]]; (split; [|simpl; lia]).
  - apply mstring_c; [split; [by exists []|no_nul]|done|lia].
  - apply (mstring_len example_sub_mem 1 (Ptr 3 0) [98]); [right; by exists []|done].
Qed.

Lemma example_sub_room : room example_sub_mem (Ptr 1 0) 32.
Proof. eexists. split; [reflexivity|]. vm_compute. discriminate. Qed.

Lemma subscribe_roundtrip_witness :
  let topics := [([97; 47; 43], 1); ([98], 0)] in
  let out := mkSubscribeOut 0 0 0 (replicate 3 MQTTString_initializer) [7; 7; 7] in
  let pkt := [130; 12; 0; 5; 0; 3; 97; 47; 43; 1; 0; 1; 98; 0] in
  let run := MQTTSerialize_subscribe (Ptr 1 0) 32 0 5 2 example_filters [1; 0] example_sub_mem in
  (32 <= 14 /\ run = Ret (MQTTPACKET_BUFFER_TOO_SHORT, example_sub_mem)) \/
  (14 <= 32 /\ exists m' new, m' = mwrite example_sub_mem (Ptr 1 0) pkt /\
   run = Ret (14, m') /\ Forall2 (denotes m') new [[97; 47; 43]; [98]] /\
   MQTTDeserialize_subscribe out 3 (Ptr 1 0) 14 m' =
   Ret ((1, mkSubscribeOut 0 5 2 (new ++ [MQTTString_initializer]) [1; 0; 7]), m')).
Proof.
  intros topics out.
  apply (subscribe_roundtrip example_sub_mem 1 0 32 0 5 example_filters topics out 3 14).
  - constructor.
    + exact example_sub_room.
    + lia.
    + exact example_filters_repr.
    + repeat (apply List.Forall_cons; [simpl; lia|]). apply List.Forall_nil.
    + vm_compute. discriminate.
  - simpl. lia.
  - simpl. lia.
Defined.

(** An UNSUBSCRIBE packet round-trips through MQTTSerialize_unsubscribe and
    MQTTDeserialize_unsubscribe in the same way. *)
Theorem unsubscribe_roundtrip m b o buflen dup id fs topics out maxcount len :
  room m (Ptr b o) buflen -> 0 <= id < 65536 -> filters m b fs topics ->
  Z.of_nat (length (unsubscribe_body id topics)) <= MAX_REMAINING ->
  (length topics <= length (us_topicFilters out))%nat ->
  let pkt := encode (PUnsubscribe (dup mod 2) id topics) in
  let n := length topics in
  let run := MQTTSerialize_unsubscribe (Ptr b o) buflen dup id (Z.of_nat n) fs m in
  (buflen <= Z.of_nat (length pkt) /\ run = Ret (MQTTPACKET_BUFFER_TOO_SHORT, m)) \/
  (Z.of_nat (length pkt) <= buflen /\ exists m' new, m' = mwrite m (Ptr b o) pkt /\
   run = Ret (Z.of_nat (length pkt), m') /\ Forall2 (denotes m') new topics /\
   MQTTDeserialize_unsubscribe out maxcount (Ptr b o) len m' =
   Ret ((1, mkUnsubscribeOut (dup mod 2) id (Z.of_nat n) (new ++ drop n (us_topicFilters out))), m')).
Proof.
  intros Hr Hi Hf Hs Hof pkt n run.
  destruct (MQTTPacket_len_spec (Z.of_nat (length (unsubscribe_body id topics))) m) as (L & HL & HL1 & HL2); [lia|].
  assert (Z.of_nat (length pkt) <= L <= Z.of_nat (length pkt) + 1) as HLp.
  { unfold pkt, encode. rewrite length_frame. lia. }
  destruct (Z.ltb_spec buflen L) as [Hlt|Hge].
  - left. split; [lia|]. unfold run, n, MQTTSerialize_unsubscribe.
    erewrite bind_ret by by eapply MQTTSerialize_unsubscribeLength_spec.
    erewrite bind_ret by exact HL. by decide_branch.
  - right. split; [lia|].
    assert (bytes_at (mwrite m (Ptr b o) pkt) (Ptr b o) (pkt ++ [])) as Hb.
    { rewrite app_nil_r. apply bytes_at_mwrite_eq. eapply room_le; [done|lia]. }
    pose proof (Z.mod_pos_bound dup 2 ltac:(lia)).
    assert (Forall (fun t => Z.of_nat (length t) < 65536) topics) as Ht.
    { apply Forall_forall. intros t [k Hk]%list_elem_of_lookup_1.
      by edestruct (filters_lookup m b fs topics k t) as (_ & _ & _ & ?). }
    destruct (MQTTDeserialize_unsubscribe_at _ b o out maxcount len (dup mod 2) id topics [] Hb)
      as (new & Hn & Hd); [lia|done..|].
    exists (mwrite m (Ptr b o) pkt), new. split; [done|]. split; [|by split].
    by eapply MQTTSerialize_unsubscribe_run.
Qed.

Lemma unsubscribe_roundtrip_witness :
  let out := mkUnsubscribeOut 0 0 0 (replicate 3 MQTTString_initializer) in
  let pkt := [162; 10; 0; 5; 0; 3; 97; 47; 43; 0; 1; 98] in
  let run := MQTTSerialize_unsubscribe (Ptr 1 0) 32 0 5 2 example_filters example_sub_mem in
  (32 <= 12 /\ run = Ret (MQTTPACKET_BUFFER_TOO_SHORT, example_sub_mem)) \/
  (12 <= 32 /\ exists m' new, m' = mwrite example_sub_mem (Ptr 1 0) pkt /\
   run = Ret (12, m') /\ Forall2 (denotes m') new [[97; 47; 43]; [98]] /\
   MQTTDeserialize_unsubscribe out 3 (Ptr 1 0) 12 m' =
   Ret ((1, mkUnsubscribeOut 0 5 2 (new ++ [MQTTString_initializer])), m')).
Proof.
  intros out.
  apply (unsubscribe_roundtrip example_sub_mem 1 0 32 0 5 example_filters [[97; 47; 43]; [98]] out 3 12).
  - exact example_sub_room.
  - lia.
  - exact example_filters_repr.
  - vm_compute. discriminate.
  - simpl. lia.
Defined.

(** A SUBACK round-trips up to the type of its codes: MQTTSerialize_suback stores
    the packet, and MQTTDeserialize_suback recovers the packet id and the number of codes,
    but each code as a signed character, so that the failure code 0x80 becomes -128. *)
Theorem suback_roundtrip m b o buflen id codes out maxcount len :
  room m (Ptr b o) buflen -> 0 <= id < 65536 -> Forall is_byte codes ->
  2 + Z.of_nat (length codes) <= MAX_REMAINING ->
  Z.of_nat (length (encode (PSuback id codes))) <= buflen ->
  Z.of_nat (length codes) <= maxcount -> (length codes <= length (so_grantedQoSs out))%nat ->
  exists m', m' = mwrite m (Ptr b o) (encode (PSuback id codes)) /\
    MQTTSerialize_suback (Ptr b o) buflen id (Z.of_nat (length codes)) codes m =
    Ret (Z.of_nat (length (encode (PSuback id codes))), m') /\
    MQTTDeserialize_suback out maxcount (Ptr b o) len m' =
    Ret ((1, mkSubackOut id (Z.of_nat (length codes))
      (map (fun c => if c <? 128 then c else c - 256) codes ++
       drop (length codes) (so_grantedQoSs out))), m').
Proof.
  intros Hr Hi Hc Hs Hfit Hmax Hq. eexists. split; [done|]. split; [by apply MQTTSerialize_suback_run|].
  assert (map (fun c => if c <? 128 then c else c - 256) codes = map to_char codes) as ->.
  { apply map_ext_Forall. eapply Forall_impl; [exact Hc|]. intros c ?.
    destruct (Z.ltb_spec c 128); conv_lia. }
  eapply (MQTTDeserialize_suback_at _ b o out maxcount len id codes []); [|done|done|lia|done].
  rewrite app_nil_r. apply bytes_at_mwrite_eq. by eapply room_le.
Qed.

Lemma suback_roundtrip_witness :
  exists m', m' = mwrite example_sub_mem (Ptr 1 0) [144; 4; 1; 2; 1; 128] /\
    MQTTSerialize_suback (Ptr 1 0) 32 258 2 [1; 128] example_sub_mem = Ret (6, m') /\
    MQTTDeserialize_suback (mkSubackOut 0 0 [0; 0; 9]) 3 (Ptr 1 0) 6 m' =
    Ret ((1, mkSubackOut 258 2 [1; -128; 9]), m').
Proof.
  apply (suback_roundtrip example_sub_mem 1 0 32 258 [1; 128] (mkSubackOut 0 0 [0; 0; 9]) 3 6).
  - exact example_sub_room.
  - lia.
  - repeat (apply List.Forall_cons; [split; vm_compute; [discriminate|reflexivity]|]). apply List.Forall_nil.
  - vm_compute. discriminate.
  - vm_compute. discriminate.
  - vm_compute. discriminate.
  - simpl. lia.
Defined.

(** ** Where the code departs from its contract *)

(** MQTTDeserialize_suback compares with [>]: an array of [maxcount] = 1 members,
    as MQTTSubscribeWithResults passes it, is overrun by a SUBACK with two codes. *)
Lemma MQTTDeserialize_suback_overrun id x y q :
  MQTTDeserialize_suback (mkSubackOut id 0 [q]) 1 (Ptr 1 0) 6 {[1%positive := [144; 4; 0; 1; x; y]]} = UB.
Proof. reflexivity. Qed.

(** MQTTDeserialize_subscribe and MQTTDeserialize_unsubscribe do not look at
    [maxcount]: a packet with more filters overruns the arrays. *)
Lemma MQTTDeserialize_subscribe_overrun s q :
  MQTTDeserialize_subscribe (mkSubscribeOut 0 0 0 [s] [q]) 1 (Ptr 1 0) 12
    {[1%positive := [130; 10; 0; 1; 0; 1; 97; 0; 0; 1; 98; 0]]} = UB /\
  MQTTDeserialize_unsubscribe (mkUnsubscribeOut 0 0 0 [s]) 1 (Ptr 1 0) 10
    {[1%positive := [162; 8; 0; 1; 0; 1; 97; 0; 1; 98]]} = UB.
Proof. split; reflexivity. Qed.

(** MQTTDeserialize_unsuback reports success for every packet of the right type,
    also for one without a packet id. *)
Lemma MQTTDeserialize_unsuback_truncated id :
  MQTTDeserialize_unsuback id (Ptr 1 0) 2 {[1%positive := [176; 0]]} =
  Ret ((1, id), {[1%positive := [176; 0]]}).
Proof. reflexivity. Qed.

(** The length checks of MQTTSerialize_suback and MQTTSerialize_unsuback leave out
    two octets. *)
Lemma MQTTSerialize_suback_overflow id q :
  MQTTSerialize_suback (Ptr 1 0) 3 id 1 [q] {[1%positive := [0; 0; 0]]} = UB /\
  MQTTSerialize_unsuback (Ptr 1 0) 2 id {[1%positive := [0; 0]]} = UB.
Proof. split; reflexivity. Qed.
