(* ===== verification/Topic.v ===== *)
(** * Topic filters

    isTopicMatched of src/mqtt/MQTTClient.c, the test that selects the handlers
    of an incoming message, against the level-by-level definition of matching of
    the protocol. *)

From S2P Require Import Prelude Memory Wire Packet.

(** [*p] for [char* p]. *)
Definition loadc (p : ptr) : M mem Z :=
  c ← load p; mret (to_char c).

(** The inner loop of the '+' case: [curn] on the last character of its level. *)
Fixpoint skip_loop (fuel : nat) (curn curn_end : ptr) : M mem ptr :=
  match fuel with
  | O => nofuel
  | S fuel =>
      let nextpos := padd curn 1 in
      more ← plt nextpos curn_end;
      if (more : bool) then
        c ← loadc nextpos;
        if negb (c =? 47) then skip_loop fuel (padd curn 1) curn_end else mret curn
      else mret curn
  end.

Fixpoint match_loop (fuel : nat) (curf curn curn_end : ptr) : M mem (ptr * ptr) :=
  match fuel with
  | O => nofuel
  | S fuel =>
      f ← loadc curf;
      more ← (if truthy f then plt curn curn_end else mret false);
      if (more : bool) then
        n ← loadc curn;
        if (n =? 47) && negb (f =? 47) then mret (curf, curn)
        else if negb (f =? 43) && negb (f =? 35) && negb (f =? n) then mret (curf, curn)
        else
          curn ← (if f =? 43 then skip_loop (S fuel) curn curn_end
                  else if f =? 35 then mret (padd curn_end (-1))
                  else mret curn);
          match_loop fuel (padd curf 1) (padd curn 1) curn_end
      else mret (curf, curn)
  end.

(** The name cannot be passed more than once: its length bounds both loops. *)
Definition isTopicMatched (topicFilter : ptr) (topicName : MQTTString) : M mem Z :=
  let curn := data (lenstring topicName) in
  let curn_end := padd curn (len (lenstring topicName)) in
  '(curf, curn) ← match_loop (S (Z.to_nat (len (lenstring topicName)))) topicFilter curn curn_end;
  left ← psub curn_end curn;
  f ← loadc curf;
  mret (of_bool ((left =? 0) && (f =? 0))).

(** ** Matching, level by level *)

(** A topic from its levels. *)
Fixpoint join (ls : list (list Z)) : list Z :=
  match ls with
  | [] => []
  | [l] => l
  | l :: ls => l ++ 47 :: join ls
  end.

(** '+' stands for one level, '#' for the levels that are left. *)
Fixpoint levels_match (fs ns : list (list Z)) : bool :=
  match fs, ns with
  | [], [] => true
  | f :: fs', n :: ns' =>
      if bool_decide (f = [35]) then bool_decide (fs' = [])
      else (bool_decide (f = [43]) || bool_decide (f = n)) && levels_match fs' ns'
  | _, _ => false
  end.

(** Matching as MQTT 3.1.1 defines it: '#' stands for no level as well, so that
    "a/#" matches "a". *)
Fixpoint topic_matches (fs ns : list (list Z)) : bool :=
  match fs, ns with
  | [], [] => true
  | f :: fs', [] => bool_decide (f = [35]) && bool_decide (fs' = [])
  | f :: fs', n :: ns' =>
      if bool_decide (f = [35]) then bool_decide (fs' = [])
      else (bool_decide (f = [43]) || bool_decide (f = n)) && topic_matches fs' ns'
  | _, _ => false
  end.

(** A level without wildcards, separators and NUL. *)
Definition plain (l : list Z) : Prop :=
  Forall (fun c => is_byte c /\ c ≠ 0 /\ c ≠ 35 /\ c ≠ 43 /\ c ≠ 47) l.

(** The filters the comment of isTopicMatched assumes: wildcards take a whole
    level, '#' the last one. *)
Inductive wf_filter : list (list Z) -> Prop :=
| wf_last l : plain l \/ l = [43] \/ l = [35] -> wf_filter [l]
| wf_cons l ls : plain l \/ l = [43] -> wf_filter ls -> wf_filter (l :: ls).

(** A topic name whose levels are not empty. *)
Definition wf_name (ns : list (list Z)) : Prop :=
  ns ≠ [] /\ Forall (fun l => plain l /\ l ≠ []) ns.

(** ** The loop on character lists *)

Fixpoint skip_level (n : list Z) : list Z :=
  match n with
  | c :: n' => if c =? 47 then n else skip_level n'
  | [] => []
  end.

Fixpoint chars_match (f n : list Z) : bool :=
  match f, n with
  | [], [] => true
  | x :: f', y :: n' =>
      if (y =? 47) && negb (x =? 47) then false
      else if x =? 43 then chars_match f' (skip_level n')
      else if x =? 35 then chars_match f' []
      else (x =? y) && chars_match f' n'
  | _, _ => false
  end.

Lemma to_char_eqb a b : is_byte a -> is_byte b -> (to_char a =? to_char b) = (a =? b).
Proof. intros. destruct (Z.eqb_spec a b); conv_lia. Qed.

Lemma loadc_at m p c bs : bytes_at m p (c :: bs) -> loadc p m = Ret (to_char c, m).
Proof. intros H. unfold loadc. by erewrite bind_ret by by eapply load_at. Qed.

(** A list of octets ending at offset [e]. *)
Definition ends_at (m : mem) (b : positive) (e : Z) (n : list Z) : Prop :=
  bytes_at m (Ptr b (e - Z.of_nat (length n))) n /\ Forall is_byte n.

Lemma ends_at_cons m b e c n :
  ends_at m b e (c :: n) ->
  is_byte c /\ ends_at m b e n /\ loadc (Ptr b (e - Z.of_nat (S (length n)))) m = Ret (to_char c, m).
Proof.
  intros [H [Hc Hn]%Forall_cons]. split; [done|]. split; [|by eapply loadc_at].
  apply bytes_at_cons in H as [_ H]. split; [|done]. eapply bytes_at_eq; [exact H|]. simpl length. lia.
Qed.

Lemma ends_at_skip m b e n : ends_at m b e n -> ends_at m b e (skip_level n).
Proof.
  induction n as [|c n IH]; [done|]. intros H. simpl. destruct (c =? 47); [done|].
  apply IH. by apply ends_at_cons in H as (_ & ? & _).
Qed.

Lemma length_skip n : (length (skip_level n) <= length n)%nat.
Proof. induction n as [|c n IH]; [done|]. simpl. destruct (c =? 47); simpl; lia. Qed.

Lemma skip_loop_run fuel m b e n :
  ends_at m b e n -> (length n < fuel)%nat ->
  skip_loop fuel (Ptr b (e - Z.of_nat (S (length n)))) (Ptr b e) m =
  Ret (Ptr b (e - Z.of_nat (S (length (skip_level n)))), m).
Proof.
  revert n. induction fuel as [|fuel IH]; intros n H Hf; [lia|]. simpl skip_loop.
  erewrite bind_ret by apply plt_same.
  replace (e - Z.of_nat (S (length n)) + 1) with (e - Z.of_nat (length n)) by lia.
  destruct n as [|c n]; cbn [length skip_level].
  - by replace (_ <? 0) with false by lia.
  - replace (_ <? 0) with true by lia. cbv iota.
    apply ends_at_cons in H as (Hc & H & Hl). erewrite bind_ret by exact Hl.
    replace (to_char c =? 47) with (c =? 47) by (symmetry; apply (to_char_eqb c 47); [done|split; lia]).
    destruct (c =? 47); [done|]. cbn [negb]. simpl in Hf. rewrite IH; [done|done|lia].
Qed.

Lemma eqb_char c k : is_byte c -> 0 <= k < 128 -> (to_char c =? k) = (c =? k).
Proof. intros. destruct (Z.eqb_spec c k); conv_lia. Qed.

(** The loop leaves the two cursors where the match succeeded or failed. *)
Lemma match_loop_run fuel m fb fo b e f n :
  bytes_at m (Ptr fb fo) (f ++ [0]) -> Forall (fun c => is_byte c /\ c ≠ 0) f ->
  ends_at m b e n -> (length n < fuel)%nat ->
  exists fo' (f' n' : list Z),
    match_loop fuel (Ptr fb fo) (Ptr b (e - Z.of_nat (length n))) (Ptr b e) m =
    Ret ((Ptr fb fo', Ptr b (e - Z.of_nat (length n'))), m) /\
    bytes_at m (Ptr fb fo') (f' ++ [0]) /\ Forall (fun c => is_byte c /\ c ≠ 0) f' /\
    bool_decide (n' = []) && bool_decide (f' = []) = chars_match f n.
Proof.
  revert fo f n. induction fuel as [|fuel IH]; intros fo f n Hf Hfs Hn Hfuel; [lia|].
  simpl match_loop. destruct f as [|x f].
  { erewrite bind_ret by by eapply loadc_at. cbn. eexists _, [], n. split; [done|].
    split; [exact Hf|]. split; [done|]. by destruct n. }
  apply Forall_cons in Hfs as [[Hx Hx0] Hfs]. erewrite bind_ret by by eapply loadc_at.
  assert (truthy (to_char x) = true) as -> by (unfold truthy; rewrite eqb_char by (done || lia); lia).
  erewrite bind_ret by apply plt_same.
  destruct n as [|y n]; cbn [length].
  { replace (_ <? 0) with false by lia. eexists _, (x :: f), []. split; [done|].
    split; [exact Hf|]. split; [by constructor|]. done. }
  replace (_ <? 0) with true by lia. cbv iota.
  pose proof (ends_at_cons _ _ _ _ _ Hn) as (Hy & Hn' & Hl). erewrite bind_ret by exact Hl.
  rewrite !eqb_char, to_char_eqb by (done || lia). cbn [chars_match].
  destruct ((y =? 47) && negb (x =? 47)).
  { eexists _, (x :: f), (y :: n). by split_and!; [|exact Hf|constructor|]. }
  apply bytes_at_cons in Hf as Hf'. destruct Hf' as [_ Hf']. simpl in Hfuel. cbn [padd] in Hf'.
  destruct (Z.eqb_spec x 43) as [->|Hx43]; cbn [negb andb].
  { erewrite bind_ret by (apply (skip_loop_run (S fuel)); [done|lia]). cbn [padd].
    replace (e - Z.of_nat (S (length (skip_level n))) + 1) with (e - Z.of_nat (length (skip_level n))) by lia.
    apply IH; [done|done|by apply ends_at_skip|]. pose proof (length_skip n). lia. }
  destruct (Z.eqb_spec x 35) as [->|Hx35]; cbn [negb andb].
  { erewrite bind_ret by apply mret_run. cbn [padd].
    replace (e + -1 + 1) with (e - Z.of_nat (length (@nil Z))) by (simpl; lia).
    apply IH; [done|done| |simpl; lia]. split; [|constructor].
    destruct Hn as [Hn _]. rewrite <- (app_nil_r (y :: n)) in Hn. apply bytes_at_app in Hn as [_ Hn].
    cbn [padd] in Hn. eapply bytes_at_eq; [exact Hn|]. rewrite app_nil_r. simpl. lia. }
  destruct (x =? y); cbn [negb andb].
  - erewrite bind_ret by apply mret_run. cbn [padd].
    replace (e - Z.of_nat (S (length n)) + 1) with (e - Z.of_nat (length n)) by lia. apply IH; [done|done|done|lia].
  - eexists _, (x :: f), (y :: n). by split_and!; [|exact Hf|constructor|].
Qed.

Lemma isTopicMatched_chars m fp f b o n lm :
  cstr_at m fp f -> Forall is_byte f -> bytes_at m (Ptr b o) n -> Forall is_byte n ->
  isTopicMatched fp (mkMQTTString lm (mkLenString (Z.of_nat (length n)) (Ptr b o))) m =
  Ret (of_bool (chars_match f n), m).
Proof.
  intros [Hf H0] Hfb Hn Hnb. destruct fp as [| |fb fo]; [by destruct Hf as [? [=]]..|].
  unfold isTopicMatched. cbn [lenstring data len padd]. rewrite Nat2Z.id.
  destruct (match_loop_run (S (length n)) m fb fo b (o + Z.of_nat (length n)) f n)
    as (fo' & f' & n' & E & Hf' & Hf0 & Hr); [done| | |lia|].
  { apply Forall_forall. intros c Hc. rewrite Forall_forall in Hfb. split; [by apply Hfb|]. by intros ->. }
  { split; [|done]. eapply bytes_at_eq; [exact Hn|lia]. }
  replace (o + Z.of_nat (length n) - Z.of_nat (length n)) with o in E by lia.
  erewrite bind_ret by exact E. cbv iota beta. erewrite bind_ret by apply psub_same.
  assert (exists c s, f' ++ [0] = c :: s /\ is_byte c /\ (c =? 0) = bool_decide (f' = [])) as (c & s & Ec & Hc & Hc0).
  { destruct f' as [|x f']; eexists _, _; (split; [done|]).
    - split; [split; lia|done].
    - apply Forall_cons in Hf0 as [[? ?] _]. split; [done|]. simpl. lia. }
  rewrite Ec in Hf'. erewrite bind_ret by by eapply loadc_at. unfold mret, M_ret. do 3 f_equal.
  rewrite <- Hr, eqb_char, Hc0 by (done || lia). f_equal.
  destruct n'; simpl; [by rewrite Z.sub_0_r, Z.sub_diag|lia].
Qed.

(** What follows the first level. *)
Definition join_tail (ls : list (list Z)) : list Z :=
  match ls with [] => [] | _ => 47 :: join ls end.

Lemma join_cons l ls : join (l :: ls) = l ++ join_tail ls.
Proof. destruct ls; simpl; [by rewrite app_nil_r|done]. Qed.

Lemma chars_match_tail fs ns :
  chars_match (join_tail fs) (join_tail ns) =
  match fs, ns with [], [] => true | _ :: _, _ :: _ => chars_match (join fs) (join ns) | _, _ => false end.
Proof. by destruct fs, ns. Qed.

(** A plain level matches itself only. *)
Lemma chars_match_plain l k fs ns :
  plain l -> plain k ->
  chars_match (l ++ join_tail fs) (k ++ join_tail ns) =
  bool_decide (l = k) && chars_match (join_tail fs) (join_tail ns).
Proof.
  unfold plain. intros Hl. revert k. induction l as [|x l IH]; intros [|y k] Hk; try apply Forall_cons in Hk as [Hy Hk].
  - done.
  - rewrite bool_decide_eq_false_2 by done. destruct fs as [|f fs]; [done|].
    cbn [join_tail app chars_match]. change (47 =? 43) with false. change (47 =? 35) with false. cbv iota.
    replace (y =? 47) with false by lia. by replace (47 =? y) with false by lia.
  - rewrite bool_decide_eq_false_2 by done. apply Forall_cons in Hl as [Hx _].
    destruct ns as [|n ns]; [done|]. cbn [join_tail app chars_match].
    by replace (x =? 47) with false by lia.
  - apply Forall_cons in Hl as [Hx Hl]. cbn [app chars_match].
    replace (y =? 47) with false by lia. replace (x =? 43) with false by lia.
    replace (x =? 35) with false by lia. cbn [andb]. rewrite IH by done.
    destruct (Z.eqb_spec x y) as [->|]; cbn [andb].
    + f_equal. apply bool_decide_ext. split; congruence.
    + rewrite bool_decide_eq_false_2 by congruence. done.
Qed.

Lemma skip_level_plain k ns : plain k -> skip_level (k ++ join_tail ns) = join_tail ns.
Proof.
  intros H. induction H as [|c k Hc _ IH]; [by destruct ns|]. cbn [app skip_level].
  by replace (c =? 47) with false by lia.
Qed.

Lemma chars_match_plus k fs ns :
  plain k -> k ≠ [] ->
  chars_match ([43] ++ join_tail fs) (k ++ join_tail ns) = chars_match (join_tail fs) (join_tail ns).
Proof.
  intros Hk Hne. destruct k as [|y k]; [done|]. apply Forall_cons in Hk as [Hy Hk].
  cbn [app chars_match]. replace (y =? 47) with false by lia. change (43 =? 43) with true. cbn [andb].
  by rewrite skip_level_plain.
Qed.

Lemma chars_match_levels fs ns :
  wf_filter fs -> wf_name ns -> chars_match (join fs) (join ns) = levels_match fs ns.
Proof.
  intros Hf [Hne Hn]. revert ns Hne Hn.
  assert (forall l ns, plain l \/ l = [43] -> forall fs,
    (forall ns, ns ≠ [] -> Forall (fun l => plain l /\ l ≠ []) ns -> fs ≠ [] ->
       chars_match (join fs) (join ns) = levels_match fs ns) ->
    ns ≠ [] -> Forall (fun l => plain l /\ l ≠ []) ns ->
    chars_match (join (l :: fs)) (join ns) = levels_match (l :: fs) ns) as Hstep.
  { intros l ns Hl fs0 IH Hne Hn. destruct ns as [|k ns]; [done|].
    apply Forall_cons in Hn as [[Hk Hk0] Hn]. rewrite !join_cons. cbn [levels_match].
    assert (chars_match (join_tail fs0) (join_tail ns) = levels_match fs0 ns) as IH'.
    { rewrite chars_match_tail. destruct fs0 as [|f fs0], ns as [|n ns]; try done. by apply IH. }
    destruct Hl as [Hl| ->].
    - rewrite (bool_decide_eq_false_2 (l = [35])).
      2: { intros ->. apply Forall_cons in Hl as [? _]. lia. }
      rewrite (bool_decide_eq_false_2 (l = [43])).
      2: { intros ->. apply Forall_cons in Hl as [? _]. lia. }
      cbn [orb]. by rewrite chars_match_plain, IH'.
    - rewrite bool_decide_eq_false_2 by done. rewrite bool_decide_eq_true_2 by done. cbn [orb andb].
      by rewrite chars_match_plus, IH'. }
  induction Hf as [l Hl|l ls Hl Hf IH]; intros ns Hne Hn.
  - destruct Hl as [Hl|[Hl|Hl]]; [apply Hstep; auto; done..|]. subst l.
    destruct ns as [|k ns]; [done|]. apply Forall_cons in Hn as [[Hk Hk0] _].
    rewrite !join_cons. destruct k as [|y k]; [done|]. apply Forall_cons in Hk as [Hy _].
    cbn. by replace (y =? 47) with false by lia.
  - apply Hstep; auto.
Qed.

(** The filter is the name's match followed by '#'. *)
Definition parent_match (fs ns : list (list Z)) : bool :=
  bool_decide (last fs = Some [35]) && levels_match (removelast fs) ns.

Lemma topic_matches_levels fs ns :
  wf_filter fs -> topic_matches fs ns = levels_match fs ns || parent_match fs ns.
Proof.
  intros Hf. revert ns. induction Hf as [l Hl|l ls Hl Hf IH]; intros ns.
  - unfold parent_match. destruct ns as [|k ns]; cbn.
    + destruct Hl as [Hl|[->|Hl]]; cbn; [|done|by subst].
      rewrite !andb_true_r. apply bool_decide_ext. split; congruence.
    + rewrite andb_false_r, orb_false_r. done.
  - assert (bool_decide (l = [35]) = false) as El.
    { apply bool_decide_eq_false_2. destruct Hl as [Hl| ->]; [|done].
      intros ->. apply Forall_cons in Hl as [? _]. lia. }
    assert (exists l' ls', ls = l' :: ls') as (l' & ls' & Els) by (destruct Hf; eauto).
    destruct ns as [|k ns]; cbn [topic_matches levels_match]; rewrite ?El.
    + cbn. unfold parent_match. rewrite Els. cbn. by rewrite andb_false_r.
    + rewrite IH. unfold parent_match.
      assert (last (l :: ls) = last ls) as -> by (by rewrite Els).
      assert (removelast (l :: ls) = l :: removelast ls) as -> by (by rewrite Els).
      cbn [levels_match]. rewrite El.
      destruct (bool_decide (l = [43]) || bool_decide (l = k)); cbn [andb];
        destruct (bool_decide (last ls = Some [35])); by rewrite ?andb_false_r.
Qed.

(** ** Properties *)

(** C26: isTopicMatched is the matching of the protocol, level by level, on the
    filters its comment assumes and names without empty levels, but for one case: a
    filter ending in '/#' does not match its parent level. *)
Theorem isTopicMatched_spec m fp fs b o ns lm :
  wf_filter fs -> wf_name ns -> cstr_at m fp (join fs) -> Forall is_byte (join fs) ->
  bytes_at m (Ptr b o) (join ns) -> Forall is_byte (join ns) ->
  exists r, isTopicMatched fp (mkMQTTString lm (mkLenString (Z.of_nat (length (join ns))) (Ptr b o))) m =
    Ret (of_bool r, m) /\ r = levels_match fs ns /\ topic_matches fs ns = r || parent_match fs ns.
Proof.
  intros Hf Hn Hc Hfb Hb Hnb. exists (levels_match fs ns). split; [|split; [done|by apply topic_matches_levels]].
  rewrite <- chars_match_levels by done. by apply isTopicMatched_chars.
Qed.

(** "a/+/#" and "a/b/c/d". *)
Lemma isTopicMatched_spec_witness :
  let m : mem := {[1%positive := [97; 47; 43; 47; 35; 0]; 2%positive := [97; 47; 98; 47; 99; 47; 100]]} in
  let fs := [[97]; [43]; [35]] in
  let ns := [[97]; [98]; [99]; [100]] in
  exists r, isTopicMatched (Ptr 1 0) (mkMQTTString NULL (mkLenString 7 (Ptr 2 0))) m = Ret (of_bool r, m) /\
    r = true /\ topic_matches fs ns = r || parent_match fs ns.
Proof.
  intros m fs ns.
  assert (forall c, c = 97 \/ c = 98 \/ c = 99 \/ c = 100 -> plain [c]) as Hp.
  { intros c Hc. apply List.Forall_cons; [|apply List.Forall_nil]. unfold is_byte. lia. }
  apply (isTopicMatched_spec m (Ptr 1 0) fs 2 0 ns NULL).
  - apply wf_cons; [left; apply Hp; lia|]. apply wf_cons; [by right|]. apply wf_last. by right; right.
  - split; [done|]. repeat (apply List.Forall_cons; [split; [apply Hp; lia|done]|]). apply List.Forall_nil.
  - split; [by exists []|no_nul].
  - repeat (apply List.Forall_cons; [split; vm_compute; [discriminate|reflexivity]|]). apply List.Forall_nil.
  - by exists [].
  - repeat (apply List.Forall_cons; [split; vm_compute; [discriminate|reflexivity]|]). apply List.Forall_nil.
Defined.

(** ** Where the code departs from the protocol *)

(** "a/#" does not match "a", and wildcards do not match empty levels: neither "+/+"
    nor "#" matches "/". *)
Lemma isTopicMatched_departures :
  let m : mem := {[1%positive := [97; 47; 35; 0]; 2%positive := [97]; 3%positive := [43; 47; 43; 0];
                   4%positive := [35; 0]; 5%positive := [47]]} in
  isTopicMatched (Ptr 1 0) (lstring 1 (Ptr 2 0)) m = Ret (0, m) /\ topic_matches [[97]; [35]] [[97]] = true /\
  isTopicMatched (Ptr 3 0) (lstring 1 (Ptr 5 0)) m = Ret (0, m) /\ topic_matches [[43]; [43]] [[]; []] = true /\
  isTopicMatched (Ptr 4 0) (lstring 1 (Ptr 5 0)) m = Ret (0, m) /\ topic_matches [[35]] [[]; []] = true.
Proof. split_and!; reflexivity. Qed.
