(* ===== verification/Timer.v ===== *)
(** * Timers

    The timers of src/mqtt/MQTTInterface.c over [struct timeval] and the sleep
    of src/utilis.c.  [gettimeofday] is a reading of the clock, an argument of
    the functions that take one; [timeradd] and [timersub] are the macros of
    <sys/time.h>. *)

From S2P Require Import Prelude.

Record timeval : Type := mkTimeval { tv_sec : Z; tv_usec : Z }.

Record Timer : Type := mkTimer { end_time : timeval }.

Definition timeradd (a b : timeval) : timeval :=
  let sec := tv_sec a + tv_sec b in
  let usec := tv_usec a + tv_usec b in
  if 1000000 <=? usec then mkTimeval (sec + 1) (usec - 1000000) else mkTimeval sec usec.

Definition timersub (a b : timeval) : timeval :=
  let sec := tv_sec a - tv_sec b in
  let usec := tv_usec a - tv_usec b in
  if usec <? 0 then mkTimeval (sec - 1) (usec + 1000000) else mkTimeval sec usec.

Definition TimerInit : Timer := mkTimer (mkTimeval 0 0).

Definition TimerIsExpired (timer : Timer) (now : timeval) : bool :=
  let res := timersub (end_time timer) now in
  (tv_sec res <? 0) || ((tv_sec res =? 0) && (tv_usec res <=? 0)).

(** [timeout] is an [unsigned int]. *)
Definition TimerCountdownMS (timeout : Z) (now : timeval) : Timer :=
  let interval := mkTimeval (timeout / 1000) (timeout mod 1000 * 1000) in
  mkTimer (timeradd now interval).

Definition TimerCountdown (timeout : Z) (now : timeval) : Timer :=
  let interval := mkTimeval timeout 0 in
  mkTimer (timeradd now interval).

Definition TimerLeftMS (timer : Timer) (now : timeval) : Z :=
  let res := timersub (end_time timer) now in
  if tv_sec res <? 0 then 0
  else to_int (tv_sec res * 1000 + Z.quot (tv_usec res) 1000).

(** [sleep_ms], the POSIX branch: the [struct timespec] it passes to nanosleep,
    which refuses nanoseconds outside of [0, 10^9) with EINVAL and does not
    sleep then. *)
Record timespec : Type := mkTimespec { ts_sec : Z; ts_nsec : Z }.

Definition sleep_ms (milliseconds : Z) : timespec :=
  mkTimespec (Z.quot milliseconds 1000) (Z.rem milliseconds 1000 * 1000000).

(** ** Time in microseconds *)

Definition micros (t : timeval) : Z := tv_sec t * 1000000 + tv_usec t.

(** What gettimeofday returns. *)
Definition normal (t : timeval) : Prop := 0 <= tv_usec t < 1000000.

Lemma timeradd_micros a b :
  normal a -> normal b -> micros (timeradd a b) = micros a + micros b /\ normal (timeradd a b).
Proof.
  unfold normal, micros, timeradd. intros. destruct (Z.leb_spec 1000000 (tv_usec a + tv_usec b)); simpl; lia.
Qed.

Lemma timersub_micros a b :
  normal a -> normal b -> micros (timersub a b) = micros a - micros b /\ normal (timersub a b).
Proof.
  unfold normal, micros, timersub. intros. destruct (Z.ltb_spec (tv_usec a - tv_usec b) 0); simpl; lia.
Qed.

(** The two tests of a timer in terms of the time left. *)
Lemma TimerIsExpired_micros t now :
  normal (end_time t) -> normal now -> TimerIsExpired t now = (micros (end_time t) <=? micros now).
Proof.
  intros Ht Hn. destruct (timersub_micros (end_time t) now Ht Hn) as [E Hr]. unfold TimerIsExpired. cbv zeta.
  set (res := timersub _ _) in *. unfold micros in E at 1. unfold normal in Hr. lia.
Qed.

Lemma TimerLeftMS_micros t now :
  normal (end_time t) -> normal now -> micros (end_time t) - micros now < 1000 * (INT_MAX + 1) ->
  TimerLeftMS t now = Z.max 0 ((micros (end_time t) - micros now) / 1000).
Proof.
  intros Ht Hn Hlt. destruct (timersub_micros (end_time t) now Ht Hn) as [E Hr]. unfold TimerLeftMS. cbv zeta.
  set (res := timersub _ _) in *. rewrite <- E in *. unfold micros, normal, INT_MAX in *.
  destruct (Z.ltb_spec (tv_sec res) 0).
  - Z.div_mod_to_equations; lia.
  - rewrite Z.quot_div_nonneg by lia. unfold to_int. Z.div_mod_to_equations; lia.
Qed.

Lemma TimerCountdownMS_micros t now :
  0 <= t -> normal now ->
  micros (end_time (TimerCountdownMS t now)) = micros now + t * 1000 /\ normal (end_time (TimerCountdownMS t now)).
Proof.
  intros Ht Hn. unfold TimerCountdownMS. cbn [end_time].
  destruct (timeradd_micros now (mkTimeval (t / 1000) (t mod 1000 * 1000)) Hn) as [-> ?].
  { unfold normal. simpl. Z.div_mod_to_equations; lia. }
  split; [|done]. unfold micros at 2. simpl. Z.div_mod_to_equations; lia.
Qed.

Lemma TimerCountdown_micros t now :
  normal now ->
  micros (end_time (TimerCountdown t now)) = micros now + t * 1000000 /\ normal (end_time (TimerCountdown t now)).
Proof.
  intros Hn. unfold TimerCountdown. cbn [end_time].
  destruct (timeradd_micros now (mkTimeval t 0) Hn) as [-> ?]; [by unfold normal; simpl|].
  split; [|done]. unfold micros at 2. simpl. lia.
Qed.

(** ** Properties *)

(** A countdown of [t] milliseconds started at [now] expires exactly when the
    clock has moved on by [t] milliseconds, and until then TimerLeftMS is the time left
    in whole milliseconds; a countdown of [s] seconds expires after [s] seconds; a timer
    that was only initialised has expired. *)
Theorem timer_countdown t s now later :
  0 <= t < 2147483648 -> normal now -> normal later -> micros now <= micros later -> 0 <= tv_sec later ->
  let timer := TimerCountdownMS t now in
  TimerIsExpired timer later = (micros now + t * 1000 <=? micros later) /\
  TimerLeftMS timer later = Z.max 0 ((micros now + t * 1000 - micros later) / 1000) /\
  TimerIsExpired (TimerCountdown s now) later = (micros now + s * 1000000 <=? micros later) /\
  TimerIsExpired TimerInit later = true.
Proof.
  intros Ht Hn Hl Hle Hsec timer.
  destruct (TimerCountdownMS_micros t now) as [E Hnorm]; [lia|done|].
  destruct (TimerCountdown_micros s now Hn) as [E' Hnorm'].
  unfold timer. split_and!.
  - rewrite TimerIsExpired_micros by done. by rewrite E.
  - rewrite TimerLeftMS_micros; [by rewrite E|done|done|]. rewrite E. unfold INT_MAX. lia.
  - rewrite TimerIsExpired_micros by done. by rewrite E'.
  - rewrite TimerIsExpired_micros by done. unfold micros, normal in *. simpl. lia.
Qed.

Lemma timer_countdown_witness :
  let timer := TimerCountdownMS 1500 (mkTimeval 100 600000) in
  let later := mkTimeval 101 0 in
  TimerIsExpired timer later = false /\
  TimerLeftMS timer later = 1100 /\
  TimerIsExpired (TimerCountdown 60 (mkTimeval 100 600000)) later = false /\
  TimerIsExpired TimerInit later = true.
Proof.
  apply (timer_countdown 1500 60 (mkTimeval 100 600000) (mkTimeval 101 0)).
  - lia.
  - split; vm_compute; [discriminate|reflexivity].
  - split; vm_compute; [discriminate|reflexivity].
  - vm_compute. discriminate.
  - vm_compute. discriminate.
Defined.

(** Sleep_ms passes nanosleep a valid timespec of exactly the time asked for,
    whatever non-negative number of milliseconds it is given. *)
Theorem sleep_ms_exact ms :
  0 <= ms <= INT_MAX ->
  let ts := sleep_ms ms in
  0 <= ts_sec ts /\ 0 <= ts_nsec ts < 1000000000 /\
  ts_sec ts * 1000000000 + ts_nsec ts = ms * 1000000.
Proof.
  intros Hms ts. unfold ts, sleep_ms. simpl. rewrite Z.quot_div_nonneg, Z.rem_mod_nonneg by lia.
  Z.div_mod_to_equations; lia.
Qed.

Lemma sleep_ms_exact_witness :
  let ts := sleep_ms 1500 in
  0 <= ts_sec ts /\ 0 <= ts_nsec ts < 1000000000 /\ ts_sec ts * 1000000000 + ts_nsec ts = 1500 * 1000000.
Proof. apply (sleep_ms_exact 1500). unfold INT_MAX. lia. Defined.
