(* ===== verification/Print.v ===== *)
(** * Printing and reading numbers

    The conversions of snprintf the program uses (literals, %d, %lu, %s, %.*s) and
    atoi, over lists of character codes. *)

From Stdlib Require Import String Ascii.
From S2P Require Import Prelude Memory.

(** The codes of a string literal. *)
Definition str (s : string) : list Z := map (fun a => Z.of_nat (nat_of_ascii a)) (list_ascii_of_string s).
Arguments str s%_string_scope.

(** [%lu]: the decimal digits of a number below 10^20. *)
Fixpoint digits (fuel : nat) (n : Z) (acc : list Z) : list Z :=
  match fuel with
  | O => acc
  | S fuel => if n <? 10 then 48 + n :: acc else digits fuel (n / 10) (48 + n mod 10 :: acc)
  end.

Definition decimal (n : Z) : list Z := digits 20 n [].

(** [%d] *)
Definition print_d (n : Z) : list Z := if n <? 0 then 45 :: decimal (- n) else decimal n.

Fixpoint upto_nul (l : list Z) : list Z :=
  match l with
  | [] => []
  | c :: l => if c =? 0 then [] else c :: upto_nul l
  end.

(** [%s], and [%.*s] with the precision [prec]; a negative one counts as none. *)
Definition print_s (p : ptr) : M mem (list Z) :=
  n ← strlen p; load_bytes p n.

Definition print_chars (prec : Z) (p : ptr) : M mem (list Z) :=
  if prec <? 0 then print_s p
  else if prec =? 0 then mret []
  else fun m =>
    match tail_at m p with
    | Some t => if (prec <=? Z.of_nat (length t)) || bool_decide (0 ∈ t)
                then Ret (upto_nul (take (Z.to_nat prec) t), m) else UB
    | None => UB
    end.

(** A format and its arguments. *)
Inductive piece : Type :=
| Lit (s : list Z)
| Int (n : Z)
| Ulong (n : Z)
| Chars (prec : Z) (p : ptr).

Definition print_piece (x : piece) : M mem (list Z) :=
  match x with
  | Lit s => mret s
  | Int n => mret (print_d n)
  | Ulong n => mret (decimal n)
  | Chars prec p => print_chars prec p
  end.

Fixpoint print (xs : list piece) : M mem (list Z) :=
  match xs with
  | [] => mret []
  | x :: xs => s ← print_piece x; t ← print xs; mret (s ++ t)
  end.

(** [snprintf(buf, size, ...)]; [size] is converted to [size_t]. *)
Definition snprintf (buf : ptr) (size : Z) (xs : list piece) : M mem Z :=
  text ← print xs;
  (if to_size size =? 0 then mret tt
   else store_bytes buf (take (Z.to_nat (Z.min (to_size size - 1) (Z.of_nat (length text)))) text ++ [0]));;
  int_result (Z.of_nat (length text)).

(** [atoi]: white space, a sign, digits. *)
Definition is_digit (c : Z) : bool := (48 <=? c) && (c <=? 57).
Definition is_space (c : Z) : bool := (c =? 32) || ((9 <=? c) && (c <=? 13)).

Fixpoint parse_digits (l : list Z) (acc : Z) : Z :=
  match l with
  | c :: l => if is_digit c then parse_digits l (acc * 10 + (c - 48)) else acc
  | [] => acc
  end.

Fixpoint skip_space (l : list Z) : list Z :=
  match l with
  | c :: l' => if is_space c then skip_space l' else l
  | [] => []
  end.

(** Undefined when the number is not an [int]. *)
Definition atoi (l : list Z) : option Z :=
  let v := match skip_space l with
           | 45 :: l => - parse_digits l 0
           | 43 :: l => parse_digits l 0
           | l => parse_digits l 0
           end in
  if is_int v then Some v else None.

(** ** Lemmas *)

(** The digits, and what they add to a number read before them. *)
Lemma digits_spec fuel n acc :
  0 <= n < 10 ^ Z.of_nat fuel -> fuel ≠ 0%nat ->
  exists ds, digits fuel n acc = ds ++ acc /\ ds ≠ [] /\ Forall (fun c => is_digit c = true) ds /\
    (forall a l, parse_digits (ds ++ l) a = parse_digits l (a * 10 ^ Z.of_nat (length ds) + n)).
Proof.
  revert n acc. induction fuel as [|fuel IH]; intros n acc Hn Hf; [done|]. cbn [digits].
  rewrite Nat2Z.inj_succ, Z.pow_succ_r in Hn by lia.
  destruct (Z.ltb_spec n 10) as [Hlt|Hge].
  - exists [48 + n]. assert (is_digit (48 + n) = true) as Hd by (unfold is_digit; lia).
    split_and!; [done|done|by repeat constructor|]. intros a l. cbn [app parse_digits length]. rewrite Hd. f_equal.
    change (10 ^ Z.of_nat 1) with 10. lia.
  - assert (fuel ≠ 0%nat) as Hf' by (intros ->; simpl in *; lia).
    destruct (IH (n / 10) (48 + n mod 10 :: acc)) as (ds & E & Hne & Hds & Hp);
      [split; [apply Z.div_pos; lia|apply Z.div_lt_upper_bound; lia]|done|].
    pose proof (Z.mod_pos_bound n 10 ltac:(lia)).
    assert (is_digit (48 + n mod 10) = true) as Hd by (unfold is_digit; lia).
    exists (ds ++ [48 + n mod 10]). split_and!.
    + by rewrite E, <- app_assoc.
    + by destruct ds.
    + apply Forall_app. by repeat constructor.
    + intros a l. rewrite <- app_assoc, Hp. cbn [app parse_digits]. rewrite Hd. f_equal.
      rewrite length_app. cbn [length]. rewrite Nat.add_1_r, Nat2Z.inj_succ, Z.pow_succ_r by lia.
      rewrite (Z.div_mod n 10) at 3 by lia. ring.
Qed.

Lemma decimal_digits n :
  0 <= n < 10 ^ 20 -> decimal n ≠ [] /\ Forall (fun c => is_digit c = true) (decimal n) /\
    parse_digits (decimal n) 0 = n.
Proof.
  intros Hn. destruct (digits_spec 20 n [] Hn) as (ds & E & Hne & Hds & Hp); [done|].
  unfold decimal. rewrite E, app_nil_r. split_and!; [done|done|]. specialize (Hp 0 []).
  rewrite app_nil_r in Hp. rewrite Hp. simpl. lia.
Qed.

(** What is printed is read back. *)
Lemma atoi_print_d n : INT_MIN <= n <= INT_MAX -> atoi (print_d n) = Some n.
Proof.
  unfold INT_MIN, INT_MAX. intros Hn. unfold print_d, atoi.
  assert (forall k, 0 <= k < 10 ^ 20 -> exists c l, decimal k = c :: l /\ is_digit c = true) as Hd.
  { intros k Hk. destruct (decimal_digits k Hk) as (Hne & Hds & _). destruct (decimal k) as [|c l]; [done|].
    apply Forall_cons in Hds as [? _]. eauto. }
  assert (forall v, v = n -> (if is_int v then Some v else None) = Some n) as Hint.
  { intros v ->. unfold is_int, INT_MIN, INT_MAX. by replace ((_ <=? n) && (n <=? _)) with true by lia. }
  destruct (Z.ltb_spec n 0) as [Hneg|Hpos].
  - cbn [skip_space]. change (is_space 45) with false. cbv iota. apply Hint.
    destruct (decimal_digits (- n)) as (_ & _ & ->); lia.
  - destruct (Hd n) as (c & l & E & Hc); [lia|]. destruct (decimal_digits n) as (_ & _ & Hp); [lia|].
    rewrite E in *. cbn [skip_space]. replace (is_space c) with false by (unfold is_space, is_digit in *; lia).
    apply Hint. destruct (Z.eq_dec c 45) as [->|]; [done|]. destruct (Z.eq_dec c 43) as [->|]; [done|].
    rewrite <- Hp. unfold is_digit in Hc. destruct c as [|p|p]; [done| |done].
    do 6 (destruct p as [p|p|]; try done).
Qed.

Lemma snprintf_run m buf size xs text :
  print xs m = Ret (text, m) -> 0 < size <= INT_MAX -> room m buf size -> Z.of_nat (length text) <= INT_MAX ->
  snprintf buf size xs m =
  Ret (Z.of_nat (length text), mwrite m buf (take (Z.to_nat (size - 1)) text ++ [0])).
Proof.
  intros E Hs Hr Hl. unfold snprintf. erewrite bind_ret by exact E. rewrite to_size_id by (unfold INT_MAX in *; lia).
  replace (size =? 0) with false by lia.
  replace (take (Z.to_nat (Z.min (size - 1) (Z.of_nat (length text)))) text) with (take (Z.to_nat (size - 1)) text).
  2: { destruct (Z.le_ge_cases (size - 1) (Z.of_nat (length text))); [by rewrite Z.min_l by lia|].
       by rewrite Z.min_r, Nat2Z.id, !take_ge by lia. }
  erewrite bind_ret.
  2: { apply store_bytes_room. eapply room_le; [done|]. rewrite length_app, length_take. simpl. lia. }
  apply int_result_ok. unfold INT_MIN. lia.
Qed.

Lemma print_cons x xs m s t :
  print_piece x m = Ret (s, m) -> print xs m = Ret (t, m) -> print (x :: xs) m = Ret (s ++ t, m).
Proof. intros E1 E2. cbn [print]. erewrite bind_ret by exact E1. by erewrite bind_ret by exact E2. Qed.

Lemma print_chars_at m p cs rest :
  bytes_at m p (cs ++ rest) ->
  print_chars (Z.of_nat (length cs)) p m = Ret (upto_nul cs, m).
Proof.
  intros [t Ht]. unfold print_chars. replace (Z.of_nat (length cs) <? 0) with false by lia.
  destruct (Z.eqb_spec (Z.of_nat (length cs)) 0) as [E|E]; [by destruct cs|].
  rewrite Ht, <- app_assoc. rewrite length_app.
  replace (Z.of_nat (length cs) <=? Z.of_nat (length cs + length (rest ++ t))) with true by lia.
  cbn [orb]. by rewrite Nat2Z.id, take_app_length.
Qed.
