(* ===== verification/Network.v ===== *)
(** * The TLS transport

    src/mqtt/MQTTInterface.c without its timers: setting up and taking down the
    connection, with the OpenSSL objects, descriptors and globals it leaves
    behind, and the loops over SSL_read and SSL_write.

    What OpenSSL and the system answer is a parameter: for the connection an
    oracle, the list of the results of the calls in their order; for the loops
    the functions of the class [SSL_api]. *)

From Stdlib Require Import String.
From S2P Require Import Prelude Memory Wire Packet Timer Print.

(** ** Connecting and disconnecting *)

Module Tls.
(** The globals of the file and the objects behind them.  A handle is a positive
    number, 0 is NULL; [heap] has the objects that are allocated, [fds] the open
    descriptors. *)
Record tls : Type := mkTls {
  ctx : Z;
  ssl : Z;
  bio_err : Z;
  sockfd : Z;
  heap : gset Z;
  fds : gset Z;
  fresh : Z;
  oracle : list Z;
  sin_port : Z
}.

Definition set_ctx (v : Z) (s : tls) : tls :=
  mkTls v (ssl s) (bio_err s) (sockfd s) (heap s) (fds s) (fresh s) (oracle s) (sin_port s).
Definition set_ssl (v : Z) (s : tls) : tls :=
  mkTls (ctx s) v (bio_err s) (sockfd s) (heap s) (fds s) (fresh s) (oracle s) (sin_port s).
Definition set_bio_err (v : Z) (s : tls) : tls :=
  mkTls (ctx s) (ssl s) v (sockfd s) (heap s) (fds s) (fresh s) (oracle s) (sin_port s).
Definition set_sockfd (v : Z) (s : tls) : tls :=
  mkTls (ctx s) (ssl s) (bio_err s) v (heap s) (fds s) (fresh s) (oracle s) (sin_port s).

Definition set_sin_port (v : Z) (s : tls) : tls :=
  mkTls (ctx s) (ssl s) (bio_err s) (sockfd s) (heap s) (fds s) (fresh s) (oracle s) v.

(** The result of the next call of a library function; an oracle that is
    exhausted answers 0. *)
Definition answer : M tls Z := fun s =>
  let '(v, rest) := match oracle s with [] => (0, []) | v :: rest => (v, rest) end in
  Ret (v, mkTls (ctx s) (ssl s) (bio_err s) (sockfd s) (heap s) (fds s) (fresh s) rest (sin_port s)).

(** A constructor (SSL_CTX_new, SSL_new, BIO_new_fp): NULL or a new object. *)
Definition alloc : M tls Z := fun s =>
  Ret (fresh s, mkTls (ctx s) (ssl s) (bio_err s) (sockfd s) ({[fresh s]} ∪ heap s) (fds s)
                  (fresh s + 1) (oracle s) (sin_port s)).

Definition create : M tls Z :=
  v ← answer;
  if v =? 0 then mret 0 else alloc.

(** A call on an object: undefined when the object is not there (any more).
    SSL_shutdown and the destructors let NULL through. *)
Definition use (h : Z) : M tls unit := fun s =>
  if bool_decide (h ∈ heap s) then Ret (tt, s) else UB.

Definition SSL_shutdown (h : Z) : M tls unit :=
  if h =? 0 then mret tt else use h.

Definition free (h : Z) : M tls unit :=
  if h =? 0 then mret tt
  else use h;; modify (fun s =>
    mkTls (ctx s) (ssl s) (bio_err s) (sockfd s) (heap s ∖ {[h]}) (fds s) (fresh s) (oracle s) (sin_port s)).

(** [socket(AF_INET, SOCK_STREAM, 0)]: the descriptor the oracle names. *)
Definition socket : M tls Z :=
  v ← answer;
  if v <? 0 then mret v
  else modify (fun s => mkTls (ctx s) (ssl s) (bio_err s) (sockfd s) (heap s) ({[v]} ∪ fds s)
                          (fresh s) (oracle s) (sin_port s));; mret v.

(** [close(fd)]; closing a descriptor that is not open has no effect. *)
Definition close (fd : Z) : M tls unit := modify (fun s =>
  mkTls (ctx s) (ssl s) (bio_err s) (sockfd s) (heap s) (fds s ∖ {[fd]}) (fresh s) (oracle s) (sin_port s)).

(** A call [f(h, ...)] whose result is compared with [good]. *)
Definition check (h good : Z) : M tls bool :=
  use h;; v ← answer; mret (v =? good).

(** [Network]; the function pointers always are those of this file. *)
Record Network : Type := mkNetwork { n_socket : Z }.

Definition mqtt_network_init : Network := mkNetwork 0.

(** [server_addr.sin_port = htons(atoi(port))]; atoi is undefined on a number that is
    not an [int], and of one that is, htons keeps 16 bits. *)
Definition set_port (port : list Z) : M tls unit :=
  match atoi port with
  | Some p => modify (set_sin_port (to_ushort p))
  | None => ub
  end.

(** The steps from the socket on. *)
Definition connect_socket (port : list Z) : M tls Z :=
  fd ← socket;
  modify (set_sockfd fd);;
  if fd <? 0 then mret 1
  else
    server ← answer; (* gethostbyname *)
    if server =? 0 then mret 1
    else
      set_port port;;
      r ← answer; (* connect *)
      if r <? 0 then mret 1
      else
        s ← get;
        use (ctx s);;
        h ← create; (* SSL_new *)
        modify (set_ssl h);;
        if h =? 0 then mret 1
        else
          use h;; (* SSL_set_fd *)
          ok ← check h 1; (* SSL_connect *)
          if negb ok then mret 1
          else
            ok ← check h 0; (* SSL_get_verify_result, X509_V_OK *)
            if negb ok then mret 1 else mret 0.

Definition mqtt_network_connect (port : list Z) : M tls Z :=
  b ← create; (* BIO_new_fp *)
  modify (set_bio_err b);;
  c ← create; (* SSL_CTX_new *)
  modify (set_ctx c);;
  if c =? 0 then mret 1
  else
    ok ← check c 1; (* SSL_CTX_load_verify_locations *)
    if negb ok then mret 1
    else
      ok ← check c 1; (* SSL_CTX_use_certificate_file *)
      if negb ok then mret 1
      else
        ok ← check c 1; (* SSL_CTX_use_PrivateKey_file *)
        if negb ok then mret 1
        else
          ok ← check c 1; (* SSL_CTX_check_private_key *)
          if negb ok then mret 1
          else
            check c 1;; (* SSL_CTX_set_default_verify_paths: a warning only *)
            connect_socket port.

Definition mqtt_network_disconnect : M tls unit :=
  s ← get;
  SSL_shutdown (ssl s);;
  free (ssl s);;
  close (sockfd s);;
  free (bio_err s);;
  free (ctx s).

(** Not called: the same without SSL_shutdown. *)
Definition mqtt_network_clear : M tls unit :=
  s ← get;
  free (ssl s);;
  close (sockfd s);;
  free (bio_err s);;
  free (ctx s).

(** *** Ownership *)

(** What of the state decides whether a call is defined. *)
Definition view (s : tls) : gset Z * Z * Z * Z * Z := (heap s, fresh s, bio_err s, ctx s, ssl s).

Definition at_view (v : gset Z * Z * Z * Z * Z) (s : tls) : Prop := view s = v.

Lemma answer_view v : triple (at_view v) answer (fun _ => at_view v).
Proof. intros s Hs. unfold answer. destruct (oracle s); by eexists _, _. Qed.

Lemma alloc_view H fr b c l :
  triple (at_view (H, fr, b, c, l)) alloc (fun h s => h = fr /\ at_view ({[fr]} ∪ H, fr + 1, b, c, l) s).
Proof. intros s [= <- <- <- <- <-]. by eexists _, _. Qed.

Lemma create_view H fr b c l :
  triple (at_view (H, fr, b, c, l)) create (fun h s =>
    (h = 0 /\ at_view (H, fr, b, c, l) s) \/ (h = fr /\ at_view ({[fr]} ∪ H, fr + 1, b, c, l) s)).
Proof.
  eapply triple_bind; [apply answer_view|]. intros v. cbv beta. destruct (v =? 0).
  - apply triple_ret. auto.
  - eapply triple_conseq; [apply alloc_view|done|]. auto.
Qed.

Lemma use_view h H fr b c l :
  h ∈ H -> triple (at_view (H, fr, b, c, l)) (use h) (fun _ => at_view (H, fr, b, c, l)).
Proof.
  intros Hh s Hs. exists tt, s. split; [|done]. unfold use.
  injection Hs as -> _ _ _ _. by rewrite bool_decide_eq_true_2.
Qed.

Lemma check_view h g H fr b c l :
  h ∈ H -> triple (at_view (H, fr, b, c, l)) (check h g) (fun _ => at_view (H, fr, b, c, l)).
Proof.
  intros Hh. eapply triple_bind; [by apply use_view|]. intros []. cbv beta.
  eapply triple_bind; [apply answer_view|]. intros v. by apply triple_ret.
Qed.

Lemma socket_view v : triple (at_view v) socket (fun _ => at_view v).
Proof.
  eapply triple_bind; [apply answer_view|]. intros fd. cbv beta. destruct (fd <? 0); [by apply triple_ret|].
  eapply (triple_bind _ _ (fun _ => at_view v)); [by apply triple_modify|]. intros []. by apply triple_ret.
Qed.

Definition live (h : Z) : gset Z := if h =? 0 then ∅ else {[h]}.

(** The three globals own the objects allocated beyond [H0]. *)
Definition owns (H0 : gset Z) (s : tls) : Prop :=
  let b := bio_err s in let c := ctx s in let l := ssl s in
  heap s = H0 ∪ live b ∪ live c ∪ live l /\
  (b ∉ H0) /\ (c ∉ H0) /\ (l ∉ H0) /\
  (b ≠ 0 -> b ≠ c /\ b ≠ l) /\ (c ≠ 0 -> c ≠ l).

Lemma free_view h H fr b c l :
  h ∈ H \/ h = 0 ->
  triple (at_view (H, fr, b, c, l)) (free h) (fun _ => at_view (H ∖ live h, fr, b, c, l)).
Proof.
  intros Hh. unfold free, live. destruct (Z.eqb_spec h 0).
  - apply triple_ret. intros s. by rewrite difference_empty_L.
  - eapply triple_bind; [apply use_view; by destruct Hh|]. intros []. cbv beta.
    apply triple_modify. by intros s [= <- <- <- <- <-].
Qed.

Lemma SSL_shutdown_view h H fr b c l :
  h ∈ H \/ h = 0 -> triple (at_view (H, fr, b, c, l)) (SSL_shutdown h) (fun _ => at_view (H, fr, b, c, l)).
Proof.
  intros Hh. unfold SSL_shutdown. destruct (Z.eqb_spec h 0); [by apply triple_ret|].
  apply use_view. by destruct Hh.
Qed.

(** Taking the connection down frees what the globals own and nothing else. *)
Lemma release_view H0 H fr b c l fd :
  H = H0 ∪ live b ∪ live c ∪ live l -> b ∉ H0 -> c ∉ H0 -> l ∉ H0 ->
  (b ≠ 0 -> b ≠ c /\ b ≠ l) -> (c ≠ 0 -> c ≠ l) ->
  triple (at_view (H, fr, b, c, l))
    (SSL_shutdown l;; free l;; close fd;; free b;; free c) (fun _ s => heap s = H0).
Proof.
  intros EH Hb Hc Hl Hbd Hcd.
  assert (forall h, h = b \/ h = c \/ h = l -> h ∈ H \/ h = 0) as Hin.
  { intros h Hh. rewrite EH. unfold live.
    destruct (Z.eqb_spec b 0), (Z.eqb_spec c 0), (Z.eqb_spec l 0); set_solver. }
  eapply triple_bind; [apply SSL_shutdown_view; auto|]. intros []. cbv beta.
  eapply triple_bind; [apply free_view; auto|]. intros []. cbv beta.
  eapply (triple_bind _ _ (fun _ => at_view (H ∖ live l, fr, b, c, l))); [by apply triple_modify|]. intros [].
  eapply triple_bind.
  { apply free_view. destruct (decide (b = 0)); [by right|]. left. destruct (Hin b); [auto| |done].
    unfold live. destruct (Z.eqb_spec l 0); set_solver. }
  intros []. cbv beta.
  eapply triple_conseq; [apply free_view|done|].
  { destruct (decide (c = 0)); [by right|]. left. destruct (Hin c); [auto| |done].
    unfold live. destruct (Z.eqb_spec l 0), (Z.eqb_spec b 0); set_solver. }
  intros [] s [= -> _ _ _ _]. rewrite EH. unfold live.
  destruct (Z.eqb_spec b 0), (Z.eqb_spec c 0), (Z.eqb_spec l 0); set_solver.
Qed.

Lemma mqtt_network_disconnect_owns H0 :
  triple (owns H0) mqtt_network_disconnect (fun _ s => heap s = H0).
Proof.
  intros s (EH & Hb & Hc & Hl & Hbd & Hcd). unfold mqtt_network_disconnect.
  erewrite bind_ret by reflexivity. cbv beta. by eapply release_view.
Qed.

(** What mqtt_network_connect leaves, whatever the calls answer. *)
Definition connected (H0 : gset Z) (rc : Z) (s : tls) : Prop :=
  owns H0 s /\ (rc = 0 \/ rc = 1) /\ (rc = 0 -> ssl s ≠ 0 /\ ctx s ≠ 0).

Lemma connect_socket_view H0 fr b c port :
  is_Some (atoi port) ->
  0 < fr -> (forall h, h ∈ H0 -> 0 < h < fr) -> 0 <= b < fr -> 0 < c < fr ->
  b ∉ H0 -> c ∉ H0 -> b ≠ c ->
  triple (at_view (H0 ∪ live b ∪ live c, fr, b, c, 0)) (connect_socket port) (connected H0).
Proof.
  intros [pn Hport] Hfr HH Hb Hc Hb0 Hc0 Hbc. set (H := H0 ∪ live b ∪ live c).
  assert (c ∈ H) as HcH by (unfold H, live; replace (c =? 0) with false by lia; set_solver).
  assert (forall s, at_view (H, fr, b, c, 0) s -> connected H0 1 s) as Hfail.
  { intros s [= EH Ef Eb Ec El]. split; [|split; [by right|lia]]. unfold owns. rewrite EH, Eb, Ec, El.
    split_and!; try done; try lia; [symmetry; apply union_empty_r_L|intros ?%HH; lia]. }
  assert (forall s, at_view ({[fr]} ∪ H, fr + 1, b, c, fr) s -> forall rc, rc = 0 \/ rc = 1 -> connected H0 rc s) as Hdone.
  { intros s [= EH Ef Eb Ec El] rc Hrc. split; [|split; [done|rewrite El, Ec; lia]].
    unfold owns. rewrite EH, Eb, Ec, El.
    split_and!; try done; try lia; [|intros ?%HH; lia].
    change (live fr) with (if fr =? 0 then ∅ else {[fr]} : gset Z). replace (fr =? 0) with false by lia.
    apply union_comm_L. }
  unfold connect_socket. eapply triple_bind; [apply socket_view|]. intros fd. cbv beta.
  eapply (triple_bind _ _ (fun _ => at_view (H, fr, b, c, 0))); [by apply triple_modify|]. intros [].
  destruct (fd <? 0); [by apply triple_ret|].
  eapply triple_bind; [apply answer_view|]. intros server. cbv beta. destruct (server =? 0); [by apply triple_ret|].
  unfold set_port. rewrite Hport.
  eapply (triple_bind _ _ (fun _ => at_view (H, fr, b, c, 0))); [by apply triple_modify|]. intros [].
  eapply triple_bind; [apply answer_view|]. intros r. cbv beta. destruct (r <? 0); [by apply triple_ret|].
  eapply triple_bind; [apply triple_get|]. intros s0. cbv beta. intros s [-> Hs].
  assert (ctx s = c) as Ec by (by injection Hs). rewrite Ec. revert s Hs Ec. intros s Hs _. revert s Hs.
  eapply triple_bind; [by apply use_view|]. intros []. cbv beta.
  eapply triple_bind; [apply create_view|]. intros h. cbv beta. apply triple_or; apply triple_pure; intros ->.
  - eapply (triple_bind _ _ (fun _ => at_view (H, fr, b, c, 0))); [|intros []; by apply triple_ret].
    apply triple_modify. by intros s [= <- <- <- <- <-].
  - replace (fr =? 0) with false by lia.
    eapply (triple_bind _ _ (fun _ => at_view ({[fr]} ∪ H, fr + 1, b, c, fr))).
    { apply triple_modify. intros s [= EH Ef Eb Ec El]. unfold at_view, view. simpl. by rewrite EH, Ef, Eb, Ec. }
    intros []. eapply triple_bind; [apply use_view; set_solver|]. intros []. cbv beta.
    eapply triple_bind; [apply check_view; set_solver|]. intros ok. cbv beta. destruct ok; cbn [negb].
    2: { apply triple_ret. auto. }
    eapply triple_bind; [apply check_view; set_solver|]. intros ok. cbv beta. destruct ok; cbn [negb];
      apply triple_ret; auto.
Qed.

Definition fresh_above (H : gset Z) (fr : Z) : Prop := 0 < fr /\ forall h, h ∈ H -> 0 < h < fr.

(** The checks of the context, up to the socket. *)
Lemma context_checked H0 fr b port :
  is_Some (atoi port) -> fresh_above H0 fr -> 0 <= b < fr -> b ∉ H0 ->
  triple (at_view ({[fr]} ∪ (H0 ∪ live b), fr + 1, b, fr, 0))
    (ok ← check fr 1;
     if negb ok then mret 1
     else ok ← check fr 1;
       if negb ok then mret 1
       else ok ← check fr 1;
         if negb ok then mret 1
         else ok ← check fr 1;
           if negb ok then mret 1 else check fr 1;; connect_socket port) (connected H0).
Proof.
  intros Hport [Hfr HH] Hb Hb0. set (H := {[fr]} ∪ (H0 ∪ live b)).
  assert (H = H0 ∪ live b ∪ live fr) as EH.
  { unfold H. change (live fr) with (if fr =? 0 then ∅ else {[fr]} : gset Z).
    replace (fr =? 0) with false by lia. apply union_comm_L. }
  assert (fr ∉ H0) as Hfr0 by (intros ?%HH; lia).
  assert (fr ∈ H) as Hin by (unfold H; set_solver).
  assert (triple (at_view (H, fr + 1, b, fr, 0)) (mret 1) (connected H0)) as Hfail.
  { apply triple_ret. intros s [= E1 E2 E3 E4 E5]. split; [|split; [by right|lia]].
    unfold owns. rewrite E1, E3, E4, E5, EH. split_and!; try done; try lia.
    - symmetry; apply union_empty_r_L.
    - intros ?%HH; lia. }
  do 4 (eapply triple_bind; [by apply check_view|]; intros ok; cbv beta; destruct ok; cbn [negb]; [|exact Hfail]).
  eapply triple_bind; [by apply check_view|]. intros ok. cbv beta. rewrite EH.
  apply connect_socket_view; try done; try lia. intros h Hh%HH. lia.
Qed.

Lemma mqtt_network_connect_owns H0 fr b0 c0 port :
  is_Some (atoi port) -> fresh_above H0 fr ->
  triple (at_view (H0, fr, b0, c0, 0)) (mqtt_network_connect port) (connected H0).
Proof.
  intros Hport [Hfr HH]. unfold mqtt_network_connect.
  assert (forall b fr, fresh_above H0 fr -> 0 <= b < fr -> b ∉ H0 -> forall c,
    triple (at_view (H0 ∪ live b, fr, b, c, 0)) (c ← create;
      modify (set_ctx c);;
      if c =? 0 then mret 1
      else ok ← check c 1;
       if negb ok then mret 1
       else ok ← check c 1;
         if negb ok then mret 1
         else ok ← check c 1;
           if negb ok then mret 1
           else ok ← check c 1;
             if negb ok then mret 1 else check c 1;; connect_socket port) (connected H0)) as Hctx.
  { clear -Hport. intros b fr Hfr Hb Hb0 c. eapply triple_bind; [apply create_view|]. intros h. cbv beta.
    apply triple_or; apply triple_pure; intros ->.
    - eapply (triple_bind _ _ (fun _ => at_view (H0 ∪ live b, fr, b, 0, 0))).
      { apply triple_modify. intros s [= E1 E2 E3 E4 E5]. unfold at_view, view. simpl. by rewrite E1, E2, E3, E5. }
      intros []. apply triple_ret. intros s [= E1 E2 E3 E4 E5]. split; [|split; [by right|lia]].
      destruct Hfr as [Hfr HH]. unfold owns. rewrite E1, E3, E4, E5.
      change (live 0) with (∅ : gset Z). rewrite !union_empty_r_L.
      split_and!; try done; try lia; intros ?%HH; lia.
    - eapply (triple_bind _ _ (fun _ => at_view ({[fr]} ∪ (H0 ∪ live b), fr + 1, b, fr, 0))).
      { apply triple_modify. intros s [= E1 E2 E3 E4 E5]. unfold at_view, view. simpl. by rewrite E1, E2, E3, E5. }
      intros []. replace (fr =? 0) with false by (destruct Hfr; lia). by apply context_checked. }
  eapply triple_bind; [apply create_view|]. intros h. cbv beta.
  apply triple_or; apply triple_pure; intros ->.
  - eapply (triple_bind _ _ (fun _ => at_view (H0 ∪ live 0, fr, 0, c0, 0))); [|intros []; apply Hctx; auto with lia].
    + apply triple_modify. intros s [= E1 E2 E3 E4 E5]. unfold at_view, view. simpl.
      change (live 0) with (∅ : gset Z). by rewrite union_empty_r_L, E1, E2, E4, E5.
    + done.
    + intros ?%HH; lia.
  - assert (live fr = {[fr]}) as Efr by (unfold live; by replace (fr =? 0) with false by lia).
    eapply (triple_bind _ _ (fun _ => at_view (H0 ∪ live fr, fr + 1, fr, c0, 0))); [|intros []; apply Hctx].
    + apply triple_modify. intros s [= E1 E2 E3 E4 E5]. unfold at_view, view. simpl.
      by rewrite Efr, E1, E2, E4, E5, (union_comm_L H0).
    + split; [lia|]. intros h Hh%HH. lia.
    + lia.
    + intros ?%HH; lia.
Qed.

(** The first attempt of a process: no global set, nothing allocated. *)
Definition initial (oracle : list Z) : tls := mkTls 0 0 0 0 ∅ {[0; 1; 2]} 1 oracle 0.
End Tls.

(** ** Reading and writing *)

Definition SSL_ERROR_WANT_READ : Z := 2.
Definition SSL_ERROR_WANT_WRITE : Z := 3.

(** The calls the loops make on the connection, over its state [E].  SSL_read
    gives its result and the octets it stored; [select] waits for a descriptor to
    become readable. *)
Class SSL_api (E : Type) : Type := {
  SSL_read : Z -> M E (Z * list Z);
  SSL_write : list Z -> M E Z;
  SSL_get_error : Z -> M E Z;
  select : Z -> timeval -> M E Z
}.

Section loops.
Context {E : Type} `{!SSL_api E}.

(** [err == SSL_ERROR_WANT_READ || err == SSL_ERROR_WANT_WRITE] *)
Definition want (err : Z) : bool := (err =? SSL_ERROR_WANT_READ) || (err =? SSL_ERROR_WANT_WRITE).

Fixpoint mqtt_network_read_loop (fuel : nat) (buffer : ptr) (len total_read : Z) : M (mem * E) Z :=
  match fuel with
  | O => nofuel
  | S fuel =>
      if total_read <? len then
        '(read, bs) ← on_transport (SSL_read (len - total_read));
        on_mem (store_bytes (padd buffer total_read) bs);;
        if read <=? 0 then
          err ← on_transport (SSL_get_error read);
          if want err then mqtt_network_read_loop fuel buffer len total_read
          else mret (-1)
        else
          total_read ← int_result (total_read + read);
          mqtt_network_read_loop fuel buffer len total_read
      else mret total_read
  end.

(** [timeout_ms] is not used. *)
Definition mqtt_network_read (fuel : nat) (buffer : ptr) (len timeout_ms : Z) : M (mem * E) Z :=
  mqtt_network_read_loop fuel buffer len 0.

(** The variant with a timeout, not called. *)
Fixpoint mqtt_network_read__loop (fuel : nat) (n : Tls.Network) (buffer : ptr)
    (len timeout_ms total_read : Z) : M (mem * E) Z :=
  match fuel with
  | O => nofuel
  | S fuel =>
      if total_read <? len then
        let tv := mkTimeval (Z.quot timeout_ms 1000) (Z.rem timeout_ms 1000 * 1000) in
        rc ← on_transport (select (Tls.n_socket n) tv);
        if rc <? 0 then mret (-1)
        else if rc =? 0 then mret 0
        else
          '(read, bs) ← on_transport (SSL_read (len - total_read));
          on_mem (store_bytes (padd buffer total_read) bs);;
          if read <=? 0 then
            err ← on_transport (SSL_get_error read);
            if want err then mqtt_network_read__loop fuel n buffer len timeout_ms total_read
            else mret (-1)
          else
            total_read ← int_result (total_read + read);
            mqtt_network_read__loop fuel n buffer len timeout_ms total_read
      else mret total_read
  end.

Definition mqtt_network_read_ (fuel : nat) (n : Tls.Network) (buffer : ptr) (len timeout_ms : Z) :
    M (mem * E) Z :=
  mqtt_network_read__loop fuel n buffer len timeout_ms 0.

Fixpoint mqtt_network_write_loop (fuel : nat) (buffer : ptr) (len total_written : Z) : M (mem * E) Z :=
  match fuel with
  | O => nofuel
  | S fuel =>
      if total_written <? len then
        bs ← on_mem (load_bytes (padd buffer total_written) (len - total_written));
        written ← on_transport (SSL_write bs);
        if written <=? 0 then
          err ← on_transport (SSL_get_error written);
          if want err then mqtt_network_write_loop fuel buffer len total_written
          else mret (-1)
        else
          total_written ← int_result (total_written + written);
          mqtt_network_write_loop fuel buffer len total_written
      else mret total_written
  end.

Definition mqtt_network_write (fuel : nat) (buffer : ptr) (len timeout_ms : Z) : M (mem * E) Z :=
  mqtt_network_write_loop fuel buffer len 0.
End loops.

(** ** What OpenSSL promises

    SSL_read and SSL_write transfer at least one octet, in order, or fail and
    transfer nothing; the number of times the connection asks for a retry is
    bounded.  A healthy connection fails only to ask for a retry, or when there is
    nothing left to read. *)
Class SSL_laws (E : Type) `{!SSL_api E} : Type := {
  incoming : E -> list Z;
  outgoing : E -> list Z;
  retries : E -> nat;
  healthy : E -> Prop;
  failed : Prop -> Z -> E -> E -> Prop := fun possible r e e1 =>
    r <= 0 /\ incoming e1 = incoming e /\ outgoing e1 = outgoing e /\
    exists err e2, SSL_get_error r e1 = Ret (err, e2) /\ incoming e2 = incoming e /\
      outgoing e2 = outgoing e /\ (retries e2 <= retries e)%nat /\
      (want err = true -> (retries e2 < retries e)%nat) /\
      (healthy e -> possible -> want err = true /\ healthy e2);
  SSL_read_law : forall n e, 0 < n -> exists r bs e1, SSL_read n e = Ret ((r, bs), e1) /\
    ((0 < r <= n /\ r = Z.of_nat (length bs) /\ incoming e = bs ++ incoming e1 /\
      outgoing e1 = outgoing e /\ (retries e1 <= retries e)%nat /\ (healthy e -> healthy e1)) \/
     (bs = [] /\ failed (incoming e ≠ []) r e e1));
  SSL_write_law : forall bs e, bs ≠ [] -> exists r e1, SSL_write bs e = Ret (r, e1) /\
    ((0 < r <= Z.of_nat (length bs) /\ outgoing e1 = outgoing e ++ take (Z.to_nat r) bs /\
      incoming e1 = incoming e /\ (retries e1 <= retries e)%nat /\ (healthy e -> healthy e1)) \/
     failed True r e e1)
}.

(** What the two loops promise their callers: all the octets or -1. *)
Definition read_result {E} `{!SSL_api E} `{!SSL_laws E} (m : mem) (buffer : ptr) (len : Z) (e : E)
    (r : Z) (m' : mem) (e' : E) : Prop :=
  outgoing e' = outgoing e /\ (retries e' <= retries e)%nat /\
  ((r = len /\ exists bs, Z.of_nat (length bs) = len /\ incoming e = bs ++ incoming e' /\
      m' = mwrite m buffer bs) \/
   (r = -1 /\ exists bs, Z.of_nat (length bs) < len /\ m' = mwrite m buffer bs)) /\
  (healthy e -> len <= Z.of_nat (length (incoming e)) -> r = len /\ healthy e').

Definition write_result {E} `{!SSL_api E} `{!SSL_laws E} (bs : list Z) (e : E) (r : Z) (e' : E) : Prop :=
  incoming e' = incoming e /\ (retries e' <= retries e)%nat /\
  ((r = Z.of_nat (length bs) /\ outgoing e' = outgoing e ++ bs) \/
   (r = -1 /\ exists k, outgoing e' = outgoing e ++ take k bs)) /\
  (healthy e -> r = Z.of_nat (length bs) /\ healthy e').

(** ** Lemmas *)

Lemma on_transport_run {T A} (f : M T A) m e a e' :
  f e = Ret (a, e') -> on_transport f (m, e) = Ret (a, (m, e')).
Proof. intros H. unfold on_transport. by rewrite H. Qed.

Lemma on_mem_run {T A} (f : M mem A) m (e : T) a m' :
  f m = Ret (a, m') -> on_mem f (m, e) = Ret (a, (m', e)).
Proof. intros H. unfold on_mem. by rewrite H. Qed.

Section transfers.
Context {E : Type} `{!SSL_api E} `{!SSL_laws E}.

Lemma read_loop_run m buffer len fuel : forall (e : E) acc,
  room m buffer len -> 0 <= len <= INT_MAX -> Z.of_nat (length acc) <= len ->
  (Z.to_nat (len - Z.of_nat (length acc)) + retries e < fuel)%nat ->
  exists r m' e',
    mqtt_network_read_loop fuel buffer len (Z.of_nat (length acc)) (mwrite m buffer acc, e) = Ret (r, (m', e')) /\
    outgoing e' = outgoing e /\ (retries e' <= retries e)%nat /\
    ((r = len /\ exists bs, Z.of_nat (length (acc ++ bs)) = len /\ incoming e = bs ++ incoming e' /\
        m' = mwrite m buffer (acc ++ bs)) \/
     (r = -1 /\ exists bs, Z.of_nat (length bs) < len /\ m' = mwrite m buffer bs)) /\
    (healthy e -> len - Z.of_nat (length acc) <= Z.of_nat (length (incoming e)) -> r = len /\ healthy e').
Proof.
  induction fuel as [|fuel IH]; intros e acc Hr Hlen Hacc Hfuel; [lia|]. cbn [mqtt_network_read_loop].
  destruct (Z.ltb_spec (Z.of_nat (length acc)) len) as [Hlt|Hge].
  2: { exists len, (mwrite m buffer acc), e. split; [unfold mret, M_ret; do 2 f_equal; lia|].
       split; [done|]. split; [done|]. split; [|done]. left. split; [done|]. exists []. rewrite app_nil_r. split_and!; [lia|done|done]. }
  destruct (SSL_read_law (len - Z.of_nat (length acc)) e) as (r & bs & e1 & Er & Hcase); [lia|].
  destruct Hcase as [(Hrr & Erb & Ein & Eout & Ere & Hhe)
    |(-> & Hrr & Ein & Eout & err & e2 & Eerr & Ein2 & Eout2 & Ere & Hpat & Hhe)].
  - destruct (IH e1 (acc ++ bs)) as (r' & m' & e' & E' & Hout & Hre & Hres & Hh);
      [done|done|rewrite length_app; lia|rewrite length_app; lia|].
    exists r', m', e'. split; [|split; [congruence|split; [lia|split]]].
    + erewrite bind_ret by (by apply on_transport_run). cbv iota beta.
      erewrite bind_ret by (apply on_mem_run, store_bytes_after; eapply room_le; [done|lia]).
      replace (r <=? 0) with false by lia.
      erewrite bind_ret by (apply int_result_ok; unfold INT_MIN, INT_MAX in *; lia).
      rewrite length_app, Nat2Z.inj_add, <- Erb in E'. exact E'.
    + destruct Hres as [(-> & bs' & Hl & Hin & ->)|Hres]; [left|by right].
      split; [done|]. exists (bs ++ bs'). rewrite !app_assoc. split; [done|]. split; [|done].
      by rewrite Ein, Hin, app_assoc.
    + intros Hhe1 Hin. apply Hh; [by apply Hhe|]. rewrite Ein, length_app in Hin. rewrite length_app. lia.
  - erewrite bind_ret by (by apply on_transport_run). cbv iota beta.
    erewrite bind_ret by by apply on_mem_run. replace (r <=? 0) with true by lia.
    erewrite bind_ret by (by apply on_transport_run). destruct (want err) eqn:Ew.
    + destruct (IH e2 acc) as (r' & m' & e' & E' & Hout & Hre & Hres & Hh);
        [done|done|done|specialize (Hpat eq_refl); lia|].
      exists r', m', e'. split; [done|]. split; [congruence|]. split; [lia|]. split.
      * destruct Hres as [(-> & bs' & Hl & Hin & ->)|Hres]; [left|by right].
        split; [done|]. exists bs'. split_and!; [done|congruence|done].
      * intros Hhe1 Hin. apply Hh; [|by rewrite Ein2]. apply Hhe; [done|].
        intros Hnil. rewrite Hnil in Hin. simpl in Hin. lia.
    + exists (-1), (mwrite m buffer acc), e2. split; [done|]. split; [done|]. split; [done|]. split; [right; eauto|].
      intros Hhe1 Hin. destruct Hhe as [[=] _]; [done|]. intros Hnil. rewrite Hnil in Hin. simpl in Hin. lia.
Qed.

Lemma write_loop_run m buffer (bs : list Z) fuel : forall (e : E) (sent : nat),
  bytes_at m buffer bs -> Z.of_nat (length bs) <= INT_MAX -> (sent <= length bs)%nat ->
  (length bs - sent + retries e < fuel)%nat ->
  exists r e',
    mqtt_network_write_loop fuel buffer (Z.of_nat (length bs)) (Z.of_nat sent) (m, e) = Ret (r, (m, e')) /\
    incoming e' = incoming e /\ (retries e' <= retries e)%nat /\
    ((r = Z.of_nat (length bs) /\ outgoing e' = outgoing e ++ drop sent bs) \/
     (r = -1 /\ exists k, outgoing e' = outgoing e ++ take k (drop sent bs))) /\
    (healthy e -> r = Z.of_nat (length bs) /\ healthy e').
Proof.
  induction fuel as [|fuel IH]; intros e sent Hb Hlen Hs Hfuel; [lia|]. cbn [mqtt_network_write_loop].
  set (len := Z.of_nat (length bs)) in *.
  destruct (decide (sent < length bs)%nat) as [Hlt|Hge].
  2: { exists len, e. replace (_ <? len) with false by lia.
       split; [unfold mret, M_ret; do 2 f_equal; lia|]. split; [done|]. split; [done|]. split; [|done].
       left. split; [done|]. by rewrite drop_ge, app_nil_r by lia. }
  assert (load_bytes (padd buffer (Z.of_nat sent)) (len - Z.of_nat sent) m = Ret (drop sent bs, m)) as Eload.
  { replace (len - Z.of_nat sent) with (Z.of_nat (length (drop sent bs))) by (rewrite length_drop; lia).
    apply load_bytes_at. right. rewrite <- (take_drop sent bs) in Hb. apply bytes_at_app in Hb as [_ Hb].
    by rewrite length_take, Nat.min_l in Hb by lia. }
  destruct (SSL_write_law (drop sent bs) e) as (r & e1 & Er & Hcase).
  { intros Hd%(f_equal length). rewrite length_drop in Hd. simpl in Hd. lia. }
  rewrite length_drop in Hcase. replace (Z.of_nat sent <? len) with true by lia.
  erewrite bind_ret by by apply on_mem_run. erewrite bind_ret by (by apply on_transport_run).
  destruct Hcase as [(Hrr & Eout & Ein & Ere & Hhe)
    |(Hrr & Ein & Eout & err & e2 & Eerr & Ein2 & Eout2 & Ere & Hpat & Hhe)].
  - destruct (IH e1 (sent + Z.to_nat r)%nat) as (r' & e' & E' & Hin & Hre & Hres & Hh); [done|done|lia|lia|].
    exists r', e'. split; [|split; [congruence|split; [lia|split; [|auto]]]].
    + replace (r <=? 0) with false by lia.
      erewrite bind_ret by (apply int_result_ok; unfold INT_MIN, INT_MAX in *; lia).
      by replace (Z.of_nat sent + r) with (Z.of_nat (sent + Z.to_nat r)) by lia.
    + rewrite <- drop_drop in Hres. destruct Hres as [[-> Ho]|[-> [k Ho]]]; [left|right]; (split; [done|]).
      * by rewrite Ho, Eout, <- app_assoc, take_drop.
      * exists (Z.to_nat r + k)%nat. by rewrite Ho, Eout, <- app_assoc, take_take_drop.
  - replace (r <=? 0) with true by lia. erewrite bind_ret by (by apply on_transport_run).
    destruct (want err) eqn:Ew.
    + destruct (IH e2 sent) as (r' & e' & E' & Hin & Hre & Hres & Hh);
        [done|done|done|specialize (Hpat eq_refl); lia|].
      exists r', e'. split; [done|]. split; [congruence|]. split; [lia|]. rewrite Eout2 in Hres.
      split; [done|]. intros Hhe1. apply Hh. by apply Hhe.
    + exists (-1), e2. split; [done|]. split; [done|]. split; [done|]. split.
      * right. split; [done|]. exists 0%nat. by rewrite take_0, app_nil_r.
      * intros Hhe1. by destruct (Hhe Hhe1 I).
Qed.

(** One more than the octets and the retries is enough fuel. *)
Lemma mqtt_network_read_run m buffer len timeout_ms (e : E) fuel :
  room m buffer len -> 0 <= len <= INT_MAX -> (Z.to_nat len + retries e < fuel)%nat ->
  exists r m' e', mqtt_network_read fuel buffer len timeout_ms (m, e) = Ret (r, (m', e')) /\
    read_result m buffer len e r m' e'.
Proof.
  intros Hr Hlen Hfuel. destruct (read_loop_run m buffer len fuel e []) as (r & m' & e' & E' & Hout & Hre & Hres & Hh);
    [done|done|simpl; lia|simpl; lia|].
  exists r, m', e'. split; [rewrite mwrite_nil in E'; exact E'|]. split_and!; try done.
  intros Hhe Hin. apply Hh; [done|]. simpl. lia.
Qed.

Lemma mqtt_network_write_run m buffer bs timeout_ms (e : E) fuel :
  bytes_at m buffer bs -> Z.of_nat (length bs) <= INT_MAX -> (length bs + retries e < fuel)%nat ->
  exists r e', mqtt_network_write fuel buffer (Z.of_nat (length bs)) timeout_ms (m, e) = Ret (r, (m, e')) /\
    write_result bs e r e'.
Proof.
  intros Hb Hlen Hfuel. destruct (write_loop_run m buffer bs fuel e 0) as (r & e' & E' & Hin & Hre & Hres);
    [done|done|lia|lia|].
  exists r, e'. split; [done|]. by rewrite drop_0 in Hres.
Qed.
End transfers.

(** *** A connection with a script

    Each call takes the next entry: [k > 0] transfers at most [k] octets, 0 asks
    for a retry, a negative entry fails; without entries every call transfers all
    it can. *)
Record wire : Type := mkWire {
  w_in : list Z;
  w_out : list Z;
  w_script : list Z;
  w_error : Z
}.

Definition w_entry (n : Z) (e : wire) : Z :=
  match w_script e with [] => n | k :: _ => Z.min k n end.

Definition w_fail (k : Z) (e : wire) : wire :=
  mkWire (w_in e) (w_out e) (tail (w_script e)) (if k =? 0 then SSL_ERROR_WANT_READ else 1).

#[export] Instance wire_api : SSL_api wire := {|
  SSL_read n := fun e =>
    let k := w_entry n e in
    let c := Nat.min (Z.to_nat k) (length (w_in e)) in
    if (0 <? k) && negb (bool_decide (w_in e = []))
    then Ret ((Z.of_nat c, take c (w_in e)), mkWire (drop c (w_in e)) (w_out e) (tail (w_script e)) 0)
    else Ret ((-1, []), w_fail k e);
  SSL_write bs := fun e =>
    let k := w_entry (Z.of_nat (length bs)) e in
    if 0 <? k
    then Ret (k, mkWire (w_in e) (w_out e ++ take (Z.to_nat k) bs) (tail (w_script e)) 0)
    else Ret (-1, w_fail k e);
  SSL_get_error r := fun e => Ret (w_error e, e);
  select fd tv := fun e => Ret (1, e)
|}.

#[export] Instance wire_laws : SSL_laws wire.
Proof.
  assert (forall n e, 0 < n -> w_entry n e <= 0 -> w_entry n e = 0 ->
    (length (tail (w_script e)) < length (w_script e))%nat) as Hpop.
  { intros n e Hn _. unfold w_entry. destruct (w_script e) as [|k s]; simpl; lia. }
  assert (forall e, length (tail (w_script e)) <= length (w_script e))%nat as Htail.
  { intros e. destruct (w_script e); simpl; lia. }
  assert (forall e, Forall (fun k => 0 <= k) (w_script e) -> Forall (fun k => 0 <= k) (tail (w_script e))) as Hpos.
  { intros e He. destruct (w_script e); [done|]. by apply Forall_cons in He as [_ ?]. }
  assert (forall n e, Forall (fun k => 0 <= k) (w_script e) -> 0 <= n -> 0 <= w_entry n e) as Hnn.
  { intros n e He Hn. unfold w_entry. destruct (w_script e) as [|k s]; [done|]. apply Forall_cons in He as [? _]. lia. }
  refine {| incoming := w_in; outgoing := w_out; retries := fun e => length (w_script e);
    healthy := fun e => Forall (fun k => 0 <= k) (w_script e) |}.
  - intros n e Hn. cbn [SSL_read wire_api]. set (k := w_entry n e).
    assert (k <= n) as Hk by (unfold k, w_entry; destruct (w_script e); lia).
    destruct (Z.ltb_spec 0 k) as [Hk0|Hk0]; [destruct (bool_decide_reflect (w_in e = [])) as [Hi|Hi]|]; cbn [negb andb].
    + eexists _, _, _. split; [reflexivity|]. right. split; [done|]. split; [lia|]. split_and!; [done|done|].
      eexists _, _. split; [reflexivity|]. cbn. replace (k =? 0) with false by lia.
      split_and!; [done|done|apply Htail|done|done].
    + eexists _, _, _. split; [reflexivity|]. left. cbn.
      assert (length (w_in e) ≠ 0%nat) by (by destruct (w_in e)).
      rewrite length_take. split_and!; [lia|lia|lia|by rewrite take_drop|done|apply Htail|apply Hpos].
    + eexists _, _, _. split; [reflexivity|]. right. split; [done|]. split; [lia|]. split_and!; [done|done|].
      eexists _, _. split; [reflexivity|]. cbn. split_and!; [done|done|apply Htail| |].
      * intros Hw. apply (Hpop n); [done|done|]. fold k. destruct (Z.eqb_spec k 0); [done|discriminate].
      * intros Hs _. split; [|by apply Hpos]. by replace (k =? 0) with true by (pose proof (Hnn n e Hs); lia).
  - intros bs e Hbs. cbn [SSL_write wire_api].
    assert (length bs ≠ 0%nat) by (by destruct bs). set (n := Z.of_nat (length bs)). set (k := w_entry n e).
    assert (k <= n) as Hk by (unfold k, w_entry; destruct (w_script e); lia).
    destruct (Z.ltb_spec 0 k) as [Hk0|Hk0].
    + eexists _, _. split; [reflexivity|]. left. split; [lia|]. split_and!; [done|done|apply Htail|apply Hpos].
    + eexists _, _. split; [reflexivity|]. right. split; [lia|]. split_and!; [done|done|].
      eexists _, _. split; [reflexivity|]. cbn. split_and!; [done|done|apply Htail| |].
      * intros Hw. apply (Hpop n); [lia|done|]. fold k. destruct (Z.eqb_spec k 0); [done|discriminate].
      * intros Hs _. split; [|by apply Hpos]. by replace (k =? 0) with true by (pose proof (Hnn n e Hs); lia).
Defined.

(** ** Properties *)



(** C18: mqtt_network_write ends, having sent all the octets, in order and once, with
    their number as its result, or some of the first ones and -1. *)
Theorem mqtt_network_write_all {E} `{!SSL_api E} `{!SSL_laws E} m buffer bs timeout_ms (e : E) fuel :
  bytes_at m buffer bs -> Z.of_nat (length bs) <= INT_MAX -> (length bs + retries e < fuel)%nat ->
  exists r e', mqtt_network_write fuel buffer (Z.of_nat (length bs)) timeout_ms (m, e) = Ret (r, (m, e')) /\
    write_result bs e r e'.
Proof. apply mqtt_network_write_run. Qed.

Lemma mqtt_network_write_all_witness :
  let m : mem := {[1%positive := [192; 0]]} in
  let e := mkWire [] [9] [0; 1; 0] 0 in
  exists r e', mqtt_network_write 6 (Ptr 1 0) 2 1000 (m, e) = Ret (r, (m, e')) /\
    write_result [192; 0] e r e'.
Proof.
  intros m e. apply (mqtt_network_write_all m (Ptr 1 0) [192; 0] 1000 e 6).
  - exists []. reflexivity.
  - vm_compute. discriminate.
  - vm_compute. lia.
Defined.

(** C19: a first connection is set up and taken down cleanly whatever OpenSSL and the
    system answer: mqtt_network_connect returns 0, with a context and a connection, or 1,
    without touching a freed object, and mqtt_network_disconnect after it, also after a
    failure, frees exactly what was allocated, each object once. *)
Theorem connect_disconnect_balanced s port :
  is_Some (atoi port) -> Tls.ssl s = 0 -> Tls.fresh_above (Tls.heap s) (Tls.fresh s) ->
  exists rc s1 s2,
    Tls.mqtt_network_connect port s = Ret (rc, s1) /\ (rc = 0 \/ rc = 1) /\
    (rc = 0 -> Tls.ssl s1 ≠ 0 /\ Tls.ctx s1 ≠ 0) /\
    Tls.mqtt_network_disconnect s1 = Ret (tt, s2) /\ Tls.heap s2 = Tls.heap s.
Proof.
  intros Hp Hssl Hf.
  destruct (Tls.mqtt_network_connect_owns (Tls.heap s) (Tls.fresh s) (Tls.bio_err s) (Tls.ctx s) port Hp Hf s)
    as (rc & s1 & E1 & Hown & Hrc & Hok); [unfold Tls.at_view, Tls.view; by rewrite Hssl|].
  destruct (Tls.mqtt_network_disconnect_owns _ s1 Hown) as ([] & s2 & E2 & Hh).
  exists rc, s1, s2. done.
Qed.

Lemma connect_disconnect_balanced_witness :
  exists rc s1 s2,
    Tls.mqtt_network_connect (str "8883") (Tls.initial [1; 1; 1; 1; 1; 1; 0; 3; 1; 0; 1; 1; 0]) = Ret (rc, s1) /\
    (rc = 0 \/ rc = 1) /\ (rc = 0 -> Tls.ssl s1 ≠ 0 /\ Tls.ctx s1 ≠ 0) /\
    Tls.mqtt_network_disconnect s1 = Ret (tt, s2) /\ Tls.heap s2 = ∅.
Proof.
  apply (connect_disconnect_balanced (Tls.initial [1; 1; 1; 1; 1; 1; 0; 3; 1; 0; 1; 1; 0]) (str "8883")).
  - eexists. reflexivity.
  - reflexivity.
  - split; [reflexivity|]. intros h Hh. apply not_elem_of_empty in Hh. destruct Hh.
Defined.

(** ** Where the code departs from its contract *)

(** mqtt_network_disconnect leaves the globals as they are.  A retry that fails before
    SSL_new uses the freed connection of the attempt before: here the handshake fails
    first, then the name is not resolved. *)
Lemma reconnect_use_after_free :
  (Tls.mqtt_network_connect (str "8883");; Tls.mqtt_network_disconnect;;
   Tls.mqtt_network_connect (str "8883");; Tls.mqtt_network_disconnect)
  (Tls.initial [1; 1; 1; 1; 1; 1; 1; 3; 1; 0; 1; 0;
                1; 1; 1; 1; 1; 1; 1; 3; 0]) = UB.
Proof. vm_compute. reflexivity. Qed.

(** A first attempt that fails before the socket closes descriptor 0. *)
Lemma early_failure_closes_stdin :
  exists s, (Tls.mqtt_network_connect (str "8883");; Tls.mqtt_network_disconnect) (Tls.initial [1; 1; 0]) = Ret (tt, s) /\
    0 ∉ Tls.fds s.
Proof. eexists. split; [vm_compute; reflexivity|]. apply (bool_decide_unpack _). vm_compute. exact I. Qed.
