(* ===== verification/Client.v ===== *)
(** * The MQTT client

    src/mqtt/MQTTClient.c: the client object, the packet reader and sender, the
    dispatch of incoming packets and the operations of the API.

    The network and the clock are behind the class [Platform], which stands for
    the function pointers of [Network] and gettimeofday; message handlers are
    function pointers, numbers whose code is [call_handler] (0 is NULL).  The
    file is compiled without MQTT_TASK: there is no mutex. *)

From S2P Require Import Prelude Memory Wire Packet Publish Connect Subscribe Topic Timer.

Definition MAX_PACKET_ID : Z := 65535.
Definition MAX_MESSAGE_HANDLERS : nat := 5.

(** [enum QoS], [enum returnCode] *)
Definition QOS0 : Z := 0.
Definition QOS1 : Z := 1.
Definition QOS2 : Z := 2.
Definition SUBFAIL : Z := 128.
Definition BUFFER_OVERFLOW : Z := -2.
Definition FAILURE : Z := -1.
Definition MQTT_SUCCESS : Z := 0.

Record MQTTMessage : Type := mkMessage {
  msg_qos : Z;
  msg_retained : Z;
  msg_dup : Z;
  msg_id : Z;
  msg_payload : ptr;
  msg_payloadlen : Z
}.

Record MessageHandlers : Type := mkHandlers { topicFilter : ptr; fp : Z }.

Record MQTTClient : Type := mkClient {
  next_packetid : Z;
  command_timeout_ms : Z;
  buf_size : Z;
  readbuf_size : Z;
  buf : ptr;
  readbuf : ptr;
  c_keepAliveInterval : Z;
  ping_outstanding : Z;
  isconnected : Z;
  c_cleansession : Z;
  messageHandlers : list MessageHandlers;
  defaultMessageHandler : Z;
  last_sent : Timer;
  last_received : Timer
}.

(** Assignments to the fields. *)
Definition set_next_packetid (v : Z) (c : MQTTClient) : MQTTClient :=
  mkClient v (command_timeout_ms c) (buf_size c) (readbuf_size c) (buf c) (readbuf c) (c_keepAliveInterval c)
    (ping_outstanding c) (isconnected c) (c_cleansession c) (messageHandlers c) (defaultMessageHandler c)
    (last_sent c) (last_received c).

Definition set_session_options (keepalive clean : Z) (c : MQTTClient) : MQTTClient :=
  mkClient (next_packetid c) (command_timeout_ms c) (buf_size c) (readbuf_size c) (buf c) (readbuf c) keepalive
    (ping_outstanding c) (isconnected c) clean (messageHandlers c) (defaultMessageHandler c)
    (last_sent c) (last_received c).

Definition set_ping_outstanding (v : Z) (c : MQTTClient) : MQTTClient :=
  mkClient (next_packetid c) (command_timeout_ms c) (buf_size c) (readbuf_size c) (buf c) (readbuf c)
    (c_keepAliveInterval c) v (isconnected c) (c_cleansession c) (messageHandlers c) (defaultMessageHandler c)
    (last_sent c) (last_received c).

Definition set_isconnected (v : Z) (c : MQTTClient) : MQTTClient :=
  mkClient (next_packetid c) (command_timeout_ms c) (buf_size c) (readbuf_size c) (buf c) (readbuf c)
    (c_keepAliveInterval c) (ping_outstanding c) v (c_cleansession c) (messageHandlers c)
    (defaultMessageHandler c) (last_sent c) (last_received c).

Definition set_messageHandlers (v : list MessageHandlers) (c : MQTTClient) : MQTTClient :=
  mkClient (next_packetid c) (command_timeout_ms c) (buf_size c) (readbuf_size c) (buf c) (readbuf c)
    (c_keepAliveInterval c) (ping_outstanding c) (isconnected c) (c_cleansession c) v
    (defaultMessageHandler c) (last_sent c) (last_received c).

Definition set_last_sent (v : Timer) (c : MQTTClient) : MQTTClient :=
  mkClient (next_packetid c) (command_timeout_ms c) (buf_size c) (readbuf_size c) (buf c) (readbuf c)
    (c_keepAliveInterval c) (ping_outstanding c) (isconnected c) (c_cleansession c) (messageHandlers c)
    (defaultMessageHandler c) v (last_received c).

Definition set_last_received (v : Timer) (c : MQTTClient) : MQTTClient :=
  mkClient (next_packetid c) (command_timeout_ms c) (buf_size c) (readbuf_size c) (buf c) (readbuf c)
    (c_keepAliveInterval c) (ping_outstanding c) (isconnected c) (c_cleansession c) (messageHandlers c)
    (defaultMessageHandler c) (last_sent c) v.

(** [MQTTClientInit]; what it does not assign, the keep-alive interval and the
    handlers' functions, it leaves as it was. *)
Definition MQTTClientInit (c : MQTTClient) (timeout_ms : Z) (sendbuf : ptr) (sendbuf_size : Z)
    (readbuf : ptr) (readbuf_size : Z) : MQTTClient :=
  mkClient 1 timeout_ms sendbuf_size readbuf_size sendbuf readbuf (c_keepAliveInterval c) 0 0 0
    (map (fun h => mkHandlers NULL (fp h)) (messageHandlers c)) 0 TimerInit TimerInit.

(** [MQTTIsConnected] *)
Definition MQTTIsConnected (c : MQTTClient) : Z := isconnected c.

(** What the platform supplies, over its state [N]. *)
Class Platform (N : Type) : Type := {
  mqttread : ptr -> Z -> Z -> M (mem * N) Z;
  mqttwrite : ptr -> Z -> Z -> M (mem * N) Z;
  gettimeofday : M N timeval;
  call_handler : Z -> MQTTString -> MQTTMessage -> M (mem * N) unit
}.

(** The client object, the memory and the platform. *)
Definition world (N : Type) : Type := MQTTClient * (mem * N).

Section client.
Context {N : Type} `{!Platform N}.

Definition client : M (world N) MQTTClient := fun '(c, s) => Ret (c, (c, s)).
Definition update (f : MQTTClient -> MQTTClient) : M (world N) unit := fun '(c, s) => Ret (tt, (f c, s)).

Definition io {A} (f : M (mem * N) A) : M (world N) A := fun '(c, s) =>
  match f s with
  | Ret (a, s) => Ret (a, (c, s))
  | UB => UB
  | NoFuel => NoFuel
  end.

Definition memory {A} (f : M mem A) : M (world N) A := io (on_mem f).
Definition now : M (world N) timeval := io (on_transport gettimeofday).

(** The timer functions with their reading of the clock. *)
Definition timer_expired (timer : Timer) : M (world N) bool := t ← now; mret (TimerIsExpired timer t).
Definition timer_left (timer : Timer) : M (world N) Z := t ← now; mret (TimerLeftMS timer t).
Definition countdown_ms (ms : Z) : M (world N) Timer := t ← now; mret (TimerCountdownMS (to_uint ms) t).
Definition countdown (s : Z) : M (world N) Timer := t ← now; mret (TimerCountdown (to_uint s) t).

(** The address of [unsigned char i] in decodePacket, the number of passes the
    loops that wait for the network are followed for, and the value an integer
    variable has that was not assigned. *)
Context (local_i : ptr) (passes : nat) (garbage : Z).

Definition getNextPacketId : M (world N) Z :=
  c ← client;
  let id := if next_packetid c =? MAX_PACKET_ID then 1 else to_uint (next_packetid c + 1) in
  update (set_next_packetid id);;
  mret (to_int id).

(** The loop of sendPacket; its result is [sent]. *)
Fixpoint send_loop (fuel : nat) (sent length : Z) (timer : Timer) : M (world N) Z :=
  match fuel with
  | O => nofuel
  | S fuel =>
      expired ← (if sent <? length then timer_expired timer else mret true);
      if (expired : bool) then mret sent
      else
        c ← client;
        left ← timer_left timer;
        rc ← io (mqttwrite (padd (buf c) sent) length left);
        if rc <? 0 then mret sent
        else
          sent ← int_result (sent + rc);
          send_loop fuel sent length timer
  end.

Definition sendPacket (length : Z) (timer : Timer) : M (world N) Z :=
  sent ← send_loop passes 0 length timer;
  if sent =? length then
    c ← client;
    t ← countdown (c_keepAliveInterval c);
    update (set_last_sent t);;
    mret MQTT_SUCCESS
  else mret FAILURE.

Fixpoint decodePacket_loop (fuel : nat) (multiplier len value timeout : Z) : M (world N) (Z * Z) :=
  match fuel with
  | O => nofuel
  | S fuel =>
      let len := len + 1 in
      if MAX_NO_OF_REMAINING_LENGTH_BYTES <? len then mret (len, value)
      else
        rc ← io (mqttread local_i 1 timeout);
        if negb (rc =? 1) then mret (len, value)
        else
          i ← memory (load local_i);
          value ← int_result (value + Z.land i 127 * multiplier);
          multiplier ← int_result (multiplier * 128);
          if negb (Z.land i 128 =? 0) then decodePacket_loop fuel multiplier len value timeout
          else mret (len, value)
  end.

(** The result and [*value]. *)
Definition decodePacket (timeout : Z) : M (world N) (Z * Z) := decodePacket_loop 5 1 0 0 timeout.

Definition readPacket (timer : Timer) : M (world N) Z :=
  c ← client;
  left ← timer_left timer;
  rc ← io (mqttread (readbuf c) 1 left);
  if negb (rc =? 1) then mret rc
  else
    left ← timer_left timer;
    '(_, rem_len) ← decodePacket left;
    n ← memory (MQTTPacket_encode (padd (readbuf c) 1) rem_len);
    let len := 1 + n in
    if to_size (readbuf_size c - len) <? to_size rem_len then mret BUFFER_OVERFLOW
    else
      short ← (if 0 <? rem_len then
                 left ← timer_left timer;
                 r ← io (mqttread (padd (readbuf c) len) rem_len left);
                 mret (negb (r =? rem_len))
               else mret false);
      if (short : bool) then mret 0
      else
        h ← memory (load (readbuf c));
        (if 0 <? c_keepAliveInterval c
         then t ← countdown (c_keepAliveInterval c); update (set_last_received t)
         else mret tt);;
        mret (MQTTHeader.type h).

(** The test of the loop of deliverMessage. *)
Definition handler_matches (h : MessageHandlers) (topicName : MQTTString) : M mem bool :=
  if is_null (topicFilter h) then mret false
  else
    e ← MQTTPacket_equals topicName (topicFilter h);
    if truthy e then mret true
    else r ← isTopicMatched (topicFilter h) topicName; mret (truthy r).

Fixpoint deliver_loop (hs : list MessageHandlers) (topicName : MQTTString) (message : MQTTMessage) (rc : Z) :
    M (world N) Z :=
  match hs with
  | [] => mret rc
  | h :: hs =>
      matched ← memory (handler_matches h topicName);
      rc ← (if matched && truthy (fp h)
            then io (call_handler (fp h) topicName message);; mret MQTT_SUCCESS
            else mret rc);
      deliver_loop hs topicName message rc
  end.

Definition deliverMessage (topicName : MQTTString) (message : MQTTMessage) : M (world N) Z :=
  c ← client;
  rc ← deliver_loop (messageHandlers c) topicName message FAILURE;
  if (rc =? FAILURE) && truthy (defaultMessageHandler c)
  then io (call_handler (defaultMessageHandler c) topicName message);; mret MQTT_SUCCESS
  else mret rc.

Definition keepalive : M (world N) Z :=
  c ← client;
  if c_keepAliveInterval c =? 0 then mret MQTT_SUCCESS
  else
    sent ← timer_expired (last_sent c);
    expired ← (if (sent : bool) then mret true else timer_expired (last_received c));
    if (expired : bool) then
      if truthy (ping_outstanding c) then mret FAILURE
      else
        timer ← countdown_ms 1000;
        len ← memory (MQTTSerialize_pingreq (buf c) (to_int (buf_size c)));
        if 0 <? len then
          rc ← sendPacket len timer;
          if rc =? MQTT_SUCCESS then update (set_ping_outstanding 1);; mret rc else mret rc
        else mret MQTT_SUCCESS
    else mret MQTT_SUCCESS.

Definition MQTTCleanSession : M (world N) unit :=
  update (fun c => set_messageHandlers (map (fun h => mkHandlers NULL (fp h)) (messageHandlers c)) c).

Definition MQTTCloseSession : M (world N) unit :=
  update (set_ping_outstanding 0);;
  update (set_isconnected 0);;
  c ← client;
  if truthy (c_cleansession c) then MQTTCleanSession else mret tt.

(** A case of the switch of cycle: go on to the keep-alive, or [goto exit]. *)
Inductive flow : Type :=
| Continue (rc : Z)
| Exit (rc : Z).

(** [case PUBLISH]; the payload length is an [int] stored into the low half of a
    [size_t] that was 0, and what MQTTDeserialize_publish leaves alone is
    indeterminate. *)
Definition cycle_publish (timer : Timer) : M (world N) flow :=
  c ← client;
  let out := mkPublishOut garbage garbage garbage garbage (mkMQTTString Indet (mkLenString garbage Indet)) Indet 0 in
  '(r, out) ← memory (MQTTDeserialize_publish out (readbuf c) (to_int (readbuf_size c)));
  if negb (r =? 1) then mret (Exit MQTT_SUCCESS)
  else
    let msg := mkMessage (po_qos out) (po_retained out) (po_dup out) (po_packetid out) (po_payload out)
                 (to_uint (po_payloadlen out)) in
    deliverMessage (po_topicName out) msg;;
    if negb (msg_qos msg =? QOS0) then
      len ← (if msg_qos msg =? QOS1
             then memory (MQTTSerialize_ack (buf c) (to_int (buf_size c)) PUBACK 0 (msg_id msg))
             else if msg_qos msg =? QOS2
             then memory (MQTTSerialize_ack (buf c) (to_int (buf_size c)) PUBREC 0 (msg_id msg))
             else mret 0);
      rc ← (if len <=? 0 then mret FAILURE else sendPacket len timer);
      mret (if rc =? FAILURE then Exit rc else Continue rc)
    else mret (Continue MQTT_SUCCESS).

(** [case PUBREC] and [case PUBREL] *)
Definition cycle_pubrec (packet_type : Z) (timer : Timer) : M (world N) flow :=
  c ← client;
  '(r, out) ← memory (MQTTDeserialize_ack (mkAckOut garbage garbage garbage) (readbuf c) (to_int (readbuf_size c)));
  rc ← (if negb (r =? 1) then mret FAILURE
        else
          len ← memory (MQTTSerialize_ack (buf c) (to_int (buf_size c))
                          (if packet_type =? PUBREC then PUBREL else PUBCOMP) 0 (ao_packetid out));
          if len <=? 0 then mret FAILURE
          else
            rc ← sendPacket len timer;
            if negb (rc =? MQTT_SUCCESS) then mret FAILURE else mret rc);
  mret (if rc =? FAILURE then Exit rc else Continue rc).

(** The switch of cycle. *)
Definition cycle_switch (packet_type : Z) (timer : Timer) : M (world N) flow :=
  if (packet_type =? 0) || (packet_type =? CONNACK) || (packet_type =? PUBACK) ||
     (packet_type =? SUBACK) || (packet_type =? UNSUBACK) then mret (Continue MQTT_SUCCESS)
  else if packet_type =? PUBLISH then cycle_publish timer
  else if (packet_type =? PUBREC) || (packet_type =? PUBREL) then cycle_pubrec packet_type timer
  else if packet_type =? PUBCOMP then mret (Continue MQTT_SUCCESS)
  else if packet_type =? PINGRESP then update (set_ping_outstanding 0);; mret (Continue MQTT_SUCCESS)
  else mret (Exit packet_type).

Definition cycle (timer : Timer) : M (world N) Z :=
  packet_type ← readPacket timer;
  f ← cycle_switch packet_type timer;
  rc ← match f with
       | Continue rc => k ← keepalive; mret (if negb (k =? MQTT_SUCCESS) then FAILURE else rc)
       | Exit rc => mret rc
       end;
  if rc =? MQTT_SUCCESS then mret packet_type
  else
    c ← client;
    (if truthy (isconnected c) then MQTTCloseSession else mret tt);;
    mret rc.

Fixpoint yield_loop (fuel : nat) (timer : Timer) : M (world N) Z :=
  match fuel with
  | O => nofuel
  | S fuel =>
      r ← cycle timer;
      if r <? 0 then mret FAILURE
      else
        expired ← timer_expired timer;
        if (expired : bool) then mret MQTT_SUCCESS else yield_loop fuel timer
  end.

Definition MQTTYield (timeout_ms : Z) : M (world N) Z :=
  timer ← countdown_ms timeout_ms;
  yield_loop passes timer.

(** [n] passes of the endless loop of MQTTRun. *)
Fixpoint MQTTRun (n : nat) : M (world N) unit :=
  match n with
  | O => mret tt
  | S n => timer ← countdown_ms 500; cycle timer;; MQTTRun n
  end.

Fixpoint waitfor_loop (fuel : nat) (packet_type : Z) (timer : Timer) (rc : Z) : M (world N) Z :=
  match fuel with
  | O => nofuel
  | S fuel =>
      expired ← timer_expired timer;
      if (expired : bool) then mret rc
      else
        rc ← cycle timer;
        if negb (rc =? packet_type) && (0 <=? rc) then waitfor_loop fuel packet_type timer rc else mret rc
  end.

Definition waitfor (packet_type : Z) (timer : Timer) : M (world N) Z :=
  waitfor_loop passes packet_type timer FAILURE.

Record MQTTConnackData : Type := mkConnackData { cd_rc : Z; cd_sessionPresent : Z }.

(** From the connect packet on: the result and [*data]. *)
Definition connect_exchange (options : MQTTPacket_connectData) (data : MQTTConnackData) (timer : Timer) :
    M (world N) (Z * MQTTConnackData) :=
  c ← client;
  len ← memory (MQTTSerialize_connect (buf c) (to_int (buf_size c)) options);
  if len <=? 0 then mret (FAILURE, data)
  else
    rc ← sendPacket len timer;
    if negb (rc =? MQTT_SUCCESS) then mret (rc, data)
    else
      got ← waitfor CONNACK timer;
      if got =? CONNACK then
        '(r, out) ← memory (MQTTDeserialize_connack (mkConnackOut 0 0) (readbuf c) (to_int (readbuf_size c)));
        let data := mkConnackData (co_connack_rc out) (co_sessionPresent out) in
        mret (if r =? 1 then cd_rc data else FAILURE, data)
      else mret (FAILURE, data).

Definition MQTTConnectWithResults (options : option MQTTPacket_connectData) (data : MQTTConnackData) :
    M (world N) (Z * MQTTConnackData) :=
  c ← client;
  '(rc, data) ←
    (if truthy (isconnected c) then mret (FAILURE, data)
     else
       timer ← countdown_ms (command_timeout_ms c);
       let options := default MQTTPacket_connectData_initializer options in
       update (set_session_options (to_uint (keepAliveInterval options)) (cleansession options));;
       t ← countdown (keepAliveInterval options);
       update (set_last_received t);;
       connect_exchange options data timer);
  (if rc =? MQTT_SUCCESS
   then update (set_isconnected 1);; update (set_ping_outstanding 0)
   else mret tt);;
  mret (rc, data).

Definition MQTTConnect (options : option MQTTPacket_connectData) : M (world N) Z :=
  '(rc, _) ← MQTTConnectWithResults options (mkConnackData garbage garbage);
  mret rc.

(** The first loop of MQTTSetMessageHandler: the index of the slot with the
    filter, if there is one. *)
Fixpoint find_filter (hs : list MessageHandlers) (i : nat) (filter : ptr) : M mem (option nat) :=
  match hs with
  | [] => mret None
  | h :: hs =>
      if is_null (topicFilter h) then find_filter hs (S i) filter
      else
        r ← strcmp (topicFilter h) filter;
        if r =? 0 then mret (Some i) else find_filter hs (S i) filter
  end.

(** The second loop: the first free slot. *)
Fixpoint find_free (hs : list MessageHandlers) (i : nat) : option nat :=
  match hs with
  | [] => None
  | h :: hs => if is_null (topicFilter h) then Some i else find_free hs (S i)
  end.

(** [handler] is 0 (NULL) to remove. *)
Definition MQTTSetMessageHandler (filter : ptr) (handler : Z) : M (world N) Z :=
  c ← client;
  found ← memory (find_filter (messageHandlers c) 0 filter);
  if handler =? 0 then
    match found with
    | Some i => update (fun c => set_messageHandlers (<[i := mkHandlers NULL 0]> (messageHandlers c)) c);; mret MQTT_SUCCESS
    | None => mret FAILURE
    end
  else
    match (match found with Some i => Some i | None => find_free (messageHandlers c) 0 end) with
    | Some i =>
        update (fun c => set_messageHandlers (<[i := mkHandlers filter handler]> (messageHandlers c)) c);;
        mret MQTT_SUCCESS
    | None => mret FAILURE
    end.

(** [enum QoS] is unsigned: what was stored as an [int] is read as one. *)
Definition MQTTSubscribeWithResults (filter : ptr) (qos handler : Z) (granted : Z) : M (world N) (Z * Z) :=
  c ← client;
  '(rc, granted) ←
    (if negb (truthy (isconnected c)) then mret (FAILURE, granted)
     else
       timer ← countdown_ms (command_timeout_ms c);
       id ← getNextPacketId;
       len ← memory (MQTTSerialize_subscribe (buf c) (to_int (buf_size c)) 0 (to_ushort id) 1
                       [mkMQTTString filter (mkLenString 0 NULL)] [qos]);
       if len <=? 0 then mret (FAILURE, granted)
       else
         rc ← sendPacket len timer;
         if negb (rc =? MQTT_SUCCESS) then mret (rc, granted)
         else
           got ← waitfor SUBACK timer;
           if got =? SUBACK then
             '(r, out) ← memory (MQTTDeserialize_suback (mkSubackOut garbage 0 [QOS0]) 1 (readbuf c)
                                   (to_int (readbuf_size c)));
             let granted := to_uint (default 0 (so_grantedQoSs out !! 0%nat)) in
             if r =? 1 then
               if negb (granted =? SUBFAIL)
               then rc ← MQTTSetMessageHandler filter handler; mret (rc, granted)
               else mret (rc, granted)
             else mret (rc, granted)
           else mret (FAILURE, granted));
  (if rc =? FAILURE then MQTTCloseSession else mret tt);;
  mret (rc, granted).

Definition MQTTSubscribe (filter : ptr) (qos handler : Z) : M (world N) Z :=
  '(rc, _) ← MQTTSubscribeWithResults filter qos handler garbage;
  mret rc.

Definition MQTTUnsubscribe (filter : ptr) : M (world N) Z :=
  c ← client;
  rc ←
    (if negb (truthy (isconnected c)) then mret FAILURE
     else
       timer ← countdown_ms (command_timeout_ms c);
       id ← getNextPacketId;
       len ← memory (MQTTSerialize_unsubscribe (buf c) (to_int (buf_size c)) 0 (to_ushort id) 1
                       [mkMQTTString filter (mkLenString 0 NULL)]);
       if len <=? 0 then mret FAILURE
       else
         rc ← sendPacket len timer;
         if negb (rc =? MQTT_SUCCESS) then mret rc
         else
           got ← waitfor UNSUBACK timer;
           if got =? UNSUBACK then
             '(r, _) ← memory (MQTTDeserialize_unsuback garbage (readbuf c) (to_int (readbuf_size c)));
             (if r =? 1 then MQTTSetMessageHandler filter 0;; mret tt else mret tt);;
             mret rc
           else mret FAILURE);
  (if rc =? FAILURE then MQTTCloseSession else mret tt);;
  mret rc.

(** The wait for PUBACK or PUBCOMP at the end of MQTTPublish. *)
Definition await_ack (packet_type : Z) (timer : Timer) : M (world N) Z :=
  c ← client;
  got ← waitfor packet_type timer;
  if got =? packet_type then
    '(r, _) ← memory (MQTTDeserialize_ack (mkAckOut garbage garbage garbage) (readbuf c) (to_int (readbuf_size c)));
    mret (if negb (r =? 1) then FAILURE else MQTT_SUCCESS)
  else mret FAILURE.

(** The result and the message, whose id is assigned. *)
Definition MQTTPublish (topicName : ptr) (message : MQTTMessage) : M (world N) (Z * MQTTMessage) :=
  c ← client;
  '(rc, message) ←
    (if negb (truthy (isconnected c)) then mret (FAILURE, message)
     else
       timer ← countdown_ms (command_timeout_ms c);
       message ← (if (msg_qos message =? QOS1) || (msg_qos message =? QOS2)
                  then id ← getNextPacketId;
                       mret (mkMessage (msg_qos message) (msg_retained message) (msg_dup message)
                               (to_ushort id) (msg_payload message) (msg_payloadlen message))
                  else mret message);
       len ← memory (MQTTSerialize_publish (buf c) (to_int (buf_size c)) 0 (msg_qos message)
                       (msg_retained message) (msg_id message)
                       (mkMQTTString topicName (mkLenString 0 NULL)) (msg_payload message)
                       (to_int (msg_payloadlen message)));
       if len <=? 0 then mret (FAILURE, message)
       else
         rc ← sendPacket len timer;
         if negb (rc =? MQTT_SUCCESS) then mret (rc, message)
         else
           rc ← (if msg_qos message =? QOS1 then await_ack PUBACK timer
                 else if msg_qos message =? QOS2 then await_ack PUBCOMP timer
                 else mret rc);
           mret (rc, message));
  (if rc =? FAILURE then MQTTCloseSession else mret tt);;
  mret (rc, message).

Definition MQTTDisconnect : M (world N) Z :=
  c ← client;
  timer ← countdown_ms (command_timeout_ms c);
  len ← memory (MQTTSerialize_disconnect (buf c) (to_int (buf_size c)));
  rc ← (if 0 <? len then sendPacket len timer else mret FAILURE);
  MQTTCloseSession;;
  mret rc.
End client.
