(* ===== verification/Transport.v ===== *)
(** * The platform under the client

    What MQTTClient.c relies on from the functions behind [Network] and from
    gettimeofday, as the class [PlatformLaws], and the implementation of both by
    src/mqtt/MQTTInterface.c: any connection that keeps the contract of OpenSSL
    ([SSL_laws]) gives a platform that keeps this one. *)

From S2P Require Import Prelude Memory Wire Packet PacketRead Timer Network Client.

(** A delivery: the handler called, the topic and the payload. *)
Definition delivery : Type := Z * list Z * list Z.

(** The state of a platform is observed as the octets still to come from the
    broker, the octets sent to it, the messages handed to handlers and the time in
    microseconds.  A read or write transfers all the octets or fails; the clock
    advances; a handler is given a readable topic and payload of bounded size and
    writes only to its own blocks, which [handler_ready] asks
    for.  An [online] platform does not fail as long as
    the octets asked for are there, and no call takes longer than [tick]. *)
Class PlatformLaws (N : Type) `{!Platform N} : Type := {
  inbox : N -> list Z;
  outbox : N -> list Z;
  delivered : N -> list delivery;
  clock : N -> Z;
  online : N -> Prop;
  tick : Z;
  handler_blocks : gset positive;
  handler_limit : Z;
  handler_ready : mem -> Prop;
  tick_pos : 0 < tick;
  handler_ready_frame : forall m m',
    (forall b, b ∈ handler_blocks -> m' !! b = m !! b) -> handler_ready m -> handler_ready m';
  mqttread_law : forall p len timeout m n,
    0 < len <= INT_MAX -> room m p len ->
    exists r m' n', mqttread p len timeout (m, n) = Ret (r, (m', n')) /\
      outbox n' = outbox n /\ delivered n' = delivered n /\
      ((r = len /\ exists bs, Z.of_nat (length bs) = len /\ inbox n = bs ++ inbox n' /\ m' = mwrite m p bs) \/
       (r = -1 /\ exists bs, Z.of_nat (length bs) < len /\ m' = mwrite m p bs)) /\
      clock n <= clock n' /\
      (online n -> len <= Z.of_nat (length (inbox n)) -> r = len /\ online n' /\ clock n' <= clock n + tick);
  mqttwrite_law : forall p bs timeout m n,
    bytes_at m p bs -> 0 < Z.of_nat (length bs) <= INT_MAX ->
    exists r n', mqttwrite p (Z.of_nat (length bs)) timeout (m, n) = Ret (r, (m, n')) /\
      inbox n' = inbox n /\ delivered n' = delivered n /\
      ((r = Z.of_nat (length bs) /\ outbox n' = outbox n ++ bs) \/
       (r = -1 /\ exists k, outbox n' = outbox n ++ take k bs)) /\
      clock n <= clock n' /\
      (online n -> r = Z.of_nat (length bs) /\ online n' /\ clock n' <= clock n + tick);
  gettimeofday_law : forall n,
    exists t n', gettimeofday n = Ret (t, n') /\ normal t /\ clock n < micros t /\ clock n' = micros t /\
      inbox n' = inbox n /\ outbox n' = outbox n /\ delivered n' = delivered n /\
      (online n -> online n' /\ clock n' <= clock n + tick);
  call_handler_law : forall h tn msg m n ts bs,
    handler_ready m -> source_at m (data (lenstring tn)) ts -> len (lenstring tn) = Z.of_nat (length ts) ->
    source_at m (msg_payload msg) bs -> (forall b, b ∈ handler_blocks -> ~ in_block (msg_payload msg) b) -> msg_payloadlen msg = Z.of_nat (length bs) ->
    Z.of_nat (length bs) <= handler_limit ->
    exists m' n', call_handler h tn msg (m, n) = Ret (tt, (m', n')) /\
      inbox n' = inbox n /\ outbox n' = outbox n /\ delivered n' = delivered n ++ [(h, ts, bs)] /\
      clock n <= clock n' /\ (forall b, b ∉ handler_blocks -> m' !! b = m !! b) /\ handler_ready m' /\
      (online n -> online n' /\ clock n' <= clock n + tick)
}.

(** ** The implementation *)

(** The static buffers of src/mqtt_task.c. *)
Definition MQTT_BUFSIZE : Z := 1024.
Definition sndBuffer : ptr := Ptr 1 0.
Definition rcvBuffer : ptr := Ptr 2 0.
Definition msgBuffer : ptr := Ptr 3 0.

(** [MQTTClient mqttClient], a static object: all zero. *)
Definition mqttClient : MQTTClient :=
  mkClient 0 0 0 0 NULL NULL 0 0 0 0 (replicate MAX_MESSAGE_HANDLERS (mkHandlers NULL 0)) 0 TimerInit TimerInit.

(** [MqttMessageArrived]; the conversion [%s] reads the string at msgBuffer. *)
Definition MqttMessageArrived (message : MQTTMessage) : M mem unit :=
  memset msgBuffer 0 MQTT_BUFSIZE;;
  memcpy msgBuffer (msg_payload message) (msg_payloadlen message);;
  strlen msgBuffer;;
  mret tt.

Section tls.
Context {E : Type} `{!SSL_api E} `{!SSL_laws E}.

(** The connection, the clock, and what was handed to the handler. *)
Record peer : Type := mkPeer { p_tls : E; p_clock : Z; p_delivered : list delivery }.

Definition on_tls {A} (f : M (mem * E) A) : M (mem * peer) A := fun '(m, n) =>
  match f (m, p_tls n) with
  | Ret (a, (m', e')) => Ret (a, (m', mkPeer e' (p_clock n) (p_delivered n)))
  | UB => UB
  | NoFuel => NoFuel
  end.

Definition note (h : Z) (tn : MQTTString) (msg : MQTTMessage) : M (mem * peer) unit := fun '(m, n) =>
  match load_bytes (data (lenstring tn)) (len (lenstring tn)) m,
        load_bytes (msg_payload msg) (msg_payloadlen msg) m with
  | Ret (ts, _), Ret (bs, _) => Ret (tt, (m, mkPeer (p_tls n) (p_clock n) (p_delivered n ++ [(h, ts, bs)])))
  | _, _ => Ret (tt, (m, n))
  end.

Definition read_clock : M peer timeval := fun n =>
  let t := p_clock n + 1 in
  Ret (mkTimeval (t / 1000000) (t mod 1000000), mkPeer (p_tls n) t (p_delivered n)).

(** The one handler of the program is MqttMessageArrived. *)
#[export] Instance tls_platform : Platform peer := {|
  mqttread p len timeout := fun s =>
    on_tls (mqtt_network_read (S (Z.to_nat len + retries (p_tls s.2))) p len timeout) s;
  mqttwrite p len timeout := fun s =>
    on_tls (mqtt_network_write (S (Z.to_nat len + retries (p_tls s.2))) p len timeout) s;
  gettimeofday := read_clock;
  call_handler h tn msg := note h tn msg;; on_mem (MqttMessageArrived msg)
|}.

Lemma find_nul_elem l : 0 ∈ l -> is_Some (find_nul l).
Proof.
  induction l as [|x l IH]; intros H; [by apply elem_of_nil in H|]. simpl.
  destruct (Z.eqb_spec x 0) as [->|Hx]; [eauto|].
  apply elem_of_cons in H as [?|H]; [congruence|]. destruct (IH H) as [k ->]. eauto.
Qed.

(** A payload that leaves room for the terminator is copied and printed. *)
Lemma MqttMessageArrived_run m msg bs l :
  m !! 3%positive = Some l -> Z.of_nat (length l) = MQTT_BUFSIZE ->
  source_at m (msg_payload msg) bs -> ~ in_block (msg_payload msg) 3 ->
  msg_payloadlen msg = Z.of_nat (length bs) -> Z.of_nat (length bs) < MQTT_BUFSIZE ->
  MqttMessageArrived msg m = Ret (tt, <[3%positive := bs ++ replicate (1024 - length bs) 0]> m).
Proof.
  intros Hl Hlen Hs Hb Hpl Hlt. unfold MQTT_BUFSIZE in *.
  set (z := replicate 1024 0).
  assert (length z = 1024%nat) as Hzl by apply length_replicate. set (m1 := mwrite m msgBuffer z).
  assert (m1 = <[3%positive := z]> m) as E1.
  { unfold m1, msgBuffer, mwrite. apply map_eq. intros b. destruct (decide (b = 3%positive)) as [->|Hne].
    - rewrite lookup_alter_eq, lookup_insert_eq, Hl. cbn [fmap option_fmap option_map]. f_equal.
      unfold splice. cbn [Z.to_nat take app Nat.add]. rewrite drop_ge by lia. apply app_nil_r.
    - by rewrite lookup_alter_ne, lookup_insert_ne by done. }
  assert (m1 !! 3%positive = Some z) as Hz by (rewrite E1; apply lookup_insert_eq).
  assert (room m msgBuffer 1024) as Hr.
  { apply room_block; [lia|]. exists l. split; [done|lia]. }
  unfold MqttMessageArrived.
  erewrite bind_ret by (unfold memset; apply store_bytes_room; rewrite length_replicate; exact Hr).
  change (mwrite m msgBuffer (replicate (Z.to_nat (to_size MQTT_BUFSIZE)) (to_uchar 0))) with m1.
  rewrite Hpl. erewrite bind_ret.
  2: { apply (memcpy_at m1 msgBuffer (msg_payload msg) 3 bs); [|  |done|done|lia].
       - eapply source_at_mwrite_ne; [|exact Hb|exact Hs]. done.
       - apply room_block; [lia|]. exists z. split; [done|]. unfold z. rewrite length_replicate. lia. }
  assert (mwrite m1 msgBuffer bs = <[3%positive := bs ++ replicate (1024 - length bs) 0]> m) as ->.
  { apply map_eq. intros b. unfold msgBuffer, mwrite. destruct (decide (b = 3%positive)) as [->|Hne].
    - rewrite lookup_alter_eq, lookup_insert_eq, Hz. cbn [fmap option_fmap option_map]. f_equal. unfold splice.
      cbn [Z.to_nat take app Nat.add]. unfold z. by rewrite drop_replicate.
    - rewrite lookup_alter_ne, lookup_insert_ne by done. rewrite E1. by rewrite lookup_insert_ne. }
  set (m2 := <[3%positive := _]> m).
  assert (0 ∈ bs ++ replicate (1024 - length bs) 0) as Hnul.
  { apply elem_of_app. right. apply elem_of_replicate. split; [done|lia]. }
  destruct (find_nul_elem _ Hnul) as [k Hk].
  assert (strlen msgBuffer m2 = Ret (Z.of_nat k, m2)) as Es.
  { unfold strlen, msgBuffer, tail_at, m2. rewrite lookup_insert_eq.
    replace ((0 <=? 0) && (0 <=? Z.of_nat (length (bs ++ replicate (1024 - length bs) 0)))) with true by lia.
    change (Z.to_nat 0) with 0%nat. by rewrite drop_0, Hk. }
  erewrite bind_ret by exact Es. done.
Qed.

Lemma on_tls_run {A} (f : M (mem * E) A) m n a m' e' :
  f (m, p_tls n) = Ret (a, (m', e')) ->
  on_tls f (m, n) = Ret (a, (m', mkPeer e' (p_clock n) (p_delivered n))).
Proof. intros H. unfold on_tls. by rewrite H. Qed.

#[export] Instance tls_laws : PlatformLaws peer.
Proof.
  refine {|
    inbox n := incoming (p_tls n); outbox n := outgoing (p_tls n); delivered := p_delivered; clock := p_clock;
    online n := healthy (p_tls n); tick := 1; handler_blocks := {[3%positive]};
    handler_limit := MQTT_BUFSIZE - 1;
    handler_ready m := exists l, m !! 3%positive = Some l /\ Z.of_nat (length l) = MQTT_BUFSIZE |}.
  - lia.
  - intros m m' Hm (l & Hl & Hlen). exists l. split; [|done]. rewrite Hm; [done|]. by apply elem_of_singleton.
  - intros p len timeout m n Hlen Hr.
    destruct (mqtt_network_read_run m p len timeout (p_tls n) (S (Z.to_nat len + retries (p_tls n))))
      as (r & m' & e' & E' & Hout & Hre & Hres & Hh); [done|lia|lia|].
    eexists r, m', _. split; [apply on_tls_run; exact E'|]. split_and!; [done|done|done|simpl; lia|].
    intros Hon Hin. destruct (Hh Hon Hin). split_and!; [done|done|simpl; lia].
  - intros p bs timeout m n Hbs Hlen.
    destruct (mqtt_network_write_run m p bs timeout (p_tls n) (S (Z.to_nat (Z.of_nat (length bs)) + retries (p_tls n))))
      as (r & e' & E' & Hin & Hre & Hres & Hh); [done|lia|lia|].
    eexists r, _. split; [apply on_tls_run; exact E'|]. split_and!; [done|done|done|simpl; lia|].
    intros Hon. destruct (Hh Hon). split_and!; [done|done|simpl; lia].
  - intros n. eexists _, _. split; [reflexivity|]. unfold normal, micros. simpl.
    split_and!; try done; Z.div_mod_to_equations; lia.
  - intros h tn msg m n ts bs (l & Hl & Hll) Hts Htl Hbs Hblk Hpl Hlim.
    eexists _, _. split; [|split; [|split; [|split; [|split; [|split; [|split]]]]]].
    + cbn [call_handler tls_platform]. erewrite bind_ret.
      2: { unfold note. rewrite Htl, Hpl, !load_bytes_at by done. reflexivity. }
      apply on_mem_run. eapply MqttMessageArrived_run; eauto; [|lia]. apply Hblk. by apply elem_of_singleton.
    + done.
    + done.
    + done.
    + simpl. lia.
    + intros b Hb. rewrite lookup_insert_ne; [done|]. intros <-. by apply Hb, elem_of_singleton.
    + eexists. rewrite lookup_insert_eq. split; [done|]. rewrite length_app, length_replicate.
      unfold MQTT_BUFSIZE in *. lia.
    + intros Hon. split; [done|simpl; lia].
Defined.
End tls.
