(* ===== verification/ClientInv.v ===== *)
(** * Invariants of the client

    What every operation of MQTTClient.c keeps, on every platform: the packet ids
    stay in range, the tables and buffers keep their shape, and only MQTTConnect
    sets the connected flag.  Then the table of message handlers as a bounded
    map from filters to handlers. *)

From S2P Require Import Prelude Memory Wire Packet Publish Connect Subscribe Topic Timer Network Client Transport.

(** ** Operations that keep a property of the client object *)

Section keeps.
Context {N : Type} `{!Platform N}.

(** Whatever the run does with memory and platform, if it returns then [I] holds
    of the client object as it did before. *)
Definition keeps {A} (I : MQTTClient -> Prop) (f : M (world N) A) : Prop :=
  forall c s a c' s', I c -> f (c, s) = Ret (a, (c', s')) -> I c'.

Lemma keeps_bind {A B} I (f : M (world N) A) (g : A -> M (world N) B) :
  keeps I f -> (forall a, keeps I (g a)) -> keeps I (mbind g f).
Proof.
  intros Hf Hg c s b c' s' HI H. apply bind_inv in H as (a & [c1 s1] & E1 & E2).
  eapply Hg; [|exact E2]. by eapply Hf.
Qed.

Lemma keeps_ret {A} I (a : A) : keeps I (mret a).
Proof. by intros c s b c' s' HI [= _ <- _]. Qed.

Lemma keeps_ub {A} I : keeps I (@ub (world N) A).
Proof. done. Qed.

Lemma keeps_nofuel {A} I : keeps I (@nofuel (world N) A).
Proof. done. Qed.

Lemma keeps_client I : keeps I client.
Proof. by intros c s b c' s' HI [= _ <- _]. Qed.

Lemma keeps_update I f : (forall c, I c -> I (f c)) -> keeps I (update f).
Proof. intros Hf c s b c' s' HI [= _ <- _]. by apply Hf. Qed.

Lemma keeps_io {A} I (f : M (mem * N) A) : keeps I (io f).
Proof.
  intros c s b c' s' HI H. unfold io in H. destruct (f s) as [[a s1]| |]; by simplify_eq.
Qed.

Lemma keeps_int_result I z : keeps I (int_result z).
Proof. intros c s b c' s' HI [[= -> -> ->] _]%int_result_inv. done. Qed.
End keeps.

Create HintDb keeps.
#[export] Hint Resolve keeps_ret keeps_ub keeps_nofuel keeps_client keeps_io keeps_int_result : keeps.

(** Take a computation apart at its binds and branches. *)
Ltac keeps_step :=
  match goal with
  | |- keeps _ (mbind _ _) => apply keeps_bind; [|intros ?]
  | |- keeps _ (if ?b then _ else _) => destruct b
  | |- keeps _ (let '(_, _) := ?p in _) => destruct p
  | |- keeps _ (match ?x with _ => _ end) => destruct x
  | |- keeps _ (memory _) => apply keeps_io
  | |- keeps _ now => apply keeps_io
  | |- keeps _ (update _) => apply keeps_update
  | |- _ => solve [auto with keeps]
  end.
Ltac keeps := repeat keeps_step.

(** A property that no assignment touches but the one that sets the connected
    flag. *)
Record inert (I : MQTTClient -> Prop) : Prop := mkInert {
  in_id : forall c, I c -> I (set_next_packetid (if next_packetid c =? MAX_PACKET_ID then 1
                                                 else to_uint (next_packetid c + 1)) c);
  in_ping0 : forall c, I c -> I (set_ping_outstanding 0 c);
  in_ping1 : forall c, I c -> I (set_ping_outstanding 1 c);
  in_close : forall c, I c -> I (set_isconnected 0 c);
  in_options : forall c k s, I c -> I (set_session_options k s c);
  in_handlers : forall c hs, I c -> length hs = length (messageHandlers c) -> I (set_messageHandlers hs c);
  in_sent : forall c t, I c -> I (set_last_sent t c);
  in_received : forall c t, I c -> I (set_last_received t c)
}.

Section inert.
Context {N : Type} `{!Platform N} (local_i : ptr) (passes : nat) (garbage : Z).
Context (I : MQTTClient -> Prop) (HI : inert I).

Lemma keeps_timer_expired t : keeps I (timer_expired (N := N) t).
Proof. unfold timer_expired. keeps. Qed.
Lemma keeps_timer_left t : keeps I (timer_left (N := N) t).
Proof. unfold timer_left. keeps. Qed.
Lemma keeps_countdown_ms ms : keeps I (countdown_ms (N := N) ms).
Proof. unfold countdown_ms. keeps. Qed.
Lemma keeps_countdown s : keeps I (countdown (N := N) s).
Proof. unfold countdown. keeps. Qed.
#[local] Hint Resolve keeps_timer_expired keeps_timer_left keeps_countdown_ms keeps_countdown : keeps.

Lemma keeps_getNextPacketId : keeps I (getNextPacketId (N := N)).
Proof using HI.
  intros c s a c' s' Hc H. unfold getNextPacketId in H. cbn in H. injection H as _ <- _. by apply (in_id I HI).
Qed.

Lemma keeps_send_loop fuel sent length timer : keeps I (send_loop (N := N) fuel sent length timer).
Proof. revert sent. induction fuel as [|fuel IH]; intros sent; simpl; keeps. Qed.
#[local] Hint Resolve keeps_getNextPacketId keeps_send_loop : keeps.

Lemma keeps_sendPacket length timer : keeps I (sendPacket (N := N) passes length timer).
Proof using HI. unfold sendPacket. keeps. intros ? ?; by apply (in_sent I HI). Qed.

Lemma keeps_decodePacket_loop fuel mult len value timeout :
  keeps I (decodePacket_loop (N := N) local_i fuel mult len value timeout).
Proof. revert mult len value. induction fuel as [|fuel IH]; intros mult len value; simpl; keeps. Qed.
#[local] Hint Resolve keeps_sendPacket keeps_decodePacket_loop : keeps.

Lemma keeps_readPacket timer : keeps I (readPacket (N := N) local_i timer).
Proof using HI. unfold readPacket, decodePacket. keeps. intros ? ?; by apply (in_received I HI). Qed.

Lemma keeps_deliver_loop hs tn msg rc : keeps I (deliver_loop (N := N) hs tn msg rc).
Proof. revert rc. induction hs as [|h hs IH]; intros rc; simpl; keeps. Qed.
#[local] Hint Resolve keeps_readPacket keeps_deliver_loop : keeps.

Lemma keeps_deliverMessage tn msg : keeps I (deliverMessage (N := N) tn msg).
Proof. unfold deliverMessage. keeps. Qed.

Lemma keeps_keepalive : keeps I (keepalive (N := N) passes).
Proof using HI. unfold keepalive. keeps. intros ? ?; by apply (in_ping1 I HI). Qed.

Lemma keeps_MQTTCloseSession : keeps I (MQTTCloseSession (N := N)).
Proof using HI.
  unfold MQTTCloseSession, MQTTCleanSession. keeps.
  - intros ? ?; by apply (in_ping0 I HI).
  - intros ? ?; by apply (in_close I HI).
  - intros ? ?; apply (in_handlers I HI); [done|]. apply length_map.
Qed.
#[local] Hint Resolve keeps_deliverMessage keeps_keepalive keeps_MQTTCloseSession : keeps.

Lemma keeps_cycle timer : keeps I (cycle (N := N) local_i passes garbage timer).
Proof using HI.
  unfold cycle, cycle_switch, cycle_publish, cycle_pubrec. keeps. intros ? ?; by apply (in_ping0 I HI).
Qed.
#[local] Hint Resolve keeps_cycle : keeps.

Lemma keeps_waitfor t timer : keeps I (waitfor (N := N) local_i passes garbage t timer).
Proof using HI.
  unfold waitfor. generalize FAILURE as rc. generalize passes at 2 as fuel.
  induction fuel as [|fuel IH]; intros rc; simpl; keeps.
Qed.

Lemma keeps_MQTTYield ms : keeps I (MQTTYield (N := N) local_i passes garbage ms).
Proof using HI.
  unfold MQTTYield. keeps. generalize passes at 2 as fuel.
  induction fuel as [|fuel IH]; simpl; keeps.
Qed.

Lemma keeps_MQTTRun n : keeps I (MQTTRun (N := N) local_i passes garbage n).
Proof using HI. induction n as [|n IH]; simpl; keeps. Qed.

Lemma keeps_MQTTSetMessageHandler filter h : keeps I (MQTTSetMessageHandler (N := N) filter h).
Proof using HI.
  unfold MQTTSetMessageHandler. keeps; (intros ? ?; apply (in_handlers I HI); [done|apply length_insert]).
Qed.
#[local] Hint Resolve keeps_waitfor keeps_MQTTSetMessageHandler : keeps.

Lemma keeps_MQTTSubscribeWithResults f q h g :
  keeps I (MQTTSubscribeWithResults (N := N) local_i passes garbage f q h g).
Proof using HI. unfold MQTTSubscribeWithResults. keeps. Qed.

Lemma keeps_MQTTUnsubscribe f : keeps I (MQTTUnsubscribe (N := N) local_i passes garbage f).
Proof using HI. unfold MQTTUnsubscribe. keeps. Qed.

Lemma keeps_MQTTPublish f msg : keeps I (MQTTPublish (N := N) local_i passes garbage f msg).
Proof using HI. unfold MQTTPublish, await_ack. keeps. Qed.

Lemma keeps_MQTTDisconnect : keeps I (MQTTDisconnect (N := N) passes).
Proof using HI. unfold MQTTDisconnect. keeps. Qed.

Lemma keeps_connect_exchange o d t : keeps I (connect_exchange (N := N) local_i passes garbage o d t).
Proof using HI. unfold connect_exchange. keeps. Qed.
#[local] Hint Resolve keeps_connect_exchange : keeps.

(** MQTTConnect up to its last statement. *)
Definition connect_attempt (options : option MQTTPacket_connectData) (data : MQTTConnackData) (c : MQTTClient) :
    M (world N) (Z * MQTTConnackData) :=
  if truthy (isconnected c) then mret (FAILURE, data)
  else
    timer ← countdown_ms (command_timeout_ms c);
    let options := default MQTTPacket_connectData_initializer options in
    update (set_session_options (to_uint (keepAliveInterval options)) (cleansession options));;
    t ← countdown (keepAliveInterval options);
    update (set_last_received t);;
    connect_exchange local_i passes garbage options data timer.

Lemma keeps_connect_attempt o d c : keeps I (connect_attempt o d c).
Proof using HI.
  unfold connect_attempt. cbv zeta. keeps.
  - intros ? ?; by apply (in_options I HI).
  - intros ? ?; by apply (in_received I HI).
Qed.
End inert.

(** The result of MQTTConnect is 0 when the flag is set, and only then is the object
    different from what the exchange left. *)
Lemma MQTTConnectWithResults_inv {N} `{!Platform N} local_i passes garbage o d c (s : mem * N) rc d' c' s' :
  MQTTConnectWithResults local_i passes garbage o d (c, s) = Ret ((rc, d'), (c', s')) ->
  exists c1, connect_attempt local_i passes garbage o d c (c, s) = Ret ((rc, d'), (c1, s')) /\
    c' = if rc =? MQTT_SUCCESS then set_ping_outstanding 0 (set_isconnected 1 c1) else c1.
Proof.
  unfold MQTTConnectWithResults. intros H. erewrite bind_ret in H by reflexivity. cbv beta in H.
  apply bind_inv in H as ([rc1 d1] & [c1 s1] & E1 & E2). exists c1.
  destruct (Z.eqb_spec rc1 MQTT_SUCCESS) as [->|Hne].
  - cbn in E2. injection E2 as <- <- <- <-. split; [exact E1|]. done.
  - cbn in E2. injection E2 as <- <- <- <-. split; [exact E1|]. by apply Z.eqb_neq in Hne as ->.
Qed.

(** ** The invariant of the client object *)

Record client_ok (c : MQTTClient) : Prop := mkClientOk {
  ok_id : 1 <= next_packetid c <= MAX_PACKET_ID;
  ok_handlers : length (messageHandlers c) = MAX_MESSAGE_HANDLERS;
  ok_ping : ping_outstanding c = 0 \/ ping_outstanding c = 1;
  ok_connected : isconnected c = 0 \/ isconnected c = 1
}.

(** What MQTTClientInit fixes for the life of the object. *)
Definition client_config (c : MQTTClient) : ptr * Z * ptr * Z * Z * Z :=
  (buf c, buf_size c, readbuf c, readbuf_size c, command_timeout_ms c, defaultMessageHandler c).

(** A call of the API, or anything that leaves the client object alone. *)
Inductive api_step {N} `{!Platform N} (local_i : ptr) (passes : nat) (garbage : Z) :
    world N -> world N -> Prop :=
| step_connect o d r w w' :
    MQTTConnectWithResults local_i passes garbage o d w = Ret (r, w') -> api_step local_i passes garbage w w'
| step_subscribe f q h g r w w' :
    MQTTSubscribeWithResults local_i passes garbage f q h g w = Ret (r, w') -> api_step local_i passes garbage w w'
| step_unsubscribe f r w w' :
    MQTTUnsubscribe local_i passes garbage f w = Ret (r, w') -> api_step local_i passes garbage w w'
| step_publish tn msg r w w' :
    MQTTPublish local_i passes garbage tn msg w = Ret (r, w') -> api_step local_i passes garbage w w'
| step_disconnect r w w' :
    MQTTDisconnect passes w = Ret (r, w') -> api_step local_i passes garbage w w'
| step_yield ms r w w' :
    MQTTYield local_i passes garbage ms w = Ret (r, w') -> api_step local_i passes garbage w w'
| step_run n r w w' :
    MQTTRun local_i passes garbage n w = Ret (r, w') -> api_step local_i passes garbage w w'
| step_handler f h r w w' :
    MQTTSetMessageHandler f h w = Ret (r, w') -> api_step local_i passes garbage w w'
| step_close r w w' :
    MQTTCloseSession w = Ret (r, w') -> api_step local_i passes garbage w w'
| step_rest c s s' : api_step local_i passes garbage (c, s) (c, s').

Lemma next_id_range id :
  1 <= id <= MAX_PACKET_ID ->
  1 <= (if id =? MAX_PACKET_ID then 1 else to_uint (id + 1)) <= MAX_PACKET_ID.
Proof. unfold MAX_PACKET_ID. intros H. destruct (Z.eqb_spec id 65535); unfold to_uint; [lia|].
  rewrite Z.mod_small; lia. Qed.

Lemma client_ok_inert : inert client_ok.
Proof.
  split.
  - intros c [H1 H2 H3 H4]. constructor; simpl; auto. by apply next_id_range.
  - intros c [H1 H2 H3 H4]. constructor; simpl; auto.
  - intros c [H1 H2 H3 H4]. constructor; simpl; auto.
  - intros c [H1 H2 H3 H4]. constructor; simpl; auto.
  - intros c k s [H1 H2 H3 H4]. constructor; simpl; auto.
  - intros c hs [H1 H2 H3 H4] Hl. constructor; simpl; auto. congruence.
  - intros c t [H1 H2 H3 H4]. constructor; simpl; auto.
  - intros c t [H1 H2 H3 H4]. constructor; simpl; auto.
Qed.

(** Not connected stays not connected. *)
Lemma disconnected_inert : inert (fun c => isconnected c = 0).
Proof. by constructor. Qed.

Lemma config_inert cfg : inert (fun c => client_config c = cfg).
Proof. by constructor. Qed.

(** A step is a successful connect, or keeps every inert property. *)
Lemma api_step_cases {N} `{!Platform N} local_i passes garbage (w w' : world N) :
  api_step local_i passes garbage w w' ->
  (exists c1 o d d', MQTTConnectWithResults local_i passes garbage o d w = Ret ((MQTT_SUCCESS, d'), w') /\
     w'.1 = set_ping_outstanding 0 (set_isconnected 1 c1) /\ (forall I, inert I -> I w.1 -> I c1)) \/
  (forall I, inert I -> I w.1 -> I w'.1).
Proof.
  intros H. destruct H as [o d [rc d'] [c s] [c' s'] H|f q h g r [c s] [c' s'] H|f r [c s] [c' s'] H
    |tn msg r [c s] [c' s'] H|r [c s] [c' s'] H|ms r [c s] [c' s'] H|n r [c s] [c' s'] H|f h r [c s] [c' s'] H
    |r [c s] [c' s'] H|c s s'].
  - pose proof (MQTTConnectWithResults_inv _ _ _ _ _ _ _ _ _ _ _ H) as (c1 & E & ->).
    assert (forall I, inert I -> I c -> I c1) as HI.
    { intros I HI Hc. eapply keeps_connect_attempt; [exact HI|exact Hc|exact E]. }
    destruct (Z.eqb_spec rc MQTT_SUCCESS) as [->|Hne]; [left; by exists c1, o, d, d'|by right].
  - right. intros I HI Hc. eapply keeps_MQTTSubscribeWithResults; [exact HI|exact Hc|exact H].
  - right. intros I HI Hc. eapply keeps_MQTTUnsubscribe; [exact HI|exact Hc|exact H].
  - right. intros I HI Hc. eapply keeps_MQTTPublish; [exact HI|exact Hc|exact H].
  - right. intros I HI Hc. eapply keeps_MQTTDisconnect; [exact HI|exact Hc|exact H].
  - right. intros I HI Hc. eapply keeps_MQTTYield; [exact HI|exact Hc|exact H].
  - right. intros I HI Hc. eapply keeps_MQTTRun; [exact HI|exact Hc|exact H].
  - right. intros I HI Hc. eapply keeps_MQTTSetMessageHandler; [exact HI|exact Hc|exact H].
  - right. intros I HI Hc. eapply keeps_MQTTCloseSession; [exact HI|exact Hc|exact H].
  - by right.
Qed.

(** The packet id [k] calls after [id]. *)
Definition nth_id (id : Z) (k : nat) : Z := (id - 1 + Z.of_nat k) mod MAX_PACKET_ID + 1.

Lemma nth_id_succ id k :
  1 <= id <= MAX_PACKET_ID ->
  (if nth_id id k =? MAX_PACKET_ID then 1 else to_uint (nth_id id k + 1)) = nth_id id (S k).
Proof.
  unfold nth_id, MAX_PACKET_ID, to_uint. intros H. rewrite Nat2Z.inj_succ.
  set (x := id - 1 + Z.of_nat k). replace (id - 1 + Z.succ (Z.of_nat k)) with (x + 1) by lia.
  pose proof (Z.mod_pos_bound x 65535 ltac:(lia)).
  rewrite (Z.mod_small (x mod 65535 + 1 + 1) 4294967296) by lia.
  assert (0 <= x) by lia. destruct (Z.eqb_spec (x mod 65535 + 1) 65535); Z.div_mod_to_equations; lia.
Qed.

(** [k] calls of getNextPacketId. *)
Fixpoint take_ids {N} `{!Platform N} (k : nat) : M (world N) (list Z) :=
  match k with
  | O => mret []
  | S k => id ← getNextPacketId; ids ← take_ids k; mret (id :: ids)
  end.

Lemma getNextPacketId_run {N} `{!Platform N} c (s : mem * N) :
  getNextPacketId (c, s) =
  let id := if next_packetid c =? MAX_PACKET_ID then 1 else to_uint (next_packetid c + 1) in
  Ret (to_int id, (set_next_packetid id c, s)).
Proof. done. Qed.

Lemma take_ids_run {N} `{!Platform N} k j id c (s : mem * N) :
  1 <= id <= MAX_PACKET_ID -> next_packetid c = nth_id id j ->
  take_ids k (c, s) =
  Ret (map (fun i => nth_id id (j + i)) (seq 1 k), (set_next_packetid (nth_id id (j + k)) c, s)).
Proof.
  intros Hid. revert j c. induction k as [|k IH]; intros j c Hc; simpl.
  - rewrite Nat.add_0_r, <- Hc. by destruct c.
  - erewrite bind_ret by apply getNextPacketId_run. rewrite Hc, nth_id_succ by done.
    erewrite bind_ret by (apply (IH (S j)); done). unfold mret, M_ret. do 2 f_equal.
    + f_equal.
      * unfold to_int. pose proof (next_id_range (nth_id id j)) as Hr. rewrite nth_id_succ in Hr by done.
        rewrite Nat.add_1_r.
        assert (1 <= nth_id id (S j) <= MAX_PACKET_ID) by
          (unfold nth_id, MAX_PACKET_ID; pose proof (Z.mod_pos_bound (id - 1 + Z.of_nat (S j)) 65535 ltac:(lia)); lia).
        unfold MAX_PACKET_ID in *. rewrite Z.mod_small; lia.
      * rewrite <- (fmap_S_seq 1 k). rewrite <- list_fmap_compose. apply map_ext. intros i. simpl.
        f_equal. lia.
    + by replace (S j + k)%nat with (j + S k)%nat by lia.
Qed.

(** ** The handler table as a map *)

(** A slot of the table: free, or a filter and its handler. *)
Abbreviation slot := (option (list Z * Z)).

Definition slot_repr (m : mem) (h : MessageHandlers) (k : slot) : Prop :=
  match k with
  | None => topicFilter h = NULL
  | Some (f, v) => cstr_at m (topicFilter h) f /\ fp h = v
  end.

Definition entries (ks : list slot) : list (list Z * Z) := omap id ks.
Definition table (ks : list slot) : gmap (list Z) Z := list_to_map (entries ks).

(** The slots of the client object: no filter twice. *)
Definition handlers_repr (m : mem) (c : MQTTClient) (ks : list slot) : Prop :=
  Forall2 (slot_repr m) (messageHandlers c) ks /\ NoDup (entries ks).*1.

(** What MQTTSetMessageHandler promises: a map of bounded size. *)
Definition set_handler (f : list Z) (h : Z) (t : gmap (list Z) Z) : option (gmap (list Z) Z) :=
  if h =? 0 then (if decide (is_Some (t !! f)) then Some (delete f t) else None)
  else if decide (is_Some (t !! f) \/ (size t < MAX_MESSAGE_HANDLERS)%nat) then Some (<[f := h]> t) else None.

Lemma entries_app a b : entries (a ++ b) = entries a ++ entries b.
Proof. apply omap_app. Qed.

Lemma length_entries ks : (length (entries ks) <= length ks)%nat.
Proof. induction ks as [|[k|] ks IH]; simpl; [done|lia|lia]. Qed.

Lemma entries_mid a b f v : entries (a ++ Some (f, v) :: b) = entries a ++ (f, v) :: entries b.
Proof. by rewrite entries_app. Qed.

Lemma entries_free a b : entries (a ++ None :: b) = entries a ++ entries b.
Proof. by rewrite entries_app. Qed.

Lemma entries_mid_NoDup a b f v :
  NoDup (entries (a ++ Some (f, v) :: b)).*1 <->
  f ∉ (entries (a ++ None :: b)).*1 /\ NoDup (entries (a ++ None :: b)).*1.
Proof.
  rewrite entries_mid, entries_free, !fmap_app. simpl.
  rewrite <- Permutation_middle. by rewrite NoDup_cons.
Qed.

Lemma table_mid a b f v :
  f ∉ (entries (a ++ None :: b)).*1 -> NoDup (entries (a ++ None :: b)).*1 ->
  table (a ++ Some (f, v) :: b) = <[f := v]> (table (a ++ None :: b)).
Proof.
  intros Hf Hnd. unfold table. rewrite entries_mid, entries_free in *.
  rewrite <- list_to_map_cons. apply list_to_map_proper.
  - rewrite fmap_app in *. simpl. rewrite <- Permutation_middle. by apply NoDup_cons.
  - by rewrite Permutation_middle.
Qed.

Lemma table_lookup ks f v :
  NoDup (entries ks).*1 -> table ks !! f = Some v <-> Some (f, v) ∈ ks.
Proof.
  intros Hnd. unfold table. rewrite <- elem_of_list_to_map by done.
  unfold entries. rewrite list_elem_of_omap. split.
  - intros (x & Hx & E). unfold id in E. by subst.
  - intros Hx. by eexists.
Qed.

Lemma table_size ks : NoDup (entries ks).*1 -> size (table ks) = length (entries ks).
Proof. intros. unfold table. by apply map_size_list_to_map. Qed.

(** The first loop finds the slot with the filter. *)
Lemma find_filter_run m filter f hs ks i :
  Forall2 (slot_repr m) hs ks -> cstr_at m filter f ->
  exists r, find_filter hs i filter m = Ret (r, m) /\
  match r with
  | Some j => exists a v b, ks = a ++ Some (f, v) :: b /\ j = (i + length a)%nat
  | None => f ∉ (entries ks).*1
  end.
Proof.
  intros H Hf. revert i. induction H as [|h k hs ks Hk _ IH]; intros i; simpl.
  - exists None. split; [done|]. apply not_elem_of_nil.
  - destruct k as [[g v]|]; simpl in Hk.
    + destruct Hk as [Hg Hv]. assert (is_null (topicFilter h) = false) as ->.
      { destruct (topicFilter h); [by destruct Hg as [[? [=]] _]|done..]. }
      destruct (strcmp_at m _ _ _ _ Hg Hf) as (r & E & Hr). erewrite bind_ret by exact E.
      destruct (Z.eqb_spec r 0) as [E0|E0].
      * exists (Some i). split; [done|]. apply Hr in E0 as ->. exists [], v, ks. split; [done|]. simpl. lia.
      * destruct (IH (S i)) as (r' & E' & Hr'). exists r'. split; [done|]. destruct r' as [j|].
        -- destruct Hr' as (a & w & b & -> & ->). exists (Some (g, v) :: a), w, b. split; [done|]. simpl. lia.
        -- simpl. apply not_elem_of_cons. split; [|done]. intros ->. by apply E0, Hr.
    + rewrite Hk. simpl. destruct (IH (S i)) as (r' & E' & Hr'). exists r'. split; [done|].
      destruct r' as [j|]; [|done].
      destruct Hr' as (a & w & b & -> & ->). exists (None :: a), w, b. split; [done|]. simpl. lia.
Qed.

(** The second loop finds a free slot, if there is one. *)
Lemma find_free_run m hs ks i :
  Forall2 (slot_repr m) hs ks ->
  match find_free hs i with
  | Some j => exists a b, ks = a ++ None :: b /\ j = (i + length a)%nat
  | None => length (entries ks) = length ks
  end.
Proof.
  intros H. revert i. induction H as [|h k hs ks Hk _ IH]; intros i; simpl; [done|].
  destruct k as [[g v]|]; simpl in Hk.
  - destruct Hk as [Hg _]. assert (is_null (topicFilter h) = false) as ->.
    { destruct (topicFilter h); [by destruct Hg as [[? [=]] _]|done..]. }
    specialize (IH (S i)). destruct (find_free hs (S i)) as [j|].
    + destruct IH as (a & b & -> & ->). exists (Some (g, v) :: a), b. split; [done|]. simpl. lia.
    + simpl. by rewrite IH.
  - rewrite Hk. simpl. exists [], ks. split; [done|]. simpl. lia.
Qed.

(** Assigning a slot. *)
Lemma slot_insert m hs a k b h k' :
  Forall2 (slot_repr m) hs (a ++ k :: b) -> slot_repr m h k' ->
  Forall2 (slot_repr m) (<[length a := h]> hs) (a ++ k' :: b).
Proof.
  intros H Hh. replace (a ++ k' :: b) with (<[length a := k']> (a ++ k :: b)).
  - by apply Forall2_insert.
  - rewrite insert_app_r_alt, Nat.sub_diag by lia. done.
Qed.

Lemma MQTTSetMessageHandler_run {N} `{!Platform N} c m (n : N) ks filter f h :
  handlers_repr m c ks -> length ks = MAX_MESSAGE_HANDLERS -> cstr_at m filter f ->
  exists rc c' ks', MQTTSetMessageHandler filter h (c, (m, n)) = Ret (rc, (c', (m, n))) /\
    handlers_repr m c' ks' /\ length ks' = MAX_MESSAGE_HANDLERS /\
    match set_handler f h (table ks) with
    | Some t => rc = MQTT_SUCCESS /\ table ks' = t
    | None => rc = FAILURE /\ c' = c /\ ks' = ks
    end.
Proof.
  intros [Hr Hnd] Hlen Hf. destruct (find_filter_run m filter f _ _ 0 Hr Hf) as (r & E & Hfound).
  unfold MQTTSetMessageHandler. erewrite bind_ret by reflexivity. cbv beta.
  erewrite bind_ret by (unfold memory, io, on_mem; rewrite E; reflexivity).
  unfold set_handler. destruct r as [j|].
  - destruct Hfound as (a & v & b & -> & ->). cbn [Nat.add].
    pose proof (proj1 (entries_mid_NoDup _ _ _ _) Hnd) as [Hfree Hnd'].
    assert (is_Some (table (a ++ Some (f, v) :: b) !! f)) as Hin.
    { exists v. apply table_lookup; [done|]. set_solver. }
    rewrite table_mid in * by done. destruct (Z.eqb_spec h 0) as [->|Hh].
    + rewrite decide_True by done. eexists _, _, (a ++ None :: b). split; [reflexivity|].
      split; [split; [|done]|]; [simpl; by eapply slot_insert|].
      split; [rewrite length_app in *; done|]. split; [done|].
      rewrite delete_insert_id; [done|]. by apply not_elem_of_list_to_map.
    + rewrite decide_True by (by left). eexists _, _, (a ++ Some (f, h) :: b). split; [reflexivity|].
      split; [split; [|by apply entries_mid_NoDup]|]; [simpl; by eapply slot_insert|].
      split; [rewrite length_app in *; done|]. split; [done|].
      rewrite table_mid by done. by rewrite insert_insert_eq.
  - assert (table ks !! f = None) as Hno by (by apply not_elem_of_list_to_map).
    destruct (Z.eqb_spec h 0) as [->|Hh].
    { rewrite decide_False by (rewrite Hno; by intros [? ?]). eexists _, c, ks. split; [reflexivity|]. done. }
    pose proof (find_free_run m _ _ 0 Hr) as Hfree. destruct (find_free _ 0) as [j|].
    + destruct Hfree as (a & b & -> & ->). cbn [Nat.add].
      rewrite decide_True.
      2: { right. rewrite table_size, entries_free by done. rewrite <- Hlen, !length_app. simpl.
           pose proof (length_entries a). pose proof (length_entries b). lia. }
      eexists _, _, (a ++ Some (f, h) :: b). split; [reflexivity|].
      split; [split; [|by apply entries_mid_NoDup]|]; [simpl; by eapply slot_insert|].
      split; [rewrite length_app in *; done|]. split; [done|]. by apply table_mid.
    + rewrite decide_False.
      2: { rewrite Hno, table_size by done. intros [[? ?]|?]; [done|lia]. }
      eexists _, c, ks. split; [reflexivity|]. done.
Qed.

(** It assigns to the table only. *)
Lemma MQTTSetMessageHandler_frame {N} `{!Platform N} filter h x :
  keeps (N := N) (fun c => set_messageHandlers [] c = x) (MQTTSetMessageHandler filter h).
Proof. unfold MQTTSetMessageHandler. keeps; by intros c <-. Qed.

(** ** Properties *)

(** C4: MQTTSetMessageHandler implements a map of at most MAX_MESSAGE_HANDLERS
    entries from topic filters, compared as strings, to handlers: it adds or replaces an
    entry, or removes one for a null handler, and returns FAILURE with nothing changed
    when the table is full or the filter to be removed is not there; no filter ever
    occupies two slots. *)
Theorem MQTTSetMessageHandler_refines {N} `{!Platform N} c m (n : N) ks filter f h :
  handlers_repr m c ks -> length ks = MAX_MESSAGE_HANDLERS -> cstr_at m filter f ->
  exists rc c' ks', MQTTSetMessageHandler filter h (c, (m, n)) = Ret (rc, (c', (m, n))) /\
    handlers_repr m c' ks' /\ length ks' = MAX_MESSAGE_HANDLERS /\
    match set_handler f h (table ks) with
    | Some t => rc = MQTT_SUCCESS /\ table ks' = t
    | None => rc = FAILURE /\ c' = c /\ ks' = ks
    end.
Proof. apply MQTTSetMessageHandler_run. Qed.

(** A second filter is added to the table. *)
Lemma MQTTSetMessageHandler_refines_witness :
  let m : mem := {[4%positive := [97; 0]; 5%positive := [98; 0]]} in
  let c := set_messageHandlers
             (mkHandlers (Ptr 4 0) 7 :: replicate 4 (mkHandlers NULL 0)) mqttClient in
  let n := mkPeer (mkWire [] [] [] 0) 0 [] in
  exists rc c' ks', MQTTSetMessageHandler (Ptr 5 0) 8 (c, (m, n)) = Ret (rc, (c', (m, n))) /\
    handlers_repr m c' ks' /\ length ks' = MAX_MESSAGE_HANDLERS /\
    match set_handler [98] 8 (table [Some ([97], 7); None; None; None; None]) with
    | Some t => rc = MQTT_SUCCESS /\ table ks' = t
    | None => rc = FAILURE /\ c' = c /\ ks' = [Some ([97], 7); None; None; None; None]
    end.
Proof.
  intros m c n.
  apply (MQTTSetMessageHandler_refines c m n [Some ([97], 7); None; None; None; None] (Ptr 5 0) [98] 8).
  - split.
    + repeat constructor; simpl; [by exists []|set_solver].
    + repeat constructor. set_solver.
  - reflexivity.
  - split; [by exists []|set_solver].
Defined.



(** C14: the connected flag is a state machine with one way up: a step that takes the
    client from not connected to connected is a call of MQTTConnect that returned 0, and
    it leaves no ping outstanding; MQTTConnect on a connected client fails and changes
    nothing. *)
Theorem connected_by_connect {N} `{!Platform N} local_i passes garbage (w w' : world N) :
  (isconnected w.1 = 0 -> api_step local_i passes garbage w w' ->
   isconnected w'.1 = 0 \/
   (isconnected w'.1 = 1 /\ ping_outstanding w'.1 = 0 /\
    exists o d d', MQTTConnectWithResults local_i passes garbage o d w = Ret ((MQTT_SUCCESS, d'), w'))) /\
  (isconnected w.1 = 1 -> forall o d, MQTTConnectWithResults local_i passes garbage o d w = Ret ((FAILURE, d), w)).
Proof.
  split.
  - intros H0 Hstep. destruct (api_step_cases _ _ _ _ _ Hstep) as [(c1 & o & d & d' & E & Hw & HI)|HI].
    + right. rewrite Hw. split_and!; [done|done|eauto].
    + left. by apply (HI _ disconnected_inert).
  - destruct w as [c s]. simpl. intros H1 o d. unfold MQTTConnectWithResults.
    erewrite bind_ret by reflexivity. cbv beta. rewrite H1. done.
Qed.

(** C15: packet ids are handed out in 1..65535, never 0, and no id comes back before
    65535 calls of getNextPacketId. *)
Theorem packet_ids_distinct {N} `{!Platform N} c (s : mem * N) k :
  1 <= next_packetid c <= MAX_PACKET_ID -> Z.of_nat k <= MAX_PACKET_ID ->
  exists ids c', take_ids k (c, s) = Ret (ids, (c', s)) /\ length ids = k /\ NoDup ids /\
    Forall (fun id => 1 <= id <= MAX_PACKET_ID) ids.
Proof.
  intros Hid Hk. eexists _, _. split; [apply (take_ids_run k 0 (next_packetid c)); [done|]|].
  { unfold nth_id. unfold MAX_PACKET_ID in *. rewrite Z.mod_small; lia. }
  split; [by rewrite length_map, length_seq|]. split.
  - apply NoDup_fmap_2_strong; [|apply NoDup_seq]. intros i j Hi Hj. rewrite elem_of_seq in Hi, Hj.
    unfold nth_id, MAX_PACKET_ID in *. intros E. Z.div_mod_to_equations; lia.
  - apply Forall_forall. intros x Hx. apply list_elem_of_fmap in Hx as (i & -> & _).
    unfold nth_id, MAX_PACKET_ID.
    pose proof (Z.mod_pos_bound (next_packetid c - 1 + Z.of_nat (0 + i)) 65535 ltac:(lia)). lia.
Qed.

(** The ids wrap around from 65535 to 1. *)
Lemma packet_ids_distinct_witness :
  let n := mkPeer (mkWire [] [] [] 0) 0 [] in
  let w : world peer := (set_next_packetid 65534 mqttClient, (∅, n)) in
  exists ids c', take_ids 3 w = Ret (ids, (c', (∅, n))) /\ length ids = 3%nat /\ NoDup ids /\
    Forall (fun id => 1 <= id <= MAX_PACKET_ID) ids.
Proof.
  intros n w. apply (packet_ids_distinct (set_next_packetid 65534 mqttClient) (∅, n) 3).
  - vm_compute. split; discriminate.
  - vm_compute. discriminate.
Defined.
