(* ===== verification/ClientIO.v ===== *)
(** * The client on a working connection

    What the operations of MQTTClient.c do when the platform keeps its laws and is
    online: the packets they send, the packets they consume, the messages they
    deliver and the state they leave, each in terms of the wire format. *)

From S2P Require Import Prelude Memory Wire Packet PacketRead Publish Connect Subscribe Topic Timer Network Client Transport ClientInv.

(** The timer has not expired at time [T]. *)
Definition alive (timer : Timer) (T : Z) : Prop := normal (end_time timer) /\ T < micros (end_time timer).

Section platform.
Context {N : Type} `{!Platform N} `{!PlatformLaws N}.

(** In at most [k] ticks the platform received [ins], sent [outs] and delivered
    [dels], and is still online. *)
Record evolves (k : Z) (ins outs : list Z) (dels : list delivery) (n n' : N) : Prop := mkEvolves {
  ev_in : inbox n = ins ++ inbox n';
  ev_out : outbox n' = outbox n ++ outs;
  ev_delivered : delivered n' = delivered n ++ dels;
  ev_clock : clock n <= clock n' <= clock n + k * tick;
  ev_online : online n'
}.

#[local] Arguments ev_online {k ins outs dels n n'}.

Lemma evolves_trans k1 k2 i1 i2 o1 o2 d1 d2 n n1 n2 :
  evolves k1 i1 o1 d1 n n1 -> evolves k2 i2 o2 d2 n1 n2 ->
  evolves (k1 + k2) (i1 ++ i2) (o1 ++ o2) (d1 ++ d2) n n2.
Proof.
  intros [I1 O1 D1 C1 _] [I2 O2 D2 C2 N2]. split; [..|done].
  - by rewrite I1, I2, app_assoc.
  - by rewrite O2, O1, app_assoc.
  - by rewrite D2, D1, app_assoc.
  - lia.
Qed.

Lemma ev_next {k i o d n n' rest} : evolves k i o d n n' -> inbox n = i ++ rest -> inbox n' = rest.
Proof. intros V Hi. rewrite (ev_in _ _ _ _ _ _ V) in Hi. by apply app_inv_head in Hi. Qed.

Lemma evolves_refl n : online n -> evolves 0 [] [] [] n n.
Proof. intros. split; [done|by rewrite app_nil_r..|lia|done]. Qed.

(** More time, and what was received, sent and delivered put differently. *)
Lemma evolves_eq k k' i i' o o' d d' n n' :
  evolves k i o d n n' -> k <= k' -> i = i' -> o = o' -> d = d' -> evolves k' i' o' d' n n'.
Proof.
  intros [? ? ? ? ?] Hk -> -> ->. pose proof tick_pos. split; try done. nia.
Qed.

(** ** The clock *)

Lemma now_run c m n :
  online n -> exists t n', now (c, (m, n)) = Ret (t, (c, (m, n'))) /\
    normal t /\ clock n < micros t /\ micros t = clock n' /\ evolves 1 [] [] [] n n'.
Proof.
  intros Hon. destruct (gettimeofday_law n) as (t & n' & E & Ht & Hlt & Hc & Hi & Ho & Hd & Hn).
  destruct (Hn Hon) as [Hon' Hle]. exists t, n'. split; [|split; [done|split; [done|split; [done|]]]].
  - unfold now, io. by erewrite on_transport_run.
  - split; [done|by rewrite app_nil_r..|lia|done].
Qed.

Lemma timer_expired_run timer c m n :
  online n -> alive timer (clock n + tick) ->
  exists n', timer_expired timer (c, (m, n)) = Ret (false, (c, (m, n'))) /\ evolves 1 [] [] [] n n'.
Proof.
  intros Hon [Hnt Ht]. destruct (now_run c m n Hon) as (t & n' & E & Hn & Hlt & Hc & Hev). exists n'. split; [|done].
  unfold timer_expired. erewrite bind_ret by exact E. unfold mret, M_ret. do 2 f_equal.
  rewrite TimerIsExpired_micros by done. destruct Hev. lia.
Qed.

(** Whether it has expired or not. *)
Lemma timer_expired_any timer c m n :
  online n -> exists b n', timer_expired timer (c, (m, n)) = Ret (b, (c, (m, n'))) /\ evolves 1 [] [] [] n n' /\
    (normal (end_time timer) -> b = (micros (end_time timer) <=? clock n')).
Proof.
  intros Hon. destruct (now_run c m n Hon) as (t & n' & E & Hn & Hlt & Hc & Hev).
  eexists _, n'. split; [unfold timer_expired; erewrite bind_ret by exact E; reflexivity|]. split; [done|].
  intros Hnt. rewrite <- Hc. by apply TimerIsExpired_micros.
Qed.

Lemma timer_left_run timer c m n :
  online n ->
  exists v n', timer_left timer (c, (m, n)) = Ret (v, (c, (m, n'))) /\ evolves 1 [] [] [] n n'.
Proof.
  intros Hon. destruct (now_run c m n Hon) as (t & n' & E & _ & _ & _ & Hev). eexists _, n'. split; [|done].
  unfold timer_left. erewrite bind_ret by exact E. done.
Qed.

Lemma countdown_run s c m n :
  online n -> 0 <= s < 4294967296 ->
  exists t n', countdown s (c, (m, n)) = Ret (t, (c, (m, n'))) /\ evolves 1 [] [] [] n n' /\
    alive t (clock n + s * 1000000).
Proof.
  intros Hon Hs. destruct (now_run c m n Hon) as (t & n' & E & Hn & Hlt & Hc & Hev).
  destruct (TimerCountdown_micros s t Hn) as [Ht Hnt]. exists (TimerCountdown s t), n'. split_and!; [|done|split; [done|lia]].
  unfold countdown, to_uint. rewrite Z.mod_small by lia. by erewrite bind_ret by exact E.
Qed.

Lemma countdown_ms_run ms c m n :
  online n -> 0 <= ms < 4294967296 ->
  exists t n', countdown_ms ms (c, (m, n)) = Ret (t, (c, (m, n'))) /\ evolves 1 [] [] [] n n' /\
    alive t (clock n + ms * 1000).
Proof.
  intros Hon Hs. destruct (now_run c m n Hon) as (t & n' & E & Hn & Hlt & Hc & Hev).
  destruct (TimerCountdownMS_micros ms t ltac:(lia) Hn) as [Ht Hnt].
  exists (TimerCountdownMS ms t), n'. split_and!; [|done|split; [done|lia]].
  unfold countdown_ms, to_uint. rewrite Z.mod_small by lia. by erewrite bind_ret by exact E.
Qed.

(** ** Reads, writes and memory *)

Lemma memory_run {A} (f : M mem A) c m (n : N) a m' :
  f m = Ret (a, m') -> memory f (c, (m, n)) = Ret (a, (c, (m', n))).
Proof. intros H. unfold memory, io. by erewrite on_mem_run. Qed.

Lemma client_run c (s : mem * N) : client (c, s) = Ret (c, (c, s)).
Proof. done. Qed.

Lemma update_run f c (s : mem * N) : update f (c, s) = Ret (tt, (f c, s)).
Proof. done. Qed.

Lemma read_run p timeout c m n bs rest :
  online n -> inbox n = bs ++ rest -> 0 < Z.of_nat (length bs) <= INT_MAX -> room m p (Z.of_nat (length bs)) ->
  exists n', io (mqttread p (Z.of_nat (length bs)) timeout) (c, (m, n)) =
    Ret (Z.of_nat (length bs), (c, (mwrite m p bs, n'))) /\ evolves 1 bs [] [] n n'.
Proof.
  intros Hon Hin Hlen Hr.
  destruct (mqttread_law p (Z.of_nat (length bs)) timeout m n Hlen Hr) as (r & m' & n' & E & Ho & Hd & Hres & Hc & Hn).
  destruct Hn as (-> & Hon' & Hle); [done|rewrite Hin, length_app; lia|].
  destruct Hres as [(_ & bs' & Hl & Hin' & ->)|[? _]]; [|lia].
  rewrite Hin in Hin'. apply app_inj_1 in Hin' as [<- Hrest]; [|lia].
  exists n'. split; [unfold io; by rewrite E|]. split; [congruence|by rewrite app_nil_r..|lia|done].
Qed.

Lemma write_run p timeout c m n bs :
  online n -> bytes_at m p bs -> 0 < Z.of_nat (length bs) <= INT_MAX ->
  exists n', io (mqttwrite p (Z.of_nat (length bs)) timeout) (c, (m, n)) =
    Ret (Z.of_nat (length bs), (c, (m, n'))) /\ evolves 1 [] bs [] n n'.
Proof.
  intros Hon Hbs Hlen.
  destruct (mqttwrite_law p bs timeout m n Hbs Hlen) as (r & n' & E & Hi & Hd & Hres & Hc & Hn).
  destruct Hn as (-> & Hon' & Hle); [done|]. destruct Hres as [[_ Ho]|[? _]]; [|lia].
  exists n'. split; [unfold io; by rewrite E|]. split; [done|done|by rewrite app_nil_r|lia|done].
Qed.
End platform.

#[global] Arguments ev_online {N _ _ k ins outs dels n n'}.
#[global] Arguments evolves_trans {N _ _ k1 k2 i1 i2 o1 o2 d1 d2 n n1 n2}.

(** The blocks of the two buffers and of the local variable of decodePacket. *)
Section client_io.
Context {N : Type} `{!Platform N} `{!PlatformLaws N}.
Context (bb rb lb : positive) (passes : nat) (garbage : Z).

Record layout (c : MQTTClient) (m : mem) : Prop := mkLayout {
  ly_buf : buf c = Ptr bb 0;
  ly_readbuf : readbuf c = Ptr rb 0;
  ly_buf_size : 4 <= buf_size c <= INT_MAX;
  ly_readbuf_size : 5 <= readbuf_size c <= INT_MAX;
  ly_keepalive : 0 <= c_keepAliveInterval c < 4294967296;
  ly_buf_room : room m (Ptr bb 0) (buf_size c);
  ly_readbuf_room : room m (Ptr rb 0) (readbuf_size c);
  ly_local : room m (Ptr lb 0) 1;
  ly_distinct : bb ≠ rb /\ bb ≠ lb /\ rb ≠ lb;
  ly_own : (bb ∉ handler_blocks) /\ (rb ∉ handler_blocks) /\ (lb ∉ handler_blocks);
  ly_ready : handler_ready m
}.

Lemma layout_mwrite c m b o bs :
  layout c m -> room m (Ptr b o) (Z.of_nat (length bs)) -> b ∉ handler_blocks ->
  layout c (mwrite m (Ptr b o) bs).
Proof.
  intros [? ? ? ? ? ? ? ? ? ? ?] Hr Hb. split; try done; try (rewrite room_mwrite by (done || lia); done).
  eapply handler_ready_frame; [|done]. intros b' Hb'. simpl. rewrite lookup_alter_ne; [done|]. by intros ->.
Qed.

(** Only the sizes, the pointers and the interval matter. *)
Lemma layout_client c c' m :
  layout c m -> client_config c' = client_config c -> c_keepAliveInterval c' = c_keepAliveInterval c ->
  layout c' m.
Proof.
  intros [? ? ? ? ? ? ? ? ? ? ?] Hc E. unfold client_config in Hc. injection Hc as E1 E2 E3 E4 _ _.
  split; rewrite ?E, ?E1, ?E2, ?E3, ?E4; done.
Qed.

(** ** sendPacket *)

Lemma sendPacket_run timer c m n bs :
  (2 <= passes)%nat -> online n -> bytes_at m (buf c) bs -> 0 < Z.of_nat (length bs) <= INT_MAX ->
  0 <= c_keepAliveInterval c < 4294967296 -> alive timer (clock n + tick) ->
  exists t n', sendPacket passes (Z.of_nat (length bs)) timer (c, (m, n)) =
    Ret (MQTT_SUCCESS, (set_last_sent t c, (m, n'))) /\
    evolves 4 [] bs [] n n' /\ alive t (clock n + c_keepAliveInterval c * 1000000).
Proof.
  intros Hp Hon Hbs Hlen Hk Ht.
  destruct passes as [|[|p]]; [lia|lia|]. unfold sendPacket.
  destruct (timer_expired_run timer c m n Hon Ht) as (n1 & E1 & V1).
  destruct (timer_left_run timer c m n1 (ev_online V1)) as (v & n2 & E2 & V2).
  destruct (write_run (buf c) v c m n2 bs (ev_online V2) Hbs Hlen) as (n3 & E3 & V3).
  destruct (countdown_run (c_keepAliveInterval c) c m n3 (ev_online V3) Hk)
    as (t & n4 & E4 & V4 & Hnt & Hct).
  pose proof (evolves_trans V1 V2) as V12.
  pose proof (evolves_trans V12 V3) as V13.
  exists t, n4. split; [|split; [|]].
  - cbn [send_loop]. replace (0 <? Z.of_nat (length bs)) with true by lia.
    rewrite !bind_assoc. erewrite bind_ret by exact E1. cbv iota.
    rewrite !bind_assoc. erewrite bind_ret by apply client_run. rewrite !bind_assoc.
    erewrite bind_ret by exact E2. rewrite !bind_assoc, padd_0. erewrite bind_ret by exact E3.
    replace (Z.of_nat (length bs) <? 0) with false by lia. rewrite !bind_assoc.
    erewrite bind_ret by (apply int_result_ok; unfold INT_MIN, INT_MAX in *; lia).
    rewrite Z.add_0_l, Z.ltb_irrefl. rewrite !bind_assoc. erewrite bind_ret by apply mret_run. cbv iota.
    erewrite bind_ret by apply mret_run. rewrite Z.eqb_refl. erewrite bind_ret by apply client_run.
    erewrite bind_ret by exact E4. done.
  - eapply evolves_eq; [apply (evolves_trans V13 V4)|lia|done| |done]. by rewrite app_nil_r.
  - split; [done|]. destruct V13, V4. lia.
Qed.

(** On any platform, online or not, the packet is sent whole or the result is
    FAILURE. *)
Lemma now_any c m n : exists t n', now (c, (m, n)) = Ret (t, (c, (m, n'))) /\
  inbox n' = inbox n /\ outbox n' = outbox n /\ delivered n' = delivered n.
Proof.
  destruct (gettimeofday_law n) as (t & n' & E & _ & _ & _ & Hi & Ho & Hd & _).
  exists t, n'. split; [|done]. unfold now, io. by erewrite on_transport_run.
Qed.

Lemma sendPacket_any timer c m n bs :
  (2 <= passes)%nat -> bytes_at m (buf c) bs -> 0 < Z.of_nat (length bs) <= INT_MAX ->
  exists rc c' n', sendPacket passes (Z.of_nat (length bs)) timer (c, (m, n)) = Ret (rc, (c', (m, n'))) /\
    inbox n' = inbox n /\ delivered n' = delivered n /\
    ((rc = MQTT_SUCCESS /\ outbox n' = outbox n ++ bs /\ exists t, c' = set_last_sent t c) \/
     (rc = FAILURE /\ c' = c /\ exists k, outbox n' = outbox n ++ take k bs)).
Proof.
  intros Hp Hbs Hlen. destruct passes as [|[|p]]; [lia|lia|]. unfold sendPacket. cbn [send_loop].
  replace (0 <? Z.of_nat (length bs)) with true by lia. unfold timer_expired, timer_left, countdown.
  destruct (now_any c m n) as (t1 & n1 & E1 & I1 & O1 & D1). rewrite ?bind_assoc. erewrite bind_ret by exact E1.
  rewrite ?bind_assoc. erewrite bind_ret by apply mret_run.
  destruct (TimerIsExpired timer t1); cbv iota.
  { exists FAILURE, c, n1. erewrite bind_ret by apply mret_run.
    replace (0 =? Z.of_nat (length bs)) with false by lia. split_and!; try done. right. split_and!; try done.
    exists 0%nat. by rewrite take_0, app_nil_r. }
  rewrite ?bind_assoc. erewrite bind_ret by apply client_run. rewrite ?bind_assoc.
  destruct (now_any c m n1) as (t2 & n2 & E2 & I2 & O2 & D2). erewrite bind_ret by exact E2.
  rewrite ?bind_assoc. erewrite bind_ret by apply mret_run. rewrite ?bind_assoc, padd_0.
  destruct (mqttwrite_law (buf c) bs (TimerLeftMS timer t2) m n2 Hbs Hlen) as (r & n3 & E3 & I3 & D3 & Hres & _).
  erewrite bind_ret by (unfold io; rewrite E3; reflexivity).
  destruct Hres as [[-> O3]|[-> [k O3]]].
  - replace (Z.of_nat (length bs) <? 0) with false by lia. rewrite ?bind_assoc.
    erewrite bind_ret by (apply int_result_ok; unfold INT_MIN, INT_MAX in *; lia).
    rewrite Z.add_0_l, Z.ltb_irrefl. rewrite ?bind_assoc. erewrite bind_ret by apply mret_run. cbv iota.
    erewrite bind_ret by apply mret_run. rewrite Z.eqb_refl. erewrite bind_ret by apply client_run.
    destruct (now_any c m n3) as (t4 & n4 & E4 & I4 & O4 & D4). rewrite ?bind_assoc. erewrite bind_ret by exact E4.
    eexists MQTT_SUCCESS, _, n4. split; [reflexivity|]. split_and!; [congruence|congruence|].
    left. split_and!; [done|congruence|by eexists].
  - change (-1 <? 0) with true. cbv iota. erewrite bind_ret by apply mret_run.
    replace (0 =? Z.of_nat (length bs)) with false by lia. exists FAILURE, c, n3. split; [done|].
    split_and!; [congruence|congruence|]. right. split_and!; [done|done|]. exists k. congruence.
Qed.

(** ** readPacket *)

(** [m'] differs from [m] in the blocks of [bs] only. *)
Definition only (bs : list positive) (m m' : mem) : Prop := forall b, b ∉ bs -> m' !! b = m !! b.

Lemma only_mwrite b o bs m : only [b] m (mwrite m (Ptr b o) bs).
Proof. intros b' Hb'. simpl. rewrite lookup_alter_ne; [done|]. set_solver. Qed.

Lemma only_trans l1 l2 m m1 m2 : only l1 m m1 -> only l2 m1 m2 -> only (l1 ++ l2) m m2.
Proof. intros H1 H2 b Hb. rewrite not_elem_of_app in Hb. rewrite H2, H1; tauto. Qed.

Lemma only_mono l1 l2 m m' : only l1 m m' -> l1 ⊆ l2 -> only l2 m m'.
Proof. intros H Hl b Hb. apply H. set_solver. Qed.

Lemma only_bytes_at l m m' b o bs : only l m m' -> b ∉ l -> bytes_at m (Ptr b o) bs -> bytes_at m' (Ptr b o) bs.
Proof. intros H Hb [t Ht]. exists t. unfold tail_at in *. by rewrite H. Qed.

(** One digit of the remaining length. *)
Lemma decodePacket_step fuel len value x timeout c m n rest :
  online n -> room m (Ptr lb 0) 1 -> inbox n = x :: rest -> is_byte x ->
  0 <= len <= 3 -> 0 <= value < 128 ^ len ->
  exists n', evolves 1 [x] [] [] n n' /\
  decodePacket_loop (Ptr lb 0) (S fuel) (128 ^ len) len value timeout (c, (m, n)) =
  let value' := value + x mod 128 * 128 ^ len in
  let s' := (c, (mwrite m (Ptr lb 0) [x], n')) in
  if 128 <=? x
  then decodePacket_loop (Ptr lb 0) fuel (128 ^ (len + 1)) (len + 1) value' timeout s'
  else Ret ((len + 1, value'), s').
Proof.
  intros Hon Hr Hin Hx Hl Hv. destruct (pow128_step len Hl) as (? & Hp & ?).
  destruct (read_run (Ptr lb 0) timeout c m n [x] rest Hon Hin) as (n' & E & V); [simpl; unfold INT_MAX; lia|done|].
  exists n'. split; [done|]. cbn [decodePacket_loop]. unfold MAX_NO_OF_REMAINING_LENGTH_BYTES.
  replace (4 <? len + 1) with false by lia. erewrite bind_ret by exact E.
  change (negb (Z.of_nat (length [x]) =? 1)) with false. cbv iota.
  erewrite bind_ret by (apply memory_run; eapply load_at, bytes_at_mwrite_eq; exact Hr).
  rewrite land_127, (land_128 x Hx). pose proof (Z.mod_pos_bound x 128 ltac:(lia)).
  erewrite bind_ret by (apply int_result_ok; unfold INT_MIN, INT_MAX; nia).
  erewrite bind_ret by (apply int_result_ok; unfold INT_MIN, INT_MAX; lia).
  rewrite Hp, (Z.mul_comm 128). cbv zeta. by destruct (128 <=? x).
Qed.

Lemma decodePacket_digits k fuel len value v timeout c m n rest :
  k ≠ 0%nat -> (k <= fuel)%nat -> 0 <= len -> len + Z.of_nat k <= 4 ->
  0 <= value < 128 ^ len -> 0 <= v < 128 ^ Z.of_nat k ->
  online n -> room m (Ptr lb 0) 1 -> inbox n = rl_digits k v ++ rest ->
  exists m' n', decodePacket_loop (Ptr lb 0) fuel (128 ^ len) len value timeout (c, (m, n)) =
    Ret ((len + Z.of_nat (length (rl_digits k v)), value + v * 128 ^ len), (c, (m', n'))) /\
    evolves (Z.of_nat (length (rl_digits k v))) (rl_digits k v) [] [] n n' /\
    only [lb] m m' /\ room m' (Ptr lb 0) 1.
Proof.
  revert fuel len value v m n. induction k as [|k IH]; intros fuel len value v m n Hk Hf Hl Hl' Hv Hn Hon Hr Hin; [done|].
  destruct fuel as [|fuel]; [lia|]. rewrite Nat2Z.inj_succ, Z.pow_succ_r in Hn by lia.
  cbn [rl_digits] in *. destruct (Z.ltb_spec v 128) as [Hlt|Hge].
  - destruct (decodePacket_step fuel len value v timeout c m n rest) as (n' & V & E); [done|done|done|unfold is_byte; lia|lia|done|].
    eexists _, n'. split; [rewrite E|].
    { cbv zeta. replace (128 <=? v) with false by lia. rewrite Z.mod_small by lia. reflexivity. }
    split; [done|]. split; [apply only_mwrite|]. by rewrite room_mwrite.
  - pose proof (Z.mod_pos_bound v 128 ltac:(lia)).
    assert (0 < v / 128 < 128 ^ Z.of_nat k).
    { split; [apply Z.div_str_pos; lia|]. apply Z.div_lt_upper_bound; lia. }
    destruct (decodePacket_step fuel len value (v mod 128 + 128) timeout c m n (rl_digits k (v / 128) ++ rest))
      as (n1 & V1 & E1); [done|done|done|unfold is_byte; lia|lia|done|].
    pose proof (decode_value_step len value (v mod 128 + 128) ltac:(lia) Hv) as Hv'.
    destruct (IH fuel (len + 1) (value + (v mod 128 + 128) mod 128 * 128 ^ len) (v / 128)
      (mwrite m (Ptr lb 0) [v mod 128 + 128]) n1) as (m' & n' & E2 & V2 & Ho & Hr');
      [intros ->; simpl in *; lia|lia|lia|lia|done|lia|exact (ev_online V1)|by rewrite room_mwrite
      |exact (ev_next V1 Hin)|].
    exists m', n'. split; [|split; [|split]].
    + rewrite E1. cbv zeta. replace (128 <=? v mod 128 + 128) with true by lia. rewrite E2.
      cbn [length]. do 3 f_equal; [lia|]. destruct (pow128_step len) as (? & -> & ?); [lia|].
      replace ((v mod 128 + 128) mod 128) with (v mod 128) by (Z.div_mod_to_equations; lia).
      rewrite (Z.div_mod v 128) at 3 by lia. ring.
    + eapply evolves_eq; [exact (evolves_trans V1 V2)|cbn [length]; lia|done|done|done].
    + eapply only_mono; [eapply only_trans; [apply only_mwrite|exact Ho]|]. set_solver.
    + done.
Qed.

Lemma decodePacket_run v timeout c m n rest :
  0 <= v <= MAX_REMAINING -> online n -> room m (Ptr lb 0) 1 -> inbox n = remaining_length v ++ rest ->
  exists m' n', decodePacket (Ptr lb 0) timeout (c, (m, n)) = Ret ((rl_size v, v), (c, (m', n'))) /\
    evolves (rl_size v) (remaining_length v) [] [] n n' /\ only [lb] m m' /\ room m' (Ptr lb 0) 1.
Proof.
  intros Hv Hon Hr Hin. rewrite <- (rl_digits_remaining 4) in * by (done || lia).
  destruct (decodePacket_digits 4 5 0 0 v timeout c m n rest) as (m' & n' & E & V & Ho & Hr'); try done; try lia.
  { change (128 ^ Z.of_nat 4) with 268435456. unfold MAX_REMAINING in Hv. lia. }
  assert (Z.of_nat (length (rl_digits 4 v)) = rl_size v) as El.
  { by rewrite rl_digits_remaining, length_remaining_length by (done || lia). }
  exists m', n'. rewrite El in *. split; [|done]. unfold decodePacket. change 1 with (128 ^ 0) at 1. rewrite E.
  do 3 f_equal. lia.
Qed.

Lemma only_room l m m' b o k : only l m m' -> b ∉ l -> room m (Ptr b o) k -> room m' (Ptr b o) k.
Proof. intros H Hb (t & Ht & Hk). exists t. split; [|done]. unfold tail_at in *. by rewrite H. Qed.

Lemma layout_only c m m' : layout c m -> only [lb] m m' -> room m' (Ptr lb 0) 1 -> layout c m'.
Proof.
  intros [? ? ? ? ? ? ? ? (? & ? & ?) (? & ? & Hlb) ?] Ho Hr. split; try done.
  - eapply only_room; [done| |done]. set_solver.
  - eapply only_room; [done| |done]. set_solver.
  - eapply handler_ready_frame; [|done]. intros b Hb. apply Ho. set_solver.
Qed.

(** readPacket once the remaining length is known and stored. *)
Definition read_rest (c : MQTTClient) (timer : Timer) (rem_len size : Z) : M (world N) Z :=
  let len := 1 + size in
  if to_size (readbuf_size c - len) <? to_size rem_len then mret BUFFER_OVERFLOW
  else
    short ← (if 0 <? rem_len then
               left ← timer_left timer;
               r ← io (mqttread (padd (readbuf c) len) rem_len left);
               mret (negb (r =? rem_len))
             else mret false);
    if (short : bool) then mret 0
    else
      h ← memory (load (readbuf c));
      (if 0 <? c_keepAliveInterval c
       then t ← countdown (c_keepAliveInterval c); update (set_last_received t)
       else mret tt);;
      mret (MQTTHeader.type h).

Lemma readPacket_start timer c m n h L rest :
  online n -> layout c m -> inbox n = h :: remaining_length L ++ rest -> 0 <= L <= MAX_REMAINING ->
  exists m' n', readPacket (Ptr lb 0) timer (c, (m, n)) = read_rest c timer L (rl_size L) (c, (m', n')) /\
    evolves (3 + rl_size L) (h :: remaining_length L) [] [] n n' /\ layout c m' /\ only [lb; rb] m m' /\
    bytes_at m' (Ptr rb 0) (h :: remaining_length L).
Proof.
  intros Hon Hly Hin HL. pose proof Hly as [Hb Hrb Hbs Hrbs Hka Hbr Hrr Hlr (D1 & D2 & D3) (O1 & O2 & O3) Hrd].
  pose proof (rl_size_range L) as Hsz.
  destruct (timer_left_run timer c m n Hon) as (v1 & n1 & E1 & V1).
  destruct (read_run (Ptr rb 0) v1 c m n1 [h] (remaining_length L ++ rest)) as (n2 & E2 & V2);
    [exact (ev_online V1)|exact (ev_next V1 Hin)|simpl; unfold INT_MAX; lia
    |eapply room_le; [done|simpl; lia]|].
  set (m1 := mwrite m (Ptr rb 0) [h]) in *.
  assert (layout c m1) as Hly1 by (apply layout_mwrite; [done|eapply room_le; [done|simpl; lia]|done]).
  assert (bytes_at m1 (Ptr rb 0) [h]) as Hh1 by (apply bytes_at_mwrite_eq; eapply room_le; [done|simpl; lia]).
  destruct (timer_left_run timer c m1 n2 (ev_online V2)) as (v3 & n3 & E3 & V3).
  pose proof (evolves_trans (evolves_trans V1 V2) V3) as V123.
  destruct (decodePacket_run L v3 c m1 n3 rest) as (m2 & n4 & E4 & V4 & Ho & Hlr2); [done|exact (ev_online V3)
    |by apply ly_local in Hly1|exact (ev_next V123 Hin)|].
  assert (layout c m2) as Hly2 by (by eapply layout_only).
  assert (bytes_at m2 (Ptr rb 0) [h]) as Hh2 by (eapply only_bytes_at; [done| |done]; set_solver).
  assert (room m2 (Ptr rb 0) (1 + rl_size L)) as Hr2 by (eapply room_le; [apply (ly_readbuf_room _ _ Hly2)|lia]).
  assert (room m2 (Ptr rb 1) (rl_size L)) as Hr21.
  { pose proof (room_padd _ _ _ 1 Hr2 ltac:(lia)) as Hr. simpl in Hr. eapply room_le; [exact Hr|lia]. }
  assert (mwrite m2 (Ptr rb 1) (remaining_length L) = mwrite m2 (Ptr rb 0) (h :: remaining_length L)) as Em.
  { rewrite <- (mwrite_cons _ _ h); [by rewrite (mwrite_same _ _ [h] Hh2)|].
    eapply room_le; [exact Hr2|]. rewrite Nat2Z.inj_succ, length_remaining_length. lia. }
  exists (mwrite m2 (Ptr rb 0) (h :: remaining_length L)), n4. split; [|split; [|split; [|split]]].
  - unfold readPacket. erewrite bind_ret by apply client_run. erewrite bind_ret by exact E1.
    rewrite Hrb. erewrite bind_ret by exact E2. change (negb (Z.of_nat (length [h]) =? 1)) with false. cbv iota.
    erewrite bind_ret by exact E3. erewrite bind_ret by exact E4. cbv iota beta.
    erewrite bind_ret by (apply memory_run, MQTTPacket_encode_spec; done). 
    change (padd (Ptr rb 0) 1) with (Ptr rb 1). rewrite Em.
    unfold read_rest. by rewrite Hrb.
  - eapply evolves_eq; [exact (evolves_trans V123 V4)|lia|done|done|done].
  - apply layout_mwrite; [done| |done]. eapply room_le; [exact Hr2|].
    cbn [length]. rewrite Nat2Z.inj_succ, length_remaining_length. lia.
  - eapply only_mono; [eapply only_trans; [eapply only_trans; [apply only_mwrite|exact Ho]|apply only_mwrite]|].
    set_solver.
  - apply bytes_at_mwrite_eq. eapply room_le; [exact Hr2|]. cbn [length].
    rewrite Nat2Z.inj_succ, length_remaining_length. lia.
Qed.

(** What refreshing the receive timer does to the client object. *)
Definition received (t : Timer) (c : MQTTClient) : MQTTClient :=
  if 0 <? c_keepAliveInterval c then set_last_received t c else c.

Lemma received_config t c :
  client_config (received t c) = client_config c /\ c_keepAliveInterval (received t c) = c_keepAliveInterval c.
Proof. unfold received. by destruct (0 <? c_keepAliveInterval c). Qed.

Lemma read_body_run timer c m n body rest p :
  online n -> inbox n = body ++ rest -> Z.of_nat (length body) <= INT_MAX -> room m p (Z.of_nat (length body)) ->
  let L := Z.of_nat (length body) in
  exists n', (if 0 <? L then left ← timer_left timer; r ← io (mqttread p L left); mret (negb (r =? L))
              else mret false) (c, (m, n)) = Ret (false, (c, (mwrite m p body, n'))) /\
    evolves 2 body [] [] n n'.
Proof.
  intros Hon Hin Hmax Hr L. destruct (Z.ltb_spec 0 L) as [HL|HL].
  - destruct (timer_left_run timer c m n Hon) as (v & n2 & F2 & W2).
    destruct (read_run p v c m n2 body rest (ev_online W2)) as (n3 & F3 & W3);
      [exact (ev_next W2 Hin)|lia|done|].
    exists n3. split; [|exact (evolves_trans W2 W3)].
    erewrite bind_ret by exact F2. erewrite bind_ret by exact F3. fold L. by rewrite Z.eqb_refl.
  - assert (body = []) as -> by (destruct body; [done|simpl in *; lia]). exists n. rewrite mwrite_nil.
    split; [done|]. eapply evolves_eq; [by apply evolves_refl|lia|done..].
Qed.

(** A packet that fits is read whole into the buffer, and its type is the result. *)
Lemma readPacket_run timer c m n h body rest :
  online n -> layout c m -> inbox n = frame h body ++ rest ->
  Z.of_nat (length body) <= MAX_REMAINING -> Z.of_nat (length (frame h body)) <= readbuf_size c ->
  exists t m' n', readPacket (Ptr lb 0) timer (c, (m, n)) =
    Ret (MQTTHeader.type h, (received t c, (m', n'))) /\
    evolves 10 (frame h body) [] [] n n' /\ layout (received t c) m' /\ only [lb; rb] m m' /\
    bytes_at m' (Ptr rb 0) (frame h body) /\ alive t (clock n + c_keepAliveInterval c * 1000000).
Proof.
  intros Hon Hly Hin Hbody Hfit. set (L := Z.of_nat (length body)) in *.
  assert (inbox n = h :: remaining_length L ++ body ++ rest) as Hin1 by (rewrite Hin; unfold frame; simpl; by rewrite <- app_assoc).
  destruct (readPacket_start timer c m n h L (body ++ rest)) as (m1 & n1 & E1 & V1 & Hly1 & Ho1 & Hb1); [done|done|done|lia|].
  rewrite length_frame in Hfit. fold L in Hfit.
  pose proof Hly as [Hb Hrb Hbs Hrbs Hka Hbr Hrr Hlr (D1 & D2 & D3) (O1 & O2 & O3) Hrd].
  pose proof (rl_size_range L) as Hsz.
  assert (Z.of_nat (length (h :: remaining_length L)) = 1 + rl_size L) as Ehl
    by (cbn [length]; rewrite Nat2Z.inj_succ, length_remaining_length; lia).
  assert (room m1 (Ptr rb (1 + rl_size L)) L) as Hr1.
  { pose proof (room_padd _ _ _ (1 + rl_size L) (ly_readbuf_room _ _ Hly1) ltac:(lia)) as Hr. simpl in Hr.
    eapply room_le; [exact Hr|lia]. }
  destruct (read_body_run timer c m1 n1 body rest (Ptr rb (1 + rl_size L))) as (n2 & E2 & V2);
    [exact (ev_online V1)|exact (ev_next V1 Hin1)|unfold INT_MAX, MAX_REMAINING in *; lia|done|]. fold L in E2.
  set (m2 := mwrite m1 (Ptr rb (1 + rl_size L)) body) in *.
  assert (m2 = mwrite m1 (Ptr rb 0) (frame h body)) as Em2.
  { unfold m2, frame. fold L. change (h :: remaining_length L ++ body) with ((h :: remaining_length L) ++ body).
    rewrite <- mwrite_app, (mwrite_same _ _ _ Hb1); [by rewrite Ehl|].
    eapply room_le; [exact (ly_readbuf_room _ _ Hly1)|]. rewrite Nat2Z.inj_add, Ehl. lia. }
  assert (bytes_at m2 (Ptr rb 0) (frame h body)) as Hb2.
  { rewrite Em2. apply bytes_at_mwrite_eq. rewrite length_frame.
    eapply room_le; [exact (ly_readbuf_room _ _ Hly1)|]. fold L. lia. }
  assert (layout c m2) as Hly2 by (by apply layout_mwrite).
  destruct (countdown_run (c_keepAliveInterval c) c m2 n2 (ev_online V2) Hka) as (t & n3 & E3 & V3 & Ht).
  pose proof (evolves_trans V1 V2) as V12. pose proof (evolves_trans V12 V3) as V13.
  exists t, m2, (if 0 <? c_keepAliveInterval c then n3 else n2). split; [|split; [|split; [|split; [|split]]]].
  - rewrite E1. unfold read_rest. cbv zeta.
    replace (to_size (readbuf_size c - (1 + rl_size L)) <? to_size L) with false
      by (unfold to_size, INT_MAX in *; rewrite !Z.mod_small by lia; lia).
    rewrite Hrb. cbn [padd]. erewrite bind_ret by exact E2. cbv iota.
    erewrite bind_ret by (apply memory_run; eapply load_at; exact Hb2). unfold received.
    destruct (0 <? c_keepAliveInterval c); [|done]. rewrite bind_assoc. by erewrite bind_ret by exact E3.
  - destruct (0 <? c_keepAliveInterval c).
    + eapply evolves_eq; [exact V13|lia| |done|done]. unfold frame. fold L. by rewrite app_nil_r.
    + eapply evolves_eq; [exact V12|lia|done|done|done].
  - destruct (received_config t c). by eapply layout_client.
  - eapply only_mono; [eapply only_trans; [exact Ho1|apply only_mwrite]|]. set_solver.
  - done.
  - destruct Ht as [? ?]. split; [done|]. destruct V12 as [_ _ _ ? _]. lia.
Qed.

(** A packet too large for the buffer is refused before its body is read. *)
Lemma readPacket_too_large timer c m n h L rest :
  online n -> layout c m -> inbox n = h :: remaining_length L ++ rest -> 0 <= L <= MAX_REMAINING ->
  readbuf_size c < 1 + rl_size L + L ->
  exists m' n', readPacket (Ptr lb 0) timer (c, (m, n)) = Ret (BUFFER_OVERFLOW, (c, (m', n'))) /\
    evolves 7 (h :: remaining_length L) [] [] n n' /\ layout c m' /\ only [lb; rb] m m'.
Proof.
  intros Hon Hly Hin HL Hbig. pose proof (rl_size_range L) as Hsz.
  destruct (readPacket_start timer c m n h L rest) as (m1 & n1 & E1 & V1 & Hly1 & Ho1 & Hb1); [done..|].
  exists m1, n1. split; [|split; [|done]].
  - rewrite E1. unfold read_rest. cbv zeta. pose proof (ly_readbuf_size _ _ Hly).
    replace (to_size (readbuf_size c - (1 + rl_size L)) <? to_size L) with true; [done|].
    unfold to_size, INT_MAX, MAX_REMAINING in *. rewrite !Z.mod_small by lia. lia.
  - eapply evolves_eq; [exact V1|lia|done..].
Qed.

(** ** keepalive *)

(** Neither timer has expired at [T], or there is no keep-alive. *)
Definition fresh (c : MQTTClient) (T : Z) : Prop :=
  c_keepAliveInterval c = 0 \/ (alive (last_sent c) T /\ alive (last_received c) T).

Lemma keepalive_quiet c m n :
  online n -> fresh c (clock n + 2 * tick) ->
  exists n', keepalive passes (c, (m, n)) = Ret (MQTT_SUCCESS, (c, (m, n'))) /\ evolves 2 [] [] [] n n'.
Proof.
  intros Hon Hf. unfold keepalive. erewrite bind_ret by apply client_run. pose proof tick_pos.
  destruct (Z.eqb_spec (c_keepAliveInterval c) 0) as [E|E].
  { exists n. split; [done|]. eapply evolves_eq; [by apply evolves_refl|lia|done..]. }
  destruct Hf as [?|[[Ns Hs] [Nr Hr]]]; [done|].
  destruct (timer_expired_run (last_sent c) c m n Hon) as (n1 & E1 & V1); [split; [done|lia]|].
  destruct (timer_expired_run (last_received c) c m n1 (ev_online V1)) as (n2 & E2 & V2).
  { split; [done|]. destruct V1 as [_ _ _ ? _]. lia. }
  exists n2. split; [|exact (evolves_trans V1 V2)].
  erewrite bind_ret by exact E1. cbv iota. erewrite bind_ret by exact E2. done.
Qed.

(** One of the timers has expired. *)
Definition overdue (c : MQTTClient) (T : Z) : Prop :=
  c_keepAliveInterval c ≠ 0 /\ normal (end_time (last_sent c)) /\ normal (end_time (last_received c)) /\
  (micros (end_time (last_sent c)) <= T \/ micros (end_time (last_received c)) <= T).

Lemma overdue_expired c m n :
  online n -> overdue c (clock n) ->
  exists n', (sent ← timer_expired (last_sent c);
              (if (sent : bool) then mret true else timer_expired (last_received c))) (c, (m, n)) =
    Ret (true, (c, (m, n'))) /\ evolves 2 [] [] [] n n'.
Proof.
  intros Hon (_ & Ns & Nr & Ho).
  destruct (timer_expired_any (last_sent c) c m n Hon) as (b & n1 & E1 & V1 & Hb). specialize (Hb Ns).
  destruct b.
  - exists n1. split; [by erewrite bind_ret by exact E1|]. eapply evolves_eq; [exact V1|lia|done..].
  - destruct (timer_expired_any (last_received c) c m n1 (ev_online V1)) as (b & n2 & E2 & V2 & Hb2).
    exists n2. split; [|exact (evolves_trans V1 V2)]. erewrite bind_ret by exact E1. cbv iota. rewrite E2. do 2 f_equal.
    rewrite (Hb2 Nr). destruct V1 as [_ _ _ ? _], V2 as [_ _ _ ? _]. lia.
Qed.

Lemma keepalive_ping c m n :
  (2 <= passes)%nat -> online n -> layout c m -> overdue c (clock n) -> ping_outstanding c = 0 ->
  5 * tick <= 1000000 ->
  exists t n', keepalive passes (c, (m, n)) =
    Ret (MQTT_SUCCESS, (set_ping_outstanding 1 (set_last_sent t c), (mwrite m (Ptr bb 0) (encode (PEmpty PINGREQ)), n'))) /\
    evolves 7 [] (encode (PEmpty PINGREQ)) [] n n' /\ alive t (clock n + c_keepAliveInterval c * 1000000).
Proof.
  intros Hp Hon Hly Hov Hping Htick. pose proof tick_pos.
  pose proof Hly as [Hb _ Hbs _ Hka Hbr _ _ _ _ _].
  destruct (overdue_expired c m n Hon Hov) as (n1 & E1 & V1). destruct Hov as [Hk _].
  destruct (countdown_ms_run 1000 c m n1 (ev_online V1)) as (timer & n2 & E2 & V2 & Ht); [lia|].
  set (pkt := encode (PEmpty PINGREQ)). set (m1 := mwrite m (Ptr bb 0) pkt).
  assert (bytes_at m1 (buf c) pkt) as Hpk by (rewrite Hb; apply bytes_at_mwrite_eq; eapply room_le; [done|simpl; lia]).
  destruct (sendPacket_run timer c m1 n2 pkt) as (t & n3 & E3 & V3 & Ht3);
    [done|exact (ev_online V2)|done|simpl; unfold INT_MAX; lia|done| |].
  { destruct Ht as [? ?]. split; [done|]. destruct V2 as [_ _ _ ? _]. lia. }
  exists t, n3. split; [|split].
  - unfold keepalive. erewrite bind_ret by apply client_run. apply Z.eqb_neq in Hk as ->.
    rewrite <- bind_assoc. erewrite bind_ret by exact E1. cbv iota. rewrite Hping. cbv iota beta.
    change (truthy 0) with false. cbv iota. erewrite bind_ret by exact E2.
    unfold MQTTSerialize_pingreq. rewrite Hb.
    erewrite bind_ret by (apply memory_run, MQTTSerialize_zero_run; [|conv_lia|unfold PINGREQ; lia];
      eapply room_le; [done|conv_lia]).
    change (0 <? 2) with true. cbv iota. erewrite bind_ret by exact E3. done.
  - eapply evolves_eq; [exact (evolves_trans (evolves_trans V1 V2) V3)|lia|done..].
  - destruct Ht3 as [? ?]. split; [done|]. destruct V1 as [_ _ _ ? _], V2 as [_ _ _ ? _]. lia.
Qed.

Lemma keepalive_dead c m n :
  online n -> overdue c (clock n) -> ping_outstanding c ≠ 0 ->
  exists n', keepalive passes (c, (m, n)) = Ret (FAILURE, (c, (m, n'))) /\ evolves 2 [] [] [] n n'.
Proof.
  intros Hon Hov Hping. destruct (overdue_expired c m n Hon Hov) as (n1 & E1 & V1). destruct Hov as [Hk _].
  exists n1. split; [|done]. unfold keepalive. erewrite bind_ret by apply client_run. apply Z.eqb_neq in Hk as ->.
  rewrite <- bind_assoc. erewrite bind_ret by exact E1. cbv iota. unfold truthy.
  by apply Z.eqb_neq in Hping as ->.
Qed.
End client_io.
