(* ===== verification/ClientFlow.v ===== *)
(** * Exchanges of the client

    The dispatch of incoming packets ([cycle]), the wait for an acknowledgement and
    the operations of the API on a working connection: which packets leave, which
    messages are delivered and what is left of the client object. *)

From S2P Require Import Prelude Memory Wire Packet PacketRead Publish Connect Subscribe Topic Timer Network Client Transport ClientInv ClientIO.

Section flow.
Context {N : Type} `{!Platform N} `{!PlatformLaws N}.
Context (bb rb lb : positive) (passes : nat) (garbage : Z).

Abbreviation local_i := (Ptr lb 0).
Abbreviation layout := (layout bb rb lb).

(** Neither keep-alive timer expires within [k] ticks of a packet received now. *)
Definition rested (c : MQTTClient) (n : N) (k : Z) : Prop :=
  c_keepAliveInterval c = 0 \/
  (alive (last_sent c) (clock n + k * tick) /\ k * tick <= c_keepAliveInterval c * 1000000).

Lemma rested_fresh c n t T k :
  0 <= c_keepAliveInterval c -> rested c n k -> alive t (clock n + c_keepAliveInterval c * 1000000) ->
  T <= clock n + k * tick -> fresh (received t c) T.
Proof.
  intros Hk [E|[[? ?] ?]] [? ?] HT; unfold fresh, received.
  - left. by destruct (0 <? c_keepAliveInterval c).
  - destruct (Z.ltb_spec 0 (c_keepAliveInterval c)); [|left; lia]. right. split; (split; [done|simpl; lia]).
Qed.

(** A frame in the inbox that fits the buffer. *)
Record arrives (c : MQTTClient) (n : N) (h : Z) (body rest : list Z) : Prop := mkArrives {
  ar_inbox : inbox n = frame h body ++ rest;
  ar_body : Z.of_nat (length body) <= MAX_REMAINING;
  ar_fits : Z.of_nat (length (frame h body)) <= readbuf_size c
}.

(** The case of the switch went well: the keep-alive has nothing to do and the result
    is the packet type. *)
Lemma cycle_continue timer c m n type s1 c2 m2 n2 :
  readPacket local_i timer (c, (m, n)) = Ret (type, s1) ->
  cycle_switch passes garbage type timer s1 = Ret (Continue MQTT_SUCCESS, (c2, (m2, n2))) ->
  online n2 -> fresh c2 (clock n2 + 2 * tick) ->
  exists n3, cycle local_i passes garbage timer (c, (m, n)) = Ret (type, (c2, (m2, n3))) /\
    evolves 2 [] [] [] n2 n3.
Proof.
  intros E1 E2 Hon Hf. destruct (keepalive_quiet passes c2 m2 n2 Hon Hf) as (n3 & E3 & V3).
  exists n3. split; [|done]. unfold cycle. erewrite bind_ret by exact E1. erewrite bind_ret by exact E2. cbv iota.
  rewrite bind_assoc. erewrite bind_ret by exact E3. done.
Qed.

(** The packets cycle leaves to the operation that waits for them. *)
Definition awaited (type : Z) : Prop :=
  type = CONNACK \/ type = PUBACK \/ type = SUBACK \/ type = UNSUBACK \/ type = PUBCOMP.

Lemma cycle_awaited timer c m n h body rest :
  online n -> layout c m -> arrives c n h body rest -> awaited (MQTTHeader.type h) -> rested c n 12 ->
  exists t m' n', cycle local_i passes garbage timer (c, (m, n)) =
    Ret (MQTTHeader.type h, (received t c, (m', n'))) /\
    evolves 12 (frame h body) [] [] n n' /\ layout (received t c) m' /\ only [lb; rb] m m' /\
    bytes_at m' (Ptr rb 0) (frame h body) /\ alive t (clock n + c_keepAliveInterval c * 1000000).
Proof.
  intros Hon Hly [Hin Hbody Hfit] Hty Hrest.
  destruct (readPacket_run bb rb lb timer c m n h body rest) as (t & m1 & n1 & E1 & V1 & Hly1 & Ho & Hb & Ht); [done..|].
  destruct (cycle_continue timer c m n (MQTTHeader.type h) _ (received t c) m1 n1 E1) as (n2 & E2 & V2).
  - unfold cycle_switch. by destruct Hty as [->|[->|[->|[->| ->]]]].
  - exact (ev_online V1).
  - pose proof (ly_keepalive _ _ _ _ _ Hly). eapply rested_fresh; [lia|done|done|].
    destruct V1 as [_ _ _ ? _]. lia.
  - exists t, m1, n2. split_and!; try done. eapply evolves_eq; [exact (evolves_trans V1 V2)|lia| |done|done].
    by rewrite app_nil_r.
Qed.

(** PINGRESP answers the ping. *)
Lemma cycle_pingresp timer c m n h rest :
  online n -> layout c m -> arrives c n h [] rest -> MQTTHeader.type h = PINGRESP -> rested c n 12 ->
  exists t m' n', cycle local_i passes garbage timer (c, (m, n)) =
    Ret (PINGRESP, (set_ping_outstanding 0 (received t c), (m', n'))) /\
    evolves 12 (frame h []) [] [] n n' /\ layout (set_ping_outstanding 0 (received t c)) m' /\ only [lb; rb] m m' /\
    alive t (clock n + c_keepAliveInterval c * 1000000).
Proof.
  intros Hon Hly [Hin Hbody Hfit] Hty Hrest.
  destruct (readPacket_run bb rb lb timer c m n h [] rest) as (t & m1 & n1 & E1 & V1 & Hly1 & Ho & Hb & Ht); [done..|].
  rewrite Hty in E1.
  destruct (cycle_continue timer c m n PINGRESP _ (set_ping_outstanding 0 (received t c)) m1 n1 E1) as (n2 & E2 & V2).
  - done.
  - exact (ev_online V1).
  - pose proof (ly_keepalive _ _ _ _ _ Hly).
    assert (fresh (received t c) (clock n1 + 2 * tick)) as Hf; [|done]. eapply rested_fresh; [lia|done|done|].
    destruct V1 as [_ _ _ ? _]. lia.
  - exists t, m1, n2. split_and!; try done.
    + eapply evolves_eq; [exact (evolves_trans V1 V2)|lia|done|done|done].
    + by eapply layout_client.
Qed.

(** PUBREC and PUBREL are answered, with the packet id they carry. *)
Definition reply_to (type : Z) : Z := if type =? PUBREC then PUBREL else PUBCOMP.

Lemma ack_sent timer c m n type id :
  (2 <= passes)%nat -> online n -> layout c m -> 0 <= type < 16 -> 0 <= id < 65536 -> alive timer (clock n + tick) ->
  let pkt := encode (PAck type 0 id) in
  exists t n', (memory (MQTTSerialize_ack (buf c) (to_int (buf_size c)) type 0 id) (c, (m, n)) =
      Ret (4, (c, (mwrite m (Ptr bb 0) pkt, n)))) /\
    sendPacket passes 4 timer (c, (mwrite m (Ptr bb 0) pkt, n)) =
      Ret (MQTT_SUCCESS, (set_last_sent t c, (mwrite m (Ptr bb 0) pkt, n'))) /\
    evolves 4 [] pkt [] n n' /\ layout (set_last_sent t c) (mwrite m (Ptr bb 0) pkt) /\
    alive t (clock n + c_keepAliveInterval c * 1000000).
Proof.
  intros Hp Hon Hly Hty Hid Ht pkt. pose proof Hly as [Hb _ Hbs _ Hka Hbr _ _ _ (Hown & _) _].
  assert (room m (Ptr bb 0) (Z.of_nat (length pkt))) as Hr by (eapply room_le; [done|simpl; lia]).
  destruct (sendPacket_run passes timer c (mwrite m (Ptr bb 0) pkt) n pkt) as (t & n1 & E1 & V1 & Ht1);
    [done|done|rewrite Hb; by apply bytes_at_mwrite_eq|simpl; unfold INT_MAX; lia|done|done|].
  exists t, n1. split_and!; [|done|done| |done].
  - apply memory_run. rewrite Hb. apply MQTTSerialize_ack_run; [eapply room_le; [exact Hbr|conv_lia]|conv_lia|done|done].
  - eapply layout_client; [by apply layout_mwrite|done|done].
Qed.

Lemma cycle_reply timer c m n type dup q id rest :
  (2 <= passes)%nat -> online n -> layout c m -> (type = PUBREC \/ type = PUBREL) ->
  0 <= dup < 2 -> 0 <= q < 4 -> 0 <= id < 65536 ->
  arrives c n (fixed_header type dup q 0) (u16 id) rest -> rested c n 16 -> alive timer (clock n + 11 * tick) ->
  let pkt := encode (PAck (reply_to type) 0 id) in
  exists t1 t2 m' n', cycle local_i passes garbage timer (c, (m, n)) =
    Ret (type, (set_last_sent t2 (received t1 c), (m', n'))) /\
    evolves 16 (frame (fixed_header type dup q 0) (u16 id)) pkt [] n n' /\
    layout (set_last_sent t2 (received t1 c)) m' /\ only [lb; rb; bb] m m' /\
    alive t2 (clock n + c_keepAliveInterval c * 1000000).
Proof.
  intros Hp Hon Hly Hty Hd Hq Hid [Hin Hbody Hfit] Hrest Halive pkt.
  assert (0 <= type < 16) as Ht16 by (destruct Hty as [->| ->]; unfold PUBREC, PUBREL; lia).
  destruct (fixed_header_fields type dup q 0) as (Hh & Ety & _); [lia..|].
  destruct (readPacket_run bb rb lb timer c m n (fixed_header type dup q 0) (u16 id) rest)
    as (t1 & m1 & n1 & E1 & V1 & Hly1 & Ho & Hb & Ht1); [done..|]. rewrite Ety in E1.
  set (c1 := received t1 c) in *.
  assert (c_keepAliveInterval c1 = c_keepAliveInterval c) as Ek by apply received_config.
  destruct (ack_sent timer c1 m1 n1 (reply_to type) id) as (t2 & n2 & F1 & F2 & V2 & Hly2 & Ht2);
    [done|exact (ev_online V1)|done|unfold reply_to; destruct Hty as [->| ->]; simpl; unfold PUBREL, PUBCOMP; lia|done| |].
  { destruct Halive. split; [done|]. destruct V1 as [_ _ _ ? _]. lia. }
  rewrite Ek in Ht2. set (m2 := mwrite m1 (Ptr bb 0) pkt) in *.
  assert (alive t2 (clock n + c_keepAliveInterval c * 1000000)) as Ht2'.
  { destruct Ht2. split; [done|]. destruct V1 as [_ _ _ ? _]. lia. }
  destruct (cycle_continue timer c m n type _ (set_last_sent t2 c1) m2 n2 E1) as (n3 & E3 & V3).
  - assert (cycle_switch passes garbage type timer = cycle_pubrec passes garbage type timer) as ->
      by (by destruct Hty as [->| ->]).
    unfold cycle_pubrec. erewrite bind_ret by apply client_run.
    erewrite bind_ret by (apply memory_run; rewrite (ly_readbuf _ _ _ _ _ Hly1);
      apply (MQTTDeserialize_ack_at m1 rb 0 _ _ type dup id q []); [done..|by rewrite app_nil_r]).
    cbv iota beta. change (negb (1 =? 1)) with false. cbv iota. cbn [ao_packetid]. fold (reply_to type).
    rewrite bind_assoc. erewrite bind_ret by exact F1. change (4 <=? 0) with false. cbv iota.
    rewrite bind_assoc. by erewrite bind_ret by exact F2.
  - exact (ev_online V2).
  - assert (fresh c1 (clock n2 + 2 * tick)) as [Hf|[_ Hf]].
    { pose proof (ly_keepalive _ _ _ _ _ Hly). eapply rested_fresh; [lia|done|done|].
      destruct V1 as [_ _ _ ? _], V2 as [_ _ _ ? _]. lia. }
    + by left.
    + destruct Hrest as [Hk|[_ Hk]]; [left; simpl; congruence|right].
      split; [|done]. destruct Ht2'. split; [done|]. simpl.
      destruct V1 as [_ _ _ ? _], V2 as [_ _ _ ? _]. lia.
  - exists t1, t2, m2, n3. split_and!; try done.
    + eapply evolves_eq; [exact (evolves_trans (evolves_trans V1 V2) V3)|lia| | |done]; by rewrite ?app_nil_r.
    + eapply only_mono; [eapply only_trans; [exact Ho|apply only_mwrite]|]. set_solver.
Qed.

(** ** Delivery *)

(** The handlers' filters are outside of the buffers and of what handlers write. *)
Definition filters_outside (hs : list MessageHandlers) : Prop :=
  Forall (fun h => forall b, b ∈ [bb; rb; lb] ++ elements handler_blocks -> ~ in_block (topicFilter h) b) hs.

Definition slot_ok (k : slot) : Prop :=
  forall f v, k = Some (f, v) -> Forall is_byte f /\ Z.of_nat (length f) <= INT_MAX.

Definition slot_matches (ts : list Z) (k : slot) : bool :=
  match k with Some (f, _) => bool_decide (ts = f) || chars_match f ts | None => false end.

(** The calls of deliverMessage: every slot that matches and has a handler. *)
Definition slot_delivery (ts bs : list Z) (k : slot) : list delivery :=
  match k with
  | Some (_, v) => if slot_matches ts k && truthy v then [(v, ts, bs)] else []
  | None => []
  end.
Definition slot_deliveries (ts bs : list Z) (ks : list slot) : list delivery :=
  concat (map (slot_delivery ts bs) ks).

Lemma only_slot_repr l m m' hs ks :
  only l m m' -> l ⊆ [bb; rb; lb] ++ elements handler_blocks -> filters_outside hs ->
  Forall2 (slot_repr m) hs ks -> Forall2 (slot_repr m') hs ks.
Proof.
  intros Ho Hl Hout H. revert Hout. induction H as [|h k hs ks Hk _ IH]; intros Hout; [done|].
  apply Forall_cons in Hout as [Hh Hout]. constructor; [|by apply IH].
  destruct k as [[f v]|]; [|done]. destruct Hk as [[Hf H0] Hv]. split; [|done]. split; [|done].
  destruct (topicFilter h) as [| |b o]; [by destruct Hf as [? [=]]..|].
  eapply only_bytes_at; [exact Ho| |done]. intros Hb. by apply (Hh b); [apply Hl|].
Qed.

(** The message as deliverMessage is given it: topic and payload in the read buffer. *)
Record in_readbuf (m : mem) (tn : MQTTString) (msg : MQTTMessage) (ts bs : list Z) : Prop := mkInReadbuf {
  ir_topic : exists o, tn = lstring (Z.of_nat (length ts)) (Ptr rb o) /\ bytes_at m (Ptr rb o) ts;
  ir_bytes : Forall is_byte ts /\ Z.of_nat (length ts) < 65536;
  ir_payload : exists o, msg_payload msg = Ptr rb o /\ bytes_at m (Ptr rb o) bs;
  ir_length : msg_payloadlen msg = Z.of_nat (length bs);
  ir_limit : Z.of_nat (length bs) <= handler_limit
}.

Lemma in_readbuf_only m m' tn msg ts bs l :
  in_readbuf m tn msg ts bs -> only l m m' -> rb ∉ l -> in_readbuf m' tn msg ts bs.
Proof.
  intros [(o & Ht & Hto) Hb (p & Hp & Hpo) Hl Hm] Ho Hrb. split; [|done| |done|done].
  - exists o. split; [done|]. by eapply only_bytes_at.
  - exists p. split; [done|]. by eapply only_bytes_at.
Qed.

Lemma handler_matches_run m h k tn msg ts bs :
  slot_repr m h k -> slot_ok k -> in_readbuf m tn msg ts bs ->
  handler_matches h tn m = Ret (slot_matches ts k, m).
Proof.
  intros Hk Hok [(o & -> & Hto) [Hb Hlen] _ _ _]. unfold handler_matches.
  destruct k as [[f v]|]; simpl in Hk; [|by rewrite Hk].
  destruct Hk as [Hf Hv]. destruct (Hok f v eq_refl) as [Hfb Hfl].
  assert (is_null (topicFilter h) = false) as ->.
  { destruct (topicFilter h); [by destruct Hf as [[? [=]] _]|done..]. }
  erewrite bind_ret by (apply (MQTTPacket_equals_run m _ ts (topicFilter h) f); [split; [done|by right]|done| |done];
    unfold INT_MAX; lia).
  unfold slot_matches. destruct (bool_decide (ts = f)); [done|]. cbv iota beta. change (truthy (of_bool false)) with false.
  cbv iota. unfold lstring. erewrite bind_ret by (apply (isTopicMatched_chars m _ f rb o ts); done).
  cbn [orb]. by destruct (chars_match f ts).
Qed.

Lemma call_run v c m n tn msg ts bs :
  online n -> handler_ready m -> rb ∉ handler_blocks -> in_readbuf m tn msg ts bs ->
  exists m' n', io (call_handler v tn msg) (c, (m, n)) = Ret (tt, (c, (m', n'))) /\
    evolves 1 [] [] [(v, ts, bs)] n n' /\ only (elements handler_blocks) m m' /\ handler_ready m'.
Proof.
  intros Hon Hrd Hrb [(o & -> & Hto) _ (p & Hp & Hpo) Hl Hlim].
  destruct (call_handler_law v (lstring (Z.of_nat (length ts)) (Ptr rb o)) msg m n ts bs)
    as (m' & n' & E & Hi & Hout & Hd & Hc & Hm & Hrd' & Hn); [done|by right|done|rewrite Hp; by right| |done|done|].
  { intros b Hb. rewrite Hp. simpl. by intros <-. }
  destruct (Hn Hon) as [Hon' Hle]. exists m', n'. split; [unfold io; by rewrite E|].
  split; [split; [done|by rewrite Hout, app_nil_r|done|lia|done]|]. split; [|done].
  intros b Hb. apply Hm. by rewrite elem_of_elements in Hb.
Qed.

Lemma deliver_loop_run hs ks tn msg ts bs c m n rc :
  online n -> handler_ready m -> rb ∉ handler_blocks -> in_readbuf m tn msg ts bs ->
  Forall2 (slot_repr m) hs ks -> Forall slot_ok ks -> filters_outside hs ->
  exists m' n', deliver_loop hs tn msg rc (c, (m, n)) =
    Ret (if bool_decide (slot_deliveries ts bs ks = []) then rc else MQTT_SUCCESS, (c, (m', n'))) /\
    evolves (Z.of_nat (length hs)) [] [] (slot_deliveries ts bs ks) n n' /\
    only (elements handler_blocks) m m' /\ handler_ready m'.
Proof.
  intros Hon Hrd Hrb Hin Hks. revert m n rc Hon Hrd Hin Hks. revert ks.
  induction hs as [|h hs IH]; intros ks m n rc Hon Hrd Hin Hks Hok Hout; inversion Hks as [|? k ? ks' Hk Hks']; subst.
  - exists m, n. split_and!; try done. by apply evolves_refl.
  - apply Forall_cons in Hok as [Hok Hoks]. pose proof Hout as [_ Hout']%Forall_cons. cbn [deliver_loop].
    erewrite bind_ret by (by eapply memory_run, handler_matches_run).
    assert (slot_matches ts k && truthy (fp h) = negb (bool_decide (slot_delivery ts bs k = []))) as Ec.
    { destruct k as [[f v]|]; [|done]. destruct Hk as [_ Hv]. rewrite Hv.
      unfold slot_delivery. destruct (slot_matches _ _), (truthy v); done. }
    unfold slot_deliveries in *. cbn [map concat]. rewrite Ec. case_bool_decide as Hd; cbn [negb].
    + erewrite bind_ret by apply mret_run. rewrite Hd. cbn [app].
      destruct (IH ks' m n rc) as (m' & n' & E & V & Ho & Hrd'); [done..|]. exists m', n'.
      split_and!; try done. eapply evolves_eq; [exact V|simpl; lia|done..].
    + destruct (call_run (fp h) c m n tn msg ts bs Hon Hrd Hrb Hin) as (m1 & n1 & E1 & V1 & Ho1 & Hrd1).
      assert (slot_delivery ts bs k = [(fp h, ts, bs)]) as ->.
      { destruct k as [[f v]|]; [|done]. destruct Hk as [_ ->]. unfold slot_delivery in *.
        destruct (slot_matches _ _ && truthy v); done. }
      destruct (IH ks' m1 n1 MQTT_SUCCESS) as (m' & n' & E & V & Ho & Hrd');
        [exact (ev_online V1)|done|eapply in_readbuf_only; [done|done|by rewrite elem_of_elements]
        |eapply only_slot_repr; [done| |done|done]; set_solver|done|done|].
      exists m', n'. split_and!; [| | |done].
      * rewrite !bind_assoc. erewrite bind_ret by exact E1. erewrite bind_ret by apply mret_run. rewrite E.
        rewrite (bool_decide_eq_false_2 (_ ++ _ = [])) by done. by destruct (bool_decide _).
      * eapply evolves_eq; [exact (evolves_trans V1 V)|simpl; lia|done..].
      * eapply only_mono; [eapply only_trans; [exact Ho1|exact Ho]|]. set_solver.
Qed.

(** All the calls of deliverMessage: the default handler is called when no slot took
    the message. *)
Definition deliveries (default_handler : Z) (ks : list slot) (ts bs : list Z) : list delivery :=
  match slot_deliveries ts bs ks with
  | [] => if truthy default_handler then [(default_handler, ts, bs)] else []
  | ds => ds
  end.

Lemma deliverMessage_run ks tn msg ts bs c m n :
  online n -> handler_ready m -> rb ∉ handler_blocks -> in_readbuf m tn msg ts bs ->
  length (messageHandlers c) = MAX_MESSAGE_HANDLERS ->
  Forall2 (slot_repr m) (messageHandlers c) ks -> Forall slot_ok ks -> filters_outside (messageHandlers c) ->
  let ds := deliveries (defaultMessageHandler c) ks ts bs in
  exists m' n', deliverMessage tn msg (c, (m, n)) =
    Ret (if bool_decide (ds = []) then FAILURE else MQTT_SUCCESS, (c, (m', n'))) /\
    evolves 6 [] [] ds n n' /\ only (elements handler_blocks) m m' /\ handler_ready m'.
Proof.
  intros Hon Hrd Hrb Hin H5 Hks Hok Hout ds. unfold MAX_MESSAGE_HANDLERS in H5.
  destruct (deliver_loop_run (messageHandlers c) ks tn msg ts bs c m n FAILURE) as (m1 & n1 & E1 & V1 & Ho1 & Hrd1); [done..|].
  unfold deliverMessage. erewrite bind_ret by apply client_run. erewrite bind_ret by exact E1.
  unfold ds, deliveries. destruct (slot_deliveries ts bs ks) as [|d l] eqn:Ed.
  - rewrite (bool_decide_eq_true_2 ([] = [])) by done. cbn [andb]. rewrite Z.eqb_refl. cbn [andb].
    destruct (truthy (defaultMessageHandler c)).
    + destruct (call_run (defaultMessageHandler c) c m1 n1 tn msg ts bs) as (m2 & n2 & E2 & V2 & Ho2 & Hrd2);
        [exact (ev_online V1)|done|done|eapply in_readbuf_only; [done|done|by rewrite elem_of_elements]|].
      exists m2, n2. split_and!; [by erewrite bind_ret by exact E2| | |done].
      * eapply evolves_eq; [exact (evolves_trans V1 V2)|lia|done..].
      * eapply only_mono; [eapply only_trans; [exact Ho1|exact Ho2]|]. set_solver.
    + exists m1, n1. split_and!; try done. eapply evolves_eq; [exact V1|lia|done..].
  - rewrite (bool_decide_eq_false_2 (_ :: _ = [])) by done. change (MQTT_SUCCESS =? FAILURE) with false. cbn [andb].
    exists m1, n1. split_and!; try done. eapply evolves_eq; [exact V1|lia|done..].
Qed.

(** The acknowledgement the protocol asks for. *)
Definition publish_ack (qos id : Z) : list Z :=
  if qos =? 1 then encode (PAck PUBACK 0 id)
  else if qos =? 2 then encode (PAck PUBREC 0 id) else [].

Definition acknowledged (qos : Z) (t : Timer) (c : MQTTClient) : MQTTClient :=
  if 0 <? qos then set_last_sent t c else c.

(** The handlers' buffers aside, a call of a handler changes nothing the client needs. *)
Lemma layout_handlers c m m' :
  layout c m -> only (elements handler_blocks) m m' -> handler_ready m' -> layout c m'.
Proof.
  intros [? ? ? ? ? ? ? ? ? (? & ? & ?) ?] Ho Hrd.
  split; try done; (eapply only_room; [exact Ho|by rewrite elem_of_elements|done]).
Qed.

(** The message cycle builds from a PUBLISH packet in the read buffer. *)
Lemma publish_in_readbuf c m dup qos retain topic id payload :
  0 <= dup < 2 -> 0 <= qos < 3 -> 0 <= retain < 2 -> 0 <= id < 65536 ->
  Forall is_byte topic -> Z.of_nat (length topic) < 65536 -> Z.of_nat (length payload) <= handler_limit ->
  Z.of_nat (length (publish_body qos topic id payload)) <= MAX_REMAINING ->
  readbuf c = Ptr rb 0 -> bytes_at m (Ptr rb 0) (encode (PPublish dup qos retain topic id payload)) ->
  exists out, (forall out0 blen, po_packetid out0 = garbage -> MQTTDeserialize_publish out0 (readbuf c) blen m = Ret ((1, out), m)) /\
    po_qos out = qos /\ (0 < qos -> po_packetid out = id) /\
    in_readbuf m (po_topicName out)
      (mkMessage (po_qos out) (po_retained out) (po_dup out) (po_packetid out) (po_payload out)
         (to_uint (po_payloadlen out))) topic payload.
Proof.
  intros Hd Hq Hr Hid Htb Htl Hlim Hs Hrb Hb. rewrite Hrb.
  destruct (MQTTDeserialize_publish_at m rb 0 (mkPublishOut garbage garbage garbage garbage (lstring 0 NULL) NULL 0) 0
    dup qos retain topic id payload []) as (Ht & Hp & _); try done; [lia|by rewrite app_nil_r|].
  eexists. split.
  - intros out0 blen Hg.
    destruct (MQTTDeserialize_publish_at m rb 0 out0 blen dup qos retain topic id payload []) as (_ & _ & E);
      try done; [lia|by rewrite app_nil_r|]. rewrite Hg in E. exact E.
  - cbn. split; [done|]. split; [intros; by replace (0 <? qos) with true by lia|].
    rewrite app_nil_r in Hp. split; [by eexists|done|by eexists| |done].
    cbn. unfold to_uint. rewrite Z.mod_small; [done|]. rewrite length_publish_body in Hs.
    unfold MAX_REMAINING in Hs. destruct (0 <? qos); lia.
Qed.

(** A PUBLISH packet of the protocol, of a size handlers take. *)
Record publish_ok (dup qos retain : Z) (topic : list Z) (id : Z) (payload : list Z) : Prop := mkPublishOk {
  pk_dup : 0 <= dup < 2;
  pk_qos : 0 <= qos < 3;
  pk_retain : 0 <= retain < 2;
  pk_id : 0 <= id < 65536;
  pk_topic : Forall is_byte topic;
  pk_topic_len : Z.of_nat (length topic) < 65536;
  pk_payload : Z.of_nat (length payload) <= handler_limit;
  pk_size : Z.of_nat (length (publish_body qos topic id payload)) <= MAX_REMAINING
}.

(** The handler table with its filters, ready for deliveries. *)
Record handlers_ok (c : MQTTClient) (m : mem) (ks : list slot) : Prop := mkHandlersOk {
  ho_length : length (messageHandlers c) = MAX_MESSAGE_HANDLERS;
  ho_repr : Forall2 (slot_repr m) (messageHandlers c) ks;
  ho_slots : Forall slot_ok ks;
  ho_outside : filters_outside (messageHandlers c)
}.

Lemma handlers_ok_only c c' m m' ks l :
  handlers_ok c m ks -> messageHandlers c' = messageHandlers c -> only l m m' ->
  l ⊆ [bb; rb; lb] ++ elements handler_blocks -> handlers_ok c' m' ks.
Proof.
  intros [? ? ? ?] E Ho Hl. split; rewrite ?E; try done. by eapply only_slot_repr.
Qed.

Lemma cycle_publish_run timer c m n dup qos retain topic id payload ks :
  (2 <= passes)%nat -> online n -> layout c m -> publish_ok dup qos retain topic id payload ->
  bytes_at m (Ptr rb 0) (encode (PPublish dup qos retain topic id payload)) -> handlers_ok c m ks ->
  alive timer (clock n + 7 * tick) ->
  let ds := deliveries (defaultMessageHandler c) ks topic payload in
  exists t m' n', cycle_publish passes garbage timer (c, (m, n)) =
    Ret (Continue MQTT_SUCCESS, (acknowledged qos t c, (m', n'))) /\
    evolves 10 [] (publish_ack qos id) ds n n' /\ layout (acknowledged qos t c) m' /\
    only (bb :: elements handler_blocks) m m' /\ alive t (clock n + c_keepAliveInterval c * 1000000).
Proof.
  intros Hp Hon Hly [Hd Hq Hr Hid Htb Htl Hlim Hs] Hb [H5 Hks Hok Hout] Ht ds.
  pose proof Hly as [_ Hrb _ _ Hka _ _ _ _ (_ & Hown & _) Hrd].
  destruct (publish_in_readbuf c m dup qos retain topic id payload) as (out & E1 & Eq & Eid & Hin); [done..|].
  set (msg := mkMessage _ _ _ _ _ _) in Hin.
  destruct (deliverMessage_run ks (po_topicName out) msg topic payload c m n) as (m1 & n1 & E2 & V1 & Ho1 & Hrd1); [done..|].
  fold ds in V1. assert (layout c m1) as Hly1 by (by eapply layout_handlers).
  unfold cycle_publish. erewrite bind_ret by apply client_run. cbv zeta.
  erewrite bind_ret by (apply memory_run, E1; done). cbv iota beta.
  change (negb (1 =? 1)) with false. cbv iota. fold msg. erewrite bind_ret by exact E2. cbv iota.
  change (msg_qos msg) with (po_qos out). rewrite Eq. change (msg_id msg) with (po_packetid out).
  destruct (Z.eqb_spec qos QOS0) as [Hq0|Hq0]; cbn [negb]; unfold QOS0 in Hq0.
  { destruct (countdown_run (c_keepAliveInterval c) c m1 n1 (ev_online V1) Hka) as (t & _ & _ & _ & Ht0).
    exists t, m1, n1. rewrite Hq0. split_and!; try done.
    - eapply evolves_eq; [exact V1|lia|done..].
    - eapply only_mono; [exact Ho1|]. set_solver.
    - destruct Ht0. split; [done|]. destruct V1 as [_ _ _ ? _]. lia. }
  rewrite (Eid ltac:(lia)). set (type := if qos =? 1 then PUBACK else PUBREC).
  assert (publish_ack qos id = encode (PAck type 0 id)) as ->.
  { unfold publish_ack, type. destruct (Z.eqb_spec qos 1) as [?|?]; [done|]. by replace (qos =? 2) with true by lia. }
  destruct (ack_sent timer c m1 n1 type id) as (t & n2 & F1 & F2 & V2 & Hly2 & Ht2);
    [done|exact (ev_online V1)|done|unfold type, PUBACK, PUBREC; destruct (qos =? 1); lia|done| |].
  { destruct Ht. split; [done|]. destruct V1 as [_ _ _ ? _]. lia. }
  exists t, (mwrite m1 (Ptr bb 0) (encode (PAck type 0 id))), n2.
  assert (acknowledged qos t c = set_last_sent t c) as -> by (unfold acknowledged; by replace (0 <? qos) with true by lia).
  split_and!; [|by eapply evolves_eq; [exact (evolves_trans V1 V2)|lia|..]; rewrite ?app_nil_r|done| |].
  - match goal with |- (_ ← ?l; _) _ = _ =>
      replace l with (memory (N := N) (MQTTSerialize_ack (buf c) (to_int (buf_size c)) type 0 id)) end.
    2: { unfold type, QOS1, QOS2. destruct (Z.eqb_spec qos 1) as [?|?]; [done|]. by replace (qos =? 2) with true by lia. }
    erewrite bind_ret by exact F1.
    change (4 <=? 0) with false. cbv iota. by erewrite bind_ret by exact F2.
  - eapply only_mono; [eapply only_trans; [exact Ho1|apply only_mwrite]|]. set_solver.
  - destruct Ht2. split; [done|]. destruct V1 as [_ _ _ ? _]. lia.
Qed.

(** A PUBLISH is delivered to the matching handlers and acknowledged. *)
Lemma cycle_publish_packet timer c m n dup qos retain topic id payload rest ks :
  (2 <= passes)%nat -> online n -> layout c m -> publish_ok dup qos retain topic id payload ->
  arrives c n (fixed_header 3 dup qos retain) (publish_body qos topic id payload) rest -> handlers_ok c m ks ->
  rested c n 22 -> alive timer (clock n + 17 * tick) ->
  let ds := deliveries (defaultMessageHandler c) ks topic payload in
  exists t1 t2 m' n', cycle local_i passes garbage timer (c, (m, n)) =
    Ret (PUBLISH, (acknowledged qos t2 (received t1 c), (m', n'))) /\
    evolves 22 (encode (PPublish dup qos retain topic id payload)) (publish_ack qos id) ds n n' /\
    layout (acknowledged qos t2 (received t1 c)) m' /\ only ([bb; rb; lb] ++ elements handler_blocks) m m' /\
    (qos ≠ 0 -> alive t2 (clock n + c_keepAliveInterval c * 1000000)).
Proof.
  intros Hp Hon Hly Hpk [Hin Hbody Hfit] Hho Hrest Halive ds. pose proof Hpk as [Hd Hq Hr Hid Htb Htl Hlim Hs].
  destruct (fixed_header_fields 3 dup qos retain) as (Hh & Ety & _); [lia..|].
  destruct (readPacket_run bb rb lb timer c m n _ _ rest Hon Hly Hin Hbody Hfit)
    as (t1 & m1 & n1 & E1 & V1 & Hly1 & Ho & Hb & Ht1). rewrite Ety in E1.
  set (c1 := received t1 c) in *.
  assert (c_keepAliveInterval c1 = c_keepAliveInterval c) as Ek by apply received_config.
  assert (messageHandlers c1 = messageHandlers c /\ defaultMessageHandler c1 = defaultMessageHandler c) as [Eh Edef]
    by (unfold c1, received; by destruct (0 <? _)).
  destruct (cycle_publish_run timer c1 m1 n1 dup qos retain topic id payload ks)
    as (t2 & m2 & n2 & E2 & V2 & Hly2 & Ho2 & Ht2); [done|exact (ev_online V1)|done|done|exact Hb| | |].
  { eapply handlers_ok_only; [done|done|exact Ho|]. set_solver. }
  { destruct Halive. split; [done|]. destruct V1 as [_ _ _ ? _]. lia. }
  rewrite Edef in V2. rewrite Ek in Ht2.
  assert (alive t2 (clock n + c_keepAliveInterval c * 1000000)) as Ht2'.
  { destruct Ht2. split; [done|]. destruct V1 as [_ _ _ ? _]. lia. }
  destruct (cycle_continue timer c m n 3 _ (acknowledged qos t2 c1) m2 n2 E1) as (n3 & E3 & V3).
  - exact E2.
  - exact (ev_online V2).
  - assert (fresh c1 (clock n2 + 2 * tick)) as Hf.
    { pose proof (ly_keepalive _ _ _ _ _ Hly). eapply rested_fresh; [lia|done|done|].
      destruct V1 as [_ _ _ ? _], V2 as [_ _ _ ? _]. lia. }
    unfold acknowledged. destruct (0 <? qos); [|done]. destruct Hrest as [Hk|[_ Hk]]; [left; simpl; congruence|].
    destruct Hf as [Hf|[_ Hf]]; [by left|right]. split; [|done]. destruct Ht2'. split; [done|]. simpl.
    destruct V1 as [_ _ _ ? _], V2 as [_ _ _ ? _]. lia.
  - exists t1, t2, m2, n3. split_and!; try done.
    + eapply evolves_eq; [exact (evolves_trans (evolves_trans V1 V2) V3)|lia|..]; by rewrite ?app_nil_r.
    + eapply only_mono; [eapply only_trans; [exact Ho|exact Ho2]|]. set_solver.
Qed.

(** ** Waiting for an acknowledgement *)

(** What may come in the meantime: messages, steps of the QoS 2 handshake, the answer
    to a ping. *)
Inductive interim : Type :=
| InPublish (dup qos retain : Z) (topic : list Z) (id : Z) (payload : list Z)
| InRelease (type dup q id : Z)
| InPingresp.

Definition in_frame (p : interim) : Z * list Z :=
  match p with
  | InPublish dup qos retain topic id payload => (fixed_header 3 dup qos retain, publish_body qos topic id payload)
  | InRelease type dup q id => (fixed_header type dup q 0, u16 id)
  | InPingresp => (fixed_header 13 0 0 0, [])
  end.

Definition in_bytes (p : interim) : list Z := frame (in_frame p).1 (in_frame p).2.

Definition in_ok (p : interim) : Prop :=
  match p with
  | InPublish dup qos retain topic id payload => publish_ok dup qos retain topic id payload
  | InRelease type dup q id => (type = PUBREC \/ type = PUBREL) /\ 0 <= dup < 2 /\ 0 <= q < 4 /\ 0 <= id < 65536
  | InPingresp => True
  end.

(** The answer of the client, and the deliveries. *)
Definition in_reply (p : interim) : list Z :=
  match p with
  | InPublish dup qos retain topic id payload => publish_ack qos id
  | InRelease type dup q id => encode (PAck (reply_to type) 0 id)
  | InPingresp => []
  end.

Definition in_deliveries (default_handler : Z) (ks : list slot) (p : interim) : list delivery :=
  match p with
  | InPublish dup qos retain topic id payload => deliveries default_handler ks topic payload
  | _ => []
  end.

(** What incoming packets do not change. *)
Definition session (c : MQTTClient) : (ptr * Z * ptr * Z * Z * Z) * Z * list MessageHandlers * Z * Z * Z :=
  (client_config c, c_keepAliveInterval c, messageHandlers c, next_packetid c, isconnected c, c_cleansession c).

(** From [c] at [n] to [c'], the last packet sent is the same one or a new one. *)
Definition sent_since (c c' : MQTTClient) (n : N) : Prop :=
  last_sent c' = last_sent c \/ alive (last_sent c') (clock n + c_keepAliveInterval c * 1000000).

Lemma rested_later c c' n n' k1 k2 :
  session c' = session c -> sent_since c c' n -> 0 <= k1 -> rested c n (k1 + k2) ->
  clock n' <= clock n + k1 * tick -> rested c' n' k2.
Proof.
  intros Hs Hsent Hk1 Hr Hn. assert (c_keepAliveInterval c' = c_keepAliveInterval c) as Hk by (unfold session in Hs; congruence).
  unfold rested. rewrite Hk. destruct Hr as [Hr|[[Hr1 Hr2] Hr3]]; [by left|right]. pose proof tick_pos.
  assert (0 <= k1 * tick) by nia.
  destruct Hsent as [->|[? ?]]; (split; [split; [done|lia]|lia]).
Qed.

Lemma session_layout c c' m : layout c m -> session c' = session c -> layout c' m.
Proof. intros Hly Hs. eapply layout_client; [exact Hly|unfold session in Hs; congruence..]. Qed.

Lemma session_handlers c c' :
  session c' = session c ->
  messageHandlers c' = messageHandlers c /\ defaultMessageHandler c' = defaultMessageHandler c /\
  readbuf_size c' = readbuf_size c /\ c_keepAliveInterval c' = c_keepAliveInterval c.
Proof. intros Hs. unfold session, client_config in Hs. split_and!; congruence. Qed.

Lemma received_session t c : session (received t c) = session c /\ last_sent (received t c) = last_sent c.
Proof. unfold received. by destruct (0 <? c_keepAliveInterval c). Qed.

Abbreviation scratch := ([bb; rb; lb] ++ elements handler_blocks).

(** One interim packet. *)
Lemma cycle_interim timer c m n p rest ks :
  (2 <= passes)%nat -> online n -> layout c m -> handlers_ok c m ks -> in_ok p ->
  arrives c n (in_frame p).1 (in_frame p).2 rest -> rested c n 22 -> alive timer (clock n + 17 * tick) ->
  exists r c' m' n', cycle local_i passes garbage timer (c, (m, n)) = Ret (r, (c', (m', n'))) /\
    0 <= r /\ ~ awaited r /\
    evolves 22 (in_bytes p) (in_reply p) (in_deliveries (defaultMessageHandler c) ks p) n n' /\
    layout c' m' /\ only scratch m m' /\ session c' = session c /\ sent_since c c' n.
Proof.
  intros Hp Hon Hly Hho Hok Har Hrest Ht. pose proof tick_pos.
  assert (forall k, k <= 22 -> rested c n k) as Hrk.
  { intros k Hk. destruct Hrest as [?|[[? ?] ?]]; [by left|right]. split; [split; [done|nia]|nia]. }
  destruct p as [dup qos retain topic id payload|type dup q id|]; simpl in Hok, Har.
  - destruct (cycle_publish_packet timer c m n dup qos retain topic id payload rest ks)
      as (t1 & t2 & m' & n' & E & V & Hly' & Ho & Ht2); [done..|].
    eexists _, _, m', n'. split; [exact E|]. split_and!; [done|unfold awaited; by intuition|done|done|done| |].
    + destruct (received_session t1 c) as [Es _]. rewrite <- Es. unfold acknowledged. by destruct (0 <? qos).
    + unfold acknowledged. destruct (Z.ltb_spec 0 qos); [right; apply Ht2; lia|left]. apply received_session.
  - destruct Hok as (Hty & Hd & Hq & Hid).
    destruct (cycle_reply timer c m n type dup q id rest) as (t1 & t2 & m' & n' & E & V & Hly' & Ho & Ht2);
      [done..|apply Hrk; lia|destruct Ht; split; [done|lia]|].
    eexists _, _, m', n'. split; [exact E|].
    split_and!; [destruct Hty as [->| ->]; done|unfold awaited; destruct Hty as [->| ->]; by intuition| |done| | |by right].
    + eapply evolves_eq; [exact V|lia|done..].
    + eapply only_mono; [exact Ho|]. set_solver.
    + destruct (received_session t1 c) as [Es _]. by rewrite <- Es.
  - destruct (cycle_pingresp timer c m n (fixed_header 13 0 0 0) rest) as (t & m' & n' & E & V & Hly' & Ho & Ht2);
      [done..|apply Hrk; lia|].
    eexists _, _, m', n'. split; [exact E|]. split_and!; [done|unfold awaited; by intuition| |done| | |].
    + eapply evolves_eq; [exact V|lia|done..].
    + eapply only_mono; [exact Ho|]. set_solver.
    + destruct (received_session t c) as [Es _]. by rewrite <- Es.
    + left. apply received_session.
Qed.

(** One pass of the loop of waitfor. *)
Lemma waitfor_pass fuel type timer rc c m n :
  online n -> alive timer (clock n + tick) ->
  exists n1, evolves 1 [] [] [] n n1 /\ forall r s',
    cycle local_i passes garbage timer (c, (m, n1)) = Ret (r, s') ->
    waitfor_loop local_i passes garbage (S fuel) type timer rc (c, (m, n)) =
    if negb (r =? type) && (0 <=? r) then waitfor_loop local_i passes garbage fuel type timer r s' else Ret (r, s').
Proof.
  intros Hon Ht. destruct (timer_expired_run timer c m n Hon Ht) as (n1 & E1 & V1). exists n1. split; [done|].
  intros r s' E. cbn [waitfor_loop]. erewrite bind_ret by exact E1. cbv iota. erewrite bind_ret by exact E.
  by destruct (_ && _).
Qed.

(** A sequence of interim packets and then the awaited one, all of which fit. *)
Record arrive (c : MQTTClient) (n : N) (ps : list interim) (h : Z) (body rest : list Z) : Prop := mkArrive {
  ars_inbox : inbox n = concat (map in_bytes ps) ++ frame h body ++ rest;
  ars_interim : Forall (fun p => in_ok p /\ Z.of_nat (length (in_frame p).2) <= MAX_REMAINING /\
                          Z.of_nat (length (in_bytes p)) <= readbuf_size c) ps;
  ars_body : Z.of_nat (length body) <= MAX_REMAINING;
  ars_fits : Z.of_nat (length (frame h body)) <= readbuf_size c
}.

(** The ticks a wait takes at most. *)
Definition wait_ticks (ps : list interim) : Z := 23 * Z.of_nat (length ps) + 18.

Lemma waitfor_loop_run ps : forall fuel timer rc c m n h body rest ks,
  (2 <= passes)%nat -> (length ps < fuel)%nat -> online n -> layout c m -> handlers_ok c m ks ->
  arrive c n ps h body rest -> awaited (MQTTHeader.type h) ->
  rested c n (wait_ticks ps) -> alive timer (clock n + wait_ticks ps * tick) ->
  exists c' m' n', waitfor_loop local_i passes garbage fuel (MQTTHeader.type h) timer rc (c, (m, n)) =
    Ret (MQTTHeader.type h, (c', (m', n'))) /\
    evolves (wait_ticks ps) (concat (map in_bytes ps) ++ frame h body) (concat (map in_reply ps))
      (concat (map (in_deliveries (defaultMessageHandler c) ks) ps)) n n' /\
    layout c' m' /\ only scratch m m' /\ session c' = session c /\ bytes_at m' (Ptr rb 0) (frame h body) /\
    sent_since c c' n.
Proof.
  pose proof tick_pos as Htp. unfold wait_ticks.
  induction ps as [|p ps IH]; intros fuel timer rc c m n h body rest ks Hp Hfuel Hon Hly Hho [Hin Hps Hbody Hfit] Haw Hrest Ht;
    (destruct fuel as [|fuel]; [lia|]);
    (destruct (waitfor_pass fuel (MQTTHeader.type h) timer rc c m n Hon) as (n1 & V1 & Hpass);
      [destruct Ht; split; [done|cbn [length] in *; nia]|]);
    (assert (clock n1 <= clock n + 1 * tick) as Hc1 by (destruct V1 as [_ _ _ ? _]; lia));
    cbn [length map concat] in *.
  - destruct (cycle_awaited timer c m n1 h body rest) as (t & m' & n' & E & V & Hly' & Ho & Hb & Ht');
      [exact (ev_online V1)|done|by split; [exact (ev_next V1 Hin)|..]|done| |].
    { eapply (rested_later c c n n1 1 12); [done|by left|lia| |done].
      destruct Hrest as [?|[[? ?] ?]]; [by left|right; split; [split; [done|lia]|lia]]. }
    eexists _, m', n'. split; [by rewrite (Hpass _ _ E), Z.eqb_refl|]. split_and!; try done.
    + eapply evolves_eq; [exact (evolves_trans V1 V)|lia|done..].
    + eapply only_mono; [exact Ho|]. set_solver.
    + by destruct (received_session t c).
    + left. by destruct (received_session t c).
  - apply Forall_cons in Hps as [(Hok & Hb1 & Hf1) Hps]. rewrite <- app_assoc in Hin.
    destruct (cycle_interim timer c m n1 p (concat (map in_bytes ps) ++ frame h body ++ rest) ks)
      as (r & c2 & m2 & n2 & E & Hr & Hnaw & V2 & Hly2 & Ho2 & Hs2 & Hsent2);
      [done|exact (ev_online V1)|done|done|done|by split; [exact (ev_next V1 Hin)|..]| | |].
    { eapply (rested_later c c n n1 1 22); [done|by left|lia| |done].
      destruct Hrest as [?|[[? ?] ?]]; [by left|right; split; [split; [done|nia]|nia]]. }
    { destruct Ht. split; [done|]. nia. }
    destruct (session_handlers _ _ Hs2) as (Eh & Ed & Er & Ek).
    pose proof (evolves_trans V1 V2) as V12.
    assert (clock n <= clock n1) as Hc01 by (destruct V1 as [_ _ _ ? _]; lia).
    assert (clock n <= clock n2 <= clock n + 23 * tick) as Hc2 by (destruct V12 as [_ _ _ ? _]; lia).
    assert (sent_since c c2 n) as Hsent.
    { destruct Hsent2 as [?|[? ?]]; [by left|right]. split; [done|lia]. }
    destruct (IH fuel timer r c2 m2 n2 h body rest ks) as (c' & m' & n' & E' & V' & Hly' & Ho' & Hs' & Hb' & Hsent');
      [done|lia|exact (ev_online V2)|done| | |done| | |].
    { eapply handlers_ok_only; [done|done|exact Ho2|done]. }
    { split; [exact (ev_next V12 Hin)| |done|]; rewrite Er; done. }
    { eapply (rested_later c c2 n n2 23); [done|done|lia| |lia]. eapply (eq_ind _ (rested c n) Hrest). lia. }
    { destruct Ht. split; [done|]. nia. }
    exists c', m', n'. split_and!; [|..].
    + rewrite (Hpass _ _ E). replace (r =? MQTTHeader.type h) with false; [by replace (0 <=? r) with true by lia|].
      symmetry. apply Z.eqb_neq. by intros ->.
    + rewrite Ed in V'. eapply evolves_eq; [exact (evolves_trans V12 V')|lia|by rewrite <- !app_assoc|done|done].
    + done.
    + eapply only_mono; [eapply only_trans; [exact Ho2|exact Ho']|]. set_solver.
    + congruence.
    + done.
    + destruct Hsent' as [El|[? ?]]; [by destruct Hsent as [?|?]; [left; congruence|right; by rewrite El]|right].
      split; [done|]. rewrite Ek in *. lia.
Qed.
End flow.
