(* ===== verification/ClientApi.v ===== *)
(** * The operations of the API

    What MQTTConnect, MQTTPublish, MQTTSubscribe, MQTTUnsubscribe and MQTTDisconnect do
    on a working connection, end to end, with any messages that come in between. *)

From S2P Require Import Prelude Memory Wire Packet PacketRead Publish Connect Subscribe Topic Timer Network Client Transport ClientInv ClientIO ClientFlow.

Section api.
Context {N : Type} `{!Platform N} `{!PlatformLaws N}.
Context (bb rb lb : positive) (passes : nat) (garbage : Z).

Abbreviation local_i := (Ptr lb 0).
Abbreviation layout := (layout bb rb lb).
Abbreviation scratch := ([bb; rb; lb] ++ elements handler_blocks).

(** What an operation needs of the client to see an exchange through: enough passes,
    the memory laid out, the handlers in place, and [k] ticks before the keep-alive
    interval ends. *)
Record ready (c : MQTTClient) (m : mem) (n : N) (ks : list slot) (ps : list interim) : Prop := mkReady {
  rd_passes : (2 <= passes)%nat /\ (length ps < passes)%nat;
  rd_online : online n;
  rd_layout : layout c m;
  rd_handlers : handlers_ok bb rb lb c m ks;
  rd_timeout : 0 <= command_timeout_ms c < 4294967296 /\ (wait_ticks ps + 6) * tick <= command_timeout_ms c * 1000;
  rd_interval : c_keepAliveInterval c = 0 \/ (wait_ticks ps + 6) * tick <= c_keepAliveInterval c * 1000000
}.

(** The exchange at the heart of every operation: the packet in the send buffer
    leaves, and the one awaited comes in after the interim ones. *)
Lemma exchange timer c m n pkt ps h body rest ks :
  (2 <= passes)%nat -> (length ps < passes)%nat -> online n -> layout c m -> handlers_ok bb rb lb c m ks ->
  bytes_at m (Ptr bb 0) pkt -> 0 < Z.of_nat (length pkt) <= INT_MAX ->
  arrive c n ps h body rest -> awaited (MQTTHeader.type h) ->
  (c_keepAliveInterval c = 0 \/ (wait_ticks ps + 4) * tick <= c_keepAliveInterval c * 1000000) ->
  alive timer (clock n + (wait_ticks ps + 4) * tick) ->
  exists t n1 c' m' n', sendPacket passes (Z.of_nat (length pkt)) timer (c, (m, n)) =
      Ret (MQTT_SUCCESS, (set_last_sent t c, (m, n1))) /\
    waitfor local_i passes garbage (MQTTHeader.type h) timer (set_last_sent t c, (m, n1)) = Ret (MQTTHeader.type h, (c', (m', n'))) /\
    evolves (wait_ticks ps + 4) (concat (map in_bytes ps) ++ frame h body) (pkt ++ concat (map in_reply ps))
      (concat (map (in_deliveries (defaultMessageHandler c) ks) ps)) n n' /\
    layout c' m' /\ only scratch m m' /\ session c' = session c /\ bytes_at m' (Ptr rb 0) (frame h body).
Proof.
  intros Hp Hps Hon Hly Hho Hpkt Hlen [Hin Hint Hbody Hfit] Haw Hk Ht. pose proof tick_pos as Htp.
  assert (18 <= wait_ticks ps) as Hw by (unfold wait_ticks; lia).
  destruct (sendPacket_run passes timer c m n pkt) as (t & n1 & E1 & V1 & Ht1);
    [done|done|by rewrite (ly_buf _ _ _ _ _ Hly)|done|apply (ly_keepalive _ _ _ _ _ Hly)|destruct Ht; split; [done|nia]|].
  set (c1 := set_last_sent t c) in *. assert (session c1 = session c) as Hs1 by done.
  assert (clock n <= clock n1 <= clock n + 4 * tick) as Hc1 by (destruct V1 as [_ _ _ ? _]; lia).
  destruct (waitfor_loop_run bb rb lb passes garbage ps passes timer FAILURE c1 m n1 h body rest ks)
    as (c' & m' & n' & E2 & V2 & Hly' & Ho & Hs & Hb & _);
    [done|done|exact (ev_online V1)|by eapply session_layout|by destruct Hho; split
    |by split; [exact (ev_next V1 Hin)|..]|done| | |].
  { destruct Hk as [?|Hk]; [by left|right]. destruct Ht1. split; [split; [done|simpl; nia]|simpl; nia]. }
  { destruct Ht. split; [done|nia]. }
  exists t, n1, c', m', n'. split_and!; try done.
  eapply evolves_eq; [exact (evolves_trans V1 V2)|lia|done..].
Qed.

(** *** The packets that fit the send buffer *)

Lemma connect_fits m b buflen options cn :
  connect_repr m b options cn -> Z.of_nat (length (connect_body cn)) <= MAX_REMAINING ->
  room m (Ptr b 0) buflen -> Z.of_nat (length (encode (PConnect cn))) < buflen ->
  MQTTSerialize_connect (Ptr b 0) buflen options m =
  Ret (Z.of_nat (length (encode (PConnect cn))), mwrite m (Ptr b 0) (encode (PConnect cn))).
Proof.
  intros Hc Hs Hr Hfit. destruct (MQTTPacket_len_spec (Z.of_nat (length (connect_body cn))) m) as (L & HL & HL2); [lia|].
  eapply MQTTSerialize_connect_run; try done. unfold encode in Hfit. rewrite length_frame in Hfit. lia.
Qed.

Lemma publish_fits m b buflen qos retained packetid topicName topic payload bytes :
  publish_args m b 0 buflen qos packetid topicName topic payload bytes ->
  let pkt := encode (PPublish 0 qos (retained mod 2) topic packetid bytes) in
  Z.of_nat (length pkt) < buflen ->
  MQTTSerialize_publish (Ptr b 0) buflen 0 qos retained packetid topicName payload (Z.of_nat (length bytes)) m =
  Ret (Z.of_nat (length pkt), mwrite m (Ptr b 0) pkt).
Proof.
  intros Ha pkt Hfit.
  destruct (MQTTPacket_len_spec (Z.of_nat (length (publish_body qos topic packetid bytes))) m) as (L & HL & HL2);
    [pose proof (pa_size _ _ _ _ _ _ _ _ _ _ Ha); lia|].
  eapply MQTTSerialize_publish_run; try done. unfold pkt, encode in Hfit. rewrite length_frame in Hfit. lia.
Qed.

Lemma subscribe_fits m b buflen id filter f q :
  room m (Ptr b 0) buflen -> 0 <= id < 65536 -> mstring m b filter f -> Z.of_nat (length f) < 65536 -> is_byte q ->
  let pkt := encode (PSubscribe 0 id [(f, q)]) in
  Z.of_nat (length pkt) < buflen ->
  MQTTSerialize_subscribe (Ptr b 0) buflen 0 id 1 [filter] [q] m = Ret (Z.of_nat (length pkt), mwrite m (Ptr b 0) pkt).
Proof.
  intros Hr Hid Hf Hl Hq pkt Hfit.
  assert (Z.of_nat (length (subscribe_body id [(f, q)])) <= MAX_REMAINING) as Hs.
  { unfold subscribe_body. cbn. unfold MAX_REMAINING. rewrite app_nil_r, length_app. simpl. lia. }
  destruct (MQTTPacket_len_spec (Z.of_nat (length (subscribe_body id [(f, q)]))) m) as (L & HL & HL2); [lia|].
  apply (MQTTSerialize_subscribe_run m b 0 buflen 0 id [filter] [(f, q)] L); try done.
  - by constructor; [|constructor].
  - by apply Forall_singleton.
  - unfold pkt, encode in Hfit. rewrite length_frame in Hfit. lia.
Qed.

Lemma unsubscribe_fits m b buflen id filter f :
  room m (Ptr b 0) buflen -> 0 <= id < 65536 -> mstring m b filter f -> Z.of_nat (length f) < 65536 ->
  let pkt := encode (PUnsubscribe 0 id [f]) in
  Z.of_nat (length pkt) < buflen ->
  MQTTSerialize_unsubscribe (Ptr b 0) buflen 0 id 1 [filter] m = Ret (Z.of_nat (length pkt), mwrite m (Ptr b 0) pkt).
Proof.
  intros Hr Hid Hf Hl pkt Hfit.
  assert (Z.of_nat (length (unsubscribe_body id [f])) <= MAX_REMAINING) as Hs.
  { unfold unsubscribe_body, MAX_REMAINING. cbn [map concat].
    rewrite app_nil_r, length_app, length_u16, length_utf8. lia. }
  destruct (MQTTPacket_len_spec (Z.of_nat (length (unsubscribe_body id [f]))) m) as (L & HL & HL2); [lia|].
  apply (MQTTSerialize_unsubscribe_run m b 0 buflen 0 id [filter] [f] L); try done.
  - by constructor; [|constructor].
  - unfold pkt, encode in Hfit. rewrite length_frame in Hfit. lia.
Qed.

(** *** MQTTPublish *)

(** The next packet id. *)
Definition next_id (c : MQTTClient) : Z := if next_packetid c =? MAX_PACKET_ID then 1 else next_packetid c + 1.

Lemma getNextPacketId_at c (s : mem * N) :
  1 <= next_packetid c <= MAX_PACKET_ID ->
  getNextPacketId (c, s) = Ret (next_id c, (set_next_packetid (next_id c) c, s)) /\
  1 <= next_id c < 65536 /\ to_ushort (next_id c) = next_id c.
Proof using Platform0.
  intros Hr. rewrite getNextPacketId_run. unfold next_id, MAX_PACKET_ID in *.
  assert ((if next_packetid c =? 65535 then 1 else to_uint (next_packetid c + 1)) =
    (if next_packetid c =? 65535 then 1 else next_packetid c + 1)) as ->.
  { destruct (Z.eqb_spec (next_packetid c) 65535); [done|]. unfold to_uint. rewrite Z.mod_small; lia. }
  set (id := if next_packetid c =? 65535 then _ else _).
  assert (1 <= id < 65536) by (unfold id; destruct (Z.eqb_spec (next_packetid c) 65535); lia).
  cbv zeta. split; [do 2 f_equal; conv_lia|]. split; [done|]. unfold to_ushort. rewrite Z.mod_small; lia.
Qed.

(** The arguments of MQTTPublish denote a topic and a payload, and the packet fits. *)
Record publish_call (c : MQTTClient) (m : mem) (topicName : ptr) (msg : MQTTMessage) (topic payload : list Z) (id : Z) :
    Prop := mkPublishCall {
  pc_connected : isconnected c = 1;
  pc_topic : cstr_at m topicName topic /\ ~ in_block topicName bb /\ Z.of_nat (length topic) < 65536;
  pc_payload : source_at m (msg_payload msg) payload /\ ~ in_block (msg_payload msg) bb;
  pc_length : msg_payloadlen msg = Z.of_nat (length payload);
  pc_id : 0 <= id < 65536;
  pc_qos : 0 <= msg_qos msg < 3;
  pc_body : Z.of_nat (length (publish_body (msg_qos msg) topic id payload)) <= MAX_REMAINING;
  pc_fits : Z.of_nat (length (encode (PPublish 0 (msg_qos msg) (msg_retained msg mod 2) topic id payload))) < buf_size c
}.

Lemma publish_serialized c m topicName msg topic payload id :
  layout c m -> publish_call c m topicName msg topic payload id ->
  let pkt := encode (PPublish 0 (msg_qos msg) (msg_retained msg mod 2) topic id payload) in
  MQTTSerialize_publish (buf c) (to_int (buf_size c)) 0 (msg_qos msg) (msg_retained msg) id
    (mkMQTTString topicName (mkLenString 0 NULL)) (msg_payload msg) (to_int (msg_payloadlen msg)) m =
  Ret (Z.of_nat (length pkt), mwrite m (Ptr bb 0) pkt) /\
  0 < Z.of_nat (length pkt) <= INT_MAX /\ layout c (mwrite m (Ptr bb 0) pkt) /\
  bytes_at (mwrite m (Ptr bb 0) pkt) (Ptr bb 0) pkt.
Proof.
  intros Hly [Hc (Ht & Htb & Htl) [Hp Hpb] Hl Hid Hq Hb Hf] pkt.
  pose proof Hly as [Hbuf _ Hbs _ _ Hbr _ _ _ (Hown & _) _]. fold pkt in Hf.
  assert (room m (Ptr bb 0) (Z.of_nat (length pkt))) as Hr by (eapply room_le; [exact Hbr|lia]).
  assert (0 < Z.of_nat (length pkt)) by (unfold pkt, encode; rewrite length_frame; pose proof (rl_size_range (Z.of_nat (length (publish_body (msg_qos msg) topic id payload)))); lia).
  split_and!; [|done|lia|by apply layout_mwrite|by apply bytes_at_mwrite_eq].
  rewrite Hbuf, Hl. replace (to_int (Z.of_nat (length payload))) with (Z.of_nat (length payload)).
  2: { rewrite length_publish_body in Hb. unfold MAX_REMAINING in Hb. destruct (0 <? msg_qos msg); conv_lia. }
  replace (to_int (buf_size c)) with (buf_size c) by conv_lia.
  apply publish_fits; [|done]. split; try done; [lia|]. by apply mstring_c.
Qed.

(** A message of QoS 0 is sent, and that is all. *)
Lemma MQTTPublish_qos0_run c m n topicName msg topic payload :
  (2 <= passes)%nat -> online n -> layout c m ->
  0 <= command_timeout_ms c < 4294967296 -> 3 * tick <= command_timeout_ms c * 1000 ->
  publish_call c m topicName msg topic payload (msg_id msg) -> msg_qos msg = QOS0 ->
  let pkt := encode (PPublish 0 QOS0 (msg_retained msg mod 2) topic (msg_id msg) payload) in
  exists t n', MQTTPublish local_i passes garbage topicName msg (c, (m, n)) =
    Ret ((MQTT_SUCCESS, msg), (set_last_sent t c, (mwrite m (Ptr bb 0) pkt, n'))) /\
    evolves 5 [] pkt [] n n' /\ layout (set_last_sent t c) (mwrite m (Ptr bb 0) pkt).
Proof.
  intros Hp Hon Hly Hct Htick Hcall Hq pkt. pose proof tick_pos.
  destruct (publish_serialized c m topicName msg topic payload (msg_id msg) Hly Hcall) as (E1 & Hlen & Hly1 & Hb1).
  rewrite Hq in *. fold pkt in E1, Hlen, Hly1, Hb1. set (m1 := mwrite m (Ptr bb 0) pkt) in *.
  destruct (countdown_ms_run (command_timeout_ms c) c m n Hon Hct) as (timer & n1 & E2 & V2 & Ht).
  destruct (sendPacket_run passes timer c m1 n1 pkt) as (t & n2 & E3 & V3 & _);
    [done|exact (ev_online V2)|by rewrite (ly_buf _ _ _ _ _ Hly)|done|apply (ly_keepalive _ _ _ _ _ Hly)| |].
  { destruct Ht. split; [done|]. destruct V2 as [_ _ _ ? _]. lia. }
  exists t, n2. split; [|split; [exact (evolves_trans V2 V3)|by eapply layout_client]].
  unfold MQTTPublish. erewrite bind_ret by apply client_run. rewrite (pc_connected _ _ _ _ _ _ _ Hcall).
  change (negb (truthy 1)) with false. cbv iota. erewrite bind_ret.
  2: { erewrite bind_ret by exact E2. rewrite Hq. change ((QOS0 =? QOS1) || (QOS0 =? QOS2)) with false. cbv iota.
       erewrite bind_ret by apply mret_run. rewrite Hq. erewrite bind_ret by (apply memory_run; exact E1).
       replace (Z.of_nat (length pkt) <=? 0) with false by lia. erewrite bind_ret by exact E3.
       reflexivity. }
  done.
Qed.

(** The message with its id assigned. *)
Definition with_id (msg : MQTTMessage) (id : Z) : MQTTMessage :=
  mkMessage (msg_qos msg) (msg_retained msg) (msg_dup msg) id (msg_payload msg) (msg_payloadlen msg).

(** What an operation makes of the send buffer before the exchange. *)
Lemma handlers_ok_sent c m ks pkt : handlers_ok bb rb lb c m ks -> handlers_ok bb rb lb c (mwrite m (Ptr bb 0) pkt) ks.
Proof. intros Hho. eapply handlers_ok_only; [exact Hho|done|apply only_mwrite|]. set_solver. Qed.

(** An operation of the API up to the wait: the timer, the packet, the exchange. *)
Lemma operation c m n ks ps c1 pkt h body rest :
  ready c m n ks ps -> session c1 = session (set_next_packetid (next_packetid c1) c) ->
  layout c (mwrite m (Ptr bb 0) pkt) -> bytes_at (mwrite m (Ptr bb 0) pkt) (Ptr bb 0) pkt ->
  0 < Z.of_nat (length pkt) <= INT_MAX -> arrive c n ps h body rest -> awaited (MQTTHeader.type h) ->
  exists timer t n1 n2 c' m' n',
    countdown_ms (command_timeout_ms c) (c, (m, n)) = Ret (timer, (c, (m, n1))) /\
    sendPacket passes (Z.of_nat (length pkt)) timer (c1, (mwrite m (Ptr bb 0) pkt, n1)) =
      Ret (MQTT_SUCCESS, (set_last_sent t c1, (mwrite m (Ptr bb 0) pkt, n2))) /\
    waitfor local_i passes garbage (MQTTHeader.type h) timer (set_last_sent t c1, (mwrite m (Ptr bb 0) pkt, n2)) = Ret (MQTTHeader.type h, (c', (m', n'))) /\
    evolves (wait_ticks ps + 5) (concat (map in_bytes ps) ++ frame h body) (pkt ++ concat (map in_reply ps))
      (concat (map (in_deliveries (defaultMessageHandler c) ks) ps)) n n' /\
    layout c' m' /\ only scratch m m' /\ session c' = session c1 /\ bytes_at m' (Ptr rb 0) (frame h body).
Proof.
  intros [[Hp Hps] Hon Hly Hho [Hct Hto] Hint] Hs1 Hly1 Hb1 Hlen Har Haw. pose proof tick_pos.
  assert (messageHandlers c1 = messageHandlers c /\ defaultMessageHandler c1 = defaultMessageHandler c /\
    readbuf_size c1 = readbuf_size c /\ c_keepAliveInterval c1 = c_keepAliveInterval c) as (Eh & Ed & Er & Ek)
    by (apply session_handlers in Hs1; exact Hs1).
  destruct (countdown_ms_run (command_timeout_ms c) c m n Hon Hct) as (timer & n1 & E1 & V1 & Ht).
  assert (clock n1 <= clock n + 1 * tick) as Hc1 by (destruct V1 as [_ _ _ ? _]; lia).
  destruct (exchange timer c1 (mwrite m (Ptr bb 0) pkt) n1 pkt ps h body rest ks)
    as (t & n2 & c' & m' & n' & E2 & E3 & V3 & Hly' & Ho & Hs & Hb); try done.
  - exact (ev_online V1).
  - eapply layout_client; [exact Hly1| |done]. unfold session, client_config in *. cbn in *. congruence.
  - eapply handlers_ok_only; [by apply handlers_ok_sent|done|intros b _; done|apply list_subseteq_nil].
  - destruct Har as [Hin Hi Hbd Hf]. split; [exact (ev_next V1 Hin)| |done|]; rewrite Er; done.
  - rewrite Ek. destruct Hint as [?|?]; [by left|right; lia].
  - destruct Ht. split; [done|]. lia.
  - exists timer, t, n1, n2, c', m', n'. rewrite Ed in V3. split_and!; try done.
    + eapply evolves_eq; [exact (evolves_trans V1 V3)|lia|done..].
    + eapply only_mono; [eapply only_trans; [apply only_mwrite|exact Ho]|]. set_solver.
Qed.

Definition final_ack (qos : Z) : Z := if qos =? QOS1 then PUBACK else PUBCOMP.

(** A message of QoS 1 or 2 is sent and acknowledged. *)
Lemma MQTTPublish_acked_run c m n ks ps topicName msg topic payload ackid rest :
  ready c m n ks ps -> 1 <= next_packetid c <= MAX_PACKET_ID -> (msg_qos msg = QOS1 \/ msg_qos msg = QOS2) ->
  publish_call c m topicName msg topic payload (next_id c) -> 0 <= ackid < 65536 ->
  arrive c n ps (fixed_header (final_ack (msg_qos msg)) 0 0 0) (u16 ackid) rest ->
  exists c' m' n', MQTTPublish local_i passes garbage topicName msg (c, (m, n)) =
    Ret ((MQTT_SUCCESS, with_id msg (next_id c)), (c', (m', n'))) /\
    evolves (wait_ticks ps + 5) (concat (map in_bytes ps) ++ encode (PAck (final_ack (msg_qos msg)) 0 ackid))
      (encode (PPublish 0 (msg_qos msg) (msg_retained msg mod 2) topic (next_id c) payload) ++ concat (map in_reply ps))
      (concat (map (in_deliveries (defaultMessageHandler c) ks) ps)) n n' /\
    session c' = session (set_next_packetid (next_id c) c) /\ layout c' m' /\ only scratch m m'.
Proof.
  intros Hrd Hid Hq Hcall Hack Har. pose proof (rd_layout _ _ _ _ _ Hrd) as Hly.
  destruct (publish_serialized c m topicName msg topic payload (next_id c) Hly Hcall) as (E1 & Hlen & Hly1 & Hb1).
  set (pkt := encode _) in *.
  assert (0 <= final_ack (msg_qos msg) < 16) as Hty by (destruct Hq as [->| ->]; split; vm_compute; congruence).
  destruct (fixed_header_fields (final_ack (msg_qos msg)) 0 0 0) as (_ & Ety & _); [lia..|].
  destruct (operation c m n ks ps (set_next_packetid (next_id c) c) pkt (fixed_header (final_ack (msg_qos msg)) 0 0 0)
    (u16 ackid) rest Hrd) as (timer & t & n1 & n2 & c' & m' & n' & F1 & F2 & F3 & V & Hly' & Ho & Hs & Hb); try done.
  { rewrite Ety. destruct Hq as [->| ->]; unfold awaited; vm_compute; tauto. }
  rewrite Ety in F3. destruct (getNextPacketId_at c (m, n1) Hid) as (Eid & _ & Eus).
  assert (await_ack local_i passes garbage (final_ack (msg_qos msg)) timer
    (set_last_sent t (set_next_packetid (next_id c) c), (mwrite m (Ptr bb 0) pkt, n2)) =
    Ret (MQTT_SUCCESS, (c', (m', n')))) as F4.
  { unfold await_ack. erewrite bind_ret by apply client_run. erewrite bind_ret by exact F3. rewrite Z.eqb_refl.
    cbn [readbuf set_next_packetid set_last_sent]. rewrite (ly_readbuf _ _ _ _ _ Hly).
    erewrite bind_ret by (apply memory_run, (MQTTDeserialize_ack_at m' rb 0 _ _ (final_ack (msg_qos msg)) 0 ackid 0 []);
      [lia|lia|lia|done|by rewrite app_nil_r]). done. }
  assert (encode (PAck (final_ack (msg_qos msg)) 0 ackid) = frame (fixed_header (final_ack (msg_qos msg)) 0 0 0) (u16 ackid))
    as -> by (by destruct Hq as [->| ->]).
  exists c', m', n'. split_and!; try done.
  unfold MQTTPublish. erewrite bind_ret by apply client_run. rewrite (pc_connected _ _ _ _ _ _ _ Hcall).
  change (negb (truthy 1)) with false. cbv iota.
  rewrite (bind_ret _ _ _ (MQTT_SUCCESS, with_id msg (next_id c)) (c', (m', n'))); [done|].
  erewrite bind_ret by exact F1. erewrite bind_ret.
  2: { replace ((msg_qos msg =? QOS1) || (msg_qos msg =? QOS2)) with true by (by destruct Hq as [->| ->]).
       erewrite bind_ret by exact Eid. rewrite Eus. reflexivity. }
  fold (with_id msg (next_id c)). erewrite bind_ret by (apply memory_run; exact E1).
  replace (Z.of_nat (length pkt) <=? 0) with false by lia. erewrite bind_ret by exact F2.
  change (negb (MQTT_SUCCESS =? MQTT_SUCCESS)) with false. cbv iota.
  rewrite (bind_ret _ _ _ MQTT_SUCCESS (c', (m', n'))); [done|].
  unfold final_ack in F4. cbn [msg_qos with_id]. by destruct Hq as [E| E]; rewrite E in *.
Qed.

(** *** MQTTSubscribe and MQTTUnsubscribe *)

(** A topic filter as the API takes it: a string outside of the buffers. *)
Record filter_arg (m : mem) (filter : ptr) (f : list Z) : Prop := mkFilterArg {
  fa_string : cstr_at m filter f;
  fa_outside : forall b, b ∈ scratch -> ~ in_block filter b;
  fa_length : Z.of_nat (length f) < 65536
}.

Lemma filter_arg_only m m' filter f : filter_arg m filter f -> only scratch m m' -> cstr_at m' filter f.
Proof.
  intros [[Hb H0] Ho _] Hm. split; [|done]. destruct filter as [| |b o]; [by destruct Hb as [? [=]]..|].
  eapply only_bytes_at; [exact Hm| |done]. intros Hs. by apply (Ho b).
Qed.

Lemma filter_arg_mstring m filter f :
  filter_arg m filter f -> mstring m bb (mkMQTTString filter (mkLenString 0 NULL)) f.
Proof. intros [Hc Ho _]. apply mstring_c; [done|apply Ho; set_solver|lia]. Qed.

(** A packet in the send buffer. *)
Lemma sent_layout c m pkt :
  layout c m -> Z.of_nat (length pkt) < buf_size c ->
  layout c (mwrite m (Ptr bb 0) pkt) /\ bytes_at (mwrite m (Ptr bb 0) pkt) (Ptr bb 0) pkt /\
  Z.of_nat (length pkt) <= INT_MAX /\ room m (Ptr bb 0) (to_int (buf_size c)) /\ to_int (buf_size c) = buf_size c.
Proof.
  intros Hly Hf. pose proof Hly as [_ _ Hbs _ _ Hbr _ _ _ (Hown & _) _].
  assert (room m (Ptr bb 0) (Z.of_nat (length pkt))) as Hr by (eapply room_le; [exact Hbr|lia]).
  replace (to_int (buf_size c)) with (buf_size c) by conv_lia.
  split_and!; [by apply layout_mwrite|by apply bytes_at_mwrite_eq|lia|done|done].
Qed.

Lemma MQTTSubscribe_run c m n ks ps filter f q handler granted ackid code rest :
  ready c m n ks ps -> 1 <= next_packetid c <= MAX_PACKET_ID -> isconnected c = 1 -> NoDup (entries ks).*1 ->
  filter_arg m filter f -> is_byte q -> handler ≠ 0 -> 0 <= ackid < 65536 -> is_byte code ->
  (is_Some (table ks !! f) \/ (size (table ks) < MAX_MESSAGE_HANDLERS)%nat) ->
  let pkt := encode (PSubscribe 0 (next_id c) [(f, q)]) in
  Z.of_nat (length pkt) < buf_size c ->
  arrive c n ps (fixed_header 9 0 0 0) (u16 ackid ++ [code]) rest ->
  exists c' m' n' ks', MQTTSubscribeWithResults local_i passes garbage filter q handler granted (c, (m, n)) =
    Ret ((MQTT_SUCCESS, to_uint (to_char code)), (c', (m', n'))) /\
    evolves (wait_ticks ps + 5) (concat (map in_bytes ps) ++ encode (PSuback ackid [code]))
      (pkt ++ concat (map in_reply ps)) (concat (map (in_deliveries (defaultMessageHandler c) ks) ps)) n n' /\
    handlers_repr m' c' ks' /\ table ks' = <[f := handler]> (table ks) /\ isconnected c' = 1.
Proof.
  intros Hrd Hid Hconn Hnd Hfa Hq Hh Hack Hcode Hroom pkt Hfit Har. pose proof (rd_layout _ _ _ _ _ Hrd) as Hly.
  pose proof (rd_handlers _ _ _ _ _ Hrd) as [H5 Hks _ Hout].
  destruct (sent_layout c m pkt Hly Hfit) as (Hly1 & Hb1 & Hlen & Hr & Ebs).
  assert (0 < Z.of_nat (length pkt)) as Hpos by (simpl; lia).
  destruct (operation c m n ks ps (set_next_packetid (next_id c) c) pkt (fixed_header 9 0 0 0) (u16 ackid ++ [code]) rest Hrd)
    as (timer & t & n1 & n2 & c1 & m1 & n' & F1 & F2 & F3 & V & Hly' & Ho & Hs & Hb); try done.
  { unfold awaited. vm_compute. tauto. }
  change (MQTTHeader.type (fixed_header 9 0 0 0)) with SUBACK in F3.
  destruct (getNextPacketId_at c (m, n1) Hid) as (Eid & Hidr & Eus).
  destruct (session_handlers _ _ Hs) as (Eh & _). cbn [messageHandlers set_next_packetid] in Eh.
  assert (isconnected c1 = 1) as Ec1 by (unfold session in Hs; cbn in Hs; congruence).
  assert (length ks = MAX_MESSAGE_HANDLERS) as Hk5 by (by rewrite <- (Forall2_length _ _ _ Hks)).
  destruct (MQTTSetMessageHandler_run c1 m1 n' ks filter f handler) as (rc & c' & ks' & E & Hrep & _ & Hres);
    [split; [rewrite Eh; by eapply only_slot_repr|done]|done|by eapply filter_arg_only|].
  unfold set_handler in Hres. rewrite (proj2 (Z.eqb_neq _ _) Hh), decide_True in Hres by done.
  destruct Hres as [-> Htab].
  assert (isconnected c' = 1) as Ec'.
  { rewrite <- Ec1. change (isconnected (set_messageHandlers [] c') = isconnected (set_messageHandlers [] c1)).
    f_equal. eapply (MQTTSetMessageHandler_frame filter handler); [|exact E]. done. }
  exists c', m1, n', ks'. split_and!; try done.
  unfold MQTTSubscribeWithResults. erewrite bind_ret by apply client_run. rewrite Hconn.
  change (negb (truthy 1)) with false. cbv iota.
  rewrite (bind_ret _ _ _ (MQTT_SUCCESS, to_uint (to_char code)) (c', (m1, n'))); [done|].
  erewrite bind_ret by exact F1. erewrite bind_ret by exact Eid. rewrite Eus, (ly_buf _ _ _ _ _ Hly), Ebs.
  erewrite bind_ret by (apply memory_run, subscribe_fits; [by rewrite <- Ebs|lia|by apply filter_arg_mstring
    |by destruct Hfa|done|done]).
  fold pkt. replace (Z.of_nat (length pkt) <=? 0) with false by lia. erewrite bind_ret by exact F2.
  change (negb (MQTT_SUCCESS =? MQTT_SUCCESS)) with false. cbv iota. erewrite bind_ret by exact F3.
  change (SUBACK =? SUBACK) with true. cbv iota. rewrite (ly_readbuf _ _ _ _ _ Hly).
  erewrite bind_ret by (apply memory_run, (MQTTDeserialize_suback_at m1 rb 0 _ 1 _ ackid [code] []);
    [by rewrite app_nil_r|done|unfold MAX_REMAINING; simpl; lia|simpl; lia|simpl; lia]).
  cbv iota beta. cbn [so_grantedQoSs map app lookup list_lookup default from_option id].
  change (1 =? 1) with true. cbv iota.
  replace (to_uint (to_char code) =? SUBFAIL) with false by (unfold SUBFAIL; conv_lia). cbn [negb].
  by erewrite bind_ret by exact E.
Qed.

Lemma MQTTUnsubscribe_run c m n ks ps filter f ackid rest :
  ready c m n ks ps -> 1 <= next_packetid c <= MAX_PACKET_ID -> isconnected c = 1 -> NoDup (entries ks).*1 ->
  filter_arg m filter f -> 0 <= ackid < 65536 ->
  let pkt := encode (PUnsubscribe 0 (next_id c) [f]) in
  Z.of_nat (length pkt) < buf_size c ->
  arrive c n ps (fixed_header 11 0 0 0) (u16 ackid) rest ->
  exists c' m' n' ks', MQTTUnsubscribe local_i passes garbage filter (c, (m, n)) =
    Ret (MQTT_SUCCESS, (c', (m', n'))) /\
    evolves (wait_ticks ps + 5) (concat (map in_bytes ps) ++ encode (PAck UNSUBACK 0 ackid))
      (pkt ++ concat (map in_reply ps)) (concat (map (in_deliveries (defaultMessageHandler c) ks) ps)) n n' /\
    handlers_repr m' c' ks' /\ table ks' = delete f (table ks) /\ isconnected c' = 1.
Proof.
  intros Hrd Hid Hconn Hnd Hfa Hack pkt Hfit Har. pose proof (rd_layout _ _ _ _ _ Hrd) as Hly.
  pose proof (rd_handlers _ _ _ _ _ Hrd) as [H5 Hks _ Hout].
  destruct (sent_layout c m pkt Hly Hfit) as (Hly1 & Hb1 & Hlen & Hr & Ebs).
  assert (0 < Z.of_nat (length pkt)) as Hpos by (simpl; lia).
  destruct (operation c m n ks ps (set_next_packetid (next_id c) c) pkt (fixed_header 11 0 0 0) (u16 ackid) rest Hrd)
    as (timer & t & n1 & n2 & c1 & m1 & n' & F1 & F2 & F3 & V & Hly' & Ho & Hs & Hb); try done.
  { unfold awaited. vm_compute. tauto. }
  change (MQTTHeader.type (fixed_header 11 0 0 0)) with UNSUBACK in F3.
  destruct (getNextPacketId_at c (m, n1) Hid) as (Eid & Hidr & Eus).
  destruct (session_handlers _ _ Hs) as (Eh & _). cbn [messageHandlers set_next_packetid] in Eh.
  assert (isconnected c1 = 1) as Ec1 by (unfold session in Hs; cbn in Hs; congruence).
  assert (length ks = MAX_MESSAGE_HANDLERS) as Hk5 by (by rewrite <- (Forall2_length _ _ _ Hks)).
  assert (handlers_repr m1 c1 ks) as Hrep1 by (split; [rewrite Eh; by eapply only_slot_repr|done]).
  destruct (MQTTSetMessageHandler_run c1 m1 n' ks filter f 0) as (rc & c' & ks' & E & Hrep & _ & Hres);
    [done|done|by eapply filter_arg_only|].
  assert (isconnected c' = 1) as Ec'.
  { rewrite <- Ec1. change (isconnected (set_messageHandlers [] c') = isconnected (set_messageHandlers [] c1)).
    f_equal. eapply (MQTTSetMessageHandler_frame filter 0); [|exact E]. done. }
  assert (table ks' = delete f (table ks)) as Htab.
  { unfold set_handler in Hres. change (0 =? 0) with true in Hres. cbv iota in Hres. case_decide as Hin.
    - by destruct Hres.
    - destruct Hres as (_ & _ & ->). rewrite delete_id; [done|]. by apply eq_None_not_Some. }
  exists c', m1, n', ks'. split_and!; try done.
  unfold MQTTUnsubscribe. erewrite bind_ret by apply client_run. rewrite Hconn.
  change (negb (truthy 1)) with false. cbv iota. rewrite (bind_ret _ _ _ MQTT_SUCCESS (c', (m1, n'))); [done|].
  erewrite bind_ret by exact F1. erewrite bind_ret by exact Eid. rewrite Eus, (ly_buf _ _ _ _ _ Hly), Ebs.
  erewrite bind_ret by (apply memory_run, unsubscribe_fits; [by rewrite <- Ebs|lia|by apply filter_arg_mstring
    |by destruct Hfa|done]).
  fold pkt. replace (Z.of_nat (length pkt) <=? 0) with false by lia. erewrite bind_ret by exact F2.
  change (negb (MQTT_SUCCESS =? MQTT_SUCCESS)) with false. cbv iota. erewrite bind_ret by exact F3.
  change (UNSUBACK =? UNSUBACK) with true. cbv iota. rewrite (ly_readbuf _ _ _ _ _ Hly).
  unfold MQTTDeserialize_unsuback. erewrite bind_ret.
  2: { apply memory_run. erewrite bind_ret by (apply (MQTTDeserialize_ack_at m1 rb 0 _ _ 11 0 ackid 0 []);
         [lia|lia|lia|done|by rewrite app_nil_r]). reflexivity. }
  cbv iota beta. cbn [ao_packettype]. change (11 =? UNSUBACK) with true. cbv iota. change (1 =? 1) with true. cbv iota.
  rewrite bind_assoc. by erewrite bind_ret by exact E.
Qed.

(** *** MQTTConnect *)

Lemma MQTTConnect_run c m n ks ps options cn data sp code rest :
  (2 <= passes)%nat -> (length ps < passes)%nat -> online n -> layout c m -> handlers_ok bb rb lb c m ks ->
  0 <= command_timeout_ms c < 4294967296 -> (wait_ticks ps + 6) * tick <= command_timeout_ms c * 1000 ->
  isconnected c = 0 -> connect_repr m bb options cn -> 0 <= sp < 2 -> is_byte code ->
  (cn_keepalive cn = 0 \/ (wait_ticks ps + 6) * tick <= cn_keepalive cn * 1000000) ->
  Z.of_nat (length (connect_body cn)) <= MAX_REMAINING ->
  Z.of_nat (length (encode (PConnect cn))) < buf_size c -> arrive c n ps 32 [sp; code] rest ->
  exists c' m' n', MQTTConnectWithResults local_i passes garbage (Some options) data (c, (m, n)) =
    Ret ((code, mkConnackData code sp), (c', (m', n'))) /\
    evolves (wait_ticks ps + 6) (concat (map in_bytes ps) ++ encode (PConnack sp code))
      (encode (PConnect cn) ++ concat (map in_reply ps))
      (concat (map (in_deliveries (defaultMessageHandler c) ks) ps)) n n' /\
    isconnected c' = (if code =? 0 then 1 else 0) /\ c_keepAliveInterval c' = cn_keepalive cn /\
    messageHandlers c' = messageHandlers c /\ layout c' m' /\ only scratch m m' /\
    next_packetid c' = next_packetid c /\ client_config c' = client_config c.
Proof.
  intros Hp Hps Hon Hly Hho Hct Hto Hconn Hrep Hsp Hcode Hka Hbody Hfit [Hin Hint Hbd Hf]. pose proof tick_pos.
  set (pkt := encode (PConnect cn)) in *. set (m1 := mwrite m (Ptr bb 0) pkt).
  pose proof (cr_keepalive_range _ _ _ _ Hrep) as Hkr. pose proof (cr_keepalive _ _ _ _ Hrep) as Hke.
  destruct (sent_layout c m pkt Hly Hfit) as (Hly1 & Hb1 & Hlen & Hr & Ebs).
  assert (0 < Z.of_nat (length pkt)) as Hpos.
  { unfold pkt, encode. rewrite length_frame. pose proof (rl_size_range (Z.of_nat (length (connect_body cn)))). lia. }
  destruct (countdown_ms_run (command_timeout_ms c) c m n Hon Hct) as (timer & n1 & E1 & V1 & Ht).
  set (c1 := set_session_options (to_uint (keepAliveInterval options)) (cleansession options) c).
  destruct (countdown_run (keepAliveInterval options) c1 m n1 (ev_online V1)) as (t & n2 & E2 & V2 & _); [lia|].
  set (c2 := set_last_received t c1).
  assert (c_keepAliveInterval c2 = cn_keepalive cn) as Ek.
  { cbn. unfold to_uint. rewrite Hke, Z.mod_small; lia. }
  assert (clock n2 <= clock n + 2 * tick) as Hc2 by (destruct V1 as [_ _ _ ? _], V2 as [_ _ _ ? _]; lia).
  assert (layout c2 m1) as Hly2.
  { destruct Hly1. split; try done. rewrite Ek. lia. }
  pose proof (evolves_trans V1 V2) as V12.
  destruct (exchange timer c2 m1 n2 pkt ps 32 [sp; code] rest ks)
    as (t2 & n3 & c' & m' & n' & E3 & E4 & V3 & Hly' & Ho & Hs & Hb); try done.
  - exact (ev_online V2).
  - apply handlers_ok_sent. destruct Hho. by split.
  - split; [exact (ev_next V12 Hin)|done..].
  - vm_compute. tauto.
  - rewrite Ek. destruct Hka as [?|?]; [by left|right; lia].
  - destruct Ht. split; [done|]. destruct V1 as [_ _ _ ? _]. lia.
  - change (MQTTHeader.type 32) with CONNACK in E4.
    assert (connect_exchange local_i passes garbage options data timer (c2, (m, n2)) =
      Ret ((code, mkConnackData code sp), (c', (m', n')))) as E5.
    { unfold connect_exchange. erewrite bind_ret by apply client_run. cbn [buf buf_size readbuf readbuf_size c2 c1 set_last_received set_session_options].
      rewrite (ly_buf _ _ _ _ _ Hly), Ebs, (ly_readbuf _ _ _ _ _ Hly).
      erewrite bind_ret by (apply memory_run, connect_fits; [done|done|by rewrite <- Ebs|done]). fold pkt m1.
      replace (Z.of_nat (length pkt) <=? 0) with false by lia. erewrite bind_ret by exact E3.
      change (negb (MQTT_SUCCESS =? MQTT_SUCCESS)) with false. cbv iota. erewrite bind_ret by exact E4.
      change (CONNACK =? CONNACK) with true. cbv iota.
      erewrite bind_ret by (apply memory_run, (MQTTDeserialize_connack_at m' rb 0 _ _ sp code []); [done|done|by rewrite app_nil_r]).
      done. }
    assert (isconnected c' = 0 /\ c_keepAliveInterval c' = cn_keepalive cn /\ messageHandlers c' = messageHandlers c /\
      next_packetid c' = next_packetid c /\ client_config c' = client_config c)
      as (Ec & Ekk & Eh & Eid & Ecfg) by (unfold session, client_config in *; cbn in Hs, Ek; split_and!; congruence).
    eexists (if code =? 0 then set_ping_outstanding 0 (set_isconnected 1 c') else c'), m', n'.
    split_and!.
    + unfold MQTTConnectWithResults. erewrite bind_ret by apply client_run. rewrite Hconn.
      change (truthy 0) with false. cbv iota.
      rewrite (bind_ret _ _ _ (code, mkConnackData code sp) (c', (m', n'))); [|].
      * unfold MQTT_SUCCESS. by destruct (code =? 0).
      * erewrite bind_ret by exact E1. cbv zeta. cbn [default]. erewrite bind_ret by apply update_run. fold c1.
        erewrite bind_ret by exact E2. erewrite bind_ret by apply update_run. exact E5.
    + eapply evolves_eq; [exact (evolves_trans V12 V3)|lia|done..].
    + by destruct (code =? 0).
    + by destruct (code =? 0).
    + by destruct (code =? 0).
    + destruct (code =? 0); [|done]. by eapply layout_client.
    + eapply only_mono; [eapply only_trans; [apply only_mwrite|exact Ho]|]. set_solver.
    + by destruct (code =? 0).
    + by destruct (code =? 0).
Qed.

(** *** MQTTDisconnect *)

Lemma MQTTDisconnect_run c m n :
  (2 <= passes)%nat -> online n -> layout c m -> 0 <= command_timeout_ms c < 4294967296 ->
  3 * tick <= command_timeout_ms c * 1000 ->
  exists c' m' n', MQTTDisconnect passes (c, (m, n)) = Ret (MQTT_SUCCESS, (c', (m', n'))) /\
    evolves 5 [] (encode (PEmpty DISCONNECT)) [] n n' /\ isconnected c' = 0 /\ ping_outstanding c' = 0 /\
    messageHandlers c' = (if truthy (c_cleansession c) then map (fun h => mkHandlers NULL (fp h)) (messageHandlers c)
                          else messageHandlers c).
Proof.
  intros Hp Hon Hly Hct Hto. pose proof tick_pos.
  set (pkt := encode (PEmpty DISCONNECT)). set (m1 := mwrite m (Ptr bb 0) pkt).
  pose proof Hly as [Hbuf _ Hbs _ Hka Hbr _ _ _ _ _].
  assert (room m (Ptr bb 0) 2) as Hr by (eapply room_le; [exact Hbr|lia]).
  destruct (countdown_ms_run (command_timeout_ms c) c m n Hon Hct) as (timer & n1 & E1 & V1 & Ht).
  destruct (sendPacket_run passes timer c m1 n1 pkt) as (t & n2 & E2 & V2 & _);
    [done|exact (ev_online V1)|rewrite Hbuf; by apply bytes_at_mwrite_eq|simpl; unfold INT_MAX; lia|done| |].
  { destruct Ht. split; [done|]. destruct V1 as [_ _ _ ? _]. lia. }
  unfold MQTTDisconnect. erewrite bind_ret by apply client_run. erewrite bind_ret by exact E1.
  unfold MQTTSerialize_disconnect. rewrite Hbuf. replace (to_int (buf_size c)) with (buf_size c) by conv_lia.
  erewrite bind_ret by (apply memory_run, MQTTSerialize_zero_run; [exact Hbr|lia|unfold DISCONNECT; lia]).
  change (0 <? 2) with true. cbv iota. erewrite bind_ret by exact E2.
  unfold MQTTCloseSession, MQTTCleanSession. rewrite ?bind_assoc. erewrite bind_ret by apply update_run.
  rewrite ?bind_assoc. erewrite bind_ret by apply update_run. rewrite ?bind_assoc.
  erewrite bind_ret by apply client_run. cbn [c_cleansession set_isconnected set_ping_outstanding set_last_sent].
  destruct (truthy (c_cleansession c)); eexists _, m1, n2; (split; [reflexivity|]);
    (split; [exact (evolves_trans V1 V2)|done]).
Qed.
End api.

(** ** A concrete client

    Connected with a keep-alive of 60 s, the buffers of src/mqtt_task.c, one handler
    for the filter "a/b", and a platform whose inbox is given. *)

Definition ex_mem : mem :=
  {[1%positive := replicate 1024 0; 2%positive := replicate 1024 0; 3%positive := replicate 1024 0;
    4%positive := [0]; 5%positive := [97; 47; 98; 0]; 6%positive := [104; 105]; 7%positive := [99; 49; 0]]}.

Definition ex_client : MQTTClient :=
  set_messageHandlers (mkHandlers (Ptr 5 0) 1 :: replicate 4 (mkHandlers NULL 0))
    (set_last_sent (mkTimer (mkTimeval 60 0)) (set_isconnected 1 (set_session_options 60 1
       (MQTTClientInit mqttClient 1000 sndBuffer 1024 rcvBuffer 1024)))).

Definition ex_slots : list (option (list Z * Z)) := [Some ([97; 47; 98], 1); None; None; None; None].

Definition ex_peer (ins : list Z) : peer := mkPeer (mkWire ins [] [] 0) 0 [].

Lemma ex_layout c :
  client_config c = client_config ex_client -> 0 <= c_keepAliveInterval c < 4294967296 -> layout 1 2 4 c ex_mem.
Proof.
  intros E Hk. unfold client_config in E. injection E as E1 E2 E3 E4 E5 E6. cbn in E2, E4.
  assert (forall b, room ex_mem (Ptr b 0) (Z.of_nat (length (default [] (ex_mem !! b)))) \/ ex_mem !! b = None) as Hroom.
  { intros b. destruct (ex_mem !! b) as [l|] eqn:Eb; [left|by right]. apply room_block; [lia|].
    exists l. split; [done|]. simpl. lia. }
  constructor; try done; try (rewrite ?E2, ?E4; unfold INT_MAX; lia).
  - destruct (Hroom 1%positive) as [H|H]; [rewrite E2; exact H|discriminate H].
  - destruct (Hroom 2%positive) as [H|H]; [rewrite E4; exact H|discriminate H].
  - destruct (Hroom 4%positive) as [H|H]; [exact H|discriminate H].
  - eexists. split; reflexivity.
Qed.

Lemma ex_handlers c :
  messageHandlers c = messageHandlers ex_client -> handlers_ok 1 2 4 c ex_mem ex_slots.
Proof.
  intros E. constructor; rewrite ?E; [done| | |].
  - repeat constructor; simpl; [by exists []|no_nul].
  - apply Forall_cons. split; [|by repeat (apply Forall_cons; split; [done|])].
    intros f v [= <- <-]. split; [|by vm_compute]. repeat (constructor; [split; vm_compute; congruence|]). constructor.
  - apply Forall_cons. split; [|by repeat (apply Forall_cons; split; [intros b _ []|])].
    intros b Hb Hin. simpl in Hin. subst b. change (elements handler_blocks) with (elements ({[3%positive]} : gset positive)) in Hb.
    rewrite elements_singleton in Hb. set_solver.
Qed.

Lemma ex_online ins : online (ex_peer ins).
Proof. cbn. constructor. Qed.
