(* ===== verification/ClientSpec.v ===== *)
(** * What the client promises

    The theorems on MQTTClient.c over any platform that keeps its laws: sending and
    receiving packets, the keep-alive, the dispatch of incoming packets, and the
    operations of the API.  The platform of src/mqtt/MQTTInterface.c is one such; the
    witnesses run on it. *)

From S2P Require Import Prelude Memory Wire Packet PacketRead Publish Connect Subscribe Topic Timer Network Client Transport ClientInv ClientIO ClientFlow ClientApi.

Section contracts.
Context {N : Type} `{!Platform N} `{!PlatformLaws N}.
Context (bb rb lb : positive) (passes : nat) (garbage : Z).

(** SendPacket sends the packet whole and restarts the keep-alive timer, or returns
    FAILURE having sent at most a prefix and with the client object unchanged; it
    succeeds when the connection works and the timer has not expired.  Two passes of its
    loop are enough. *)
Theorem sendPacket_contract timer c m n bs :
  (2 <= passes)%nat -> bytes_at m (buf c) bs -> 0 < Z.of_nat (length bs) <= INT_MAX ->
  0 <= c_keepAliveInterval c < 4294967296 ->
  exists rc c' n', sendPacket passes (Z.of_nat (length bs)) timer (c, (m, n)) = Ret (rc, (c', (m, n'))) /\
    inbox n' = inbox n /\ delivered n' = delivered n /\
    ((rc = MQTT_SUCCESS /\ outbox n' = outbox n ++ bs /\ exists t, c' = set_last_sent t c) \/
     (rc = FAILURE /\ c' = c /\ exists k, outbox n' = outbox n ++ take k bs)) /\
    (online n -> alive timer (clock n + tick) -> rc = MQTT_SUCCESS /\ online n').
Proof.
  intros Hp Hbs Hlen Hk. destruct (sendPacket_any passes timer c m n bs Hp Hbs Hlen) as (rc & c' & n' & E & Hi & Hd & Hres).
  exists rc, c', n'. split_and!; try done. intros Hon Ht.
  destruct (sendPacket_run passes timer c m n bs Hp Hon Hbs Hlen Hk Ht) as (t & n1 & E1 & V1 & _).
  rewrite E1 in E. injection E as <- _ <-. split; [done|exact (ev_online V1)].
Qed.

(** ReadPacket stores a packet that fits in the read buffer octet for octet,
    remaining length included, takes exactly that packet from the connection and returns
    its type; a packet that does not fit is refused with BUFFER_OVERFLOW before any octet
    of its body is stored, and nothing is written outside of the read buffer. *)
Theorem readPacket_contract timer c m n h body rest :
  online n -> layout bb rb lb c m -> inbox n = frame h body ++ rest -> Z.of_nat (length body) <= MAX_REMAINING ->
  (Z.of_nat (length (frame h body)) <= readbuf_size c ->
   exists c' m' n', readPacket (Ptr lb 0) timer (c, (m, n)) = Ret (MQTTHeader.type h, (c', (m', n'))) /\
     inbox n' = rest /\ outbox n' = outbox n /\ bytes_at m' (readbuf c) (frame h body) /\ only [lb; rb] m m') /\
  (readbuf_size c < Z.of_nat (length (frame h body)) ->
   exists m' n', readPacket (Ptr lb 0) timer (c, (m, n)) = Ret (BUFFER_OVERFLOW, (c, (m', n'))) /\
     inbox n' = body ++ rest /\ only [lb; rb] m m').
Proof.
  intros Hon Hly Hin Hbody. split; intros Hfit.
  - destruct (readPacket_run bb rb lb timer c m n h body rest) as (t & m' & n' & E & V & _ & Ho & Hb & _); [done..|].
    exists (received t c), m', n'. rewrite (ly_readbuf _ _ _ _ _ Hly).
    split_and!; try done; [exact (ev_next V Hin)|]. by rewrite (ev_out _ _ _ _ _ _ V), app_nil_r.
  - assert (inbox n = (h :: remaining_length (Z.of_nat (length body))) ++ body ++ rest) as Hin1
      by (rewrite Hin; unfold frame; simpl; by rewrite <- app_assoc).
    rewrite length_frame in Hfit.
    destruct (readPacket_too_large bb rb lb timer c m n h (Z.of_nat (length body)) (body ++ rest))
      as (m' & n' & E & V & _ & Ho); [done|done|done|lia|lia|].
    exists m', n'. split_and!; try done. exact (ev_next V Hin1).
Qed.

(** C16: keepalive does nothing while both timers run or the interval is 0; when one has
    expired it sends one PINGREQ and notes it as outstanding, and when the ping before is
    still unanswered it returns FAILURE without sending another. *)
Theorem keepalive_contract c m n :
  (2 <= passes)%nat -> online n -> layout bb rb lb c m -> 5 * tick <= 1000000 ->
  (fresh c (clock n + 2 * tick) ->
   exists n', keepalive passes (c, (m, n)) = Ret (MQTT_SUCCESS, (c, (m, n'))) /\ outbox n' = outbox n) /\
  (overdue c (clock n) -> ping_outstanding c = 0 ->
   exists t m' n', keepalive passes (c, (m, n)) =
     Ret (MQTT_SUCCESS, (set_ping_outstanding 1 (set_last_sent t c), (m', n'))) /\ outbox n' = outbox n ++ [192; 0]) /\
  (overdue c (clock n) -> ping_outstanding c ≠ 0 ->
   exists n', keepalive passes (c, (m, n)) = Ret (FAILURE, (c, (m, n'))) /\ outbox n' = outbox n).
Proof.
  intros Hp Hon Hly Htick. split_and!.
  - intros Hf. destruct (keepalive_quiet passes c m n Hon Hf) as (n' & E & V). exists n'. split; [done|].
    by rewrite (ev_out _ _ _ _ _ _ V), app_nil_r.
  - intros Hov Hping. destruct (keepalive_ping bb rb lb passes c m n) as (t & n' & E & V & _); [done..|].
    eexists t, _, n'. split; [exact E|]. by rewrite (ev_out _ _ _ _ _ _ V).
  - intros Hov Hping. destruct (keepalive_dead passes c m n Hon Hov Hping) as (n' & E & V). exists n'. split; [done|].
    by rewrite (ev_out _ _ _ _ _ _ V), app_nil_r.
Qed.

(** C3: cycle handles what the broker may send unasked: a PUBLISH is handed to exactly
    the handlers whose filter equals or matches its topic (or to the default handler if
    there is none) and acknowledged with PUBACK or PUBREC and its packet id as its QoS
    asks; a PUBREC is answered with PUBREL and a PUBREL with PUBCOMP; a PINGRESP is
    taken.  The session stays as it is. *)
Theorem cycle_dispatch timer c m n p rest ks :
  (2 <= passes)%nat -> online n -> layout bb rb lb c m -> handlers_ok bb rb lb c m ks -> in_ok p ->
  arrives c n (in_frame p).1 (in_frame p).2 rest -> rested c n 22 -> alive timer (clock n + 17 * tick) ->
  exists r c' m' n', cycle (Ptr lb 0) passes garbage timer (c, (m, n)) = Ret (r, (c', (m', n'))) /\ 0 <= r /\
    inbox n' = rest /\ outbox n' = outbox n ++ in_reply p /\
    delivered n' = delivered n ++ in_deliveries (defaultMessageHandler c) ks p /\ session c' = session c.
Proof.
  intros Hp Hon Hly Hho Hok Har Hrest Ht. pose proof (ar_inbox _ _ _ _ _ Har) as Hin.
  destruct (cycle_interim bb rb lb passes garbage timer c m n p rest ks)
    as (r & c' & m' & n' & E & Hr & _ & V & _ & _ & Hs & _); [done..|].
  exists r, c', m', n'. pose proof (ev_next V Hin). by destruct V.
Qed.

(** C5: MQTTConnect sends the CONNECT packet its options denote, takes the CONNACK (and
    whatever comes before it) from the connection, and returns the broker's return code,
    with the session flag in the result structure; the client counts as connected just
    when the code is 0. *)
Theorem MQTTConnect_exchange c m n ks ps options cn data sp code rest :
  (2 <= passes)%nat -> (length ps < passes)%nat -> online n -> layout bb rb lb c m -> handlers_ok bb rb lb c m ks ->
  0 <= command_timeout_ms c < 4294967296 -> (wait_ticks ps + 6) * tick <= command_timeout_ms c * 1000 ->
  isconnected c = 0 -> connect_repr m bb options cn -> 0 <= sp < 2 -> is_byte code ->
  (cn_keepalive cn = 0 \/ (wait_ticks ps + 6) * tick <= cn_keepalive cn * 1000000) ->
  Z.of_nat (length (connect_body cn)) <= MAX_REMAINING ->
  Z.of_nat (length (encode (PConnect cn))) < buf_size c -> arrive c n ps 32 [sp; code] rest ->
  exists c' m' n', MQTTConnectWithResults (Ptr lb 0) passes garbage (Some options) data (c, (m, n)) =
    Ret ((code, mkConnackData code sp), (c', (m', n'))) /\
    isconnected c' = (if code =? 0 then 1 else 0) /\ c_keepAliveInterval c' = cn_keepalive cn /\
    inbox n' = rest /\ outbox n' = outbox n ++ encode (PConnect cn) ++ concat (map in_reply ps).
Proof.
  intros. match goal with H : arrive _ _ _ _ _ _ |- _ => pose proof (ars_inbox _ _ _ _ _ _ H) as Hin end.
  destruct (MQTTConnect_run bb rb lb passes garbage c m n ks ps options cn data sp code rest)
    as (c' & m' & n' & E & V & Hc & Hk & _); [done..|].
  exists c', m', n'. split_and!; try done.
  - apply (ev_next V). by rewrite Hin, <- !app_assoc.
  - by destruct V.
Qed.

(** C6: MQTTPublish with QoS 1 or 2 sends the PUBLISH with the next packet id, answers
    and delivers what comes in meanwhile (the PUBREC of QoS 2 among it), and returns 0
    once the PUBACK or PUBCOMP is there; the message carries the id. *)
Theorem MQTTPublish_exchange c m n ks ps topicName msg topic payload ackid rest :
  ready bb rb lb passes c m n ks ps -> 1 <= next_packetid c <= MAX_PACKET_ID ->
  (msg_qos msg = QOS1 \/ msg_qos msg = QOS2) ->
  publish_call bb c m topicName msg topic payload (next_id c) -> 0 <= ackid < 65536 ->
  arrive c n ps (fixed_header (final_ack (msg_qos msg)) 0 0 0) (u16 ackid) rest ->
  exists c' m' n', MQTTPublish (Ptr lb 0) passes garbage topicName msg (c, (m, n)) =
    Ret ((MQTT_SUCCESS, with_id msg (next_id c)), (c', (m', n'))) /\
    inbox n' = rest /\ delivered n' = delivered n ++ concat (map (in_deliveries (defaultMessageHandler c) ks) ps) /\
    outbox n' = outbox n ++ encode (PPublish 0 (msg_qos msg) (msg_retained msg mod 2) topic (next_id c) payload) ++
                concat (map in_reply ps) /\
    session c' = session (set_next_packetid (next_id c) c).
Proof.
  intros Hrd Hid Hq Hcall Hack Har. pose proof (ars_inbox _ _ _ _ _ _ Har) as Hin.
  destruct (MQTTPublish_acked_run bb rb lb passes garbage c m n ks ps topicName msg topic payload ackid rest)
    as (c' & m' & n' & E & V & Hs & _); [done..|].
  exists c', m', n'. split_and!; try done; [|by destruct V..].
  apply (ev_next V). rewrite Hin, <- !app_assoc. by destruct Hq as [->| ->].
Qed.

(** MQTTPublish with QoS 0 sends the PUBLISH and returns 0; it waits for nothing and
    uses no packet id. *)
Theorem MQTTPublish_qos0 c m n topicName msg topic payload :
  (2 <= passes)%nat -> online n -> layout bb rb lb c m ->
  0 <= command_timeout_ms c < 4294967296 -> 3 * tick <= command_timeout_ms c * 1000 ->
  publish_call bb c m topicName msg topic payload (msg_id msg) -> msg_qos msg = QOS0 ->
  exists t m' n', MQTTPublish (Ptr lb 0) passes garbage topicName msg (c, (m, n)) =
    Ret ((MQTT_SUCCESS, msg), (set_last_sent t c, (m', n'))) /\ inbox n' = inbox n /\
    outbox n' = outbox n ++ encode (PPublish 0 QOS0 (msg_retained msg mod 2) topic (msg_id msg) payload).
Proof.
  intros. destruct (MQTTPublish_qos0_run bb rb lb passes garbage c m n topicName msg topic payload)
    as (t & n' & E & V & _); [done..|].
  eexists t, _, n'. split; [exact E|]. destruct V as [Hi Ho _ _ _]. split; [done|exact Ho].
Qed.

(** C7: MQTTSubscribe sends the SUBSCRIBE with the next packet id, takes the SUBACK,
    returns 0 with the granted QoS and leaves the handler registered under the filter,
    whatever was registered before staying in place. *)
Theorem MQTTSubscribe_exchange c m n ks ps filter f q handler granted ackid code rest :
  ready bb rb lb passes c m n ks ps -> 1 <= next_packetid c <= MAX_PACKET_ID -> isconnected c = 1 ->
  NoDup (entries ks).*1 -> filter_arg bb rb lb m filter f -> is_byte q -> handler ≠ 0 -> 0 <= ackid < 65536 ->
  0 <= code <= 2 -> (is_Some (table ks !! f) \/ (size (table ks) < MAX_MESSAGE_HANDLERS)%nat) ->
  Z.of_nat (length (encode (PSubscribe 0 (next_id c) [(f, q)]))) < buf_size c ->
  arrive c n ps (fixed_header 9 0 0 0) (u16 ackid ++ [code]) rest ->
  exists c' m' n' ks', MQTTSubscribeWithResults (Ptr lb 0) passes garbage filter q handler granted (c, (m, n)) =
    Ret ((MQTT_SUCCESS, code), (c', (m', n'))) /\
    handlers_repr m' c' ks' /\ table ks' = <[f := handler]> (table ks) /\ isconnected c' = 1 /\ inbox n' = rest /\
    outbox n' = outbox n ++ encode (PSubscribe 0 (next_id c) [(f, q)]) ++ concat (map in_reply ps).
Proof.
  intros Hrd Hid Hc Hnd Hfa Hq Hh Hack Hcode Hroom Hfit Har. pose proof (ars_inbox _ _ _ _ _ _ Har) as Hin.
  destruct (MQTTSubscribe_run bb rb lb passes garbage c m n ks ps filter f q handler granted ackid code rest)
    as (c' & m' & n' & ks' & E & V & Hrep & Htab & Hc'); try done; [unfold is_byte; lia|].
  replace (to_uint (to_char code)) with code in E by conv_lia.
  exists c', m', n', ks'. split_and!; try done; [|by destruct V].
  apply (ev_next V). by rewrite Hin, <- !app_assoc.
Qed.

(** MQTTUnsubscribe sends the UNSUBSCRIBE with the next packet id, takes the
    UNSUBACK, returns 0 and leaves no handler under the filter. *)
Theorem MQTTUnsubscribe_exchange c m n ks ps filter f ackid rest :
  ready bb rb lb passes c m n ks ps -> 1 <= next_packetid c <= MAX_PACKET_ID -> isconnected c = 1 ->
  NoDup (entries ks).*1 -> filter_arg bb rb lb m filter f -> 0 <= ackid < 65536 ->
  Z.of_nat (length (encode (PUnsubscribe 0 (next_id c) [f]))) < buf_size c ->
  arrive c n ps (fixed_header 11 0 0 0) (u16 ackid) rest ->
  exists c' m' n' ks', MQTTUnsubscribe (Ptr lb 0) passes garbage filter (c, (m, n)) =
    Ret (MQTT_SUCCESS, (c', (m', n'))) /\
    handlers_repr m' c' ks' /\ table ks' = delete f (table ks) /\ isconnected c' = 1 /\ inbox n' = rest /\
    outbox n' = outbox n ++ encode (PUnsubscribe 0 (next_id c) [f]) ++ concat (map in_reply ps).
Proof.
  intros Hrd Hid Hc Hnd Hfa Hack Hfit Har. pose proof (ars_inbox _ _ _ _ _ _ Har) as Hin.
  destruct (MQTTUnsubscribe_run bb rb lb passes garbage c m n ks ps filter f ackid rest)
    as (c' & m' & n' & ks' & E & V & Hrep & Htab & Hc'); [done..|].
  exists c', m', n', ks'. split_and!; try done; [|by destruct V].
  apply (ev_next V). by rewrite Hin, <- !app_assoc.
Qed.

(** MQTTDisconnect sends a DISCONNECT and closes the session: the client is no longer
    connected, no ping is outstanding, and with a clean session no handler is left. *)
Theorem MQTTDisconnect_exchange c m n :
  (2 <= passes)%nat -> online n -> layout bb rb lb c m -> 0 <= command_timeout_ms c < 4294967296 ->
  3 * tick <= command_timeout_ms c * 1000 ->
  exists c' m' n', MQTTDisconnect passes (c, (m, n)) = Ret (MQTT_SUCCESS, (c', (m', n'))) /\
    outbox n' = outbox n ++ [224; 0] /\ isconnected c' = 0 /\ ping_outstanding c' = 0 /\
    (truthy (c_cleansession c) = true -> Forall (fun h => topicFilter h = NULL) (messageHandlers c')).
Proof.
  intros Hp Hon Hly Hct Hto.
  destruct (MQTTDisconnect_run bb rb lb passes c m n Hp Hon Hly Hct Hto) as (c' & m' & n' & E & V & Hc & Hpi & Hh).
  exists c', m', n'. split_and!; try done; [by destruct V|]. intros Hcl. rewrite Hh, Hcl.
  apply Forall_forall. intros h Hin. by apply list_elem_of_fmap in Hin as (h0 & -> & _).
Qed.
End contracts.

(** ** The theorems at work

    On the platform of MQTTInterface.c with the client of [ex_client]. *)

(** A PINGREQ over a connection that takes one octet, asks for a retry, and then breaks. *)
Lemma sendPacket_contract_witness :
  let m := mwrite ex_mem sndBuffer [192; 0] in
  let n := mkPeer (mkWire [] [] [1; 0; -1] 0) 0 [] in
  exists rc c' n', sendPacket 2 2 (mkTimer (mkTimeval 1 0)) (ex_client, (m, n)) = Ret (rc, (c', (m, n'))) /\
    ((rc = MQTT_SUCCESS /\ outbox n' = [192; 0] /\ exists t, c' = set_last_sent t ex_client) \/
     (rc = FAILURE /\ c' = ex_client /\ exists k, outbox n' = take k [192; 0])).
Proof.
  intros m n.
  destruct (sendPacket_contract 2 (mkTimer (mkTimeval 1 0)) ex_client m n [192; 0]) as (rc & c' & n' & E & _ & _ & H & _).
  - lia.
  - apply bytes_at_mwrite_eq. apply (room_le _ _ 1024); [|vm_compute; discriminate].
    exact (ly_buf_room _ _ _ _ _ (ex_layout ex_client eq_refl ltac:(cbn; lia))).
  - vm_compute. split; congruence.
  - vm_compute. split; congruence.
  - exists rc, c', n'. split; [exact E|exact H].
Defined.

(** The PUBLISH "hi" to "a/b", followed by another octet. *)
Definition ex_publish (qos : Z) : list Z := encode (PPublish 0 qos 0 [97; 47; 98] 7 [104; 105]).

Lemma readPacket_contract_witness :
  exists c' m' n', readPacket (Ptr 4 0) TimerInit (ex_client, (ex_mem, ex_peer (ex_publish 1 ++ [9]))) =
      Ret (3, (c', (m', n'))) /\
    inbox n' = [9] /\ outbox n' = [] /\ bytes_at m' rcvBuffer (ex_publish 1) /\ only [4%positive; 2%positive] ex_mem m'.
Proof.
  refine (proj1 (readPacket_contract 1 2 4 TimerInit ex_client ex_mem (ex_peer (ex_publish 1 ++ [9])) 50
    (publish_body 1 [97; 47; 98] 7 [104; 105]) [9] _ _ _ _) _).
  - apply ex_online.
  - apply ex_layout; [reflexivity|]. vm_compute. split; congruence.
  - reflexivity.
  - vm_compute. discriminate.
  - vm_compute. discriminate.
Defined.

Lemma keepalive_contract_witness :
  exists t m' n', keepalive 2 (set_last_sent (mkTimer (mkTimeval 0 0)) ex_client, (ex_mem, ex_peer [])) =
      Ret (MQTT_SUCCESS, (set_ping_outstanding 1 (set_last_sent t ex_client), (m', n'))) /\ outbox n' = [192; 0].
Proof.
  refine (proj1 (proj2 (keepalive_contract 1 2 4 2 (set_last_sent (mkTimer (mkTimeval 0 0)) ex_client) ex_mem
    (ex_peer []) _ _ _ _)) _ _).
  - lia.
  - apply ex_online.
  - apply ex_layout; [reflexivity|]. vm_compute. split; congruence.
  - vm_compute. discriminate.
  - split; [discriminate|]. split; [split; vm_compute; congruence|]. split; [split; vm_compute; congruence|].
    left. vm_compute. discriminate.
  - reflexivity.
Defined.

(** A QoS 2 message: delivered to the handler, PUBREC sent. *)
Lemma cycle_dispatch_witness :
  exists r c' m' n', cycle (Ptr 4 0) 2 0 (mkTimer (mkTimeval 1 0)) (ex_client, (ex_mem, ex_peer (ex_publish 2))) =
      Ret (r, (c', (m', n'))) /\ 0 <= r /\ inbox n' = [] /\ outbox n' = [80; 2; 0; 7] /\
    delivered n' = [(1, [97; 47; 98], [104; 105])] /\ session c' = session ex_client.
Proof.
  destruct (cycle_dispatch 1 2 4 2 0 (mkTimer (mkTimeval 1 0)) ex_client ex_mem (ex_peer (ex_publish 2))
    (InPublish 0 2 0 [97; 47; 98] 7 [104; 105]) [] ex_slots) as (r & c' & m' & n' & E & Hr & Hi & Ho & Hd & Hs).
  - lia.
  - apply ex_online.
  - apply ex_layout; [reflexivity|]. vm_compute. split; congruence.
  - apply ex_handlers. reflexivity.
  - constructor; try (vm_compute; split; congruence); try (vm_compute; congruence).
    repeat (constructor; [vm_compute; split; congruence|]). constructor.
  - constructor; [reflexivity|vm_compute; discriminate|vm_compute; discriminate].
  - right. split; [split; vm_compute; [split; congruence|reflexivity]|]. vm_compute. discriminate.
  - split; vm_compute; [split; congruence|reflexivity].
  - exists r, c', m', n'. split_and!; [exact E|exact Hr|exact Hi| | |exact Hs].
    + rewrite Ho. vm_compute. reflexivity.
    + rewrite Hd. vm_compute. reflexivity.
Defined.

(** CONNECT of the client "c1" with a keep-alive of 60 s; the broker accepts. *)
Definition ex_options : MQTTPacket_connectData :=
  mkConnectData [77; 81; 84; 67] 0 3 (cstr (Ptr 7 0)) 60 1 0 MQTTPacket_willOptions_initializer
    MQTTString_initializer MQTTString_initializer.

Lemma MQTTConnect_exchange_witness :
  exists c' m' n', MQTTConnectWithResults (Ptr 4 0) 2 0 (Some ex_options) (mkConnackData 9 9)
      (set_isconnected 0 ex_client, (ex_mem, ex_peer [32; 2; 1; 0])) =
    Ret ((0, mkConnackData 0 1), (c', (m', n'))) /\
    isconnected c' = 1 /\ c_keepAliveInterval c' = 60 /\ inbox n' = [] /\
    outbox n' = [16; 16; 0; 6; 77; 81; 73; 115; 100; 112; 3; 2; 0; 60; 0; 2; 99; 49].
Proof.
  destruct (MQTTConnect_exchange 1 2 4 2 0 (set_isconnected 0 ex_client) ex_mem (ex_peer [32; 2; 1; 0]) ex_slots []
    ex_options (mk_connect 3 1 None 60 [99; 49] None None) (mkConnackData 9 9) 1 0 [])
    as (c' & m' & n' & E & Hc & Hk & Hi & Ho).
  - lia.
  - simpl. lia.
  - apply ex_online.
  - apply ex_layout; [reflexivity|]. vm_compute. split; congruence.
  - apply ex_handlers. reflexivity.
  - vm_compute. split; congruence.
  - vm_compute. discriminate.
  - reflexivity.
  - constructor; try reflexivity; try (vm_compute; split; congruence).
    + left. reflexivity.
    + apply mstring_c; [split; [by exists []|no_nul]|discriminate|lia].
  - lia.
  - split; lia.
  - right. vm_compute. discriminate.
  - vm_compute. discriminate.
  - vm_compute. reflexivity.
  - constructor; [reflexivity|constructor|vm_compute; discriminate|vm_compute; discriminate].
  - exists c', m', n'. split_and!; [exact E|exact Hc|exact Hk|exact Hi|].
    rewrite Ho. vm_compute. reflexivity.
Defined.

Lemma ex_ready ins ps :
  (length ps < 5)%nat -> ready 1 2 4 5 ex_client ex_mem (ex_peer ins) ex_slots ps.
Proof.
  intros Hps. constructor.
  - split; [lia|done].
  - apply ex_online.
  - apply ex_layout; [reflexivity|]. vm_compute. split; congruence.
  - apply ex_handlers. reflexivity.
  - split; [vm_compute; split; congruence|]. unfold wait_ticks. cbn. lia.
  - right. unfold wait_ticks. cbn. lia.
Qed.

Definition ex_message (qos : Z) : MQTTMessage := mkMessage qos 0 0 0 (Ptr 6 0) 2.

Lemma ex_publish_call qos id :
  0 <= qos < 3 -> 0 <= id < 65536 -> publish_call 1 ex_client ex_mem (Ptr 5 0) (ex_message qos) [97; 47; 98] [104; 105] id.
Proof.
  intros Hq Hid. constructor; try done.
  - split; [split; [by exists []|no_nul]|]. split; [discriminate|vm_compute; reflexivity].
  - split; [right; by exists []|discriminate].
  - unfold publish_body. cbn [msg_qos ex_message]. destruct (0 <? qos); vm_compute; discriminate.
  - cbn [encode]. rewrite length_frame. unfold publish_body. cbn [msg_qos ex_message].
    destruct (0 <? qos); vm_compute; reflexivity.
Qed.

(** QoS 2: between the PUBLISH and the PUBCOMP come the PUBREC and a message. *)
Lemma MQTTPublish_exchange_witness :
  exists c' m' n', MQTTPublish (Ptr 4 0) 5 0 (Ptr 5 0) (ex_message 2)
      (ex_client, (ex_mem, ex_peer ([80; 2; 0; 2] ++ ex_publish 1 ++ [112; 2; 0; 2]))) =
    Ret ((MQTT_SUCCESS, with_id (ex_message 2) 2), (c', (m', n'))) /\ inbox n' = [] /\
    delivered n' = [(1, [97; 47; 98], [104; 105])] /\
    outbox n' = [52; 9; 0; 3; 97; 47; 98; 0; 2; 104; 105; 98; 2; 0; 2; 64; 2; 0; 7] /\
    session c' = session (set_next_packetid 2 ex_client).
Proof.
  destruct (MQTTPublish_exchange 1 2 4 5 0 ex_client ex_mem
    (ex_peer ([80; 2; 0; 2] ++ ex_publish 1 ++ [112; 2; 0; 2])) ex_slots
    [InRelease 5 0 0 2; InPublish 0 1 0 [97; 47; 98] 7 [104; 105]] (Ptr 5 0) (ex_message 2) [97; 47; 98] [104; 105] 2 [])
    as (c' & m' & n' & E & Hi & Hd & Ho & Hs).
  - apply ex_ready. simpl. lia.
  - vm_compute. split; congruence.
  - right. reflexivity.
  - apply ex_publish_call; [lia|]. vm_compute. split; congruence.
  - lia.
  - constructor; [reflexivity| |vm_compute; discriminate|vm_compute; discriminate].
    repeat apply Forall_cons_2; [..|constructor].
    + split; [split; [left; reflexivity|lia]|]. vm_compute. split; discriminate.
    + split; [|vm_compute; split; discriminate].
      constructor; try (vm_compute; split; congruence); try (vm_compute; congruence).
      repeat (constructor; [vm_compute; split; congruence|]). constructor.
  - exists c', m', n'. split_and!; [exact E|exact Hi| | |exact Hs].
    + rewrite Hd. vm_compute. reflexivity.
    + rewrite Ho. vm_compute. reflexivity.
Defined.

Lemma MQTTPublish_qos0_witness :
  exists t m' n', MQTTPublish (Ptr 4 0) 5 0 (Ptr 5 0) (ex_message 0) (ex_client, (ex_mem, ex_peer [])) =
    Ret ((MQTT_SUCCESS, ex_message 0), (set_last_sent t ex_client, (m', n'))) /\ inbox n' = [] /\
    outbox n' = [48; 7; 0; 3; 97; 47; 98; 104; 105].
Proof.
  destruct (MQTTPublish_qos0 1 2 4 5 0 ex_client ex_mem (ex_peer []) (Ptr 5 0) (ex_message 0) [97; 47; 98] [104; 105])
    as (t & m' & n' & E & Hi & Ho).
  - lia.
  - apply ex_online.
  - apply ex_layout; [reflexivity|]. vm_compute. split; congruence.
  - vm_compute. split; congruence.
  - vm_compute. discriminate.
  - apply ex_publish_call; vm_compute; split; congruence.
  - reflexivity.
  - exists t, m', n'. split_and!; [exact E|exact Hi|]. rewrite Ho. vm_compute. reflexivity.
Defined.

Lemma ex_filter : filter_arg 1 2 4 ex_mem (Ptr 7 0) [99; 49].
Proof.
  constructor; [split; [by exists []|no_nul]| |vm_compute; reflexivity].
  change (elements handler_blocks) with (elements ({[3%positive]} : gset positive)).
  rewrite elements_singleton. intros b Hb Hin. simpl in Hin. subst b. set_solver.
Qed.

(** A second filter; the broker grants QoS 1. *)
Lemma MQTTSubscribe_exchange_witness :
  exists c' m' n' ks', MQTTSubscribeWithResults (Ptr 4 0) 5 0 (Ptr 7 0) 1 1 9
      (ex_client, (ex_mem, ex_peer [144; 3; 0; 2; 1])) = Ret ((MQTT_SUCCESS, 1), (c', (m', n'))) /\
    handlers_repr m' c' ks' /\ table ks' = <[[99; 49] := 1]> (table ex_slots) /\ isconnected c' = 1 /\ inbox n' = [] /\
    outbox n' = [130; 7; 0; 2; 0; 2; 99; 49; 1].
Proof.
  destruct (MQTTSubscribe_exchange 1 2 4 5 0 ex_client ex_mem (ex_peer [144; 3; 0; 2; 1]) ex_slots [] (Ptr 7 0) [99; 49] 1 1 9
    2 1 []) as (c' & m' & n' & ks' & E & Hr & Ht & Hc & Hi & Ho).
  - apply ex_ready. simpl. lia.
  - vm_compute. split; congruence.
  - reflexivity.
  - apply NoDup_singleton.
  - apply ex_filter.
  - split; lia.
  - discriminate.
  - lia.
  - lia.
  - right. apply Nat.ltb_lt. vm_compute. reflexivity.
  - vm_compute. reflexivity.
  - constructor; [reflexivity|constructor|vm_compute; discriminate|vm_compute; discriminate].
  - exists c', m', n', ks'. split_and!; [exact E|exact Hr|exact Ht|exact Hc|exact Hi|].
    rewrite Ho. vm_compute. reflexivity.
Defined.

Lemma MQTTUnsubscribe_exchange_witness :
  exists c' m' n' ks', MQTTUnsubscribe (Ptr 4 0) 5 0 (Ptr 7 0) (ex_client, (ex_mem, ex_peer [176; 2; 0; 2])) =
      Ret (MQTT_SUCCESS, (c', (m', n'))) /\
    handlers_repr m' c' ks' /\ table ks' = delete [99; 49] (table ex_slots) /\ isconnected c' = 1 /\ inbox n' = [] /\
    outbox n' = [162; 6; 0; 2; 0; 2; 99; 49].
Proof.
  destruct (MQTTUnsubscribe_exchange 1 2 4 5 0 ex_client ex_mem (ex_peer [176; 2; 0; 2]) ex_slots [] (Ptr 7 0) [99; 49] 2 [])
    as (c' & m' & n' & ks' & E & Hr & Ht & Hc & Hi & Ho).
  - apply ex_ready. simpl. lia.
  - vm_compute. split; congruence.
  - reflexivity.
  - apply NoDup_singleton.
  - apply ex_filter.
  - lia.
  - vm_compute. reflexivity.
  - constructor; [reflexivity|constructor|vm_compute; discriminate|vm_compute; discriminate].
  - exists c', m', n', ks'. split_and!; [exact E|exact Hr|exact Ht|exact Hc|exact Hi|].
    rewrite Ho. vm_compute. reflexivity.
Defined.

Lemma MQTTDisconnect_exchange_witness :
  exists c' m' n', MQTTDisconnect 2 (ex_client, (ex_mem, ex_peer [])) = Ret (MQTT_SUCCESS, (c', (m', n'))) /\
    outbox n' = [224; 0] /\ isconnected c' = 0 /\ ping_outstanding c' = 0 /\
    Forall (fun h => topicFilter h = NULL) (messageHandlers c').
Proof.
  destruct (MQTTDisconnect_exchange 1 2 4 2 ex_client ex_mem (ex_peer [])) as (c' & m' & n' & E & Ho & Hc & Hp & Hh).
  - lia.
  - apply ex_online.
  - apply ex_layout; [reflexivity|]. vm_compute. split; congruence.
  - vm_compute. split; congruence.
  - vm_compute. discriminate.
  - exists c', m', n'. split_and!; [exact E|exact Ho|exact Hc|exact Hp|]. apply Hh. reflexivity.
Defined.

(** ** Where the code departs from its contract *)

(** A refused subscription (return code 0x80) is reported as success and its handler
    registered: the octet is read as a signed char, and -128 stored in the unsigned
    [enum QoS] is not 0x80. *)
Lemma MQTTSubscribe_refused_is_success :
  exists c' s', MQTTSubscribeWithResults (Ptr 4 0) 5 0 (Ptr 7 0) 1 1 9
      (ex_client, (ex_mem, ex_peer [144; 3; 0; 2; 128])) = Ret ((MQTT_SUCCESS, 4294967168), (c', s')) /\
    messageHandlers c' !! 1%nat = Some (mkHandlers (Ptr 7 0) 1).
Proof. eexists _, _. split; [vm_compute; reflexivity|reflexivity]. Qed.

(** An empty CONNACK (remaining length 0) connects. *)
Lemma MQTTConnect_empty_connack :
  exists c' s', MQTTConnect (Ptr 4 0) 5 0 (Some ex_options) (set_isconnected 0 ex_client, (ex_mem, ex_peer [32; 0])) =
      Ret (MQTT_SUCCESS, (c', s')) /\ isconnected c' = 1.
Proof. eexists _, _. split; [vm_compute; reflexivity|reflexivity]. Qed.

(** An empty PUBLISH is taken for a message whose topic was never assigned, and the
    handler loop reads through it. *)
Lemma cycle_empty_publish :
  cycle (Ptr 4 0) 5 0 (mkTimer (mkTimeval 1 0)) (ex_client, (ex_mem, ex_peer [48; 0])) = UB.
Proof. vm_compute. reflexivity. Qed.

(** A PUBLISH of QoS 1 that ends after its topic has a payload of -2 octets, which the
    handler copies as 4294967294. *)
Lemma cycle_short_publish :
  cycle (Ptr 4 0) 5 0 (mkTimer (mkTimeval 1 0)) (ex_client, (ex_mem, ex_peer [50; 5; 0; 3; 97; 47; 98])) = UB.
Proof. vm_compute. reflexivity. Qed.

(** The acknowledgement of another packet id counts. *)
Lemma MQTTPublish_wrong_id :
  exists c' s', MQTTPublish (Ptr 4 0) 5 0 (Ptr 5 0) (ex_message 1) (ex_client, (ex_mem, ex_peer [64; 2; 0; 99])) =
      Ret ((MQTT_SUCCESS, with_id (ex_message 1) 2), (c', s')).
Proof. eexists _, _. vm_compute. reflexivity. Qed.
