(* ===== verification/Tcp.v ===== *)
(** * The TCP layer of the Modbus client

    src/platform.h: connecting, the server functions that come with it, and the read
    and write functions given to nanoMODBUS.  What the system answers is an oracle, the
    list of the results of the calls in their order; a new descriptor is the lowest one
    that is not open. *)

From S2P Require Import Prelude Memory Wire Packet Timer Network.

Module Tcp.
(** The globals of the file, the open descriptors, and the connection's octets. *)
Record host : Type := mkHost {
  client_connection : Z;
  server_fd : Z;
  client_read_fd : Z;
  client_connections : gset Z;
  open : gset Z;
  oracle : list Z;
  readable : list (gset Z);
  input : list Z;
  output : list Z
}.

Definition set_client_connection (v : Z) (h : host) : host :=
  mkHost v (server_fd h) (client_read_fd h) (client_connections h) (open h) (oracle h) (readable h) (input h) (output h).
Definition set_server_fd (v : Z) (h : host) : host :=
  mkHost (client_connection h) v (client_read_fd h) (client_connections h) (open h) (oracle h) (readable h) (input h) (output h).
Definition set_client_read_fd (v : Z) (h : host) : host :=
  mkHost (client_connection h) (server_fd h) v (client_connections h) (open h) (oracle h) (readable h) (input h) (output h).
Definition set_client_connections (v : gset Z) (h : host) : host :=
  mkHost (client_connection h) (server_fd h) (client_read_fd h) v (open h) (oracle h) (readable h) (input h) (output h).
Definition set_open (v : gset Z) (h : host) : host :=
  mkHost (client_connection h) (server_fd h) (client_read_fd h) (client_connections h) v (oracle h) (readable h) (input h) (output h).
Definition set_oracle (v : list Z) (h : host) : host :=
  mkHost (client_connection h) (server_fd h) (client_read_fd h) (client_connections h) (open h) v (readable h) (input h) (output h).
Definition set_readable (v : list (gset Z)) (h : host) : host :=
  mkHost (client_connection h) (server_fd h) (client_read_fd h) (client_connections h) (open h) (oracle h) v (input h) (output h).
Definition set_input (v : list Z) (h : host) : host :=
  mkHost (client_connection h) (server_fd h) (client_read_fd h) (client_connections h) (open h) (oracle h) (readable h) v (output h).
Definition set_output (v : list Z) (h : host) : host :=
  mkHost (client_connection h) (server_fd h) (client_read_fd h) (client_connections h) (open h) (oracle h) (readable h) (input h) v.

(** The next result; an exhausted oracle answers -1. *)
Definition answer : M host Z := fun h =>
  match oracle h with
  | [] => Ret (-1, h)
  | v :: rest => Ret (v, set_oracle rest h)
  end.

(** The lowest descriptor that is not open. *)
Fixpoint lowest (fuel : nat) (fd : Z) (s : gset Z) : Z :=
  match fuel with
  | O => fd
  | S fuel => if decide (fd ∈ s) then lowest fuel (fd + 1) s else fd
  end.

Definition new_fd (s : gset Z) : Z := lowest (size s) 0 s.

(** [socket] and [accept]: -1 or a new descriptor. *)
Definition socket : M host Z :=
  v ← answer;
  if v <? 0 then mret (-1)
  else
    h ← get;
    modify (set_open ({[new_fd (open h)]} ∪ open h));;
    mret (new_fd (open h)).

Definition close (fd : Z) : M host unit := modify (fun h => set_open (open h ∖ {[fd]}) h).

(** [getaddrinfo]: an error, or the number of addresses. *)
Definition getaddrinfo : M host (option nat) :=
  r ← answer;
  if negb (r =? 0) then mret None else k ← answer; mret (Some (Z.to_nat k)).

(** ** Connecting *)

(** The loop over the addresses: the descriptor connected, or none. *)
Fixpoint connect_loop (addresses : nat) : M host (option Z) :=
  match addresses with
  | O => mret None
  | S rest =>
      fd ← socket;
      if fd =? -1 then connect_loop rest
      else
        ret ← answer; (* connect *)
        if ret =? 0 then mret (Some fd)
        else close fd;; connect_loop rest
  end.

(** Whether the result is not NULL. *)
Definition connect_tcp : M host bool :=
  addresses ← getaddrinfo;
  match addresses with
  | None => mret false
  | Some k =>
      r ← connect_loop k;
      match r with
      | None => mret false
      | Some fd => modify (set_client_connection fd);; mret true
      end
  end.

(** ** The server functions *)

Definition close_tcp_server : M host unit :=
  h ← get;
  if negb (server_fd h =? -1) then close (server_fd h) else mret tt.

(** What the loop of create_tcp_server ends with: [fd] after the loop, or an early
    return. *)
Fixpoint server_loop (addresses : nat) (fd : Z) : M host (Z + Z) :=
  match addresses with
  | O => mret (inl fd)
  | S rest =>
      fd ← socket;
      if fd =? -1 then server_loop rest fd
      else
        ret ← answer; (* setsockopt *)
        if negb (ret =? 0) then mret (inr (-1))
        else
          ret ← answer; (* bind *)
          if negb (ret =? 0) then close fd;; server_loop rest (-1)
          else
            ret ← answer; (* listen *)
            if negb (ret =? 0) then close fd;; server_loop rest (-1)
            else mret (inl fd)
  end.

Definition create_tcp_server : M host Z :=
  addresses ← getaddrinfo;
  match addresses with
  | None => mret (-1)
  | Some k =>
      r ← server_loop k (-1);
      match r with
      | inr rc => mret rc
      | inl fd =>
          if fd <? 0 then answer (* errno *)
          else
            modify (set_server_fd fd);;
            modify (set_client_connections ∅);;
            mret 0
      end
  end.

Definition FD_SETSIZE : nat := 1024.

(** [select] for reading, without a timeout: the descriptors of the set that are
    readable, or an error. *)
Definition select_read (s : gset Z) : M host (option (gset Z)) :=
  h ← get;
  match readable h with
  | [] => mret None
  | r :: rest => modify (set_readable rest);; mret (Some (r ∩ s))
  end.

(** The scan of the ready descriptors from [i] on: the one to be served, if any. *)
Fixpoint poll_scan (k : nat) (i : Z) (ready : gset Z) : M host bool :=
  match k with
  | O => mret false
  | S k =>
      if decide (i ∈ ready) then
        h ← get;
        if i =? server_fd h then
          client ← socket; (* accept *)
          (if client <? 0 then mret tt
           else modify (fun h => set_client_connections ({[client]} ∪ client_connections h) h));;
          poll_scan k (i + 1) ready
        else modify (set_client_read_fd i);; mret true
      else poll_scan k (i + 1) ready
  end.

(** Whether the result is not NULL; the loop ends with a client or an error. *)
Fixpoint server_poll (fuel : nat) : M host bool :=
  match fuel with
  | O => nofuel
  | S fuel =>
      h ← get;
      ready ← select_read ({[server_fd h]} ∪ client_connections h);
      match ready with
      | None => mret false
      | Some ready =>
          found ← poll_scan FD_SETSIZE 0 ready;
          if (found : bool) then mret true else server_poll fuel
      end
  end.

(** ** Disconnecting, reading and writing *)

(** [conn] points to [client_connection] or [client_read_fd]; its value is given. *)
Definition disconnect (fd : Z) : M host unit :=
  modify (fun h => set_client_connections (client_connections h ∖ {[fd]}) h);;
  close fd.

(** The timeout given to [select]. *)
Definition select_timeout (timeout_ms : Z) : option timeval :=
  if 0 <=? timeout_ms then Some (mkTimeval (Z.quot timeout_ms 1000) (Z.rem timeout_ms 1000 * 1000)) else None.

Definition select_one (fd : Z) (timeout : option timeval) : M host Z := answer.

(** [read(fd, p, 1)]: an error, the end of the stream, or its next octet. *)
Definition read_one : M host (Z * list Z) :=
  v ← answer;
  if v <? 0 then mret (-1, [])
  else
    h ← get;
    match input h with
    | [] => mret (0, [])
    | x :: rest => modify (set_input rest);; mret (1, [x])
    end.

(** [write(fd, p, n)]: an error, or the first octets of those given. *)
Definition write_some (bs : list Z) : M host Z :=
  v ← answer;
  if v <? 0 then mret (-1)
  else
    let k := Z.min v (Z.of_nat (length bs)) in
    modify (fun h => set_output (output h ++ take (Z.to_nat k) bs) h);;
    mret k.

Fixpoint read_fd_loop (fuel : nat) (fd : Z) (buf : ptr) (count timeout_ms total : Z) : M (mem * host) Z :=
  match fuel with
  | O => nofuel
  | S fuel =>
      if total =? count then mret total
      else
        ret ← on_transport (select_one fd (select_timeout timeout_ms));
        if ret =? 0 then mret total
        else if ret =? 1 then
          '(r, bs) ← on_transport read_one;
          on_mem (store_bytes (padd buf total) bs);;
          if r =? 0 then on_transport (disconnect fd);; mret (-1)
          else if r <? 0 then mret (-1)
          else read_fd_loop fuel fd buf count timeout_ms (to_ushort (total + r))
        else mret (-1)
  end.

(** [count] is a [uint16_t]; every pass but the last reads an octet. *)
Definition read_fd_linux (fd : Z) (buf : ptr) (count timeout_ms : Z) : M (mem * host) Z :=
  read_fd_loop (S (Z.to_nat count)) fd buf count timeout_ms 0.

Fixpoint write_fd_loop (fuel : nat) (fd : Z) (buf : ptr) (count timeout_ms total : Z) : M (mem * host) Z :=
  match fuel with
  | O => nofuel
  | S fuel =>
      if total =? count then mret total
      else
        ret ← on_transport (select_one fd (select_timeout timeout_ms));
        if ret =? 0 then mret 0
        else if ret =? 1 then
          bs ← on_mem (load_bytes (padd buf total) count);
          w ← on_transport (write_some bs);
          if w =? 0 then on_transport (disconnect fd);; mret (-1)
          else if w <=? 0 then mret (-1)
          else write_fd_loop fuel fd buf count timeout_ms (to_ushort (total + w))
        else mret (-1)
  end.

Definition write_fd_linux (fuel : nat) (fd : Z) (buf : ptr) (count timeout_ms : Z) : M (mem * host) Z :=
  write_fd_loop fuel fd buf count timeout_ms 0.

(** ** Lemmas *)

Lemma lowest_spec fuel fd s :
  fd <= lowest fuel fd s /\ (forall x, fd <= x < lowest fuel fd s -> x ∈ s) /\
  (lowest fuel fd s ∉ s \/ lowest fuel fd s = fd + Z.of_nat fuel).
Proof.
  revert fd. induction fuel as [|fuel IH]; intros fd; cbn [lowest].
  - split_and!; [lia|lia|right; lia].
  - case_decide as Hin; [|split_and!; [lia|lia|by left]].
    destruct (IH (fd + 1)) as (H1 & H2 & H3). split_and!; [lia| |destruct H3; [by left|right; lia]].
    intros x Hx. destruct (decide (x = fd)) as [->|]; [done|]. apply H2. lia.
Qed.

(** The descriptor is not open: there are not enough open ones to fill the numbers
    below it. *)
Lemma new_fd_fresh s : new_fd s ∉ s /\ 0 <= new_fd s.
Proof.
  unfold new_fd. destruct (lowest_spec (size s) 0 s) as (H1 & H2 & [H3|H3]); [done|]. split; [|lia].
  intros Hin. set (k := lowest (size s) 0 s) in *.
  assert (list_to_set (Z.of_nat <$> seq 0 (S (size s))) ⊆ s) as Hsub.
  { intros x Hx. apply elem_of_list_to_set, list_elem_of_fmap in Hx as (i & -> & Hi%elem_of_seq).
    destruct (decide (Z.of_nat i = k)) as [->|]; [done|]. apply H2. lia. }
  apply subseteq_size in Hsub. rewrite size_list_to_set, length_fmap, length_seq in Hsub; [lia|].
  apply NoDup_fmap_2; [apply _|apply NoDup_seq].
Qed.

Lemma answer_run h : exists v h', answer h = Ret (v, h') /\ open h' = open h /\
  client_connection h' = client_connection h /\ input h' = input h /\ output h' = output h.
Proof. unfold answer. destruct (oracle h) as [|v rest]; eexists _, _; (split; [reflexivity|done]). Qed.

Lemma socket_run h : exists fd h', socket h = Ret (fd, h') /\ client_connection h' = client_connection h /\
  ((fd = -1 /\ open h' = open h) \/ (0 <= fd /\ (fd ∉ open h) /\ open h' = {[fd]} ∪ open h)).
Proof.
  unfold socket. destruct (answer_run h) as (v & h1 & E & Ho & Hc & _). erewrite bind_ret by exact E.
  destruct (v <? 0); [by exists (-1), h1; auto|].
  eexists _, _. split; [reflexivity|]. split; [done|]. right. rewrite Ho.
  destruct (new_fd_fresh (open h)). split_and!; [done|done|simpl; by rewrite ?Ho].
Qed.

Lemma undo_socket (fd : Z) (s : gset Z) : fd ∉ s -> ({[fd]} ∪ s) ∖ {[fd]} = s.
Proof. intros H. set_solver. Qed.

Lemma connect_loop_run k h : exists r h', connect_loop k h = Ret (r, h') /\ client_connection h' = client_connection h /\
  match r with
  | Some fd => 0 <= fd /\ (fd ∉ open h) /\ open h' = {[fd]} ∪ open h
  | None => open h' = open h
  end.
Proof.
  revert h. induction k as [|k IH]; intros h; cbn [connect_loop]; [by exists None, h|].
  destruct (socket_run h) as (fd & h1 & E1 & Hc1 & H1). erewrite bind_ret by exact E1.
  destruct H1 as [[-> Ho1]|(Hfd & Hnew & Ho1)].
  - destruct (IH h1) as (r & h2 & E2 & Hc2 & H2). exists r, h2. split; [done|]. rewrite Ho1 in H2. split; [congruence|done].
  - replace (fd =? -1) with false by lia.
    destruct (answer_run h1) as (v & h2 & E2 & Ho2 & Hc2 & _). erewrite bind_ret by exact E2.
    destruct (v =? 0); [exists (Some fd), h2; split_and!; [done|congruence|done|done|congruence]|].
    erewrite bind_ret by reflexivity. cbv beta.
    destruct (IH (set_open (open h2 ∖ {[fd]}) h2)) as (r & h3 & E3 & Hc3 & H3). exists r, h3.
    split; [done|]. split; [simpl in Hc3; congruence|]. simpl in H3. by rewrite Ho2, Ho1, undo_socket in H3.
Qed.

(** The server side: [accept] adds a client, and a descriptor that is served is a
    client's. *)
Lemma accept_run h : exists fd h', socket h = Ret (fd, h') /\ server_fd h' = server_fd h /\
  client_connections h' = client_connections h.
Proof.
  unfold socket. destruct (oracle h) as [|v rest] eqn:Eo;
    (erewrite bind_ret by (unfold answer; rewrite Eo; reflexivity)); [by eexists _, _|].
  destruct (v <? 0); by eexists _, _.
Qed.

Lemma poll_scan_run k i ready h : ready ⊆ {[server_fd h]} ∪ client_connections h ->
  exists b h', poll_scan k i ready h = Ret (b, h') /\ server_fd h' = server_fd h /\
    client_connections h ⊆ client_connections h' /\
    (b = true -> client_read_fd h' ∈ client_connections h').
Proof.
  revert i h. induction k as [|k IH]; intros i h Hready; cbn [poll_scan]; [by exists false, h|].
  case_decide as Hi; [|by apply IH]. erewrite bind_ret by reflexivity. cbv beta.
  destruct (Z.eqb_spec i (server_fd h)) as [Es|Es].
  - destruct (accept_run h) as (fd & h1 & E1 & Hs1 & Hc1). erewrite bind_ret by exact E1.
    destruct (fd <? 0); (erewrite bind_ret by reflexivity); cbv beta.
    + destruct (IH (i + 1) h1) as (b & h2 & E2 & Hs2 & Hc2 & Hb); [by rewrite Hs1, Hc1|].
      exists b, h2. rewrite Hs1 in Hs2. rewrite Hc1 in Hc2. done.
    + destruct (IH (i + 1) (set_client_connections ({[fd]} ∪ client_connections h1) h1)) as (b & h2 & E2 & Hs2 & Hc2 & Hb).
      { cbn. rewrite Hs1, Hc1. set_solver. }
      cbn in Hs2, Hc2. exists b, h2. split_and!; [done|congruence|rewrite Hc1 in Hc2; set_solver|done].
  - eexists true, _. split; [reflexivity|]. cbn. split_and!; [done|done|]. intros _. set_solver.
Qed.

(** What a read may end with: the octets that were read are in the buffer. *)
Lemma read_fd_loop_run fuel fd buf count timeout_ms m acc : forall h,
  room m buf count -> 0 <= count < 65536 -> Z.of_nat (length acc) <= count ->
  (Z.to_nat (count - Z.of_nat (length acc)) < fuel)%nat ->
  exists r m' h' bs, read_fd_loop fuel fd buf count timeout_ms (Z.of_nat (length acc)) (mwrite m buf acc, h) =
    Ret (r, (m', h')) /\ m' = mwrite m buf (acc ++ bs) /\ input h = bs ++ input h' /\
    (r = Z.of_nat (length (acc ++ bs)) \/ r = -1) /\ Z.of_nat (length (acc ++ bs)) <= count.
Proof.
  revert acc. induction fuel as [|fuel IH]; intros acc h Hr Hcount Hacc Hfuel; [lia|]. cbn [read_fd_loop].
  assert (forall (v : Z) (h' : host), input h' = input h -> (v = Z.of_nat (length acc) \/ v = -1) ->
    exists r m' h'' bs, Ret (v, (mwrite m buf acc, h')) = Ret (r, (m', h'')) /\
    m' = mwrite m buf (acc ++ bs) /\ input h = bs ++ input h'' /\
    (r = Z.of_nat (length (acc ++ bs)) \/ r = -1) /\ Z.of_nat (length (acc ++ bs)) <= count) as Hstop.
  { intros v h' Hi Hv. exists v, (mwrite m buf acc), h', []. rewrite app_nil_r. by rewrite Hi. }
  destruct (Z.eqb_spec (Z.of_nat (length acc)) count) as [Ec|Ec]; [apply Hstop; auto|].
  destruct (answer_run h) as (v & h1 & E1 & _ & _ & Hi1 & _).
  erewrite bind_ret by (apply on_transport_run; exact E1).
  destruct (v =? 0); [apply Hstop; auto|]. destruct (v =? 1); [|apply Hstop; auto].
  unfold read_one. destruct (answer_run h1) as (w & h2 & E2 & _ & _ & Hi2 & _).
  assert (exists r bs h3, (v ← answer; if v <? 0 then mret (-1, []) else h ← get;
      match input h with [] => mret (0, []) | x :: rest => modify (set_input rest);; mret (1, [x]) end) h1 =
    Ret ((r, bs), h3) /\ ((bs = [] /\ (r = 0 \/ r = -1) /\ input h3 = input h) \/
      (exists x, bs = [x] /\ r = 1 /\ input h = x :: input h3))) as (r & bs & h3 & E3 & H3).
  { erewrite bind_ret by exact E2. destruct (w <? 0); [eexists _, _, h2; split; [reflexivity|left; split_and!; [done|auto|congruence]]|].
    erewrite bind_ret by reflexivity. destruct (input h2) as [|x rest] eqn:Ei; eexists _, _, _; (split; [reflexivity|]).
    - left. split_and!; [done|auto|congruence].
    - right. exists x. split_and!; [done|done|]. simpl. congruence. }
  erewrite bind_ret by (apply on_transport_run; exact E3). cbv iota beta.
  destruct H3 as [(-> & Hr0 & Hi3)|(x & -> & -> & Hi3)].
  - erewrite bind_ret by reflexivity. destruct Hr0 as [->| ->].
    + change (0 =? 0) with true. cbv iota. erewrite bind_ret by reflexivity. by apply Hstop; [|right].
    + change (-1 =? 0) with false. change (-1 <? 0) with true. cbv iota. by apply Hstop; [|right].
  - erewrite bind_ret by (apply on_mem_run, store_bytes_after; eapply room_le; [done|simpl; lia]).
    change (1 =? 0) with false. change (1 <? 0) with false. cbv iota.
    replace (to_ushort (Z.of_nat (length acc) + 1)) with (Z.of_nat (length (acc ++ [x])))
      by (rewrite length_app; unfold to_ushort; simpl; rewrite Z.mod_small; lia).
    destruct (IH (acc ++ [x]) h3) as (r & m' & h' & bs & E & -> & Hi & Hres & Hle);
      [done|done|rewrite length_app; simpl; lia|rewrite length_app; simpl; lia|].
    exists r, (mwrite m buf (acc ++ x :: bs)), h', (x :: bs). rewrite <- app_assoc in *. split_and!; try done.
    rewrite Hi3, Hi. done.
Qed.
End Tcp.

(** Connecting, whatever the system answers. *)
Lemma connect_tcp_run h :
  exists ok h', Tcp.connect_tcp h = Ret (ok, h') /\
    if (ok : bool)
    then (Tcp.client_connection h' ∉ Tcp.open h) /\ 0 <= Tcp.client_connection h' /\
         Tcp.open h' = {[Tcp.client_connection h']} ∪ Tcp.open h
    else Tcp.open h' = Tcp.open h /\ Tcp.client_connection h' = Tcp.client_connection h.
Proof.
  unfold Tcp.connect_tcp, Tcp.getaddrinfo.
  destruct (Tcp.answer_run h) as (v & h1 & E1 & Ho1 & Hc1 & _). rewrite bind_assoc. erewrite bind_ret by exact E1.
  destruct (negb (v =? 0)); [exists false, h1; split; [done|split; congruence]|].
  destruct (Tcp.answer_run h1) as (k & h2 & E2 & Ho2 & Hc2 & _). rewrite bind_assoc. erewrite bind_ret by exact E2.
  erewrite bind_ret by apply mret_run.
  destruct (Tcp.connect_loop_run (Z.to_nat k) h2) as (r & h3 & E3 & Hc3 & H3). erewrite bind_ret by exact E3.
  destruct r as [fd|].
  - eexists true, _. split; [reflexivity|]. simpl. rewrite Ho2, Ho1 in H3. tauto.
  - exists false, h3. split; [done|]. split; congruence.
Qed.

(** ** Properties *)

(** Connect_tcp either connects, with one new descriptor open and remembered as the
    client connection, or returns NULL with every socket it tried closed again and the
    connection before left in place. *)
Theorem connect_tcp_balanced h :
  exists ok h', Tcp.connect_tcp h = Ret (ok, h') /\
    if (ok : bool)
    then (Tcp.client_connection h' ∉ Tcp.open h) /\ 0 <= Tcp.client_connection h' /\
         Tcp.open h' = {[Tcp.client_connection h']} ∪ Tcp.open h
    else Tcp.open h' = Tcp.open h /\ Tcp.client_connection h' = Tcp.client_connection h.
Proof. apply connect_tcp_run. Qed.

(** Read_fd_linux always ends, and never loses or invents an octet: it returns -1,
    or a count of octets, at most the one asked for, and the octets it took from the
    connection are in the buffer in their order and nothing else was written. *)
Theorem read_fd_linux_exact fd buf count timeout_ms m h :
  room m buf count -> 0 <= count < 65536 ->
  exists r h' bs, Tcp.read_fd_linux fd buf count timeout_ms (m, h) = Ret (r, (mwrite m buf bs, h')) /\
    Tcp.input h = bs ++ Tcp.input h' /\ (r = Z.of_nat (length bs) \/ r = -1) /\ Z.of_nat (length bs) <= count.
Proof.
  intros Hr Hc. unfold Tcp.read_fd_linux.
  destruct (Tcp.read_fd_loop_run (S (Z.to_nat count)) fd buf count timeout_ms m [] h)
    as (r & m' & h' & bs & E & -> & Hi & Hres & Hle); [done|done|simpl; lia|simpl; lia|].
  rewrite mwrite_nil in E. by exists r, h', bs.
Qed.

(** Three octets asked for, two arrive before the timeout. *)
Lemma read_fd_linux_exact_witness :
  let m : mem := {[1%positive := [0; 0; 0]]} in
  let h := Tcp.mkHost 4 (-1) (-1) ∅ {[4]} [1; 1; 1; 1; 0] [] [11; 22; 33] [] in
  exists r h' bs, Tcp.read_fd_linux 4 (Ptr 1 0) 3 1000 (m, h) = Ret (r, (mwrite m (Ptr 1 0) bs, h')) /\
    [11; 22; 33] = bs ++ Tcp.input h' /\ (r = Z.of_nat (length bs) \/ r = -1) /\ Z.of_nat (length bs) <= 3.
Proof.
  intros m h. apply (read_fd_linux_exact 4 (Ptr 1 0) 3 1000 m h).
  - eexists. split; [reflexivity|]. vm_compute. discriminate.
  - lia.
Defined.

(** server_poll serves a client that is connected: when it returns one, the descriptor is
    among the connections. *)
Lemma server_poll_client fuel h h' :
  Tcp.server_poll fuel h = Ret (true, h') -> Tcp.client_read_fd h' ∈ Tcp.client_connections h'.
Proof.
  revert h. induction fuel as [|fuel IH]; intros h H; [done|]. cbn [Tcp.server_poll] in H.
  revert H. generalize Tcp.FD_SETSIZE as size. intros size H.
  apply bind_inv in H as (h0 & h1 & [= <- <-] & H).
  apply bind_inv in H as (ready & h2 & E1 & H). unfold Tcp.select_read in E1.
  apply bind_inv in E1 as (h3 & h4 & [= <- <-] & E1).
  destruct (Tcp.readable h) as [|r rest]; [by injection E1 as <- <-|].
  injection E1 as <- <-.
  destruct (Tcp.poll_scan_run size 0 (r ∩ ({[Tcp.server_fd h]} ∪ Tcp.client_connections h))
    (Tcp.set_readable rest h)) as (b & h2 & E & _ & _ & Hb); [cbn; set_solver|].
  erewrite bind_ret in H by exact E. destruct b; [|by apply IH in H]. injection H as <-. by apply Hb.
Qed.

(** When the system takes the octets of one call, the packet is written once and its
    length returned. *)
Lemma write_fd_linux_whole fd buf bs timeout_ms m h v rest :
  bytes_at m buf bs -> 0 < Z.of_nat (length bs) < 65536 -> Tcp.oracle h = 1 :: v :: rest -> Z.of_nat (length bs) <= v ->
  exists h', Tcp.write_fd_linux 2 fd buf (Z.of_nat (length bs)) timeout_ms (m, h) = Ret (Z.of_nat (length bs), (m, h')) /\
    Tcp.output h' = Tcp.output h ++ bs.
Proof.
  intros Hbs Hlen Ho Hv. unfold Tcp.write_fd_linux. cbn [Tcp.write_fd_loop].
  replace (0 =? Z.of_nat (length bs)) with false by lia.
  erewrite bind_ret by (apply on_transport_run; unfold Tcp.select_one, Tcp.answer; rewrite Ho; reflexivity).
  change (1 =? 0) with false. change (1 =? 1) with true. cbv iota. rewrite padd_0.
  erewrite bind_ret by (apply on_mem_run, load_bytes_at; by right).
  erewrite bind_ret.
  2: { apply on_transport_run. unfold Tcp.write_some, Tcp.answer. erewrite bind_ret by reflexivity.
       replace (v <? 0) with false by lia. reflexivity. }
  replace (Z.min v (Z.of_nat (length bs))) with (Z.of_nat (length bs)) by lia.
  replace (Z.of_nat (length bs) =? 0) with false by lia. replace (Z.of_nat (length bs) <=? 0) with false by lia.
  rewrite Z.add_0_l. unfold to_ushort. rewrite Z.mod_small, Z.eqb_refl, Nat2Z.id by lia.
  eexists. split; [reflexivity|]. cbn. by rewrite firstn_all.
Qed.

(** ** Where the code departs from its contract *)

(** After a partial write the whole count is written again from the new position: of the
    four octets [1; 2; 3; 4] the first call takes two, and the second is given two octets
    and the two behind the buffer.  They are sent, or read out of bounds. *)
Lemma write_fd_linux_partial :
  let h := Tcp.mkHost 4 (-1) (-1) ∅ {[4]} [1; 2; 1; 9] [] [] [] in
  (exists s', Tcp.write_fd_linux 3 4 (Ptr 1 0) 4 1000 ({[1%positive := [1; 2; 3; 4; 77; 88]]}, h) = Ret (-1, s') /\
     Tcp.output s'.2 = [1; 2; 3; 4; 77; 88]) /\
  Tcp.write_fd_linux 3 4 (Ptr 1 0) 4 1000 ({[1%positive := [1; 2; 3; 4]]}, h) = UB.
Proof. split; [eexists; split; [vm_compute; reflexivity|reflexivity]|vm_compute; reflexivity]. Qed.

(** A timeout is reported as 0, also when octets were sent before it. *)
Lemma write_fd_linux_timeout :
  let h := Tcp.mkHost 4 (-1) (-1) ∅ {[4]} [1; 2; 0] [] [] [] in
  exists s', Tcp.write_fd_linux 3 4 (Ptr 1 0) 4 1000 ({[1%positive := [1; 2; 3; 4]]}, h) = Ret (0, s') /\
    Tcp.output s'.2 = [1; 2].
Proof. eexists. split; [vm_compute; reflexivity|reflexivity]. Qed.

(** create_tcp_server leaks the socket when setsockopt fails. *)
Lemma create_tcp_server_leaks :
  let h := Tcp.mkHost (-1) (-1) (-1) ∅ ∅ [0; 1; 5; 1] [] [] [] in
  exists h', Tcp.create_tcp_server h = Ret (-1, h') /\ Tcp.open h' = {[0]}.
Proof. eexists. split; [vm_compute; reflexivity|]. vm_compute. reflexivity. Qed.
