(* ===== verification/Format.v ===== *)
(** * Packets as text

    src/mqtt/MQTTPacket/MQTTFormat.c: the description of a packet, one function per
    kind of packet, and the two that take a packet apart and describe it (compiled only
    with MQTT_CLIENT or MQTT_SERVER). *)

From Stdlib Require Import String.
From S2P Require Import Prelude Memory Wire Packet Publish Connect Subscribe Print.

Definition MQTTPacket_names : list (list Z) :=
  [str "RESERVED"; str "CONNECT"; str "CONNACK"; str "PUBLISH"; str "PUBACK"; str "PUBREC"; str "PUBREL";
   str "PUBCOMP"; str "SUBSCRIBE"; str "SUBACK"; str "UNSUBSCRIBE"; str "UNSUBACK";
   str "PINGREQ"; str "PINGRESP"; str "DISCONNECT"].

Definition MQTTPacket_getName (packetid : Z) : M mem (list Z) := array_get MQTTPacket_names packetid.

(** [%.*s] of a counted string. *)
Definition counted (s : MQTTString) : piece := Chars (len (lenstring s)) (data (lenstring s)).

Definition has_text (s : MQTTString) : bool := negb (is_null (data (lenstring s))) && (0 <? len (lenstring s)).

(** [strindex += snprintf(&strbuf[strindex], strbuflen - strindex, ...)] *)
Definition append (strbuf : ptr) (strbuflen strindex : Z) (xs : list piece) : M mem Z :=
  n ← snprintf (padd strbuf strindex) (strbuflen - strindex) xs;
  int_result (strindex + n).

Definition MQTTStringFormat_connect (strbuf : ptr) (strbuflen : Z) (d : MQTTPacket_connectData) : M mem Z :=
  strindex ← snprintf strbuf strbuflen
    [Lit (str "CONNECT MQTT version "); Int (MQTTVersion d); Lit (str ", client id "); counted (clientID d);
     Lit (str ", clean session "); Int (cleansession d); Lit (str ", keep alive "); Int (keepAliveInterval d)];
  strindex ← (if truthy (willFlag d) then
      append strbuf strbuflen strindex
        [Lit (str ", will QoS "); Int (wo_qos (will d)); Lit (str ", will retain "); Int (retained (will d));
         Lit (str ", will topic "); counted (topicName (will d)); Lit (str ", will message "); counted (message (will d))]
    else mret strindex);
  strindex ← (if has_text (username d) then
      append strbuf strbuflen strindex [Lit (str ", user name "); counted (username d)]
    else mret strindex);
  (if has_text (password d) then
      append strbuf strbuflen strindex [Lit (str ", password "); counted (password d)]
    else mret strindex).

Definition MQTTStringFormat_connack (strbuf : ptr) (strbuflen connack_rc sessionPresent : Z) : M mem Z :=
  snprintf strbuf strbuflen
    [Lit (str "CONNACK session present "); Int sessionPresent; Lit (str ", rc "); Int connack_rc].

Definition MQTTStringFormat_publish (strbuf : ptr) (strbuflen dup qos retained packetid : Z)
    (topicName : MQTTString) (payload : ptr) (payloadlen : Z) : M mem Z :=
  snprintf strbuf strbuflen
    [Lit (str "PUBLISH dup "); Int dup; Lit (str ", QoS "); Int qos; Lit (str ", retained "); Int retained;
     Lit (str ", packet id "); Int packetid; Lit (str ", topic ");
     Chars (if len (lenstring topicName) <? 20 then len (lenstring topicName) else 20) (data (lenstring topicName));
     Lit (str ", payload length "); Int payloadlen; Lit (str ", payload ");
     Chars (if payloadlen <? 20 then payloadlen else 20) payload].

Definition MQTTStringFormat_ack (strbuf : ptr) (strbuflen packettype dup packetid : Z) : M mem Z :=
  name ← array_get MQTTPacket_names packettype;
  strindex ← snprintf strbuf strbuflen [Lit name; Lit (str ", packet id "); Int packetid];
  if truthy dup then append strbuf strbuflen strindex [Lit (str ", dup "); Int dup] else mret strindex.

Definition MQTTStringFormat_subscribe (strbuf : ptr) (strbuflen dup packetid count : Z)
    (topicFilters : list MQTTString) (requestedQoSs : list Z) : M mem Z :=
  f ← array_get topicFilters 0;
  q ← array_get requestedQoSs 0;
  snprintf strbuf strbuflen
    [Lit (str "SUBSCRIBE dup "); Int dup; Lit (str ", packet id "); Int packetid; Lit (str " count "); Int count;
     Lit (str " topic "); counted f; Lit (str " qos "); Int q].

Definition MQTTStringFormat_suback (strbuf : ptr) (strbuflen packetid count : Z) (grantedQoSs : list Z) : M mem Z :=
  q ← array_get grantedQoSs 0;
  snprintf strbuf strbuflen
    [Lit (str "SUBACK packet id "); Int packetid; Lit (str " count "); Int count; Lit (str " granted qos "); Int q].

Definition MQTTStringFormat_unsubscribe (strbuf : ptr) (strbuflen dup packetid count : Z)
    (topicFilters : list MQTTString) : M mem Z :=
  f ← array_get topicFilters 0;
  snprintf strbuf strbuflen
    [Lit (str "UNSUBSCRIBE dup "); Int dup; Lit (str ", packet id "); Int packetid; Lit (str " count "); Int count;
     Lit (str " topic "); counted f].

(** Variables that are not assigned have the value [garbage]. *)
Definition blank_publish (garbage : Z) : publish_out :=
  mkPublishOut garbage garbage garbage garbage MQTTString_initializer Indet garbage.

(** The cases the two functions share. *)
Definition format_publish (garbage : Z) (strbuf : ptr) (strbuflen : Z) (buf : ptr) (buflen : Z) : M mem unit :=
  '(r, out) ← MQTTDeserialize_publish (blank_publish garbage) buf buflen;
  if r =? 1 then
    MQTTStringFormat_publish strbuf strbuflen (po_dup out) (po_qos out) (po_retained out) (po_packetid out)
      (po_topicName out) (po_payload out) (po_payloadlen out);;
    mret tt
  else mret tt.

Definition format_ack (garbage : Z) (strbuf : ptr) (strbuflen : Z) (buf : ptr) (buflen : Z) : M mem unit :=
  '(r, out) ← MQTTDeserialize_ack (mkAckOut garbage garbage garbage) buf buflen;
  if r =? 1 then
    MQTTStringFormat_ack strbuf strbuflen (ao_packettype out) (ao_dup out) (ao_packetid out);; mret tt
  else mret tt.

Definition format_empty (type : Z) (strbuf : ptr) (strbuflen : Z) : M mem unit :=
  name ← array_get MQTTPacket_names type;
  snprintf strbuf strbuflen [Lit name];;
  mret tt.

Definition is_ack (type : Z) : bool :=
  (type =? PUBACK) || (type =? PUBREC) || (type =? PUBREL) || (type =? PUBCOMP).
Definition is_empty (type : Z) : bool := (type =? PINGREQ) || (type =? PINGRESP) || (type =? DISCONNECT).

Definition MQTTFormat_toClientString (garbage : Z) (strbuf : ptr) (strbuflen : Z) (buf : ptr) (buflen : Z) : M mem unit :=
  header ← load buf;
  MQTTPacket_decodeBuf (padd buf 1);;
  let type := MQTTHeader.type header in
  if type =? CONNACK then
    '(r, out) ← MQTTDeserialize_connack (mkConnackOut garbage garbage) buf buflen;
    if r =? 1
    then MQTTStringFormat_connack strbuf strbuflen (co_connack_rc out) (co_sessionPresent out);; mret tt
    else mret tt
  else if type =? PUBLISH then format_publish garbage strbuf strbuflen buf buflen
  else if is_ack type then format_ack garbage strbuf strbuflen buf buflen
  else if type =? SUBACK then
    '(r, out) ← MQTTDeserialize_suback (mkSubackOut garbage 0 [garbage]) 1 buf buflen;
    if r =? 1
    then MQTTStringFormat_suback strbuf strbuflen (so_packetid out) (so_count out) (so_grantedQoSs out);; mret tt
    else mret tt
  else if type =? UNSUBACK then
    '(r, packetid) ← MQTTDeserialize_unsuback garbage buf buflen;
    if r =? 1 then MQTTStringFormat_ack strbuf strbuflen UNSUBACK 0 packetid;; mret tt else mret tt
  else if is_empty type then format_empty type strbuf strbuflen
  else mret tt.

(** [data] is not initialised. *)
Definition MQTTFormat_toServerString (garbage : Z) (d : MQTTPacket_connectData) (strbuf : ptr) (strbuflen : Z)
    (buf : ptr) (buflen : Z) : M mem unit :=
  header ← load buf;
  MQTTPacket_decodeBuf (padd buf 1);;
  let type := MQTTHeader.type header in
  (if type =? CONNECT then
     '(r, d) ← MQTTDeserialize_connect d buf buflen;
     if r =? 1 then MQTTStringFormat_connect strbuf strbuflen d;; mret tt else mret tt
   else if type =? PUBLISH then format_publish garbage strbuf strbuflen buf buflen
   else if is_ack type then format_ack garbage strbuf strbuflen buf buflen
   else if type =? SUBSCRIBE then
     '(r, out) ← MQTTDeserialize_subscribe
         (mkSubscribeOut garbage garbage 0 [mkMQTTString Indet (mkLenString garbage Indet)] [garbage]) 1 buf buflen;
     if r =? 1
     then MQTTStringFormat_subscribe strbuf strbuflen (sb_dup out) (sb_packetid out) (sb_count out)
            (sb_topicFilters out) (sb_requestedQoSs out);; mret tt
     else mret tt
   else if type =? UNSUBSCRIBE then
     '(r, out) ← MQTTDeserialize_unsubscribe
         (mkUnsubscribeOut garbage garbage 0 [mkMQTTString Indet (mkLenString garbage Indet)]) 1 buf buflen;
     if r =? 1
     then MQTTStringFormat_unsubscribe strbuf strbuflen (us_dup out) (us_packetid out) (us_count out)
            (us_topicFilters out);; mret tt
     else mret tt
   else if is_empty type then format_empty type strbuf strbuflen
   else mret tt);;
  store (padd strbuf strbuflen) 0.

(** ** The text of a packet *)

Definition name_of (type : Z) : list Z := default [] (MQTTPacket_names !! Z.to_nat type).

(** The text toClientString is to give for the packets a client receives. *)
Definition describe (p : packet) : list Z :=
  match p with
  | PConnack sp code => str "CONNACK session present " ++ print_d sp ++ str ", rc " ++ print_d code
  | PPublish dup qos retain topic id payload =>
      str "PUBLISH dup " ++ print_d dup ++ str ", QoS " ++ print_d qos ++ str ", retained " ++ print_d retain ++
      str ", packet id " ++ print_d id ++ str ", topic " ++ upto_nul (take 20 topic) ++
      str ", payload length " ++ print_d (Z.of_nat (length payload)) ++ str ", payload " ++ upto_nul (take 20 payload)
  | PAck type dup id => name_of type ++ str ", packet id " ++ print_d id
  | PSuback id [code] => str "SUBACK packet id " ++ print_d id ++ str " count 1 granted qos " ++ print_d (to_char code)
  | PEmpty type => name_of type
  | _ => []
  end.

(** The packets a client is sent.  The packet id of a PUBLISH of QoS 0 is a variable that
    is not assigned. *)
Definition received_packet (garbage : Z) (p : packet) : Prop :=
  match p with
  | PConnack sp code => 0 <= sp < 2 /\ is_byte code
  | PPublish dup qos retain topic id payload =>
      0 <= dup < 2 /\ 0 <= qos < 4 /\ 0 <= retain < 2 /\ 0 <= id < 65536 /\ Z.of_nat (length topic) < 65536 /\
      Z.of_nat (length (publish_body qos topic id payload)) <= MAX_REMAINING /\ (qos = 0 -> id = garbage)
  | PAck type dup id => (4 <= type <= 7 \/ type = 11) /\ dup = 0 /\ 0 <= id < 65536
  | PSuback id codes => 0 <= id < 65536 /\ exists code, codes = [code] /\ is_byte code
  | PEmpty type => 12 <= type <= 14
  | _ => False
  end.

(** ** Lemmas *)

Lemma length_digits fuel n acc : (length (digits fuel n acc) <= fuel + length acc)%nat.
Proof.
  revert n acc. induction fuel as [|fuel IH]; intros n acc; cbn [digits]; [lia|].
  destruct (n <? 10); [simpl; lia|]. etransitivity; [apply IH|]. simpl. lia.
Qed.

Lemma length_print_d n : (length (print_d n) <= 21)%nat.
Proof.
  unfold print_d, decimal. destruct (n <? 0); cbn [length].
  - pose proof (length_digits 20 (- n) []) as H. cbn [length] in H. lia.
  - pose proof (length_digits 20 n []) as H. cbn [length] in H. lia.
Qed.

Lemma length_upto_nul l : (length (upto_nul l) <= length l)%nat.
Proof. induction l as [|c l IH]; simpl; [lia|]. destruct (c =? 0); simpl; lia. Qed.

(** The first octet and the remaining length of a packet in a buffer. *)
Lemma packet_head m b o h body :
  is_byte h -> Z.of_nat (length body) <= MAX_REMAINING -> bytes_at m (Ptr b o) (frame h body) ->
  load (Ptr b o) m = Ret (h, m) /\ exists r, MQTTPacket_decodeBuf (padd (Ptr b o) 1) m = Ret (r, m).
Proof.
  intros Hh Hn H. split; [by eapply load_at|].
  destruct (frame_at m b o h body []) as (_ & D & _); [done|done|by rewrite app_nil_r|].
  eexists. exact D.
Qed.

(** The pieces of a format, one after the other. *)
Ltac printed :=
  repeat (eapply print_cons; [first [reflexivity | eassumption]|]); reflexivity.

Lemma chars_cut m p cs :
  bytes_at m p cs ->
  print_piece (Chars (if Z.of_nat (length cs) <? 20 then Z.of_nat (length cs) else 20) p) m =
  Ret (upto_nul (take 20 cs), m).
Proof.
  intros H. cbn [print_piece].
  assert ((if Z.of_nat (length cs) <? 20 then Z.of_nat (length cs) else 20) = Z.of_nat (length (take 20 cs))) as ->.
  { rewrite length_take. destruct (Z.ltb_spec (Z.of_nat (length cs)) 20); lia. }
  apply (print_chars_at m p (take 20 cs) (drop 20 cs)). by rewrite take_drop.
Qed.

Section describe.
Context (garbage : Z) (m : mem) (b : positive) (o buflen : Z) (strbuf : ptr) (strbuflen : Z).
Context (Hsize : 0 < strbuflen <= INT_MAX) (Hroom : room m strbuf strbuflen).

(** The text of the call is what snprintf stores. *)
Abbreviation written text := (mwrite m strbuf (take (Z.to_nat (strbuflen - 1)) text ++ [0])).

Lemma format_publish_run dup qos retain topic id payload :
  received_packet garbage (PPublish dup qos retain topic id payload) ->
  bytes_at m (Ptr b o) (encode (PPublish dup qos retain topic id payload)) ->
  format_publish garbage strbuf strbuflen (Ptr b o) buflen m =
  Ret (tt, written (describe (PPublish dup qos retain topic id payload))).
Proof using Hsize Hroom.
  intros (Hd & Hq & Hr & Hid & Htl & Hs & Hg) H.
  destruct (MQTTDeserialize_publish_at m b o (blank_publish garbage) buflen dup qos retain topic id payload [])
    as (Ht & Hp & E); try done; [by rewrite app_nil_r|].
  unfold format_publish. erewrite bind_ret by exact E. cbv iota beta. change (1 =? 1) with true. cbv iota.
  unfold MQTTStringFormat_publish. cbn [po_dup po_qos po_retained po_packetid po_topicName po_payload po_payloadlen blank_publish].
  replace (if 0 <? qos then id else garbage) with id
    by (destruct (Z.ltb_spec 0 qos); [done|apply Hg; lia]).
  cbn [len data lenstring lstring]. erewrite bind_ret.
  2: { apply (snprintf_run _ _ _ _ (describe (PPublish dup qos retain topic id payload))); [|done|done|].
       - rewrite app_nil_r in Hp. pose proof (chars_cut m _ topic Ht) as E1.
         pose proof (chars_cut m _ payload Hp) as E2. cbn [describe].
         rewrite <- (app_nil_r (upto_nul (take 20 payload))). printed.
       - cbn [describe]. rewrite !length_app. pose proof (length_print_d dup). pose proof (length_print_d qos).
         pose proof (length_print_d retain). pose proof (length_print_d id).
         pose proof (length_print_d (Z.of_nat (length payload))). pose proof (length_upto_nul (take 20 topic)).
         pose proof (length_upto_nul (take 20 payload)). rewrite length_take in *. cbn [str length list_ascii_of_string map]. unfold INT_MAX. lia. }
  done.
Qed.

Lemma name_at type (s : mem) :
  0 <= type < 15 -> array_get MQTTPacket_names type s = Ret (name_of type, s) /\ (length (name_of type) <= 11)%nat.
Proof.
  intros Hty. assert (exists name, MQTTPacket_names !! Z.to_nat type = Some name /\ (length name <= 11)%nat) as (name & En & Hl).
  { assert (Z.to_nat type < 15)%nat as Hn by lia. revert Hn. generalize (Z.to_nat type). intros k Hk.
    do 15 (destruct k as [|k]; [eexists; split; [reflexivity|vm_compute; lia]|]). lia. }
  unfold name_of. rewrite En. split; [|done]. rewrite <- (Z2Nat.id type) by lia. by apply array_get_at.
Qed.

Lemma format_ack_run type id :
  0 <= type < 15 ->
  MQTTStringFormat_ack strbuf strbuflen type 0 id m =
  Ret (Z.of_nat (length (describe (PAck type 0 id))), written (describe (PAck type 0 id))).
Proof using Hsize Hroom.
  intros Hty. unfold MQTTStringFormat_ack. destruct (name_at type m Hty) as [En Hl].
  erewrite bind_ret by exact En.
  erewrite bind_ret.
  2: { apply (snprintf_run _ _ _ _ (describe (PAck type 0 id))); [|done|done|].
       - cbn [describe]. rewrite <- (app_nil_r (print_d id)). printed.
       - cbn [describe]. rewrite !length_app. pose proof (length_print_d id).
         cbn [str length list_ascii_of_string map]. unfold INT_MAX. lia. }
  done.
Qed.

Lemma format_connack_run sp code :
  MQTTStringFormat_connack strbuf strbuflen code sp m =
  Ret (Z.of_nat (length (describe (PConnack sp code))), written (describe (PConnack sp code))).
Proof using Hsize Hroom.
  unfold MQTTStringFormat_connack. apply snprintf_run; [|done|done|].
  - cbn [describe]. rewrite <- (app_nil_r (print_d code)). printed.
  - cbn [describe]. rewrite !length_app. pose proof (length_print_d sp). pose proof (length_print_d code).
    cbn [str length list_ascii_of_string map]. unfold INT_MAX. lia.
Qed.

Lemma format_suback_run id code :
  MQTTStringFormat_suback strbuf strbuflen id 1 [to_char code] m =
  Ret (Z.of_nat (length (describe (PSuback id [code]))), written (describe (PSuback id [code]))).
Proof using Hsize Hroom.
  unfold MQTTStringFormat_suback. erewrite bind_ret by reflexivity. apply snprintf_run; [|done|done|].
  - cbn [describe]. change (str " count 1 granted qos ") with (str " count " ++ print_d 1 ++ str " granted qos ").
    rewrite <- (app_nil_r (print_d (to_char code))), <- !app_assoc. printed.
  - cbn [describe]. rewrite !length_app. pose proof (length_print_d id). pose proof (length_print_d (to_char code)).
    cbn [str length list_ascii_of_string map]. unfold INT_MAX. lia.
Qed.

Lemma format_empty_run type :
  12 <= type <= 14 ->
  format_empty type strbuf strbuflen m = Ret (tt, written (describe (PEmpty type))).
Proof using Hsize Hroom.
  intros Hty. unfold format_empty. destruct (name_at type m) as [En Hl]; [lia|]. erewrite bind_ret by exact En.
  erewrite bind_ret.
  2: { apply (snprintf_run _ _ _ _ (describe (PEmpty type))); [|done|done|].
       - pose proof (print_cons (Lit (name_of type)) [] m _ _ eq_refl eq_refl) as P. by rewrite app_nil_r in P.
       - cbn [describe]. unfold INT_MAX. lia. }
  done.
Qed.

(** The switch of toClientString by the type of the packet. *)
Lemma toClientString_type h body :
  is_byte h -> Z.of_nat (length body) <= MAX_REMAINING -> bytes_at m (Ptr b o) (frame h body) ->
  MQTTFormat_toClientString garbage strbuf strbuflen (Ptr b o) buflen m =
  (let type := MQTTHeader.type h in
   if type =? CONNACK then
     '(r, out) ← MQTTDeserialize_connack (mkConnackOut garbage garbage) (Ptr b o) buflen;
     if r =? 1
     then MQTTStringFormat_connack strbuf strbuflen (co_connack_rc out) (co_sessionPresent out);; mret tt
     else mret tt
   else if type =? PUBLISH then format_publish garbage strbuf strbuflen (Ptr b o) buflen
   else if is_ack type then format_ack garbage strbuf strbuflen (Ptr b o) buflen
   else if type =? SUBACK then
     '(r, out) ← MQTTDeserialize_suback (mkSubackOut garbage 0 [garbage]) 1 (Ptr b o) buflen;
     if r =? 1
     then MQTTStringFormat_suback strbuf strbuflen (so_packetid out) (so_count out) (so_grantedQoSs out);; mret tt
     else mret tt
   else if type =? UNSUBACK then
     '(r, packetid) ← MQTTDeserialize_unsuback garbage (Ptr b o) buflen;
     if r =? 1 then MQTTStringFormat_ack strbuf strbuflen UNSUBACK 0 packetid;; mret tt else mret tt
   else if is_empty type then format_empty type strbuf strbuflen
   else mret tt) m.
Proof.
  intros Hh Hn H. destruct (packet_head m b o h body Hh Hn H) as (E1 & r & E2).
  unfold MQTTFormat_toClientString. erewrite bind_ret by exact E1. by erewrite bind_ret by exact E2.
Qed.

Lemma toClientString_run p :
  received_packet garbage p -> bytes_at m (Ptr b o) (encode p) ->
  MQTTFormat_toClientString garbage strbuf strbuflen (Ptr b o) buflen m = Ret (tt, written (describe p)).
Proof using Hsize Hroom.
  intros Hp H. destruct p as [c|sp code|dup qos retain topic id payload|type dup id|? ? ?|id codes|? ? ?|type]; try done.
  - destruct Hp as [Hsp Hc]. rewrite (toClientString_type (fixed_header 2 0 0 0) [sp; code] ltac:(split; vm_compute; congruence) ltac:(unfold MAX_REMAINING; simpl; lia) H). cbv zeta.
    change (MQTTHeader.type _ =? CONNACK) with true. cbv iota.
    erewrite bind_ret by (apply (MQTTDeserialize_connack_at m b o _ _ sp code []); [done|done|by rewrite app_nil_r]).
    cbv iota beta. change (1 =? 1) with true. cbv iota. by erewrite bind_ret by apply format_connack_run.
  - pose proof Hp as (Hd & Hq & Hr & _ & _ & Hs & _).
    destruct (fixed_header_fields 3 dup qos retain) as (Hh & Ety & _); [lia..|].
    rewrite (toClientString_type _ _ Hh Hs H). cbv zeta. rewrite Ety. by apply format_publish_run.
  - destruct Hp as (Hty & -> & Hid). set (q := if type =? 6 then 1 else 0).
    assert (0 <= q < 4) by (unfold q; destruct (type =? 6); lia).
    destruct (fixed_header_fields type 0 q 0) as (Hh & Ety & _); [lia..|].
    pose proof (fun out len => MQTTDeserialize_ack_at m b o out len type 0 id q [] ltac:(lia) ltac:(lia) ltac:(done) Hid
      ltac:(by rewrite app_nil_r)) as E.
    rewrite (toClientString_type _ (u16 id) Hh ltac:(unfold MAX_REMAINING; simpl; lia) H). cbv zeta. rewrite Ety. destruct Hty as [Hty| ->].
    + assert (is_ack type = true) as -> by (unfold is_ack, PUBACK, PUBREC, PUBREL, PUBCOMP; lia).
      replace (type =? CONNACK) with false by (unfold CONNACK; lia). replace (type =? PUBLISH) with false by (unfold PUBLISH; lia).
      unfold format_ack. erewrite bind_ret by apply E. cbv iota beta. cbn [ao_packettype ao_dup ao_packetid].
      change (1 =? 1) with true. cbv iota. by erewrite bind_ret by (apply format_ack_run; lia).
    + change (11 =? CONNACK) with false. change (11 =? PUBLISH) with false. change (is_ack 11) with false.
      change (11 =? SUBACK) with false. change (11 =? UNSUBACK) with true. cbv iota.
      unfold MQTTDeserialize_unsuback. rewrite bind_assoc. erewrite bind_ret by apply E. cbv iota beta.
      erewrite bind_ret by apply mret_run. cbv iota beta. cbn [ao_packettype ao_packetid]. change (11 =? UNSUBACK) with true.
      cbv iota. change (1 =? 1) with true. cbv iota. by erewrite bind_ret by (apply (format_ack_run 11); lia).
  - destruct Hp as (Hid & code & -> & Hc). rewrite (toClientString_type (fixed_header 9 0 0 0) (u16 id ++ [code]) ltac:(split; vm_compute; congruence) ltac:(unfold MAX_REMAINING; simpl; lia) H). cbv zeta.
    change (MQTTHeader.type _) with SUBACK. change (SUBACK =? CONNACK) with false. change (SUBACK =? PUBLISH) with false.
    change (is_ack SUBACK) with false. change (SUBACK =? SUBACK) with true. cbv iota.
    erewrite bind_ret by (apply (MQTTDeserialize_suback_at m b o _ 1 _ id [code] []);
      [by rewrite app_nil_r|done|unfold MAX_REMAINING; simpl; lia|simpl; lia|simpl; lia]).
    cbv iota beta. cbn [so_packetid so_count so_grantedQoSs map app length drop].
    change (1 =? 1) with true. cbv iota. by erewrite bind_ret by apply format_suback_run.
  - simpl in Hp. destruct (fixed_header_fields type 0 0 0) as (Hh & Ety & _); [lia..|].
    rewrite (toClientString_type _ [] Hh ltac:(unfold MAX_REMAINING; simpl; lia) H). cbv zeta. rewrite Ety.
    assert (type = 12 \/ type = 13 \/ type = 14) as [->|[->| ->]] by lia; by apply format_empty_run.
Qed.
End describe.

(** ** Properties *)

(** MQTTFormat_toClientString describes every packet a client is sent, with the fields
    the packet carries, as a string cut to the size of the buffer and terminated; it
    writes nothing else. *)
Theorem toClientString_describes garbage m b o buflen strbuf strbuflen p :
  received_packet garbage p -> bytes_at m (Ptr b o) (encode p) -> 0 < strbuflen <= INT_MAX -> room m strbuf strbuflen ->
  MQTTFormat_toClientString garbage strbuf strbuflen (Ptr b o) buflen m =
  Ret (tt, mwrite m strbuf (take (Z.to_nat (strbuflen - 1)) (describe p) ++ [0])).
Proof. intros. by apply toClientString_run. Qed.

(** "PUBACK, packet id 7" *)
Lemma toClientString_describes_witness :
  let m : mem := {[1%positive := [64; 2; 0; 7]; 2%positive := replicate 32 255]} in
  MQTTFormat_toClientString 0 (Ptr 2 0) 32 (Ptr 1 0) 4 m =
  Ret (tt, mwrite m (Ptr 2 0) (str "PUBACK, packet id 7" ++ [0])).
Proof.
  intros m. apply (toClientString_describes 0 m 1 0 4 (Ptr 2 0) 32 (PAck 4 0 7)).
  - split; [left; lia|]. split; [reflexivity|lia].
  - exists []. reflexivity.
  - unfold INT_MAX. lia.
  - eexists. split; [reflexivity|]. vm_compute. discriminate.
Defined.

(** ** Where the code departs from its contract *)

(** MQTTFormat_toServerString terminates the string one octet behind its buffer. *)
Lemma toServerString_overflow d :
  MQTTFormat_toServerString 0 d (Ptr 2 0) 32 (Ptr 1 0) 4
    ({[1%positive := [64; 2; 0; 7]; 2%positive := replicate 32 255]} : mem) = UB.
Proof. vm_compute. reflexivity. Qed.

(** There is no name for the packet type 15. *)
Lemma getName_15 m : MQTTPacket_getName 15 m = UB.
Proof. reflexivity. Qed.

(** MQTTStringFormat_connect goes on behind the buffer when the first part of the text
    did not fit: the size of the rest is negative, a [size_t] of almost 2^64. *)
Lemma MQTTStringFormat_connect_overflow :
  MQTTStringFormat_connect (Ptr 2 0) 32
    (mkConnectData [] 0 4 (lstring 1 (Ptr 1 0)) 60 1 0 MQTTPacket_willOptions_initializer
       (lstring 1 (Ptr 1 0)) MQTTString_initializer)
    ({[1%positive := [97]; 2%positive := replicate 32 255]} : mem) = UB.
Proof. vm_compute. reflexivity. Qed.
