(* ===== verification/Broker.v ===== *)
(** * The MQTT tasks

    src/mqtt_task.c: connecting to the broker, the subscriber and the publisher
    thread, each as a sequential program.  The state is that of the TLS set-up
    (Network.v) beside that of the client (Client.v); the values the publisher is
    notified of are its input.  The hand-over of these values is in Handover.v. *)

From Stdlib Require Import String.
From S2P Require Import Prelude Memory Wire Packet PacketRead Publish Connect Subscribe Topic Timer Print Network Client Transport ClientInv ClientIO ClientFlow ClientApi.

(** [mqtt_config_t] *)
Record mqtt_config_t : Type := mkMqttConfig {
  broker_ip : ptr;
  broker_port : ptr;
  device_name : ptr;
  cfg_topic : ptr;
  ca_cert_file : ptr;
  client_cert_file : ptr;
  client_key_file : ptr
}.

(** The function pointer of MqttMessageArrived. *)
Definition handler_arrived : Z := 1.

(** What the tasks use of the system beside the platform of the client: the stream to
    the broker a new connection gives, and nanosleep. *)
Class TaskHost (N : Type) : Type := {
  attach : Tls.tls -> N -> N;
  nanosleep : timespec -> N -> N
}.

Section tasks.
Context {N : Type} `{!Platform N} `{!TaskHost N}.

Definition app : Type := Tls.tls * world N.

Definition on_net {A} (f : M Tls.tls A) : M app A := fun '(t, w) =>
  match f t with
  | Ret (a, t) => Ret (a, (t, w))
  | UB => UB
  | NoFuel => NoFuel
  end.

Definition on_client {A} (f : M (world N) A) : M app A := fun '(t, w) =>
  match f w with
  | Ret (a, w) => Ret (a, (t, w))
  | UB => UB
  | NoFuel => NoFuel
  end.

(** The client's functions now work on the connection just made. *)
Definition attached : M app unit := fun '(t, (c, (m, n))) => Ret (tt, (t, (c, (m, attach t n)))).

Definition sleep (ms : Z) : M app unit := fun '(t, (c, (m, n))) => Ret (tt, (t, (c, (m, nanosleep (sleep_ms ms) n)))).

(** The string literal "Linux client", the array [str] of the publisher, the local
    variable of decodePacket, the passes the client's loops are followed for, and the
    value of an integer that was not assigned. *)
Context (client_name : ptr) (text : ptr) (local_i : ptr) (passes : nat) (garbage : Z).

(** [MQTTPacket_connectData data] as MqttConnectBroker sets it up. *)
Definition connect_data : MQTTPacket_connectData :=
  let d := MQTTPacket_connectData_initializer in
  mkConnectData (struct_id d) (struct_version d) 3 (mkMQTTString client_name (lenstring (clientID d))) 60 1 0
    (will d) (username d) (password d).

Definition MqttConnectBroker (config : mqtt_config_t) : M app Z :=
  port ← on_client (memory (print_s (broker_port config)));
  ret ← on_net (Tls.mqtt_network_connect port);
  if negb (ret =? MQTT_SUCCESS) then
    on_net Tls.mqtt_network_disconnect;;
    mret (-1)
  else
    attached;;
    on_client (update (fun c => MQTTClientInit c 1000 sndBuffer MQTT_BUFSIZE rcvBuffer MQTT_BUFSIZE));;
    ret ← on_client (MQTTConnect local_i passes garbage (Some connect_data));
    if negb (ret =? MQTT_SUCCESS) then
      on_client MQTTCloseSession;;
      on_net Tls.mqtt_network_disconnect;;
      mret ret
    else
      ret ← on_client (MQTTSubscribe local_i passes garbage (cfg_topic config) QOS0 handler_arrived);
      if negb (ret =? MQTT_SUCCESS) then
        on_client MQTTCloseSession;;
        on_net Tls.mqtt_network_disconnect;;
        mret ret
      else mret MQTT_SUCCESS.

(** One pass of the loop of mqtt_sub_task. *)
Definition sub_pass : M app unit :=
  c ← on_client client;
  if negb (truthy (isconnected c)) then sleep 50
  else
    on_client (MQTTYield local_i passes garbage 500);;
    sleep 100.

(** [n] passes of the endless loop; without a configuration the thread ends. *)
Fixpoint sub_passes (n : nat) : M app unit :=
  match n with
  | O => mret tt
  | S n => sub_pass;; sub_passes n
  end.

Definition mqtt_sub_task (config : option mqtt_config_t) (n : nat) : M app unit :=
  match config with
  | None => mret tt
  | Some _ => sub_passes n
  end.

(** The first loop of mqtt_pub_task, from [nAttemps] on. *)
Fixpoint connect_attempts (fuel : nat) (config : mqtt_config_t) (nAttemps : Z) : M app Z :=
  match fuel with
  | O => nofuel
  | S fuel =>
      ret ← MqttConnectBroker config;
      if ret =? MQTT_SUCCESS then mret ret
      else
        let nAttemps := nAttemps + 1 in
        if nAttemps <? 10 then connect_attempts fuel config nAttemps else mret ret
  end.

(** The text published for a value. *)
Definition json_format (name : ptr) (v : Z) : list piece :=
  [Lit (str "{" ++ [10] ++ str "  " ++ [34] ++ str "device" ++ [34] ++ str ": " ++ [34]); Chars (-1) name;
   Lit ([34] ++ str "," ++ [10] ++ str "  " ++ [34] ++ str "data" ++ [34] ++ str ": "); Ulong v;
   Lit ([10] ++ str "}")].

(** A pass of the second loop with the value [v] taken from the Modbus task: the
    condition of the loop and the message, of which only the payload is assigned. *)
Definition pub_pass (config : mqtt_config_t) (message : MQTTMessage) (v : Z) : M app (bool * MQTTMessage) :=
  on_client (memory (snprintf text 256 (json_format (device_name config) v)));;
  n ← on_client (memory (strlen text));
  let message := mkMessage (msg_qos message) (msg_retained message) (msg_dup message) (msg_id message) text n in
  '(rc, message) ← on_client (MQTTPublish local_i passes garbage (cfg_topic config) message);
  if negb (rc =? MQTT_SUCCESS) then
    on_client MQTTCloseSession;;
    on_net Tls.mqtt_network_disconnect;;
    mret (false, message)
  else
    sleep 1000;;
    c ← on_client client;
    mret (truthy (isconnected c), message).

(** The second loop on the values to come: the values left when it ends, or nothing
    when it still waits for one. *)
Fixpoint pub_loop (config : mqtt_config_t) (message : MQTTMessage) (values : list Z) : M app (option (list Z)) :=
  match values with
  | [] => mret None
  | v :: values =>
      '(again, message) ← pub_pass config message v;
      if (again : bool) then pub_loop config message values else mret (Some values)
  end.

(** The message as declared: indeterminate. *)
Definition blank_message : MQTTMessage := mkMessage garbage garbage garbage garbage Indet garbage.

(** The outer loop.  A pass takes at least one value or waits, so that one more pass than
    there are values is enough. *)
Fixpoint pub_passes (fuel : nat) (config : mqtt_config_t) (values : list Z) : M app unit :=
  match fuel with
  | O => nofuel
  | S fuel =>
      ret ← connect_attempts 10 config 0;
      if negb (ret =? MQTT_SUCCESS) then mret tt
      else
        on_client (memory (memset text 0 256));;
        left ← pub_loop config blank_message values;
        match left with
        | None => mret tt
        | Some values => pub_passes fuel config values
        end
  end.

Definition mqtt_pub_task (config : option mqtt_config_t) (values : list Z) : M app unit :=
  match config with
  | None => mret tt
  | Some config => pub_passes (S (length values)) config values
  end.
End tasks.

(** ** Lemmas *)

Section runs.
Context {N : Type} `{!Platform N} `{!TaskHost N}.

Lemma on_net_run {A} (f : M Tls.tls A) t a t' (w : world N) :
  f t = Ret (a, t') -> on_net f (t, w) = Ret (a, (t', w)).
Proof. intros E. unfold on_net. by rewrite E. Qed.

Lemma on_client_run {A} (f : M (world N) A) (t : Tls.tls) w a w' :
  f w = Ret (a, w') -> on_client f (t, w) = Ret (a, (t, w')).
Proof. intros E. unfold on_client. by rewrite E. Qed.

Lemma on_net_inv {A} (f : M Tls.tls A) t (w : world N) a s' :
  on_net f (t, w) = Ret (a, s') -> exists t', f t = Ret (a, t') /\ s' = (t', w).
Proof. unfold on_net. destruct (f t) as [[a' t']| |]; [|done..]. intros [= -> <-]. eauto. Qed.

Lemma on_client_inv {A} (f : M (world N) A) (t : Tls.tls) w a s' :
  on_client f (t, w) = Ret (a, s') -> exists w', f w = Ret (a, w') /\ s' = (t, w').
Proof. unfold on_client. destruct (f w) as [[a' w']| |]; [|done..]. intros [= -> <-]. eauto. Qed.

(** The characters of a C string. *)
Lemma print_s_run m p s : cstr_at m p s -> print_s p m = Ret (s, m).
Proof.
  intros Hs. unfold print_s. erewrite bind_ret by (by apply strlen_at). apply load_bytes_at. right.
  destruct Hs as [Hs _]. by eapply bytes_at_app_l.
Qed.

(** Closing the session leaves the client disconnected. *)
Lemma MQTTCloseSession_run (c : MQTTClient) (s : mem * N) :
  exists c', MQTTCloseSession (c, s) = Ret (tt, (c', s)) /\ isconnected c' = 0.
Proof.
  unfold MQTTCloseSession. erewrite bind_ret by apply update_run. erewrite bind_ret by apply update_run.
  erewrite bind_ret by apply client_run. cbn [c_cleansession set_isconnected set_ping_outstanding].
  destruct (truthy (c_cleansession c)); eexists; split; reflexivity.
Qed.
End runs.

(** The CONNECT packet of the program. *)
Definition program_connect : connect := mk_connect 3 1 None 60 (str "Linux client") None None.

Section broker.
Context {N : Type} `{!Platform N} `{!PlatformLaws N} `{!TaskHost N}.
Context (client_name : ptr) (lb : positive) (passes : nat) (garbage : Z).

(** The program's data as the system loads it: the buffers, the literal, the strings of
    the configuration. *)
Record program_mem (m : mem) (config : mqtt_config_t) (port topic : list Z) : Prop := mkProgramMem {
  pm_name : cstr_at m client_name (str "Linux client") /\ ~ in_block client_name 1;
  pm_port : cstr_at m (broker_port config) port;
  pm_topic : filter_arg 1 2 lb m (cfg_topic config) topic;
  pm_topic_len : Z.of_nat (length topic) <= 1000
}.

Lemma connect_data_repr m : cstr_at m client_name (str "Linux client") -> ~ in_block client_name 1 ->
  connect_repr m 1 (connect_data client_name) program_connect.
Proof.
  intros Hs Hb. constructor; try done; [by left|]. apply mstring_c; [done|done|simpl; lia].
Qed.

(** The client after MQTTClientInit has no handlers. *)
Lemma init_handlers c m :
  length (messageHandlers c) = MAX_MESSAGE_HANDLERS ->
  handlers_ok 1 2 lb (MQTTClientInit c 1000 sndBuffer MQTT_BUFSIZE rcvBuffer MQTT_BUFSIZE) m
    (replicate MAX_MESSAGE_HANDLERS None).
Proof.
  intros Hl. constructor; cbn [MQTTClientInit messageHandlers].
  - by rewrite length_map.
  - rewrite <- Hl. clear Hl. induction (messageHandlers c) as [|h hs IH]; simpl; constructor; done.
  - apply Forall_replicate. intros f v [=].
  - unfold filters_outside. apply Forall_map. apply Forall_forall. intros h _ b _ [].
Qed.

(** MQTTConnect and MQTTSubscribe as MqttConnectBroker calls them. *)
Lemma connect_subscribe_run config c m n port topic sp ackid code rest :
  let c1 := MQTTClientInit c 1000 sndBuffer MQTT_BUFSIZE rcvBuffer MQTT_BUFSIZE in
  (2 <= passes)%nat -> 24 * tick <= 1000000 -> online n -> layout 1 2 lb c1 m ->
  length (messageHandlers c) = MAX_MESSAGE_HANDLERS -> program_mem m config port topic ->
  0 <= sp < 2 -> 0 <= ackid < 65536 -> 0 <= code <= 2 ->
  inbox n = encode (PConnack sp 0) ++ encode (PSuback ackid [code]) ++ rest ->
  exists c' m' n' c2 m2 n2 ks,
    MQTTConnect (Ptr lb 0) passes garbage (Some (connect_data client_name)) (c1, (m, n)) = Ret (0, (c', (m', n'))) /\
    MQTTSubscribe (Ptr lb 0) passes garbage (cfg_topic config) QOS0 handler_arrived (c', (m', n')) =
      Ret (MQTT_SUCCESS, (c2, (m2, n2))) /\
    isconnected c2 = 1 /\ handlers_repr m2 c2 ks /\ table ks = {[topic := handler_arrived]} /\ inbox n2 = rest /\
    outbox n2 = outbox n ++ encode (PConnect program_connect) ++ encode (PSubscribe 0 2 [(topic, QOS0)]).
Proof.
  intros c1 Hp Htick Hon Hly Hlen [[Hn Hnb] Hport Hfa Htl] Hsp Hack Hcode Hin.
  set (ks0 := replicate MAX_MESSAGE_HANDLERS None : list slot).
  pose proof (init_handlers c m Hlen) as Hho. fold ks0 c1 in Hho.
  destruct (MQTTConnect_run 1 2 lb passes garbage c1 m n ks0 [] (connect_data client_name) program_connect
    (mkConnackData garbage garbage) sp 0 (encode (PSuback ackid [code]) ++ rest))
    as (c' & m' & n' & E1 & V1 & Hc1 & Hk1 & Hh1 & Hly1 & Ho1 & Hid1 & Hcfg1); try done.
  - simpl. lia.
  - by apply connect_data_repr.
  - right. change (wait_ticks [] + 6) with 24. change (cn_keepalive program_connect) with 60. lia.
  - assert (filter_arg 1 2 lb m' (cfg_topic config) topic) as Hfa1.
    { pose proof Hfa as [? ? ?]. constructor; [by eapply filter_arg_only|done..]. }
    assert (command_timeout_ms c' = 1000 /\ buf_size c' = 1024 /\ readbuf_size c' = 1024 /\ next_packetid c' = 1)
      as (Et & Eb & Er & Eid).
    { unfold client_config in Hcfg1. injection Hcfg1 as _ -> _ -> -> _. by rewrite Hid1. }
    assert (inbox n' = encode (PSuback ackid [code]) ++ rest) as Hin1.
    { apply (ev_next V1). by rewrite Hin. }
    change (isconnected c' = 1) in Hc1.
    destruct (MQTTSubscribe_run 1 2 lb passes garbage c' m' n' ks0 [] (cfg_topic config) topic QOS0 handler_arrived garbage
      ackid code rest) as (c2 & m2 & n2 & ks & E2 & V2 & Hrep & Htab & Hc2); try done.
    + split; try done; [simpl; lia|exact (ev_online V1)| |rewrite Et; change (wait_ticks [] + 6) with 24; lia
        |right; rewrite Hk1; change (wait_ticks [] + 6) with 24; change (cn_keepalive program_connect) with 60; lia].
      eapply handlers_ok_only; [exact Hho|exact Hh1|exact Ho1|]. set_solver.
    + rewrite Eid. done.
    + apply NoDup_nil_2.
    + unfold is_byte. lia.
    + right. vm_compute. lia.
    + rewrite Eb. cbn [encode]. rewrite length_frame. set (body := subscribe_body _ _).
      assert (length body = (5 + length topic)%nat) as -> by (unfold body, subscribe_body, utf8; cbn; rewrite ?length_app; cbn; lia).
      pose proof (rl_size_range (Z.of_nat (5 + length topic))). lia.
    + split; [exact Hin1|constructor|vm_compute; discriminate|rewrite Er; vm_compute; discriminate].
    + exists c', m', n', c2, m2, n2, ks. split_and!; try done.
      * unfold MQTTConnect. by erewrite bind_ret by exact E1.
      * unfold MQTTSubscribe. by erewrite bind_ret by exact E2.
      * exact (ev_next V2 Hin1).
      * destruct V1 as [_ O1 _ _ _], V2 as [_ O2 _ _ _]. rewrite O2, O1.
        unfold next_id. rewrite Eid. change (1 =? MAX_PACKET_ID) with false. cbv iota. change (1 + 1) with 2.
        by rewrite !app_nil_r, <- app_assoc.
Qed.

(** ** Properties *)

(** C12: MqttConnectBroker ends with MQTT_SUCCESS once the TLS connection is made and the
    broker accepts: exactly the CONNECT packet of the program and the SUBSCRIBE for the
    configured topic have been sent, the client counts as connected, its one handler is
    MqttMessageArrived for that topic, and what the broker sends next is still to be
    read. *)
Theorem MqttConnectBroker_established config t t' c m n port topic sp ackid code rest :
  let c1 := MQTTClientInit c 1000 sndBuffer MQTT_BUFSIZE rcvBuffer MQTT_BUFSIZE in
  Tls.mqtt_network_connect port t = Ret (0, t') -> program_mem m config port topic ->
  (2 <= passes)%nat -> 24 * tick <= 1000000 -> online (attach t' n) -> layout 1 2 lb c1 m ->
  length (messageHandlers c) = MAX_MESSAGE_HANDLERS -> 0 <= sp < 2 -> 0 <= ackid < 65536 -> 0 <= code <= 2 ->
  inbox (attach t' n) = encode (PConnack sp 0) ++ encode (PSuback ackid [code]) ++ rest ->
  exists c' m' n' ks,
    MqttConnectBroker client_name (Ptr lb 0) passes garbage config (t, (c, (m, n))) =
      Ret (MQTT_SUCCESS, (t', (c', (m', n')))) /\
    isconnected c' = 1 /\ handlers_repr m' c' ks /\ table ks = {[topic := handler_arrived]} /\
    inbox n' = rest /\
    outbox n' = outbox (attach t' n) ++ encode (PConnect program_connect) ++ encode (PSubscribe 0 2 [(topic, QOS0)]).
Proof.
  intros c1 Hnet Hpm Hp Htick Hon Hly Hlen Hsp Hack Hcode Hin.
  destruct (connect_subscribe_run config c m (attach t' n) port topic sp ackid code rest)
    as (ca & ma & na & c2 & m2 & n2 & ks & E1 & E2 & Hres); [done..|].
  exists c2, m2, n2, ks. split; [|done]. unfold MqttConnectBroker.
  erewrite bind_ret by (apply on_client_run, memory_run, print_s_run, (pm_port _ _ _ _ Hpm)).
  erewrite bind_ret by (apply on_net_run; exact Hnet). change (negb (0 =? MQTT_SUCCESS)) with false. cbv iota.
  erewrite bind_ret by reflexivity. erewrite bind_ret by (apply on_client_run, update_run). fold c1.
  erewrite bind_ret by (apply on_client_run; exact E1). change (negb (0 =? MQTT_SUCCESS)) with false. cbv iota.
  erewrite bind_ret by (apply on_client_run; exact E2). done.
Qed.
End broker.

Section cleanup.
Context {N : Type} `{!Platform N} `{!TaskHost N}.
Context (client_name local_i : ptr) (passes : nat) (garbage : Z).

(** Closing the session and the connection. *)
Lemma give_up_run H0 t c (s : mem * N) (ret rc : Z) w :
  Tls.owns H0 t ->
  (on_client MQTTCloseSession;; on_net Tls.mqtt_network_disconnect;; mret ret : M app Z) (t, (c, s)) = Ret (rc, w) ->
  rc = ret /\ exists t' c' s', w = (t', (c', s')) /\ isconnected c' = 0 /\ Tls.heap t' = H0.
Proof.
  intros Hown E. destruct (MQTTCloseSession_run c s) as (c' & E1 & Hc).
  destruct (Tls.mqtt_network_disconnect_owns H0 t Hown) as ([] & t' & E2 & Hh).
  erewrite bind_ret in E by (apply on_client_run; exact E1).
  erewrite bind_ret in E by (apply on_net_run; exact E2). injection E as <- <-. eauto 10.
Qed.

End cleanup.

(** ** What is published *)

Definition json_text (name : list Z) (v : Z) : list Z :=
  (str "{" ++ [10] ++ str "  " ++ [34] ++ str "device" ++ [34] ++ str ": " ++ [34]) ++ name ++
  ([34] ++ str "," ++ [10] ++ str "  " ++ [34] ++ str "data" ++ [34] ++ str ": ") ++ decimal v ++ ([10] ++ str "}").

Lemma json_print m p name v :
  cstr_at m p name -> print (json_format p v) m = Ret (json_text name v, m).
Proof.
  intros Hs. unfold json_format, json_text. apply print_cons; [done|]. apply print_cons.
  { cbn [print_piece]. unfold print_chars. change (-1 <? 0) with true. cbv iota. by apply print_s_run. }
  apply print_cons; [done|]. apply print_cons; [done|]. done.
Qed.

Lemma decimal_no_nul v : 0 <= v < 10 ^ 20 -> 0 ∉ decimal v.
Proof.
  intros Hv H0. destruct (decimal_digits v Hv) as (_ & Hd & _). rewrite Forall_forall in Hd.
  specialize (Hd 0 H0). done.
Qed.

Lemma json_no_nul name v : 0 <= v < 10 ^ 20 -> 0 ∉ name -> 0 ∉ json_text name v.
Proof.
  intros Hv Hn. unfold json_text. pose proof (decimal_no_nul v Hv).
  rewrite !not_elem_of_app. split_and!; try done; no_nul.
Qed.

Lemma digits_length fuel n acc : (length (digits fuel n acc) <= fuel + length acc)%nat.
Proof.
  revert n acc. induction fuel as [|fuel IH]; intros n acc; cbn [digits]; [lia|].
  destruct (n <? 10); [simpl; lia|]. specialize (IH (n / 10) (48 + n mod 10 :: acc)). simpl in IH. lia.
Qed.

Lemma json_length name v : Z.of_nat (length (json_text name v)) <= Z.of_nat (length name) + 60.
Proof.
  unfold json_text. rewrite !length_app. pose proof (digits_length 20 v []) as Hd. unfold decimal.
  cbn [length] in Hd. generalize dependent (digits 20 v []). intros l Hl. simpl. lia.
Qed.

(** Sleeping leaves the connection as it is. *)
Class TaskHostLaws (N : Type) `{!Platform N} `{!PlatformLaws N} `{!TaskHost N} : Prop := {
  nanosleep_law : forall ts n,
    inbox (nanosleep ts n) = inbox n /\ outbox (nanosleep ts n) = outbox n /\
    delivered (nanosleep ts n) = delivered n /\ (online n -> online (nanosleep ts n))
}.

Section publisher.
Context {N : Type} `{!Platform N} `{!PlatformLaws N} `{!TaskHost N} `{!TaskHostLaws N}.
Context (tb lb : positive) (passes : nat) (garbage : Z) (config : mqtt_config_t) (name topic : list Z).
Context (Hpasses : (2 <= passes)%nat) (Htick : 3 * tick <= 1000000).
Context (Hname : Z.of_nat (length name) <= 65535) (Htopic : Z.of_nat (length topic) <= 700).

(** The publisher with a connected client: [str] in its own block, the strings of the
    configuration outside of the blocks written. *)
Record pub_ready (c : MQTTClient) (m : mem) (n : N) : Prop := mkPubReady {
  pr_online : online n;
  pr_layout : layout 1 2 lb c m;
  pr_connected : isconnected c = 1;
  pr_config : command_timeout_ms c = 1000 /\ buf_size c = MQTT_BUFSIZE;
  pr_text : room m (Ptr tb 0) 256 /\ tb ∉ [1%positive; 2%positive; lb] ++ elements handler_blocks;
  pr_name : cstr_at m (device_name config) name /\ ~ in_block (device_name config) tb /\ ~ in_block (device_name config) 1;
  pr_topic : cstr_at m (cfg_topic config) topic /\ ~ in_block (cfg_topic config) tb /\ ~ in_block (cfg_topic config) 1
}.

Definition payload_of (v : Z) : list Z := take 255 (json_text name v).

(** The text in [str]. *)
Lemma text_written c m n v :
  pub_ready c m n -> 0 <= v < 18446744073709551616 ->
  let m1 := mwrite m (Ptr tb 0) (payload_of v ++ [0]) in
  exists k, snprintf (Ptr tb 0) 256 (json_format (device_name config) v) m = Ret (k, m1) /\
    strlen (Ptr tb 0) m1 = Ret (Z.of_nat (length (payload_of v)), m1) /\ pub_ready c m1 n /\
    source_at m1 (Ptr tb 0) (payload_of v) /\ Z.of_nat (length (payload_of v)) <= 255.
Proof using Hname Hpasses.
  intros [Hon Hly Hc Hcfg [Hr Htb] (Hn & Hnt & Hn1) (Ht & Htt & Ht1)] Hv m1.
  assert (length (payload_of v) <= 255)%nat as Hlen by (unfold payload_of; rewrite length_take; lia).
  pose proof (json_length name v) as Hjl.
  assert (room m (Ptr tb 0) (Z.of_nat (length (payload_of v ++ [0])))) as Hr1.
  { eapply room_le; [exact Hr|]. rewrite length_app. cbn [length]. lia. }
  assert (cstr_at m1 (Ptr tb 0) (payload_of v)) as Hs.
  { split; [by apply bytes_at_mwrite_eq|]. intros H0. apply (json_no_nul name v); [change (10 ^ 20) with 100000000000000000000; lia|by destruct Hn|].
    by eapply subseteq_take. }
  eexists. split_and!.
  - apply snprintf_run; [by apply json_print|unfold INT_MAX; lia|done|unfold INT_MAX; lia].
  - by apply strlen_at.
  - split; try done.
    + apply layout_mwrite; [done|done|]. intros Hb. apply Htb, elem_of_app. right. by apply elem_of_elements.
    + split; [|done]. by apply (room_mwrite _ _ _ _ 256 Hr1).
    + split; [|done]. by eapply cstr_at_mwrite_ne.
    + split; [|done]. by eapply cstr_at_mwrite_ne.
  - right. destruct Hs as [Hs _]. by eapply bytes_at_app_l.
  - lia.
Qed.

Definition published (message : MQTTMessage) (v : Z) : list Z :=
  encode (PPublish 0 QOS0 (msg_retained message mod 2) topic (msg_id message) (payload_of v)).

(** One pass on a working connection. *)
Lemma pub_pass_run message t c m n v :
  pub_ready c m n -> 0 <= v < 18446744073709551616 -> msg_qos message = QOS0 -> 0 <= msg_id message < 65536 ->
  exists message' c' m' n',
    pub_pass (Ptr tb 0) (Ptr lb 0) passes garbage config message v (t, (c, (m, n))) =
      Ret ((true, message'), (t, (c', (m', n')))) /\
    msg_qos message' = QOS0 /\ msg_id message' = msg_id message /\ msg_retained message' = msg_retained message /\
    pub_ready c' m' n' /\ inbox n' = inbox n /\ delivered n' = delivered n /\
    outbox n' = outbox n ++ published message v.
Proof using Hname Htopic Hpasses Htick TaskHostLaws0.
  intros Hpr Hv Hq Hid. destruct (text_written c m n v Hpr Hv) as (k & E1 & E2 & Hpr1 & Hsrc & Hlen).
  set (m1 := mwrite m (Ptr tb 0) (payload_of v ++ [0])) in *.
  destruct Hpr1 as [Hon Hly Hc [Hct Hbs] [Hr Htb] Hnm (Ht & Htt & Ht1)].
  set (message1 := mkMessage (msg_qos message) (msg_retained message) (msg_dup message) (msg_id message) (Ptr tb 0)
    (Z.of_nat (length (payload_of v)))).
  assert (Z.of_nat (length (publish_body QOS0 topic (msg_id message) (payload_of v))) <= 1000) as Hbody.
  { rewrite length_publish_body. change (0 <? QOS0) with false. cbv iota. lia. }
  destruct (MQTTPublish_qos0_run 1 2 lb passes garbage c m1 n (cfg_topic config) message1 topic (payload_of v))
    as (tm & n' & E3 & V & Hly'); try done; try (rewrite Hct; lia).
  { split; try done; cbn [msg_qos msg_retained msg_id message1]; rewrite ?Hq.
    - split_and!; [done..|lia].
    - split; [done|]. intros Hb. apply Htb. simpl in Hb. rewrite Hb. set_solver.
    - done.
    - unfold MAX_REMAINING. lia.
    - cbn [encode]. rewrite length_frame, Hbs. unfold MQTT_BUFSIZE.
      pose proof (rl_size_range (Z.of_nat (length (publish_body QOS0 topic (msg_id message) (payload_of v))))). lia. }
  set (pkt := encode _) in *. destruct (nanosleep_law (sleep_ms 1000) n') as (Hi & Ho & Hd & Hon').
  exists message1, (set_last_sent tm c), (mwrite m1 (Ptr 1 0) pkt), (nanosleep (sleep_ms 1000) n').
  assert (room m1 (Ptr 1 0) (Z.of_nat (length pkt))) as Hr1.
  { eapply room_le; [exact (ly_buf_room _ _ _ _ _ Hly)|]. rewrite Hbs. unfold pkt. cbn [encode]. rewrite length_frame.
    pose proof (rl_size_range (Z.of_nat (length (publish_body QOS0 topic (msg_id message) (payload_of v))))).
    change (msg_id message1) with (msg_id message). unfold MQTT_BUFSIZE. lia. }
  split_and!; try done.
  - unfold pub_pass. erewrite bind_ret by (apply on_client_run, memory_run; exact E1).
    erewrite bind_ret by (apply on_client_run, memory_run; exact E2). cbv zeta. fold message1.
    erewrite bind_ret by (apply on_client_run; exact E3). cbv iota beta.
    change (negb (MQTT_SUCCESS =? MQTT_SUCCESS)) with false. cbv iota.
    erewrite bind_ret by reflexivity. erewrite bind_ret by (apply on_client_run, client_run).
    cbn [isconnected set_last_sent]. by rewrite Hc.
  - destruct Hnm as (Hn & Hnt & Hn1). split; try done; [exact (Hon' (ev_online V))|..].
    + split; [|done]. by apply (room_mwrite _ _ _ _ 256 Hr1).
    + split; [|done]. by eapply cstr_at_mwrite_ne.
    + split; [|done]. by eapply cstr_at_mwrite_ne.
  - rewrite Hi. by destruct V.
  - rewrite Hd. destruct V as [_ _ -> _ _]. by rewrite app_nil_r.
  - rewrite Ho. by destruct V as [_ -> _ _ _].
Qed.

(** Every value in its turn. *)
Lemma pub_loop_run values : forall message t c m n,
  pub_ready c m n -> Forall (fun v => 0 <= v < 18446744073709551616) values -> msg_qos message = QOS0 ->
  0 <= msg_id message < 65536 ->
  exists c' m' n',
    pub_loop (Ptr tb 0) (Ptr lb 0) passes garbage config message values (t, (c, (m, n))) =
      Ret (None, (t, (c', (m', n')))) /\
    pub_ready c' m' n' /\ inbox n' = inbox n /\ outbox n' = outbox n ++ concat (map (published message) values).
Proof using Hname Htopic Hpasses Htick TaskHostLaws0.
  induction values as [|v values IH]; intros message t c m n Hpr Hvs Hq Hid; cbn [pub_loop map concat].
  { exists c, m, n. by rewrite app_nil_r. }
  apply Forall_cons in Hvs as [Hv Hvs].
  destruct (pub_pass_run message t c m n v Hpr Hv Hq Hid) as (message' & c1 & m1 & n1 & E & Hq' & Hid' & Hre & Hpr1 & Hi & _ & Ho).
  destruct (IH message' t c1 m1 n1 Hpr1 Hvs Hq') as (c' & m' & n' & E' & Hpr' & Hi' & Ho'); [by rewrite Hid'|].
  exists c', m', n'. split_and!; [|done|congruence|].
  - by erewrite bind_ret by exact E.
  - rewrite Ho', Ho, <- app_assoc. do 2 f_equal. f_equal. apply map_ext. intros x. unfold published. by rewrite Hid', Hre.
Qed.

End publisher.

(** ** The bounds of the loops *)

(** Ten attempts: the first loop of the publisher ends if MqttConnectBroker does. *)
Lemma connect_attempts_bounded {N} `{!Platform N} `{!TaskHost N} client_name local_i passes garbage config (s : app) :
  (forall s : app, MqttConnectBroker client_name local_i passes garbage config s ≠ NoFuel) ->
  connect_attempts client_name local_i passes garbage 10 config 0 s ≠ NoFuel.
Proof.
  intros H. assert (forall fuel k s, 10 - k <= Z.of_nat fuel -> k < 10 ->
    connect_attempts client_name local_i passes garbage fuel config k s ≠ NoFuel) as Hgen; [|by apply Hgen].
  induction fuel as [|fuel IH]; intros k s' Hf Hk; [lia|]. cbn [connect_attempts].
  unfold mbind, M_bind. specialize (H s'). destruct (MqttConnectBroker _ _ _ _ _ s') as [[r s1]| |]; [|done..].
  destruct (r =? MQTT_SUCCESS); [done|]. destruct (Z.ltb_spec (k + 1) 10); [|done]. apply IH; lia.
Qed.

(** A pass of the inner loop that ends has taken a value. *)
Lemma pub_loop_takes {N} `{!Platform N} `{!TaskHost N} text local_i passes garbage config values : forall message (s : app) left s',
  pub_loop text local_i passes garbage config message values s = Ret (Some left, s') -> (length left < length values)%nat.
Proof.
  induction values as [|v values IH]; intros message s left s' E; cbn [pub_loop] in E; [done|].
  apply bind_inv in E as ([again message'] & s1 & _ & E). destruct again; [apply IH in E; simpl; lia|].
  injection E as <- _. simpl. lia.
Qed.

(** The fuel of mqtt_pub_task, one more than there are values, is enough. *)
Lemma mqtt_pub_task_bounded {N} `{!Platform N} `{!TaskHost N} client_name text local_i passes garbage config values (s : app) :
  (forall config (s : app), MqttConnectBroker client_name local_i passes garbage config s ≠ NoFuel) ->
  (forall config message values (s : app), pub_loop text local_i passes garbage config message values s ≠ NoFuel) ->
  mqtt_pub_task client_name text local_i passes garbage config values s ≠ NoFuel.
Proof.
  intros Hc Hl. destruct config as [config|]; [|done]. unfold mqtt_pub_task.
  assert (forall fuel values s, (length values < fuel)%nat ->
    pub_passes client_name text local_i passes garbage fuel config values s ≠ NoFuel) as Hgen; [|apply Hgen; lia].
  clear values s. induction fuel as [|fuel IH]; intros values s Hf; [lia|]. cbn [pub_passes]. unfold mbind, M_bind.
  pose proof (connect_attempts_bounded client_name local_i passes garbage config s (Hc config)) as Ha.
  destruct (connect_attempts _ _ _ _ _ _ _ s) as [[r s1]| |]; [|done..]. destruct (negb (r =? MQTT_SUCCESS)); [done|].
  assert (on_client (memory (memset text 0 256)) s1 ≠ NoFuel) as Hm.
  { unfold on_client, memory, io, on_mem, memset, store_bytes. destruct s1 as [t [c [m n]]]. by repeat case_match. }
  destruct (on_client _ s1) as [[[] s2]| |]; [|done..].
  specialize (Hl config (blank_message garbage) values s2) as Hl'.
  destruct (pub_loop _ _ _ _ _ _ values s2) as [[[left|] s3]| |] eqn:El; [|done..].
  apply IH. apply pub_loop_takes in El. lia.
Qed.

(** ** On the platform of MQTTInterface.c *)

Section host.
Context {E : Type} `{!SSL_api E} `{!SSL_laws E} (stream : Tls.tls -> E).

(** A new connection is the stream [stream]; nanosleep lets the clock advance. *)
Definition tls_host : TaskHost peer := {|
  attach t n := mkPeer (stream t) (p_clock n) (p_delivered n);
  nanosleep ts n := mkPeer (p_tls n) (p_clock n + ts_sec ts * 1000000 + ts_nsec ts / 1000) (p_delivered n)
|}.

Lemma tls_host_laws : TaskHostLaws peer (TaskHost0 := tls_host).
Proof. by constructor. Qed.
End host.

(** ** The theorems at work *)

(** The buffers, the local variable of decodePacket, the topic "a/b", the port, the name
    of the client, the device "plc" and the array [str]. *)
Definition task_mem : mem :=
  {[1%positive := replicate 1024 0; 2%positive := replicate 1024 0; 3%positive := replicate 1024 0;
    4%positive := [0]; 5%positive := str "a/b" ++ [0]; 6%positive := str "8883" ++ [0];
    7%positive := str "Linux client" ++ [0]; 8%positive := str "plc" ++ [0]; 9%positive := replicate 256 0]}.

Definition task_config : mqtt_config_t := mkMqttConfig NULL (Ptr 6 0) (Ptr 8 0) (Ptr 5 0) NULL NULL NULL.

(** A broker that accepts and grants QoS 0. *)
Definition task_host : TaskHost peer :=
  tls_host (fun _ => mkWire [32; 2; 0; 0; 144; 3; 0; 2; 0] [] [] 0).

Lemma task_layout c :
  client_config c = client_config ex_client -> 0 <= c_keepAliveInterval c < 4294967296 -> layout 1 2 4 c task_mem.
Proof.
  intros E Hk. unfold client_config in E. injection E as E1 E2 E3 E4 E5 E6. cbn in E2, E4.
  assert (forall b, room task_mem (Ptr b 0) (Z.of_nat (length (default [] (task_mem !! b)))) \/ task_mem !! b = None) as Hroom.
  { intros b. destruct (task_mem !! b) as [l|] eqn:Eb; [left|by right]. apply room_block; [lia|].
    exists l. split; [done|]. simpl. lia. }
  constructor; try done; try (rewrite ?E2, ?E4; unfold INT_MAX; lia).
  - destruct (Hroom 1%positive) as [H|H]; [rewrite E2; exact H|discriminate H].
  - destruct (Hroom 2%positive) as [H|H]; [rewrite E4; exact H|discriminate H].
  - destruct (Hroom 4%positive) as [H|H]; [exact H|discriminate H].
  - eexists. split; reflexivity.
Qed.

Lemma outside_buffers b : (4 < b)%positive -> b ∉ [1%positive; 2%positive; 4%positive] ++ elements (handler_blocks (N := peer)).
Proof.
  intros Hb. change (elements handler_blocks) with (elements ({[3%positive]} : gset positive)).
  rewrite elements_singleton, elem_of_app, !elem_of_cons, !elem_of_nil. lia.
Qed.

(** The TLS set-up goes through, and its state afterwards. *)
Definition task_oracle : list Z := [1; 1; 1; 1; 1; 1; 1; 3; 1; 0; 1; 1; 0].
Definition task_tls : Tls.tls :=
  match Tls.mqtt_network_connect (str "8883") (Tls.initial task_oracle) with
  | Ret (_, t) => t
  | _ => Tls.initial []
  end.

Lemma MqttConnectBroker_established_witness :
  exists c' m' n' ks,
    MqttConnectBroker (TaskHost0 := task_host) (Ptr 7 0) (Ptr 4 0) 2 0 task_config
      (Tls.initial task_oracle, (mqttClient, (task_mem, ex_peer []))) =
      Ret (MQTT_SUCCESS, (task_tls, (c', (m', n')))) /\
    isconnected c' = 1 /\ handlers_repr m' c' ks /\ table ks = {[str "a/b" := handler_arrived]} /\ inbox n' = [] /\
    outbox n' = encode (PConnect program_connect) ++ [130; 8; 0; 2; 0; 3; 97; 47; 98; 0].
Proof.
  destruct (MqttConnectBroker_established (TaskHost0 := task_host) (Ptr 7 0) 4 2 0 task_config
    (Tls.initial task_oracle) task_tls mqttClient task_mem (ex_peer []) (str "8883") (str "a/b") 0 2 0 []) as (c' & m' & n' & ks & E & Hc & Hr & Ht & Hi & Ho).
  - vm_compute. reflexivity.
  - split; [split; [split; [by exists []|no_nul]|discriminate]|split; [by exists []|no_nul]| |vm_compute; discriminate].
    split; [split; [by exists []|no_nul]| |vm_compute; reflexivity].
    intros b Hb Hin. simpl in Hin. subst b. by apply outside_buffers in Hb.
  - lia.
  - vm_compute. discriminate.
  - constructor.
  - apply task_layout; [reflexivity|vm_compute; split; congruence].
  - reflexivity.
  - lia.
  - lia.
  - lia.
  - reflexivity.
  - exists c', m', n', ks. split; [exact E|]. split; [exact Hc|]. split; [exact Hr|]. split; [exact Ht|].
    split; [exact Hi|]. rewrite Ho. vm_compute. reflexivity.
Defined.


Definition task_message : MQTTMessage := mkMessage QOS0 0 0 0 NULL 0.


(** ** Where the code departs from its contract *)

(** The retries of mqtt_pub_task: the first handshake fails, the second attempt does not
    resolve the name, and its clean-up uses the connection freed by the first. *)
Lemma retry_use_after_free :
  connect_attempts (TaskHost0 := task_host) (Ptr 7 0) (Ptr 4 0) 2 0 10 task_config 0
    (Tls.initial [1; 1; 1; 1; 1; 1; 1; 3; 1; 0; 1; 0; 1; 1; 1; 1; 1; 1; 1; 3; 0],
     (mqttClient, (task_mem, ex_peer []))) = UB.
Proof. vm_compute. reflexivity. Qed.
