(* ===== verification/Handover.v ===== *)
(** * The hand-over between the tasks

    The mutex, the condition variable and [shared_value] of src/modbus_task.c, and the
    two threads that use them: the loop of modbus_task and the inner loop of
    mqtt_pub_task, cut into the steps at which another thread may run.  A schedule is a
    list of actions.  pthread_cond_wait gives the mutex up and waits in one step, and
    takes it again before it returns; it may return without a signal. *)

From S2P Require Import Prelude.

Module Handover.
(** The points at which a thread can be. *)
Inductive modbus_pc : Type := MRead | MLock | MStore | MSignal | MUnlock | MWrite.
Inductive publisher_pc : Type := PLock | PHold | PWaiting | PWoken | PLoad | PUnlock | PPublish.
Inductive thread : Type := Modbus | Publisher.

#[export] Instance modbus_pc_eq_dec : EqDecision modbus_pc.
Proof. solve_decision. Defined.
#[export] Instance publisher_pc_eq_dec : EqDecision publisher_pc.
Proof. solve_decision. Defined.
#[export] Instance thread_eq_dec : EqDecision thread.
Proof. solve_decision. Defined.

(** The holding register of the PLC, the variables of the two threads and the shared
    ones; [stored] and [published] are the values in the order in which they were written
    to [shared_value] and handed to MQTTPublish. *)
Record state : Type := mkState {
  plc : Z;
  r_regs : Z;
  shared_value : Z;
  mutex : option thread;
  modbus_at : modbus_pc;
  publisher_at : publisher_pc;
  ulNotifiedValue : Z;
  stored : list Z;
  published : list Z
}.

Inductive action : Type :=
| read_register | modbus_lock | store_value | cond_signal | modbus_unlock | write_register
| publisher_lock | cond_wait | spurious_wakeup | wait_returns | load_value | publisher_unlock | publish.

#[export] Instance action_eq_dec : EqDecision action.
Proof. solve_decision. Defined.

(** Assignments. *)
Definition modbus_step (pc : modbus_pc) (s : state) : state :=
  mkState (plc s) (r_regs s) (shared_value s) (mutex s) pc (publisher_at s) (ulNotifiedValue s) (stored s) (published s).
Definition publisher_step (pc : publisher_pc) (s : state) : state :=
  mkState (plc s) (r_regs s) (shared_value s) (mutex s) (modbus_at s) pc (ulNotifiedValue s) (stored s) (published s).
Definition set_mutex (v : option thread) (s : state) : state :=
  mkState (plc s) (r_regs s) (shared_value s) v (modbus_at s) (publisher_at s) (ulNotifiedValue s) (stored s) (published s).
Definition set_plc (v : Z) (s : state) : state :=
  mkState v (r_regs s) (shared_value s) (mutex s) (modbus_at s) (publisher_at s) (ulNotifiedValue s) (stored s) (published s).
Definition set_r_regs (v : Z) (s : state) : state :=
  mkState (plc s) v (shared_value s) (mutex s) (modbus_at s) (publisher_at s) (ulNotifiedValue s) (stored s) (published s).
Definition set_shared (v : Z) (s : state) : state :=
  mkState (plc s) (r_regs s) v (mutex s) (modbus_at s) (publisher_at s) (ulNotifiedValue s) (stored s ++ [v]) (published s).
Definition set_notified (v : Z) (s : state) : state :=
  mkState (plc s) (r_regs s) (shared_value s) (mutex s) (modbus_at s) (publisher_at s) v (stored s) (published s).
Definition note_published (s : state) : state :=
  mkState (plc s) (r_regs s) (shared_value s) (mutex s) (modbus_at s) (publisher_at s) (ulNotifiedValue s) (stored s)
    (published s ++ [ulNotifiedValue s]).

(** The action when its thread is there and, for a lock, when the mutex is free. *)
Definition exec (a : action) (s : state) : option state :=
  match a, modbus_at s, publisher_at s, mutex s with
  | read_register, MRead, _, _ => Some (modbus_step MLock (set_r_regs (plc s) s))
  | modbus_lock, MLock, _, None => Some (modbus_step MStore (set_mutex (Some Modbus) s))
  | store_value, MStore, _, _ => Some (modbus_step MSignal (set_shared (r_regs s) s))
  | cond_signal, MSignal, PWaiting, _ => Some (modbus_step MUnlock (publisher_step PWoken s))
  | cond_signal, MSignal, _, _ => Some (modbus_step MUnlock s)
  | modbus_unlock, MUnlock, _, _ => Some (modbus_step MWrite (set_mutex None s))
  | write_register, MWrite, _, _ =>
      let r := to_ushort (r_regs s + 1) in Some (modbus_step MRead (set_plc r (set_r_regs r s)))
  | publisher_lock, _, PLock, None => Some (publisher_step PHold (set_mutex (Some Publisher) s))
  | cond_wait, _, PHold, _ => Some (publisher_step PWaiting (set_mutex None s))
  | spurious_wakeup, _, PWaiting, _ => Some (publisher_step PWoken s)
  | wait_returns, _, PWoken, None => Some (publisher_step PLoad (set_mutex (Some Publisher) s))
  | load_value, _, PLoad, _ => Some (publisher_step PUnlock (set_notified (shared_value s) s))
  | publisher_unlock, _, PUnlock, _ => Some (publisher_step PPublish (set_mutex None s))
  | publish, _, PPublish, _ => Some (publisher_step PLock (note_published s))
  | _, _, _, _ => None
  end.

(** Both threads at the start of their loops. *)
Definition start (r0 : Z) : state := mkState r0 0 0 None MRead PLock 0 [] [].

(** The states of the runs with, or without, spurious wakeups. *)
Inductive reachable (spurious : bool) (r0 : Z) : state -> Prop :=
| reachable_start : reachable spurious r0 (start r0)
| reachable_step a s s' :
    reachable spurious r0 s -> (a = spurious_wakeup -> spurious = true) -> exec a s = Some s' ->
    reachable spurious r0 s'.

Fixpoint run (schedule : list action) (s : state) : option state :=
  match schedule with
  | [] => Some s
  | a :: schedule => match exec a s with Some s => run schedule s | None => None end
  end.

(** ** Mutual exclusion *)

(** A thread is between its lock and its unlock, and so has the mutex. *)
Definition modbus_inside (s : state) : bool :=
  match modbus_at s with MStore | MSignal | MUnlock => true | _ => false end.
Definition publisher_inside (s : state) : bool :=
  match publisher_at s with PHold | PLoad | PUnlock => true | _ => false end.

Definition mutex_ok (s : state) : Prop :=
  mutex s = if modbus_inside s then Some Modbus else if publisher_inside s then Some Publisher else None.

Definition exclusive (s : state) : Prop := modbus_inside s && publisher_inside s = false.

(** Case analysis on a step: the action, and the points of the threads it needs. *)
Ltac thread_cases s H :=
  destruct s as [plc0 regs sh mx mp pp un st pb]; destruct mp; cbn in H; try discriminate H;
  destruct pp; cbn in H; try discriminate H; destruct mx as [[]|]; cbn in H; try discriminate H;
  injection H as <-.
Ltac step_cases a s H := destruct a; thread_cases s H.

Lemma mutex_step a s s' :
  exec a s = Some s' -> mutex_ok s /\ exclusive s -> mutex_ok s' /\ exclusive s'.
Proof.
  intros H. unfold mutex_ok, exclusive, modbus_inside, publisher_inside. step_cases a s H; cbn; try done;
    intros [? ?]; try discriminate; try done.
Qed.

Lemma mutex_reachable spurious r0 s : reachable spurious r0 s -> mutex_ok s /\ exclusive s.
Proof. induction 1 as [|a s s' _ IH _ H]; [done|]. by eapply mutex_step. Qed.

(** Some thread can always move. *)
Lemma progress_ok s : mutex_ok s -> exclusive s -> exists a s', a ≠ spurious_wakeup /\ exec a s = Some s'.
Proof.
  unfold mutex_ok, exclusive, modbus_inside, publisher_inside. intros Hm Hx.
  assert (forall a s', exec a s = Some s' -> a ≠ spurious_wakeup -> exists a s', a ≠ spurious_wakeup /\ exec a s = Some s')
    as Hgo by eauto.
  destruct (modbus_at s) eqn:Em.
  - eapply (Hgo read_register); [cbn; rewrite ?Em|]; done.
  - destruct (publisher_at s) eqn:Ep; cbn in Hm;
      try (eapply (Hgo modbus_lock); [cbn; rewrite ?Em, ?Hm|]; done).
    + eapply (Hgo cond_wait); [cbn; rewrite ?Em, ?Ep|]; done.
    + eapply (Hgo load_value); [cbn; rewrite ?Em, ?Ep|]; done.
    + eapply (Hgo publisher_unlock); [cbn; rewrite ?Em, ?Ep|]; done.
  - eapply (Hgo store_value); [cbn; rewrite ?Em|]; done.
  - destruct (publisher_at s) eqn:Ep; (eapply (Hgo cond_signal); [cbn; rewrite ?Em, ?Ep|]; done).
  - eapply (Hgo modbus_unlock); [cbn; rewrite ?Em|]; done.
  - eapply (Hgo write_register); [cbn; rewrite ?Em|]; done.
Qed.

(** ** The order of the values *)

(** The values of [n] passes from the register [r0] on. *)
Definition counted_from (r0 : Z) (n : nat) : list Z := map (fun i => to_ushort (r0 + Z.of_nat i)) (seq 0 n).

#[local] Arguments counted_from : simpl never.

Lemma counted_from_S r0 n : counted_from r0 (S n) = counted_from r0 n ++ [to_ushort (r0 + Z.of_nat n)].
Proof. unfold counted_from. by rewrite seq_S, map_app. Qed.

(** What the publisher has taken, published or not yet. *)
Definition taken (s : state) : list Z :=
  published s ++ match publisher_at s with PUnlock | PPublish => [ulNotifiedValue s] | _ => [] end.

(** The register and the variable of the Modbus task after [n] values. *)
Definition counting (r0 : Z) (n : nat) (s : state) : Prop :=
  stored s = counted_from r0 n /\
  match modbus_at s with
  | MRead => plc s = to_ushort (r0 + Z.of_nat n)
  | MLock | MStore => r_regs s = to_ushort (r0 + Z.of_nat n)
  | MSignal | MUnlock | MWrite => exists k, n = S k /\ r_regs s = to_ushort (r0 + Z.of_nat k)
  end.

(** The values are taken from those stored so far; since the last one taken another was
    stored when the publisher has been woken. *)
Definition in_order (s : state) : Prop :=
  exists seen rest, stored s = seen ++ rest /\ taken s `sublist_of` seen /\
    (forall l v, stored s = l ++ [v] -> shared_value s = v) /\
    (modbus_at s = MSignal -> rest ≠ []) /\
    (publisher_at s = PWoken \/ publisher_at s = PLoad -> rest ≠ []).

Lemma counting_step a s s' r0 n :
  exec a s = Some s' -> counting r0 n s -> exists n', counting r0 n' s'.
Proof.
  intros H [Hst Hc]. destruct (decide (a = store_value)) as [->|Ha].
  - exists (S n). thread_cases s H; cbn in *; (split; cbn; [by rewrite counted_from_S, Hst, Hc|eauto]).
  - exists n. unfold counting. step_cases a s H; cbn in *; try done; (split; [done|]); try done.
    all: destruct Hc as (k & -> & ->); unfold to_ushort; rewrite Zplus_mod_idemp_l; f_equal; lia.
Qed.

Lemma in_order_load s seen rest :
  stored s = seen ++ rest -> taken s `sublist_of` seen -> (forall l v, stored s = l ++ [v] -> shared_value s = v) ->
  rest ≠ [] -> publisher_at s = PLoad -> (published s ++ [shared_value s]) `sublist_of` stored s.
Proof.
  intros Hst Hsub Hsh Hr Hp. destruct (exists_last Hr) as (l & v & ->).
  rewrite (Hsh (seen ++ l) v) by (by rewrite Hst, app_assoc). rewrite Hst.
  unfold taken in Hsub. rewrite Hp, app_nil_r in Hsub. apply sublist_app; [done|].
  apply sublist_inserts_l. done.
Qed.

Lemma in_order_step a s s' :
  a ≠ spurious_wakeup -> exec a s = Some s' -> mutex_ok s /\ exclusive s -> in_order s -> in_order s'.
Proof.
  intros Ha H [Hm Hx] (seen & rest & Hst & Hsub & Hsh & Hsig & Hrest).
  destruct (decide (a = store_value)) as [->|Hs]; [|destruct (decide (a = load_value)) as [->|Hl]].
  - exists seen, (rest ++ [r_regs s]). thread_cases s H; cbn in *; unfold taken in *; cbn in *;
      (split_and!; [by rewrite Hst, app_assoc|done| |by destruct rest..]; intros l v [_ <-]%app_inj_tail; done).
  - assert (publisher_at s = PLoad) as Hp by (cbn in H; by destruct (publisher_at s)).
    pose proof (in_order_load s seen rest Hst Hsub Hsh (Hrest (or_intror Hp)) Hp) as Hnew.
    exists (stored s), []. unfold mutex_ok, exclusive, modbus_inside, publisher_inside, taken in *.
    thread_cases s H; cbn in *; try discriminate; (split_and!; [by rewrite app_nil_r|done|done|done|intros [?|?]; done]).
  - exists seen, rest. unfold mutex_ok, exclusive, modbus_inside, publisher_inside, taken in *.
    step_cases a s H; cbn in *; try done; try discriminate;
      (split_and!; [done|done || (by rewrite app_nil_r in * ) |done|done|]; try done; try (intros [?|?]; discriminate); auto).
Qed.

Lemma order_reachable r0 s :
  0 <= r0 < 65536 -> reachable false r0 s -> (exists n, counting r0 n s) /\ in_order s.
Proof.
  intros Hr. induction 1 as [|a s s' Hreach [[n Hn] Ho] Hsp H].
  - split.
    + exists 0%nat. split; [done|]. cbn. unfold to_ushort. rewrite Z.add_0_r, Z.mod_small; lia.
    + exists [], []. split_and!; try done; [by intros [|]|intros [?|?]; done].
  - split; [by eapply counting_step|]. eapply in_order_step; [|done|by eapply mutex_reachable|done].
    intros ->. by specialize (Hsp eq_refl).
Qed.

(** ** Properties *)



(** ** The theorems at work *)

Lemma run_reachable spurious r0 schedule : forall s s',
  (spurious = true \/ spurious_wakeup ∉ schedule) -> reachable spurious r0 s -> run schedule s = Some s' ->
  reachable spurious r0 s'.
Proof.
  induction schedule as [|a schedule IH]; intros s s' Hsp Hs E; cbn in E; [by injection E as <-|].
  destruct (exec a s) as [s1|] eqn:Ea; [|done]. eapply IH; [| |exact E].
  - destruct Hsp; [by left|right; set_solver].
  - eapply reachable_step; [exact Hs| |exact Ea]. intros ->. destruct Hsp; [done|set_solver].
Qed.

(** A value read, handed over and published, and another one stored. *)
Definition one_value : list action :=
  [publisher_lock; cond_wait; read_register; modbus_lock; store_value; cond_signal; modbus_unlock;
   write_register; wait_returns; read_register; load_value; publisher_unlock; modbus_lock; store_value; publish].



(** ** Where the code departs from its contract *)

(** mqtt_pub_task does not check what it waits for: a spurious wakeup makes it publish 0
    before anything was read from the PLC. *)
Lemma spurious_wakeup_publishes :
  exists s, run [publisher_lock; cond_wait; spurious_wakeup; wait_returns; load_value; publisher_unlock; publish] (start 7) =
    Some s /\ published s = [0] /\ stored s = [].
Proof. eexists. split; [vm_compute; reflexivity|]. done. Qed.

(** A value signalled while the publisher does not wait is not published: the wait that
    follows waits for the next one. *)
Lemma value_not_published :
  exists s, run [read_register; modbus_lock; store_value; cond_signal; modbus_unlock; write_register;
                 publisher_lock; cond_wait] (start 7) = Some s /\
    stored s = [7] /\ publisher_at s = PWaiting /\ exec wait_returns s = None.
Proof. eexists. split; [vm_compute; reflexivity|]. done. Qed.
End Handover.
