(* ===== verification/Modbus.v ===== *)
(** * The Modbus task

    src/modbus_task.c: modbus_task as a sequential program over the TCP layer (Tcp.v)
    and nanoMODBUS, a submodule of the repository, which is the class [Nmbs].  A value is
    handed to the publisher in one step here; Handover.v has the steps inside. *)

From S2P Require Import Prelude Memory Wire Packet Timer Network Tcp Handover.

(** [modbus_task_config_t] *)
Record modbus_task_config_t : Type := mkModbusConfig { plc_ip : ptr; plc_port : ptr; plc_register : Z }.

Definition NMBS_ERROR_NONE : Z := 0.

(** What modbus_task calls of nanoMODBUS, over the state [L] of the library and the PLC
    behind it.  A read gives the error and the register if it was stored. *)
Class Nmbs (L : Type) : Type := {
  nmbs_client_create : M (Tcp.host * L) Z;
  nmbs_set_read_timeout : Z -> L -> L;
  nmbs_read_holding_registers : Z -> M (Tcp.host * L) (Z * option Z);
  nmbs_write_multiple_registers : Z -> Z -> M (Tcp.host * L) Z;
  nmbs_error_is_exception : Z -> bool
}.

Section task.
Context {L : Type} `{!Nmbs L}.

(** The TCP layer and the library, [shared_value], the values handed over, and the time
    slept in milliseconds. *)
Record modbus : Type := mkModbus {
  mb_lib : Tcp.host * L;
  mb_shared : Z;
  mb_signalled : list Z;
  mb_slept : Z
}.

Definition on_lib {A} (f : M (Tcp.host * L) A) : M modbus A := fun s =>
  match f (mb_lib s) with
  | Ret (a, l) => Ret (a, mkModbus l (mb_shared s) (mb_signalled s) (mb_slept s))
  | UB => UB
  | NoFuel => NoFuel
  end.

Definition on_tcp {A} (f : M Tcp.host A) : M modbus A := on_lib (fun '(h, l) =>
  match f h with
  | Ret (a, h) => Ret (a, (h, l))
  | UB => UB
  | NoFuel => NoFuel
  end).

(** [pthread_mutex_lock] to [pthread_mutex_unlock] *)
Definition share (v : Z) : M modbus unit := modify (fun s => mkModbus (mb_lib s) v (mb_signalled s ++ [v]) (mb_slept s)).

Definition sleep_for (ms : Z) : M modbus unit :=
  modify (fun s => mkModbus (mb_lib s) (mb_shared s) (mb_signalled s) (mb_slept s + ms)).

(** [disconnect(conn)], where [conn] is the address of [client_connection]. *)
Definition disconnect_conn : M modbus unit := on_tcp (h ← get; Tcp.disconnect (Tcp.client_connection h)).

(** The connection loop from [nAttemps] on: whether [conn] is not NULL. *)
Fixpoint tcp_attempts (fuel : nat) (nAttemps : Z) : M modbus bool :=
  match fuel with
  | O => nofuel
  | S fuel =>
      conn ← on_tcp Tcp.connect_tcp;
      if (conn : bool) then mret true
      else
        let nAttemps := nAttemps + 1 in
        if nAttemps <? 10 then tcp_attempts fuel nAttemps else mret false
  end.

(** The value of an array element that was not assigned. *)
Context (garbage : Z).

(** A pass of the loop of modbus_task: [err] where the loop tests it. *)
Definition modbus_pass (config : modbus_task_config_t) : M modbus Z :=
  '(err, r) ← on_lib (nmbs_read_holding_registers (to_ushort (plc_register config)));
  if negb (err =? NMBS_ERROR_NONE) && negb (nmbs_error_is_exception err) then disconnect_conn;; mret err
  else
    let r_regs := default garbage r in
    share r_regs;;
    let r_regs := to_ushort (r_regs + 1) in
    err ← on_lib (nmbs_write_multiple_registers (to_ushort (plc_register config)) r_regs);
    if negb (err =? NMBS_ERROR_NONE) && negb (nmbs_error_is_exception err) then disconnect_conn;; mret err
    else sleep_for 1000;; mret err.

(** [n] passes of the loop: whether it has ended. *)
Fixpoint modbus_passes (n : nat) (config : modbus_task_config_t) : M modbus bool :=
  match n with
  | O => mret false
  | S n =>
      err ← modbus_pass config;
      if err =? NMBS_ERROR_NONE then modbus_passes n config else mret true
  end.

(** modbus_task up to [n] passes of its loop: whether the thread has ended. *)
Definition modbus_task (config : option modbus_task_config_t) (n : nat) : M modbus bool :=
  match config with
  | None => mret true
  | Some config =>
      conn ← tcp_attempts 10 0;
      if negb (conn : bool) then mret true
      else
        err ← on_lib nmbs_client_create;
        if negb (err =? NMBS_ERROR_NONE) && negb (nmbs_error_is_exception err) then mret true
        else
          on_lib (fun '(h, l) => Ret (tt, (h, nmbs_set_read_timeout 1000 l)));;
          ended ← modbus_passes n config;
          if (ended : bool) then disconnect_conn;; mret true else mret false
  end.
End task.

(** What nanoMODBUS documents of its functions when the connection works and the PLC
    answers: a read stores the register and changes nothing, a write sets it. *)
Class NmbsLaws (L : Type) `{!Nmbs L} : Type := {
  register : L -> Z -> Z;
  working : Tcp.host * L -> Prop;
  create_law : forall s, working s -> exists s', nmbs_client_create s = Ret (NMBS_ERROR_NONE, s') /\ working s' /\
    register s'.2 = register s.2;
  timeout_law : forall h l ms, working (h, l) -> working (h, nmbs_set_read_timeout ms l) /\
    register (nmbs_set_read_timeout ms l) = register l;
  read_law : forall a s, working s -> exists s',
    nmbs_read_holding_registers a s = Ret ((NMBS_ERROR_NONE, Some (register s.2 a)), s') /\
    working s' /\ register s'.2 = register s.2;
  write_law : forall a v s, working s -> 0 <= v < 65536 -> exists s',
    nmbs_write_multiple_registers a v s = Ret (NMBS_ERROR_NONE, s') /\
    working s' /\ register s'.2 a = v
}.

(** ** Lemmas *)

Section lemmas.
Context {L : Type} `{!Nmbs L}.

Abbreviation modbus := (modbus (L := L)).

Lemma on_lib_run {A} (f : M (Tcp.host * L) A) (s : modbus) a l :
  f (mb_lib s) = Ret (a, l) -> on_lib f s = Ret (a, mkModbus l (mb_shared s) (mb_signalled s) (mb_slept s)).
Proof. intros E. unfold on_lib. by rewrite E. Qed.

Lemma on_tcp_run {A} (f : M Tcp.host A) (s : modbus) a h' :
  f (mb_lib s).1 = Ret (a, h') ->
  on_tcp f s = Ret (a, mkModbus (h', (mb_lib s).2) (mb_shared s) (mb_signalled s) (mb_slept s)).
Proof. intros E. apply on_lib_run. destruct (mb_lib s) as [h l]. cbn in *. by rewrite E. Qed.

(** The descriptors and the connection of a state. *)
Definition opened (s : modbus) : gset Z := Tcp.open (mb_lib s).1.
Definition connection (s : modbus) : Z := Tcp.client_connection (mb_lib s).1.

(** The connection loop ends after at most ten attempts, with one descriptor more or with
    none, and has handed nothing over. *)
Lemma tcp_attempts_run (s : modbus) : exists conn s', tcp_attempts 10 0 s = Ret (conn, s') /\
  mb_signalled s' = mb_signalled s /\ (mb_lib s').2 = (mb_lib s).2 /\ mb_slept s' = mb_slept s /\
  if (conn : bool) then (connection s' ∉ opened s) /\ opened s' = {[connection s']} ∪ opened s
  else opened s' = opened s.
Proof using Nmbs0.
  assert (forall fuel k (s : modbus), 10 - k <= Z.of_nat fuel -> k < 10 -> exists conn s', tcp_attempts fuel k s = Ret (conn, s') /\
    mb_signalled s' = mb_signalled s /\ (mb_lib s').2 = (mb_lib s).2 /\ mb_slept s' = mb_slept s /\
    if (conn : bool) then (connection s' ∉ opened s) /\ opened s' = {[connection s']} ∪ opened s
    else opened s' = opened s) as Hgen; [|by apply Hgen].
  induction fuel as [|fuel IH]; intros k s' Hf Hk; [lia|]. cbn [tcp_attempts].
  destruct (connect_tcp_run (mb_lib s').1) as (ok & h' & E & Hres).
  erewrite bind_ret by (apply on_tcp_run; exact E).
  destruct ok; [|destruct Hres as [Hopen _]; destruct (Z.ltb_spec (k + 1) 10)].
  - eexists _, _. split; [reflexivity|]. unfold connection, opened. cbn. tauto.
  - edestruct (IH (k + 1)) as (conn & s1 & E1 & H1 & H2 & H3 & H4); [lia|done|].
    exists conn, s1. split; [exact E1|]. split_and!; [exact H1|exact H2|exact H3|].
    unfold opened, connection in *. cbn in *. by rewrite Hopen in H4.
  - eexists _, _. split; [reflexivity|]. unfold opened. cbn. auto.
Qed.
End lemmas.

Section counting.
Context {L : Type} `{!Nmbs L} `{!NmbsLaws L}.
Context (garbage : Z) (config : modbus_task_config_t).

Abbreviation address := (to_ushort (plc_register config)).

(** A pass reads the register, hands it over and writes the next value. *)
Lemma modbus_pass_run (s : modbus (L := L)) :
  working (mb_lib s) ->
  let r := register (mb_lib s).2 address in
  exists s', modbus_pass garbage config s = Ret (NMBS_ERROR_NONE, s') /\ working (mb_lib s') /\
    mb_signalled s' = mb_signalled s ++ [r] /\ mb_slept s' = mb_slept s + 1000 /\
    register (mb_lib s').2 address = to_ushort (r + 1).
Proof using NmbsLaws0.
  intros Hw r. destruct (read_law address (mb_lib s) Hw) as (l1 & E1 & Hw1 & Hr1). fold r in E1.
  destruct (write_law address (to_ushort (r + 1)) l1 Hw1) as (l2 & E2 & Hw2 & Hr2); [conv_lia|].
  eexists. split.
  - unfold modbus_pass. erewrite bind_ret by (apply on_lib_run; exact E1). cbv iota beta.
    change (negb (NMBS_ERROR_NONE =? NMBS_ERROR_NONE)) with false. cbn [andb default]. cbv zeta.
    erewrite bind_ret by reflexivity. erewrite bind_ret by (apply on_lib_run; exact E2).
    change (negb (NMBS_ERROR_NONE =? NMBS_ERROR_NONE)) with false. cbn [andb].
    erewrite bind_ret by reflexivity. reflexivity.
  - done.
Qed.

Lemma modbus_passes_run n : forall (s : modbus (L := L)) r0,
  working (mb_lib s) -> 0 <= r0 < 65536 -> register (mb_lib s).2 address = r0 ->
  exists s', modbus_passes garbage n config s = Ret (false, s') /\
    mb_signalled s' = mb_signalled s ++ Handover.counted_from r0 n /\ mb_slept s' = mb_slept s + 1000 * Z.of_nat n /\
    register (mb_lib s').2 address = to_ushort (r0 + Z.of_nat n).
Proof using NmbsLaws0.
  induction n as [|n IH]; intros s r0 Hw Hr Hreg; cbn [modbus_passes].
  - exists s. split_and!; [done|by rewrite app_nil_r|lia|]. rewrite Hreg. conv_lia.
  - destruct (modbus_pass_run s Hw) as (s1 & E1 & Hw1 & Hs1 & Ht1 & Hr1). rewrite Hreg in *.
    destruct (IH s1 (to_ushort (r0 + 1))) as (s2 & E2 & Hs2 & Ht2 & Hr2); [done|conv_lia|done|].
    exists s2. split_and!.
    + erewrite bind_ret by exact E1. change (NMBS_ERROR_NONE =? NMBS_ERROR_NONE) with true. exact E2.
    + rewrite Hs2, Hs1, <- app_assoc. f_equal. unfold Handover.counted_from. cbn [seq map app].
      f_equal; [conv_lia|]. rewrite <- seq_shift, map_map. apply map_ext. intros i.
      unfold to_ushort. rewrite Zplus_mod_idemp_l. f_equal. lia.
    + lia.
    + rewrite Hr2. unfold to_ushort. rewrite Zplus_mod_idemp_l. f_equal. lia.
Qed.

(** ** Properties *)

(** C20: Modbus_task counts: when it has connected and the PLC answers, [n] passes of its
    loop hand over the register and the [n - 1] values after it, modulo 65536 and one per
    second, and leave the value after these in the PLC. *)
Theorem modbus_task_counts (s s1 : modbus (L := L)) n :
  tcp_attempts 10 0 s = Ret (true, s1) -> working (mb_lib s1) -> 0 <= register (mb_lib s1).2 address < 65536 ->
  let r0 := register (mb_lib s1).2 address in
  exists s', modbus_task garbage (Some config) n s = Ret (false, s') /\
    mb_signalled s' = mb_signalled s ++ Handover.counted_from r0 n /\
    mb_slept s' = mb_slept s + 1000 * Z.of_nat n /\
    register (mb_lib s').2 address = to_ushort (r0 + Z.of_nat n).
Proof using NmbsLaws0.
  intros E Hw Hr r0. destruct (tcp_attempts_run s) as (conn & s1' & E' & Hsig & _ & Hsl & _).
  rewrite E in E'. injection E' as <- <-.
  destruct (create_law (mb_lib s1) Hw) as ([h l] & E2 & Hw2 & Hr2).
  destruct (timeout_law h l 1000 Hw2) as [Hw3 Hr3]. cbn in Hr2.
  set (s3 := mkModbus (h, nmbs_set_read_timeout 1000 l) (mb_shared s1) (mb_signalled s1) (mb_slept s1)).
  destruct (modbus_passes_run n s3 r0) as (s' & E3 & Hs & Ht & Hreg); [done|done|cbn; by rewrite Hr3, Hr2|].
  exists s'. split_and!; [|by rewrite Hs; cbn; rewrite Hsig|by rewrite Ht; cbn; rewrite Hsl|done].
  unfold modbus_task. erewrite bind_ret by exact E. cbn [negb].
  erewrite bind_ret by (apply on_lib_run; exact E2).
  change (negb (NMBS_ERROR_NONE =? NMBS_ERROR_NONE)) with false. cbn [andb].
  erewrite bind_ret by (apply on_lib_run; reflexivity). cbn [mb_shared mb_signalled mb_slept]. fold s3.
  by erewrite bind_ret by exact E3.
Qed.
End counting.

(** ** The theorem at work *)

(** A PLC with one register that always answers, and one that refuses the call [bad] (0
    for the creation of the client, 1 for a read) with the error [err]. *)
Definition plc_instance (bad err : Z) : Nmbs Z := {|
  nmbs_client_create s := Ret (if bad =? 0 then err else NMBS_ERROR_NONE, s);
  nmbs_set_read_timeout _ l := l;
  nmbs_read_holding_registers _ s := Ret (if bad =? 1 then (err, None) else (NMBS_ERROR_NONE, Some s.2), s);
  nmbs_write_multiple_registers _ v s := Ret (NMBS_ERROR_NONE, (s.1, v));
  nmbs_error_is_exception e := (0 <? e) && (e <? 5)
|}.

Definition plc_laws : NmbsLaws Z (Nmbs0 := plc_instance 2 0).
Proof.
  refine {| register l _ := l; working _ := True : Prop |}.
  - intros s _. by exists s.
  - done.
  - intros a s _. by exists s.
  - intros a v s _ _. by eexists.
Defined.

(** Name resolved, one address, a socket, connected. *)
Definition modbus_start (oracle : list Z) (r : Z) : modbus :=
  mkModbus (Tcp.mkHost (-1) (-1) (-1) ∅ {[0; 1; 2]} oracle [] [] [], r) 0 [] 0.

Definition modbus_config : modbus_task_config_t := mkModbusConfig NULL NULL 40.

Lemma modbus_task_counts_witness :
  exists s', modbus_task (Nmbs0 := plc_instance 2 0) 9 (Some modbus_config) 3 (modbus_start [0; 1; 0; 0] 65534) =
      Ret (false, s') /\
    mb_signalled s' = [65534; 65535; 0] /\ mb_slept s' = 3000 /\ (mb_lib s').2 = 1.
Proof.
  destruct (modbus_task_counts (NmbsLaws0 := plc_laws) 9 modbus_config (modbus_start [0; 1; 0; 0] 65534)
    (mkModbus (Tcp.mkHost 3 (-1) (-1) ∅ ({[3]} ∪ {[0; 1; 2]}) [] [] [] [], 65534) 0 [] 0) 3) as (s' & E & H1 & H2 & H3).
  - vm_compute. reflexivity.
  - exact I.
  - vm_compute. split; congruence.
  - exists s'. split; [exact E|]. split; [rewrite H1; vm_compute; reflexivity|]. split; [rewrite H2; reflexivity|].
    exact H3.
Defined.

(** ** Where the code departs from its contract *)

(** After a transport error the connection is closed twice: in the pass, which goes on to
    the condition of the loop, and behind the loop.  A descriptor another thread opened in
    between is the same number, and is closed. *)
Lemma double_disconnect :
  let s := mkModbus (Tcp.mkHost 3 (-1) (-1) ∅ {[0; 1; 2; 3]} [1] [] [] [], 7) 0 [] 0 in
  exists s1 h, modbus_passes (Nmbs0 := plc_instance 1 (-1)) 9 1 modbus_config s = Ret (true, s1) /\
    Tcp.socket (mb_lib s1).1 = Ret (3, h) /\
    match (h ← get; Tcp.disconnect (Tcp.client_connection h)) h with
    | Ret (_, h') => 3 ∉ Tcp.open h'
    | _ => False
    end.
Proof.
  intros s. eexists _, _. split; [vm_compute; reflexivity|]. split; [vm_compute; reflexivity|].
  apply (bool_decide_unpack _). vm_compute. exact I.
Qed.

(** When the client cannot be created the thread ends with the connection open. *)
Lemma create_failure_leaks :
  exists s', modbus_task (Nmbs0 := plc_instance 0 (-1)) 9 (Some modbus_config) 3 (modbus_start [0; 1; 0; 0] 7) =
    Ret (true, s') /\ connection s' ∈ opened s'.
Proof. eexists. split; [vm_compute; reflexivity|]. apply (bool_decide_unpack _). vm_compute. exact I. Qed.

(** A read that the PLC answers with an exception hands over what was in the array: here
    9, with 7 in the register. *)
Lemma exception_hands_over_garbage :
  exists s', modbus_pass (Nmbs0 := plc_instance 1 2) 9 modbus_config (modbus_start [] 7) = Ret (NMBS_ERROR_NONE, s') /\
    mb_signalled s' = [9].
Proof. eexists. split; [vm_compute; reflexivity|]. reflexivity. Qed.
