(* ===== verification/Main.v ===== *)
(** * The command line and the start of the program

    src/main.c: the options, the check that all are set, the three threads, and the
    handler of SIGINT.  [getopt_long] is modelled as far as the program uses it: long
    options that take an argument, given as "--name value" or "--name=value" and possibly
    abbreviated, no short options, and arguments that are not options, which are passed
    over. *)

From Stdlib Require Import String.
From S2P Require Import Prelude Memory Wire Packet Timer Print.

(** A [char *] that is NULL, an argument of the command line, or whatever the variable
    held before. *)
Inductive text : Type :=
| Null
| Arg (s : list Z)
| Junk.

#[export] Instance text_eq_dec : EqDecision text.
Proof. solve_decision. Defined.

(** [config_t] *)
Record config_t : Type := mkConfig {
  ca_cert_file : text;
  client_cert_file : text;
  client_key_file : text;
  modbus_plc_ip : text;
  modbus_plc_port : text;
  modbus_plc_register : Z;
  mqtt_broker_ip : text;
  mqtt_broker_port : text;
  mqtt_device_name : text;
  mqtt_topic : text
}.

(** [long_opts]: the names and the characters that stand for them. *)
Definition long_opts : list (list Z * Z) :=
  [(str "ca-cert", 49); (str "client-cert", 50); (str "client-key", 51); (str "modbus-ip", 52);
   (str "modbus-port", 53); (str "modbus-register", 54); (str "mqtt-broker", 55); (str "mqtt-port", 56);
   (str "mqtt-device-name", 57); (str "mqtt-topic", 97)].

(** ** getopt_long *)

(** The name of an option and its value behind '='. *)
Fixpoint split_name (s : list Z) : list Z * option (list Z) :=
  match s with
  | [] => ([], None)
  | c :: s => if c =? 61 then ([], Some s) else let '(n, v) := split_name s in (c :: n, v)
  end.

Fixpoint is_prefix (a b : list Z) : bool :=
  match a, b with
  | [], _ => true
  | x :: a, y :: b => (x =? y) && is_prefix a b
  | _ :: _, [] => false
  end.

(** The option of that name, or the only one whose name starts with it. *)
Definition find_option (name : list Z) : option Z :=
  match filter (fun o : list Z * Z => name = o.1) long_opts with
  | o :: _ => Some o.2
  | [] => match List.filter (fun o : list Z * Z => is_prefix name o.1) long_opts with
          | [o] => Some o.2
          | _ => None
          end
  end.

Inductive getopt : Type :=
| Finished
| Found (opt : Z) (optarg : list Z) (rest : list (list Z))
| Unknown.

(** The next option of the arguments; '-' is 45. *)
Fixpoint getopt_long (args : list (list Z)) : getopt :=
  match args with
  | [] => Finished
  | a :: rest =>
      match a with
      | [45; 45] => Finished
      | 45 :: 45 :: a =>
          let '(name, value) := split_name a in
          match find_option name with
          | None => Unknown
          | Some opt =>
              match value, rest with
              | Some v, _ => Found opt v rest
              | None, v :: rest => Found opt v rest
              | None, [] => Unknown
              end
          end
      | 45 :: _ :: _ => Unknown
      | _ => getopt_long rest
      end
  end.

(** ** load_config_from_command_line_args *)

(** The switch: undefined when the register is not an [int]. *)
Definition assign (opt : Z) (optarg : list Z) (c : config_t) : outcome config_t :=
  let v := Arg optarg in
  let '(mkConfig ca cert key ip port reg broker bport device topic) := c in
  if opt =? 49 then Ret (mkConfig v cert key ip port reg broker bport device topic)
  else if opt =? 50 then Ret (mkConfig ca v key ip port reg broker bport device topic)
  else if opt =? 51 then Ret (mkConfig ca cert v ip port reg broker bport device topic)
  else if opt =? 52 then Ret (mkConfig ca cert key v port reg broker bport device topic)
  else if opt =? 53 then Ret (mkConfig ca cert key ip v reg broker bport device topic)
  else if opt =? 54 then
    match atoi optarg with
    | Some n => Ret (mkConfig ca cert key ip port n broker bport device topic)
    | None => UB
    end
  else if opt =? 55 then Ret (mkConfig ca cert key ip port reg v bport device topic)
  else if opt =? 56 then Ret (mkConfig ca cert key ip port reg broker v device topic)
  else if opt =? 57 then Ret (mkConfig ca cert key ip port reg broker bport v topic)
  else Ret (mkConfig ca cert key ip port reg broker bport device v).

(** The loop over the options; [None] is exit(EXIT_FAILURE).  Every pass takes an
    argument. *)
Fixpoint load_loop (fuel : nat) (args : list (list Z)) (c : config_t) : outcome (option config_t) :=
  match fuel with
  | O => NoFuel
  | S fuel =>
      match getopt_long args with
      | Finished => Ret (Some c)
      | Unknown => Ret None
      | Found opt optarg rest =>
          match assign opt optarg c with
          | Ret c => load_loop fuel rest c
          | UB => UB
          | NoFuel => NoFuel
          end
      end
  end.

Definition is_set (t : text) : bool := negb (bool_decide (t = Null)).

Definition all_set (c : config_t) : bool :=
  is_set (ca_cert_file c) && is_set (client_cert_file c) && is_set (client_key_file c) && is_set (modbus_plc_ip c) &&
  is_set (modbus_plc_port c) && truthy (modbus_plc_register c) && is_set (mqtt_broker_ip c) &&
  is_set (mqtt_broker_port c) && is_set (mqtt_device_name c) && is_set (mqtt_topic c).

Definition load_config_from_command_line_args (args : list (list Z)) (config : config_t) : outcome (option config_t) :=
  match load_loop (S (length args)) args config with
  | Ret (Some c) => Ret (if all_set c then Some c else None)
  | r => r
  end.

(** ** main *)

(** A thread with its configuration. *)
Inductive thread_start : Type :=
| modbus_thread (plc_ip plc_port : text) (plc_register : Z)
| mqtt_sub_thread (broker_ip broker_port device_name topic ca_cert client_cert client_key : text)
| mqtt_pub_thread (broker_ip broker_port device_name topic ca_cert client_cert client_key : text).

Definition modbus_thread_of (c : config_t) : thread_start :=
  modbus_thread (modbus_plc_ip c) (modbus_plc_port c) (to_uint (modbus_plc_register c)).
Definition mqtt_config_of {A} (start : text -> text -> text -> text -> text -> text -> text -> A) (c : config_t) : A :=
  start (mqtt_broker_ip c) (mqtt_broker_port c) (mqtt_device_name c) (mqtt_topic c) (ca_cert_file c)
    (client_cert_file c) (client_key_file c).

Definition EXIT_FAILURE : Z := 1.

(** [main] on what the stack held in [config] and the results of the calls of
    pthread_create: the threads started and the result. *)
Definition main (args : list (list Z)) (config : config_t) (r1 r2 r3 : Z) : outcome (Z * list thread_start) :=
  match load_config_from_command_line_args args config with
  | UB => UB
  | NoFuel => NoFuel
  | Ret None => Ret (EXIT_FAILURE, [])
  | Ret (Some c) =>
      if negb (r1 =? 0) then Ret (-1, [])
      else
        let t1 := modbus_thread_of c in
        if negb (r2 =? 0) then Ret (-1, [t1])
        else
          let t2 := mqtt_config_of mqtt_sub_thread c in
          if negb (r3 =? 0) then Ret (-1, [t1; t2])
          else Ret (0, [t1; t2; mqtt_config_of mqtt_pub_thread c])
  end.

(** ** Signals *)

Definition SIGINT : Z := 2.

(** [panic]: vsprintf of a text without conversions into [char buf[150]], which is printed,
    and the exit status. *)
Definition panic (fmt : list Z) : outcome (list Z * Z) :=
  if (150 <=? Z.of_nat (length fmt)) then UB else Ret (fmt, to_uchar (-1)).

(** What the handler prints and exits with, if it exits. *)
Definition signal_handler (sig : Z) : outcome (option (list Z * Z)) :=
  if sig =? SIGINT then
    match panic ([10] ++ str "Caught signal for Ctrl+C" ++ [10]) with
    | Ret r => Ret (Some r)
    | UB => UB
    | NoFuel => NoFuel
    end
  else Ret None.

(** The global [sigact], and the actions the system has installed, by signal. *)
Record sigaction_t : Type := mkSigaction {
  sa_handler : Z -> outcome (option (list Z * Z));
  sa_mask : gset Z;
  sa_flags : Z
}.

Definition signals : Type := sigaction_t * gmap Z sigaction_t.

Definition init_signals (s : signals) : signals :=
  let sigact := mkSigaction signal_handler ∅ 0 in (sigact, <[SIGINT := sigact]> s.2).

Definition cleanup (s : signals) : signals :=
  let '(sigact, installed) := s in (mkSigaction (sa_handler sigact) ∅ (sa_flags sigact), installed).

(** ** Lemmas *)

(** An option as it is given: its place in [long_opts], its value, and whether the two are
    one argument. *)
Record given : Type := mkGiven { g_option : list Z * Z; g_value : list Z; g_joined : bool }.

Definition render (g : given) : list (list Z) :=
  if g_joined g then [45 :: 45 :: (g_option g).1 ++ 61 :: g_value g]
  else [45 :: 45 :: (g_option g).1; g_value g].

(** The assignments in their order. *)
Fixpoint assign_all (gs : list given) (c : config_t) : outcome config_t :=
  match gs with
  | [] => Ret c
  | g :: gs =>
      match assign (g_option g).2 (g_value g) c with
      | Ret c => assign_all gs c
      | UB => UB
      | NoFuel => NoFuel
      end
  end.

Lemma split_name_joined n v : 61 ∉ n -> split_name (n ++ 61 :: v) = (n, Some v).
Proof.
  induction n as [|c n IH]; intros Hn; [done|]. apply not_elem_of_cons in Hn as [Hc Hn]. cbn [app split_name].
  rewrite (proj2 (Z.eqb_neq c 61)) by congruence. by rewrite IH.
Qed.

Lemma split_name_plain n : 61 ∉ n -> split_name n = (n, None).
Proof.
  induction n as [|c n IH]; intros Hn; [done|]. apply not_elem_of_cons in Hn as [Hc Hn]. cbn [split_name].
  rewrite (proj2 (Z.eqb_neq c 61)) by congruence. by rewrite IH.
Qed.

(** The names: without '=', not empty, each found. *)
Definition option_ok (o : list Z * Z) : bool :=
  bool_decide (find_option o.1 = Some o.2) && bool_decide (61 ∉ o.1) && match o.1 with [] => false | _ :: _ => true end.

Lemma long_opts_ok o :
  o ∈ long_opts -> find_option o.1 = Some o.2 /\ (61 ∉ o.1) /\ exists c n, o.1 = c :: n.
Proof.
  assert (Forall (fun o => option_ok o = true) long_opts) as H.
  { repeat (constructor; [vm_compute; reflexivity|]). constructor. }
  rewrite Forall_forall in H. intros Ho%H. unfold option_ok in Ho.
  apply andb_prop in Ho as [[H1%bool_decide_eq_true H2%bool_decide_eq_true]%andb_prop H3].
  split_and!; [done|done|]. destruct (o.1); [done|eauto].
Qed.

(** The first option given is the first one found. *)
Lemma getopt_long_render g rest :
  g_option g ∈ long_opts -> getopt_long (render g ++ rest) = Found (g_option g).2 (g_value g) rest.
Proof.
  intros Ho. destruct (long_opts_ok _ Ho) as (Hf & Heq & c & n & Hn). unfold render.
  destruct (g_joined g); cbn [app getopt_long].
  - rewrite split_name_joined, Hf by done. by rewrite Hn.
  - rewrite split_name_plain, Hf by done. by rewrite Hn.
Qed.

Lemma load_loop_render gs : forall c fuel,
  Forall (fun g => g_option g ∈ long_opts) gs -> (length (concat (map render gs)) < fuel)%nat ->
  load_loop fuel (concat (map render gs)) c =
  match assign_all gs c with Ret c => Ret (Some c) | UB => UB | NoFuel => NoFuel end.
Proof.
  induction gs as [|g gs IH]; intros c fuel Hgs Hf; (destruct fuel as [|fuel]; [cbn in Hf; lia|]); [done|].
  apply Forall_cons in Hgs as [Hg Hgs]. cbn [map concat load_loop assign_all].
  rewrite getopt_long_render by done. destruct (assign (g_option g).2 (g_value g) c) as [c'| |]; [|done..].
  apply IH; [done|]. cbn [map concat] in Hf. rewrite length_app in Hf. unfold render in Hf at 1.
  destruct (g_joined g); cbn in Hf; lia.
Qed.

(** The value an option has in the end: the last one given. *)
Fixpoint last_value (opt : Z) (gs : list given) : option (list Z) :=
  match gs with
  | [] => None
  | g :: gs =>
      match last_value opt gs with
      | Some v => Some v
      | None => if (g_option g).2 =? opt then Some (g_value g) else None
      end
  end.

Definition set_text (v : option (list Z)) (old : text) : text := match v with Some v => Arg v | None => old end.
Definition set_number (v : option (list Z)) (old : Z) : Z := match v with Some v => default 0 (atoi v) | None => old end.

(** The configuration after the options. *)
Definition configured (gs : list given) (c : config_t) : config_t :=
  mkConfig (set_text (last_value 49 gs) (ca_cert_file c)) (set_text (last_value 50 gs) (client_cert_file c))
    (set_text (last_value 51 gs) (client_key_file c)) (set_text (last_value 52 gs) (modbus_plc_ip c))
    (set_text (last_value 53 gs) (modbus_plc_port c)) (set_number (last_value 54 gs) (modbus_plc_register c))
    (set_text (last_value 55 gs) (mqtt_broker_ip c)) (set_text (last_value 56 gs) (mqtt_broker_port c))
    (set_text (last_value 57 gs) (mqtt_device_name c)) (set_text (last_value 97 gs) (mqtt_topic c)).

(** An option of the program, and a register that is an [int]. *)
Definition given_ok (g : given) : Prop :=
  g_option g ∈ long_opts /\ ((g_option g).2 = 54 -> is_Some (atoi (g_value g))).

Lemma assign_run g c : given_ok g -> assign (g_option g).2 (g_value g) c = Ret (configured [g] c).
Proof.
  destruct g as [o v j], c as [f1 f2 f3 f4 f5 f6 f7 f8 f9 f10]. intros [Ho Hreg]. cbn [g_option g_value] in *.
  unfold long_opts in Ho. repeat (apply elem_of_cons in Ho as [->|Ho]); [..|by apply elem_of_nil in Ho]; try reflexivity.
  destruct (Hreg eq_refl) as [n Hn]. unfold configured, assign. cbn -[atoi str]. rewrite Hn. reflexivity.
Qed.

Lemma configured_cons g gs c : configured gs (configured [g] c) = configured (g :: gs) c.
Proof.
  unfold configured. cbn.
  assert (forall k x, set_text (last_value k gs) (set_text (if (g_option g).2 =? k then Some (g_value g) else None) x) =
    set_text (match last_value k gs with Some v => Some v | None => if (g_option g).2 =? k then Some (g_value g) else None end) x)
    as H by (intros k x; by destruct (last_value k gs)).
  rewrite !H. f_equal. by destruct (last_value 54 gs).
Qed.

Lemma assign_all_run gs : forall c, Forall given_ok gs -> assign_all gs c = Ret (configured gs c).
Proof.
  induction gs as [|g gs IH]; intros c Hgs; [by destruct c|]. apply Forall_cons in Hgs as [Hg Hgs].
  cbn [assign_all]. by rewrite assign_run, IH, configured_cons.
Qed.

(** The loop takes an argument in every pass: it always ends. *)
Lemma getopt_long_shorter args : forall opt optarg rest,
  getopt_long args = Found opt optarg rest -> (length rest < length args)%nat.
Proof.
  induction args as [|a args IH]; intros opt optarg rest E; [done|]. cbn [getopt_long] in E. cbn [length].
  assert (getopt_long args = Found opt optarg rest -> (length rest < S (length args))%nat) as Hskip.
  { intros H%IH. lia. }
  repeat (case_match; simplify_eq; auto); cbn; lia.
Qed.

Lemma load_loop_total fuel : forall args c, (length args < fuel)%nat -> load_loop fuel args c ≠ NoFuel.
Proof.
  induction fuel as [|fuel IH]; intros args c Hf; [lia|]. cbn [load_loop].
  destruct (getopt_long args) as [|opt optarg rest|] eqn:E; [done| |done]. apply getopt_long_shorter in E.
  assert (assign opt optarg c ≠ NoFuel) by (destruct c; unfold assign; by repeat case_match).
  destruct (assign opt optarg c); [|done..]. apply IH. lia.
Qed.

Lemma load_config_total args c : load_config_from_command_line_args args c ≠ NoFuel.
Proof.
  unfold load_config_from_command_line_args. pose proof (load_loop_total (S (length args)) args c ltac:(lia)).
  by destruct (load_loop _ args c) as [[c'|]| |].
Qed.

(** ** Properties *)

(** C21: Main hands every task the options of the command line: the ten options, in any
    order, joined with their values or not, the last one counting when one is repeated,
    and with a register other than 0, make it start the Modbus task, the subscriber and
    the publisher in this order with exactly these values, whatever was on the stack; it
    stops at the first thread that cannot be created. *)
Theorem main_starts_tasks gs junk r1 r2 r3 ca cert key ip port reg register broker bport device topic :
  Forall given_ok gs ->
  map (fun o : list Z * Z => last_value o.2 gs) long_opts =
    map Some [ca; cert; key; ip; port; reg; broker; bport; device; topic] ->
  atoi reg = Some register -> register ≠ 0 ->
  let threads :=
    [modbus_thread (Arg ip) (Arg port) (to_uint register);
     mqtt_sub_thread (Arg broker) (Arg bport) (Arg device) (Arg topic) (Arg ca) (Arg cert) (Arg key);
     mqtt_pub_thread (Arg broker) (Arg bport) (Arg device) (Arg topic) (Arg ca) (Arg cert) (Arg key)] in
  main (concat (map render gs)) junk r1 r2 r3 =
  Ret (if r1 =? 0 then if r2 =? 0 then if r3 =? 0 then (0, threads) else (-1, take 2 threads)
                       else (-1, take 1 threads)
       else (-1, [])).
Proof.
  intros Hgs Hlast Hreg Hne threads. unfold main, load_config_from_command_line_args.
  rewrite load_loop_render, assign_all_run by (done || lia || by eapply Forall_impl; [exact Hgs|intros g [? _]]).
  unfold long_opts in Hlast. cbn [map snd] in Hlast. injection Hlast as E1 E2 E3 E4 E5 E6 E7 E8 E9 E10.
  assert (configured gs junk = mkConfig (Arg ca) (Arg cert) (Arg key) (Arg ip) (Arg port) register (Arg broker)
    (Arg bport) (Arg device) (Arg topic)) as ->.
  { unfold configured. rewrite E1, E2, E3, E4, E5, E6, E7, E8, E9, E10. cbn. by rewrite Hreg. }
  unfold all_set. cbn [ca_cert_file client_cert_file client_key_file modbus_plc_ip modbus_plc_port modbus_plc_register
    mqtt_broker_ip mqtt_broker_port mqtt_device_name mqtt_topic]. unfold is_set, truthy.
  rewrite (proj2 (Z.eqb_neq _ _) Hne), !bool_decide_eq_false_2 by done. cbn [negb andb].
  destruct (r1 =? 0), (r2 =? 0), (r3 =? 0); reflexivity.
Qed.

(** SIGINT: the text fits the buffer, and the program ends with status 255; the
    exit handler that then runs leaves the installed action as it is. *)
Lemma sigint_exits s :
  exists act, (init_signals s).2 !! SIGINT = Some act /\
    sa_handler act SIGINT = Ret (Some ([10] ++ str "Caught signal for Ctrl+C" ++ [10], 255)) /\
    cleanup (init_signals s) = init_signals s.
Proof. eexists. split; [apply lookup_insert_eq|by split]. Qed.

(** ** The theorem at work *)

Definition opt_at (k : nat) (v : list Z) (joined : bool) : given := mkGiven (nth k long_opts ([], 0)) v joined.

(** The register in front, the broker given twice. *)
Definition example_options (register : list Z) : list given :=
  [opt_at 5 register false; opt_at 6 (str "b1") true; opt_at 0 (str "ca") false; opt_at 1 (str "cert") true;
   opt_at 2 (str "key") false; opt_at 3 (str "10.0.0.7") true; opt_at 4 (str "502") false; opt_at 6 (str "b2") false;
   opt_at 7 (str "8883") true; opt_at 8 (str "plc") false; opt_at 9 (str "a/b") true].

Definition stack_junk : config_t := mkConfig Junk Junk Null Junk Null 77 Junk Null Junk Null.

Lemma example_given register : is_Some (atoi register) -> Forall given_ok (example_options register).
Proof.
  intros Hr. repeat (constructor; [split; [apply (bool_decide_unpack _); vm_compute; exact I|]; try done; try discriminate|]).
  constructor.
Qed.

Lemma main_starts_tasks_witness :
  main (concat (map render (example_options (str "40")))) stack_junk 0 0 11 =
  Ret (-1, [modbus_thread (Arg (str "10.0.0.7")) (Arg (str "502")) 40;
            mqtt_sub_thread (Arg (str "b2")) (Arg (str "8883")) (Arg (str "plc")) (Arg (str "a/b")) (Arg (str "ca"))
              (Arg (str "cert")) (Arg (str "key"))]).
Proof.
  refine (main_starts_tasks (example_options (str "40")) stack_junk 0 0 11 (str "ca") (str "cert") (str "key")
    (str "10.0.0.7") (str "502") (str "40") 40 (str "b2") (str "8883") (str "plc") (str "a/b") _ _ _ _).
  - apply example_given. eexists. reflexivity.
  - vm_compute. reflexivity.
  - reflexivity.
  - discriminate.
Defined.

(** ** Where the code departs from its contract *)

(** [config] is not initialised: with what happens to be on the stack an empty command
    line passes the check. *)
Lemma missing_options_accepted :
  let junk := mkConfig Junk Junk Junk Junk Junk 77 Junk Junk Junk Junk in
  load_config_from_command_line_args [] junk = Ret (Some junk).
Proof. reflexivity. Qed.

(** The register 0, a valid address, counts as missing. *)
Lemma register_0_refused :
  load_config_from_command_line_args (concat (map render (example_options (str "0")))) stack_junk = Ret None.
Proof. vm_compute. reflexivity. Qed.
