(* ===== verification/ConstTime.v ===== *)
(** * Constant-time primitives of the TLS library

    The functions of include/internal/constant_time.h of the vendored OpenSSL:
    comparisons that yield a mask of ones or zeros, the selections by such a
    mask, the conditional exchanges and the table look-up that touches every
    row.  They are written with shifts, subtractions and boolean operations on
    machine words; the theorems say that, at each width, they compute the
    comparison, the choice, the exchange and the look-up they are named after.

    [unsigned int] and [uint32_t] are 32-bit words, [size_t], [uint64_t] and
    [BN_ULONG] are 64-bit words, [int] is converted to and from its 32-bit
    word.  [value_barrier] returns its argument (the empty assembly constrains
    the compiler, not the value).  The two objects [a] and [b] of an exchange
    of words are passed and returned as a pair. *)

From S2P Require Import Prelude Memory.

(** ** Definitions *)

(** [~a] of a word. *)
Definition uint_not (a : Z) : Z := to_uint (Z.lnot a).
Definition size_not (a : Z) : Z := to_size (Z.lnot a).

Definition constant_time_msb (a : Z) : Z := to_uint (0 - Z.shiftr a (4 * 8 - 1)).

Definition constant_time_msb_32 (a : Z) : Z := to_uint (0 - Z.shiftr a 31).

Definition constant_time_msb_64 (a : Z) : Z := to_size (0 - Z.shiftr a 63).

Definition constant_time_msb_s (a : Z) : Z := to_size (0 - Z.shiftr a (8 * 8 - 1)).

Definition constant_time_lt (a b : Z) : Z :=
  constant_time_msb (Z.lxor a (Z.lor (Z.lxor a b) (Z.lxor (to_uint (a - b)) b))).

Definition constant_time_lt_s (a b : Z) : Z :=
  constant_time_msb_s (Z.lxor a (Z.lor (Z.lxor a b) (Z.lxor (to_size (a - b)) b))).

Definition constant_time_lt_8 (a b : Z) : Z := to_uchar (constant_time_lt a b).

Definition constant_time_lt_64 (a b : Z) : Z :=
  constant_time_msb_64 (Z.lxor a (Z.lor (Z.lxor a b) (Z.lxor (to_size (a - b)) b))).

Definition constant_time_msb_bn (a : Z) : Z := to_size (0 - Z.shiftr a (8 * 8 - 1)).

Definition constant_time_lt_bn (a b : Z) : Z :=
  constant_time_msb_bn (Z.lxor a (Z.lor (Z.lxor a b) (Z.lxor (to_size (a - b)) b))).

Definition constant_time_is_zero_bn (a : Z) : Z :=
  constant_time_msb_bn (Z.land (size_not a) (to_size (a - 1))).

Definition constant_time_eq_bn (a b : Z) : Z := constant_time_is_zero_bn (Z.lxor a b).

Definition constant_time_ge (a b : Z) : Z := uint_not (constant_time_lt a b).

Definition constant_time_ge_s (a b : Z) : Z := size_not (constant_time_lt_s a b).

Definition constant_time_ge_8 (a b : Z) : Z := to_uchar (constant_time_ge a b).

Definition constant_time_ge_8_s (a b : Z) : Z := to_uchar (constant_time_ge_s a b).

Definition constant_time_is_zero (a : Z) : Z :=
  constant_time_msb (Z.land (uint_not a) (to_uint (a - 1))).

Definition constant_time_is_zero_s (a : Z) : Z :=
  constant_time_msb_s (Z.land (size_not a) (to_size (a - 1))).

Definition constant_time_is_zero_8 (a : Z) : Z := to_uchar (constant_time_is_zero a).

Definition constant_time_is_zero_32 (a : Z) : Z :=
  constant_time_msb_32 (Z.land (uint_not a) (to_uint (a - 1))).

Definition constant_time_is_zero_64 (a : Z) : Z :=
  constant_time_msb_64 (Z.land (size_not a) (to_size (a - 1))).

Definition constant_time_eq (a b : Z) : Z := constant_time_is_zero (Z.lxor a b).

Definition constant_time_eq_s (a b : Z) : Z := constant_time_is_zero_s (Z.lxor a b).

Definition constant_time_eq_8 (a b : Z) : Z := to_uchar (constant_time_eq a b).

Definition constant_time_eq_8_s (a b : Z) : Z := to_uchar (constant_time_eq_s a b).

Definition constant_time_eq_int (a b : Z) : Z := constant_time_eq (to_uint a) (to_uint b).

Definition constant_time_eq_int_8 (a b : Z) : Z := constant_time_eq_8 (to_uint a) (to_uint b).

Definition value_barrier (a : Z) : Z := a.

Definition value_barrier_32 (a : Z) : Z := a.

Definition value_barrier_64 (a : Z) : Z := a.

Definition value_barrier_s (a : Z) : Z := a.

Definition constant_time_select (mask a b : Z) : Z :=
  Z.lor (Z.land (value_barrier mask) a) (Z.land (value_barrier (uint_not mask)) b).

Definition constant_time_select_s (mask a b : Z) : Z :=
  Z.lor (Z.land (value_barrier_s mask) a) (Z.land (value_barrier_s (size_not mask)) b).

Definition constant_time_select_8 (mask a b : Z) : Z := to_uchar (constant_time_select mask a b).

Definition constant_time_select_int (mask a b : Z) : Z :=
  to_int (constant_time_select mask (to_uint a) (to_uint b)).

Definition constant_time_select_int_s (mask a b : Z) : Z :=
  to_int (constant_time_select (to_uint mask) (to_uint a) (to_uint b)).

Definition constant_time_select_32 (mask a b : Z) : Z :=
  Z.lor (Z.land (value_barrier_32 mask) a) (Z.land (value_barrier_32 (uint_not mask)) b).

Definition constant_time_select_64 (mask a b : Z) : Z :=
  Z.lor (Z.land (value_barrier_64 mask) a) (Z.land (value_barrier_64 (size_not mask)) b).

Definition constant_time_cond_swap_32 (mask a b : Z) : Z * Z :=
  let x := Z.land (Z.lxor a b) mask in (Z.lxor a x, Z.lxor b x).

Definition constant_time_cond_swap_64 (mask a b : Z) : Z * Z :=
  let x := Z.land (Z.lxor a b) mask in (Z.lxor a x, Z.lxor b x).

(** The loop, with the [n] iterations left from index [i] on. *)
Fixpoint cond_swap_buff_loop (mask : Z) (a b : ptr) (n : nat) (i : Z) : M mem unit :=
  match n with
  | O => mret tt
  | S n' =>
      va ← load (padd a i); vb ← load (padd b i);
      let tmp := Z.land (Z.lxor va vb) mask in
      va ← load (padd a i); store (padd a i) (Z.lxor va tmp);;
      vb ← load (padd b i); store (padd b i) (Z.lxor vb tmp);;
      cond_swap_buff_loop mask a b n' (i + 1)
  end.

Definition constant_time_cond_swap_buff (mask : Z) (a b : ptr) (len : Z) : M mem unit :=
  cond_swap_buff_loop mask a b (Z.to_nat len) 0.

(** The inner loop: one row, from [outc + j] on, with [n] octets left; it
    returns [tablec]. *)
Fixpoint lookup_row (mask : Z) (n : nat) (outc tablec : ptr) : M mem ptr :=
  match n with
  | O => mret tablec
  | S n' =>
      v ← load tablec; o ← load outc;
      store outc (Z.lor o (constant_time_select_8 mask v 0));;
      lookup_row mask n' (padd outc 1) (padd tablec 1)
  end.

(** The outer loop, with [n] rows left. *)
Fixpoint lookup_rows (rowsize : Z) (n : nat) (outc tablec : ptr) (idx : Z) : M mem unit :=
  match n with
  | O => mret tt
  | S n' =>
      let mask := to_uchar (constant_time_is_zero_s idx) in
      tablec ← lookup_row mask (Z.to_nat rowsize) outc tablec;
      lookup_rows rowsize n' outc tablec (to_size (idx - 1))
  end.

Definition constant_time_lookup (out table : ptr) (rowsize numrows idx : Z) : M mem unit :=
  memset out 0 rowsize;;
  lookup_rows rowsize (Z.to_nat numrows) out table idx.

(** ** Specification *)

(** A mask of [w] ones or zeros. *)
Definition mask_of (w : Z) (b : bool) : Z := if b then Z.ones w else 0.

(** ** Lemmas *)

(** The top bit of a word of [w] bits. *)
Definition top (w a : Z) : bool := Z.testbit a (w - 1).

Section words.
Context (w : Z) (Hw : 0 < w).

Lemma pow_top : 2 ^ w = 2 * 2 ^ (w - 1) /\ 0 < 2 ^ (w - 1).
Proof using Hw.
  split; [|apply Z.pow_pos_nonneg; lia].
  rewrite <- Z.pow_succ_r by lia. f_equal. lia.
Qed.

Lemma top_spec a : 0 <= a < 2 ^ w -> top w a = (2 ^ (w - 1) <=? a).
Proof using Hw.
  intros Ha. destruct pow_top as [E Hp]. unfold top.
  rewrite Z.testbit_odd, Z.shiftr_div_pow2 by lia.
  destruct (Z.leb_spec (2 ^ (w - 1)) a).
  - replace (a / 2 ^ (w - 1)) with 1; [done|]. apply Z.div_unique with (a - 2 ^ (w - 1)); lia.
  - by rewrite Z.div_small by lia.
Qed.

(** The most significant bit copied to all the others. *)
Lemma msb_mask a :
  0 <= a < 2 ^ w -> (0 - Z.shiftr a (w - 1)) mod 2 ^ w = mask_of w (top w a).
Proof using Hw.
  intros Ha. destruct pow_top as [E Hp].
  rewrite top_spec, Z.shiftr_div_pow2 by lia. unfold mask_of. rewrite Z.ones_equiv.
  destruct (Z.leb_spec (2 ^ (w - 1)) a).
  - replace (a / 2 ^ (w - 1)) with 1
      by (apply Z.div_unique with (a - 2 ^ (w - 1)); lia).
    symmetry. apply Z.mod_unique_pos with (-1); lia.
  - rewrite Z.div_small by lia. by rewrite Z.mod_0_l by lia.
Qed.

Lemma word_bits a : 0 <= a < 2 ^ w <-> 0 <= a /\ forall i, w <= i -> Z.testbit a i = false.
Proof using Hw.
  split.
  - intros Ha. split; [lia|]. intros i Hi. destruct (Z.eq_dec a 0) as [->|]; [apply Z.bits_0|].
    apply Z.bits_above_log2; [lia|].
    assert (Z.log2 a < w); [|lia]. apply Z.log2_lt_pow2; lia.
  - intros [H0 Hb]. split; [done|]. destruct (Z.eq_dec a 0) as [->|]; [apply Z.pow_pos_nonneg; lia|].
    apply Z.log2_lt_pow2; [lia|]. destruct (Z.lt_ge_cases (Z.log2 a) w) as [|Hge]; [done|].
    specialize (Hb _ Hge). rewrite Z.bit_log2 in Hb by lia. done.
Qed.

Lemma lxor_word a b : 0 <= a < 2 ^ w -> 0 <= b < 2 ^ w -> 0 <= Z.lxor a b < 2 ^ w.
Proof using Hw.
  rewrite !word_bits. intros [Ha Ha'] [Hb Hb']. split; [by apply Z.lxor_nonneg|].
  intros i Hi. by rewrite Z.lxor_spec, Ha', Hb'.
Qed.

Lemma lor_word a b : 0 <= a < 2 ^ w -> 0 <= b < 2 ^ w -> 0 <= Z.lor a b < 2 ^ w.
Proof using Hw.
  rewrite !word_bits. intros [Ha Ha'] [Hb Hb']. split; [by apply Z.lor_nonneg|].
  intros i Hi. by rewrite Z.lor_spec, Ha', Hb'.
Qed.

Lemma land_word a b : 0 <= a < 2 ^ w -> 0 <= b -> 0 <= Z.land a b < 2 ^ w.
Proof using Hw.
  rewrite !word_bits. intros [Ha Ha'] Hb. split; [apply Z.land_nonneg; by left|].
  intros i Hi. by rewrite Z.land_spec, Ha'.
Qed.

Lemma mod_word a : 0 <= a mod 2 ^ w < 2 ^ w.
Proof using Hw. apply Z.mod_pos_bound, Z.pow_pos_nonneg; lia. Qed.

Lemma not_word a : 0 <= a < 2 ^ w -> Z.lnot a mod 2 ^ w = 2 ^ w - 1 - a.
Proof using Hw.
  intros. unfold Z.lnot.
  symmetry. apply Z.mod_unique_pos with (-1); lia.
Qed.

Lemma lt_top a b :
  0 <= a < 2 ^ w -> 0 <= b < 2 ^ w ->
  top w (Z.lxor a (Z.lor (Z.lxor a b) (Z.lxor ((a - b) mod 2 ^ w) b))) = (a <? b).
Proof using Hw.
  intros Ha Hb. destruct pow_top as [E Hp]. pose proof (mod_word (a - b)) as Hd.
  assert ((a - b) mod 2 ^ w = if a <? b then a - b + 2 ^ w else a - b) as Ed.
  { destruct (Z.ltb_spec a b); symmetry;
      [apply Z.mod_unique_pos with (-1)|apply Z.mod_unique_pos with 0]; lia. }
  unfold top. rewrite Z.lxor_spec, Z.lor_spec, !Z.lxor_spec.
  fold (top w a) (top w b) (top w ((a - b) mod 2 ^ w)).
  rewrite !top_spec by done. rewrite Ed in *.
  destruct (Z.ltb_spec a b);
    repeat match goal with |- context [?x <=? ?y] => destruct (Z.leb_spec x y) end;
    first [done | exfalso; lia].
Qed.

Lemma is_zero_top a :
  0 <= a < 2 ^ w -> top w (Z.land (Z.lnot a mod 2 ^ w) ((a - 1) mod 2 ^ w)) = (a =? 0).
Proof using Hw.
  intros Ha. destruct pow_top as [E Hp].
  pose proof (mod_word (Z.lnot a)). pose proof (mod_word (a - 1)).
  assert ((a - 1) mod 2 ^ w = if a =? 0 then 2 ^ w - 1 else a - 1) as Ed.
  { destruct (Z.eqb_spec a 0); symmetry;
      [apply Z.mod_unique_pos with (-1)|apply Z.mod_unique_pos with 0]; lia. }
  unfold top. rewrite Z.land_spec.
  fold (top w (Z.lnot a mod 2 ^ w)) (top w ((a - 1) mod 2 ^ w)).
  rewrite !top_spec by done. rewrite Ed in *. rewrite not_word in * by done.
  destruct (Z.eqb_spec a 0); lia.
Qed.

Lemma mask_word b : 0 <= mask_of w b < 2 ^ w.
Proof using Hw. destruct pow_top. unfold mask_of. rewrite Z.ones_equiv. destruct b; lia. Qed.

Lemma not_mask b : Z.lnot (mask_of w b) mod 2 ^ w = mask_of w (negb b).
Proof using Hw.
  rewrite not_word by apply mask_word. unfold mask_of. rewrite Z.ones_equiv. destruct b; simpl; lia.
Qed.

Lemma land_mask b a : 0 <= a < 2 ^ w -> Z.land (mask_of w b) a = if b then a else 0.
Proof using Hw.
  intros. destruct b; simpl; [|apply Z.land_0_l].
  rewrite Z.land_comm, Z.land_ones by lia. by apply Z.mod_small.
Qed.

(** A word chosen by a mask. *)
Lemma select_mask b x y :
  0 <= x < 2 ^ w -> 0 <= y < 2 ^ w ->
  Z.lor (Z.land (mask_of w b) x) (Z.land (Z.lnot (mask_of w b) mod 2 ^ w) y) = if b then x else y.
Proof using Hw.
  intros. rewrite not_mask, !land_mask by done. destruct b; simpl; [apply Z.lor_0_r|done].
Qed.

Lemma swap_mask b x y :
  0 <= x < 2 ^ w -> 0 <= y < 2 ^ w ->
  (Z.lxor x (Z.land (Z.lxor x y) (mask_of w b)), Z.lxor y (Z.land (Z.lxor x y) (mask_of w b)))
  = if b then (y, x) else (x, y).
Proof using Hw.
  intros. rewrite Z.land_comm, land_mask by by apply lxor_word.
  destruct b; [|by rewrite !Z.lxor_0_r]. f_equal.
  - by rewrite <- Z.lxor_assoc, Z.lxor_nilpotent, Z.lxor_0_l.
  - by rewrite (Z.lxor_comm x y), <- Z.lxor_assoc, Z.lxor_nilpotent, Z.lxor_0_l.
Qed.
End words.

(** The conversions as reductions modulo a power of two. *)
Lemma to_uint_pow z : to_uint z = z mod 2 ^ 32.
Proof. done. Qed.

Lemma to_size_pow z : to_size z = z mod 2 ^ 64.
Proof. done. Qed.

(** A 32- or 64-bit mask converted to [unsigned char]. *)
Lemma mask_narrow w b : 8 <= w -> to_uchar (mask_of w b) = mask_of 8 b.
Proof.
  intros. unfold to_uchar. change 256 with (2 ^ 8). rewrite <- Z.land_ones by lia.
  unfold mask_of. destruct b; [|done].
  bitwise. destruct (Z.ltb_spec i 8), (Z.ltb_spec i w); simpl; try lia; done.
Qed.

Ltac words :=
  repeat first [apply lxor_word | apply lor_word | apply land_word | apply mod_word]; try lia.

(** The word with its top bit copied, at the two widths. *)
Lemma uint_msb a : 0 <= a < 2 ^ 32 -> constant_time_msb a = mask_of 32 (top 32 a).
Proof.
  intros. unfold constant_time_msb. rewrite to_uint_pow.
  change (4 * 8 - 1) with (32 - 1). apply msb_mask; lia.
Qed.

Lemma size_msb a : 0 <= a < 2 ^ 64 -> constant_time_msb_s a = mask_of 64 (top 64 a).
Proof.
  intros. unfold constant_time_msb_s. rewrite to_size_pow.
  change (8 * 8 - 1) with (64 - 1). apply msb_mask; lia.
Qed.

Lemma constant_time_msb_mask a :
  0 <= a < 2 ^ 32 -> constant_time_msb a = mask_of 32 (2 ^ 31 <=? a).
Proof. intros. rewrite uint_msb, top_spec by lia. by change (32 - 1) with 31. Qed.

Lemma constant_time_msb_s_mask a :
  0 <= a < 2 ^ 64 -> constant_time_msb_s a = mask_of 64 (2 ^ 63 <=? a).
Proof. intros. rewrite size_msb, top_spec by lia. by change (64 - 1) with 63. Qed.

Lemma constant_time_lt_mask a b :
  0 <= a < 2 ^ 32 -> 0 <= b < 2 ^ 32 -> constant_time_lt a b = mask_of 32 (a <? b).
Proof.
  intros. unfold constant_time_lt. rewrite to_uint_pow, uint_msb by words. by rewrite lt_top by lia.
Qed.

Lemma constant_time_lt_s_mask a b :
  0 <= a < 2 ^ 64 -> 0 <= b < 2 ^ 64 -> constant_time_lt_s a b = mask_of 64 (a <? b).
Proof.
  intros. unfold constant_time_lt_s. rewrite to_size_pow, size_msb by words. by rewrite lt_top by lia.
Qed.

Lemma constant_time_ge_mask a b :
  0 <= a < 2 ^ 32 -> 0 <= b < 2 ^ 32 -> constant_time_ge a b = mask_of 32 (b <=? a).
Proof.
  intros. unfold constant_time_ge, uint_not.
  rewrite constant_time_lt_mask, to_uint_pow, not_mask by lia. f_equal. lia.
Qed.

Lemma constant_time_ge_s_mask a b :
  0 <= a < 2 ^ 64 -> 0 <= b < 2 ^ 64 -> constant_time_ge_s a b = mask_of 64 (b <=? a).
Proof.
  intros. unfold constant_time_ge_s, size_not.
  rewrite constant_time_lt_s_mask, to_size_pow, not_mask by lia. f_equal. lia.
Qed.

Lemma constant_time_is_zero_mask a :
  0 <= a < 2 ^ 32 -> constant_time_is_zero a = mask_of 32 (a =? 0).
Proof.
  intros. unfold constant_time_is_zero, uint_not. rewrite !to_uint_pow, uint_msb.
  - by rewrite is_zero_top by lia.
  - apply land_word; [lia|apply mod_word; lia|apply mod_word; lia].
Qed.

Lemma constant_time_is_zero_s_mask a :
  0 <= a < 2 ^ 64 -> constant_time_is_zero_s a = mask_of 64 (a =? 0).
Proof.
  intros. unfold constant_time_is_zero_s, size_not. rewrite !to_size_pow, size_msb.
  - by rewrite is_zero_top by lia.
  - apply land_word; [lia|apply mod_word; lia|apply mod_word; lia].
Qed.

Lemma lxor_eqb a b : (Z.lxor a b =? 0) = (a =? b).
Proof. apply eq_true_iff_eq. rewrite !Z.eqb_eq. apply Z.lxor_eq_0_iff. Qed.

Lemma constant_time_eq_mask a b :
  0 <= a < 2 ^ 32 -> 0 <= b < 2 ^ 32 -> constant_time_eq a b = mask_of 32 (a =? b).
Proof.
  intros. unfold constant_time_eq. rewrite constant_time_is_zero_mask by words. by rewrite lxor_eqb.
Qed.

Lemma constant_time_eq_s_mask a b :
  0 <= a < 2 ^ 64 -> 0 <= b < 2 ^ 64 -> constant_time_eq_s a b = mask_of 64 (a =? b).
Proof.
  intros. unfold constant_time_eq_s. rewrite constant_time_is_zero_s_mask by words. by rewrite lxor_eqb.
Qed.

Lemma to_uint_eqb a b : is_int a = true -> is_int b = true -> (to_uint a =? to_uint b) = (a =? b).
Proof.
  rewrite !is_int_spec. unfold INT_MIN, INT_MAX, to_uint. intros. apply eq_true_iff_eq.
  rewrite !Z.eqb_eq. Z.div_mod_to_equations. lia.
Qed.

Lemma to_int_to_uint a : is_int a = true -> to_int (to_uint a) = a.
Proof.
  rewrite is_int_spec. unfold INT_MIN, INT_MAX, to_uint, to_int. intros.
  Z.div_mod_to_equations. lia.
Qed.

Lemma to_uint_word a : 0 <= to_uint a < 2 ^ 32.
Proof. by apply Z.mod_pos_bound. Qed.

Lemma constant_time_select_mask c x y :
  0 <= x < 2 ^ 32 -> 0 <= y < 2 ^ 32 ->
  constant_time_select (mask_of 32 c) x y = if c then x else y.
Proof.
  intros. unfold constant_time_select, uint_not. rewrite to_uint_pow. apply select_mask; lia.
Qed.

(** The 8-bit selection takes an 8-bit mask, which is not a mask of
    [unsigned int]: the upper bits of its complement are ones, and the upper
    bits of the operands zeros. *)
Lemma constant_time_select_8_mask c x y :
  is_byte x -> is_byte y -> constant_time_select_8 (mask_of 8 c) x y = if c then x else y.
Proof.
  intros Hx Hy. unfold constant_time_select_8, constant_time_select, value_barrier, uint_not.
  assert (Z.land (to_uint (Z.lnot (mask_of 8 c))) y = if c then 0 else y) as ->.
  { destruct c; cbn [mask_of].
    - rewrite <- (Z.mod_small y (2 ^ 8)) by (unfold is_byte in Hy; lia).
      rewrite <- Z.land_ones by lia. rewrite (Z.land_comm y), Z.land_assoc. apply Z.land_0_l.
    - rewrite Z.land_comm. change (to_uint (Z.lnot 0)) with (Z.ones 32).
      rewrite Z.land_ones by lia. apply Z.mod_small. unfold is_byte in Hy. lia. }
  rewrite (land_mask 8) by (unfold is_byte in Hx; lia).
  destruct c; rewrite ?Z.lor_0_r, ?Z.lor_0_l; by apply to_uchar_id.
Qed.

Lemma constant_time_select_s_mask c x y :
  0 <= x < 2 ^ 64 -> 0 <= y < 2 ^ 64 ->
  constant_time_select_s (mask_of 64 c) x y = if c then x else y.
Proof.
  intros. unfold constant_time_select_s, size_not. rewrite to_size_pow. apply select_mask; lia.
Qed.

(** *** Loops over memory *)

Lemma lor_byte x y : is_byte x -> is_byte y -> is_byte (Z.lor x y).
Proof. apply (lor_word 8). lia. Qed.

Lemma lxor_byte x y : is_byte x -> is_byte y -> is_byte (Z.lxor x y).
Proof. apply (lxor_word 8). lia. Qed.

Lemma in_block_padd p n b : in_block (padd p n) b <-> in_block p b.
Proof. by destruct p. Qed.

(** One row is added to the output when the mask is set. *)
Lemma lookup_row_run b c vs : forall m out table os,
  Forall is_byte vs -> Forall is_byte os -> length os = length vs ->
  bytes_at m out os -> bytes_at m table vs -> in_block out b -> ~ in_block table b ->
  lookup_row (mask_of 8 c) (length vs) out table m =
    Ret (padd table (Z.of_nat (length vs)), mwrite m out (if c then zip_with Z.lor os vs else os)).
Proof.
  induction vs as [|v vs IH]; intros m out table [|o os] Hvs Hos Hlen Hout Htab Hb Hnb;
    try discriminate Hlen.
  - cbn [length lookup_row]. rewrite padd_0. by destruct c; rewrite mwrite_nil.
  - cbn [length lookup_row]. inversion Hvs; inversion Hos; subst. cbn [length] in Hlen.
    rewrite (bind_ret _ _ _ _ _ (load_at _ _ _ _ Htab)), (bind_ret _ _ _ _ _ (load_at _ _ _ _ Hout)).
    pose proof (bytes_at_room _ _ _ Hout) as Hr. cbn [length] in Hr.
    rewrite constant_time_select_8_mask by (done || (unfold is_byte; lia)).
    erewrite bind_ret by (apply store_room; eapply room_le; [done|lia]).
    rewrite to_uchar_id by (destruct c; [by apply lor_byte|by rewrite Z.lor_0_r]).
    rewrite (IH _ _ _ os); [|try done; try lia..].
    + rewrite padd_padd, mwrite_cons; [|destruct c; rewrite ?length_zip_with; eapply room_le; [done|lia|done|lia]].
      do 3 f_equal; [lia|]. destruct c; [done|]. by rewrite Z.lor_0_r.
    + by eapply bytes_at_mwrite_after.
    + apply bytes_at_cons in Htab as [_ ?].
      eapply bytes_at_mwrite_ne; [done|by rewrite in_block_padd|done].
    + by rewrite in_block_padd.
    + by rewrite in_block_padd.
Qed.

(** The rows from the current one on: the one [idx] rows ahead is added. *)
Lemma lookup_rows_run b rs rows : forall m out table acc idx,
  Forall (fun r => length r = rs /\ Forall is_byte r) rows ->
  Z.of_nat (length rows) <= 2 ^ 64 -> 0 <= idx < 2 ^ 64 ->
  length acc = rs -> Forall is_byte acc ->
  bytes_at m out acc -> bytes_at m table (concat rows) -> in_block out b -> ~ in_block table b ->
  lookup_rows (Z.of_nat rs) (length rows) out table idx m =
    Ret (tt, mwrite m out (match rows !! Z.to_nat idx with Some r => zip_with Z.lor acc r | None => acc end)).
Proof.
  induction rows as [|r rows IH]; intros m out table acc idx Hrows Hn Hidx Hacc Hba Hout Htab Hb Hnb.
  - cbn [length lookup_rows]. by rewrite lookup_nil, mwrite_same.
  - inversion Hrows as [|?? [Hr Hbr] Hrows']; subst. cbn [length lookup_rows concat] in *.
    apply bytes_at_app in Htab as [Htab1 Htab2].
    rewrite constant_time_is_zero_s_mask, mask_narrow, Nat2Z.id by lia.
    pose proof (lookup_row_run b (idx =? 0) r m out table acc Hbr Hba (eq_sym Hr) Hout Htab1 Hb Hnb) as E.
    rewrite Hr in E, Htab2. rewrite (bind_ret _ _ _ _ _ E).
    destruct (Z.eqb_spec idx 0) as [->|Hne].
    + assert (length (zip_with Z.lor acc r) = length acc) as Hz by (rewrite length_zip_with; lia).
      assert (bytes_at (mwrite m out (zip_with Z.lor acc r)) out (zip_with Z.lor acc r)) as Hw.
      { apply bytes_at_mwrite_eq. rewrite Hz. by apply bytes_at_room. }
      rewrite (IH _ _ _ (zip_with Z.lor acc r)); try done; try lia.
      * cbn [lookup list_lookup]. rewrite lookup_ge_None_2; [by rewrite mwrite_same|].
        unfold to_size. change ((0 - 1) mod 18446744073709551616) with 18446744073709551615. lia.
      * clear -Hba Hbr. revert r Hbr. induction Hba; intros [|y r] Hbr; simpl; try done.
        inversion Hbr; subst. constructor; [by apply lor_byte|by apply IHHba].
      * eapply bytes_at_mwrite_ne; [done|by rewrite in_block_padd|done].
      * by rewrite in_block_padd.
    + rewrite mwrite_same by done. rewrite to_size_id by lia.
      rewrite (IH _ _ _ acc); try done; try lia; [|by rewrite in_block_padd].
      replace (Z.to_nat idx) with (S (Z.to_nat (idx - 1))) by lia. done.
Qed.

Lemma zip_with_lor_0 r : zip_with Z.lor (replicate (length r) 0) r = r.
Proof. induction r as [|v r IH]; [done|]. simpl. by rewrite IH. Qed.

(** One iteration of the exchange. *)
Lemma cond_swap_buff_step c m pa pb ba bb x y xs ys n i (a b : ptr) :
  is_byte x -> is_byte y -> padd a i = pa -> padd b i = pb ->
  in_block pa ba -> in_block pb bb -> ba <> bb ->
  bytes_at m pa (x :: xs) -> bytes_at m pb (y :: ys) ->
  cond_swap_buff_loop (mask_of 8 c) a b (S n) i m =
  cond_swap_buff_loop (mask_of 8 c) a b n (i + 1)
    (if c then mwrite (mwrite m pa [y]) pb [x] else m).
Proof.
  intros Hx Hy <- <- Hia Hib Hne Ha Hb. cbn [cond_swap_buff_loop].
  pose proof (bytes_at_room _ _ _ Ha) as Hra. pose proof (bytes_at_room _ _ _ Hb) as Hrb.
  cbn [length] in Hra, Hrb.
  assert (~ in_block (padd b i) ba) as Hnb by (destruct b; cbn in *; congruence).
  pose proof (f_equal fst (swap_mask 8 ltac:(lia) c x y Hx Hy)) as E1.
  pose proof (f_equal snd (swap_mask 8 ltac:(lia) c x y Hx Hy)) as E2. cbn [fst snd] in E1, E2.
  rewrite (bind_ret _ _ _ _ _ (load_at _ _ _ _ Ha)), (bind_ret _ _ _ _ _ (load_at _ _ _ _ Hb)).
  rewrite (bind_ret _ _ _ _ _ (load_at _ _ _ _ Ha)).
  erewrite bind_ret by (apply store_room; eapply room_le; [done|lia]).
  erewrite bind_ret by (eapply load_at, bytes_at_mwrite_ne; [exact Hia|done|done]).
  erewrite bind_ret.
  2: { apply store_room. apply room_mwrite; [|lia|]; eapply room_le; [done|cbn; lia|done|lia]. }
  rewrite E1, E2. destruct c; cbn [fst snd]; rewrite !to_uchar_id by done; [done|].
  do 2 f_equal. apply bytes_at_cons in Ha as [Ha _]. apply bytes_at_cons in Hb as [Hb _].
  by rewrite (mwrite_same m), mwrite_same.
Qed.

(** The exchange of the octets from index [i] on. *)
Lemma cond_swap_buff_run ba bb c xs : forall m oa ob ys i,
  Forall is_byte xs -> Forall is_byte ys -> length xs = length ys -> ba <> bb ->
  bytes_at m (Ptr ba (oa + i)) xs -> bytes_at m (Ptr bb (ob + i)) ys ->
  cond_swap_buff_loop (mask_of 8 c) (Ptr ba oa) (Ptr bb ob) (length xs) i m =
    Ret (tt, if c then mwrite (mwrite m (Ptr ba (oa + i)) ys) (Ptr bb (ob + i)) xs else m).
Proof.
  induction xs as [|x xs IH]; intros m oa ob [|y ys] i Hxs Hys Hlen Hne Ha Hb; try discriminate Hlen.
  - cbn [length cond_swap_buff_loop]. by destruct c; rewrite ?mwrite_nil.
  - inversion Hxs; inversion Hys; subst. cbn [length].
    rewrite (cond_swap_buff_step c m (Ptr ba (oa + i)) (Ptr bb (ob + i)) ba bb x y xs ys) by done.
    pose proof (bytes_at_room _ _ _ Ha) as Hra. pose proof (bytes_at_room _ _ _ Hb) as Hrb.
    cbn [length] in Hra, Hrb. injection Hlen as Hlen.
    assert (forall o j, o + (j + 1) = o + j + 1) as Hoj by lia.
    apply bytes_at_cons in Ha as Ha'. apply bytes_at_cons in Hb as Hb'.
    rewrite (IH _ _ _ ys); [|try done..].
    + destruct c; [|done]. do 2 f_equal. rewrite !Hoj.
      rewrite (mwrite_comm _ bb (ob + i) [x]) by done.
      change (Ptr ba (oa + i + 1)) with (padd (Ptr ba (oa + i)) 1).
      rewrite (mwrite_cons m (Ptr ba (oa + i))) by (eapply room_le; [done|lia]).
      apply (mwrite_cons _ (Ptr bb (ob + i)) x xs).
      apply room_mwrite; [eapply room_le; [done|cbn [length]; lia]|lia|].
      eapply room_le; [done|lia].
    + rewrite Hoj. destruct c; [|apply Ha'].
      apply (bytes_at_mwrite_ne _ _ _ _ _ bb); [done|cbn; congruence|].
      by apply (bytes_at_mwrite_after m (Ptr ba (oa + i)) x y xs).
    + rewrite Hoj. destruct c; [|apply Hb'].
      apply (bytes_at_mwrite_after _ (Ptr bb (ob + i)) y x ys).
      by apply (bytes_at_mwrite_ne _ _ _ _ _ ba); [|cbn; congruence|].
Qed.

(** The functions on [uint64_t], [BN_ULONG] and [uint32_t] compute what those
    on [size_t] and [unsigned int] compute. *)
Lemma msb_32_uint a : constant_time_msb_32 a = constant_time_msb a.
Proof. unfold constant_time_msb_32, constant_time_msb. by change (4 * 8 - 1) with 31. Qed.

Lemma msb_64_size a : constant_time_msb_64 a = constant_time_msb_s a.
Proof. unfold constant_time_msb_64, constant_time_msb_s. by change (8 * 8 - 1) with 63. Qed.

Lemma is_zero_32_uint a : constant_time_is_zero_32 a = constant_time_is_zero a.
Proof. apply msb_32_uint. Qed.

Lemma is_zero_64_size a : constant_time_is_zero_64 a = constant_time_is_zero_s a.
Proof. apply msb_64_size. Qed.

Lemma lt_64_size a b : constant_time_lt_64 a b = constant_time_lt_s a b.
Proof. apply msb_64_size. Qed.

(** ** Theorems *)

(** C31: Every comparison of constant_time.h yields the mask of ones when the
    comparison of the unsigned words holds and zero when it does not: the most
    significant bit, less than, greater or equal, zero and equal, at 32 bits
    ([unsigned int], [uint32_t]) and at 64 bits ([size_t], [uint64_t],
    [BN_ULONG]), and reduced to an 8-bit mask where the function does so. *)
Theorem constant_time_comparisons a b s t :
  0 <= a < 2 ^ 32 -> 0 <= b < 2 ^ 32 -> 0 <= s < 2 ^ 64 -> 0 <= t < 2 ^ 64 ->
  (constant_time_msb a = mask_of 32 (2 ^ 31 <=? a) /\
   constant_time_msb_32 a = mask_of 32 (2 ^ 31 <=? a) /\
   constant_time_lt a b = mask_of 32 (a <? b) /\ constant_time_lt_8 a b = mask_of 8 (a <? b) /\
   constant_time_ge a b = mask_of 32 (b <=? a) /\ constant_time_ge_8 a b = mask_of 8 (b <=? a) /\
   constant_time_is_zero a = mask_of 32 (a =? 0) /\ constant_time_is_zero_8 a = mask_of 8 (a =? 0) /\
   constant_time_is_zero_32 a = mask_of 32 (a =? 0) /\
   constant_time_eq a b = mask_of 32 (a =? b) /\ constant_time_eq_8 a b = mask_of 8 (a =? b)) /\
  (constant_time_msb_s s = mask_of 64 (2 ^ 63 <=? s) /\
   constant_time_msb_64 s = mask_of 64 (2 ^ 63 <=? s) /\
   constant_time_msb_bn s = mask_of 64 (2 ^ 63 <=? s) /\
   constant_time_lt_s s t = mask_of 64 (s <? t) /\ constant_time_lt_64 s t = mask_of 64 (s <? t) /\
   constant_time_lt_bn s t = mask_of 64 (s <? t) /\
   constant_time_ge_s s t = mask_of 64 (t <=? s) /\ constant_time_ge_8_s s t = mask_of 8 (t <=? s) /\
   constant_time_is_zero_s s = mask_of 64 (s =? 0) /\ constant_time_is_zero_64 s = mask_of 64 (s =? 0) /\
   constant_time_is_zero_bn s = mask_of 64 (s =? 0) /\
   constant_time_eq_s s t = mask_of 64 (s =? t) /\ constant_time_eq_8_s s t = mask_of 8 (s =? t) /\
   constant_time_eq_bn s t = mask_of 64 (s =? t)).
Proof.
  intros. unfold constant_time_lt_8, constant_time_ge_8, constant_time_is_zero_8, constant_time_eq_8.
  unfold constant_time_ge_8_s, constant_time_eq_8_s.
  change (constant_time_msb_bn s) with (constant_time_msb_s s).
  change (constant_time_lt_bn s t) with (constant_time_lt_s s t).
  change (constant_time_is_zero_bn s) with (constant_time_is_zero_s s).
  change (constant_time_eq_bn s t) with (constant_time_eq_s s t).
  rewrite (msb_32_uint a), (msb_64_size s), (is_zero_32_uint a), (is_zero_64_size s), (lt_64_size s t).
  rewrite constant_time_msb_mask, constant_time_lt_mask, constant_time_ge_mask,
    constant_time_is_zero_mask, constant_time_eq_mask by done.
  rewrite constant_time_msb_s_mask, constant_time_lt_s_mask, constant_time_ge_s_mask,
    constant_time_is_zero_s_mask, constant_time_eq_s_mask by done.
  rewrite !mask_narrow by lia. tauto.
Qed.

Lemma constant_time_comparisons_witness :
  constant_time_lt 3 2147483648 = 4294967295 /\ constant_time_eq_bn 5 18446744073709551615 = 0.
Proof.
  destruct (constant_time_comparisons 3 2147483648 5 18446744073709551615)
    as ((_ & _ & H1 & _) & H2); [lia..|].
  split; [rewrite H1; reflexivity|]. destruct H2 as (_&_&_&_&_&_&_&_&_&_&_&_&_& ->). reflexivity.
Defined.

(** Selecting and exchanging by a mask of a comparison chooses by its result,
    for words, octets and signed integers. *)
Theorem constant_time_choices c a b s t i j x y :
  0 <= a < 2 ^ 32 -> 0 <= b < 2 ^ 32 -> 0 <= s < 2 ^ 64 -> 0 <= t < 2 ^ 64 ->
  is_int i = true -> is_int j = true -> is_byte x -> is_byte y ->
  constant_time_select (mask_of 32 c) a b = (if c then a else b) /\
  constant_time_select_32 (mask_of 32 c) a b = (if c then a else b) /\
  constant_time_select_s (mask_of 64 c) s t = (if c then s else t) /\
  constant_time_select_64 (mask_of 64 c) s t = (if c then s else t) /\
  constant_time_select_8 (mask_of 8 c) x y = (if c then x else y) /\
  constant_time_select_int (mask_of 32 c) i j = (if c then i else j) /\
  constant_time_select_int_s (mask_of 64 c) i j = (if c then i else j) /\
  constant_time_eq_int i j = mask_of 32 (i =? j) /\
  constant_time_eq_int_8 i j = mask_of 8 (i =? j) /\
  constant_time_cond_swap_32 (mask_of 32 c) a b = (if c then (b, a) else (a, b)) /\
  constant_time_cond_swap_64 (mask_of 64 c) s t = (if c then (t, s) else (s, t)).
Proof.
  intros Ha Hb Hs Ht Hi Hj Hx Hy.
  pose proof (to_uint_word i). pose proof (to_uint_word j).
  change (constant_time_select_32 (mask_of 32 c) a b) with (constant_time_select (mask_of 32 c) a b).
  change (constant_time_select_64 (mask_of 64 c) s t) with (constant_time_select_s (mask_of 64 c) s t).
  unfold constant_time_select_int, constant_time_select_int_s, constant_time_eq_int,
    constant_time_eq_int_8, constant_time_eq_8, constant_time_cond_swap_32, constant_time_cond_swap_64.
  replace (to_uint (mask_of 64 c)) with (mask_of 32 c) by by destruct c.
  rewrite !constant_time_select_mask, constant_time_select_s_mask, constant_time_select_8_mask by done.
  rewrite constant_time_eq_mask, to_uint_eqb, mask_narrow by (done || lia).
  rewrite !swap_mask by (done || lia).
  repeat split; destruct c; by apply to_int_to_uint.
Qed.

(** The example of the header's comment: the smaller of two words. *)
Lemma constant_time_min a b :
  0 <= a < 2 ^ 32 -> 0 <= b < 2 ^ 32 ->
  constant_time_select (constant_time_lt a b) a b = Z.min a b.
Proof.
  intros. rewrite constant_time_lt_mask, constant_time_select_mask by done.
  destruct (Z.ltb_spec a b); lia.
Qed.

(** Two buffers are exchanged when the mask is set and left as they are when
    it is not. *)
Theorem constant_time_cond_swap_buff_spec c m ba oa bb ob xs ys :
  ba <> bb -> length xs = length ys -> Forall is_byte xs -> Forall is_byte ys ->
  bytes_at m (Ptr ba oa) xs -> bytes_at m (Ptr bb ob) ys ->
  constant_time_cond_swap_buff (mask_of 8 c) (Ptr ba oa) (Ptr bb ob) (Z.of_nat (length xs)) m =
    Ret (tt, if c then mwrite (mwrite m (Ptr ba oa) ys) (Ptr bb ob) xs else m).
Proof.
  intros. unfold constant_time_cond_swap_buff. rewrite Nat2Z.id.
  rewrite (cond_swap_buff_run _ _ _ _ _ _ _ ys) by (done || by rewrite Z.add_0_r). by rewrite !Z.add_0_r.
Qed.

(** Constant_time_lookup copies the row whose number is [idx] to [out] and
    clears [out] when there is no such row; it reads every row of the table and
    writes nothing but the [rowsize] octets of [out], also where the counter
    [idx] wraps around below zero. *)
Theorem constant_time_lookup_spec m b o table rows rowsize idx :
  Forall (fun r => length r = rowsize /\ Forall is_byte r) rows ->
  Z.of_nat rowsize < 2 ^ 64 -> Z.of_nat (length rows) < 2 ^ 64 -> 0 <= idx < 2 ^ 64 ->
  room m (Ptr b o) (Z.of_nat rowsize) -> bytes_at m table (concat rows) -> ~ in_block table b ->
  constant_time_lookup (Ptr b o) table (Z.of_nat rowsize) (Z.of_nat (length rows)) idx m =
    Ret (tt, mwrite m (Ptr b o) (default (replicate rowsize 0) (rows !! Z.to_nat idx))).
Proof.
  intros Hrows Hrs Hn Hidx Hroom Htab Hnb. unfold constant_time_lookup, memset.
  rewrite to_size_id, !Nat2Z.id by lia. change (to_uchar 0) with 0.
  assert (room m (Ptr b o) (Z.of_nat (length (replicate rowsize 0)))) as Hr by by rewrite length_replicate.
  erewrite bind_ret by by apply store_bytes_room.
  rewrite (lookup_rows_run b rowsize rows _ _ _ (replicate rowsize 0)); try done; try lia.
  - do 2 f_equal.
    assert (forall bs, length bs = rowsize ->
      mwrite (mwrite m (Ptr b o) (replicate rowsize 0)) (Ptr b o) bs = mwrite m (Ptr b o) bs) as Hover.
    { intros bs Hbs. apply mwrite_over; [done|by rewrite length_replicate]. }
    destruct (rows !! Z.to_nat idx) as [r|] eqn:Er; cbn [from_option id]; [|by rewrite Hover by apply length_replicate].
    destruct (Forall_lookup_1 _ _ _ _ Hrows Er) as [Hlen _].
    assert (zip_with Z.lor (replicate rowsize 0) r = r) as -> by by (rewrite <- Hlen; apply zip_with_lor_0).
    by rewrite Hover.
  - apply length_replicate.
  - apply Forall_replicate. unfold is_byte. lia.
  - by apply bytes_at_mwrite_eq.
  - by apply (bytes_at_mwrite_ne _ _ _ _ _ b).
Qed.

Lemma constant_time_lookup_spec_witness :
  let m : mem := {[ 1%positive := [9; 9; 9]; 2%positive := [1; 2; 3; 4; 5; 6] ]} in
  constant_time_lookup (Ptr 1 1) (Ptr 2 0) 2 3 1 m = Ret (tt, mwrite m (Ptr 1 1) [3; 4]).
Proof.
  intros m.
  apply (constant_time_lookup_spec m 1 1 (Ptr 2 0) [[1; 2]; [3; 4]; [5; 6]] 2 1);
    [|lia|cbn; lia|lia| | |cbn; discriminate].
  - repeat constructor; unfold is_byte; lia.
  - exists [9; 9]. split; [reflexivity|cbn; lia].
  - by exists [].
Defined.
