(* ===== verification/Heap.v ===== *)
(** * The heap of the TLS library

    The allocation functions of crypto/mem.c of the vendored OpenSSL over those
    of the C library: an allocation gives a new object or fails, as the class
    [Allocator] answers; the octets of a new object are the allocator's.  A
    reallocation always moves the object, which is the case a caller has to be
    prepared for.  The program installs no allocation functions of its own and
    does not initialise the secure heap, so that the functions for secure memory
    are those of the ordinary heap.  The counters of calls are left out.

    The lemmas give the run of each function on a live object. *)

From S2P Require Import Prelude Memory.

(** ** The C library *)

(** Whether an allocation succeeds, and what a new object of [n] octets holds. *)
Class Allocator : Type := {
  alloc_ok : mem -> Z -> bool;
  alloc_bytes : Z -> list Z
}.

(** The object has the size that was asked for. *)
Class AllocatorLaws {AL : Allocator} : Prop := {
  alloc_bytes_length n : 0 <= n -> length (alloc_bytes n) = Z.to_nat n;
  alloc_bytes_octets n : Forall is_byte (alloc_bytes n)
}.

(** An allocator that never fails and clears its objects. *)
#[export] Instance calloc_allocator : Allocator :=
  {| alloc_ok _ _ := true; alloc_bytes n := replicate (Z.to_nat n) 0 |}.

#[export] Instance calloc_laws : AllocatorLaws.
Proof.
  split; intros n; [intros; apply length_replicate|].
  cbn. apply Forall_forall. intros x [-> _]%elem_of_replicate. done.
Qed.

Section heap.
Context {AL : Allocator}.

Definition malloc (n : Z) : M mem ptr := fun m =>
  if alloc_ok m n
  then let b := fresh (dom m) in Ret (Ptr b 0, <[b := alloc_bytes n]> m)
  else Ret (NULL, m).

Definition free (p : ptr) : M mem unit := fun m =>
  match p with
  | NULL => Ret (tt, m)
  | Ptr b 0 => match m !! b with Some _ => Ret (tt, delete b m) | None => UB end
  | _ => UB
  end.

(** [realloc(p, n)] for [n > 0]. *)
Definition realloc (p : ptr) (n : Z) : M mem ptr := fun m =>
  match p with
  | NULL => malloc n m
  | Ptr b 0 =>
      match m !! b with
      | Some l =>
          if alloc_ok m n
          then let b' := fresh (dom m) in
               Ret (Ptr b' 0, <[b' := take (Z.to_nat n) (l ++ alloc_bytes n)]> (delete b m))
          else Ret (NULL, m)
      | None => UB
      end
  | _ => UB
  end.

(** ** Definitions *)

Definition CRYPTO_malloc (num : Z) : M mem ptr :=
  if num =? 0 then mret NULL else malloc num.

Definition CRYPTO_zalloc (num : Z) : M mem ptr :=
  ret ← CRYPTO_malloc num;
  (if negb (is_null ret) then memset ret 0 num else mret tt);;
  mret ret.

Definition CRYPTO_free (str : ptr) : M mem unit := free str.

Definition OPENSSL_cleanse (p : ptr) (len : Z) : M mem unit := memset p 0 len.

Definition CRYPTO_realloc (str : ptr) (num : Z) : M mem ptr :=
  if is_null str then CRYPTO_malloc num
  else if num =? 0 then CRYPTO_free str;; mret NULL
  else realloc str num.

Definition CRYPTO_clear_free (str : ptr) (num : Z) : M mem unit :=
  if is_null str then mret tt
  else
    (if truthy num then OPENSSL_cleanse str num else mret tt);;
    CRYPTO_free str.

Definition CRYPTO_clear_realloc (str : ptr) (old_len num : Z) : M mem ptr :=
  if is_null str then CRYPTO_malloc num
  else if num =? 0 then CRYPTO_clear_free str old_len;; mret NULL
  else if num <? old_len then OPENSSL_cleanse (padd str num) (old_len - num);; mret str
  else
    ret ← CRYPTO_malloc num;
    (if negb (is_null ret)
     then memcpy ret str old_len;; CRYPTO_clear_free str old_len
     else mret tt);;
    mret ret.

(** ** Lemmas *)

Lemma fresh_lookup (m : mem) : m !! fresh (dom m) = None.
Proof. apply not_elem_of_dom, is_fresh. Qed.

Lemma splice_middle (a b bs rest : list Z) :
  length b = length bs -> splice (length a) bs (a ++ b ++ rest) = a ++ bs ++ rest.
Proof.
  intros Hb. unfold splice. rewrite take_app_length. do 2 f_equal.
  rewrite app_assoc, drop_app_length'; [done|]. rewrite length_app. lia.
Qed.

Lemma CRYPTO_malloc_pos n : 0 < n -> CRYPTO_malloc n = malloc n.
Proof. intros. unfold CRYPTO_malloc. by replace (n =? 0) with false by lia. Qed.

Lemma CRYPTO_realloc_pos p n : 0 < n -> CRYPTO_realloc p n = realloc p n.
Proof.
  intros. unfold CRYPTO_realloc. rewrite CRYPTO_malloc_pos by done.
  replace (n =? 0) with false by lia. by destruct p.
Qed.

Lemma free_run m b l : m !! b = Some l -> free (Ptr b 0) m = Ret (tt, delete b m).
Proof. intros E. cbn [free]. by rewrite E. Qed.

(** Clearing before the object is freed leaves no trace. *)
Lemma clear_free_run m b c rest :
  m !! b = Some (c ++ rest) -> Z.of_nat (length c) < 18446744073709551616 ->
  CRYPTO_clear_free (Ptr b 0) (Z.of_nat (length c)) m = Ret (tt, delete b m).
Proof.
  intros Hl Hc. unfold CRYPTO_clear_free, CRYPTO_free, truthy. cbn [is_null].
  destruct c as [|x c]; [by apply (free_run _ _ rest)|].
  replace (Z.of_nat (length (x :: c)) =? 0) with false by (cbn [length]; lia). cbn [negb].
  unfold OPENSSL_cleanse, memset. rewrite to_size_id, Nat2Z.id by lia.
  erewrite bind_ret by (apply store_bytes_room; apply room_block; [lia|];
    exists ((x :: c) ++ rest); split; [exact Hl|]; rewrite length_replicate, length_app; lia).
  cbn [mwrite]. erewrite free_run by (rewrite lookup_alter_eq, Hl; reflexivity).
  by rewrite delete_alter_eq.
Qed.

(** A new object. *)
Lemma malloc_run {ALL : AllocatorLaws} n m :
  0 < n ->
  exists ret m', CRYPTO_malloc n m = Ret (ret, m') /\
    ((ret = NULL /\ m' = m /\ alloc_ok m n = false) \/
     (exists b l, ret = Ptr b 0 /\ m !! b = None /\ m' = <[b := l]> m /\ length l = Z.to_nat n)).
Proof.
  intros Hn. rewrite CRYPTO_malloc_pos by done. unfold malloc.
  destruct (alloc_ok m n); eexists _, _; (split; [reflexivity|]); [right|by left].
  exists (fresh (dom m)), (alloc_bytes n). rewrite fresh_lookup, alloc_bytes_length by lia. done.
Qed.

(** The contents are copied to a new object, the old one cleared and freed. *)
Lemma copy_and_free {A} (k : M mem A) m b b' c rest l' :
  m !! b = Some (c ++ rest) -> m !! b' = Some l' -> b' <> b -> (length c <= length l')%nat ->
  Z.of_nat (length c) < 18446744073709551616 ->
  exists m',
    (memcpy (Ptr b' 0) (Ptr b 0) (Z.of_nat (length c));;
     CRYPTO_clear_free (Ptr b 0) (Z.of_nat (length c));; k) m = k m' /\
    m' !! b' = Some (c ++ drop (length c) l') /\
    (forall b0, b0 <> b -> b0 <> b' -> m' !! b0 = m !! b0).
Proof.
  intros Hl Hl' Hne Hle Hc.
  assert (memcpy (Ptr b' 0) (Ptr b 0) (Z.of_nat (length c)) m = Ret (tt, mwrite m (Ptr b' 0) c)) as E1.
  { apply (memcpy_at _ _ _ b'); [|apply room_block; [lia|]; exists l'; split; [done|lia]|done|cbn; congruence|done].
    destruct c; [by left|]. right. exists rest. cbn [tail_at]. rewrite Hl. by decide_branch. }
  rewrite (bind_ret _ _ _ _ _ E1). cbn [mwrite].
  rewrite (bind_ret _ _ _ tt (delete b (mwrite m (Ptr b' 0) c))).
  2:{ apply (clear_free_run _ b c rest); [|done]. cbn [mwrite]. by rewrite lookup_alter_ne. }
  eexists. split; [reflexivity|]. cbn [mwrite]. split.
  - by rewrite lookup_delete_ne, lookup_alter_eq, Hl' by congruence.
  - intros b0 Hb Hb'. by rewrite lookup_delete_ne, lookup_alter_ne by congruence.
Qed.
End heap.
