(* ===== verification/Ctype.v ===== *)
(** * Character classes

    crypto/ctype.c and include/crypto/ctype.h of the vendored OpenSSL on an ASCII
    machine: the classification of characters by a table, independent of the
    locale, and the conversion of case.

    The theorem: every class is the set of characters the C standard names for
    it, for any [int], and the functions that avoid the table agree with it. *)

From S2P Require Import Prelude.

(** ** Definitions *)

Definition CTYPE_MASK_lower : Z := 1.
Definition CTYPE_MASK_upper : Z := 2.
Definition CTYPE_MASK_digit : Z := 4.
Definition CTYPE_MASK_space : Z := 8.
Definition CTYPE_MASK_xdigit : Z := 16.
Definition CTYPE_MASK_blank : Z := 32.
Definition CTYPE_MASK_cntrl : Z := 64.
Definition CTYPE_MASK_graph : Z := 128.
Definition CTYPE_MASK_print : Z := 256.
Definition CTYPE_MASK_punct : Z := 512.
Definition CTYPE_MASK_base64 : Z := 1024.
Definition CTYPE_MASK_asn1print : Z := 2048.

#[local] Infix ".|" := Z.lor (at level 50, left associativity).

Definition CTYPE_MASK_alpha : Z := CTYPE_MASK_lower .| CTYPE_MASK_upper.
Definition CTYPE_MASK_alnum : Z := CTYPE_MASK_alpha .| CTYPE_MASK_digit.

Definition ctype_char_map : list Z :=
  [
     (* 00 *) CTYPE_MASK_cntrl;
     (* 01 *) CTYPE_MASK_cntrl;
     (* 02 *) CTYPE_MASK_cntrl;
     (* 03 *) CTYPE_MASK_cntrl;
     (* 04 *) CTYPE_MASK_cntrl;
     (* 05 *) CTYPE_MASK_cntrl;
     (* 06 *) CTYPE_MASK_cntrl;
     (* 07 *) CTYPE_MASK_cntrl;
     (* 08 *) CTYPE_MASK_cntrl;
     (* 09 *) CTYPE_MASK_blank .| CTYPE_MASK_cntrl .| CTYPE_MASK_space;
     (* 0A *) CTYPE_MASK_cntrl .| CTYPE_MASK_space;
     (* 0B *) CTYPE_MASK_cntrl .| CTYPE_MASK_space;
     (* 0C *) CTYPE_MASK_cntrl .| CTYPE_MASK_space;
     (* 0D *) CTYPE_MASK_cntrl .| CTYPE_MASK_space;
     (* 0E *) CTYPE_MASK_cntrl;
     (* 0F *) CTYPE_MASK_cntrl;
     (* 10 *) CTYPE_MASK_cntrl;
     (* 11 *) CTYPE_MASK_cntrl;
     (* 12 *) CTYPE_MASK_cntrl;
     (* 13 *) CTYPE_MASK_cntrl;
     (* 14 *) CTYPE_MASK_cntrl;
     (* 15 *) CTYPE_MASK_cntrl;
     (* 16 *) CTYPE_MASK_cntrl;
     (* 17 *) CTYPE_MASK_cntrl;
     (* 18 *) CTYPE_MASK_cntrl;
     (* 19 *) CTYPE_MASK_cntrl;
     (* 1A *) CTYPE_MASK_cntrl;
     (* 1B *) CTYPE_MASK_cntrl;
     (* 1C *) CTYPE_MASK_cntrl;
     (* 1D *) CTYPE_MASK_cntrl;
     (* 1E *) CTYPE_MASK_cntrl;
     (* 1F *) CTYPE_MASK_cntrl;
     (* 20 *) CTYPE_MASK_blank .| CTYPE_MASK_print .| CTYPE_MASK_space .| CTYPE_MASK_asn1print;
     (* 21 *) CTYPE_MASK_graph .| CTYPE_MASK_print .| CTYPE_MASK_punct;
     (* 22 *) CTYPE_MASK_graph .| CTYPE_MASK_print .| CTYPE_MASK_punct;
     (* 23 *) CTYPE_MASK_graph .| CTYPE_MASK_print .| CTYPE_MASK_punct;
     (* 24 *) CTYPE_MASK_graph .| CTYPE_MASK_print .| CTYPE_MASK_punct;
     (* 25 *) CTYPE_MASK_graph .| CTYPE_MASK_print .| CTYPE_MASK_punct;
     (* 26 *) CTYPE_MASK_graph .| CTYPE_MASK_print .| CTYPE_MASK_punct;
     (* 27 *) CTYPE_MASK_graph .| CTYPE_MASK_print .| CTYPE_MASK_punct .| CTYPE_MASK_asn1print;
     (* 28 *) CTYPE_MASK_graph .| CTYPE_MASK_print .| CTYPE_MASK_punct .| CTYPE_MASK_asn1print;
     (* 29 *) CTYPE_MASK_graph .| CTYPE_MASK_print .| CTYPE_MASK_punct .| CTYPE_MASK_asn1print;
     (* 2A *) CTYPE_MASK_graph .| CTYPE_MASK_print .| CTYPE_MASK_punct;
     (* 2B *) CTYPE_MASK_graph .| CTYPE_MASK_print .| CTYPE_MASK_punct .| CTYPE_MASK_base64 .| CTYPE_MASK_asn1print;
     (* 2C *) CTYPE_MASK_graph .| CTYPE_MASK_print .| CTYPE_MASK_punct .| CTYPE_MASK_asn1print;
     (* 2D *) CTYPE_MASK_graph .| CTYPE_MASK_print .| CTYPE_MASK_punct .| CTYPE_MASK_asn1print;
     (* 2E *) CTYPE_MASK_graph .| CTYPE_MASK_print .| CTYPE_MASK_punct .| CTYPE_MASK_asn1print;
     (* 2F *) CTYPE_MASK_graph .| CTYPE_MASK_print .| CTYPE_MASK_punct .| CTYPE_MASK_base64 .| CTYPE_MASK_asn1print;
     (* 30 *) CTYPE_MASK_digit .| CTYPE_MASK_graph .| CTYPE_MASK_print .| CTYPE_MASK_xdigit .| CTYPE_MASK_base64 .| CTYPE_MASK_asn1print;
     (* 31 *) CTYPE_MASK_digit .| CTYPE_MASK_graph .| CTYPE_MASK_print .| CTYPE_MASK_xdigit .| CTYPE_MASK_base64 .| CTYPE_MASK_asn1print;
     (* 32 *) CTYPE_MASK_digit .| CTYPE_MASK_graph .| CTYPE_MASK_print .| CTYPE_MASK_xdigit .| CTYPE_MASK_base64 .| CTYPE_MASK_asn1print;
     (* 33 *) CTYPE_MASK_digit .| CTYPE_MASK_graph .| CTYPE_MASK_print .| CTYPE_MASK_xdigit .| CTYPE_MASK_base64 .| CTYPE_MASK_asn1print;
     (* 34 *) CTYPE_MASK_digit .| CTYPE_MASK_graph .| CTYPE_MASK_print .| CTYPE_MASK_xdigit .| CTYPE_MASK_base64 .| CTYPE_MASK_asn1print;
     (* 35 *) CTYPE_MASK_digit .| CTYPE_MASK_graph .| CTYPE_MASK_print .| CTYPE_MASK_xdigit .| CTYPE_MASK_base64 .| CTYPE_MASK_asn1print;
     (* 36 *) CTYPE_MASK_digit .| CTYPE_MASK_graph .| CTYPE_MASK_print .| CTYPE_MASK_xdigit .| CTYPE_MASK_base64 .| CTYPE_MASK_asn1print;
     (* 37 *) CTYPE_MASK_digit .| CTYPE_MASK_graph .| CTYPE_MASK_print .| CTYPE_MASK_xdigit .| CTYPE_MASK_base64 .| CTYPE_MASK_asn1print;
     (* 38 *) CTYPE_MASK_digit .| CTYPE_MASK_graph .| CTYPE_MASK_print .| CTYPE_MASK_xdigit .| CTYPE_MASK_base64 .| CTYPE_MASK_asn1print;
     (* 39 *) CTYPE_MASK_digit .| CTYPE_MASK_graph .| CTYPE_MASK_print .| CTYPE_MASK_xdigit .| CTYPE_MASK_base64 .| CTYPE_MASK_asn1print;
     (* 3A *) CTYPE_MASK_graph .| CTYPE_MASK_print .| CTYPE_MASK_punct .| CTYPE_MASK_asn1print;
     (* 3B *) CTYPE_MASK_graph .| CTYPE_MASK_print .| CTYPE_MASK_punct;
     (* 3C *) CTYPE_MASK_graph .| CTYPE_MASK_print .| CTYPE_MASK_punct;
     (* 3D *) CTYPE_MASK_graph .| CTYPE_MASK_print .| CTYPE_MASK_punct .| CTYPE_MASK_base64 .| CTYPE_MASK_asn1print;
     (* 3E *) CTYPE_MASK_graph .| CTYPE_MASK_print .| CTYPE_MASK_punct;
     (* 3F *) CTYPE_MASK_graph .| CTYPE_MASK_print .| CTYPE_MASK_punct .| CTYPE_MASK_asn1print;
     (* 40 *) CTYPE_MASK_graph .| CTYPE_MASK_print .| CTYPE_MASK_punct;
     (* 41 *) CTYPE_MASK_graph .| CTYPE_MASK_print .| CTYPE_MASK_upper .| CTYPE_MASK_xdigit .| CTYPE_MASK_base64 .| CTYPE_MASK_asn1print;
     (* 42 *) CTYPE_MASK_graph .| CTYPE_MASK_print .| CTYPE_MASK_upper .| CTYPE_MASK_xdigit .| CTYPE_MASK_base64 .| CTYPE_MASK_asn1print;
     (* 43 *) CTYPE_MASK_graph .| CTYPE_MASK_print .| CTYPE_MASK_upper .| CTYPE_MASK_xdigit .| CTYPE_MASK_base64 .| CTYPE_MASK_asn1print;
     (* 44 *) CTYPE_MASK_graph .| CTYPE_MASK_print .| CTYPE_MASK_upper .| CTYPE_MASK_xdigit .| CTYPE_MASK_base64 .| CTYPE_MASK_asn1print;
     (* 45 *) CTYPE_MASK_graph .| CTYPE_MASK_print .| CTYPE_MASK_upper .| CTYPE_MASK_xdigit .| CTYPE_MASK_base64 .| CTYPE_MASK_asn1print;
     (* 46 *) CTYPE_MASK_graph .| CTYPE_MASK_print .| CTYPE_MASK_upper .| CTYPE_MASK_xdigit .| CTYPE_MASK_base64 .| CTYPE_MASK_asn1print;
     (* 47 *) CTYPE_MASK_graph .| CTYPE_MASK_print .| CTYPE_MASK_upper .| CTYPE_MASK_base64 .| CTYPE_MASK_asn1print;
     (* 48 *) CTYPE_MASK_graph .| CTYPE_MASK_print .| CTYPE_MASK_upper .| CTYPE_MASK_base64 .| CTYPE_MASK_asn1print;
     (* 49 *) CTYPE_MASK_graph .| CTYPE_MASK_print .| CTYPE_MASK_upper .| CTYPE_MASK_base64 .| CTYPE_MASK_asn1print;
     (* 4A *) CTYPE_MASK_graph .| CTYPE_MASK_print .| CTYPE_MASK_upper .| CTYPE_MASK_base64 .| CTYPE_MASK_asn1print;
     (* 4B *) CTYPE_MASK_graph .| CTYPE_MASK_print .| CTYPE_MASK_upper .| CTYPE_MASK_base64 .| CTYPE_MASK_asn1print;
     (* 4C *) CTYPE_MASK_graph .| CTYPE_MASK_print .| CTYPE_MASK_upper .| CTYPE_MASK_base64 .| CTYPE_MASK_asn1print;
     (* 4D *) CTYPE_MASK_graph .| CTYPE_MASK_print .| CTYPE_MASK_upper .| CTYPE_MASK_base64 .| CTYPE_MASK_asn1print;
     (* 4E *) CTYPE_MASK_graph .| CTYPE_MASK_print .| CTYPE_MASK_upper .| CTYPE_MASK_base64 .| CTYPE_MASK_asn1print;
     (* 4F *) CTYPE_MASK_graph .| CTYPE_MASK_print .| CTYPE_MASK_upper .| CTYPE_MASK_base64 .| CTYPE_MASK_asn1print;
     (* 50 *) CTYPE_MASK_graph .| CTYPE_MASK_print .| CTYPE_MASK_upper .| CTYPE_MASK_base64 .| CTYPE_MASK_asn1print;
     (* 51 *) CTYPE_MASK_graph .| CTYPE_MASK_print .| CTYPE_MASK_upper .| CTYPE_MASK_base64 .| CTYPE_MASK_asn1print;
     (* 52 *) CTYPE_MASK_graph .| CTYPE_MASK_print .| CTYPE_MASK_upper .| CTYPE_MASK_base64 .| CTYPE_MASK_asn1print;
     (* 53 *) CTYPE_MASK_graph .| CTYPE_MASK_print .| CTYPE_MASK_upper .| CTYPE_MASK_base64 .| CTYPE_MASK_asn1print;
     (* 54 *) CTYPE_MASK_graph .| CTYPE_MASK_print .| CTYPE_MASK_upper .| CTYPE_MASK_base64 .| CTYPE_MASK_asn1print;
     (* 55 *) CTYPE_MASK_graph .| CTYPE_MASK_print .| CTYPE_MASK_upper .| CTYPE_MASK_base64 .| CTYPE_MASK_asn1print;
     (* 56 *) CTYPE_MASK_graph .| CTYPE_MASK_print .| CTYPE_MASK_upper .| CTYPE_MASK_base64 .| CTYPE_MASK_asn1print;
     (* 57 *) CTYPE_MASK_graph .| CTYPE_MASK_print .| CTYPE_MASK_upper .| CTYPE_MASK_base64 .| CTYPE_MASK_asn1print;
     (* 58 *) CTYPE_MASK_graph .| CTYPE_MASK_print .| CTYPE_MASK_upper .| CTYPE_MASK_base64 .| CTYPE_MASK_asn1print;
     (* 59 *) CTYPE_MASK_graph .| CTYPE_MASK_print .| CTYPE_MASK_upper .| CTYPE_MASK_base64 .| CTYPE_MASK_asn1print;
     (* 5A *) CTYPE_MASK_graph .| CTYPE_MASK_print .| CTYPE_MASK_upper .| CTYPE_MASK_base64 .| CTYPE_MASK_asn1print;
     (* 5B *) CTYPE_MASK_graph .| CTYPE_MASK_print .| CTYPE_MASK_punct;
     (* 5C *) CTYPE_MASK_graph .| CTYPE_MASK_print .| CTYPE_MASK_punct;
     (* 5D *) CTYPE_MASK_graph .| CTYPE_MASK_print .| CTYPE_MASK_punct;
     (* 5E *) CTYPE_MASK_graph .| CTYPE_MASK_print .| CTYPE_MASK_punct;
     (* 5F *) CTYPE_MASK_graph .| CTYPE_MASK_print .| CTYPE_MASK_punct;
     (* 60 *) CTYPE_MASK_graph .| CTYPE_MASK_print .| CTYPE_MASK_punct;
     (* 61 *) CTYPE_MASK_graph .| CTYPE_MASK_lower .| CTYPE_MASK_print .| CTYPE_MASK_xdigit .| CTYPE_MASK_base64 .| CTYPE_MASK_asn1print;
     (* 62 *) CTYPE_MASK_graph .| CTYPE_MASK_lower .| CTYPE_MASK_print .| CTYPE_MASK_xdigit .| CTYPE_MASK_base64 .| CTYPE_MASK_asn1print;
     (* 63 *) CTYPE_MASK_graph .| CTYPE_MASK_lower .| CTYPE_MASK_print .| CTYPE_MASK_xdigit .| CTYPE_MASK_base64 .| CTYPE_MASK_asn1print;
     (* 64 *) CTYPE_MASK_graph .| CTYPE_MASK_lower .| CTYPE_MASK_print .| CTYPE_MASK_xdigit .| CTYPE_MASK_base64 .| CTYPE_MASK_asn1print;
     (* 65 *) CTYPE_MASK_graph .| CTYPE_MASK_lower .| CTYPE_MASK_print .| CTYPE_MASK_xdigit .| CTYPE_MASK_base64 .| CTYPE_MASK_asn1print;
     (* 66 *) CTYPE_MASK_graph .| CTYPE_MASK_lower .| CTYPE_MASK_print .| CTYPE_MASK_xdigit .| CTYPE_MASK_base64 .| CTYPE_MASK_asn1print;
     (* 67 *) CTYPE_MASK_graph .| CTYPE_MASK_lower .| CTYPE_MASK_print .| CTYPE_MASK_base64 .| CTYPE_MASK_asn1print;
     (* 68 *) CTYPE_MASK_graph .| CTYPE_MASK_lower .| CTYPE_MASK_print .| CTYPE_MASK_base64 .| CTYPE_MASK_asn1print;
     (* 69 *) CTYPE_MASK_graph .| CTYPE_MASK_lower .| CTYPE_MASK_print .| CTYPE_MASK_base64 .| CTYPE_MASK_asn1print;
     (* 6A *) CTYPE_MASK_graph .| CTYPE_MASK_lower .| CTYPE_MASK_print .| CTYPE_MASK_base64 .| CTYPE_MASK_asn1print;
     (* 6B *) CTYPE_MASK_graph .| CTYPE_MASK_lower .| CTYPE_MASK_print .| CTYPE_MASK_base64 .| CTYPE_MASK_asn1print;
     (* 6C *) CTYPE_MASK_graph .| CTYPE_MASK_lower .| CTYPE_MASK_print .| CTYPE_MASK_base64 .| CTYPE_MASK_asn1print;
     (* 6D *) CTYPE_MASK_graph .| CTYPE_MASK_lower .| CTYPE_MASK_print .| CTYPE_MASK_base64 .| CTYPE_MASK_asn1print;
     (* 6E *) CTYPE_MASK_graph .| CTYPE_MASK_lower .| CTYPE_MASK_print .| CTYPE_MASK_base64 .| CTYPE_MASK_asn1print;
     (* 6F *) CTYPE_MASK_graph .| CTYPE_MASK_lower .| CTYPE_MASK_print .| CTYPE_MASK_base64 .| CTYPE_MASK_asn1print;
     (* 70 *) CTYPE_MASK_graph .| CTYPE_MASK_lower .| CTYPE_MASK_print .| CTYPE_MASK_base64 .| CTYPE_MASK_asn1print;
     (* 71 *) CTYPE_MASK_graph .| CTYPE_MASK_lower .| CTYPE_MASK_print .| CTYPE_MASK_base64 .| CTYPE_MASK_asn1print;
     (* 72 *) CTYPE_MASK_graph .| CTYPE_MASK_lower .| CTYPE_MASK_print .| CTYPE_MASK_base64 .| CTYPE_MASK_asn1print;
     (* 73 *) CTYPE_MASK_graph .| CTYPE_MASK_lower .| CTYPE_MASK_print .| CTYPE_MASK_base64 .| CTYPE_MASK_asn1print;
     (* 74 *) CTYPE_MASK_graph .| CTYPE_MASK_lower .| CTYPE_MASK_print .| CTYPE_MASK_base64 .| CTYPE_MASK_asn1print;
     (* 75 *) CTYPE_MASK_graph .| CTYPE_MASK_lower .| CTYPE_MASK_print .| CTYPE_MASK_base64 .| CTYPE_MASK_asn1print;
     (* 76 *) CTYPE_MASK_graph .| CTYPE_MASK_lower .| CTYPE_MASK_print .| CTYPE_MASK_base64 .| CTYPE_MASK_asn1print;
     (* 77 *) CTYPE_MASK_graph .| CTYPE_MASK_lower .| CTYPE_MASK_print .| CTYPE_MASK_base64 .| CTYPE_MASK_asn1print;
     (* 78 *) CTYPE_MASK_graph .| CTYPE_MASK_lower .| CTYPE_MASK_print .| CTYPE_MASK_base64 .| CTYPE_MASK_asn1print;
     (* 79 *) CTYPE_MASK_graph .| CTYPE_MASK_lower .| CTYPE_MASK_print .| CTYPE_MASK_base64 .| CTYPE_MASK_asn1print;
     (* 7A *) CTYPE_MASK_graph .| CTYPE_MASK_lower .| CTYPE_MASK_print .| CTYPE_MASK_base64 .| CTYPE_MASK_asn1print;
     (* 7B *) CTYPE_MASK_graph .| CTYPE_MASK_print .| CTYPE_MASK_punct;
     (* 7C *) CTYPE_MASK_graph .| CTYPE_MASK_print .| CTYPE_MASK_punct;
     (* 7D *) CTYPE_MASK_graph .| CTYPE_MASK_print .| CTYPE_MASK_punct;
     (* 7E *) CTYPE_MASK_graph .| CTYPE_MASK_print .| CTYPE_MASK_punct;
     (* 7F *) CTYPE_MASK_cntrl
  ].

Definition ossl_toascii (c : Z) : Z := c.

Definition ossl_ctype_check (c mask : Z) : bool :=
  let max := Z.of_nat (length ctype_char_map) in
  let a := ossl_toascii c in
  (0 <=? a) && (a <? max) && negb (Z.land (nth (Z.to_nat a) ctype_char_map 0) mask =? 0).

Definition ASCII_IS_DIGIT (c : Z) : bool := (48 <=? c) && (c <=? 57).
Definition ASCII_IS_UPPER (c : Z) : bool := (65 <=? c) && (c <=? 90).
Definition ASCII_IS_LOWER (c : Z) : bool := (97 <=? c) && (c <=? 122).

Definition ossl_isdigit (c : Z) : bool := let a := ossl_toascii c in ASCII_IS_DIGIT a.
Definition ossl_isupper (c : Z) : bool := let a := ossl_toascii c in ASCII_IS_UPPER a.
Definition ossl_islower (c : Z) : bool := let a := ossl_toascii c in ASCII_IS_LOWER a.

Definition case_change : Z := 32.

Definition ossl_tolower (c : Z) : Z :=
  let a := ossl_toascii c in if ASCII_IS_UPPER a then Z.lxor c case_change else c.
Definition ossl_toupper (c : Z) : Z :=
  let a := ossl_toascii c in if ASCII_IS_LOWER a then Z.lxor c case_change else c.

Definition ossl_ascii_isdigit (c : Z) : bool := ASCII_IS_DIGIT c.

Definition ossl_isalnum (c : Z) : bool := ossl_ctype_check c CTYPE_MASK_alnum.
Definition ossl_isalpha (c : Z) : bool := ossl_ctype_check c CTYPE_MASK_alpha.
Definition ossl_isascii (c : Z) : bool := Z.land c (Z.lnot 127) =? 0.
Definition ossl_isblank (c : Z) : bool := ossl_ctype_check c CTYPE_MASK_blank.
Definition ossl_iscntrl (c : Z) : bool := ossl_ctype_check c CTYPE_MASK_cntrl.
Definition ossl_isgraph (c : Z) : bool := ossl_ctype_check c CTYPE_MASK_graph.
Definition ossl_isprint (c : Z) : bool := ossl_ctype_check c CTYPE_MASK_print.
Definition ossl_ispunct (c : Z) : bool := ossl_ctype_check c CTYPE_MASK_punct.
Definition ossl_isspace (c : Z) : bool := ossl_ctype_check c CTYPE_MASK_space.
Definition ossl_isxdigit (c : Z) : bool := ossl_ctype_check c CTYPE_MASK_xdigit.
Definition ossl_isbase64 (c : Z) : bool := ossl_ctype_check c CTYPE_MASK_base64.
Definition ossl_isasn1print (c : Z) : bool := ossl_ctype_check c CTYPE_MASK_asn1print.

(** ** The classes *)

(** One of the ranges of codes. *)
Definition ranges (l : list (Z * Z)) (c : Z) : Prop := exists lo hi, (lo, hi) ∈ l /\ lo <= c <= hi.

Definition digits : list (Z * Z) := [(48, 57)].
Definition uppers : list (Z * Z) := [(65, 90)].
Definition lowers : list (Z * Z) := [(97, 122)].
Definition hex_letters : list (Z * Z) := [(65, 70); (97, 102)].

(** The punctuation of a PrintableString of ASN.1 (with the space): ' ( ) + , - . / : = ?. *)
Definition asn1_marks : list (Z * Z) := [(32, 32); (39, 41); (43, 47); (58, 58); (61, 61); (63, 63)].

(** A test is true exactly on the given codes. *)
Definition decides (f : Z -> bool) (l : list (Z * Z)) : Prop := forall c, f c = true <-> ranges l c.

(** ** Lemmas *)

Lemma ranges_cons lo hi l c : ranges ((lo, hi) :: l) c <-> lo <= c <= hi \/ ranges l c.
Proof.
  split.
  - intros (a & b & [[= -> ->]|Hin]%elem_of_cons & Hc); [by left|right; by exists a, b].
  - intros [Hc|(a & b & Hin & Hc)]; [exists lo, hi|exists a, b]; split; try done; apply elem_of_cons; auto.
Qed.

Lemma ranges_nil c : ranges [] c <-> False.
Proof. split; [|done]. intros (a & b & Hin%elem_of_nil & _). done. Qed.

Definition in_ranges (l : list (Z * Z)) (c : Z) : bool :=
  existsb (fun '(lo, hi) => (lo <=? c) && (c <=? hi)) l.

Lemma in_ranges_spec l c : in_ranges l c = true <-> ranges l c.
Proof.
  induction l as [|[lo hi] l IH]; [by rewrite ranges_nil|].
  rewrite ranges_cons, <- IH. cbn. rewrite orb_true_iff, andb_true_iff, !Z.leb_le. done.
Qed.

(** Outside the table no class holds; inside, the entries are inspected. *)
Lemma check_decides mask l :
  Forall (fun '(lo, hi) => 0 <= lo /\ hi < 128) l ->
  forallb (fun n => eqb (ossl_ctype_check (Z.of_nat n) mask) (in_ranges l (Z.of_nat n))) (seq 0 128) = true ->
  decides (fun c => ossl_ctype_check c mask) l.
Proof.
  intros Hl Hall c. rewrite <- in_ranges_spec. rewrite forallb_forall in Hall.
  destruct (Z_lt_le_dec c 0) as [Hc|Hc]; [|destruct (Z_lt_le_dec c 128) as [Hc'|Hc']].
  - unfold ossl_ctype_check, ossl_toascii. replace (0 <=? c) with false by lia. cbn [andb].
    rewrite in_ranges_spec. split; [done|]. intros (lo & hi & Hin & Hr). rewrite Forall_forall in Hl.
    apply Hl in Hin. lia.
  - specialize (Hall (Z.to_nat c)). rewrite Z2Nat.id in Hall by lia.
    apply eqb_prop in Hall as ->; [done|]. apply in_seq. lia.
  - unfold ossl_ctype_check, ossl_toascii. change (Z.of_nat (length ctype_char_map)) with 128.
    replace (c <? 128) with false by lia. rewrite andb_false_r. cbn [andb].
    rewrite in_ranges_spec. split; [done|]. intros (lo & hi & Hin & Hr). rewrite Forall_forall in Hl.
    apply Hl in Hin. lia.
Qed.

Ltac by_table := apply check_decides; [repeat (apply Forall_cons; split; [lia|]); by apply Forall_nil|by vm_compute].

Lemma lxor_32 c : 0 <= c < 128 -> Z.lxor c 32 = if Z.testbit c 5 then c - 32 else c + 32.
Proof.
  intros Hc. apply Z.eqb_eq. rewrite <- (Z2Nat.id c) by lia.
  assert (forallb (fun n => Z.lxor (Z.of_nat n) 32 =?
    if Z.testbit (Z.of_nat n) 5 then Z.of_nat n - 32 else Z.of_nat n + 32) (seq 0 128) = true) as H by by vm_compute.
  rewrite forallb_forall in H. apply H, in_seq. lia.
Qed.

Lemma tolower_spec c : ossl_tolower c = if ossl_isupper c then c + 32 else c.
Proof.
  unfold ossl_tolower, ossl_isupper, ossl_toascii. destruct (ASCII_IS_UPPER c) eqn:E; [|done].
  unfold ASCII_IS_UPPER in E. rewrite lxor_32 by lia.
  replace (Z.testbit c 5) with false; [done|]. symmetry. apply Z.testbit_false; [lia|].
  Z.div_mod_to_equations. lia.
Qed.

Lemma toupper_spec c : ossl_toupper c = if ossl_islower c then c - 32 else c.
Proof.
  unfold ossl_toupper, ossl_islower, ossl_toascii. destruct (ASCII_IS_LOWER c) eqn:E; [|done].
  unfold ASCII_IS_LOWER in E. rewrite lxor_32 by lia.
  replace (Z.testbit c 5) with true; [done|]. symmetry. apply Z.testbit_true; [lia|].
  Z.div_mod_to_equations. lia.
Qed.

(** ** Theorem *)

(** Every class of characters is the set of codes it is named after, for any
    [int], also a negative one; the direct tests agree with the table; and the
    case conversions move letters by 32 and are inverse on them. *)
Theorem ctype_classes :
  decides ossl_isdigit digits /\ decides ossl_ascii_isdigit digits /\
  decides (fun c => ossl_ctype_check c CTYPE_MASK_digit) digits /\
  decides ossl_isupper uppers /\ decides (fun c => ossl_ctype_check c CTYPE_MASK_upper) uppers /\
  decides ossl_islower lowers /\ decides (fun c => ossl_ctype_check c CTYPE_MASK_lower) lowers /\
  decides ossl_isalpha (uppers ++ lowers) /\ decides ossl_isalnum (digits ++ uppers ++ lowers) /\
  decides ossl_isxdigit (digits ++ hex_letters) /\
  decides ossl_isblank [(9, 9); (32, 32)] /\ decides ossl_isspace [(9, 13); (32, 32)] /\
  decides ossl_iscntrl [(0, 31); (127, 127)] /\
  decides ossl_isascii [(0, 127)] /\
  decides ossl_isprint [(32, 126)] /\ decides ossl_isgraph [(33, 126)] /\
  decides ossl_ispunct [(33, 47); (58, 64); (91, 96); (123, 126)] /\
  decides ossl_isbase64 ([(43, 43); (47, 47); (61, 61)] ++ digits ++ uppers ++ lowers) /\
  decides ossl_isasn1print (asn1_marks ++ digits ++ uppers ++ lowers) /\
  (forall c, ossl_tolower c = if ossl_isupper c then c + 32 else c) /\
  (forall c, ossl_toupper c = if ossl_islower c then c - 32 else c).
Proof.
  assert (forall lo hi c, (lo <=? c) && (c <=? hi) = true <-> ranges [(lo, hi)] c) as Hr.
  { intros lo hi c. rewrite ranges_cons, ranges_nil. lia. }
  repeat match goal with |- _ /\ _ => split end; try by_table; try (intros c; apply Hr).
  - intros c. unfold ossl_isascii. rewrite ranges_cons, ranges_nil, <- Z.ldiff_land. change 127 with (Z.ones 7) at 1.
    rewrite Z.ldiff_ones_r, Z.shiftl_mul_pow2, Z.shiftr_div_pow2 by lia. change (2 ^ 7) with 128.
    Z.div_mod_to_equations. lia.
  - apply tolower_spec.
  - apply toupper_spec.
Qed.
