(* ===== verification/OStr.v ===== *)
(** * Strings and hexadecimal of the TLS library

    crypto/o_str.c of the vendored OpenSSL: copies of strings and octets into new
    memory, bounded string copy and concatenation, the conversion between octets
    and hexadecimal text with a separator, and comparison without case.  A [char]
    is signed; a separator is a [char], 0 for none.  An out-parameter that may
    stay unassigned is an [option].  [openssl_strerror_r] is left to the C library.

    The theorems: what the copies leave in the destination and return, whatever
    the bounds; the reader of hexadecimal text computes a parser ([hex_parse]),
    and octets printed with a separator are read back; the comparisons are those
    of the lower-case strings.  At the end are the places where the code departs
    from what it is meant to do. *)

From S2P Require Import Prelude Memory Heap Ctype.

(** ** Definitions *)

Definition DEFAULT_SEPARATOR : Z := 58.
Definition CH_ZERO : Z := 0.

(** [strcpy] with its terminator. *)
Definition strcpy (dst src : ptr) : M mem unit :=
  n ← strlen src; memcpy dst src (n + 1).

Fixpoint strnlen_loop (maxlen : nat) (p : ptr) (n : Z) : M mem Z :=
  match maxlen with
  | O => mret n
  | S maxlen => c ← load p; if c =? CH_ZERO then mret n else strnlen_loop maxlen (padd p 1) (n + 1)
  end.

Definition OPENSSL_strnlen (str : ptr) (maxlen : Z) : M mem Z := strnlen_loop (Z.to_nat maxlen) str 0.

(** The loop runs while [size > 1]; [k] is [size - 1]. *)
Fixpoint strlcpy_loop (k : nat) (dst src : ptr) (size l : Z) : M mem (ptr * ptr * Z * Z) :=
  match k with
  | O => mret (dst, src, size, l)
  | S k =>
      c ← load src;
      if c =? 0 then mret (dst, src, size, l)
      else store dst c;; strlcpy_loop k (padd dst 1) (padd src 1) (size - 1) (l + 1)
  end.

Definition OPENSSL_strlcpy (dst src : ptr) (size : Z) : M mem Z :=
  '(dst, src, size, l) ← strlcpy_loop (Z.to_nat (size - 1)) dst src size 0;
  (if truthy size then store dst CH_ZERO else mret tt);;
  n ← strlen src;
  mret (to_size (l + n)).

Fixpoint strlcat_loop (size : nat) (dst : ptr) (l : Z) : M mem (ptr * nat * Z) :=
  match size with
  | O => mret (dst, size, l)
  | S size' =>
      c ← load dst;
      if c =? 0 then mret (dst, size, l) else strlcat_loop size' (padd dst 1) (l + 1)
  end.

Definition OPENSSL_strlcat (dst src : ptr) (size : Z) : M mem Z :=
  '(dst, size, l) ← strlcat_loop (Z.to_nat size) dst 0;
  n ← OPENSSL_strlcpy dst src (Z.of_nat size);
  mret (to_size (l + n)).

Section copies.
Context {AL : Allocator}.

Definition CRYPTO_strdup (str : ptr) : M mem ptr :=
  if is_null str then mret NULL
  else
    n ← strlen str;
    ret ← CRYPTO_malloc (n + 1);
    (if negb (is_null ret) then strcpy ret str else mret tt);;
    mret ret.

Definition CRYPTO_strndup (str : ptr) (s : Z) : M mem ptr :=
  if is_null str then mret NULL
  else
    maxlen ← OPENSSL_strnlen str s;
    ret ← CRYPTO_malloc (to_size (maxlen + 1));
    (if negb (is_null ret)
     then memcpy ret str maxlen;; store (padd ret maxlen) CH_ZERO
     else mret tt);;
    mret ret.

Definition CRYPTO_memdup (data : ptr) (siz : Z) : M mem ptr :=
  if is_null data || (INT_MAX <=? siz) then mret NULL
  else
    ret ← CRYPTO_malloc siz;
    if is_null ret then mret NULL
    else memcpy ret data siz;; mret ret.

Definition OPENSSL_hexchar2int (c : Z) : Z :=
  match c with
  | 48 => 0
  | 49 => 1
  | 50 => 2
  | 51 => 3
  | 52 => 4
  | 53 => 5
  | 54 => 6
  | 55 => 7
  | 56 => 8
  | 57 => 9
  | 97 | 65 => 10
  | 98 | 66 => 11
  | 99 | 67 => 12
  | 100 | 68 => 13
  | 101 | 69 => 14
  | 102 | 70 => 15
  | _ => -1
  end.

(** [None] is 0; otherwise the number of octets. *)
Fixpoint hexstr2buf_loop (fuel : nat) (p q : ptr) (cnt buf_n sep : Z) : M mem (option Z) :=
  match fuel with
  | O => nofuel
  | S fuel =>
      ch ← load p;
      if ch =? 0 then mret (Some cnt)
      else
        let p := padd p 1 in
        if (ch =? sep) && negb (sep =? CH_ZERO) then hexstr2buf_loop fuel p q cnt buf_n sep
        else
          cl ← load p;
          let p := padd p 1 in
          if cl =? 0 then mret None
          else
            let cli := OPENSSL_hexchar2int cl in
            let chi := OPENSSL_hexchar2int ch in
            if (cli <? 0) || (chi <? 0) then mret None
            else
              let cnt := to_size (cnt + 1) in
              if negb (is_null q) then
                if buf_n <? cnt then mret None
                else
                  store q (Z.lor (Z.shiftl chi 4) cli);;
                  hexstr2buf_loop fuel p (padd q 1) cnt buf_n sep
              else hexstr2buf_loop fuel p q cnt buf_n sep
  end.

Definition hexstr2buf_sep (fuel : nat) (buf : ptr) (buf_n : Z) (str : ptr) (sep : Z) : M mem (option Z) :=
  hexstr2buf_loop fuel str buf 0 buf_n sep.

Definition OPENSSL_hexstr2buf_ex (fuel : nat) (buf : ptr) (buf_n : Z) (str : ptr) (sep : Z) : M mem (option Z) :=
  hexstr2buf_sep fuel buf buf_n str sep.

(** The octets and [*buflen]. *)
Definition ossl_hexstr2buf_sep (fuel : nat) (str : ptr) (sep : Z) : M mem (ptr * option Z) :=
  buf_n ← strlen str;
  if buf_n <=? 1 then mret (NULL, None)
  else
    let buf_n := buf_n / 2 in
    buf ← CRYPTO_malloc buf_n;
    if is_null buf then mret (NULL, None)
    else
      r ← hexstr2buf_sep fuel buf buf_n str sep;
      match r with
      | Some tmp_buflen => mret (buf, Some tmp_buflen)
      | None => CRYPTO_free buf;; mret (NULL, Some 0)
      end.

Definition OPENSSL_hexstr2buf (fuel : nat) (str : ptr) : M mem (ptr * option Z) :=
  ossl_hexstr2buf_sep fuel str DEFAULT_SEPARATOR.

Definition hexdig : list Z := [48; 49; 50; 51; 52; 53; 54; 55; 56; 57; 65; 66; 67; 68; 69; 70].

Fixpoint buf2hexstr_loop (n : nat) (p q : ptr) (has_sep : bool) (sep : Z) : M mem ptr :=
  match n with
  | O => mret q
  | S n =>
      v ← load p;
      d ← array_get hexdig (Z.land (Z.shiftr v 4) 15);
      store q d;;
      v ← load p;
      d ← array_get hexdig (Z.land v 15);
      store (padd q 1) d;;
      if has_sep
      then store (padd q 2) sep;; buf2hexstr_loop n (padd p 1) (padd q 3) has_sep sep
      else buf2hexstr_loop n (padd p 1) (padd q 2) has_sep sep
  end.

(** The result and [*strlength]. *)
Definition buf2hexstr_sep (str : ptr) (str_n : Z) (buf : ptr) (buflen sep : Z) : M mem (bool * Z) :=
  let has_sep := negb (sep =? CH_ZERO) in
  let len := to_size (if has_sep then buflen * 3 else 1 + buflen * 2) in
  if is_null str then mret (true, len)
  else if str_n <? len then mret (false, len)
  else
    q ← buf2hexstr_loop (Z.to_nat buflen) buf str has_sep sep;
    store (if has_sep then padd q (-1) else q) CH_ZERO;;
    mret (true, len).

Definition OPENSSL_buf2hexstr_ex (str : ptr) (str_n : Z) (buf : ptr) (buflen sep : Z) : M mem (bool * Z) :=
  buf2hexstr_sep str str_n buf buflen sep.

(** The product is one of [long]. *)
Definition ossl_buf2hexstr_sep (buf : ptr) (buflen sep : Z) : M mem ptr :=
  if buflen =? 0 then CRYPTO_zalloc 1
  else
    let tmp_n := if negb (sep =? CH_ZERO) then buflen * 3 else 1 + buflen * 2 in
    if (- 2 ^ 63 <=? tmp_n) && (tmp_n <? 2 ^ 63) then
      let tmp_n := to_size tmp_n in
      tmp ← CRYPTO_malloc tmp_n;
      if is_null tmp then mret NULL
      else
        '(ok, _) ← buf2hexstr_sep tmp tmp_n buf (to_size buflen) sep;
        if ok : bool then mret tmp else CRYPTO_free tmp;; mret NULL
    else ub.

Definition OPENSSL_buf2hexstr (buf : ptr) (buflen : Z) : M mem ptr :=
  ossl_buf2hexstr_sep buf buflen DEFAULT_SEPARATOR.
End copies.

Fixpoint OPENSSL_strcasecmp (fuel : nat) (s1 s2 : ptr) : M mem Z :=
  match fuel with
  | O => nofuel
  | S fuel =>
      c1 ← load s1;
      c2 ← load s2;
      let t := ossl_tolower (to_char c1) - ossl_tolower (to_char c2) in
      if t =? 0 then
        if c1 =? 0 then mret 0 else OPENSSL_strcasecmp fuel (padd s1 1) (padd s2 1)
      else mret t
  end.

Fixpoint strncasecmp_loop (n : nat) (s1 s2 : ptr) : M mem Z :=
  match n with
  | O => mret 0
  | S n =>
      c1 ← load s1;
      c2 ← load s2;
      let t := ossl_tolower (to_char c1) - ossl_tolower (to_char c2) in
      if negb (t =? 0) then mret t
      else if c1 =? 0 then mret 0
      else strncasecmp_loop n (padd s1 1) (padd s2 1)
  end.

Definition OPENSSL_strncasecmp (s1 s2 : ptr) (n : Z) : M mem Z := strncasecmp_loop (Z.to_nat n) s1 s2.

(** ** Specification *)

(** The characters before the first NUL. *)
Fixpoint upto_nul (l : list Z) : list Z :=
  match l with
  | [] => []
  | c :: l => if c =? 0 then [] else c :: upto_nul l
  end.

(** The value of hexadecimal text: pairs of digits, separators between them
    skipped. *)
Fixpoint hex_parse (sep : Z) (s : list Z) : option (list Z) :=
  match s with
  | [] => Some []
  | ch :: s1 =>
      if (ch =? sep) && negb (sep =? 0) then hex_parse sep s1
      else match s1 with
           | [] => None
           | cl :: s2 =>
               let chi := OPENSSL_hexchar2int ch in
               let cli := OPENSSL_hexchar2int cl in
               if (cli <? 0) || (chi <? 0) then None
               else match hex_parse sep s2 with
                    | Some bs => Some (chi * 16 + cli :: bs)
                    | None => None
                    end
           end
  end.

Definition hex_digit (v : Z) : Z := nth (Z.to_nat v) hexdig 0.

(** The text of some octets, each with a separator behind it if there is one. *)
Definition hex_pairs (sep : list Z) (bs : list Z) : list Z :=
  flat_map (fun v => hex_digit (v / 16) :: hex_digit (v mod 16) :: sep) bs.

(** The text, with the separators between the octets. *)
Fixpoint hex_text (sep : Z) (bs : list Z) : list Z :=
  match bs with
  | [] => []
  | v :: bs' =>
      hex_digit (v / 16) :: hex_digit (v mod 16) ::
      (match bs' with [] => [] | _ => (if sep =? 0 then [] else [sep]) ++ hex_text sep bs' end)
  end.

Definition lower (s : list Z) : list Z := map (fun c => ossl_tolower (to_char c)) s.

(** ** Lemmas *)

Lemma upto_nul_cstr s t : 0 ∉ s -> upto_nul (s ++ 0 :: t) = s.
Proof.
  induction s as [|c s IH]; intros H; [done|]. apply not_elem_of_cons in H as [Hc H]. cbn.
  replace (c =? 0) with false by lia. by rewrite IH.
Qed.

Lemma upto_nul_prefix l : exists r, l = upto_nul l ++ r.
Proof.
  induction l as [|c l [r IH]]; [by exists []|]. cbn. destruct (c =? 0); [by exists (c :: l)|].
  exists r. cbn. by rewrite <- IH.
Qed.

(** A store behind octets that were stored before. *)
Lemma store_behind m b o acc v :
  room m (Ptr b o) (Z.of_nat (S (length acc))) ->
  store (Ptr b (o + Z.of_nat (length acc))) v (mwrite m (Ptr b o) acc) =
    Ret (tt, mwrite m (Ptr b o) (acc ++ [to_uchar v])).
Proof.
  intros Hr. apply (store_bytes_after m (Ptr b o) acc [to_uchar v]). eapply room_le; [done|]. cbn. lia.
Qed.

(** Octets of another object during the stores. *)
Lemma load_beside m b o acc p v bs :
  ~ in_block p b -> bytes_at m p (v :: bs) -> load p (mwrite m (Ptr b o) acc) = Ret (v, mwrite m (Ptr b o) acc).
Proof. intros Hn H. eapply load_at, bytes_at_mwrite_ne; [|done|done]. done. Qed.

Lemma not_in_block_padd p n b : ~ in_block p b -> ~ in_block (padd p n) b.
Proof. by destruct p. Qed.

(** *** Lengths and copies *)

Lemma strnlen_loop_run k : forall m p l n,
  bytes_at m p l -> (k <= length l)%nat \/ (0 ∈ l) ->
  strnlen_loop k p n m = Ret (n + Z.of_nat (length (upto_nul (take k l))), m).
Proof.
  induction k as [|k IH]; intros m p l n Hb Hl; cbn [strnlen_loop].
  - rewrite mret_run. do 2 f_equal. rewrite take_0; cbn [upto_nul length]. lia.
  - destruct l as [|c l]; [destruct Hl as [Hl|Hl]; [cbn in Hl; lia|by apply elem_of_nil in Hl]|].
    rewrite (bind_ret _ _ _ _ _ (load_at _ _ _ _ Hb)). cbn [firstn upto_nul]. change CH_ZERO with 0.
    destruct (Z.eqb_spec c 0) as [->|Hc]; [rewrite mret_run; do 2 f_equal; cbn [length]; lia|].
    apply bytes_at_cons in Hb as [_ Hb]. rewrite (IH m (padd p 1) l); [|done|].
    + do 2 f_equal. cbn [length]. lia.
    + destruct Hl as [Hl|[E|Hl]%elem_of_cons]; [left; cbn in Hl; lia|lia|by right].
Qed.

Lemma strlcpy_loop_run k : forall m b o acc src s t size l,
  ~ in_block src b -> bytes_at m src (s ++ 0 :: t) -> 0 ∉ s -> Forall is_byte s ->
  room m (Ptr b o) (Z.of_nat (length acc + length (take k s))) ->
  let n := Z.of_nat (length (take k s)) in
  strlcpy_loop k (Ptr b (o + Z.of_nat (length acc))) src size l (mwrite m (Ptr b o) acc) =
    Ret ((Ptr b (o + Z.of_nat (length (acc ++ take k s))), padd src n, size - n, l + n),
         mwrite m (Ptr b o) (acc ++ take k s)).
Proof.
  induction k as [|k IH]; intros m b o acc src s t size l Hnb Hs H0 Hby Hr; cbn zeta; cbn [strlcpy_loop firstn].
  - rewrite app_nil_r, padd_0. cbn [length]. by rewrite Z.sub_0_r, Z.add_0_r.
  - destruct s as [|c s].
    + rewrite (bind_ret _ _ _ _ _ (load_beside _ _ _ _ _ _ _ Hnb Hs)). cbn [Z.eqb].
      rewrite app_nil_r, padd_0. cbn [length]. by rewrite Z.sub_0_r, Z.add_0_r.
    + apply not_elem_of_cons in H0 as [Hc H0]. apply Forall_cons in Hby as [Hcb Hby]. cbn [length firstn] in Hr.
      rewrite (bind_ret _ _ _ _ _ (load_beside _ _ _ _ _ _ _ Hnb Hs)). replace (c =? 0) with false by lia.
      erewrite bind_ret by (apply store_behind; eapply room_le; [done|lia]). rewrite to_uchar_id by done.
      apply bytes_at_cons in Hs as [_ Hs]. cbn [padd].
      replace (o + Z.of_nat (length acc) + 1) with (o + Z.of_nat (length (acc ++ [c])))
        by (rewrite length_app; cbn; lia).
      rewrite (IH m b o (acc ++ [c]) (padd src 1) s t);
        [|by apply not_in_block_padd|done|done|done|eapply room_le; [done|rewrite length_app; cbn; lia]].
      rewrite <- app_assoc, padd_padd. cbn [app length].
      replace (1 + Z.of_nat (length (take k s))) with (Z.of_nat (S (length (take k s)))) by lia.
      replace (l + 1 + Z.of_nat (length (take k s))) with (l + Z.of_nat (S (length (take k s)))) by lia.
      by replace (size - 1 - Z.of_nat (length (take k s))) with (size - Z.of_nat (S (length (take k s)))) by lia.
Qed.

Lemma cstr_at_drop m p s n :
  (n <= length s)%nat -> cstr_at m p s -> cstr_at m (padd p (Z.of_nat n)) (drop n s).
Proof.
  intros Hn [Hb H0]. split.
  - rewrite <- (take_drop n s), <- app_assoc in Hb. apply bytes_at_app in Hb as [_ Hb].
    by rewrite length_take_le in Hb.
  - intros Hin. apply H0. rewrite <- (take_drop n s). apply elem_of_app. by right.
Qed.

(** What [OPENSSL_strlcpy] stores. *)
Definition strlcpy_octets (size : Z) (s : list Z) : list Z :=
  take (Z.to_nat (size - 1)) s ++ (if size =? 0 then [] else [0]).

(** A bounded copy: as much of the string as fits with its terminator; the
    result is the length of the whole string. *)
Lemma strlcpy_run m b o src s size :
  ~ in_block src b -> cstr_at m src s -> Forall is_byte s -> 0 <= size < 2 ^ 64 ->
  Z.of_nat (length s) < 2 ^ 64 ->
  room m (Ptr b o) (Z.of_nat (length (strlcpy_octets size s))) ->
  OPENSSL_strlcpy (Ptr b o) src size m =
    Ret (Z.of_nat (length s), mwrite m (Ptr b o) (strlcpy_octets size s)).
Proof.
  intros Hnb Hc Hby Hsz Hl Hr. unfold OPENSSL_strlcpy, strlcpy_octets in *.
  set (k := Z.to_nat (size - 1)) in *. rewrite length_app in Hr.
  assert (length (take k s) <= length s /\ (length (take k s) <= k))%nat as Hk by (rewrite length_take; lia).
  pose proof (strlcpy_loop_run k m b o [] src s [] size 0 Hnb) as E. cbn [length Nat.add app] in E.
  rewrite mwrite_nil, Z.add_0_r in E.
  rewrite (bind_ret _ _ _ _ _ (E (proj1 Hc) (proj2 Hc) Hby ltac:(eapply room_le; [exact Hr|lia]))).
  set (n := length (take k s)) in *. cbv beta iota zeta.
  assert (exists m', (if truthy (size - Z.of_nat n)
    then store (Ptr b (o + Z.of_nat n)) CH_ZERO else mret tt) (mwrite m (Ptr b o) (take k s)) = Ret (tt, m') /\
    m' = mwrite m (Ptr b o) (take k s ++ (if size =? 0 then [] else [0]))) as (m' & E' & Em').
  { eexists. split; [|reflexivity]. unfold truthy. destruct (Z.eqb_spec size 0) as [->|Hne].
    - unfold n. replace (take k s) with (@nil Z) by done. rewrite app_nil_r. done.
    - replace (size - Z.of_nat n =? 0) with false by lia. cbn [negb].
      apply store_behind. eapply room_le; [done|cbn; lia]. }
  rewrite (bind_ret _ _ _ _ _ E'). subst m'.
  assert (cstr_at (mwrite m (Ptr b o) (take k s ++ (if size =? 0 then [] else [0])))
    (padd src (Z.of_nat n)) (drop n s)) as Hs.
  { apply (cstr_at_mwrite_ne _ _ _ _ _ b); [done|by apply not_in_block_padd|]. apply cstr_at_drop; [lia|done]. }
  rewrite (bind_ret _ _ _ _ _ (strlen_at _ _ _ Hs)), mret_run.
  rewrite length_drop. do 2 f_equal. rewrite to_size_id by (change (2 ^ 64) with 18446744073709551616 in *; lia). lia.
Qed.

(** The end of the string that is extended, or of the buffer. *)
Lemma strlcat_loop_run size : forall m p d t l,
  bytes_at m p (d ++ t) -> 0 ∉ d -> (size <= length d)%nat \/ (exists t', t = 0 :: t') ->
  strlcat_loop size p l m =
    Ret ((padd p (Z.of_nat (length (take size d))), (size - length d)%nat,
          l + Z.of_nat (length (take size d))), m).
Proof.
  induction size as [|size IH]; intros m p d t l Hb H0 Ht; cbn [strlcat_loop].
  - rewrite take_0. cbn [length]. by rewrite padd_0, Z.add_0_r.
  - destruct d as [|c d].
    + destruct Ht as [Ht|(t' & ->)]; [cbn in Ht; lia|].
      rewrite (bind_ret _ _ _ _ _ (load_at _ _ _ _ Hb)). cbn [firstn length Z.eqb]. by rewrite padd_0, Z.add_0_r.
    + rewrite (bind_ret _ _ _ _ _ (load_at _ _ _ _ Hb)). apply not_elem_of_cons in H0 as [Hc H0].
      replace (c =? 0) with false by lia. apply bytes_at_cons in Hb as [_ Hb].
      rewrite (IH m (padd p 1) d t); [|done|done|destruct Ht as [Ht|Ht]; [left; cbn in Ht; lia|by right]].
      cbn [firstn length Nat.sub]. rewrite padd_padd.
      replace (1 + Z.of_nat (length (take size d))) with (Z.of_nat (S (length (take size d)))) by lia.
      by replace (l + 1 + Z.of_nat (length (take size d))) with (l + Z.of_nat (S (length (take size d)))) by lia.
Qed.

Section copies.
Context {AL : Allocator} {ALL : AllocatorLaws}.

(** A new object with the octets [c], or none when the allocation fails. *)
Definition duplicated (m : mem) (c : list Z) (n : Z) (o : outcome (ptr * mem)) : Prop :=
  (o = Ret (NULL, m) /\ alloc_ok m n = false) \/
  (exists b, o = Ret (Ptr b 0, <[b := c]> m) /\ m !! b = None).

(** Allocation followed by filling the object. *)
Lemma malloc_fill m n c (f : ptr -> M mem unit) :
  0 < n ->
  (forall b l, m !! b = None -> length l = Z.to_nat n -> f (Ptr b 0) (<[b := l]> m) = Ret (tt, <[b := c]> m)) ->
  duplicated m c n
    ((ret ← CRYPTO_malloc n; (if negb (is_null ret) then f ret else mret tt);; mret ret) m).
Proof using ALL.
  intros Hn Hf. destruct (malloc_run n m Hn) as (ret & m' & E & [(-> & -> & Hok)|(b & l & -> & Hb & -> & Hl)]);
    rewrite (bind_ret _ _ _ _ _ E); cbn [is_null negb]; [by left|right].
  exists b. by rewrite (bind_ret _ _ _ _ _ (Hf b l Hb Hl)).
Qed.

Lemma mwrite_insert (m : mem) b l c :
  mwrite (<[b := l]> m) (Ptr b 0) c = <[b := splice 0 c l]> m.
Proof using. cbn [mwrite]. change (Z.to_nat 0) with 0%nat. apply map_eq. intros i.
  destruct (decide (i = b)) as [->|Hne].
  - by rewrite lookup_alter_eq, !lookup_insert_eq.
  - by rewrite lookup_alter_ne, !lookup_insert_ne by congruence.
Qed.

Lemma splice_all (c l : list Z) : length c = length l -> splice 0 c l = c.
Proof using. intros H. unfold splice. cbn. rewrite drop_ge by lia. apply app_nil_r. Qed.

(** An object that did not exist is beside the ones that did. *)
Lemma bytes_at_new m b l p c : m !! b = None -> bytes_at m p c -> bytes_at (<[b := l]> m) p c /\ ~ in_block p b.
Proof using.
  intros Hb [t Ht]. destruct p as [| |b' o]; [done|done|]. cbn [tail_at] in Ht.
  assert (b' <> b) by (intros ->; by rewrite Hb in Ht).
  split; [|done]. exists t. cbn [tail_at]. by rewrite lookup_insert_ne.
Qed.

Lemma memcpy_new m b l p c :
  m !! b = None -> bytes_at m p c -> (length c <= length l)%nat -> Z.of_nat (length c) < 2 ^ 64 ->
  memcpy (Ptr b 0) p (Z.of_nat (length c)) (<[b := l]> m) = Ret (tt, mwrite (<[b := l]> m) (Ptr b 0) c).
Proof using.
  intros Hb Hc Hl H64. destruct (bytes_at_new m b l p c Hb Hc) as [Hc' Hnb].
  apply (memcpy_at _ _ _ b); [by right| |done|done|done].
  apply room_block; [lia|]. exists l. rewrite lookup_insert_eq. split; [done|lia].
Qed.

Lemma CRYPTO_memdup_run m p c :
  bytes_at m p c -> 0 < Z.of_nat (length c) < INT_MAX ->
  duplicated m c (Z.of_nat (length c)) (CRYPTO_memdup p (Z.of_nat (length c)) m).
Proof using ALL.
  intros Hc Hl. unfold CRYPTO_memdup, INT_MAX in *. replace (is_null p) with false by (destruct Hc; by destruct p).
  replace (_ <=? _) with false by lia. cbn [orb].
  destruct (malloc_run (Z.of_nat (length c)) m) as (ret & m' & E & [(-> & -> & Hok)|(b & l & -> & Hb & -> & Hll)]); [lia|..];
    rewrite (bind_ret _ _ _ _ _ E); cbn [is_null]; [by left|right].
  exists b. rewrite (bind_ret _ _ _ _ _ (memcpy_new m b l p c Hb Hc ltac:(lia) ltac:(lia))), mret_run.
  by rewrite mwrite_insert, splice_all by lia.
Qed.

Lemma CRYPTO_strdup_run m p s :
  cstr_at m p s -> Z.of_nat (length s) < 2 ^ 64 - 1 ->
  duplicated m (s ++ [0]) (Z.of_nat (length s) + 1) (CRYPTO_strdup p m).
Proof using ALL.
  intros Hc Hl. unfold CRYPTO_strdup. pose proof Hc as [Hb H0].
  replace (is_null p) with false by (destruct Hb; by destruct p).
  rewrite (bind_ret _ _ _ _ _ (strlen_at _ _ _ Hc)). apply malloc_fill; [lia|].
  intros b l Hn Hll. destruct (bytes_at_new m b l p (s ++ [0]) Hn Hb) as [Hb' Hnb].
  unfold strcpy. erewrite bind_ret by by apply strlen_at.
  replace (Z.of_nat (length s) + 1) with (Z.of_nat (length (s ++ [0]))) by (rewrite length_app; cbn; lia).
  rewrite memcpy_new; [|done|done|rewrite length_app; cbn; lia..].
  rewrite mwrite_insert, splice_all; [done|]. rewrite length_app. cbn. lia.
Qed.

(** The characters before the first NUL, but at most [n]. *)
Lemma CRYPTO_strndup_run m p l n :
  bytes_at m p l -> 0 <= n < 2 ^ 64 - 1 -> n <= Z.of_nat (length l) \/ 0 ∈ l -> Z.of_nat (length l) < 2 ^ 64 - 1 ->
  let s := upto_nul (take (Z.to_nat n) l) in
  duplicated m (s ++ [0]) (Z.of_nat (length s) + 1) (CRYPTO_strndup p n m).
Proof using ALL.
  intros Hb Hn Hl Hll s. unfold CRYPTO_strndup, OPENSSL_strnlen.
  replace (is_null p) with false by (destruct Hb; by destruct p).
  assert (exists r, l = s ++ r) as (r & El).
  { destruct (upto_nul_prefix (take (Z.to_nat n) l)) as (r & Er). exists (r ++ drop (Z.to_nat n) l).
    fold s in Er. by rewrite app_assoc, <- Er, take_drop. }
  pose proof (strnlen_loop_run (Z.to_nat n) m p l 0 Hb) as E. fold s in E.
  rewrite (bind_ret _ _ _ _ _ (E ltac:(destruct Hl; [left; lia|by right]))), Z.add_0_l.
  assert (length s <= length l)%nat as Hsl by (rewrite El, length_app; lia).
  rewrite to_size_id by (change (2 ^ 64) with 18446744073709551616 in *; lia).
  apply malloc_fill; [lia|]. intros b l' Hnb Hl'.
  assert (bytes_at m p s) as Hs by (rewrite El in Hb; by apply bytes_at_app_l in Hb).
  rewrite (bind_ret _ _ _ _ _ (memcpy_new m b l' p s Hnb Hs ltac:(lia) ltac:(lia))).
  cbn [padd]. rewrite (store_behind _ b 0 s 0).
  - change (to_uchar 0) with 0. rewrite mwrite_insert, splice_all; [done|]. rewrite length_app. cbn. lia.
  - apply room_block; [lia|]. exists l'. rewrite lookup_insert_eq. split; [done|lia].
Qed.
End copies.

(** *** Hexadecimal text *)

Lemma hexchar_range c : -1 <= OPENSSL_hexchar2int c <= 15.
Proof. unfold OPENSSL_hexchar2int. repeat case_match; lia. Qed.

Lemma nibbles a b : 0 <= a <= 15 -> 0 <= b <= 15 -> to_uchar (Z.lor (Z.shiftl a 4) b) = a * 16 + b.
Proof.
  intros Ha Hb. rewrite Z.shiftl_mul_pow2 by lia. change (2 ^ 4) with 16.
  change (a * 16) with (a * 2 ^ 4). rewrite lor_low by lia. apply to_uchar_id. unfold is_byte. lia.
Qed.

(** The result of reading [s] behind [n] octets that were read. *)
Definition hex_result (sep : Z) (s : list Z) (n buf_n : Z) : option Z :=
  match hex_parse sep s with
  | Some bs => if n + Z.of_nat (length bs) <=? buf_n then Some (n + Z.of_nat (length bs)) else None
  | None => None
  end.

Lemma hexstr2buf_loop_run fuel : forall m b o acc p s t sep buf_n,
  ~ in_block p b -> bytes_at m p (s ++ 0 :: t) -> 0 ∉ s -> (length s < fuel)%nat ->
  Z.of_nat (length acc) <= buf_n -> Z.of_nat (length acc + length s) < 2 ^ 64 -> room m (Ptr b o) buf_n ->
  exists new,
    hexstr2buf_loop fuel p (Ptr b (o + Z.of_nat (length acc))) (Z.of_nat (length acc)) buf_n sep
      (mwrite m (Ptr b o) acc) =
      Ret (hex_result sep s (Z.of_nat (length acc)) buf_n, mwrite m (Ptr b o) (acc ++ new)) /\
    Z.of_nat (length (acc ++ new)) <= buf_n /\
    (hex_result sep s (Z.of_nat (length acc)) buf_n <> None -> hex_parse sep s = Some new).
Proof.
  induction fuel as [|fuel IH]; intros m b o acc p s t sep buf_n Hnb Hb H0 Hf Ha H64 Hr; [lia|].
  cbn [hexstr2buf_loop].
  assert (forall P : list Z -> Prop, exists new,
    (Ret (None, mwrite m (Ptr b o) acc) : outcome (option Z * mem)) = Ret (None, mwrite m (Ptr b o) (acc ++ new)) /\
    Z.of_nat (length (acc ++ new)) <= buf_n /\ (@None Z <> None -> P new)) as Hstop.
  { intros P. exists []. by rewrite app_nil_r. }
  destruct s as [|ch s1].
  { rewrite (bind_ret _ _ _ _ _ (load_beside _ _ _ _ _ _ _ Hnb Hb)). exists []. rewrite app_nil_r.
    unfold hex_result. cbn [hex_parse length Z.eqb]. rewrite Z.add_0_r. by replace (_ <=? buf_n) with true by lia. }
  apply not_elem_of_cons in H0 as [Hch H0]. cbn [length] in Hf, H64.
  rewrite (bind_ret _ _ _ _ _ (load_beside _ _ _ _ _ _ _ Hnb Hb)). replace (ch =? 0) with false by lia.
  apply bytes_at_cons in Hb as [_ Hb]. unfold hex_result in *. cbn [hex_parse]. change CH_ZERO with 0.
  destruct ((ch =? sep) && negb (sep =? 0)) eqn:Esep.
  { apply (IH m b o acc (padd p 1) s1 t); [by apply not_in_block_padd|done|done|lia|done|lia|done]. }
  destruct s1 as [|cl s2].
  { rewrite (bind_ret _ _ _ _ _ (load_beside _ _ _ _ _ _ _ (not_in_block_padd _ _ _ Hnb) Hb)). cbn [Z.eqb]. apply Hstop. }
  apply not_elem_of_cons in H0 as [Hcl H0]. cbn [length] in Hf, H64.
  rewrite (bind_ret _ _ _ _ _ (load_beside _ _ _ _ _ _ _ (not_in_block_padd _ _ _ Hnb) Hb)).
  replace (cl =? 0) with false by lia.
  pose proof (hexchar_range ch) as Hh. pose proof (hexchar_range cl) as Hl.
  destruct (_ || _) eqn:Eneg; [apply Hstop|]. apply orb_false_iff in Eneg as [E1 E2].
  rewrite to_size_id by (change (2 ^ 64) with 18446744073709551616 in *; lia). cbn [is_null negb].
  destruct (Z.ltb_spec buf_n (Z.of_nat (length acc) + 1)) as [Hfull|Hspace].
  { destruct (hex_parse sep s2) as [bs|]; [|apply Hstop]. cbn [length].
    replace (_ <=? buf_n) with false by lia. apply Hstop. }
  erewrite bind_ret by (apply store_behind; eapply room_le; [done|lia]). rewrite nibbles by lia.
  set (v := _ * 16 + _). apply bytes_at_cons in Hb as [_ Hb]. cbn [padd].
  destruct (IH m b o (acc ++ [v]) (padd (padd p 1) 1) s2 t sep buf_n) as (new & E & Hn & Hp);
    [by do 2 apply not_in_block_padd|done|done|lia|rewrite length_app; cbn; lia|rewrite length_app; cbn; lia|done|].
  rewrite length_app in E, Hp. cbn [length] in E, Hp.
  replace (Z.of_nat (length acc + 1)) with (Z.of_nat (length acc) + 1) in E, Hp by lia.
  rewrite <- app_assoc in E, Hn. exists (v :: new). replace (o + Z.of_nat (length acc) + 1)
    with (o + (Z.of_nat (length acc) + 1)) by lia. rewrite E.
  destruct (hex_parse sep s2) as [bs|]; cbn [length]; [|done].
  replace (Z.of_nat (length acc) + Z.of_nat (S (length bs))) with (Z.of_nat (length acc) + 1 + Z.of_nat (length bs)) by lia.
  split; [done|]. split; [done|]. intros Hne. by injection (Hp Hne) as ->.
Qed.

Lemma hex_digit_facts v :
  0 <= v < 16 ->
  (forall m : mem, array_get hexdig v m = Ret (hex_digit v, m)) /\
  OPENSSL_hexchar2int (hex_digit v) = v /\ 0 < hex_digit v < 128.
Proof.
  intros Hv. assert (v ∈ map Z.of_nat (seq 0 16)) as Hin.
  { apply list_elem_of_fmap. exists (Z.to_nat v). split; [lia|]. apply elem_of_seq. lia. }
  cbn in Hin. rewrite !elem_of_cons, elem_of_nil in Hin.
  repeat (destruct Hin as [->|Hin]; [done|]). done.
Qed.

Lemma nibble_high v : is_byte v -> Z.land (Z.shiftr v 4) 15 = v / 16 /\ 0 <= v / 16 < 16.
Proof.
  intros Hv. unfold is_byte in Hv. change 15 with (Z.ones 4). rewrite Z.land_ones, Z.shiftr_div_pow2 by lia.
  change (2 ^ 4) with 16. assert (0 <= v / 16 < 16) by (Z.div_mod_to_equations; lia). by rewrite Z.mod_small.
Qed.

Lemma nibble_low v : Z.land v 15 = v mod 16 /\ 0 <= v mod 16 < 16.
Proof. change 15 with (Z.ones 4). rewrite Z.land_ones by lia. split; [done|]. apply Z.mod_pos_bound. lia. Qed.

Lemma buf2hexstr_loop_run (has_sep : bool) sep bs : forall m b o acc p,
  let out := hex_pairs (if has_sep then [to_uchar sep] else []) bs in
  ~ in_block p b -> source_at m p bs -> Forall is_byte bs ->
  room m (Ptr b o) (Z.of_nat (length (acc ++ out))) ->
  buf2hexstr_loop (length bs) p (Ptr b (o + Z.of_nat (length acc))) has_sep sep (mwrite m (Ptr b o) acc) =
    Ret (Ptr b (o + Z.of_nat (length (acc ++ out))), mwrite m (Ptr b o) (acc ++ out)).
Proof.
  induction bs as [|v bs IH]; intros m b o acc p out Hnb Hs Hby Hr.
  { unfold out. cbn [hex_pairs flat_map buf2hexstr_loop length]. by rewrite app_nil_r. }
  destruct Hs as [|Hs]; [done|]. apply Forall_cons in Hby as [Hv Hby].
  set (s := if has_sep then [to_uchar sep] else []) in *.
  set (h := hex_digit (v / 16)). set (l := hex_digit (v mod 16)).
  assert (out = [h; l] ++ s ++ hex_pairs s bs) as Eout by done. clearbody out. subst out.
  rewrite !length_app in Hr. cbn [length] in Hr. cbn [buf2hexstr_loop length].
  destruct (nibble_high v Hv) as [Eh Hh]. destruct (nibble_low v) as [El Hl].
  destruct (hex_digit_facts _ Hh) as (Gh & _ & Bh). destruct (hex_digit_facts _ Hl) as (Gl & _ & Bl). fold h in Gh, Bh. fold l in Gl, Bl.
  rewrite (bind_ret _ _ _ _ _ (load_beside _ _ _ _ _ _ _ Hnb Hs)), Eh, (bind_ret _ _ _ _ _ (Gh _)).
  erewrite bind_ret by (apply store_behind; eapply room_le; [done|lia]).
  rewrite (to_uchar_id h) by (unfold is_byte; lia).
  rewrite (bind_ret _ _ _ _ _ (load_beside _ _ _ _ _ _ _ Hnb Hs)), El, (bind_ret _ _ _ _ _ (Gl _)). cbn [padd].
  replace (o + Z.of_nat (length acc) + 1) with (o + Z.of_nat (length (acc ++ [h]))) by (rewrite length_app; cbn; lia).
  erewrite bind_ret by (apply store_behind; eapply room_le; [done|rewrite length_app; cbn; lia]).
  rewrite (to_uchar_id l), <- app_assoc by (unfold is_byte; lia). cbn [app].
  apply bytes_at_cons in Hs as [_ Hs].
  destruct has_sep; subst s; cbn [length app] in Hr |- *.
  - replace (o + Z.of_nat (length acc) + 2) with (o + Z.of_nat (length (acc ++ [h; l]))) by (rewrite length_app; cbn; lia).
    erewrite bind_ret by (apply store_behind; eapply room_le; [done|rewrite length_app; cbn; lia]).
    replace (o + Z.of_nat (length acc) + 3) with (o + Z.of_nat (length ((acc ++ [h; l]) ++ [to_uchar sep])))
      by (rewrite !length_app; cbn; lia).
    rewrite IH; [by rewrite <- !app_assoc|by apply not_in_block_padd|by right|done|].
    eapply room_le; [done|]. rewrite !length_app. cbn. lia.
  - replace (o + Z.of_nat (length acc) + 2) with (o + Z.of_nat (length (acc ++ [h; l]))) by (rewrite length_app; cbn; lia).
    rewrite IH; [by rewrite <- !app_assoc|by apply not_in_block_padd|by right|done|].
    eapply room_le; [done|]. rewrite !length_app. cbn. lia.
Qed.

(** A write that starts at the last octet of the one before. *)
Lemma mwrite_overlap m b o x y zs :
  zs <> [] -> room m (Ptr b o) (Z.of_nat (length x + length zs)) ->
  mwrite (mwrite m (Ptr b o) (x ++ [y])) (Ptr b (o + Z.of_nat (length x))) zs = mwrite m (Ptr b o) (x ++ zs).
Proof.
  intros Hz Hr. destruct zs as [|z zs]; [done|].
  apply room_block in Hr as (l & Hl & Ho & Hlen); [|lia]. cbn [mwrite length] in *.
  rewrite alter_alter_eq. apply alter_ext. intros l' Hl'. rewrite Hl in Hl'. injection Hl' as <-. cbn [compose].
  unfold splice at 2. replace (Z.to_nat (o + Z.of_nat (length x))) with (length (take (Z.to_nat o) l ++ x))
    by (rewrite length_app, length_take; lia).
  rewrite <- app_assoc, (app_assoc (take _ _)). set (a := take (Z.to_nat o) l ++ x). cbn [app].
  assert (drop (length a + S (length zs)) (a ++ y :: drop (Z.to_nat o + length (x ++ [y])) l) =
    drop (Z.to_nat o + length (x ++ z :: zs)) l) as Ed.
  { rewrite <- drop_drop, drop_app_length. cbn [skipn]. rewrite drop_drop. f_equal. rewrite !length_app. cbn. lia. }
  unfold splice. cbn [length]. rewrite take_app_length, Ed. unfold a. by rewrite <- !app_assoc.
Qed.

Lemma mwrite_last m b o x y z :
  room m (Ptr b o) (Z.of_nat (S (length x))) ->
  mwrite (mwrite m (Ptr b o) (x ++ [y])) (Ptr b (o + Z.of_nat (length x))) [z] = mwrite m (Ptr b o) (x ++ [z]).
Proof. intros Hr. apply mwrite_overlap; [done|]. eapply room_le; [done|]. cbn. lia. Qed.

Lemma hex_pairs_none sep bs : sep = 0 -> hex_pairs [] bs = hex_text sep bs.
Proof.
  intros ->. induction bs as [|v bs IH]; [done|]. cbn [hex_pairs flat_map app hex_text Z.eqb].
  fold (hex_pairs [] bs). rewrite IH. by destruct bs.
Qed.

Lemma hex_pairs_sep sep bs : sep <> 0 -> bs <> [] -> hex_pairs [sep] bs = hex_text sep bs ++ [sep].
Proof.
  intros Hs. induction bs as [|v bs IH]; [done|]. intros _. cbn [hex_pairs flat_map app hex_text].
  fold (hex_pairs [sep] bs). destruct bs as [|v' bs]; [done|]. rewrite IH by done.
  replace (sep =? 0) with false by lia. done.
Qed.

Lemma length_hex_pairs s bs : length (hex_pairs s bs) = (length bs * (2 + length s))%nat.
Proof. induction bs as [|v bs IH]; [done|]. cbn [hex_pairs flat_map length]. rewrite length_app. fold (hex_pairs s bs). cbn. lia. Qed.

(** A separator that the reader recognises, or none. *)
Definition separator (sep : Z) : Prop := sep = 0 \/ (0 < sep < 128 /\ OPENSSL_hexchar2int sep < 0).

Lemma separator_uchar sep : separator sep -> to_uchar sep = sep.
Proof. intros [->|[H _]]; [done|]. apply to_uchar_id. unfold is_byte. lia. Qed.

(** The length with the terminator. *)
Definition hex_length (sep : Z) (bs : list Z) : Z :=
  if sep =? 0 then 1 + Z.of_nat (length bs) * 2 else Z.of_nat (length bs) * 3.

Lemma length_hex_text sep bs :
  sep = 0 \/ bs <> [] -> Z.of_nat (length (hex_text sep bs ++ [0])) = hex_length sep bs.
Proof.
  intros H. unfold hex_length. rewrite length_app. destruct (Z.eqb_spec sep 0) as [->|Hs].
  - rewrite <- hex_pairs_none, length_hex_pairs by done. cbn. lia.
  - destruct H as [|H]; [done|]. pose proof (f_equal length (hex_pairs_sep sep bs Hs H)) as E.
    rewrite length_hex_pairs, length_app in E. cbn [length] in *. lia.
Qed.

Lemma buf2hexstr_run m b o p bs sep n :
  ~ in_block p b -> source_at m p bs -> Forall is_byte bs -> sep = 0 \/ (0 < sep < 128 /\ bs <> []) ->
  hex_length sep bs <= n < 2 ^ 64 -> room m (Ptr b o) n ->
  buf2hexstr_sep (Ptr b o) n p (Z.of_nat (length bs)) sep m =
    Ret ((true, hex_length sep bs), mwrite m (Ptr b o) (hex_text sep bs ++ [0])).
Proof.
  intros Hnb Hs Hby Hsep Hn Hr.
  assert (sep = 0 \/ bs <> []) as Hsep' by tauto. pose proof (length_hex_text sep bs Hsep') as Hlen.
  assert (to_uchar sep = sep) as Hu by (apply to_uchar_id; unfold is_byte; lia).
  rewrite length_app in Hlen. cbn [length] in Hlen.
  unfold buf2hexstr_sep. change CH_ZERO with 0. cbn [is_null].
  assert (to_size (if negb (sep =? 0) then Z.of_nat (length bs) * 3 else 1 + Z.of_nat (length bs) * 2) = hex_length sep bs) as ->.
  { unfold hex_length in *. destruct (sep =? 0); cbn [negb]; apply to_size_id; change (2 ^ 64) with 18446744073709551616 in *; lia. }
  replace (n <? hex_length sep bs) with false by lia. rewrite Nat2Z.id.
  pose proof (buf2hexstr_loop_run (negb (sep =? 0)) sep bs m b o [] p Hnb Hs Hby) as E.
  rewrite Hu in E. cbn [app length] in E. rewrite mwrite_nil, Z.add_0_r in E.
  destruct (Z.eqb_spec sep 0) as [Hz|Hnz]; cbn [negb] in *.
  - rewrite (hex_pairs_none sep bs Hz) in E. rewrite (bind_ret _ _ _ _ _ (E ltac:(eapply room_le; [exact Hr|lia]))).
    erewrite bind_ret by (apply store_behind; eapply room_le; [done|lia]). done.
  - destruct Hsep as [|[_ Hne]]; [done|]. rewrite (hex_pairs_sep sep bs Hnz Hne), length_app in E. cbn [length] in E.
    rewrite (bind_ret _ _ _ _ _ (E ltac:(eapply room_le; [exact Hr|lia]))). cbn [padd].
    replace (o + Z.of_nat (length (hex_text sep bs) + 1) + -1) with (o + Z.of_nat (length (hex_text sep bs))) by lia.
    erewrite bind_ret.
    2:{ apply store_room. rewrite room_mwrite; [|eapply room_le; [exact Hr|]; rewrite length_app; cbn; lia|lia].
        apply (room_padd _ _ _ (Z.of_nat (length (hex_text sep bs)))) in Hr; [|lia]. eapply room_le; [exact Hr|lia]. }
    rewrite mwrite_last by (eapply room_le; [done|lia]). done.
Qed.

Lemma hex_parse_text sep bs : separator sep -> Forall is_byte bs -> hex_parse sep (hex_text sep bs) = Some bs.
Proof.
  intros Hs. induction 1 as [|v bs Hv _ IH]; [done|]. cbn [hex_text].
  destruct (nibble_high v Hv) as [_ Hh]. destruct (nibble_low v) as [_ Hl].
  destruct (hex_digit_facts _ Hh) as (_ & Eh & Bh). destruct (hex_digit_facts _ Hl) as (_ & El & _).
  set (rest := match bs with [] => [] | _ => _ end).
  assert (hex_parse sep rest = Some bs) as Er.
  { unfold rest. destruct bs as [|v' bs]; [done|]. destruct (Z.eqb_spec sep 0) as [->|Hne]; [exact IH|].
    cbn [app hex_parse]. rewrite Z.eqb_refl. by replace (sep =? 0) with false by lia. }
  clearbody rest. cbn [hex_parse].
  assert ((hex_digit (v / 16) =? sep) && negb (sep =? 0) = false) as ->.
  { destruct Hs as [->|[Hs1 Hs2]]; [apply andb_false_r|]. apply andb_false_iff. left. apply Z.eqb_neq. intros <-. lia. }
  rewrite Eh, El, Er. replace (_ || _) with false by lia. do 2 f_equal. Z.div_mod_to_equations. lia.
Qed.

Lemma hex_text_no_nul sep bs : Forall is_byte bs -> 0 ∉ hex_text sep bs.
Proof.
  induction 1 as [|v bs Hv _ IH]; [apply not_elem_of_nil|]. cbn [hex_text].
  destruct (nibble_high v Hv) as [_ Hh]. destruct (nibble_low v) as [_ Hl].
  destruct (hex_digit_facts _ Hh) as (_ & _ & Bh). destruct (hex_digit_facts _ Hl) as (_ & _ & Bl).
  rewrite !elem_of_cons. intros [E|[E|Hin]]; [lia|lia|]. destruct bs as [|v' bs]; [by apply elem_of_nil in Hin|].
  apply elem_of_app in Hin as [Hin|Hin]; [|done]. destruct (Z.eqb_spec sep 0); [by apply elem_of_nil in Hin|].
  apply list_elem_of_singleton in Hin. lia.
Qed.

(** *** Comparison without case *)

Definition low (c : Z) : Z := ossl_tolower (to_char c).

Lemma low_nul c : is_byte c -> low c = 0 -> c = 0.
Proof.
  unfold is_byte, low. intros Hc. rewrite tolower_spec. unfold ossl_isupper, ossl_toascii, ASCII_IS_UPPER, to_char.
  destruct (_ && _) eqn:E; Z.div_mod_to_equations; lia.
Qed.

(** The first characters of two strings: the same but for case, or different. *)
Lemma first_difference m p q a b t u :
  bytes_at m p (a ++ 0 :: t) -> bytes_at m q (b ++ 0 :: u) -> Forall is_byte a -> Forall is_byte b ->
  0 ∉ a -> 0 ∉ b ->
  exists x y, load p m = Ret (x, m) /\ load q m = Ret (y, m) /\
    ((low x - low y <> 0 /\ lower a <> lower b /\ forall n, take (S n) (lower a) <> take (S n) (lower b)) \/
     (x = 0 /\ low x - low y = 0 /\ a = [] /\ b = []) \/
     (x <> 0 /\ low x - low y = 0 /\ exists a' b', a = x :: a' /\ b = y :: b' /\
        bytes_at m (padd p 1) (a' ++ 0 :: t) /\ bytes_at m (padd q 1) (b' ++ 0 :: u) /\
        Forall is_byte a' /\ Forall is_byte b' /\ (0 ∉ a') /\ (0 ∉ b'))).
Proof.
  intros Ha Hb Fa Fb Na Nb. change (low 0) with 0.
  destruct a as [|x a], b as [|y b]; cbn [app] in Ha, Hb;
    eexists _, _; (split; [by eapply load_at|]); (split; [by eapply load_at|]).
  - by right; left.
  - left. apply Forall_cons in Fb as [Fy _]. apply not_elem_of_cons in Nb as [Ny _].
    split; [|done]. intros E. apply Ny. symmetry. apply low_nul; [done|]. change (low 0) with 0 in E. lia.
  - left. apply Forall_cons in Fa as [Fx _]. apply not_elem_of_cons in Na as [Nx _].
    split; [|done]. intros E. apply Nx. symmetry. apply low_nul; [done|]. change (low 0) with 0 in E. lia.
  - destruct (Z.eq_dec (low x - low y) 0) as [E|E]; [right; right|left].
    + apply not_elem_of_cons in Na as [Nx Na]. apply not_elem_of_cons in Nb as [_ Nb].
      apply Forall_cons in Fa as [_ Fa]. apply Forall_cons in Fb as [_ Fb].
      apply bytes_at_cons in Ha as [_ Ha]. apply bytes_at_cons in Hb as [_ Hb].
      split; [done|]. split; [done|]. by exists a, b.
    + split; [done|]. cbn [lower map firstn]. fold (low x) (low y). split; [intros [= ]; lia|intros n [= ]; lia].
Qed.

Lemma lower_cons x y a b : low x - low y = 0 -> lower (x :: a) = lower (y :: b) <-> lower a = lower b.
Proof.
  intros E. cbn [lower map]. fold (low x) (low y). replace (low x) with (low y) by lia.
  split; [by intros [= ?]|]. intros E'. f_equal. exact E'.
Qed.

Lemma strcasecmp_run fuel : forall m p q a b t u,
  bytes_at m p (a ++ 0 :: t) -> bytes_at m q (b ++ 0 :: u) -> Forall is_byte a -> Forall is_byte b ->
  0 ∉ a -> 0 ∉ b -> (length a < fuel)%nat ->
  exists r, OPENSSL_strcasecmp fuel p q m = Ret (r, m) /\ (r = 0 <-> lower a = lower b).
Proof.
  induction fuel as [|fuel IH]; intros m p q a b t u Ha Hb Fa Fb Na Nb Hf; [lia|]. cbn [OPENSSL_strcasecmp].
  destruct (first_difference m p q a b t u) as (x & y & Ex & Ey & H); [done..|].
  rewrite (bind_ret _ _ _ _ _ Ex), (bind_ret _ _ _ _ _ Ey). fold (low x) (low y). cbv zeta.
  destruct H as [(Hd & Hl & _)|[(-> & -> & -> & ->)|(Hx & E0 & a' & b' & -> & -> & ? & ? & ? & ? & ? & ?)]].
  - replace (low x - low y =? 0) with false by lia. by exists (low x - low y).
  - by exists 0.
  - rewrite E0. replace (x =? 0) with false by lia. cbn [Z.eqb].
    destruct (IH m (padd p 1) (padd q 1) a' b' t u) as (r & E & Hr); [done..|cbn in Hf; lia|].
    exists r. split; [done|]. by rewrite Hr, lower_cons.
Qed.

Lemma strncasecmp_run n : forall m p q a b t u,
  bytes_at m p (a ++ 0 :: t) -> bytes_at m q (b ++ 0 :: u) -> Forall is_byte a -> Forall is_byte b ->
  0 ∉ a -> 0 ∉ b ->
  exists r, strncasecmp_loop n p q m = Ret (r, m) /\ (r = 0 <-> take n (lower a) = take n (lower b)).
Proof.
  induction n as [|n IH]; intros m p q a b t u Ha Hb Fa Fb Na Nb; cbn [strncasecmp_loop]; [by exists 0|].
  destruct (first_difference m p q a b t u) as (x & y & Ex & Ey & H); [done..|].
  rewrite (bind_ret _ _ _ _ _ Ex), (bind_ret _ _ _ _ _ Ey). fold (low x) (low y). cbv zeta.
  destruct H as [(Hd & _ & Hl)|[(-> & -> & -> & ->)|(Hx & E0 & a' & b' & -> & -> & ? & ? & ? & ? & ? & ?)]].
  - replace (low x - low y =? 0) with false by lia. exists (low x - low y). split; [done|]. specialize (Hl n). done.
  - by exists 0.
  - rewrite E0. replace (x =? 0) with false by lia. cbn [Z.eqb negb].
    destruct (IH m (padd p 1) (padd q 1) a' b' t u) as (r & E & Hr); [done..|].
    exists r. split; [done|]. rewrite Hr. cbn [lower map firstn]. fold (low x) (low y).
    replace (low x) with (low y) by lia. split; [intros E'; f_equal; exact E'|by intros [= ?]].
Qed.

(** ** Theorems *)

(** Octets printed as hexadecimal text, with any separator the reader can
    recognise or with none, are read back: [OPENSSL_buf2hexstr_ex] writes a
    terminated text of exactly the length it announces, and
    [OPENSSL_hexstr2buf_ex] on it returns the number of octets and stores them. *)
Theorem hex_roundtrip m b o n b2 o2 p bs sep fuel :
  source_at m p bs -> Forall is_byte bs -> separator sep -> sep = 0 \/ bs <> [] ->
  b2 <> b -> ~ in_block p b ->
  hex_length sep bs <= n < 2 ^ 64 -> room m (Ptr b o) n -> room m (Ptr b2 o2) (Z.of_nat (length bs)) ->
  hex_length sep bs <= Z.of_nat fuel ->
  exists m1 m2,
    OPENSSL_buf2hexstr_ex (Ptr b o) n p (Z.of_nat (length bs)) sep m = Ret ((true, hex_length sep bs), m1) /\
    cstr_at m1 (Ptr b o) (hex_text sep bs) /\
    OPENSSL_hexstr2buf_ex fuel (Ptr b2 o2) (Z.of_nat (length bs)) (Ptr b o) sep m1 =
      Ret (Some (Z.of_nat (length bs)), m2) /\
    bytes_at m2 (Ptr b2 o2) bs.
Proof.
  intros Hs Hby Hsep Hne Hb Hnb Hn Hr Hr2 Hf. pose proof (length_hex_text sep bs Hne) as Hlen.
  rewrite length_app in Hlen. cbn [length] in Hlen.
  exists (mwrite m (Ptr b o) (hex_text sep bs ++ [0])), (mwrite (mwrite m (Ptr b o) (hex_text sep bs ++ [0])) (Ptr b2 o2) bs).
  split; [apply buf2hexstr_run; try done; destruct Hsep as [|[? _]]; tauto|].
  assert (bytes_at (mwrite m (Ptr b o) (hex_text sep bs ++ [0])) (Ptr b o) (hex_text sep bs ++ [0])) as Hat.
  { apply bytes_at_mwrite_eq. eapply room_le; [done|]. rewrite length_app. cbn. lia. }
  pose proof (hex_text_no_nul sep bs Hby) as H0. split; [done|].
  assert (room (mwrite m (Ptr b o) (hex_text sep bs ++ [0])) (Ptr b2 o2) (Z.of_nat (length bs))) as Hr2'.
  { rewrite room_mwrite; [done|eapply room_le; [exact Hr|]; rewrite length_app; cbn; lia|lia]. }
  split; [|by apply bytes_at_mwrite_eq].
  set (m1 := mwrite m (Ptr b o) (hex_text sep bs ++ [0])) in *.
  destruct (hexstr2buf_loop_run fuel m1 b2 o2 [] (Ptr b o) (hex_text sep bs) [] sep (Z.of_nat (length bs)))
    as (new & E & _ & Hp); [cbn; congruence|done|done|lia|cbn; lia|cbn; lia|done|].
  unfold hex_result in E, Hp. rewrite (hex_parse_text sep bs Hsep Hby) in E, Hp.
  cbn [length app Z.of_nat] in E, Hp. rewrite mwrite_nil, Z.add_0_l, Z.add_0_r, Z.leb_refl in E.
  rewrite Z.add_0_l, Z.leb_refl in Hp. injection (Hp ltac:(done)) as <-. exact E.
Qed.

Lemma hex_roundtrip_witness :
  let m : mem := {[ 1%positive := replicate 6 0; 2%positive := [171; 5]; 3%positive := [0; 0] ]} in
  exists m1 m2,
    OPENSSL_buf2hexstr_ex (Ptr 1 0) 6 (Ptr 2 0) 2 58 m = Ret ((true, 6), m1) /\
    cstr_at m1 (Ptr 1 0) [65; 66; 58; 48; 53] /\
    OPENSSL_hexstr2buf_ex 6 (Ptr 3 0) 2 (Ptr 1 0) 58 m1 = Ret (Some 2, m2) /\
    bytes_at m2 (Ptr 3 0) [171; 5].
Proof.
  apply (hex_roundtrip {[ 1%positive := replicate 6 0; 2%positive := [171; 5]; 3%positive := [0; 0] ]}
    1 0 6 3 0 (Ptr 2 0) [171; 5] 58 6).
  - right. by exists [].
  - repeat (apply Forall_cons; split; [by split|]). by apply Forall_nil.
  - right. by split.
  - by right.
  - done.
  - done.
  - cbn. lia.
  - eexists. split; [reflexivity|by vm_compute].
  - eexists. split; [reflexivity|by vm_compute].
  - cbn. lia.
Defined.

(** Bounded concatenation: the copy goes on at the end of the destination with
    the size that is left; a destination without its end within [size] octets
    stays as it is.  The result is the length the whole would have. *)
Theorem OPENSSL_strlcat_spec m b o d t src s size :
  bytes_at m (Ptr b o) (d ++ t) -> 0 ∉ d -> size <= Z.of_nat (length d) \/ (exists t', t = 0 :: t') ->
  ~ in_block src b -> cstr_at m src s -> Forall is_byte s -> 0 <= size < 2 ^ 64 ->
  Z.of_nat (length d + length s) < 2 ^ 64 ->
  let left := Z.max 0 (size - Z.of_nat (length d)) in
  let k := Z.of_nat (length (take (Z.to_nat size) d)) in
  room m (Ptr b (o + k)) (Z.of_nat (length (strlcpy_octets left s))) ->
  OPENSSL_strlcat (Ptr b o) src size m =
    Ret (k + Z.of_nat (length s), mwrite m (Ptr b (o + k)) (strlcpy_octets left s)).
Proof.
  intros Hb H0 Ht Hnb Hc Hby Hsz Hl left k Hr. unfold OPENSSL_strlcat.
  rewrite (bind_ret _ _ _ _ _ (strlcat_loop_run (Z.to_nat size) m (Ptr b o) d t 0 Hb H0
    ltac:(destruct Ht; [left; lia|by right]))). cbv beta iota. cbn [padd]. fold k. rewrite Z.add_0_l.
  replace (Z.of_nat (Z.to_nat size - length d)) with left by lia.
  erewrite bind_ret by (apply strlcpy_run; [done|done|done|lia|lia|done]). rewrite mret_run.
  assert (k <= Z.of_nat (length d)) by (unfold k; rewrite length_take; lia).
  by rewrite to_size_id by (change (2 ^ 64) with 18446744073709551616 in *; lia).
Qed.

(** The reader of hexadecimal text is the parser: it fails exactly where the
    parser does or where the octets do not fit in the buffer, stores the octets,
    and writes nothing but the buffer. *)
Theorem OPENSSL_hexstr2buf_ex_refines m b o buf_n p s sep fuel :
  cstr_at m p s -> ~ in_block p b -> (length s < fuel)%nat -> Z.of_nat (length s) < 2 ^ 64 ->
  0 <= buf_n -> room m (Ptr b o) buf_n ->
  exists new,
    OPENSSL_hexstr2buf_ex fuel (Ptr b o) buf_n p sep m =
      Ret (hex_result sep s 0 buf_n, mwrite m (Ptr b o) new) /\
    Z.of_nat (length new) <= buf_n /\
    (hex_result sep s 0 buf_n <> None -> hex_parse sep s = Some new).
Proof.
  intros [Hb H0] Hnb Hf Hl Hn Hr.
  destruct (hexstr2buf_loop_run fuel m b o [] p s [] sep buf_n) as (new & E & Hnew); [done..|cbn; lia|done|].
  cbn [app length Z.of_nat] in E. rewrite mwrite_nil, Z.add_0_r in E. by exists new.
Qed.

Lemma hex_parse_length sep n : forall s bs,
  (length s <= n)%nat -> hex_parse sep s = Some bs -> (2 * length bs <= length s)%nat.
Proof.
  induction n as [|n IH]; intros [|ch s] bs Hn; cbn [hex_parse length] in *; try lia; try (intros [= <-]; cbn; lia).
  destruct (_ && _); [intros H; apply IH in H; lia|].
  destruct s as [|cl s]; [done|]. destruct (_ || _); [done|]. destruct (hex_parse sep s) as [bs'|] eqn:E; [|done].
  intros [= <-]. apply IH in E; cbn [length] in *; lia.
Qed.

Section allocated.
Context {AL : Allocator} {ALL : AllocatorLaws}.

(** The variant that allocates the octets: the object is never too small, and on
    a text that is no hexadecimal text it is freed again, so that the heap is as
    it was. *)
Theorem hexstr2buf_allocated m p s sep fuel :
  cstr_at m p s -> (length s < fuel)%nat -> 1 < Z.of_nat (length s) < 2 ^ 64 ->
  exists r m', ossl_hexstr2buf_sep fuel p sep m = Ret (r, m') /\
    (hex_parse sep s = None -> r.1 = NULL /\ m' = m) /\
    (forall c, hex_parse sep s = Some c ->
       (r = (NULL, None) /\ m' = m /\ alloc_ok m (Z.of_nat (length s) / 2) = false) \/
       (exists b rest, r = (Ptr b 0, Some (Z.of_nat (length c))) /\ m !! b = None /\ m' = <[b := c ++ rest]> m)).
Proof using ALL.
  intros Hc Hf Hl.
  unfold ossl_hexstr2buf_sep. rewrite (bind_ret _ _ _ _ _ (strlen_at _ _ _ Hc)).
  replace (_ <=? 1) with false by lia. cbv zeta. set (n := Z.of_nat (length s) / 2).
  assert (0 < n <= Z.of_nat (length s)) as Hn by (unfold n; Z.div_mod_to_equations; lia).
  destruct (malloc_run n m) as (ret & m1 & E & [(-> & -> & Hok)|(b & l & -> & Hb & -> & Hll)]); [lia|..];
    rewrite (bind_ret _ _ _ _ _ E); cbn [is_null].
  { eexists _, _. split; [reflexivity|]. split; [done|]. intros c _. by left. }
  pose proof Hc as [Hpb H0]. destruct (bytes_at_new m b l p _ Hb Hpb) as [Hpb' Hnb].
  destruct (hexstr2buf_loop_run fuel (<[b := l]> m) b 0 [] p s [] sep n) as (new & E' & Hnew & Hp);
    [done|done|done|done|cbn; lia|cbn; lia|apply room_block; [lia|]; exists l; rewrite lookup_insert_eq; split; [done|lia]|].
  cbn [app length Z.of_nat] in E', Hnew, Hp. rewrite mwrite_nil, Z.add_0_r, mwrite_insert in E'.
  unfold hexstr2buf_sep. rewrite (bind_ret _ _ _ _ _ E'). unfold hex_result in *.
  destruct (hex_parse sep s) as [c|] eqn:Ep.
  + apply (hex_parse_length sep (length s)) in Ep; [|done]. rewrite Z.add_0_l in *.
    replace (_ <=? n) with true in * by (unfold n; Z.div_mod_to_equations; lia).
    injection (Hp ltac:(done)) as <-. eexists _, _. split; [reflexivity|]. split; [done|].
    intros c' [= <-]. right. exists b, (drop (length c) l). by split_and!.
  + erewrite bind_ret by (unfold CRYPTO_free; eapply free_run; apply lookup_insert_eq).
    eexists _, _. split; [reflexivity|]. split; [|done]. intros _. split; [done|]. by rewrite delete_insert_eq, delete_id.
Qed.

(** The variant that allocates the text: a new object with exactly the text. *)
Theorem buf2hexstr_allocated m q bs sep :
  source_at m q bs -> Forall is_byte bs -> bs <> [] -> 0 <= sep < 128 -> Z.of_nat (length bs) * 3 < 2 ^ 63 ->
  duplicated m (hex_text sep bs ++ [0]) (hex_length sep bs) (ossl_buf2hexstr_sep q (Z.of_nat (length bs)) sep m).
Proof using ALL.
  intros Hq Hby Hne Hsep H63.
  unfold ossl_buf2hexstr_sep. replace (Z.of_nat (length bs) =? 0) with false by (destruct bs; [done|cbn; lia]).
  assert (0 < hex_length sep bs < 2 ^ 63) as Hh by (unfold hex_length; destruct (_ =? 0), bs; try done; cbn [length] in *; lia).
  assert ((if negb (sep =? CH_ZERO) then Z.of_nat (length bs) * 3 else 1 + Z.of_nat (length bs) * 2) = hex_length sep bs) as ->
    by (unfold hex_length, CH_ZERO; by destruct (sep =? 0)).
  cbv zeta. replace (_ && _) with true by lia.
  rewrite !to_size_id by (change (2 ^ 63) with 9223372036854775808 in *; lia).
  destruct (malloc_run (hex_length sep bs) m) as (ret & m1 & E & [(-> & -> & Hok)|(b & l & -> & Hb & -> & Hll)]); [lia|..];
    rewrite (bind_ret _ _ _ _ _ E); cbn [is_null]; [by left|right].
  assert (source_at (<[b := l]> m) q bs /\ ~ in_block q b) as [Hq' Hqb].
  { destruct Hq as [|Hq]; [done|]. destruct (bytes_at_new m b l q bs Hb Hq). split; [by right|done]. }
  erewrite bind_ret.
  2:{ apply buf2hexstr_run; [done|done|done|destruct (Z.eq_dec sep 0); [by left|right; split; [lia|done]]|lia|].
      apply room_block; [lia|]. exists l. rewrite lookup_insert_eq. split; [done|lia]. }
  exists b. rewrite mwrite_insert, splice_all; [done|].
  pose proof (length_hex_text sep bs (or_intror Hne)). lia.
Qed.
End allocated.

(** Comparison without case compares the lower-case strings, or their first [n]
    characters. *)
Theorem OPENSSL_casecmp_spec m p q a b n fuel :
  cstr_at m p a -> cstr_at m q b -> Forall is_byte a -> Forall is_byte b -> (length a < fuel)%nat -> 0 <= n ->
  (exists r, OPENSSL_strcasecmp fuel p q m = Ret (r, m) /\ (r = 0 <-> lower a = lower b)) /\
  (exists r, OPENSSL_strncasecmp p q n m = Ret (r, m) /\
     (r = 0 <-> take (Z.to_nat n) (lower a) = take (Z.to_nat n) (lower b))).
Proof.
  intros [Ha Na] [Hb Nb] Fa Fb Hf Hn. split; [by eapply strcasecmp_run|by eapply strncasecmp_run].
Qed.

(** ** Where the code departs *)

(** Without octets and with a separator the terminator is stored in front of the
    buffer, although the announced length is 0. *)
Lemma buf2hexstr_empty :
  OPENSSL_buf2hexstr_ex (Ptr 1 0) 4 NULL 0 58 {[ 1%positive := [7; 7; 7; 7] ]} = UB /\
  OPENSSL_buf2hexstr_ex (Ptr 1 1) 3 NULL 0 58 {[ 1%positive := [7; 7; 7; 7] ]} =
    Ret ((true, 0), {[ 1%positive := [0; 7; 7; 7] ]}).
Proof. split; vm_compute; reflexivity. Qed.

(** A separator above 127 is printed but never recognised: the reader compares
    it, negative as a [char], with an [unsigned char]. *)
Lemma high_separator_not_read :
  exists m1,
    OPENSSL_buf2hexstr_ex (Ptr 1 0) 6 (Ptr 2 0) 2 (-1)
      {[ 1%positive := replicate 6 0; 2%positive := [171; 5]; 3%positive := [0; 0] ]} = Ret ((true, 6), m1) /\
    exists m2, OPENSSL_hexstr2buf_ex 6 (Ptr 3 0) 2 (Ptr 1 0) (-1) m1 = Ret (None, m2).
Proof. eexists. split; [vm_compute; reflexivity|]. eexists. vm_compute. reflexivity. Qed.
