(* ===== verification/TlsPacket.v ===== *)
(** * Reading TLS messages

    The [PACKET] of include/internal/packet.h of the vendored OpenSSL, with
    which the TLS library takes every received message apart, and the
    comparison [CRYPTO_memcmp] of crypto/cpuid.c it uses.  A [PACKET] is a
    position in a buffer and the number of octets left.

    A function that returns 0 without changing any object gives [None]; one
    that returns 1 gives [Some] of what it stored through its pointer
    arguments: the value [*data], the packet [*subpkt], the packet [*pkt] itself
    moved forward.

    The theorems relate each of them to a parser of octet lists ([parser]): on
    a packet that denotes the octets [bs], the function is defined, reads no
    octet outside them, and yields what the parser yields, with the moved packet
    denoting the octets the parser left. *)

From S2P Require Import Prelude Memory ConstTime Heap OStr.

(** ** Definitions *)

Record PACKET : Type := mkPACKET {
  curr : ptr;
  remaining : Z
}.

(** Calls that return 0 on failure, in sequence. *)
Definition obind {S A B} (m : M S (option A)) (f : A -> M S (option B)) : M S (option B) :=
  r ← m; match r with Some a => f a | None => mret None end.

Notation "x ←? m ; k" := (obind m (fun x => k))
  (at level 20, m at level 100, k at level 200, only parsing) : c_scope.
Notation "' x ←? m ; k" := (obind m (fun y => match y with x => k end))
  (at level 20, x pattern, m at level 100, k at level 200, only parsing) : c_scope.
#[local] Open Scope c_scope.

Definition packet_forward (pkt : PACKET) (len : Z) : PACKET :=
  mkPACKET (padd (curr pkt) len) (to_size (remaining pkt - len)).

Definition PACKET_remaining (pkt : PACKET) : Z := remaining pkt.

Definition PACKET_end (pkt : PACKET) : ptr := padd (curr pkt) (remaining pkt).

Definition PACKET_data (pkt : PACKET) : ptr := curr pkt.

Definition SIZE_MAX : Z := 18446744073709551615.

Definition PACKET_buf_init (buf : ptr) (len : Z) : option PACKET :=
  if SIZE_MAX / 2 <? len then None else Some (mkPACKET buf len).

Definition PACKET_null_init : PACKET := mkPACKET NULL 0.

(** The loop of [CRYPTO_memcmp], with [n] octets left. *)
Fixpoint memcmp_loop (a b : ptr) (n : nat) (x : Z) : M mem Z :=
  match n with
  | O => mret x
  | S n' => va ← load a; vb ← load b;
            memcmp_loop (padd a 1) (padd b 1) n' (to_uchar (Z.lor x (Z.lxor va vb)))
  end.

Definition CRYPTO_memcmp (in_a in_b : ptr) (len : Z) : M mem Z :=
  memcmp_loop in_a in_b (Z.to_nat len) 0.

Definition PACKET_equal (pkt : PACKET) (p : ptr) (num : Z) : M mem Z :=
  if negb (PACKET_remaining pkt =? num) then mret 0
  else c ← CRYPTO_memcmp (curr pkt) p num; mret (of_bool (c =? 0)).

Definition PACKET_peek_sub_packet (pkt : PACKET) (len : Z) : option PACKET :=
  if PACKET_remaining pkt <? len then None else PACKET_buf_init (curr pkt) len.

(** [*subpkt] and [*pkt]. *)
Definition PACKET_get_sub_packet (pkt : PACKET) (len : Z) : option (PACKET * PACKET) :=
  match PACKET_peek_sub_packet pkt len with
  | None => None
  | Some subpkt => Some (subpkt, packet_forward pkt len)
  end.

Definition PACKET_peek_net_2 (pkt : PACKET) : M mem (option Z) :=
  if PACKET_remaining pkt <? 2 then mret None else
  b0 ← load (curr pkt);
  let data := to_uint (Z.shiftl b0 8) in
  b1 ← load (padd (curr pkt) 1);
  mret (Some (Z.lor data b1)).

Definition PACKET_get_net_2 (pkt : PACKET) : M mem (option (Z * PACKET)) :=
  data ←? PACKET_peek_net_2 pkt;
  mret (Some (data, packet_forward pkt 2)).

Definition PACKET_get_net_2_len (pkt : PACKET) : M mem (option (Z * PACKET)) :=
  '(i, pkt) ←? PACKET_get_net_2 pkt;
  mret (Some (to_size i, pkt)).

Definition PACKET_peek_net_3 (pkt : PACKET) : M mem (option Z) :=
  if PACKET_remaining pkt <? 3 then mret None else
  b0 ← load (curr pkt);
  let data := to_size (Z.shiftl b0 16) in
  b1 ← load (padd (curr pkt) 1);
  let data := Z.lor data (to_size (Z.shiftl b1 8)) in
  b2 ← load (padd (curr pkt) 2);
  mret (Some (Z.lor data b2)).

Definition PACKET_get_net_3 (pkt : PACKET) : M mem (option (Z * PACKET)) :=
  data ←? PACKET_peek_net_3 pkt;
  mret (Some (data, packet_forward pkt 3)).

Definition PACKET_get_net_3_len (pkt : PACKET) : M mem (option (Z * PACKET)) :=
  '(i, pkt) ←? PACKET_get_net_3 pkt;
  mret (Some (to_size i, pkt)).

Definition PACKET_peek_net_4 (pkt : PACKET) : M mem (option Z) :=
  if PACKET_remaining pkt <? 4 then mret None else
  b0 ← load (curr pkt);
  let data := to_size (Z.shiftl b0 24) in
  b1 ← load (padd (curr pkt) 1);
  let data := Z.lor data (to_size (Z.shiftl b1 16)) in
  b2 ← load (padd (curr pkt) 2);
  let data := Z.lor data (to_size (Z.shiftl b2 8)) in
  b3 ← load (padd (curr pkt) 3);
  mret (Some (Z.lor data b3)).

Definition PACKET_peek_net_8 (pkt : PACKET) : M mem (option Z) :=
  if PACKET_remaining pkt <? 8 then mret None else
  b0 ← load (curr pkt);
  let data := to_size (Z.shiftl b0 56) in
  b1 ← load (padd (curr pkt) 1);
  let data := Z.lor data (to_size (Z.shiftl b1 48)) in
  b2 ← load (padd (curr pkt) 2);
  let data := Z.lor data (to_size (Z.shiftl b2 40)) in
  b3 ← load (padd (curr pkt) 3);
  let data := Z.lor data (to_size (Z.shiftl b3 32)) in
  b4 ← load (padd (curr pkt) 4);
  let data := Z.lor data (to_size (Z.shiftl b4 24)) in
  b5 ← load (padd (curr pkt) 5);
  let data := Z.lor data (to_size (Z.shiftl b5 16)) in
  b6 ← load (padd (curr pkt) 6);
  let data := Z.lor data (to_size (Z.shiftl b6 8)) in
  b7 ← load (padd (curr pkt) 7);
  mret (Some (Z.lor data b7)).

Definition PACKET_get_net_4 (pkt : PACKET) : M mem (option (Z * PACKET)) :=
  data ←? PACKET_peek_net_4 pkt;
  mret (Some (data, packet_forward pkt 4)).

Definition PACKET_get_net_4_len (pkt : PACKET) : M mem (option (Z * PACKET)) :=
  '(i, pkt) ←? PACKET_get_net_4 pkt;
  mret (Some (to_size i, pkt)).

Definition PACKET_get_net_8 (pkt : PACKET) : M mem (option (Z * PACKET)) :=
  data ←? PACKET_peek_net_8 pkt;
  mret (Some (data, packet_forward pkt 8)).

Definition PACKET_peek_1 (pkt : PACKET) : M mem (option Z) :=
  if negb (truthy (PACKET_remaining pkt)) then mret None else
  b0 ← load (curr pkt);
  mret (Some b0).

Definition PACKET_get_1 (pkt : PACKET) : M mem (option (Z * PACKET)) :=
  data ←? PACKET_peek_1 pkt;
  mret (Some (data, packet_forward pkt 1)).

Definition PACKET_get_1_len (pkt : PACKET) : M mem (option (Z * PACKET)) :=
  '(i, pkt) ←? PACKET_get_1 pkt;
  mret (Some (to_size i, pkt)).

Definition PACKET_peek_4 (pkt : PACKET) : M mem (option Z) :=
  if PACKET_remaining pkt <? 4 then mret None else
  b0 ← load (curr pkt);
  b1 ← load (padd (curr pkt) 1);
  let data := Z.lor b0 (to_size (Z.shiftl b1 8)) in
  b2 ← load (padd (curr pkt) 2);
  let data := Z.lor data (to_size (Z.shiftl b2 16)) in
  b3 ← load (padd (curr pkt) 3);
  mret (Some (Z.lor data (to_size (Z.shiftl b3 24)))).

Definition PACKET_get_4 (pkt : PACKET) : M mem (option (Z * PACKET)) :=
  data ←? PACKET_peek_4 pkt;
  mret (Some (data, packet_forward pkt 4)).

Definition PACKET_peek_bytes (pkt : PACKET) (len : Z) : option ptr :=
  if PACKET_remaining pkt <? len then None else Some (curr pkt).

Definition PACKET_get_bytes (pkt : PACKET) (len : Z) : option (ptr * PACKET) :=
  match PACKET_peek_bytes pkt len with
  | None => None
  | Some data => Some (data, packet_forward pkt len)
  end.

Definition PACKET_peek_copy_bytes (pkt : PACKET) (data : ptr) (len : Z) : M mem (option unit) :=
  if PACKET_remaining pkt <? len then mret None
  else memcpy data (curr pkt) len;; mret (Some tt).

Definition PACKET_copy_bytes (pkt : PACKET) (data : ptr) (len : Z) : M mem (option PACKET) :=
  _ ←? PACKET_peek_copy_bytes pkt data len;
  mret (Some (packet_forward pkt len)).

(** The value returned and [*len]. *)
Definition PACKET_copy_all (pkt : PACKET) (dest : ptr) (dest_len : Z) : M mem (Z * Z) :=
  if dest_len <? PACKET_remaining pkt then mret (0, 0)
  else memcpy dest (curr pkt) (remaining pkt);; mret (1, remaining pkt).

(** The result, the new [*data] and [*len]. *)
Definition PACKET_memdup {AL : Allocator} (pkt : PACKET) (data : ptr) : M mem (bool * ptr * Z) :=
  CRYPTO_free data;;
  let length := PACKET_remaining pkt in
  if length =? 0 then mret (true, NULL, 0)
  else
    data ← CRYPTO_memdup (curr pkt) length;
    if is_null data then mret (false, data, 0) else mret (true, data, length).

(** The result and the new [*data]. *)
Definition PACKET_strndup {AL : Allocator} (pkt : PACKET) (data : ptr) : M mem (bool * ptr) :=
  CRYPTO_free data;;
  data ← CRYPTO_strndup (curr pkt) (PACKET_remaining pkt);
  mret (negb (is_null data), data).

(** [memchr(p, c, n) != NULL]: it reads octet by octet and stops at the first
    that is equal. *)
Fixpoint memchr_found (p : ptr) (c : Z) (n : nat) : M mem bool :=
  match n with
  | O => mret false
  | S n' => v ← load p; if v =? to_uchar c then mret true else memchr_found (padd p 1) c n'
  end.

Definition PACKET_contains_zero_byte (pkt : PACKET) : M mem Z :=
  f ← memchr_found (curr pkt) 0 (Z.to_nat (remaining pkt)); mret (of_bool f).

Definition PACKET_forward (pkt : PACKET) (len : Z) : option PACKET :=
  if PACKET_remaining pkt <? len then None else Some (packet_forward pkt len).

(** [*subpkt] and [*pkt]. *)
Definition PACKET_get_length_prefixed_1 (pkt : PACKET) : M mem (option (PACKET * PACKET)) :=
  '(length, tmp) ←? PACKET_get_1 pkt;
  '(data, tmp) ←? mret (PACKET_get_bytes tmp (to_size length));
  mret (Some (mkPACKET data (to_size length), tmp)).

Definition PACKET_as_length_prefixed_1 (pkt : PACKET) : M mem (option (PACKET * PACKET)) :=
  '(length, tmp) ←? PACKET_get_1 pkt;
  '(data, tmp) ←? mret (PACKET_get_bytes tmp (to_size length));
  if negb (PACKET_remaining tmp =? 0) then mret None else
  mret (Some (mkPACKET data (to_size length), tmp)).

Definition PACKET_get_length_prefixed_2 (pkt : PACKET) : M mem (option (PACKET * PACKET)) :=
  '(length, tmp) ←? PACKET_get_net_2 pkt;
  '(data, tmp) ←? mret (PACKET_get_bytes tmp (to_size length));
  mret (Some (mkPACKET data (to_size length), tmp)).

Definition PACKET_as_length_prefixed_2 (pkt : PACKET) : M mem (option (PACKET * PACKET)) :=
  '(length, tmp) ←? PACKET_get_net_2 pkt;
  '(data, tmp) ←? mret (PACKET_get_bytes tmp (to_size length));
  if negb (PACKET_remaining tmp =? 0) then mret None else
  mret (Some (mkPACKET data (to_size length), tmp)).

Definition PACKET_get_length_prefixed_3 (pkt : PACKET) : M mem (option (PACKET * PACKET)) :=
  '(length, tmp) ←? PACKET_get_net_3 pkt;
  '(data, tmp) ←? mret (PACKET_get_bytes tmp (to_size length));
  mret (Some (mkPACKET data (to_size length), tmp)).

(** ** Specification: parsers of octet lists *)

(** What a parser takes from the front of the octets, and the octets left. *)
Definition parser (A : Type) : Type := list Z -> option (A * list Z).

(** The big-endian and the little-endian value of a list of octets. *)
Definition be (bs : list Z) : Z := fold_left (fun acc b => acc * 256 + b) bs 0.
Definition le (bs : list Z) : Z := fold_right (fun b acc => b + 256 * acc) 0 bs.

Definition p_bytes (n : nat) : parser (list Z) := fun bs =>
  if bool_decide (length bs < n)%nat then None else Some (take n bs, drop n bs).

Definition p_map {A B} (f : A -> B) (p : parser A) : parser B := fun bs =>
  match p bs with Some (a, bs') => Some (f a, bs') | None => None end.

(** [n] octets in network order. *)
Definition p_net (n : nat) : parser Z := p_map be (p_bytes n).

(** Four octets in reverse network order. *)
Definition p_le4 : parser Z := p_map le (p_bytes 4).

(** A vector prefixed with its length in [n] octets. *)
Definition p_prefixed (n : nat) : parser (list Z) := fun bs =>
  match p_net n bs with
  | Some (len, bs') => p_bytes (Z.to_nat len) bs'
  | None => None
  end.

(** Such a vector with nothing behind it. *)
Definition p_as_prefixed (n : nat) : parser (list Z) := fun bs =>
  match p_prefixed n bs with
  | Some (v, []) => Some (v, [])
  | _ => None
  end.

(** [pkt] denotes the octets [bs]. *)
Definition denotes (m : mem) (pkt : PACKET) (bs : list Z) : Prop :=
  remaining pkt = Z.of_nat (length bs) /\ source_at m (curr pkt) bs /\
  Forall is_byte bs /\ Z.of_nat (length bs) <= SIZE_MAX / 2.

(** The function [f] implements the parser [p], its results related to those
    of the parser by [R]. *)
Definition implements {A B} (R : mem -> A -> B -> Prop)
    (f : PACKET -> M mem (option (A * PACKET))) (p : parser B) : Prop :=
  forall m pkt bs, denotes m pkt bs ->
    match p bs with
    | Some (v, bs') => exists a pkt',
        f pkt m = Ret (Some (a, pkt'), m) /\ R m a v /\ denotes m pkt' bs'
    | None => f pkt m = Ret (None, m)
    end.

(** The same for a function that leaves the packet where it is. *)
Definition peeks (f : PACKET -> M mem (option Z)) (p : parser Z) : Prop :=
  forall m pkt bs, denotes m pkt bs ->
    f pkt m = Ret (match p bs with Some (v, _) => Some v | None => None end, m).

Definition same_value (_ : mem) (a v : Z) : Prop := a = v.

(** A pointer to the octets. *)
Definition points_to (m : mem) (p : ptr) (bs : list Z) : Prop := source_at m p bs.

(** ** Lemmas *)

Lemma obind_ret {S A B} (m : M S (option A)) (f : A -> M S (option B)) s r s' :
  m s = Ret (r, s') ->
  obind m f s = match r with Some a => f a s' | None => Ret (None, s') end.
Proof. intros E. unfold obind. rewrite (bind_ret _ _ _ _ _ E). by destruct r. Qed.

(** *** Octets and words *)

Lemma octet_shift b k : is_byte b -> 0 <= k <= 56 -> to_size (Z.shiftl b k) = b * 2 ^ k.
Proof.
  intros Hb Hk. unfold to_size. rewrite Z.shiftl_mul_pow2 by lia. apply Z.mod_small.
  pose proof (Z.pow_pos_nonneg 2 k). unfold is_byte in Hb.
  pose proof (Z.pow_le_mono_r 2 k 56). split; [nia|].
  change 18446744073709551616 with (256 * 2 ^ 56). nia.
Qed.

Lemma octet_shift_uint b k : is_byte b -> 0 <= k <= 24 -> to_uint (Z.shiftl b k) = b * 2 ^ k.
Proof.
  intros Hb Hk. unfold to_uint. rewrite Z.shiftl_mul_pow2 by lia. apply Z.mod_small.
  pose proof (Z.pow_pos_nonneg 2 k). unfold is_byte in Hb.
  pose proof (Z.pow_le_mono_r 2 k 24). split; [nia|].
  change 4294967296 with (256 * 2 ^ 24). nia.
Qed.

(** One more octet below the ones that are there. *)
Lemma lor_octet_last acc b : is_byte b -> 0 <= acc -> Z.lor (acc * 2 ^ 8) b = acc * 256 + b.
Proof.
  intros Hb _. by apply lor_low.
Qed.

Lemma lor_octet acc b j k :
  is_byte b -> 0 <= acc -> 0 <= k -> j = k + 8 ->
  Z.lor (acc * 2 ^ j) (b * 2 ^ k) = (acc * 256 + b) * 2 ^ k.
Proof.
  intros Hb Ha Hk ->. rewrite <- lor_octet_last by done.
  rewrite <- (Z.shiftl_mul_pow2 (Z.lor _ _) k), Z.shiftl_lor, !Z.shiftl_mul_pow2, Z.pow_add_r by lia.
  f_equal. lia.
Qed.

(** One more octet above. *)
Lemma lor_octet_above acc b k :
  is_byte b -> 0 <= k -> 0 <= acc < 2 ^ k -> Z.lor acc (b * 2 ^ k) = acc + b * 2 ^ k.
Proof.
  intros Hb Hk Ha. rewrite <- Z.add_lor_land. replace (Z.land acc (b * 2 ^ k)) with 0; [lia|].
  rewrite <- (Z.mod_small acc (2 ^ k)) by lia. rewrite <- Z.land_ones by lia.
  rewrite <- Z.land_assoc, (Z.land_comm (Z.ones k)), Z.land_ones by lia.
  rewrite Z.mod_mul, Z.land_0_r by lia. done.
Qed.

Lemma be_app bs b : be (bs ++ [b]) = be bs * 256 + b.
Proof. unfold be. by rewrite fold_left_app. Qed.

Lemma be_range bs : Forall is_byte bs -> 0 <= be bs < 256 ^ Z.of_nat (length bs).
Proof.
  induction bs as [|b bs IH] using rev_ind; [done|].
  rewrite Forall_app. intros [H1 H2]. specialize (IH H1). apply Forall_cons in H2 as [H2 _].
  rewrite be_app, length_app. cbn [length].
  rewrite Nat2Z.inj_add, Z.pow_add_r by lia. change (256 ^ Z.of_nat 1) with 256.
  unfold is_byte in H2. lia.
Qed.

(** *** Packets *)

Lemma SIZE_MAX_half : SIZE_MAX / 2 = 9223372036854775807.
Proof. done. Qed.

Lemma denotes_bytes m pkt b bs : denotes m pkt (b :: bs) -> bytes_at m (curr pkt) (b :: bs).
Proof. intros (_ & [?|?] & _); done. Qed.

(** The packet moved over the first octets denotes the others. *)
Lemma denotes_forward m pkt n bs :
  denotes m pkt bs -> (n <= length bs)%nat ->
  denotes m (packet_forward pkt (Z.of_nat n)) (drop n bs).
Proof.
  intros (Hr & Hs & Hb & Hl) Hn. rewrite SIZE_MAX_half in Hl. unfold denotes, packet_forward.
  cbn [remaining curr]. rewrite length_drop, SIZE_MAX_half. split; [|split; [|split]].
  - rewrite Hr, to_size_id by lia. lia.
  - destruct Hs as [->|Hs]; [left; by rewrite drop_nil|].
    right. rewrite <- (take_drop n bs) in Hs. apply bytes_at_app in Hs as [_ Hs].
    by rewrite length_take_le in Hs.
  - by apply Forall_drop.
  - lia.
Qed.

(** The first octets of a packet. *)
Lemma denotes_take m pkt n bs :
  denotes m pkt bs -> (n <= length bs)%nat ->
  source_at m (curr pkt) (take n bs) /\ denotes m (mkPACKET (curr pkt) (Z.of_nat n)) (take n bs).
Proof.
  intros (Hr & Hs & Hb & Hl) Hn.
  assert (source_at m (curr pkt) (take n bs)) as Ht.
  { destruct Hs as [->|Hs]; [left; by rewrite take_nil|].
    right. rewrite <- (take_drop n bs) in Hs. by apply bytes_at_app_l in Hs. }
  split; [done|]. unfold denotes. cbn [remaining curr]. rewrite length_take_le by done.
  split; [done|]. split; [done|]. split; [by apply Forall_take|lia].
Qed.

Lemma load_denotes m pkt bs i b :
  denotes m pkt bs -> 0 <= i -> bs !! Z.to_nat i = Some b -> load (padd (curr pkt) i) m = Ret (b, m).
Proof.
  intros (_ & Hs & _) H0 Hi. destruct Hs as [->|Hs]; [done|].
  rewrite <- (take_drop_middle _ _ _ Hi) in Hs. apply bytes_at_app in Hs as [_ Hs].
  rewrite length_take_le, Z2Nat.id in Hs by (apply lookup_lt_Some in Hi; lia). by eapply load_at.
Qed.

(** A read of [n] octets fails on a shorter packet and finds them on the others. *)
Lemma denotes_split m pkt bs n k :
  denotes m pkt bs -> k = Z.of_nat n ->
  ((length bs < n)%nat /\ (remaining pkt <? k) = true) \/
  ((n <= length bs)%nat /\ (remaining pkt <? k) = false).
Proof. intros (Hr & _) ->. rewrite Hr. destruct (decide (length bs < n)%nat); [left|right]; lia. Qed.

Lemma p_bytes_short n bs : (length bs < n)%nat -> p_bytes n bs = None.
Proof. intros. unfold p_bytes. by rewrite bool_decide_eq_true_2. Qed.

Lemma p_bytes_enough n bs : (n <= length bs)%nat -> p_bytes n bs = Some (take n bs, drop n bs).
Proof. intros. unfold p_bytes. rewrite bool_decide_eq_false_2; [done|lia]. Qed.

(** The loads of the first octets of a packet. *)
Ltac load_octets H :=
  erewrite (bind_ret (load (curr _))) by (eapply load_at, denotes_bytes; exact H);
  repeat erewrite bind_ret by (eapply load_denotes; [exact H|lia|reflexivity]).

(** The octets of a packet as separate variables, each an octet. *)
Ltac octets_of H :=
  let Hb := fresh "Hb" in
  destruct H as (_ & _ & Hb & _); repeat (apply Forall_cons in Hb as [? Hb]).

Ltac word_of_octets :=
  rewrite ?octet_shift, ?octet_shift_uint by (done || lia);
  repeat rewrite lor_octet by (done || lia || (unfold is_byte in *; lia));
  rewrite ?lor_octet_last by (done || (unfold is_byte in *; lia)).

(** Settle a function that looks at [n] octets of the packet [H] is about. *)
Tactic Notation "peek" hyp(H) constr(n) constr(k) ident(bs) "as" simple_intropattern(pat) :=
  let Hn := fresh "Hn" in
  destruct (denotes_split _ _ _ n k H eq_refl) as [[Hn ->]|[Hn ->]];
  [by rewrite p_bytes_short|];
  rewrite p_bytes_enough by done;
  destruct bs as pat; try (cbn in Hn; lia);
  load_octets H; octets_of H; rewrite mret_run; word_of_octets.

Lemma peek_net_1 : peeks PACKET_peek_1 (p_net 1).
Proof.
  intros m pkt bs H. unfold PACKET_peek_1, PACKET_remaining, p_net, p_map.
  replace (negb (truthy (remaining pkt))) with (remaining pkt <? 1)
    by (destruct H as (-> & _); unfold truthy; lia).
  peek H 1%nat 1 bs as [|b0 bs]. done.
Qed.

Lemma peek_net_2 : peeks PACKET_peek_net_2 (p_net 2).
Proof.
  intros m pkt bs H. unfold PACKET_peek_net_2, PACKET_remaining, p_net, p_map.
  by peek H 2%nat 2 bs as [|b0 [|b1 bs]].
Qed.

Lemma peek_net_3 : peeks PACKET_peek_net_3 (p_net 3).
Proof.
  intros m pkt bs H. unfold PACKET_peek_net_3, PACKET_remaining, p_net, p_map.
  by peek H 3%nat 3 bs as [|b0 [|b1 [|b2 bs]]].
Qed.

Lemma peek_net_4 : peeks PACKET_peek_net_4 (p_net 4).
Proof.
  intros m pkt bs H. unfold PACKET_peek_net_4, PACKET_remaining, p_net, p_map.
  by peek H 4%nat 4 bs as [|b0 [|b1 [|b2 [|b3 bs]]]].
Qed.

Lemma peek_net_8 : peeks PACKET_peek_net_8 (p_net 8).
Proof.
  intros m pkt bs H. unfold PACKET_peek_net_8, PACKET_remaining, p_net, p_map.
  by peek H 8%nat 8 bs as [|b0 [|b1 [|b2 [|b3 [|b4 [|b5 [|b6 [|b7 bs]]]]]]]].
Qed.

Lemma peek_le_4 : peeks PACKET_peek_4 p_le4.
Proof.
  intros m pkt bs H. unfold PACKET_peek_4, PACKET_remaining, p_le4, p_map.
  peek H 4%nat 4 bs as [|b0 [|b1 [|b2 [|b3 bs]]]].
  rewrite (lor_octet_above b0), (lor_octet_above (b0 + _)), (lor_octet_above (b0 + _ + _))
    by (done || (unfold is_byte in *; lia)).
  do 3 f_equal. unfold le. simpl. lia.
Qed.

(** A function that looks at [n] octets and moves over them. *)
Lemma get_of_peek n (g : list Z -> Z) f :
  peeks f (p_map g (p_bytes n)) ->
  implements same_value
    (fun pkt => data ←? f pkt; mret (Some (data, packet_forward pkt (Z.of_nat n))))
    (p_map g (p_bytes n)).
Proof.
  intros Hf m pkt bs H. pose proof (Hf m pkt bs H) as E. revert E. unfold p_map.
  destruct (denotes_split _ _ _ n _ H eq_refl) as [[Hn _]|[Hn _]].
  - rewrite p_bytes_short by done. intros E. by rewrite (obind_ret _ _ _ _ _ E).
  - rewrite p_bytes_enough by done. intros E. rewrite (obind_ret _ _ _ _ _ E).
    eexists _, _. split; [reflexivity|]. split; [done|]. by apply denotes_forward.
Qed.

(** The same with the value converted to [size_t]. *)
Lemma get_len_of_get n f :
  (n <= 8)%nat -> implements same_value f (p_net n) ->
  implements same_value (fun pkt => '(i, pkt) ←? f pkt; mret (Some (to_size i, pkt))) (p_net n).
Proof.
  intros Hn8 Hf m pkt bs H. pose proof (Hf m pkt bs H) as E. revert E. unfold p_net, p_map.
  destruct (denotes_split _ _ _ n _ H eq_refl) as [[Hn _]|[Hn _]].
  - rewrite p_bytes_short by done. intros E. by rewrite (obind_ret _ _ _ _ _ E).
  - rewrite p_bytes_enough by done. intros (a & pkt' & E & -> & Hd). rewrite (obind_ret _ _ _ _ _ E).
    eexists _, pkt'. split; [reflexivity|]. split; [|done].
    apply to_size_id. destruct H as (_ & _ & Hb & _).
    pose proof (be_range (take n bs) (Forall_take _ _ _ Hb)) as Hr. rewrite length_take_le in Hr by done.
    pose proof (Z.pow_le_mono_r 256 (Z.of_nat n) 8). change (256 ^ 8) with 18446744073709551616 in *. lia.
Qed.

Lemma get_net_1 : implements same_value PACKET_get_1 (p_net 1).
Proof. apply (get_of_peek 1), peek_net_1. Qed.

Lemma get_net_2 : implements same_value PACKET_get_net_2 (p_net 2).
Proof. apply (get_of_peek 2), peek_net_2. Qed.

Lemma get_net_3 : implements same_value PACKET_get_net_3 (p_net 3).
Proof. apply (get_of_peek 3), peek_net_3. Qed.

Lemma get_net_4 : implements same_value PACKET_get_net_4 (p_net 4).
Proof. apply (get_of_peek 4), peek_net_4. Qed.

Lemma get_net_8 : implements same_value PACKET_get_net_8 (p_net 8).
Proof. apply (get_of_peek 8), peek_net_8. Qed.

Lemma get_bytes_run m pkt bs n :
  denotes m pkt bs ->
  match p_bytes n bs with
  | Some (v, bs') =>
      PACKET_get_bytes pkt (Z.of_nat n) = Some (curr pkt, packet_forward pkt (Z.of_nat n)) /\
      denotes m (mkPACKET (curr pkt) (Z.of_nat n)) v /\
      denotes m (packet_forward pkt (Z.of_nat n)) bs'
  | None => PACKET_get_bytes pkt (Z.of_nat n) = None
  end.
Proof.
  intros H. unfold PACKET_get_bytes, PACKET_peek_bytes, PACKET_remaining.
  destruct (denotes_split _ _ _ n _ H eq_refl) as [[Hn ->]|[Hn ->]].
  - by rewrite p_bytes_short.
  - rewrite p_bytes_enough by done. split; [done|]. split; [|by apply denotes_forward].
    by apply denotes_take.
Qed.

Lemma get_sub_packet n : implements denotes (fun pkt => mret (PACKET_get_sub_packet pkt (Z.of_nat n))) (p_bytes n).
Proof.
  intros m pkt bs H. unfold PACKET_get_sub_packet, PACKET_peek_sub_packet, PACKET_buf_init, PACKET_remaining.
  destruct (denotes_split _ _ _ n _ H eq_refl) as [[Hn ->]|[Hn ->]].
  - by rewrite p_bytes_short.
  - rewrite p_bytes_enough by done. destruct (denotes_take _ _ _ _ H Hn) as [_ Ht].
    assert ((SIZE_MAX / 2 <? Z.of_nat n) = false) as -> by (destruct H as (_&_&_&?); lia).
    eexists _, _. split; [reflexivity|]. split; [done|]. by apply denotes_forward.
Qed.

(** A length and the octets it counts, with [k] what is done with the two packets. *)
Lemma prefixed_run n f (k : PACKET -> PACKET -> M mem (option (PACKET * PACKET))) m pkt bs :
  (n <= 8)%nat -> implements same_value f (p_net n) -> denotes m pkt bs ->
  match p_prefixed n bs with
  | Some (v, bs') => exists sub tmp,
      denotes m sub v /\ denotes m tmp bs' /\
      obind (f pkt) (fun '(length, tmp) =>
        obind (mret (PACKET_get_bytes tmp (to_size length))) (fun '(data, tmp) =>
          k (mkPACKET data (to_size length)) tmp)) m = k sub tmp m
  | None =>
      obind (f pkt) (fun '(length, tmp) =>
        obind (mret (PACKET_get_bytes tmp (to_size length))) (fun '(data, tmp) =>
          k (mkPACKET data (to_size length)) tmp)) m = Ret (None, m)
  end.
Proof.
  intros Hn8 Hf H. pose proof (Hf m pkt bs H) as E. revert E. unfold p_prefixed, p_net, p_map.
  destruct (denotes_split _ _ _ n _ H eq_refl) as [[Hn _]|[Hn _]].
  - rewrite p_bytes_short by done. intros E. by rewrite (obind_ret _ _ _ _ _ E).
  - rewrite p_bytes_enough by done. intros (a & tmp & E & Ha & Hd). rewrite (obind_ret _ _ _ _ _ E).
    unfold same_value in Ha. subst a.
    assert (0 <= be (take n bs) < 18446744073709551616) as Hl.
    { destruct H as (_ & _ & Hb & _).
      pose proof (be_range (take n bs) (Forall_take _ _ _ Hb)) as Hr. rewrite length_take_le in Hr by done.
      pose proof (Z.pow_le_mono_r 256 (Z.of_nat n) 8). change (256 ^ 8) with 18446744073709551616 in *. lia. }
    rewrite to_size_id by done. pose proof (get_bytes_run m tmp _ (Z.to_nat (be (take n bs))) Hd) as Hg.
    rewrite Z2Nat.id in Hg by lia. destruct (p_bytes _ (drop n bs)) as [[v bs']|].
    + destruct Hg as (Hg & Hs & Ht). eexists _, _. split; [exact Hs|]. split; [exact Ht|].
      erewrite obind_ret by apply mret_run. by rewrite Hg.
    + erewrite obind_ret by apply mret_run. by rewrite Hg.
Qed.

Lemma get_prefixed n f :
  (n <= 8)%nat -> implements same_value f (p_net n) ->
  implements denotes (fun pkt =>
    '(length, tmp) ←? f pkt;
    '(data, tmp) ←? mret (PACKET_get_bytes tmp (to_size length));
    mret (Some (mkPACKET data (to_size length), tmp))) (p_prefixed n).
Proof.
  intros Hn Hf m pkt bs H.
  pose proof (prefixed_run n f (fun s t => mret (Some (s, t))) m pkt bs Hn Hf H) as E.
  destruct (p_prefixed n bs) as [[v bs']|]; [|done].
  destruct E as (sub & tmp & Hs & Ht & E). exists sub, tmp. split; [|done]. exact E.
Qed.

Lemma as_prefixed n f :
  (n <= 8)%nat -> implements same_value f (p_net n) ->
  implements denotes (fun pkt =>
    '(length, tmp) ←? f pkt;
    '(data, tmp) ←? mret (PACKET_get_bytes tmp (to_size length));
    if negb (PACKET_remaining tmp =? 0) then mret None else
    mret (Some (mkPACKET data (to_size length), tmp))) (p_as_prefixed n).
Proof.
  intros Hn Hf m pkt bs H.
  pose proof (prefixed_run n f (fun s t =>
    if negb (PACKET_remaining t =? 0) then mret None else mret (Some (s, t))) m pkt bs Hn Hf H) as E.
  unfold p_as_prefixed. destruct (p_prefixed n bs) as [[v bs']|]; [|done].
  destruct E as (sub & tmp & Hs & Ht & E).
  assert ((PACKET_remaining tmp =? 0) = match bs' with [] => true | _ => false end) as Er.
  { unfold PACKET_remaining. destruct Ht as (-> & _). destruct bs'; done. }
  rewrite Er in E. destruct bs'; [|done]. exists sub, tmp. split; [|done]. exact E.
Qed.

(** *** Comparing, searching and copying *)

Lemma lor_xor_0 x a b : 0 <= x -> Z.lor x (Z.lxor a b) = 0 <-> x = 0 /\ a = b.
Proof. intros. rewrite Z.lor_eq_0_iff, Z.lxor_eq_0_iff. done. Qed.

Lemma memcmp_loop_run as_ : forall m a b bs x,
  length as_ = length bs -> Forall is_byte as_ -> Forall is_byte bs -> is_byte x ->
  source_at m a as_ -> source_at m b bs ->
  exists y, memcmp_loop a b (length as_) x m = Ret (y, m) /\ is_byte y /\ (y = 0 <-> x = 0 /\ as_ = bs).
Proof.
  induction as_ as [|v as_ IH]; intros m a b [|u bs] x Hlen Ha Hb Hx Hsa Hsb; try discriminate Hlen.
  - exists x. split; [done|]. split; [done|]. tauto.
  - destruct Hsa as [|Hsa]; [done|]. destruct Hsb as [|Hsb]; [done|].
    inversion Ha; inversion Hb; subst. cbn [length memcmp_loop].
    rewrite (bind_ret _ _ _ _ _ (load_at _ _ _ _ Hsa)), (bind_ret _ _ _ _ _ (load_at _ _ _ _ Hsb)).
    apply bytes_at_cons in Hsa as [_ Hsa]. apply bytes_at_cons in Hsb as [_ Hsb].
    assert (is_byte (Z.lor x (Z.lxor v u))) as Hy by by apply lor_byte, lxor_byte.
    rewrite to_uchar_id by done.
    destruct (IH m (padd a 1) (padd b 1) bs (Z.lor x (Z.lxor v u))) as (y & E & Hyb & Hy0);
      [by injection Hlen|done|done|done|by right|by right|].
    exists y. split; [done|]. split; [done|]. rewrite Hy0, lor_xor_0 by (unfold is_byte in Hx; lia).
    split; [intros [[-> ->] ->]; done|intros [-> [= -> ->]]; done].
Qed.

(** [CRYPTO_memcmp] is 0 exactly on equal octets. *)
Lemma CRYPTO_memcmp_eq m a b as_ bs :
  length as_ = length bs -> Forall is_byte as_ -> Forall is_byte bs ->
  source_at m a as_ -> source_at m b bs ->
  exists c, CRYPTO_memcmp a b (Z.of_nat (length as_)) m = Ret (c, m) /\ (c = 0 <-> as_ = bs).
Proof.
  intros. unfold CRYPTO_memcmp. rewrite Nat2Z.id.
  destruct (memcmp_loop_run as_ m a b bs 0) as (y & E & _ & Hy); [done..|by unfold is_byte|done|done|].
  exists y. split; [done|]. rewrite Hy. tauto.
Qed.

Lemma memchr_found_run bs : forall m p,
  source_at m p bs -> memchr_found p 0 (length bs) m = Ret (bool_decide (0 ∈ bs), m).
Proof.
  induction bs as [|v bs IH]; intros m p Hs.
  - cbn [length memchr_found]. rewrite bool_decide_eq_false_2; [done|]. apply not_elem_of_nil.
  - destruct Hs as [|Hs]; [done|]. cbn [length memchr_found].
    rewrite (bind_ret _ _ _ _ _ (load_at _ _ _ _ Hs)). change (to_uchar 0) with 0.
    apply bytes_at_cons in Hs as [_ Hs].
    destruct (Z.eqb_spec v 0) as [->|Hv].
    + rewrite bool_decide_eq_true_2; [done|]. left.
    + rewrite IH by by right. do 2 f_equal. apply bool_decide_ext. rewrite elem_of_cons. naive_solver.
Qed.

Lemma PACKET_equal_run m pkt bs p cs :
  denotes m pkt bs -> source_at m p cs -> Forall is_byte cs ->
  PACKET_equal pkt p (Z.of_nat (length cs)) m = Ret (of_bool (bool_decide (bs = cs)), m).
Proof.
  intros (Hrem & Hs & Hbs & _) Hp Hcs. unfold PACKET_equal, PACKET_remaining. rewrite Hrem.
  destruct (Z.eqb_spec (Z.of_nat (length bs)) (Z.of_nat (length cs))) as [E%Nat2Z.inj|Hne]; cbn [negb].
  - destruct (CRYPTO_memcmp_eq m (curr pkt) p bs cs) as (c & Ec & Hc); [done..|].
    rewrite <- E. rewrite (bind_ret _ _ _ _ _ Ec), mret_run. do 3 f_equal.
    apply eq_true_iff_eq. rewrite Z.eqb_eq, bool_decide_eq_true. done.
  - rewrite bool_decide_eq_false_2; [done|]. congruence.
Qed.

(** ** Theorems *)

(** C30: Every function of packet.h that takes something from the front of a
    packet implements the parser it is named after: on a packet that denotes
    some octets it is defined, reads nothing outside them, fails exactly when
    the parser fails, leaving everything as it was, and otherwise yields the
    parser's value (a number in network or reverse order, a pointer to octets,
    a sub-packet, a length-prefixed vector) with the packet moved to the octets
    the parser left. *)
Theorem PACKET_implements (n : nat) :
  implements same_value PACKET_get_1 (p_net 1) /\
  implements same_value PACKET_get_1_len (p_net 1) /\
  implements same_value PACKET_get_net_2 (p_net 2) /\
  implements same_value PACKET_get_net_2_len (p_net 2) /\
  implements same_value PACKET_get_net_3 (p_net 3) /\
  implements same_value PACKET_get_net_3_len (p_net 3) /\
  implements same_value PACKET_get_net_4 (p_net 4) /\
  implements same_value PACKET_get_net_4_len (p_net 4) /\
  implements same_value PACKET_get_net_8 (p_net 8) /\
  implements same_value PACKET_get_4 p_le4 /\
  implements points_to (fun pkt => mret (PACKET_get_bytes pkt (Z.of_nat n))) (p_bytes n) /\
  implements denotes (fun pkt => mret (PACKET_get_sub_packet pkt (Z.of_nat n))) (p_bytes n) /\
  implements denotes PACKET_get_length_prefixed_1 (p_prefixed 1) /\
  implements denotes PACKET_as_length_prefixed_1 (p_as_prefixed 1) /\
  implements denotes PACKET_get_length_prefixed_2 (p_prefixed 2) /\
  implements denotes PACKET_as_length_prefixed_2 (p_as_prefixed 2) /\
  implements denotes PACKET_get_length_prefixed_3 (p_prefixed 3).
Proof.
  repeat match goal with |- _ /\ _ => split end.
  - apply get_net_1.
  - apply get_len_of_get; [lia|apply get_net_1].
  - apply get_net_2.
  - apply get_len_of_get; [lia|apply get_net_2].
  - apply get_net_3.
  - apply get_len_of_get; [lia|apply get_net_3].
  - apply get_net_4.
  - apply get_len_of_get; [lia|apply get_net_4].
  - apply get_net_8.
  - apply (get_of_peek 4), peek_le_4.
  - intros m pkt bs H. pose proof (get_bytes_run m pkt bs n H) as Hg.
    destruct (p_bytes n bs) as [[v bs']|]; [|by rewrite Hg].
    destruct Hg as (-> & (_ & Hs & _) & Hd). by eexists _, _.
  - apply get_sub_packet.
  - apply get_prefixed; [lia|apply get_net_1].
  - apply as_prefixed; [lia|apply get_net_1].
  - apply get_prefixed; [lia|apply get_net_2].
  - apply as_prefixed; [lia|apply get_net_2].
  - apply get_prefixed; [lia|apply get_net_3].
Qed.

(** The functions that look at a packet: equality with other octets, a zero
    octet among its own, and the copies out of it, which refuse to copy more
    than the packet or the destination has. *)
Theorem PACKET_inspect m pkt bs p cs b o n k :
  denotes m pkt bs -> source_at m p cs -> Forall is_byte cs ->
  ~ in_block (curr pkt) b -> room m (Ptr b o) (Z.of_nat n) -> (n <= length bs)%nat ->
  Z.of_nat (length bs) <= k -> room m (Ptr b o) (Z.of_nat (length bs)) ->
  PACKET_equal pkt p (Z.of_nat (length cs)) m = Ret (of_bool (bool_decide (bs = cs)), m) /\
  PACKET_contains_zero_byte pkt m = Ret (of_bool (bool_decide (0 ∈ bs)), m) /\
  PACKET_copy_bytes pkt (Ptr b o) (Z.of_nat n) m =
    Ret (Some (packet_forward pkt (Z.of_nat n)), mwrite m (Ptr b o) (take n bs)) /\
  PACKET_copy_all pkt (Ptr b o) k m = Ret ((1, Z.of_nat (length bs)), mwrite m (Ptr b o) bs).
Proof.
  intros H Hp Hcs Hnb Hr Hn Hk Hr'. pose proof H as (Hrem & Hs & Hbs & Hl). rewrite SIZE_MAX_half in Hl.
  split; [|split; [|split]].
  - by apply PACKET_equal_run.
  - unfold PACKET_contains_zero_byte. rewrite Hrem, Nat2Z.id.
    by erewrite bind_ret by by apply memchr_found_run.
  - unfold PACKET_copy_bytes, PACKET_peek_copy_bytes, PACKET_remaining. rewrite Hrem. decide_branch.
    destruct (denotes_take _ _ _ _ H Hn) as [Ht _].
    pose proof (memcpy_at m (Ptr b o) (curr pkt) b (take n bs) Ht) as Hm.
    rewrite length_take_le in Hm by done. 
    rewrite (obind_ret _ _ m (Some tt) (mwrite m (Ptr b o) (take n bs))); [done|].
    by erewrite bind_ret by (apply Hm; [done|done|done|lia]).
  - unfold PACKET_copy_all, PACKET_remaining. rewrite Hrem. decide_branch.
    by erewrite bind_ret by (eapply memcpy_at; [done|done|done|done|lia]).
Qed.

(** A packet of a buffer denotes its octets, and reading a message with its
    length in front takes the vector and leaves the rest. *)
Lemma PACKET_buf_init_denotes m p bs :
  source_at m p bs -> Forall is_byte bs -> Z.of_nat (length bs) <= SIZE_MAX / 2 ->
  exists pkt, PACKET_buf_init p (Z.of_nat (length bs)) = Some pkt /\ denotes m pkt bs.
Proof.
  intros Hs Hb Hl. unfold PACKET_buf_init. decide_branch. by eexists.
Qed.

(** Copies of a packet into new memory: the octets, or the characters before the
    first NUL and a terminator; what [*data] was before is freed. *)
Theorem PACKET_duplicate {AL : Allocator} {ALL : AllocatorLaws} m pkt bs b l :
  denotes m pkt bs -> bs <> [] -> Z.of_nat (length bs) < INT_MAX ->
  m !! b = Some l -> ~ in_block (curr pkt) b ->
  (exists r data len m', PACKET_memdup pkt (Ptr b 0) m = Ret ((r, data, len), m') /\
     if r : bool
     then exists b', data = Ptr b' 0 /\ len = Z.of_nat (length bs) /\ delete b m !! b' = None /\ m' = <[b' := bs]> (delete b m)
     else data = NULL /\ len = 0 /\ m' = delete b m) /\
  (exists r data m', PACKET_strndup pkt (Ptr b 0) m = Ret ((r, data), m') /\
     if r : bool
     then exists b', data = Ptr b' 0 /\ delete b m !! b' = None /\ m' = <[b' := upto_nul bs ++ [0]]> (delete b m)
     else data = NULL /\ m' = delete b m).
Proof.
  intros (Hrem & Hs & _ & _) Hne Hl Hb Hnb. destruct Hs as [|Hs]; [done|]. unfold INT_MAX in Hl.
  assert (bytes_at (delete b m) (curr pkt) bs) as Hs'.
  { destruct Hs as [t Ht]. exists t. destruct (curr pkt) as [| |b' o]; [done|done|]. cbn in *.
    by rewrite lookup_delete_ne. }
  assert (0 < Z.of_nat (length bs)) as Hpos by (destruct bs; [done|cbn; lia]).
  unfold PACKET_memdup, PACKET_strndup, PACKET_remaining, CRYPTO_free. rewrite Hrem.
  rewrite !(bind_ret _ _ _ _ _ (free_run m b l Hb)). cbv zeta.
  replace (Z.of_nat (length bs) =? 0) with false by lia. split.
  - destruct (CRYPTO_memdup_run (delete b m) (curr pkt) bs Hs') as [[E Hok]|(b' & E & Hb')]; [by unfold INT_MAX|..];
      rewrite (bind_ret _ _ _ _ _ E); cbn [is_null]; eexists _, _, _, _; (split; [reflexivity|]); [done|by exists b'].
  - pose proof (CRYPTO_strndup_run (delete b m) (curr pkt) bs (Z.of_nat (length bs)) Hs') as H.
    rewrite Nat2Z.id, firstn_all in H.
    destruct H as [[E Hok]|(b' & E & Hb')]; [lia|by left|lia|..];
      rewrite (bind_ret _ _ _ _ _ E), mret_run; cbn [is_null negb]; eexists _, _, _; (split; [reflexivity|]); [done|by exists b'].
Qed.
