(* ===== verification/BufMem.v ===== *)
(** * Growing buffers of the TLS library

    [BUF_MEM] of crypto/buffer/buffer.c of the vendored OpenSSL, the buffer that
    outgoing TLS messages are built in, over the heap of Heap.v.

    The theorems: growing keeps the contents and adds zeros, never touches
    another object, and on failure leaves everything as it was; the clean variant
    also leaves nothing of what it cuts off; BUF_reverse reverses, in place and into another buffer. *)

From S2P Require Import Prelude Memory ConstTime Heap.

(** ** Definitions *)

Record BUF_MEM : Type := mkBUF_MEM {
  b_length : Z;
  b_data : ptr;
  b_max : Z;
  b_flags : Z
}.

Section definitions.
Context {AL : Allocator}.

Definition BUF_MEM_FLAG_SECURE : Z := 1.
Definition LIMIT_BEFORE_EXPANSION : Z := 1610612732.

Definition set_length (len : Z) (str : BUF_MEM) : BUF_MEM :=
  mkBUF_MEM len (b_data str) (b_max str) (b_flags str).

(** A new buffer: the structure is zeroed.  The structure itself is not an
    object of the model. *)
Definition BUF_MEM_new : BUF_MEM := mkBUF_MEM 0 NULL 0 0.

Definition BUF_MEM_new_ex (flags : Z) : BUF_MEM :=
  let ret := BUF_MEM_new in mkBUF_MEM (b_length ret) (b_data ret) (b_max ret) flags.

Definition BUF_MEM_free (a : option BUF_MEM) : M mem unit :=
  match a with
  | None => mret tt
  | Some a =>
      if negb (is_null (b_data a))
      then CRYPTO_clear_free (b_data a) (b_max a)
      else mret tt
  end.

(** The new block and the structure. *)
Definition sec_alloc_realloc (str : BUF_MEM) (len : Z) : M mem (ptr * BUF_MEM) :=
  ret ← CRYPTO_malloc len;
  if negb (is_null (b_data str)) && negb (is_null ret)
  then memcpy ret (b_data str) (b_length str);;
       CRYPTO_clear_free (b_data str) (b_length str);;
       mret (ret, mkBUF_MEM (b_length str) NULL (b_max str) (b_flags str))
  else mret (ret, str).

Definition BUF_MEM_grow (str : BUF_MEM) (len : Z) : M mem (Z * BUF_MEM) :=
  if len <=? b_length str then mret (len, set_length len str)
  else if len <=? b_max str then
    (if negb (is_null (b_data str))
     then memset (padd (b_data str) (b_length str)) 0 (len - b_length str)
     else mret tt);;
    mret (len, set_length len str)
  else if LIMIT_BEFORE_EXPANSION <? len then mret (0, str)
  else
    let n := (len + 3) / 3 * 4 in
    '(ret, str) ← (if truthy (Z.land (b_flags str) BUF_MEM_FLAG_SECURE)
                   then sec_alloc_realloc str n
                   else ret ← CRYPTO_realloc (b_data str) n; mret (ret, str));
    if is_null ret then mret (0, str)
    else
      let str := mkBUF_MEM (b_length str) ret n (b_flags str) in
      memset (padd (b_data str) (b_length str)) 0 (len - b_length str);;
      mret (len, set_length len str).

Definition BUF_MEM_grow_clean (str : BUF_MEM) (len : Z) : M mem (Z * BUF_MEM) :=
  if len <=? b_length str then
    (if negb (is_null (b_data str))
     then memset (padd (b_data str) len) 0 (b_length str - len)
     else mret tt);;
    mret (len, set_length len str)
  else if len <=? b_max str then
    memset (padd (b_data str) (b_length str)) 0 (len - b_length str);;
    mret (len, set_length len str)
  else if LIMIT_BEFORE_EXPANSION <? len then mret (0, str)
  else
    let n := (len + 3) / 3 * 4 in
    '(ret, str) ← (if truthy (Z.land (b_flags str) BUF_MEM_FLAG_SECURE)
                   then sec_alloc_realloc str n
                   else ret ← CRYPTO_clear_realloc (b_data str) (b_max str) n; mret (ret, str));
    if is_null ret then mret (0, str)
    else
      let str := mkBUF_MEM (b_length str) ret n (b_flags str) in
      memset (padd (b_data str) (b_length str)) 0 (len - b_length str);;
      mret (len, set_length len str).

(** The two loops of BUF_reverse, with [n] iterations left. *)
Fixpoint reverse_into (n : nat) (out inp : ptr) : M mem unit :=
  match n with
  | O => mret tt
  | S n' => v ← load inp; store out v;; reverse_into n' (padd out (-1)) (padd inp 1)
  end.

Fixpoint reverse_in_place (n : nat) (out q : ptr) : M mem unit :=
  match n with
  | O => mret tt
  | S n' => c ← load q; v ← load out; store q v;; store out c;;
            reverse_in_place n' (padd out 1) (padd q (-1))
  end.

Definition BUF_reverse (out inp : ptr) (size : Z) : M mem unit :=
  if negb (is_null inp)
  then reverse_into (Z.to_nat size) (padd out (size - 1)) inp
  else reverse_in_place (Z.to_nat (size / 2)) out (padd out (size - 1)).
End definitions.

(** ** Specification *)

(** The buffer holds [c]; its object has [b_max] octets. *)
Definition buf_repr (m : mem) (str : BUF_MEM) (c : list Z) : Prop :=
  b_length str = Z.of_nat (length c) /\
  match b_data str with
  | NULL => c = [] /\ b_max str = 0
  | Ptr b 0 => exists rest, m !! b = Some (c ++ rest) /\ b_max str = Z.of_nat (length (c ++ rest))
  | _ => False
  end.

(** The objects of [m] other than the buffer's are as they were. *)
Definition others_kept (m m' : mem) (p : ptr) : Prop :=
  forall b, ~ in_block p b -> is_Some (m !! b) -> m' !! b = m !! b.

(** The object is the one it was or one that did not exist in [m]. *)
Definition same_or_new (m : mem) (p q : ptr) : Prop :=
  q = p \/ exists b, q = Ptr b 0 /\ m !! b = None.

(** [c] cut, or filled up with zeros, to [n] octets. *)
Definition resized (n : nat) (c : list Z) : list Z := take n c ++ replicate (n - length c) 0.

(** ** Lemmas *)

Lemma others_kept_refl m p : others_kept m m p.
Proof. by intros b _ _. Qed.

(** Octets among those at [p] are replaced. *)
Lemma bytes_at_update m p a x y z :
  bytes_at m p (a ++ x ++ z) -> length x = length y ->
  bytes_at (mwrite m (padd p (Z.of_nat (length a))) y) p (a ++ y ++ z).
Proof.
  intros [t Ht] Hl. destruct p as [| |b o]; [done|done|].
  apply tail_at_Some in Ht as (l & Hb & Ho & Ht).
  assert (l = (take (Z.to_nat o) l ++ a) ++ x ++ (z ++ t)) as El.
  { rewrite <- (take_drop (Z.to_nat o) l) at 1. rewrite <- Ht, <- !app_assoc. done. }
  assert (length (take (Z.to_nat o) l) = Z.to_nat o) as Hto by (rewrite length_take; lia).
  exists t. apply tail_at_Some. exists ((take (Z.to_nat o) l ++ a) ++ y ++ (z ++ t)).
  cbn [padd mwrite]. rewrite lookup_alter_eq, Hb. cbn [fmap option_fmap option_map]. split; [|split].
  - f_equal. rewrite El at 1.
    replace (Z.to_nat (o + Z.of_nat (length a))) with (length (take (Z.to_nat o) l ++ a))
      by (rewrite length_app; lia).
    by apply splice_middle.
  - rewrite !length_app. lia.
  - rewrite <- !app_assoc, drop_app_length' by done. done.
Qed.

(** The octets behind [c] up to [n] are cleared. *)
Lemma clear_run m b c rest n :
  m !! b = Some (c ++ rest) -> Z.of_nat (length c) <= n <= Z.of_nat (length (c ++ rest)) ->
  n < 18446744073709551616 ->
  exists m' rest',
    memset (padd (Ptr b 0) (Z.of_nat (length c))) 0 (n - Z.of_nat (length c)) m = Ret (tt, m') /\
    m' !! b = Some (resized (Z.to_nat n) c ++ rest') /\
    length (resized (Z.to_nat n) c ++ rest') = length (c ++ rest) /\
    (forall b', b' <> b -> m' !! b' = m !! b').
Proof.
  intros Hl Hn Hn'. rewrite length_app in Hn.
  set (k := (Z.to_nat n - length c)%nat).
  assert (resized (Z.to_nat n) c = c ++ replicate k 0) as ->.
  { unfold resized. rewrite take_ge by lia. done. }
  unfold memset. rewrite to_size_id by lia. change (to_uchar 0) with 0.
  replace (Z.to_nat (n - Z.of_nat (length c))) with k by lia.
  assert (room m (padd (Ptr b 0) (Z.of_nat (length c))) (Z.of_nat (length (replicate k 0)))) as Hr.
  { cbn [padd]. apply room_block; [lia|]. exists (c ++ rest). split; [done|].
    rewrite length_replicate, length_app. lia. }
  exists (mwrite m (padd (Ptr b 0) (Z.of_nat (length c))) (replicate k 0)), (drop k rest).
  split; [by apply store_bytes_room|]. cbn [padd mwrite]. split; [|split].
  - rewrite lookup_alter_eq, Hl. cbn [fmap option_fmap option_map]. f_equal.
    replace (Z.to_nat (0 + Z.of_nat (length c))) with (length c) by lia.
    rewrite <- (take_drop k rest) at 1.
    rewrite splice_middle; [by rewrite <- app_assoc|]. rewrite length_take, length_replicate. lia.
  - rewrite !length_app, length_replicate, length_drop. lia.
  - intros b' Hb'. by rewrite lookup_alter_ne.
Qed.

Lemma buf_max m str c : buf_repr m str c -> Z.of_nat (length c) <= b_max str.
Proof.
  intros [Hl Hd]. destruct (b_data str) as [| |b o]; [destruct Hd as [-> ->]; done|done|].
  destruct o; [|done|done]. destruct Hd as (rest & _ & ->). rewrite length_app. lia.
Qed.

Section grow.
Context {AL : Allocator} {ALL : AllocatorLaws}.

(** A larger object for the buffer: nothing, or a new object that starts with
    the contents. *)
Definition moved (m m' : mem) (str str' : BUF_MEM) (c : list Z) (n : Z) (ret : ptr) : Prop :=
  (ret = NULL /\ str' = str /\ m' = m /\ alloc_ok m n = false) \/
  (exists b rest, ret = Ptr b 0 /\ m !! b = None /\ m' !! b = Some (c ++ rest) /\
     Z.of_nat (length (c ++ rest)) = n /\ others_kept m m' (b_data str) /\
     b_length str' = b_length str /\ b_flags str' = b_flags str).

Lemma realloc_moves m str c n :
  buf_repr m str c -> b_max str < n ->
  exists ret m', CRYPTO_realloc (b_data str) n m = Ret (ret, m') /\ moved m m' str str c n ret.
Proof using All.
  intros H Hn. pose proof (buf_max _ _ _ H). rewrite CRYPTO_realloc_pos by lia.
  destruct H as [Hlen Hd]. destruct (b_data str) as [| |b o] eqn:Ed; [|done|].
  - destruct Hd as [-> Hmax]. cbn [realloc]. unfold malloc.
    destruct (alloc_ok m n) eqn:Hok; eexists _, _; (split; [reflexivity|]); [right|by left].
    exists (fresh (dom m)), (alloc_bytes n). rewrite fresh_lookup, lookup_insert_eq.
    split_and!; try done.
    + rewrite app_nil_l, alloc_bytes_length; lia.
    + intros b _ [l Hl]. rewrite lookup_insert_ne; [done|]. intros E. by rewrite <- E, fresh_lookup in Hl.
  - destruct o; [|done|done]. destruct Hd as (rest & Hl & Hmax). cbn [realloc]. rewrite Hl.
    destruct (alloc_ok m n) eqn:Hok; eexists _, _; (split; [reflexivity|]); [right|by left].
    rewrite length_app in Hmax.
    exists (fresh (dom m)), (take (Z.to_nat n - length c) (rest ++ alloc_bytes n)).
    rewrite fresh_lookup, lookup_insert_eq. split_and!; try done.
    + rewrite <- app_assoc. rewrite take_app_ge by lia. done.
    + rewrite length_app, length_take, length_app, alloc_bytes_length; lia.
    + rewrite Ed. intros b' Hb' [l Hl']. rewrite lookup_insert_ne.
      * apply lookup_delete_ne. cbn in Hb'. congruence.
      * intros E. by rewrite <- E, fresh_lookup in Hl'.
Qed.

Lemma moved_new m m' str str' c n b' l rest :
  m !! b' = None -> m' !! b' = Some (c ++ rest) -> Z.of_nat (length (c ++ rest)) = n ->
  (forall b0, ~ in_block (b_data str) b0 -> b0 <> b' -> m' !! b0 = <[b' := l]> m !! b0) ->
  b_length str' = b_length str -> b_flags str' = b_flags str ->
  moved m m' str str' c n (Ptr b' 0).
Proof using.
  intros Hn Hb Hl Hk H1 H2. right. exists b', rest. split_and!; try done.
  intros b0 Hb0 [l0 Hl0]. rewrite Hk by congruence. rewrite lookup_insert_ne; congruence.
Qed.

Lemma sec_alloc_moves m str c n :
  buf_repr m str c -> b_max str < n -> Z.of_nat (length c) < 18446744073709551616 ->
  exists ret str' m', sec_alloc_realloc str n m = Ret ((ret, str'), m') /\ moved m m' str str' c n ret.
Proof using All.
  intros H Hn Hc. pose proof (buf_max _ _ _ H) as Hmax. destruct H as [Hlen Hd]. unfold sec_alloc_realloc.
  destruct (malloc_run n m) as (ret & m1 & E & [(-> & -> & Hok)|(b' & l & -> & Hb' & -> & Hl)]); [lia|..];
    rewrite (bind_ret _ _ _ _ _ E); cbn [is_null negb]; rewrite ?andb_true_r, ?andb_false_r.
  { eexists _, _, _. split; [reflexivity|by left]. }
  destruct (b_data str) as [| |b o] eqn:Ed; [|done|]; cbn [is_null negb].
  - destruct Hd as [-> _]. eexists _, _, _. split; [reflexivity|]. apply (moved_new m _ str str [] n b' l l);
      [done|by rewrite lookup_insert_eq|cbn; lia|done|done|done].
  - destruct o; [|done|done]. destruct Hd as (rest & Hr & Hm). rewrite length_app in Hm. rewrite Hlen.
    edestruct (copy_and_free (mret (Ptr b' 0, mkBUF_MEM (b_length str) NULL (b_max str) (b_flags str)))
      (<[b' := l]> m) b b' c rest l) as (m' & Ec & Hb0 & Hk);
      [rewrite lookup_insert_ne; congruence|apply lookup_insert_eq|congruence|lia|done|].
    rewrite Hlen in Ec. eexists _, _, m'. split; [exact Ec|].
    apply (moved_new m m' str _ c n b' l (drop (length c) l)); try done.
    + rewrite length_app, length_drop. lia.
    + rewrite Ed. cbn. intros b0 Hb. apply Hk. congruence.
Qed.

Lemma clear_realloc_moves m str c n :
  buf_repr m str c -> b_max str < n < 18446744073709551616 ->
  exists ret m', CRYPTO_clear_realloc (b_data str) (b_max str) n m = Ret (ret, m') /\ moved m m' str str c n ret.
Proof using All.
  intros H Hn. pose proof (buf_max _ _ _ H) as Hmax. destruct H as [Hlen Hd]. unfold CRYPTO_clear_realloc.
  replace (n =? 0) with false by lia. replace (n <? b_max str) with false by lia.
  destruct (malloc_run n m) as (ret & m1 & E & Hm1); [lia|].
  destruct (b_data str) as [| |b o] eqn:Ed; [|done|]; cbn [is_null].
  - destruct Hd as [-> _]. exists ret, m1. split; [done|].
    destruct Hm1 as [(-> & -> & Hok)|(b' & l & -> & Hb' & -> & Hl)]; [by left|].
    apply (moved_new m _ str str [] n b' l l); [done|by rewrite lookup_insert_eq|cbn; lia|done|done|done].
  - destruct o; [|done|done]. destruct Hd as (rest & Hr & Hm). rewrite (bind_ret _ _ _ _ _ E).
    destruct Hm1 as [(-> & -> & Hok)|(b' & l & -> & Hb' & -> & Hl)]; cbn [is_null negb].
    { eexists _, _. split; [reflexivity|by left]. }
    edestruct (copy_and_free (mret (Ptr b' 0)) (<[b' := l]> m) b b' (c ++ rest) [] l) as (m' & Ec & Hb0 & Hk);
      [rewrite app_nil_r, lookup_insert_ne; congruence|apply lookup_insert_eq|congruence|lia|lia|].
    rewrite Hm. eexists _, m'. split; [rewrite bind_assoc; exact Ec|].
    apply (moved_new m m' str _ c n b' l (rest ++ drop (length (c ++ rest)) l)); try done.
    + by rewrite app_assoc.
    + rewrite app_assoc, length_app, length_drop. lia.
    + rewrite Ed. cbn. intros b0 Hb. apply Hk. congruence.
Qed.

Lemma length_resized n c : length (resized n c) = n.
Proof. unfold resized. rewrite length_app, length_take, length_replicate. lia. Qed.

(** A shorter buffer in the same object. *)
Lemma buf_cut m str c len :
  buf_repr m str c -> 0 <= len <= b_length str -> buf_repr m (set_length len str) (resized (Z.to_nat len) c).
Proof.
  intros [Hl Hd] Hle. unfold buf_repr, set_length. cbn [b_length b_data b_max].
  rewrite length_resized. split; [lia|].
  assert (resized (Z.to_nat len) c = take (Z.to_nat len) c) as ->.
  { unfold resized. replace (Z.to_nat len - length c)%nat with 0%nat by lia. apply app_nil_r. }
  destruct (b_data str) as [| |b o]; [destruct Hd as [-> ->]; by rewrite take_nil|done|].
  destruct o; [|done|done]. destruct Hd as (rest & Hb & Hm). exists (drop (Z.to_nat len) c ++ rest).
  by rewrite app_assoc, take_drop.
Qed.

(** The larger object, by either way of getting it. *)
Lemma enlarge_run m str c n :
  buf_repr m str c -> b_max str < n -> n < 2 ^ 64 ->
  exists ret str' m',
    (if truthy (Z.land (b_flags str) BUF_MEM_FLAG_SECURE)
     then sec_alloc_realloc str n
     else ret ← CRYPTO_realloc (b_data str) n; mret (ret, str)) m = Ret ((ret, str'), m') /\
    moved m m' str str' c n ret.
Proof using All.
  intros H Hn Hn'. pose proof (buf_max _ _ _ H). destruct (truthy _).
  - apply sec_alloc_moves; [done..|lia].
  - destruct (realloc_moves m str c n H Hn) as (ret & m' & E & Hm).
    exists ret, str, m'. split; [by rewrite (bind_ret _ _ _ _ _ E)|done].
Qed.

Lemma enlarge_clean_run m str c n :
  buf_repr m str c -> b_max str < n -> n < 2 ^ 64 ->
  exists ret str' m',
    (if truthy (Z.land (b_flags str) BUF_MEM_FLAG_SECURE)
     then sec_alloc_realloc str n
     else ret ← CRYPTO_clear_realloc (b_data str) (b_max str) n; mret (ret, str)) m = Ret ((ret, str'), m') /\
    moved m m' str str' c n ret.
Proof using All.
  intros H Hn Hn'. pose proof (buf_max _ _ _ H). destruct (truthy _).
  - apply sec_alloc_moves; [done..|lia].
  - destruct (clear_realloc_moves m str c n H) as (ret & m' & E & Hm); [lia|].
    exists ret, str, m'. split; [by rewrite (bind_ret _ _ _ _ _ E)|done].
Qed.

(** What a change of size to [len] leaves behind. *)
Definition grown (m m' : mem) (str str' : BUF_MEM) (c : list Z) (len r : Z) : Prop :=
  others_kept m m' (b_data str) /\
  b_flags str' = b_flags str /\ same_or_new m (b_data str) (b_data str') /\
  (b_max str' = b_max str \/ b_max str' < 2 ^ 32) /\
  ((r = len /\ buf_repr m' str' (resized (Z.to_nat len) c)) \/
   (r = 0 /\ str' = str /\ m' = m /\ b_max str < len /\
    (len <= LIMIT_BEFORE_EXPANSION -> alloc_ok m ((len + 3) / 3 * 4) = false))).

(** The octets up to [len] are cleared in the object there is. *)
Lemma grow_in_place m str c len :
  buf_repr m str c -> b_length str < len <= b_max str -> len < 2 ^ 64 ->
  is_null (b_data str) = false /\
  exists m', memset (padd (b_data str) (b_length str)) 0 (len - b_length str) m = Ret (tt, m') /\
    grown m m' str (set_length len str) c len len.
Proof using.
  intros [Hlen Hd] Hl Hl'. destruct (b_data str) as [| |b o] eqn:Ed; [lia|done|]. destruct o; [|done|done].
  destruct Hd as (rest & Hb & Hm). split; [done|]. rewrite Hlen in *.
  destruct (clear_run m b c rest len) as (m' & rest' & E & Hb' & Hr & Hk); [done|lia|lia|].
  exists m'. split; [done|]. unfold grown. rewrite Ed.
  split; [intros b0 Hb0 _; apply Hk; cbn in Hb0; congruence|]. split; [done|].
  split; [left; by rewrite <- Ed|]. split; [by left|left]. split; [done|].
  unfold buf_repr, set_length. cbn [b_length b_data b_max]. rewrite Ed, length_resized. split; [lia|].
  exists rest'. split; [done|lia].
Qed.

(** The larger object is taken over and cleared behind the contents. *)
Lemma grow_moved m str c len n ret str1 m1 :
  buf_repr m str c -> 0 <= len -> b_max str < len <= LIMIT_BEFORE_EXPANSION -> n = (len + 3) / 3 * 4 ->
  moved m m1 str str1 c n ret ->
  exists r str' m',
    (if is_null ret then mret (0, str1)
     else
       let str := mkBUF_MEM (b_length str1) ret n (b_flags str1) in
       memset (padd (b_data str) (b_length str)) 0 (len - b_length str);;
       mret (len, set_length len str)) m1 = Ret ((r, str'), m') /\
    grown m m' str str' c len r.
Proof using.
  intros H Hl0 Hl En Hmv. pose proof (buf_max _ _ _ H) as Hmax. destruct H as [Hlen Hd].
  assert (len <= n < 2 ^ 32) as Hn
    by (subst n; unfold LIMIT_BEFORE_EXPANSION in *; Z.div_mod_to_equations; lia).
  destruct Hmv as [(-> & -> & -> & Hok)|(b & rest & -> & Hnew & Hb & Hnl & Hk & Hlen1 & Hfl)]; cbn [is_null].
  { eexists _, _, _. split; [reflexivity|]. split; [apply others_kept_refl|]. split; [done|].
    split; [by left|]. split; [by left|right]. split_and!; [done..|lia|by rewrite <- En]. }
  cbn [b_data b_length]. rewrite Hlen1, Hlen in *.
  destruct (clear_run m1 b c rest len) as (m' & rest' & E & Hb' & Hr & Hk'); [done|lia|lia|].
  rewrite (bind_ret _ _ _ _ _ E). eexists _, _, _. split; [reflexivity|].
  split; [|split; [done|split; [right; by exists b|split; [right; cbn; lia|left]]]].
  - intros b0 Hb0 Hs. rewrite Hk' by (intros ->; rewrite Hnew in Hs; by destruct Hs). by apply Hk.
  - split; [done|]. unfold buf_repr, set_length. cbn [b_length b_data b_max]. rewrite length_resized.
    split; [lia|]. exists rest'. split; [done|lia].
Qed.

Lemma grow_refused m str c len :
  b_max str < len -> LIMIT_BEFORE_EXPANSION < len -> grown m m str str c len 0.
Proof using.
  intros H1 H2. split; [apply others_kept_refl|]. split; [done|].
  split; [by left|]. split; [by left|right]. split_and!; [done..|lia].
Qed.

(** BUF_MEM_grow changes the size of a buffer, keeping its octets (cut when it
    shrinks) and adding zeros, whether the object is large enough, is moved by
    realloc, or is copied to secure memory; it touches no other object.  It
    fails, with everything as it was, only when more than the object holds is
    asked for and either the limit of the code is exceeded or the allocation
    fails. *)
Theorem BUF_MEM_grow_run m str c len :
  buf_repr m str c -> 0 <= len < 2 ^ 64 ->
  exists r str' m', BUF_MEM_grow str len m = Ret ((r, str'), m') /\ grown m m' str str' c len r.
Proof using All.
  intros H Hl. pose proof (buf_max _ _ _ H) as Hmax. pose proof H as [Hlen _]. unfold BUF_MEM_grow.
  destruct (Z.leb_spec len (b_length str)) as [H1|H1].
  { eexists _, _, _. split; [reflexivity|]. split; [apply others_kept_refl|]. split; [done|]. split; [by left|].
    split; [by left|left]. split; [done|]. apply buf_cut; [done|lia]. }
  destruct (Z.leb_spec len (b_max str)) as [H2|H2].
  { destruct (grow_in_place m str c len H) as (-> & m' & E & Hg); [lia|lia|]. cbn [negb].
    rewrite (bind_ret _ _ _ _ _ E). by eexists _, _, _. }
  destruct (Z.ltb_spec LIMIT_BEFORE_EXPANSION len) as [H3|H3].
  { eexists _, _, _. split; [reflexivity|by apply grow_refused]. }
  assert (len <= (len + 3) / 3 * 4 < 2 ^ 32) as Hn
    by (unfold LIMIT_BEFORE_EXPANSION in *; Z.div_mod_to_equations; lia).
  destruct (enlarge_run m str c ((len + 3) / 3 * 4) H) as (ret & str1 & m1 & E1 & Hmv); [lia|lia|].
  cbv zeta. rewrite (bind_ret _ _ _ _ _ E1). apply grow_moved; [done|lia|lia|done|done].
Qed.

(** The octets behind the new end are cleared. *)
Lemma shrink_clean m str c len :
  buf_repr m str c -> 0 <= len <= b_length str -> b_length str < 2 ^ 64 ->
  exists m',
    (if negb (is_null (b_data str))
     then memset (padd (b_data str) len) 0 (b_length str - len)
     else mret tt) m = Ret (tt, m') /\
    grown m m' str (set_length len str) c len len /\
    (len <= b_length str -> b_data str <> NULL -> b_data (set_length len str) = b_data str /\
     bytes_at m' (b_data (set_length len str)) (take (Z.to_nat len) c ++ replicate (length c - Z.to_nat len) 0)).
Proof using.
  intros [Hlen Hd] Hl Hl'. unfold grown. destruct (b_data str) as [| |b o] eqn:Ed; [|done|].
  - destruct Hd as [-> Hm]. exists m. cbn [is_null negb]. split; [done|]. split; [|done].
    split; [apply others_kept_refl|]. split; [done|]. split; [left; cbn; by rewrite Ed|]. split; [by left|left].
    split; [done|]. cbn in Hlen. replace len with 0 by lia. unfold buf_repr. cbn. by rewrite Ed.
  - destruct o; [|done|done]. destruct Hd as (rest & Hb & Hm). cbn [is_null negb].
    set (a := take (Z.to_nat len) c).
    assert (length a = Z.to_nat len) as Ha by (unfold a; rewrite length_take; lia).
    assert (resized (Z.to_nat (b_length str)) a = a ++ replicate (length c - Z.to_nat len) 0) as Er.
    { unfold resized. rewrite take_ge by lia. do 2 f_equal. lia. }
    assert (resized (Z.to_nat len) c = a) as Er'.
    { unfold resized. replace (Z.to_nat len - length c)%nat with 0%nat by lia. apply app_nil_r. }
    destruct (clear_run m b a (drop (Z.to_nat len) c ++ rest) (b_length str)) as (m' & rest' & E & Hb' & Hr & Hk).
    { unfold a. by rewrite app_assoc, take_drop. }
    { rewrite !length_app, length_drop. lia. }
    { lia. }
    rewrite Ha, Z2Nat.id in E by lia. rewrite Er in Hb', Hr.
    exists m'. split; [done|]. split; [|intros _ _; split; [done|]].
    + split; [intros b0 Hb0 _; apply Hk; cbn in Hb0; congruence|]. split; [done|].
      split; [left; cbn; by rewrite Ed|]. split; [by left|left]. split; [done|]. rewrite Er'.
      unfold buf_repr, set_length. cbn [b_length b_data b_max]. rewrite Ed, Ha. split; [lia|].
      exists (replicate (length c - Z.to_nat len) 0 ++ rest'). rewrite app_assoc. split; [done|].
      rewrite Hr, Hm, !length_app, length_drop, Ha. lia.
    + exists rest'. cbn. rewrite Ed. cbn. rewrite Hb'. by decide_branch.
Qed.

(** BUF_MEM_grow_clean does the same, and what it cuts off or moves away from is
    cleared: no octet behind the new end is left of the old contents. *)
Theorem BUF_MEM_grow_clean_run m str c len :
  buf_repr m str c -> 0 <= len < 2 ^ 64 -> b_length str < 2 ^ 64 ->
  exists r str' m', BUF_MEM_grow_clean str len m = Ret ((r, str'), m') /\ grown m m' str str' c len r /\
    (len <= b_length str -> b_data str <> NULL -> b_data str' = b_data str /\
     bytes_at m' (b_data str') (take (Z.to_nat len) c ++ replicate (length c - Z.to_nat len) 0)).
Proof using All.
  intros H Hl Hl64. pose proof (buf_max _ _ _ H) as Hmax. pose proof H as [Hlen Hd]. unfold BUF_MEM_grow_clean.
  destruct (Z.leb_spec len (b_length str)) as [H1|H1].
  { destruct (shrink_clean m str c len H) as (m' & E & Hg & Hb); [lia|lia|].
    rewrite (bind_ret _ _ _ _ _ E). eexists _, _, _. split; [reflexivity|]. done. }
  destruct (Z.leb_spec len (b_max str)) as [H2|H2].
  { destruct (grow_in_place m str c len H) as (_ & m' & E & Hg); [lia|lia|].
    rewrite (bind_ret _ _ _ _ _ E). eexists _, _, _. split; [reflexivity|]. split; [done|lia]. }
  destruct (Z.ltb_spec LIMIT_BEFORE_EXPANSION len) as [H3|H3].
  { eexists _, _, _. split; [reflexivity|]. split; [by apply grow_refused|lia]. }
  assert (len <= (len + 3) / 3 * 4 < 2 ^ 32) as Hn
    by (unfold LIMIT_BEFORE_EXPANSION in *; Z.div_mod_to_equations; lia).
  destruct (enlarge_clean_run m str c ((len + 3) / 3 * 4) H) as (ret & str1 & m1 & E1 & Hmv); [lia|lia|].
  cbv zeta. rewrite (bind_ret _ _ _ _ _ E1).
  edestruct (grow_moved m str c len) as (r & str' & m' & E & Hg); [done|lia|lia|done|done|].
  exists r, str', m'. split; [exact E|]. split; [done|lia].
Qed.
End grow.

(** *** Reversal *)

Lemma load_block m b a v z : m !! b = Some (a ++ v :: z) -> load (Ptr b (Z.of_nat (length a))) m = Ret (v, m).
Proof.
  intros E. unfold load. cbn [tail_at]. rewrite E, length_app. decide_branch.
  rewrite Nat2Z.id, drop_app_length. done.
Qed.

Lemma store_block m b a v v' z :
  is_byte v' -> m !! b = Some (a ++ v :: z) ->
  store (Ptr b (Z.of_nat (length a))) v' m = Ret (tt, <[b := a ++ v' :: z]> m).
Proof.
  intros Hv E. rewrite store_room.
  - do 2 f_equal. cbn [mwrite]. rewrite to_uchar_id, Nat2Z.id by done.
    apply map_eq. intros b0. destruct (decide (b0 = b)) as [->|Hne].
    + rewrite lookup_alter_eq, lookup_insert_eq, E. cbn [fmap option_fmap option_map]. f_equal.
      apply (splice_middle a [v] [v'] z). done.
    + by rewrite lookup_alter_ne, lookup_insert_ne by done.
  - apply room_block; [lia|]. eexists. split; [done|]. rewrite length_app. cbn [length]. lia.
Qed.

Lemma reverse_into_run bs : forall m b a cs z inp,
  m !! b = Some (a ++ cs ++ z) -> length cs = length bs -> Forall is_byte bs ->
  ~ in_block inp b -> source_at m inp bs ->
  reverse_into (length bs) (Ptr b (Z.of_nat (length a + length bs) - 1)) inp m =
    Ret (tt, <[b := a ++ rev bs ++ z]> m).
Proof.
  induction bs as [|v bs IH]; intros m b a cs z inp E Hlen Hb Hnb Hs.
  - cbn [length reverse_into rev]. destruct cs; [|done]. by rewrite insert_id.
  - destruct cs as [|c0 cs] using rev_ind; [done|]. clear IHcs. rewrite length_app in Hlen.
    cbn [length] in Hlen. destruct Hs as [|Hs]; [done|]. inversion Hb; subst.
    cbn [length reverse_into]. rewrite (bind_ret _ _ _ _ _ (load_at _ _ _ _ Hs)).
    replace (Z.of_nat (length a + S (length bs)) - 1) with (Z.of_nat (length (a ++ cs)))
      by (rewrite length_app; lia).
    erewrite bind_ret by (apply (store_block _ _ (a ++ cs) c0 v z); [done|];
      rewrite E, <- !app_assoc; done).
    apply bytes_at_cons in Hs as [_ Hs]. cbn [padd].
    replace (Z.of_nat (length (a ++ cs)) + -1) with (Z.of_nat (length a + length bs) - 1)
      by (rewrite length_app; lia).
    rewrite (IH _ b a cs (v :: z) (padd inp 1)); [|rewrite lookup_insert_eq, <- app_assoc; done|lia|done|by rewrite in_block_padd|].
    + do 2 f_equal. rewrite insert_insert_eq. cbn [rev]. by rewrite <- app_assoc.
    + right. destruct Hs as [t Ht]. exists t. rewrite <- Ht. destruct inp; [done|done|].
      cbn [padd tail_at] in *. cbn in Hnb. by rewrite lookup_insert_ne by congruence.
Qed.

Lemma reverse_in_place_run n : forall m b a bs z,
  m !! b = Some (a ++ bs ++ z) -> Forall is_byte bs -> n = (length bs / 2)%nat ->
  reverse_in_place n (Ptr b (Z.of_nat (length a))) (Ptr b (Z.of_nat (length a + length bs) - 1)) m =
    Ret (tt, <[b := a ++ rev bs ++ z]> m).
Proof.
  induction n as [|n IH]; intros m b a bs z E Hb Hn.
  - cbn [reverse_in_place]. destruct bs as [|x [|y bs]]; [by rewrite insert_id| by rewrite insert_id|].
    cbn [length] in Hn. pose proof (Nat.div_str_pos (S (S (length bs))) 2). lia.
  - destruct bs as [|x bs]; [done|]. destruct bs as [|y mid] using rev_ind; [done|]. clear IHmid.
    cbn [length] in Hn. rewrite length_app in Hn. cbn [length] in Hn.
    replace (S (length mid + 1)) with (length mid + 1 * 2)%nat in Hn by lia.
    rewrite Nat.div_add in Hn by lia.
    inversion Hb as [|?? Hx Hb']; subst. apply Forall_app in Hb' as [Hmid Hy]. apply Forall_cons in Hy as [Hy _].
    cbn [reverse_in_place].
    replace (Z.of_nat (length a + length (x :: mid ++ [y])) - 1) with (Z.of_nat (length (a ++ x :: mid)))
      by (rewrite !length_app; cbn [length]; rewrite length_app; cbn [length]; lia).
    assert (m !! b = Some ((a ++ x :: mid) ++ y :: z)) as E1 by (rewrite E, <- !app_assoc; cbn; by rewrite <- app_assoc).
    assert (m !! b = Some (a ++ x :: (mid ++ y :: z))) as E2 by (rewrite E1, <- app_assoc; done).
    rewrite (bind_ret _ _ _ _ _ (load_block _ _ _ _ _ E1)), (bind_ret _ _ _ _ _ (load_block _ _ _ _ _ E2)).
    rewrite (bind_ret _ _ _ _ _ (store_block _ _ _ _ x _ Hx E1)).
    erewrite bind_ret by (apply (store_block _ _ a x y (mid ++ x :: z)); [done|];
      rewrite lookup_insert_eq, <- app_assoc; done).
    rewrite insert_insert_eq. cbn [padd].
    pose proof (IH (<[b := a ++ y :: mid ++ x :: z]> m) b (a ++ [y]) mid (x :: z)) as Hi.
    rewrite lookup_insert_eq, <- app_assoc, !length_app in Hi. cbn [length] in Hi.
    replace (Z.of_nat (length a) + 1) with (Z.of_nat (length a + 1)) by lia.
    replace (Z.of_nat (length (a ++ x :: mid)) + -1) with (Z.of_nat (length a + 1 + length mid) - 1)
      by (rewrite length_app; cbn [length]; lia).
    rewrite Hi; [|done|done|lia]. do 2 f_equal. rewrite insert_insert_eq. f_equal.
    cbn [rev]. rewrite rev_app_distr. cbn [rev app]. by rewrite <- !app_assoc.
Qed.

(** BUF_reverse writes the octets of [in] in the opposite order to [out], or
    reverses [out] in place when [in] is null. *)
Theorem BUF_reverse_spec m b a bs z cs inp :
  m !! b = Some (a ++ cs ++ z) -> length cs = length bs -> Forall is_byte bs ->
  (inp = NULL /\ cs = bs) \/ (bytes_at m inp bs /\ ~ in_block inp b) ->
  BUF_reverse (Ptr b (Z.of_nat (length a))) inp (Z.of_nat (length bs)) m =
    Ret (tt, <[b := a ++ rev bs ++ z]> m).
Proof.
  intros E Hlen Hb Hin. unfold BUF_reverse. cbn [padd].
  replace (Z.of_nat (length a) + (Z.of_nat (length bs) - 1)) with (Z.of_nat (length a + length bs) - 1) by lia.
  destruct Hin as [[-> ->]|[Hs Hnb]].
  - cbn [is_null negb]. apply reverse_in_place_run; [done|done|].
    change 2 with (Z.of_nat 2). rewrite <- Nat2Z.inj_div. lia.
  - assert (is_null inp = false) as -> by (destruct Hs as [t Ht]; by destruct inp).
    cbn [negb]. rewrite Nat2Z.id. apply (reverse_into_run bs _ _ _ cs); try done. by right.
Qed.
