(* ===== verification/Vlint.v ===== *)
(** * Variable-length integers of QUIC

    include/internal/quic_vlint.h and crypto/quic_vlint.c of the vendored
    OpenSSL, which the writer of messages uses for the length of a sub-packet:
    the two upper bits of the first octet give the number of octets, 1, 2, 4 or
    8, the other bits the value in network order.

    The theorem: what is written in the smallest or in any admissible number of
    octets is read back, and the decoder never reads past the octets it was
    given. *)

From S2P Require Import Prelude Memory ConstTime TlsPacket.

(** ** Definitions *)

Definition OSSL_QUIC_VLINT_2B_MIN : Z := 64.
Definition OSSL_QUIC_VLINT_4B_MIN : Z := 16384.
Definition OSSL_QUIC_VLINT_8B_MIN : Z := 1073741824.
Definition OSSL_QUIC_VLINT_MAX : Z := Z.shiftl 1 62 - 1.

Definition ossl_quic_vlint_encode_len (v : Z) : Z :=
  if v <? OSSL_QUIC_VLINT_2B_MIN then 1
  else if v <? OSSL_QUIC_VLINT_4B_MIN then 2
  else if v <? OSSL_QUIC_VLINT_8B_MIN then 4
  else if v <=? OSSL_QUIC_VLINT_MAX then 8
  else 0.

Definition ossl_quic_vlint_encode_n (buf : ptr) (v n : Z) : M mem unit :=
  if n =? 1 then
    store buf v
  else if n =? 2 then
    store buf (Z.lor 64 (Z.land (Z.shiftr v 8) 63));;
    store (padd buf 1) v
  else if n =? 4 then
    store buf (Z.lor 128 (Z.land (Z.shiftr v 24) 63));;
    store (padd buf 1) (Z.shiftr v 16);;
    store (padd buf 2) (Z.shiftr v 8);;
    store (padd buf 3) v
  else
    store buf (Z.lor 192 (Z.land (Z.shiftr v 56) 63));;
    store (padd buf 1) (Z.shiftr v 48);;
    store (padd buf 2) (Z.shiftr v 40);;
    store (padd buf 3) (Z.shiftr v 32);;
    store (padd buf 4) (Z.shiftr v 24);;
    store (padd buf 5) (Z.shiftr v 16);;
    store (padd buf 6) (Z.shiftr v 8);;
    store (padd buf 7) v.

Definition ossl_quic_vlint_encode (buf : ptr) (v : Z) : M mem unit :=
  ossl_quic_vlint_encode_n buf v (ossl_quic_vlint_encode_len v).

Definition ossl_quic_vlint_decode_len (first_byte : Z) : Z :=
  Z.shiftl 1 (Z.shiftr (Z.land first_byte 192) 6).

Definition ossl_quic_vlint_decode_unchecked (buf : ptr) : M mem Z :=
  first_byte ← load buf;
  let sz := ossl_quic_vlint_decode_len first_byte in
  if sz =? 1 then mret (Z.land first_byte 63)
  else if sz =? 2 then
    b1 ← load (padd buf 1);
    mret (Z.lor (to_size (Z.shiftl (Z.land first_byte 63) 8)) b1)
  else if sz =? 4 then
    b1 ← load (padd buf 1); b2 ← load (padd buf 2); b3 ← load (padd buf 3);
    mret (Z.lor (Z.lor (Z.lor (to_size (Z.shiftl (Z.land first_byte 63) 24))
                              (to_size (Z.shiftl b1 16)))
                       (to_size (Z.shiftl b2 8))) b3)
  else
    b1 ← load (padd buf 1); b2 ← load (padd buf 2); b3 ← load (padd buf 3);
    b4 ← load (padd buf 4); b5 ← load (padd buf 5); b6 ← load (padd buf 6); b7 ← load (padd buf 7);
    mret (Z.lor (Z.lor (Z.lor (Z.lor (Z.lor (Z.lor (Z.lor
      (to_size (Z.shiftl (Z.land first_byte 63) 56)) (to_size (Z.shiftl b1 48)))
      (to_size (Z.shiftl b2 40))) (to_size (Z.shiftl b3 32))) (to_size (Z.shiftl b4 24)))
      (to_size (Z.shiftl b5 16))) (to_size (Z.shiftl b6 8))) b7).

(** The value returned and [*v]; [None] when [*v] is left as it was. *)
Definition ossl_quic_vlint_decode (buf : ptr) (buf_len : Z) : M mem (Z * option Z) :=
  if buf_len <? 1 then mret (0, None)
  else
    first ← load buf;
    let dec_len := ossl_quic_vlint_decode_len first in
    if buf_len <? dec_len then mret (0, None)
    else x ← ossl_quic_vlint_decode_unchecked buf; mret (to_int dec_len, Some x).

(** ** Specification *)

(** The prefix that says how many octets there are. *)
Definition vlint_tag (n : Z) : Z := if n =? 1 then 0 else if n =? 2 then 1 else if n =? 4 then 2 else 3.

(** [n] octets of [v] in network order. *)
Fixpoint be_bytes (n : nat) (v : Z) : list Z :=
  match n with
  | O => []
  | S n' => be_bytes n' (v / 256) ++ [v mod 256]
  end.

(** The encoding of [v] in [n] octets. *)
Definition vlint (n v : Z) : list Z :=
  be_bytes (Z.to_nat n) (vlint_tag n * 2 ^ (8 * n - 2) + v).

(** The lengths there are, and the values that fit. *)
Definition vlint_fits (n v : Z) : Prop :=
  (n = 1 \/ n = 2 \/ n = 4 \/ n = 8) /\ 0 <= v < 2 ^ (8 * n - 2).

(** ** Lemmas *)

Lemma length_be_bytes n : forall v, length (be_bytes n v) = n.
Proof. induction n as [|n IH]; intros v; [done|]. cbn [be_bytes]. rewrite length_app, IH. cbn. lia. Qed.

Lemma be_bytes_octets n : forall v, Forall is_byte (be_bytes n v).
Proof.
  induction n as [|n IH]; intros v; [constructor|]. cbn [be_bytes]. apply Forall_app. split; [apply IH|].
  constructor; [|constructor]. unfold is_byte. pose proof (Z.mod_pos_bound v 256). lia.
Qed.

(** Reading the octets of a value gives the value, reduced to their number. *)
Lemma be_be_bytes n : forall v, be (be_bytes n v) = v mod 256 ^ Z.of_nat n.
Proof.
  induction n as [|n IH]; intros v; [by rewrite Z.mod_1_r|]. cbn [be_bytes]. rewrite be_app, IH.
  rewrite Nat2Z.inj_succ, Z.pow_succ_r by lia.
  pose proof (Z.pow_pos_nonneg 256 (Z.of_nat n)). rewrite Z.rem_mul_r by lia. lia.
Qed.

Lemma be_bytes_S n : forall v, be_bytes (S n) v = ((v / 256 ^ Z.of_nat n) mod 256) :: be_bytes n v.
Proof.
  induction n as [|n IH]; intros v; [cbn; by rewrite Z.div_1_r|].
  change (be_bytes (S (S n)) v) with (be_bytes (S n) (v / 256) ++ [v mod 256]). rewrite IH.
  rewrite Z.div_div by (try apply Z.pow_pos_nonneg; lia).
  rewrite Nat2Z.inj_succ, Z.pow_succ_r by lia. done.
Qed.

Lemma be_cons b bs : be (b :: bs) = b * 256 ^ Z.of_nat (length bs) + be bs.
Proof.
  induction bs as [|c bs IH] using rev_ind; [cbn; lia|].
  rewrite app_comm_cons, !be_app, IH, length_app. cbn [length].
  rewrite Nat2Z.inj_add, Z.pow_add_r by lia. change (256 ^ Z.of_nat 1) with 256. lia.
Qed.

(** Octet number [i] of a word, as the code takes it. *)
Lemma octet_of v i : 0 <= i -> to_uchar (Z.shiftr v (8 * i)) = (v / 256 ^ i) mod 256.
Proof. intros. unfold to_uchar. rewrite Z.shiftr_div_pow2, Z.pow_mul_r by lia. done. Qed.

(** The tag does not reach the lower octets. *)
Lemma low_octet t v e i :
  0 <= i -> 8 * i + 8 <= e -> ((t * 2 ^ e + v) / 256 ^ i) mod 256 = (v / 256 ^ i) mod 256.
Proof.
  intros Hi He. change 256 with (2 ^ 8). rewrite <- Z.pow_mul_r by lia.
  replace (t * 2 ^ e) with (t * 2 ^ (e - 8 * i - 8) * 2 ^ 8 * 2 ^ (8 * i))
    by (rewrite <- !Z.mul_assoc, <- !Z.pow_add_r by lia; do 2 f_equal; lia).
  rewrite Z.div_add_l by (apply Z.pow_nonzero; lia).
  rewrite Z.add_comm, Z.mod_add by lia. done.
Qed.

(** The first octet. *)
Lemma first_octet t v i :
  0 <= t < 4 -> 0 <= i -> 0 <= v < 2 ^ (8 * i + 6) ->
  ((t * 2 ^ (8 * i + 6) + v) / 256 ^ i) mod 256 = t * 64 + v / 256 ^ i /\
  to_uchar (Z.lor (t * 64) (Z.land (Z.shiftr v (8 * i)) 63)) = t * 64 + v / 256 ^ i /\
  0 <= v / 256 ^ i < 64.
Proof.
  intros Ht Hi Hv. assert (0 < 256 ^ i) as Hp by (apply Z.pow_pos_nonneg; lia).
  assert (2 ^ (8 * i + 6) = 64 * 256 ^ i) as E.
  { rewrite Z.pow_add_r, Z.pow_mul_r by lia. change (2 ^ 8) with 256. lia. }
  rewrite E in *.
  assert (0 <= v / 256 ^ i < 64) as Hd.
  { split; [apply Z.div_pos; lia|apply Z.div_lt_upper_bound; lia]. }
  split; [|split; [|done]].
  - rewrite Z.mul_assoc, Z.div_add_l by lia. apply Z.mod_small. lia.
  - rewrite Z.shiftr_div_pow2, Z.pow_mul_r by lia. change (2 ^ 8) with 256.
    change 63 with (Z.ones 6). rewrite Z.land_ones, Z.mod_small by lia.
    change (t * 64) with (t * 2 ^ 6). rewrite lor_low by lia. apply to_uchar_id. unfold is_byte. lia.
Qed.

(** A store behind the octets written so far. *)
Lemma store_after m p bs v k :
  room m p (Z.of_nat (length bs + 1)) -> k = Z.of_nat (length bs) ->
  store (padd p k) v (mwrite m p bs) = Ret (tt, mwrite m p (bs ++ [to_uchar v])).
Proof. intros Hr ->. by apply store_bytes_after. Qed.

(** The octets below the first are those of the value, as the code shifts them out. *)
Lemma low_octets t v e k :
  8 * Z.of_nat k <= e ->
  be_bytes k (t * 2 ^ e + v) = map (fun j => to_uchar (Z.shiftr v (8 * Z.of_nat j))) (rev (seq 0 k)).
Proof.
  induction k as [|k IH]; intros He; [done|]. rewrite be_bytes_S, low_octet by lia.
  rewrite seq_S, rev_app_distr. cbn [rev app map]. by rewrite octet_of, IH by lia.
Qed.

Lemma vlint_octets t v k :
  0 <= t < 4 -> 0 <= v < 2 ^ (8 * Z.of_nat k + 6) ->
  be_bytes (S k) (t * 2 ^ (8 * Z.of_nat k + 6) + v) =
    to_uchar (Z.lor (t * 64) (Z.land (Z.shiftr v (8 * Z.of_nat k)) 63))
    :: map (fun j => to_uchar (Z.shiftr v (8 * Z.of_nat j))) (rev (seq 0 k)).
Proof.
  intros Ht Hv. rewrite be_bytes_S, low_octets by lia.
  destruct (first_octet t v (Z.of_nat k)) as (-> & -> & _); [done|lia|done|done].
Qed.

(** The stores of the octets behind the first, one after the other. *)
Ltac stores Hr :=
  repeat (erewrite bind_ret by (apply store_after; [eapply room_le; [exact Hr|cbn; lia]|reflexivity]); cbn [app]);
  rewrite store_after by (try (eapply room_le; [exact Hr|cbn; lia]); reflexivity); cbn [app].

Lemma encode_n_run m p n v :
  vlint_fits n v -> room m p n -> ossl_quic_vlint_encode_n p v n m = Ret (tt, mwrite m p (vlint n v)).
Proof.
  intros [Hn Hv] Hr. unfold ossl_quic_vlint_encode_n, vlint.
  assert (forall x, store p x m = Ret (tt, mwrite m p [to_uchar x])) as Hs.
  { intros x. apply store_room. eapply room_le; [done|lia]. }
  destruct Hn as [-> | [-> | [-> | ->]]]; cbn [Z.eqb Pos.eqb].
  - rewrite Hs. by change (be_bytes (Z.to_nat 1) (vlint_tag 1 * 2 ^ (8 * 1 - 2) + v)) with [v mod 256].
  - rewrite (bind_ret _ _ _ _ _ (Hs _)). stores Hr.
    change (be_bytes (Z.to_nat 2) _) with (be_bytes 2 (1 * 2 ^ (8 * Z.of_nat 1 + 6) + v)).
    by rewrite (vlint_octets 1 v 1).
  - rewrite (bind_ret _ _ _ _ _ (Hs _)). stores Hr.
    change (be_bytes (Z.to_nat 4) _) with (be_bytes 4 (2 * 2 ^ (8 * Z.of_nat 3 + 6) + v)).
    by rewrite (vlint_octets 2 v 3).
  - rewrite (bind_ret _ _ _ _ _ (Hs _)). stores Hr.
    change (be_bytes (Z.to_nat 8) _) with (be_bytes 8 (3 * 2 ^ (8 * Z.of_nat 7 + 6) + v)).
    by rewrite (vlint_octets 3 v 7).
Qed.

Lemma load_nth m p bs i b :
  bytes_at m p bs -> 0 <= i -> bs !! Z.to_nat i = Some b -> load (padd p i) m = Ret (b, m).
Proof.
  intros Hs H0 Hi. rewrite <- (take_drop_middle _ _ _ Hi) in Hs. apply bytes_at_app in Hs as [_ Hs].
  rewrite length_take_le, Z2Nat.id in Hs by (apply lookup_lt_Some in Hi; lia). by eapply load_at.
Qed.

Lemma decode_len_spec f :
  is_byte f ->
  ossl_quic_vlint_decode_len f = 2 ^ (f / 64) /\ Z.land f 63 = f mod 64 /\ 0 <= f / 64 < 4.
Proof.
  intros Hf. unfold is_byte in Hf.
  assert (0 <= f / 64 < 4) as Hd by (Z.div_mod_to_equations; lia).
  split; [|split; [|done]].
  - unfold ossl_quic_vlint_decode_len. rewrite Z.shiftr_land. change (Z.shiftr 192 6) with (Z.ones 2).
    rewrite Z.land_ones, Z.shiftr_div_pow2 by lia. change (2 ^ 6) with 64. change (2 ^ 2) with 4.
    rewrite Z.mod_small by lia. rewrite Z.shiftl_mul_pow2 by lia. lia.
  - change 63 with (Z.ones 6). by rewrite Z.land_ones by lia.
Qed.

(** The value of the octets, the two upper bits of the first left out. *)
Lemma decode_unchecked_run m p f bs :
  Forall is_byte (f :: bs) -> bytes_at m p (f :: bs) -> Z.of_nat (length (f :: bs)) = 2 ^ (f / 64) ->
  ossl_quic_vlint_decode_unchecked p m = Ret (be ((f mod 64) :: bs), m).
Proof.
  intros Hb Hs Hn. unfold ossl_quic_vlint_decode_unchecked.
  apply Forall_cons in Hb as [Hf Hb]. destruct (decode_len_spec f Hf) as (El & Em & Ht).
  assert (is_byte (f mod 64)) as Hm by (pose proof (Z.mod_pos_bound f 64); unfold is_byte; lia).
  rewrite (bind_ret _ _ _ _ _ (load_at _ _ _ _ Hs)). rewrite El, Em.
  assert (f / 64 = 0 \/ f / 64 = 1 \/ f / 64 = 2 \/ f / 64 = 3) as Hc by lia.
  destruct Hc as [E | [E | [E | E]]]; rewrite E in *;
    [change (2 ^ 0) with 1 in *|change (2 ^ 1) with 2 in *|change (2 ^ 2) with 4 in *|change (2 ^ 3) with 8 in *];
    cbn [Z.eqb Pos.eqb]; cbn [length] in Hn;
    [destruct bs as [|]|destruct bs as [|b1 [|]]|destruct bs as [|b1 [|b2 [|b3 [|]]]]
    |destruct bs as [|b1 [|b2 [|b3 [|b4 [|b5 [|b6 [|b7 [|]]]]]]]]]; cbn [length] in Hn; try lia;
    repeat (apply Forall_cons in Hb as [? Hb]);
    repeat erewrite bind_ret by (eapply load_nth; [exact Hs|lia|reflexivity]);
    rewrite mret_run; word_of_octets; done.
Qed.

Lemma tagged_split t v k :
  0 <= t < 4 -> 0 <= v < 2 ^ (8 * Z.of_nat k + 6) ->
  exists f bs, be_bytes (S k) (t * 2 ^ (8 * Z.of_nat k + 6) + v) = f :: bs /\
    length bs = k /\ f / 64 = t /\ be ((f mod 64) :: bs) = v.
Proof.
  intros Ht Hv. rewrite be_bytes_S.
  destruct (first_octet t v (Z.of_nat k)) as (-> & _ & Hd); [done|lia|done|].
  eexists _, _. split; [reflexivity|]. rewrite length_be_bytes. split; [done|].
  split; [symmetry; apply Z.div_unique with (v / 256 ^ Z.of_nat k); lia|].
  rewrite be_cons, length_be_bytes, be_be_bytes.
  replace ((t * 64 + v / 256 ^ Z.of_nat k) mod 64) with (v / 256 ^ Z.of_nat k)
    by (apply Z.mod_unique with t; lia).
  rewrite Z.pow_add_r, Z.pow_mul_r by lia. change (2 ^ 8) with 256. change (2 ^ 6) with 64.
  replace (t * (256 ^ Z.of_nat k * 64) + v) with (v + t * 64 * 256 ^ Z.of_nat k) by lia.
  pose proof (Z.pow_pos_nonneg 256 (Z.of_nat k)).
  rewrite Z.mod_add by lia. pose proof (Z.div_mod v (256 ^ Z.of_nat k)). lia.
Qed.

Lemma vlint_split n v :
  vlint_fits n v ->
  exists f bs, vlint n v = f :: bs /\ Z.of_nat (length (f :: bs)) = n /\ 2 ^ (f / 64) = n /\
    be ((f mod 64) :: bs) = v.
Proof.
  intros [Hn Hv]. unfold vlint.
  destruct Hn as [-> | [-> | [-> | ->]]];
    [destruct (tagged_split 0 v 0) as (f & bs & E & Hl & Ht & Hb)
    |destruct (tagged_split 1 v 1) as (f & bs & E & Hl & Ht & Hb)
    |destruct (tagged_split 2 v 3) as (f & bs & E & Hl & Ht & Hb)
    |destruct (tagged_split 3 v 7) as (f & bs & E & Hl & Ht & Hb)]; try done;
    exists f, bs; rewrite Ht; (split; [exact E|]); cbn [length]; (split; [lia|done]).
Qed.

(** ** Theorem *)

(** A value is read back from its encoding in any number of octets it fits in;
    the number the encoder chooses is one of them and the smallest. *)
Theorem vlint_roundtrip m p n v k rest :
  vlint_fits n v -> room m p n -> k = n + Z.of_nat (length rest) ->
  bytes_at (mwrite m p (vlint n v)) p (vlint n v ++ rest) ->
  ossl_quic_vlint_encode_n p v n m = Ret (tt, mwrite m p (vlint n v)) /\
  ossl_quic_vlint_decode p k (mwrite m p (vlint n v)) = Ret ((n, Some v), mwrite m p (vlint n v)) /\
  vlint_fits (ossl_quic_vlint_encode_len v) v /\ ossl_quic_vlint_encode_len v <= n.
Proof.
  intros H Hr -> Hs. split; [by apply encode_n_run|]. split.
  - destruct (vlint_split n v H) as (f & bs & E & Hl & Ht & Hb).
    pose proof (be_bytes_octets (Z.to_nat n) (vlint_tag n * 2 ^ (8 * n - 2) + v)) as Ho.
    change (be_bytes _ _) with (vlint n v) in Ho. rewrite E in *.
    apply bytes_at_app_l in Hs. pose proof Ho as Ho'. apply Forall_cons in Ho' as [Hf _].
    unfold ossl_quic_vlint_decode. destruct H as [Hn Hv]. decide_branch.
    rewrite (bind_ret _ _ _ _ _ (load_at _ _ _ _ Hs)).
    destruct (decode_len_spec f Hf) as (-> & _ & _). rewrite Ht. decide_branch.
    erewrite bind_ret by (apply decode_unchecked_run; [done|done|lia]).
    rewrite Hb, mret_run. replace (to_int n) with n by (unfold to_int; destruct Hn as [->|[->|[->| ->]]]; done). done.
  - destruct H as [Hn Hv]. unfold ossl_quic_vlint_encode_len, vlint_fits.
    unfold OSSL_QUIC_VLINT_2B_MIN, OSSL_QUIC_VLINT_4B_MIN, OSSL_QUIC_VLINT_8B_MIN.
    change OSSL_QUIC_VLINT_MAX with 4611686018427387903.
    destruct Hn as [-> | [-> | [-> | ->]]]; cbn in Hv;
      repeat (case_match; [cbn; lia|]); lia.
Qed.

Lemma vlint_roundtrip_witness :
  let m : mem := {[ 1%positive := [0; 0; 0; 9] ]} in
  exists m', ossl_quic_vlint_encode_n (Ptr 1 0) 300 2 m = Ret (tt, m') /\
    ossl_quic_vlint_decode (Ptr 1 0) 4 m' = Ret ((2, Some 300), m').
Proof.
  destruct (vlint_roundtrip {[ 1%positive := [0; 0; 0; 9] ]} (Ptr 1 0) 2 300 4 [0; 9]) as (E & D & _).
  - split; [lia|]. cbn. lia.
  - eexists. split; [reflexivity|]. by vm_compute.
  - done.
  - by exists [].
  - eexists. split; [exact E|exact D].
Defined.
