(* ===== verification/TlsWriter.v ===== *)
(** * Writing TLS messages

    The [WPACKET] of crypto/packet.c and include/internal/packet.h of the
    vendored OpenSSL, with which the TLS library builds every message it sends:
    a buffer (static, growing, or none to count octets only) that is filled from
    its start, or from its end for DER, and a stack of open sub-packets, each
    with the place its length goes to.

    The state of a function is the [WPACKET] and the memory.  The list [subs] is
    the chain of parents from the innermost sub-packet on; the structures of the
    chain are not objects of the model, but allocating one can fail.  A function
    that returns an [int] gives a [bool]; one that also stores a pointer to the
    place for the octets gives that pointer, or [None] for 0.

    The specification is a stack of frames, the packets that are open with the
    octets each has so far ([wstep]); [building] relates a writer to it, each
    operation keeps the relation with a static and with a growing buffer
    ([run_ops_run]), and the theorem is about messages built in an array. *)

From S2P Require Import Prelude Memory ConstTime TlsPacket Heap BufMem Vlint.

(** ** Definitions *)

Record WPACKET_SUB : Type := mkSub {
  packet_len : Z;
  lenbytes : Z;
  pwritten : Z;
  sub_flags : Z
}.

Record WPACKET : Type := mkWPACKET {
  wbuf : option BUF_MEM;
  staticbuf : ptr;
  wcurr : Z;
  written : Z;
  maxsize : Z;
  subs : list WPACKET_SUB;
  endfirst : bool
}.

Definition WPACKET_FLAGS_NON_ZERO_LENGTH : Z := 1.
Definition WPACKET_FLAGS_ABANDON_ON_ZERO_LENGTH : Z := 2.
Definition WPACKET_FLAGS_QUIC_VLINT : Z := 4.
Definition DEFAULT_BUF_SIZE : Z := 256.

Definition wstate : Type := WPACKET * mem.

Definition in_mem {A} (f : M mem A) : M wstate A := fun '(pkt, m) =>
  match f m with
  | Ret (a, m) => Ret (a, (pkt, m))
  | UB => UB
  | NoFuel => NoFuel
  end.

Definition wpkt : M wstate WPACKET := fun s => Ret (s.1, s).
Definition wset (f : WPACKET -> WPACKET) : M wstate unit := fun '(pkt, m) => Ret (tt, (f pkt, m)).

(** [a && b]: the second call only after the first returned 1. *)
Definition both (a b : M wstate bool) : M wstate bool :=
  r ← a; if (r : bool) then b else mret false.

Definition set_wbuf (b : BUF_MEM) (p : WPACKET) : WPACKET :=
  mkWPACKET (Some b) (staticbuf p) (wcurr p) (written p) (maxsize p) (subs p) (endfirst p).
Definition set_maxsize (n : Z) (p : WPACKET) : WPACKET :=
  mkWPACKET (wbuf p) (staticbuf p) (wcurr p) (written p) n (subs p) (endfirst p).
Definition set_subs (l : list WPACKET_SUB) (p : WPACKET) : WPACKET :=
  mkWPACKET (wbuf p) (staticbuf p) (wcurr p) (written p) (maxsize p) l (endfirst p).

(** [pkt->written += len; pkt->curr += len;] *)
Definition advance (len : Z) (p : WPACKET) : WPACKET :=
  mkWPACKET (wbuf p) (staticbuf p) (to_size (wcurr p + len)) (to_size (written p + len)) (maxsize p)
    (subs p) (endfirst p).

Definition GETBUF (p : WPACKET) : ptr :=
  if negb (is_null (staticbuf p)) then staticbuf p
  else match wbuf p with Some b => b_data b | None => NULL end.

Definition WPACKET_get_curr (pkt : WPACKET) : ptr :=
  let buf := GETBUF pkt in
  if is_null buf then NULL
  else if endfirst pkt then padd buf (maxsize pkt - wcurr pkt)
  else padd buf (wcurr pkt).

Definition WPACKET_is_null_buf (pkt : WPACKET) : bool :=
  match wbuf pkt with None => is_null (staticbuf pkt) | Some _ => false end.

Definition maxmaxsize (lenbytes : Z) : Z :=
  if (8 <=? lenbytes) || (lenbytes =? 0) then SIZE_MAX
  else to_size (to_size (Z.shiftl 1 (lenbytes * 8)) - 1 + lenbytes).

(** The loop of put_value: [len] octets left, the next at [data]. *)
Fixpoint put_value_loop (len : nat) (data : ptr) (value : Z) : M mem Z :=
  match len with
  | O => mret value
  | S len => store data (Z.land value 255);; put_value_loop len (padd data (-1)) (Z.shiftr value 8)
  end.

Definition put_value (data : ptr) (value len : Z) : M mem bool :=
  if is_null data then mret true
  else
    value ← put_value_loop (Z.to_nat len) (padd data (len - 1)) value;
    mret (negb (0 <? value)).

Definition put_quic_value (data : ptr) (value len : Z) : M mem bool :=
  if is_null data then mret true
  else if len <? ossl_quic_vlint_encode_len value then mret false
  else ossl_quic_vlint_encode_n data value len;; mret true.

Section writer.
Context {AL : Allocator}.

(** The new length of a growing buffer that lacks [len] octets. *)
Definition grown_length (buflen len : Z) : Z :=
  let reflen := if buflen <? len then len else buflen in
  if SIZE_MAX / 2 <? reflen then SIZE_MAX
  else let newlen := to_size (reflen * 2) in
       if newlen <? DEFAULT_BUF_SIZE then DEFAULT_BUF_SIZE else newlen.

Definition WPACKET_reserve_bytes (len : Z) : M wstate (option ptr) :=
  pkt ← wpkt;
  if match subs pkt with [] => true | _ => false end || (len =? 0) then mret None
  else if to_size (maxsize pkt - written pkt) <? len then mret None
  else
    ok ← match wbuf pkt with
         | Some b =>
             if to_size (b_length b - written pkt) <? len then
               '(r, b) ← in_mem (BUF_MEM_grow b (grown_length (b_length b) len));
               wset (set_wbuf b);; mret (negb (r =? 0))
             else mret true
         | None => mret true
         end;
    if (ok : bool) then
      pkt ← wpkt;
      let p := WPACKET_get_curr pkt in
      mret (Some (if endfirst pkt && negb (is_null p) then padd p (- len) else p))
    else mret None.

Definition WPACKET_allocate_bytes (len : Z) : M wstate (option ptr) :=
  r ← WPACKET_reserve_bytes len;
  match r with
  | None => mret None
  | Some p => wset (advance len);; mret (Some p)
  end.

Definition WPACKET_sub_reserve_bytes__ (len lenbytes : Z) : M wstate (option ptr) :=
  pkt ← wpkt;
  if endfirst pkt && (0 <? lenbytes) then mret None
  else
    r ← WPACKET_reserve_bytes (to_size (lenbytes + len));
    match r with
    | None => mret None
    | Some p => mret (Some (if negb (is_null p) then padd p lenbytes else p))
    end.

(** [OPENSSL_zalloc] of a sub-packet. *)
Definition alloc_sub : M wstate bool := fun s => Ret (alloc_ok s.2 40, s).

Definition wpacket_intern_init_len (lenbytes : Z) : M wstate bool :=
  wset (fun p => mkWPACKET (wbuf p) (staticbuf p) 0 0 (maxsize p) (subs p) (endfirst p));;
  ok ← alloc_sub;
  if negb ok then wset (set_subs []);; mret false
  else
    wset (set_subs [mkSub 0 0 0 0]);;
    if lenbytes =? 0 then mret true
    else
      wset (set_subs [mkSub 0 lenbytes lenbytes 0]);;
      r ← WPACKET_allocate_bytes lenbytes;
      match r with
      | None => wset (set_subs []);; mret false
      | Some _ => wset (set_subs [mkSub 0 lenbytes lenbytes 0]);; mret true
      end.

Definition WPACKET_init_static_len (buf : ptr) (len lenbytes : Z) : M wstate bool :=
  let max := maxmaxsize lenbytes in
  if is_null buf || (len <=? 0) then mret false
  else
    wset (fun p => mkWPACKET None buf (wcurr p) (written p) (if max <? len then max else len) (subs p) false);;
    wpacket_intern_init_len lenbytes.

Definition WPACKET_init_der (buf : ptr) (len : Z) : M wstate bool :=
  if is_null buf || (len <=? 0) then mret false
  else
    wset (fun p => mkWPACKET None buf (wcurr p) (written p) len (subs p) true);;
    wpacket_intern_init_len 0.

Definition WPACKET_init_len (buf : option BUF_MEM) (lenbytes : Z) : M wstate bool :=
  match buf with
  | None => mret false
  | Some b =>
      wset (fun p => mkWPACKET (Some b) NULL (wcurr p) (written p) (maxmaxsize lenbytes) (subs p) false);;
      wpacket_intern_init_len lenbytes
  end.

Definition WPACKET_init (buf : option BUF_MEM) : M wstate bool := WPACKET_init_len buf 0.

Definition WPACKET_init_null (lenbytes : Z) : M wstate bool :=
  wset (fun p => mkWPACKET None NULL (wcurr p) (written p) (maxmaxsize lenbytes) (subs p) false);;
  wpacket_intern_init_len 0.

Definition WPACKET_init_null_der : M wstate bool :=
  wset (fun p => mkWPACKET None NULL (wcurr p) (written p) SIZE_MAX (subs p) true);;
  wpacket_intern_init_len 0.

Definition WPACKET_set_flags (flags : Z) : M wstate bool :=
  pkt ← wpkt;
  match subs pkt with
  | [] => mret false
  | s :: l => wset (set_subs (mkSub (packet_len s) (lenbytes s) (pwritten s) flags :: l));; mret true
  end.

Definition WPACKET_put_bytes__ (val size : Z) : M wstate bool :=
  if 8 <? size then mret false
  else
    r ← WPACKET_allocate_bytes size;
    match r with
    | None => mret false
    | Some data => in_mem (put_value data val size)
    end.

(** The loop that counts the octets of a DER length; a [size_t] has eight. *)
Fixpoint len_octets (fuel : nat) (tmplen numlenbytes : Z) : M wstate Z :=
  match fuel with
  | O => nofuel
  | S fuel =>
      let tmplen := Z.shiftr tmplen 8 in
      if 0 <? tmplen then len_octets fuel tmplen (numlenbytes + 1) else mret numlenbytes
  end.

(** The length in front of a DER sub-packet. *)
Definition der_length (packlen : Z) : M wstate bool :=
  numlenbytes ← len_octets 8 packlen 1;
  both (WPACKET_put_bytes__ packlen numlenbytes)
       (if 127 <? packlen then WPACKET_put_bytes__ (Z.lor numlenbytes 128) 1 else mret true).

(** [sub] with the chain of its parents. *)
Definition wpacket_intern_close (sub : WPACKET_SUB) (parent : list WPACKET_SUB) (doclose : bool) :
    M wstate bool :=
  pkt ← wpkt;
  let packlen := to_size (written pkt - pwritten sub) in
  let flag f := truthy (Z.land (sub_flags sub) f) in
  if (packlen =? 0) && flag WPACKET_FLAGS_NON_ZERO_LENGTH then mret false
  else
    let abandon := (packlen =? 0) && flag WPACKET_FLAGS_ABANDON_ON_ZERO_LENGTH in
    if abandon && negb doclose then mret false
    else
      (if abandon && (to_size (wcurr pkt - lenbytes sub) =? packet_len sub)
       then wset (advance (- lenbytes sub)) else mret tt);;
      let sub := if abandon then mkSub 0 0 (pwritten sub) (sub_flags sub) else sub in
      ok ← (if 0 <? lenbytes sub then
              let buf := GETBUF pkt in
              if negb (is_null buf) then
                if negb (flag WPACKET_FLAGS_QUIC_VLINT)
                then in_mem (put_value (padd buf (packet_len sub)) packlen (lenbytes sub))
                else in_mem (put_quic_value (padd buf (packet_len sub)) packlen (lenbytes sub))
              else mret true
            else if endfirst pkt && match parent with [] => false | _ => true end
                    && (negb (packlen =? 0) || negb (flag WPACKET_FLAGS_ABANDON_ON_ZERO_LENGTH))
            then der_length packlen
            else mret true);
      if (ok : bool) then (if doclose then wset (set_subs parent) else mret tt);; mret true
      else mret false.

(** The loop of WPACKET_fill_lengths over the chain. *)
Fixpoint fill_loop (l : list WPACKET_SUB) : M wstate bool :=
  match l with
  | [] => mret true
  | s :: parent => both (wpacket_intern_close s parent false) (fill_loop parent)
  end.

Definition WPACKET_fill_lengths : M wstate bool :=
  pkt ← wpkt;
  match subs pkt with [] => mret false | l => fill_loop l end.

Definition WPACKET_close : M wstate bool :=
  pkt ← wpkt;
  match subs pkt with
  | s :: p :: l => wpacket_intern_close s (p :: l) true
  | _ => mret false
  end.

Definition WPACKET_finish : M wstate bool :=
  pkt ← wpkt;
  match subs pkt with
  | [s] =>
      ret ← wpacket_intern_close s [] true;
      (if (ret : bool) then wset (set_subs []) else mret tt);; mret ret
  | _ => mret false
  end.

Definition WPACKET_start_sub_packet_len__ (lenbytes : Z) : M wstate bool :=
  pkt ← wpkt;
  match subs pkt with
  | [] => mret false
  | l =>
      if (0 <? lenbytes) && endfirst pkt then mret false
      else
        ok ← alloc_sub;
        if negb ok then mret false
        else
          let at_ := if lenbytes =? 0 then 0 else written pkt in
          wset (set_subs (mkSub at_ lenbytes (to_size (written pkt + lenbytes)) 0 :: l));;
          if lenbytes =? 0 then mret true
          else
            r ← WPACKET_allocate_bytes lenbytes;
            mret match r with None => false | Some _ => true end
  end.

Definition WPACKET_start_sub_packet : M wstate bool := WPACKET_start_sub_packet_len__ 0.

(** A pointer is the result only when all three calls return 1. *)
Definition WPACKET_sub_allocate_bytes__ (len lenbytes : Z) : M wstate (option ptr) :=
  ok ← WPACKET_start_sub_packet_len__ lenbytes;
  if negb ok then mret None
  else
    r ← WPACKET_allocate_bytes len;
    match r with
    | None => mret None
    | Some p => ok ← WPACKET_close; mret (if (ok : bool) then Some p else None)
    end.

(** The [lenbytes] of the outermost packet. *)
Fixpoint top_lenbytes (l : list WPACKET_SUB) : Z :=
  match l with
  | [] => 0
  | [s] => lenbytes s
  | _ :: parent => top_lenbytes parent
  end.

Definition WPACKET_set_max_size (size : Z) : M wstate bool :=
  pkt ← wpkt;
  match subs pkt with
  | [] => mret false
  | l =>
      let lenbytes := top_lenbytes l in
      let lenbytes := if lenbytes =? 0 then 8 else lenbytes in
      if (maxmaxsize lenbytes <? size) || (size <? written pkt) then mret false
      else wset (set_maxsize size);; mret true
  end.

Definition WPACKET_memset (ch len : Z) : M wstate bool :=
  if len =? 0 then mret true
  else
    r ← WPACKET_allocate_bytes len;
    match r with
    | None => mret false
    | Some dest => (if negb (is_null dest) then in_mem (memset dest ch len) else mret tt);; mret true
    end.

Definition WPACKET_memcpy (src : ptr) (len : Z) : M wstate bool :=
  if len =? 0 then mret true
  else
    r ← WPACKET_allocate_bytes len;
    match r with
    | None => mret false
    | Some dest => (if negb (is_null dest) then in_mem (memcpy dest src len) else mret tt);; mret true
    end.

Definition WPACKET_sub_memcpy__ (src : ptr) (len lenbytes : Z) : M wstate bool :=
  both (WPACKET_start_sub_packet_len__ lenbytes) (both (WPACKET_memcpy src len) WPACKET_close).

Definition WPACKET_get_total_written : M wstate Z := pkt ← wpkt; mret (written pkt).

Definition WPACKET_get_length : M wstate (option Z) :=
  pkt ← wpkt;
  mret match subs pkt with [] => None | s :: _ => Some (to_size (written pkt - pwritten s)) end.

Definition WPACKET_cleanup : M wstate unit := wset (set_subs []).

Definition WPACKET_start_quic_sub_packet_bound (max_len : Z) : M wstate bool :=
  let enclen := ossl_quic_vlint_encode_len max_len in
  if enclen =? 0 then mret false
  else
    ok ← WPACKET_start_sub_packet_len__ enclen;
    if negb ok then mret false
    else
      pkt ← wpkt;
      match subs pkt with
      | [] => ub
      | s :: l =>
          wset (set_subs (mkSub (packet_len s) (lenbytes s) (pwritten s)
                            (Z.lor (sub_flags s) WPACKET_FLAGS_QUIC_VLINT) :: l));;
          mret true
      end.

Definition WPACKET_start_quic_sub_packet : M wstate bool :=
  WPACKET_start_quic_sub_packet_bound OSSL_QUIC_VLINT_4B_MIN.

Definition WPACKET_quic_sub_allocate_bytes (len : Z) : M wstate (option ptr) :=
  ok ← WPACKET_start_quic_sub_packet_bound len;
  if negb ok then mret None
  else
    r ← WPACKET_allocate_bytes len;
    match r with
    | None => mret None
    | Some p => ok ← WPACKET_close; mret (if (ok : bool) then Some p else None)
    end.

Definition WPACKET_quic_write_vlint (v : Z) : M wstate bool :=
  let enclen := ossl_quic_vlint_encode_len v in
  if enclen =? 0 then mret false
  else
    r ← WPACKET_allocate_bytes enclen;
    match r with
    | None => mret false
    | Some b => in_mem (ossl_quic_vlint_encode b v);; mret true
    end.
End writer.

(** ** Specification

    An open packet is a frame: the number of octets its length will take, its
    flags and what was written into it.  The innermost frame comes first. *)
Record frame : Type := mkFrame {
  f_lenbytes : Z;
  f_flags : Z;
  f_data : list Z
}.

(** The octets of the buffer: each open packet starts with room for its length,
    whose contents are not settled yet. *)
Inductive laid_out : list frame -> list Z -> Prop :=
| laid_nil : laid_out [] []
| laid_cons f outer bs hole :
    laid_out outer bs -> Z.of_nat (length hole) = f_lenbytes f ->
    laid_out (f :: outer) (bs ++ hole ++ f_data f).

(** The number of octets of the frames. *)
Fixpoint size_of (fs : list frame) : Z :=
  match fs with
  | [] => 0
  | f :: outer => size_of outer + f_lenbytes f + Z.of_nat (length (f_data f))
  end.

(** The chain of sub-packets that records the frames. *)
Fixpoint subs_of (fs : list frame) : list WPACKET_SUB :=
  match fs with
  | [] => []
  | f :: outer =>
      mkSub (if f_lenbytes f =? 0 then 0 else size_of outer) (f_lenbytes f)
        (size_of outer + f_lenbytes f) (f_flags f) :: subs_of outer
  end.

(** The buffer starts with the octets [c]. *)
Definition stored (m : mem) (pkt : WPACKET) (c : list Z) : Prop :=
  match wbuf pkt with
  | None => exists b o,
      staticbuf pkt = Ptr b o /\ 0 <= maxsize pkt /\ room m (Ptr b o) (maxsize pkt) /\ bytes_at m (Ptr b o) c
  | Some str => staticbuf pkt = NULL /\ b_max str < 2 ^ 64 /\ exists rest, buf_repr m str (c ++ rest)
  end.

(** [pkt] is building the packets [fs], from the start of its buffer. *)
Record building (pkt : WPACKET) (m : mem) (fs : list frame) : Prop := mkBuilding {
  bd_start : endfirst pkt = false;
  bd_subs : subs pkt = subs_of fs;
  bd_written : written pkt = size_of fs;
  bd_curr : wcurr pkt = written pkt;
  bd_max : written pkt <= maxsize pkt < 2 ^ 64;
  bd_stored : exists c, laid_out fs c /\ stored m pkt c
}.

(** *** What the operations do to the frames *)

Inductive wop : Type :=
| Put (val size : Z)
| Copy (src : ptr) (bs : list Z)
| Open (n : Z)
| Close.

Definition append (bs : list Z) (fs : list frame) : list frame :=
  match fs with
  | [] => []
  | f :: outer => mkFrame (f_lenbytes f) (f_flags f) (f_data f ++ bs) :: outer
  end.

(** The octets of a closed packet: its length and its contents. *)
Definition closed (f : frame) : list Z :=
  be_bytes (Z.to_nat (f_lenbytes f)) (Z.of_nat (length (f_data f))) ++ f_data f.

(** The frames after an operation, if it is possible with at most [max] octets.
    [src] is only where the octets of a copy come from. *)
Definition wstep (max : Z) (op : wop) (fs : list frame) : option (list frame) :=
  match op with
  | Put val size =>
      if (1 <=? size) && (size <=? 8) && (size_of fs + size <=? max) && (val <? 256 ^ size)
      then Some (append (be_bytes (Z.to_nat size) val) fs) else None
  | Copy _ bs =>
      if size_of fs + Z.of_nat (length bs) <=? max then Some (append bs fs) else None
  | Open n => if size_of fs + n <=? max then Some (mkFrame n 0 [] :: fs) else None
  | Close =>
      match fs with
      | f :: g :: outer =>
          if (f_lenbytes f =? 0) || (Z.of_nat (length (f_data f)) <? 256 ^ f_lenbytes f)
          then Some (append (closed f) (g :: outer)) else None
      | _ => None
      end
  end.

Definition run_op {AL : Allocator} (op : wop) : M wstate bool :=
  match op with
  | Put val size => WPACKET_put_bytes__ val size
  | Copy src bs => WPACKET_memcpy src (Z.of_nat (length bs))
  | Open n => WPACKET_start_sub_packet_len__ n
  | Close => WPACKET_close
  end.

(** ** Lemmas *)

Lemma laid_out_length fs c : laid_out fs c -> Z.of_nat (length c) = size_of fs.
Proof.
  induction 1 as [|f outer bs hole _ IH Hh]; [done|].
  cbn [size_of]. rewrite !length_app. lia.
Qed.

Lemma in_mem_run {A} (f : M mem A) pkt m a m' :
  f m = Ret (a, m') -> in_mem f (pkt, m) = Ret (a, (pkt, m')).
Proof. intros E. cbn [in_mem]. by rewrite E. Qed.

(** *** The octets in the buffer *)

(** Octets of the buffer are replaced. *)
Lemma stored_update m pkt a x y z :
  stored m pkt (a ++ x ++ z) -> length x = length y ->
  let p := padd (GETBUF pkt) (Z.of_nat (length a)) in
  (y = [] \/ room m p (Z.of_nat (length y))) /\ stored (mwrite m p y) pkt (a ++ y ++ z).
Proof.
  intros H Hl p. destruct y as [|y0 y'].
  { destruct x; [|done]. split; [by left|]. by rewrite mwrite_nil. }
  remember (y0 :: y') as y eqn:Ey. assert (y <> []) as Hy by (subst; done). clear Ey y0 y'.
  unfold stored, p, GETBUF in *. destruct (wbuf pkt) as [str|].
  - destruct H as (-> & Hm & rest & Hlen & Hd). cbn [is_null negb].
    destruct (b_data str) as [| |b o] eqn:Ed; [destruct Hd as [Hd _]|done|].
    { destruct a, x; try done. destruct y; done. }
    destruct o; [|done|done]. destruct Hd as (r2 & Hb & Hmx). cbn [padd].
    assert (m !! b = Some (a ++ x ++ (z ++ rest ++ r2))) as Hb' by (rewrite Hb, <- !app_assoc; done).
    split; [right; apply room_block; [lia|]; eexists; split; [exact Hb'|]; rewrite !length_app; lia|].
    split; [done|]. split; [done|]. exists rest. unfold buf_repr.
    rewrite !length_app in *. split; [lia|]. rewrite Ed. exists r2. cbn [mwrite].
    rewrite lookup_alter_eq, Hb'. cbn [fmap option_fmap option_map].
    replace (Z.to_nat (0 + Z.of_nat (length a))) with (length a) by lia.
    rewrite splice_middle by done. rewrite !length_app.
    rewrite <- !app_assoc. split; [done|]. lia.
  - destruct H as (b & o & -> & H0 & Hr & Hb). cbn [is_null negb].
    assert (room m (padd (Ptr b o) (Z.of_nat (length a))) (Z.of_nat (length y))) as Hry.
    { apply bytes_at_app in Hb as [_ Hb]. apply bytes_at_app_l in Hb. apply bytes_at_room in Hb.
      by rewrite <- Hl. }
    split; [by right|]. exists b, o. split; [done|]. split; [done|]. split; [by apply room_mwrite|].
    by apply (bytes_at_update _ _ _ x).
Qed.

Lemma bytes_at_extend m p c n :
  bytes_at m p c -> room m p (Z.of_nat (length c + n)) ->
  exists junk, length junk = n /\ bytes_at m p (c ++ junk).
Proof.
  intros [t Ht] (t' & Ht' & Hn). rewrite Ht in Ht'. injection Ht' as <-. rewrite length_app in Hn.
  exists (take n t). split; [rewrite length_take; lia|]. exists (drop n t).
  by rewrite <- app_assoc, take_drop.
Qed.

(** A growing buffer that holds at least [n] octets more than [c]. *)
Lemma stored_grown m pkt str c rest n :
  wbuf pkt = Some str -> staticbuf pkt = NULL -> b_max str < 2 ^ 64 -> buf_repr m str (c ++ rest) ->
  (0 < n <= length rest)%nat ->
  is_null (GETBUF pkt) = false /\ exists junk, length junk = n /\ stored m pkt (c ++ junk).
Proof.
  intros Hw Hs Hm Hr Hn. unfold stored, GETBUF. rewrite Hw, Hs. cbn [is_null negb]. split.
  - destruct Hr as [_ Hd]. destruct (b_data str); [|done|done].
    destruct Hd as [Hd _]. apply (f_equal length) in Hd. rewrite length_app in Hd. cbn in Hd. lia.
  - exists (take n rest). split; [rewrite length_take; lia|]. split; [done|]. split; [done|].
    exists (drop n rest). by rewrite <- app_assoc, take_drop.
Qed.

(** The objects that are not the buffer's stay as they are, and the buffer
    moves to none of them. *)
Definition kept (m m' : mem) (pkt pkt' : WPACKET) : Prop :=
  forall b, is_Some (m !! b) -> ~ in_block (GETBUF pkt) b -> m' !! b = m !! b /\ ~ in_block (GETBUF pkt') b.

(** The same static buffer, or a growing buffer in both. *)
Definition same_kind (pkt pkt' : WPACKET) : Prop :=
  (wbuf pkt = None <-> wbuf pkt' = None) /\ staticbuf pkt' = staticbuf pkt.

Lemma same_kind_trans pkt pkt1 pkt2 : same_kind pkt pkt1 -> same_kind pkt1 pkt2 -> same_kind pkt pkt2.
Proof. intros [? ?] [? ?]. split; [tauto|congruence]. Qed.

Lemma kept_refl m pkt : kept m m pkt pkt.
Proof. by intros b. Qed.

Lemma kept_trans m m1 m2 pkt pkt1 pkt2 : kept m m1 pkt pkt1 -> kept m1 m2 pkt1 pkt2 -> kept m m2 pkt pkt2.
Proof.
  intros H1 H2 b Hb Hn. destruct (H1 b Hb Hn) as [E1 N1]. rewrite <- E1 in Hb |- *. by apply H2.
Qed.

(** A write to the buffer. *)
Lemma kept_write m m' pkt pkt' i bs :
  kept m m' pkt pkt' -> kept m (mwrite m' (padd (GETBUF pkt') i) bs) pkt pkt'.
Proof.
  intros H b Hb Hn. destruct (H b Hb Hn) as [E N]. split; [|done]. rewrite <- E.
  destruct (GETBUF pkt') as [| |b' o]; [done|done|]. cbn in *. by rewrite lookup_alter_ne.
Qed.

Lemma grown_length_enough buflen len written max :
  0 <= written <= buflen -> buflen < 2 ^ 64 -> 0 < len -> written + len <= max < 2 ^ 64 ->
  written + len <= grown_length buflen len /\ buflen <= grown_length buflen len < 2 ^ 64 /\
  0 < grown_length buflen len.
Proof.
  intros. unfold grown_length, SIZE_MAX, DEFAULT_BUF_SIZE.
  change (18446744073709551615 / 2) with 9223372036854775807.
  change (2 ^ 64) with 18446744073709551616 in *.
  assert (forall z, 0 <= z <= 9223372036854775807 -> to_size (z * 2) = z * 2) as Hz.
  { intros. apply to_size_id. lia. }
  destruct (Z.ltb_spec buflen len); destruct (Z.ltb_spec 9223372036854775807 (if true then len else buflen));
    destruct (Z.ltb_spec 9223372036854775807 buflen); cbn in *;
    repeat match goal with |- context [if ?b then _ else _] => destruct b eqn:? end;
    rewrite ?Hz in * by lia; lia.
Qed.

Lemma resized_more n c : (length c <= n)%nat -> resized n c = c ++ replicate (n - length c) 0.
Proof. intros. unfold resized. by rewrite take_ge by lia. Qed.

(** *** Frames *)

Lemma append_cons bs f outer :
  append bs (f :: outer) = mkFrame (f_lenbytes f) (f_flags f) (f_data f ++ bs) :: outer.
Proof. done. Qed.

Lemma laid_out_append fs c bs : fs <> [] -> laid_out fs c -> laid_out (append bs fs) (c ++ bs).
Proof.
  intros Hne H. destruct H as [|f outer c hole H Hh]; [done|]. rewrite append_cons, <- !app_assoc.
  by apply (laid_cons (mkFrame (f_lenbytes f) (f_flags f) (f_data f ++ bs))).
Qed.

Lemma size_of_append fs bs : fs <> [] -> size_of (append bs fs) = size_of fs + Z.of_nat (length bs).
Proof. destruct fs as [|f outer]; [done|]. intros _. cbn. rewrite length_app. lia. Qed.

Lemma subs_of_append fs bs : subs_of (append bs fs) = subs_of fs.
Proof. by destruct fs. Qed.

(** The writer after [bs] was written into the octets reserved for it. *)
Lemma building_append pkt m fs c junk bs :
  building pkt m fs -> fs <> [] -> laid_out fs c -> stored m pkt (c ++ junk) ->
  length junk = length bs -> written pkt + Z.of_nat (length bs) <= maxsize pkt ->
  (bs = [] \/ room m (padd (GETBUF pkt) (written pkt)) (Z.of_nat (length bs))) /\
  building (advance (Z.of_nat (length bs)) pkt) (mwrite m (padd (GETBUF pkt) (written pkt)) bs) (append bs fs).
Proof.
  intros H Hne Hc Hs Hj Hm. pose proof (laid_out_length _ _ Hc) as Hlen.
  destruct H as [H1 H2 H3 H4 H5 _]. rewrite <- H3 in Hlen.
  rewrite <- (app_nil_r junk) in Hs. destruct (stored_update m pkt c junk bs [] Hs Hj) as [Hr Hs'].
  rewrite Hlen in Hr, Hs'. split; [done|]. rewrite app_nil_r in Hs'.
  split; cbn [endfirst subs written wcurr maxsize advance]; try done.
  - by rewrite subs_of_append.
  - rewrite size_of_append, to_size_id by (done || lia). lia.
  - by rewrite H4.
  - rewrite to_size_id by lia. lia.
  - exists (c ++ bs). split; [by apply laid_out_append|]. done.
Qed.

(** *** Numbers in network order *)

Lemma put_value_loop_run n : forall m p v,
  0 <= v -> room m p (Z.of_nat n) ->
  put_value_loop n (padd p (Z.of_nat n - 1)) v m = Ret (v / 256 ^ Z.of_nat n, mwrite m p (be_bytes n v)).
Proof.
  induction n as [|n IH]; intros m p v Hv Hr.
  - cbn [put_value_loop be_bytes]. by rewrite mwrite_nil, Z.div_1_r.
  - cbn [put_value_loop]. replace (Z.of_nat (S n) - 1) with (Z.of_nat n) by lia.
    assert (Z.land v 255 = v mod 256) as -> by (change 255 with (Z.ones 8); by rewrite Z.land_ones by lia).
    assert (to_uchar (v mod 256) = v mod 256) as Hu by (unfold to_uchar; by rewrite Z.mod_mod by lia).
    assert (room m (padd p (Z.of_nat n)) 1) as Hr1.
    { apply (room_padd _ _ _ (Z.of_nat n)) in Hr; [|lia]. eapply room_le; [done|lia]. }
    erewrite bind_ret by by apply store_room. rewrite padd_padd, Hu.
    replace (Z.of_nat n + -1) with (Z.of_nat n - 1) by lia.
    rewrite Z.shiftr_div_pow2 by lia. change (2 ^ 8) with 256.
    rewrite IH; [|apply Z.div_pos; lia|apply room_mwrite; [exact Hr1|lia|eapply room_le; [done|lia]]].
    rewrite Z.div_div by (try apply Z.pow_pos_nonneg; lia). rewrite Nat2Z.inj_succ, Z.pow_succ_r by lia.
    do 2 f_equal. cbn [be_bytes]. rewrite <- (mwrite_before m p (be_bytes n (v / 256)) [v mod 256]).
    + by rewrite length_be_bytes.
    + rewrite length_be_bytes. eapply room_le; [done|cbn; lia].
Qed.

Lemma put_value_run m p v n :
  is_null p = false -> 0 <= v -> 0 < n -> room m p n ->
  put_value p v n m = Ret (v <? 256 ^ n, mwrite m p (be_bytes (Z.to_nat n) v)).
Proof.
  intros Hp Hv Hn Hr. unfold put_value. rewrite Hp.
  pose proof (put_value_loop_run (Z.to_nat n) m p v Hv) as E. rewrite Z2Nat.id in E by lia.
  rewrite (bind_ret _ _ _ _ _ (E Hr)), mret_run. do 2 f_equal.
  pose proof (Z.pow_pos_nonneg 256 n).
  destruct (Z.ltb_spec v (256 ^ n)); [by rewrite Z.div_small by lia|].
  assert (1 <= v / 256 ^ n); [apply Z.div_le_lower_bound; lia|lia].
Qed.

Section runs.
Context {AL : Allocator} {ALL : AllocatorLaws}.

(** What a reservation of [len] octets leaves behind. *)
Definition reserved (pkt pkt' : WPACKET) (m m' : mem) (fs : list frame) (len : Z) (r : option ptr) : Prop :=
  building pkt' m' fs /\ maxsize pkt' = maxsize pkt /\ written pkt' = written pkt /\
  same_kind pkt pkt' /\ kept m m' pkt pkt' /\
  match r with
  | Some p =>
      written pkt + len <= maxsize pkt /\ is_null (GETBUF pkt') = false /\
      p = padd (GETBUF pkt') (written pkt) /\
      exists c junk, laid_out fs c /\ length junk = Z.to_nat len /\ stored m' pkt' (c ++ junk)
  | None => maxsize pkt < written pkt + len \/ is_Some (wbuf pkt)
  end.

Lemma size_of_nonneg fs c : laid_out fs c -> 0 <= size_of fs.
Proof. intros H. rewrite <- (laid_out_length fs c H). lia. Qed.

(** The place of the next octet. *)
Lemma get_curr_start pkt m fs :
  building pkt m fs -> is_null (GETBUF pkt) = false ->
  WPACKET_get_curr pkt = padd (GETBUF pkt) (written pkt).
Proof.
  intros H Hn. unfold WPACKET_get_curr. by rewrite Hn, (bd_start _ _ _ H), (bd_curr _ _ _ H).
Qed.

Lemma reserve_static pkt m fs len :
  building pkt m fs -> wbuf pkt = None -> 0 < len -> written pkt + len <= maxsize pkt ->
  reserved pkt pkt m m fs len (Some (padd (GETBUF pkt) (written pkt))).
Proof.
  intros H Hw Hl Hm. pose proof (bd_stored _ _ _ H) as (c & Hc & Hs).
  pose proof (laid_out_length _ _ Hc) as Hlen. rewrite <- (bd_written _ _ _ H) in Hlen.
  pose proof Hs as Hs'. unfold stored in Hs'. rewrite Hw in Hs'. destruct Hs' as (b & o & Hp & H0 & Hr & Hb).
  split; [done|]. split; [done|]. split; [done|]. split; [done|]. split; [apply kept_refl|].
  split; [done|]. split; [unfold GETBUF; by rewrite Hp|]. split; [done|].
  destruct (bytes_at_extend m (Ptr b o) c (Z.to_nat len) Hb) as (junk & Hj & Hbj).
  { eapply room_le; [done|]. lia. }
  exists c, junk. split; [done|]. split; [done|]. unfold stored. rewrite Hw. by exists b, o.
Qed.

(** The buffer with its new length, in the same writer. *)
Lemma building_wbuf pkt m m' fs c str str' rest :
  building pkt m fs -> wbuf pkt = Some str -> laid_out fs c ->
  staticbuf pkt = NULL -> b_max str' < 2 ^ 64 -> buf_repr m' str' (c ++ rest) ->
  building (set_wbuf str' pkt) m' fs.
Proof.
  intros H Hw Hc Hs Hm Hr. destruct H as [H1 H2 H3 H4 H5 _]. split; try done.
  exists c. split; [done|]. unfold stored. cbn [wbuf set_wbuf staticbuf]. split; [done|]. split; [done|]. by exists rest.
Qed.

Lemma reserve_grown pkt m fs len str c rest m' str' :
  building pkt m fs -> wbuf pkt = Some str -> laid_out fs c -> staticbuf pkt = NULL ->
  0 < len -> written pkt + len <= maxsize pkt ->
  b_max str' < 2 ^ 64 -> buf_repr m' str' (c ++ rest) -> len <= Z.of_nat (length rest) ->
  others_kept m m' (b_data str) -> same_or_new m (b_data str) (b_data str') ->
  reserved pkt (set_wbuf str' pkt) m m' fs len (Some (padd (GETBUF (set_wbuf str' pkt)) (written pkt))).
Proof.
  intros H Hw Hc Hs Hl Hm Hm' Hr Hlen Hk Hn.
  assert (GETBUF pkt = b_data str) as Eg by (unfold GETBUF; by rewrite Hs, Hw).
  assert (GETBUF (set_wbuf str' pkt) = b_data str') as Eg' by (unfold GETBUF; cbn; by rewrite Hs).
  destruct (stored_grown m' (set_wbuf str' pkt) str' c rest (Z.to_nat len)) as (Hnn & junk & Hj & Hst);
    [done|done|done|done|lia|].
  split; [by eapply building_wbuf|]. split; [done|]. split; [done|].
  split; [by split; [rewrite Hw|]|]. split; [|split; [done|split; [done|split; [done|by exists c, junk]]]].
  intros b Hb Hnb. rewrite Eg in Hnb. rewrite Eg'. split; [by apply Hk|].
  destruct Hn as [->|(b' & -> & Hb')]; [done|]. cbn. intros ->. rewrite Hb' in Hb. by destruct Hb.
Qed.

Lemma set_wbuf_same pkt str : wbuf pkt = Some str -> set_wbuf str pkt = pkt.
Proof. destruct pkt. cbn. by intros ->. Qed.

(** The buffer that is enlarged when it has less than [len] octets left. *)
Lemma reserve_dynamic pkt m fs len str :
  building pkt m fs -> wbuf pkt = Some str -> 0 < len -> written pkt + len <= maxsize pkt ->
  exists ok pkt' m',
    (if to_size (b_length str - written pkt) <? len then
       '(r, b) ← in_mem (BUF_MEM_grow str (grown_length (b_length str) len));
       wset (set_wbuf b);; mret (negb (r =? 0))
     else mret true) (pkt, m) = Ret (ok, (pkt', m')) /\
    reserved pkt pkt' m m' fs len (if ok then Some (padd (GETBUF pkt') (written pkt)) else None).
Proof using ALL.
  intros H Hw Hl Hm. pose proof (bd_stored _ _ _ H) as (c & Hc & Hs).
  pose proof (laid_out_length _ _ Hc) as Hlen. rewrite <- (bd_written _ _ _ H) in Hlen.
  pose proof (bd_max _ _ _ H) as Hmx.
  unfold stored in Hs. rewrite Hw in Hs. destruct Hs as (Hst & Hbm & rest & Hr).
  pose proof Hr as [Hbl _]. rewrite length_app in Hbl. pose proof (buf_max _ _ _ Hr) as Hbx.
  rewrite length_app in Hbx. rewrite to_size_id by lia.
  destruct (Z.ltb_spec (b_length str - written pkt) len) as [Hlt|Hge].
  2: { exists true, pkt, m. split; [done|].
       pose proof (reserve_grown pkt m fs len str c rest m str H Hw Hc Hst Hl Hm Hbm Hr) as Hres.
       rewrite (set_wbuf_same pkt str Hw) in Hres. apply Hres; [lia|apply others_kept_refl|by left]. }
  destruct (grown_length_enough (b_length str) len (written pkt) (maxsize pkt)) as (Hg1 & Hg2 & Hg3); [lia..|].
  destruct (BUF_MEM_grow_run m str (c ++ rest) (grown_length (b_length str) len) Hr)
    as (r & str' & m' & E & Hk & _ & Hn & Hmax' & [[-> Hr']|(-> & -> & -> & _)]); [lia|..];
    erewrite (bind_ret (in_mem _)) by (apply in_mem_run; exact E).
  - exists true, (set_wbuf str' pkt), m'.
    replace (negb (grown_length (b_length str) len =? 0)) with true by lia. split; [done|].
    rewrite resized_more, <- app_assoc in Hr' by (rewrite length_app; lia).
    eapply reserve_grown; try done; [lia|]. rewrite length_app, length_replicate, length_app. lia.
  - exists false, pkt, m. split.
    { rewrite (bind_ret _ _ _ tt (pkt, m)); [done|]. cbn [wset]. by rewrite set_wbuf_same. }
    split; [done|]. split; [done|]. split; [done|]. split; [done|]. split; [apply kept_refl|]. right. by rewrite Hw.
Qed.

Lemma reserve_run pkt m fs len :
  building pkt m fs -> fs <> [] -> 0 < len < 2 ^ 64 ->
  exists r pkt' m',
    WPACKET_reserve_bytes len (pkt, m) = Ret (r, (pkt', m')) /\ reserved pkt pkt' m m' fs len r.
Proof using ALL.
  intros H Hfs Hl. pose proof (bd_max _ _ _ H) as Hmx. pose proof (bd_stored _ _ _ H) as (c & Hc & Hs).
  pose proof (size_of_nonneg _ _ Hc) as H0. rewrite <- (bd_written _ _ _ H) in H0.
  unfold WPACKET_reserve_bytes. erewrite bind_ret by reflexivity. cbn [fst].
  assert (match subs pkt with [] => true | _ => false end = false) as ->.
  { rewrite (bd_subs _ _ _ H). by destruct fs. }
  cbn [orb]. assert ((len =? 0) = false) as -> by lia.
  rewrite to_size_id by lia. destruct (Z.ltb_spec (maxsize pkt - written pkt) len) as [Hlt|Hge].
  { exists None, pkt, m. split; [done|]. repeat (split; [done|]). left. lia. }
  destruct (wbuf pkt) as [str|] eqn:Hw.
  - destruct (reserve_dynamic pkt m fs len str H Hw) as (ok & pkt' & m' & E & Hres); [lia|lia|].
    rewrite (bind_ret _ _ _ _ _ E). destruct ok; [|by eexists _, _, _].
    pose proof Hres as (Hb' & _ & Hwr & _ & _ & _ & Hnn & _).
    erewrite bind_ret by reflexivity. cbn [fst]. rewrite (bd_start _ _ _ Hb'). cbn [andb].
    rewrite (get_curr_start _ _ _ Hb' Hnn), Hwr. by eexists _, _, _.
  - pose proof (reserve_static pkt m fs len H Hw ltac:(lia) ltac:(lia)) as Hres.
    pose proof Hres as (_ & _ & _ & _ & _ & _ & Hnn & _).
    rewrite (bind_ret _ _ _ _ _ (mret_run true (pkt, m))). erewrite bind_ret by reflexivity.
    cbn [fst]. rewrite (bd_start _ _ _ H). cbn [andb]. rewrite (get_curr_start _ _ _ H Hnn). by eexists _, _, _.
Qed.

(** Another chain of sub-packets makes no difference to a reservation. *)
Lemma reserve_subs pkt m len l r pkt' m' :
  subs pkt <> [] -> l <> [] ->
  WPACKET_reserve_bytes len (pkt, m) = Ret (r, (pkt', m')) ->
  WPACKET_reserve_bytes len (set_subs l pkt, m) = Ret (r, (set_subs l pkt', m')).
Proof.
  intros Hs Hl. unfold WPACKET_reserve_bytes.
  rewrite (bind_ret wpkt _ (pkt, m) pkt (pkt, m)) by done.
  rewrite (bind_ret wpkt _ (set_subs l pkt, m) (set_subs l pkt) (set_subs l pkt, m)) by done.
  change (subs (set_subs l pkt)) with l. change (maxsize (set_subs l pkt)) with (maxsize pkt).
  change (written (set_subs l pkt)) with (written pkt). change (wbuf (set_subs l pkt)) with (wbuf pkt).
  replace (match l with [] => true | _ => false end) with false by by destruct l.
  replace (match subs pkt with [] => true | _ => false end) with false by by destruct (subs pkt).
  cbn [orb]. destruct (len =? 0); [by intros [= <- <- <-]|].
  destruct (_ <? len) eqn:?; [by intros [= <- <- <-]|].
  destruct (wbuf pkt) as [b|]; [|by intros [= <- <- <-]].
  destruct (to_size (b_length b - written pkt) <? len); [|by intros [= <- <- <-]].
  unfold mbind, M_bind. cbn [in_mem]. destruct (BUF_MEM_grow b _ m) as [[[v b'] m1]| |]; [|done|done].
  cbn [wset]. destruct (negb (v =? 0)); cbn; by intros [= <- <- <-].
Qed.

Lemma allocate_run pkt m fs len l :
  building pkt m fs -> fs <> [] -> 0 < len < 2 ^ 64 -> l <> [] ->
  exists r pkt' m',
    WPACKET_allocate_bytes len (set_subs l pkt, m) =
      Ret (r, (match r with Some _ => advance len (set_subs l pkt') | None => set_subs l pkt' end, m')) /\
    reserved pkt pkt' m m' fs len r.
Proof using ALL.
  intros H Hne Hl Hl'. destruct (reserve_run pkt m fs len H Hne Hl) as (r & pkt' & m' & E & Hr).
  exists r, pkt', m'. split; [|done]. unfold WPACKET_allocate_bytes.
  rewrite (bind_ret _ _ _ _ _ (reserve_subs _ _ _ l _ _ _ ltac:(rewrite (bd_subs _ _ _ H); by destruct fs) Hl' E)).
  by destruct r.
Qed.

Lemma set_subs_same pkt m fs : building pkt m fs -> set_subs (subs pkt) pkt = pkt.
Proof. by destruct pkt. Qed.

(** What an operation leaves behind: the frames of the specification, or a
    failure that the specification, the growing buffer or the allocator explains. *)
Definition outcome_of (pkt pkt' : WPACKET) (m m' : mem) (fs : list frame) (op : wop) (r : bool) : Prop :=
  maxsize pkt' = maxsize pkt /\ same_kind pkt pkt' /\ kept m m' pkt pkt' /\
  if r then exists fs', wstep (maxsize pkt) op fs = Some fs' /\ building pkt' m' fs'
  else wstep (maxsize pkt) op fs = None \/ is_Some (wbuf pkt) \/ alloc_ok m 40 = false.

(** Room for the octets [bs] behind what was written. *)
Lemma allocate_append pkt m fs bs :
  building pkt m fs -> fs <> [] -> 0 < Z.of_nat (length bs) < 2 ^ 64 ->
  exists r pkt' m',
    WPACKET_allocate_bytes (Z.of_nat (length bs)) (pkt, m) = Ret (r, (pkt', m')) /\
    maxsize pkt' = maxsize pkt /\ same_kind pkt pkt' /\ kept m m' pkt pkt' /\
    match r with
    | Some p =>
        written pkt + Z.of_nat (length bs) <= maxsize pkt /\ is_null p = false /\
        p = padd (GETBUF pkt') (written pkt) /\ room m' p (Z.of_nat (length bs)) /\
        building pkt' (mwrite m' p bs) (append bs fs)
    | None => maxsize pkt < written pkt + Z.of_nat (length bs) \/ is_Some (wbuf pkt)
    end.
Proof using ALL.
  intros H Hne Hl.
  destruct (allocate_run pkt m fs _ (subs pkt) H Hne Hl) as (r & pkt' & m' & E & Hres);
    [rewrite (bd_subs _ _ _ H); by destruct fs|]. rewrite (set_subs_same _ _ _ H) in E.
  destruct Hres as (Hb & Hmx & Hwr & Hwb & Hk & Hr).
  assert (subs pkt' = subs pkt) as Hsub by (by rewrite (bd_subs _ _ _ Hb), (bd_subs _ _ _ H)).
  rewrite <- Hsub, (set_subs_same _ _ _ Hb) in E.
  exists r, (match r with Some _ => advance (Z.of_nat (length bs)) pkt' | None => pkt' end), m'.
  split; [done|]. destruct r as [p|]; [|done]. split; [done|]. split; [done|]. split; [done|].
  destruct Hr as (Hfit & Hnn & -> & c & junk & Hc & Hj & Hst). split; [done|].
  destruct (building_append pkt' m' fs c junk bs Hb Hne Hc Hst) as [Hroom Hbd]; [lia|lia|].
  rewrite Hwr in *. split; [by destruct (GETBUF pkt')|]. split; [done|]. split; [|done].
  destruct Hroom as [->|?]; [cbn in Hl; lia|done].
Qed.

Lemma put_bytes_run pkt m fs val size :
  building pkt m fs -> fs <> [] -> 0 <= val -> 0 <= size ->
  exists r pkt' m',
    WPACKET_put_bytes__ val size (pkt, m) = Ret (r, (pkt', m')) /\ outcome_of pkt pkt' m m' fs (Put val size) r.
Proof using ALL.
  intros H Hne Hv Hs. unfold WPACKET_put_bytes__, outcome_of. cbn [wstep].
  destruct (Z.ltb_spec 8 size) as [H8|H8].
  { exists false, pkt, m. repeat (split; [done|]). left.
    by replace (size <=? 8) with false by lia; rewrite andb_false_r. }
  destruct (Z.eqb_spec size 0) as [->|Hs0].
  { exists false, pkt, m. split; [|by repeat (split; [done|]); left].
    unfold WPACKET_allocate_bytes, WPACKET_reserve_bytes. unfold mbind, M_bind. cbn [wpkt fst].
    rewrite orb_true_r. done. }
  pose proof (allocate_append pkt m fs (be_bytes (Z.to_nat size) val) H Hne) as Ha.
  rewrite length_be_bytes, Z2Nat.id in Ha by lia.
  destruct Ha as (r & pkt' & m' & E & Hmx & Hwb & Hk & Hr); [lia|]. rewrite (bind_ret _ _ _ _ _ E).
  rewrite <- (bd_written _ _ _ H).
  replace (1 <=? size) with true by lia. replace (size <=? 8) with true by lia. cbn [andb].
  destruct r as [p|].
  - destruct Hr as (Hfit & Hnn & Ep & Hroom & Hbd).
    erewrite in_mem_run by (apply put_value_run; [done|done|lia|done]).
    eexists (val <? 256 ^ size), _, _. split; [reflexivity|]. split; [done|]. split; [done|].
    split; [rewrite Ep; by apply kept_write|].
    replace (written pkt + size <=? maxsize pkt) with true by lia. cbn [andb].
    destruct (val <? 256 ^ size); [by eexists|by left].
  - exists false, pkt', m'. repeat (split; [done|]).
    destruct Hr as [Hlt|Hd]; [left|by right; left].
    by replace (written pkt + size <=? maxsize pkt) with false by lia.
Qed.

Lemma append_nil fs : append [] fs = fs.
Proof. destruct fs as [|[] outer]; [done|]. cbn. by rewrite app_nil_r. Qed.

(** The octets to copy are where they were, outside the buffer. *)
Lemma source_kept m m' pkt pkt' src sb bs :
  kept m m' pkt pkt' -> bytes_at m src bs -> in_block src sb -> ~ in_block (GETBUF pkt) sb ->
  bytes_at m' src bs /\ ~ in_block (GETBUF pkt') sb.
Proof.
  intros Hk [t Ht] Hin Hnb. destruct src as [| |b o]; [done|done|]. cbn in Hin. subst b.
  pose proof Ht as (l & Hl & _)%tail_at_Some. destruct (Hk sb) as [E N]; [by eexists|done|].
  split; [|done]. exists t. rewrite <- Ht. cbn [tail_at]. by rewrite E.
Qed.

Lemma memcpy_run pkt m fs src sb bs :
  building pkt m fs -> fs <> [] -> Z.of_nat (length bs) < 2 ^ 64 ->
  bytes_at m src bs -> in_block src sb -> ~ in_block (GETBUF pkt) sb ->
  exists r pkt' m',
    WPACKET_memcpy src (Z.of_nat (length bs)) (pkt, m) = Ret (r, (pkt', m')) /\
    outcome_of pkt pkt' m m' fs (Copy src bs) r.
Proof using ALL.
  intros H Hne Hl Hs Hin Hnb. unfold WPACKET_memcpy, outcome_of. cbn [wstep].
  rewrite <- (bd_written _ _ _ H). pose proof (bd_max _ _ _ H) as Hmx0.
  destruct (Z.eqb_spec (Z.of_nat (length bs)) 0) as [E0|Hne0].
  { exists true, pkt, m. repeat (split; [done|]).
    destruct bs; [|cbn in E0; lia]. rewrite append_nil. exists fs. cbn [length].
    by replace (written pkt + Z.of_nat 0 <=? maxsize pkt) with true by lia. }
  destruct (allocate_append pkt m fs bs H Hne) as (r & pkt' & m' & E & Hmx & Hwb & Hk & Hr); [lia|].
  rewrite (bind_ret _ _ _ _ _ E). destruct r as [p|].
  - destruct Hr as (Hfit & Hnn & Ep & Hroom & Hbd). rewrite Hnn. cbn [negb].
    destruct (source_kept _ _ _ _ _ _ _ Hk Hs Hin Hnb) as [Hs' Hnb'].
    assert (exists b, in_block p b /\ b <> sb) as (b & Hpb & Hbs).
    { rewrite Ep in *. destruct (GETBUF pkt') as [| |b o]; [done| |by exists b].
      by destruct Hroom as (? & ? & _). }
    erewrite bind_ret by (apply in_mem_run, (memcpy_at _ _ _ b); [by right|done|done| |lia];
      destruct src; cbn in *; congruence).
    eexists true, _, _. split; [reflexivity|]. split; [done|]. split; [done|].
    split; [rewrite Ep; by apply kept_write|].
    replace (written pkt + Z.of_nat (length bs) <=? maxsize pkt) with true by lia. by eexists.
  - exists false, pkt', m'. repeat (split; [done|]).
    destruct Hr as [Hlt|Hd]; [left|by right; left].
    by replace (written pkt + Z.of_nat (length bs) <=? maxsize pkt) with false by lia.
Qed.

(** A frame more: its place for the length is the octets just reserved. *)
Lemma building_open pkt m fs c junk n :
  building pkt m fs -> laid_out fs c -> stored m pkt (c ++ junk) -> Z.of_nat (length junk) = n ->
  written pkt + n <= maxsize pkt ->
  building (advance n (set_subs (mkSub (if n =? 0 then 0 else written pkt) n (written pkt + n) 0 :: subs pkt) pkt))
    m (mkFrame n 0 [] :: fs).
Proof.
  intros [H1 H2 H3 H4 H5 _] Hc Hs Hj Hm. pose proof (size_of_nonneg _ _ Hc) as H0. rewrite <- H3 in H0.
  split; cbn [endfirst subs written wcurr maxsize advance set_subs]; try done.
  - rewrite H2. cbn [subs_of f_lenbytes f_flags]. by rewrite <- H3.
  - cbn [size_of f_lenbytes f_data length]. rewrite to_size_id by lia. lia.
  - by rewrite H4.
  - rewrite to_size_id by lia. lia.
  - exists (c ++ junk ++ []). split; [by apply (laid_cons (mkFrame n 0 []))|]. by rewrite app_nil_r.
Qed.

Lemma start_sub_run pkt m fs n :
  building pkt m fs -> fs <> [] -> 0 <= n < 2 ^ 64 ->
  exists r pkt' m',
    WPACKET_start_sub_packet_len__ n (pkt, m) = Ret (r, (pkt', m')) /\ outcome_of pkt pkt' m m' fs (Open n) r.
Proof using ALL.
  intros H Hne Hn. unfold WPACKET_start_sub_packet_len__, outcome_of. cbn [wstep].
  pose proof (bd_max _ _ _ H) as Hmx0. pose proof (bd_stored _ _ _ H) as (c0 & Hc0 & Hs0).
  pose proof (size_of_nonneg _ _ Hc0) as H0. rewrite <- (bd_written _ _ _ H) in *.
  rewrite (bind_ret wpkt _ (pkt, m) pkt (pkt, m)) by done.
  assert (subs pkt <> []) as Hsub by (rewrite (bd_subs _ _ _ H); by destruct fs).
  destruct (subs pkt) as [|s l] eqn:Es; [done|]. rewrite <- Es. rewrite (bd_start _ _ _ H), andb_false_r.
  rewrite (bind_ret alloc_sub _ (pkt, m) (alloc_ok m 40) (pkt, m)) by done.
  destruct (alloc_ok m 40) eqn:Hok; cbn [negb].
  2: { exists false, pkt, m. repeat (split; [done|]). by right; right. }
  set (l' := mkSub _ n _ 0 :: subs pkt).
  rewrite (bind_ret (wset _) _ (pkt, m) tt (set_subs l' pkt, m)) by done.
  destruct (Z.eqb_spec n 0) as [->|Hn0].
  - exists true, (set_subs l' pkt), m. repeat (split; [done|]).
    replace (written pkt + 0 <=? maxsize pkt) with true by lia. eexists. split; [done|].
    pose proof (building_open pkt m fs c0 [] 0 H Hc0) as Hb. rewrite app_nil_r in Hb.
    unfold l'. rewrite to_size_id by lia. replace (set_subs _ pkt) with
      (advance 0 (set_subs (mkSub 0 0 (written pkt + 0) 0 :: subs pkt) pkt)); [apply Hb; [done|done|lia]|].
    unfold advance, set_subs. cbn [wcurr written]. rewrite (bd_curr _ _ _ H), !to_size_id by lia.
    by rewrite Z.add_0_r.
  - destruct (allocate_run pkt m fs n l' H Hne) as (r & pkt' & m' & E & Hres); [lia|done|].
    rewrite (bind_ret _ _ _ _ _ E). destruct Hres as (Hb & Hmx & Hwr & Hwb & Hk & Hr).
    destruct r as [p|]; eexists _, _, _; (split; [reflexivity|]); repeat (split; [done|]).
    + destruct Hr as (Hfit & Hnn & _ & c & junk & Hc & Hj & Hst).
      replace (written pkt + n <=? maxsize pkt) with true by lia. eexists. split; [done|].
      pose proof (building_open pkt' m' fs c junk n Hb Hc Hst) as Hbo.
      rewrite Hwr, (bd_subs _ _ _ Hb), <- (bd_subs _ _ _ H) in Hbo.
      replace (n =? 0) with false in Hbo by lia. unfold l'. rewrite to_size_id by lia. apply Hbo; lia.
    + destruct Hr as [Hlt|Hd]; [left|by right; left].
      by replace (written pkt + n <=? maxsize pkt) with false by lia.
Qed.

(** The frames without flags, as the operations of [wop] make them. *)
Definition plain (fs : list frame) : Prop := Forall (fun f => f_flags f = 0 /\ 0 <= f_lenbytes f) fs.

Lemma stored_not_null m pkt c : stored m pkt c -> c <> [] -> is_null (GETBUF pkt) = false.
Proof.
  unfold stored, GETBUF. intros Hs Hc. destruct (wbuf pkt) as [str|].
  - destruct Hs as (-> & _ & rest & _ & Hd). cbn [is_null negb]. destruct (b_data str); [|done|done].
    by destruct Hd as [[Hd _]%app_eq_nil _].
  - by destruct Hs as (b & o & -> & _).
Qed.

(** The innermost packet gets its length and becomes part of the one around it. *)
Lemma intern_close_run pkt m f outer :
  building pkt m (f :: outer) -> f_flags f = 0 -> 0 <= f_lenbytes f ->
  exists r m',
    wpacket_intern_close (mkSub (if f_lenbytes f =? 0 then 0 else size_of outer) (f_lenbytes f)
        (size_of outer + f_lenbytes f) (f_flags f)) (subs_of outer) true (pkt, m) =
      Ret (r, (if (r : bool) then set_subs (subs_of outer) pkt else pkt, m')) /\
    r = (f_lenbytes f =? 0) || (Z.of_nat (length (f_data f)) <? 256 ^ f_lenbytes f) /\
    kept m m' pkt pkt /\ exists c, laid_out outer c /\ stored m' pkt (c ++ closed f).
Proof.
  intros H Hf Hn. pose proof (bd_stored _ _ _ H) as (c0 & Hc0 & Hs).
  pose proof (bd_max _ _ _ H) as Hmx. pose proof (bd_written _ _ _ H) as Hw. cbn [size_of] in Hw.
  inversion Hc0 as [|? ? c hole Hc Hh]; subst.
  pose proof (size_of_nonneg _ _ Hc) as H0. pose proof (laid_out_length _ _ Hc) as Hlc.
  unfold wpacket_intern_close. rewrite (bind_ret wpkt _ (pkt, m) pkt (pkt, m)) by done.
  cbn [packet_len lenbytes pwritten sub_flags]. rewrite Hf, Hw.
  replace (size_of outer + f_lenbytes f + Z.of_nat (length (f_data f)) - (size_of outer + f_lenbytes f))
    with (Z.of_nat (length (f_data f))) by lia.
  rewrite to_size_id by lia. unfold truthy. rewrite !Z.land_0_l. cbn [Z.eqb negb]. rewrite !andb_false_r.
  cbn [andb]. rewrite (bind_ret _ _ _ _ _ (mret_run tt (pkt, m))).
  cbn [packet_len lenbytes pwritten sub_flags]. rewrite (bd_start _ _ _ H). cbn [andb].
  destruct (Z.eqb_spec (f_lenbytes f) 0) as [E0|Hn0].
  - rewrite E0. cbn [Z.ltb Z.compare orb]. rewrite (bind_ret _ _ _ _ _ (mret_run true (pkt, m))).
    exists true, m. repeat (split; [done|]). exists c. split; [done|]. unfold closed. rewrite E0.
    cbn [Z.to_nat be_bytes app]. destruct hole; [done|]. cbn in Hh. lia.
  - replace (0 <? f_lenbytes f) with true by lia. cbn [orb].
    assert (is_null (GETBUF pkt) = false) as Hnn.
    { eapply stored_not_null; [exact Hs|]. intros (_ & [Hnil _]%app_eq_nil)%app_eq_nil. subst. cbn in Hh. lia. }
    rewrite Hnn. cbn [negb].
    destruct (stored_update m pkt c hole (be_bytes (Z.to_nat (f_lenbytes f)) (Z.of_nat (length (f_data f)))) _ Hs)
      as [Hr Hs']; [rewrite length_be_bytes; lia|]. rewrite Hlc, length_be_bytes in *.
    destruct Hr as [Hnil|Hr]; [apply (f_equal length) in Hnil; rewrite length_be_bytes in Hnil; cbn in Hnil; lia|].
    rewrite Z2Nat.id in Hr by lia.
    erewrite bind_ret by (apply in_mem_run, put_value_run; [by destruct (GETBUF pkt)|lia|lia|exact Hr]).
    destruct (_ <? 256 ^ f_lenbytes f); [exists true|exists false]; eexists; (split; [reflexivity|]);
      (split; [done|]); (split; [apply kept_write, kept_refl|]); exists c; done.
Qed.

Lemma close_run pkt m fs :
  building pkt m fs -> plain fs ->
  exists r pkt' m', WPACKET_close (pkt, m) = Ret (r, (pkt', m')) /\ outcome_of pkt pkt' m m' fs Close r.
Proof.
  intros H Hp. unfold WPACKET_close, outcome_of. rewrite (bind_ret wpkt _ (pkt, m) pkt (pkt, m)) by done.
  rewrite (bd_subs _ _ _ H). cbn [wstep].
  destruct fs as [|f [|g outer]]; [exists false, pkt, m; by repeat (split; [done|]); left..|].
  apply Forall_cons in Hp as [[Hf Hn] Hp].
  destruct (intern_close_run pkt m f (g :: outer) H Hf Hn) as (r & m' & E & Hr & Hk & c & Hc & Hs).
  exists r, (if r then set_subs (subs_of (g :: outer)) pkt else pkt), m'. split; [exact E|].
  split; [by destruct r|]. split; [by destruct r|]. split; [by destruct r|].
  rewrite <- Hr. destruct r; [|by left].
  eexists. split; [done|]. destruct H as [H1 H2 H3 H4 H5 _].
  assert (size_of (append (closed f) (g :: outer)) = size_of (f :: g :: outer)) as Esz.
  { rewrite size_of_append by done. unfold closed. rewrite length_app, length_be_bytes. cbn [size_of]. lia. }
  split; cbn [endfirst subs written wcurr maxsize set_subs]; try done.
  - by rewrite Esz.
  - exists (c ++ closed f). split; [by apply laid_out_append|]. done.
Qed.

(** *** Sequences of operations *)

(** What the caller provides: values and lengths in their ranges, and octets to
    copy that lie outside the buffer. *)
Definition op_ok (m : mem) (pkt : WPACKET) (op : wop) : Prop :=
  match op with
  | Put val size => 0 <= val /\ 0 <= size
  | Copy src bs =>
      Z.of_nat (length bs) < 2 ^ 64 /\
      exists sb, in_block src sb /\ ~ in_block (GETBUF pkt) sb /\ bytes_at m src bs
  | Open n => 0 <= n < 2 ^ 64
  | Close => True
  end.

Lemma op_ok_kept m m' pkt pkt' op : kept m m' pkt pkt' -> op_ok m pkt op -> op_ok m' pkt' op.
Proof.
  intros Hk. destruct op as [| src bs | |]; try done. intros (Hl & sb & Hin & Hnb & Hs).
  split; [done|]. exists sb. destruct (source_kept _ _ _ _ _ _ _ Hk Hs Hin Hnb). done.
Qed.

Lemma run_op_run pkt m fs op :
  building pkt m fs -> fs <> [] -> plain fs -> op_ok m pkt op ->
  exists r pkt' m', run_op op (pkt, m) = Ret (r, (pkt', m')) /\ outcome_of pkt pkt' m m' fs op r.
Proof using ALL.
  intros H Hne Hp Hok. destruct op as [val size|src bs|n|]; cbn [run_op].
  - apply put_bytes_run; [done..|apply Hok|apply Hok].
  - destruct Hok as (Hl & sb & Hin & Hnb & Hs). by apply (memcpy_run _ _ _ _ sb).
  - by apply start_sub_run.
  - by apply close_run.
Qed.

Lemma plain_append bs fs : plain fs -> plain (append bs fs).
Proof. destruct fs as [|f outer]; [done|]. intros [Hf Ho]%Forall_cons. by apply Forall_cons. Qed.

Lemma wstep_plain max op fs fs' :
  plain fs -> fs <> [] -> (forall n, op = Open n -> 0 <= n) -> wstep max op fs = Some fs' -> plain fs' /\ fs' <> [].
Proof.
  intros Hp Hne Hop. destruct op as [val size|src bs|n|]; cbn [wstep].
  - case_match; [|done]. intros [= <-]. split; [by apply plain_append|by destruct fs].
  - case_match; [|done]. intros [= <-]. split; [by apply plain_append|by destruct fs].
  - case_match; [|done]. intros [= <-]. split; [|done]. apply Forall_cons. split; [|done].
    split; [done|]. by apply Hop.
  - destruct fs as [|f [|g outer]]; [done|done|]. case_match; [|done]. intros [= <-].
    apply Forall_cons in Hp as [_ Hp]. split; [by apply (plain_append _ (g :: outer))|done].
Qed.

(** One operation after the other while they return 1. *)
Fixpoint run_ops (ops : list wop) : M wstate bool :=
  match ops with
  | [] => mret true
  | op :: ops => both (run_op op) (run_ops ops)
  end.

Fixpoint wsteps (max : Z) (ops : list wop) (fs : list frame) : option (list frame) :=
  match ops with
  | [] => Some fs
  | op :: ops => match wstep max op fs with Some fs' => wsteps max ops fs' | None => None end
  end.

Lemma run_ops_run ops : forall pkt m fs,
  building pkt m fs -> fs <> [] -> plain fs -> Forall (op_ok m pkt) ops ->
  exists r pkt' m',
    run_ops ops (pkt, m) = Ret (r, (pkt', m')) /\ maxsize pkt' = maxsize pkt /\
    same_kind pkt pkt' /\ kept m m' pkt pkt' /\
    if r then exists fs', wsteps (maxsize pkt) ops fs = Some fs' /\ building pkt' m' fs' /\ fs' <> [] /\ plain fs'
    else wsteps (maxsize pkt) ops fs = None \/ is_Some (wbuf pkt) \/ exists m1, alloc_ok m1 40 = false.
Proof using ALL.
  induction ops as [|op ops IH]; intros pkt m fs H Hne Hp Hok; cbn [run_ops wsteps].
  { exists true, pkt, m. repeat (split; [done|]). by exists fs. }
  apply Forall_cons in Hok as [Hop Hok].
  destruct (run_op_run pkt m fs op H Hne Hp Hop) as (r & pkt1 & m1 & E & Hmx & Hwb & Hk & Hr).
  unfold both. rewrite (bind_ret _ _ _ _ _ E). destruct r.
  - destruct Hr as (fs1 & Hst & Hb1). rewrite Hst.
    assert (forall n, op = Open n -> 0 <= n) as Hpos by (intros n ->; apply Hop).
    destruct (wstep_plain _ _ _ _ Hp Hne Hpos Hst) as [Hp1 Hne1].
    destruct (IH pkt1 m1 fs1 Hb1 Hne1 Hp1) as (r & pkt2 & m2 & E2 & Hmx2 & Hwb2 & Hk2 & Hr2).
    { eapply Forall_impl; [exact Hok|]. intros op'. by apply op_ok_kept. }
    exists r, pkt2, m2. rewrite Hmx in *. split; [done|]. split; [done|]. split; [by eapply same_kind_trans|].
    split; [by eapply kept_trans|]. destruct r; [done|].
    destruct Hr2 as [|[Hs|]]; [by left| |by right; right]. right; left.
    destruct (wbuf pkt) eqn:Hw0; [by eexists|]. destruct Hwb as [[Hwb _] _].
    rewrite (Hwb Hw0) in Hs. by destruct Hs.
  - exists false, pkt1, m1. repeat (split; [done|]).
    destruct Hr as [->|[|]]; [by left|by right; left|right; right; by eexists].
Qed.

(** *** Initialisation and end *)

Lemma init_static_run pkt m b o len :
  alloc_ok m 40 = true -> 0 < len < 2 ^ 64 -> room m (Ptr b o) len ->
  exists pkt', WPACKET_init_static_len (Ptr b o) len 0 (pkt, m) = Ret (true, (pkt', m)) /\
    building pkt' m [mkFrame 0 0 []] /\ maxsize pkt' = len /\ wbuf pkt' = None /\ GETBUF pkt' = Ptr b o.
Proof.
  intros Hok Hl Hr. eexists. split.
  - unfold WPACKET_init_static_len. cbn [is_null orb]. replace (len <=? 0) with false by lia.
    unfold wpacket_intern_init_len, mbind, M_bind, alloc_sub. cbn. rewrite Hok. reflexivity.
  - change (maxmaxsize 0) with SIZE_MAX. unfold SIZE_MAX.
    replace (18446744073709551615 <? len) with false by lia.
    split; [|done]. split; cbn [endfirst subs written wcurr maxsize set_subs]; try done; [lia|].
    exists []. split; [by apply (laid_cons (mkFrame 0 0 []) [] [] [] laid_nil)|].
    exists b, o. cbn. split; [done|]. split; [lia|]. split; [done|].
    destruct Hr as (t & Ht & _). by exists t.
Qed.

Lemma finish_run pkt m f :
  building pkt m [f] -> f_flags f = 0 -> f_lenbytes f = 0 ->
  exists pkt' m', WPACKET_finish (pkt, m) = Ret (true, (pkt', m')) /\ subs pkt' = [] /\
    written pkt' = Z.of_nat (length (f_data f)) /\ (wbuf pkt' = wbuf pkt /\ staticbuf pkt' = staticbuf pkt) /\
    kept m m' pkt pkt' /\ stored m' pkt' (f_data f).
Proof.
  intros H Hf Hn. destruct (intern_close_run pkt m f [] H Hf ltac:(lia)) as (r & m' & E & Hr & Hk & c & Hc & Hs).
  rewrite Hn in Hr. cbn in Hr. subst r. unfold WPACKET_finish.
  rewrite (bind_ret wpkt _ (pkt, m) pkt (pkt, m)) by done. rewrite (bd_subs _ _ _ H). cbn [subs_of] in *.
  rewrite (bind_ret _ _ _ _ _ E). eexists _, m'. split; [reflexivity|]. split; [done|].
  inversion Hc; subst. unfold closed in Hs. rewrite Hn in Hs. cbn [Z.to_nat be_bytes app] in Hs.
  split; [|done]. cbn [written set_subs]. rewrite (bd_written _ _ _ H). cbn [size_of]. lia.
Qed.

(** The outermost packet keeps the number of octets of its length. *)
Definition bottom (fs : list frame) : option Z := f_lenbytes <$> last fs.

Lemma bottom_cons f g outer : bottom (f :: g :: outer) = bottom (g :: outer).
Proof. done. Qed.

Lemma bottom_append bs fs : bottom (append bs fs) = bottom fs.
Proof. by destruct fs as [|f [|g outer]]. Qed.

Lemma wsteps_bottom max ops : forall fs fs',
  fs <> [] -> wsteps max ops fs = Some fs' -> bottom fs' = bottom fs /\ fs' <> [].
Proof.
  induction ops as [|op ops IH]; intros fs fs' Hne; cbn [wsteps]; [by intros [= <-]|].
  destruct (wstep max op fs) as [fs1|] eqn:E; [|done]. intros Hs.
  assert (bottom fs1 = bottom fs /\ fs1 <> []) as [Hb1 Hne1].
  { destruct op as [val size|src bs|n|]; cbn [wstep] in E.
    - case_match; [|done]. injection E as <-. rewrite bottom_append. by destruct fs.
    - case_match; [|done]. injection E as <-. rewrite bottom_append. by destruct fs.
    - case_match; [|done]. injection E as <-. by destruct fs.
    - destruct fs as [|f [|g outer]]; [done|done|]. case_match; [|done]. injection E as <-.
      split; [apply (bottom_append (closed f) (g :: outer))|done]. }
  destruct (IH fs1 fs' Hne1 Hs) as [-> ?]. done.
Qed.

Lemma finish_open pkt m f g outer :
  building pkt m (f :: g :: outer) -> WPACKET_finish (pkt, m) = Ret (false, (pkt, m)).
Proof.
  intros H. unfold WPACKET_finish. rewrite (bind_ret wpkt _ (pkt, m) pkt (pkt, m)) by done.
  by rewrite (bd_subs _ _ _ H).
Qed.

(** A message built in the array at [b], [o]: the operations between
    initialisation and end. *)
Definition build_static (b : positive) (o len : Z) (ops : list wop) : M wstate bool :=
  both (WPACKET_init_static_len (Ptr b o) len 0) (both (run_ops ops) WPACKET_finish).

(** Only the array changes. *)
Definition array_only (b : positive) (m m' : mem) : Prop :=
  forall b', is_Some (m !! b') -> b' <> b -> m' !! b' = m !! b'.

Lemma kept_array_only m m' pkt pkt' b o :
  kept m m' pkt pkt' -> GETBUF pkt = Ptr b o -> array_only b m m'.
Proof. intros Hk Hg b' Hb Hne. apply Hk; [done|]. rewrite Hg. cbn. congruence. Qed.

Lemma build_static_run pkt m b o len ops :
  (forall m, alloc_ok m 40 = true) -> 0 < len < 2 ^ 64 -> room m (Ptr b o) len ->
  Forall (op_ok m (mkWPACKET None (Ptr b o) 0 0 0 [] false)) ops ->
  exists r pkt' m', build_static b o len ops (pkt, m) = Ret (r, (pkt', m')) /\ array_only b m m' /\
    match wsteps len ops [mkFrame 0 0 []] with
    | Some [f] => r = true /\ bytes_at m' (Ptr b o) (f_data f) /\
        written pkt' = Z.of_nat (length (f_data f)) /\ subs pkt' = []
    | _ => r = false
    end.
Proof using ALL.
  intros Hok Hl Hr Hops. unfold build_static, both.
  destruct (init_static_run pkt m b o len (Hok m) Hl Hr) as (pkt1 & E1 & Hb1 & Hmx & Hw & Hg).
  rewrite (bind_ret _ _ _ _ _ E1).
  destruct (run_ops_run ops pkt1 m _ Hb1) as (r & pkt2 & m2 & E2 & Hmx2 & Hwb & Hk & Hrr); [done| |..].
  { by apply Forall_singleton. }
  { eapply Forall_impl; [exact Hops|]. intros op. unfold op_ok. by rewrite Hg. }
  rewrite (bind_ret _ _ _ _ _ E2). rewrite Hmx in Hrr. destruct r.
  - destruct Hrr as (fs & Hs & Hb & Hne & Hp). rewrite Hs.
    destruct (wsteps_bottom len ops [mkFrame 0 0 []] fs) as [Hbot _]; [done|done|].
    destruct fs as [|f [|g outer]]; [done| |].
    + apply Forall_cons in Hp as [[Hf _] _]. injection Hbot as Hn.
      destruct (finish_run pkt2 m2 f Hb Hf Hn) as (pkt3 & m3 & E3 & Hsub & Hwr & [Hwb3 Hsb3] & Hk3 & Hst).
      exists true, pkt3, m3. split; [done|].
      split; [by apply (kept_array_only _ _ pkt1 pkt3 b o); [eapply kept_trans|]|]. split; [done|]. split; [|done].
      destruct Hwb as [[Hw2 _] Hs2]. specialize (Hw2 Hw). unfold stored in Hst.
      rewrite Hwb3, Hw2 in Hst. destruct Hst as (b' & o' & Hsb & _ & _ & Hby).
      unfold GETBUF in Hg. rewrite <- Hs2, <- Hsb3, Hsb in Hg. by injection Hg as -> ->.
    + exists false, pkt2, m2. split; [by eapply finish_open|]. split; [by eapply kept_array_only|done].
  - exists false, pkt2, m2. split; [done|]. split; [by eapply kept_array_only|].
    destruct Hrr as [->|[Hs|[m1 Hm1]]]; [done|by rewrite Hw in Hs; destruct Hs|by rewrite Hok in Hm1].
Qed.
End runs.

(** ** Theorems *)

(** C28: Building a message in an array, from [WPACKET_init_static_len] over any
    sequence of numbers, copies, opened and closed sub-packets (with lengths of
    any number of octets) to [WPACKET_finish], is defined, changes no other
    object, and returns 1 exactly when every operation is possible on the
    stack of open packets (the numbers and the lengths fit in their octets, the
    octets fit in the array, no more is closed than was opened) and only the
    outermost packet is left; then the array holds the octets of that packet,
    every length in its place, and [written] counts them. *)
Theorem WPACKET_static_refines {AL : Allocator} {ALL : AllocatorLaws} pkt m b o len ops :
  (forall m, alloc_ok m 40 = true) -> 0 < len < 2 ^ 64 -> room m (Ptr b o) len ->
  Forall (op_ok m (mkWPACKET None (Ptr b o) 0 0 0 [] false)) ops ->
  exists r pkt' m', build_static b o len ops (pkt, m) = Ret (r, (pkt', m')) /\ array_only b m m' /\
    match wsteps len ops [mkFrame 0 0 []] with
    | Some [f] => r = true /\ bytes_at m' (Ptr b o) (f_data f) /\
        written pkt' = Z.of_nat (length (f_data f)) /\ subs pkt' = []
    | _ => r = false
    end.
Proof. apply build_static_run. Qed.

Lemma WPACKET_static_refines_witness :
  exists r pkt' m',
    build_static 1 0 8 [Put 22 1; Open 2; Copy (Ptr 2 0) [7; 8]; Close]
      (mkWPACKET None NULL 0 0 0 [] false, {[ 1%positive := replicate 8 0; 2%positive := [7; 8] ]}) =
      Ret (r, (pkt', m')) /\ r = true /\ bytes_at m' (Ptr 1 0) [22; 0; 2; 7; 8].
Proof.
  destruct (WPACKET_static_refines (mkWPACKET None NULL 0 0 0 [] false)
    {[ 1%positive := replicate 8 0; 2%positive := [7; 8] ]} 1 0 8
    [Put 22 1; Open 2; Copy (Ptr 2 0) [7; 8]; Close]) as (r & pkt' & m' & E & _ & H).
  - done.
  - lia.
  - eexists. split; [reflexivity|]. by vm_compute.
  - repeat (apply Forall_cons; split); [by split|by split| |done|by apply Forall_nil].
    split; [cbn; lia|]. exists 2%positive. split; [done|]. split; [done|]. by exists [].
  - exists r, pkt', m'. split; [exact E|]. destruct H as (Hr & Hb & _). by split.
Defined.

(** A writer without a buffer counts the octets of numbers and copies, but
    [WPACKET_quic_write_vlint] stores through its null pointer. *)
Lemma quic_write_vlint_null m pkt :
  both (WPACKET_init_null 0) (WPACKET_put_bytes__ 5 1) (pkt, m) =
    Ret (true, (mkWPACKET None NULL 1 1 SIZE_MAX [mkSub 0 0 0 0] false, m)) /\
  both (WPACKET_init_null 0) (WPACKET_quic_write_vlint 5) (pkt, m) = UB.
Proof. by split. Qed.
