(* ===== verification/TlsMessages.v ===== *)
(** * TLS messages: written and read back

    A TLS message is a sequence of numbers, octets and vectors with their length
    in front, and vectors contain such sequences again.  [ops_of] are the calls
    of crypto/packet.c (TlsWriter.v) that write a message, [wire] are its octets
    and [read_items] takes it apart again with the functions of
    include/internal/packet.h (TlsPacket.v), the vectors as sub-packets that must
    be used up.

    The file joins the two sides: [wsteps_items] gives the frames after the calls
    for a message, [read_items_run] what the reader does with its octets, and
    the theorem that what was built in an array is read back from it. *)

From S2P Require Import Prelude Memory ConstTime TlsPacket Heap BufMem Vlint TlsWriter.

#[local] Open Scope c_scope.

(** ** Definitions *)

Inductive item : Type :=
| Number (size : nat) (val : Z)
| Octets (src : ptr) (bs : list Z)
| Vector (k : nat) (body : list item).

Fixpoint item_ops (it : item) : list wop :=
  match it with
  | Number size val => [Put val (Z.of_nat size)]
  | Octets src bs => [Copy src bs]
  | Vector k body => Open (Z.of_nat k) :: flat_map item_ops body ++ [Close]
  end.

Definition ops_of (items : list item) : list wop := flat_map item_ops items.

(** A vector with its length in [k] octets. *)
Definition prefixed (k : nat) (c : list Z) : list Z := be_bytes k (Z.of_nat (length c)) ++ c.

Fixpoint item_wire (it : item) : list Z :=
  match it with
  | Number size val => be_bytes size val
  | Octets _ bs => bs
  | Vector k body => prefixed k (flat_map item_wire body)
  end.

Definition wire (items : list item) : list Z := flat_map item_wire items.

(** *** The reader *)

Definition PACKET_get_net (size : nat) : PACKET -> M mem (option (Z * PACKET)) :=
  match size with
  | 1%nat => PACKET_get_1
  | 2%nat => PACKET_get_net_2
  | 3%nat => PACKET_get_net_3
  | 4%nat => PACKET_get_net_4
  | 8%nat => PACKET_get_net_8
  | _ => fun _ => mret None
  end.

Definition PACKET_get_length_prefixed (k : nat) : PACKET -> M mem (option (PACKET * PACKET)) :=
  match k with
  | 1%nat => PACKET_get_length_prefixed_1
  | 2%nat => PACKET_get_length_prefixed_2
  | 3%nat => PACKET_get_length_prefixed_3
  | _ => fun _ => mret None
  end.

(** One reader after the other, until one fails. *)
Definition in_order {A} (f : A -> PACKET -> M mem (option PACKET)) (l : list A) :
    PACKET -> M mem (option PACKET) :=
  fold_right (fun it k pkt => obind (f it pkt) k) (fun pkt => mret (Some pkt)) l.

(** Reads an item and compares it; gives the packet behind it. *)
Fixpoint read_item (it : item) (pkt : PACKET) : M mem (option PACKET) :=
  match it with
  | Number size val =>
      '(v, pkt) ←? PACKET_get_net size pkt;
      mret (if v =? val then Some pkt else None)
  | Octets src bs =>
      '(sub, pkt) ←? mret (PACKET_get_sub_packet pkt (Z.of_nat (length bs)));
      r ← PACKET_equal sub src (Z.of_nat (length bs));
      mret (if r =? 1 then Some pkt else None)
  | Vector k body =>
      '(sub, pkt) ←? PACKET_get_length_prefixed k pkt;
      sub ←? in_order read_item body sub;
      mret (if PACKET_remaining sub =? 0 then Some pkt else None)
  end.

Definition read_items (items : list item) : PACKET -> M mem (option PACKET) := in_order read_item items.

(** *** Messages that can be written *)

(** Numbers, octets and the lengths of vectors are in their ranges. *)
Inductive fits : item -> Prop :=
| fits_number size val :
    size ∈ [1; 2; 3; 4; 8]%nat -> 0 <= val < 256 ^ Z.of_nat size -> fits (Number size val)
| fits_octets src bs : Forall is_byte bs -> Z.of_nat (length bs) < 2 ^ 64 -> fits (Octets src bs)
| fits_vector k body :
    k ∈ [1; 2; 3]%nat -> Forall fits body ->
    Z.of_nat (length (wire body)) < 256 ^ Z.of_nat k -> fits (Vector k body).

(** The octets that are copied lie in objects other than [b]. *)
Inductive sourced (m : mem) (b : positive) : item -> Prop :=
| sourced_number size val : sourced m b (Number size val)
| sourced_octets sb so bs : sb <> b -> bytes_at m (Ptr sb so) bs -> sourced m b (Octets (Ptr sb so) bs)
| sourced_vector k body : Forall (sourced m b) body -> sourced m b (Vector k body).

(** ** Lemmas *)

Section item_induction.
Variable P : item -> Prop.
Hypothesis on_number : forall size val, P (Number size val).
Hypothesis on_octets : forall src bs, P (Octets src bs).
Hypothesis on_vector : forall k body, Forall P body -> P (Vector k body).

Fixpoint item_nested (it : item) : P it :=
  match it with
  | Number size val => on_number size val
  | Octets src bs => on_octets src bs
  | Vector k body =>
      on_vector k body
        ((fix go l := match l return Forall P l with
                      | [] => List.Forall_nil P
                      | it :: l => List.Forall_cons P it l (item_nested it) (go l)
                      end) body)
  end.
End item_induction.

(** *** Writing *)

Lemma wsteps_app max ops1 : forall ops2 fs,
  wsteps max (ops1 ++ ops2) fs =
    match wsteps max ops1 fs with Some fs' => wsteps max ops2 fs' | None => None end.
Proof.
  induction ops1 as [|op ops1 IH]; intros ops2 fs; [done|]. cbn [wsteps app].
  destruct (wstep max op fs); [apply IH|done].
Qed.

Lemma append_append bs bs' fs : append bs' (append bs fs) = append (bs ++ bs') fs.
Proof. destruct fs; [done|]. cbn. by rewrite app_assoc. Qed.

(** The calls for some octets on a stack of frames: they are appended if they fit. *)
Definition appends (max : Z) (ops : list wop) (c : list Z) : Prop :=
  forall fs, fs <> [] -> size_of fs <= max ->
    wsteps max ops fs =
      if size_of fs + Z.of_nat (length c) <=? max then Some (append c fs) else None.

Lemma appends_seq max ops1 c1 ops2 c2 :
  appends max ops1 c1 -> appends max ops2 c2 -> appends max (ops1 ++ ops2) (c1 ++ c2).
Proof.
  intros H1 H2 fs Hne Hs. rewrite wsteps_app, H1 by done.
  pose proof (size_of_append fs c1 Hne) as Ha. rewrite length_app.
  destruct (Z.leb_spec (size_of fs + Z.of_nat (length c1)) max).
  - rewrite H2 by (by destruct fs) || lia. rewrite Ha, append_append.
    by replace (size_of fs + Z.of_nat (length c1 + length c2))
      with (size_of fs + Z.of_nat (length c1) + Z.of_nat (length c2)) by lia.
  - by destruct (Z.leb_spec (size_of fs + Z.of_nat (length c1 + length c2)) max); [lia|].
Qed.

Lemma appends_nil max : appends max [] [].
Proof.
  intros fs Hne Hs. cbn [wsteps length]. replace (size_of fs + Z.of_nat 0 <=? max) with true by lia.
  destruct fs as [|f outer]; [done|]. destruct f. cbn. by rewrite app_nil_r.
Qed.

Lemma appends_flat {A} max (ops : A -> list wop) (c : A -> list Z) l :
  Forall (fun x => appends max (ops x) (c x)) l -> appends max (flat_map ops l) (flat_map c l).
Proof. induction 1; [apply appends_nil|by apply appends_seq]. Qed.

(** A sub-packet around such calls. *)
Lemma appends_sub max k ops c :
  (0 < k)%nat -> Z.of_nat (length c) < 256 ^ Z.of_nat k -> appends max ops c ->
  appends max (Open (Z.of_nat k) :: ops ++ [Close]) (prefixed k c).
Proof.
  intros Hk Hc H fs Hne Hs. cbn [wsteps wstep]. unfold prefixed. rewrite length_app, length_be_bytes.
  destruct (Z.leb_spec (size_of fs + Z.of_nat k) max) as [Hle|].
  2:{ destruct (Z.leb_spec (size_of fs + Z.of_nat (k + length c)) max); [lia|done]. }
  assert (size_of (mkFrame (Z.of_nat k) 0 [] :: fs) = size_of fs + Z.of_nat k) as E by (cbn; lia).
  rewrite wsteps_app, H, E by (done || lia).
  replace (size_of fs + Z.of_nat (k + length c)) with (size_of fs + Z.of_nat k + Z.of_nat (length c)) by lia.
  destruct (_ <=? max); [|done]. destruct fs as [|g outer]; [done|].
  cbn [append f_lenbytes f_data f_flags app wsteps wstep].
  replace (Z.of_nat (length c) <? 256 ^ Z.of_nat k) with true by lia. rewrite orb_true_r.
  unfold closed. cbn [f_lenbytes f_data]. by rewrite Nat2Z.id.
Qed.

Lemma appends_item max it : fits it -> appends max (item_ops it) (item_wire it).
Proof.
  induction it as [size val|src bs|k body IH] using item_nested; intros Hf; inversion Hf as [? ? Hs Hv| |? ? Hk Hb Hl]; subst.
  - intros fs _ Hm. cbn [item_ops item_wire wsteps wstep]. rewrite length_be_bytes, Nat2Z.id.
    replace (val <? 256 ^ Z.of_nat size) with true by lia. rewrite andb_true_r.
    assert ((1 <=? Z.of_nat size) && (Z.of_nat size <=? 8) = true) as ->; [|by destruct (_ <=? max)].
    rewrite !elem_of_cons, elem_of_nil in Hs. by destruct Hs as [->|[->|[->|[->|[->|[]]]]]].
  - intros fs _ Hm. cbn [item_ops item_wire wsteps wstep]. by destruct (_ <=? max).
  - cbn [item_ops item_wire]. apply appends_sub.
    + destruct k; [|lia]. rewrite !elem_of_cons, elem_of_nil in Hk. lia.
    + done.
    + apply appends_flat. rewrite Forall_forall in *. intros it Hin. by apply IH, Hb.
Qed.

(** The frames after the calls for a message. *)
Lemma wsteps_items max items : Forall fits items -> appends max (ops_of items) (wire items).
Proof. intros H. apply appends_flat. eapply Forall_impl; [exact H|]. intros. by apply appends_item. Qed.

Lemma sourced_ops m b o it :
  fits it -> sourced m b it -> Forall (op_ok m (mkWPACKET None (Ptr b o) 0 0 0 [] false)) (item_ops it).
Proof.
  induction it as [size val|src bs|k body IH] using item_nested; intros Hf Hs;
    inversion Hf as [? ? Hz Hv|? ? _ Hl|? ? Hk Hb _]; inversion Hs as [|sb so ? Hne Hby|? ? Hsb]; subst;
    cbn [item_ops].
  - apply Forall_cons. split; [|done]. split; lia.
  - apply Forall_cons. split; [|done]. split; [done|]. exists sb. cbn. split; [done|]. split; congruence.
  - apply Forall_cons. split; [|apply Forall_app; split].
    + rewrite !elem_of_cons, elem_of_nil in Hk. cbn [op_ok]. lia.
    + apply Forall_flat_map. rewrite Forall_forall in *. intros it Hin. by apply IH; [|apply Hb|apply Hsb].
    + by apply Forall_cons.
Qed.

(** *** Reading *)

Lemma wire_octets it : fits it -> Forall is_byte (item_wire it).
Proof.
  induction it as [size val|src bs|k body IH] using item_nested; intros Hf; inversion Hf as [|? ? Ho|? ? Hk Hb]; subst.
  - apply be_bytes_octets.
  - done.
  - apply Forall_app. split; [apply be_bytes_octets|]. apply Forall_flat_map.
    rewrite Forall_forall in *. intros it Hin. by apply IH, Hb.
Qed.

Lemma p_bytes_app c rest : p_bytes (length c) (c ++ rest) = Some (c, rest).
Proof. rewrite p_bytes_enough by (rewrite length_app; lia). by rewrite take_app_length, drop_app_length. Qed.

Lemma p_net_be n v rest : 0 <= v < 256 ^ Z.of_nat n -> p_net n (be_bytes n v ++ rest) = Some (v, rest).
Proof.
  intros Hv. unfold p_net, p_map. rewrite <- (length_be_bytes n v) at 1. rewrite p_bytes_app, be_be_bytes.
  by rewrite Z.mod_small.
Qed.

Lemma p_prefixed_app k c rest :
  Z.of_nat (length c) < 256 ^ Z.of_nat k -> p_prefixed k (prefixed k c ++ rest) = Some (c, rest).
Proof.
  intros Hc. unfold p_prefixed, prefixed. rewrite <- app_assoc, p_net_be by lia.
  rewrite Nat2Z.id. apply p_bytes_app.
Qed.

Lemma get_net_implements size :
  size ∈ [1; 2; 3; 4; 8]%nat -> implements same_value (PACKET_get_net size) (p_net size).
Proof.
  rewrite !elem_of_cons, elem_of_nil. intros [->|[->|[->|[->|[->|[]]]]]].
  - apply get_net_1.
  - apply get_net_2.
  - apply get_net_3.
  - apply get_net_4.
  - apply get_net_8.
Qed.

Lemma get_prefixed_implements k :
  k ∈ [1; 2; 3]%nat -> implements denotes (PACKET_get_length_prefixed k) (p_prefixed k).
Proof.
  rewrite !elem_of_cons, elem_of_nil. intros [->|[->|[->|[]]]].
  - apply get_prefixed; [lia|apply get_net_1].
  - apply get_prefixed; [lia|apply get_net_2].
  - apply get_prefixed; [lia|apply get_net_3].
Qed.

(** [f] takes the octets [c] off the front of a packet. *)
Definition takes (m : mem) (f : PACKET -> M mem (option PACKET)) (c : list Z) : Prop :=
  forall pkt rest, denotes m pkt (c ++ rest) ->
    exists pkt', f pkt m = Ret (Some pkt', m) /\ denotes m pkt' rest.

Lemma takes_in_order {A} m (f : A -> PACKET -> M mem (option PACKET)) (c : A -> list Z) l :
  Forall (fun x => takes m (f x) (c x)) l -> takes m (in_order f l) (flat_map c l).
Proof.
  induction 1 as [|x l Hx _ IH]; intros pkt rest H; [by exists pkt|].
  cbn [flat_map] in H. rewrite <- app_assoc in H. destruct (Hx _ _ H) as (pkt1 & E1 & H1).
  destruct (IH _ _ H1) as (pkt2 & E2 & H2). exists pkt2. split; [|done].
  cbn [in_order fold_right]. by erewrite obind_ret by exact E1.
Qed.

Lemma implements_takes {A B} m (R : mem -> A -> B -> Prop) f (p : parser B) pkt bs v rest :
  implements R f p -> denotes m pkt bs -> p bs = Some (v, rest) ->
  exists a pkt', f pkt m = Ret (Some (a, pkt'), m) /\ R m a v /\ denotes m pkt' rest.
Proof. intros Hi H E. specialize (Hi m pkt bs H). by rewrite E in Hi. Qed.

Lemma read_item_run m b it : fits it -> sourced m b it -> takes m (read_item it) (item_wire it).
Proof.
  induction it as [size val|src bs|k body IH] using item_nested; intros Hf Hs;
    inversion Hf as [? ? Hz Hv|? ? Ho _|? ? Hk Hb Hl]; inversion Hs as [|sb so ? _ Hby|? ? Hsb]; subst;
    intros pkt rest H; cbn [read_item item_wire] in *.
  - destruct (implements_takes m _ _ _ _ _ _ _ (get_net_implements size Hz) H (p_net_be _ _ _ Hv))
      as (a & pkt' & E & -> & Hd).
    exists pkt'. rewrite (obind_ret _ _ _ _ _ E). by rewrite Z.eqb_refl.
  - destruct (implements_takes m _ _ _ _ _ _ _ (get_sub_packet (length bs)) H (p_bytes_app _ _))
      as (sub & pkt' & E & Hsub & Hd).
    exists pkt'. rewrite (obind_ret _ _ _ _ _ E).
    erewrite bind_ret by (apply (PACKET_equal_run m sub bs); [done|by right|done]).
    by rewrite bool_decide_eq_true_2.
  - destruct (implements_takes m _ _ _ _ _ _ _ (get_prefixed_implements k Hk) H (p_prefixed_app _ _ _ Hl))
      as (sub & pkt' & E & Hsub & Hd).
    exists pkt'. rewrite (obind_ret _ _ _ _ _ E). rewrite <- (app_nil_r (wire body)) in Hsub.
    destruct (takes_in_order m read_item item_wire body) with (pkt := sub) (rest := @nil Z)
      as (sub' & E' & Hr & _); [|done|].
    + rewrite Forall_forall in *. intros it Hin. by apply IH; [|apply Hb|apply Hsb].
    + rewrite (obind_ret _ _ _ _ _ E'). unfold PACKET_remaining. by rewrite Hr.
Qed.

Lemma sourced_kept m m' b it : array_only b m m' -> sourced m b it -> sourced m' b it.
Proof.
  intros Ha. induction it as [size val|src bs|k body IH] using item_nested; intros Hs;
    inversion Hs as [|sb so ? Hne Hby|? ? Hsb]; subst; constructor; try done.
  - destruct Hby as (t & Ht). exists t. cbn in *. rewrite Ha; [done| |done].
    destruct (m !! sb); [by eexists|done].
  - rewrite Forall_forall in *. intros it Hin. by apply IH, Hsb.
Qed.

(** ** Theorem *)

(** C29: A message of numbers, octets and vectors (nested to any depth, with
    lengths of one to three octets) that is built in an array is read back from
    it: the calls return 1 exactly when the octets of the message fit in the
    array, and then a [PACKET] over the [written] octets yields every number,
    octets equal to the sources they were copied from, and every vector as a
    sub-packet with exactly its contents, and nothing is left. *)
Theorem message_roundtrip {AL : Allocator} {ALL : AllocatorLaws} pkt m b o len items :
  (forall m, alloc_ok m 40 = true) -> 0 < len < 2 ^ 63 -> room m (Ptr b o) len ->
  Forall fits items -> Forall (sourced m b) items ->
  exists pkt' m',
    build_static b o len (ops_of items) (pkt, m) =
      Ret (Z.of_nat (length (wire items)) <=? len, (pkt', m')) /\
    (Z.of_nat (length (wire items)) <= len ->
     bytes_at m' (Ptr b o) (wire items) /\
     exists rd rd', PACKET_buf_init (Ptr b o) (written pkt') = Some rd /\
       read_items items rd m' = Ret (Some rd', m') /\ PACKET_remaining rd' = 0).
Proof.
  intros Hok Hl Hr Hf Hs.
  destruct (build_static_run pkt m b o len (ops_of items)) as (r & pkt' & m' & E & Ha & H); [done|lia|done| |].
  { apply Forall_flat_map. rewrite Forall_forall in *. intros it Hin. by apply sourced_ops; [apply Hf|apply Hs]. }
  rewrite (wsteps_items len items Hf [mkFrame 0 0 []]) in H by (done || cbn; lia).
  exists pkt', m'. rewrite E. cbn [size_of f_lenbytes f_data length] in H.
  replace (0 + 0 + Z.of_nat 0 + Z.of_nat (length (wire items))) with (Z.of_nat (length (wire items))) in H by lia.
  destruct (Z.leb_spec (Z.of_nat (length (wire items))) len) as [Hle|]; [|subst r; split; [done|lia]].
  cbn [append f_data app] in H. destruct H as (-> & Hb & Hw & _). split; [done|]. intros _. split; [done|].
  destruct (PACKET_buf_init_denotes m' (Ptr b o) (wire items)) as (rd & Hrd & Hd); [by right| | |].
  { apply Forall_flat_map. eapply Forall_impl; [exact Hf|]. apply wire_octets. }
  { rewrite SIZE_MAX_half. lia. }
  rewrite <- (app_nil_r (wire items)) in Hd.
  destruct (takes_in_order m' read_item item_wire items) with (pkt := rd) (rest := @nil Z)
    as (rd' & E' & Hrem & _); [|done|].
  { rewrite Forall_forall in *. intros it Hin. apply (read_item_run m' b); [by apply Hf|].
    apply (sourced_kept m); [done|by apply Hs]. }
  exists rd, rd'. rewrite Hw. by split.
Qed.

Lemma message_roundtrip_witness :
  exists pkt' m',
    build_static 1 0 16 (ops_of [Number 1 1; Vector 3 [Number 2 771; Vector 2 [Octets (Ptr 2 0) [7; 8]]]])
      (mkWPACKET None NULL 0 0 0 [] false, {[ 1%positive := replicate 16 0; 2%positive := [7; 8] ]}) =
      Ret (true, (pkt', m')) /\
    bytes_at m' (Ptr 1 0) [1; 0; 0; 6; 3; 3; 0; 2; 7; 8].
Proof.
  destruct (message_roundtrip (mkWPACKET None NULL 0 0 0 [] false)
    {[ 1%positive := replicate 16 0; 2%positive := [7; 8] ]} 1 0 16
    [Number 1 1; Vector 3 [Number 2 771; Vector 2 [Octets (Ptr 2 0) [7; 8]]]])
    as (pkt' & m' & E & H).
  - done.
  - lia.
  - eexists. split; [reflexivity|]. by vm_compute.
  - repeat constructor; cbn; try lia.
  - repeat first [apply Forall_cons; split | apply Forall_nil; exact I | constructor]; [done|by exists []].
  - exists pkt', m'. split; [exact E|]. apply H. cbn. lia.
Defined.
