(* ===== verification/Base64.v ===== *)
(** * Base64

    crypto/evp/encode.c of the vendored OpenSSL, with which the library reads the
    PEM files of the program (the certificates and the key): encoding and decoding
    of a block, and of a stream in pieces, with lines of 64 characters.  The
    context's array [enc_data] is an object of the memory.  A failed assertion,
    which ends the program, is [ub].

    The specification is the text of some octets ([b64]) and its division into
    lines ([b64_lines]).  The theorems: the block functions are inverse up to the
    padding; the encoder's output does not depend on how the input is cut into
    pieces; the decoder gets the octets back from their text with line ends and
    spaces anywhere in it. *)

From S2P Require Import Prelude Memory Heap OStr.

(** ** Definitions *)

Record EVP_ENCODE_CTX : Type := mkCtx {
  num : Z;
  ctx_length : Z;
  enc_data : ptr;
  line_num : Z;
  ctx_flags : Z
}.

Definition EVP_ENCODE_CTX_NO_NEWLINES : Z := 1.
Definition EVP_ENCODE_CTX_USE_SRP_ALPHABET : Z := 2.

Definition set_num (n : Z) (ctx : EVP_ENCODE_CTX) : EVP_ENCODE_CTX :=
  mkCtx n (ctx_length ctx) (enc_data ctx) (line_num ctx) (ctx_flags ctx).

Definition data_bin2ascii : list Z :=
  [65; 66; 67; 68; 69; 70; 71; 72; 73; 74; 75; 76; 77; 78; 79; 80;
   81; 82; 83; 84; 85; 86; 87; 88; 89; 90; 97; 98; 99; 100; 101; 102;
   103; 104; 105; 106; 107; 108; 109; 110; 111; 112; 113; 114; 115; 116; 117; 118;
   119; 120; 121; 122; 48; 49; 50; 51; 52; 53; 54; 55; 56; 57; 43; 47].

Definition srpdata_bin2ascii : list Z :=
  [48; 49; 50; 51; 52; 53; 54; 55; 56; 57; 65; 66; 67; 68; 69; 70;
   71; 72; 73; 74; 75; 76; 77; 78; 79; 80; 81; 82; 83; 84; 85; 86;
   87; 88; 89; 90; 97; 98; 99; 100; 101; 102; 103; 104; 105; 106; 107; 108;
   109; 110; 111; 112; 113; 114; 115; 116; 117; 118; 119; 120; 121; 122; 46; 47].

Definition B64_EOLN : Z := 240.
Definition B64_CR : Z := 241.
Definition B64_EOF : Z := 242.
Definition B64_WS : Z := 224.
Definition B64_ERROR : Z := 255.
Definition B64_NOT_BASE64 (a : Z) : bool := Z.lor a 19 =? 243.
Definition B64_BASE64 (a : Z) : bool := negb (B64_NOT_BASE64 a).

Definition data_ascii2bin : list Z :=
  [
   255; 255; 255; 255; 255; 255; 255; 255;
   255; 224; 240; 255; 255; 241; 255; 255;
   255; 255; 255; 255; 255; 255; 255; 255;
   255; 255; 255; 255; 255; 255; 255; 255;
   224; 255; 255; 255; 255; 255; 255; 255;
   255; 255; 255; 62; 255; 242; 255; 63;
   52; 53; 54; 55; 56; 57; 58; 59;
   60; 61; 255; 255; 255; 0; 255; 255;
   255; 0; 1; 2; 3; 4; 5; 6;
   7; 8; 9; 10; 11; 12; 13; 14;
   15; 16; 17; 18; 19; 20; 21; 22;
   23; 24; 25; 255; 255; 255; 255; 255;
   255; 26; 27; 28; 29; 30; 31; 32;
   33; 34; 35; 36; 37; 38; 39; 40;
   41; 42; 43; 44; 45; 46; 47; 48;
   49; 50; 51; 255; 255; 255; 255; 255
  ].

Definition srpdata_ascii2bin : list Z :=
  [
   255; 255; 255; 255; 255; 255; 255; 255;
   255; 224; 240; 255; 255; 241; 255; 255;
   255; 255; 255; 255; 255; 255; 255; 255;
   255; 255; 255; 255; 255; 255; 255; 255;
   224; 255; 255; 255; 255; 255; 255; 255;
   255; 255; 255; 255; 255; 242; 62; 63;
   0; 1; 2; 3; 4; 5; 6; 7;
   8; 9; 255; 255; 255; 0; 255; 255;
   255; 10; 11; 12; 13; 14; 15; 16;
   17; 18; 19; 20; 21; 22; 23; 24;
   25; 26; 27; 28; 29; 30; 31; 32;
   33; 34; 35; 255; 255; 255; 255; 255;
   255; 36; 37; 38; 39; 40; 41; 42;
   43; 44; 45; 46; 47; 48; 49; 50;
   51; 52; 53; 54; 55; 56; 57; 58;
   59; 60; 61; 255; 255; 255; 255; 255
  ].

Definition conv_bin2ascii (a : Z) (table : list Z) : M mem Z := array_get table (Z.land a 63).

Definition conv_ascii2bin (a : Z) (table : list Z) : M mem Z :=
  if truthy (Z.land a 128) then mret B64_ERROR else array_get table a.

(** The alphabet a context selects; a block function without one has [None]. *)
Definition srp (ctx : option EVP_ENCODE_CTX) : bool :=
  match ctx with
  | Some ctx => truthy (Z.land (ctx_flags ctx) EVP_ENCODE_CTX_USE_SRP_ALPHABET)
  | None => false
  end.

Definition bin2ascii (ctx : option EVP_ENCODE_CTX) : list Z :=
  if srp ctx then srpdata_bin2ascii else data_bin2ascii.
Definition ascii2bin (ctx : option EVP_ENCODE_CTX) : list Z :=
  if srp ctx then srpdata_ascii2bin else data_ascii2bin.

(** One group of at most three octets, [i] of them left. *)
Definition encode_group (table : list Z) (t f : ptr) (i : Z) : M mem unit :=
  if 3 <=? i then
    f0 ← load f;
    f1 ← load (padd f 1);
    f2 ← load (padd f 2);
    let l := Z.lor (Z.lor (Z.shiftl f0 16) (Z.shiftl f1 8)) f2 in
    c ← conv_bin2ascii (Z.shiftr l 18) table; store t c;;
    c ← conv_bin2ascii (Z.shiftr l 12) table; store (padd t 1) c;;
    c ← conv_bin2ascii (Z.shiftr l 6) table; store (padd t 2) c;;
    c ← conv_bin2ascii l table; store (padd t 3) c
  else
    f0 ← load f;
    let l := Z.shiftl f0 16 in
    l ← (if i =? 2 then f1 ← load (padd f 1); mret (Z.lor l (Z.shiftl f1 8)) else mret l);
    c ← conv_bin2ascii (Z.shiftr l 18) table; store t c;;
    c ← conv_bin2ascii (Z.shiftr l 12) table; store (padd t 1) c;;
    c ← (if i =? 1 then mret 61 else conv_bin2ascii (Z.shiftr l 6) table);
    store (padd t 2) c;;
    store (padd t 3) 61.

(** The loop over the groups; [i] octets are left. *)
Fixpoint encodeblock_loop (fuel : nat) (table : list Z) (t f : ptr) (i ret : Z) : M mem (ptr * Z) :=
  match fuel with
  | O => nofuel
  | S fuel =>
      if negb (0 <? i) then mret (t, ret)
      else
        encode_group table t f i;;
        ret ← int_result (ret + 4);
        encodeblock_loop fuel table (padd t 4) (padd f 3) (i - 3) ret
  end.

Definition evp_encodeblock_int (ctx : option EVP_ENCODE_CTX) (t f : ptr) (dlen : Z) : M mem Z :=
  '(t, ret) ← encodeblock_loop (S (Z.to_nat dlen)) (bin2ascii ctx) t f dlen 0;
  store t 0;;
  mret ret.

Definition EVP_EncodeBlock (t f : ptr) (dlen : Z) : M mem Z := evp_encodeblock_int None t f dlen.

Definition EVP_ENCODE_CTX_num (ctx : EVP_ENCODE_CTX) : Z := num ctx.

Definition evp_encode_ctx_set_flags (ctx : EVP_ENCODE_CTX) (flags : Z) : EVP_ENCODE_CTX :=
  mkCtx (num ctx) (ctx_length ctx) (enc_data ctx) (line_num ctx) flags.

Definition EVP_EncodeInit (ctx : EVP_ENCODE_CTX) : EVP_ENCODE_CTX := mkCtx 0 48 (enc_data ctx) 0 0.

Definition no_newlines (ctx : EVP_ENCODE_CTX) : bool :=
  truthy (Z.land (ctx_flags ctx) EVP_ENCODE_CTX_NO_NEWLINES).

(** The end of a line: [out] and [total] behind it. *)
Definition end_line (ctx : EVP_ENCODE_CTX) (out : ptr) (total : Z) : M mem (ptr * Z) :=
  '(out, total) ← (if no_newlines ctx then mret (out, total)
                   else store out 10;; mret (padd out 1, to_size (total + 1)));
  store out 0;;
  mret (out, total).

(** The loop over whole lines of input. *)
Fixpoint encode_lines (fuel : nat) (ctx : EVP_ENCODE_CTX) (out inp : ptr) (inlen total : Z) :
    M mem (ptr * Z * Z) :=
  match fuel with
  | O => nofuel
  | S fuel =>
      if (ctx_length ctx <=? inlen) && (total <=? INT_MAX) then
        j ← evp_encodeblock_int (Some ctx) out inp (ctx_length ctx);
        '(out, total) ← end_line ctx (padd out j) (to_size (total + j));
        encode_lines fuel ctx out (padd inp (ctx_length ctx)) (inlen - ctx_length ctx) total
      else mret (inp, inlen, total)
  end.

(** The result, [*outl] and the context. *)
Definition EVP_EncodeUpdate (ctx : EVP_ENCODE_CTX) (out inp : ptr) (inlen : Z) : M mem (bool * Z * EVP_ENCODE_CTX) :=
  if inlen <=? 0 then mret (false, 0, ctx)
  else if 80 <? ctx_length ctx then ub
  else if inlen <? ctx_length ctx - num ctx then
    memcpy (padd (enc_data ctx) (num ctx)) inp inlen;;
    mret (true, 0, set_num (num ctx + inlen) ctx)
  else
    '(ctx, out, inp, inlen, total) ←
      (if negb (num ctx =? 0) then
         let i := ctx_length ctx - num ctx in
         memcpy (padd (enc_data ctx) (num ctx)) inp i;;
         j ← evp_encodeblock_int (Some ctx) out (enc_data ctx) (ctx_length ctx);
         '(out, total) ← end_line ctx (padd out j) (to_size j);
         mret (set_num 0 ctx, out, padd inp i, inlen - i, total)
       else mret (ctx, out, inp, inlen, 0));
    '(inp, inlen, total) ← encode_lines (S (Z.to_nat inlen)) ctx out inp inlen total;
    if INT_MAX <? total then mret (false, 0, ctx)
    else
      (if negb (inlen =? 0) then memcpy (enc_data ctx) inp inlen else mret tt);;
      mret (true, to_int total, set_num inlen ctx).

(** [*outl] and the context. *)
Definition EVP_EncodeFinal (ctx : EVP_ENCODE_CTX) (out : ptr) : M mem (Z * EVP_ENCODE_CTX) :=
  if negb (num ctx =? 0) then
    ret ← evp_encodeblock_int (Some ctx) out (enc_data ctx) (num ctx);
    ret ← (if no_newlines ctx then mret ret else store (padd out ret) 10;; mret (ret + 1));
    store (padd out ret) 0;;
    mret (ret, set_num 0 ctx)
  else mret (0, ctx).

Definition EVP_DecodeInit (ctx : EVP_ENCODE_CTX) : EVP_ENCODE_CTX := mkCtx 0 0 (enc_data ctx) 0 0.

(** White space at the start of a line. *)
Fixpoint trim_start (table : list Z) (n : nat) (f : ptr) : M mem (ptr * nat) :=
  match n with
  | O => mret (f, O)
  | S n' =>
      c ← load f;
      v ← conv_ascii2bin c table;
      if v =? B64_WS then trim_start table n' (padd f 1) else mret (f, n)
  end.

(** What is stripped off at its end. *)
Fixpoint strip_end (table : list Z) (f : ptr) (n : nat) : M mem nat :=
  match n with
  | S n' =>
      if (3 <? Z.of_nat n) then
        c ← load (padd f (Z.of_nat n - 1));
        v ← conv_ascii2bin c table;
        if B64_NOT_BASE64 v then strip_end table f n' else mret n
      else mret n
  | O => mret O
  end.

(** The loop over the groups, [k] of them left; -1 for an error. *)
Fixpoint decodeblock_loop (k : nat) (table : list Z) (t f : ptr) (ret : Z) : M mem Z :=
  match k with
  | O => mret ret
  | S k =>
      a ← load f; a ← conv_ascii2bin a table;
      b ← load (padd f 1); b ← conv_ascii2bin b table;
      c ← load (padd f 2); c ← conv_ascii2bin c table;
      d ← load (padd f 3); d ← conv_ascii2bin d table;
      if truthy (Z.land a 128) || truthy (Z.land b 128) || truthy (Z.land c 128) || truthy (Z.land d 128)
      then mret (-1)
      else
        let l := Z.lor (Z.lor (Z.lor (Z.shiftl a 18) (Z.shiftl b 12)) (Z.shiftl c 6)) d in
        store t (Z.land (to_uchar (Z.shiftr l 16)) 255);;
        store (padd t 1) (Z.land (to_uchar (Z.shiftr l 8)) 255);;
        store (padd t 2) (Z.land (to_uchar l) 255);;
        decodeblock_loop k table (padd t 3) (padd f 4) (ret + 3)
  end.

(** A negative [n] passes all three loops. *)
Definition evp_decodeblock_int (ctx : option EVP_ENCODE_CTX) (t f : ptr) (n : Z) : M mem Z :=
  let table := ascii2bin ctx in
  if n <? 0 then mret (if negb (Z.rem n 4 =? 0) then -1 else 0)
  else
    '(f, n) ← trim_start table (Z.to_nat n) f;
    n ← strip_end table f n;
    if negb (Z.of_nat n mod 4 =? 0) then mret (-1)
    else decodeblock_loop (n / 4) table t f 0.

Definition EVP_DecodeBlock (t f : ptr) (n : Z) : M mem Z := evp_decodeblock_int None t f n.

(** How the loop of EVP_DecodeUpdate ends: [goto end] with -1, [goto tail] at the
    end of the text, or behind the last character. *)
Inductive decode_exit : Type := ToEnd | ToTail | ToRest.

Record decode_state : Type := mkDecode {
  d_n : Z;
  d_eof : Z;
  d_ret : Z;
  d_out : ptr
}.

(** A full buffer is decoded: the state, or [None] with [n = 0] for an error. *)
Definition flush (ctx : EVP_ENCODE_CTX) (s : decode_state) : M mem (option decode_state) :=
  decoded_len ← evp_decodeblock_int (Some ctx) (d_out s) (enc_data ctx) (d_n s);
  mret (if (decoded_len <? 0) || (decoded_len <? d_eof s) then None
        else Some (mkDecode 0 (d_eof s) (d_ret s + (decoded_len - d_eof s)) (padd (d_out s) (decoded_len - d_eof s)))).

Definition set_n (n : Z) (s : decode_state) : decode_state := mkDecode n (d_eof s) (d_ret s) (d_out s).
Definition set_eof (n : Z) (s : decode_state) : decode_state := mkDecode (d_n s) n (d_ret s) (d_out s).

Fixpoint decode_loop (k : nat) (ctx : EVP_ENCODE_CTX) (inp : ptr) (s : decode_state) :
    M mem (decode_exit * decode_state) :=
  match k with
  | O => mret (ToRest, s)
  | S k =>
      tmp ← load inp;
      v ← conv_ascii2bin tmp (ascii2bin (Some ctx));
      if v =? B64_ERROR then mret (ToEnd, s)
      else if negb (tmp =? 61) && ((0 <? d_eof s) && B64_BASE64 v) then mret (ToEnd, s)
      else
        let s := if tmp =? 61 then set_eof (d_eof s + 1) s else s in
        if 2 <? d_eof s then mret (ToEnd, s)
        else if v =? B64_EOF then mret (ToTail, s)
        else if B64_BASE64 v && (64 <=? d_n s) then mret (ToEnd, s)
        else
          s ← (if B64_BASE64 v
               then store (padd (enc_data ctx) (d_n s)) tmp;; mret (set_n (d_n s + 1) s)
               else mret s);
          if d_n s =? 64 then
            r ← flush ctx s;
            match r with
            | Some s => decode_loop k ctx (padd inp 1) s
            | None => mret (ToEnd, set_n 0 s)
            end
          else decode_loop k ctx (padd inp 1) s
  end.

(** The padding that is in the buffer from the calls before. *)
Definition pending_eof (ctx : EVP_ENCODE_CTX) : M mem Z :=
  if 0 <? num ctx then
    c ← load (padd (enc_data ctx) (num ctx - 1));
    if c =? 61 then
      if 1 <? num ctx then
        c ← load (padd (enc_data ctx) (num ctx - 2));
        mret (if c =? 61 then 2 else 1)
      else mret 1
    else mret 0
  else mret 0.

(** The result, [*outl] and the context. *)
Definition EVP_DecodeUpdate (ctx : EVP_ENCODE_CTX) (out inp : ptr) (inlen : Z) : M mem (Z * Z * EVP_ENCODE_CTX) :=
  eof ← pending_eof ctx;
  if inlen =? 0 then mret (0, 0, ctx)
  else
    '(exit, s) ← decode_loop (Z.to_nat inlen) ctx inp (mkDecode (num ctx) eof 0 out);
    match exit with
    | ToEnd => mret (-1, d_ret s, set_num (d_n s) ctx)
    | _ =>
        let seof := match exit with ToTail => true | _ => false end in
        r ← (if 0 <? d_n s then
               if Z.land (d_n s) 3 =? 0 then flush ctx s
               else if seof then mret None
               else mret (Some s)
             else mret (Some s));
        match r with
        | None => mret (-1, d_ret s, set_num (if Z.land (d_n s) 3 =? 0 then 0 else d_n s) ctx)
        | Some s =>
            let rv := if seof || ((d_n s =? 0) && truthy (d_eof s)) then 0 else 1 in
            mret (rv, d_ret s, set_num (d_n s) ctx)
        end
    end.

(** The result, [*outl] and the context. *)
Definition EVP_DecodeFinal (ctx : EVP_ENCODE_CTX) (out : ptr) : M mem (Z * Z * EVP_ENCODE_CTX) :=
  if negb (num ctx =? 0) then
    i ← evp_decodeblock_int (Some ctx) out (enc_data ctx) (num ctx);
    if i <? 0 then mret (-1, 0, ctx)
    else mret (1, i, set_num 0 ctx)
  else mret (1, 0, ctx).

(** ** Specification *)

Definition dig (tbl : list Z) (v : Z) : Z := nth (Z.to_nat v) tbl 0.

(** Three octets as a number, and the characters of its four digits. *)
Definition group (a b c : Z) : Z := a * 65536 + b * 256 + c.

Fixpoint b64 (tbl bs : list Z) : list Z :=
  match bs with
  | a :: b :: c :: r =>
      let l := group a b c in
      [dig tbl (l / 262144 mod 64); dig tbl (l / 4096 mod 64); dig tbl (l / 64 mod 64); dig tbl (l mod 64)] ++ b64 tbl r
  | [a; b] =>
      let l := group a b 0 in
      [dig tbl (l / 262144 mod 64); dig tbl (l / 4096 mod 64); dig tbl (l / 64 mod 64); 61]
  | [a] => let l := group a 0 0 in [dig tbl (l / 262144 mod 64); dig tbl (l / 4096 mod 64); 61; 61]
  | [] => []
  end.

(** An alphabet: characters that are read back as their values, none of them the
    padding. *)
Definition alphabet (enc dec : list Z) : Prop :=
  length enc = 64%nat /\ length dec = 128%nat /\
  forall v, 0 <= v < 64 -> 0 < dig enc v < 128 /\ dig enc v <> 61 /\ nth (Z.to_nat (dig enc v)) dec 0 = v.

(** The octets missing to a multiple of three. *)
Definition pad (n : nat) : nat := ((3 - n mod 3) mod 3)%nat.

(** ** Lemmas *)

Lemma alphabet_of ctx : alphabet (bin2ascii ctx) (ascii2bin ctx).
Proof.
  unfold bin2ascii, ascii2bin. destruct (srp ctx); (split; [done|split; [done|]]); intros v Hv.
  all: assert (v ∈ map Z.of_nat (seq 0 64)) as Hin by
    (apply list_elem_of_fmap; exists (Z.to_nat v); split; [lia|]; apply elem_of_seq; lia).
  all: revert v Hv Hin.
  1: assert (forallb (fun v => (0 <? dig srpdata_bin2ascii v) && (dig srpdata_bin2ascii v <? 128) &&
      negb (dig srpdata_bin2ascii v =? 61) && (nth (Z.to_nat (dig srpdata_bin2ascii v)) srpdata_ascii2bin 0 =? v))
      (map Z.of_nat (seq 0 64)) = true) as H by by vm_compute.
  2: assert (forallb (fun v => (0 <? dig data_bin2ascii v) && (dig data_bin2ascii v <? 128) &&
      negb (dig data_bin2ascii v =? 61) && (nth (Z.to_nat (dig data_bin2ascii v)) data_ascii2bin 0 =? v))
      (map Z.of_nat (seq 0 64)) = true) as H by by vm_compute.
  all: rewrite forallb_forall in H; intros v Hv Hin; specialize (H v); rewrite <- list_elem_of_In in H; specialize (H Hin); lia.
Qed.

Lemma mod_64 l : 0 <= l mod 64 < 64.
Proof. apply Z.mod_pos_bound. lia. Qed.

Section alphabets.
Context (enc dec : list Z) (Halpha : alphabet enc dec).

Lemma conv_bin2ascii_run l : conv_bin2ascii l enc = mret (dig enc (l mod 64)).
Proof using Halpha.
  destruct Halpha as (Hl & _ & _). unfold conv_bin2ascii, array_get. change 63 with (Z.ones 6).
  rewrite Z.land_ones by lia. change (2 ^ 6) with 64. pose proof (mod_64 l).
  replace (_ && _) with true by lia. unfold dig.
  rewrite (list_lookup_alt enc) || idtac.
  destruct (enc !! Z.to_nat (l mod 64)) eqn:E; [by rewrite (nth_lookup_Some _ _ _ _ E)|].
  apply lookup_ge_None in E. lia.
Qed.

Lemma dig_byte l : is_byte (dig enc (l mod 64)).
Proof using Halpha. destruct Halpha as (_ & _ & H). unfold is_byte. destruct (H _ (mod_64 l)). lia. Qed.

(** Four stores in a row. *)
Lemma store_quad m b o acc c0 c1 c2 c3 :
  is_byte c0 -> is_byte c1 -> is_byte c2 -> is_byte c3 -> room m (Ptr b o) (Z.of_nat (length acc) + 4) ->
  let t := Ptr b (o + Z.of_nat (length acc)) in
  (store t c0;; store (padd t 1) c1;; store (padd t 2) c2;; store (padd t 3) c3) (mwrite m (Ptr b o) acc) =
    Ret (tt, mwrite m (Ptr b o) (acc ++ [c0; c1; c2; c3])).
Proof using.
  intros H0 H1 H2 H3 Hr t. unfold t. cbn [padd].
  erewrite bind_ret by (apply store_behind; eapply room_le; [exact Hr|lia]).
  replace (o + Z.of_nat (length acc) + 1) with (o + Z.of_nat (length (acc ++ [to_uchar c0]))) by (rewrite length_app; cbn; lia).
  erewrite bind_ret by (apply store_behind; eapply room_le; [exact Hr|rewrite length_app; cbn; lia]).
  replace (o + Z.of_nat (length acc) + 2) with (o + Z.of_nat (length ((acc ++ [to_uchar c0]) ++ [to_uchar c1])))
    by (rewrite !length_app; cbn; lia).
  erewrite bind_ret by (apply store_behind; eapply room_le; [exact Hr|rewrite !length_app; cbn; lia]).
  replace (o + Z.of_nat (length acc) + 3) with
    (o + Z.of_nat (length (((acc ++ [to_uchar c0]) ++ [to_uchar c1]) ++ [to_uchar c2]))) by (rewrite !length_app; cbn; lia).
  rewrite store_behind by (eapply room_le; [exact Hr|rewrite !length_app; cbn; lia]).
  rewrite !to_uchar_id by done. by rewrite <- !app_assoc.
Qed.
End alphabets.

Lemma group_bits a b c :
  is_byte a -> is_byte b -> is_byte c -> Z.lor (Z.lor (Z.shiftl a 16) (Z.shiftl b 8)) c = group a b c.
Proof.
  unfold is_byte, group. intros Ha Hb Hc. rewrite !Z.shiftl_mul_pow2 by lia.
  rewrite (lor_low a (b * 2 ^ 8) 16) by lia.
  replace (a * 2 ^ 16 + b * 2 ^ 8) with ((a * 256 + b) * 2 ^ 8) by lia. rewrite lor_low by lia. lia.
Qed.

Lemma group_bits_2 a b : is_byte a -> is_byte b -> Z.lor (Z.shiftl a 16) (Z.shiftl b 8) = group a b 0.
Proof. intros Ha Hb. rewrite <- group_bits by done. by rewrite Z.lor_0_r. Qed.

Lemma group_bits_1 a : Z.shiftl a 16 = group a 0 0.
Proof. unfold group. rewrite Z.shiftl_mul_pow2 by lia. lia. Qed.

Lemma load_octets m b o acc f bs i v :
  ~ in_block f b -> bytes_at m f bs -> bs !! i = Some v ->
  load (padd f (Z.of_nat i)) (mwrite m (Ptr b o) acc) = Ret (v, mwrite m (Ptr b o) acc).
Proof.
  intros Hnb Hb Hi. apply list_elem_of_split_length in Hi as (l1 & l2 & -> & ->).
  apply bytes_at_app in Hb as [_ Hb]. by eapply load_beside; [apply not_in_block_padd|].
Qed.

Lemma length_b64 tbl n : forall bs, (length bs <= n)%nat -> length (b64 tbl bs) = ((length bs + 2) / 3 * 4)%nat.
Proof.
  induction n as [|n IH]; intros [|a [|b [|c r]]] Hn; try done; [cbn in Hn; lia..|].
  cbn [b64]. rewrite length_app, IH by (cbn in Hn; lia). cbn [length].
  replace (S (S (S (length r))) + 2)%nat with (length r + 2 + 1 * 3)%nat by lia. rewrite Nat.div_add by lia. lia.
Qed.

Lemma encode_group_run enc dec m b o acc f x bs :
  alphabet enc dec -> ~ in_block f b -> bytes_at m f (x :: bs) -> Forall is_byte (x :: bs) ->
  room m (Ptr b o) (Z.of_nat (length acc) + 4) ->
  encode_group enc (Ptr b (o + Z.of_nat (length acc))) f (Z.of_nat (length (x :: bs))) (mwrite m (Ptr b o) acc) =
    Ret (tt, mwrite m (Ptr b o) (acc ++ take 4 (b64 enc (x :: bs)))).
Proof.
  intros Ha Hnb Hs Hby Hr. unfold encode_group.
  pose proof (load_octets m b o acc f _ 0 x Hnb Hs eq_refl) as L0. rewrite padd_0 in L0.
  pose proof (dig_byte enc dec Ha) as Hd. assert (is_byte 61) as H61 by done.
  destruct bs as [|y [|z r]].
  - change (Z.of_nat (length [x])) with 1. cbn [Z.leb Z.compare Z.eqb Pos.compare Pos.compare_cont Pos.eqb].
    rewrite (bind_ret _ _ _ _ _ L0). cbv zeta. rewrite !mbind_mret, !(conv_bin2ascii_run enc dec Ha), !mbind_mret, group_bits_1.
    rewrite !Z.shiftr_div_pow2 by lia. by apply store_quad.
  - pose proof (load_octets m b o acc f _ 1 y Hnb Hs eq_refl) as L1.
    apply Forall_cons in Hby as [Hx Hby]. apply Forall_cons in Hby as [Hy _].
    change (Z.of_nat (length [x; y])) with 2. cbn [Z.leb Z.compare Z.eqb Pos.compare Pos.compare_cont Pos.eqb].
    rewrite (bind_ret _ _ _ _ _ L0). change (Z.of_nat 1) with 1 in L1. cbv zeta.
    erewrite bind_ret; [|rewrite (bind_ret _ _ _ _ _ L1); reflexivity].
    rewrite !(conv_bin2ascii_run enc dec Ha), !mbind_mret, group_bits_2 by done.
    rewrite !Z.shiftr_div_pow2 by lia. by apply store_quad.
  - pose proof (load_octets m b o acc f _ 1 y Hnb Hs eq_refl) as L1.
    pose proof (load_octets m b o acc f _ 2 z Hnb Hs eq_refl) as L2.
    apply Forall_cons in Hby as [Hx Hby]. apply Forall_cons in Hby as [Hy Hby]. apply Forall_cons in Hby as [Hz _].
    replace (3 <=? _) with true by (cbn [length]; lia).
    change (Z.of_nat 1) with 1 in L1. change (Z.of_nat 2) with 2 in L2.
    rewrite (bind_ret _ _ _ _ _ L0), (bind_ret _ _ _ _ _ L1), (bind_ret _ _ _ _ _ L2). cbv zeta.
    rewrite !(conv_bin2ascii_run enc dec Ha), !mbind_mret, group_bits by done.
    rewrite !Z.shiftr_div_pow2 by lia. by apply store_quad.
Qed.

Lemma b64_group enc x bs : b64 enc (x :: bs) = take 4 (b64 enc (x :: bs)) ++ b64 enc (drop 3 (x :: bs)) /\
  length (take 4 (b64 enc (x :: bs))) = 4%nat.
Proof. by destruct bs as [|y [|z r]]. Qed.

Lemma encodeblock_loop_run enc dec fuel : forall m b o acc f bs i ret,
  alphabet enc dec -> ~ in_block f b -> source_at m f bs -> Forall is_byte bs -> (length bs < fuel)%nat ->
  Z.max 0 i = Z.of_nat (length bs) ->
  room m (Ptr b o) (Z.of_nat (length (acc ++ b64 enc bs))) -> 0 <= ret -> ret + Z.of_nat (length (b64 enc bs)) <= INT_MAX ->
  encodeblock_loop fuel enc (Ptr b (o + Z.of_nat (length acc))) f i ret (mwrite m (Ptr b o) acc) =
    Ret ((Ptr b (o + Z.of_nat (length (acc ++ b64 enc bs))), ret + Z.of_nat (length (b64 enc bs))),
         mwrite m (Ptr b o) (acc ++ b64 enc bs)).
Proof.
  induction fuel as [|fuel IH]; intros m b o acc f bs i ret Ha Hnb Hs Hby Hf Hi Hr Hret Hmax; [lia|].
  cbn [encodeblock_loop]. destruct bs as [|x bs].
  { replace (0 <? i) with false by (cbn [length] in Hi; lia). cbn [negb b64 length]. by rewrite app_nil_r, Z.add_0_r. }
  destruct Hs as [|Hs]; [done|]. assert (i = Z.of_nat (length (x :: bs))) as -> by (cbn [length] in *; lia).
  replace (0 <? _) with true by (cbn [length]; lia). cbn [negb].
  destruct (b64_group enc x bs) as [Eb Hl4]. set (q := take 4 (b64 enc (x :: bs))) in *.
  set (rest := drop 3 (x :: bs)) in *. rewrite Eb in Hr, Hmax. rewrite !length_app in Hr. rewrite length_app in Hmax.
  rewrite Hl4 in Hr, Hmax. unfold INT_MAX in *.
  rewrite (bind_ret _ _ _ _ _ (encode_group_run enc dec m b o acc f x bs Ha Hnb Hs Hby ltac:(eapply room_le; [exact Hr|lia]))).
  fold q. erewrite bind_ret by (apply int_result_ok; unfold INT_MIN, INT_MAX; lia). cbn [padd].
  replace (o + Z.of_nat (length acc) + 4) with (o + Z.of_nat (length (acc ++ q))) by (rewrite length_app; lia).
  assert (length rest = length (x :: bs) - 3)%nat as Hrest by (unfold rest; by rewrite length_drop).
  assert (source_at m (padd f 3) rest) as Hs'.
  { unfold rest. destruct bs as [|y [|z r]]; [by left|by left|]. right.
    by apply (bytes_at_app m f [x; y; z]) in Hs as [_ Hs]. }
  rewrite (IH m b o (acc ++ q) (padd f 3) rest);
    [|done|by apply not_in_block_padd|done|by apply Forall_drop|cbn [length] in *; lia|cbn [length] in *; lia
     |eapply room_le; [done|rewrite !length_app; lia]|lia|lia].
  rewrite Eb, <- !app_assoc.
  by replace (ret + 4 + Z.of_nat (length (b64 enc rest))) with (ret + Z.of_nat (length (q ++ b64 enc rest)))
    by (rewrite length_app; lia).
Qed.

(** A block with its terminator. *)
Lemma evp_encodeblock_run ctx m b o acc f bs :
  let enc := bin2ascii ctx in
  ~ in_block f b -> source_at m f bs -> Forall is_byte bs ->
  room m (Ptr b o) (Z.of_nat (length (acc ++ b64 enc bs)) + 1) -> Z.of_nat (length (b64 enc bs)) <= INT_MAX ->
  evp_encodeblock_int ctx (Ptr b (o + Z.of_nat (length acc))) f (Z.of_nat (length bs)) (mwrite m (Ptr b o) acc) =
    Ret (Z.of_nat (length (b64 enc bs)), mwrite m (Ptr b o) (acc ++ b64 enc bs ++ [0])).
Proof.
  intros enc Hnb Hs Hby Hr Hmax. unfold evp_encodeblock_int. fold enc. rewrite Nat2Z.id.
  erewrite bind_ret by (eapply encodeblock_loop_run;
    [apply alphabet_of|done|done|done|lia|lia|eapply room_le; [done|unfold enc; lia]|lia|unfold enc in *; lia]).
  fold enc. cbv beta iota. erewrite bind_ret by (apply store_behind; eapply room_le; [done|lia]).
  change (to_uchar 0) with 0. rewrite mret_run, <- app_assoc. do 2 f_equal.
Qed.

(** *** Decoding a block *)

Section decoding.
Context (enc dec : list Z) (Halpha : alphabet enc dec) (Hpad : nth 61 dec 0 = 0).

(** The value of a character of a text. *)
Definition value (c : Z) : Z := if c =? 61 then 0 else nth (Z.to_nat c) dec 0.

Definition text_char (c : Z) : Prop := c = 61 \/ exists v, 0 <= v < 64 /\ c = dig enc v.

Lemma conv_ascii2bin_run c :
  text_char c -> conv_ascii2bin c dec = mret (value c) /\ 0 <= value c < 64.
Proof using Halpha Hpad.
  intros Hc. destruct Halpha as (_ & Hl & Hv). unfold value.
  assert (0 < c < 128 /\ nth (Z.to_nat c) dec 0 = (if c =? 61 then 0 else nth (Z.to_nat c) dec 0) /\
    0 <= nth (Z.to_nat c) dec 0 < 64) as (Hr & E & Hb).
  { destruct Hc as [->|(v & H64 & ->)]; [rewrite Z.eqb_refl; change (Z.to_nat 61) with 61%nat; rewrite Hpad; lia|].
    destruct (Hv v H64) as (Hr & Hne & ->). replace (dig enc v =? 61) with false by lia. lia. }
  rewrite <- E. split; [|done]. unfold conv_ascii2bin, truthy.
  replace (Z.land c 128) with 0.
  2:{ symmetry. change 128 with (1 * 2 ^ 7). rewrite <- (Z.mod_small c (2 ^ 7)) by lia.
      rewrite <- Z.land_ones, <- Z.land_assoc, (Z.land_comm (Z.ones 7)), Z.land_ones, Z.mod_mul by lia. apply Z.land_0_r. }
  cbn [Z.eqb negb]. unfold array_get. replace (_ && _) with true by lia.
  destruct (dec !! Z.to_nat c) eqn:El; [by rewrite (nth_lookup_Some _ _ _ _ El)|].
  apply lookup_ge_None in El. lia.
Qed.

Lemma value_dig v : 0 <= v < 64 -> value (dig enc v) = v /\ text_char (dig enc v).
Proof using Halpha.
  intros Hv. destruct Halpha as (_ & _ & H). destruct (H v Hv) as (Hr & Hne & E). unfold value.
  replace (dig enc v =? 61) with false by lia. split; [done|]. right. by exists v.
Qed.

Fixpoint octets_of (t : list Z) : list Z :=
  match t with
  | a :: b :: c :: d :: r =>
      let l := value a * 262144 + value b * 4096 + value c * 64 + value d in
      [l / 65536 mod 256; l / 256 mod 256; l mod 256] ++ octets_of r
  | _ => []
  end.

Lemma quad_bits a b c d :
  0 <= a < 64 -> 0 <= b < 64 -> 0 <= c < 64 -> 0 <= d < 64 ->
  Z.lor (Z.lor (Z.lor (Z.shiftl a 18) (Z.shiftl b 12)) (Z.shiftl c 6)) d = a * 262144 + b * 4096 + c * 64 + d.
Proof using.
  intros Ha Hb Hc Hd. rewrite !Z.shiftl_mul_pow2 by lia. rewrite (lor_low a (b * 2 ^ 12) 18) by lia.
  replace (a * 2 ^ 18 + b * 2 ^ 12) with ((a * 64 + b) * 2 ^ 12) by lia. rewrite (lor_low _ (c * 2 ^ 6) 12) by lia.
  replace ((a * 64 + b) * 2 ^ 12 + c * 2 ^ 6) with ((a * 4096 + b * 64 + c) * 2 ^ 6) by lia. rewrite lor_low by lia. lia.
Qed.

Lemma octet_and z : Z.land (to_uchar z) 255 = z mod 256.
Proof using.
  change 255 with (Z.ones 8). rewrite Z.land_ones by lia. unfold to_uchar. change (2 ^ 8) with 256. by rewrite Z.mod_mod.
Qed.

Lemma sextet_high v : 0 <= v < 64 -> truthy (Z.land v 128) = false.
Proof using.
  intros Hv. unfold truthy. change 128 with (2 * 2 ^ 6). rewrite <- (Z.mod_small v (2 ^ 6)) by lia.
  rewrite <- Z.land_ones, <- Z.land_assoc, (Z.land_comm (Z.ones 6)), Z.land_ones, Z.mod_mul, Z.land_0_r by lia. done.
Qed.

Lemma is_byte_mod z : is_byte (z mod 256).
Proof using. apply Z.mod_pos_bound. lia. Qed.

Lemma store_triple m b o acc c0 c1 c2 :
  is_byte c0 -> is_byte c1 -> is_byte c2 -> room m (Ptr b o) (Z.of_nat (length acc) + 3) ->
  forall A (k : M mem A),
  let t := Ptr b (o + Z.of_nat (length acc)) in
  (store t c0;; store (padd t 1) c1;; store (padd t 2) c2;; k) (mwrite m (Ptr b o) acc) =
    k (mwrite m (Ptr b o) (acc ++ [c0; c1; c2])).
Proof using.
  intros H0 H1 H2 Hr A k t. unfold t. cbn [padd].
  erewrite bind_ret by (apply store_behind; eapply room_le; [exact Hr|lia]).
  replace (o + Z.of_nat (length acc) + 1) with (o + Z.of_nat (length (acc ++ [to_uchar c0]))) by (rewrite length_app; cbn; lia).
  erewrite bind_ret by (apply store_behind; eapply room_le; [exact Hr|rewrite length_app; cbn; lia]).
  replace (o + Z.of_nat (length acc) + 2) with (o + Z.of_nat (length ((acc ++ [to_uchar c0]) ++ [to_uchar c1])))
    by (rewrite !length_app; cbn; lia).
  erewrite bind_ret by (apply store_behind; eapply room_le; [exact Hr|rewrite !length_app; cbn; lia]).
  rewrite !to_uchar_id by done. by rewrite <- !app_assoc.
Qed.

Lemma decodeblock_loop_run k : forall m b o acc f t ret,
  ~ in_block f b -> source_at m f t -> Forall text_char t -> length t = (4 * k)%nat ->
  room m (Ptr b o) (Z.of_nat (length acc + 3 * k)) ->
  decodeblock_loop k dec (Ptr b (o + Z.of_nat (length acc))) f ret (mwrite m (Ptr b o) acc) =
    Ret (ret + 3 * Z.of_nat k, mwrite m (Ptr b o) (acc ++ octets_of t)).
Proof using Halpha Hpad.
  induction k as [|k IH]; intros m b o acc f t ret Hnb Hs Ht Hl Hr.
  { destruct t; [|done]. cbn [decodeblock_loop octets_of]. by rewrite app_nil_r, Z.add_0_r. }
  destruct t as [|x0 [|x1 [|x2 [|x3 t]]]]; cbn [length] in Hl; try lia. destruct Hs as [|Hs]; [done|].
  cbn [decodeblock_loop].
  pose proof (load_octets m b o acc f _ 0 x0 Hnb Hs eq_refl) as L0. rewrite padd_0 in L0.
  pose proof (load_octets m b o acc f _ 1 x1 Hnb Hs eq_refl) as L1.
  pose proof (load_octets m b o acc f _ 2 x2 Hnb Hs eq_refl) as L2.
  pose proof (load_octets m b o acc f _ 3 x3 Hnb Hs eq_refl) as L3.
  change (Z.of_nat 1) with 1 in L1. change (Z.of_nat 2) with 2 in L2. change (Z.of_nat 3) with 3 in L3.
  rewrite !Forall_cons in Ht. destruct Ht as (T0 & T1 & T2 & T3 & Ht).
  destruct (conv_ascii2bin_run _ T0) as [E0 V0]. destruct (conv_ascii2bin_run _ T1) as [E1 V1].
  destruct (conv_ascii2bin_run _ T2) as [E2 V2]. destruct (conv_ascii2bin_run _ T3) as [E3 V3].
  rewrite (bind_ret _ _ _ _ _ L0), E0, mbind_mret, (bind_ret _ _ _ _ _ L1), E1, mbind_mret.
  rewrite (bind_ret _ _ _ _ _ L2), E2, mbind_mret, (bind_ret _ _ _ _ _ L3), E3, mbind_mret.
  rewrite !sextet_high, quad_bits, !octet_and, !Z.shiftr_div_pow2 by lia. cbn [orb].
  rewrite store_triple by (apply is_byte_mod || (eapply room_le; [exact Hr|lia])). cbn [padd].
  replace (o + Z.of_nat (length acc) + 3) with
    (o + Z.of_nat (length (acc ++ octets_of [x0; x1; x2; x3]))) by (rewrite length_app; cbn [length octets_of app]; lia).
  apply (bytes_at_app m f [x0; x1; x2; x3]) in Hs as [_ Hs].
  rewrite (IH m b o _ (padd f 4) t); [|by apply not_in_block_padd|by right|done|lia|].
  - cbn [octets_of app]. rewrite <- app_assoc. do 2 f_equal. lia.
  - eapply room_le; [done|]. rewrite length_app. cbn [length octets_of app]. lia.
Qed.

Lemma sextet_base64 v : 0 <= v < 64 -> B64_NOT_BASE64 v = false /\ (v =? B64_WS) = false.
Proof using.
  intros Hv. assert (forallb (fun n => negb (B64_NOT_BASE64 (Z.of_nat n)) && negb (Z.of_nat n =? B64_WS)) (seq 0 64) = true)
    as H by by vm_compute.
  rewrite forallb_forall in H. specialize (H (Z.to_nat v)). rewrite Z2Nat.id in H by lia.
  specialize (H ltac:(apply in_seq; lia)). destruct (B64_NOT_BASE64 v), (v =? B64_WS); done.
Qed.

Lemma trim_start_run m f t : source_at m f t -> Forall text_char t -> trim_start dec (length t) f m = Ret ((f, length t), m).
Proof using Halpha Hpad.
  intros Hs Ht. destruct t as [|c t]; [done|]. destruct Hs as [|Hs]; [done|]. cbn [length trim_start].
  apply Forall_cons in Ht as [Hc _]. destruct (conv_ascii2bin_run c Hc) as [E V].
  rewrite (bind_ret _ _ _ _ _ (load_at _ _ _ _ Hs)), E, mbind_mret. by destruct (sextet_base64 _ V) as [_ ->].
Qed.

Lemma strip_end_run m f t : source_at m f t -> Forall text_char t -> strip_end dec f (length t) m = Ret (length t, m).
Proof using Halpha Hpad.
  intros Hs Ht. destruct t as [|c t _] using rev_ind; [done|]. destruct Hs as [Hs|Hs]; [by destruct t|].
  rewrite length_app, Nat.add_1_r. cbn [strip_end]. destruct (3 <? _); [|done].
  apply Forall_app in Ht as [_ Ht]. apply Forall_cons in Ht as [Hc _]. destruct (conv_ascii2bin_run c Hc) as [E V].
  apply bytes_at_app in Hs as [_ Hs]. replace (Z.of_nat (S (length t)) - 1) with (Z.of_nat (length t)) by lia.
  rewrite (bind_ret _ _ _ _ _ (load_at _ _ _ _ Hs)), E, mbind_mret. by destruct (sextet_base64 _ V) as [-> _].
Qed.

Lemma text_of_b64 n : forall bs, (length bs <= n)%nat -> Forall text_char (b64 enc bs).
Proof using Halpha.
  assert (forall l, text_char (dig enc (l mod 64))) as Hd by (intros l; apply value_dig, mod_64).
  assert (text_char 61) as H61 by by left.
  induction n as [|n IH]; intros [|x [|y [|z r]]] Hn; cbn [b64 length app] in *; try lia;
    repeat (apply Forall_cons; split; [done|]); try done; try by apply Forall_nil. apply IH. lia.
Qed.

Lemma replicate_pad_3 n : pad (S (S (S n))) = pad n.
Proof using. unfold pad. replace (S (S (S n))) with (n + 1 * 3)%nat by lia. by rewrite Nat.Div0.mod_add. Qed.

Lemma value_mod l : value (dig enc (l mod 64)) = l mod 64.
Proof using Halpha. apply value_dig, mod_64. Qed.

Lemma group_octets a b c :
  is_byte a -> is_byte b -> is_byte c ->
  let l := group a b c in
  l / 262144 mod 64 * 262144 + l / 4096 mod 64 * 4096 + l / 64 mod 64 * 64 + l mod 64 = l /\
  l / 65536 mod 256 = a /\ l / 256 mod 256 = b /\ l mod 256 = c.
Proof using. unfold is_byte, group. intros. Z.div_mod_to_equations. lia. Qed.

Lemma group_low x y : is_byte x -> is_byte y ->
  group x 0 0 / 64 mod 64 = 0 /\ group x 0 0 mod 64 = 0 /\ group x y 0 mod 64 = 0.
Proof using. unfold is_byte, group. intros. Z.div_mod_to_equations. lia. Qed.

(** The octets of a text are those it was made of, and zeros for the padding. *)
Lemma octets_of_b64 n : forall bs, (length bs <= n)%nat -> Forall is_byte bs ->
  octets_of (b64 enc bs) = bs ++ replicate (pad (length bs)) 0.
Proof using Halpha.
  assert (is_byte 0) as H0 by done.
  induction n as [|n IH]; intros [|x [|y [|z r]]] Hn Hb; cbn [length] in *; try lia; try done;
    rewrite !Forall_cons in Hb; cbn [b64 octets_of app]; rewrite !value_mod; change (value 61) with 0.
  - destruct Hb as (Hx & _). destruct (group_octets x 0 0 Hx H0 H0) as (E & E0 & E1 & E2).
    destruct (group_low x 0 Hx H0) as (G1 & G2 & _). rewrite G1, G2 in E. rewrite E, E0, E1, E2. done.
  - destruct Hb as (Hx & Hy & _). destruct (group_octets x y 0 Hx Hy H0) as (E & E0 & E1 & E2).
    destruct (group_low x y Hx Hy) as (_ & _ & G). rewrite G in E. rewrite E, E0, E1, E2. done.
  - destruct Hb as (Hx & Hy & Hz & Hb). destruct (group_octets x y z Hx Hy Hz) as (E & E0 & E1 & E2).
    rewrite E, E0, E1, E2, replicate_pad_3, IH by (done || lia). done.
Qed.
End decoding.

Lemma pad_char ctx : nth 61 (ascii2bin ctx) 0 = 0.
Proof. unfold ascii2bin. by destruct (srp ctx). Qed.

Lemma length_b64_pad tbl bs : (length bs + pad (length bs) = 3 * (length (b64 tbl bs) / 4))%nat /\ (length (b64 tbl bs) mod 4 = 0)%nat.
Proof.
  rewrite (length_b64 tbl (length bs)) by done. set (q := ((length bs + 2) / 3)%nat).
  rewrite Nat.div_mul, Nat.Div0.mod_mul by lia. split; [|done].
  unfold pad, q. pose proof (Nat.div_mod_eq (length bs) 3) as E. pose proof (Nat.mod_upper_bound (length bs) 3).
  pose proof (Nat.div_mod_eq (length bs + 2) 3) as E2. pose proof (Nat.mod_upper_bound (length bs + 2) 3).
  destruct (length bs mod 3)%nat as [|[|[|k]]] eqn:Em; try lia; cbn [Nat.sub]; rewrite ?Nat.mod_small by lia; try lia.
Qed.

(** A block of text gives its octets and the zeros of the padding. *)
Lemma evp_decodeblock_run ctx m b o acc f bs :
  let t := b64 (bin2ascii ctx) bs in
  ~ in_block f b -> source_at m f t -> Forall is_byte bs ->
  room m (Ptr b o) (Z.of_nat (length acc + length bs + pad (length bs))) ->
  evp_decodeblock_int ctx (Ptr b (o + Z.of_nat (length acc))) f (Z.of_nat (length t)) (mwrite m (Ptr b o) acc) =
    Ret (Z.of_nat (length bs + pad (length bs)), mwrite m (Ptr b o) (acc ++ bs ++ replicate (pad (length bs)) 0)).
Proof.
  intros t Hnb Hs Hby Hr. pose proof (alphabet_of ctx) as Ha. pose proof (pad_char ctx) as Hp.
  assert (Forall (text_char (bin2ascii ctx)) t) as Ht by (eapply text_of_b64; [done|reflexivity]).
  destruct (length_b64_pad (bin2ascii ctx) bs) as [Hl Hm]. fold t in Hl, Hm.
  assert (source_at (mwrite m (Ptr b o) acc) f t) as Hs' by (by eapply source_at_mwrite_ne).
  unfold evp_decodeblock_int. replace (_ <? 0) with false by lia. rewrite Nat2Z.id.
  rewrite (bind_ret _ _ _ _ _ (trim_start_run _ _ Ha Hp _ _ _ Hs' Ht)). cbv beta iota.
  rewrite (bind_ret _ _ _ _ _ (strip_end_run _ _ Ha Hp _ _ _ Hs' Ht)).
  replace (Z.of_nat (length t) mod 4) with 0 by (change 4 with (Z.of_nat 4); rewrite <- Nat2Z.inj_mod, Hm; done).
  cbn [Z.eqb negb].
  rewrite (decodeblock_loop_run _ _ Ha Hp (length t / 4) m b o acc f t 0); [|done|done|done| |].
  - unfold t in *. rewrite (octets_of_b64 _ _ Ha (length bs)) by done. do 2 f_equal. lia.
  - pose proof (Nat.div_mod_eq (length t) 4). lia.
  - eapply room_le; [done|]. lia.
Qed.

(** *** Encoding a stream *)

Definition eol (ctx : EVP_ENCODE_CTX) : list Z := if no_newlines ctx then [] else [10].

(** The text of a line, and of the first [n] whole lines of some octets. *)
Definition text_line (ctx : EVP_ENCODE_CTX) (bs : list Z) : list Z := b64 (bin2ascii (Some ctx)) bs ++ eol ctx.

Fixpoint b64_lines (ctx : EVP_ENCODE_CTX) (n : nat) (bs : list Z) : list Z :=
  match n with
  | O => []
  | S n => text_line ctx (take 48 bs) ++ b64_lines ctx n (drop 48 bs)
  end.

(** With a terminator behind it if it is not empty. *)
Definition terminated (t : list Z) : list Z := match t with [] => [] | _ => t ++ [0] end.

Lemma end_line_run ctx m b o t total :
  room m (Ptr b o) (Z.of_nat (length (t ++ eol ctx)) + 1) -> 0 <= total -> total + 1 < 2 ^ 64 ->
  end_line ctx (Ptr b (o + Z.of_nat (length t))) total (mwrite m (Ptr b o) (t ++ [0])) =
    Ret ((Ptr b (o + Z.of_nat (length (t ++ eol ctx))), total + Z.of_nat (length (eol ctx))),
         mwrite m (Ptr b o) ((t ++ eol ctx) ++ [0])).
Proof.
  intros Hr Ht Hmax. unfold end_line, eol in *. rewrite length_app in Hr.
  assert (room (mwrite m (Ptr b o) (t ++ [0])) (Ptr b (o + Z.of_nat (length t))) 1) as Hr1.
  { rewrite room_mwrite; [|eapply room_le; [exact Hr|rewrite length_app; cbn; lia]|lia].
    apply (room_padd _ _ _ (Z.of_nat (length t))) in Hr; [|lia]. eapply room_le; [exact Hr|lia]. }
  destruct (no_newlines ctx); cbn [length] in *.
  - rewrite mbind_mret. cbv beta iota. erewrite bind_ret by by apply store_room. change (to_uchar 0) with 0.
    rewrite mwrite_last by (eapply room_le; [exact Hr|lia]). by rewrite app_nil_r, Z.add_0_r.
  - erewrite bind_ret.
    2:{ erewrite bind_ret by by apply store_room. reflexivity. }
    change (to_uchar 10) with 10. rewrite mwrite_last by (eapply room_le; [exact Hr|lia]). cbv beta iota. cbn [padd].
    replace (o + Z.of_nat (length t) + 1) with (o + Z.of_nat (length (t ++ [10]))) by (rewrite length_app; cbn; lia).
    erewrite bind_ret by (apply store_behind; eapply room_le; [exact Hr|rewrite length_app; cbn; lia]).
    change (to_uchar 0) with 0. rewrite to_size_id by (change (2 ^ 64) with 18446744073709551616 in *; lia). done.
Qed.

Lemma mwrite_terminated m b o x r :
  room m (Ptr b o) (Z.of_nat (length (x ++ r)) + 1) ->
  mwrite (mwrite m (Ptr b o) (x ++ [0])) (Ptr b (o + Z.of_nat (length x))) (terminated r) =
    mwrite m (Ptr b o) ((x ++ r) ++ [0]).
Proof.
  intros Hr. rewrite length_app in Hr. destruct r as [|y r]; cbn [terminated].
  - by rewrite mwrite_nil, app_nil_r.
  - rewrite mwrite_overlap by (done || (eapply room_le; [done|rewrite length_app; cbn; cbn in Hr; lia])). by rewrite app_assoc.
Qed.

Lemma terminated_length t : (length t <= length (terminated t) <= length t + 1)%nat.
Proof. destruct t; cbn [terminated]; [cbn; lia|]. rewrite length_app. cbn. lia. Qed.

Lemma text_line_nonempty ctx bs : bs <> [] -> text_line ctx bs <> [].
Proof. intros H. destruct bs as [|x [|y [|z r]]]; [done|by unfold text_line..]. Qed.

(** One line of the encoder. *)
Lemma line_run ctx m b o f bs {A} (k : ptr * Z -> M mem A) total :
  ~ in_block f b -> source_at m f bs -> Forall is_byte bs -> (length bs <= 48)%nat ->
  room m (Ptr b o) (Z.of_nat (length (text_line ctx bs)) + 1) -> 0 <= total <= INT_MAX ->
  (j ← evp_encodeblock_int (Some ctx) (Ptr b o) f (Z.of_nat (length bs));
   r ← end_line ctx (padd (Ptr b o) j) (to_size (total + j)); k r) m =
  k (Ptr b (o + Z.of_nat (length (text_line ctx bs))), total + Z.of_nat (length (text_line ctx bs)))
    (mwrite m (Ptr b o) (text_line ctx bs ++ [0])).
Proof.
  intros Hnb Hs Hby H48 Hr Ht. unfold text_line in *. set (t := b64 (bin2ascii (Some ctx)) bs) in *.
  assert (length t <= 64)%nat as Hl.
  { unfold t. rewrite (length_b64 _ (length bs)) by done. pose proof (Nat.Div0.div_le_mono (length bs + 2) 50 3). cbn in *. lia. }
  pose proof (evp_encodeblock_run (Some ctx) m b o [] f bs Hnb Hs Hby) as E. fold t in E. rewrite length_app in Hr.
  cbn [app length Z.of_nat] in E. rewrite mwrite_nil, Z.add_0_r in E. unfold INT_MAX in *.
  rewrite (bind_ret _ _ _ _ _ (E ltac:(eapply room_le; [exact Hr|lia]) ltac:(lia))). cbn [padd].
  rewrite to_size_id by lia.
  erewrite bind_ret by (apply end_line_run; [eapply room_le; [exact Hr|rewrite length_app; lia]|lia|lia]).
  rewrite length_app, Nat2Z.inj_add. by rewrite !Z.add_assoc.
Qed.

Lemma encode_lines_run ctx fuel : forall n m b o inp bs total,
  ctx_length ctx = 48 -> ~ in_block inp b -> source_at m inp bs -> Forall is_byte bs ->
  n = (length bs / 48)%nat -> (n < fuel)%nat ->
  room m (Ptr b o) (Z.of_nat (length (b64_lines ctx n bs)) + 1) ->
  0 <= total -> total + Z.of_nat (length (b64_lines ctx n bs)) <= INT_MAX ->
  encode_lines fuel ctx (Ptr b o) inp (Z.of_nat (length bs)) total m =
    Ret ((padd inp (48 * Z.of_nat n), Z.of_nat (length (drop (48 * n) bs)), total + Z.of_nat (length (b64_lines ctx n bs))),
         mwrite m (Ptr b o) (terminated (b64_lines ctx n bs))).
Proof.
  induction fuel as [|fuel IH]; intros n m b o inp bs total H48 Hnb Hs Hby Hn Hf Hr Ht Hmax; [lia|].
  cbn [encode_lines]. rewrite H48. pose proof (Nat.div_mod_eq (length bs) 48) as Hdm. pose proof (Nat.mod_upper_bound (length bs) 48).
  destruct n as [|n].
  { replace (48 <=? Z.of_nat (length bs)) with false by lia. cbn [andb b64_lines length terminated].
    by rewrite mwrite_nil, Z.mul_0_r, padd_0, Z.add_0_r, drop_0. }
  cbn [b64_lines] in *. rewrite length_app in Hr, Hmax. unfold INT_MAX in *.
  replace (48 <=? Z.of_nat (length bs)) with true by lia. replace (total <=? _) with true by lia. cbn [andb].
  assert (length (take 48 bs) = 48%nat) as Ht48 by (rewrite length_take; lia).
  assert (length (drop 48 bs) = length bs - 48)%nat as Hd48 by by rewrite length_drop.
  destruct Hs as [->|Hs]; [cbn in *; lia|]. rewrite <- (take_drop 48 bs) in Hs. apply bytes_at_app in Hs as [Hs1 Hs2].
  rewrite Ht48 in Hs2. pose proof (fun A => @line_run ctx m b o inp (take 48 bs) A) as E. rewrite Ht48 in E.
  set (t := text_line ctx (take 48 bs)) in *.
  change 48 with (Z.of_nat 48) at 1. rewrite E; [|done|by right|by apply Forall_take|lia|eapply room_le; [done|lia]|unfold INT_MAX; lia].
  cbv beta iota. replace (Z.of_nat (length bs) - 48) with (Z.of_nat (length (drop 48 bs))) by lia.
  assert ((length bs - 48) / 48 = n)%nat as Hn'.
  { replace (length bs) with (length bs - 48 + 1 * 48)%nat in Hn by lia. rewrite Nat.div_add in Hn by lia. lia. }
  rewrite (IH n); [|done|by apply not_in_block_padd|right; by eapply bytes_at_mwrite_ne; [|apply not_in_block_padd|]|by apply Forall_drop|by rewrite Hd48|lia| |lia|unfold INT_MAX; lia].
  - rewrite padd_padd, drop_drop, mwrite_terminated by (eapply room_le; [done|rewrite length_app; lia]).
    replace (Z.of_nat 48 + 48 * Z.of_nat n) with (48 * Z.of_nat (S n)) by lia. replace (48 + 48 * n)%nat with (48 * S n)%nat by lia.
    rewrite length_app, Nat2Z.inj_add, Z.add_assoc.
    replace (terminated (t ++ b64_lines ctx n (drop 48 bs))) with ((t ++ b64_lines ctx n (drop 48 bs)) ++ [0]); [done|].
    pose proof (text_line_nonempty ctx (take 48 bs)) as Hne. fold t in Hne. destruct t; [|done].
    exfalso. apply Hne; [|done]. intros E0. rewrite E0 in Ht48. done.
  - rewrite room_mwrite; [|eapply room_le; [exact Hr|rewrite length_app; cbn; lia]|lia].
    apply (room_padd _ _ _ (Z.of_nat (length t))) in Hr; [|lia]. eapply room_le; [exact Hr|lia].
Qed.

(** [d] is in the buffer of the context, which lies in object [e]. *)
Record buffering (m : mem) (ctx : EVP_ENCODE_CTX) (e : positive) (eo : Z) (d : list Z) : Prop := mkBuffering {
  bf_length : ctx_length ctx = 48;
  bf_data : enc_data ctx = Ptr e eo;
  bf_num : num ctx = Z.of_nat (length d);
  bf_short : (length d < 48)%nat;
  bf_octets : Forall is_byte d;
  bf_bytes : bytes_at m (Ptr e eo) d;
  bf_room : room m (Ptr e eo) 48
}.

(** Of the memory [m] the call changed what it wrote to object [b], as in [mb], and the buffer [e]. *)
Definition changed (m mb m' : mem) (b e : positive) : Prop :=
  m' !! b = mb !! b /\ elsewhere m m' b e.

(** A write of [x] to the buffer behind [d]. *)
Lemma buffering_write m ctx e eo d d' x inp n :
  buffering m ctx e eo d -> source_at m inp x -> ~ in_block inp e -> Forall is_byte x ->
  Z.of_nat (length d') = n -> (length d' + length x <= 48)%nat -> bytes_at m (Ptr e eo) d' -> Forall is_byte d' ->
  let m' := mwrite m (Ptr e (eo + n)) x in
  memcpy (padd (enc_data ctx) n) inp (Z.of_nat (length x)) m = Ret (tt, m') /\
  bytes_at m' (Ptr e eo) (d' ++ x) /\ room m' (Ptr e eo) 48.
Proof.
  intros [H1 H2 _ _ _ _ H7] Hs Hnb Hx <- Hl Hb Hd m'. rewrite H2. split; [|split].
  - apply (memcpy_at _ _ _ e); [done| |done|done|lia].
    apply (room_padd _ _ _ (Z.of_nat (length d'))) in H7; [|lia]. eapply room_le; [exact H7|lia].
  - apply (bytes_at_grow m (Ptr e eo)); [done|]. eapply room_le; [exact H7|lia].
  - unfold m'. rewrite room_mwrite; [done| |lia].
    apply (room_padd _ _ _ (Z.of_nat (length d'))) in H7; [|lia]. eapply room_le; [exact H7|lia].
Qed.

(** The whole lines of the input, and the rest of it to the buffer. *)
Lemma update_tail m ctx e eo d b o inp y total :
  buffering m ctx e eo d -> b <> e -> source_at m inp y -> ~ in_block inp b -> ~ in_block inp e -> Forall is_byte y ->
  let n := (length y / 48)%nat in
  room m (Ptr b o) (Z.of_nat (length (b64_lines ctx n y)) + 1) ->
  0 <= total -> total + Z.of_nat (length (b64_lines ctx n y)) <= INT_MAX ->
  exists m',
    ('(inp, inlen, total) ← encode_lines (S (Z.to_nat (Z.of_nat (length y)))) ctx (Ptr b o) inp (Z.of_nat (length y)) total;
     if INT_MAX <? total then mret (false, 0, ctx)
     else
       (if negb (inlen =? 0) then memcpy (enc_data ctx) inp inlen else mret tt);;
       mret (true, to_int total, set_num inlen ctx)) m =
    Ret ((true, total + Z.of_nat (length (b64_lines ctx n y)), set_num (Z.of_nat (length (drop (48 * n) y))) ctx), m') /\
    buffering m' (set_num (Z.of_nat (length (drop (48 * n) y))) ctx) e eo (drop (48 * n) y) /\
    changed m (mwrite m (Ptr b o) (terminated (b64_lines ctx n y))) m' b e.
Proof.
  intros H Hbe Hs Hnb Hne Hy n Hr Ht Hmax. pose proof (Nat.div_mod_eq (length y) 48) as Hdm.
  pose proof (Nat.mod_upper_bound (length y) 48). fold n in Hdm. unfold INT_MAX in *.
  assert (n <= length y)%nat by lia. rewrite Nat2Z.id.
  erewrite bind_ret by (eapply encode_lines_run; [apply H|done|done|done|reflexivity|fold n; lia|done|lia|unfold INT_MAX; fold n; lia]).
  fold n. cbv beta iota. set (T := b64_lines ctx n y) in *. set (r := drop (48 * n) y).
  assert (length r < 48)%nat as Hrl by (unfold r; rewrite length_drop; lia).
  replace (2147483647 <? _) with false by lia.
  replace (to_int (total + Z.of_nat (length T))) with (total + Z.of_nat (length T)) by (unfold to_int; Z.div_mod_to_equations; lia).
  set (m1 := mwrite m (Ptr b o) (terminated T)).
  assert (buffering m1 ctx e eo d) as Hbf.
  { destruct H as [G1 G2 G3 G4 G5 G6 G7]. split; try done; unfold m1.
    - apply (bytes_at_mwrite_ne _ _ _ _ _ b); [done|cbn; congruence|done].
    - rewrite room_mwrite; [done| |lia]. pose proof (terminated_length T). eapply room_le; [exact Hr|lia]. }
  assert (source_at m1 (padd inp (48 * Z.of_nat n)) r) as Hs1.
  { apply (source_at_mwrite_ne _ _ _ _ _ b); [done|by apply not_in_block_padd|].
    destruct (source_at_split m inp y (48 * n) Hs ltac:(lia)) as [_ Hs2]. by rewrite Nat2Z.inj_mul in Hs2. }
  destruct (buffering_write m1 ctx e eo d [] r (padd inp (48 * Z.of_nat n)) 0 Hbf Hs1) as (E & Hb & Hr1);
    [by apply not_in_block_padd|by apply Forall_drop|done|change (length [] + length r <= 48)%nat with (length r <= 48)%nat; lia|exists (default [] (tail_at m1 (Ptr e eo))); destruct (bf_bytes _ _ _ _ _ Hbf) as (t & ->); done|by apply Forall_nil|].
  rewrite padd_0 in E. cbn [app] in Hb. rewrite Z.add_0_r in *.
  exists (mwrite m1 (Ptr e eo) r). split; [|split].
  - destruct (Z.eqb_spec (Z.of_nat (length r)) 0) as [E0|E0]; cbn [negb].
    + destruct r; [|done]. by rewrite mwrite_nil.
    + by rewrite (bind_ret _ _ _ _ _ E).
  - destruct H as [G1 G2 G3 G4 G5 G6 G7]. split; try done. by apply Forall_drop.
  - split; [by rewrite lookup_mwrite_ne|]. intros b' Hb1 Hb2. unfold m1. by rewrite !lookup_mwrite_ne.
Qed.

Lemma b64_lines_num ctx k n : forall bs, b64_lines (set_num k ctx) n bs = b64_lines ctx n bs.
Proof. induction n as [|n IH]; intros bs; [done|]. cbn [b64_lines]. by rewrite IH. Qed.

Lemma lookup_mwrite (m m1 : mem) b o w : m1 !! b = m !! b -> mwrite m1 (Ptr b o) w !! b = mwrite m (Ptr b o) w !! b.
Proof. intros E. cbn [mwrite]. by rewrite !lookup_alter_eq, E. Qed.

Lemma div_48_lt k : (k < 48)%nat -> (k / 48 = 0)%nat.
Proof. apply Nat.div_small. Qed.

Lemma div_48_S k : (48 <= k)%nat -> (k / 48 = S ((k - 48) / 48))%nat.
Proof. intros H. replace k with (k - 48 + 1 * 48)%nat at 1 by lia. rewrite Nat.div_add by lia. lia. Qed.

(** The octets of the input go to the buffer when they do not fill a line. *)
Lemma update_short m ctx e eo d b o inp x :
  buffering m ctx e eo d -> b <> e -> source_at m inp x -> ~ in_block inp e -> Forall is_byte x ->
  (length d + length x < 48)%nat ->
  exists m',
    (memcpy (padd (enc_data ctx) (num ctx)) inp (Z.of_nat (length x));;
     mret (true, 0, set_num (num ctx + Z.of_nat (length x)) ctx)) m =
    Ret ((true, 0, set_num (Z.of_nat (length (d ++ x))) ctx), m') /\
    buffering m' (set_num (Z.of_nat (length (d ++ x))) ctx) e eo (d ++ x) /\
    changed m (mwrite m (Ptr b o) []) m' b e.
Proof.
  intros H Hbe Hs Hne Hx Hl. pose proof H as [G1 G2 G3 G4 G5 G6 G7].
  destruct (buffering_write m ctx e eo d d x inp (num ctx) H Hs) as (E & Hb & Hr); try done; [lia|].
  eexists. rewrite (bind_ret _ _ _ _ _ E), mret_run, G3, length_app, Nat2Z.inj_add. split; [reflexivity|].
  rewrite G3 in Hb, Hr. split; [split; try done|].
  - cbn. rewrite length_app. lia.
  - rewrite length_app. lia.
  - by apply Forall_app.
  - rewrite mwrite_nil. split; [by rewrite lookup_mwrite_ne|]. intros b' _ Hb'. by rewrite lookup_mwrite_ne.
Qed.

(** A line that begins in the buffer. *)
Lemma update_first m ctx e eo d b o inp x :
  buffering m ctx e eo d -> b <> e -> source_at m inp x -> ~ in_block inp b -> ~ in_block inp e -> Forall is_byte x ->
  (48 <= length d + length x)%nat ->
  let n := (length (d ++ x) / 48)%nat in
  let T := b64_lines ctx n (d ++ x) in
  room m (Ptr b o) (Z.of_nat (length T) + 1) -> Z.of_nat (length T) <= INT_MAX ->
  exists m',
    ('(ctx, out, inp, inlen, total) ←
       (let i := 48 - num ctx in
        memcpy (padd (enc_data ctx) (num ctx)) inp i;;
        j ← evp_encodeblock_int (Some ctx) (Ptr b o) (enc_data ctx) 48;
        '(out, total) ← end_line ctx (padd (Ptr b o) j) (to_size j);
        mret (set_num 0 ctx, out, padd inp i, Z.of_nat (length x) - i, total));
     '(inp, inlen, total) ← encode_lines (S (Z.to_nat inlen)) ctx out inp inlen total;
     if INT_MAX <? total then mret (false, 0, ctx)
     else
       (if negb (inlen =? 0) then memcpy (enc_data ctx) inp inlen else mret tt);;
       mret (true, to_int total, set_num inlen ctx)) m =
      Ret ((true, Z.of_nat (length T), set_num (Z.of_nat (length (drop (48 * n) (d ++ x)))) ctx), m') /\
    buffering m' (set_num (Z.of_nat (length (drop (48 * n) (d ++ x)))) ctx) e eo (drop (48 * n) (d ++ x)) /\
    changed m (mwrite m (Ptr b o) (terminated T)) m' b e.
Proof.
  intros H Hbe Hs Hnb Hne Hx Hlong n T Hr Hmax. pose proof H as [G1 G2 G3 G4 G5 G6 G7].
  assert (INT_MAX = 2147483647) as HI by done.
  set (k := (48 - length d)%nat). set (x1 := take k x). set (y := drop k x).
  assert (length x1 = k) as Hx1 by (unfold x1; rewrite length_take; lia).
  assert (take 48 (d ++ x) = d ++ x1 /\ drop 48 (d ++ x) = y) as [E48 D48].
  { unfold x1, y, k. rewrite take_app_ge, drop_app_ge by lia. done. }
  destruct (source_at_split m inp x k Hs ltac:(lia)) as [Hs1 Hs2]. fold x1 in Hs1. fold y in Hs2.
  assert (n = S (length y / 48)) as En.
  { unfold n. rewrite div_48_S by (rewrite length_app; lia). do 2 f_equal. unfold y. rewrite length_app, length_drop. lia. }
  unfold T in *. rewrite En in *. cbn [b64_lines] in *. rewrite E48, D48 in *. set (n' := (length y / 48)%nat) in *.
  set (t := text_line ctx (d ++ x1)) in *. rewrite length_app in Hr, Hmax.
  destruct (buffering_write m ctx e eo d d x1 inp (num ctx) H Hs1) as (E & Hb & Hr1); try done; [by apply Forall_take|lia|].
  set (m1 := mwrite m (Ptr e (eo + num ctx)) x1) in *. set (m2 := mwrite m1 (Ptr b o) (t ++ [0])).
  assert (length (d ++ x1) = 48%nat) as H48 by (rewrite length_app; lia).
  assert (room m1 (Ptr b o) (Z.of_nat (length (t ++ b64_lines ctx n' y)) + 1)) as Hrb.
  { unfold m1. rewrite room_mwrite; [eapply room_le; [exact Hr|rewrite length_app; lia]| |lia].
    apply (room_padd _ _ _ (num ctx)) in G7; [|lia]. eapply room_le; [exact G7|lia]. }
  rewrite length_app in Hrb.
  erewrite bind_ret.
  2:{ cbv zeta. replace (48 - num ctx) with (Z.of_nat (length x1)) by lia. rewrite (bind_ret _ _ _ _ _ E).
      rewrite G2. change 48 with (Z.of_nat 48). rewrite <- H48.
      etransitivity; [apply (line_run ctx m1 b o (Ptr e eo) (d ++ x1)) with (total := 0)|reflexivity].
      - cbn. congruence.
      - by right.
      - apply Forall_app. split; [done|by apply Forall_take].
      - lia.
      - eapply room_le; [exact Hrb|fold t; lia].
      - lia. }
  cbv beta iota. fold t m2. rewrite Z.add_0_l.
  replace (Z.of_nat (length x) - Z.of_nat (length x1)) with (Z.of_nat (length y)) by (unfold y; rewrite length_drop; lia).
  assert (buffering m2 (set_num 0 ctx) e eo []) as Hbf.
  { split; try done; [cbn; lia| |].
    - apply (bytes_at_mwrite_ne _ _ _ _ _ b); [done|cbn; congruence|]. destruct Hb as [r Hb]. by exists ((d ++ x1) ++ r).
    - unfold m2. rewrite room_mwrite; [done|eapply room_le; [exact Hrb|rewrite length_app; cbn; lia]|lia]. }
  assert (source_at m2 (padd inp (Z.of_nat (length x1))) y) as Hsy.
  { rewrite Hx1. apply (source_at_mwrite_ne _ _ _ _ _ b); [done|by apply not_in_block_padd|].
    apply (source_at_mwrite_ne _ _ _ _ _ e); [done|by apply not_in_block_padd|done]. }
  destruct (update_tail m2 (set_num 0 ctx) e eo [] b (o + Z.of_nat (length t)) (padd inp (Z.of_nat (length x1))) y (Z.of_nat (length t)))
    as (m' & E' & Hbf' & Hch); try done; try by apply not_in_block_padd.
  - by apply Forall_drop.
  - cbv zeta. fold n'. rewrite b64_lines_num. unfold m2. rewrite room_mwrite; [|eapply room_le; [exact Hrb|rewrite length_app; cbn; lia]|lia].
    apply (room_padd _ _ _ (Z.of_nat (length t))) in Hrb; [|lia]. eapply room_le; [exact Hrb|lia].
  - lia.
  - cbv zeta. fold n'. rewrite b64_lines_num. lia.
  - cbv zeta in E', Hbf', Hch. fold n' in E', Hbf', Hch. rewrite !b64_lines_num in E', Hch.
    assert (drop (48 * S n') (d ++ x) = drop (48 * n') y) as ->.
    { rewrite <- D48, drop_drop. f_equal. lia. }
    exists m'. rewrite length_app, Nat2Z.inj_add. split; [exact E'|]. split; [exact Hbf'|].
    unfold m2 in Hch. rewrite mwrite_terminated in Hch by (eapply room_le; [exact Hrb|rewrite length_app; lia]).
    assert (terminated (t ++ b64_lines ctx n' y) = (t ++ b64_lines ctx n' y) ++ [0]) as ->.
    { pose proof (text_line_nonempty ctx (d ++ x1)) as Ht. fold t in Ht. destruct t; [|done].
      exfalso. apply Ht; [|done]. intros E0. by rewrite E0 in H48. }
    destruct Hch as [Hc1 Hc2]. split.
    + rewrite Hc1. apply lookup_mwrite. unfold m1. by apply lookup_mwrite_ne.
    + intros b' H1 H2. rewrite Hc2 by done. unfold m1. by rewrite !lookup_mwrite_ne.
Qed.

Lemma EVP_EncodeUpdate_run m ctx e eo d b o inp x :
  buffering m ctx e eo d -> b <> e -> source_at m inp x -> ~ in_block inp b -> ~ in_block inp e -> Forall is_byte x ->
  x <> [] ->
  let n := (length (d ++ x) / 48)%nat in
  let T := b64_lines ctx n (d ++ x) in
  room m (Ptr b o) (Z.of_nat (length T) + 1) -> Z.of_nat (length T) <= INT_MAX ->
  exists m',
    EVP_EncodeUpdate ctx (Ptr b o) inp (Z.of_nat (length x)) m =
      Ret ((true, Z.of_nat (length T), set_num (Z.of_nat (length (drop (48 * n) (d ++ x)))) ctx), m') /\
    buffering m' (set_num (Z.of_nat (length (drop (48 * n) (d ++ x)))) ctx) e eo (drop (48 * n) (d ++ x)) /\
    changed m (mwrite m (Ptr b o) (terminated T)) m' b e.
Proof.
  intros H Hbe Hs Hnb Hne Hx Hx0 n T Hr Hmax. pose proof H as [G1 G2 G3 G4 G5 G6 G7].
  assert (0 < length x)%nat as Hpos by (destruct x; [done|cbn; lia]).
  unfold EVP_EncodeUpdate. rewrite G1. replace (Z.of_nat (length x) <=? 0) with false by lia.
  change (80 <? 48) with false. cbv iota.
  replace (Z.of_nat (length x) <? 48 - num ctx) with (Z.of_nat (length x) <? 48 - Z.of_nat (length d)) by (by rewrite G3).
  destruct (Z.ltb_spec (Z.of_nat (length x)) (48 - Z.of_nat (length d))) as [Hshort|Hlong].
  { assert (n = 0)%nat as En by (apply div_48_lt; rewrite length_app; lia). unfold T. rewrite En.
    rewrite Nat.mul_0_r, drop_0. cbn [b64_lines terminated length]. apply update_short; try done. lia. }
  destruct (Z.eqb_spec (num ctx) 0) as [E0|E0]; cbn [negb].
  - assert (d = []) as -> by (destruct d; [done|cbn in G3; lia]). rewrite mbind_mret. cbv beta iota.
    by apply (update_tail m ctx e eo []).
  - rewrite G3 in E0. apply (update_first m ctx e eo d b o inp x); try done; lia.
Qed.

Definition last_line (ctx : EVP_ENCODE_CTX) (d : list Z) : list Z :=
  match d with [] => [] | _ => text_line ctx d end.

(** The text of a stream. *)
Definition stream_text (ctx : EVP_ENCODE_CTX) (bs : list Z) : list Z :=
  let n := (length bs / 48)%nat in b64_lines ctx n bs ++ last_line ctx (drop (48 * n) bs).

Lemma EVP_EncodeFinal_run m ctx e eo d b o :
  buffering m ctx e eo d -> b <> e -> room m (Ptr b o) (Z.of_nat (length (last_line ctx d)) + 1) ->
  EVP_EncodeFinal ctx (Ptr b o) m =
    Ret ((Z.of_nat (length (last_line ctx d)), set_num 0 ctx), mwrite m (Ptr b o) (terminated (last_line ctx d))).
Proof.
  intros [G1 G2 G3 G4 G5 G6 G7] Hbe Hr. unfold EVP_EncodeFinal. destruct d as [|d0 d'].
  { replace (num ctx =? 0) with true by (rewrite G3; done). cbn [negb last_line terminated length].
    rewrite mwrite_nil, mret_run. do 3 f_equal. destruct ctx. cbn in *. by subst. }
  set (d := d0 :: d') in *. replace (num ctx =? 0) with false by (rewrite G3; cbn; lia). cbn [negb last_line].
  change (last_line ctx d) with (text_line ctx d) in *. unfold text_line in *. set (t := b64 (bin2ascii (Some ctx)) d) in *.
  assert (length t <= 64)%nat as Hl.
  { unfold t. rewrite (length_b64 _ (length d)) by done. pose proof (Nat.Div0.div_le_mono (length d + 2) 50 3). cbn in *. lia. }
  rewrite length_app in Hr. rewrite G2, G3.
  assert (evp_encodeblock_int (Some ctx) (Ptr b o) (Ptr e eo) (Z.of_nat (length d)) m =
    Ret (Z.of_nat (length t), mwrite m (Ptr b o) (t ++ [0]))) as E.
  { pose proof (evp_encodeblock_run (Some ctx) m b o [] (Ptr e eo) d) as E. cbv zeta in E. fold t in E.
    cbn [app length] in E. rewrite mwrite_nil, Z.add_0_r in E.
    apply E; [cbn; congruence|by right|done|eapply room_le; [exact Hr|lia]|unfold INT_MAX; lia]. }
  rewrite (bind_ret _ _ _ _ _ E).
  assert (terminated (t ++ eol ctx) = (t ++ eol ctx) ++ [0]) as ->.
  { pose proof (text_line_nonempty ctx d) as Hne. unfold text_line in Hne. fold t in Hne. destruct (t ++ eol ctx); [|done].
    exfalso. by apply Hne. }
  assert (room (mwrite m (Ptr b o) (t ++ [0])) (Ptr b (o + Z.of_nat (length t))) 1) as Hr1.
  { rewrite room_mwrite; [|eapply room_le; [exact Hr|rewrite length_app; cbn; lia]|lia].
    apply (room_padd _ _ _ (Z.of_nat (length t))) in Hr; [|lia]. eapply room_le; [exact Hr|lia]. }
  unfold eol in *. cbn [padd]. destruct (no_newlines ctx); cbn [length] in *.
  - rewrite mbind_mret, app_nil_r. erewrite bind_ret by by apply store_room. change (to_uchar 0) with 0.
    by rewrite mwrite_last by (eapply room_le; [exact Hr|lia]).
  - erewrite bind_ret.
    2:{ erewrite bind_ret by by apply store_room. reflexivity. }
    change (to_uchar 10) with 10. rewrite mwrite_last by (eapply room_le; [exact Hr|lia]).
    replace (o + (Z.of_nat (length t) + 1)) with (o + Z.of_nat (length (t ++ [10]))) by (rewrite length_app; cbn; lia).
    erewrite bind_ret by (apply store_behind; eapply room_le; [exact Hr|rewrite length_app; cbn; lia]).
    change (to_uchar 0) with 0. rewrite mret_run, length_app. do 3 f_equal. cbn. lia.
Qed.

(** A stream of pieces, each at its place: [EVP_EncodeInit], one
    [EVP_EncodeUpdate] per piece and [EVP_EncodeFinal], the output behind one
    another.  The total length, or [None] when an update returns 0. *)
Fixpoint encode_updates (ctx : EVP_ENCODE_CTX) (out : ptr) (pieces : list (ptr * Z)) (total : Z) : M mem (option Z) :=
  match pieces with
  | [] => '(outl, _) ← EVP_EncodeFinal ctx out; mret (Some (total + outl))
  | (inp, len) :: pieces =>
      '(ok, outl, ctx) ← EVP_EncodeUpdate ctx out inp len;
      if ok : bool then encode_updates ctx (padd out outl) pieces (total + outl) else mret None
  end.

Definition encode_stream (ctx : EVP_ENCODE_CTX) (out : ptr) (pieces : list (ptr * Z)) : M mem (option Z) :=
  encode_updates (EVP_EncodeInit ctx) out pieces 0.

(** A piece that lies outside of the objects [b] and [e]. *)
Definition piece_at (m : mem) (b e : positive) (p : ptr * Z) (x : list Z) : Prop :=
  p.2 = Z.of_nat (length x) /\ bytes_at m p.1 x /\ (~ in_block p.1 b) /\ (~ in_block p.1 e) /\ Forall is_byte x /\ x <> [].

Lemma stream_text_step ctx l : (48 <= length l)%nat ->
  stream_text ctx l = text_line ctx (take 48 l) ++ stream_text ctx (drop 48 l).
Proof.
  intros H. unfold stream_text. rewrite div_48_S, length_drop by done. cbn [b64_lines].
  rewrite <- app_assoc, drop_drop. by replace (48 + 48 * ((length l - 48) / 48))%nat with (48 * S ((length l - 48) / 48))%nat by lia.
Qed.

Lemma stream_text_lines ctx n : forall l z, (48 * n <= length l)%nat ->
  stream_text ctx (l ++ z) = b64_lines ctx n l ++ stream_text ctx (drop (48 * n) l ++ z).
Proof.
  induction n as [|n IH]; intros l z H; [done|]. rewrite stream_text_step by (rewrite length_app; lia).
  cbn [b64_lines]. rewrite take_app_le, drop_app_le, IH, <- app_assoc, drop_drop by (rewrite ?length_drop; lia).
  by replace (48 + 48 * n)%nat with (48 * S n)%nat by lia.
Qed.

Lemma stream_text_short ctx d : (length d < 48)%nat -> stream_text ctx d = last_line ctx d.
Proof. intros H. unfold stream_text. by rewrite div_48_lt. Qed.

Lemma stream_text_num ctx k bs : stream_text (set_num k ctx) bs = stream_text ctx bs.
Proof. unfold stream_text. by rewrite b64_lines_num. Qed.

Lemma piece_kept m mb m' b e p x : changed m mb m' b e -> piece_at m b e p x -> piece_at m' b e p x.
Proof.
  intros [_ Hk] (Hl & [t Ht] & Hb & He & Hx). split; [done|]. split; [|done]. exists t. rewrite <- Ht.
  apply tail_at_same. intros b' Hin. apply Hk; congruence.
Qed.

(** Text that is written behind the text so far, and the room for the rest. *)
Lemma base64_written m m' b e o acc T n :
  changed m (mwrite m (Ptr b (o + Z.of_nat (length acc))) (terminated T)) m' b e ->
  bytes_at m (Ptr b o) acc -> room m (Ptr b o) n -> Z.of_nat (length (acc ++ T)) + 1 <= n ->
  bytes_at m' (Ptr b o) (acc ++ T) /\ room m' (Ptr b o) n.
Proof.
  intros [Hb _] Ha Hr Hn. rewrite length_app in Hn. pose proof (terminated_length T) as Ht.
  set (mb := mwrite m (Ptr b (o + Z.of_nat (length acc))) (terminated T)) in *.
  assert (tail_at m' (Ptr b o) = tail_at mb (Ptr b o)) as E by (apply tail_at_same; by intros ? <-).
  assert (bytes_at mb (Ptr b o) (acc ++ terminated T)) as [t Ht'].
  { apply (bytes_at_grow m (Ptr b o)); [done|]. eapply room_le; [exact Hr|lia]. }
  split.
  - apply (bytes_at_app_l _ _ _ (drop (length T) (terminated T))). exists t. rewrite E, Ht'. do 2 f_equal.
    rewrite <- app_assoc. f_equal. destruct T; [done|]. cbn [terminated]. by rewrite drop_app_length.
  - unfold room. rewrite E. change (room mb (Ptr b o) n). unfold mb. rewrite room_mwrite; [done| |lia].
    apply (room_padd _ _ _ (Z.of_nat (length acc))) in Hr; [|lia]. eapply room_le; [exact Hr|lia].
Qed.

Lemma encode_updates_run pieces : forall xs m ctx e eo d b o acc,
  buffering m ctx e eo d -> b <> e -> Forall2 (piece_at m b e) pieces xs -> bytes_at m (Ptr b o) acc ->
  let text := acc ++ stream_text ctx (d ++ concat xs) in
  room m (Ptr b o) (Z.of_nat (length text) + 1) -> Z.of_nat (length text) <= INT_MAX ->
  exists m',
    encode_updates ctx (Ptr b (o + Z.of_nat (length acc))) pieces (Z.of_nat (length acc)) m =
      Ret (Some (Z.of_nat (length text)), m') /\
    bytes_at m' (Ptr b o) text /\ elsewhere m m' b e.
Proof.
  induction pieces as [|[inp len] pieces IH]; intros xs m ctx e eo d b o acc H Hbe Hp Ha text Hr Hmax.
  - apply Forall2_nil_inv_l in Hp as ->. cbn [concat encode_updates] in *. unfold text in *. clear text.
    rewrite app_nil_r, (stream_text_short ctx d) in * by apply H. pose proof Hr as Hr0. rewrite length_app in Hr0.
    erewrite bind_ret by (apply (EVP_EncodeFinal_run _ _ _ _ _ _ _ H Hbe);
      apply (room_padd _ _ _ (Z.of_nat (length acc))) in Hr0; [|lia]; eapply room_le; [exact Hr0|lia]).
    eexists. split; [rewrite length_app, Nat2Z.inj_add; reflexivity|].
    split; [|intros b' Hb' _; by rewrite lookup_mwrite_ne].
    eapply (base64_written m _ b e o acc (last_line ctx d)); [|done|exact Hr|lia].
    split; [done|]. intros b' Hb' _. by rewrite lookup_mwrite_ne.
  - destruct xs as [|x xs]; [by apply Forall2_cons_nil_inv in Hp|]. apply Forall2_cons in Hp as [Hx Hp].
    pose proof Hx as (Hlen & Hsx & Hxb & Hxe & Hxo & Hx0). cbn [fst snd] in *. subst len. cbn [concat encode_updates] in *.
    set (n := (length (d ++ x) / 48)%nat). set (T := b64_lines ctx n (d ++ x)). set (d' := drop (48 * n) (d ++ x)).
    assert (stream_text ctx (d ++ x ++ concat xs) = T ++ stream_text ctx (d' ++ concat xs)) as Et.
    { rewrite app_assoc. apply stream_text_lines. pose proof (Nat.div_mod_eq (length (d ++ x)) 48). lia. }
    unfold text in *. clear text. rewrite Et, app_assoc in *. pose proof Hr as Hr0. rewrite !length_app in Hr0.
    pose proof Hmax as Hm0. rewrite !length_app in Hm0.
    destruct (EVP_EncodeUpdate_run m ctx e eo d b (o + Z.of_nat (length acc)) inp x) as (m1 & E & Hbf & Hch);
      [done|done|by right|done|done|done|done| |fold n T; lia|].
    { fold n T. apply (room_padd _ _ _ (Z.of_nat (length acc))) in Hr0; [|lia]. eapply room_le; [exact Hr0|lia]. }
    fold n T d' in E, Hbf, Hch. rewrite (bind_ret _ _ _ _ _ E). cbv beta iota. cbn [padd].
    destruct (base64_written _ _ _ _ _ _ _ _ Hch Ha Hr) as [Ha1 Hr1]; [rewrite !length_app; lia|].
    destruct (IH xs m1 _ e eo d' b o (acc ++ T) Hbf Hbe) as (m' & E' & Hb' & Hel); rewrite ?stream_text_num; try done.
    + eapply Forall2_impl; [exact Hp|]. intros p y. by apply (piece_kept _ _ _ _ _ _ _ Hch).
    + exists m'. rewrite stream_text_num in E', Hb'. split; [|split; [done|]].
      2:{ intros b' H1 H2. rewrite Hel by done. by apply Hch. }
      rewrite <- E'.
      rewrite length_app, Nat2Z.inj_add, Z.add_assoc. done.
Qed.

(** *** Decoding a stream *)

(** What the decoder skips: tab, line feed, carriage return and space. *)
Definition is_space (c : Z) : bool := (c =? 9) || (c =? 10) || (c =? 13) || (c =? 32).

Definition strip (s : list Z) : list Z := List.filter (fun c => negb (is_space c)) s.

(** The number of padding characters. *)
Definition pads (t : list Z) : nat := length (List.filter (fun c => c =? 61) t).

Section shape.
Context (enc dec : list Z) (Halpha : alphabet enc dec).

Lemma b64_app n : forall x y, (length x <= n)%nat -> (length x mod 3 = 0)%nat -> b64 enc (x ++ y) = b64 enc x ++ b64 enc y.
Proof using.
  induction n as [|n IH]; intros [|a [|b [|c x]]] y Hn Hm; cbn [length] in *; try done; try lia.
  cbn [b64 app]. rewrite IH; [done|lia|]. replace (S (S (S (length x)))) with (length x + 1 * 3)%nat in Hm by lia.
  by rewrite Nat.Div0.mod_add in Hm.
Qed.

(** The first [j] groups of a text. *)
Lemma b64_cut j bs : (4 * j <= length (b64 enc bs))%nat ->
  b64 enc bs = b64 enc (take (3 * j) bs) ++ b64 enc (drop (3 * j) bs) /\ length (b64 enc (take (3 * j) bs)) = (4 * j)%nat.
Proof using.
  rewrite !(length_b64 enc (length bs)) by (rewrite ?length_take; lia). intros H.
  pose proof (Nat.div_mod_eq (length bs + 2) 3) as E. pose proof (Nat.mod_upper_bound (length bs + 2) 3) as Hu.
  destruct (decide (3 * j <= length bs)%nat) as [Hle|Hlt].
  - rewrite <- (b64_app (length bs)), take_drop; rewrite ?length_take, ?Nat.min_l by lia; [|lia|].
    + split; [done|]. replace (3 * j + 2)%nat with (2 + j * 3)%nat by lia. rewrite Nat.div_add by lia. cbn. lia.
    + rewrite Nat.mul_comm. apply Nat.Div0.mod_mul.
  - rewrite take_ge, drop_ge, app_nil_r by lia. split; [done|].
    assert ((length bs + 2) / 3 = j)%nat as ->; [|lia]. lia.
Qed.

(** The padding is at the end. *)
Lemma b64_shape n : forall bs, (length bs <= n)%nat -> exists body,
  b64 enc bs = body ++ replicate (pad (length bs)) 61 /\ Forall (fun c => c <> 61) body.
Proof using Halpha.
  assert (forall l, dig enc (l mod 64) <> 61) as Hd by (intros l; apply Halpha, mod_64).
  induction n as [|n IH]; intros [|a [|b [|c x]]] Hn; cbn [length] in *; try lia; try (by exists []).
  - eexists [_; _]. split; [reflexivity|]. by repeat constructor.
  - eexists [_; _; _]. split; [reflexivity|]. by repeat constructor.
  - destruct (IH x ltac:(lia)) as (body & E & Hb). rewrite replicate_pad_3. cbn [b64]. rewrite E.
    eexists (_ :: _ :: _ :: _ :: body). split; [reflexivity|]. by repeat constructor.
Qed.
End shape.

Lemma pads_app x y : pads (x ++ y) = (pads x + pads y)%nat.
Proof. unfold pads. by rewrite List.filter_app, length_app. Qed.

Lemma pads_none x : Forall (fun c => c <> 61) x -> pads x = 0%nat.
Proof.
  induction 1 as [|c x Hc _ IH]; [done|]. unfold pads in *. cbn. by replace (c =? 61) with false by lia.
Qed.

Lemma pads_replicate k : pads (replicate k 61) = k.
Proof. induction k as [|k IH]; [done|]. unfold pads in *. cbn. by rewrite IH. Qed.

(** A prefix of a padded text, by the character behind it. *)
Lemma padded_prefix body k p rest :
  body ++ replicate k 61 = p ++ rest -> Forall (fun c => c <> 61) body ->
  exists body' k', p = body' ++ replicate k' 61 /\ Forall (fun c => c <> 61) body' /\
    (k' + pads rest = k)%nat /\ forall c r, rest = c :: r -> c <> 61 -> k' = 0%nat.
Proof.
  intros E Hb. apply (f_equal pads) in E as Ek. rewrite !pads_app, pads_replicate, (pads_none body) in Ek by done.
  apply app_eq_inv in E as [(x & -> & ->)|(x & -> & E)].
  - apply Forall_app in Hb as [Hp _]. rewrite (pads_none p) in Ek by done. exists p, 0%nat. rewrite app_nil_r.
    repeat split; done || lia.
  - assert (Forall (eq 61) (x ++ rest)) as H by (rewrite <- E; by apply Forall_replicate).
    apply Forall_app in H as [Hx Hr]. assert (x = replicate (length x) 61) as Ex.
    { clear -Hx. induction Hx as [|c x <- _ IH]; [done|]. cbn. by rewrite <- IH. }
    rewrite pads_app, (pads_none body), Ex, pads_replicate in Ek by done.
    exists body, (length x). rewrite Ex at 1. split; [done|]. split; [done|]. split; [lia|].
    intros c r -> Hc. apply Forall_cons in Hr as [Hr _]. congruence.
Qed.

Section decoder.
Context (ctx : EVP_ENCODE_CTX).
Local Abbreviation enc := (bin2ascii (Some ctx)).
Local Abbreviation dec := (ascii2bin (Some ctx)).

(** What is before the padding, for a prefix of the text of [bs]. *)
Lemma b64_prefix bs p rest : p ++ rest = b64 enc bs ->
  exists body, p = body ++ replicate (pads p) 61 /\ Forall (fun c => c <> 61) body /\
    (pads p + pads rest = pad (length bs))%nat /\ forall c r, rest = c :: r -> c <> 61 -> pads p = 0%nat.
Proof.
  intros E. destruct (b64_shape _ _ (alphabet_of (Some ctx)) (length bs) bs) as (body & Eb & Hb); [done|].
  rewrite Eb in E. destruct (padded_prefix _ _ _ _ (eq_sym E) Hb) as (body' & k' & Ep & Hb' & Hk & Hc).
  assert (pads p = k') as -> by (by rewrite Ep, pads_app, pads_none, pads_replicate).
  exists body'. done.
Qed.

Lemma pad_le n : (pad n <= 2)%nat.
Proof. unfold pad. pose proof (Nat.mod_upper_bound (3 - n mod 3) 3). lia. Qed.

Lemma space_value c : is_space c = true ->
  exists v, conv_ascii2bin c dec = mret v /\ (v =? B64_ERROR) = false /\ B64_BASE64 v = false /\ (v =? B64_EOF) = false /\ (c =? 61) = false.
Proof.
  intros H. assert (c = 9 \/ c = 10 \/ c = 13 \/ c = 32) as Hc by (unfold is_space in H; lia).
  unfold ascii2bin. destruct (srp (Some ctx)), Hc as [->|[->|[->| ->]]]; by eexists.
Qed.

Lemma text_value c : text_char enc c ->
  exists v, conv_ascii2bin c dec = mret v /\ (v =? B64_ERROR) = false /\ B64_BASE64 v = true /\ (v =? B64_EOF) = false /\ is_byte c.
Proof.
  intros Hc. pose proof (alphabet_of (Some ctx)) as Ha. pose proof (pad_char (Some ctx)) as Hp.
  destruct (conv_ascii2bin_run _ _ Ha Hp c Hc) as [E Hv].
  eexists. split; [exact E|]. unfold B64_BASE64. destruct (sextet_base64 _ Hv) as [-> _].
  unfold B64_ERROR, B64_EOF. split; [lia|]. split; [done|]. split; [lia|].
  destruct Hc as [->|(v & H64 & ->)]; [done|]. destruct Ha as (_ & _ & Ha). destruct (Ha v H64). unfold is_byte. lia.
Qed.

(** The objects of a decoder: [p] in its buffer and [done] in the output. *)
Record decoding (m : mem) (e : positive) (eo : Z) (b : positive) (o N : Z) (done p : list Z) : Prop := mkDecoding {
  dc_data : enc_data ctx = Ptr e eo;
  dc_room : room m (Ptr e eo) 64;
  dc_bytes : bytes_at m (Ptr e eo) p;
  dc_out : bytes_at m (Ptr b o) done;
  dc_out_room : room m (Ptr b o) N;
  dc_size : 0 <= N;
  dc_apart : b <> e
}.

Lemma decoding_push m e eo b o N done p c :
  decoding m e eo b o N done p -> (length p < 64)%nat -> is_byte c ->
  exists m', store (padd (enc_data ctx) (Z.of_nat (length p))) c m = Ret (tt, m') /\
    decoding m' e eo b o N done (p ++ [c]) /\ elsewhere m m' b e.
Proof.
  intros [H1 H2 H3 H4 H5 HN0 H6] Hp Hc. rewrite H1. cbn [padd].
  assert (room m (Ptr e (eo + Z.of_nat (length p))) 1) as Hr.
  { apply (room_padd _ _ _ (Z.of_nat (length p))) in H2; [|lia]. eapply room_le; [exact H2|lia]. }
  eexists. split; [by apply store_room|]. rewrite to_uchar_id by done. split; [split; try done|].
  - rewrite room_mwrite; [done|done|lia].
  - apply (bytes_at_grow m (Ptr e eo)); [done|]. eapply room_le; [exact H2|cbn; lia].
  - apply (bytes_at_mwrite_ne _ _ _ _ _ e); [done|cbn; congruence|done].
  - rewrite room_mwrite; [done|done|lia].
  - intros b' Hb He. by rewrite lookup_mwrite_ne.
Qed.

(** A buffer that holds the text of [x] is decoded behind [done]. *)
Lemma flush_run m e eo b o N done x s :
  decoding m e eo b o N done (b64 enc x) -> Forall is_byte x ->
  Z.of_nat (length done + length x + pad (length x)) <= N ->
  d_n s = Z.of_nat (length (b64 enc x)) -> d_eof s = Z.of_nat (pad (length x)) -> d_out s = Ptr b (o + Z.of_nat (length done)) ->
  exists m',
    flush ctx s m = Ret (Some (mkDecode 0 (d_eof s) (d_ret s + Z.of_nat (length x)) (Ptr b (o + Z.of_nat (length (done ++ x))))), m') /\
    decoding m' e eo b o N (done ++ x) [] /\ elsewhere m m' b e.
Proof.
  intros [H1 H2 H3 H4 H5 HN0 H6] Hx HN Hn He Ho. unfold flush. rewrite Hn, Ho, H1.
  pose proof (evp_decodeblock_run (Some ctx) m b (o + Z.of_nat (length done)) [] (Ptr e eo) x) as E. cbv zeta in E.
  rewrite mwrite_nil, Z.add_0_r in E. cbn [app length] in E. rewrite Nat.add_0_l in E.
  apply (room_padd _ _ _ (Z.of_nat (length done))) in H5 as Hr; [|lia]. cbn [padd] in Hr.
  rewrite (bind_ret _ _ _ _ _ (E ltac:(cbn; congruence) ltac:(by right) Hx ltac:(eapply room_le; [exact Hr|lia]))).
  rewrite mret_run, He. replace (_ || _) with false by lia.
  replace (Z.of_nat (length x + pad (length x)) - Z.of_nat (pad (length x))) with (Z.of_nat (length x)) by lia.
  eexists. split; [cbn [padd]; rewrite length_app, Nat2Z.inj_add, Z.add_assoc; reflexivity|].
  split; [split; try done|].
  - rewrite room_mwrite; [done| |lia]. eapply room_le; [exact Hr|rewrite length_app, length_replicate; lia].
  - apply (bytes_at_mwrite_ne _ _ _ _ _ b); [done|cbn; congruence|]. destruct H3 as [t Ht]. by exists (b64 enc x ++ t).
  - apply (bytes_at_app_l _ _ _ (replicate (pad (length x)) 0)). rewrite <- app_assoc.
    apply (bytes_at_grow m (Ptr b o)); [done|]. eapply room_le; [exact H5|rewrite length_app, length_replicate; lia].
  - rewrite room_mwrite; [done| |lia]. eapply room_le; [exact Hr|rewrite length_app, length_replicate; lia].
  - intros b' Hb' He'. by rewrite lookup_mwrite_ne.
Qed.

(** A decoder between two characters: [bs] is what it has not put out yet, [p] is
    in the buffer and [rest] is to come. *)
Record reading (m : mem) (e : positive) (eo : Z) (b : positive) (o N : Z) (done p bs rest : list Z) (s : decode_state) : Prop :=
mkReading {
  rd_mem : decoding m e eo b o N done p;
  rd_text : p ++ rest = b64 enc bs;
  rd_short : (length p < 64)%nat;
  rd_octets : Forall is_byte bs;
  rd_fits : Z.of_nat (length done + length bs + pad (length bs)) <= N;
  rd_n : d_n s = Z.of_nat (length p);
  rd_eof : bs <> [] -> d_eof s = Z.of_nat (pads p);
  rd_eof_le : 0 <= d_eof s <= 2;
  rd_out : d_out s = Ptr b (o + Z.of_nat (length done))
}.

(** A buffer of [j] whole groups, and what is left of the octets. *)
Lemma reading_cut bs p rest j : p ++ rest = b64 enc bs -> length p = (4 * j)%nat ->
  let x := take (3 * j) bs in
  p = b64 enc x /\ rest = b64 enc (drop (3 * j) bs) /\ pads p = pad (length x) /\
  (length x + length (drop (3 * j) bs) + pad (length (drop (3 * j) bs)) <= length bs + pad (length bs))%nat /\
  (length x + pad (length x) <= length bs + pad (length bs))%nat /\
  (drop (3 * j) bs <> [] -> pads p = 0%nat).
Proof.
  intros E Hl x. destruct (b64_cut enc j bs) as [Eb Hb]; [rewrite <- E, length_app; lia|]. fold x in Eb, Hb.
  rewrite Eb in E. apply app_inj_1 in E as [-> ->]; [|lia]. split; [done|]. split; [done|].
  destruct (b64_prefix x (b64 enc x) []) as (_ & _ & _ & Hp & _); [by rewrite app_nil_r|]. cbn [pads List.filter length] in Hp.
  change (pads []) with 0%nat in Hp. rewrite Nat.add_0_r in Hp. split; [done|].
  destruct (decide (3 * j <= length bs)%nat) as [Hle|Hlt].
  - assert (length x = 3 * j)%nat as Hx by (unfold x; rewrite length_take; lia).
    assert (pad (length x) = 0)%nat as H0 by (rewrite Hx; unfold pad; rewrite Nat.mul_comm, Nat.Div0.mod_mul; done).
    assert (pad (length (drop (3 * j) bs)) = pad (length bs)) as Hpd.
    { rewrite length_drop. unfold pad. replace (length bs) with (length bs - 3 * j + j * 3)%nat at 2 by lia.
      by rewrite Nat.Div0.mod_add. }
    pose proof (length_drop bs (3 * j)) as Hd. lia.
  - unfold x. rewrite take_ge, drop_ge by lia. cbn [length]. change (pad 0) with 0%nat. split; [lia|]. split; [lia|done].
Qed.

(** The buffer is decoded when it holds [j] groups. *)
Lemma reading_flush m e eo b o N done p bs rest s j :
  decoding m e eo b o N done p -> p ++ rest = b64 enc bs -> length p = (4 * j)%nat -> (0 < j)%nat -> Forall is_byte bs ->
  Z.of_nat (length done + length bs + pad (length bs)) <= N ->
  d_n s = Z.of_nat (length p) -> d_eof s = Z.of_nat (pads p) -> d_out s = Ptr b (o + Z.of_nat (length done)) ->
  exists m' s',
    flush ctx s m = Ret (Some s', m') /\ elsewhere m m' b e /\
    d_ret s' = d_ret s + Z.of_nat (length (take (3 * j) bs)) /\ d_eof s' = d_eof s /\
    reading m' e eo b o N (done ++ take (3 * j) bs) [] (drop (3 * j) bs) rest s'.
Proof.
  intros Hd Et Hl Hj Hby HN Hn He Ho. destruct (reading_cut bs p rest j Et Hl) as (Ep & Er & Epad & Hf1 & Hf2 & H0).
  set (x := take (3 * j) bs) in *. set (bs' := drop (3 * j) bs) in *.
  rewrite Ep in Hd. destruct (flush_run m e eo b o N done x s) as (m' & E & Hd' & Hel); try done; try lia.
  { by apply Forall_take. }
  { by rewrite Hn, Ep. }
  exists m', (mkDecode 0 (d_eof s) (d_ret s + Z.of_nat (length x)) (Ptr b (o + Z.of_nat (length (done ++ x))))).
  split; [done|]. split; [done|]. split; [done|]. split; [done|].
  pose proof (pad_le (length x)). split; cbn [d_n d_eof d_out]; try done; try lia.
  - cbn. lia.
  - by apply Forall_drop.
  - rewrite length_app. lia.
  - intros Hne. rewrite He, H0 by done. done.
Qed.

(** A character of the text. *)
Lemma reading_char k m inp e eo b o N done p bs c rest s :
  reading m e eo b o N done p bs (c :: rest) s -> bytes_at m inp [c] ->
  exists m' s' x bs' p',
    decode_loop (S k) ctx inp s m = decode_loop k ctx (padd inp 1) s' m' /\ elsewhere m m' b e /\
    bs = x ++ bs' /\ d_ret s' = d_ret s + Z.of_nat (length x) /\ reading m' e eo b o N (done ++ x) p' bs' rest s'.
Proof.
  intros [Hd Et Hs Hby HN Hn He He2 Ho] Hin.
  assert (bs <> []) as Hne by (intros ->; by destruct p). specialize (He Hne).
  assert (Forall (text_char enc) (p ++ c :: rest)) as Ht.
  { rewrite Et. by eapply text_of_b64; [apply (alphabet_of (Some ctx))|]. }
  apply Forall_app in Ht as [_ Ht]. apply Forall_cons in Ht as [Hc _].
  destruct (text_value c Hc) as (v & Ev & V1 & V2 & V3 & Hcb).
  destruct (b64_prefix bs p (c :: rest) Et) as (_ & _ & _ & Hk & H0). pose proof (pad_le (length bs)) as Hp2.
  assert (pads (c :: rest) = (if (c =? 61)%Z then 1 else 0) + pads rest)%nat as Epc by (unfold pads; cbn; by destruct (c =? 61)).
  assert (pads (p ++ [c]) = pads p + if (c =? 61)%Z then 1 else 0)%nat as Epa.
  { rewrite pads_app. f_equal. unfold pads. cbn. by destruct (c =? 61). }
  cbn [decode_loop]. rewrite (bind_ret _ _ _ _ _ (load_at _ _ _ _ Hin)), Ev, mbind_mret, V1, V2, V3.
  replace (negb (c =? 61) && ((0 <? d_eof s) && true)) with false.
  2:{ destruct (Z.eqb_spec c 61); [done|]. rewrite He, (H0 c rest) by done. done. }
  set (s1 := if c =? 61 then set_eof (d_eof s + 1) s else s).
  assert (d_n s1 = d_n s /\ d_ret s1 = d_ret s /\ d_out s1 = d_out s /\ d_eof s1 = Z.of_nat (pads (p ++ [c]))) as (S1 & S2 & S3 & S4).
  { unfold s1. rewrite Epa. destruct (c =? 61); cbn; repeat split; lia. }
  clearbody s1.
  replace (2 <? d_eof s1) with false by (rewrite S4, Epa; destruct (c =? 61); lia).
  rewrite S1, Hn. replace (64 <=? Z.of_nat (length p)) with false by lia. cbn [andb].
  destruct (decoding_push m e eo b o N done p c Hd Hs Hcb) as (m1 & E1 & Hd1 & Hel1).
  rewrite bind_assoc, (bind_ret _ _ _ _ _ E1), mbind_mret. cbn [d_n set_n].
  rewrite cons_middle, app_assoc in Et. pose proof (length_app p [c]) as Hlp. cbn [length] in Hlp.
  destruct (Z.eqb_spec (Z.of_nat (length p) + 1) 64) as [E64|N64].
  - destruct (reading_flush m1 e eo b o N done (p ++ [c]) bs rest (set_n (Z.of_nat (length p) + 1) s1) 16)
      as (m' & s' & E' & Hel' & Hret & _ & Hrd); try done; try (cbn; lia).
    { by cbn; rewrite S3. }
    rewrite (bind_ret _ _ _ _ _ E'). exists m', s', (take (3 * 16) bs), (drop (3 * 16) bs), [].
    split; [done|]. split; [intros b' ??; by rewrite Hel', Hel1|]. split; [by rewrite take_drop|].
    split; [rewrite Hret; cbn; lia|done].
  - exists m1, (set_n (Z.of_nat (length p) + 1) s1), [], bs, (p ++ [c]). rewrite app_nil_r. split; [done|]. split; [done|].
    split; [done|]. split; [cbn; lia|]. split; cbn [set_n d_n d_eof d_out]; try done; try lia.
    by rewrite S3.
Qed.

Lemma decode_loop_run s : forall m inp e eo b o N done p bs rest st,
  reading m e eo b o N done p bs (strip s ++ rest) st -> source_at m inp s -> ~ in_block inp b -> ~ in_block inp e ->
  exists m' st' x bs' p',
    decode_loop (length s) ctx inp st m = Ret ((ToRest, st'), m') /\ elsewhere m m' b e /\
    bs = x ++ bs' /\ d_ret st' = d_ret st + Z.of_nat (length x) /\ reading m' e eo b o N (done ++ x) p' bs' rest st'.
Proof.
  induction s as [|c s IH]; intros m inp e eo b o N done p bs rest st Hrd Hs Hb He.
  { exists m, st, [], bs, p. rewrite app_nil_r. split_and!; done || (cbn; lia). }
  destruct Hs as [|Hs]; [done|]. apply (bytes_at_app m inp [c] s) in Hs as [Hc Hs]. cbn [length] in *.
  change (Z.of_nat 1) with 1 in Hs. cbn [strip List.filter] in Hrd. destruct (is_space c) eqn:Hsp; cbn [negb] in Hrd.
  - destruct (space_value c Hsp) as (v & Ev & V1 & V2 & V3 & V4).
    destruct (IH m (padd inp 1) e eo b o N done p bs rest st) as (m' & st' & x & bs' & p' & E & H); try done;
      [by right|by apply not_in_block_padd|by apply not_in_block_padd|].
    exists m', st', x, bs', p'. split; [|done]. rewrite <- E. cbn [decode_loop].
    rewrite (bind_ret _ _ _ _ _ (load_at _ _ _ _ Hc)), Ev, mbind_mret, V1, V2, V3, V4, !andb_false_r. cbn [andb].
    destruct Hrd as [_ _ Hs64 _ _ Hn _ He2 _]. replace (2 <? d_eof st) with false by lia. rewrite mbind_mret.
    by replace (d_n st =? 64) with false by lia.
  - destruct (reading_char (length s) m inp e eo b o N done p bs c (strip s ++ rest) st Hrd Hc)
      as (m1 & s1 & x1 & bs1 & p1 & E1 & Hel1 & -> & Hret1 & Hrd1).
    destruct (IH m1 (padd inp 1) e eo b o N (done ++ x1) p1 bs1 rest s1) as (m' & st' & x & bs' & p' & E & Hel & -> & Hret & Hrd');
      [done|eapply source_elsewhere; [done|by apply not_in_block_padd|by apply not_in_block_padd|by right]
      |by apply not_in_block_padd|by apply not_in_block_padd|].
    exists m', st', (x1 ++ x), bs', p'. split; [by rewrite E1|]. split; [intros b' ??; by rewrite Hel, Hel1|].
    split; [by rewrite app_assoc|]. split; [rewrite Hret, Hret1, length_app; lia|]. by rewrite app_assoc.
Qed.

Lemma load_index m p x c y : bytes_at m p (x ++ c :: y) -> load (padd p (Z.of_nat (length x))) m = Ret (c, m).
Proof. intros H. apply bytes_at_app in H as [_ H]. by apply load_at in H. Qed.

(** The padding at the end of the buffer is counted from its last two characters. *)
Lemma pending_eof_run m p bs rest :
  num ctx = Z.of_nat (length p) -> bytes_at m (enc_data ctx) p -> p ++ rest = b64 enc bs ->
  pending_eof ctx m = Ret (Z.of_nat (pads p), m).
Proof.
  intros Hn Hb Et. destruct (b64_prefix bs p rest Et) as (body & Ep & Hne & Hk & _). pose proof (pad_le (length bs)) as Hp.
  assert (pads p <= 2)%nat as Hk2 by lia. clear Hk Et. set (k := pads p) in *. clearbody k. subst p. unfold pending_eof. rewrite Hn.
  destruct body as [|c body _] using rev_ind.
  - destruct k as [|[|[|k]]]; [done| | |lia]; cbn [app replicate length] in *; replace (0 <? _) with true by done; cbv iota.
    + erewrite bind_ret by exact (load_index m _ [] 61 [] Hb). done.
    + erewrite bind_ret by exact (load_index m _ [61] 61 [] Hb).
      replace (1 <? _) with true by done. cbn [Z.eqb Pos.eqb].
      erewrite bind_ret by exact (load_index m _ [] 61 [61] Hb). done.
  - apply Forall_app in Hne as [_ Hc]. apply Forall_cons in Hc as [Hc _]. apply Z.eqb_neq in Hc.
    rewrite <- app_assoc in Hb. cbn [app] in Hb. rewrite !length_app, length_replicate. cbn [length].
    replace (0 <? _) with true by lia. pose proof (load_index m _ body c _ Hb) as Lc.
    destruct k as [|[|[|k]]]; [| | |lia].
    + replace (Z.of_nat (length body + 1 + 0) - 1) with (Z.of_nat (length body)) by lia.
      by rewrite (bind_ret _ _ _ _ _ Lc), Hc.
    + pose proof (load_index m _ (body ++ [c]) 61 [] ltac:(by rewrite <- app_assoc)) as L1. rewrite length_app in L1.
      replace (Z.of_nat (length body + 1 + 1) - 1) with (Z.of_nat (length body + length [c])) by (cbn; lia).
      rewrite (bind_ret _ _ _ _ _ L1). cbn [Z.eqb Pos.eqb]. replace (1 <? _) with true by lia.
      replace (Z.of_nat (length body + 1 + 1) - 2) with (Z.of_nat (length body)) by lia.
      by rewrite (bind_ret _ _ _ _ _ Lc), Hc.
    + pose proof (load_index m _ (body ++ [c; 61]) 61 [] ltac:(by rewrite <- app_assoc)) as L2. rewrite length_app in L2.
      pose proof (load_index m _ (body ++ [c]) 61 [61] ltac:(by rewrite <- app_assoc)) as L1. rewrite length_app in L1.
      replace (Z.of_nat (length body + 1 + 2) - 1) with (Z.of_nat (length body + length [c; 61])) by (cbn; lia).
      rewrite (bind_ret _ _ _ _ _ L2). cbn [Z.eqb Pos.eqb]. replace (1 <? _) with true by lia.
      replace (Z.of_nat (length body + 1 + 2) - 2) with (Z.of_nat (length body + length [c])) by (cbn; lia).
      by rewrite (bind_ret _ _ _ _ _ L1).
Qed.

(** A decoder between two calls. *)
Record waiting (m : mem) (e : positive) (eo : Z) (b : positive) (o N : Z) (done p bs rest : list Z) : Prop := mkWaiting {
  wt_mem : decoding m e eo b o N done p;
  wt_num : num ctx = Z.of_nat (length p);
  wt_text : p ++ rest = b64 enc bs;
  wt_short : (length p < 64)%nat;
  wt_octets : Forall is_byte bs;
  wt_fits : Z.of_nat (length done + length bs + pad (length bs)) <= N;
  wt_partial : p = [] \/ (length p mod 4 <> 0)%nat
}.

Lemma waiting_reading m e eo b o N done p bs rest :
  waiting m e eo b o N done p bs rest ->
  reading m e eo b o N done p bs rest (mkDecode (num ctx) (Z.of_nat (pads p)) 0 (Ptr b (o + Z.of_nat (length done)))).
Proof.
  intros [H1 H2 H3 H4 H5 H6 H7]. destruct (b64_prefix bs p rest H3) as (_ & _ & _ & Hk & _). pose proof (pad_le (length bs)).
  split; cbn [d_n d_eof d_out]; done || lia.
Qed.

(** The end of a call: whole groups are decoded at once. *)
Lemma decode_tail_run m e eo b o N done p bs rest s :
  reading m e eo b o N done p bs rest s ->
  exists m' s' x bs' p',
    (if 0 <? d_n s then if Z.land (d_n s) 3 =? 0 then flush ctx s else mret (Some s) else mret (Some s)) m = Ret (Some s', m') /\
    elsewhere m m' b e /\ bs = x ++ bs' /\ d_ret s' = d_ret s + Z.of_nat (length x) /\ d_n s' = Z.of_nat (length p') /\
    decoding m' e eo b o N (done ++ x) p' /\ p' ++ rest = b64 enc bs' /\ (length p' < 64)%nat /\ Forall is_byte bs' /\
    Z.of_nat (length (done ++ x) + length bs' + pad (length bs')) <= N /\ (p' = [] \/ (length p' mod 4 <> 0)%nat).
Proof.
  intros [Hd Et Hs Hby HN Hn He He2 Ho]. assert (Z.land (d_n s) 3 = Z.of_nat (length p mod 4)) as E3.
  { change 3 with (Z.ones 2). rewrite Z.land_ones, Hn, Nat2Z.inj_mod by lia. done. }
  rewrite E3, Hn. pose proof (Nat.div_mod_eq (length p) 4) as Hdm.
  assert (p = [] \/ (0 < length p)%nat) as Hp by (destruct p; [by left|right; cbn; lia]).
  destruct (decide (p = [] \/ (length p mod 4 <> 0)%nat)) as [Hk|Hk].
  - exists m, s, [], bs, p. rewrite app_nil_r. split; [|split_and!; (done || (cbn [length]; lia))].
    destruct Hk as [->|Hk]; [done|]. replace (Z.of_nat (length p mod 4) =? 0) with false by lia. by destruct (0 <? _).
  - assert (p <> [] /\ (length p mod 4 = 0)%nat) as [Hp0 Hm].
    { split; [intros ->; apply Hk; by left|]. destruct (decide (length p mod 4 = 0)%nat); [done|]. exfalso. apply Hk. by right. }
    assert (bs <> []) as Hbs by (intros ->; by destruct p).
    replace (0 <? Z.of_nat (length p)) with true by (destruct p; [done|cbn; lia]). rewrite Hm. cbn [Z.of_nat Z.eqb].
    destruct (reading_flush m e eo b o N done p bs rest s (length p / 4)) as (m' & s' & E & Hel & Hret & _ & Hrd);
      try done; try (destruct Hp; [done|lia]); try by apply He.
    exists m', s', (take (3 * (length p / 4)) bs), (drop (3 * (length p / 4)) bs), []. destruct Hrd.
    split; [done|]. split; [done|]. split; [by rewrite take_drop|]. split_and!; done || (by left).
Qed.

Lemma EVP_DecodeUpdate_run m e eo b o N done p bs inp s rest :
  waiting m e eo b o N done p bs (strip s ++ rest) -> source_at m inp s -> ~ in_block inp b -> ~ in_block inp e ->
  exists m' rv x bs' p',
    EVP_DecodeUpdate ctx (Ptr b (o + Z.of_nat (length done))) inp (Z.of_nat (length s)) m =
      Ret ((rv, Z.of_nat (length x), set_num (Z.of_nat (length p')) ctx), m') /\
    (rv = 0 \/ rv = 1) /\ elsewhere m m' b e /\ bs = x ++ bs' /\
    decoding m' e eo b o N (done ++ x) p' /\ p' ++ rest = b64 enc bs' /\ (length p' < 64)%nat /\ Forall is_byte bs' /\
    Z.of_nat (length (done ++ x) + length bs' + pad (length bs')) <= N /\ (p' = [] \/ (length p' mod 4 <> 0)%nat).
Proof.
  intros Hw Hs Hb He. pose proof Hw as [Hd Hn Et H64 Hby HN Hpart]. unfold EVP_DecodeUpdate.
  erewrite bind_ret by (eapply pending_eof_run; [done|destruct Hd as [-> _ ? _ _ _ _]; done|done]).
  destruct s as [|c s].
  { exists m, 0, [], bs, p. change (Z.of_nat (length []) =? 0) with true. rewrite app_nil_r, <- Hn.
    split_and!; try done; [by destruct ctx|by left]. }
  replace (Z.of_nat (length (c :: s)) =? 0) with false by (cbn; lia). rewrite Nat2Z.id.
  destruct (decode_loop_run (c :: s) m inp e eo b o N done p bs rest _ (waiting_reading _ _ _ _ _ _ _ _ _ _ Hw) Hs Hb He)
    as (m1 & s1 & x1 & bs1 & p1 & E1 & Hel1 & -> & Hret1 & Hrd1). cbn [d_ret] in Hret1.
  rewrite (bind_ret _ _ _ _ _ E1). cbv beta iota zeta.
  destruct (decode_tail_run m1 e eo b o N (done ++ x1) p1 bs1 rest s1 Hrd1)
    as (m' & s' & x & bs' & p' & E & Hel & -> & Hret & Hn' & Hd' & Et' & H').
  rewrite (bind_ret _ _ _ _ _ E), mret_run, Hn', Hret, Hret1, Z.add_0_l. cbn [orb].
  exists m', (if (Z.of_nat (length p') =? 0) && truthy (d_eof s') then 0 else 1), (x1 ++ x), bs', p'.
  rewrite length_app, Nat2Z.inj_add, !(app_assoc done). split; [done|]. split; [destruct (_ && _); tauto|].
  split; [intros b' ??; by rewrite Hel, Hel1|]. split; [by rewrite app_assoc|]. done.
Qed.
End decoder.

(** A stream of pieces of text: [EVP_DecodeInit], one [EVP_DecodeUpdate] per piece
    and [EVP_DecodeFinal], the output behind one another.  The total length, or
    [None] for an error. *)
Fixpoint decode_updates (ctx : EVP_ENCODE_CTX) (out : ptr) (pieces : list (ptr * Z)) (total : Z) : M mem (option Z) :=
  match pieces with
  | [] =>
      '(rv, outl, _) ← EVP_DecodeFinal ctx out;
      mret (if rv <? 0 then None else Some (total + outl))
  | (inp, len) :: pieces =>
      '(rv, outl, ctx) ← EVP_DecodeUpdate ctx out inp len;
      if rv <? 0 then mret None else decode_updates ctx (padd out outl) pieces (total + outl)
  end.

Definition decode_stream (ctx : EVP_ENCODE_CTX) (out : ptr) (pieces : list (ptr * Z)) : M mem (option Z) :=
  decode_updates (EVP_DecodeInit ctx) out pieces 0.

(** A piece of text, which may be empty, outside of the objects [b] and [e]. *)
Definition text_at (m : mem) (b e : positive) (p : ptr * Z) (x : list Z) : Prop :=
  p.2 = Z.of_nat (length x) /\ source_at m p.1 x /\ (~ in_block p.1 b) /\ ~ in_block p.1 e.

Lemma strip_app x y : strip (x ++ y) = strip x ++ strip y.
Proof. apply List.filter_app. Qed.

Lemma decode_updates_run pieces : forall xs m ctx e eo b o N done p bs,
  waiting ctx m e eo b o N done p bs (strip (concat xs)) -> Forall2 (text_at m b e) pieces xs ->
  exists m',
    decode_updates ctx (Ptr b (o + Z.of_nat (length done))) pieces (Z.of_nat (length done)) m =
      Ret (Some (Z.of_nat (length (done ++ bs))), m') /\
    bytes_at m' (Ptr b o) (done ++ bs).
Proof.
  induction pieces as [|[inp len] pieces IH]; intros xs m ctx e eo b o N done p bs Hw Hp.
  - apply Forall2_nil_inv_l in Hp as ->. cbn [concat strip List.filter] in Hw. destruct Hw as [Hd Hn Et H64 Hby HN Hpart].
    rewrite app_nil_r in Et. subst p. destruct (length_b64_pad (bin2ascii (Some ctx)) bs) as [Hl Hm].
    destruct Hpart as [E0|Hne]; [|lia]. assert (bs = []) as -> by (by destruct bs as [|x [|y [|z r]]]).
    cbn [b64 length] in Hn. cbn [decode_updates]. unfold EVP_DecodeFinal. rewrite Hn.
    exists m. change (negb (Z.of_nat 0 =? 0)) with false. cbv iota. rewrite mbind_mret. cbv beta iota.
    change (1 <? 0) with false. rewrite app_nil_r, Z.add_0_r. split; [done|apply Hd].
  - destruct xs as [|x xs]; [by apply Forall2_cons_nil_inv in Hp|]. apply Forall2_cons in Hp as [(Hlen & Hs & Hb & He) Hp].
    cbn [fst snd] in *. subst len. cbn [concat decode_updates] in *. rewrite strip_app in Hw.
    destruct (EVP_DecodeUpdate_run ctx m e eo b o N done p bs inp x _ Hw Hs Hb He)
      as (m1 & rv & y & bs' & p' & E & Hrv & Hel & -> & Hd & Et & H64 & Hby & HN & Hpart).
    rewrite (bind_ret _ _ _ _ _ E). cbv beta iota. replace (rv <? 0) with false by lia. cbn [padd].
    destruct (IH xs m1 (set_num (Z.of_nat (length p')) ctx) e eo b o N (done ++ y) p' bs') as (m' & E' & Hb').
    + split; try done. destruct Hd. by split.
    + eapply Forall2_impl; [exact Hp|]. intros q z (? & Hq & ? & ?). repeat split; try done. by eapply source_elsewhere.
    + exists m'. rewrite app_assoc. split; [|done]. rewrite <- E'. rewrite length_app, Nat2Z.inj_add, Z.add_assoc. done.
Qed.

Lemma text_not_space ctx c : text_char (bin2ascii (Some ctx)) c -> is_space c = false.
Proof.
  intros Hc. destruct (is_space c) eqn:H; [|done]. destruct (space_value ctx c H) as (v & E & _ & Hf & _).
  destruct (text_value ctx c Hc) as (v' & E' & _ & Ht & _). rewrite E in E'.
  apply (f_equal (fun r => r (∅ : mem))) in E'. cbv in E'. congruence.
Qed.

Lemma strip_b64 ctx bs : strip (b64 (bin2ascii (Some ctx)) bs) = b64 (bin2ascii (Some ctx)) bs.
Proof.
  pose proof (text_of_b64 _ _ (alphabet_of (Some ctx)) (length bs) bs (le_n _)) as H.
  induction H as [|c t Hc _ IH]; [done|]. cbn [strip List.filter]. rewrite (text_not_space ctx c Hc). cbn [negb].
  by f_equal.
Qed.

Lemma strip_line ctx bs : strip (text_line ctx bs) = b64 (bin2ascii (Some ctx)) bs.
Proof.
  unfold text_line, eol. rewrite strip_app, strip_b64. destruct (no_newlines ctx); cbn; by rewrite app_nil_r.
Qed.

Lemma strip_lines ctx n : forall bs, (48 * n <= length bs)%nat ->
  strip (b64_lines ctx n bs) = b64 (bin2ascii (Some ctx)) (take (48 * n) bs).
Proof.
  induction n as [|n IH]; intros bs H; [done|]. cbn [b64_lines]. rewrite strip_app, strip_line, IH by (rewrite length_drop; lia).
  rewrite <- (b64_app _ 48) by (rewrite length_take; by rewrite ?Nat.min_l by lia || lia). f_equal.
  replace (48 * S n)%nat with (48 + 48 * n)%nat by lia. by rewrite take_take_drop.
Qed.

(** The text of a stream without its line ends. *)
Lemma strip_stream_text ctx bs : strip (stream_text ctx bs) = b64 (bin2ascii (Some ctx)) bs.
Proof.
  unfold stream_text. set (n := (length bs / 48)%nat). pose proof (Nat.div_mod_eq (length bs) 48) as E. fold n in E.
  rewrite strip_app, strip_lines by lia.
  assert (strip (last_line ctx (drop (48 * n) bs)) = b64 (bin2ascii (Some ctx)) (drop (48 * n) bs)) as ->.
  { destruct (drop (48 * n) bs); [done|apply strip_line]. }
  rewrite <- (b64_app _ (length bs)), take_drop; [done|rewrite length_take; lia|].
  rewrite length_take, Nat.min_l by lia. replace (48 * n)%nat with (16 * n * 3)%nat by lia. apply Nat.Div0.mod_mul.
Qed.

(** A text cut into pieces of the given lengths. *)
Fixpoint pieces_of (p : ptr) (lens : list nat) : list (ptr * Z) :=
  match lens with
  | [] => []
  | n :: lens => (p, Z.of_nat n) :: pieces_of (padd p (Z.of_nat n)) lens
  end.

Lemma pieces_of_at m b e lens : forall p t,
  source_at m p t -> list_sum lens = length t -> ~ in_block p b -> ~ in_block p e ->
  exists xs, Forall2 (text_at m b e) (pieces_of p lens) xs /\ concat xs = t.
Proof.
  induction lens as [|n lens IH]; intros p t Hs Hl Hb He; cbn [pieces_of].
  { destruct t; [|done]. by exists []. }
  change (list_sum (n :: lens)) with (n + list_sum lens)%nat in Hl.
  destruct (source_at_split m p t n Hs ltac:(lia)) as [H1 H2].
  destruct (IH (padd p (Z.of_nat n)) (drop n t)) as (xs & Hxs & E);
    [done|rewrite length_drop; lia|by apply not_in_block_padd|by apply not_in_block_padd|].
  exists (take n t :: xs). split; [|cbn; by rewrite E, take_drop]. constructor; [|done].
  split; [cbn; rewrite length_take; lia|]. done.
Qed.

(** C32: Base64 of a stream: octets given to the encoder in any pieces come out as
    one text, that of the whole, in lines of 64 characters; and that text, given to
    the decoder in any pieces, empty ones and cuts within a group or within the
    padding included, comes out as the octets. *)
Theorem base64_stream_roundtrip m ctx e eo b o ctx' e' eo' b' o' pieces xs :
  let bs := concat xs in
  let text := stream_text (EVP_EncodeInit ctx) bs in
  enc_data ctx = Ptr e eo -> room m (Ptr e eo) 48 -> b <> e -> Forall2 (piece_at m b e) pieces xs ->
  room m (Ptr b o) (Z.of_nat (length text) + 1) -> Z.of_nat (length text) <= INT_MAX ->
  enc_data ctx' = Ptr e' eo' -> room m (Ptr e' eo') 64 -> b' <> e' -> e' <> b -> e' <> e -> b' <> b -> b' <> e ->
  room m (Ptr b' o') (Z.of_nat (length bs + pad (length bs))) ->
  exists m1,
    encode_stream ctx (Ptr b o) pieces m = Ret (Some (Z.of_nat (length text)), m1) /\ bytes_at m1 (Ptr b o) text /\
    forall lens, list_sum lens = length text ->
    exists m2,
      decode_stream ctx' (Ptr b' o') (pieces_of (Ptr b o) lens) m1 = Ret (Some (Z.of_nat (length bs)), m2) /\
      bytes_at m2 (Ptr b' o') bs.
Proof.
  intros bs text Hc Hre Hbe Hp Hrb Hmax Hc' Hre' Hbe' He1 He2 Hb1 Hb2 Hrb'.
  assert (forall p n, room m p n -> bytes_at m p []) as Hnil by (intros [| |p q] n (l & Hl & _); [done|done|]; by exists l).
  destruct (encode_updates_run pieces xs m (EVP_EncodeInit ctx) e eo [] b o []) as (m1 & E1 & Ht & Hel); try done.
  { split; try done; [cbn; lia|by eapply Hnil]. }
  { by eapply Hnil. }
  cbn [app length Z.of_nat] in E1, Ht. rewrite Z.add_0_r in E1. exists m1. split; [done|]. split; [done|]. intros lens Hl.
  destruct (pieces_of_at m1 b' e' lens (Ptr b o) text) as (ys & Hys & Ey); [by right|done|cbn; congruence|cbn; congruence|].
  assert (forall q n, q <> b -> q <> e -> forall z, room m (Ptr q z) n -> room m1 (Ptr q z) n) as Hkeep.
  { intros q n Hq1 Hq2 z. unfold room. rewrite (tail_at_same m m1); [done|]. intros ? <-. by apply Hel. }
  destruct (decode_updates_run (pieces_of (Ptr b o) lens) ys m1 (EVP_DecodeInit ctx') e' eo' b' o'
    (Z.of_nat (length bs + pad (length bs))) [] [] bs) as (m2 & E2 & Hb).
  - split; try done; [split; try done| | | |].
    + by apply Hkeep.
    + apply Hkeep in Hre'; [|done|done]. destruct Hre' as (l & Hl' & _). by exists l.
    + apply Hkeep in Hrb'; [|done|done]. destruct Hrb' as (l & Hl' & _). by exists l.
    + by apply Hkeep.
    + lia.
    + rewrite Ey. unfold text. by rewrite strip_stream_text.
    + cbn; lia.
    + unfold bs. apply Forall_concat. clear -Hp. induction Hp as [|? ? ? ? (_ & _ & _ & _ & ? & _)]; by constructor.
    + by left.
  - done.
  - cbn [app length Z.of_nat] in E2, Hb. rewrite Z.add_0_r in E2. by exists m2.
Qed.

Definition sample_ctx (e : positive) : EVP_ENCODE_CTX := mkCtx 7 7 (Ptr e 0) 7 7.

Definition sample_mem : mem :=
  {[ 1%positive := replicate 80 0; 2%positive := replicate 10 0; 3%positive := replicate 80 0;
     4%positive := replicate 6 0; 5%positive := [200; 100; 50; 25] ]}.

Lemma base64_stream_roundtrip_witness :
  exists m1, encode_stream (sample_ctx 1) (Ptr 2 0) [(Ptr 5 0, 1); (Ptr 5 1, 3)] sample_mem = Ret (Some 9, m1) /\
  bytes_at m1 (Ptr 2 0) [121; 71; 81; 121; 71; 81; 61; 61; 10] /\
  forall lens, list_sum lens = 9%nat ->
  exists m2, decode_stream (sample_ctx 3) (Ptr 4 0) (pieces_of (Ptr 2 0) lens) m1 = Ret (Some 4, m2) /\
    bytes_at m2 (Ptr 4 0) [200; 100; 50; 25].
Proof.
  apply (base64_stream_roundtrip sample_mem (sample_ctx 1) 1 0 2 0 (sample_ctx 3) 3 0 4 0
    [(Ptr 5 0, 1); (Ptr 5 1, 3)] [[200]; [100; 50; 25]]); try done; try (eexists; split; [reflexivity|by vm_compute]).
  repeat constructor; cbn; try done; try lia; by eexists.
Defined.

(** ** Where the code departs *)

(** The length of a line is not adjusted when lines are decoded, and the number of
    characters on the line is not counted. *)
Lemma decode_keeps_length ctx out inp n m r ctx' m' :
  EVP_DecodeUpdate ctx out inp n m = Ret (r, ctx', m') -> ctx_length ctx' = ctx_length ctx /\ line_num ctx' = line_num ctx.
Proof.
  unfold EVP_DecodeUpdate. intros (eof & m1 & _ & H)%bind_inv. destruct (n =? 0); [by inversion H|].
  apply bind_inv in H as ([exit s] & m2 & _ & H). destruct exit; [by inversion H| |].
  all: apply bind_inv in H as ([s'|] & m3 & _ & H); by inversion H.
Qed.
