(* ===== verification/Md32.v ===== *)
(** * Collecting the input of a message digest

    include/crypto/md32_common.h of the vendored OpenSSL: the functions that each
    32-bit digest of the library (MD5, SHA-1, SHA-256, SM3) gets by including the
    header, which cut a message that arrives in pieces into blocks of 64 octets.
    What the including file defines, the block function and the conversion of the
    result, is the class [Digest32]; what it promises is [Digest32Laws], with the
    compression function of the digest's standard as its specification.

    The theorem about the header holds for every digest with these laws: the digest
    of a message is the compression function folded over the padded message, however
    the message is cut. *)

From S2P Require Import Prelude Memory Heap OStr.

(** ** Definitions *)

(** The macros that read and write words, by the order of the octets. *)
Definition HOST_c2l (big : bool) (c : ptr) : M mem Z :=
  c0 ← load c;
  c1 ← load (padd c 1);
  c2 ← load (padd c 2);
  c3 ← load (padd c 3);
  mret (if big
        then Z.lor (Z.lor (Z.lor (Z.shiftl c0 24) (Z.shiftl c1 16)) (Z.shiftl c2 8)) c3
        else Z.lor (Z.lor (Z.lor c0 (Z.shiftl c1 8)) (Z.shiftl c2 16)) (Z.shiftl c3 24)).

Definition HOST_l2c (big : bool) (l : Z) (c : ptr) : M mem ptr :=
  if big then
    store c (Z.land (Z.shiftr l 24) 255);;
    store (padd c 1) (Z.land (Z.shiftr l 16) 255);;
    store (padd c 2) (Z.land (Z.shiftr l 8) 255);;
    store (padd c 3) (Z.land l 255);;
    mret (padd c 4)
  else
    store c (Z.land l 255);;
    store (padd c 1) (Z.land (Z.shiftr l 8) 255);;
    store (padd c 2) (Z.land (Z.shiftr l 16) 255);;
    store (padd c 3) (Z.land (Z.shiftr l 24) 255);;
    mret (padd c 4).

(** [ROTATE] of an [unsigned int]. *)
Definition ROTATE (a n : Z) : Z :=
  Z.lor (to_uint (Z.shiftl a n)) (Z.shiftr (Z.land a 4294967295) (32 - n)).

(** Addition of [unsigned int]s. *)
Definition wadd (a b : Z) : Z := to_uint (a + b).

(** Sums of [unsigned int]s, in any order. *)
Ltac wsum := unfold wadd, to_uint; Z.div_mod_to_equations; lia.

(** The words of a result, one after the other. *)
Fixpoint write_words (big : bool) (ws : list Z) (s : ptr) : M mem ptr :=
  match ws with
  | [] => mret s
  | ll :: ws => s ← HOST_l2c big ll s; write_words big ws s
  end.

(** [X[i & 0x0f]], for an index in a loop. *)
Definition Xat (X : list Z) (i : nat) : Z := nth (Nat.land i 15) X 0.

(** The loop of a block function over [num] blocks. *)
Fixpoint each_block (block : list Z -> ptr -> M mem (list Z)) (num : nat) (ctx : list Z) (data : ptr) : M mem (list Z) :=
  match num with
  | O => mret ctx
  | S num => ctx ← block ctx data; each_block block num ctx (padd data 64)
  end.

(** What the including file defines: the order of the octets, the block function on
    the chaining words, and the conversion of these to the result, which is false
    where the macro returns 0. *)
Class Digest32 : Type := {
  big_endian : bool;
  HASH_BLOCK_DATA_ORDER : list Z -> ptr -> Z -> M mem (list Z);
  HASH_MAKE_STRING : list Z -> Z -> ptr -> M mem bool
}.

(** The context: the chaining words, the number of bits, the array [data], how much
    of it is used, and, for SHA-256, the length of the result. *)
Record HASH_CTX : Type := mkHash {
  chain : list Z;
  Nl : Z;
  Nh : Z;
  hdata : ptr;
  hnum : Z;
  md_len : Z
}.

Definition set_chain (h : list Z) (c : HASH_CTX) : HASH_CTX := mkHash h (Nl c) (Nh c) (hdata c) (hnum c) (md_len c).
Definition set_hnum (n : Z) (c : HASH_CTX) : HASH_CTX := mkHash (chain c) (Nl c) (Nh c) (hdata c) n (md_len c).
Definition set_length (nl nh : Z) (c : HASH_CTX) : HASH_CTX := mkHash (chain c) nl nh (hdata c) (hnum c) (md_len c).

(** The number of bits with [len] octets more. *)
Definition add_length (len : Z) (c : HASH_CTX) : HASH_CTX :=
  let l := Z.land (to_uint (Nl c + to_uint (Z.shiftl (to_uint len) 3))) 4294967295 in
  let nh := if l <? Nl c then to_uint (Nh c + 1) else Nh c in
  set_length l (to_uint (nh + to_uint (Z.shiftr len 29))) c.

Section md32.
Context {D : Digest32}.

(** The whole blocks of the input, and the rest of it to the array. *)
Definition hash_rest (c : HASH_CTX) (data : ptr) (len : Z) : M mem HASH_CTX :=
  let n := len / 64 in
  '(c, data, len) ←
    (if 0 <? n then
       h ← HASH_BLOCK_DATA_ORDER (chain c) data n;
       mret (set_chain h c, padd data (n * 64), len - n * 64)
     else mret (c, data, len));
  if negb (len =? 0) then memcpy (hdata c) data len;; mret (set_hnum (to_uint len) c)
  else mret c.

Definition HASH_UPDATE (c : HASH_CTX) (data : ptr) (len : Z) : M mem HASH_CTX :=
  if len =? 0 then mret c
  else
    let c := add_length len c in
    let n := hnum c in
    let p := hdata c in
    if negb (n =? 0) then
      if (64 <=? len) || (64 <=? to_size (len + n)) then
        memcpy (padd p n) data (64 - n);;
        h ← HASH_BLOCK_DATA_ORDER (chain c) p 1;
        memset p 0 64;;
        hash_rest (set_hnum 0 (set_chain h c)) (padd data (64 - n)) (len - (64 - n))
      else
        memcpy (padd p n) data len;;
        mret (set_hnum (to_uint (n + to_uint len)) c)
    else hash_rest c data len.

Definition HASH_TRANSFORM (c : HASH_CTX) (data : ptr) : M mem HASH_CTX :=
  h ← HASH_BLOCK_DATA_ORDER (chain c) data 1;
  mret (set_chain h c).

Definition HASH_FINAL (md : ptr) (c : HASH_CTX) : M mem (bool * HASH_CTX) :=
  let p := hdata c in
  store (padd p (hnum c)) 128;;
  let n := hnum c + 1 in
  '(c, n) ←
    (if 64 - 8 <? n then
       memset (padd p n) 0 (64 - n);;
       h ← HASH_BLOCK_DATA_ORDER (chain c) p 1;
       mret (set_chain h c, 0)
     else mret (c, n));
  memset (padd p n) 0 (64 - 8 - n);;
  let q := padd p (64 - 8) in
  (if big_endian
   then q ← HOST_l2c big_endian (Nh c) q; HOST_l2c big_endian (Nl c) q
   else q ← HOST_l2c big_endian (Nl c) q; HOST_l2c big_endian (Nh c) q);;
  h ← HASH_BLOCK_DATA_ORDER (chain c) p 1;
  let c := set_hnum 0 (set_chain h c) in
  OPENSSL_cleanse p 64;;
  ok ← HASH_MAKE_STRING (chain c) (md_len c) md;
  mret (ok, c).

(** A message in pieces, each at its place. *)
Fixpoint hash_updates (c : HASH_CTX) (pieces : list (ptr * Z)) : M mem HASH_CTX :=
  match pieces with
  | [] => mret c
  | (data, len) :: pieces => c ← HASH_UPDATE c data len; hash_updates c pieces
  end.

Definition hash_message (c : HASH_CTX) (pieces : list (ptr * Z)) (md : ptr) : M mem bool :=
  c ← hash_updates c pieces;
  '(ok, _) ← HASH_FINAL md c;
  mret ok.
End md32.

(** ** Specification *)

(** The [n] octets of a number, in an order. *)
Definition octets (big : bool) (n : nat) (v : Z) : list Z :=
  let l := map (fun i => v / 256 ^ Z.of_nat i mod 256) (seq 0 n) in
  if big then rev l else l.

Definition word (z : Z) : Prop := 0 <= z < 4294967296.

(** The blocks of a message, one after the other. *)
Fixpoint absorb (compress : list Z -> list Z -> list Z) (n : nat) (h bs : list Z) : list Z :=
  match n with
  | O => h
  | S n => absorb compress n (compress h (take 64 bs)) (drop 64 bs)
  end.

(** The padding of a message of [n] octets: a one bit, zeros up to the last eight
    octets of a block, and in these the number of bits. *)
Definition padding (big : bool) (n : nat) : list Z :=
  let d := (n mod 64)%nat in
  [128] ++ replicate (if decide (d <= 55)%nat then 55 - d else 119 - d) 0 ++ octets big 8 (8 * Z.of_nat n mod 2 ^ 64).

Definition digest_blocks (big : bool) (compress : list Z -> list Z -> list Z) (iv bs : list Z) : list Z :=
  let t := bs ++ padding big (length bs) in absorb compress (length t / 64) iv t.

(** The octets of some words. *)
Definition word_octets (big : bool) (ws : list Z) : list Z := concat (map (octets big 4) ws).

(** The word that four octets stand for, and the sixteen words of a block. *)
Definition word_of (big : bool) (l : list Z) : Z :=
  match (if big then l else rev l) with
  | [a; b; c; d] => a * 16777216 + b * 65536 + c * 256 + d
  | _ => 0
  end.

Definition words_of (big : bool) (blk : list Z) : list Z :=
  map (fun i => word_of big (take 4 (drop (4 * i) blk))) (seq 0 16).

(** Rotation to the left. *)
Definition rotl (n x : Z) : Z := x * 2 ^ n mod 4294967296 + x / 2 ^ (32 - n).

(** A list of words with [n] more, each made from those before it. *)
Definition extend (next : list Z -> Z) (w : list Z) (n : nat) : list Z := Nat.iter n (fun w => w ++ [next w]) w.

(** What a digest promises: its compression function, the shape of its chaining
    words, and the number of them in the result for the field [md_len]. *)
Class Digest32Spec : Type := {
  compress : list Z -> list Z -> list Z;
  chain_words : nat;
  result_words : Z -> option nat
}.

Class Digest32Laws {D : Digest32} {S : Digest32Spec} : Prop := {
  compress_words h blk : length h = chain_words -> Forall word h -> length blk = 64%nat -> Forall is_byte blk ->
    length (compress h blk) = chain_words /\ Forall word (compress h blk);
  block_run m p h bs n : (0 < n)%nat -> length bs = (64 * n)%nat -> bytes_at m p bs -> Forall is_byte bs ->
    length h = chain_words -> Forall word h ->
    HASH_BLOCK_DATA_ORDER h p (Z.of_nat n) m = Ret (absorb compress n h bs, m);
  make_string_run m h len k b o : result_words len = Some k -> length h = chain_words -> Forall word h ->
    let r := word_octets big_endian (take k h) in
    room m (Ptr b o) (Z.of_nat (length r)) ->
    HASH_MAKE_STRING h len (Ptr b o) m = Ret (true, mwrite m (Ptr b o) r)
}.

(** ** Lemmas *)

Lemma octets_4 big v :
  let l := [v / 16777216 mod 256; v / 65536 mod 256; v / 256 mod 256; v mod 256] in
  octets big 4 v = if big then l else rev l.
Proof. unfold octets. cbn [seq map rev app]. change (256 ^ Z.of_nat 0) with 1. rewrite Z.div_1_r. by destruct big. Qed.

Lemma octets_8 big v :
  octets big 8 v =
    if big then octets big 4 (v / 4294967296) ++ octets big 4 (v mod 4294967296)
    else octets big 4 (v mod 4294967296) ++ octets big 4 (v / 4294967296).
Proof.
  assert (forall i, (i < 4)%nat -> (v mod 4294967296) / 256 ^ Z.of_nat i mod 256 = v / 256 ^ Z.of_nat i mod 256) as Hl.
  { intros i Hi. rewrite (Z.div_mod v 4294967296) at 2 by lia. rewrite Z.add_comm.
    replace (4294967296 * (v / 4294967296)) with (v / 4294967296 * 256 ^ (3 - Z.of_nat i) * 256 * 256 ^ Z.of_nat i).
    - rewrite Z.div_add by (apply Z.pow_nonzero; lia). by rewrite Z.mod_add by lia.
    - rewrite <- !Z.mul_assoc, (Z.mul_comm 256 (256 ^ _)), (Z.mul_assoc (256 ^ _)), <- Z.pow_add_r by lia.
      replace (3 - Z.of_nat i + Z.of_nat i) with 3 by lia. change (256 ^ 3 * 256) with 4294967296. lia. }
  assert (forall i, v / 4294967296 / 256 ^ Z.of_nat i = v / 256 ^ Z.of_nat (4 + i)) as Hh.
  { intros i. rewrite Z.div_div by (try apply Z.pow_pos_nonneg; lia). f_equal.
    rewrite Nat2Z.inj_add, Z.pow_add_r by lia. done. }
  unfold octets. cbn [seq map rev app]. rewrite !Hl, !Hh by lia. by destruct big.
Qed.

Lemma octets_length big n v : length (octets big n v) = n.
Proof. unfold octets. destruct big; rewrite ?length_rev, length_map, length_seq; done. Qed.

Lemma octets_byte big n v : Forall is_byte (octets big n v).
Proof.
  unfold octets. assert (Forall is_byte (map (fun i => v / 256 ^ Z.of_nat i mod 256) (seq 0 n))) as H.
  { apply Forall_map, Forall_forall. intros i _. cbn. apply Z.mod_pos_bound. lia. }
  destruct big; [|done]. by apply Forall_rev.
Qed.

Lemma land_word32 z : Z.land z 4294967295 = z mod 4294967296.
Proof. change 4294967295 with (Z.ones 32). rewrite Z.land_ones by lia. done. Qed.

Lemma word_of_word big a b c d :
  is_byte a -> is_byte b -> is_byte c -> is_byte d -> word (word_of big [a; b; c; d]).
Proof. unfold is_byte, word. intros. destruct big; cbn; lia. Qed.

Lemma quad_lor a b c d : is_byte a -> is_byte b -> is_byte c -> is_byte d ->
  Z.lor (Z.lor (Z.lor (Z.shiftl a 24) (Z.shiftl b 16)) (Z.shiftl c 8)) d = a * 16777216 + b * 65536 + c * 256 + d.
Proof.
  unfold is_byte. intros. rewrite !Z.shiftl_mul_pow2 by lia. rewrite (lor_low a (b * 2 ^ 16) 24) by lia.
  replace (a * 2 ^ 24 + b * 2 ^ 16) with ((a * 256 + b) * 2 ^ 16) by lia. rewrite (lor_low _ (c * 2 ^ 8) 16) by lia.
  replace ((a * 256 + b) * 2 ^ 16 + c * 2 ^ 8) with ((a * 65536 + b * 256 + c) * 2 ^ 8) by lia. rewrite lor_low by lia. lia.
Qed.

Lemma HOST_c2l_run big m p a b c d r :
  bytes_at m p (a :: b :: c :: d :: r) -> is_byte a -> is_byte b -> is_byte c -> is_byte d ->
  HOST_c2l big p m = Ret (word_of big [a; b; c; d], m).
Proof.
  intros H Ha Hb Hc Hd. unfold HOST_c2l.
  rewrite (bind_ret _ _ _ _ _ (load_at _ _ _ _ H)).
  apply (bytes_at_app m p [a]) in H as [_ H]. rewrite (bind_ret _ _ _ _ _ (load_at _ _ _ _ H)).
  apply (bytes_at_app m _ [b]) in H as [_ H]. rewrite padd_padd in H. rewrite (bind_ret _ _ _ _ _ (load_at _ _ _ _ H)).
  apply (bytes_at_app m _ [c]) in H as [_ H]. rewrite padd_padd in H. rewrite (bind_ret _ _ _ _ _ (load_at _ _ _ _ H)).
  rewrite mret_run. destruct big; cbn [word_of rev app].
  - by rewrite quad_lor.
  - rewrite <- quad_lor by done. rewrite !(Z.lor_comm _ (Z.shiftl d 24)), <- !Z.lor_assoc. do 3 f_equal.
    rewrite Z.lor_assoc, (Z.lor_comm _ (Z.shiftl c 16)). f_equal. apply Z.lor_comm.
Qed.

(** Four stores behind what is written. *)
Lemma store_4 m b o acc c0 c1 c2 c3 :
  is_byte c0 -> is_byte c1 -> is_byte c2 -> is_byte c3 -> room m (Ptr b o) (Z.of_nat (length acc) + 4) ->
  let t := Ptr b (o + Z.of_nat (length acc)) in
  (store t c0;; store (padd t 1) c1;; store (padd t 2) c2;; store (padd t 3) c3;; mret (padd t 4)) (mwrite m (Ptr b o) acc) =
    Ret (Ptr b (o + Z.of_nat (length (acc ++ [c0; c1; c2; c3]))), mwrite m (Ptr b o) (acc ++ [c0; c1; c2; c3])).
Proof.
  intros H0 H1 H2 H3 Hr t. unfold t. cbn [padd].
  assert (forall l v k, Z.of_nat (length l) = k -> (length l < 4)%nat ->
    store (Ptr b (o + Z.of_nat (length acc) + k)) v (mwrite m (Ptr b o) (acc ++ l)) =
      Ret (tt, mwrite m (Ptr b o) (acc ++ l ++ [to_uchar v]))) as Hst.
  { intros l v k <- Hl. replace (o + Z.of_nat (length acc) + Z.of_nat (length l)) with (o + Z.of_nat (length (acc ++ l)))
      by (rewrite length_app; lia).
    rewrite store_behind by (eapply room_le; [exact Hr|rewrite length_app; lia]). by rewrite <- app_assoc. }
  pose proof (Hst [] c0 0 eq_refl ltac:(cbn; lia)) as E0. rewrite Z.add_0_r, app_nil_r in E0. cbn [app] in E0.
  rewrite (bind_ret _ _ _ _ _ E0), to_uchar_id by done.
  pose proof (Hst [c0] c1 1 eq_refl ltac:(cbn; lia)) as E1. cbn [app] in E1. rewrite (bind_ret _ _ _ _ _ E1), to_uchar_id by done.
  pose proof (Hst [c0; c1] c2 2 eq_refl ltac:(cbn; lia)) as E2. cbn [app] in E2. rewrite (bind_ret _ _ _ _ _ E2), to_uchar_id by done.
  pose proof (Hst [c0; c1; c2] c3 3 eq_refl ltac:(cbn; lia)) as E3. cbn [app] in E3.
  rewrite (bind_ret _ _ _ _ _ E3), to_uchar_id, mret_run by done. rewrite length_app, Nat2Z.inj_add, Z.add_assoc. done.
Qed.

Lemma HOST_l2c_run big m b o acc l :
  word l -> room m (Ptr b o) (Z.of_nat (length acc) + 4) ->
  HOST_l2c big l (Ptr b (o + Z.of_nat (length acc))) (mwrite m (Ptr b o) acc) =
    Ret (Ptr b (o + Z.of_nat (length (acc ++ octets big 4 l))), mwrite m (Ptr b o) (acc ++ octets big 4 l)).
Proof.
  intros Hl Hr. unfold HOST_l2c. rewrite !Z.shiftr_div_pow2, !land_255, octets_4 by lia.
  assert (forall z, is_byte (z mod 256)) as Hm by (intros z; apply Z.mod_pos_bound; lia).
  destruct big; cbn [rev app]; by apply store_4.
Qed.

Lemma word_to_uint z : word (to_uint z).
Proof. apply Z.mod_pos_bound. lia. Qed.

Lemma wadd_word a b : word (wadd a b).
Proof. apply word_to_uint. Qed.

Lemma write_words_run big ws : forall m b o acc,
  Forall word ws -> room m (Ptr b o) (Z.of_nat (length (acc ++ word_octets big ws))) ->
  exists q, write_words big ws (Ptr b (o + Z.of_nat (length acc))) (mwrite m (Ptr b o) acc) =
    Ret (q, mwrite m (Ptr b o) (acc ++ word_octets big ws)).
Proof.
  induction ws as [|w ws IH]; intros m b o acc Hw Hr; cbn [write_words].
  { eexists. by rewrite app_nil_r. }
  apply Forall_cons in Hw as [Hw1 Hw]. change (word_octets big (w :: ws)) with (octets big 4 w ++ word_octets big ws) in *.
  rewrite !length_app, octets_length in Hr.
  erewrite bind_ret by (apply HOST_l2c_run; [done|eapply room_le; [exact Hr|lia]]).
  destruct (IH m b o (acc ++ octets big 4 w) Hw) as (q & E); [eapply room_le; [exact Hr|rewrite !length_app, octets_length; lia]|].
  exists q. by rewrite E, <- app_assoc.
Qed.

Lemma HOST_c2l_block big m p blk i :
  bytes_at m p blk -> length blk = 64%nat -> Forall is_byte blk -> (i < 16)%nat ->
  HOST_c2l big (padd p (Z.of_nat (4 * i))) m = Ret (nth i (words_of big blk) 0, m).
Proof.
  intros Hb Hl Hy Hi. rewrite <- (take_drop (4 * i) blk) in Hb. apply bytes_at_app in Hb as [_ Hb].
  rewrite length_take, Nat.min_l in Hb by lia. assert (length (drop (4 * i) blk) = 64 - 4 * i)%nat as Hd by (rewrite length_drop; lia).
  unfold words_of. rewrite (nth_indep _ 0 (word_of big (take 4 (drop (4 * 0) blk)))) by (rewrite length_map, length_seq; done).
  rewrite (map_nth (fun i => word_of big (take 4 (drop (4 * i) blk)))), seq_nth by done. rewrite Nat.add_0_l.
  assert (Forall is_byte (drop (4 * i) blk)) as Hdy by by apply Forall_drop.
  destruct (drop (4 * i) blk) as [|a [|b [|c [|d r]]]]; cbn [length] in Hd; try lia.
  rewrite !Forall_cons in Hdy. destruct Hdy as (? & ? & ? & ? & _). by apply (HOST_c2l_run big m _ a b c d r).
Qed.

Lemma words_of_length big blk : length (words_of big blk) = 16%nat.
Proof. done. Qed.

Lemma words_of_word big blk : length blk = 64%nat -> Forall is_byte blk -> Forall word (words_of big blk).
Proof.
  intros Hl Hy. apply Forall_map, Forall_forall. intros i Hi. apply elem_of_seq in Hi. cbv beta.
  assert (length (drop (4 * i) blk) = 64 - 4 * i)%nat as Hd by (rewrite length_drop; lia).
  assert (Forall is_byte (drop (4 * i) blk)) as Hdy by by apply Forall_drop.
  destruct (drop (4 * i) blk) as [|a [|b [|c [|d r]]]]; cbn [length] in Hd; try lia.
  rewrite !Forall_cons in Hdy. destruct Hdy as (? & ? & ? & ? & _). by apply word_of_word.
Qed.

Lemma absorb_app f n : forall h a y k, length a = (64 * n)%nat -> absorb f (n + k) h (a ++ y) = absorb f k (absorb f n h a) y.
Proof.
  induction n as [|n IH]; intros h a y k Ha.
  { by destruct a. }
  cbn [Nat.add absorb]. rewrite take_app_le, drop_app_le by lia. apply IH. rewrite length_drop. lia.
Qed.

Lemma absorb_take f n h bs : absorb f n h (take (64 * n) bs) = absorb f n h bs.
Proof.
  revert h bs. induction n as [|n IH]; intros h bs; [done|]. cbn [absorb].
  rewrite take_take, <- (IH _ (drop 64 bs)), take_drop_commute. do 2 f_equal; [f_equal; lia|do 2 f_equal; lia].
Qed.

(** Bits of words. *)
Lemma word_high x i : word x -> 32 <= i -> Z.testbit x i = false.
Proof.
  intros Hx Hi. rewrite <- (Z.mod_small x 4294967296) by done. change 4294967296 with (2 ^ 32).
  by apply Z.mod_pow2_bits_high.
Qed.

Lemma not_testbit x i : 0 <= i -> Z.testbit (to_uint (Z.lnot x)) i = (i <? 32) && negb (Z.testbit x i).
Proof.
  intros Hi. unfold to_uint. change 4294967296 with (2 ^ 32). destruct (Z.ltb_spec i 32).
  - rewrite Z.mod_pow2_bits_low, Z.lnot_spec by lia. done.
  - by rewrite Z.mod_pow2_bits_high by lia.
Qed.

Lemma word_lxor x y : word x -> word y -> word (Z.lxor x y).
Proof.
  intros Hx Hy. assert (Z.lxor x y = to_uint (Z.lxor x y)) as ->; [|apply Z.mod_pos_bound; lia].
  apply Z.bits_inj'. intros i Hi. unfold to_uint. change 4294967296 with (2 ^ 32). destruct (Z.lt_ge_cases i 32).
  - by rewrite Z.mod_pow2_bits_low by lia.
  - rewrite Z.mod_pow2_bits_high, Z.lxor_spec, !word_high by lia || done. done.
Qed.

(** Two expressions on words are equal bit by bit. *)
Ltac wbits :=
  apply Z.bits_inj'; intros ?i ?Hi;
  repeat first [ rewrite Z.lxor_spec | rewrite Z.land_spec | rewrite Z.lor_spec | rewrite not_testbit by assumption ];
  match goal with
  | |- context [Z.ltb ?i 32] => destruct (Z.ltb_spec i 32)
  | _ => idtac
  end;
  repeat match goal with
  | H : word ?x, Hi : 32 <= ?i |- context [Z.testbit ?x ?i] => rewrite (word_high x i H Hi)
  end;
  repeat match goal with |- context [Z.testbit ?x ?i] => destruct (Z.testbit x i) end; reflexivity.

(** A value that is bound to a name. *)
Lemma let_step {A B} (v : A) (f : A -> M mem B) m r :
  (forall x, x = v -> f x m = r) -> (mbind f (mret v)) m = r.
Proof. intros H. by apply H. Qed.

Lemma ROTATE_rotl x n : word x -> 0 < n < 32 -> ROTATE x n = rotl n x.
Proof.
  unfold word, ROTATE, rotl, to_uint. intros Hx Hn. rewrite land_word32, (Z.mod_small x) by done.
  rewrite Z.shiftl_mul_pow2, Z.shiftr_div_pow2 by lia.
  assert (2 ^ n * 2 ^ (32 - n) = 4294967296) as E by (rewrite <- Z.pow_add_r by lia; by replace (n + (32 - n)) with 32 by lia).
  pose proof (Z.pow_pos_nonneg 2 n ltac:(lia) ltac:(lia)) as H1. pose proof (Z.pow_pos_nonneg 2 (32 - n) ltac:(lia) ltac:(lia)) as H2.
  rewrite <- E, (Z.mul_comm x), Z.mul_mod_distr_l by lia.
  rewrite (Z.mul_comm (2 ^ n)), lor_low; [lia|lia|].
  split; [apply Z.div_pos; lia|]. apply Z.div_lt_upper_bound; lia.
Qed.

Lemma rotl_word n x : word x -> 0 < n < 32 -> word (rotl n x).
Proof.
  unfold word, rotl. intros Hx Hn.
  assert (2 ^ n * 2 ^ (32 - n) = 4294967296) as E by (rewrite <- Z.pow_add_r by lia; by replace (n + (32 - n)) with 32 by lia).
  pose proof (Z.pow_pos_nonneg 2 n ltac:(lia) ltac:(lia)) as H1. pose proof (Z.pow_pos_nonneg 2 (32 - n) ltac:(lia) ltac:(lia)) as H2.
  rewrite <- E, (Z.mul_comm x), Z.mul_mod_distr_l by lia.
  pose proof (Z.mod_pos_bound x (2 ^ (32 - n)) H2) as Hm.
  assert (0 <= x / 2 ^ (32 - n) < 2 ^ n) as Hd.
  { split; [apply Z.div_pos; lia|]. apply Z.div_lt_upper_bound; lia. }
  nia.
Qed.

Lemma extend_length next w n : length (extend next w n) = (length w + n)%nat.
Proof.
  induction n as [|n IH]; [cbn; lia|]. change (extend next w (S n)) with (extend next w n ++ [next (extend next w n)]).
  rewrite length_app, IH. cbn [length]. lia.
Qed.

Lemma extend_prefix next w n k j : (j < length w + n)%nat -> nth j (extend next w (n + k)) 0 = nth j (extend next w n) 0.
Proof.
  intros Hj. induction k as [|k IH]; [by rewrite Nat.add_0_r|].
  rewrite Nat.add_succ_r. change (extend next w (S (n + k))) with (extend next w (n + k) ++ [next (extend next w (n + k))]).
  rewrite app_nth1; [done|]. rewrite extend_length. lia.
Qed.

(** A word that was added, and the words it was made from. *)
Lemma extend_nth next w n j : (length w <= j < length w + n)%nat ->
  nth j (extend next w n) 0 = next (extend next w (j - length w)) /\
  forall i, (i < j)%nat -> nth i (extend next w (j - length w)) 0 = nth i (extend next w n) 0.
Proof.
  intros Hj. set (k := (j - length w)%nat).
  assert (forall i, (i <= j)%nat -> nth i (extend next w n) 0 = nth i (extend next w (S k)) 0) as H.
  { intros i Hi. replace n with (S k + (n - S k))%nat at 1 by lia. apply extend_prefix. lia. }
  change (extend next w (S k)) with (extend next w k ++ [next (extend next w k)]) in H. split.
  - rewrite H, app_nth2, extend_length by (rewrite ?extend_length; lia). by replace (j - (length w + k))%nat with 0%nat by lia.
  - intros i Hi. rewrite H, app_nth1 by (rewrite ?extend_length; lia). done.
Qed.

Lemma extend_words next w n : (forall l, Forall word l -> word (next l)) -> Forall word w -> Forall word (extend next w n).
Proof.
  intros Hn Hw. induction n as [|n IH]; [done|].
  change (extend next w (S n)) with (extend next w n ++ [next (extend next w n)]). apply Forall_app. split; [done|].
  constructor; [by apply Hn|by apply Forall_nil].
Qed.

Lemma word_nth l i : Forall word l -> word (nth i l 0).
Proof.
  intros Hl. rewrite Forall_nth in Hl. destruct (decide (i < length l)%nat) as [H|H]; [by apply Hl|].
  rewrite nth_overflow by lia. done.
Qed.

(** The array [X] holds the last sixteen words before [i]. *)
Definition window (W : list Z) (X : list Z) (i : nat) : Prop :=
  length X = 16%nat /\ forall j, (i - 16 <= j < i)%nat -> nth (j mod 16) X 0 = nth j W 0.

Lemma land_15 i : Nat.land i 15 = (i mod 16)%nat.
Proof. change 15%nat with (Nat.ones 4). by rewrite Nat.land_ones. Qed.

Lemma window_at W X i k j : window W X i -> (i - 16 <= j < i)%nat -> (k mod 16 = j mod 16)%nat -> Xat X k = nth j W 0.
Proof. intros [_ H] Hj E. unfold Xat. rewrite land_15, E. by apply H. Qed.

(** Chaining words that a block function takes and gives. *)
Lemma each_block_run block f (ok : list Z -> Prop) n : forall m p h bs,
  (forall m p h blk, bytes_at m p blk -> length blk = 64%nat -> Forall is_byte blk -> ok h -> block h p m = Ret (f h blk, m)) ->
  (forall h blk, ok h -> length blk = 64%nat -> Forall is_byte blk -> ok (f h blk)) ->
  length bs = (64 * n)%nat -> bytes_at m p bs -> Forall is_byte bs -> ok h ->
  each_block block n h p m = Ret (absorb f n h bs, m).
Proof.
  intros m p h bs Hblock Hok. revert m p h bs. induction n as [|n IH]; intros m p h bs Hl Hb Hy Hh; [done|]. cbn [each_block absorb].
  rewrite <- (take_drop 64 bs) in Hb. apply bytes_at_app in Hb as [Hb1 Hb2].
  assert (length (take 64 bs) = 64%nat) as Ht by (rewrite length_take; lia). rewrite Ht in Hb2.
  rewrite (bind_ret _ _ _ _ _ (Hblock m p h (take 64 bs) Hb1 Ht (Forall_take _ _ _ Hy) Hh)).
  apply IH; [rewrite length_drop; lia|done|by apply Forall_drop|apply Hok; [done|done|by apply Forall_take]].
Qed.

Lemma add_length_nums len c n :
  0 <= len < 2 ^ 64 -> word (Nl c) -> word (Nh c) -> Nh c * 4294967296 + Nl c = n mod 2 ^ 64 ->
  word (Nl (add_length len c)) /\ word (Nh (add_length len c)) /\
  Nh (add_length len c) * 4294967296 + Nl (add_length len c) = (n + 8 * len) mod 2 ^ 64.
Proof.
  unfold word, add_length. intros Hlen Hl Hh E. cbn [Nl Nh set_length]. rewrite land_word32, Z.shiftl_mul_pow2, Z.shiftr_div_pow2 by lia.
  change (2 ^ 64) with 18446744073709551616 in *. change (2 ^ 3) with 8. change (2 ^ 29) with 536870912. unfold to_uint.
  set (l := ((Nl c + (len mod 4294967296 * 8) mod 4294967296) mod 4294967296) mod 4294967296).
  assert (l = (Nl c + 8 * len) mod 4294967296) as El.
  { unfold l. rewrite Z.mod_mod, Z.mul_mod_idemp_l, Z.add_mod_idemp_r, (Z.mul_comm len) by lia. done. }
  clearbody l. subst l.
  assert (0 <= (Nl c + 8 * len) mod 4294967296 < 4294967296) as Hm by (apply Z.mod_pos_bound; lia).
  split; [done|]. split; [destruct (_ <? _); apply Z.mod_pos_bound; lia|].
  set (h := if _ <? _ then _ else _).
  assert (h mod 4294967296 = (Nh c + (Nl c + 8 * len) / 4294967296 - 8 * len / 4294967296) mod 4294967296) as Eh.
  { unfold h. destruct (Z.ltb_spec ((Nl c + 8 * len) mod 4294967296) (Nl c)) as [Hlt|Hge].
    - rewrite Z.mod_mod by lia. f_equal. Z.div_mod_to_equations. lia.
    - f_equal. Z.div_mod_to_equations. lia. }
  rewrite <- Z.add_mod_idemp_l, Eh, Z.add_mod_idemp_l, Z.add_mod_idemp_r by lia.
  replace (8 * len / 4294967296) with (len / 536870912) by (rewrite <- (Z.div_mul_cancel_l len 536870912 8) by lia; f_equal; lia).
  assert ((n + 8 * len) mod 18446744073709551616 = (Nh c * 4294967296 + Nl c + 8 * len) mod 18446744073709551616) as ->.
  { rewrite E. by rewrite Z.add_mod_idemp_l by lia. }
  set (q := (Nl c + 8 * len) / 4294967296).
  assert (Nh c * 4294967296 + Nl c + 8 * len = (Nh c + q) * 4294967296 + (Nl c + 8 * len) mod 4294967296) as ->.
  { unfold q. Z.div_mod_to_equations. lia. }
  replace (Nh c + q - len / 536870912 + len / 536870912) with (Nh c + q) by lia.
  clear -Hm. set (r := (Nl c + 8 * len) mod 4294967296) in *. set (t := Nh c + q) in *. Z.div_mod_to_equations. lia.
Qed.

Lemma room_bytes_nil m p n : room m p n -> bytes_at m p [].
Proof. destruct p as [| |b o]; intros (l & Hl & _); [done|done|]. by exists l. Qed.

Section collecting.
Context {D : Digest32} {SP : Digest32Spec} {L : Digest32Laws}.

Definition words_ok (h : list Z) : Prop := length h = chain_words /\ Forall word h.

Lemma absorb_words n : forall h bs, words_ok h -> (64 * n <= length bs)%nat -> Forall is_byte bs -> words_ok (absorb compress n h bs).
Proof using L.
  induction n as [|n IH]; intros h bs Hh Hl Hb; [done|]. cbn [absorb]. apply IH.
  - destruct Hh. apply compress_words; [done|done|rewrite length_take; lia|by apply Forall_take].
  - rewrite length_drop. lia.
  - by apply Forall_drop.
Qed.

Lemma hash_rest_run m c e eo inp y :
  let n := (length y / 64)%nat in
  hdata c = Ptr e eo -> room m (Ptr e eo) 64 -> source_at m inp y -> ~ in_block inp e -> Forall is_byte y ->
  hnum c = 0 -> words_ok (chain c) ->
  exists m',
    hash_rest c inp (Z.of_nat (length y)) m =
      Ret (set_hnum (Z.of_nat (length (drop (64 * n) y))) (set_chain (absorb compress n (chain c) y) c), m') /\
    bytes_at m' (Ptr e eo) (drop (64 * n) y) /\ room m' (Ptr e eo) 64 /\ elsewhere m m' e e.
Proof using L.
  intros n Hd Hr Hs Hnb Hy Hn [Hw1 Hw2]. pose proof (Nat.div_mod_eq (length y) 64) as Hdm. pose proof (Nat.mod_upper_bound (length y) 64) as Hmu.
  fold n in Hdm. destruct (source_at_split m inp y (64 * n) Hs ltac:(lia)) as [Hs1 Hs2].
  unfold hash_rest. replace (Z.of_nat (length y) / 64) with (Z.of_nat n) by (change 64 with (Z.of_nat 64); by rewrite <- Nat2Z.inj_div).
  assert (exists c', (if 0 <? Z.of_nat n then
      h ← HASH_BLOCK_DATA_ORDER (chain c) inp (Z.of_nat n);
      mret (set_chain h c, padd inp (Z.of_nat n * 64), Z.of_nat (length y) - Z.of_nat n * 64)
    else mret (c, inp, Z.of_nat (length y))) m =
    Ret ((c', padd inp (Z.of_nat (64 * n)), Z.of_nat (length (drop (64 * n) y))), m) /\
    c' = set_chain (absorb compress n (chain c) y) c) as (c' & E & ->).
  { rewrite length_drop. destruct n as [|n'] eqn:En.
    - exists c. rewrite Nat.mul_0_r, Nat.sub_0_r. assert (padd inp (Z.of_nat 0) = inp) as -> by apply padd_0. split; [done|by destruct c].
    - replace (0 <? Z.of_nat (S n')) with true by lia. eexists.
      destruct Hs1 as [Hs1|Hs1]; [apply (f_equal length) in Hs1; rewrite length_take in Hs1; cbn [length] in Hs1; lia|].
      erewrite bind_ret by (apply (block_run m inp (chain c) (take (64 * S n') y) (S n'));
        [lia|rewrite length_take; lia|exact Hs1|by apply Forall_take|done|done]).
      rewrite absorb_take, mret_run. split; [|reflexivity].
      replace (Z.of_nat (S n') * 64) with (Z.of_nat (64 * S n')) by lia. do 3 f_equal. lia. }
  rewrite (bind_ret _ _ _ _ _ E). cbv beta iota. set (r := drop (64 * n) y) in *.
  assert (length r < 64)%nat as Hrl by (unfold r; rewrite length_drop; lia).
  destruct r as [|r0 r'] eqn:Er.
  - exists m. cbn [length]. change (negb (Z.of_nat 0 =? 0)) with false. cbv iota. rewrite mret_run.
    split; [destruct c; cbn in Hn; by subst|]. split; [by eapply room_bytes_nil|]. done.
  - rewrite <- Er in *. replace (Z.of_nat (length r) =? 0) with false by (rewrite Er; cbn; lia). cbn [negb hdata set_chain].
    rewrite Hd. exists (mwrite m (Ptr e eo) r).
    assert (room m (Ptr e eo) (Z.of_nat (length r))) as Hr1 by (eapply room_le; [exact Hr|lia]).
    erewrite bind_ret by (apply (memcpy_at _ _ _ e); [exact Hs2|done|done|by apply not_in_block_padd|lia]).
    rewrite mret_run. unfold to_uint. rewrite Z.mod_small by lia. split; [done|].
    split; [by apply bytes_at_mwrite_eq|]. split; [rewrite room_mwrite; [done|done|lia]|].
    intros b' ? _. by apply lookup_mwrite_ne.
Qed.

(** [pre] has gone through the block function, and [d] is in the array. *)
Record hashing (m : mem) (c : HASH_CTX) (iv : list Z) (e : positive) (eo : Z) (k : nat) (pre d : list Z) : Prop := mkHashing {
  hs_data : hdata c = Ptr e eo;
  hs_room : room m (Ptr e eo) 64;
  hs_bytes : bytes_at m (Ptr e eo) d;
  hs_num : hnum c = Z.of_nat (length d);
  hs_short : (length d < 64)%nat;
  hs_blocks : length pre = (64 * k)%nat;
  hs_chain : chain c = absorb compress k iv pre;
  hs_words : words_ok (chain c);
  hs_octets : Forall is_byte (pre ++ d);
  hs_nl : word (Nl c);
  hs_nh : word (Nh c);
  hs_bits : Nh c * 4294967296 + Nl c = 8 * Z.of_nat (length (pre ++ d)) mod 2 ^ 64
}.

(** The whole array goes through the block function. *)
Lemma block_array m e eo d h :
  bytes_at m (Ptr e eo) d -> length d = 64%nat -> Forall is_byte d -> words_ok h ->
  HASH_BLOCK_DATA_ORDER h (Ptr e eo) 1 m = Ret (compress h d, m).
Proof using L.
  intros Hb Hl Hd [H1 H2]. change 1 with (Z.of_nat 1). rewrite (block_run m (Ptr e eo) h d 1) by (done || lia).
  cbn [absorb]. by rewrite take_ge by lia.
Qed.

(** A write to the array behind [d]. *)
Lemma array_write m e eo d x :
  room m (Ptr e eo) 64 -> bytes_at m (Ptr e eo) d -> (length d + length x <= 64)%nat ->
  let m' := mwrite m (Ptr e (eo + Z.of_nat (length d))) x in
  room m (Ptr e (eo + Z.of_nat (length d))) (Z.of_nat (length x)) /\
  bytes_at m' (Ptr e eo) (d ++ x) /\ room m' (Ptr e eo) 64 /\ elsewhere m m' e e.
Proof using.
  intros Hr Hb Hl m'. assert (room m (Ptr e (eo + Z.of_nat (length d))) (Z.of_nat (length x))) as Hx.
  { apply (room_padd _ _ _ (Z.of_nat (length d))) in Hr; [|lia]. eapply room_le; [exact Hr|lia]. }
  split; [done|]. split; [|split].
  - apply (bytes_at_grow m (Ptr e eo)); [done|]. eapply room_le; [exact Hr|lia].
  - unfold m'. rewrite room_mwrite; [done|done|lia].
  - intros b' ? _. by apply lookup_mwrite_ne.
Qed.

(** Blocks behind blocks. *)
Lemma hashing_rest m m0 c iv e eo k pre inp y bits :
  hdata c = Ptr e eo -> room m (Ptr e eo) 64 -> source_at m inp y -> ~ in_block inp e ->
  hnum c = 0 -> length pre = (64 * k)%nat -> chain c = absorb compress k iv pre -> words_ok (chain c) ->
  Forall is_byte (pre ++ y) -> word (Nl c) -> word (Nh c) -> elsewhere m0 m e e ->
  bits = pre ++ y -> Nh c * 4294967296 + Nl c = 8 * Z.of_nat (length bits) mod 2 ^ 64 ->
  exists m' c' k' pre' d',
    hash_rest c inp (Z.of_nat (length y)) m = Ret (c', m') /\ hashing m' c' iv e eo k' pre' d' /\
    pre' ++ d' = bits /\ elsewhere m0 m' e e /\ md_len c' = md_len c.
Proof using L.
  intros Hd Hr Hs Hnb Hn Hk Hc Hw Hy Hl Hh Hel -> Hb. pose proof Hy as Hy0. apply Forall_app in Hy as [_ Hy].
  destruct (hash_rest_run m c e eo inp y Hd Hr Hs Hnb Hy Hn Hw) as (m' & E & Hb' & Hr' & Hel').
  set (n := (length y / 64)%nat) in *. pose proof (Nat.div_mod_eq (length y) 64) as Hdm. fold n in Hdm.
  pose proof (Nat.mod_upper_bound (length y) 64) as Hmu.
  eexists m', _, (k + n)%nat, (pre ++ take (64 * n) y), (drop (64 * n) y). split; [exact E|].
  rewrite <- (app_assoc pre), take_drop. split; [|split; [done|split; [intros b' H1 H2; by rewrite Hel', Hel|done]]].
  split; cbn [set_hnum set_chain hdata hnum chain Nl Nh]; try done.
  - rewrite length_drop. lia.
  - rewrite length_app, length_take. lia.
  - rewrite absorb_app by done. by rewrite absorb_take, <- Hc.
  - apply absorb_words; [done|lia|done].
  - by rewrite <- app_assoc, take_drop.
  - by rewrite <- app_assoc, take_drop.
Qed.

Lemma HASH_UPDATE_run m c iv e eo k pre d inp x :
  hashing m c iv e eo k pre d -> source_at m inp x -> ~ in_block inp e -> Forall is_byte x -> Z.of_nat (length x) < 2 ^ 64 ->
  exists m' c' k' pre' d',
    HASH_UPDATE c inp (Z.of_nat (length x)) m = Ret (c', m') /\ hashing m' c' iv e eo k' pre' d' /\
    pre' ++ d' = pre ++ d ++ x /\ elsewhere m m' e e /\ md_len c' = md_len c.
Proof using L.
  intros H Hs Hnb Hx Hmax. pose proof H as [H1 H2 H3 H4 H5 H6 H7 H8 H9 HA HB HC]. unfold HASH_UPDATE.
  destruct (Z.eqb_spec (Z.of_nat (length x)) 0) as [E0|E0].
  { exists m, c, k, pre, d. destruct x; [|cbn in E0; lia]. rewrite app_nil_r. done. }
  destruct (add_length_nums (Z.of_nat (length x)) c (8 * Z.of_nat (length (pre ++ d)))) as (Gl & Gh & Gb); [lia|done|done|done|].
  replace (8 * Z.of_nat (length (pre ++ d)) + 8 * Z.of_nat (length x)) with (8 * Z.of_nat (length (pre ++ d ++ x))) in Gb
    by (rewrite app_assoc, (length_app (pre ++ d)); lia).
  set (c1 := add_length (Z.of_nat (length x)) c) in *. change (hnum c1) with (hnum c). change (hdata c1) with (hdata c).
  change (chain c1) with (chain c). assert (Forall is_byte (pre ++ d ++ x)) as Hall by (rewrite app_assoc; by apply Forall_app).
  rewrite H1, H4. destruct (Z.eqb_spec (Z.of_nat (length d)) 0) as [Ed|Ed]; cbn [negb].
  { destruct d; [|cbn in Ed; lia]. cbn [app] in *. rewrite app_nil_r in *.
    destruct (hashing_rest m m c1 iv e eo k pre inp x (pre ++ x)) as (m' & c' & k' & pre' & d' & E & Hh & Eb & Hel & Hm); try done.
    by exists m', c', k', pre', d'. }
  destruct ((64 <=? Z.of_nat (length x)) || (64 <=? to_size (Z.of_nat (length x) + Z.of_nat (length d)))) eqn:Hfull.
  - assert (64 <= length x + length d)%nat as Hl.
    { apply orb_true_iff in Hfull as [Hf|Hf]; [lia|]. unfold to_size in Hf. Z.div_mod_to_equations. lia. }
    set (j := (64 - length d)%nat). destruct (source_at_split m inp x j Hs ltac:(lia)) as [Hs1 Hs2].
    assert (length (take j x) = j) as Hj by (rewrite length_take; lia).
    destruct (array_write m e eo d (take j x) H2 H3 ltac:(lia)) as (Hw & Hb & Hr & Hel). cbn [padd].
    assert (Forall is_byte (d ++ take j x)) as Hd1.
    { apply Forall_app in H9 as [_ H9]. apply Forall_app. split; [done|by apply Forall_take]. }
    replace (64 - Z.of_nat (length d)) with (Z.of_nat (length (take j x))) by lia.
    erewrite bind_ret by (apply (memcpy_at _ _ _ e); [done|done|done|done|lia]). set (m1 := mwrite m _ (take j x)) in *.
    erewrite bind_ret by (apply (block_array m1 e eo (d ++ take j x)); [done|rewrite length_app; lia|done|done]).
    set (m2 := mwrite m1 (Ptr e eo) (replicate 64 0)).
    assert (room m1 (Ptr e eo) (Z.of_nat (length (replicate 64 0)))) as Hr64 by (by rewrite length_replicate).
    assert (memset (Ptr e eo) 0 64 m1 = Ret (tt, m2)) as Em by (apply (store_bytes_room m1 _ (replicate 64 0) Hr64)).
    rewrite (bind_ret _ _ _ _ _ Em).
    assert (elsewhere m m2 e e) as Hel2 by (intros b' ? ?; unfold m2; rewrite lookup_mwrite_ne by done; by apply Hel).
    replace (Z.of_nat (length x) - Z.of_nat (length (take j x))) with (Z.of_nat (length (drop j x))) by (rewrite length_drop; lia).
    rewrite Hj.
    destruct (hashing_rest m2 m (set_hnum 0 (set_chain (compress (chain c) (d ++ take j x)) c1)) iv e eo (k + 1) (pre ++ d ++ take j x)
      (padd inp (Z.of_nat j)) (drop j x) (pre ++ d ++ x)) as (m' & c' & k' & pre' & d' & E & Hh & Eb & Hel' & Hm); try done.
    + unfold m2. rewrite room_mwrite; [done|done|lia].
    + apply (source_elsewhere m _ e e); [done|by apply not_in_block_padd|by apply not_in_block_padd|done].
    + by apply not_in_block_padd.
    + rewrite !length_app. lia.
    + cbn [set_hnum set_chain chain]. rewrite absorb_app, <- H7 by done. cbn [absorb]. by rewrite (take_ge (d ++ take j x) 64) by (rewrite length_app; lia).
    + cbn [set_hnum set_chain chain]. destruct H8. apply compress_words; [done|done|rewrite length_app; lia|done].
    + rewrite <- !app_assoc, take_drop. done.
    + by rewrite <- !app_assoc, take_drop.
    + by exists m', c', k', pre', d'.
  - assert (length x + length d < 64)%nat as Hl.
    { apply orb_false_iff in Hfull as [Hf1 Hf2]. rewrite to_size_id in Hf2 by lia. lia. }
    destruct (array_write m e eo d x H2 H3 ltac:(lia)) as (Hw & Hb & Hr & Hel). cbn [padd].
    erewrite bind_ret by (apply (memcpy_at _ _ _ e); [done|done|done|done|lia]). rewrite mret_run.
    eexists _, _, k, pre, (d ++ x). split; [reflexivity|]. split; [|done].
    split; cbn [set_hnum hdata hnum chain Nl Nh]; try done.
    + unfold to_uint. rewrite !Z.mod_small by (rewrite ?Z.mod_small; lia). rewrite length_app. lia.
    + rewrite length_app. lia.
Qed.

Lemma memset_room m p n : room m p (Z.of_nat n) -> Z.of_nat n < 2 ^ 64 ->
  memset p 0 (Z.of_nat n) m = Ret (tt, mwrite m p (replicate n 0)).
Proof using.
  intros Hr Hn. unfold memset. rewrite to_size_id, Nat2Z.id by lia. apply store_bytes_room. by rewrite length_replicate.
Qed.

(** The eight octets of the length. *)
Lemma length_run (m : mem) e o nl nh :
  word nl -> word nh -> room m (Ptr e o) 8 ->
  exists q,
    (if big_endian
     then q ← HOST_l2c big_endian nh (Ptr e o); HOST_l2c big_endian nl q
     else q ← HOST_l2c big_endian nl (Ptr e o); HOST_l2c big_endian nh q) m =
    Ret (q, mwrite m (Ptr e o) (octets big_endian 8 (nh * 4294967296 + nl))).
Proof using.
  intros Hl Hh Hr. rewrite octets_8. unfold word in *.
  replace ((nh * 4294967296 + nl) / 4294967296) with nh by (Z.div_mod_to_equations; lia).
  replace ((nh * 4294967296 + nl) mod 4294967296) with nl by (Z.div_mod_to_equations; lia).
  assert (forall x y, word x -> word y -> exists q,
    (q ← HOST_l2c big_endian x (Ptr e o); HOST_l2c big_endian y q) m =
    Ret (q, mwrite m (Ptr e o) (octets big_endian 4 x ++ octets big_endian 4 y))) as H.
  { intros x y Hx Hy. pose proof (HOST_l2c_run big_endian m e o [] x Hx ltac:(eapply room_le; [exact Hr|cbn; lia])) as E.
    rewrite mwrite_nil, Z.add_0_r in E. rewrite (bind_ret _ _ _ _ _ E). cbn [app].
    rewrite HOST_l2c_run by (done || (eapply room_le; [exact Hr|rewrite octets_length; lia])). by eexists. }
  destruct big_endian; by apply H.
Qed.

(** The last block: [a] in the array, the zeros and the length. *)
Lemma last_block_run m c e eo a b o r :
  let t := a ++ replicate (56 - length a) 0 ++ octets big_endian 8 (Nh c * 4294967296 + Nl c) in
  let h := compress (chain c) t in
  let res := word_octets big_endian (take r h) in
  hdata c = Ptr e eo -> room m (Ptr e eo) 64 -> bytes_at m (Ptr e eo) a -> (length a <= 56)%nat -> Forall is_byte a ->
  word (Nl c) -> word (Nh c) -> words_ok (chain c) -> b <> e -> result_words (md_len c) = Some r ->
  room m (Ptr b o) (Z.of_nat (length res)) ->
  exists m',
    (memset (padd (hdata c) (Z.of_nat (length a))) 0 (64 - 8 - Z.of_nat (length a));;
     (if big_endian
      then q ← HOST_l2c big_endian (Nh c) (padd (hdata c) (64 - 8)); HOST_l2c big_endian (Nl c) q
      else q ← HOST_l2c big_endian (Nl c) (padd (hdata c) (64 - 8)); HOST_l2c big_endian (Nh c) q);;
     h ← HASH_BLOCK_DATA_ORDER (chain c) (hdata c) 1;
     OPENSSL_cleanse (hdata c) 64;;
     ok ← HASH_MAKE_STRING (chain (set_hnum 0 (set_chain h c))) (md_len (set_hnum 0 (set_chain h c))) (Ptr b o);
     mret (ok, set_hnum 0 (set_chain h c))) m = Ret ((true, set_hnum 0 (set_chain h c)), m') /\
    bytes_at m' (Ptr b o) res /\ elsewhere m m' b e.
Proof using L.
  intros t h res Hd Hr Ha Hl Hby Hnl Hnh Hw Hbe Hres Hrb. rewrite Hd. cbn [padd].
  set (z := replicate (56 - length a) 0). assert (length z = 56 - length a)%nat as Hz by apply length_replicate.
  destruct (array_write m e eo a z Hr Ha ltac:(lia)) as (Hw1 & Hb1 & Hr1 & Hel1).
  replace (64 - 8 - Z.of_nat (length a)) with (Z.of_nat (length z)) by lia.
  erewrite bind_ret by (apply memset_room; [done|lia]).
  replace (replicate (length z) 0) with z by (by rewrite Hz). set (m1 := mwrite m _ z) in *.
  assert (length (a ++ z) = 56)%nat as H56 by (rewrite length_app; lia).
  set (l8 := octets big_endian 8 (Nh c * 4294967296 + Nl c)) in *.
  destruct (array_write m1 e eo (a ++ z) l8 Hr1 Hb1 ltac:(unfold l8; rewrite octets_length; lia)) as (Hw2 & Hb2 & Hr2 & Hel2).
  rewrite H56 in Hw2, Hb2, Hr2, Hel2. change (64 - 8) with (Z.of_nat 56). unfold l8 in Hw2. rewrite octets_length in Hw2.
  destruct (length_run m1 e (eo + Z.of_nat 56) (Nl c) (Nh c) Hnl Hnh Hw2) as (q & Eq). fold l8 in Eq.
  rewrite (bind_ret _ _ _ _ _ Eq). set (m2 := mwrite m1 _ l8) in *.
  assert (length t = 64)%nat as Ht by (unfold t, l8; rewrite app_assoc, length_app, octets_length; fold z; lia).
  assert (Forall is_byte t) as Htb.
  { unfold t. rewrite !Forall_app. split; [done|]. split; [by apply Forall_replicate|apply octets_byte]. }
  erewrite bind_ret by (apply (block_array m2 e eo t); [unfold t; by rewrite app_assoc|done|done|done]). fold h.
  erewrite bind_ret by (apply (memset_room m2 (Ptr e eo) 64); [done|lia]).
  set (m3 := mwrite m2 (Ptr e eo) (replicate 64 0)).
  assert (elsewhere m m3 e e) as Hel3 by (intros b' ??; unfold m3; rewrite lookup_mwrite_ne, Hel2, Hel1 by done; done).
  assert (room m3 (Ptr b o) (Z.of_nat (length res))) as Hrb3.
  { unfold room in *. rewrite (tail_at_same m m3); [done|]. intros ? <-. apply Hel3; done. }
  cbn [chain md_len set_hnum set_chain].
  assert (words_ok h) as [Hh1 Hh2] by (destruct Hw; by apply compress_words).
  erewrite bind_ret by (apply (make_string_run m3 h (md_len c) r); done). fold res.
  eexists. split; [reflexivity|]. split; [by apply bytes_at_mwrite_eq|].
  intros b' H1 H2. rewrite lookup_mwrite_ne by done. by apply Hel3.
Qed.

(** The padded message, by what is in the array. *)
Lemma digest_blocks_last iv k pre d v : length pre = (64 * k)%nat -> (length d <= 55)%nat ->
  v = 8 * Z.of_nat (length (pre ++ d)) mod 2 ^ 64 ->
  digest_blocks big_endian compress iv (pre ++ d) =
    compress (absorb compress k iv pre) ((d ++ [128]) ++ replicate (56 - length (d ++ [128])) 0 ++ octets big_endian 8 v).
Proof using.
  intros Hp Hd ->. unfold digest_blocks, padding. rewrite (length_app d [128]). cbn [length].
  assert (length (pre ++ d) mod 64 = length d)%nat as ->.
  { rewrite length_app, Hp. replace (64 * k + length d)%nat with (length d + k * 64)%nat by lia.
    rewrite Nat.Div0.mod_add. apply Nat.mod_small. lia. }
  rewrite decide_True by lia. replace (56 - (length d + 1))%nat with (55 - length d)%nat by lia.
  rewrite <- !app_assoc. set (t := d ++ [128] ++ _). assert (length t = 64)%nat as Ht.
  { unfold t. rewrite !length_app, length_replicate, octets_length. cbn [length]. lia. }
  rewrite length_app, Hp, Ht. replace ((64 * k + 64) / 64)%nat with (k + 1)%nat.
  2:{ replace (64 * k + 64)%nat with ((k + 1) * 64)%nat by lia. by rewrite Nat.div_mul by lia. }
  rewrite absorb_app by done. cbn [absorb]. by rewrite take_ge by lia.
Qed.

Lemma digest_blocks_carry iv k pre d v : length pre = (64 * k)%nat -> (55 < length d < 64)%nat ->
  v = 8 * Z.of_nat (length (pre ++ d)) mod 2 ^ 64 ->
  digest_blocks big_endian compress iv (pre ++ d) =
    compress (compress (absorb compress k iv pre) ((d ++ [128]) ++ replicate (64 - length (d ++ [128])) 0))
      (replicate 56 0 ++ octets big_endian 8 v).
Proof using.
  intros Hp Hd ->. unfold digest_blocks, padding. rewrite (length_app d [128]). cbn [length].
  assert (length (pre ++ d) mod 64 = length d)%nat as ->.
  { rewrite length_app, Hp. replace (64 * k + length d)%nat with (length d + k * 64)%nat by lia.
    rewrite Nat.Div0.mod_add. apply Nat.mod_small. lia. }
  rewrite decide_False by lia. replace (119 - length d)%nat with ((64 - (length d + 1)) + 56)%nat by lia.
  rewrite replicate_add, <- !app_assoc. set (o8 := octets _ _ _). set (t1 := d ++ [128] ++ replicate (64 - (length d + 1)) 0).
  set (t2 := replicate 56 0 ++ o8). assert (length t1 = 64)%nat as Ht1.
  { unfold t1. rewrite !length_app, length_replicate. cbn [length]. lia. }
  assert (length t2 = 64)%nat as Ht2 by (unfold t2, o8; by rewrite length_app, length_replicate, octets_length).
  replace (d ++ [128] ++ replicate (64 - (length d + 1)) 0 ++ t2) with (t1 ++ t2) by (unfold t1; by rewrite <- !app_assoc).
  rewrite !length_app, Hp, Ht1, Ht2. replace ((64 * k + (64 + 64)) / 64)%nat with (k + 2)%nat.
  2:{ replace (64 * k + (64 + 64))%nat with ((k + 2) * 64)%nat by lia. by rewrite Nat.div_mul by lia. }
  rewrite absorb_app by done. cbn [absorb].
  rewrite take_app_le, drop_app_ge by lia. rewrite (take_ge t1), Ht1, (take_ge (drop _ t2)) by (rewrite ?length_drop; lia).
  done.
Qed.

Lemma HASH_FINAL_run m c iv e eo k pre d b o r :
  let res := word_octets big_endian (take r (digest_blocks big_endian compress iv (pre ++ d))) in
  hashing m c iv e eo k pre d -> b <> e -> result_words (md_len c) = Some r -> room m (Ptr b o) (Z.of_nat (length res)) ->
  exists m' c', HASH_FINAL (Ptr b o) c m = Ret ((true, c'), m') /\ bytes_at m' (Ptr b o) res /\ elsewhere m m' b e.
Proof using L.
  intros res [H1 H2 H3 H4 H5 H6 H7 H8 H9 HA HB HC] Hbe Hres Hrb. unfold HASH_FINAL.
  destruct (array_write m e eo d [128] H2 H3 ltac:(cbn; lia)) as (Hw & Hb & Hr & Hel).
  assert (store (padd (hdata c) (hnum c)) 128 m = Ret (tt, mwrite m (Ptr e (eo + Z.of_nat (length d))) [128])) as E.
  { rewrite H1, H4. by apply store_room. }
  rewrite (bind_ret _ _ _ _ _ E). set (m1 := mwrite m _ [128]) in *. set (d1 := d ++ [128]) in *.
  assert (Forall is_byte d1) as Hd1 by (apply Forall_app in H9 as [_ H9]; apply Forall_app; split; [done|by repeat constructor]).
  assert (length d1 = length d + 1)%nat as Hl1 by (unfold d1; by rewrite length_app).
  replace (hnum c + 1) with (Z.of_nat (length d1)) by lia.
  assert (forall m', elsewhere m m' e e -> room m' (Ptr b o) (Z.of_nat (length res))) as Hkeep.
  { intros m' He. unfold room in *. rewrite (tail_at_same m m'); [done|]. intros ? <-. by apply He. }
  assert (forall m2 m', elsewhere m m2 e e -> elsewhere m2 m' b e -> elsewhere m m' b e) as Htrans.
  { intros m2 m' Ha Hc b' ??. by rewrite Hc, Ha. }
  destruct (Z.ltb_spec (64 - 8) (Z.of_nat (length d1))) as [Hlong|Hshort].
  - set (z := replicate (64 - length d1) 0). assert (length z = 64 - length d1)%nat as Hz by apply length_replicate.
    destruct (array_write m1 e eo d1 z Hr Hb ltac:(lia)) as (Hw2 & Hb2 & Hr2 & Hel2).
    set (m2 := mwrite m1 (Ptr e (eo + Z.of_nat (length d1))) z) in *.
    assert (memset (padd (hdata c) (Z.of_nat (length d1))) 0 (64 - Z.of_nat (length d1)) m1 = Ret (tt, m2)) as E2.
    { rewrite H1. replace (64 - Z.of_nat (length d1)) with (Z.of_nat (length z)) by lia. cbn [padd].
      rewrite memset_room by (done || lia). do 2 f_equal. unfold m2, z. by rewrite length_replicate. }
    assert (Forall is_byte (d1 ++ z)) as Hdz by (apply Forall_app; split; [done|by apply Forall_replicate]).
    assert (length (d1 ++ z) = 64)%nat as H64 by (rewrite length_app; lia).
    assert (HASH_BLOCK_DATA_ORDER (chain c) (hdata c) 1 m2 = Ret (compress (chain c) (d1 ++ z), m2)) as E3.
    { rewrite H1. by apply block_array. }
    erewrite bind_ret by (rewrite (bind_ret _ _ _ _ _ E2), (bind_ret _ _ _ _ _ E3); reflexivity). cbv beta iota.
    assert (elsewhere m m2 e e) as Hel3 by (intros b' ??; by rewrite Hel2, Hel).
    pose proof (digest_blocks_carry iv k pre d (Nh c * 4294967296 + Nl c) H6 ltac:(lia) HC) as Ed. fold d1 z in Ed. rewrite <- H7 in Ed.
    destruct (last_block_run m2 (set_chain (compress (chain c) (d1 ++ z)) c) e eo [] b o r) as (m' & E' & Hb' & Hel'); try done;
      cbn [chain set_chain Nl Nh md_len]; try (by eapply room_bytes_nil); try (cbn; lia).
    + destruct H8. by apply compress_words.
    + cbn [app length Nat.sub]. rewrite <- Ed. by apply Hkeep.
    + exists m', (set_hnum 0 (set_chain (digest_blocks big_endian compress iv (pre ++ d)) (set_chain (compress (chain c) (d1 ++ z)) c))).
      cbn [app length Nat.sub chain set_chain Nl Nh] in E', Hb'. rewrite <- Ed in E', Hb'. split; [exact E'|]. split; [done|by eapply Htrans].
  - rewrite mbind_mret. cbv beta iota.
    pose proof (digest_blocks_last iv k pre d (Nh c * 4294967296 + Nl c) H6 ltac:(lia) HC) as Ed. fold d1 in Ed. rewrite <- H7 in Ed.
    destruct (last_block_run m1 c e eo d1 b o r) as (m' & E' & Hb' & Hel'); try done; try lia.
    + rewrite <- Ed. by apply Hkeep.
    + exists m', (set_hnum 0 (set_chain (digest_blocks big_endian compress iv (pre ++ d)) c)).
      rewrite <- Ed in E', Hb'. split; [exact E'|]. split; [done|by eapply Htrans].
Qed.

(** A piece of a message outside of the context. *)
Definition message_at (m : mem) (e : positive) (p : ptr * Z) (x : list Z) : Prop :=
  p.2 = Z.of_nat (length x) /\ source_at m p.1 x /\ (~ in_block p.1 e) /\ Forall is_byte x /\ Z.of_nat (length x) < 2 ^ 64.

Lemma hash_updates_run iv e eo pieces : forall m c k pre d xs,
  hashing m c iv e eo k pre d -> Forall2 (message_at m e) pieces xs ->
  exists m' c' k' pre' d',
    hash_updates c pieces m = Ret (c', m') /\ hashing m' c' iv e eo k' pre' d' /\
    pre' ++ d' = pre ++ d ++ concat xs /\ elsewhere m m' e e /\ md_len c' = md_len c.
Proof using L.
  induction pieces as [|[inp len] pieces IH]; intros m c k pre d xs Hh Hp.
  { apply Forall2_nil_inv_l in Hp as ->. exists m, c, k, pre, d. cbn [concat]. by rewrite app_nil_r. }
  destruct xs as [|x xs]; [by apply Forall2_cons_nil_inv in Hp|]. apply Forall2_cons in Hp as [(Hl & Hs & Hnb & Hx & Hm) Hp].
  cbn [fst snd] in *. subst len. cbn [hash_updates concat].
  destruct (HASH_UPDATE_run m c iv e eo k pre d inp x Hh Hs Hnb Hx Hm) as (m1 & c1 & k1 & pre1 & d1 & E1 & Hh1 & Eb1 & Hel1 & Hm1).
  destruct (IH m1 c1 k1 pre1 d1 xs) as (m' & c' & k' & pre' & d' & E & Hh' & Eb & Hel & Hm'); [done| |].
  { eapply Forall2_impl; [exact Hp|]. intros q y (? & Hq & ? & ?). split; [done|]. split; [by eapply source_elsewhere|done]. }
  exists m', c', k', pre', d'. rewrite (bind_ret _ _ _ _ _ E1). split; [done|]. split; [done|].
  split; [rewrite Eb, app_assoc, Eb1, <- !app_assoc; done|]. split; [intros b' ??; by rewrite Hel, Hel1|congruence].
Qed.

(** The digest of a message does not depend on how it is cut. *)
Lemma hash_message_run m c iv e eo b o r pieces xs :
  let res := word_octets big_endian (take r (digest_blocks big_endian compress iv (concat xs))) in
  c = mkHash iv 0 0 (Ptr e eo) 0 (md_len c) -> words_ok iv -> room m (Ptr e eo) 64 -> b <> e ->
  Forall2 (message_at m e) pieces xs -> result_words (md_len c) = Some r -> room m (Ptr b o) (Z.of_nat (length res)) ->
  exists m', hash_message c pieces (Ptr b o) m = Ret (true, m') /\ bytes_at m' (Ptr b o) res /\ elsewhere m m' b e.
Proof using L.
  intros res Hc Hiv Hr Hbe Hp Hres Hrb.
  assert (hashing m c iv e eo 0 [] []) as Hh.
  { rewrite Hc. split; try done; [by eapply room_bytes_nil|cbn; lia]. }
  destruct (hash_updates_run iv e eo pieces m c 0 [] [] xs Hh Hp) as (m1 & c1 & k & pre & d & E1 & Hh1 & Eb & Hel & Hm).
  cbn [app] in Eb.
  destruct (HASH_FINAL_run m1 c1 iv e eo k pre d b o r) as (m' & c' & E & Hb & Hel'); [done|done|by rewrite Hm| |].
  { rewrite Eb. unfold room in *. rewrite (tail_at_same m m1); [done|]. intros ? <-. by apply Hel. }
  exists m'. unfold hash_message. rewrite (bind_ret _ _ _ _ _ E1), (bind_ret _ _ _ _ _ E). split; [done|].
  rewrite Eb in Hb. split; [done|]. intros b' ??. by rewrite Hel', Hel.
Qed.

Lemma absorb_length n : forall h bs, words_ok h -> Forall is_byte bs -> (64 * n <= length bs)%nat ->
  length (absorb compress n h bs) = chain_words.
Proof using L. intros h bs Hh Hb Hl. by apply absorb_words. Qed.

Lemma word_octets_length big ws : length (word_octets big ws) = (4 * length ws)%nat.
Proof using.
  induction ws as [|x ws IH]; [done|]. change (word_octets big (x :: ws)) with (octets big 4 x ++ word_octets big ws).
  rewrite length_app, octets_length, IH. cbn [length]. lia.
Qed.

Lemma padding_octets big n : Forall is_byte (padding big n).
Proof using.
  unfold padding. rewrite !Forall_app. split; [by repeat constructor|]. split; [by apply Forall_replicate|apply octets_byte].
Qed.

Lemma digest_length iv bs : words_ok iv -> Forall is_byte bs -> length (digest_blocks big_endian compress iv bs) = chain_words.
Proof using L.
  intros Hiv Hb. unfold digest_blocks. apply absorb_length; [done|apply Forall_app; split; [done|apply padding_octets]|].
  set (t := bs ++ _). pose proof (Nat.div_mod_eq (length t) 64). lia.
Qed.

(** A message from the start: the structure is cleared, the words are set. *)
Lemma hash_init_run m e eo b o r pieces xs iv len :
  words_ok iv -> room m (Ptr e eo) 64 -> b <> e -> Forall2 (message_at m e) pieces xs ->
  result_words len = Some r -> chain_words = r -> room m (Ptr b o) (Z.of_nat (4 * r)) ->
  exists m',
    (c ← (memset (Ptr e eo) 0 64;; mret (mkHash iv 0 0 (Ptr e eo) 0 len)); hash_message c pieces (Ptr b o)) m = Ret (true, m') /\
    bytes_at m' (Ptr b o) (word_octets big_endian (digest_blocks big_endian compress iv (concat xs))) /\ elsewhere m m' b e.
Proof using L.
  intros Hiv Hr Hbe Hp Hres Hcw Hrb. rewrite bind_assoc, (bind_ret _ _ _ _ _ (memset_room m (Ptr e eo) 64 Hr eq_refl)), mbind_mret.
  set (m1 := mwrite m (Ptr e eo) (replicate 64 0)).
  assert (elsewhere m m1 e e) as Hel by (intros b' ? _; by apply lookup_mwrite_ne).
  assert (room m (Ptr e eo) (Z.of_nat (length (replicate 64 0)))) as Hr' by by rewrite length_replicate.
  assert (Forall is_byte (concat xs)) as Hby.
  { apply Forall_concat. clear -Hp. induction Hp as [|? ? ? ? (_ & _ & _ & ? & _)]; by constructor. }
  pose proof (digest_length iv (concat xs) Hiv Hby) as Hl.
  destruct (hash_message_run m1 (mkHash iv 0 0 (Ptr e eo) 0 len) iv e eo b o r pieces xs) as (m' & E & Hb & Hel'); try done.
  - unfold m1. rewrite room_mwrite; [done|done|lia].
  - eapply Forall2_impl; [exact Hp|]. intros q x (? & Hq & ? & ?). split; [done|]. split; [by eapply source_elsewhere|done].
  - rewrite take_ge, word_octets_length, Hl, Hcw by lia.
    unfold room in *. rewrite (tail_at_same m m1); [done|]. intros ? <-. by apply Hel.
  - exists m'. split; [done|]. rewrite take_ge in Hb by lia. split; [done|]. intros b' ??. by rewrite Hel', Hel.
Qed.
End collecting.
