(* ===== verification/Sha256.v ===== *)
(** * SHA-256

    crypto/sha/sha256.c of the vendored OpenSSL, with the functions of
    include/crypto/md32_common.h that it instantiates (Md32.v).  The block function
    is modelled twice, as the code has it: with the rounds unrolled and the eight
    variables renamed instead of moved, and the short form of
    OPENSSL_SMALL_FOOTPRINT; on a little-endian machine, in C.

    The specification is the compression function of FIPS 180-4, with its right
    rotations and its schedule of sixty-four words.  Both block functions compute it,
    so that SHA256_Init, SHA256_Update and SHA256_Final compute SHA-256. *)

From S2P Require Import Prelude Memory Heap OStr Md32.

Declare Scope sha_scope.
Local Infix "⊞" := wadd (at level 50, left associativity) : sha_scope.
Local Open Scope sha_scope.

(** ** Definitions *)

Definition K256 : list Z :=
  concat [
    [0x428a2f98; 0x71374491; 0xb5c0fbcf; 0xe9b5dba5];
    [0x3956c25b; 0x59f111f1; 0x923f82a4; 0xab1c5ed5];
    [0xd807aa98; 0x12835b01; 0x243185be; 0x550c7dc3];
    [0x72be5d74; 0x80deb1fe; 0x9bdc06a7; 0xc19bf174];
    [0xe49b69c1; 0xefbe4786; 0x0fc19dc6; 0x240ca1cc];
    [0x2de92c6f; 0x4a7484aa; 0x5cb0a9dc; 0x76f988da];
    [0x983e5152; 0xa831c66d; 0xb00327c8; 0xbf597fc7];
    [0xc6e00bf3; 0xd5a79147; 0x06ca6351; 0x14292967];
    [0x27b70a85; 0x2e1b2138; 0x4d2c6dfc; 0x53380d13];
    [0x650a7354; 0x766a0abb; 0x81c2c92e; 0x92722c85];
    [0xa2bfe8a1; 0xa81a664b; 0xc24b8b70; 0xc76c51a3];
    [0xd192e819; 0xd6990624; 0xf40e3585; 0x106aa070];
    [0x19a4c116; 0x1e376c08; 0x2748774c; 0x34b0bcb5];
    [0x391c0cb3; 0x4ed8aa4a; 0x5b9cca4f; 0x682e6ff3];
    [0x748f82ee; 0x78a5636f; 0x84c87814; 0x8cc70208];
    [0x90befffa; 0xa4506ceb; 0xbef9a3f7; 0xc67178f2]
  ].

(** [K256[i]], for the indices of the rounds. *)
Definition K (i : nat) : Z := nth i K256 0.

Definition Sigma0 (x : Z) : Z := Z.lxor (Z.lxor (ROTATE x 30) (ROTATE x 19)) (ROTATE x 10).
Definition Sigma1 (x : Z) : Z := Z.lxor (Z.lxor (ROTATE x 26) (ROTATE x 21)) (ROTATE x 7).
Definition sigma0 (x : Z) : Z := Z.lxor (Z.lxor (ROTATE x 25) (ROTATE x 14)) (Z.shiftr x 3).
Definition sigma1 (x : Z) : Z := Z.lxor (Z.lxor (ROTATE x 15) (ROTATE x 13)) (Z.shiftr x 10).
Definition Ch (x y z : Z) : Z := Z.lxor (Z.land x y) (Z.land (to_uint (Z.lnot x)) z).
Definition Maj (x y z : Z) : Z := Z.lxor (Z.lxor (Z.land x y) (Z.land x z)) (Z.land y z).

(** The macro assigns its parameters [d] and [h]. *)
Definition ROUND_00_15 (i : nat) (T1 a b c d e f g h : Z) : Z * Z :=
  let T1 := T1 ⊞ (h ⊞ Sigma1 e ⊞ Ch e f g ⊞ K i) in
  let h := Sigma0 a ⊞ Maj a b c in
  let d := d ⊞ T1 in
  let h := h ⊞ T1 in
  (d, h).

Definition ROUND_16_63 (i : nat) (a b c d e f g h : Z) (X : list Z) : list Z * Z * Z :=
  let s0 := sigma0 (Xat X (i + 1)) in
  let s1 := sigma1 (Xat X (i + 14)) in
  let T1 := Xat X i ⊞ (s0 ⊞ s1 ⊞ Xat X (i + 9)) in
  let X := <[Nat.land i 15 := T1]> X in
  let '(d, h) := ROUND_00_15 i T1 a b c d e f g h in
  (X, d, h).

(** The variables [a] to [h]. *)
Definition regs : Type := Z * Z * Z * Z * Z * Z * Z * Z.

(** The second loop, [n] passes of eight rounds from [i] on. *)
Fixpoint rounds_16_63 (n i : nat) (X : list Z) (s : regs) : regs :=
  match n with
  | O => s
  | S n =>
      let '(a, b, c, d, e, f, g, h) := s in
      let '(X, d, h) := ROUND_16_63 (i) a b c d e f g h X in
      let '(X, c, g) := ROUND_16_63 (i + 1) h a b c d e f g X in
      let '(X, b, f) := ROUND_16_63 (i + 2) g h a b c d e f X in
      let '(X, a, e) := ROUND_16_63 (i + 3) f g h a b c d e X in
      let '(X, h, d) := ROUND_16_63 (i + 4) e f g h a b c d X in
      let '(X, g, c) := ROUND_16_63 (i + 5) d e f g h a b c X in
      let '(X, f, b) := ROUND_16_63 (i + 6) c d e f g h a b X in
      let '(X, e, a) := ROUND_16_63 (i + 7) b c d e f g h a X in
      rounds_16_63 n (i + 8) X (a, b, c, d, e, f, g, h)
  end.

(** The words of the context after a block. *)
Definition add_regs (ctx : list Z) (s : regs) : M mem (list Z) :=
  match ctx, s with
  | [h0; h1; h2; h3; h4; h5; h6; h7], (a, b, c, d, e, f, g, h) =>
      mret [h0 ⊞ a; h1 ⊞ b; h2 ⊞ c; h3 ⊞ d; h4 ⊞ e; h5 ⊞ f; h6 ⊞ g; h7 ⊞ h]
  | _, _ => ub
  end.

Definition load_regs (ctx : list Z) : M mem regs :=
  match ctx with
  | [h0; h1; h2; h3; h4; h5; h6; h7] => mret (h0, h1, h2, h3, h4, h5, h6, h7)
  | _ => ub
  end.

(** A block at [data]. *)
Definition sha256_block (ctx : list Z) (data : ptr) : M mem (list Z) :=
  '(a, b, c, d, e, f, g, h) ← load_regs ctx;
  l ← HOST_c2l true data; let X0 := l in
  let '(d, h) := ROUND_00_15 0 l a b c d e f g h in
  l ← HOST_c2l true (padd data 4); let X1 := l in
  let '(c, g) := ROUND_00_15 1 l h a b c d e f g in
  l ← HOST_c2l true (padd data 8); let X2 := l in
  let '(b, f) := ROUND_00_15 2 l g h a b c d e f in
  l ← HOST_c2l true (padd data 12); let X3 := l in
  let '(a, e) := ROUND_00_15 3 l f g h a b c d e in
  l ← HOST_c2l true (padd data 16); let X4 := l in
  let '(h, d) := ROUND_00_15 4 l e f g h a b c d in
  l ← HOST_c2l true (padd data 20); let X5 := l in
  let '(g, c) := ROUND_00_15 5 l d e f g h a b c in
  l ← HOST_c2l true (padd data 24); let X6 := l in
  let '(f, b) := ROUND_00_15 6 l c d e f g h a b in
  l ← HOST_c2l true (padd data 28); let X7 := l in
  let '(e, a) := ROUND_00_15 7 l b c d e f g h a in
  l ← HOST_c2l true (padd data 32); let X8 := l in
  let '(d, h) := ROUND_00_15 8 l a b c d e f g h in
  l ← HOST_c2l true (padd data 36); let X9 := l in
  let '(c, g) := ROUND_00_15 9 l h a b c d e f g in
  l ← HOST_c2l true (padd data 40); let X10 := l in
  let '(b, f) := ROUND_00_15 10 l g h a b c d e f in
  l ← HOST_c2l true (padd data 44); let X11 := l in
  let '(a, e) := ROUND_00_15 11 l f g h a b c d e in
  l ← HOST_c2l true (padd data 48); let X12 := l in
  let '(h, d) := ROUND_00_15 12 l e f g h a b c d in
  l ← HOST_c2l true (padd data 52); let X13 := l in
  let '(g, c) := ROUND_00_15 13 l d e f g h a b c in
  l ← HOST_c2l true (padd data 56); let X14 := l in
  let '(f, b) := ROUND_00_15 14 l c d e f g h a b in
  l ← HOST_c2l true (padd data 60); let X15 := l in
  let '(e, a) := ROUND_00_15 15 l b c d e f g h a in
  let X := [X0; X1; X2; X3; X4; X5; X6; X7; X8; X9; X10; X11; X12; X13; X14; X15] in
  add_regs ctx (rounds_16_63 6 16 X (a, b, c, d, e, f, g, h)).

Definition sha256_block_data_order (ctx : list Z) (data : ptr) (num : Z) : M mem (list Z) :=
  each_block sha256_block (Z.to_nat num) ctx data.

(** The form with OPENSSL_SMALL_FOOTPRINT. *)
Definition small_round (i : nat) (T1 : Z) (s : regs) : regs :=
  let '(a, b, c, d, e, f, g, h) := s in
  let T1 := T1 ⊞ (h ⊞ Sigma1 e ⊞ Ch e f g ⊞ K i) in
  let T2 := Sigma0 a ⊞ Maj a b c in
  (T1 ⊞ T2, a, b, c, d ⊞ T1, e, f, g).

(** Its first loop, [n] rounds from [i] on; the words read so far are [X]. *)
Fixpoint small_00_15 (n i : nat) (data : ptr) (X : list Z) (s : regs) : M mem (list Z * regs) :=
  match n with
  | O => mret (X, s)
  | S n =>
      l ← HOST_c2l true data;
      small_00_15 n (i + 1) (padd data 4) (X ++ [l]) (small_round i l s)
  end.

Fixpoint small_16_63 (n i : nat) (X : list Z) (s : regs) : regs :=
  match n with
  | O => s
  | S n =>
      let s0 := sigma0 (Xat X (i + 1)) in
      let s1 := sigma1 (Xat X (i + 14)) in
      let T1 := Xat X i ⊞ (s0 ⊞ s1 ⊞ Xat X (i + 9)) in
      small_16_63 n (i + 1) (<[Nat.land i 15 := T1]> X) (small_round i T1 s)
  end.

Definition small_block (ctx : list Z) (data : ptr) : M mem (list Z) :=
  s ← load_regs ctx;
  '(X, s) ← small_00_15 16 0 data [] s;
  add_regs ctx (small_16_63 48 16 X s).

(** The result: [md_len / 4] words, or 0 when the field is too large. *)
Definition sha256_make_string (ctx : list Z) (len : Z) (s : ptr) : M mem bool :=
  if len =? 24 then write_words true (take 6 ctx) s;; mret true
  else if len =? 28 then write_words true (take 7 ctx) s;; mret true
  else if len =? 32 then write_words true (take 8 ctx) s;; mret true
  else if 32 <? len then mret false
  else write_words true (take (Z.to_nat (len / 4)) ctx) s;; mret true.

#[export] Instance sha256_digest : Digest32 := {|
  big_endian := true;
  HASH_BLOCK_DATA_ORDER := sha256_block_data_order;
  HASH_MAKE_STRING := sha256_make_string
|}.

(** The structure is cleared first; its array is the object [hdata c]. *)
Definition sha256_reset (iv : list Z) (len : Z) (c : HASH_CTX) : M mem HASH_CTX :=
  memset (hdata c) 0 64;; mret (mkHash iv 0 0 (hdata c) 0 len).

Definition SHA224_Init : HASH_CTX -> M mem HASH_CTX :=
  sha256_reset [0xc1059ed8; 0x367cd507; 0x3070dd17; 0xf70e5939; 0xffc00b31; 0x68581511; 0x64f98fa7; 0xbefa4fa4] 28.

Definition SHA256_Init : HASH_CTX -> M mem HASH_CTX :=
  sha256_reset [0x6a09e667; 0xbb67ae85; 0x3c6ef372; 0xa54ff53a; 0x510e527f; 0x9b05688c; 0x1f83d9ab; 0x5be0cd19] 32.

Definition ossl_sha256_192_init (c : HASH_CTX) : M mem HASH_CTX :=
  c ← SHA256_Init c;
  mret (mkHash (chain c) (Nl c) (Nh c) (hdata c) (hnum c) 24).

Definition SHA256_Update : HASH_CTX -> ptr -> Z -> M mem HASH_CTX := HASH_UPDATE.
Definition SHA256_Final : ptr -> HASH_CTX -> M mem (bool * HASH_CTX) := HASH_FINAL.
Definition SHA256_Transform : HASH_CTX -> ptr -> M mem HASH_CTX := HASH_TRANSFORM.
Definition SHA224_Update (c : HASH_CTX) (data : ptr) (len : Z) : M mem HASH_CTX := SHA256_Update c data len.
Definition SHA224_Final (md : ptr) (c : HASH_CTX) : M mem (bool * HASH_CTX) := SHA256_Final md c.

(** ** Specification *)

Module FIPS180.

(** Rotation to the right. *)
Definition ROTR (n x : Z) : Z := x / 2 ^ n + x mod 2 ^ n * 2 ^ (32 - n).
Definition SHR (n x : Z) : Z := x / 2 ^ n.

Definition S0 (x : Z) : Z := Z.lxor (Z.lxor (ROTR 2 x) (ROTR 13 x)) (ROTR 22 x).
Definition S1 (x : Z) : Z := Z.lxor (Z.lxor (ROTR 6 x) (ROTR 11 x)) (ROTR 25 x).
Definition s0 (x : Z) : Z := Z.lxor (Z.lxor (ROTR 7 x) (ROTR 18 x)) (SHR 3 x).
Definition s1 (x : Z) : Z := Z.lxor (Z.lxor (ROTR 17 x) (ROTR 19 x)) (SHR 10 x).

(** The schedule: sixteen words of the block and forty-eight more. *)
Definition next (w : list Z) : Z :=
  let t := length w in
  let W i := nth i w 0 in
  to_uint (s1 (W (t - 2)%nat) + W (t - 7)%nat + s0 (W (t - 15)%nat) + W (t - 16)%nat).

Definition schedule : list Z -> nat -> list Z := extend next.

Definition step (s : regs) (kw : Z * Z) : regs :=
  let '(a, b, c, d, e, f, g, h) := s in
  let T1 := h + S1 e + Ch e f g + kw.1 + kw.2 in
  let T2 := S0 a + Maj a b c in
  (to_uint (T1 + T2), a, b, c, to_uint (d + T1), e, f, g).

Definition compress (h blk : list Z) : list Z :=
  match h with
  | [h0; h1; h2; h3; h4; h5; h6; h7] =>
      let '(a, b, c, d, e, f, g, h) :=
        fold_left step (zip K256 (schedule (words_of true blk) 48)) (h0, h1, h2, h3, h4, h5, h6, h7) in
      map to_uint [h0 + a; h1 + b; h2 + c; h3 + d; h4 + e; h5 + f; h6 + g; h7 + h]
  | _ => h
  end.
End FIPS180.

#[export] Instance sha256_spec : Digest32Spec := {|
  compress := FIPS180.compress;
  chain_words := 8;
  result_words len := if (0 <=? len) && (len <=? 32) then Some (Z.to_nat (len / 4)) else None
|}.

(** ** Lemmas *)

(** *** Rotations *)

Lemma ROTATE_ROTR x n : word x -> 0 < n < 32 -> ROTATE x (32 - n) = FIPS180.ROTR n x.
Proof.
  unfold word, FIPS180.ROTR. intros Hx Hn. rewrite ROTATE_rotl by (done || lia). unfold rotl.
  replace (32 - (32 - n)) with n by lia.
  assert (2 ^ n * 2 ^ (32 - n) = 4294967296) as E by (rewrite <- Z.pow_add_r by lia; by replace (n + (32 - n)) with 32 by lia).
  pose proof (Z.pow_pos_nonneg 2 n ltac:(lia) ltac:(lia)) as H1. pose proof (Z.pow_pos_nonneg 2 (32 - n) ltac:(lia) ltac:(lia)) as H2.
  rewrite <- E, Z.mul_comm, (Z.mul_comm (2 ^ n)), Z.mul_mod_distr_l by lia. lia.
Qed.

Lemma sigmas x : word x ->
  Sigma0 x = FIPS180.S0 x /\ Sigma1 x = FIPS180.S1 x /\ sigma0 x = FIPS180.s0 x /\ sigma1 x = FIPS180.s1 x.
Proof.
  intros Hx. pose proof (fun n => ROTATE_ROTR x n Hx) as H.
  unfold Sigma0, Sigma1, sigma0, sigma1, FIPS180.S0, FIPS180.S1, FIPS180.s0, FIPS180.s1, FIPS180.SHR.
  rewrite !Z.shiftr_div_pow2 by lia.
  rewrite <- (H 2), <- (H 13), <- (H 22), <- (H 6), <- (H 11), <- (H 25), <- (H 7), <- (H 18), <- (H 17), <- (H 19) by lia.
  done.
Qed.

(** *** A round *)

Definition words8 (s : regs) : Prop :=
  let '(a, b, c, d, e, f, g, h) := s in Forall word [a; b; c; d; e; f; g; h].

Lemma round_step i w a b c d e f g h d' h' :
  words8 (a, b, c, d, e, f, g, h) -> ROUND_00_15 i w a b c d e f g h = (d', h') ->
  FIPS180.step (a, b, c, d, e, f, g, h) (K i, w) = (h', a, b, c, d', e, f, g) /\ words8 (h', a, b, c, d', e, f, g).
Proof.
  unfold words8. rewrite !Forall_cons. intros (Ha & Hb & Hc & Hd & He & Hf & Hg & Hh & _) [= <- <-].
  unfold FIPS180.step. cbn [fst snd]. destruct (sigmas a Ha) as (-> & _). destruct (sigmas e He) as (_ & -> & _).
  split; [|repeat (split; [done || apply wadd_word|]); by apply Forall_nil].
  set (x := FIPS180.S1 e). set (y := FIPS180.S0 a). set (u := Ch e f g). set (v := Maj a b c).
  assert (y ⊞ v ⊞ (w ⊞ (h ⊞ x ⊞ u ⊞ K i)) = to_uint (h + x + u + K i + w + (y + v))) as -> by wsum.
  assert (d ⊞ (w ⊞ (h ⊞ x ⊞ u ⊞ K i)) = to_uint (d + (h + x + u + K i + w))) as -> by wsum. done.
Qed.

Lemma small_round_step i w s : words8 s -> small_round i w s = FIPS180.step s (K i, w) /\ words8 (small_round i w s).
Proof.
  destruct s as [[[[[[[a b] c] d] e] f] g] h]. intros Hs.
  destruct (ROUND_00_15 i w a b c d e f g h) as [d' h'] eqn:E.
  destruct (round_step i w a b c d e f g h d' h' Hs E) as [-> Hw]. unfold ROUND_00_15 in E. injection E as <- <-.
  unfold small_round. assert (forall x y, x ⊞ y = y ⊞ x) as Hc by (intros; wsum). rewrite (Hc (w ⊞ _) (Sigma0 a ⊞ _)). done.
Qed.

(** *** The schedule *)

(** The words of the schedule by their recurrence. *)
Lemma schedule_next w j : length w = 16%nat -> (16 <= j < 64)%nat ->
  let W i := nth i (FIPS180.schedule w 48) 0 in
  W j = to_uint (FIPS180.s1 (W (j - 2)%nat) + W (j - 7)%nat + FIPS180.s0 (W (j - 15)%nat) + W (j - 16)%nat).
Proof.
  intros Hw Hj W. unfold W, FIPS180.schedule. destruct (extend_nth FIPS180.next w 48 j) as [-> H]; [lia|].
  unfold FIPS180.next. rewrite extend_length, !H by lia. replace (length w + (j - length w))%nat with j by lia. done.
Qed.

Lemma schedule_words w : Forall word w -> Forall word (FIPS180.schedule w 48).
Proof. apply extend_words. intros ? _. apply word_to_uint. Qed.

Lemma schedule_first w i : (i < length w)%nat -> nth i (FIPS180.schedule w 48) 0 = nth i w 0.
Proof.
  intros Hi. pose proof (extend_prefix FIPS180.next w 0 48 i) as E. cbn [Nat.add] in E. unfold FIPS180.schedule.
  rewrite E by lia. done.
Qed.

Lemma schedule_length w : length (FIPS180.schedule w 48) = (length w + 48)%nat.
Proof. apply extend_length. Qed.

#[local] Opaque FIPS180.schedule.

Section rounds.
Context (w : list Z) (Hlen : length w = 16%nat) (Hwords : Forall word w).
Local Abbreviation W := (FIPS180.schedule w 48).

Lemma W_word i : (i < 64)%nat -> word (nth i W 0).
Proof using All.
  intros Hi. pose proof (schedule_words w Hwords) as H. rewrite Forall_nth in H. apply H. rewrite schedule_length. lia.
Qed.

Lemma window_next X i : window W X i -> (16 <= i < 64)%nat ->
  let T1 := Xat X i ⊞ (sigma0 (Xat X (i + 1)) ⊞ sigma1 (Xat X (i + 14)) ⊞ Xat X (i + 9)) in
  T1 = nth i W 0 /\ window W (<[Nat.land i 15 := T1]> X) (S i).
Proof using All.
  intros HX Hi T1. assert (forall k j, (k = j + 16)%nat -> (k mod 16 = j mod 16)%nat) as Hm.
  { intros k j ->. replace (j + 16)%nat with (j + 1 * 16)%nat by lia. apply Nat.Div0.mod_add. }
  assert (T1 = nth i W 0) as E.
  { unfold T1. rewrite (window_at W X i i (i - 16)), (window_at W X i (i + 1) (i - 15)), (window_at W X i (i + 14) (i - 2)),
      (window_at W X i (i + 9) (i - 7)); try done; try lia; try (apply Hm; lia).
    destruct (sigmas (nth (i - 15) W 0)) as (_ & _ & -> & _); [apply W_word; lia|].
    destruct (sigmas (nth (i - 2) W 0)) as (_ & _ & _ & ->); [apply W_word; lia|].
    rewrite (schedule_next w i Hlen Hi). wsum. }
  split; [done|]. destruct HX as [H16 HX]. split; [by rewrite length_insert|]. intros j Hj. rewrite land_15, E.
  rewrite nth_lookup. destruct (decide (j = i)) as [->|Hne].
  - by rewrite list_lookup_insert_eq by (rewrite H16; apply Nat.mod_upper_bound; lia).
  - rewrite list_lookup_insert_ne.
    + rewrite <- nth_lookup. apply HX. lia.
    + intros Em. apply Hne. pose proof (Nat.div_mod_eq i 16). pose proof (Nat.div_mod_eq j 16). lia.
Qed.

(** The rounds from [i] on. *)
Definition run (i n : nat) (s : regs) : regs := fold_left (fun s j => FIPS180.step s (K j, nth j W 0)) (seq i n) s.

Lemma run_S i n s : run i (S n) s = run (S i) n (FIPS180.step s (K i, nth i W 0)).
Proof using. done. Qed.

Lemma run_app i n k s : run i (n + k) s = run (i + n) k (run i n s).
Proof using. unfold run. by rewrite seq_app, fold_left_app. Qed.

Lemma run_zip s : fold_left FIPS180.step (zip K256 W) s = run 0 64 s.
Proof using Hlen.
  unfold run. assert (zip K256 W = map (fun j => (K j, nth j W 0)) (seq 0 64)) as ->.
  { assert (length W = 64%nat) as HW by (rewrite schedule_length, Hlen; done). unfold K. revert HW. generalize W as l.
    assert (length K256 = 64%nat) as HK by done. revert HK. generalize K256 as ks. generalize 64%nat as n.
    induction n as [|n IH]; intros [|k ks] Hk [|x l] Hl; try done. cbn [seq map]. rewrite <- seq_shift, map_map. cbn [nth].
    injection Hk as Hk. injection Hl as Hl. rewrite <- (IH ks Hk l Hl). done. }
  generalize (seq 0 64) as l. intros l. revert s. induction l as [|j l IH]; intros s; [done|]. cbn [map fold_left]. apply IH.
Qed.

Lemma small_16_63_run n : forall i X s, window W X i -> (16 <= i)%nat -> (i + n <= 64)%nat -> words8 s ->
  small_16_63 n i X s = run i n s /\ words8 (run i n s).
Proof using All.
  induction n as [|n IH]; intros i X s HX Hi Hn Hs; [done|]. cbn [small_16_63]. rewrite run_S.
  destruct (window_next X i HX ltac:(lia)) as [E HX']. rewrite E in HX' |- *.
  destruct (small_round_step i (nth i W 0) s Hs) as [<- Hs']. rewrite Nat.add_1_r. apply IH; [done|lia|lia|done].
Qed.

(** One of the rounds of the second loop. *)
Lemma round_16_63_step i a b c d e f g h X X' d' h' :
  window W X i -> (16 <= i < 64)%nat -> words8 (a, b, c, d, e, f, g, h) -> ROUND_16_63 i a b c d e f g h X = (X', d', h') ->
  window W X' (S i) /\ words8 (h', a, b, c, d', e, f, g) /\
  forall n, run i (S n) (a, b, c, d, e, f, g, h) = run (S i) n (h', a, b, c, d', e, f, g).
Proof using All.
  intros HX Hi Hs E. unfold ROUND_16_63 in E. destruct (window_next X i HX Hi) as [ET HX']. rewrite ET in E, HX'.
  destruct (ROUND_00_15 i (nth i W 0) a b c d e f g h) as [d1 h1] eqn:Er. injection E as <- <- <-.
  destruct (round_step i (nth i W 0) a b c d e f g h d1 h1 Hs Er) as [Es Hw]. split; [done|]. split; [done|].
  intros n. by rewrite run_S, Es.
Qed.

Local Ltac round_16_63 :=
  match goal with
  | HX : window _ ?X ?i, Hs : words8 (?a, ?b, ?c, ?d, ?e, ?f, ?g, ?h) |- context [ROUND_16_63 ?i ?a ?b ?c ?d ?e ?f ?g ?h ?X] =>
      let E := fresh "E" in
      destruct (ROUND_16_63 i a b c d e f g h X) as [[? ?] ?] eqn:E;
      destruct (round_16_63_step _ _ _ _ _ _ _ _ _ _ _ _ _ HX ltac:(lia) Hs E) as (? & ? & ->)
  end.

Lemma rounds_16_63_run n : forall i X s, window W X i -> (16 <= i)%nat -> (i + 8 * n <= 64)%nat -> words8 s ->
  rounds_16_63 n i X s = run i (8 * n) s /\ words8 (run i (8 * n) s).
Proof using All.
  induction n as [|n IH]; intros i X s HX Hi Hn Hs; [done|].
  destruct s as [[[[[[[a b] c] d] e] f] g] h]. cbn [rounds_16_63].
  replace (8 * S n)%nat with (S (S (S (S (S (S (S (S (8 * n)))))))))%nat by lia. rewrite !(Nat.add_succ_r i), Nat.add_0_r.
  do 8 round_16_63. apply IH; [done|lia|lia|done].
Qed.
End rounds.

(** *** A block *)

Section block.
Context (m : mem) (data : ptr) (blk : list Z).
Context (Hblk : bytes_at m data blk) (Hlen : length blk = 64%nat) (Hbytes : Forall is_byte blk).
Local Abbreviation w := (words_of true blk).
Local Abbreviation W := (FIPS180.schedule w 48).

Lemma W_first i : (i < 16)%nat -> nth i W 0 = nth i w 0.
Proof using All. intros Hi. apply schedule_first. by rewrite words_of_length. Qed.

Lemma window_16 : window W w 16.
Proof using All.
  split; [apply words_of_length|]. intros j Hj. rewrite Nat.mod_small by lia. symmetry. apply W_first. lia.
Qed.

Lemma round_00_15_step i a b c d e f g h d' h' :
  (i < 16)%nat -> words8 (a, b, c, d, e, f, g, h) -> ROUND_00_15 i (nth i w 0) a b c d e f g h = (d', h') ->
  words8 (h', a, b, c, d', e, f, g) /\
  forall n, run w i (S n) (a, b, c, d, e, f, g, h) = run w (S i) n (h', a, b, c, d', e, f, g).
Proof using All.
  intros Hi Hs E. destruct (round_step i (nth i w 0) a b c d e f g h d' h' Hs E) as [Es Hw]. split; [done|].
  intros n. by rewrite run_S, W_first, Es by done.
Qed.

(** The words of the context and those of the last round. *)
Lemma add_regs_run h s0 s : load_regs h m = Ret (s0, m) -> s = run w 0 64 s0 -> add_regs h s m = Ret (FIPS180.compress h blk, m).
Proof using All.
  intros E ->. destruct h as [|h0 [|h1 [|h2 [|h3 [|h4 [|h5 [|h6 [|h7 [|h8 h]]]]]]]]]; try done.
  cbn [load_regs] in E. injection E as <-. unfold FIPS180.compress. rewrite run_zip by done.
  destruct (run w 0 64 _) as [[[[[[[a b] c] d] e] f] g] k]. done.
Qed.

Local Ltac round_00_15 k :=
  erewrite bind_ret by exact (HOST_c2l_block true m data blk k Hblk Hlen Hbytes ltac:(lia)); cbv beta zeta;
  match goal with
  | Hs : words8 (?a, ?b, ?c, ?d, ?e, ?f, ?g, ?h) |- context [ROUND_00_15 k _ ?a ?b ?c ?d ?e ?f ?g ?h] =>
      let E := fresh "E" in
      destruct (ROUND_00_15 k (nth k w 0) a b c d e f g h) as [? ?] eqn:E;
      destruct (round_00_15_step k _ _ _ _ _ _ _ _ _ _ ltac:(lia) Hs E) as (? & Hrun);
      rewrite Hrun; clear Hrun
  end.

Lemma sha256_block_run h : length h = 8%nat -> Forall word h -> sha256_block h data m = Ret (FIPS180.compress h blk, m).
Proof using All.
  intros Hl Hw. destruct h as [|h0 [|h1 [|h2 [|h3 [|h4 [|h5 [|h6 [|h7 [|h8 h]]]]]]]]]; try done.
  assert (words8 (h0, h1, h2, h3, h4, h5, h6, h7)) as Hs by done. unfold sha256_block.
  assert (forall s, s = run w 0 64 (h0, h1, h2, h3, h4, h5, h6, h7) ->
    add_regs [h0; h1; h2; h3; h4; h5; h6; h7] s m = Ret (FIPS180.compress [h0; h1; h2; h3; h4; h5; h6; h7] blk, m)) as Hadd.
  { intros s Es. by apply (add_regs_run _ (h0, h1, h2, h3, h4, h5, h6, h7)). }
  cbn [load_regs]. rewrite mbind_mret. revert Hadd.
  generalize (add_regs [h0; h1; h2; h3; h4; h5; h6; h7]) as k. intros k Hadd.
  revert Hadd. rewrite <- (padd_0 data) at 1.
  round_00_15 0%nat. round_00_15 1%nat. round_00_15 2%nat. round_00_15 3%nat.
  round_00_15 4%nat. round_00_15 5%nat. round_00_15 6%nat. round_00_15 7%nat.
  round_00_15 8%nat. round_00_15 9%nat. round_00_15 10%nat. round_00_15 11%nat.
  round_00_15 12%nat. round_00_15 13%nat. round_00_15 14%nat. round_00_15 15%nat.
  intros Hadd. apply Hadd. change 48%nat with (8 * 6)%nat. apply rounds_16_63_run; try done; try lia.
  - by apply words_of_word.
  - apply window_16.
Qed.

Lemma small_00_15_run n : forall i X s, (i + n <= 16)%nat -> X = take i w -> words8 s ->
  small_00_15 n i (padd data (Z.of_nat (4 * i))) X s m = Ret ((take (i + n) w, run w i n s), m) /\ words8 (run w i n s).
Proof using All.
  induction n as [|n IH]; intros i X s Hi -> Hs; cbn [small_00_15].
  { by rewrite Nat.add_0_r. }
  rewrite (bind_ret _ _ _ _ _ (HOST_c2l_block true m data blk i Hblk Hlen Hbytes ltac:(lia))). rewrite padd_padd.
  replace (Z.of_nat (4 * i) + 4) with (Z.of_nat (4 * (i + 1))) by lia. rewrite run_S, W_first by lia.
  destruct (small_round_step i (nth i w 0) s Hs) as [<- Hs']. replace (i + S n)%nat with (i + 1 + n)%nat by lia.
  replace (S i) with (i + 1)%nat by lia. apply IH; [lia| |done].
  destruct (lookup_lt_is_Some_2 w i) as [x Hx]; [rewrite words_of_length; lia|].
  rewrite (nth_lookup_Some _ _ 0 _ Hx), Nat.add_1_r. symmetry. by apply take_S_r.
Qed.

(** The short form computes the same. *)
Lemma small_block_run h : length h = 8%nat -> Forall word h -> small_block h data m = Ret (FIPS180.compress h blk, m).
Proof using All.
  intros Hl Hw. destruct h as [|h0 [|h1 [|h2 [|h3 [|h4 [|h5 [|h6 [|h7 [|h8 h]]]]]]]]]; try done.
  assert (words8 (h0, h1, h2, h3, h4, h5, h6, h7)) as Hs by done. unfold small_block. cbn [load_regs]. rewrite mbind_mret.
  destruct (small_00_15_run 16 0 [] (h0, h1, h2, h3, h4, h5, h6, h7) ltac:(lia) eq_refl Hs) as [E Hs1].
  rewrite Nat.mul_0_r, padd_0 in E. rewrite (bind_ret _ _ _ _ _ E). cbv beta iota. rewrite take_ge by done.
  apply (add_regs_run _ (h0, h1, h2, h3, h4, h5, h6, h7)); [done|].
  change 64%nat with (16 + 48)%nat. rewrite run_app.
  set (s := run w 0 16 _) in *.
  destruct (small_16_63_run w (words_of_length _ _) (words_of_word _ _ Hlen Hbytes) 48 16 w s) as [-> _]; [apply window_16|lia|lia|done|].
  done.
Qed.
End block.

Lemma compress_8 h blk : length h = 8%nat -> length (FIPS180.compress h blk) = 8%nat /\ Forall word (FIPS180.compress h blk).
Proof.
  intros Hl. destruct h as [|h0 [|h1 [|h2 [|h3 [|h4 [|h5 [|h6 [|h7 [|h8 h]]]]]]]]]; try done.
  unfold FIPS180.compress. destruct (fold_left _ _ _) as [[[[[[[a b] c] d] e] f] g] k]. split; [done|].
  repeat (constructor; [apply word_to_uint|]). by apply Forall_nil.
Qed.

Lemma sha256_make_string_run m h len k b o :
  result_words len = Some k -> Forall word h ->
  let r := word_octets true (take k h) in
  room m (Ptr b o) (Z.of_nat (length r)) ->
  sha256_make_string h len (Ptr b o) m = Ret (true, mwrite m (Ptr b o) r).
Proof.
  intros Hk Hw r Hr. cbn [result_words sha256_spec] in Hk. destruct ((0 <=? len) && (len <=? 32)) eqn:Hl; [|done].
  injection Hk as <-. assert (exists q, write_words true (take (Z.to_nat (len / 4)) h) (Ptr b o) m = Ret (q, mwrite m (Ptr b o) r)) as (q & E).
  { destruct (write_words_run true (take (Z.to_nat (len / 4)) h) m b o []) as (q & E); [by apply Forall_take|done|].
    cbn [app length] in E. rewrite mwrite_nil, Z.add_0_r in E. by exists q. }
  unfold sha256_make_string.
  destruct (Z.eqb_spec len 24) as [->|]; [by rewrite (bind_ret _ _ _ _ _ E)|].
  destruct (Z.eqb_spec len 28) as [->|]; [by rewrite (bind_ret _ _ _ _ _ E)|].
  destruct (Z.eqb_spec len 32) as [->|]; [by rewrite (bind_ret _ _ _ _ _ E)|].
  replace (32 <? len) with false by lia. by rewrite (bind_ret _ _ _ _ _ E).
Qed.

#[export] Instance sha256_laws : Digest32Laws.
Proof.
  split.
  - intros h blk Hl _ _ _. by apply compress_8.
  - intros m p h bs n _ Hl Hb Hy H8 Hw. unfold HASH_BLOCK_DATA_ORDER, sha256_digest, sha256_block_data_order.
    rewrite Nat2Z.id. apply (each_block_run sha256_block FIPS180.compress (fun h => length h = 8%nat /\ Forall word h)); try done.
    + intros ? ? ? ? ? ? ? [? ?]. by apply sha256_block_run.
    + intros h' blk [? _] _ _. by apply compress_8.
  - intros m h len k b o Hk _ Hw r Hr. by apply sha256_make_string_run.
Qed.

(** ** Properties *)

(** SHA-256 of a message, by the standard. *)
Definition SHA256_of (msg : list Z) : list Z :=
  word_octets true (digest_blocks true FIPS180.compress
    [0x6a09e667; 0xbb67ae85; 0x3c6ef372; 0xa54ff53a; 0x510e527f; 0x9b05688c; 0x1f83d9ab; 0x5be0cd19] msg).

(** The calls for a message in pieces. *)
Definition SHA256_message (c : HASH_CTX) (pieces : list (ptr * Z)) (md : ptr) : M mem bool :=
  c ← SHA256_Init c;
  hash_message c pieces md.

(** C33: The SHA-256 functions compute SHA-256: the digest of a message that is given
    to SHA256_Update in any pieces is the one FIPS 180-4 defines for the message, the
    call returns 1, and only the context and the result are written. *)
Theorem SHA256_digest m c e eo b o pieces xs :
  hdata c = Ptr e eo -> room m (Ptr e eo) 64 -> b <> e -> Forall2 (message_at m e) pieces xs -> room m (Ptr b o) 32 ->
  exists m',
    SHA256_message c pieces (Ptr b o) m = Ret (true, m') /\
    bytes_at m' (Ptr b o) (SHA256_of (concat xs)) /\ elsewhere m m' b e.
Proof.
  intros Hc Hr Hbe Hp Hrb. unfold SHA256_message, SHA256_Init, sha256_reset. rewrite Hc.
  set (iv := [_; _; _; _; _; _; _; _]). assert (words_ok iv) as Hiv by (split; [done|]; by repeat constructor).
  destruct (hash_init_run m e eo b o 8 pieces xs iv 32 Hiv Hr Hbe Hp eq_refl eq_refl Hrb) as (m' & E & Hb & Hel). by exists m'.
Qed.

(** The message [abc], of which [a] comes first. *)
Lemma SHA256_digest_witness :
  exists m',
    SHA256_message (mkHash [] 5 5 (Ptr 1 0) 5 5) [(Ptr 3 0, 1); (Ptr 3 1, 2)] (Ptr 2 0)
      {[ 1%positive := replicate 64 7; 2%positive := replicate 32 7; 3%positive := [97; 98; 99] ]} = Ret (true, m') /\
    bytes_at m' (Ptr 2 0)
      [0xba; 0x78; 0x16; 0xbf; 0x8f; 0x01; 0xcf; 0xea; 0x41; 0x41; 0x40; 0xde; 0x5d; 0xae; 0x22; 0x23;
       0xb0; 0x03; 0x61; 0xa3; 0x96; 0x17; 0x7a; 0x9c; 0xb4; 0x10; 0xff; 0x61; 0xf2; 0x00; 0x15; 0xad].
Proof.
  destruct (SHA256_digest {[ 1%positive := replicate 64 7; 2%positive := replicate 32 7; 3%positive := [97; 98; 99] ]}
    (mkHash [] 5 5 (Ptr 1 0) 5 5) 1 0 2 0 [(Ptr 3 0, 1); (Ptr 3 1, 2)] [[97]; [98; 99]]) as (m' & E & Hb & _).
  - reflexivity.
  - eexists. split; [reflexivity|by vm_compute].
  - done.
  - constructor; [|constructor; [|constructor]];
      (split; [done|]; split; [right; by eexists|]; split; [done|]; split; [by repeat constructor|done]).
  - eexists. split; [reflexivity|by vm_compute].
  - exists m'. split; [exact E|].
    replace (SHA256_of (concat [[97]; [98; 99]])) with
      [0xba; 0x78; 0x16; 0xbf; 0x8f; 0x01; 0xcf; 0xea; 0x41; 0x41; 0x40; 0xde; 0x5d; 0xae; 0x22; 0x23;
       0xb0; 0x03; 0x61; 0xa3; 0x96; 0x17; 0x7a; 0x9c; 0xb4; 0x10; 0xff; 0x61; 0xf2; 0x00; 0x15; 0xad] in Hb by (vm_compute; reflexivity).
    exact Hb.
Defined.
