(* ===== verification/Md5.v ===== *)
(** * MD5

    crypto/md5/md5_dgst.c and crypto/md5/md5_local.h of the vendored OpenSSL, with
    the md5_functions of include/crypto/md32_common.h that they instantiate (Md32.v).  A
    line of the block function is a line of [md5_block], with the variable that a
    macro assigns on the left.

    The specification is RFC 1321.  The block function computes it, so that MD5_Init,
    MD5_Update and MD5_Final compute MD5. *)

From S2P Require Import Prelude Memory Heap OStr Md32.

(** ** Definitions *)

Definition F (b c d : Z) : Z := Z.lxor (Z.land (Z.lxor c d) b) d.
Definition G (b c d : Z) : Z := Z.lxor (Z.land (Z.lxor b c) d) c.
Definition H (b c d : Z) : Z := Z.lxor (Z.lxor b c) d.
Definition I (b c d : Z) : Z := Z.lxor (Z.lor (to_uint (Z.lnot d)) b) c.

(** The constant [t] is a [long]: the sum is converted when it is assigned. *)
Definition R0 (a b c d k s t : Z) : Z :=
  let a := to_uint (a + (k + t + F b c d)) in
  let a := ROTATE a s in
  wadd a b.

Definition R1 (a b c d k s t : Z) : Z :=
  let a := to_uint (a + (k + t + G b c d)) in
  let a := ROTATE a s in
  wadd a b.

Definition R2 (a b c d k s t : Z) : Z :=
  let a := to_uint (a + (k + t + H b c d)) in
  let a := ROTATE a s in
  wadd a b.

Definition R3 (a b c d k s t : Z) : Z :=
  let a := to_uint (a + (k + t + I b c d)) in
  let a := ROTATE a s in
  wadd a b.

Definition load_regs (ctx : list Z) : M mem (Z * Z * Z * Z) :=
  match ctx with
  | [A; B; C; D] => mret (A, B, C, D)
  | _ => ub
  end.

Definition add_regs (ctx : list Z) (s : Z * Z * Z * Z) : M mem (list Z) :=
  match ctx, s with
  | [cA; cB; cC; cD], (A, B, C, D) => mret [wadd cA A; wadd cB B; wadd cC C; wadd cD D]
  | _, _ => ub
  end.

(** A block at [data]. *)
Definition md5_block (ctx : list Z) (data : ptr) : M mem (list Z) :=
  '(A, B, C, D) ← load_regs ctx;
  X0 ← HOST_c2l false data;
  X1 ← HOST_c2l false (padd data 4);
  A ← mret (R0 A B C D X0 7 0xd76aa478);
  X2 ← HOST_c2l false (padd data 8);
  D ← mret (R0 D A B C X1 12 0xe8c7b756);
  X3 ← HOST_c2l false (padd data 12);
  C ← mret (R0 C D A B X2 17 0x242070db);
  X4 ← HOST_c2l false (padd data 16);
  B ← mret (R0 B C D A X3 22 0xc1bdceee);
  X5 ← HOST_c2l false (padd data 20);
  A ← mret (R0 A B C D X4 7 0xf57c0faf);
  X6 ← HOST_c2l false (padd data 24);
  D ← mret (R0 D A B C X5 12 0x4787c62a);
  X7 ← HOST_c2l false (padd data 28);
  C ← mret (R0 C D A B X6 17 0xa8304613);
  X8 ← HOST_c2l false (padd data 32);
  B ← mret (R0 B C D A X7 22 0xfd469501);
  X9 ← HOST_c2l false (padd data 36);
  A ← mret (R0 A B C D X8 7 0x698098d8);
  X10 ← HOST_c2l false (padd data 40);
  D ← mret (R0 D A B C X9 12 0x8b44f7af);
  X11 ← HOST_c2l false (padd data 44);
  C ← mret (R0 C D A B X10 17 0xffff5bb1);
  X12 ← HOST_c2l false (padd data 48);
  B ← mret (R0 B C D A X11 22 0x895cd7be);
  X13 ← HOST_c2l false (padd data 52);
  A ← mret (R0 A B C D X12 7 0x6b901122);
  X14 ← HOST_c2l false (padd data 56);
  D ← mret (R0 D A B C X13 12 0xfd987193);
  X15 ← HOST_c2l false (padd data 60);
  C ← mret (R0 C D A B X14 17 0xa679438e);
  B ← mret (R0 B C D A X15 22 0x49b40821);
  A ← mret (R1 A B C D X1 5 0xf61e2562);
  D ← mret (R1 D A B C X6 9 0xc040b340);
  C ← mret (R1 C D A B X11 14 0x265e5a51);
  B ← mret (R1 B C D A X0 20 0xe9b6c7aa);
  A ← mret (R1 A B C D X5 5 0xd62f105d);
  D ← mret (R1 D A B C X10 9 0x02441453);
  C ← mret (R1 C D A B X15 14 0xd8a1e681);
  B ← mret (R1 B C D A X4 20 0xe7d3fbc8);
  A ← mret (R1 A B C D X9 5 0x21e1cde6);
  D ← mret (R1 D A B C X14 9 0xc33707d6);
  C ← mret (R1 C D A B X3 14 0xf4d50d87);
  B ← mret (R1 B C D A X8 20 0x455a14ed);
  A ← mret (R1 A B C D X13 5 0xa9e3e905);
  D ← mret (R1 D A B C X2 9 0xfcefa3f8);
  C ← mret (R1 C D A B X7 14 0x676f02d9);
  B ← mret (R1 B C D A X12 20 0x8d2a4c8a);
  A ← mret (R2 A B C D X5 4 0xfffa3942);
  D ← mret (R2 D A B C X8 11 0x8771f681);
  C ← mret (R2 C D A B X11 16 0x6d9d6122);
  B ← mret (R2 B C D A X14 23 0xfde5380c);
  A ← mret (R2 A B C D X1 4 0xa4beea44);
  D ← mret (R2 D A B C X4 11 0x4bdecfa9);
  C ← mret (R2 C D A B X7 16 0xf6bb4b60);
  B ← mret (R2 B C D A X10 23 0xbebfbc70);
  A ← mret (R2 A B C D X13 4 0x289b7ec6);
  D ← mret (R2 D A B C X0 11 0xeaa127fa);
  C ← mret (R2 C D A B X3 16 0xd4ef3085);
  B ← mret (R2 B C D A X6 23 0x04881d05);
  A ← mret (R2 A B C D X9 4 0xd9d4d039);
  D ← mret (R2 D A B C X12 11 0xe6db99e5);
  C ← mret (R2 C D A B X15 16 0x1fa27cf8);
  B ← mret (R2 B C D A X2 23 0xc4ac5665);
  A ← mret (R3 A B C D X0 6 0xf4292244);
  D ← mret (R3 D A B C X7 10 0x432aff97);
  C ← mret (R3 C D A B X14 15 0xab9423a7);
  B ← mret (R3 B C D A X5 21 0xfc93a039);
  A ← mret (R3 A B C D X12 6 0x655b59c3);
  D ← mret (R3 D A B C X3 10 0x8f0ccc92);
  C ← mret (R3 C D A B X10 15 0xffeff47d);
  B ← mret (R3 B C D A X1 21 0x85845dd1);
  A ← mret (R3 A B C D X8 6 0x6fa87e4f);
  D ← mret (R3 D A B C X15 10 0xfe2ce6e0);
  C ← mret (R3 C D A B X6 15 0xa3014314);
  B ← mret (R3 B C D A X13 21 0x4e0811a1);
  A ← mret (R3 A B C D X4 6 0xf7537e82);
  D ← mret (R3 D A B C X11 10 0xbd3af235);
  C ← mret (R3 C D A B X2 15 0x2ad7d2bb);
  B ← mret (R3 B C D A X9 21 0xeb86d391);
  add_regs ctx (A, B, C, D).

Definition md5_block_data_order (ctx : list Z) (data : ptr) (num : Z) : M mem (list Z) :=
  each_block md5_block (Z.to_nat num) ctx data.

Definition md5_make_string (ctx : list Z) (len : Z) (s : ptr) : M mem bool :=
  write_words false ctx s;; mret true.

#[export] Instance md5_digest : Digest32 := {|
  big_endian := false;
  HASH_BLOCK_DATA_ORDER := md5_block_data_order;
  HASH_MAKE_STRING := md5_make_string
|}.

(** The structure is cleared first; its array is the object [hdata c]. *)
Definition MD5_Init (c : HASH_CTX) : M mem HASH_CTX :=
  memset (hdata c) 0 64;;
  mret (mkHash [0x67452301; 0xefcdab89; 0x98badcfe; 0x10325476] 0 0 (hdata c) 0 0).

Definition MD5_Update : HASH_CTX -> ptr -> Z -> M mem HASH_CTX := HASH_UPDATE.
Definition MD5_Final : ptr -> HASH_CTX -> M mem (bool * HASH_CTX) := HASH_FINAL.
Definition MD5_Transform : HASH_CTX -> ptr -> M mem HASH_CTX := HASH_TRANSFORM.

(** ** Specification *)

Module RFC1321.

Definition not (x : Z) : Z := to_uint (Z.lnot x).
Definition f (x y z : Z) : Z := Z.lor (Z.land x y) (Z.land (not x) z).
Definition g (x y z : Z) : Z := Z.lor (Z.land x z) (Z.land y (not z)).
Definition h (x y z : Z) : Z := Z.lxor (Z.lxor x y) z.
Definition i (x y z : Z) : Z := Z.lxor y (Z.lor x (not z)).

(** The function, the word and the rotation of step [n], counted from 0. *)
Definition fn (n : nat) : Z -> Z -> Z -> Z :=
  match (n / 16)%nat with O => f | 1%nat => g | 2%nat => h | _ => i end.
Definition word_index (n : nat) : nat :=
  match (n / 16)%nat with O => n mod 16 | 1%nat => (1 + 5 * n) mod 16 | 2%nat => (5 + 3 * n) mod 16 | _ => (7 * n) mod 16 end.
Definition shift (n : nat) : Z :=
  nth (n mod 4) (nth (n / 16) [[7; 12; 17; 22]; [5; 9; 14; 20]; [4; 11; 16; 23]; [6; 10; 15; 21]] []) 0.

(** The integer part of 4294967296 times the absolute value of sin (n + 1). *)
Definition T (n : nat) : Z :=
  nth n
    [
     0xd76aa478; 0xe8c7b756; 0x242070db; 0xc1bdceee; 0xf57c0faf; 0x4787c62a; 0xa8304613; 0xfd469501;
     0x698098d8; 0x8b44f7af; 0xffff5bb1; 0x895cd7be; 0x6b901122; 0xfd987193; 0xa679438e; 0x49b40821;
     0xf61e2562; 0xc040b340; 0x265e5a51; 0xe9b6c7aa; 0xd62f105d; 0x02441453; 0xd8a1e681; 0xe7d3fbc8;
     0x21e1cde6; 0xc33707d6; 0xf4d50d87; 0x455a14ed; 0xa9e3e905; 0xfcefa3f8; 0x676f02d9; 0x8d2a4c8a;
     0xfffa3942; 0x8771f681; 0x6d9d6122; 0xfde5380c; 0xa4beea44; 0x4bdecfa9; 0xf6bb4b60; 0xbebfbc70;
     0x289b7ec6; 0xeaa127fa; 0xd4ef3085; 0x04881d05; 0xd9d4d039; 0xe6db99e5; 0x1fa27cf8; 0xc4ac5665;
     0xf4292244; 0x432aff97; 0xab9423a7; 0xfc93a039; 0x655b59c3; 0x8f0ccc92; 0xffeff47d; 0x85845dd1;
     0x6fa87e4f; 0xfe2ce6e0; 0xa3014314; 0x4e0811a1; 0xf7537e82; 0xbd3af235; 0x2ad7d2bb; 0xeb86d391] 0.

Definition step (w : list Z) (s : Z * Z * Z * Z) (n : nat) : Z * Z * Z * Z :=
  let '(a, b, c, d) := s in
  (d, to_uint (b + rotl (shift n) (to_uint (a + fn n b c d + nth (word_index n) w 0 + T n))), b, c).

Definition compress (h blk : list Z) : list Z :=
  match h with
  | [A; B; C; D] =>
      let '(a, b, c, d) := fold_left (step (words_of false blk)) (seq 0 64) (A, B, C, D) in
      map to_uint [A + a; B + b; C + c; D + d]
  | _ => h
  end.
End RFC1321.

#[export] Instance md5_spec : Digest32Spec := {|
  compress := RFC1321.compress;
  chain_words := 4;
  result_words len := Some 4%nat
|}.

(** ** Lemmas *)

Lemma md5_functions b c d : word b -> word c -> word d ->
  F b c d = RFC1321.f b c d /\ G b c d = RFC1321.g b c d /\ H b c d = RFC1321.h b c d /\ I b c d = RFC1321.i b c d.
Proof.
  intros Hb Hc Hd. unfold F, G, H, I, RFC1321.f, RFC1321.g, RFC1321.h, RFC1321.i, RFC1321.not.
  split; [wbits|]. split; [wbits|]. split; [done|]. wbits.
Qed.

Definition words4 (s : Z * Z * Z * Z) : Prop := let '(a, b, c, d) := s in word a /\ word b /\ word c /\ word d.

Section block.
Context (m : mem) (data : ptr) (blk : list Z).
Local Abbreviation w := (words_of false blk).

Definition run (i n : nat) (s : Z * Z * Z * Z) : Z * Z * Z * Z := fold_left (RFC1321.step w) (seq i n) s.

(** A line of the code is a step of the specification. *)
Lemma line_step j n k a b c d x :
  words4 (a, b, c, d) ->
  (match j with
   | O => R0 | 1%nat => R1 | 2%nat => R2 | _ => R3
   end) a b c d (nth (RFC1321.word_index n) w 0) (RFC1321.shift n) (RFC1321.T n) = x ->
  j = (n / 16)%nat -> 0 < RFC1321.shift n < 32 ->
  run n (S k) (a, b, c, d) = run (S n) k (d, x, b, c) /\ words4 (d, x, b, c).
Proof using.
  intros (Ha & Hb & Hc & Hd) Hx Hj Hs. destruct (md5_functions b c d Hb Hc Hd) as (EF & EG & EH & EI).
  assert (forall f, f b c d = RFC1321.fn n b c d ->
    wadd (ROTATE (to_uint (a + (nth (RFC1321.word_index n) w 0 + RFC1321.T n + f b c d))) (RFC1321.shift n)) b = x ->
    run n (S k) (a, b, c, d) = run (S n) k (d, x, b, c) /\ words4 (d, x, b, c)) as Hgen.
  { intros f Ef <-. split.
    - unfold run. cbn [seq fold_left]. f_equal. unfold RFC1321.step. rewrite ROTATE_rotl by (done || apply word_to_uint).
      rewrite <- Ef. unfold wadd. set (x := nth _ w 0). set (t := RFC1321.T n).
      replace (a + (x + t + f b c d)) with (a + f b c d + x + t) by lia. by rewrite (Z.add_comm _ b).
    - split; [done|]. split; [apply wadd_word|done]. }
  unfold RFC1321.fn in Hgen. rewrite <- Hj in Hgen.
  destruct j as [|[|[|j]]]; (eapply Hgen; [|exact Hx]); done.
Qed.

Lemma md5_add_regs_run h s0 s : load_regs h m = Ret (s0, m) -> s = run 0 64 s0 -> add_regs h s m = Ret (RFC1321.compress h blk, m).
Proof using.
  intros E ->. destruct h as [|A [|B [|C [|D [|h4 h]]]]]; try done. cbn [load_regs] in E. injection E as <-.
  unfold run, RFC1321.compress. destruct (fold_left _ _ _) as [[[a b] c] d]. done.
Qed.

Context (Hblk : bytes_at m data blk) (Hlen : length blk = 64%nat) (Hbytes : Forall is_byte blk).

Local Ltac md5_load k := erewrite bind_ret by exact (HOST_c2l_block false m data blk k Hblk Hlen Hbytes ltac:(lia)); cbv beta.

Local Ltac md5_line j n :=
  let x := fresh "x" in let Ex := fresh "Ex" in
  apply let_step; intros x Ex; symmetry in Ex;
  match goal with
  | Hs : words4 (?a, ?b, ?c, ?d) |- context [run n (S ?k) (?a, ?b, ?c, ?d)] =>
      destruct (line_step j n k a b c d x Hs Ex eq_refl ltac:(split; reflexivity)) as [-> ?]; clear Ex Hs
  end.

#[local] Opaque run.

Lemma md5_block_run h : length h = 4%nat -> Forall word h -> md5_block h data m = Ret (RFC1321.compress h blk, m).
Proof using All.
  intros Hl Hw. destruct h as [|A [|B [|C [|D [|h4 h]]]]]; try done.
  assert (words4 (A, B, C, D)) as Hs by (rewrite !Forall_cons in Hw; destruct Hw as (? & ? & ? & ? & _); done).
  rewrite <- (md5_add_regs_run [A; B; C; D] (A, B, C, D) _ eq_refl eq_refl).
  unfold md5_block. cbn [load_regs]. rewrite mbind_mret. generalize (add_regs [A; B; C; D]) as k. intros k.
  rewrite <- (padd_0 data) at 1.
  md5_load 0%nat. md5_load 1%nat. md5_line 0%nat 0%nat. md5_load 2%nat. md5_line 0%nat 1%nat. md5_load 3%nat.
  md5_line 0%nat 2%nat. md5_load 4%nat. md5_line 0%nat 3%nat. md5_load 5%nat. md5_line 0%nat 4%nat. md5_load 6%nat.
  md5_line 0%nat 5%nat. md5_load 7%nat. md5_line 0%nat 6%nat. md5_load 8%nat. md5_line 0%nat 7%nat. md5_load 9%nat.
  md5_line 0%nat 8%nat. md5_load 10%nat. md5_line 0%nat 9%nat. md5_load 11%nat. md5_line 0%nat 10%nat.
  md5_load 12%nat. md5_line 0%nat 11%nat. md5_load 13%nat. md5_line 0%nat 12%nat. md5_load 14%nat.
  md5_line 0%nat 13%nat. md5_load 15%nat. md5_line 0%nat 14%nat. md5_line 0%nat 15%nat. md5_line 1%nat 16%nat.
  md5_line 1%nat 17%nat. md5_line 1%nat 18%nat. md5_line 1%nat 19%nat. md5_line 1%nat 20%nat. md5_line 1%nat 21%nat.
  md5_line 1%nat 22%nat. md5_line 1%nat 23%nat. md5_line 1%nat 24%nat. md5_line 1%nat 25%nat. md5_line 1%nat 26%nat.
  md5_line 1%nat 27%nat. md5_line 1%nat 28%nat. md5_line 1%nat 29%nat. md5_line 1%nat 30%nat. md5_line 1%nat 31%nat.
  md5_line 2%nat 32%nat. md5_line 2%nat 33%nat. md5_line 2%nat 34%nat. md5_line 2%nat 35%nat. md5_line 2%nat 36%nat.
  md5_line 2%nat 37%nat. md5_line 2%nat 38%nat. md5_line 2%nat 39%nat. md5_line 2%nat 40%nat. md5_line 2%nat 41%nat.
  md5_line 2%nat 42%nat. md5_line 2%nat 43%nat. md5_line 2%nat 44%nat. md5_line 2%nat 45%nat. md5_line 2%nat 46%nat.
  md5_line 2%nat 47%nat. md5_line 3%nat 48%nat. md5_line 3%nat 49%nat. md5_line 3%nat 50%nat. md5_line 3%nat 51%nat.
  md5_line 3%nat 52%nat. md5_line 3%nat 53%nat. md5_line 3%nat 54%nat. md5_line 3%nat 55%nat. md5_line 3%nat 56%nat.
  md5_line 3%nat 57%nat. md5_line 3%nat 58%nat. md5_line 3%nat 59%nat. md5_line 3%nat 60%nat. md5_line 3%nat 61%nat.
  md5_line 3%nat 62%nat. md5_line 3%nat 63%nat.
  reflexivity.
Qed.
End block.

Lemma compress_4 h blk : length h = 4%nat -> length (RFC1321.compress h blk) = 4%nat /\ Forall word (RFC1321.compress h blk).
Proof.
  intros Hl. destruct h as [|A [|B [|C [|D [|h4 h]]]]]; try done. unfold RFC1321.compress.
  destruct (fold_left _ _ _) as [[[a b] c] d]. split; [done|]. repeat (constructor; [apply word_to_uint|]). by apply Forall_nil.
Qed.

#[export] Instance md5_laws : Digest32Laws.
Proof.
  split.
  - intros h blk Hl _ _ _. by apply compress_4.
  - intros m p h bs n _ Hl Hb Hy H4 Hw. unfold HASH_BLOCK_DATA_ORDER, md5_digest, md5_block_data_order.
    rewrite Nat2Z.id. apply (each_block_run md5_block RFC1321.compress (fun h => length h = 4%nat /\ Forall word h)); try done.
    + intros ? ? ? ? ? ? ? [? ?]. by apply md5_block_run.
    + intros h' blk [? _] _ _. by apply compress_4.
  - intros m h len k b o [= <-] H4 Hw r Hr. unfold HASH_MAKE_STRING, md5_digest, md5_make_string.
    destruct (write_words_run false h m b o []) as (q & E); [done|cbn [app]; unfold r in Hr; by rewrite take_ge in Hr by (rewrite H4; done)|].
    cbn [app length] in E. rewrite mwrite_nil, Z.add_0_r in E. rewrite (bind_ret _ _ _ _ _ E). unfold r.
    by rewrite take_ge by (rewrite H4; done).
Qed.

(** MD5 of a message, by the standard. *)
Definition MD5_of (msg : list Z) : list Z :=
  word_octets false (digest_blocks false RFC1321.compress [0x67452301; 0xefcdab89; 0x98badcfe; 0x10325476] msg).

(** The calls for a message in pieces. *)
Definition MD5_message (c : HASH_CTX) (pieces : list (ptr * Z)) (md : ptr) : M mem bool :=
  c ← MD5_Init c;
  hash_message c pieces md.

(** The MD5 md5_functions compute MD5, however the message is cut. *)
Lemma MD5_message_run m c e eo b o pieces xs :
  hdata c = Ptr e eo -> room m (Ptr e eo) 64 -> b <> e -> Forall2 (message_at m e) pieces xs -> room m (Ptr b o) 16 ->
  exists m',
    MD5_message c pieces (Ptr b o) m = Ret (true, m') /\
    bytes_at m' (Ptr b o) (MD5_of (concat xs)) /\ elsewhere m m' b e.
Proof.
  intros Hc Hr Hbe Hp Hrb. unfold MD5_message, MD5_Init. rewrite Hc.
  set (iv := [_; _; _; _]). assert (words_ok iv) as Hiv by (split; [done|]; by repeat constructor).
  destruct (hash_init_run m e eo b o 4 pieces xs iv 0 Hiv Hr Hbe Hp eq_refl eq_refl Hrb) as (m' & E & Hb & Hel). by exists m'.
Qed.

(** The digest of [abc]. *)
Example MD5_abc :
  MD5_of [97; 98; 99] = [0x90; 0x01; 0x50; 0x98; 0x3c; 0xd2; 0x4f; 0xb0; 0xd6; 0x96; 0x3f; 0x7d; 0x28; 0xe1; 0x7f; 0x72].
Proof. vm_compute. reflexivity. Qed.
