(* ===== verification/Sha1.v ===== *)
(** * SHA-1

    crypto/sha/sha_local.h of the vendored OpenSSL, with the sha1_functions of
    include/crypto/md32_common.h that it instantiates (Md32.v), and crypto/sha/sha1dgst.c.
    A line of the block function is a line of the sha1_functions [sha1_00_15] to
    [sha1_60_79], with the variables that a macro assigns on the left; the variables
    X0 to X15 are an array once all of them are read.  The form of OPENSSL_SMALL_FOOTPRINT is not modelled.

    The specification is FIPS 180-4.  The block function computes it, so that
    SHA1_Init, SHA1_Update and SHA1_Final compute SHA-1. *)

From S2P Require Import Prelude Memory Heap OStr Md32.

(** ** Definitions *)

Definition K_00_19 : Z := 0x5a827999.
Definition K_20_39 : Z := 0x6ed9eba1.
Definition K_40_59 : Z := 0x8f1bbcdc.
Definition K_60_79 : Z := 0xca62c1d6.

Definition F_00_19 (b c d : Z) : Z := Z.lxor (Z.land (Z.lxor c d) b) d.
Definition F_20_39 (b c d : Z) : Z := Z.lxor (Z.lxor b c) d.
Definition F_40_59 (b c d : Z) : Z := Z.lor (Z.land b c) (Z.land (Z.lor b c) d).
Definition F_60_79 (b c d : Z) : Z := F_20_39 b c d.

(** The variable [X(i)]. *)
Definition X_at (X : list Z) (i : nat) : Z := nth i X 0.

Definition Xupdate (X : list Z) (ix ia ib ic id : nat) : Z * list Z :=
  let a := Z.lxor (Z.lxor (Z.lxor (X_at X ia) (X_at X ib)) (X_at X ic)) (X_at X id) in
  let a := ROTATE a 1 in
  (a, <[ix := a]> X).

(** The constants are [unsigned long]: the sums are converted when they are
    assigned.  The results are the variables [f] and [b]. *)
Definition BODY_00_15 (a b c d e xi : Z) : Z * Z :=
  let f := to_uint (wadd xi e + K_00_19 + ROTATE a 5 + F_00_19 b c d) in
  (f, ROTATE b 30).

Definition BODY_16_19 (a b c d e : Z) (xi xa xb xc xd : nat) (X : list Z) : list Z * Z * Z :=
  let '(f, X) := Xupdate X xi xa xb xc xd in
  let f := to_uint (f + (e + K_00_19 + ROTATE a 5 + F_00_19 b c d)) in
  (X, f, ROTATE b 30).

Definition BODY_20_31 (a b c d e : Z) (xi xa xb xc xd : nat) (X : list Z) : list Z * Z * Z :=
  let '(f, X) := Xupdate X xi xa xb xc xd in
  let f := to_uint (f + (e + K_20_39 + ROTATE a 5 + F_20_39 b c d)) in
  (X, f, ROTATE b 30).

Definition BODY_32_39 (a b c d e : Z) (xa xb xc xd : nat) (X : list Z) : list Z * Z * Z :=
  let '(f, X) := Xupdate X xa xa xb xc xd in
  let f := to_uint (f + (e + K_20_39 + ROTATE a 5 + F_20_39 b c d)) in
  (X, f, ROTATE b 30).

Definition BODY_40_59 (a b c d e : Z) (xa xb xc xd : nat) (X : list Z) : list Z * Z * Z :=
  let '(f, X) := Xupdate X xa xa xb xc xd in
  let f := to_uint (f + (e + K_40_59 + ROTATE a 5 + F_40_59 b c d)) in
  (X, f, ROTATE b 30).

Definition BODY_60_79 (a b c d e : Z) (xa xb xc xd : nat) (X : list Z) : list Z * Z * Z :=
  let '(f, X) := Xupdate X xa xa xb xc xd in
  let f := to_uint (wadd (X_at X xa) e + K_60_79 + ROTATE a 5 + F_60_79 b c d) in
  (X, f, ROTATE b 30).

Definition load_regs (ctx : list Z) : M mem (Z * Z * Z * Z * Z) :=
  match ctx with
  | [h0; h1; h2; h3; h4] => mret (h0, h1, h2, h3, h4)
  | _ => ub
  end.

Definition add_regs (ctx : list Z) (s : Z * Z * Z * Z * Z) : M mem (list Z) :=
  match ctx, s with
  | [h0; h1; h2; h3; h4], (A, B, C, D, E) =>
      mret (map (fun z => Z.land z 4294967295) [wadd h0 A; wadd h1 B; wadd h2 C; wadd h3 D; wadd h4 E])
  | _, _ => ub
  end.

(** The first sixteen rounds, which read the block. *)
Definition sha1_00_15 (data : ptr) (s : Z * Z * Z * Z * Z) : M mem (list Z * (Z * Z * Z * Z * Z)) :=
  let '(A, B, C, D, E) := s in
  X0 ← HOST_c2l true data;
  X1 ← HOST_c2l true (padd data 4);
  '(T, B) ← mret (BODY_00_15 A B C D E X0);
  X2 ← HOST_c2l true (padd data 8);
  '(E, A) ← mret (BODY_00_15 T A B C D X1);
  X3 ← HOST_c2l true (padd data 12);
  '(D, T) ← mret (BODY_00_15 E T A B C X2);
  X4 ← HOST_c2l true (padd data 16);
  '(C, E) ← mret (BODY_00_15 D E T A B X3);
  X5 ← HOST_c2l true (padd data 20);
  '(B, D) ← mret (BODY_00_15 C D E T A X4);
  X6 ← HOST_c2l true (padd data 24);
  '(A, C) ← mret (BODY_00_15 B C D E T X5);
  X7 ← HOST_c2l true (padd data 28);
  '(T, B) ← mret (BODY_00_15 A B C D E X6);
  X8 ← HOST_c2l true (padd data 32);
  '(E, A) ← mret (BODY_00_15 T A B C D X7);
  X9 ← HOST_c2l true (padd data 36);
  '(D, T) ← mret (BODY_00_15 E T A B C X8);
  X10 ← HOST_c2l true (padd data 40);
  '(C, E) ← mret (BODY_00_15 D E T A B X9);
  X11 ← HOST_c2l true (padd data 44);
  '(B, D) ← mret (BODY_00_15 C D E T A X10);
  X12 ← HOST_c2l true (padd data 48);
  '(A, C) ← mret (BODY_00_15 B C D E T X11);
  X13 ← HOST_c2l true (padd data 52);
  '(T, B) ← mret (BODY_00_15 A B C D E X12);
  X14 ← HOST_c2l true (padd data 56);
  '(E, A) ← mret (BODY_00_15 T A B C D X13);
  X15 ← HOST_c2l true (padd data 60);
  '(D, T) ← mret (BODY_00_15 E T A B C X14);
  '(C, E) ← mret (BODY_00_15 D E T A B X15);
  mret ([X0; X1; X2; X3; X4; X5; X6; X7; X8; X9; X10; X11; X12; X13; X14; X15], (C, D, E, T, A)).

Definition sha1_16_19 (X : list Z) (s : Z * Z * Z * Z * Z) : M mem (list Z * (Z * Z * Z * Z * Z)) :=
  let '(C, D, E, T, A) := s in
  '(X, B, D) ← mret (BODY_16_19 C D E T A 0 0 2 8 13 X);
  '(X, A, C) ← mret (BODY_16_19 B C D E T 1 1 3 9 14 X);
  '(X, T, B) ← mret (BODY_16_19 A B C D E 2 2 4 10 15 X);
  '(X, E, A) ← mret (BODY_16_19 T A B C D 3 3 5 11 0 X);
  mret (X, (E, T, A, B, C)).

Definition sha1_20_31 (X : list Z) (s : Z * Z * Z * Z * Z) : M mem (list Z * (Z * Z * Z * Z * Z)) :=
  let '(E, T, A, B, C) := s in
  '(X, D, T) ← mret (BODY_20_31 E T A B C 4 4 6 12 1 X);
  '(X, C, E) ← mret (BODY_20_31 D E T A B 5 5 7 13 2 X);
  '(X, B, D) ← mret (BODY_20_31 C D E T A 6 6 8 14 3 X);
  '(X, A, C) ← mret (BODY_20_31 B C D E T 7 7 9 15 4 X);
  '(X, T, B) ← mret (BODY_20_31 A B C D E 8 8 10 0 5 X);
  '(X, E, A) ← mret (BODY_20_31 T A B C D 9 9 11 1 6 X);
  '(X, D, T) ← mret (BODY_20_31 E T A B C 10 10 12 2 7 X);
  '(X, C, E) ← mret (BODY_20_31 D E T A B 11 11 13 3 8 X);
  '(X, B, D) ← mret (BODY_20_31 C D E T A 12 12 14 4 9 X);
  '(X, A, C) ← mret (BODY_20_31 B C D E T 13 13 15 5 10 X);
  '(X, T, B) ← mret (BODY_20_31 A B C D E 14 14 0 6 11 X);
  '(X, E, A) ← mret (BODY_20_31 T A B C D 15 15 1 7 12 X);
  mret (X, (E, T, A, B, C)).

Definition sha1_32_39 (X : list Z) (s : Z * Z * Z * Z * Z) : M mem (list Z * (Z * Z * Z * Z * Z)) :=
  let '(E, T, A, B, C) := s in
  '(X, D, T) ← mret (BODY_32_39 E T A B C 0 2 8 13 X);
  '(X, C, E) ← mret (BODY_32_39 D E T A B 1 3 9 14 X);
  '(X, B, D) ← mret (BODY_32_39 C D E T A 2 4 10 15 X);
  '(X, A, C) ← mret (BODY_32_39 B C D E T 3 5 11 0 X);
  '(X, T, B) ← mret (BODY_32_39 A B C D E 4 6 12 1 X);
  '(X, E, A) ← mret (BODY_32_39 T A B C D 5 7 13 2 X);
  '(X, D, T) ← mret (BODY_32_39 E T A B C 6 8 14 3 X);
  '(X, C, E) ← mret (BODY_32_39 D E T A B 7 9 15 4 X);
  mret (X, (C, D, E, T, A)).

Definition sha1_40_59 (X : list Z) (s : Z * Z * Z * Z * Z) : M mem (list Z * (Z * Z * Z * Z * Z)) :=
  let '(C, D, E, T, A) := s in
  '(X, B, D) ← mret (BODY_40_59 C D E T A 8 10 0 5 X);
  '(X, A, C) ← mret (BODY_40_59 B C D E T 9 11 1 6 X);
  '(X, T, B) ← mret (BODY_40_59 A B C D E 10 12 2 7 X);
  '(X, E, A) ← mret (BODY_40_59 T A B C D 11 13 3 8 X);
  '(X, D, T) ← mret (BODY_40_59 E T A B C 12 14 4 9 X);
  '(X, C, E) ← mret (BODY_40_59 D E T A B 13 15 5 10 X);
  '(X, B, D) ← mret (BODY_40_59 C D E T A 14 0 6 11 X);
  '(X, A, C) ← mret (BODY_40_59 B C D E T 15 1 7 12 X);
  '(X, T, B) ← mret (BODY_40_59 A B C D E 0 2 8 13 X);
  '(X, E, A) ← mret (BODY_40_59 T A B C D 1 3 9 14 X);
  '(X, D, T) ← mret (BODY_40_59 E T A B C 2 4 10 15 X);
  '(X, C, E) ← mret (BODY_40_59 D E T A B 3 5 11 0 X);
  '(X, B, D) ← mret (BODY_40_59 C D E T A 4 6 12 1 X);
  '(X, A, C) ← mret (BODY_40_59 B C D E T 5 7 13 2 X);
  '(X, T, B) ← mret (BODY_40_59 A B C D E 6 8 14 3 X);
  '(X, E, A) ← mret (BODY_40_59 T A B C D 7 9 15 4 X);
  '(X, D, T) ← mret (BODY_40_59 E T A B C 8 10 0 5 X);
  '(X, C, E) ← mret (BODY_40_59 D E T A B 9 11 1 6 X);
  '(X, B, D) ← mret (BODY_40_59 C D E T A 10 12 2 7 X);
  '(X, A, C) ← mret (BODY_40_59 B C D E T 11 13 3 8 X);
  mret (X, (A, B, C, D, E)).

Definition sha1_60_79 (X : list Z) (s : Z * Z * Z * Z * Z) : M mem (list Z * (Z * Z * Z * Z * Z)) :=
  let '(A, B, C, D, E) := s in
  '(X, T, B) ← mret (BODY_60_79 A B C D E 12 14 4 9 X);
  '(X, E, A) ← mret (BODY_60_79 T A B C D 13 15 5 10 X);
  '(X, D, T) ← mret (BODY_60_79 E T A B C 14 0 6 11 X);
  '(X, C, E) ← mret (BODY_60_79 D E T A B 15 1 7 12 X);
  '(X, B, D) ← mret (BODY_60_79 C D E T A 0 2 8 13 X);
  '(X, A, C) ← mret (BODY_60_79 B C D E T 1 3 9 14 X);
  '(X, T, B) ← mret (BODY_60_79 A B C D E 2 4 10 15 X);
  '(X, E, A) ← mret (BODY_60_79 T A B C D 3 5 11 0 X);
  '(X, D, T) ← mret (BODY_60_79 E T A B C 4 6 12 1 X);
  '(X, C, E) ← mret (BODY_60_79 D E T A B 5 7 13 2 X);
  '(X, B, D) ← mret (BODY_60_79 C D E T A 6 8 14 3 X);
  '(X, A, C) ← mret (BODY_60_79 B C D E T 7 9 15 4 X);
  '(X, T, B) ← mret (BODY_60_79 A B C D E 8 10 0 5 X);
  '(X, E, A) ← mret (BODY_60_79 T A B C D 9 11 1 6 X);
  '(X, D, T) ← mret (BODY_60_79 E T A B C 10 12 2 7 X);
  '(X, C, E) ← mret (BODY_60_79 D E T A B 11 13 3 8 X);
  '(X, B, D) ← mret (BODY_60_79 C D E T A 12 14 4 9 X);
  '(X, A, C) ← mret (BODY_60_79 B C D E T 13 15 5 10 X);
  '(X, T, B) ← mret (BODY_60_79 A B C D E 14 0 6 11 X);
  '(X, E, A) ← mret (BODY_60_79 T A B C D 15 1 7 12 X);
  mret (X, (E, T, A, B, C)).

(** A block at [data]. *)
Definition sha1_block (ctx : list Z) (data : ptr) : M mem (list Z) :=
  s ← load_regs ctx;
  '(X, s) ← sha1_00_15 data s;
  '(X, s) ← sha1_16_19 X s;
  '(X, s) ← sha1_20_31 X s;
  '(X, s) ← sha1_32_39 X s;
  '(X, s) ← sha1_40_59 X s;
  '(X, s) ← sha1_60_79 X s;
  add_regs ctx s.

(** The loop decrements [num] before it looks at it. *)
Definition sha1_block_data_order (ctx : list Z) (data : ptr) (num : Z) : M mem (list Z) :=
  each_block sha1_block (Z.to_nat (if num =? 0 then 2 ^ 64 else num)) ctx data.

(** The form with OPENSSL_SMALL_FOOTPRINT: the same lines with the registers
    moved instead of renamed. *)
Definition small_BODY_00_15 (xi : Z) (s : Z * Z * Z * Z * Z) : Z * Z * Z * Z * Z :=
  let '(A, B, C, D, E) := s in
  let T := to_uint (E + K_00_19 + F_00_19 B C D) in
  (to_uint (ROTATE A 5 + T + xi), A, ROTATE B 30, C, D).

Definition small_BODY_16_19 (xa xb xc xd : nat) (X : list Z) (s : Z * Z * Z * Z * Z) : list Z * (Z * Z * Z * Z * Z) :=
  let '(A, B, C, D, E) := s in
  let '(T, X) := Xupdate X xa xa xb xc xd in
  let T := to_uint (T + (E + K_00_19 + F_00_19 B C D)) in
  (X, (to_uint (ROTATE A 5 + T), A, ROTATE B 30, C, D)).

Definition small_BODY_20_39 (xa xb xc xd : nat) (X : list Z) (s : Z * Z * Z * Z * Z) : list Z * (Z * Z * Z * Z * Z) :=
  let '(A, B, C, D, E) := s in
  let '(T, X) := Xupdate X xa xa xb xc xd in
  let T := to_uint (T + (E + K_20_39 + F_20_39 B C D)) in
  (X, (to_uint (ROTATE A 5 + T), A, ROTATE B 30, C, D)).

Definition small_BODY_40_59 (xa xb xc xd : nat) (X : list Z) (s : Z * Z * Z * Z * Z) : list Z * (Z * Z * Z * Z * Z) :=
  let '(A, B, C, D, E) := s in
  let '(T, X) := Xupdate X xa xa xb xc xd in
  let T := to_uint (T + (E + K_40_59 + F_40_59 B C D)) in
  (X, (to_uint (ROTATE A 5 + T), A, ROTATE B 30, C, D)).

Definition small_BODY_60_79 (xa xb xc xd : nat) (X : list Z) (s : Z * Z * Z * Z * Z) : list Z * (Z * Z * Z * Z * Z) :=
  let '(A, B, C, D, E) := s in
  let '(_, X) := Xupdate X xa xa xb xc xd in
  let T := to_uint (E + K_60_79 + F_60_79 B C D) in
  (X, (to_uint (ROTATE A 5 + T + X_at X xa), A, ROTATE B 30, C, D)).

(** Its first loop, [n] rounds; the words read so far are [X]. *)
Fixpoint small_read (n : nat) (data : ptr) (X : list Z) (s : Z * Z * Z * Z * Z) : M mem (list Z * (Z * Z * Z * Z * Z)) :=
  match n with
  | O => mret (X, s)
  | S n =>
      l ← HOST_c2l true data;
      small_read n (padd data 4) (X ++ [l]) (small_BODY_00_15 l s)
  end.

(** A loop of [n] rounds from [i] on. *)
Fixpoint small_loop (body : nat -> list Z -> Z * Z * Z * Z * Z -> list Z * (Z * Z * Z * Z * Z)) (n i : nat) (X : list Z)
    (s : Z * Z * Z * Z * Z) : list Z * (Z * Z * Z * Z * Z) :=
  match n with
  | O => (X, s)
  | S n => let '(X, s) := body i X s in small_loop body n (i + 1) X s
  end.

Definition small_block (ctx : list Z) (data : ptr) : M mem (list Z) :=
  s ← load_regs ctx;
  '(X, s) ← small_read 16 data [] s;
  '(X, s) ← mret (small_loop (fun i => small_BODY_16_19 i (i + 2) (i + 8) (Nat.land (i + 13) 15)) 4 0 X s);
  '(X, s) ← mret (small_loop (fun i => small_BODY_20_39 (Nat.land i 15) (Nat.land (i + 2) 15) (Nat.land (i + 8) 15)
    (Nat.land (i + 13) 15)) 20 4 X s);
  '(X, s) ← mret (small_loop (fun i => small_BODY_40_59 (Nat.land (i + 8) 15) (Nat.land (i + 10) 15) (Nat.land i 15)
    (Nat.land (i + 5) 15)) 20 0 X s);
  '(X, s) ← mret (small_loop (fun i => small_BODY_60_79 (Nat.land (i + 8) 15) (Nat.land (i + 10) 15) (Nat.land i 15)
    (Nat.land (i + 5) 15)) 20 4 X s);
  add_regs ctx s.

Definition sha1_make_string (ctx : list Z) (len : Z) (s : ptr) : M mem bool :=
  write_words true ctx s;; mret true.

#[export] Instance sha1_digest : Digest32 := {|
  big_endian := true;
  HASH_BLOCK_DATA_ORDER := sha1_block_data_order;
  HASH_MAKE_STRING := sha1_make_string
|}.

(** The structure is cleared first; its array is the object [hdata c]. *)
Definition SHA1_Init (c : HASH_CTX) : M mem HASH_CTX :=
  memset (hdata c) 0 64;;
  mret (mkHash [0x67452301; 0xefcdab89; 0x98badcfe; 0x10325476; 0xc3d2e1f0] 0 0 (hdata c) 0 0).

Definition SHA1_Update : HASH_CTX -> ptr -> Z -> M mem HASH_CTX := HASH_UPDATE.
Definition SHA1_Final : ptr -> HASH_CTX -> M mem (bool * HASH_CTX) := HASH_FINAL.
Definition SHA1_Transform : HASH_CTX -> ptr -> M mem HASH_CTX := HASH_TRANSFORM.

(** ** Specification *)

Module FIPS180_1.

Definition Ch (x y z : Z) : Z := Z.lxor (Z.land x y) (Z.land (to_uint (Z.lnot x)) z).
Definition Parity (x y z : Z) : Z := Z.lxor (Z.lxor x y) z.
Definition Maj (x y z : Z) : Z := Z.lxor (Z.lxor (Z.land x y) (Z.land x z)) (Z.land y z).

Definition f (t : nat) : Z -> Z -> Z -> Z :=
  match (t / 20)%nat with O => Ch | 1%nat => Parity | 2%nat => Maj | _ => Parity end.
Definition K (t : nat) : Z :=
  match (t / 20)%nat with O => 0x5a827999 | 1%nat => 0x6ed9eba1 | 2%nat => 0x8f1bbcdc | _ => 0xca62c1d6 end.

Definition next (w : list Z) : Z :=
  let t := length w in
  let W i := nth i w 0 in
  rotl 1 (Z.lxor (Z.lxor (Z.lxor (W (t - 3)%nat) (W (t - 8)%nat)) (W (t - 14)%nat)) (W (t - 16)%nat)).

Definition schedule (w : list Z) : list Z := extend next w 64.

Definition step (W : list Z) (s : Z * Z * Z * Z * Z) (t : nat) : Z * Z * Z * Z * Z :=
  let '(a, b, c, d, e) := s in
  (to_uint (rotl 5 a + f t b c d + e + K t + nth t W 0), a, rotl 30 b, c, d).

Definition compress (h blk : list Z) : list Z :=
  match h with
  | [h0; h1; h2; h3; h4] =>
      let '(a, b, c, d, e) := fold_left (step (schedule (words_of true blk))) (seq 0 80) (h0, h1, h2, h3, h4) in
      map to_uint [h0 + a; h1 + b; h2 + c; h3 + d; h4 + e]
  | _ => h
  end.
End FIPS180_1.

#[export] Instance sha1_spec : Digest32Spec := {|
  compress := FIPS180_1.compress;
  chain_words := 5;
  result_words len := Some 5%nat
|}.

(** ** Lemmas *)

Lemma sha1_functions b c d : word b -> word c -> word d ->
  F_00_19 b c d = FIPS180_1.Ch b c d /\ F_40_59 b c d = FIPS180_1.Maj b c d.
Proof. intros Hb Hc Hd. unfold F_00_19, F_40_59, FIPS180_1.Ch, FIPS180_1.Maj. split; wbits. Qed.

Definition words5 (s : Z * Z * Z * Z * Z) : Prop :=
  let '(a, b, c, d, e) := s in word a /\ word b /\ word c /\ word d /\ word e.

(** *** The schedule *)

Lemma sha1_schedule_words w : Forall word w -> Forall word (FIPS180_1.schedule w).
Proof.
  apply extend_words. intros l Hl. unfold FIPS180_1.next. apply rotl_word; [|lia].
  repeat apply word_lxor; by apply word_nth.
Qed.

Lemma sha1_schedule_first w i : (i < length w)%nat -> nth i (FIPS180_1.schedule w) 0 = nth i w 0.
Proof.
  intros Hi. pose proof (extend_prefix FIPS180_1.next w 0 64 i) as E. cbn [Nat.add] in E. unfold FIPS180_1.schedule.
  rewrite E by lia. done.
Qed.

Lemma sha1_schedule_next w t : length w = 16%nat -> (16 <= t < 80)%nat ->
  let W i := nth i (FIPS180_1.schedule w) 0 in
  W t = rotl 1 (Z.lxor (Z.lxor (Z.lxor (W (t - 3)%nat) (W (t - 8)%nat)) (W (t - 14)%nat)) (W (t - 16)%nat)).
Proof.
  intros Hw Ht W. unfold W, FIPS180_1.schedule. destruct (extend_nth FIPS180_1.next w 64 t) as [-> H]; [lia|].
  unfold FIPS180_1.next. rewrite extend_length, !H by lia. replace (length w + (t - length w))%nat with t by lia. done.
Qed.

#[local] Opaque FIPS180_1.schedule.

Section rounds.
Context (w : list Z) (Hlen : length w = 16%nat) (Hwords : Forall word w).
Local Abbreviation W := (FIPS180_1.schedule w).

Definition run (t n : nat) (s : Z * Z * Z * Z * Z) : Z * Z * Z * Z * Z := fold_left (FIPS180_1.step W) (seq t n) s.

Lemma sha1_run_app t n k s : run t (n + k) s = run (t + n) k (run t n s).
Proof using. unfold run. by rewrite seq_app, fold_left_app. Qed.

Lemma round_run t k a b c d e f : words5 (a, b, c, d, e) ->
  f = to_uint (nth t W 0 + e + FIPS180_1.K t + ROTATE a 5 + FIPS180_1.f t b c d) ->
  run t (S k) (a, b, c, d, e) = run (S t) k (f, a, ROTATE b 30, c, d) /\ words5 (f, a, ROTATE b 30, c, d).
Proof using All.
  intros (Ha & Hb & Hc & Hd & He) ->. rewrite !ROTATE_rotl by (done || lia). split.
  - unfold run. cbn [seq fold_left]. f_equal. unfold FIPS180_1.step.
    replace (rotl 5 a + FIPS180_1.f t b c d + e + FIPS180_1.K t + nth t W 0) with
      (nth t W 0 + e + FIPS180_1.K t + rotl 5 a + FIPS180_1.f t b c d) by lia. done.
  - split; [apply word_to_uint|]. split; [done|]. split; [apply rotl_word; [done|lia]|]. done.
Qed.

Lemma Xupdate_run X t xi xa xb xc xd : window W X t -> (16 <= t < 80)%nat ->
  xi = (t mod 16)%nat -> xa = (t mod 16)%nat -> xb = ((t + 2) mod 16)%nat -> xc = ((t + 8) mod 16)%nat -> xd = ((t + 13) mod 16)%nat ->
  Xupdate X xi xa xb xc xd = (nth t W 0, <[xi := nth t W 0]> X) /\ window W (<[xi := nth t W 0]> X) (S t) /\
  X_at (<[xi := nth t W 0]> X) xa = nth t W 0.
Proof using All.
  intros [H16 HX] Ht -> -> -> -> ->.
  assert (forall k j, (t - 16 <= j < t)%nat -> (k = j + 16)%nat -> X_at X (k mod 16) = nth j W 0) as Hat.
  { intros k j Hj ->. unfold X_at. rewrite <- (HX j Hj). f_equal. replace (j + 16)%nat with (j + 1 * 16)%nat by lia. apply Nat.Div0.mod_add. }
  assert (forall j, word (nth j W 0)) as Hww by (intros j; by apply word_nth, sha1_schedule_words).
  split; [|split].
  - unfold Xupdate. rewrite (Hat t (t - 16)%nat), (Hat (t + 2)%nat (t - 14)%nat), (Hat (t + 8)%nat (t - 8)%nat), (Hat (t + 13)%nat (t - 3)%nat) by lia.
    assert (ROTATE (Z.lxor (Z.lxor (Z.lxor (nth (t - 16) W 0) (nth (t - 14) W 0)) (nth (t - 8) W 0)) (nth (t - 3) W 0)) 1 = nth t W 0) as ->; [|done].
    rewrite ROTATE_rotl by (repeat apply word_lxor; done || lia). rewrite (sha1_schedule_next w t Hlen Ht). f_equal.
    apply Z.bits_inj'. intros i Hi. rewrite !Z.lxor_spec.
    destruct (Z.testbit (nth (t - 16) W 0) i), (Z.testbit (nth (t - 14) W 0) i), (Z.testbit (nth (t - 8) W 0) i), (Z.testbit (nth (t - 3) W 0) i); done.
  - split; [by rewrite length_insert|]. intros j Hj. rewrite nth_lookup. destruct (decide (j = t)) as [->|Hne].
    + by rewrite list_lookup_insert_eq by (rewrite H16; apply Nat.mod_upper_bound; lia).
    + rewrite list_lookup_insert_ne; [rewrite <- nth_lookup; apply HX; lia|].
      intros Em. apply Hne. pose proof (Nat.div_mod_eq t 16). pose proof (Nat.div_mod_eq j 16). lia.
  - unfold X_at. rewrite nth_lookup. by rewrite list_lookup_insert_eq by (rewrite H16; apply Nat.mod_upper_bound; lia).
Qed.

Section lines.
Context (t k : nat) (X X' : list Z) (a b c d e f b' : Z).
Context (HX : window W X t) (Hs : words5 (a, b, c, d, e)).

(** What a line of the rounds from 16 on does. *)
Definition line_ok : Prop :=
  window W X' (S t) /\ words5 (f, a, b', c, d) /\ run t (S k) (a, b, c, d, e) = run (S t) k (f, a, b', c, d).

Local Ltac line F :=
  let E := fresh "E" in let Ht := fresh "Ht" in let Hat := fresh "Hat" in let EF1 := fresh "EF" in let EF2 := fresh "EF" in
  let EX := fresh "EX" in let HX' := fresh "HX'" in
  intros E ? ? ? ? Ht; unfold line_ok;
  match type of E with
  | ?body _ _ _ _ _ _ _ _ _ _ = _ => unfold body in E
  | ?body _ _ _ _ _ _ _ _ _ _ _ = _ => unfold body in E
  end;
  match type of E with
  | context [Xupdate X ?xi ?xa ?xb ?xc ?xd] =>
      destruct (Xupdate_run X t xi xa xb xc xd HX) as (EX & HX' & Hat); [lia|assumption..|rewrite EX in E]
  end;
  pose proof Hs as (Ha & Hb & Hc & Hd & He); destruct (sha1_functions b c d Hb Hc Hd) as [EF1 EF2];
  injection E as <- <- <-; split; [done|];
  match goal with
  | |- words5 (?g, _, _, _, _) /\ _ =>
      destruct (round_run t k a b c d e g) as [-> ?]; [exact Hs|F EF1 EF2 Hat Ht|done]
  end.

Local Ltac index Ht n := assert (t / 20 = n)%nat as Hi by (symmetry; apply (Nat.div_unique t 20 n (t - 20 * n)); lia).

Lemma BODY_16_19_step xa xb xc xd :
  BODY_16_19 a b c d e xa xa xb xc xd X = (X', f, b') -> xa = (t mod 16)%nat -> xb = ((t + 2) mod 16)%nat ->
  xc = ((t + 8) mod 16)%nat -> xd = ((t + 13) mod 16)%nat -> (16 <= t < 20)%nat -> line_ok.
Proof using All.
  line ltac:(fun EF1 EF2 Hat Ht => index Ht 0%nat; unfold FIPS180_1.K, FIPS180_1.f; rewrite Hi, <- EF1; f_equal; unfold K_00_19; lia).
Qed.

Lemma BODY_20_31_step xa xb xc xd :
  BODY_20_31 a b c d e xa xa xb xc xd X = (X', f, b') -> xa = (t mod 16)%nat -> xb = ((t + 2) mod 16)%nat ->
  xc = ((t + 8) mod 16)%nat -> xd = ((t + 13) mod 16)%nat -> (20 <= t < 32)%nat -> line_ok.
Proof using All.
  line ltac:(fun EF1 EF2 Hat Ht => index Ht 1%nat; unfold FIPS180_1.K, FIPS180_1.f; rewrite Hi; f_equal;
    unfold K_20_39, F_20_39, FIPS180_1.Parity; lia).
Qed.

Lemma BODY_32_39_step xa xb xc xd :
  BODY_32_39 a b c d e xa xb xc xd X = (X', f, b') -> xa = (t mod 16)%nat -> xb = ((t + 2) mod 16)%nat ->
  xc = ((t + 8) mod 16)%nat -> xd = ((t + 13) mod 16)%nat -> (32 <= t < 40)%nat -> line_ok.
Proof using All.
  line ltac:(fun EF1 EF2 Hat Ht => index Ht 1%nat; unfold FIPS180_1.K, FIPS180_1.f; rewrite Hi; f_equal;
    unfold K_20_39, F_20_39, FIPS180_1.Parity; lia).
Qed.

Lemma BODY_40_59_step xa xb xc xd :
  BODY_40_59 a b c d e xa xb xc xd X = (X', f, b') -> xa = (t mod 16)%nat -> xb = ((t + 2) mod 16)%nat ->
  xc = ((t + 8) mod 16)%nat -> xd = ((t + 13) mod 16)%nat -> (40 <= t < 60)%nat -> line_ok.
Proof using All.
  line ltac:(fun EF1 EF2 Hat Ht => index Ht 2%nat; unfold FIPS180_1.K, FIPS180_1.f; rewrite Hi, <- EF2; f_equal; unfold K_40_59; lia).
Qed.

Lemma BODY_60_79_step xa xb xc xd :
  BODY_60_79 a b c d e xa xb xc xd X = (X', f, b') -> xa = (t mod 16)%nat -> xb = ((t + 2) mod 16)%nat ->
  xc = ((t + 8) mod 16)%nat -> xd = ((t + 13) mod 16)%nat -> (60 <= t < 80)%nat -> line_ok.
Proof using All.
  line ltac:(fun EF1 EF2 Hat Ht => index Ht 3%nat; unfold FIPS180_1.K, FIPS180_1.f; rewrite Hi, Hat;
    unfold K_60_79, F_60_79, F_20_39, FIPS180_1.Parity; wsum).
Qed.
End lines.

(** *** The short form *)

(** Turn [i] of a loop is the round [t]. *)
Definition turn_ok (body : nat -> list Z -> Z * Z * Z * Z * Z -> list Z * (Z * Z * Z * Z * Z)) (i t : nat) : Prop :=
  forall X s, window W X t -> words5 s ->
  exists X', body i X s = (X', run t 1 s) /\ window W X' (S t) /\ words5 (run t 1 s).

Local Ltac turn body n F :=
  let EX := fresh "EX" in let HX' := fresh "HX'" in let Hat := fresh "Hat" in let EF1 := fresh "EF" in let EF2 := fresh "EF" in
  let X := fresh "X" in let HX := fresh "HX" in let Hs := fresh "Hs" in
  let Er := fresh "Er" in let Hs' := fresh "Hs'" in let Hi := fresh "Hi" in
  intros X [[[[a b] c] d] e] HX Hs; cbv beta; unfold body;
  match goal with
  | |- context [Xupdate X ?xi ?xa ?xb ?xc ?xd] =>
      destruct (Xupdate_run X _ xi xa xb xc xd HX) as (EX & HX' & Hat); [lia|assumption..|rewrite EX]
  end;
  pose proof Hs as (Ha & Hb & Hc & Hd & He); destruct (sha1_functions b c d Hb Hc Hd) as [EF1 EF2];
  match type of HX with window _ _ ?t =>
    assert (t / 20 = n)%nat as Hi by (symmetry; apply (Nat.div_unique t 20 n (t - 20 * n)); lia);
    destruct (round_run t 0 a b c d e _ Hs eq_refl) as [Er Hs'];
    unfold FIPS180_1.K, FIPS180_1.f in Er, Hs'; rewrite Hi in Er, Hs'; rewrite ?Hat
  end;
  F EF1 EF2 Er Hs';
  match type of Er with run ?t 1 ?s = run _ 0 ?s' =>
    change (run (S t) 0 s') with s' in Er; rewrite Er;
    eexists; split; [f_equal; f_equal; f_equal; f_equal; f_equal; unfold K_00_19, K_20_39, K_40_59, K_60_79; wsum|split; [exact HX'|exact Hs']]
  end.

Section turns.
Context (i t xa xb xc xd : nat) (Hxa : xa = (t mod 16)%nat) (Hxb : xb = ((t + 2) mod 16)%nat)
  (Hxc : xc = ((t + 8) mod 16)%nat) (Hxd : xd = ((t + 13) mod 16)%nat).

Lemma small_BODY_16_19_turn : (16 <= t < 20)%nat -> turn_ok (fun _ => small_BODY_16_19 xa xb xc xd) i t.
Proof using All. intros Ht. turn small_BODY_16_19 0%nat ltac:(fun EF1 EF2 Er Hs' => rewrite <- EF1 in Er, Hs'). Qed.

Lemma small_BODY_20_39_turn : (20 <= t < 40)%nat -> turn_ok (fun _ => small_BODY_20_39 xa xb xc xd) i t.
Proof using All. intros Ht. turn small_BODY_20_39 1%nat ltac:(fun EF1 EF2 Er Hs' => unfold F_20_39; unfold FIPS180_1.Parity in Er, Hs'). Qed.

Lemma small_BODY_40_59_turn : (40 <= t < 60)%nat -> turn_ok (fun _ => small_BODY_40_59 xa xb xc xd) i t.
Proof using All. intros Ht. turn small_BODY_40_59 2%nat ltac:(fun EF1 EF2 Er Hs' => rewrite <- EF2 in Er, Hs'). Qed.

Lemma small_BODY_60_79_turn : (60 <= t < 80)%nat -> turn_ok (fun _ => small_BODY_60_79 xa xb xc xd) i t.
Proof using All.
  intros Ht. turn small_BODY_60_79 3%nat ltac:(fun EF1 EF2 Er Hs' => unfold F_60_79, F_20_39; unfold FIPS180_1.Parity in Er, Hs').
Qed.
End turns.

Lemma small_loop_run body off n : forall i X s,
  (forall k, (i <= k < i + n)%nat -> turn_ok body k (k + off)) -> window W X (i + off) -> words5 s ->
  exists X', small_loop body n i X s = (X', run (i + off) n s) /\ window W X' (i + off + n) /\ words5 (run (i + off) n s).
Proof using All.
  induction n as [|n IH]; intros i X s Hb HX Hs; cbn [small_loop].
  { exists X. by rewrite Nat.add_0_r. }
  destruct (Hb i ltac:(lia) X s HX Hs) as (X1 & -> & HX1 & Hs1). replace (S (i + off)) with (i + 1 + off)%nat in HX1 by lia.
  destruct (IH (i + 1)%nat X1 (run (i + off) 1 s)) as (X' & E & HX' & Hs'); [intros k Hk; apply Hb; lia|done|done|].
  replace (i + off + S n)%nat with (i + 1 + off + n)%nat by lia. exists X'.
  assert (run (i + off) (S n) s = run (i + 1 + off) n (run (i + off) 1 s)) as ->; [|done].
  change (S n) with (1 + n)%nat. rewrite sha1_run_app. f_equal. lia.
Qed.
End rounds.

(** *** A block *)

Section block.
Context (m : mem) (data : ptr) (blk : list Z).
Local Abbreviation w := (words_of true blk).
Local Abbreviation W := (FIPS180_1.schedule w).

Lemma sha1_W_first i : (i < 16)%nat -> nth i W 0 = nth i w 0.
Proof using. intros Hi. apply sha1_schedule_first. by rewrite words_of_length. Qed.

Lemma sha1_window_16 : window W w 16.
Proof using.
  split; [apply words_of_length|]. intros j Hj. rewrite Nat.mod_small by lia. symmetry. apply sha1_W_first. lia.
Qed.

Lemma sha1_add_regs_run h s0 s : load_regs h m = Ret (s0, m) -> s = run w 0 80 s0 -> add_regs h s m = Ret (FIPS180_1.compress h blk, m).
Proof using.
  intros E ->. destruct h as [|h0 [|h1 [|h2 [|h3 [|h4 [|h5 h]]]]]]; try done. cbn [load_regs] in E. injection E as <-.
  unfold run, FIPS180_1.compress. destruct (fold_left _ _ _) as [[[[a b] c] d] e]. cbn [add_regs map]. rewrite !land_word32.
  unfold wadd, to_uint. rewrite !Z.mod_mod by lia. done.
Qed.

Context (Hblk : bytes_at m data blk) (Hlen : length blk = 64%nat) (Hbytes : Forall is_byte blk).
Local Abbreviation Hw16 := (words_of_length true blk).
Local Abbreviation Hwords := (words_of_word true blk Hlen Hbytes).

Lemma first_step t k a b c d e f b' :
  words5 (a, b, c, d, e) -> BODY_00_15 a b c d e (nth t w 0) = (f, b') -> (t < 16)%nat ->
  words5 (f, a, b', c, d) /\ run w t (S k) (a, b, c, d, e) = run w (S t) k (f, a, b', c, d).
Proof using All.
  intros Hs E Ht. pose proof Hs as (Ha & Hb & Hc & Hd & He). destruct (sha1_functions b c d Hb Hc Hd) as [EF _].
  unfold BODY_00_15 in E. injection E as <- <-.
  destruct (round_run w Hw16 Hwords t k a b c d e (to_uint (wadd (nth t w 0) e + K_00_19 + ROTATE a 5 + F_00_19 b c d))) as [-> ?]; try done.
  assert (t / 20 = 0)%nat as Hi by (apply Nat.div_small; lia). unfold FIPS180_1.K, FIPS180_1.f. rewrite Hi, <- EF, sha1_W_first by done.
  unfold K_00_19. wsum.
Qed.

Local Ltac sha1_load k :=
  rewrite bind_assoc; erewrite bind_ret by exact (HOST_c2l_block true m data blk k Hblk Hlen Hbytes ltac:(lia)); cbv beta.

Local Ltac sha1_first t :=
  let E := fresh "E" in let Hr := fresh "Hr" in
  rewrite bind_assoc; apply let_step; intros [? ?] E; symmetry in E;
  match goal with
  | Hs : words5 (?a, ?b, ?c, ?d, ?e), Hk : context [run w t (S ?k) (?a, ?b, ?c, ?d, ?e)] |- _ =>
      destruct (first_step t k _ _ _ _ _ _ _ Hs E ltac:(lia)) as (? & Hr); rewrite Hr in Hk; clear E Hr Hs
  end.

Local Ltac sha1_line lem t :=
  let E := fresh "E" in let Hr := fresh "Hr" in
  rewrite bind_assoc; apply let_step; intros [[? ?] ?] E; symmetry in E;
  match goal with
  | HX : window _ _ t, Hs : words5 (?a, ?b, ?c, ?d, ?e), Hk : context [run w t (S ?k) (?a, ?b, ?c, ?d, ?e)] |- _ =>
      destruct (lem w Hw16 Hwords t k _ _ _ _ _ _ _ _ _ HX Hs _ _ _ _ E eq_refl eq_refl eq_refl eq_refl ltac:(lia)) as (? & ? & Hr);
      rewrite Hr in Hk; clear E Hr Hs HX
  end.

#[local] Opaque run.

Lemma sha1_00_15_run s B (k : list Z * (Z * Z * Z * Z * Z) -> M mem B) r : words5 s ->
  (words5 (run w 0 16 s) -> k (w, run w 0 16 s) m = r) -> (mbind k (sha1_00_15 data s)) m = r.
Proof using All.
  destruct s as [[[[A B0] C] D] E]. intros Hs Hk. unfold sha1_00_15. rewrite <- (padd_0 data) at 1.
  sha1_load 0%nat. sha1_load 1%nat. sha1_first 0%nat. sha1_load 2%nat. sha1_first 1%nat. sha1_load 3%nat.
  sha1_first 2%nat. sha1_load 4%nat. sha1_first 3%nat. sha1_load 5%nat. sha1_first 4%nat. sha1_load 6%nat.
  sha1_first 5%nat. sha1_load 7%nat. sha1_first 6%nat. sha1_load 8%nat. sha1_first 7%nat. sha1_load 9%nat.
  sha1_first 8%nat. sha1_load 10%nat. sha1_first 9%nat. sha1_load 11%nat. sha1_first 10%nat. sha1_load 12%nat.
  sha1_first 11%nat. sha1_load 13%nat. sha1_first 12%nat. sha1_load 14%nat. sha1_first 13%nat. sha1_load 15%nat.
  sha1_first 14%nat. sha1_first 15%nat.
  rewrite mbind_mret. apply Hk. done.
Qed.

Lemma sha1_16_19_run X s B (k : list Z * (Z * Z * Z * Z * Z) -> M mem B) r : window W X 16 -> words5 s ->
  (forall X', window W X' 20 -> words5 (run w 16 4 s) -> k (X', run w 16 4 s) m = r) -> (mbind k (sha1_16_19 X s)) m = r.
Proof using All.
  destruct s as [[[[C D] E] T] A]. intros HX Hs Hk. unfold sha1_16_19.
  sha1_line BODY_16_19_step 16%nat. sha1_line BODY_16_19_step 17%nat. sha1_line BODY_16_19_step 18%nat.
  sha1_line BODY_16_19_step 19%nat.
  rewrite mbind_mret. apply Hk; done.
Qed.

Lemma sha1_20_31_run X s B (k : list Z * (Z * Z * Z * Z * Z) -> M mem B) r : window W X 20 -> words5 s ->
  (forall X', window W X' 32 -> words5 (run w 20 12 s) -> k (X', run w 20 12 s) m = r) -> (mbind k (sha1_20_31 X s)) m = r.
Proof using All.
  destruct s as [[[[E T] A] B0] C]. intros HX Hs Hk. unfold sha1_20_31.
  sha1_line BODY_20_31_step 20%nat. sha1_line BODY_20_31_step 21%nat. sha1_line BODY_20_31_step 22%nat.
  sha1_line BODY_20_31_step 23%nat. sha1_line BODY_20_31_step 24%nat. sha1_line BODY_20_31_step 25%nat.
  sha1_line BODY_20_31_step 26%nat. sha1_line BODY_20_31_step 27%nat. sha1_line BODY_20_31_step 28%nat.
  sha1_line BODY_20_31_step 29%nat. sha1_line BODY_20_31_step 30%nat. sha1_line BODY_20_31_step 31%nat.
  rewrite mbind_mret. apply Hk; done.
Qed.

Lemma sha1_32_39_run X s B (k : list Z * (Z * Z * Z * Z * Z) -> M mem B) r : window W X 32 -> words5 s ->
  (forall X', window W X' 40 -> words5 (run w 32 8 s) -> k (X', run w 32 8 s) m = r) -> (mbind k (sha1_32_39 X s)) m = r.
Proof using All.
  destruct s as [[[[E T] A] B0] C]. intros HX Hs Hk. unfold sha1_32_39.
  sha1_line BODY_32_39_step 32%nat. sha1_line BODY_32_39_step 33%nat. sha1_line BODY_32_39_step 34%nat.
  sha1_line BODY_32_39_step 35%nat. sha1_line BODY_32_39_step 36%nat. sha1_line BODY_32_39_step 37%nat.
  sha1_line BODY_32_39_step 38%nat. sha1_line BODY_32_39_step 39%nat.
  rewrite mbind_mret. apply Hk; done.
Qed.

Lemma sha1_40_59_run X s B (k : list Z * (Z * Z * Z * Z * Z) -> M mem B) r : window W X 40 -> words5 s ->
  (forall X', window W X' 60 -> words5 (run w 40 20 s) -> k (X', run w 40 20 s) m = r) -> (mbind k (sha1_40_59 X s)) m = r.
Proof using All.
  destruct s as [[[[C D] E] T] A]. intros HX Hs Hk. unfold sha1_40_59.
  sha1_line BODY_40_59_step 40%nat. sha1_line BODY_40_59_step 41%nat. sha1_line BODY_40_59_step 42%nat.
  sha1_line BODY_40_59_step 43%nat. sha1_line BODY_40_59_step 44%nat. sha1_line BODY_40_59_step 45%nat.
  sha1_line BODY_40_59_step 46%nat. sha1_line BODY_40_59_step 47%nat. sha1_line BODY_40_59_step 48%nat.
  sha1_line BODY_40_59_step 49%nat. sha1_line BODY_40_59_step 50%nat. sha1_line BODY_40_59_step 51%nat.
  sha1_line BODY_40_59_step 52%nat. sha1_line BODY_40_59_step 53%nat. sha1_line BODY_40_59_step 54%nat.
  sha1_line BODY_40_59_step 55%nat. sha1_line BODY_40_59_step 56%nat. sha1_line BODY_40_59_step 57%nat.
  sha1_line BODY_40_59_step 58%nat. sha1_line BODY_40_59_step 59%nat.
  rewrite mbind_mret. apply Hk; done.
Qed.

Lemma sha1_60_79_run X s B (k : list Z * (Z * Z * Z * Z * Z) -> M mem B) r : window W X 60 -> words5 s ->
  (forall X', window W X' 80 -> words5 (run w 60 20 s) -> k (X', run w 60 20 s) m = r) -> (mbind k (sha1_60_79 X s)) m = r.
Proof using All.
  destruct s as [[[[A B0] C] D] E]. intros HX Hs Hk. unfold sha1_60_79.
  sha1_line BODY_60_79_step 60%nat. sha1_line BODY_60_79_step 61%nat. sha1_line BODY_60_79_step 62%nat.
  sha1_line BODY_60_79_step 63%nat. sha1_line BODY_60_79_step 64%nat. sha1_line BODY_60_79_step 65%nat.
  sha1_line BODY_60_79_step 66%nat. sha1_line BODY_60_79_step 67%nat. sha1_line BODY_60_79_step 68%nat.
  sha1_line BODY_60_79_step 69%nat. sha1_line BODY_60_79_step 70%nat. sha1_line BODY_60_79_step 71%nat.
  sha1_line BODY_60_79_step 72%nat. sha1_line BODY_60_79_step 73%nat. sha1_line BODY_60_79_step 74%nat.
  sha1_line BODY_60_79_step 75%nat. sha1_line BODY_60_79_step 76%nat. sha1_line BODY_60_79_step 77%nat.
  sha1_line BODY_60_79_step 78%nat. sha1_line BODY_60_79_step 79%nat.
  rewrite mbind_mret. apply Hk; done.
Qed.

Lemma sha1_block_run h : length h = 5%nat -> Forall word h -> sha1_block h data m = Ret (FIPS180_1.compress h blk, m).
Proof using All.
  intros Hl Hw. destruct h as [|h0 [|h1 [|h2 [|h3 [|h4 [|h5 h]]]]]]; try done. set (s := (h0, h1, h2, h3, h4)).
  assert (words5 s) as Hs by (rewrite !Forall_cons in Hw; destruct Hw as (? & ? & ? & ? & ? & _); done).
  assert (run w 0 80 s = run w 60 20 (run w 40 20 (run w 32 8 (run w 20 12 (run w 16 4 (run w 0 16 s)))))) as Er.
  { change (run w 0 80 s) with (run w 0 (16 + (4 + (12 + (8 + (20 + 20))))) s). by rewrite !sha1_run_app. }
  unfold sha1_block. cbn [load_regs]. rewrite mbind_mret. fold s.
  apply sha1_00_15_run; [done|]. intros Hs0. cbv beta iota.
  apply sha1_16_19_run; [apply sha1_window_16|done|]. intros X1 HX1 Hs1. cbv beta iota.
  apply sha1_20_31_run; [done|done|]. intros X2 HX2 Hs2. cbv beta iota.
  apply sha1_32_39_run; [done|done|]. intros X3 HX3 Hs3. cbv beta iota.
  apply sha1_40_59_run; [done|done|]. intros X4 HX4 Hs4. cbv beta iota.
  apply sha1_60_79_run; [done|done|]. intros X5 HX5 Hs5. cbv beta iota.
  rewrite <- Er. exact (sha1_add_regs_run [h0; h1; h2; h3; h4] s _ eq_refl eq_refl).
Qed.

Lemma small_read_run n : forall i X s, (i + n <= 16)%nat -> X = take i w -> words5 s ->
  small_read n (padd data (Z.of_nat (4 * i))) X s m = Ret ((take (i + n) w, run w i n s), m) /\ words5 (run w i n s).
Proof using All.
  induction n as [|n IH]; intros i X s Hi -> Hs; cbn [small_read].
  { by rewrite Nat.add_0_r. }
  rewrite (bind_ret _ _ _ _ _ (HOST_c2l_block true m data blk i Hblk Hlen Hbytes ltac:(lia))). rewrite padd_padd.
  replace (Z.of_nat (4 * i) + 4) with (Z.of_nat (4 * (i + 1))) by lia. destruct s as [[[[a b] c] d] e].
  destruct (first_step i n a b c d e _ _ Hs eq_refl ltac:(lia)) as [Hs' ->].
  assert (small_BODY_00_15 (nth i w 0) (a, b, c, d, e) =
    (to_uint (wadd (nth i w 0) e + K_00_19 + ROTATE a 5 + F_00_19 b c d), a, ROTATE b 30, c, d)) as ->.
  { unfold small_BODY_00_15. do 4 f_equal. wsum. }
  replace (i + S n)%nat with (i + 1 + n)%nat by lia. replace (S i) with (i + 1)%nat by lia. apply IH; [lia| |done].
  destruct (lookup_lt_is_Some_2 w i) as [x Hx]; [rewrite words_of_length; lia|].
  rewrite (nth_lookup_Some _ _ 0 _ Hx), Nat.add_1_r. symmetry. by apply take_S_r.
Qed.

Lemma same_index x y n : y = (x + n * 16)%nat -> (x mod 16 = y mod 16)%nat.
Proof using. intros ->. symmetry. apply Nat.Div0.mod_add. Qed.

Local Ltac turn_index :=
  rewrite ?land_15;
  match goal with
  | |- (_ mod 16 = _)%nat => idtac
  | |- ?x = _ => rewrite <- (Nat.mod_small x 16) by lia
  end;
  first [apply (same_index _ _ 1); lia|apply (same_index _ _ 2); lia|apply (same_index _ _ 3); lia|apply (same_index _ _ 4); lia].

Local Ltac loop lem off t :=
  let E := fresh "E" in let HX' := fresh "HX" in let Hs' := fresh "Hs" in
  match goal with
  | HX : window _ ?X _, Hs : words5 ?s |- context [small_loop ?body ?n ?i ?X ?s] =>
      destruct (small_loop_run w Hw16 Hwords body off n i X s) as (? & E & HX' & Hs');
      [intros k Hk; refine (lem w Hw16 Hwords k (k + off)%nat _ _ _ _ _ _ _ _ _); [turn_index..|lia]
      |exact HX|exact Hs|change (i + off)%nat with t in E, HX', Hs'; rewrite E, mbind_mret; clear E HX Hs]
  end; cbv beta iota.

(** The short form computes the same. *)
Lemma sha1_small_block_run h : length h = 5%nat -> Forall word h -> small_block h data m = Ret (FIPS180_1.compress h blk, m).
Proof using All.
  intros Hl Hw. destruct h as [|h0 [|h1 [|h2 [|h3 [|h4 [|h5 h]]]]]]; try done. set (s := (h0, h1, h2, h3, h4)).
  assert (words5 s) as Hs by (rewrite !Forall_cons in Hw; destruct Hw as (? & ? & ? & ? & ? & _); done).
  assert (run w 0 80 s = run w 60 20 (run w 40 20 (run w 20 20 (run w 16 4 (run w 0 16 s))))) as Er.
  { change (run w 0 80 s) with (run w 0 (16 + (4 + (20 + (20 + 20)))) s). by rewrite !sha1_run_app. }
  unfold small_block. cbn [load_regs]. rewrite mbind_mret. fold s.
  destruct (small_read_run 16 0 [] s ltac:(lia) eq_refl Hs) as [E Hs1].
  rewrite Nat.mul_0_r, padd_0 in E. rewrite (bind_ret _ _ _ _ _ E). cbv beta iota. rewrite take_ge by done. clear E Hs.
  pose proof sha1_window_16 as HX.
  loop small_BODY_16_19_turn 16%nat 16%nat. loop small_BODY_20_39_turn 16%nat 20%nat.
  loop small_BODY_40_59_turn 40%nat 40%nat. loop small_BODY_60_79_turn 56%nat 60%nat.
  rewrite <- Er. exact (sha1_add_regs_run [h0; h1; h2; h3; h4] s _ eq_refl eq_refl).
Qed.
End block.

Lemma compress_5 h blk : length h = 5%nat -> length (FIPS180_1.compress h blk) = 5%nat /\ Forall word (FIPS180_1.compress h blk).
Proof.
  intros Hl. destruct h as [|h0 [|h1 [|h2 [|h3 [|h4 [|h5 h]]]]]]; try done. unfold FIPS180_1.compress.
  destruct (fold_left _ _ _) as [[[[a b] c] d] e]. split; [done|]. repeat (constructor; [apply word_to_uint|]). by apply Forall_nil.
Qed.

#[export] Instance sha1_laws : Digest32Laws.
Proof.
  split.
  - intros h blk Hl _ _ _. by apply compress_5.
  - intros m p h bs n Hn Hl Hb Hy H5 Hw. unfold HASH_BLOCK_DATA_ORDER, sha1_digest, sha1_block_data_order.
    destruct (Z.eqb_spec (Z.of_nat n) 0); [lia|]. rewrite Nat2Z.id.
    apply (each_block_run sha1_block FIPS180_1.compress (fun h => length h = 5%nat /\ Forall word h)); try done.
    + intros ? ? ? ? ? ? ? [? ?]. by apply sha1_block_run.
    + intros h' blk [? _] _ _. by apply compress_5.
  - intros m h len k b o [= <-] H5 Hw r Hr. unfold HASH_MAKE_STRING, sha1_digest, sha1_make_string.
    destruct (write_words_run true h m b o []) as (q & E); [done|cbn [app]; unfold r in Hr; by rewrite take_ge in Hr by (rewrite H5; done)|].
    cbn [app length] in E. rewrite mwrite_nil, Z.add_0_r in E. rewrite (bind_ret _ _ _ _ _ E). unfold r.
    by rewrite take_ge by (rewrite H5; done).
Qed.

(** SHA-1 of a message, by the standard. *)
Definition SHA1_of (msg : list Z) : list Z :=
  word_octets true (digest_blocks true FIPS180_1.compress [0x67452301; 0xefcdab89; 0x98badcfe; 0x10325476; 0xc3d2e1f0] msg).

(** The calls for a message in pieces. *)
Definition SHA1_message (c : HASH_CTX) (pieces : list (ptr * Z)) (md : ptr) : M mem bool :=
  c ← SHA1_Init c;
  hash_message c pieces md.

(** The SHA-1 sha1_functions compute SHA-1, however the message is cut. *)
Lemma SHA1_message_run m c e eo b o pieces xs :
  hdata c = Ptr e eo -> room m (Ptr e eo) 64 -> b <> e -> Forall2 (message_at m e) pieces xs -> room m (Ptr b o) 20 ->
  exists m',
    SHA1_message c pieces (Ptr b o) m = Ret (true, m') /\
    bytes_at m' (Ptr b o) (SHA1_of (concat xs)) /\ elsewhere m m' b e.
Proof.
  intros Hc Hr Hbe Hp Hrb. unfold SHA1_message, SHA1_Init. rewrite Hc.
  set (iv := [_; _; _; _; _]). assert (words_ok iv) as Hiv by (split; [done|]; by repeat constructor).
  destruct (hash_init_run m e eo b o 5 pieces xs iv 0 Hiv Hr Hbe Hp eq_refl eq_refl Hrb) as (m' & E & Hb & Hel). by exists m'.
Qed.

(** The digest of [abc]. *)
Example SHA1_abc :
  SHA1_of [97; 98; 99] =
    [0xa9; 0x99; 0x3e; 0x36; 0x47; 0x06; 0x81; 0x6a; 0xba; 0x3e; 0x25; 0x71; 0x78; 0x50; 0xc2; 0x6c; 0x9c; 0xd0; 0xd8; 0x9d].
Proof. vm_compute. reflexivity. Qed.
