(* ===== verification/Der.v ===== *)
(** * Headers of ASN.1 objects

    The first part of crypto/asn1/asn1_lib.c of the vendored OpenSSL, which the
    certificates of a connection are read and written with: the identifier
    octets (class, constructed bit, tag) and the length octets in front of the
    contents of an object.

    The theorems: what ASN1_put_object stores is the header of X.690 and has
    the size ASN1_object_size announces; ASN1_get_object reads it back; on
    other octets ASN1_get_object returns values of their types, reads only the
    octets it was given, and an object it accepts ends inside them. *)

From S2P Require Import Prelude Memory TlsPacket Vlint.

(** ** Definitions *)

Definition LONG_MAX : Z := 9223372036854775807.

Definition V_ASN1_PRIVATE : Z := 0xc0.
Definition V_ASN1_CONSTRUCTED : Z := 0x20.
Definition V_ASN1_PRIMITIVE_TAG : Z := 0x1f.

(** The pointer after the end marker, when there is one. *)
Definition asn1_check_infinite_end (p : ptr) (len : Z) : M mem (bool * ptr) :=
  if len <=? 0 then mret (true, p)
  else if 2 <=? len then
    b0 ← load p;
    if b0 =? 0 then
      b1 ← load (padd p 1);
      if b1 =? 0 then mret (true, padd p 2) else mret (false, p)
    else mret (false, p)
  else mret (false, p).

Definition ASN1_check_infinite_end (p : ptr) (len : Z) : M mem (bool * ptr) := asn1_check_infinite_end p len.
Definition ASN1_const_check_infinite_end (p : ptr) (len : Z) : M mem (bool * ptr) := asn1_check_infinite_end p len.

(** The loops of asn1_get_length: leading zeros, and the value. *)
Fixpoint skip_zeroes (i : nat) (p : ptr) : M mem (nat * ptr) :=
  match i with
  | O => mret (O, p)
  | S i' =>
      b ← load p;
      if b =? 0 then skip_zeroes i' (padd p 1) else mret (i, p)
  end.

Fixpoint length_loop (i : nat) (ret : Z) (p : ptr) : M mem (Z * ptr) :=
  match i with
  | O => mret (ret, p)
  | S i' => b ← load p; length_loop i' (Z.lor (to_size (Z.shiftl ret 8)) b) (padd p 1)
  end.

(** [*inf], [*rl] and [*pp]; [None] for the return value 0. *)
Definition asn1_get_length (p : ptr) (max : Z) : M mem (option (Z * Z * ptr)) :=
  if max <? 1 then mret None
  else
    let max := max - 1 in
    b ← load p;
    if b =? 0x80 then mret (Some (1, 0, padd p 1))
    else
      let i := Z.land b 0x7f in
      if truthy (Z.land b 0x80) then
        if max <? i + 1 then mret None
        else
          '(i, p) ← skip_zeroes (Z.to_nat i) (padd p 1);
          if (8 <? i)%nat then mret None
          else
            '(ret, p) ← length_loop i 0 p;
            if LONG_MAX <? ret then mret None else mret (Some (0, ret, p))
      else mret (Some (0, i, padd p 1)).

(** The loop over the octets of a high tag: [max] octets are left, the current
    one included. *)
Fixpoint high_tag (max : nat) (len : Z) (p : ptr) : M mem (option (Z * nat * ptr)) :=
  match max with
  | O => nofuel
  | S max =>
      b ← load p;
      let len' := Z.lor (Z.shiftl len 7) (Z.land b 0x7f) in
      if truthy (Z.land b 0x80) then
        if (max =? 0)%nat then mret None
        else if Z.shiftr INT_MAX 7 <? len' then mret None
        else high_tag max len' (padd p 1)
      else if (max =? 0)%nat then mret None
      else mret (Some (len', max, padd p 1))
  end.

(** What a call of ASN1_get_object leaves: its return value, [*pp], and the
    variables behind the other pointers, [None] for one it does not assign. *)
Record object_header : Type := mkHeader {
  oh_ret : Z;
  oh_pp : ptr;
  oh_length : option Z;
  oh_tag : option Z;
  oh_class : option Z
}.

(** The tag: its value, the octets left, the pointer behind it. *)
Definition get_tag (p : ptr) (i omax : Z) : M mem (option (Z * Z * ptr)) :=
  if i =? V_ASN1_PRIMITIVE_TAG then
    if omax - 1 =? 0 then mret None
    else
      r ← high_tag (Z.to_nat (omax - 1)) 0 (padd p 1);
      match r with
      | Some (len, max, p) => mret (Some (to_int len, Z.of_nat max, p))
      | None => mret None
      end
  else if omax - 1 =? 0 then mret None
  else mret (Some (i, omax - 1, padd p 1)).

Definition ASN1_get_object (pp : ptr) (omax : Z) : M mem object_header :=
  if omax <=? 0 then mret (mkHeader 0x80 pp None None None)
  else
    b ← load pp;
    let ret := Z.land b V_ASN1_CONSTRUCTED in
    let xclass := Z.land b V_ASN1_PRIVATE in
    t ← get_tag pp (Z.land b V_ASN1_PRIMITIVE_TAG) omax;
    match t with
    | None => mret (mkHeader 0x80 pp None None None)
    | Some (tag, max, p) =>
        l ← asn1_get_length p max;
        match l with
        | None => mret (mkHeader 0x80 pp None (Some tag) (Some xclass))
        | Some (inf, rl, p) =>
            if truthy inf && negb (truthy (Z.land ret V_ASN1_CONSTRUCTED)) then
              mret (mkHeader 0x80 pp (Some rl) (Some tag) (Some xclass))
            else
              d ← psub p pp;
              let ret := if omax - d <? rl then Z.lor ret 0x80 else ret in
              mret (mkHeader (Z.lor ret inf) p (Some rl) (Some tag) (Some xclass))
        end
    end.

(** [for (; t > 0; i++) t >>= k], for an [int]; five turns are enough for the
    shifts of the code. *)
Fixpoint count_shifts (fuel : nat) (k t i : Z) : M mem Z :=
  if t <=? 0 then mret i
  else match fuel with
       | O => nofuel
       | S fuel => count_shifts fuel k (Z.shiftr t k) (i + 1)
       end.

Fixpoint put_tag (i : nat) (ttag : Z) (p : ptr) (tag : Z) : M mem unit :=
  match i with
  | O => mret tt
  | S i =>
      store (padd p (Z.of_nat i)) (Z.land tag 0x7f);;
      (if Z.of_nat i =? ttag - 1 then mret tt
       else b ← load (padd p (Z.of_nat i)); store (padd p (Z.of_nat i)) (Z.lor b 0x80));;
      put_tag i ttag p (Z.shiftr tag 7)
  end.

Fixpoint put_length (i : nat) (p : ptr) (length : Z) : M mem unit :=
  match i with
  | O => mret tt
  | S i => store (padd p (Z.of_nat i)) (Z.land length 0xff);; put_length i p (Z.shiftr length 8)
  end.

Definition asn1_put_length (p : ptr) (length : Z) : M mem ptr :=
  if length <=? 127 then store p length;; mret (padd p 1)
  else
    i ← count_shifts 5 8 length 0;
    store p (Z.lor i 0x80);;
    put_length (Z.to_nat i) (padd p 1) length;;
    mret (padd (padd p 1) i).

Definition ASN1_put_object (pp : ptr) (constructed length tag xclass : Z) : M mem ptr :=
  let i := if truthy constructed then V_ASN1_CONSTRUCTED else 0 in
  let i := Z.lor i (Z.land xclass V_ASN1_PRIVATE) in
  p ← (if tag <? 31 then store pp (Z.lor i (Z.land tag V_ASN1_PRIMITIVE_TAG));; mret (padd pp 1)
       else
         store pp (Z.lor i V_ASN1_PRIMITIVE_TAG);;
         ttag ← count_shifts 5 7 tag 0;
         put_tag (Z.to_nat ttag) ttag (padd pp 1) tag;;
         mret (padd (padd pp 1) ttag));
  if constructed =? 2 then store p 0x80;; mret (padd p 1)
  else asn1_put_length p length.

Definition ASN1_put_eoc (pp : ptr) : M mem (Z * ptr) :=
  store pp 0;; store (padd pp 1) 0;; mret (2, padd pp 2).

Definition ASN1_object_size (constructed length tag : Z) : M mem Z :=
  if length <? 0 then mret (-1)
  else
    ret ← (if 31 <=? tag then count_shifts 5 7 tag 1 else mret 1);
    ret ← (if constructed =? 2 then mret (ret + 3)
           else if 127 <? length then count_shifts 5 8 length (ret + 1)
           else mret (ret + 1));
    if INT_MAX - length <=? ret then mret (-1) else mret (ret + length).

(** ** Specification: the encodings of X.690 *)

(** [n] digits of [v] in base 128, the continuation bit on all but the last. *)
Fixpoint septets (n : nat) (v last : Z) : list Z :=
  match n with
  | O => []
  | S n => septets n (v / 128) 128 ++ [v mod 128 + last]
  end.

(** The number of digits of [v] in base [2 ^ k]. *)
Fixpoint digits (fuel : nat) (k v : Z) : nat :=
  match fuel with
  | O => O
  | S fuel => if v <=? 0 then O else S (digits fuel k (v / 2 ^ k))
  end.

Definition identifier_octets (constructed : bool) (xclass tag : Z) : list Z :=
  let lead := xclass + (if constructed then 32 else 0) in
  if tag <? 31 then [lead + tag] else (lead + 31) :: septets (digits 5 7 tag) tag 0.

Definition length_octets (length : Z) : list Z :=
  if length <=? 127 then [length]
  else (128 + Z.of_nat (digits 5 8 length)) :: be_bytes (digits 5 8 length) length.

(** The header: [None] is the indefinite length. *)
Definition header_octets (constructed : bool) (xclass tag : Z) (length : option Z) : list Z :=
  identifier_octets constructed xclass tag ++ match length with Some n => length_octets n | None => [128] end.

(** The classes: universal, application, context-specific, private. *)
Definition is_class (c : Z) : Prop := c = 0 \/ c = 0x40 \/ c = 0x80 \/ c = 0xc0.

(** ** Lemmas *)

Lemma count_shifts_run f k m : 0 < k -> forall t i, t < 2 ^ (k * Z.of_nat f) -> count_shifts f k t i m = Ret (i + Z.of_nat (digits f k t), m).
Proof.
  intros Hk. induction f as [|f IH]; intros t i Ht; cbn [count_shifts digits].
  - rewrite Z.mul_0_r in Ht. destruct (Z.leb_spec t 0); [|lia]. by rewrite Z.add_0_r.
  - destruct (Z.leb_spec t 0); [by rewrite Z.add_0_r|]. rewrite Z.shiftr_div_pow2 by lia. rewrite IH.
    + do 2 f_equal. lia.
    + apply Z.div_lt_upper_bound; [apply Z.pow_pos_nonneg; lia|]. rewrite <- Z.pow_add_r by lia. by replace (k + k * Z.of_nat f) with (k * Z.of_nat (S f)) by lia.
Qed.

Lemma digits_bounds f k : 0 < k -> forall v, 0 <= v < 2 ^ (k * Z.of_nat f) ->
  v < 2 ^ (k * Z.of_nat (digits f k v)) /\ (digits f k v <= f)%nat /\ (0 < v -> (0 < digits f k v)%nat).
Proof.
  intros Hk. induction f as [|f IH]; intros v Hv; cbn [digits].
  - rewrite Z.mul_0_r in *. lia.
  - destruct (Z.leb_spec v 0); [rewrite Z.mul_0_r; lia|]. pose proof (Z.pow_pos_nonneg 2 k ltac:(lia) ltac:(lia)) as Hp.
    destruct (IH (v / 2 ^ k)) as (Hd & Hle & _).
    { split; [apply Z.div_pos; lia|]. apply Z.div_lt_upper_bound; [lia|]. rewrite <- Z.pow_add_r by lia. replace (k + k * Z.of_nat f) with (k * Z.of_nat (S f)) by lia. lia. }
    split; [|lia]. replace (k * Z.of_nat (S (digits f k (v / 2 ^ k)))) with (k + k * Z.of_nat (digits f k (v / 2 ^ k))) by lia.
    rewrite Z.pow_add_r by lia. pose proof (Z.mul_succ_div_gt v (2 ^ k) ltac:(lia)). nia.
Qed.

(** The digits in base 128 of a tag, and in base 256 of a length. *)
Lemma tag_digits tag : 0 < tag <= INT_MAX -> (0 < digits 5 7 tag <= 5)%nat /\ tag < 128 ^ Z.of_nat (digits 5 7 tag).
Proof.
  unfold INT_MAX. intros Ht. destruct (digits_bounds 5 7 ltac:(lia) tag) as (H1 & H2 & H3); [change (2 ^ (7 * Z.of_nat 5)) with 34359738368; lia|].
  rewrite Z.pow_mul_r in H1 by lia. split; [lia|done].
Qed.

Lemma len_digits n : 0 < n <= INT_MAX -> (0 < digits 5 8 n <= 5)%nat /\ n < 256 ^ Z.of_nat (digits 5 8 n).
Proof.
  unfold INT_MAX. intros Ht. destruct (digits_bounds 5 8 ltac:(lia) n) as (H1 & H2 & H3); [change (2 ^ (8 * Z.of_nat 5)) with 1099511627776; lia|].
  rewrite Z.pow_mul_r in H1 by lia. split; [lia|done].
Qed.

Lemma length_septets n : forall v last, length (septets n v last) = n.
Proof. induction n as [|n IH]; intros v last; [done|]. cbn [septets]. rewrite length_app, IH. cbn. lia. Qed.

Lemma septets_S n : forall v last,
  septets (S n) v last = ((v / 128 ^ Z.of_nat n) mod 128 + (if (n =? 0)%nat then last else 128)) :: septets n v last.
Proof.
  induction n as [|n IH]; intros v last; [cbn; by rewrite Z.div_1_r|].
  change (septets (S (S n)) v last) with (septets (S n) (v / 128) 128 ++ [v mod 128 + last]). rewrite IH.
  rewrite Z.div_div by (try apply Z.pow_pos_nonneg; lia). rewrite Nat2Z.inj_succ, Z.pow_succ_r by lia.
  cbn [app septets Nat.eqb]. f_equal. destruct (n =? 0)%nat; done.
Qed.

(** *** Writing *)

Lemma put_tag_run ttag m p : forall i tag, 0 <= tag -> Z.of_nat i <= ttag -> room m p (Z.of_nat i) ->
  put_tag i ttag p tag m = Ret (tt, mwrite m p (septets i tag (if Z.of_nat i =? ttag then 0 else 128))).
Proof.
  intros i. revert m. induction i as [|i IH]; intros m tag Ht Hi Hr; cbn [put_tag septets].
  { by rewrite mwrite_nil. }
  set (last := if _ =? _ then 0 else 128).
  assert (room m (padd p (Z.of_nat i)) 1) as Hr1.
  { apply (room_padd _ _ _ (Z.of_nat i)) in Hr; [|lia]. eapply room_le; [done|lia]. }
  pose proof (Z.mod_pos_bound tag 128 ltac:(lia)) as Hb.
  rewrite (bind_ret _ _ _ _ _ (store_room m _ _ Hr1)). rewrite land_127, to_uchar_id by (unfold is_byte; lia).
  assert (forall f : unit -> M mem unit, mbind f (if Z.of_nat i =? ttag - 1 then mret tt
      else b ← load (padd p (Z.of_nat i)); store (padd p (Z.of_nat i)) (Z.lor b 128)) (mwrite m (padd p (Z.of_nat i)) [tag mod 128]) =
    f tt (mwrite m (padd p (Z.of_nat i)) [tag mod 128 + last])) as ->.
  { intros f. unfold last. replace (Z.of_nat (S i) =? ttag) with (Z.of_nat i =? ttag - 1) by lia.
    destruct (Z.of_nat i =? ttag - 1); [by rewrite mbind_mret, Z.add_0_r|].
    rewrite bind_assoc, (bind_ret _ _ _ _ _ (load_at _ _ (tag mod 128) [] (bytes_at_mwrite_eq m _ [tag mod 128] Hr1))).
    assert (room (mwrite m (padd p (Z.of_nat i)) [tag mod 128]) (padd p (Z.of_nat i)) 1) as Hr2 by (apply room_mwrite; [done|lia|done]).
    rewrite lor_128 by done. rewrite (bind_ret _ _ _ _ _ (store_room _ _ _ Hr2)).
    rewrite to_uchar_id by (unfold is_byte; lia). by rewrite mwrite_over. }
  rewrite IH; [|apply Z.shiftr_nonneg; lia|lia|apply room_mwrite; [done|lia|eapply room_le; [done|lia]]].
  rewrite Z.shiftr_div_pow2 by lia. change (2 ^ 7) with 128. replace (Z.of_nat i =? ttag) with false by lia.
  pose proof (mwrite_before m p (septets i (tag / 128) 128) [tag mod 128 + last]) as E.
  rewrite length_septets in E. rewrite E; [done|]. cbn [length]. eapply room_le; [done|lia].
Qed.

Lemma put_length_run p : forall i m n, 0 <= n -> room m p (Z.of_nat i) -> put_length i p n m = Ret (tt, mwrite m p (be_bytes i n)).
Proof.
  induction i as [|i IH]; intros m n Hn Hr; cbn [put_length be_bytes].
  { by rewrite mwrite_nil. }
  assert (room m (padd p (Z.of_nat i)) 1) as Hr1.
  { apply (room_padd _ _ _ (Z.of_nat i)) in Hr; [|lia]. eapply room_le; [done|lia]. }
  pose proof (Z.mod_pos_bound n 256 ltac:(lia)) as Hb.
  rewrite (bind_ret _ _ _ _ _ (store_room m _ _ Hr1)). rewrite land_255, to_uchar_id by (unfold is_byte; lia).
  rewrite IH; [|apply Z.shiftr_nonneg; lia|apply room_mwrite; [done|lia|eapply room_le; [done|lia]]].
  rewrite Z.shiftr_div_pow2 by lia. change (2 ^ 8) with 256.
  pose proof (mwrite_before m p (be_bytes i (n / 256)) [n mod 256]) as E.
  rewrite length_be_bytes in E. rewrite E; [done|]. cbn [length]. eapply room_le; [done|lia].
Qed.

Section writers.
Context (b : positive).
Local Abbreviation any := (fun _ : mem => True).

Lemma stable_any : stable b any.
Proof using. done. Qed.

Lemma writes_store v : is_byte v -> writes b any (fun p => store p v;; mret (padd p 1)) [v].
Proof using. intros Hv m o _ Hr. by rewrite (bind_ret _ _ _ _ _ (store_room m _ _ Hr)), to_uchar_id. Qed.

(** A first octet and [n] octets behind it. *)
Lemma writes_octet_then x n (f : ptr -> M mem unit) bs :
  is_byte x -> length bs = Z.to_nat n -> 0 <= n ->
  (forall m p, room m p n -> f p m = Ret (tt, mwrite m p bs)) ->
  writes b any (fun p => store p x;; f (padd p 1);; mret (padd (padd p 1) n)) (x :: bs).
Proof using.
  intros Hx Hl Hn Hf m o _ Hr. cbn [length] in Hr.
  rewrite (bind_ret _ _ _ _ _ (store_room m _ _ ltac:(eapply room_le; [exact Hr|lia]))). rewrite to_uchar_id by done.
  erewrite bind_ret; [|apply Hf].
  - rewrite mwrite_cons by done. cbn [length padd]. unfold mret, M_ret. do 3 f_equal. lia.
  - apply room_mwrite; [eapply room_le; [exact Hr|cbn; lia]|lia|]. apply (room_padd _ _ _ 1) in Hr; [|lia].
    eapply room_le; [exact Hr|lia].
Qed.

Lemma lead_octet (con : bool) c t : is_class c -> 0 <= t < 32 ->
  Z.lor (Z.lor (if con then V_ASN1_CONSTRUCTED else 0) (Z.land c V_ASN1_PRIVATE)) t = c + (if con then 32 else 0) + t.
Proof using.
  intros Hc Ht. assert (exists a, Z.lor (if con then V_ASN1_CONSTRUCTED else 0) (Z.land c V_ASN1_PRIVATE) = a * 2 ^ 5 /\
    c + (if con then 32 else 0) = a * 2 ^ 5) as (a & -> & ->).
  { exists ((c + (if con then 32 else 0)) / 32). destruct Hc as [-> | [-> | [-> | ->]]], con; done. }
  apply lor_low; [lia|]. change (2 ^ 5) with 32. lia.
Qed.

Lemma class_range c : is_class c -> 0 <= c <= 192.
Proof using. unfold is_class. lia. Qed.

Lemma writes_identifier con c tag : is_class c -> 0 <= tag <= INT_MAX ->
  let i := Z.lor (if con : bool then V_ASN1_CONSTRUCTED else 0) (Z.land c V_ASN1_PRIVATE) in
  writes b any
    (fun pp => if tag <? 31 then store pp (Z.lor i (Z.land tag V_ASN1_PRIMITIVE_TAG));; mret (padd pp 1)
       else
         store pp (Z.lor i V_ASN1_PRIMITIVE_TAG);;
         ttag ← count_shifts 5 7 tag 0;
         put_tag (Z.to_nat ttag) ttag (padd pp 1) tag;;
         mret (padd (padd pp 1) ttag))
    (identifier_octets con c tag).
Proof using.
  intros Hc Ht i. pose proof (class_range c Hc) as Hr. unfold identifier_octets. cbv zeta. destruct (Z.ltb_spec tag 31) as [Hl|Hl].
  - assert (Z.lor i (Z.land tag V_ASN1_PRIMITIVE_TAG) = c + (if con then 32 else 0) + tag) as ->.
    { change V_ASN1_PRIMITIVE_TAG with (Z.ones 5). rewrite Z.land_ones, Z.mod_small by (try change (2 ^ 5) with 32; lia). apply lead_octet; [done|lia]. }
    apply writes_store. unfold is_byte. destruct con; lia.
  - destruct (tag_digits tag ltac:(lia)) as [Hd Hv]. set (d := digits 5 7 tag) in *.
    assert (Z.lor i V_ASN1_PRIMITIVE_TAG = c + (if con then 32 else 0) + 31) as -> by (apply (lead_octet con c 31); [done|lia]).
    eapply writes_ext; [|apply (writes_octet_then _ (Z.of_nat d) (fun p => put_tag d (Z.of_nat d) p tag))].
    + intros p m. cbv beta. apply bind_ext. intros [] m'. symmetry. erewrite bind_ret.
      2: { apply count_shifts_run; [lia|]. change (2 ^ (7 * Z.of_nat 5)) with 34359738368. unfold INT_MAX in Ht. lia. }
      cbv beta. fold d. by rewrite Z.add_0_l, Nat2Z.id.
    + unfold is_byte. destruct con; lia.
    + by rewrite length_septets, Nat2Z.id.
    + lia.
    + intros m p Hm. rewrite put_tag_run by (done || lia). by rewrite Z.eqb_refl.
Qed.

Lemma writes_length n : 0 <= n <= INT_MAX -> writes b any (fun p => asn1_put_length p n) (length_octets n).
Proof using.
  intros Hn. unfold length_octets, asn1_put_length. destruct (Z.leb_spec n 127) as [Hl|Hl].
  - apply writes_store. unfold is_byte. lia.
  - destruct (len_digits n ltac:(lia)) as [Hd Hv]. set (d := digits 5 8 n) in *.
    eapply writes_ext; [|apply (writes_octet_then _ (Z.of_nat d) (fun p => put_length d p n))].
    + intros p m. cbv beta. symmetry. erewrite bind_ret.
      2: { apply count_shifts_run; [lia|]. change (2 ^ (8 * Z.of_nat 5)) with 1099511627776. unfold INT_MAX in Hn. lia. }
      cbv beta. fold d. rewrite Z.add_0_l, Nat2Z.id, lor_128 by lia. by rewrite Z.add_comm.
    + unfold is_byte. lia.
    + by rewrite length_be_bytes, Nat2Z.id.
    + lia.
    + intros m p Hm. by apply put_length_run; [lia|].
Qed.

Lemma ASN1_put_object_writes constructed n tag c : is_class c -> 0 <= tag <= INT_MAX -> 0 <= n <= INT_MAX ->
  writes b any (fun p => ASN1_put_object p constructed n tag c)
    (header_octets (truthy constructed) c tag (if constructed =? 2 then None else Some n)).
Proof using.
  intros Hc Ht Hn. unfold header_octets, ASN1_put_object. apply writes_bind; [apply stable_any|by apply writes_identifier|].
  destruct (constructed =? 2); [by apply writes_store|by apply writes_length].
Qed.
End writers.

(** The announced size. *)
Lemma length_identifier con c tag : 0 <= tag <= INT_MAX ->
  Z.of_nat (length (identifier_octets con c tag)) = 1 + (if 31 <=? tag then Z.of_nat (digits 5 7 tag) else 0).
Proof.
  intros Ht. unfold identifier_octets. destruct (Z.ltb_spec tag 31), (Z.leb_spec 31 tag); try lia; [done|].
  cbn [length]. rewrite length_septets. lia.
Qed.

Lemma ASN1_object_size_run m constructed n tag con c : 0 <= tag <= INT_MAX -> 0 <= n <= INT_MAX ->
  let h := header_octets con c tag (if constructed =? 2 then None else Some n) in
  let total := Z.of_nat (length h) + (if constructed =? 2 then 2 else 0) + n in
  ASN1_object_size constructed n tag m = Ret (if total <? INT_MAX then total else -1, m).
Proof.
  intros Ht Hn h total. unfold ASN1_object_size. destruct (Z.ltb_spec n 0); [lia|].
  assert (forall f : Z -> M mem Z, mbind f (if 31 <=? tag then count_shifts 5 7 tag 1 else mret 1) m =
    f (Z.of_nat (length (identifier_octets con c tag))) m) as ->.
  { intros f. rewrite length_identifier by done. destruct (31 <=? tag); [|done].
    erewrite bind_ret by (apply count_shifts_run; [lia|]; change (2 ^ (7 * Z.of_nat 5)) with 34359738368; unfold INT_MAX in Ht; lia). done. }
  set (k := length (identifier_octets con c tag)).
  assert (Z.of_nat (length h) = Z.of_nat k + (if constructed =? 2 then 1 else Z.of_nat (length (length_octets n)))) as Eh.
  { unfold h, header_octets. rewrite length_app. fold k. destruct (constructed =? 2); cbn [length]; lia. }
  assert (forall f : Z -> M mem Z, mbind f (if constructed =? 2 then mret (Z.of_nat k + 3)
    else if 127 <? n then count_shifts 5 8 n (Z.of_nat k + 1) else mret (Z.of_nat k + 1)) m = f (total - n) m) as ->.
  { intros f. unfold total. rewrite Eh. destruct (constructed =? 2).
    { rewrite mbind_mret. f_equal. lia. }
    unfold length_octets. destruct (Z.ltb_spec 127 n), (Z.leb_spec n 127); try lia; [|rewrite mbind_mret; f_equal; cbn [length]; lia].
    erewrite bind_ret by (apply count_shifts_run; [lia|]; change (2 ^ (8 * Z.of_nat 5)) with 1099511627776; unfold INT_MAX in Hn; lia).
    f_equal. cbn [length]. rewrite length_be_bytes. lia. }
  replace (INT_MAX - n <=? total - n) with (negb (total <? INT_MAX)) by lia. destruct (total <? INT_MAX); cbn [negb]; unfold mret, M_ret; do 2 f_equal; lia.
Qed.

(** *** Reading *)

Lemma digits_low f k : 0 < k -> forall v, 0 < v < 2 ^ (k * Z.of_nat f) -> 2 ^ (k * (Z.of_nat (digits f k v) - 1)) <= v.
Proof.
  intros Hk. induction f as [|f IH]; intros v Hv; cbn [digits]; [rewrite Z.mul_0_r in Hv; lia|].
  destruct (Z.leb_spec v 0); [lia|]. pose proof (Z.pow_pos_nonneg 2 k ltac:(lia) ltac:(lia)) as Hp.
  replace (k * (Z.of_nat (S (digits f k (v / 2 ^ k))) - 1)) with (k * Z.of_nat (digits f k (v / 2 ^ k))) by lia.
  destruct (Z.lt_ge_cases v (2 ^ k)) as [Hs|Hs].
  { rewrite Z.div_small by lia. destruct f; cbn [digits]; rewrite ?Z.mul_0_r; cbn; lia. }
  assert (0 < v / 2 ^ k) as Hq by (apply Z.div_str_pos; lia).
  specialize (IH (v / 2 ^ k)). replace (k * Z.of_nat (S f)) with (k + k * Z.of_nat f) in Hv by lia. rewrite Z.pow_add_r in Hv by lia.
  specialize (IH ltac:(split; [done|]; apply Z.div_lt_upper_bound; lia)).
  assert (0 < Z.of_nat (digits f k (v / 2 ^ k))) as Hd.
  { destruct (digits_bounds f k Hk (v / 2 ^ k)) as (_ & _ & H3); [split; [lia|]; apply Z.div_lt_upper_bound; lia|]. lia. }
  replace (k * Z.of_nat (digits f k (v / 2 ^ k))) with (k + k * (Z.of_nat (digits f k (v / 2 ^ k)) - 1)) by lia.
  rewrite Z.pow_add_r by nia. pose proof (Z.mul_div_le v (2 ^ k) ltac:(lia)). nia.
Qed.

(** The two parts of an octet of a tag or of a length. *)
Lemma septet_parts x h : 0 <= x < 128 -> h = 0 \/ h = 128 ->
  Z.land (x + h) 0x7f = x /\ truthy (Z.land (x + h) 0x80) = (h =? 128).
Proof.
  intros Hx Hh. rewrite land_127, land_128 by (unfold is_byte; lia). split; [Z.div_mod_to_equations; lia|].
  destruct (Z.leb_spec 128 (x + h)), (Z.eqb_spec h 128); try lia; done.
Qed.

Lemma shl7_or len x : 0 <= x < 128 -> Z.lor (Z.shiftl len 7) x = len * 128 + x.
Proof. intros Hx. rewrite Z.shiftl_mul_pow2 by lia. by apply lor_low; [lia|]. Qed.

Lemma high_tag_run n : forall v max len p m, (0 < n < max)%nat -> 0 <= len -> 0 <= v -> bytes_at m p (septets n v 0) ->
  len * 128 ^ Z.of_nat n + v mod 128 ^ Z.of_nat n <= INT_MAX ->
  high_tag max len p m = Ret (Some (len * 128 ^ Z.of_nat n + v mod 128 ^ Z.of_nat n, (max - n)%nat, padd p (Z.of_nat n)), m).
Proof.
  induction n as [|n IH]; intros v max len p m Hn Hlen Hv Hb Hmax; [lia|]. destruct max as [|max]; [lia|]. cbn [high_tag].
  rewrite septets_S in Hb. set (x := (v / 128 ^ Z.of_nat n) mod 128) in *. set (h := if (n =? 0)%nat then 0 else 128) in *.
  assert (0 <= x < 128) as Hx by (apply Z.mod_pos_bound; lia).
  destruct (septet_parts x h Hx) as [E1 E2]; [unfold h; destruct (n =? 0)%nat; lia|].
  rewrite (bind_ret _ _ _ _ _ (load_at _ _ _ _ Hb)), E1, E2, shl7_or by done. clear E1 E2.
  apply bytes_at_cons in Hb as [_ Hb].
  pose proof (Z.pow_pos_nonneg 128 (Z.of_nat n) ltac:(lia) ltac:(lia)) as Hp.
  assert (v mod 128 ^ Z.of_nat (S n) = x * 128 ^ Z.of_nat n + v mod 128 ^ Z.of_nat n) as Ev.
  { unfold x. rewrite Nat2Z.inj_succ, Z.pow_succ_r, Z.mul_comm by lia. rewrite Z.rem_mul_r by lia. lia. }
  rewrite Ev in *. rewrite Nat2Z.inj_succ, Z.pow_succ_r in * by lia. pose proof (Z.mod_pos_bound v (128 ^ Z.of_nat n) Hp) as Hm.
  replace (len * (128 * 128 ^ Z.of_nat n) + (x * 128 ^ Z.of_nat n + v mod 128 ^ Z.of_nat n)) with
    ((len * 128 + x) * 128 ^ Z.of_nat n + v mod 128 ^ Z.of_nat n) in * by lia.
  destruct (Nat.eqb_spec max 0) as [->|Hm0]; [lia|]. unfold h. destruct (Nat.eqb_spec n 0) as [->|Hn0].
  - cbn [Z.eqb]. rewrite Z.pow_0_r, Z.mod_1_r in *. rewrite Z.mul_1_r, Z.add_0_r. by replace (S max - 1)%nat with max by lia.
  - change (128 =? 128) with true. change (Z.shiftr INT_MAX 7) with 16777215. cbv iota.
    assert (128 <= 128 ^ Z.of_nat n) as Hp1.
    { replace 128 with (128 ^ 1) at 1 by done. apply Z.pow_le_mono_r; lia. }
    destruct (Z.ltb_spec 16777215 (len * 128 + x)) as [Hlt|]; [exfalso; unfold INT_MAX in *; clear - Hmax Hp1 Hlt Hm; nia|].
    rewrite (IH v); try done; try lia. rewrite padd_padd. replace (1 + Z.of_nat n) with (Z.succ (Z.of_nat n)) by lia. done.
Qed.

Lemma high_tag_any max : forall len p bs m, (0 < max <= length bs)%nat -> 0 <= len <= 16777215 -> bytes_at m p bs -> Forall is_byte bs ->
  exists r, high_tag max len p m = Ret (r, m) /\
    match r with
    | Some (t, k, q) => 0 <= t <= INT_MAX /\ (0 < k < max)%nat /\ q = padd p (Z.of_nat (max - k))
    | None => True
    end.
Proof.
  induction max as [|max IH]; intros len p bs m Hmax Hlen Hb Hy; [lia|]. destruct bs as [|x bs]; [cbn [length] in Hmax; lia|].
  cbn [high_tag]. rewrite (bind_ret _ _ _ _ _ (load_at _ _ _ _ Hb)). apply Forall_cons in Hy as [Hx Hy].
  assert (0 <= Z.land x 127 < 128) as Hs by (rewrite land_127; apply Z.mod_pos_bound; lia). rewrite shl7_or by done.
  apply bytes_at_cons in Hb as [_ Hb]. cbn [length] in Hmax. destruct (truthy _).
  - destruct (Nat.eqb_spec max 0); [by eexists|]. change (Z.shiftr INT_MAX 7) with 16777215.
    destruct (Z.ltb_spec 16777215 (len * 128 + Z.land x 127)); [by eexists|].
    destruct (IH (len * 128 + Z.land x 127) (padd p 1) bs m) as (r & E & Hr); try done; try lia. exists r. split; [done|].
    destruct r as [[[t k] q]|]; [|done]. destruct Hr as (? & ? & ->). split; [done|]. split; [lia|]. rewrite padd_padd. f_equal. lia.
  - destruct (Nat.eqb_spec max 0); [by eexists|]. eexists. split; [done|]. cbv beta iota.
    unfold INT_MAX. split; [lia|]. split; [lia|]. f_equal. lia.
Qed.

Lemma length_loop_run bs : forall ret p m, bytes_at m p bs -> Forall is_byte bs -> 0 <= ret -> (ret + 1) * 256 ^ Z.of_nat (length bs) <= 256 ^ 8 ->
  length_loop (length bs) ret p m = Ret ((fold_left (fun acc b => acc * 256 + b) bs ret, padd p (Z.of_nat (length bs))), m).
Proof.
  induction bs as [|x bs IH]; intros ret p m Hb Hy Hret Hmax; cbn [length length_loop fold_left]; [by rewrite padd_0|].
  rewrite (bind_ret _ _ _ _ _ (load_at _ _ _ _ Hb)). apply bytes_at_cons in Hb as [_ Hb]. apply Forall_cons in Hy as [Hx Hy].
  cbn [length] in Hmax. rewrite Nat2Z.inj_succ, Z.pow_succ_r in Hmax by lia. change (256 ^ 8) with 18446744073709551616 in *.
  pose proof (Z.pow_pos_nonneg 256 (Z.of_nat (length bs)) ltac:(lia) ltac:(lia)) as Hp. unfold is_byte in Hx.
  assert (Z.lor (to_size (Z.shiftl ret 8)) x = ret * 256 + x) as ->.
  { rewrite Z.shiftl_mul_pow2 by lia. change (2 ^ 8) with 256. rewrite to_size_id by nia. apply (lor_low ret x 8); lia. }
  rewrite IH; [|done|done|lia|nia]. rewrite padd_padd. by replace (1 + Z.of_nat (length bs)) with (Z.of_nat (S (length bs))) by lia.
Qed.

(** Leading zeros are skipped: [z] of them. *)
Lemma skip_zeroes_any i : forall p bs m, (i <= length bs)%nat -> bytes_at m p bs ->
  exists z, (z <= i)%nat /\ skip_zeroes i p m = Ret (((i - z)%nat, padd p (Z.of_nat z)), m).
Proof.
  induction i as [|i IH]; intros p bs m Hi Hb; cbn [skip_zeroes]; [exists 0%nat; by rewrite padd_0|].
  destruct bs as [|x bs]; [cbn [length] in Hi; lia|]. rewrite (bind_ret _ _ _ _ _ (load_at _ _ _ _ Hb)).
  apply bytes_at_cons in Hb as [_ Hb]. cbn [length] in Hi. destruct (x =? 0).
  - destruct (IH (padd p 1) bs m ltac:(lia) Hb) as (z & Hz & E). exists (S z). rewrite E. split; [lia|].
    rewrite padd_padd. by replace (1 + Z.of_nat z) with (Z.of_nat (S z)) by lia.
  - exists 0%nat. split; [lia|]. by rewrite padd_0.
Qed.

Lemma asn1_get_length_any p max bs m : Z.of_nat (length bs) = max -> bytes_at m p bs -> Forall is_byte bs ->
  exists r, asn1_get_length p max m = Ret (r, m) /\
    match r with
    | Some (inf, rl, q) => (inf = 0 \/ inf = 1 /\ rl = 0) /\ 0 <= rl <= LONG_MAX /\ exists k, 1 <= k <= max /\ q = padd p k
    | None => True
    end.
Proof.
  intros Hmax Hb Hy. unfold asn1_get_length. destruct (Z.ltb_spec max 1); [by eexists|].
  destruct bs as [|x bs]; [cbn [length] in Hmax; lia|]. pose proof Hb as [_ Hb']%bytes_at_cons. pose proof Hy as [Hx Hy']%Forall_cons.
  rewrite (bind_ret _ _ _ _ _ (load_at _ _ _ _ Hb)). cbn [length] in Hmax. unfold LONG_MAX.
  destruct (Z.eqb_spec x 128). { eexists. split; [done|]. cbv beta iota. split; [lia|]. split; [lia|]. by exists 1. }
  assert (0 <= Z.land x 127 < 128) as Hs by (rewrite land_127; apply Z.mod_pos_bound; lia). destruct (truthy _).
  2: { eexists. split; [done|]. cbv beta iota. split; [lia|]. split; [lia|]. by exists 1. }
  destruct (Z.ltb_spec (max - 1) (Z.land x 127 + 1)); [by eexists|]. set (i := Z.to_nat (Z.land x 127)).
  destruct (skip_zeroes_any i (padd p 1) bs m ltac:(lia) Hb') as (z & Hz & E). rewrite (bind_ret _ _ _ _ _ E). cbv beta iota.
  destruct (Nat.ltb_spec 8 (i - z)); [by eexists|]. set (ys := take (i - z) (drop z bs)).
  assert (length ys = (i - z)%nat) as Hl by (unfold ys; rewrite length_take, length_drop; lia).
  assert (bytes_at m (padd (padd p 1) (Z.of_nat z)) ys) as Hys.
  { rewrite <- (take_drop z bs) in Hb'. apply bytes_at_app in Hb' as [_ Hb2]. rewrite length_take_le in Hb2 by lia.
    rewrite <- (take_drop (i - z) (drop z bs)) in Hb2. by apply bytes_at_app_l in Hb2. }
  assert (256 ^ Z.of_nat (length ys) <= 256 ^ 8) as Hp by (apply Z.pow_le_mono_r; lia).
  assert (Forall is_byte ys) as Hyy by (by apply Forall_take, Forall_drop).
  rewrite <- Hl. rewrite (bind_ret _ _ _ _ _ (length_loop_run ys 0 _ m Hys Hyy ltac:(lia) ltac:(lia))). cbv beta iota.
  fold (be ys). pose proof (be_range ys Hyy). destruct (Z.ltb_spec 9223372036854775807 (be ys)); [by eexists|].
  eexists. split; [done|]. cbv beta iota. split; [lia|]. split; [lia|]. exists (1 + Z.of_nat z + Z.of_nat (length ys)).
  rewrite !padd_padd. split; [lia|f_equal; lia].
Qed.

(** A minimal length has no leading zero. *)
Lemma skip_zeroes_length n p m : 0 < n <= INT_MAX -> let d := digits 5 8 n in
  bytes_at m p (be_bytes d n) -> skip_zeroes d p m = Ret ((d, p), m).
Proof.
  intros Hn d Hb. destruct (len_digits n Hn) as [Hd Hv].
  pose proof (digits_low 5 8 ltac:(lia) n ltac:(change (2 ^ (8 * Z.of_nat 5)) with 1099511627776; unfold INT_MAX in Hn; lia)) as Hlow.
  fold d in Hd, Hv, Hlow. destruct d as [|d]; [lia|]. rewrite be_bytes_S in Hb. cbn [skip_zeroes].
  rewrite (bind_ret _ _ _ _ _ (load_at _ _ _ _ Hb)).
  rewrite Z.pow_mul_r in Hlow by lia. replace (Z.of_nat (S d) - 1) with (Z.of_nat d) in Hlow by lia. change (2 ^ 8) with 256 in Hlow.
  rewrite Nat2Z.inj_succ, Z.pow_succ_r in Hv by lia. pose proof (Z.pow_pos_nonneg 256 (Z.of_nat d) ltac:(lia) ltac:(lia)).
  assert (0 < n / 256 ^ Z.of_nat d) by (apply Z.div_str_pos; lia).
  assert (n / 256 ^ Z.of_nat d < 256) by (apply Z.div_lt_upper_bound; lia).
  rewrite Z.mod_small by lia. by destruct (Z.eqb_spec (n / 256 ^ Z.of_nat d) 0); [lia|].
Qed.

Lemma asn1_get_length_run n p max m : 0 <= n <= INT_MAX -> bytes_at m p (length_octets n) ->
  Z.of_nat (length (length_octets n)) + (if n =? 0 then 0 else 1) <= max ->
  asn1_get_length p max m = Ret (Some (0, n, padd p (Z.of_nat (length (length_octets n)))), m).
Proof.
  intros Hn Hb Hmax. unfold length_octets, asn1_get_length in *. destruct (Z.leb_spec n 127) as [Hs|Hs].
  - cbn [length] in *. destruct (Z.ltb_spec max 1); [destruct (n =? 0); lia|]. rewrite (bind_ret _ _ _ _ _ (load_at _ _ _ _ Hb)).
    destruct (Z.eqb_spec n 128); [lia|]. destruct (septet_parts n 0 ltac:(lia) ltac:(lia)) as [E1 E2].
    rewrite Z.add_0_r in E1, E2. by rewrite E1, E2.
  - destruct (len_digits n ltac:(lia)) as [Hd Hv].
    set (d := digits 5 8 n) in *. cbn [length] in *. rewrite length_be_bytes in *. destruct (n =? 0) eqn:?; [lia|].
    destruct (Z.ltb_spec max 1); [lia|]. rewrite (bind_ret _ _ _ _ _ (load_at _ _ _ _ Hb)).
    destruct (Z.eqb_spec (128 + Z.of_nat d) 128); [lia|]. rewrite (Z.add_comm 128).
    destruct (septet_parts (Z.of_nat d) 128 ltac:(lia) ltac:(lia)) as [E1 E2]. rewrite E1, E2. cbn [Z.eqb Pos.eqb]. cbv iota.
    destruct (Z.ltb_spec (max - 1) (Z.of_nat d + 1)); [lia|]. rewrite Nat2Z.id. apply bytes_at_cons in Hb as [_ Hb].
    pose proof (be_be_bytes d n) as Eb. rewrite Z.mod_small in Eb by lia. pose proof (be_bytes_octets d n) as Hy.
    pose proof (length_be_bytes d n) as Hl.
    rewrite (bind_ret _ _ _ _ _ (skip_zeroes_length n (padd p 1) m ltac:(lia) Hb)). cbv beta iota. fold d.
    destruct (Nat.ltb_spec 8 d); [lia|].
    assert (256 ^ Z.of_nat d <= 256 ^ 8) as Hp by (apply Z.pow_le_mono_r; lia).
    pose proof (length_loop_run (be_bytes d n) 0 (padd p 1) m Hb Hy ltac:(lia) ltac:(rewrite Hl; lia)) as El. rewrite Hl in El.
    rewrite (bind_ret _ _ _ _ _ El). cbv beta iota. fold (be (be_bytes d n)). rewrite Eb.
    destruct (Z.ltb_spec LONG_MAX n); [unfold LONG_MAX, INT_MAX in *; lia|]. rewrite padd_padd.
    by replace (1 + Z.of_nat d) with (Z.of_nat (S d)) by lia.
Qed.

(** *** Objects *)

(** A claim on every octet, by evaluation. *)
Lemma every_octet (P : Z -> bool) : forallb P (map Z.of_nat (seq 0 256)) = true -> forall x, is_byte x -> P x = true.
Proof.
  intros H x Hx. unfold is_byte in Hx. rewrite forallb_forall in H. apply H. rewrite in_map_iff. exists (Z.to_nat x).
  split; [lia|]. apply in_seq. lia.
Qed.

Lemma lead_fields x : is_byte x ->
  Z.land x V_ASN1_PRIVATE = x / 64 * 64 /\ Z.land x V_ASN1_CONSTRUCTED = x / 32 mod 2 * 32 /\ Z.land x V_ASN1_PRIMITIVE_TAG = x mod 32.
Proof.
  intros Hx. pose proof (every_octet (fun x => (Z.land x V_ASN1_PRIVATE =? x / 64 * 64) && (Z.land x V_ASN1_CONSTRUCTED =? x / 32 mod 2 * 32) &&
    (Z.land x V_ASN1_PRIMITIVE_TAG =? x mod 32)) ltac:(vm_compute; reflexivity) x Hx) as E. cbv beta in E. lia.
Qed.

Lemma lead_parts (con : bool) c t : is_class c -> 0 <= t < 32 ->
  let x := c + (if con then 32 else 0) + t in
  is_byte x /\ Z.land x V_ASN1_PRIVATE = c /\ Z.land x V_ASN1_CONSTRUCTED = (if con then 32 else 0) /\ Z.land x V_ASN1_PRIMITIVE_TAG = t.
Proof.
  intros Hc Ht x. assert (is_byte x) as Hx by (unfold is_byte, x, is_class in *; destruct con; lia). split; [done|].
  destruct (lead_fields x Hx) as (-> & -> & ->). unfold x.
  destruct Hc as [-> | [-> | [-> | ->]]], con; split_and!; Z.div_mod_to_equations; lia.
Qed.

(** The first octet, and the tag. *)
Lemma identifier_read con c tag p omax m : is_class c -> 0 <= tag <= INT_MAX -> bytes_at m p (identifier_octets con c tag) ->
  let k := Z.of_nat (length (identifier_octets con c tag)) in k < omax ->
  exists x, load p m = Ret (x, m) /\ Z.land x V_ASN1_PRIVATE = c /\ Z.land x V_ASN1_CONSTRUCTED = (if con then 32 else 0) /\
    get_tag p (Z.land x V_ASN1_PRIMITIVE_TAG) omax m = Ret (Some (tag, omax - k, padd p k), m).
Proof.
  intros Hc Ht Hb k Hk. unfold identifier_octets in *. cbv zeta in *. destruct (Z.ltb_spec tag 31) as [Hl|Hl].
  - destruct (lead_parts con c tag Hc ltac:(lia)) as (Hx & E1 & E2 & E3). exists (c + (if con then 32 else 0) + tag).
    split; [by eapply load_at|]. split; [done|]. split; [done|]. rewrite E3. unfold get_tag. cbn [length] in k.
    destruct (Z.eqb_spec tag V_ASN1_PRIMITIVE_TAG); [unfold V_ASN1_PRIMITIVE_TAG in *; lia|]. destruct (Z.eqb_spec (omax - 1) 0); [lia|done].
  - destruct (lead_parts con c 31 Hc ltac:(lia)) as (Hx & E1 & E2 & E3). exists (c + (if con then 32 else 0) + 31).
    split; [by eapply load_at|]. split; [done|]. split; [done|]. rewrite E3. unfold get_tag. cbn [length] in k.
    destruct (tag_digits tag ltac:(lia)) as [Hd Hv]. set (d := digits 5 7 tag) in *. unfold k in *. rewrite length_septets in *.
    destruct (Z.eqb_spec 31 V_ASN1_PRIMITIVE_TAG) as [_|]; [|done]. destruct (Z.eqb_spec (omax - 1) 0); [lia|].
    apply bytes_at_cons in Hb as [_ Hb].
    pose proof (high_tag_run d tag (Z.to_nat (omax - 1)) 0 (padd p 1) m ltac:(lia) ltac:(lia) ltac:(lia) Hb) as E.
    rewrite Z.mul_0_l, Z.add_0_l, Z.mod_small in E by lia. rewrite (bind_ret _ _ _ _ _ (E ltac:(lia))). cbv beta iota.
    rewrite padd_padd. assert (to_int tag = tag) as -> by (unfold to_int, INT_MAX in *; rewrite Z.mod_small; lia).
    replace (Z.of_nat (Z.to_nat (omax - 1) - d)) with (omax - Z.of_nat (S d)) by lia.
    by replace (1 + Z.of_nat d) with (Z.of_nat (S d)) by lia.
Qed.

(** What ASN1_get_object gives for a header. *)
Definition header_of (con : bool) (c tag : Z) (n : option Z) (q : ptr) : object_header :=
  mkHeader ((if con then 32 else 0) + match n with Some _ => 0 | None => 1 end) q (Some (default 0 n)) (Some tag) (Some c).

Lemma ASN1_get_object_run con c tag n b o omax m : is_class c -> 0 <= tag <= INT_MAX ->
  match n with Some n => 0 <= n <= INT_MAX | None => con = true end ->
  let h := header_octets con c tag n in
  bytes_at m (Ptr b o) h -> Z.of_nat (length h) + default 0 n <= omax ->
  ASN1_get_object (Ptr b o) omax m = Ret (header_of con c tag n (Ptr b (o + Z.of_nat (length h))), m).
Proof.
  intros Hc Ht Hn h Hb Hmax. unfold h, header_octets in *. rewrite length_app in *. apply bytes_at_app in Hb as [Hb1 Hb2].
  set (k := Z.of_nat (length (identifier_octets con c tag))) in *. set (l := match n with Some n => length_octets n | None => [128] end) in *.
  assert (0 <= default 0 n) as Hd by (destruct n; cbn; lia).
  assert (1 <= length l)%nat as Hl by (unfold l, length_octets; destruct n; [destruct (_ <=? _)|]; cbn [length]; lia).
  unfold ASN1_get_object. destruct (Z.leb_spec omax 0); [lia|].
  destruct (identifier_read con c tag (Ptr b o) omax m Hc Ht Hb1 ltac:(fold k; lia)) as (x & El & Ecl & Econ & Et). fold k in Et.
  rewrite (bind_ret _ _ _ _ _ El), (bind_ret _ _ _ _ _ Et), Ecl, Econ. cbv beta iota.
  assert (asn1_get_length (padd (Ptr b o) k) (omax - k) m =
    Ret (Some (match n with Some _ => 0 | None => 1 end, default 0 n, padd (Ptr b o) (k + Z.of_nat (length l))), m)) as E.
  { destruct n as [n|].
    - change (default 0 (Some n)) with n in *. rewrite <- padd_padd. apply asn1_get_length_run; [done|done|].
      change l with (length_octets n) in *. unfold k. destruct (n =? 0) eqn:?; lia.
    - unfold asn1_get_length. destruct (Z.ltb_spec (omax - k) 1); [unfold k in *; lia|].
      rewrite (bind_ret _ _ _ _ _ (load_at _ _ _ _ Hb2)). cbn [Z.eqb Pos.eqb]. by rewrite padd_padd. }
  rewrite (bind_ret _ _ _ _ _ E). cbv beta iota. replace (truthy _ && negb _) with false by (destruct n, con; done).
  cbn [padd]. erewrite bind_ret by apply psub_same. cbv beta zeta.
  replace (o + (k + Z.of_nat (length l)) - o) with (k + Z.of_nat (length l)) by lia.
  destruct (Z.ltb_spec (omax - (k + Z.of_nat (length l))) (default 0 n)); [unfold k in *; lia|].
  unfold header_of, mret, M_ret. do 2 f_equal. unfold k. f_equal; [by destruct con, n|]. f_equal. lia.
Qed.

(** C34: A header that ASN1_put_object writes, of any class, tag and length,
    constructed or not, of definite or indefinite length, has the size that
    ASN1_object_size counts (which is -1 for an object of INT_MAX octets and more)
    and is read back by ASN1_get_object, which leaves the pointer where the
    contents begin; the octets are those of X.690, and no other object changes. *)
Theorem ASN1_object_roundtrip m b o constructed n tag c :
  is_class c -> 0 <= tag <= INT_MAX -> 0 <= n <= INT_MAX ->
  let len := if constructed =? 2 then None else Some n in
  let h := header_octets (truthy constructed) c tag len in
  let size := Z.of_nat (length h) + n + (if constructed =? 2 then 2 else 0) in
  let q := Ptr b (o + Z.of_nat (length h)) in
  room m (Ptr b o) (Z.of_nat (length h)) ->
  exists m',
    ASN1_put_object (Ptr b o) constructed n tag c m = Ret (q, m') /\ bytes_at m' (Ptr b o) h /\
    ASN1_object_size constructed n tag m' = Ret (if size <? INT_MAX then size else -1, m') /\
    (forall omax, Z.of_nat (length h) + default 0 len <= omax ->
       ASN1_get_object (Ptr b o) omax m' = Ret (header_of (truthy constructed) c tag len q, m')) /\
    (forall b', b' <> b -> m' !! b' = m !! b').
Proof.
  intros Hc Ht Hn len h size q Hr. exists (mwrite m (Ptr b o) h).
  pose proof (bytes_at_mwrite_eq m (Ptr b o) h Hr) as Hb. split_and!.
  - by apply ASN1_put_object_writes.
  - done.
  - rewrite (ASN1_object_size_run _ constructed n tag (truthy constructed) c Ht Hn). fold len h.
    replace (Z.of_nat (length h) + _ + n) with size by (unfold size; lia). done.
  - intros omax Hmax. apply ASN1_get_object_run; try done. unfold len. destruct (Z.eqb_spec constructed 2) as [->|]; done.
  - intros b' Hne. by apply lookup_mwrite_ne.
Qed.

Lemma ASN1_object_roundtrip_witness :
  exists m', ASN1_put_object (Ptr 1 0) 1 300 1000 0x80 {[ 1%positive := replicate 8 0 ]} = Ret (Ptr 1 6, m') /\
    bytes_at m' (Ptr 1 0) [0xbf; 0x87; 0x68; 0x82; 0x01; 0x2c].
Proof.
  destruct (ASN1_object_roundtrip {[ 1%positive := replicate 8 0 ]} 1 0 1 300 1000 0x80) as (m' & E & Hb & _).
  - right. right. left. reflexivity.
  - unfold INT_MAX. lia.
  - unfold INT_MAX. lia.
  - exists (replicate 8 0). split; [reflexivity|]. vm_compute. discriminate.
  - exists m'. split; [exact E|exact Hb].
Defined.

(** The values of a header the code may give. *)
Definition header_typed (h : object_header) : Prop :=
  0 <= oh_ret h < 256 /\ (forall t, oh_tag h = Some t -> 0 <= t <= INT_MAX) /\
  (forall c, oh_class h = Some c -> is_class c) /\ (forall n, oh_length h = Some n -> 0 <= n <= LONG_MAX).

Lemma class_field x : is_byte x -> is_class (Z.land x V_ASN1_PRIVATE).
Proof. intros Hx. destruct (lead_fields x Hx) as (-> & _). unfold is_class, is_byte in *. Z.div_mod_to_equations. lia. Qed.

Lemma constructed_field x : is_byte x -> Z.land x V_ASN1_CONSTRUCTED = 0 \/ Z.land x V_ASN1_CONSTRUCTED = 32.
Proof. intros Hx. destruct (lead_fields x Hx) as (_ & -> & _). unfold is_byte in *. Z.div_mod_to_equations. lia. Qed.

Lemma get_tag_any p i bs m : bytes_at m p bs -> Forall is_byte bs -> bs <> [] -> 0 <= i < 32 ->
  exists r, get_tag p i (Z.of_nat (length bs)) m = Ret (r, m) /\
    match r with
    | Some (t, max, q) => 0 <= t <= INT_MAX /\ exists k, (1 <= k < length bs)%nat /\ max = Z.of_nat (length bs - k) /\ q = padd p (Z.of_nat k)
    | None => True
    end.
Proof.
  intros Hb Hy Hne Hi. destruct bs as [|x bs]; [done|]. pose proof Hb as [_ Hb']%bytes_at_cons. pose proof Hy as [_ Hy']%Forall_cons.
  cbn [length]. unfold get_tag, INT_MAX. replace (Z.of_nat (S (length bs)) - 1) with (Z.of_nat (length bs)) by lia. destruct (i =? _).
  - destruct (Z.eqb_spec (Z.of_nat (length bs)) 0); [by eexists|]. rewrite Nat2Z.id.
    destruct (high_tag_any (length bs) 0 (padd p 1) bs m ltac:(lia) ltac:(lia) Hb' Hy') as (r & E & Hr).
    rewrite (bind_ret _ _ _ _ _ E). destruct r as [[[t k] q]|]; [|by eexists]. destruct Hr as (Ht & Hk & ->).
    eexists. split; [done|]. cbv beta iota. unfold INT_MAX in Ht. unfold to_int. rewrite Z.mod_small by lia. split; [lia|].
    exists (S (length bs - k)). split; [lia|]. split; [lia|]. rewrite padd_padd. f_equal. lia.
  - destruct (Z.eqb_spec (Z.of_nat (length bs)) 0); [by eexists|]. eexists. split; [done|]. cbv beta iota. split; [lia|].
    exists 1%nat. split; [lia|]. split; [lia|done].
Qed.

(** Proves the claim on a header that is spelled out. *)
Local Ltac typed :=
  unfold header_typed; cbn [oh_ret oh_tag oh_class oh_length oh_pp]; split_and!; try lia; let H := fresh in intros ? H; inversion H; subst; done.

(** C35: On any octets at all ASN1_get_object returns, reads only the octets it was
    given and writes nothing; its results are values of their types (a tag of an
    int, one of the four classes, a length that is not negative); and when bit 7 of
    the result is clear, the object, header and contents, ends inside the octets. *)
Theorem ASN1_get_object_typed m b o bs :
  bytes_at m (Ptr b o) bs -> Forall is_byte bs ->
  exists h, ASN1_get_object (Ptr b o) (Z.of_nat (length bs)) m = Ret (h, m) /\ header_typed h /\
    (Z.land (oh_ret h) 0x80 = 0 ->
     exists n k, oh_length h = Some n /\ oh_tag h <> None /\ oh_class h <> None /\
       oh_pp h = Ptr b (o + k) /\ 2 <= k /\ k + n <= Z.of_nat (length bs)).
Proof.
  intros Hb Hy. unfold ASN1_get_object. destruct (Z.leb_spec (Z.of_nat (length bs)) 0).
  { eexists. split; [done|]. split; [typed|done]. }
  assert (bs <> []) as Hne by (intros ->; cbn in *; lia). destruct bs as [|x bs'] eqn:Ebs; [done|]. rewrite <- Ebs in *.
  assert (is_byte x) as Hx by (rewrite Ebs in Hy; by apply Forall_cons in Hy as [? _]).
  assert (load (Ptr b o) m = Ret (x, m)) as El by (rewrite Ebs in Hb; by eapply load_at). rewrite (bind_ret _ _ _ _ _ El).
  pose proof (class_field x Hx) as Hc. pose proof (constructed_field x Hx) as Hcon. set (con := Z.land x V_ASN1_CONSTRUCTED) in *.
  destruct (get_tag_any (Ptr b o) (Z.land x V_ASN1_PRIMITIVE_TAG) bs m Hb Hy Hne) as (t & Et & Ht).
  { destruct (lead_fields x Hx) as (_ & _ & ->). apply Z.mod_pos_bound. lia. }
  rewrite (bind_ret _ _ _ _ _ Et). destruct t as [[[tag max] p]|]; [|eexists; split; [done|]; split; [typed|done]]. destruct Ht as (Htag & k & Hk & -> & ->).
  assert (bytes_at m (padd (Ptr b o) (Z.of_nat k)) (drop k bs)) as Hb2.
  { rewrite <- (take_drop k bs) in Hb. apply bytes_at_app in Hb as [_ Hb]. by rewrite length_take_le in Hb by lia. }
  destruct (asn1_get_length_any _ (Z.of_nat (length bs - k)) _ m ltac:(by rewrite length_drop) Hb2 ltac:(by apply Forall_drop)) as (l & El' & Hl).
  rewrite (bind_ret _ _ _ _ _ El'). destruct l as [[[inf rl] q]|].
  2: { eexists. split; [done|]. split; [typed|done]. }
  destruct Hl as (Hinf & Hrl & j & Hj & ->). destruct (_ && _) eqn:Ebad.
  { eexists. split; [done|]. split; [typed|done]. }
  cbn [padd]. erewrite bind_ret by apply psub_same. cbv beta zeta. set (d := o + Z.of_nat k + j - o).
  eexists. split; [done|].
  assert (0 <= Z.lor con inf < 256 /\ 0 <= Z.lor (Z.lor con 128) inf < 256 /\ Z.land (Z.lor (Z.lor con 128) inf) 128 = 128) as (H1 & H2 & H3)
    by (destruct Hcon as [-> | ->], Hinf as [-> | [-> _]]; vm_compute; done).
  destruct (Z.ltb_spec (Z.of_nat (length bs) - d) rl); (split; [typed|]); cbn [oh_ret oh_tag oh_class oh_length oh_pp]; [lia|].
  intros _. exists rl, (Z.of_nat k + j). split_and!; try done; try lia. f_equal. lia.
Qed.

Lemma ASN1_get_object_typed_witness :
  exists h, ASN1_get_object (Ptr 1 0) 4 {[ 1%positive := [0x30; 0x02; 0x05; 0x00] ]} = Ret (h, {[ 1%positive := [0x30; 0x02; 0x05; 0x00] ]}) /\ header_typed h.
Proof.
  destruct (ASN1_get_object_typed {[ 1%positive := [0x30; 0x02; 0x05; 0x00] ]} 1 0 [0x30; 0x02; 0x05; 0x00]) as (h & E & Ht & _).
  - exists []. reflexivity.
  - repeat constructor; unfold is_byte; lia.
  - exists h. split; [exact E|exact Ht].
Defined.
