(* ===== verification/AsnString.v ===== *)
(** * Strings of ASN.1

    The second part of crypto/asn1/asn1_lib.c of the vendored OpenSSL: the
    ASN1_STRING, which holds the contents of most primitive types, on the heap of
    Heap.v.  The structure itself is a record that the functions take and give
    back; its contents are an object of the heap.  ossl_sk_ASN1_UTF8STRING2text,
    which works on a stack of strings, is left out.

    The lemmas: a string that is set holds a copy of the octets and a NUL behind
    them, or the allocation failed and nothing changed; comparison is equality of
    contents and type when it gives 0; a duplicate is equal to its original. *)

From S2P Require Import Prelude Memory Heap.

(** ** Definitions *)

Definition V_ASN1_OCTET_STRING : Z := 4.
Definition ASN1_STRING_FLAG_BITS_LEFT : Z := 0x08.
Definition ASN1_STRING_FLAG_NDEF : Z := 0x10.
Definition ASN1_STRING_FLAG_EMBED : Z := 0x80.

Record ASN1_STRING : Type := mkSTRING {
  as_length : Z;
  as_type : Z;
  as_data : ptr;
  as_flags : Z
}.

Definition with_type (t : Z) (s : ASN1_STRING) : ASN1_STRING := mkSTRING (as_length s) t (as_data s) (as_flags s).
Definition with_flags (f : Z) (s : ASN1_STRING) : ASN1_STRING := mkSTRING (as_length s) (as_type s) (as_data s) f.

Section definitions.
Context {AL : Allocator}.

Definition ossl_asn1_string_set_bits_left (str : ASN1_STRING) (num : Z) : ASN1_STRING :=
  with_flags (Z.lor (Z.land (as_flags str) (Z.lnot 0x07)) (Z.lor ASN1_STRING_FLAG_BITS_LEFT (Z.land num 0x07))) str.

(** ASN1_STRING_set from where the length is known. *)
Definition string_set_len (str : ASN1_STRING) (data : ptr) (len : Z) : M mem (bool * ASN1_STRING) :=
  if INT_MAX - 1 <? len then mret (false, str)
  else
    r ← (if (to_size (as_length str) <=? len) || is_null (as_data str)
         then CRYPTO_realloc (as_data str) (len + 1)
         else mret (as_data str));
    if is_null r then mret (false, str)
    else
      (if is_null data then mret tt else memcpy r data len;; store (padd r len) 0);;
      mret (true, mkSTRING len (as_type str) r (as_flags str)).

Definition ASN1_STRING_set (str : ASN1_STRING) (data : ptr) (len_in : Z) : M mem (bool * ASN1_STRING) :=
  if len_in <? 0 then
    if is_null data then mret (false, str)
    else len ← strlen data; string_set_len str data len
  else string_set_len str data len_in.

Definition ASN1_STRING_copy (dst : ASN1_STRING) (str : option ASN1_STRING) : M mem (bool * ASN1_STRING) :=
  match str with
  | None => mret (false, dst)
  | Some str =>
      '(ok, dst) ← ASN1_STRING_set (with_type (as_type str) dst) (as_data str) (as_length str);
      if negb ok then mret (false, dst)
      else
        mret (true, with_flags (Z.lor (Z.land (as_flags dst) ASN1_STRING_FLAG_EMBED)
                                      (Z.land (as_flags str) (Z.lnot ASN1_STRING_FLAG_EMBED))) dst)
  end.

Definition ASN1_STRING_set0 (str : ASN1_STRING) (data : ptr) (len : Z) : M mem ASN1_STRING :=
  CRYPTO_free (as_data str);; mret (mkSTRING len (as_type str) data (as_flags str)).

(** The 24 octets of a new structure. *)
Definition ASN1_STRING_type_new (type : Z) : M mem (option ASN1_STRING) := fun m =>
  Ret (if alloc_ok m 24 then Some (mkSTRING 0 type NULL 0) else None, m).

Definition ASN1_STRING_new : M mem (option ASN1_STRING) := ASN1_STRING_type_new V_ASN1_OCTET_STRING.

Definition ossl_asn1_string_embed_free (a : option ASN1_STRING) (embed : Z) : M mem unit :=
  match a with
  | None => mret tt
  | Some a => if truthy (Z.land (as_flags a) ASN1_STRING_FLAG_NDEF) then mret tt else CRYPTO_free (as_data a)
  end.

Definition ASN1_STRING_free (a : option ASN1_STRING) : M mem unit :=
  match a with
  | None => mret tt
  | Some s => ossl_asn1_string_embed_free a (Z.land (as_flags s) ASN1_STRING_FLAG_EMBED)
  end.

Definition ASN1_STRING_clear_free (a : option ASN1_STRING) : M mem unit :=
  match a with
  | None => mret tt
  | Some s =>
      (if negb (is_null (as_data s)) && negb (truthy (Z.land (as_flags s) ASN1_STRING_FLAG_NDEF))
       then OPENSSL_cleanse (as_data s) (as_length s) else mret tt);;
      ASN1_STRING_free a
  end.

Definition ASN1_STRING_dup (str : option ASN1_STRING) : M mem (option ASN1_STRING) :=
  match str with
  | None => mret None
  | Some _ =>
      ret ← ASN1_STRING_new;
      match ret with
      | None => mret None
      | Some ret =>
          '(ok, ret) ← ASN1_STRING_copy ret str;
          if ok : bool then mret (Some ret) else ASN1_STRING_free (Some ret);; mret None
      end
  end.
End definitions.

Definition ASN1_STRING_cmp (a b : ASN1_STRING) : M mem Z :=
  i ← int_result (as_length a - as_length b);
  if i =? 0 then
    i ← (if as_length a =? 0 then mret 0 else memcmp (as_data a) (as_data b) (as_length a));
    if i =? 0 then int_result (as_type a - as_type b) else mret i
  else mret i.

Definition ASN1_STRING_length (x : ASN1_STRING) : Z := as_length x.
Definition ASN1_STRING_length_set (x : ASN1_STRING) (len : Z) : ASN1_STRING := mkSTRING len (as_type x) (as_data x) (as_flags x).
Definition ASN1_STRING_get0_data (x : ASN1_STRING) : ptr := as_data x.

(** ** Specification *)

(** The contents of a string: an object of the heap with room for them, or
    none at all. *)
Definition string_at (m : mem) (s : ASN1_STRING) (c : list Z) : Prop :=
  as_length s = Z.of_nat (length c) /\ Z.of_nat (length c) < INT_MAX /\
  ((as_data s = NULL /\ c = []) \/ exists b rest, as_data s = Ptr b 0 /\ m !! b = Some (c ++ rest)).

(** Objects other than that of the string are kept. *)
Definition kept (m m' : mem) (p : ptr) : Prop := forall b l, ~ in_block p b -> m !! b = Some l -> m' !! b = Some l.

(** A call that sets a string to [bs]: done, or refused by the allocator. *)
Definition set_to {AL : Allocator} (m m' : mem) (s s' : ASN1_STRING) (bs : list Z) (ok : bool) : Prop :=
  if ok
  then as_length s' = Z.of_nat (length bs) /\ as_type s' = as_type s /\ as_flags s' = as_flags s /\ kept m m' (as_data s) /\
       (exists b rest, as_data s' = Ptr b 0 /\ m' !! b = Some (bs ++ 0 :: rest) /\ (in_block (as_data s) b \/ m !! b = None))
  else s' = s /\ m' = m /\ alloc_ok m (Z.of_nat (length bs) + 1) = false.

(** ** Lemmas *)

Lemma kept_insert m b l p : m !! b = None -> kept m (<[b := l]> m) p.
Proof. intros Hb b' l' _ Hl. by rewrite lookup_insert_ne by congruence. Qed.

Lemma kept_bytes m m' p q bs : kept m m' p -> ~ (exists b, in_block p b /\ in_block q b) -> bytes_at m q bs -> bytes_at m' q bs.
Proof.
  intros Hk Hne [t Ht]. exists t. destruct q as [| |b o]; [done|done|]. apply tail_at_Some in Ht as (l & Hl & Ho & Ht).
  apply tail_at_Some. exists l. split; [|done]. apply Hk; [|done]. intros Hin. apply Hne. by exists b.
Qed.

Lemma bytes_at_block m q bs : bytes_at m q bs -> exists b l, in_block q b /\ m !! b = Some l.
Proof. intros [t Ht]. destruct q as [| |b o]; [done|done|]. apply tail_at_Some in Ht as (l & Hl & _). by exists b, l. Qed.

Section heap.
Context {AL : Allocator} {ALL : AllocatorLaws}.

(** The object a string of [len] octets is stored in. *)
Lemma string_room_run m s c len : string_at m s c -> 0 <= len < INT_MAX ->
  exists r m1,
    (if (to_size (as_length s) <=? len) || is_null (as_data s) then CRYPTO_realloc (as_data s) (len + 1) else mret (as_data s)) m = Ret (r, m1) /\
    ((r = NULL /\ m1 = m /\ alloc_ok m (len + 1) = false) \/
     (exists b l, r = Ptr b 0 /\ m1 !! b = Some l /\ len < Z.of_nat (length l) /\ kept m m1 (as_data s) /\
        (in_block (as_data s) b \/ m !! b = None))).
Proof using ALL.
  intros (Hlen & Hmax & Hd) Hl. rewrite Hlen, to_size_id by (unfold INT_MAX in *; lia).
  destruct Hd as [[-> ->]|(b & rest & -> & Hb)].
  - rewrite orb_true_r. unfold CRYPTO_realloc. cbn [is_null].
    destruct (malloc_run (len + 1) m ltac:(lia)) as (r & m1 & -> & [(-> & -> & Hf)|(b & l & -> & Hb & -> & Hlen')]); eexists _, _; (split; [done|]); [by left|right].
    exists b, l. rewrite lookup_insert_eq. split_and!; try done; [lia|by apply kept_insert|by right].
  - cbn [is_null]. rewrite orb_false_r. destruct (Z.leb_spec (Z.of_nat (length c)) len).
    + rewrite CRYPTO_realloc_pos by lia. unfold realloc. rewrite Hb. destruct (alloc_ok m (len + 1)) eqn:Ha; eexists _, _; (split; [done|]); [right|by left].
      eexists (fresh (dom m)), _. rewrite lookup_insert_eq. split_and!; try done.
      * rewrite length_take, length_app, alloc_bytes_length by lia. lia.
      * intros b' l' Hne Hl'. assert (fresh (dom m) <> b') by (intros <-; by rewrite fresh_lookup in Hl').
        rewrite lookup_insert_ne, lookup_delete_ne by (cbn in Hne; congruence). done.
      * right. apply fresh_lookup.
    + eexists _, _. split; [done|]. right. exists b, (c ++ rest). split_and!; try done; [rewrite length_app; lia|by intros ? ? _ ?|by left].
Qed.

Lemma ASN1_STRING_set_run m s c data bs : string_at m s c -> bytes_at m data bs -> Z.of_nat (length bs) < INT_MAX ->
  ~ (exists b, in_block (as_data s) b /\ in_block data b) ->
  exists ok s' m', ASN1_STRING_set s data (Z.of_nat (length bs)) m = Ret ((ok, s'), m') /\ set_to m m' s s' bs ok.
Proof using ALL.
  intros Hs Hb Hmax Hne. unfold ASN1_STRING_set, string_set_len. destruct (Z.ltb_spec (Z.of_nat (length bs)) 0); [lia|].
  destruct (Z.ltb_spec (INT_MAX - 1) (Z.of_nat (length bs))); [lia|].
  destruct (string_room_run m s c (Z.of_nat (length bs)) Hs ltac:(lia)) as (r & m1 & E & Hr). rewrite (bind_ret _ _ _ _ _ E).
  destruct Hr as [(-> & -> & Hf)|(b & l & -> & Hl & Hlen & Hk & Hnew)].
  { eexists false, _, _. split; [done|]. done. }
  pose proof (bytes_at_block m data bs Hb) as (bd & ld & Hin & Hld).
  assert (~ in_block data b) as Hnb.
  { intros Hin'. assert (bd = b) as -> by (destruct data as [| |b2 o2]; [done|done|]; cbn [in_block] in Hin, Hin'; congruence). destruct Hnew as [Hold|Hnew]; [apply Hne; eauto|congruence]. }
  cbn [is_null]. destruct (is_null data) eqn:En; [by destruct data|].
  pose proof (kept_bytes _ _ _ _ _ Hk Hne Hb) as Hb1. rewrite bind_assoc.
  assert (room m1 (Ptr b 0) (Z.of_nat (length bs) + 1)) as Hroom.
  { apply room_block; [lia|]. exists l. split; [done|]. lia. }
  rewrite (bind_ret _ _ _ _ _ (memcpy_at m1 (Ptr b 0) data b bs ltac:(by right) ltac:(eapply room_le; [exact Hroom|lia]) eq_refl Hnb ltac:(unfold INT_MAX in *; lia))).
  pose proof (store_bytes_after m1 (Ptr b 0) bs [0] ltac:(cbn [length]; eapply room_le; [exact Hroom|lia])) as Est.
  unfold store. rewrite (bind_ret _ _ _ _ _ Est). eexists true, _, _. split; [reflexivity|]. unfold set_to.
  cbn [as_length as_type as_flags as_data]. split_and!; try done.
  - intros b' l' Hnin Hl'. assert (b <> b').
    { intros <-. destruct Hnew as [Hold|Hnew]; [done|congruence]. }
    rewrite lookup_mwrite_ne by done. by apply Hk.
  - exists b, (drop (length bs + 1) l). split; [done|]. split; [|done]. cbn [mwrite]. rewrite lookup_alter_eq, Hl. cbn [fmap option_fmap option_map].
    unfold splice. cbn [Z.to_nat take app]. f_equal. rewrite length_app, <- app_assoc. done.
Qed.

(** The contents of a string can be read from its object. *)
Lemma string_bytes m s c b : string_at m s c -> as_data s = Ptr b 0 -> bytes_at m (Ptr b 0) c.
Proof using.
  intros (_ & _ & [[E _]|(b' & rest & E & Hb)]) Hd; rewrite E in Hd; [done|]. injection Hd as <-.
  exists rest. apply tail_at_Some. exists (c ++ rest). split; [done|]. split; [lia|done].
Qed.

(** A duplicate: the same contents and type in an object of its own, or none
    because an allocation failed. *)
Lemma ASN1_STRING_dup_run m s c b : string_at m s c -> as_data s = Ptr b 0 ->
  exists r m', ASN1_STRING_dup (Some s) m = Ret (r, m') /\
    match r with
    | Some s' => string_at m' s' c /\ string_at m' s c /\ as_type s' = as_type s /\
        as_flags s' = Z.land (as_flags s) (Z.lnot ASN1_STRING_FLAG_EMBED) /\ as_data s' <> as_data s
    | None => m' = m
    end.
Proof using ALL.
  intros Hs Hd. unfold ASN1_STRING_dup.
  assert (ASN1_STRING_new m = Ret (if alloc_ok m 24 then Some (mkSTRING 0 V_ASN1_OCTET_STRING NULL 0) else None, m)) as En by done.
  rewrite (bind_ret _ _ _ _ _ En). destruct (alloc_ok m 24); [|by exists None, m].
  unfold ASN1_STRING_copy. rewrite Hd. pose proof Hs as (Hlen & Hmax & _). rewrite Hlen.
  destruct (ASN1_STRING_set_run m (with_type (as_type s) (mkSTRING 0 V_ASN1_OCTET_STRING NULL 0)) [] (Ptr b 0) c) as (ok & s' & m' & E & Hset).
  { split; [done|]. split; [done|]. by left. }
  { by eapply string_bytes. }
  { done. }
  { by intros (? & ? & _). }
  rewrite bind_assoc, (bind_ret _ _ _ _ _ E). cbv beta iota. destruct ok; cbn [negb set_to] in *.
  - destruct Hset as (Hl' & Ht' & Hf' & Hk & b' & rest & Hd' & Hb' & Hnew). cbn [as_data with_type] in Hnew. rewrite mbind_mret.
    eexists (Some _), _. split; [reflexivity|]. cbv beta iota.
    assert (m !! b' = None) as Hfresh by (destruct Hnew; [done|done]).
    split_and!; cbn [as_length as_type as_data as_flags with_flags]; try done.
    + split; [done|]. split; [done|]. right. by exists b', (0 :: rest).
    + split; [done|]. split; [done|]. right. destruct Hs as (_ & _ & [[E' _]|(b1 & rest1 & E' & Hb1)]); rewrite E' in Hd; [done|].
      injection Hd as ->. exists b, rest1. split; [done|]. apply Hk; [by intros []|done].
    + rewrite Hf'. cbn [as_flags with_type]. by rewrite Z.land_0_l, Z.lor_0_l.
    + rewrite Hd'. intros [= ->]. destruct Hs as (_ & _ & [[E' _]|(b1 & rest1 & E' & Hb1)]); congruence.
  - destruct Hset as (-> & -> & _). rewrite mbind_mret. eexists None, m. done.
Qed.
End heap.

(** Comparison gives 0 for equal contents and types only. *)
Lemma ASN1_STRING_cmp_run m a b ca cb : string_at m a ca -> string_at m b cb -> 0 <= as_type a <= INT_MAX -> 0 <= as_type b <= INT_MAX ->
  exists r, ASN1_STRING_cmp a b m = Ret (r, m) /\ (r = 0 <-> ca = cb /\ as_type a = as_type b).
Proof.
  intros (Hla & Hma & Hda) (Hlb & Hmb & Hdb) Hta Htb. unfold ASN1_STRING_cmp. rewrite Hla, Hlb.
  rewrite (bind_ret _ _ _ _ _ (int_result_ok (Z.of_nat (length ca) - Z.of_nat (length cb)) m ltac:(unfold INT_MIN, INT_MAX in *; lia))).
  destruct (Z.eqb_spec (Z.of_nat (length ca) - Z.of_nat (length cb)) 0) as [El|El].
  2: { eexists. split; [done|]. split; [done|]. intros [-> _]. lia. }
  assert (exists i, (if Z.of_nat (length ca) =? 0 then mret 0 else memcmp (as_data a) (as_data b) (Z.of_nat (length ca))) m = Ret (i, m) /\
    (i = 0 <-> ca = cb)) as (i & E & Hi).
  { destruct (Z.eqb_spec (Z.of_nat (length ca)) 0) as [E0|E0].
    { exists 0. split; [done|]. split; [|done]. intros _. destruct ca, cb; cbn [length] in *; (done || lia). }
    destruct Hda as [[_ ->]|(ba & ra & -> & Hba)]; [done|]. destruct Hdb as [[_ ->]|(bb & rb & -> & Hbb)]; [cbn [length] in *; lia|].
    unfold memcmp. rewrite to_size_id by (unfold INT_MAX in *; lia).
    assert (forall bx c r, m !! bx = Some (c ++ r) -> load_bytes (Ptr bx 0) (Z.of_nat (length c)) m = Ret (c, m)) as Hload.
    { intros bx c r Hx. apply load_bytes_at. right. exists r. apply tail_at_Some. exists (c ++ r). split; [done|]. split; [lia|done]. }
    rewrite (bind_ret _ _ _ _ _ (Hload _ _ _ Hba)). replace (Z.of_nat (length ca)) with (Z.of_nat (length cb)) by lia.
    rewrite (bind_ret _ _ _ _ _ (Hload _ _ _ Hbb)). eexists. split; [done|]. apply cmp_bytes_eq. lia. }
  rewrite (bind_ret _ _ _ _ _ E). destruct (Z.eqb_spec i 0) as [->|Hne].
  - rewrite int_result_ok by (unfold INT_MIN, INT_MAX in *; lia). eexists. split; [done|]. split; [|lia].
    intros Ht. split; [by apply Hi|lia].
  - eexists. split; [done|]. split; [done|]. intros [-> _]. by apply Hi.
Qed.
