(* ===== verification/DerInt.v ===== *)
(** * Integers of ASN.1

    crypto/asn1/a_int.c of the vendored OpenSSL: the contents octets of an
    INTEGER, a minimal two's complement number in network order, from and to the
    sign and the magnitude that an ASN1_INTEGER holds, and integers of 64 bits.
    A local array of the source is an object that the caller of the model names.
    The conversions from and to BIGNUM are left out.

    The theorems: the encoder writes the minimal octets of the value; the decoder
    accepts exactly the minimal encodings and gives sign and magnitude; the two
    are inverse to each other, for magnitudes of any size and for 64-bit
    integers; a 64-bit integer put into an ASN1_INTEGER is got back. *)

From S2P Require Import Prelude Memory TlsPacket Vlint Heap AsnString Der.

(** ** Definitions *)

Definition V_ASN1_NEG : Z := 0x100.
Definition V_ASN1_INTEGER : Z := 2.
Definition V_ASN1_ENUMERATED : Z := 10.
Definition INT64_MAX : Z := 9223372036854775807.
Definition INT64_MIN : Z := -9223372036854775808.
Definition ABS_INT64_MIN : Z := INT64_MAX + - (INT64_MIN + INT64_MAX).

(** The conversion to [int64_t]. *)
Definition to_int64 (z : Z) : Z := (z + 9223372036854775808) mod 18446744073709551616 - 9223372036854775808.

Definition ASN1_INTEGER_cmp (x y : ASN1_STRING) : M mem Z :=
  let neg := Z.land (as_type x) V_ASN1_NEG in
  if negb (neg =? Z.land (as_type y) V_ASN1_NEG) then mret (if truthy neg then -1 else 1)
  else
    ret ← ASN1_STRING_cmp x y;
    if truthy neg then int_result (- ret) else mret ret.

(** The loop from the last octet to the first, [len] octets to do. *)
Fixpoint twos_loop (len : nat) (dst src : ptr) (carry pad : Z) : M mem unit :=
  match len with
  | O => mret tt
  | S len =>
      s ← load (padd src (Z.of_nat len));
      let carry := to_uint (carry + Z.lxor s pad) in
      store (padd dst (Z.of_nat len)) carry;;
      twos_loop len dst src (Z.shiftr carry 8) pad
  end.

Definition twos_complement (dst src : ptr) (len pad : Z) : M mem unit :=
  twos_loop (Z.to_nat len) dst src (Z.land pad 1) pad.

(** [for (i = 1; i < len; i++) pad |= b[i]], [n] octets to do. *)
Fixpoint or_loop (n : nat) (i : Z) (b : ptr) (pad : Z) : M mem Z :=
  match n with
  | O => mret pad
  | S n => x ← load (padd b i); or_loop n (i + 1) b (Z.lor pad x)
  end.

(** The number of octets and the padding octet: [ret], [pad], [pb]. *)
Definition ibuf_padding (b : ptr) (blen neg : Z) : M mem (Z * Z) :=
  i ← load b;
  if negb (truthy neg) && (127 <? i) then mret (1, 0)
  else if truthy neg then
    if 128 <? i then mret (1, 0xff)
    else if i =? 128 then
      pad ← or_loop (Z.to_nat (blen - 1)) 1 b 0;
      let pb := if truthy pad then 0xff else 0 in
      mret (Z.land pb 1, pb)
    else mret (0, 0xff)
  else mret (0, 0).

(** [pp] is [*pp], or null when the caller passes no pointer; the second result
    is its new value. *)
Definition i2c_ibuf (b : ptr) (blen neg : Z) (pp : ptr) : M mem (Z * ptr) :=
  '(ret, blen, pad, pb) ←
    (if negb (is_null b) && truthy blen
     then '(pad, pb) ← ibuf_padding b blen neg; mret (to_size (blen + pad), blen, pad, pb)
     else mret (1, 0, 0, 0));
  if is_null pp then mret (ret, pp)
  else
    store pp pb;;
    twos_complement (padd pp pad) b blen pb;;
    mret (ret, padd pp ret).

(** The return value and [*pneg], [None] when it is not assigned. *)
Definition c2i_ibuf (b p : ptr) (plen : Z) : M mem (Z * option Z) :=
  if plen =? 0 then mret (0, None)
  else
    p0 ← load p;
    let neg := Z.land p0 0x80 in
    if plen =? 1 then
      (if is_null b then mret tt else store b (if truthy neg then Z.lxor p0 0xff + 1 else p0));;
      mret (1, Some neg)
    else
      pad ← (if p0 =? 0 then mret 1
             else if p0 =? 0xff then
               pad ← or_loop (Z.to_nat (plen - 1)) 1 p 0; mret (if truthy pad then 1 else 0)
             else mret 0);
      illegal ← (if truthy pad then p1 ← load (padd p 1); mret (neg =? Z.land p1 0x80) else mret false);
      if illegal : bool then mret (0, Some neg)
      else
        (if is_null b then mret tt
         else twos_complement b (padd p pad) (plen - pad) (if truthy neg then 0xff else 0));;
        mret (plen - pad, Some neg).

Definition ossl_i2c_ASN1_INTEGER (a : ASN1_STRING) (pp : ptr) : M mem (Z * ptr) :=
  '(ret, pp) ← i2c_ibuf (as_data a) (to_size (as_length a)) (Z.land (as_type a) V_ASN1_NEG) pp;
  mret (to_int ret, pp).

Fixpoint get_uint64_loop (n : nat) (b : ptr) (r : Z) : M mem Z :=
  match n with
  | O => mret r
  | S n => x ← load b; get_uint64_loop n (padd b 1) (Z.lor (to_size (Z.shiftl r 8)) x)
  end.

(** [*pr], or [None] on error. *)
Definition asn1_get_uint64 (b : ptr) (blen : Z) : M mem (option Z) :=
  if 8 <? blen then mret None
  else if is_null b then mret None
  else r ← get_uint64_loop (Z.to_nat blen) b 0; mret (Some r).

(** The loop has at most eight turns for the eight octets of [r]. *)
Fixpoint put_uint64_loop (fuel : nat) (b : ptr) (off r : Z) : M mem Z :=
  match fuel with
  | O => nofuel
  | S fuel =>
      store (padd b (off - 1)) r;;
      let r := Z.shiftr r 8 in
      if truthy r then put_uint64_loop fuel b (off - 1) r else mret (off - 1)
  end.

Definition asn1_put_uint64 (b : ptr) (r : Z) : M mem Z := put_uint64_loop 8 b 8 r.

Definition asn1_get_int64 (b : ptr) (blen neg : Z) : M mem (option Z) :=
  r ← asn1_get_uint64 b blen;
  match r with
  | None => mret None
  | Some r =>
      if truthy neg then
        if r <=? INT64_MAX then mret (Some (- r))
        else if r =? ABS_INT64_MIN then mret (Some (to_int64 (to_size (0 - r))))
        else mret None
      else if r <=? INT64_MAX then mret (Some r)
      else mret None
  end.

Section heap.
Context {AL : Allocator}.

Definition ASN1_INTEGER_dup (x : option ASN1_STRING) : M mem (option ASN1_STRING) := ASN1_STRING_dup x.

(** The structure that is read into is [a], a new one when there is none; the
    results are the structure and the new [*pp]. *)
Definition ossl_c2i_ASN1_INTEGER (a : option ASN1_STRING) (pp : ptr) (len : Z) : M mem (option ASN1_STRING * ptr) :=
  '(r, _) ← c2i_ibuf NULL pp (to_size len);
  if r =? 0 then mret (None, pp)
  else
    ret ← (match a with None => ASN1_STRING_type_new V_ASN1_INTEGER | Some _ => mret a end);
    match ret with
    | None => mret (None, pp)
    | Some ret =>
        '(ok, ret) ← ASN1_STRING_set ret NULL (to_int r);
        if negb ok then
          (match a with None => ASN1_STRING_free (Some ret) | Some _ => mret tt end);;
          mret (None, pp)
        else
          '(_, neg) ← c2i_ibuf (as_data ret) pp (to_size len);
          let type := if truthy (default 0 neg) then Z.lor (as_type ret) V_ASN1_NEG
                      else Z.land (as_type ret) (Z.lnot V_ASN1_NEG) in
          mret (Some (with_type type ret), padd pp len)
    end.

Definition asn1_string_get_int64 (a : option ASN1_STRING) (itype : Z) : M mem (option Z) :=
  match a with
  | None => mret None
  | Some a =>
      if negb (Z.land (as_type a) (Z.lnot V_ASN1_NEG) =? itype) then mret None
      else asn1_get_int64 (as_data a) (to_size (as_length a)) (Z.land (as_type a) V_ASN1_NEG)
  end.

(** [tbuf] is the local array. *)
Definition asn1_string_set_int64 (tbuf : ptr) (a : ASN1_STRING) (r itype : Z) : M mem (bool * ASN1_STRING) :=
  if r <? 0 then
    off ← asn1_put_uint64 tbuf (to_size (0 - to_size r));
    ASN1_STRING_set (with_type (Z.lor itype V_ASN1_NEG) a) (padd tbuf off) (8 - off)
  else
    off ← asn1_put_uint64 tbuf r;
    ASN1_STRING_set (with_type (Z.land itype (Z.lnot V_ASN1_NEG)) a) (padd tbuf off) (8 - off).

Definition asn1_string_get_uint64 (a : option ASN1_STRING) (itype : Z) : M mem (option Z) :=
  match a with
  | None => mret None
  | Some a =>
      if negb (Z.land (as_type a) (Z.lnot V_ASN1_NEG) =? itype) then mret None
      else if truthy (Z.land (as_type a) V_ASN1_NEG) then mret None
      else asn1_get_uint64 (as_data a) (to_size (as_length a))
  end.

Definition asn1_string_set_uint64 (tbuf : ptr) (a : ASN1_STRING) (r itype : Z) : M mem (bool * ASN1_STRING) :=
  off ← asn1_put_uint64 tbuf r;
  ASN1_STRING_set (with_type itype a) (padd tbuf off) (8 - off).

(** The structure and the new [*pp]; the contents are a new object. *)
Definition d2i_ASN1_UINTEGER (a : option ASN1_STRING) (pp : ptr) (length : Z) : M mem (option ASN1_STRING * ptr) :=
  ret ← (match a with None => ASN1_STRING_type_new V_ASN1_INTEGER | Some _ => mret a end);
  match ret with
  | None => mret (None, pp)
  | Some ret =>
      let err := (match a with None => ASN1_STRING_free (Some ret) | Some _ => mret tt end);; mret (None, pp) in
      h ← ASN1_get_object pp length;
      let len := default 0 (oh_length h) in
      if truthy (Z.land (oh_ret h) 0x80) then err
      else if negb (default 0 (oh_tag h) =? V_ASN1_INTEGER) then err
      else if len <? 0 then err
      else
        n ← int_result (to_int len + 1);
        s ← CRYPTO_malloc (to_size n);
        if is_null s then err
        else
          '(p, len) ← (if truthy len then
                         c ← load (oh_pp h);
                         let '(p, len) := if (c =? 0) && negb (len =? 1) then (padd (oh_pp h) 1, len - 1) else (oh_pp h, len) in
                         memcpy s p (to_int len);;
                         mret (padd p len, len)
                       else mret (oh_pp h, len));
          ret ← ASN1_STRING_set0 (with_type V_ASN1_INTEGER ret) s (to_int len);
          mret (Some ret, p)
  end.

Definition ASN1_INTEGER_get_int64 (a : option ASN1_STRING) : M mem (option Z) := asn1_string_get_int64 a V_ASN1_INTEGER.
Definition ASN1_INTEGER_set_int64 (tbuf : ptr) (a : ASN1_STRING) (r : Z) : M mem (bool * ASN1_STRING) := asn1_string_set_int64 tbuf a r V_ASN1_INTEGER.
Definition ASN1_INTEGER_get_uint64 (a : option ASN1_STRING) : M mem (option Z) := asn1_string_get_uint64 a V_ASN1_INTEGER.
Definition ASN1_INTEGER_set_uint64 (tbuf : ptr) (a : ASN1_STRING) (r : Z) : M mem (bool * ASN1_STRING) := asn1_string_set_uint64 tbuf a r V_ASN1_INTEGER.
Definition ASN1_INTEGER_set (tbuf : ptr) (a : ASN1_STRING) (v : Z) : M mem (bool * ASN1_STRING) := ASN1_INTEGER_set_int64 tbuf a v.

(** A [long] has 64 bits, so that the test of its range never fails. *)
Definition ASN1_INTEGER_get (a : option ASN1_STRING) : M mem Z :=
  match a with
  | None => mret 0
  | Some _ => r ← ASN1_INTEGER_get_int64 a; mret (default (-1) r)
  end.

Definition ASN1_ENUMERATED_get_int64 (a : option ASN1_STRING) : M mem (option Z) := asn1_string_get_int64 a V_ASN1_ENUMERATED.
Definition ASN1_ENUMERATED_set_int64 (tbuf : ptr) (a : ASN1_STRING) (r : Z) : M mem (bool * ASN1_STRING) := asn1_string_set_int64 tbuf a r V_ASN1_ENUMERATED.
Definition ASN1_ENUMERATED_set (tbuf : ptr) (a : ASN1_STRING) (v : Z) : M mem (bool * ASN1_STRING) := ASN1_ENUMERATED_set_int64 tbuf a v.

Definition ASN1_ENUMERATED_get (a : option ASN1_STRING) : M mem Z :=
  match a with
  | None => mret 0
  | Some s =>
      if negb (Z.land (as_type s) (Z.lnot V_ASN1_NEG) =? V_ASN1_ENUMERATED) then mret (-1)
      else if 8 <? as_length s then mret 0xffffffff
      else r ← ASN1_ENUMERATED_get_int64 a; mret (default (-1) r)
  end.
End heap.

(** [*ret] and [*neg], [None] for the return value 0. *)
Definition ossl_c2i_uint64_int (buf pp : ptr) (len : Z) : M mem (option (Z * Z)) :=
  '(buflen, _) ← c2i_ibuf NULL pp (to_size len);
  if buflen =? 0 then mret None
  else if 8 <? buflen then mret None
  else
    '(_, neg) ← c2i_ibuf buf pp (to_size len);
    r ← asn1_get_uint64 buf buflen;
    mret (r ← r; neg ← neg; Some (r, neg)).

Definition ossl_i2c_uint64_int (buf p : ptr) (r neg : Z) : M mem Z :=
  off ← asn1_put_uint64 buf r;
  '(ret, _) ← i2c_ibuf (padd buf off) (8 - off) neg p;
  mret (to_int ret).

(** ** Specification: the contents octets of X.690 *)

(** The value of the octets as a two's complement number. *)
Definition int_value (bs : list Z) : Z :=
  match bs with
  | [] => 0
  | x :: _ => be bs - (if 128 <=? x then 256 ^ Z.of_nat (length bs) else 0)
  end.

(** At least one octet, and the first nine bits are not all equal. *)
Definition minimal (bs : list Z) : bool :=
  match bs with
  | [] => false
  | [_] => true
  | x :: y :: _ => negb ((x =? 0) && (y <? 128)) && negb ((x =? 255) && (128 <=? y))
  end.

(** A magnitude without leading zeros. *)
Definition canonical (bs : list Z) : Prop :=
  Forall is_byte bs /\ bs <> [] /\ (length bs = 1%nat \/ 256 ^ Z.of_nat (length bs - 1) <= be bs).

(** ** Lemmas *)

Lemma pow256_pos n : 0 < 256 ^ Z.of_nat n.
Proof. apply Z.pow_pos_nonneg; lia. Qed.

Lemma pow256_S n : 256 ^ Z.of_nat (S n) = 256 * 256 ^ Z.of_nat n.
Proof. by rewrite Nat2Z.inj_succ, Z.pow_succ_r by lia. Qed.

Lemma be_bytes_add n : forall v k, be_bytes n (v + k * 256 ^ Z.of_nat n) = be_bytes n v.
Proof.
  induction n as [|n IH]; intros v k; [done|]. cbn [be_bytes]. rewrite pow256_S. replace (v + k * (256 * 256 ^ Z.of_nat n)) with (v + k * 256 ^ Z.of_nat n * 256) by lia.
  rewrite Z.div_add, Z.mod_add by lia. by rewrite IH.
Qed.

Lemma be_bytes_be bs : Forall is_byte bs -> be_bytes (length bs) (be bs) = bs.
Proof.
  induction bs as [|x bs IH] using rev_ind; intros Hb; [done|]. apply Forall_app in Hb as [Hb [Hx _]%Forall_cons].
  rewrite length_app, Nat.add_1_r. cbn [be_bytes]. rewrite be_app. unfold is_byte in Hx.
  replace ((be bs * 256 + x) / 256) with (be bs) by (Z.div_mod_to_equations; lia).
  replace ((be bs * 256 + x) mod 256) with x by (Z.div_mod_to_equations; lia). by rewrite IH.
Qed.

(** The value of [n + 1] octets of a number they can hold. *)
Lemma int_value_be_bytes n v : - (128 * 256 ^ Z.of_nat n) <= v < 128 * 256 ^ Z.of_nat n -> int_value (be_bytes (S n) v) = v.
Proof.
  intros Hv. pose proof (pow256_pos n) as Hp. pose proof (be_be_bytes (S n) v) as E. rewrite be_bytes_S in *. cbn [int_value length]. rewrite length_be_bytes, E, pow256_S.
  destruct (Z.lt_ge_cases v 0) as [Hn|Hn].
  - rewrite <- (Z.mod_add v 1) by lia. rewrite Z.mul_1_l, (Z.mod_small (v + 256 * _)) by lia.
    assert ((v / 256 ^ Z.of_nat n) mod 256 = v / 256 ^ Z.of_nat n + 256) as ->.
    { rewrite <- (Z.mod_add _ 1) by lia. rewrite Z.mul_1_l. apply Z.mod_small. split; [|apply Z.lt_add_lt_sub_r; apply Z.div_lt_upper_bound; lia].
      assert (-128 <= v / 256 ^ Z.of_nat n) by (apply Z.div_le_lower_bound; lia). lia. }
    assert (-128 <= v / 256 ^ Z.of_nat n) by (apply Z.div_le_lower_bound; lia). destruct (Z.leb_spec 128 (v / 256 ^ Z.of_nat n + 256)); lia.
  - rewrite Z.mod_small by lia. assert (v / 256 ^ Z.of_nat n < 128) by (apply Z.div_lt_upper_bound; lia).
    pose proof (Z.div_pos v (256 ^ Z.of_nat n) Hn Hp). rewrite Z.mod_small by lia. destruct (Z.leb_spec 128 (v / 256 ^ Z.of_nat n)); lia.
Qed.

(** Octets are minimal when fewer do not hold their value. *)
Lemma minimal_be_bytes n v : v < - (128 * 256 ^ Z.of_nat n) \/ 128 * 256 ^ Z.of_nat n <= v -> - (128 * 256 ^ Z.of_nat (S n)) <= v < 128 * 256 ^ Z.of_nat (S n) ->
  minimal (be_bytes (S (S n)) v) = true.
Proof.
  intros Hlow Hv. pose proof (pow256_pos n) as Hp. rewrite pow256_S in Hv. rewrite !be_bytes_S. cbn [minimal]. rewrite pow256_S.
  replace (v / (256 * 256 ^ Z.of_nat n)) with (v / 256 ^ Z.of_nat n / 256) by (rewrite Z.div_div by lia; f_equal; lia).
  set (q := v / 256 ^ Z.of_nat n).
  assert (q < -128 \/ 128 <= q) as Hq.
  { destruct Hlow as [H|H]; [left; apply Z.div_lt_upper_bound; lia|right; apply Z.div_le_lower_bound; lia]. }
  assert (-32768 <= q < 32768) as Hr by (split; [apply Z.div_le_lower_bound; lia|apply Z.div_lt_upper_bound; lia]).
  clearbody q. clear - Hq Hr. Z.div_mod_to_equations. lia.
Qed.

Lemma lxor_255 x : is_byte x -> Z.lxor x 255 = 255 - x.
Proof.
  intros Hx. pose proof (every_octet (fun x => Z.lxor x 255 =? 255 - x) ltac:(vm_compute; reflexivity) x Hx) as E. cbv beta in E. lia.
Qed.

Lemma be_complement xs : Forall is_byte xs -> be (map (fun x => Z.lxor x 255) xs) = 256 ^ Z.of_nat (length xs) - 1 - be xs.
Proof.
  induction xs as [|x xs IH] using rev_ind; intros Hb; [done|]. apply Forall_app in Hb as [Hb [Hx _]%Forall_cons].
  rewrite map_app. cbn [map]. rewrite !be_app, IH, length_app, Nat.add_1_r, pow256_S, lxor_255 by done. lia.
Qed.

(** *** The loops *)

Lemma twos_loop_run pad b xs : (pad = 0 \/ pad = 255) -> forall m dst src c, bytes_at m src xs \/ xs = [] -> Forall is_byte xs -> 0 <= c <= 1 ->
  in_block dst b -> ~ in_block src b -> room m dst (Z.of_nat (length xs)) ->
  twos_loop (length xs) dst src c pad m = Ret (tt, mwrite m dst (be_bytes (length xs) (c + be (map (fun x => Z.lxor x pad) xs)))).
Proof.
  intros Hpad. induction xs as [|x xs IH] using rev_ind; intros m dst src c Hb Hy Hc Hd Hs Hr; [by rewrite mwrite_nil|].
  destruct Hb as [Hb|Hb]; [|by destruct xs]. rewrite length_app, Nat.add_1_r in *. cbn [twos_loop]. apply bytes_at_app in Hb as [Hb1 Hb2].
  apply Forall_app in Hy as [Hy [Hx _]%Forall_cons]. rewrite (bind_ret _ _ _ _ _ (load_at _ _ _ _ Hb2)).
  assert (0 <= Z.lxor x pad < 256) as Hxp by (unfold is_byte in Hx; destruct Hpad as [-> | ->]; [rewrite Z.lxor_0_r|rewrite lxor_255 by done]; lia).
  set (y := Z.lxor x pad) in *. replace (to_uint (c + y)) with (c + y) by (unfold to_uint; rewrite Z.mod_small; lia).
  assert (room m (padd dst (Z.of_nat (length xs))) 1) as Hr1.
  { apply (room_padd _ _ _ (Z.of_nat (length xs))) in Hr; [|lia]. eapply room_le; [done|lia]. }
  rewrite (bind_ret _ _ _ _ _ (store_room _ _ _ Hr1)). rewrite Z.shiftr_div_pow2 by lia. change (2 ^ 8) with 256.
  assert (in_block (padd dst (Z.of_nat (length xs))) b) as Hd1 by by destruct dst.
  rewrite IH; try done.
  - rewrite map_app. cbn [map be_bytes]. fold y. rewrite be_app. set (v := be (map _ xs)).
    replace ((c + (v * 256 + y)) / 256) with ((c + y) / 256 + v) by (rewrite <- Z.div_add by lia; f_equal; lia).
    replace ((c + (v * 256 + y)) mod 256) with (to_uchar (c + y)) by (unfold to_uchar; rewrite <- (Z.mod_add (c + y) v) by lia; f_equal; lia).
    pose proof (mwrite_before m dst (be_bytes (length xs) ((c + y) / 256 + v)) [to_uchar (c + y)]) as E.
    rewrite length_be_bytes in E. rewrite E; [done|]. cbn [length]. eapply room_le; [done|lia].
  - left. by eapply bytes_at_mwrite_ne.
  - Z.div_mod_to_equations. lia.
  - apply room_mwrite; [done|lia|]. eapply room_le; [done|lia].
Qed.

(** The two uses: a copy, and the two's complement. *)
Lemma twos_complement_run m dst src b xs pad : bytes_at m src xs \/ xs = [] -> Forall is_byte xs -> in_block dst b -> ~ in_block src b ->
  room m dst (Z.of_nat (length xs)) -> (pad = 0 \/ pad = 255) ->
  twos_complement dst src (Z.of_nat (length xs)) pad m =
    Ret (tt, mwrite m dst (be_bytes (length xs) (if pad =? 0 then be xs else - be xs))).
Proof.
  intros Hb Hy Hd Hs Hr Hpad. unfold twos_complement. rewrite Nat2Z.id.
  assert (0 <= Z.land pad 1 <= 1) as Hc by (destruct Hpad as [-> | ->]; done).
  rewrite (twos_loop_run pad b xs Hpad m dst src (Z.land pad 1) Hb Hy Hc Hd Hs Hr). do 3 f_equal.
  destruct Hpad as [-> | ->].
  - cbn [Z.eqb]. rewrite Z.land_0_l. rewrite (map_ext _ (fun x => x)) by (intros; apply Z.lxor_0_r). rewrite map_id. by rewrite Z.add_0_l.
  - change (255 =? 0) with false. change (Z.land 255 1) with 1. cbv iota. rewrite be_complement by done.
    replace (1 + (256 ^ Z.of_nat (length xs) - 1 - be xs)) with (- be xs + 1 * 256 ^ Z.of_nat (length xs)) by lia. apply be_bytes_add.
Qed.

Lemma or_loop_run b m : forall ys i pad, bytes_at m (padd b i) ys \/ ys = [] -> Forall is_byte ys -> 0 <= pad ->
  exists v, or_loop (length ys) i b pad m = Ret (v, m) /\ 0 <= v /\ (v = 0 <-> pad = 0 /\ be ys = 0).
Proof.
  induction ys as [|y ys IH]; intros i pad Hb Hy Hp; cbn [length or_loop]; [exists pad; split; [done|]; split; [done|]; by split; [intros ->|intros [-> _]]|].
  destruct Hb as [Hb|]; [|done]. rewrite (bind_ret _ _ _ _ _ (load_at _ _ _ _ Hb)). apply bytes_at_cons in Hb as [_ Hb].
  apply Forall_cons in Hy as [Hx Hy]. unfold is_byte in Hx. rewrite padd_padd in Hb.
  destruct (IH (i + 1) (Z.lor pad y) (or_introl Hb) Hy) as (v & E & Hv & Hz); [apply Z.lor_nonneg; lia|]. exists v. split; [done|]. split; [done|].
  rewrite Hz, Z.lor_eq_0_iff, be_cons. pose proof (be_range ys Hy). pose proof (pow256_pos (length ys)). nia.
Qed.

(** A write that covers the octet written before. *)
Lemma mwrite_cover m p x y ys : room m p (Z.of_nat (S (length ys))) -> mwrite (mwrite m p [x]) p (y :: ys) = mwrite m p (y :: ys).
Proof.
  intros Hr. assert (room m p 1) as Hr1 by (eapply room_le; [done|lia]).
  rewrite <- (mwrite_cons (mwrite m p [x]) p y ys) by (apply room_mwrite; [done|lia|done]).
  by rewrite <- (mwrite_cons m p y ys), mwrite_over by done.
Qed.

(** *** Encoding *)

(** A magnitude and its first octet. *)
Lemma be_first x xs : Forall is_byte (x :: xs) -> let n := length xs in
  0 <= be xs < 256 ^ Z.of_nat n /\ be (x :: xs) = x * 256 ^ Z.of_nat n + be xs /\ 0 <= x < 256.
Proof. intros [Hx Hy]%Forall_cons n. split; [by apply be_range|]. split; [apply be_cons|done]. Qed.

(** The sign and the magnitude as a number. *)
Definition signed (neg : Z) (bs : list Z) : Z := if truthy neg then - be bs else be bs.

(** The padding the code decides on for the magnitude [x :: xs]: none when the
    number fits into as many octets. *)
Definition padding_case (neg x : Z) (xs : list Z) (pad pb : Z) : Prop :=
  let v := signed neg (x :: xs) in
  let H := 128 * 256 ^ Z.of_nat (length xs) in
  (pad = 1 /\ (v < - H \/ H <= v) /\ pb = (if truthy neg then 255 else 0)) \/
  (pad = 0 /\ - H <= v < H /\ (pb = (if truthy neg then 255 else 0) \/ pb = 0 /\ v = - H)).

Lemma ibuf_padding_run m b x xs neg : bytes_at m b (x :: xs) -> Forall is_byte (x :: xs) ->
  exists pad pb, ibuf_padding b (Z.of_nat (S (length xs))) neg m = Ret ((pad, pb), m) /\ padding_case neg x xs pad pb.
Proof.
  intros Hb Hy. unfold padding_case. cbv zeta. set (v := signed neg (x :: xs)). set (H := 128 * 256 ^ Z.of_nat (length xs)).
  destruct (be_first x xs Hy) as (Hr & EB & Hx). pose proof (pow256_pos (length xs)) as Hp.
  unfold ibuf_padding. rewrite (bind_ret _ _ _ _ _ (load_at _ _ _ _ Hb)). unfold v, signed. destruct (truthy neg); cbn [negb andb].
  - destruct (Z.ltb_spec 128 x); [eexists 1, _; split; [done|left; split; [done|]; split; [nia|done]]|].
    destruct (Z.eqb_spec x 128) as [->|].
    2: { eexists 0, _. split; [done|]. right. split; [done|]. split; [nia|by left]. }
    apply bytes_at_cons in Hb as [_ Hb]. apply Forall_cons in Hy as [_ Hy].
    destruct (or_loop_run b m xs 1 0 (or_introl Hb) Hy ltac:(lia)) as (w & E & Hw & Hz).
    replace (Z.to_nat (Z.of_nat (S (length xs)) - 1)) with (length xs) by lia. rewrite (bind_ret _ _ _ _ _ E). unfold truthy.
    destruct (Z.eqb_spec w 0) as [->|Hne]; cbn [negb]; eexists _, _; (split; [done|]).
    + right. split; [done|]. assert (be xs = 0) by (by apply Hz). split; [lia|]. right. split; [done|]. lia.
    + left. split; [done|]. split; [|done]. assert (be xs <> 0) by (intros E0; apply Hne, Hz; done). lia.
  - destruct (Z.ltb_spec 127 x); eexists _, _; (split; [done|]); [left|right]; (split; [done|]).
    + split; [nia|done].
    + split; [nia|by left].
Qed.

(** The octets the code stores. *)
Lemma i2c_octets x xs neg pad pb : Forall is_byte (x :: xs) -> padding_case neg x xs pad pb ->
  let t := be_bytes (S (length xs)) (if pb =? 0 then be (x :: xs) else - be (x :: xs)) in
  be_bytes (Z.to_nat pad + S (length xs)) (signed neg (x :: xs)) = if pad =? 0 then t else pb :: t.
Proof.
  intros Hy Hcase t. destruct (be_first x xs Hy) as (Hrg & EB & Hx). pose proof (pow256_pos (length xs)) as Hp. unfold padding_case in Hcase.
  set (v := signed neg (x :: xs)) in *. destruct Hcase as [(-> & Hv' & Epb)|(-> & Hv' & Epb)].
  - change (1 =? 0) with false. cbv iota. change (Z.to_nat 1 + S (length xs))%nat with (S (S (length xs))). rewrite be_bytes_S, pow256_S. f_equal.
    + rewrite Epb. unfold v, signed in *. destruct (truthy neg).
      * assert (- be (x :: xs) / (256 * 256 ^ Z.of_nat (length xs)) = -1) as ->; [|done].
        symmetry. apply (Z.div_unique _ _ _ (256 * 256 ^ Z.of_nat (length xs) - be (x :: xs))); nia.
      * rewrite Z.div_small by nia. done.
    + unfold t. rewrite Epb. unfold v, signed. by destruct (truthy neg).
  - cbn [Z.eqb]. change (Z.to_nat 0 + S (length xs))%nat with (S (length xs)). unfold t. destruct Epb as [->|[-> Ev]].
    + unfold v, signed. by destruct (truthy neg).
    + cbn [Z.eqb]. rewrite <- (be_bytes_add (S (length xs)) v 1), pow256_S. f_equal. unfold v, signed in *. destruct (truthy neg); lia.
Qed.

Lemma i2c_value x xs neg pad pb : canonical (x :: xs) -> padding_case neg x xs pad pb ->
  let out := be_bytes (Z.to_nat pad + S (length xs)) (signed neg (x :: xs)) in
  minimal out = true /\ int_value out = signed neg (x :: xs).
Proof.
  intros (Hy & _ & Hcan) Hcase. destruct (be_first x xs Hy) as (Hrg & EB & Hx). pose proof (pow256_pos (length xs)) as Hp.
  set (v := signed neg (x :: xs)) in *. cbv zeta. destruct Hcase as [(-> & Hv & _)|(-> & Hv & _)]; fold v in Hv.
  - change (Z.to_nat 1 + S (length xs))%nat with (S (S (length xs))).
    assert (- (128 * 256 ^ Z.of_nat (S (length xs))) <= v < 128 * 256 ^ Z.of_nat (S (length xs))) as Hw
      by (rewrite pow256_S; unfold v, signed; destruct (truthy neg); nia).
    split; [by apply minimal_be_bytes|by apply int_value_be_bytes].
  - change (Z.to_nat 0 + S (length xs))%nat with (S (length xs)). split; [|by apply int_value_be_bytes].
    destruct xs as [|y ys]; [done|]. destruct Hcan as [?|Hcan]; [done|]. cbn [length Nat.sub] in *. apply minimal_be_bytes; [|done].
    rewrite ?pow256_S in Hcan. pose proof (pow256_pos (length ys)). unfold v, signed. destruct (truthy neg); lia.
Qed.

Lemma i2c_ibuf_run m b bs neg d o : bytes_at m b bs -> canonical bs -> Z.of_nat (length bs) < 2 ^ 63 -> ~ in_block b d ->
  room m (Ptr d o) (Z.of_nat (S (length bs))) ->
  exists out, i2c_ibuf b (Z.of_nat (length bs)) neg (Ptr d o) m = Ret ((Z.of_nat (length out), Ptr d (o + Z.of_nat (length out))), mwrite m (Ptr d o) out) /\
    (length out <= S (length bs))%nat /\ Forall is_byte out /\ minimal out = true /\ int_value out = signed neg bs.
Proof.
  intros Hb Hcan Hmax Hd Hr. pose proof Hcan as (Hy & Hne & _). destruct bs as [|x xs]; [done|]. cbn [length] in *.
  destruct (ibuf_padding_run m b x xs neg Hb Hy) as (pad & pb & E & Hcase).
  assert (pad = 0 \/ pad = 1) as Hpad by (destruct Hcase as [(-> & _)|(-> & _)]; lia).
  assert (pb = 0 \/ pb = 255) as Hpb by (destruct Hcase as [(_ & _ & ->)|(_ & _ & [-> | [-> _]])]; try destruct (truthy neg); lia).
  set (out := be_bytes (Z.to_nat pad + S (length xs)) (signed neg (x :: xs))).
  assert (length out = (Z.to_nat pad + S (length xs))%nat) as Hlo by apply length_be_bytes.
  exists out. split; [|split; [lia|split; [apply be_bytes_octets|by apply (i2c_value x xs neg pad pb)]]].
  unfold i2c_ibuf. destruct (is_null b) eqn:En; [by destruct b; destruct Hb as [? ?]|]. cbn [negb andb].
  replace (truthy (Z.of_nat (S (length xs)))) with true by (symmetry; apply truthy_spec; lia). rewrite bind_assoc, (bind_ret _ _ _ _ _ E).
  cbv beta iota. rewrite mbind_mret. cbn [is_null].
  assert (room m (Ptr d o) 1) as Hr1 by (eapply room_le; [exact Hr|lia]).
  rewrite (bind_ret _ _ _ _ _ (store_room _ _ _ Hr1)), to_uchar_id by (unfold is_byte; lia).
  change (Z.of_nat (S (length xs))) with (Z.of_nat (length (x :: xs))). erewrite bind_ret.
  2: { apply (twos_complement_run _ _ _ d); try done; [left; by eapply (bytes_at_mwrite_ne _ _ _ _ _ d)|].
       apply room_mwrite; [done|lia|]. apply (room_padd _ _ _ pad) in Hr; [|lia]. eapply room_le; [exact Hr|cbn [length]; lia]. }
  pose proof (i2c_octets x xs neg pad pb Hy Hcase) as Eout. fold out in Eout. cbv zeta in Eout. cbn [length]. set (t := be_bytes (S (length xs)) _) in *.
  assert (mwrite (mwrite m (Ptr d o) [pb]) (padd (Ptr d o) pad) t = mwrite m (Ptr d o) out) as ->.
  { rewrite Eout. assert (length t = S (length xs)) as Hlt by apply length_be_bytes. destruct Hpad as [-> | ->].
    - rewrite padd_0. cbn [Z.eqb]. destruct t as [|t0 t']; [done|]. apply mwrite_cover. cbn [length] in Hlt. eapply room_le; [exact Hr|lia].
    - change (1 =? 0) with false. cbv iota. apply mwrite_cons. eapply room_le; [exact Hr|lia]. }
  unfold mret, M_ret. cbn [padd]. rewrite Hlo, to_size_id by (change (2 ^ 63) with 9223372036854775808 in *; lia).
  do 3 f_equal; [lia|f_equal; lia].
Qed.

(** *** Decoding *)

(** The octets of padding: a first octet that only carries the sign. *)
Definition pad_of (x : Z) (xs : list Z) : nat :=
  match xs with
  | [] => 0
  | _ => if x =? 0 then 1 else if (x =? 255) && negb (be xs =? 0) then 1 else 0
  end.

(** What the decoder stores for the contents [x :: xs]. *)
Definition magnitude_of (x : Z) (xs : list Z) : list Z := be_bytes (S (length xs) - pad_of x xs) (Z.abs (int_value (x :: xs))).

Lemma minimal_two x y ys : is_byte x -> is_byte y -> minimal (x :: y :: ys) = true ->
  (x = 0 -> 128 <= y) /\ (x = 255 -> y < 128).
Proof. unfold is_byte. cbn [minimal]. lia. Qed.

(** It has no leading zeros. *)
Lemma magnitude_canonical x xs : Forall is_byte (x :: xs) -> minimal (x :: xs) = true -> canonical (magnitude_of x xs) /\
  be (magnitude_of x xs) = Z.abs (int_value (x :: xs)).
Proof.
  intros Hy Hm. destruct (be_first x xs Hy) as (Hr & EB & Hx). set (v := int_value (x :: xs)).
  assert (128 <= x /\ Z.abs v = 256 ^ Z.of_nat (S (length xs)) - be (x :: xs) \/ x < 128 /\ Z.abs v = be (x :: xs)) as Ev.
  { unfold v. cbn [int_value length]. rewrite pow256_S, EB. destruct (Z.leb_spec 128 x); nia. }
  set (k := (S (length xs) - pad_of x xs)%nat).
  assert ((0 < k)%nat /\ Z.abs v < 256 ^ Z.of_nat k /\ (k = 1%nat \/ 256 ^ Z.of_nat (k - 1) <= Z.abs v)) as (Hk & Hlt & Hge).
  { pose proof (pow256_pos (length xs)) as Hp. rewrite pow256_S, EB in Ev. unfold k, pad_of. destruct xs as [|y ys].
    { cbn in *. lia. }
    apply Forall_cons in Hy as [Hx' Hy]. destruct (be_first y ys Hy) as (Hr2 & EB2 & Hy0). destruct (minimal_two x y ys Hx' Hy0 Hm) as [H1 H2].
    cbn [length] in *. rewrite pow256_S in *. pose proof (pow256_pos (length ys)) as Hp2.
    destruct (Z.eqb_spec x 0) as [->|Hx0]; [|destruct (Z.eqb_spec x 255) as [->|Hx255]; cbn [andb]; [destruct (Z.eqb_spec (be (y :: ys)) 0) as [E0|E0]; cbn [negb]|]].
    all: replace (S (S (length ys)) - 1)%nat with (S (length ys)) by lia; rewrite ?Nat.sub_0_r; rewrite ?pow256_S; cbn [Nat.sub]; rewrite ?Nat.sub_0_r, ?pow256_S.
    all: split; [lia|]; clear k Hm Hy; clearbody v; destruct Ev as [[? ->]|[? ->]]; split; try right; nia. }
  unfold magnitude_of. fold v k. pose proof (be_be_bytes k (Z.abs v)) as Eb. rewrite Z.mod_small in Eb by lia. split; [|done].
  split; [apply be_bytes_octets|]. rewrite length_be_bytes, Eb. split; [|done]. destruct k; [lia|]. by rewrite be_bytes_S.
Qed.

(** The same octets as the loop of the code stores. *)
Lemma magnitude_octets x xs : Forall is_byte (x :: xs) -> let p := pad_of x xs in
  be_bytes (S (length xs) - p) (if 128 <=? x then - be (drop p (x :: xs)) else be (drop p (x :: xs))) = magnitude_of x xs.
Proof.
  intros Hy p. destruct (be_first x xs Hy) as (Hr & EB & Hx). unfold magnitude_of. fold p.
  assert (p = 0%nat \/ p = 1%nat /\ (x = 0 \/ x = 255)) as [Ep|[Ep Hx0]].
  { unfold p, pad_of. destruct xs; [by left|]. destruct (Z.eqb_spec x 0); [auto|]. destruct (Z.eqb_spec x 255); cbn [andb]; [|auto]. destruct (negb _); auto. }
  - rewrite Ep, Nat.sub_0_r, drop_0. cbn [int_value length]. pose proof (pow256_pos (length xs)) as Hp. rewrite pow256_S, EB.
    destruct (Z.leb_spec 128 x); [|f_equal; nia]. rewrite <- (be_bytes_add (S (length xs)) _ 1), pow256_S. f_equal. nia.
  - rewrite Ep. cbn [drop int_value length]. rewrite drop_0. replace (S (length xs) - 1)%nat with (length xs) by lia. rewrite pow256_S, EB.
    destruct Hx0 as [-> | ->]; cbn [Z.leb Z.compare Pos.compare Pos.compare_cont].
    + f_equal. lia.
    + rewrite <- (be_bytes_add (length xs) _ 1). f_equal. lia.
Qed.

Lemma sign_bit x : is_byte x -> Z.land x 0x80 = (if 128 <=? x then 128 else 0) /\ truthy (Z.land x 0x80) = (128 <=? x).
Proof. intros Hx. rewrite land_128 by done. by destruct (128 <=? x). Qed.

(** The padding the code sees. *)
Lemma c2i_padding_run m p x y ys : bytes_at m p (x :: y :: ys) -> Forall is_byte (x :: y :: ys) ->
  (if x =? 0 then mret 1
   else if x =? 0xff then
     pad ← or_loop (Z.to_nat (Z.of_nat (length (x :: y :: ys)) - 1)) 1 p 0; mret (if truthy pad then 1 else 0)
   else mret 0) m = Ret (Z.of_nat (pad_of x (y :: ys)), m).
Proof.
  intros Hb Hy. unfold pad_of. destruct (Z.eqb_spec x 0); [done|]. destruct (Z.eqb_spec x 255); [|done]. cbn [andb].
  apply bytes_at_cons in Hb as [_ Hb]. apply Forall_cons in Hy as [_ Hy].
  destruct (or_loop_run p m (y :: ys) 1 0 (or_introl Hb) Hy ltac:(lia)) as (w & E & Hw & Hz).
  replace (Z.to_nat (Z.of_nat (length (x :: y :: ys)) - 1)) with (length (y :: ys)) by (cbn [length]; lia).
  rewrite (bind_ret _ _ _ _ _ E). unfold truthy. destruct (Z.eqb_spec w 0) as [->|Hne], (Z.eqb_spec (be (y :: ys)) 0); try done; exfalso; naive_solver.
Qed.

(** Without padding the octets are minimal; with padding the next bit decides. *)
Lemma minimal_pad x y ys : Forall is_byte (x :: y :: ys) ->
  pad_of x (y :: ys) = 0%nat /\ minimal (x :: y :: ys) = true \/
  pad_of x (y :: ys) = 1%nat /\ minimal (x :: y :: ys) = negb (Bool.eqb (128 <=? x) (128 <=? y)).
Proof.
  intros [Hx Hy]%Forall_cons. destruct (be_first y ys Hy) as (Hr & EB & Hy0). unfold is_byte in Hx. unfold pad_of. cbn [minimal].
  destruct (Z.eqb_spec x 0) as [->|]; [right; split; [done|]; destruct (Z.leb_spec 128 y), (Z.ltb_spec y 128); try lia; done|].
  destruct (Z.eqb_spec x 255) as [->|]; cbn [andb]; [|by left]. destruct (Z.eqb_spec (be (y :: ys)) 0) as [E0|E0]; cbn [negb]; [left|right]; (split; [done|]).
  - pose proof (pow256_pos (length ys)). assert (y = 0) as -> by nia. done.
  - by destruct (128 <=? y).
Qed.

(** Where the magnitude goes: nowhere, or to an object of its own. *)
Definition c2i_target (m : mem) (b p : ptr) (n : nat) : Prop :=
  b = NULL \/ exists d, in_block b d /\ ~ in_block p d /\ room m b (Z.of_nat n).

Lemma c2i_store m b p n pad xs : c2i_target m b p n -> (length xs <= n)%nat -> bytes_at m p xs -> Forall is_byte xs -> (pad = 0 \/ pad = 255) ->
  (if is_null b then mret tt else twos_complement b p (Z.of_nat (length xs)) pad) m =
  Ret (tt, if is_null b then m else mwrite m b (be_bytes (length xs) (if pad =? 0 then be xs else - be xs))).
Proof.
  intros [->|(d & Hd & Hp & Hr)] Hn Hb Hy Hpad; [done|]. destruct b as [| |d' o]; [done|done|]. cbn [is_null].
  apply (twos_complement_run _ _ _ d); try done; [by left|]. eapply room_le; [exact Hr|lia].
Qed.

Lemma c2i_ibuf_run m b p x xs : bytes_at m p (x :: xs) -> Forall is_byte (x :: xs) -> c2i_target m b p (length (magnitude_of x xs)) ->
  let sign := Some (if 128 <=? x then 128 else 0) in
  let mag := magnitude_of x xs in
  c2i_ibuf b p (Z.of_nat (S (length xs))) m =
  (if minimal (x :: xs) then Ret ((Z.of_nat (length mag), sign), if is_null b then m else mwrite m b mag)
   else Ret ((0, sign), m)).
Proof.
  intros Hb Hy Ht sign mag. fold mag in Ht. pose proof Hy as [Hx Hxs]%Forall_cons. destruct (sign_bit x Hx) as [E1 E2].
  assert (length mag = (S (length xs) - pad_of x xs)%nat) as Hl by apply length_be_bytes. pose proof (magnitude_octets x xs Hy) as Em. cbv zeta in Em.
  unfold c2i_ibuf. destruct (Z.eqb_spec (Z.of_nat (S (length xs))) 0); [lia|]. rewrite (bind_ret _ _ _ _ _ (load_at _ _ _ _ Hb)), E2, E1.
  destruct xs as [|y ys].
  - cbn [length Z.of_nat] in *. change (Z.of_nat 1 =? 1) with true. cbv iota. cbn [minimal].
    assert (mag = [to_uchar (if 128 <=? x then Z.lxor x 255 + 1 else x)]) as Emag.
    { unfold mag, magnitude_of, to_uchar. cbn. rewrite lxor_255 by done. unfold is_byte in Hx. destruct (Z.leb_spec 128 x); do 2 f_equal; lia. }
    rewrite Emag in Ht |- *. destruct Ht as [->|(d & Hd & Hp & Hr)]; [done|]. destruct b as [| |d' o]; [done|done|]. cbn [is_null].
    by rewrite (bind_ret _ _ _ _ _ (store_room _ _ _ Hr)).
  - destruct (Z.eqb_spec (Z.of_nat (S (length (y :: ys)))) 1); [cbn [length] in *; lia|].
    rewrite (bind_ret _ _ _ _ _ (c2i_padding_run m p x y ys Hb Hy)). pose proof Hb as [_ [Hb1 _]%bytes_at_cons]%bytes_at_cons.
    pose proof Hxs as [Hy0 _]%Forall_cons. destruct (sign_bit y Hy0) as [E3 _]. set (k := pad_of x (y :: ys)) in *.
    assert (k = 0%nat \/ k = 1%nat) as Hk by (unfold k, pad_of; repeat case_match; lia).
    assert (forall f : bool -> M mem (Z * option Z), mbind f (if truthy (Z.of_nat k) then p1 ← load (padd p 1); mret ((if 128 <=? x then 128 else 0) =? Z.land p1 128)
      else mret false) m = f (negb (minimal (x :: y :: ys))) m) as ->.
    { intros f. destruct (minimal_pad x y ys Hy) as [Hm|Hm]; fold k in Hm.
      - destruct Hm as [-> ->]. done.
      - destruct Hm as [-> ->]. change (truthy (Z.of_nat 1)) with true. cbv iota. rewrite bind_assoc, (bind_ret _ _ _ _ _ (load_at _ _ _ _ Hb1)), E3.
        rewrite mbind_mret, negb_involutive. f_equal. destruct (128 <=? x), (128 <=? y); done. }
    destruct (minimal (x :: y :: ys)) eqn:Emin; cbn [negb]; [|done].
    assert (bytes_at m (padd p (Z.of_nat k)) (drop k (x :: y :: ys))) as Hbk.
    { destruct Hk as [-> | ->]; [by rewrite padd_0|]. by apply bytes_at_cons in Hb as [_ ?]. }
    assert (Z.of_nat (S (length (y :: ys))) - Z.of_nat k = Z.of_nat (length (drop k (x :: y :: ys)))) as El by (rewrite length_drop; cbn [length]; lia).
    rewrite El. erewrite bind_ret.
    2: { apply (c2i_store m b _ (length mag)); [|rewrite length_drop, Hl; cbn [length]; lia|done|by apply Forall_drop|destruct (128 <=? x); lia].
         destruct Ht as [->|(d & Hd & Hp & Hr)]; [by left|]. right. exists d. split; [done|]. split; [by destruct p|done]. }
    replace (length (drop k (x :: y :: ys))) with (S (length (y :: ys)) - k)%nat by (by rewrite length_drop).
    unfold mag. rewrite <- Em. fold k. rewrite length_be_bytes. by destruct (128 <=? x).
Qed.

(** Without leading zeros the octets follow from the number. *)
Lemma canonical_unique a b : canonical a -> canonical b -> be a = be b -> a = b.
Proof.
  intros (Ha & Hna & Hca) (Hb & Hnb & Hcb) E.
  assert (forall l l', Forall is_byte l -> l <> [] -> be l = be l' -> l' <> [] -> (length l' = 1%nat \/ 256 ^ Z.of_nat (length l' - 1) <= be l') -> (length l' <= length l)%nat) as Hle.
  { intros l l' Hl Hn El Hn' [H1|H1]; [destruct l; [done|cbn [length]; lia]|]. pose proof (be_range l Hl) as Hr.
    destruct (le_lt_dec (length l') (length l)) as [|Hlt]; [done|].
    assert (256 ^ Z.of_nat (length l) <= 256 ^ Z.of_nat (length l' - 1)) by (apply Z.pow_le_mono_r; lia). lia. }
  assert (length a = length b) as Hl.
  { pose proof (Hle a b Ha Hna E Hnb Hcb). pose proof (Hle b a Hb Hnb ltac:(done) Hna Hca). lia. }
  rewrite <- (be_bytes_be a Ha), <- (be_bytes_be b Hb). by rewrite Hl, E.
Qed.

Lemma int_value_sign x xs : Forall is_byte (x :: xs) -> (int_value (x :: xs) < 0 <-> 128 <= x).
Proof.
  intros Hy. destruct (be_first x xs Hy) as (Hr & EB & Hx). pose proof (pow256_pos (length xs)). cbn [int_value length].
  rewrite pow256_S, EB. destruct (Z.leb_spec 128 x); nia.
Qed.

(** The decoder on the octets of a number. *)
Lemma c2i_ibuf_value m b p out bs v : bytes_at m p out -> Forall is_byte out -> minimal out = true -> int_value out = v ->
  canonical bs -> be bs = Z.abs v -> c2i_target m b p (length bs) ->
  c2i_ibuf b p (Z.of_nat (length out)) m =
    Ret ((Z.of_nat (length bs), Some (if v <? 0 then 128 else 0)), if is_null b then m else mwrite m b bs).
Proof.
  intros Hb Hy Hm Hv Hcan Hbe Ht. destruct out as [|x xs]; [done|]. cbn [length] in *.
  destruct (magnitude_canonical x xs Hy Hm) as [Hc Eb]. rewrite (canonical_unique bs (magnitude_of x xs) Hcan Hc) in Ht |- * by congruence.
  rewrite (c2i_ibuf_run m b p x xs Hb Hy Ht), Hm.
  pose proof (int_value_sign x xs Hy). by replace (v <? 0) with (128 <=? x) by lia.
Qed.

(** *** Integers of 64 bits *)

Lemma get_uint64_loop_run bs : forall r p m, bytes_at m p bs \/ bs = [] -> Forall is_byte bs -> 0 <= r -> (r + 1) * 256 ^ Z.of_nat (length bs) <= 256 ^ 8 ->
  get_uint64_loop (length bs) p r m = Ret (fold_left (fun acc b => acc * 256 + b) bs r, m).
Proof.
  induction bs as [|x bs IH]; intros r p m Hb Hy Hr Hmax; cbn [length get_uint64_loop fold_left]; [done|]. destruct Hb as [Hb|]; [|done].
  rewrite (bind_ret _ _ _ _ _ (load_at _ _ _ _ Hb)). apply bytes_at_cons in Hb as [_ Hb]. apply Forall_cons in Hy as [Hx Hy].
  cbn [length] in Hmax. rewrite pow256_S in Hmax. change (256 ^ 8) with 18446744073709551616 in *.
  pose proof (pow256_pos (length bs)) as Hp. unfold is_byte in Hx.
  assert (Z.lor (to_size (Z.shiftl r 8)) x = r * 256 + x) as ->.
  { rewrite Z.shiftl_mul_pow2 by lia. change (2 ^ 8) with 256. rewrite to_size_id by nia. apply (lor_low r x 8); lia. }
  apply IH; [by left|done|lia|]. change (256 ^ 8) with 18446744073709551616. nia.
Qed.

Lemma asn1_get_uint64_run m p bs : bytes_at m p bs -> Forall is_byte bs -> (length bs <= 8)%nat ->
  asn1_get_uint64 p (Z.of_nat (length bs)) m = Ret (Some (be bs), m).
Proof.
  intros Hb Hy Hl. unfold asn1_get_uint64. destruct (Z.ltb_spec 8 (Z.of_nat (length bs))); [lia|].
  destruct (is_null p) eqn:En; [by destruct p; destruct Hb|]. rewrite Nat2Z.id.
  rewrite (bind_ret _ _ _ _ _ (get_uint64_loop_run bs 0 p m (or_introl Hb) Hy ltac:(lia) ltac:(rewrite Z.mul_1_l; apply Z.pow_le_mono_r; lia))). done.
Qed.

Lemma put_uint64_loop_run f : forall r m b, (0 < f)%nat -> 0 <= r < 256 ^ Z.of_nat f -> room m b (Z.of_nat f) ->
  exists k, (0 < k <= f)%nat /\ r < 256 ^ Z.of_nat k /\ (k = 1%nat \/ 256 ^ Z.of_nat (k - 1) <= r) /\
    put_uint64_loop f b (Z.of_nat f) r m = Ret (Z.of_nat (f - k), mwrite m (padd b (Z.of_nat (f - k))) (be_bytes k r)).
Proof.
  induction f as [|f IH]; intros r m b Hf Hr Hroom; [lia|]. cbn [put_uint64_loop]. replace (Z.of_nat (S f) - 1) with (Z.of_nat f) by lia.
  assert (room m (padd b (Z.of_nat f)) 1) as Hr1.
  { apply (room_padd _ _ _ (Z.of_nat f)) in Hroom; [|lia]. eapply room_le; [done|lia]. }
  rewrite (bind_ret _ _ _ _ _ (store_room _ _ _ Hr1)). rewrite Z.shiftr_div_pow2 by lia. change (2 ^ 8) with 256. unfold truthy.
  destruct (Z.eqb_spec (r / 256) 0) as [E|E]; cbn [negb].
  - exists 1%nat. split; [lia|]. change (256 ^ Z.of_nat 1) with 256. split; [Z.div_mod_to_equations; lia|]. split; [by left|].
    replace (S f - 1)%nat with f by lia. done.
  - rewrite pow256_S in Hr. assert (0 < r / 256) as Hpos by (pose proof (Z.div_pos r 256); lia).
    destruct f as [|f]. { change (256 ^ Z.of_nat 0) with 1 in Hr. Z.div_mod_to_equations. lia. }
    destruct (IH (r / 256) (mwrite m (padd b (Z.of_nat (S f))) [to_uchar r]) b) as (k & Hk & Hlt & Hge & ->); [lia|split; [lia|]; apply Z.div_lt_upper_bound; lia| |].
    { apply room_mwrite; [done|lia|]. eapply room_le; [exact Hroom|lia]. }
    exists (S k). split; [lia|]. rewrite pow256_S. pose proof (Z.mul_succ_div_gt r 256 ltac:(lia)). pose proof (Z.mul_div_le r 256 ltac:(lia)). split; [lia|]. split.
    { right. replace (S k - 1)%nat with k by lia. destruct Hge as [-> | Hge]; [change (256 ^ Z.of_nat 1) with 256; lia|].
      destruct k as [|k]; [lia|]. replace (S k - 1)%nat with k in Hge by lia. rewrite pow256_S. lia. }
    replace (S (S f) - S k)%nat with (S f - k)%nat by lia. do 2 f_equal. cbn [be_bytes]. unfold to_uchar.
    pose proof (mwrite_before m (padd b (Z.of_nat (S f - k))) (be_bytes k (r / 256)) [r mod 256]) as Ew. rewrite length_be_bytes, padd_padd in Ew.
    replace (Z.of_nat (S f - k) + Z.of_nat k) with (Z.of_nat (S f)) in Ew by lia. apply Ew. cbn [length].
    apply (room_padd _ _ _ (Z.of_nat (S f - k))) in Hroom; [|lia]. eapply room_le; [exact Hroom|lia].
Qed.

(** The octets of [r] without leading zeros, at the end of the array. *)
Lemma asn1_put_uint64_run m b r : 0 <= r < 2 ^ 64 -> room m b 8 ->
  exists mag, canonical mag /\ be mag = r /\ (length mag <= 8)%nat /\ let off := 8 - Z.of_nat (length mag) in
    asn1_put_uint64 b r m = Ret (off, mwrite m (padd b off) mag) /\ room m (padd b off) (Z.of_nat (length mag)).
Proof.
  intros Hr Hroom. destruct (put_uint64_loop_run 8 r m b ltac:(lia) Hr Hroom) as (k & Hk & Hlt & Hge & E). exists (be_bytes k r).
  pose proof (be_be_bytes k r) as Eb. rewrite Z.mod_small in Eb by lia. unfold canonical. rewrite length_be_bytes, Eb. split.
  { split; [apply be_bytes_octets|]. split; [|done]. destruct k; [lia|]. by rewrite be_bytes_S. }
  split; [done|]. split; [lia|]. cbv zeta. unfold asn1_put_uint64. replace (8 - Z.of_nat k) with (Z.of_nat (8 - k)) by lia. split; [exact E|].
  apply (room_padd _ _ _ (Z.of_nat (8 - k))) in Hroom; [|lia]. eapply room_le; [exact Hroom|lia].
Qed.

(** The reader of 64-bit integers on minimal octets of a number that fits. *)
Lemma c2i_uint64_run m buf e p out mag v : bytes_at m p out -> Forall is_byte out -> minimal out = true -> int_value out = v ->
  canonical mag -> be mag = Z.abs v -> (length mag <= 8)%nat -> Z.of_nat (length out) < 2 ^ 63 ->
  in_block buf e -> ~ in_block p e -> room m buf (Z.of_nat (length mag)) ->
  ossl_c2i_uint64_int buf p (Z.of_nat (length out)) m = Ret (Some (Z.abs v, if v <? 0 then 128 else 0), mwrite m buf mag).
Proof.
  intros Ho Hy Hm Hv Hcan Eabs Hl Hlo He Hp Hr. unfold ossl_c2i_uint64_int. rewrite to_size_id by lia.
  rewrite (bind_ret _ _ _ _ _ (c2i_ibuf_value m NULL p out mag v Ho Hy Hm Hv Hcan Eabs (or_introl eq_refl))). pose proof Hcan as (Hym & Hne & _).
  assert (0 < Z.of_nat (length mag)) by (destruct mag; [done|cbn [length]; lia]).
  destruct (Z.eqb_spec (Z.of_nat (length mag)) 0); [lia|]. destruct (Z.ltb_spec 8 (Z.of_nat (length mag))); [lia|].
  assert (c2i_target m buf p (length mag)) as Ht by (right; exists e; done).
  rewrite (bind_ret _ _ _ _ _ (c2i_ibuf_value m buf p out mag v Ho Hy Hm Hv Hcan Eabs Ht)).
  destruct (is_null buf) eqn:En; [by destruct buf|]. erewrite bind_ret; [|apply asn1_get_uint64_run; [by apply bytes_at_mwrite_eq|done|lia]].
  cbn. by rewrite Eabs.
Qed.

(** The sign and the 64 bits that ossl_i2c_uint64_int encodes are those that
    ossl_c2i_uint64_int gives back: at most nine octets, of which the first may
    be padding. *)
Lemma uint64_int_roundtrip m buf bb buf' e d o r neg : in_block buf bb -> bb <> d -> room m buf 8 -> in_block buf' e -> d <> e -> room m buf' 8 ->
  room m (Ptr d o) 9 -> 0 <= r < 2 ^ 64 -> (truthy neg = true -> r <> 0) ->
  exists n m' m'', ossl_i2c_uint64_int buf (Ptr d o) r neg m = Ret (n, m') /\ 1 <= n <= 9 /\
    ossl_c2i_uint64_int buf' (Ptr d o) n m' = Ret (Some (r, if truthy neg then 128 else 0), m'').
Proof.
  intros Hbb Hbd Hr8 He Hde Hre Hr9 Hr Hneg. destruct (asn1_put_uint64_run m buf r Hr Hr8) as (mag & Hcan & Hbe & Hl & E & Hr').
  set (off := 8 - Z.of_nat (length mag)) in *. set (m1 := mwrite m (padd buf off) mag) in *. pose proof Hcan as (Hym & Hne & _).
  assert (forall q n, 0 <= n -> room m q n -> room m1 q n) as Hk by (intros; by apply room_mwrite).
  destruct (i2c_ibuf_run m1 (padd buf off) mag neg d o) as (out & E2 & Hlo & Hy & Hm & Hv); [by apply bytes_at_mwrite_eq|done|lia| | |].
  { destruct buf as [| |b' o']; cbn [in_block padd] in *; congruence. }
  { apply Hk; [lia|]. eapply room_le; [exact Hr9|lia]. }
  assert (room m1 (Ptr d o) (Z.of_nat (length out))) as Hro by (apply Hk; [lia|]; eapply room_le; [exact Hr9|lia]).
  set (m2 := mwrite m1 (Ptr d o) out) in *. assert (bytes_at m2 (Ptr d o) out) as Ho by by apply bytes_at_mwrite_eq.
  assert (0 < Z.of_nat (length out)) as Hpos by (destruct out; [done|cbn [length]; lia]).
  assert (room m2 buf' (Z.of_nat (length mag))) as Hrb by (apply room_mwrite; [done|lia|]; apply Hk; [lia|]; eapply room_le; [exact Hre|lia]).
  exists (Z.of_nat (length out)), m2, (mwrite m2 buf' mag). split; [|split; [lia|]].
  { unfold ossl_i2c_uint64_int. rewrite (bind_ret _ _ _ _ _ E). replace (8 - off) with (Z.of_nat (length mag)) by lia.
    rewrite (bind_ret _ _ _ _ _ E2). unfold mret, M_ret. do 2 f_equal. unfold to_int. rewrite Z.mod_small by lia. lia. }
  assert (be mag = Z.abs (signed neg mag)) as Eabs by (unfold signed; destruct (truthy neg); lia).
  rewrite (c2i_uint64_run m2 buf' e (Ptr d o) out mag _ Ho Hy Hm Hv Hcan Eabs Hl ltac:(lia) He Hde Hrb).
  unfold signed. rewrite Hbe. destruct (truthy neg); [specialize (Hneg eq_refl); destruct (Z.ltb_spec (- r) 0)|destruct (Z.ltb_spec r 0)]; try lia; do 4 f_equal; lia.
Qed.

(** ** Properties *)

(** C36: the contents octets that the encoder writes for a sign and a magnitude
    without leading zeros, of any length, are the minimal two's complement
    octets of the number; the decoder, run on them, gives the same sign and
    stores the same magnitude. *)
Theorem INTEGER_content_roundtrip m b bs neg d o e u :
  bytes_at m b bs -> canonical bs -> Z.of_nat (length bs) < 2 ^ 63 -> (truthy neg = true -> be bs <> 0) ->
  ~ in_block b d -> d <> e -> room m (Ptr d o) (Z.of_nat (S (length bs))) -> room m (Ptr e u) (Z.of_nat (length bs)) ->
  exists out m', i2c_ibuf b (Z.of_nat (length bs)) neg (Ptr d o) m = Ret ((Z.of_nat (length out), Ptr d (o + Z.of_nat (length out))), m') /\
    bytes_at m' (Ptr d o) out /\ minimal out = true /\ int_value out = signed neg bs /\
    c2i_ibuf (Ptr e u) (Ptr d o) (Z.of_nat (length out)) m' =
      Ret ((Z.of_nat (length bs), Some (if truthy neg then 128 else 0)), mwrite m' (Ptr e u) bs).
Proof.
  intros Hb Hcan Hmax Hneg Hd Hde Hr Hre. destruct (i2c_ibuf_run m b bs neg d o Hb Hcan Hmax Hd Hr) as (out & E & Hlen & Hy & Hm & Hv).
  assert (room m (Ptr d o) (Z.of_nat (length out))) as Hro by (eapply room_le; [exact Hr|lia]).
  assert (bytes_at (mwrite m (Ptr d o) out) (Ptr d o) out) as Ho by by apply bytes_at_mwrite_eq.
  exists out, (mwrite m (Ptr d o) out). do 4 (split; [done|]). pose proof Hcan as (Hyb & _). pose proof (be_range bs Hyb) as Hbr.
  rewrite (c2i_ibuf_value _ (Ptr e u) _ out bs (signed neg bs) Ho Hy Hm Hv Hcan).
  - cbn [is_null]. unfold signed. destruct (truthy neg); [|by destruct (Z.ltb_spec (be bs) 0); [lia|]].
    specialize (Hneg eq_refl). by destruct (Z.ltb_spec (- be bs) 0); [|lia].
  - unfold signed. destruct (truthy neg); lia.
  - right. exists e. split; [done|]. split; [done|]. apply room_mwrite; [done|lia|done].
Qed.

Lemma INTEGER_content_roundtrip_witness :
  let m : mem := {[ 1%positive := [0x80; 0x01] ]} ∪ {[ 2%positive := replicate 4 0 ]} ∪ {[ 3%positive := replicate 2 0 ]} in
  exists out m', i2c_ibuf (Ptr 1 0) 2 1 (Ptr 2 0) m = Ret ((Z.of_nat (length out), Ptr 2 (Z.of_nat (length out))), m') /\
    minimal out = true /\ int_value out = -32769 /\ c2i_ibuf (Ptr 3 0) (Ptr 2 0) (Z.of_nat (length out)) m' = Ret ((2, Some 128), mwrite m' (Ptr 3 0) [0x80; 0x01]).
Proof.
  intros m. destruct (INTEGER_content_roundtrip m (Ptr 1 0) [0x80; 0x01] 1 2 0 3 0) as (out & m' & E & _ & Hm & Hv & E').
  - exists []. reflexivity.
  - split; [repeat constructor; unfold is_byte; lia|]. split; [discriminate|]. right. vm_compute. discriminate.
  - vm_compute. reflexivity.
  - vm_compute. discriminate.
  - cbn. discriminate.
  - discriminate.
  - exists (replicate 4 0). split; [reflexivity|]. vm_compute. discriminate.
  - exists (replicate 2 0). split; [reflexivity|]. vm_compute. discriminate.
  - exists out, m'. split; [exact E|]. split; [exact Hm|]. split; [exact Hv|exact E'].
Defined.

(** The decoder of contents octets accepts exactly the minimal two's
    complement numbers.  For them it gives the sign and stores the octets of the
    absolute value without leading zeros; for any other input it returns 0 and
    writes nothing. *)
Theorem c2i_ibuf_exact m b p out : bytes_at m p out -> Forall is_byte out -> c2i_target m b p (length out) ->
  exists neg, if minimal out
    then exists mag, canonical mag /\ be mag = Z.abs (int_value out) /\ neg = Some (if int_value out <? 0 then 128 else 0) /\
      c2i_ibuf b p (Z.of_nat (length out)) m = Ret ((Z.of_nat (length mag), neg), if is_null b then m else mwrite m b mag)
    else c2i_ibuf b p (Z.of_nat (length out)) m = Ret ((0, neg), m).
Proof.
  intros Hb Hy Ht. destruct out as [|x xs]; [by exists None|].
  assert (c2i_target m b p (length (magnitude_of x xs))) as Ht'.
  { destruct Ht as [->|(d & Hd & Hp & Hr)]; [by left|]. right. exists d. do 2 (split; [done|]). eapply room_le; [exact Hr|].
    unfold magnitude_of. rewrite length_be_bytes. cbn [length]. lia. }
  pose proof (c2i_ibuf_run m b p x xs Hb Hy Ht') as E. exists (Some (if 128 <=? x then 128 else 0)).
  destruct (minimal (x :: xs)) eqn:Em; [|exact E]. destruct (magnitude_canonical x xs Hy Em) as [Hc Hbe].
  exists (magnitude_of x xs). do 2 (split; [done|]). split; [|exact E]. pose proof (int_value_sign x xs Hy).
  by replace (int_value (x :: xs) <? 0) with (128 <=? x) by lia.
Qed.

Lemma c2i_ibuf_exact_witness :
  exists neg, c2i_ibuf NULL (Ptr 1 0) 2 {[ 1%positive := [0xff; 0x80] ]} = Ret ((0, neg), {[ 1%positive := [0xff; 0x80] ]}).
Proof.
  destruct (c2i_ibuf_exact {[ 1%positive := [0xff; 0x80] ]} NULL (Ptr 1 0) [0xff; 0x80]) as (neg & E).
  - exists []. reflexivity.
  - repeat constructor; unfold is_byte; lia.
  - left. reflexivity.
  - exists neg. exact E.
Defined.

(** Octets of a string that was set to them. *)
Lemma set_to_bytes {AL : Allocator} m m' s s' bs : set_to m m' s s' bs true -> as_length s' = Z.of_nat (length bs) /\ bytes_at m' (as_data s') bs.
Proof.
  intros (Hl & _ & _ & _ & b & rest & -> & Hb & _). split; [done|]. exists (0 :: rest). apply tail_at_Some. eexists. split; [exact Hb|].
  rewrite length_app, drop_0. split; [lia|done].
Qed.

Lemma string_at_mwrite m a c p bs : string_at m a c -> ~ (exists b, in_block (as_data a) b /\ in_block p b) -> string_at (mwrite m p bs) a c.
Proof.
  intros (Hl & Hm & [Hn|(b & rest & Hd & Hb)]) Hne; (split; [done|split; [done|]]); [by left|]. right. exists b, rest. split; [done|].
  destruct p as [| |b' o]; [done|done|]. rewrite lookup_mwrite_ne; [done|]. intros ->. apply Hne. exists b'. by rewrite Hd.
Qed.

Lemma in_block_padd_iff p i b : in_block (padd p i) b <-> in_block p b.
Proof. by destruct p. Qed.

Section strings.
Context {AL : Allocator} {ALL : AllocatorLaws}.

(** Putting the 64 bits of [r] into a string. *)
Lemma string_put_uint64 m tbuf a c r : string_at m a c -> room m tbuf 8 -> ~ (exists b, in_block (as_data a) b /\ in_block tbuf b) -> 0 <= r < 2 ^ 64 ->
  exists ok a' m' mag, (off ← asn1_put_uint64 tbuf r; ASN1_STRING_set a (padd tbuf off) (8 - off)) m = Ret ((ok, a'), m') /\
    as_type a' = as_type a /\ be mag = r /\
    if ok : bool then as_length a' = Z.of_nat (length mag) /\ (length mag <= 8)%nat /\ Forall is_byte mag /\ bytes_at m' (as_data a') mag
    else exists m1 n, 1 <= n <= 9 /\ alloc_ok m1 n = false.
Proof using ALL.
  intros Hs Hroom Hne Hr. destruct (asn1_put_uint64_run m tbuf r Hr Hroom) as (mag & (Hy & Hn & _) & Hbe & Hl & E & Hr').
  rewrite (bind_ret _ _ _ _ _ E). set (off := 8 - Z.of_nat (length mag)) in *.
  assert (~ (exists b, in_block (as_data a) b /\ in_block (padd tbuf off) b)) as Hne' by by setoid_rewrite in_block_padd_iff.
  destruct (ASN1_STRING_set_run (mwrite m (padd tbuf off) mag) a c (padd tbuf off) mag) as (ok & a' & m' & E' & Hok).
  - by apply string_at_mwrite.
  - by apply bytes_at_mwrite_eq.
  - unfold INT_MAX. lia.
  - done.
  - replace (8 - off) with (Z.of_nat (length mag)) by lia. exists ok, a', m', mag. split; [done|]. destruct ok.
    + pose proof (set_to_bytes _ _ _ _ _ Hok) as [? ?]. destruct Hok as (_ & Ht & _). by repeat (split; [done|]).
    + destruct Hok as (-> & -> & Hf). do 2 (split; [done|]). eexists _, (Z.of_nat (length mag) + 1). split; [lia|exact Hf].
Qed.
End strings.

(** The octets of a magnitude and a sign, read as a signed integer. *)
Lemma asn1_get_int64_run m p bs neg r : bytes_at m p bs -> Forall is_byte bs -> (length bs <= 8)%nat -> INT64_MIN <= r <= INT64_MAX ->
  signed neg bs = r -> asn1_get_int64 p (Z.of_nat (length bs)) neg m = Ret (Some r, m).
Proof.
  intros Hb Hy Hl Hr Hs. unfold asn1_get_int64. rewrite (bind_ret _ _ _ _ _ (asn1_get_uint64_run m p bs Hb Hy Hl)).
  pose proof (be_range bs Hy). unfold signed in Hs. unfold ABS_INT64_MIN, INT64_MIN, INT64_MAX in *. destruct (truthy neg).
  - destruct (Z.leb_spec (be bs) 9223372036854775807); [by rewrite Hs|]. assert (be bs = 9223372036854775808) as Eb by lia. rewrite Eb in *. subst r. vm_compute. reflexivity.
  - destruct (Z.leb_spec (be bs) 9223372036854775807); [by subst r|lia].
Qed.

(** An ASN1_INTEGER that is set to an integer of 64 bits, the least one
    included, gives the same integer back; the call fails only when the
    allocator refuses the octets. *)
Theorem ASN1_INTEGER_int64_roundtrip {AL : Allocator} {ALL : AllocatorLaws} m tbuf a c r : string_at m a c -> room m tbuf 8 ->
  ~ (exists b, in_block (as_data a) b /\ in_block tbuf b) -> INT64_MIN <= r <= INT64_MAX ->
  exists ok a' m', ASN1_INTEGER_set_int64 tbuf a r m = Ret ((ok, a'), m') /\
    if ok : bool then ASN1_INTEGER_get_int64 (Some a') m' = Ret (Some r, m') /\ ASN1_INTEGER_get (Some a') m' = Ret (r, m')
    else exists m1 n, 1 <= n <= 9 /\ alloc_ok m1 n = false.
Proof.
  intros Hs Hroom Hne Hr. set (t := if r <? 0 then Z.lor V_ASN1_INTEGER V_ASN1_NEG else Z.land V_ASN1_INTEGER (Z.lnot V_ASN1_NEG)).
  destruct (string_put_uint64 m tbuf (with_type t a) c (Z.abs r)) as (ok & a' & m' & mag & E & Ht & Hbe & Hok); [done|done|done|unfold INT64_MIN, INT64_MAX in Hr; lia|].
  exists ok, a', m'. split.
  { rewrite <- E. unfold ASN1_INTEGER_set_int64, asn1_string_set_int64, t. destruct (Z.ltb_spec r 0).
    - replace (to_size (0 - to_size r)) with (Z.abs r); [done|]. unfold to_size, INT64_MIN in *. Z.div_mod_to_equations. lia.
    - by rewrite Z.abs_eq by lia. }
  destruct ok; [|done]. destruct Hok as (Hl & Hl8 & Hy & Hb).
  assert (ASN1_INTEGER_get_int64 (Some a') m' = Ret (Some r, m')) as Eg.
  { unfold ASN1_INTEGER_get_int64, asn1_string_get_int64. rewrite Ht. cbn [as_type with_type].
    assert (Z.land t (Z.lnot V_ASN1_NEG) =? V_ASN1_INTEGER = true) as -> by (unfold t; by destruct (r <? 0)). cbn [negb].
    rewrite Hl, to_size_id by lia. apply asn1_get_int64_run; try done. unfold signed, t. rewrite Hbe. destruct (Z.ltb_spec r 0); [change (- Z.abs r = r)|change (Z.abs r = r)]; lia. }
  split; [done|]. unfold ASN1_INTEGER_get. by rewrite (bind_ret _ _ _ _ _ Eg).
Qed.

Lemma ASN1_INTEGER_int64_roundtrip_witness :
  exists ok a' m', ASN1_INTEGER_set_int64 (Ptr 1 0) (mkSTRING 0 4 NULL 0) INT64_MIN {[ 1%positive := replicate 8 0 ]} = Ret ((ok, a'), m') /\
    (ok = true -> ASN1_INTEGER_get_int64 (Some a') m' = Ret (Some INT64_MIN, m')).
Proof.
  destruct (ASN1_INTEGER_int64_roundtrip {[ 1%positive := replicate 8 0 ]} (Ptr 1 0) (mkSTRING 0 4 NULL 0) [] INT64_MIN) as (ok & a' & m' & E & H).
  - split; [reflexivity|]. split; [vm_compute; reflexivity|]. left. split; reflexivity.
  - exists (replicate 8 0). split; [reflexivity|]. vm_compute. discriminate.
  - intros (b & H & _). exact H.
  - unfold INT64_MIN, INT64_MAX. lia.
  - exists ok, a', m'. split; [exact E|]. intros ->. destruct H as [H _]. exact H.
Defined.
