(* ===== verification/OTime.v ===== *)
(** * Calendar arithmetic

    crypto/o_time.c of the vendored OpenSSL: a broken-down time plus an offset,
    and the difference of two, by way of Julian day numbers; the validity of
    certificates is computed with them.  [int] and [long] have 32 and 64 bits;
    an [int] operation that does not fit is undefined.  gmtime_r of the C library
    is a parameter.

    The theorems: date_to_julian numbers the days of the Gregorian calendar one
    after the other; julian_to_date is its inverse; OPENSSL_gmtime_adj gives the
    time whose count of seconds is the sum, or refuses it when its year is
    not in 1900..9999; adding the difference of two times to the first gives the
    second. *)

From S2P Require Import Prelude.

(** ** Definitions *)

Record tm := mkTm {
  tm_sec : Z;
  tm_min : Z;
  tm_hour : Z;
  tm_mday : Z;
  tm_mon : Z;
  tm_year : Z;
  tm_wday : Z;
  tm_yday : Z;
  tm_isdst : Z
}.

(** The broken-down time, [result] unless the C library has one. *)
Definition OPENSSL_gmtime (gmtime_r : Z -> option tm) (timer : Z) (result : tm) : option tm * tm :=
  match gmtime_r timer with
  | None => (None, result)
  | Some ts => (Some ts, ts)
  end.

Definition SECS_PER_DAY : Z := 24 * 60 * 60.

(** Division truncates. *)
Definition date_to_julian {S} (y m d : Z) : M S Z :=
  m14 ← int_result (m - 14);
  let q := Z.quot m14 12 in
  y1 ← int_result (y + 4800);
  y1 ← int_result (y1 + q);
  a ← int_result (1461 * y1);
  m2 ← int_result (m - 2);
  m2 ← int_result (m2 - 12 * q);
  b ← int_result (367 * m2);
  y2 ← int_result (y + 4900);
  y2 ← int_result (y2 + q);
  s ← int_result (Z.quot a 4 + Z.quot b 12);
  s ← int_result (s - Z.quot (3 * Z.quot y2 100) 4);
  s ← int_result (s + d);
  int_result (s - 32075).

(** The year, the month and the day are converted to [int]. *)
Definition julian_to_date (jd : Z) : Z * Z * Z :=
  let L := jd + 68569 in
  let n := Z.quot (4 * L) 146097 in
  let L := L - Z.quot (146097 * n + 3) 4 in
  let i := Z.quot (4000 * (L + 1)) 1461001 in
  let L := L - Z.quot (1461 * i) 4 + 31 in
  let j := Z.quot (80 * L) 2447 in
  let d := L - Z.quot (2447 * j) 80 in
  let L := Z.quot j 11 in
  let m := j + 2 - 12 * L in
  let y := 100 * (n - 49) + i + L in
  (to_int y, to_int m, to_int d).

(** The Julian day and the seconds, [None] for the return value 0. *)
Definition julian_adj {S} (t : tm) (off_day offset_sec : Z) : M S (option (Z * Z)) :=
  let offset_day := Z.quot offset_sec SECS_PER_DAY in
  let offset_hms := to_int (offset_sec - offset_day * SECS_PER_DAY) in
  let offset_day := offset_day + off_day in
  h ← int_result (tm_hour t * 3600);
  mi ← int_result (tm_min t * 60);
  hms ← int_result (h + mi);
  hms ← int_result (hms + tm_sec t);
  offset_hms ← int_result (offset_hms + hms);
  let '(offset_day, offset_hms) :=
    if SECS_PER_DAY <=? offset_hms then (offset_day + 1, offset_hms - SECS_PER_DAY)
    else if offset_hms <? 0 then (offset_day - 1, offset_hms + SECS_PER_DAY)
    else (offset_day, offset_hms) in
  time_year ← int_result (tm_year t + 1900);
  time_month ← int_result (tm_mon t + 1);
  time_jd ← date_to_julian time_year time_month (tm_mday t);
  let time_jd := time_jd + offset_day in
  if time_jd <? 0 then mret None else mret (Some (time_jd, offset_hms)).

(** The return value and [*tm]. *)
Definition OPENSSL_gmtime_adj {S} (t : tm) (off_day offset_sec : Z) : M S (Z * tm) :=
  r ← julian_adj t off_day offset_sec;
  match r with
  | None => mret (0, t)
  | Some (time_jd, time_sec) =>
      let '(time_year, time_month, time_day) := julian_to_date time_jd in
      if (time_year <? 1900) || (9999 <? time_year) then mret (0, t)
      else mret (1, mkTm (Z.rem time_sec 60) (Z.rem (Z.quot time_sec 60) 60) (Z.quot time_sec 3600)
                         time_day (time_month - 1) (time_year - 1900) (tm_wday t) (tm_yday t) (tm_isdst t))
  end.

(** [*pday] and [*psec], [None] for the return value 0. *)
Definition OPENSSL_gmtime_diff {S} (from to : tm) : M S (option (Z * Z)) :=
  r ← julian_adj from 0 0;
  match r with
  | None => mret None
  | Some (from_jd, from_sec) =>
      r ← julian_adj to 0 0;
      match r with
      | None => mret None
      | Some (to_jd, to_sec) =>
          let diff_day := to_jd - from_jd in
          let diff_sec := to_sec - from_sec in
          let '(diff_day, diff_sec) :=
            if (0 <? diff_day) && (diff_sec <? 0) then (diff_day - 1, diff_sec + SECS_PER_DAY) else (diff_day, diff_sec) in
          let '(diff_day, diff_sec) :=
            if (diff_day <? 0) && (0 <? diff_sec) then (diff_day + 1, diff_sec - SECS_PER_DAY) else (diff_day, diff_sec) in
          mret (Some (to_int diff_day, diff_sec))
      end
  end.

(** ** Specification: the Gregorian calendar *)

Definition leap (y : Z) : bool := (y mod 4 =? 0) && (negb (y mod 100 =? 0) || (y mod 400 =? 0)).

Definition month_length (y m : Z) : Z :=
  if m =? 2 then (if leap y then 29 else 28)
  else if (m =? 4) || (m =? 6) || (m =? 9) || (m =? 11) then 30
  else 31.

Definition valid_date (y m d : Z) : Prop := 1 <= m <= 12 /\ 1 <= d <= month_length y m.

Definition next_day (x : Z * Z * Z) : Z * Z * Z :=
  let '(y, m, d) := x in
  if d <? month_length y m then (y, m, d + 1)
  else if m <? 12 then (y, m + 1, 1)
  else (y + 1, 1, 1).

(** Years for which the arithmetic of date_to_julian fits an [int]. *)
Definition year_ok (y : Z) : Prop := -4799 <= y <= 1460000.

(** The Julian day as a plain number. *)
Definition julian (y m d : Z) : Z :=
  let q := if m <=? 2 then -1 else 0 in
  let Y := y + 4800 + q in
  let M := m - 2 - 12 * q in
  1461 * Y / 4 - 3 * (Y / 100 + 1) / 4 + 367 * M / 12 + d - 32075.

(** ** Lemmas *)

Lemma month_length_range y m : 28 <= month_length y m <= 31.
Proof. unfold month_length. repeat case_match; lia. Qed.

(** The months have between 28 and 31 days; twelve cases. *)
Lemma month_cases (m : Z) (P : Z -> Prop) : 1 <= m <= 12 ->
  P 1 -> P 2 -> P 3 -> P 4 -> P 5 -> P 6 -> P 7 -> P 8 -> P 9 -> P 10 -> P 11 -> P 12 -> P m.
Proof.
  intros Hm. assert (m = 1 \/ m = 2 \/ m = 3 \/ m = 4 \/ m = 5 \/ m = 6 \/ m = 7 \/ m = 8 \/ m = 9 \/ m = 10 \/ m = 11 \/ m = 12) as H by lia.
  intros. destruct_or! H; by subst.
Qed.

(** The head of the sequence is an [int] operation that fits. *)
Ltac int_ok := erewrite bind_ret; [|apply int_result_ok; unfold INT_MIN, INT_MAX; lia]; cbv beta.

Lemma date_to_julian_run {S} y m d (s : S) : year_ok y -> valid_date y m d -> date_to_julian y m d s = Ret (julian y m d, s).
Proof.
  intros Hy [Hm Hd]. unfold year_ok in Hy. pose proof (month_length_range y m) as Hl.
  assert (Z.quot (m - 14) 12 = if m <=? 2 then -1 else 0) as Eq by by apply (month_cases m (fun m => Z.quot (m - 14) 12 = if m <=? 2 then -1 else 0)).
  unfold julian. set (q := if m <=? 2 then -1 else 0) in *. assert (-1 <= q <= 0) as Hq by (unfold q; destruct (m <=? 2); lia).
  assert (1 <= m - 2 - 12 * q <= 12) as HM by (unfold q; destruct (Z.leb_spec m 2); lia).
  assert (y + 4900 + q = y + 4800 + q + 1 * 100) as E4 by lia.
  unfold date_to_julian. int_ok. rewrite Eq. cbv zeta.
  do 8 int_ok.
  rewrite E4. set (Y := y + 4800 + q) in *. set (M := m - 2 - 12 * q) in *. assert (0 <= Y <= 1464800) as HY by lia. clearbody Y M.
  rewrite (Z.quot_div_nonneg (1461 * Y)), (Z.quot_div_nonneg (367 * M)), (Z.quot_div_nonneg (Y + 1 * 100)), Z.div_add by lia.
  assert (0 <= Y / 100 <= 14648) as HC by (Z.div_mod_to_equations; lia). rewrite (Z.quot_div_nonneg (3 * (Y / 100 + 1))) by lia.
  assert (0 <= 1461 * Y / 4 <= 535018200) as H1 by (Z.div_mod_to_equations; lia).
  assert (0 <= 367 * M / 12 <= 367) as H2 by (Z.div_mod_to_equations; lia).
  assert (0 <= 3 * (Y / 100 + 1) / 4 <= 10987) as H3 by (Z.div_mod_to_equations; lia).
  do 3 int_ok.
  rewrite int_result_ok by (unfold INT_MIN, INT_MAX; lia). do 2 f_equal. lia.
Qed.

(** *** From the number to the date

    Counted from 1 March, a date is a century, a year of it, a month and a day. *)

Definition march_day (C R M d : Z) : Prop :=
  0 <= R < 100 /\ 1 <= M <= 12 /\ 1 <= d <= 31 /\ (M = 2 \/ M = 4 \/ M = 7 \/ M = 9 -> d <= 30) /\
  (M = 12 -> d <= 29 /\ (d = 29 -> R mod 4 = 3 /\ (R = 99 -> C mod 4 = 3))).

(** The day of the century. *)
Definition century_day (R M d : Z) : Z := 1461 * R / 4 + 367 * M / 12 + d - 31.

(** The days before a month of the year that begins in March. *)
Lemma month_days C R M d : march_day C R M d -> let u := 367 * M / 12 + d - 31 in
  0 <= u <= 365 /\ (u = 365 -> R mod 4 = 3 /\ (R = 99 -> C mod 4 = 3)) /\ 80 * (u + 31) / 2447 = M /\ 2447 * M / 80 = 367 * M / 12.
Proof.
  intros (HR & HM & Hd & H30 & Hfeb) u. unfold u. clear u. revert Hd H30 Hfeb. pattern M. apply (month_cases M); [done|..].
  all: intros; match goal with |- context [?a / 12] => let v := eval compute in (a / 12) in change (a / 12) with v end.
  all: split; [lia|]; split; [intros Hu; apply Hfeb; lia || (exfalso; lia)|]; split; [|reflexivity].
  all: Z.div_mod_to_equations; lia.
Qed.

(** The century, the day of it, the year and the month, as the code finds them. *)
Lemma century_found C t : 0 <= C -> 0 <= t <= 36524 -> (t = 36524 -> C mod 4 = 3) -> let L := 146097 * C / 4 + 36525 + t in
  4 * L / 146097 = C + 1 /\ (146097 * (C + 1) + 3) / 4 = L - t.
Proof.
  intros HC Ht H L. unfold L. replace ((146097 * (C + 1) + 3) / 4) with (146097 * C / 4 + 36525) by (rewrite <- Z.div_add by lia; f_equal; lia).
  split; [|lia]. symmetry. apply Z.div_unique with (r := 4 * (146097 * C / 4 + 36525 + t) - 146097 * (C + 1)); [|lia]. left.
  Z.div_mod_to_equations. lia.
Qed.

Lemma year_found R u : 0 <= R < 100 -> 0 <= u <= 365 -> (u = 365 -> R mod 4 = 3) -> 4000 * (1461 * R / 4 + u + 1) / 1461001 = R.
Proof.
  intros HR Hu H. symmetry. apply Z.div_unique with (r := 4000 * (1461 * R / 4 + u + 1) - 1461001 * R); [|lia]. left.
  Z.div_mod_to_equations. lia.
Qed.

Lemma century_day_range C R M d : march_day C R M d -> 0 <= century_day R M d <= 36524 /\ (century_day R M d = 36524 -> C mod 4 = 3).
Proof.
  intros H. destruct (month_days C R M d H) as (Hu & H365 & _). destruct H as (HR & _). unfold century_day.
  set (w := 367 * M / 12) in *. clearbody w. Z.div_mod_to_equations. lia.
Qed.

Lemma julian_to_date_march C R M d : march_day C R M d -> 0 <= C -> 100 * (C - 48) + R < INT_MAX ->
  julian_to_date (146097 * C / 4 + century_day R M d - 32044) =
  (100 * (C - 48) + R + (if 11 <=? M then 1 else 0), M + 2 - (if 11 <=? M then 12 else 0), d).
Proof.
  intros H HC Hy. destruct (month_days C R M d H) as (Hu & H365 & Hj & Hd). destruct (century_day_range C R M d H) as [Ht Htl].
  destruct (century_found C (century_day R M d) HC Ht Htl) as [En EL]. cbv zeta in En, EL, Hu, H365, Hj.
  pose proof H as (HR & HM & Hdd & _). pose proof (year_found R _ HR Hu ltac:(tauto)) as Ei.
  assert (0 <= 146097 * C / 4 /\ 0 <= 1461 * R / 4) as [Hc Hz] by (split; apply Z.div_pos; clear - HC HR; lia).
  assert (Z.quot M 11 = if 11 <=? M then 1 else 0) as EM by by apply (month_cases M (fun M => Z.quot M 11 = if 11 <=? M then 1 else 0)).
  unfold julian_to_date, century_day in *. clear H H365 Htl. set (c := 146097 * C / 4) in *. set (z := 1461 * R / 4) in *. set (w := 367 * M / 12) in *.
  clearbody c w. replace (c + (z + w + d - 31) - 32044 + 68569) with (c + 36525 + (z + w + d - 31)) by lia.
  rewrite (Z.quot_div_nonneg (4 * _)), En by (clear - Hc Ht; lia). cbv zeta. clear En.
  rewrite (Z.quot_div_nonneg (146097 * _ + 3)), EL by (clear - HC; lia). clear EL.
  replace (c + 36525 + (z + w + d - 31) - (c + 36525 + (z + w + d - 31) - (z + w + d - 31))) with (z + w + d - 31) by (clear; lia).
  replace (z + w + d - 31 + 1) with (z + (w + d - 31) + 1) by (clear; lia). rewrite (Z.quot_div_nonneg (4000 * _)), Ei by (clear - Hu Hz; lia). clear Ei.
  rewrite (Z.quot_div_nonneg (1461 * R)) by (clear - HR; lia). fold z. replace (z + w + d - 31 - z + 31) with (w + d - 31 + 31) by (clear; lia).
  rewrite (Z.quot_div_nonneg (80 * _)), Hj by (clear - Hu; lia). clear Hj. rewrite (Z.quot_div_nonneg (2447 * M)), Hd by (clear - HM; lia). clear Hd.
  rewrite EM. clear EM. unfold INT_MAX in Hy. f_equal; [f_equal|]; unfold to_int; destruct (11 <=? M); rewrite Z.mod_small by lia; lia.
Qed.

(** A leap year ends the year that began in March before it. *)
Lemma leap_march C R : 0 <= R < 100 -> leap (100 * (C - 48) + R + 1) = true <-> R mod 4 = 3 /\ (R = 99 -> C mod 4 = 3).
Proof.
  intros HR. unfold leap. assert ((100 * (C - 48) + R + 1) mod 4 = (R + 1) mod 4) as E4.
  { rewrite <- (Z.mod_add (R + 1) (25 * (C - 48))) by lia. f_equal. lia. }
  assert ((100 * (C - 48) + R + 1) mod 100 = (R + 1) mod 100) as E100.
  { rewrite <- (Z.mod_add (R + 1) (C - 48)) by lia. f_equal. lia. }
  rewrite E4, E100. destruct (Z.eqb_spec ((R + 1) mod 4) 0) as [H4|H4]; cbn [andb]; [|Z.div_mod_to_equations; lia].
  destruct (Z.eqb_spec ((R + 1) mod 100) 0) as [H1|H1]; cbn [negb orb]; [|Z.div_mod_to_equations; lia].
  assert (R = 99) as -> by (Z.div_mod_to_equations; lia). replace (100 * (C - 48) + 99 + 1) with (100 * (C + 1 - 48)) by lia.
  change 400 with (100 * 4). rewrite Z.mul_mod_distr_l by lia. Z.div_mod_to_equations. lia.
Qed.

(** A date, counted from March. *)
Lemma julian_march y m d : -4799 <= y -> valid_date y m d -> exists C R M, march_day C R M d /\ 0 <= C /\
  julian y m d = 146097 * C / 4 + century_day R M d - 32044 /\
  y = 100 * (C - 48) + R + (if 11 <=? M then 1 else 0) /\ m = M + 2 - (if 11 <=? M then 12 else 0).
Proof.
  intros Hy [Hm Hd]. unfold julian. set (q := if m <=? 2 then -1 else 0). set (M := m - 2 - 12 * q).
  assert (q = - (if 11 <=? M then 1 else 0) /\ m = M + 2 - (if 11 <=? M then 12 else 0) /\ 1 <= M <= 12) as (Eq & Em & HM).
  { unfold M, q. destruct (Z.leb_spec m 2), (Z.leb_spec 11 (m - 2 - 12 * -1)), (Z.leb_spec 11 (m - 2 - 12 * 0)); lia. }
  clearbody q M. set (Y := y + 4800 + q). assert (0 <= Y) as HY by (unfold Y; destruct (11 <=? M); lia).
  pose proof (Z.div_mod Y 100 ltac:(lia)) as EY. pose proof (Z.mod_pos_bound Y 100 ltac:(lia)) as HR. pose proof (Z.div_pos Y 100 HY ltac:(lia)) as HC.
  set (C := Y / 100) in *. set (R := Y mod 100) in *. clearbody C R.
  assert (y = 100 * (C - 48) + R + (if 11 <=? M then 1 else 0)) as Ey by (destruct (11 <=? M); lia).
  exists C, R, M. split; [|split; [done|split; [|done]]].
  - split; [done|]. split; [done|]. pose proof (month_length_range y m). split; [lia|]. split.
    + intros HM'. unfold month_length in Hd. destruct HM' as [-> | [-> | [-> | ->]]]; vm_compute in Em; subst m; cbn [Z.eqb Pos.eqb orb] in Hd; lia.
    + intros ->. vm_compute in Em. change (11 <=? 12) with true in Ey. cbv iota in Ey. subst m. unfold month_length in Hd. cbn [Z.eqb Pos.eqb] in Hd. pose proof (leap_march C R HR) as Hl. rewrite Ey in Hd.
      destruct (leap (100 * (C - 48) + R + 1)); (split; [lia|]; intros ->); [by apply Hl|lia].
  - unfold century_day. clear Em Ey Hd Hm. rewrite EY. replace (1461 * (100 * C + R)) with (1461 * R + 36525 * C * 4) by lia. rewrite Z.div_add by lia.
    assert (146097 * C / 4 = 36525 * C - 3 * (C + 1) / 4) as ->; [|lia]. clear. Z.div_mod_to_equations. lia.
Qed.

(** julian_to_date is the inverse of date_to_julian. *)
Lemma julian_to_date_julian y m d : -4799 <= y < INT_MAX -> valid_date y m d -> julian_to_date (julian y m d) = (y, m, d).
Proof.
  intros Hy Hd. destruct (julian_march y m d ltac:(lia) Hd) as (C & R & M & Hm & HC & -> & Ey & Em).
  rewrite (julian_to_date_march C R M d Hm HC) by (destruct (11 <=? M); lia). by rewrite <- Ey, <- Em.
Qed.

(** *** The numbers are those of the days of the calendar *)

(** The days of the years before [Y], counted from March. *)
Lemma march_years Y : 1461 * (Y + 1) / 4 - 3 * ((Y + 1) / 100 + 1) / 4 =
  1461 * Y / 4 - 3 * (Y / 100 + 1) / 4 + (if leap (Y - 4799) then 366 else 365).
Proof.
  pose proof (Z.div_mod Y 100 ltac:(lia)) as EY. pose proof (Z.mod_pos_bound Y 100 ltac:(lia)) as HR.
  set (C := Y / 100) in *. set (R := Y mod 100) in *. clearbody C R. pose proof (leap_march C R HR) as Hl.
  replace (Y - 4799) with (100 * (C - 48) + R + 1) by lia. rewrite EY.
  replace ((100 * C + R + 1) / 100) with (C + (R + 1) / 100) by (rewrite <- Z.div_add_l by lia; f_equal; lia).
  replace (1461 * (100 * C + R + 1)) with (1461 * (R + 1) + 36525 * C * 4) by lia.
  replace (1461 * (100 * C + R)) with (1461 * R + 36525 * C * 4) by lia. rewrite !Z.div_add by lia.
  destruct (Z.eq_dec R 99) as [-> | Hne].
  - change ((99 + 1) / 100) with 1. change (1461 * (99 + 1) / 4) with 36525. change (1461 * 99 / 4) with 36159.
    destruct (leap (100 * (C - 48) + 99 + 1)); clear EY HR; Z.div_mod_to_equations; lia.
  - rewrite (Z.div_small (R + 1)) by lia. rewrite Z.add_0_r. clear EY.
    destruct (leap (100 * (C - 48) + R + 1)); Z.div_mod_to_equations; lia.
Qed.

(** The first of a month follows the last of the month before. *)
Lemma julian_next y m d : 1 <= m <= 12 -> d = month_length y m ->
  (if m <? 12 then julian y (m + 1) 1 else julian (y + 1) 1 1) = julian y m d + 1.
Proof.
  intros Hm ->. pose proof (march_years (y + 4800 + -1)) as EY. replace (y + 4800 + -1 - 4799) with y in EY by lia. revert EY. unfold julian, month_length.
  replace (y + 4800 + -1 + 1) with (y + 4800 + 0) by lia. replace (y + 1 + 4800) with (y + 4800 + 0 + 1) by lia.
  pattern m. apply (month_cases m); [done|..]; intros EY.
  all: repeat match goal with |- context [if ?c then _ else _] => lazymatch c with leap _ => fail | _ => let v := eval compute in c in change c with v; cbv iota end end.
  all: repeat match goal with |- context [367 * ?a / 12] => let v := eval compute in (367 * a / 12) in change (367 * a / 12) with v end.
  all: try (replace (y + 4800 + 0 + 1 + -1) with (y + 4800 + 0) by lia); try lia; destruct (leap y); lia.
Qed.

Lemma next_day_julian y m d : valid_date y m d -> let '(y', m', d') := next_day (y, m, d) in
  valid_date y' m' d' /\ julian y' m' d' = julian y m d + 1.
Proof.
  intros [Hm Hd]. cbn [next_day]. pose proof (month_length_range y (m + 1)). destruct (Z.ltb_spec d (month_length y m)).
  - split; [split; lia|]. unfold julian. lia.
  - pose proof (julian_next y m d Hm ltac:(lia)) as E. destruct (Z.ltb_spec m 12); (split; [|done]); split; try lia. vm_compute. split; discriminate.
Qed.

(** Every day from the first one of the Julian period has a date. *)
Lemma julian_onto (n : nat) : exists y m d, -4799 <= y /\ valid_date y m d /\ julian y m d = Z.of_nat n.
Proof.
  induction n as [|n (y & m & d & Hy & Hv & E)].
  { exists (-4713), 11, 24. split; [lia|]. split; [vm_compute; intuition discriminate|reflexivity]. }
  pose proof (next_day_julian y m d Hv) as H. destruct (next_day (y, m, d)) as [[y' m'] d'] eqn:En. exists y', m', d'.
  destruct H as [Hv' E']. split; [|split; [done|lia]]. cbn [next_day] in En. repeat case_match; simplify_eq; lia.
Qed.

(** The year grows with the number of the day. *)
Lemma julian_year y m d : valid_date y m d -> 146097 * (y + 4799) / 400 - 32106 <= julian y m d <= 146097 * (y + 4801) / 400 - 32000.
Proof.
  intros [Hm Hd]. pose proof (month_length_range y m) as Hl. unfold julian. set (q := if m <=? 2 then -1 else 0). set (M := m - 2 - 12 * q).
  assert (-1 <= q <= 0 /\ 1 <= M <= 12) as [Hq HM] by (unfold M, q; destruct (Z.leb_spec m 2); lia). clearbody q M. clear Hm.
  assert (30 <= 367 * M / 12 <= 367) by (Z.div_mod_to_equations; lia). set (w := 367 * M / 12) in *. clearbody w.
  Z.div_mod_to_equations. lia.
Qed.

(** The seconds of a time from the beginning of the Julian period; 60 stands for
    a leap second. *)
Definition valid_tm (t : tm) : Prop :=
  year_ok (tm_year t + 1900) /\ valid_date (tm_year t + 1900) (tm_mon t + 1) (tm_mday t) /\
  0 <= tm_hour t <= 23 /\ 0 <= tm_min t <= 59 /\ 0 <= tm_sec t <= 60.

Definition day_seconds (t : tm) : Z := tm_hour t * 3600 + tm_min t * 60 + tm_sec t.

Definition seconds (t : tm) : Z := SECS_PER_DAY * julian (tm_year t + 1900) (tm_mon t + 1) (tm_mday t) + day_seconds t.

(** Day and second of the sum. *)
Lemma julian_adj_run {S} t off_day offset_sec (s : S) : valid_tm t ->
  let T := seconds t + SECS_PER_DAY * off_day + offset_sec in
  julian_adj t off_day offset_sec s = Ret (if T / SECS_PER_DAY <? 0 then None else Some (T / SECS_PER_DAY, T mod SECS_PER_DAY), s).
Proof.
  intros (Hy & Hd & Hh & Hm & Hs) T. pose proof Hy as Hy'. unfold year_ok in Hy'. pose proof Hd as [Hmo _].
  set (D := Z.quot offset_sec 86400). assert (- 86400 < offset_sec - D * 86400 < 86400) as Hr.
  { pose proof (Z.quot_rem offset_sec 86400 ltac:(lia)) as E. pose proof (Z.rem_bound_abs offset_sec 86400 ltac:(lia)). unfold D. lia. }
  assert (to_int (offset_sec - D * 86400) = offset_sec - D * 86400) as Er by (unfold to_int; rewrite Z.mod_small by lia; lia).
  unfold julian_adj. change SECS_PER_DAY with 86400 in *. fold D. rewrite Er. do 5 int_ok.
  set (hms := offset_sec - D * 86400 + (tm_hour t * 3600 + tm_min t * 60 + tm_sec t)). assert (- 86400 < hms < 172800) as Hh' by lia.
  set (J := julian (tm_year t + 1900) (tm_mon t + 1) (tm_mday t)).
  assert (T = 86400 * (J + (D + off_day)) + hms) as ET by (unfold T, seconds, day_seconds, hms; change SECS_PER_DAY with 86400; fold J; lia).
  assert (forall a b, T = 86400 * a + b -> 0 <= b < 86400 -> T / 86400 = a /\ T mod 86400 = b) as Hdm.
  { intros a b E Hb. split; symmetry; [apply (Z.div_unique T 86400 a b)|apply (Z.mod_unique T 86400 a b)]; lia. }
  clearbody hms T D. destruct (Z.leb_spec 86400 hms); [|destruct (Z.ltb_spec hms 0)].
  all: do 2 int_ok; rewrite (bind_ret _ _ _ _ _ (date_to_julian_run _ _ _ s Hy Hd)); fold J; clearbody J.
  - destruct (Hdm (J + (D + off_day + 1)) (hms - 86400)) as [-> ->]; [lia|lia|]. by destruct (_ <? 0).
  - destruct (Hdm (J + (D + off_day - 1)) (hms + 86400)) as [-> ->]; [lia|lia|]. by destruct (_ <? 0).
  - destruct (Hdm (J + (D + off_day)) hms) as [-> ->]; [lia|lia|]. by destruct (_ <? 0).
Qed.

(** The hours, minutes and seconds of a second of the day. *)
Lemma hms_split n : 0 <= n < SECS_PER_DAY ->
  let h := Z.quot n 3600 in let m := Z.rem (Z.quot n 60) 60 in let s := Z.rem n 60 in
  0 <= h <= 23 /\ 0 <= m <= 59 /\ 0 <= s <= 59 /\ h * 3600 + m * 60 + s = n.
Proof.
  change SECS_PER_DAY with 86400. intros Hn. cbv zeta. rewrite !Z.quot_div_nonneg by lia.
  assert (0 <= n / 60) by (apply Z.div_pos; lia). rewrite !Z.rem_mod_nonneg by lia. Z.div_mod_to_equations. lia.
Qed.

(** A time without leap second is determined by its seconds. *)
Lemma day_seconds_range t : valid_tm t -> tm_sec t <= 59 -> 0 <= day_seconds t < SECS_PER_DAY.
Proof. intros (_ & _ & Hh & Hm & Hs) H. unfold day_seconds. change SECS_PER_DAY with 86400. lia. Qed.

Lemma seconds_split t : valid_tm t -> tm_sec t <= 59 ->
  seconds t / SECS_PER_DAY = julian (tm_year t + 1900) (tm_mon t + 1) (tm_mday t) /\ seconds t mod SECS_PER_DAY = day_seconds t.
Proof.
  intros Hv Hs. pose proof (day_seconds_range t Hv Hs) as Hr. unfold seconds. set (J := julian _ _ _). clearbody J. change SECS_PER_DAY with 86400 in *.
  split; symmetry; [apply (Z.div_unique _ _ _ (day_seconds t))|apply (Z.mod_unique _ _ J)]; lia.
Qed.

Lemma seconds_date t : valid_tm t -> tm_sec t <= 59 ->
  julian_to_date (seconds t / SECS_PER_DAY) = (tm_year t + 1900, tm_mon t + 1, tm_mday t).
Proof.
  intros Hv Hs. destruct (seconds_split t Hv Hs) as [-> _]. destruct Hv as (Hy & Hd & _). unfold year_ok in Hy.
  apply julian_to_date_julian; [unfold INT_MAX; lia|done].
Qed.

(** The date of a day that is not too far away. *)
Lemma julian_to_date_valid jd : 0 <= jd <= 500000000000 ->
  exists y m d, julian_to_date jd = (y, m, d) /\ valid_date y m d /\ julian y m d = jd.
Proof.
  intros Hj. destruct (julian_onto (Z.to_nat jd)) as (y & m & d & Hy & Hv & E). rewrite Z2Nat.id in E by lia. exists y, m, d. split; [|done].
  rewrite <- E. apply julian_to_date_julian; [|done]. pose proof (julian_year y m d Hv) as Hr. unfold INT_MAX. clear Hv. Z.div_mod_to_equations. lia.
Qed.

(** A sum that is the count of a time of the years that are allowed. *)
Lemma gmtime_adj_to {S} t off_day offset_sec u (s : S) : valid_tm t -> valid_tm u -> tm_sec u <= 59 -> 0 <= tm_year u <= 8099 ->
  seconds t + SECS_PER_DAY * off_day + offset_sec = seconds u ->
  OPENSSL_gmtime_adj t off_day offset_sec s =
    Ret ((1, mkTm (tm_sec u) (tm_min u) (tm_hour u) (tm_mday u) (tm_mon u) (tm_year u) (tm_wday t) (tm_yday t) (tm_isdst t)), s).
Proof.
  intros Ht Hu Hs Hy E. unfold OPENSSL_gmtime_adj. rewrite (bind_ret _ _ _ _ _ (julian_adj_run t off_day offset_sec s Ht)), E.
  pose proof (day_seconds_range u Hu Hs) as Hr. pose proof (seconds_date u Hu Hs) as Ed. destruct (seconds_split u Hu Hs) as [EJ ->].
  destruct (hms_split _ Hr) as (Hh & Hm & Hsec & Et). destruct Hu as (_ & Hd & Hh' & Hm' & Hs'). pose proof (julian_year _ _ _ Hd) as HJ.
  destruct (Z.ltb_spec (seconds u / SECS_PER_DAY) 0) as [Hneg|_]; [rewrite EJ in Hneg; clear - Hneg HJ Hy; Z.div_mod_to_equations; lia|].
  cbv beta iota. rewrite Ed. replace ((tm_year u + 1900 <? 1900) || (9999 <? tm_year u + 1900)) with false by lia. unfold day_seconds in *.
  set (n := tm_hour u * 3600 + tm_min u * 60 + tm_sec u) in *. assert (n = tm_hour u * 3600 + tm_min u * 60 + tm_sec u) as En by done. clearbody n.
  set (h := Z.quot n 3600) in *. set (mi := Z.rem (Z.quot n 60) 60) in *. set (sec := Z.rem n 60) in *. clearbody h mi sec. clear EJ Ed HJ Hd E Ht.
  assert (h = tm_hour u) as -> by lia. assert (mi = tm_min u) as -> by lia. assert (sec = tm_sec u) as -> by lia. by rewrite !Z.add_simpl_r.
Qed.

Lemma seconds_nonneg t : valid_tm t -> -1900 <= tm_year t -> 0 <= seconds t / SECS_PER_DAY <= 600000000.
Proof.
  intros (Hy & Hd & Hh & Hm & Hs) H. pose proof (julian_year _ _ _ Hd) as HJ. unfold year_ok in Hy. unfold seconds, day_seconds. change SECS_PER_DAY with 86400.
  set (J := julian _ _ _) in *. clearbody J. clear Hd. Z.div_mod_to_equations. lia.
Qed.

(** Adding days and seconds to a valid time gives the valid time whose count
    of seconds is the sum and which keeps the other fields; it is refused, and
    nothing changed, exactly when no time of the years 1900 to 9999 has that
    count.  The offset is at most 2^55 seconds. *)
Lemma OPENSSL_gmtime_adj_sum {S} t off_day offset_sec (s : S) : valid_tm t -> off_day <= INT_MAX -> offset_sec <= 2 ^ 55 ->
  let T := seconds t + SECS_PER_DAY * off_day + offset_sec in
  exists rc t', OPENSSL_gmtime_adj t off_day offset_sec s = Ret ((rc, t'), s) /\
    ((rc = 1 /\ valid_tm t' /\ tm_sec t' <= 59 /\ 0 <= tm_year t' <= 8099 /\ seconds t' = T /\
      tm_wday t' = tm_wday t /\ tm_yday t' = tm_yday t /\ tm_isdst t' = tm_isdst t) \/
     (rc = 0 /\ t' = t /\ forall u, valid_tm u -> tm_sec u <= 59 -> 0 <= tm_year u <= 8099 -> seconds u <> T)).
Proof.
  intros Hv Hod Hos T. unfold OPENSSL_gmtime_adj. rewrite (bind_ret _ _ _ _ _ (julian_adj_run t off_day offset_sec s Hv)). fold T.
  assert (T / SECS_PER_DAY <= 500000000000) as Hmax.
  { destruct Hv as (Hy & Hd & Hh & Hm & Hs). pose proof (julian_year _ _ _ Hd) as HJ. unfold T, seconds, day_seconds, year_ok, INT_MAX in *.
    change SECS_PER_DAY with 86400. set (J := julian _ _ _) in *. clearbody J. clear Hd. change (2 ^ 55) with 36028797018963968 in Hos. Z.div_mod_to_equations. lia. }
  destruct (Z.ltb_spec (T / SECS_PER_DAY) 0) as [Hneg|Hpos].
  { exists 0, t. split; [done|]. right. do 2 (split; [done|]). intros u Hu Hsu Hyu E. destruct (seconds_split u Hu Hsu) as [Eu _]. rewrite E in Eu.
    destruct Hu as (_ & Hd & _). pose proof (julian_year _ _ _ Hd). rewrite Eu in Hneg. clear Eu Hd Hmax. Z.div_mod_to_equations. lia. }
  destruct (julian_to_date_valid _ (conj Hpos Hmax)) as (y & m & d & Ed & Hd & EJ). rewrite Ed.
  pose proof (Z.mod_pos_bound T SECS_PER_DAY ltac:(change SECS_PER_DAY with 86400; lia)) as Hr. destruct (hms_split _ Hr) as (Hh & Hm & Hs & Et).
  destruct ((y <? 1900) || (9999 <? y)) eqn:Ey.
  - exists 0, t. split; [done|]. right. do 2 (split; [done|]). intros u Hu Hsu Hyu E. pose proof (seconds_date u Hu Hsu) as Eu. rewrite E, Ed in Eu.
    injection Eu as E1 E2 E3. lia.
  - eexists 1, _. split; [done|]. left. split; [done|]. unfold valid_tm, seconds, day_seconds, year_ok. cbn [tm_sec tm_min tm_hour tm_mday tm_mon tm_year tm_wday tm_yday tm_isdst].
    rewrite !Z.sub_add, EJ, Et. pose proof (Z.div_mod T SECS_PER_DAY ltac:(discriminate)). repeat split; try lia; try apply Hd.
Qed.

(** The difference of two times. *)
Lemma gmtime_diff_run {S} from to (s : S) : valid_tm from -> valid_tm to -> -1900 <= tm_year from -> -1900 <= tm_year to ->
  exists day sec, OPENSSL_gmtime_diff from to s = Ret (Some (day, sec), s) /\
    SECS_PER_DAY * day + sec = seconds to - seconds from /\ (0 <= day /\ 0 <= sec < SECS_PER_DAY \/ day <= 0 /\ - SECS_PER_DAY < sec <= 0).
Proof.
  intros Hf Ht Hyf Hyt. unfold OPENSSL_gmtime_diff.
  rewrite (bind_ret _ _ _ _ _ (julian_adj_run from 0 0 s Hf)), Z.mul_0_r, !Z.add_0_r. pose proof (seconds_nonneg from Hf Hyf) as Hf'.
  destruct (Z.ltb_spec (seconds from / SECS_PER_DAY) 0); [lia|].
  rewrite (bind_ret _ _ _ _ _ (julian_adj_run to 0 0 s Ht)), Z.mul_0_r, !Z.add_0_r. pose proof (seconds_nonneg to Ht Hyt) as Ht'.
  destruct (Z.ltb_spec (seconds to / SECS_PER_DAY) 0); [lia|].
  set (A := seconds to) in *. set (B := seconds from) in *. change SECS_PER_DAY with 86400 in *.
  pose proof (Z.div_mod A 86400 ltac:(lia)). pose proof (Z.mod_pos_bound A 86400 ltac:(lia)).
  pose proof (Z.div_mod B 86400 ltac:(lia)). pose proof (Z.mod_pos_bound B 86400 ltac:(lia)).
  set (a := A / 86400) in *. set (b := B / 86400) in *. set (x := A mod 86400) in *. set (z := B mod 86400) in *. clearbody A B a b x z.
  assert (forall day sec, -600000000 <= day <= 600000000 -> 86400 * day + sec = A - B -> (0 <= day /\ 0 <= sec < 86400 \/ day <= 0 /\ - 86400 < sec <= 0) ->
    exists d' s', (mret (Some (to_int day, sec)) : M S (option (Z * Z))) s = Ret (Some (d', s'), s) /\ 86400 * d' + s' = A - B /\ (0 <= d' /\ 0 <= s' < 86400 \/ d' <= 0 /\ - 86400 < s' <= 0)) as Hfin.
  { intros day sec Hd E Hsign. exists day, sec. split; [|auto]. unfold to_int. rewrite Z.mod_small, Z.add_simpl_r by lia. done. }
  destruct (Z.ltb_spec 0 (a - b)), (Z.ltb_spec (x - z) 0); cbn [andb]; cbv beta iota.
  1: destruct (Z.ltb_spec (a - b - 1) 0); [lia|]; cbn [andb]; cbv beta iota; apply Hfin; lia.
  all: destruct (Z.ltb_spec (a - b) 0); cbn [andb]; [destruct (Z.ltb_spec 0 (x - z))|]; cbv beta iota; apply Hfin; lia.
Qed.

(** ** Properties *)

(** Date_to_julian numbers the days of the Gregorian calendar, leap years
    included, one after the other, and julian_to_date gives the date of a number
    back. *)
Theorem julian_days {S} y m d (s : S) : year_ok y -> valid_date y m d ->
  exists jd, date_to_julian y m d s = Ret (jd, s) /\ julian_to_date jd = (y, m, d) /\
    let '(y', m', d') := next_day (y, m, d) in valid_date y' m' d' /\ (year_ok y' -> date_to_julian y' m' d' s = Ret (jd + 1, s)).
Proof.
  intros Hy Hv. exists (julian y m d). split; [by apply date_to_julian_run|]. split.
  { apply julian_to_date_julian; [|done]. unfold year_ok in Hy. unfold INT_MAX. lia. }
  pose proof (next_day_julian y m d Hv) as H. destruct (next_day (y, m, d)) as [[y' m'] d']. destruct H as [Hv' <-].
  split; [done|]. intros Hy'. by apply date_to_julian_run.
Qed.

Lemma julian_days_witness : date_to_julian 1970 1 1 tt = Ret (2440588, tt) /\ date_to_julian 2000 2 29 tt = Ret (2451604, tt) /\
  exists jd, date_to_julian 2000 2 29 tt = Ret (jd, tt) /\ julian_to_date jd = (2000, 2, 29) /\
    valid_date 2000 3 1 /\ (year_ok 2000 -> date_to_julian 2000 3 1 tt = Ret (jd + 1, tt)).
Proof.
  split; [reflexivity|]. split; [reflexivity|]. apply (julian_days 2000 2 29 tt).
  - unfold year_ok. lia.
  - unfold valid_date. change (month_length 2000 2) with 29. lia.
Defined.

Definition tm_witness : tm := mkTm 59 59 23 28 1 124 3 58 0.

Lemma tm_witness_valid : valid_tm tm_witness.
Proof.
  unfold valid_tm, year_ok, valid_date. cbn [tm_sec tm_min tm_hour tm_mday tm_mon tm_year tm_witness].
  change (month_length (124 + 1900) (1 + 1)) with 29. lia.
Qed.

(** The difference of two times is their count of seconds apart, days and
    seconds of the same sign and the seconds less than a day; added to the first
    time it gives the second. *)
Theorem OPENSSL_gmtime_diff_adj {S} from to (s : S) : valid_tm from -> valid_tm to -> 0 <= tm_year from -> 0 <= tm_year to <= 8099 -> tm_sec to <= 59 ->
  exists day sec, OPENSSL_gmtime_diff from to s = Ret (Some (day, sec), s) /\
    SECS_PER_DAY * day + sec = seconds to - seconds from /\ (0 <= day /\ 0 <= sec < SECS_PER_DAY \/ day <= 0 /\ - SECS_PER_DAY < sec <= 0) /\
    OPENSSL_gmtime_adj from day sec s =
      Ret ((1, mkTm (tm_sec to) (tm_min to) (tm_hour to) (tm_mday to) (tm_mon to) (tm_year to) (tm_wday from) (tm_yday from) (tm_isdst from)), s).
Proof.
  intros Hf Ht Hyf Hyt Hst. destruct (gmtime_diff_run from to s Hf Ht ltac:(lia) ltac:(lia)) as (day & sec & E & Es & Hsign). exists day, sec.
  do 3 (split; [done|]). apply gmtime_adj_to; try done. lia.
Qed.

Definition tm_witness2 : tm := mkTm 0 0 0 1 2 124 5 60 0.

Lemma OPENSSL_gmtime_diff_adj_witness :
  exists day sec, OPENSSL_gmtime_diff tm_witness tm_witness2 tt = Ret (Some (day, sec), tt) /\ SECS_PER_DAY * day + sec = 86401.
Proof.
  destruct (OPENSSL_gmtime_diff_adj tm_witness tm_witness2 tt) as (day & sec & E & H & _).
  - apply tm_witness_valid.
  - unfold valid_tm, year_ok, valid_date. cbn [tm_sec tm_min tm_hour tm_mday tm_mon tm_year tm_witness2].
    change (month_length (124 + 1900) (2 + 1)) with 31. lia.
  - vm_compute. discriminate.
  - vm_compute. split; discriminate.
  - vm_compute. discriminate.
  - exists day, sec. split; [exact E|exact H].
Defined.

(** ** Where the code departs *)

(** julian_to_date stores the year as an [int], so that it is reduced modulo
    2^32: 4294967296 years, as seconds, can be added to a time of 2024, and the
    call reports success and leaves 2024. *)
Lemma gmtime_adj_year_wraps :
  OPENSSL_gmtime_adj tm_witness 0 135536076801417600 tt = Ret ((1, tm_witness), tt).
Proof. vm_compute. reflexivity. Qed.
