(* ===== verification/BioPrint.v ===== *)
(** * Formatted output

    crypto/bio/bio_print.c of the vendored OpenSSL: its own snprintf.  The
    interpreter of formats is a state machine over the characters of the format
    (a list that ends with its terminating zero); it gives characters to a sink
    that is an array, filled to its end, or a growing object.  A [long] has 64
    bits.  Left open are the printing of floating point numbers (fmtfp) and the
    address that stands for a pointer; BIO_printf and BIO_vprintf, which
    pass the text on to a BIO, are left out.

    The theorems: fmtint and fmtstr print sign, prefix, padding and digits
    as the C standard describes them; for a format made of such directives
    BIO_snprintf stores as much of the text as there is room for, with a zero
    behind it, and tells whether it is the whole text. *)

From Stdlib Require Import String.
From S2P Require Import Prelude Memory Print Heap Ctype OStr DerInt.

(** ** Definitions *)

Inductive dp_state : Type :=
| DP_S_DEFAULT
| DP_S_FLAGS
| DP_S_MIN
| DP_S_DOT
| DP_S_MAX
| DP_S_MOD
| DP_S_CONV
| DP_S_DONE.

Definition DP_F_MINUS : Z := Z.shiftl 1 0.
Definition DP_F_PLUS : Z := Z.shiftl 1 1.
Definition DP_F_SPACE : Z := Z.shiftl 1 2.
Definition DP_F_NUM : Z := Z.shiftl 1 3.
Definition DP_F_ZERO : Z := Z.shiftl 1 4.
Definition DP_F_UP : Z := Z.shiftl 1 5.
Definition DP_F_UNSIGNED : Z := Z.shiftl 1 6.

Definition DP_C_SHORT : Z := 1.
Definition DP_C_LONG : Z := 2.
Definition DP_C_LDOUBLE : Z := 3.
Definition DP_C_LLONG : Z := 4.
Definition DP_C_SIZE : Z := 5.

Definition F_FORMAT : Z := 0.
Definition E_FORMAT : Z := 1.
Definition G_FORMAT : Z := 2.

Definition BUFFER_INC : Z := 1024.

Definition flag (flags f : Z) : bool := truthy (Z.land flags f).

(** The arguments that the functions pass on by reference: [*sbuffer], whether
    there is a [buffer], [*buffer], [*currlen] and [*maxlen]. *)
Record sink := mkSink {
  sk_sbuffer : ptr;
  sk_dynamic : bool;
  sk_buffer : ptr;
  sk_currlen : Z;
  sk_maxlen : Z
}.

Definition pst : Type := sink * mem.

Definition get_sink : M pst sink := fun '(k, m) => Ret (k, (k, m)).
Definition put_sink (k : sink) : M pst unit := fun '(_, m) => Ret (tt, (k, m)).

Definition in_mem {A} (f : M mem A) : M pst A := fun '(k, m) =>
  match f m with
  | Ret (a, m) => Ret (a, (k, m))
  | UB => UB
  | NoFuel => NoFuel
  end.

(** A variable argument: of 32 bits, of 64 bits, a pointer, a floating point
    number. *)
Inductive va_arg : Type :=
| VInt (z : Z)
| VLong (z : Z)
| VPtr (p : ptr)
| VDouble (z : Z).

(** One call after the other, as long as they return 1. *)
Definition and_then (f g : M pst bool) : M pst bool := ok ← f; if ok : bool then g else mret false.
Infix "&?" := and_then (at level 60, right associativity).

Section print.
Context {AL : Allocator}.

(** The fuller buffer gets [BUFFER_INC] more octets. *)
Definition outch_grow : M pst bool :=
  k ← get_sink;
  if INT_MAX - BUFFER_INC <? sk_maxlen k then mret false
  else
    let maxlen := sk_maxlen k + BUFFER_INC in
    if is_null (sk_buffer k) then
      b ← in_mem (CRYPTO_malloc maxlen);
      put_sink (mkSink (sk_sbuffer k) (sk_dynamic k) b (sk_currlen k) maxlen);;
      if is_null b then mret false
      else if 0 <? sk_currlen k then
        if is_null (sk_sbuffer k) then mret false
        else
          in_mem (memcpy b (sk_sbuffer k) (sk_currlen k));;
          put_sink (mkSink NULL (sk_dynamic k) b (sk_currlen k) maxlen);; mret true
      else put_sink (mkSink NULL (sk_dynamic k) b (sk_currlen k) maxlen);; mret true
    else
      tmpbuf ← in_mem (CRYPTO_realloc (sk_buffer k) maxlen);
      if is_null tmpbuf then
        put_sink (mkSink (sk_sbuffer k) (sk_dynamic k) (sk_buffer k) (sk_currlen k) maxlen);; mret false
      else
        put_sink (mkSink (sk_sbuffer k) (sk_dynamic k) tmpbuf (sk_currlen k) maxlen);; mret true.

Definition doapr_outch (c : Z) : M pst bool :=
  k ← get_sink;
  if is_null (sk_sbuffer k) && negb (sk_dynamic k) then mret false
  else if sk_maxlen k <? sk_currlen k then mret false
  else
    ok ← (if sk_dynamic k && (sk_currlen k =? sk_maxlen k) then outch_grow else mret true);
    if negb ok then mret false
    else
      k ← get_sink;
      (if sk_currlen k <? sk_maxlen k then
         in_mem (store (padd (if is_null (sk_sbuffer k) then sk_buffer k else sk_sbuffer k) (sk_currlen k)) c);;
         put_sink (mkSink (sk_sbuffer k) (sk_dynamic k) (sk_buffer k) (sk_currlen k + 1) (sk_maxlen k))
       else mret tt);;
      mret true.

(** A loop that gives the characters [l] to the sink. *)
Fixpoint outch_all (l : list Z) : M pst bool :=
  match l with
  | [] => mret true
  | c :: l => doapr_outch c &? outch_all l
  end.

(** [while (n > 0 && (max < 0 || cnt < max))]: one character per turn, the next
    of [get]; the results are [cnt] and whether to go on. *)
Fixpoint fmtstr_loop (n : nat) (get : Z -> M pst Z) (i cnt max : Z) : M pst (bool * Z) :=
  match n with
  | O => mret (true, cnt)
  | S n =>
      if (max <? 0) || (cnt <? max) then
        c ← get i;
        ok ← doapr_outch c;
        if negb ok then mret (false, cnt) else fmtstr_loop n get (i + 1) (cnt + 1) max
      else mret (true, cnt)
  end.

Definition fmtstr (value : ptr) (flags min max : Z) : M pst bool :=
  let null : list Z := str "<NULL>" in
  strln ← (let n := if max <? 0 then 18446744073709551615 else max in
           if is_null value then mret (Z.min n (Z.of_nat (length null))) else in_mem (OPENSSL_strnlen value n));
  let padlen := to_int (to_size (min - strln)) in
  let padlen := if (min <? 0) || (padlen <? 0) then 0 else padlen in
  let max := if 0 <=? max then (if max <? INT_MAX - padlen then max + padlen else INT_MAX) else max in
  let padlen := if flag flags DP_F_MINUS then - padlen else padlen in
  '(ok, cnt) ← fmtstr_loop (Z.to_nat padlen) (fun _ => mret 32) 0 0 max;
  if negb ok then mret false
  else
    '(ok, cnt) ← fmtstr_loop (Z.to_nat strln)
      (fun i => if is_null value then array_get null i else in_mem (load (padd value i))) 0 cnt max;
    if negb ok then mret false
    else
      '(ok, _) ← fmtstr_loop (Z.to_nat (- padlen)) (fun _ => mret 32) 0 cnt max;
      mret ok.

(** The size of the local array: 23 for the digits of 64 bits, and 3. *)
Definition CONVERT_SIZE : nat := 26.

(** The digits of [uvalue], the lowest first, at most [n]. *)
Fixpoint convert_loop (n : nat) (caps : bool) (base uvalue : Z) : list Z :=
  match n with
  | O => []
  | S n =>
      let digit := nth (Z.to_nat (uvalue mod base)) (if caps then str "0123456789ABCDEF" else str "0123456789abcdef") 0 in
      let uvalue := uvalue / base in
      digit :: (if truthy uvalue then convert_loop n caps base uvalue else [])
  end.

Definition fmtint (value base min max flags : Z) : M pst bool :=
  let max := if max <? 0 then 0 else max in
  let '(signvalue, uvalue) :=
    if flag flags DP_F_UNSIGNED then ([], to_size value)
    else if value <? 0 then ([45], to_size (0 - to_size value))
    else (if flag flags DP_F_PLUS then [43] else if flag flags DP_F_SPACE then [32] else [], to_size value) in
  let prefix := if flag flags DP_F_NUM then (if base =? 8 then str "0" else if base =? 16 then str "0x" else []) else [] in
  let convert := take (CONVERT_SIZE - 1) (convert_loop CONVERT_SIZE (flag flags DP_F_UP) base uvalue) in
  let place := Z.of_nat (length convert) in
  let zpadlen := max - place in
  w ← int_result (min - Z.max max place);
  w ← int_result (w - Z.of_nat (length signvalue));
  let spadlen := to_int (to_size (w - Z.of_nat (length prefix))) in
  let zpadlen := if zpadlen <? 0 then 0 else zpadlen in
  let spadlen := if spadlen <? 0 then 0 else spadlen in
  let '(zpadlen, spadlen) := if flag flags DP_F_ZERO then (Z.max zpadlen spadlen, 0) else (zpadlen, spadlen) in
  let spadlen := if flag flags DP_F_MINUS then - spadlen else spadlen in
  outch_all (replicate (Z.to_nat spadlen) 32) &?
  outch_all signvalue &?
  outch_all prefix &?
  outch_all (replicate (Z.to_nat zpadlen) 48) &?
  outch_all (rev convert) &?
  outch_all (replicate (Z.to_nat (- spadlen)) 32).

(** Not modelled: fmtfp, with the value, [min], [max], [flags] and the style;
    and the number of an address. *)
Context (fmtfp : Z -> Z -> Z -> Z -> Z -> M pst bool) (address : ptr -> Z).

(** The local variables of _dopr. *)
Record dp := mkDp {
  dp_ch : Z;
  dp_format : list Z;
  dp_args : list va_arg;
  dp_st : dp_state;
  dp_flags : Z;
  dp_cflags : Z;
  dp_min : Z;
  dp_max : Z
}.

(** [ch = *format++] *)
Definition next (format : list Z) : M pst (Z * list Z) :=
  match format with
  | [] => ub
  | ch :: format => mret (ch, format)
  end.

Definition va_int (args : list va_arg) : M pst (Z * list va_arg) :=
  match args with VInt z :: args => mret (z, args) | _ => ub end.
Definition va_long (args : list va_arg) : M pst (Z * list va_arg) :=
  match args with VLong z :: args => mret (z, args) | _ => ub end.
Definition va_ptr (args : list va_arg) : M pst (ptr * list va_arg) :=
  match args with VPtr p :: args => mret (p, args) | _ => ub end.
Definition va_double (args : list va_arg) : M pst (Z * list va_arg) :=
  match args with VDouble z :: args => mret (z, args) | _ => ub end.

Definition to_short (z : Z) : Z := (z + 32768) mod 65536 - 32768.

(** The value of an integer conversion, signed or not. *)
Definition signed_value (cflags : Z) (args : list va_arg) : M pst (Z * list va_arg) :=
  if cflags =? DP_C_SHORT then '(z, args) ← va_int args; mret (to_short z, args)
  else if (cflags =? DP_C_LONG) || (cflags =? DP_C_LLONG) || (cflags =? DP_C_SIZE) then
    '(z, args) ← va_long args; mret (to_int64 z, args)
  else '(z, args) ← va_int args; mret (to_int z, args).

Definition unsigned_value (cflags : Z) (args : list va_arg) : M pst (Z * list va_arg) :=
  if cflags =? DP_C_SHORT then '(z, args) ← va_int args; mret (to_ushort z, args)
  else if (cflags =? DP_C_LONG) || (cflags =? DP_C_LLONG) || (cflags =? DP_C_SIZE) then
    '(z, args) ← va_long args; mret (to_int64 (to_size z), args)
  else '(z, args) ← va_int args; mret (to_uint z, args).

(** The case DP_S_CONV: whether to go on, and the rest of the format and of the
    arguments. *)
Definition dopr_conv (ch cflags min max flags : Z) (format : list Z) (args : list va_arg) : M pst (bool * list Z * list va_arg) :=
  if (ch =? 100) || (ch =? 105) then
    '(value, args) ← signed_value cflags args;
    ok ← fmtint value 10 min max flags; mret (ok, format, args)
  else if (ch =? 88) || (ch =? 120) || (ch =? 111) || (ch =? 117) then
    let flags := if ch =? 88 then Z.lor flags DP_F_UP else flags in
    let flags := Z.lor flags DP_F_UNSIGNED in
    '(value, args) ← unsigned_value cflags args;
    ok ← fmtint value (if ch =? 111 then 8 else if ch =? 117 then 10 else 16) min max flags;
    mret (ok, format, args)
  else if ch =? 102 then
    '(fvalue, args) ← va_double args;
    ok ← fmtfp fvalue min max flags F_FORMAT; mret (ok, format, args)
  else if (ch =? 69) || (ch =? 101) then
    '(fvalue, args) ← va_double args;
    ok ← fmtfp fvalue min max (if ch =? 69 then Z.lor flags DP_F_UP else flags) E_FORMAT; mret (ok, format, args)
  else if (ch =? 71) || (ch =? 103) then
    '(fvalue, args) ← va_double args;
    ok ← fmtfp fvalue min max (if ch =? 71 then Z.lor flags DP_F_UP else flags) G_FORMAT; mret (ok, format, args)
  else if ch =? 99 then
    '(c, args) ← va_int args;
    ok ← doapr_outch c; mret (ok, format, args)
  else if ch =? 115 then
    '(strvalue, args) ← va_ptr args;
    k ← get_sink;
    let max := if max <? 0 then (if sk_dynamic k then INT_MAX else to_int (sk_maxlen k)) else max in
    ok ← fmtstr strvalue flags min max; mret (ok, format, args)
  else if ch =? 112 then
    '(p, args) ← va_ptr args;
    ok ← fmtint (to_int64 (address p)) 16 min max (Z.lor flags DP_F_NUM); mret (ok, format, args)
  else if ch =? 110 then
    '(num, args) ← va_ptr args;
    k ← get_sink;
    let n := to_uint (sk_currlen k) in
    in_mem (store_bytes num [n mod 256; n / 256 mod 256; n / 65536 mod 256; n / 16777216 mod 256]);;
    mret (true, format, args)
  else if ch =? 37 then
    ok ← doapr_outch ch; mret (ok, format, args)
  else if ch =? 119 then
    '(_, format) ← next format; mret (true, format, args)
  else mret (true, format, args).

(** One pass of the loop, with the [switch] on the state; [None] for the return
    value 0. *)
Definition dopr_step (d : dp) : M pst (option dp) :=
  k ← get_sink;
  let ch := dp_ch d in
  let stop := (ch =? 0) || (negb (sk_dynamic k) && (sk_maxlen k <=? sk_currlen k)) in
  let advance state flags cflags min max args :=
    '(ch, format) ← next (dp_format d);
    mret (Some (mkDp ch format args state flags cflags min max)) in
  let stay state := mret (Some (mkDp ch (dp_format d) (dp_args d) state (dp_flags d) (dp_cflags d) (dp_min d) (dp_max d))) in
  match (if stop then DP_S_DONE else dp_st d) with
  | DP_S_DEFAULT =>
      if ch =? 37 then advance DP_S_FLAGS (dp_flags d) (dp_cflags d) (dp_min d) (dp_max d) (dp_args d)
      else
        ok ← doapr_outch ch;
        if negb ok then mret None
        else advance DP_S_DEFAULT (dp_flags d) (dp_cflags d) (dp_min d) (dp_max d) (dp_args d)
  | DP_S_FLAGS =>
      let set f := advance DP_S_FLAGS (Z.lor (dp_flags d) f) (dp_cflags d) (dp_min d) (dp_max d) (dp_args d) in
      if ch =? 45 then set DP_F_MINUS
      else if ch =? 43 then set DP_F_PLUS
      else if ch =? 32 then set DP_F_SPACE
      else if ch =? 35 then set DP_F_NUM
      else if ch =? 48 then set DP_F_ZERO
      else stay DP_S_MIN
  | DP_S_MIN =>
      if ossl_isdigit ch then
        min ← int_result (10 * dp_min d + (ch - 48));
        advance DP_S_MIN (dp_flags d) (dp_cflags d) min (dp_max d) (dp_args d)
      else if ch =? 42 then
        '(min, args) ← va_int (dp_args d);
        advance DP_S_DOT (dp_flags d) (dp_cflags d) min (dp_max d) args
      else stay DP_S_DOT
  | DP_S_DOT =>
      if ch =? 46 then advance DP_S_MAX (dp_flags d) (dp_cflags d) (dp_min d) (dp_max d) (dp_args d)
      else stay DP_S_MOD
  | DP_S_MAX =>
      if ossl_isdigit ch then
        max ← int_result (10 * (if dp_max d <? 0 then 0 else dp_max d) + (ch - 48));
        advance DP_S_MAX (dp_flags d) (dp_cflags d) (dp_min d) max (dp_args d)
      else if ch =? 42 then
        '(max, args) ← va_int (dp_args d);
        advance DP_S_MOD (dp_flags d) (dp_cflags d) (dp_min d) max args
      else stay DP_S_MOD
  | DP_S_MOD =>
      let set f := advance DP_S_CONV (dp_flags d) f (dp_min d) (dp_max d) (dp_args d) in
      if ch =? 104 then set DP_C_SHORT
      else if ch =? 108 then
        '(c, rest) ← next (dp_format d);
        if c =? 108 then
          '(ch, format) ← next rest;
          mret (Some (mkDp ch format (dp_args d) DP_S_CONV (dp_flags d) DP_C_LLONG (dp_min d) (dp_max d)))
        else set DP_C_LONG
      else if (ch =? 113) || (ch =? 106) then set DP_C_LLONG
      else if ch =? 76 then set DP_C_LDOUBLE
      else if ch =? 122 then set DP_C_SIZE
      else stay DP_S_CONV
  | DP_S_CONV =>
      '(ok, format, args) ← dopr_conv ch (dp_cflags d) (dp_min d) (dp_max d) (dp_flags d) (dp_format d) (dp_args d);
      if negb ok then mret None
      else
        '(ch, format) ← next format;
        mret (Some (mkDp ch format args DP_S_DEFAULT 0 0 0 (-1)))
  | DP_S_DONE => stay DP_S_DONE
  end.

(** [while (state != DP_S_DONE)] *)
Fixpoint dopr_loop (fuel : nat) (d : dp) : M pst bool :=
  match fuel with
  | O => nofuel
  | S fuel =>
      r ← dopr_step d;
      match r with
      | None => mret false
      | Some d => match dp_st d with DP_S_DONE => mret true | _ => dopr_loop fuel d end
      end
  end.

(** At most seven passes for a character of the format, one for the zero and one
    for the state. *)
Definition dopr_fuel (format : list Z) : nat := 7 * length format + 8.

(** [*retlen] and [*truncated]; [None] for the return value 0. *)
Definition dopr (format : list Z) (args : list va_arg) : M pst (option (Z * bool)) :=
  '(ch, rest) ← next format;
  ok ← dopr_loop (dopr_fuel format) (mkDp ch rest args DP_S_DEFAULT 0 0 0 (-1));
  if negb ok then mret None
  else
    k ← get_sink;
    let truncated := negb (sk_dynamic k) && (to_size (sk_maxlen k - 1) <? sk_currlen k) in
    (if truncated then put_sink (mkSink (sk_sbuffer k) (sk_dynamic k) (sk_buffer k) (sk_maxlen k - 1) (sk_maxlen k)) else mret tt);;
    ok ← doapr_outch 0;
    if negb ok then mret None
    else k ← get_sink; mret (Some (to_size (sk_currlen k - 1), truncated)).

Definition BIO_vsnprintf (buf : ptr) (n : Z) (format : list Z) (args : list va_arg) : M mem Z := fun m =>
  match dopr format args (mkSink buf false NULL 0 n, m) with
  | Ret (r, (_, m)) =>
      Ret (match r with
           | None => -1
           | Some (retlen, truncated) => if truncated then -1 else if retlen <=? INT_MAX then retlen else -1
           end, m)
  | UB => UB
  | NoFuel => NoFuel
  end.

Definition BIO_snprintf (buf : ptr) (n : Z) (format : list Z) (args : list va_arg) : M mem Z := BIO_vsnprintf buf n format args.
End print.

(** ** Specification: the text of a directive *)

(** The digits of a number, the highest first. *)
Definition number_text (caps : bool) (base u : Z) : list Z := rev (convert_loop CONVERT_SIZE caps base u).

(** [value] with the sign as the flags ask for it, field width [min] and
    precision [max]. *)
Definition int_text (flags min max base value : Z) : list Z :=
  let sign := if flag flags DP_F_UNSIGNED then []
              else if value <? 0 then [45]
              else if flag flags DP_F_PLUS then [43]
              else if flag flags DP_F_SPACE then [32] else [] in
  let prefix := if flag flags DP_F_NUM then (if base =? 8 then str "0" else if base =? 16 then str "0x" else []) else [] in
  let digits := number_text (flag flags DP_F_UP) base (if flag flags DP_F_UNSIGNED then to_size value else Z.abs value) in
  let zeros := Z.to_nat (max - Z.of_nat (length digits)) in
  let rest := Z.to_nat (min - Z.of_nat (length sign + length prefix + zeros + length digits)) in
  if flag flags DP_F_ZERO then sign ++ prefix ++ replicate (Nat.max zeros rest) 48 ++ digits
  else if flag flags DP_F_MINUS then sign ++ prefix ++ replicate zeros 48 ++ digits ++ replicate rest 32
  else replicate rest 32 ++ sign ++ prefix ++ replicate zeros 48 ++ digits.

(** At most [max] characters of a string. *)
Definition str_text (flags min max : Z) (s : list Z) : list Z :=
  let s := take (Z.to_nat max) s in
  let rest := Z.to_nat (min - Z.of_nat (length s)) in
  if flag flags DP_F_MINUS then s ++ replicate rest 32 else replicate rest 32 ++ s.

(** A format as a list of directives, with the arguments they consume.  A field
    is a number, or a star and the argument it stands for. *)
Inductive field : Type :=
| Digits (ds : list Z)
| Star (v : Z).

Inductive modifier : Type := MNone | MShort | MLong | MLLong | MQuad | MMax | MSize.

Inductive conversion : Type :=
| CSigned (ch v : Z)
| CUnsigned (ch v : Z)
| CChar (c : Z)
| CString (q : ptr) (s : list Z)
| CPercent.

Inductive directive : Type :=
| Plain (c : Z)
| Spec (flags : list Z) (width : field) (prec : option field) (md : modifier) (cv : conversion).

Definition field_text (f : field) : list Z := match f with Digits ds => ds | Star _ => [42] end.
Definition field_args (f : field) : list va_arg := match f with Digits _ => [] | Star v => [VInt v] end.
Definition digits_value (acc : Z) (ds : list Z) : Z := fold_left (fun acc c => 10 * acc + (c - 48)) ds acc.
Definition width_value (f : field) : Z := match f with Digits ds => digits_value 0 ds | Star v => v end.

(** No digits count as no precision. *)
Definition prec_value (f : option field) : Z :=
  match f with
  | None | Some (Digits []) => -1
  | Some f => width_value f
  end.

Definition flag_bit (c : Z) : Z :=
  if c =? 45 then DP_F_MINUS else if c =? 43 then DP_F_PLUS else if c =? 32 then DP_F_SPACE else if c =? 35 then DP_F_NUM else DP_F_ZERO.

Definition flag_bits (acc : Z) (fl : list Z) : Z := fold_left (fun acc c => Z.lor acc (flag_bit c)) fl acc.

Definition mod_text (md : modifier) : list Z :=
  match md with MNone => [] | MShort => str "h" | MLong => str "l" | MLLong => str "ll" | MQuad => str "q" | MMax => str "j" | MSize => str "z" end.

Definition mod_cflags (md : modifier) : Z :=
  match md with MNone => 0 | MShort => DP_C_SHORT | MLong => DP_C_LONG | MLLong | MQuad | MMax => DP_C_LLONG | MSize => DP_C_SIZE end.

Definition wide (md : modifier) : bool := match md with MNone | MShort => false | _ => true end.

Definition conv_char (cv : conversion) : Z :=
  match cv with CSigned ch _ | CUnsigned ch _ => ch | CChar _ => 99 | CString _ _ => 115 | CPercent => 37 end.

Definition conv_args (md : modifier) (cv : conversion) : list va_arg :=
  match cv with
  | CSigned _ v | CUnsigned _ v => [if wide md then VLong v else VInt v]
  | CChar c => [VInt c]
  | CString q _ => [VPtr q]
  | CPercent => []
  end.

(** The text of a conversion; an array of [n] octets limits a string without a
    precision. *)
Definition conv_text (n : Z) (flags min max : Z) (md : modifier) (cv : conversion) : list Z :=
  match cv with
  | CSigned _ v => int_text flags min max 10 (match md with MNone => to_int v | MShort => to_short v | _ => to_int64 v end)
  | CUnsigned ch v =>
      int_text (Z.lor (if ch =? 88 then Z.lor flags DP_F_UP else flags) DP_F_UNSIGNED) min max
        (if ch =? 111 then 8 else if ch =? 117 then 10 else 16)
        (match md with MNone => to_uint v | MShort => to_ushort v | _ => to_int64 (to_size v) end)
  | CChar c => [to_uchar c]
  | CString _ s => str_text flags min (if max <? 0 then n else max) s
  | CPercent => [37]
  end.

Definition render (d : directive) : list Z :=
  match d with
  | Plain c => [c]
  | Spec fl w p md cv => 37 :: fl ++ field_text w ++ (match p with None => [] | Some f => 46 :: field_text f end) ++ mod_text md ++ [conv_char cv]
  end.

Definition directive_args (d : directive) : list va_arg :=
  match d with
  | Plain _ => []
  | Spec _ w p md cv => field_args w ++ (match p with None => [] | Some f => field_args f end) ++ conv_args md cv
  end.

Definition directive_text (n : Z) (d : directive) : list Z :=
  match d with
  | Plain c => [c]
  | Spec fl w p md cv => conv_text n (flag_bits 0 fl) (width_value w) (prec_value p) md cv
  end.

Definition format_of (ds : list directive) : list Z := concat (map render ds) ++ [0].
Definition args_of (ds : list directive) : list va_arg := concat (map directive_args ds).
Definition text_of (n : Z) (ds : list directive) : list Z := concat (map (directive_text n) ds).

Definition is_flag_char (c : Z) : bool := (c =? 45) || (c =? 43) || (c =? 32) || (c =? 35) || (c =? 48).
Definition digit_char_ok (c : Z) : Prop := 48 <= c <= 57.
(** ** Lemmas *)

Lemma get_sink_run k m : get_sink (k, m) = Ret (k, (k, m)).
Proof. done. Qed.

Lemma in_mem_ret {A} (f : M mem A) k m a m' : f m = Ret (a, m') -> in_mem f (k, m) = Ret (a, (k, m')).
Proof. intros E. unfold in_mem. by rewrite E. Qed.

(** *** A sink that is an array *)

Section static.
Context {AL : Allocator} (b : positive) (o n : Z) (P : mem -> Prop) (Hst : stable b P).

Definition sink_at (cur : Z) : sink := mkSink (Ptr b o) false NULL cur n.

(** After the characters [l]: as many as there is room for are stored. *)
Definition emitted (cur : Z) (m : mem) (l : list Z) : pst :=
  (sink_at (Z.min n (cur + Z.of_nat (length l))), mwrite m (Ptr b (o + cur)) (take (Z.to_nat (n - cur)) l)).

Definition prints (f : M pst bool) (l : list Z) : Prop :=
  forall m cur, P m -> room m (Ptr b o) n -> 0 <= cur <= n -> f (sink_at cur, m) = Ret (true, emitted cur m l).

Lemma emitted_room m cur (l : list Z) : room m (Ptr b o) n -> 0 <= cur <= n -> room m (Ptr b (o + cur)) (Z.of_nat (length (take (Z.to_nat (n - cur)) l))).
Proof. intros Hr Hc. apply (room_padd _ _ _ cur) in Hr; [|lia]. eapply room_le; [exact Hr|]. rewrite length_take. lia. Qed.

Lemma emitted_keeps m cur l : P m -> room m (Ptr b o) n -> 0 <= cur <= n ->
  let '(_, m') := emitted cur m l in P m' /\ room m' (Ptr b o) n.
Proof using Hst. intros HP Hr Hc. split; [by apply Hst|]. apply room_mwrite; [by apply emitted_room|lia|done]. Qed.

Lemma emitted_app m cur l1 l2 : room m (Ptr b o) n -> 0 <= cur <= n ->
  (let '(k, m') := emitted cur m l1 in emitted (sk_currlen k) m' l2) = emitted cur m (l1 ++ l2).
Proof.
  intros Hr Hc. unfold emitted, sink_at. cbn [sk_currlen]. rewrite length_app, take_app. set (c1 := Z.min n (cur + Z.of_nat (length l1))).
  f_equal; [f_equal; lia|]. destruct (Z.le_gt_cases (cur + Z.of_nat (length l1)) n) as [Hle|Hgt].
  - replace c1 with (cur + Z.of_nat (length l1)) by lia. rewrite (take_ge l1) by lia.
    replace (Z.to_nat (n - cur) - length l1)%nat with (Z.to_nat (n - (cur + Z.of_nat (length l1)))) by lia.
    pose proof (mwrite_app m (Ptr b (o + cur)) l1 (take (Z.to_nat (n - (cur + Z.of_nat (length l1)))) l2)) as E. cbn [padd] in E. rewrite Z.add_assoc.
    apply E. apply (room_padd _ _ _ cur) in Hr; [|lia]. eapply room_le; [exact Hr|]. rewrite length_take. lia.
  - replace (n - c1) with 0 by lia. replace (Z.to_nat (n - cur) - length l1)%nat with 0%nat by lia. by rewrite !take_0, mwrite_nil, app_nil_r.
Qed.

Lemma emitted_nil m cur : 0 <= cur <= n -> emitted cur m [] = (sink_at cur, m).
Proof. intros Hc. unfold emitted. rewrite take_nil, mwrite_nil. cbn [length]. do 2 f_equal. lia. Qed.

(** A full array takes nothing. *)
Lemma emitted_full m l : 0 <= n -> emitted n m l = (sink_at n, m).
Proof. intros Hn. unfold emitted. rewrite Z.sub_diag, take_0, mwrite_nil. do 2 f_equal. lia. Qed.

Lemma prints_nil : prints (mret true) [].
Proof. intros m cur HP Hr Hc. by rewrite emitted_nil. Qed.

Lemma prints_bind f g l1 l2 : prints f l1 -> prints g l2 -> prints (f &? g) (l1 ++ l2).
Proof using Hst.
  intros Hf Hg m cur HP Hr Hc. unfold and_then. rewrite (bind_ret _ _ _ _ _ (Hf m cur HP Hr Hc)). rewrite <- emitted_app by done.
  pose proof (emitted_keeps m cur l1 HP Hr Hc) as Hk. unfold emitted at 1 2. unfold emitted at 1 in Hk. destruct Hk as [HP' Hr'].
  unfold sink_at at 2. cbn [sk_currlen]. apply Hg; [done|done|lia].
Qed.

Lemma prints_outch c : prints (doapr_outch c) [to_uchar c].
Proof.
  intros m cur HP Hr Hc. unfold doapr_outch. rewrite (bind_ret _ _ _ _ _ (get_sink_run _ _)). unfold sink_at. cbn [sk_sbuffer sk_dynamic sk_buffer sk_currlen sk_maxlen is_null negb andb].
  destruct (Z.ltb_spec n cur); [lia|]. rewrite mbind_mret. cbn [negb]. rewrite (bind_ret _ _ _ _ _ (get_sink_run _ _)).
  cbn [sk_sbuffer sk_dynamic sk_buffer sk_currlen sk_maxlen is_null padd]. destruct (Z.ltb_spec cur n).
  - rewrite bind_assoc. erewrite bind_ret; [|apply in_mem_ret, store_room].
    2: { apply (room_padd _ _ _ cur) in Hr; [|lia]. eapply room_le; [exact Hr|lia]. }
    unfold emitted, sink_at. rewrite (take_ge [to_uchar c]) by (cbn [length]; lia). cbn [length]. by replace (Z.min n (cur + Z.of_nat 1)) with (cur + 1) by lia.
  - replace cur with n by lia. by rewrite emitted_full by lia.
Qed.

Lemma prints_all l : Forall is_byte l -> prints (outch_all l) l.
Proof using Hst.
  induction 1 as [|c l Hc Hl IH]; cbn [outch_all]; [apply prints_nil|]. apply (prints_bind _ _ [c]); [|done].
  pose proof (prints_outch c) as H. unfold to_uchar in H. unfold is_byte in Hc. by rewrite Z.mod_small in H by lia.
Qed.
End static.

(** *** Numbers *)

Lemma convert_length k : forall n caps base u, (0 < k <= n)%nat -> 2 <= base -> 0 <= u < base ^ Z.of_nat k -> (length (convert_loop n caps base u) <= k)%nat.
Proof.
  induction k as [|k IH]; intros n caps base u Hk Hb Hu; [lia|]. destruct n as [|n]; [lia|]. cbn [convert_loop length]. unfold truthy.
  destruct (Z.eqb_spec (u / base) 0) as [E|E]; cbn [negb length]; [lia|]. rewrite Nat2Z.inj_succ, Z.pow_succ_r in Hu by lia.
  assert (0 <= u / base < base ^ Z.of_nat k) as Hq by (split; [apply Z.div_pos; lia|apply Z.div_lt_upper_bound; lia]).
  destruct k as [|k]; [change (base ^ Z.of_nat 0) with 1 in Hq; lia|]. specialize (IH n caps base (u / base) ltac:(lia) Hb Hq). lia.
Qed.

Lemma digit_char (caps : bool) d : 0 <= d < 16 -> is_byte (nth (Z.to_nat d) (if caps then str "0123456789ABCDEF" else str "0123456789abcdef") 0) /\
  (d < 10 -> nth (Z.to_nat d) (if caps then str "0123456789ABCDEF" else str "0123456789abcdef") 0 = 48 + d).
Proof.
  intros Hd. assert (exists k : nat, d = Z.of_nat k /\ (k < 16)%nat) as (k & -> & Hk) by (exists (Z.to_nat d); lia). rewrite Nat2Z.id.
  do 16 (destruct k as [|k]; [destruct caps; vm_compute; repeat split; try discriminate; done|]). lia.
Qed.

Lemma convert_octets n : forall caps base u, 2 <= base <= 16 -> Forall is_byte (convert_loop n caps base u).
Proof.
  induction n as [|n IH]; intros caps base u Hb; cbn [convert_loop]; [constructor|]. apply Forall_cons. split.
  - apply digit_char. pose proof (Z.mod_pos_bound u base). lia.
  - destruct (truthy _); [by apply IH|constructor].
Qed.

(** Decimal digits are those of [decimal]. *)
Lemma convert_decimal k : forall n caps u acc, (0 < k <= n)%nat -> 0 <= u < 10 ^ Z.of_nat k -> rev (convert_loop n caps 10 u) ++ acc = Print.digits k u acc.
Proof.
  induction k as [|k IH]; intros n caps u acc Hk Hu; [lia|]. destruct n as [|n]; [lia|]. cbn [convert_loop Print.digits rev]. unfold truthy.
  pose proof (Z.mod_pos_bound u 10 ltac:(lia)) as Hm. pose proof (Z.div_mod u 10 ltac:(lia)) as Ed.
  destruct (digit_char caps (u mod 10) ltac:(lia)) as [_ ->]; [|lia]. destruct (Z.ltb_spec u 10) as [Hlt|Hge].
  - rewrite Z.div_small, Z.mod_small by lia. done.
  - destruct (Z.eqb_spec (u / 10) 0); [lia|]. cbn [negb]. rewrite <- app_assoc. cbn [app]. rewrite Nat2Z.inj_succ, Z.pow_succ_r in Hu by lia.
    assert (0 <= u / 10 < 10 ^ Z.of_nat k) as Hq by (split; [apply Z.div_pos; lia|apply Z.div_lt_upper_bound; lia]).
    apply IH; [|done]. destruct k; [change (10 ^ Z.of_nat 0) with 1 in Hq; lia|lia].
Qed.

Lemma number_text_decimal caps u : 0 <= u < 10 ^ 20 -> number_text caps 10 u = decimal u.
Proof. intros Hu. unfold number_text, decimal. rewrite <- (convert_decimal 20 CONVERT_SIZE caps u []); [by rewrite app_nil_r|unfold CONVERT_SIZE; lia|done]. Qed.

(** The number that digits stand for. *)
Definition digit_of (c : Z) : Z := if c <? 58 then c - 48 else if c <? 97 then c - 55 else c - 87.

Definition number_of (base : Z) (l : list Z) : Z := fold_left (fun acc c => acc * base + digit_of c) l 0.

Lemma digit_of_char (caps : bool) d : 0 <= d < 16 -> digit_of (nth (Z.to_nat d) (if caps then str "0123456789ABCDEF" else str "0123456789abcdef") 0) = d.
Proof.
  intros Hd. assert (exists k : nat, d = Z.of_nat k /\ (k < 16)%nat) as (k & -> & Hk) by (exists (Z.to_nat d); lia). rewrite Nat2Z.id.
  do 16 (destruct k as [|k]; [by destruct caps|]). lia.
Qed.

Lemma convert_value k : forall n caps base u, (0 < k <= n)%nat -> 2 <= base <= 16 -> 0 <= u < base ^ Z.of_nat k -> number_of base (rev (convert_loop n caps base u)) = u.
Proof.
  induction k as [|k IH]; intros n caps base u Hk Hb Hu; [lia|]. destruct n as [|n]; [lia|]. cbn [convert_loop rev]. unfold truthy.
  pose proof (Z.mod_pos_bound u base ltac:(lia)) as Hm. pose proof (Z.div_mod u base ltac:(lia)) as Ed.
  unfold number_of. rewrite fold_left_app. cbn [fold_left]. rewrite digit_of_char by lia.
  destruct (Z.eqb_spec (u / base) 0) as [E|E]; cbn [negb]; [cbn; lia|]. rewrite Nat2Z.inj_succ, Z.pow_succ_r in Hu by lia.
  assert (0 <= u / base < base ^ Z.of_nat k) as Hq by (split; [apply Z.div_pos; lia|apply Z.div_lt_upper_bound; lia]).
  destruct k as [|k]; [change (base ^ Z.of_nat 0) with 1 in Hq; lia|]. change (number_of base (rev (convert_loop n caps base (u / base))) * base + u mod base = u).
  rewrite (IH n caps base (u / base)); [lia|lia|done|done].
Qed.

(** The digits of 64 bits. *)
Definition is_base (base : Z) : Prop := base = 8 \/ base = 10 \/ base = 16.

Lemma pow_base base : is_base base -> 2 <= base <= 16 /\ 2 ^ 64 <= base ^ Z.of_nat 22.
Proof. intros [-> | [-> | ->]]; split; try lia; vm_compute; discriminate. Qed.

Lemma number_text_ok caps base u : is_base base -> 0 <= u < 2 ^ 64 ->
  number_of base (number_text caps base u) = u /\ (length (number_text caps base u) <= 22)%nat /\ Forall is_byte (number_text caps base u) /\
  take (CONVERT_SIZE - 1) (convert_loop CONVERT_SIZE caps base u) = rev (number_text caps base u).
Proof.
  intros Hb Hu. destruct (pow_base base Hb) as [Hb2 Hp]. unfold number_text. rewrite length_rev, rev_involutive.
  assert (length (convert_loop CONVERT_SIZE caps base u) <= 22)%nat as Hl by (apply convert_length; unfold CONVERT_SIZE; lia).
  split; [apply (convert_value 22); unfold CONVERT_SIZE; lia|]. split; [done|]. split; [|change (CONVERT_SIZE - 1)%nat with 25%nat; apply take_ge; lia].
  apply Forall_rev. by apply convert_octets.
Qed.

Lemma prints_eq {AL : Allocator} b o n P f l l' : prints b o n P f l -> l = l' -> prints b o n P f l'.
Proof. by intros H <-. Qed.

Lemma to_int_size z : INT_MIN <= z <= INT_MAX -> to_int (to_size z) = z.
Proof. unfold to_int, to_size, INT_MIN, INT_MAX. intros. Z.div_mod_to_equations. lia. Qed.

Lemma upto_nul_take k s : ~ 0 ∈ s -> upto_nul (take k (s ++ [0])) = take k s.
Proof.
  intros Hz. destruct (le_lt_dec k (length s)) as [Hle|Hlt].
  - rewrite take_app_le by done. clear Hle. revert k. induction s as [|c s IH]; intros [|k]; cbn [firstn upto_nul]; try done.
    destruct (Z.eqb_spec c 0) as [->|]; [set_solver|]. f_equal. apply IH. set_solver.
  - rewrite !take_ge; [|lia|rewrite length_app; cbn; lia]. by apply (upto_nul_cstr s []).
Qed.

Lemma replicate_octets k c : is_byte c -> Forall is_byte (replicate k c).
Proof. intros Hc. apply Forall_forall. by intros x [-> _]%elem_of_replicate. Qed.

Section conversions.
Context {AL : Allocator} (b : positive) (o n : Z) (P : mem -> Prop) (Hst : stable b P).

Lemma prints_int z (k : Z -> M pst bool) l : INT_MIN <= z <= INT_MAX -> prints b o n P (k z) l -> prints b o n P (int_result z ≫= k) l.
Proof. intros Hz Hk m cur HP Hr Hc. rewrite (bind_ret _ _ _ _ _ (int_result_ok z (sink_at b o n cur, m) Hz)). by apply Hk. Qed.

(** Padding, sign, prefix, zeros, digits and padding. *)
Lemma prints_parts k1 s p k2 d k3 l : Forall is_byte s -> Forall is_byte p -> Forall is_byte d ->
  l = replicate k1 32 ++ s ++ p ++ replicate k2 48 ++ d ++ replicate k3 32 ->
  prints b o n P (outch_all (replicate k1 32) &? outch_all s &? outch_all p &? outch_all (replicate k2 48) &? outch_all d &? outch_all (replicate k3 32)) l.
Proof using Hst.
  intros Hs Hp Hd ->. repeat (apply (prints_bind b o n P Hst); [apply (prints_all b o n P Hst); try done; by apply replicate_octets|]).
  apply (prints_all b o n P Hst). by apply replicate_octets.
Qed.

(** fmtint prints the text of the number. *)
Lemma fmtint_prints value base min max flags : - 2 ^ 63 <= value < 2 ^ 63 -> is_base base -> 0 <= min <= 2 ^ 30 -> max <= 2 ^ 30 ->
  prints b o n P (fmtint value base min max flags) (int_text flags min max base value).
Proof using Hst.
  intros Hv Hb Hmin Hmax. unfold fmtint, int_text. set (max' := if max <? 0 then 0 else max).
  set (sign := if flag flags DP_F_UNSIGNED then [] else if value <? 0 then [45] else if flag flags DP_F_PLUS then [43] else if flag flags DP_F_SPACE then [32] else []).
  set (u := if flag flags DP_F_UNSIGNED then to_size value else Z.abs value).
  assert ((if flag flags DP_F_UNSIGNED then ([], to_size value) else if value <? 0 then ([45], to_size (0 - to_size value))
    else (if flag flags DP_F_PLUS then [43] else if flag flags DP_F_SPACE then [32] else [], to_size value)) = (sign, u)) as ->.
  { unfold sign, u. destruct (flag flags DP_F_UNSIGNED); [done|]. unfold to_size. destruct (Z.ltb_spec value 0).
    - f_equal. Z.div_mod_to_equations. lia.
    - by rewrite Z.mod_small, Z.abs_eq by lia. }
  assert (0 <= u < 2 ^ 64) as Hu by (unfold u, to_size; destruct (flag _ _); [apply Z.mod_pos_bound|]; lia).
  assert (Forall is_byte sign /\ (length sign <= 1)%nat) as [Hs Hsl].
  { unfold sign. repeat case_match; split; repeat constructor; unfold is_byte; cbn; lia. }
  set (prefix := if flag flags DP_F_NUM then (if base =? 8 then str "0" else if base =? 16 then str "0x" else []) else []).
  assert (Forall is_byte prefix /\ (length prefix <= 2)%nat) as [Hp Hpl].
  { unfold prefix. repeat case_match; split; repeat constructor; unfold is_byte; cbn; lia. }
  destruct (number_text_ok (flag flags DP_F_UP) base u Hb Hu) as (_ & Hnl & Hno & ->). set (digits := number_text (flag flags DP_F_UP) base u) in *.
  clearbody sign u prefix digits. rewrite length_rev, rev_involutive. cbv zeta.
  assert (0 <= max' <= 2 ^ 30) as Hm' by (unfold max'; destruct (Z.ltb_spec max 0); lia).
  assert (Z.to_nat (max - Z.of_nat (length digits)) = Z.to_nat (max' - Z.of_nat (length digits))) as -> by (unfold max'; destruct (Z.ltb_spec max 0); lia).
  clearbody max'. set (L := Z.of_nat (length digits)) in *. assert (0 <= L <= 22) as HL by lia. change (2 ^ 30) with 1073741824 in *.
  apply prints_int; [unfold INT_MIN, INT_MAX; lia|]. apply prints_int; [unfold INT_MIN, INT_MAX; lia|].
  set (w := min - Z.max max' L - Z.of_nat (length sign) - Z.of_nat (length prefix)).
  assert (to_int (to_size w) = w) as -> by (apply to_int_size; unfold INT_MIN, INT_MAX; lia).
  set (Z0 := Z.to_nat (max' - L)). replace (Z.to_nat (min - Z.of_nat (length sign + length prefix + Z0 + length digits))) with (Z.to_nat w) by lia.
  assert (Z.to_nat (if max' - L <? 0 then 0 else max' - L) = Z0) as EZ by (destruct (Z.ltb_spec (max' - L) 0); lia).
  assert (Z.to_nat (if w <? 0 then 0 else w) = Z.to_nat w) as Ew by (destruct (Z.ltb_spec w 0); lia).
  set (z := if max' - L <? 0 then 0 else max' - L) in *. set (v := if w <? 0 then 0 else w) in *.
  assert (0 <= z /\ 0 <= v) as [Hz Hv0] by (unfold z, v; destruct (Z.ltb_spec (max' - L) 0), (Z.ltb_spec w 0); lia). clearbody z v.
  destruct (flag flags DP_F_ZERO).
  - apply prints_parts; [done..|]. rewrite Z2Nat.inj_max, EZ, Ew. destruct (flag flags DP_F_MINUS); cbn; by rewrite app_nil_r.
  - destruct (flag flags DP_F_MINUS); apply prints_parts; try done.
    + rewrite Z.opp_involutive, EZ, Ew. replace (Z.to_nat (- v)) with 0%nat by lia. done.
    + rewrite EZ, Ew. replace (Z.to_nat (- v)) with 0%nat by lia. cbn [replicate]. by rewrite app_nil_r.
Qed.
(** The characters [cs] of [get], one after the other. *)
Lemma fmtstr_loop_run get max cs : forall i cnt m cur, Forall is_byte cs ->
  (forall k m' j c, P m' -> cs !! j = Some c -> get (i + Z.of_nat j) (k, m') = Ret (c, (k, m'))) ->
  P m -> room m (Ptr b o) n -> 0 <= cur <= n -> cnt + Z.of_nat (length cs) <= max ->
  fmtstr_loop (length cs) get i cnt max (sink_at b o n cur, m) = Ret ((true, cnt + Z.of_nat (length cs)), emitted b o n cur m cs).
Proof using Hst.
  induction cs as [|c cs IH]; intros i cnt m cur Hy Hget HP Hr Hc Hmax; cbn [length fmtstr_loop].
  { rewrite emitted_nil by done. by replace (cnt + Z.of_nat 0) with cnt by lia. }
  apply Forall_cons in Hy as [Hcb Hy]. cbn [length] in Hmax. destruct (Z.ltb_spec cnt max); [|lia]. rewrite orb_true_r.
  pose proof (Hget (sink_at b o n cur) m 0%nat c HP eq_refl) as Eg. rewrite Z.add_0_r in Eg. rewrite (bind_ret _ _ _ _ _ Eg).
  rewrite (bind_ret _ _ _ _ _ (prints_outch b o n P c m cur HP Hr Hc)). cbn [negb].
  replace (to_uchar c) with c by (unfold to_uchar, is_byte in *; by rewrite Z.mod_small by lia).
  change (c :: cs) with ([c] ++ cs). rewrite <- emitted_app by done. pose proof (emitted_keeps b o n P Hst m cur [c] HP Hr Hc) as Hk.
  unfold emitted at 1 2. unfold emitted at 1 in Hk. destruct Hk as [HP' Hr']. unfold sink_at at 2. cbn [sk_currlen].
  replace (cnt + Z.of_nat (S (length cs))) with (cnt + 1 + Z.of_nat (length cs)) by lia. apply IH; [done| |done|done|lia|lia].
  intros k m' j c' HP2 Hj. specialize (Hget k m' (S j) c' HP2 Hj). by replace (i + 1 + Z.of_nat j) with (i + Z.of_nat (S j)) by lia.
Qed.

Lemma spaces_run max k cnt m cur : P m -> room m (Ptr b o) n -> 0 <= cur <= n -> cnt + Z.of_nat k <= max ->
  fmtstr_loop k (fun _ => mret 32) 0 cnt max (sink_at b o n cur, m) = Ret ((true, cnt + Z.of_nat k), emitted b o n cur m (replicate k 32)).
Proof using Hst.
  intros HP Hr Hc Hmax. pose proof (fmtstr_loop_run (fun _ => mret 32 : M pst Z) max (replicate k 32) 0 cnt m cur) as E. rewrite length_replicate in E.
  apply E; try done; [by apply replicate_octets|]. intros k' m' j c _ [-> _]%lookup_replicate. done.
Qed.

(** The argument of [%s]: a string that printing does not change, or no pointer. *)
Definition string_arg (q : ptr) (s : list Z) : Prop :=
  Forall is_byte s /\ ((q = NULL /\ s = str "<NULL>") \/ (~ 0 ∈ s /\ forall m, P m -> bytes_at m q (s ++ [0]))).

(** Its characters. *)
Lemma string_arg_char q s : string_arg q s -> forall k m j c, P m -> s !! j = Some c ->
  (if is_null q then array_get (str "<NULL>") (0 + Z.of_nat j) else in_mem (load (padd q (0 + Z.of_nat j)))) (k, m) = Ret (c, (k, m)).
Proof.
  intros (Hy & [(-> & ->)|(Hz & Hs)]) k m j c HP Hj.
  - cbn [is_null]. unfold array_get. apply lookup_lt_Some in Hj as Hlt. destruct (Z.leb_spec 0 (0 + Z.of_nat j)); [|lia].
    destruct (Z.ltb_spec (0 + Z.of_nat j) (Z.of_nat (length (str "<NULL>")))); [|lia]. cbn [andb]. rewrite Z.add_0_l, Nat2Z.id. by rewrite Hj.
  - specialize (Hs m HP). destruct (is_null q) eqn:En; [by destruct q; destruct Hs|]. apply in_mem_ret. rewrite Z.add_0_l.
    apply bytes_at_app in Hs as [Hs _]. rewrite <- (take_drop_middle s j c Hj) in Hs. apply bytes_at_app in Hs as [_ Hs]. rewrite length_take_le in Hs.
    + by apply (load_at _ _ _ (drop (S j) s)).
    + apply lookup_lt_Some in Hj. lia.
Qed.

Lemma string_arg_length q s : string_arg q s -> forall k m max, P m -> 0 <= max ->
  (if is_null q then mret (Z.min max (Z.of_nat (length (str "<NULL>")))) else in_mem (OPENSSL_strnlen q max)) (k, m) =
  Ret (Z.of_nat (length (take (Z.to_nat max) s)), (k, m)).
Proof.
  intros (Hy & [(-> & ->)|(Hz & Hs)]) k m max HP Hm.
  - cbn [is_null]. unfold mret, M_ret. do 2 f_equal. rewrite length_take. lia.
  - specialize (Hs m HP). destruct (is_null q) eqn:En; [by destruct q; destruct Hs|]. apply in_mem_ret. unfold OPENSSL_strnlen.
    rewrite (strnlen_loop_run (Z.to_nat max) m q (s ++ [0]) 0 Hs); [|right; apply elem_of_app; right; by apply elem_of_cons; left]. rewrite Z.add_0_l, upto_nul_take by done. done.
Qed.

(** Padding, characters, padding, when [max] does not cut them. *)
Lemma fmtstr_parts get max k1 t k3 : Forall is_byte t -> Z.of_nat (k1 + length t + k3) <= max ->
  (forall k m j c, P m -> t !! j = Some c -> get (0 + Z.of_nat j) (k, m) = Ret (c, (k, m))) ->
  prints b o n P
    ('(ok, cnt) ← fmtstr_loop k1 (fun _ => mret 32) 0 0 max;
     if negb ok then mret false
     else
       '(ok, cnt) ← fmtstr_loop (length t) get 0 cnt max;
       if negb ok then mret false
       else '(ok, _) ← fmtstr_loop k3 (fun _ => mret 32) 0 cnt max; mret ok)
    (replicate k1 32 ++ t ++ replicate k3 32).
Proof using Hst.
  intros Ht Hmax Hget m cur HP Hr Hc. rewrite (bind_ret _ _ _ _ _ (spaces_run max k1 0 m cur HP Hr Hc ltac:(lia))). cbn [negb].
  rewrite <- emitted_app by done. pose proof (emitted_keeps b o n P Hst m cur (replicate k1 32) HP Hr Hc) as Hk.
  destruct (emitted b o n cur m (replicate k1 32)) as [sk1 m1] eqn:E1. destruct Hk as [HP1 Hr1]. injection E1 as <- _. unfold sink_at at 2. cbn [sk_currlen].
  set (c1 := Z.min n (cur + Z.of_nat (length (replicate k1 32)))). assert (0 <= c1 <= n) as Hc1 by lia. clearbody c1.
  rewrite (bind_ret _ _ _ _ _ (fmtstr_loop_run get max t 0 (0 + Z.of_nat k1) m1 c1 Ht Hget HP1 Hr1 Hc1 ltac:(lia))). cbn [negb].
  rewrite <- emitted_app by done. pose proof (emitted_keeps b o n P Hst m1 c1 t HP1 Hr1 Hc1) as Hk.
  destruct (emitted b o n c1 m1 t) as [sk2 m2] eqn:E2. destruct Hk as [HP2 Hr2]. injection E2 as <- _. unfold sink_at at 2. cbn [sk_currlen].
  set (c2 := Z.min n (c1 + Z.of_nat (length t))). assert (0 <= c2 <= n) as Hc2 by lia. clearbody c2.
  by rewrite (bind_ret _ _ _ _ _ (spaces_run max k3 (0 + Z.of_nat k1 + Z.of_nat (length t)) m2 c2 HP2 Hr2 Hc2 ltac:(lia))).
Qed.

(** fmtstr prints at most [max] characters of the string, padded. *)
Lemma fmtstr_prints q s flags min max : string_arg q s -> 0 <= min <= 2 ^ 30 -> 0 <= max <= INT_MAX ->
  prints b o n P (fmtstr q flags min max) (str_text flags min max s).
Proof using Hst.
  intros Hs Hmin Hmax m cur HP Hr Hc. unfold fmtstr, str_text. destruct (Z.ltb_spec max 0); [lia|]. cbv zeta.
  rewrite (bind_ret _ _ _ _ _ (string_arg_length q s Hs _ m max HP ltac:(lia))). set (t := take (Z.to_nat max) s).
  assert (Z.of_nat (length t) <= max) as Hl by (unfold t; rewrite length_take; lia).
  assert (to_int (to_size (min - Z.of_nat (length t))) = min - Z.of_nat (length t)) as -> by (apply to_int_size; unfold INT_MIN, INT_MAX in *; lia).
  set (k := Z.to_nat (min - Z.of_nat (length t))).
  assert ((if (min <? 0) || (min - Z.of_nat (length t) <? 0) then 0 else min - Z.of_nat (length t)) = Z.of_nat k) as -> by
    (destruct (Z.ltb_spec min 0), (Z.ltb_spec (min - Z.of_nat (length t)) 0); cbn [orb]; lia).
  destruct (Z.leb_spec 0 max); [|lia]. set (M := if max <? INT_MAX - Z.of_nat k then max + Z.of_nat k else INT_MAX).
  assert (Z.of_nat (k + length t) <= M) as HM by (unfold M, INT_MAX in *; destruct (Z.ltb_spec max (2147483647 - Z.of_nat k)); lia). clearbody M k.
  assert (Forall is_byte t) as Ht by (apply Forall_take, Hs).
  assert (forall k m j c, P m -> t !! j = Some c -> (if is_null q then array_get (str "<NULL>") (0 + Z.of_nat j) else in_mem (load (padd q (0 + Z.of_nat j)))) (k, m) = Ret (c, (k, m))) as Hget.
  { intros k' m' j c HP' Hj. apply (string_arg_char q s Hs); [done|]. unfold t in Hj. by apply lookup_take_Some in Hj as [? _]. }
  rewrite (Nat2Z.id (length t)). destruct (flag flags DP_F_MINUS).
  - rewrite Z.opp_involutive, Nat2Z.id. replace (Z.to_nat (- Z.of_nat k)) with 0%nat by lia.
    apply (fmtstr_parts _ M 0 t k Ht ltac:(lia) Hget); done.
  - rewrite Nat2Z.id. replace (Z.to_nat (- Z.of_nat k)) with 0%nat by lia.
    pose proof (fmtstr_parts (fun i => if is_null q then array_get (str "<NULL>") i else in_mem (load (padd q i))) M k t 0 Ht ltac:(lia) Hget) as E. cbn [replicate] in E. rewrite app_nil_r in E. by apply E.
Qed.
End conversions.

(** *** The state machine *)

Lemma digits_value_grows ds : forall acc, 0 <= acc -> Forall digit_char_ok ds -> acc <= digits_value acc ds.
Proof.
  induction ds as [|c ds IH]; intros acc Ha Hd; cbn [digits_value fold_left]; [lia|]. apply Forall_cons in Hd as [Hc Hd]. unfold digit_char_ok in Hc.
  specialize (IH (10 * acc + (c - 48)) ltac:(lia) Hd). unfold digits_value in IH. lia.
Qed.

Lemma isdigit_ok c : ossl_isdigit c = true <-> digit_char_ok c.
Proof. unfold ossl_isdigit, ASCII_IS_DIGIT, digit_char_ok. change (ossl_toascii c) with c. lia. Qed.

(** The character of a conversion is none of those before it. *)
Definition is_conv (c : Z) : Prop := c = 100 \/ c = 105 \/ c = 88 \/ c = 120 \/ c = 111 \/ c = 117 \/ c = 99 \/ c = 115 \/ c = 37.

Lemma conv_char_ok P cv : (match cv with CSigned ch _ => ch = 100 \/ ch = 105 | CUnsigned ch _ => ch = 88 \/ ch = 120 \/ ch = 111 \/ ch = 117 | CString q s => string_arg P q s | _ => True end) ->
  is_conv (conv_char cv).
Proof. unfold is_conv. destruct cv; cbn; tauto. Qed.

Section machine.
Context {AL : Allocator} (fmtfp : Z -> Z -> Z -> Z -> Z -> M pst bool) (address : ptr -> Z).
Context (b : positive) (o n : Z) (P : mem -> Prop) (Hst : stable b P).

(** Well-formed directives; [P] keeps their strings. *)
Definition wf_directive (d : directive) : Prop :=
  match d with
  | Plain c => is_byte c /\ c <> 0 /\ c <> 37
  | Spec fl w p md cv =>
      Forall (fun c => is_flag_char c = true) fl /\
      (match w with Digits ds => Forall digit_char_ok ds /\ hd 0 ds <> 48 | Star _ => True end) /\ 0 <= width_value w <= 2 ^ 30 /\
      (match p with Some (Digits ds) => Forall digit_char_ok ds | _ => True end) /\ prec_value p <= 2 ^ 30 /\
      (match cv with
       | CSigned ch _ => ch = 100 \/ ch = 105
       | CUnsigned ch _ => ch = 88 \/ ch = 120 \/ ch = 111 \/ ch = 117
       | CString q s => string_arg P q s
       | _ => True
       end)
  end.

(** The variables before the characters [l] of the format. *)
Definition at_char (l : list Z) (args : list va_arg) (st : dp_state) (fl cf mi ma : Z) : dp := mkDp (hd 0 l) (tail l) args st fl cf mi ma.

(** [k] passes lead from one state to another. *)
Definition passes (k : nat) (d : dp) (s : pst) (d' : dp) (s' : pst) : Prop :=
  forall fuel, dopr_loop fmtfp address (k + fuel) d s = dopr_loop fmtfp address fuel d' s'.

Lemma passes_trans k1 k2 d1 s1 d2 s2 d3 s3 : passes k1 d1 s1 d2 s2 -> passes k2 d2 s2 d3 s3 -> passes (k1 + k2) d1 s1 d3 s3.
Proof. intros H1 H2 fuel. rewrite <- Nat.add_assoc, H1. apply H2. Qed.

Lemma passes_0 d s : passes 0 d s d s.
Proof. by intros fuel. Qed.

Lemma passes_1 d s d' s' : dopr_step fmtfp address d s = Ret (Some d', s') -> dp_st d' <> DP_S_DONE -> passes 1 d s d' s'.
Proof. intros E Hd fuel. cbn [Nat.add dopr_loop]. rewrite (bind_ret _ _ _ _ _ E). by destruct (dp_st d'). Qed.
Context (cur : Z) (m : mem) (Hcur : cur < n).
Notation here := (sink_at b o n cur, m).

(** A pass that does not stop. *)
Lemma step_goes_on d : dp_ch d <> 0 -> (dp_ch d =? 0) || (negb (sk_dynamic (sink_at b o n cur)) && (sk_maxlen (sink_at b o n cur) <=? sk_currlen (sink_at b o n cur))) = false.
Proof using Hcur fmtfp. intros Hd. unfold sink_at. cbn. destruct (Z.eqb_spec (dp_ch d) 0); [done|]. destruct (Z.leb_spec n cur); [lia|done]. Qed.

Ltac open_step := unfold dopr_step; rewrite (bind_ret _ _ _ _ _ (get_sink_run _ _)); cbv zeta; rewrite step_goes_on by done; cbn [at_char dp_st dp_ch dp_format dp_args dp_flags dp_cflags dp_min dp_max hd tail app].

Lemma flags_phase fl : forall c l args f cf mi ma, Forall (fun c => is_flag_char c = true) fl -> is_flag_char c = false -> c <> 0 ->
  passes (length fl + 1) (at_char (fl ++ c :: l) args DP_S_FLAGS f cf mi ma) here (at_char (c :: l) args DP_S_MIN (flag_bits f fl) cf mi ma) here.
Proof using Hcur fmtfp.
  induction fl as [|x fl IH]; intros c l args f cf mi ma Hfl Hc Hc0.
  - apply passes_1; [|done]. open_step. unfold is_flag_char in Hc.
    destruct (c =? 45), (c =? 43), (c =? 32), (c =? 35), (c =? 48); try discriminate Hc. done.
  - apply Forall_cons in Hfl as [Hx Hfl]. cbn [length Nat.add]. eapply (passes_trans 1); [|apply (IH c l args (Z.lor f (flag_bit x)) cf mi ma Hfl Hc Hc0)].
    assert (x <> 0) by (intros ->; discriminate). apply passes_1; [|done]. open_step. cbn [app]. unfold is_flag_char in Hx. unfold flag_bit.
    destruct (fl ++ c :: l) as [|y r] eqn:El; [by destruct fl|].
    destruct (x =? 45), (x =? 43), (x =? 32), (x =? 35), (x =? 48); try discriminate Hx; done.
Qed.
(** The digits of the field width. *)
Lemma min_digits ds : forall c l args f cf mi ma, 0 <= mi -> Forall digit_char_ok ds -> digits_value mi ds <= 2 ^ 30 -> ossl_isdigit c = false -> c <> 42 -> c <> 0 ->
  passes (length ds + 1) (at_char (ds ++ c :: l) args DP_S_MIN f cf mi ma) here (at_char (c :: l) args DP_S_DOT f cf (digits_value mi ds) ma) here.
Proof using Hcur fmtfp.
  induction ds as [|x ds IH]; intros c l args f cf mi ma Hmi Hds Hv Hc Hc1 Hc0.
  - apply passes_1; [|done]. open_step. rewrite Hc. by destruct (Z.eqb_spec c 42).
  - apply Forall_cons in Hds as [Hx Hds]. pose proof (proj2 (isdigit_ok x) Hx) as Ex. unfold digit_char_ok in Hx. cbn [length Nat.add].
    cbn [digits_value fold_left] in Hv. change (fold_left _ ds (10 * mi + (x - 48))) with (digits_value (10 * mi + (x - 48)) ds) in Hv.
    pose proof (digits_value_grows ds (10 * mi + (x - 48)) ltac:(lia) Hds) as Hg.
    eapply (passes_trans 1); [|apply (IH c l args f cf (10 * mi + (x - 48)) ma); try done; lia].
    apply passes_1; [|done]. assert (x <> 0) by lia. open_step. rewrite Ex. destruct (ds ++ c :: l) as [|y r] eqn:El; [by destruct ds|].
    by rewrite (bind_ret _ _ _ _ _ (int_result_ok (10 * mi + (x - 48)) here ltac:(unfold INT_MIN, INT_MAX; lia))).
Qed.

Lemma width_phase w c l args f cf ma : (match w with Digits ds => Forall digit_char_ok ds | Star _ => True end) -> 0 <= width_value w <= 2 ^ 30 ->
  ossl_isdigit c = false -> c <> 42 -> c <> 0 -> exists k, (k <= length (field_text w) + 1)%nat /\
  passes k (at_char (field_text w ++ c :: l) (field_args w ++ args) DP_S_MIN f cf 0 ma) here (at_char (c :: l) args DP_S_DOT f cf (width_value w) ma) here.
Proof using Hcur fmtfp.
  intros Hw Hv Hc Hc1 Hc0. destruct w as [ds|v]; cbn [field_text field_args width_value app] in *.
  - exists (length ds + 1)%nat. split; [lia|]. apply min_digits; done || lia.
  - exists 1%nat. split; [cbn; lia|]. apply passes_1; [|done]. by open_step.
Qed.

(** The digits of the precision. *)
Lemma max_digits ds : forall c l args f cf mi ma, Forall digit_char_ok ds -> digits_value (Z.max 0 ma) ds <= 2 ^ 30 -> ossl_isdigit c = false -> c <> 42 -> c <> 0 ->
  passes (length ds + 1) (at_char (ds ++ c :: l) args DP_S_MAX f cf mi ma) here
    (at_char (c :: l) args DP_S_MOD f cf mi (match ds with [] => ma | _ => digits_value (Z.max 0 ma) ds end)) here.
Proof using Hcur fmtfp.
  induction ds as [|x ds IH]; intros c l args f cf mi ma Hds Hv Hc Hc1 Hc0.
  - apply passes_1; [|done]. open_step. rewrite Hc. by destruct (Z.eqb_spec c 42).
  - apply Forall_cons in Hds as [Hx Hds]. pose proof (proj2 (isdigit_ok x) Hx) as Ex. unfold digit_char_ok in Hx. cbn [length Nat.add].
    cbn [digits_value fold_left] in *. set (v := 10 * Z.max 0 ma + (x - 48)) in *. assert (0 <= v) as Hv0 by lia.
    change (fold_left _ ds v) with (digits_value v ds) in *. pose proof (digits_value_grows ds v Hv0 Hds) as Hg.
    specialize (IH c l args f cf mi v Hds). rewrite Z.max_r in IH by lia. specialize (IH Hv Hc Hc1 Hc0).
    replace (match ds with [] => v | _ => digits_value v ds end) with (digits_value v ds) in IH by by destruct ds.
    eapply (passes_trans 1); [|exact IH].
    apply passes_1; [|done]. assert (x <> 0) by lia. open_step. rewrite Ex. destruct (ds ++ c :: l) as [|y r] eqn:El; [by destruct ds|].
    replace (10 * (if ma <? 0 then 0 else ma) + (x - 48)) with v by (unfold v; destruct (Z.ltb_spec ma 0); lia).
    by rewrite (bind_ret _ _ _ _ _ (int_result_ok v here ltac:(unfold INT_MIN, INT_MAX; lia))).
Qed.

Lemma prec_phase p c l args f cf mi : (match p with Some (Digits ds) => Forall digit_char_ok ds | _ => True end) -> prec_value p <= 2 ^ 30 ->
  ossl_isdigit c = false -> c <> 42 -> c <> 46 -> c <> 0 ->
  let t := match p with None => [] | Some f => 46 :: field_text f end in
  exists k, (k <= length t + 1)%nat /\
  passes k (at_char (t ++ c :: l) ((match p with None => [] | Some f => field_args f end) ++ args) DP_S_DOT f cf mi (-1)) here
    (at_char (c :: l) args DP_S_MOD f cf mi (prec_value p)) here.
Proof using Hcur fmtfp.
  intros Hp Hv Hc Hc1 Hc2 Hc0. destruct p as [[ds|v]|]; cbn [field_text field_args prec_value width_value length app] in *.
  - exists (1 + (length ds + 1))%nat. split; [lia|]. apply (passes_trans 1 _ _ _ (at_char (ds ++ c :: l) args DP_S_MAX f cf mi (-1)) here).
    { apply passes_1; [|done]. open_step. by destruct (ds ++ c :: l) as [|y r] eqn:El; [destruct ds|]. }
    pose proof (max_digits ds c l args f cf mi (-1) Hp) as H. destruct ds as [|x ds]; apply H; try done.
  - exists (1 + 1)%nat. split; [lia|]. apply (passes_trans 1 _ _ _ (at_char (42 :: c :: l) (VInt v :: args) DP_S_MAX f cf mi (-1)) here).
    { apply passes_1; [|done]. by open_step. }
    apply passes_1; [|done]. by open_step.
  - exists 1%nat. split; [lia|]. apply passes_1; [|done]. open_step. by destruct (Z.eqb_spec c 46).
Qed.

Lemma mod_phase md c l args f mi ma : is_conv c ->
  passes 1 (at_char (mod_text md ++ c :: l) args DP_S_MOD f 0 mi ma) here (at_char (c :: l) args DP_S_CONV f (mod_cflags md) mi ma) here.
Proof using Hcur fmtfp.
  intros Hc. apply passes_1; [|done]. assert (hd 0 (mod_text md ++ c :: l) <> 0) as H0 by (destruct md; try discriminate; unfold is_conv in Hc; cbn; lia).
  unfold is_conv in Hc. destruct md; cbn [mod_text str app] in *; open_step; try done.
  - destruct_or! Hc; by subst c.
  - cbn [next]. destruct_or! Hc; by subst c.
Qed.
Context (HP : P m) (Hroom : room m (Ptr b o) n) (Hcur0 : 0 <= cur) (Hn : n <= INT_MAX).

Lemma conv_run f mi ma md cv format args : 0 <= mi <= 2 ^ 30 -> ma <= 2 ^ 30 ->
  (match cv with CSigned ch _ => ch = 100 \/ ch = 105 | CUnsigned ch _ => ch = 88 \/ ch = 120 \/ ch = 111 \/ ch = 117 | CString q s => string_arg P q s | _ => True end) ->
  dopr_conv fmtfp address (conv_char cv) (mod_cflags md) mi ma f format (conv_args md cv ++ args) here =
  Ret ((true, format, args), emitted b o n cur m (conv_text n f mi ma md cv)).
Proof using Hst Hcur HP Hroom Hcur0 Hn.
  intros Hmi Hma Hcv. assert (0 <= cur <= n) as Hc by lia.
  assert (forall v base g, - 2 ^ 63 <= v < 2 ^ 63 -> is_base base -> fmtint v base mi ma g here = Ret (true, emitted b o n cur m (int_text g mi ma base v))) as Hint.
  { intros v base g Hv Hb. by apply (fmtint_prints b o n P Hst). }
  destruct cv as [ch v|ch v|c|q s|]; cbn [conv_char conv_args conv_text app].
  - assert ((ch =? 100) || (ch =? 105) = true) as E by lia. unfold dopr_conv. rewrite E.
    set (v' := match md with MNone => to_int v | MShort => to_short v | _ => to_int64 v end).
    assert (signed_value (mod_cflags md) ((if wide md then VLong v else VInt v) :: args) here = Ret ((v', args), here)) as Ev by by destruct md.
    rewrite (bind_ret _ _ _ _ _ Ev). rewrite (bind_ret _ _ _ _ _ (Hint v' 10 f ltac:(unfold v', to_int, to_short, to_int64; destruct md; Z.div_mod_to_equations; lia) ltac:(right; by left))). done.
  - assert ((ch =? 100) || (ch =? 105) = false /\ (ch =? 88) || (ch =? 120) || (ch =? 111) || (ch =? 117) = true) as [E1 E2] by lia. unfold dopr_conv. rewrite E1, E2. cbv zeta.
    set (v' := match md with MNone => to_uint v | MShort => to_ushort v | _ => to_int64 (to_size v) end).
    assert (unsigned_value (mod_cflags md) ((if wide md then VLong v else VInt v) :: args) here = Ret ((v', args), here)) as Ev by by destruct md.
    rewrite (bind_ret _ _ _ _ _ Ev). set (base := if ch =? 111 then 8 else if ch =? 117 then 10 else 16).
    assert (is_base base) as Hb by (unfold base, is_base; destruct (ch =? 111), (ch =? 117); auto).
    rewrite (bind_ret _ _ _ _ _ (Hint v' base _ ltac:(unfold v', to_uint, to_ushort, to_int64; destruct md; Z.div_mod_to_equations; lia) Hb)). done.
  - unfold dopr_conv. cbn [Z.eqb Pos.eqb orb]. cbn [va_int]. rewrite mbind_mret. by rewrite (bind_ret _ _ _ _ _ (prints_outch b o n P c m cur HP Hroom Hc)).
  - unfold dopr_conv. cbn [Z.eqb Pos.eqb orb]. cbn [va_ptr]. rewrite mbind_mret, (bind_ret _ _ _ _ _ (get_sink_run _ _)). unfold sink_at at 2 3. cbn [sk_dynamic sk_maxlen]. cbv zeta.
    assert (to_int n = n) as -> by (unfold to_int, INT_MAX in *; rewrite Z.mod_small by lia; lia).
    rewrite (bind_ret _ _ _ _ _ (fmtstr_prints b o n P Hst q s f mi (if ma <? 0 then n else ma) Hcv Hmi ltac:(unfold INT_MAX in *; destruct (Z.ltb_spec ma 0); lia) m cur HP Hroom Hc)). done.
  - unfold dopr_conv. cbn [Z.eqb Pos.eqb orb]. by rewrite (bind_ret _ _ _ _ _ (prints_outch b o n P 37 m cur HP Hroom Hc)).
Qed.

(** One directive. *)
Lemma directive_phase d c l args : wf_directive d -> exists k, (k <= 7 * length (render d))%nat /\
  passes k (at_char (render d ++ c :: l) (directive_args d ++ args) DP_S_DEFAULT 0 0 0 (-1)) here
    (at_char (c :: l) args DP_S_DEFAULT 0 0 0 (-1)) (emitted b o n cur m (directive_text n d)).
Proof using Hst Hcur HP Hroom Hcur0 Hn.
  intros Hwf. destruct d as [x|fl w p md cv]; cbn [render directive_args directive_text app].
  - destruct Hwf as (Hx & Hx0 & Hx1). exists 1%nat. split; [cbn; lia|]. apply passes_1; [|done]. open_step. destruct (Z.eqb_spec x 37); [done|].
    rewrite (bind_ret _ _ _ _ _ (prints_outch b o n P x m cur HP Hroom ltac:(lia))). cbn [negb next].
    replace (to_uchar x) with x by (unfold to_uchar, is_byte in *; by rewrite Z.mod_small by lia). done.
  - destruct Hwf as (Hfl & Hw & Hwv & Hp & Hpv & Hcv). pose proof (conv_char_ok P cv Hcv) as Hcc. set (cc := conv_char cv) in *.
    assert (is_flag_char cc = false /\ ossl_isdigit cc = false /\ cc <> 42 /\ cc <> 46 /\ cc <> 0) as (F1 & F2 & F3 & F4 & F5) by (unfold is_conv in Hcc; destruct_or! Hcc; rewrite Hcc; done).
    rewrite <- !app_assoc. cbn [app]. set (t4 := mod_text md ++ cc :: c :: l). set (t3 := (match p with None => [] | Some f => 46 :: field_text f end) ++ t4).
    set (t2 := field_text w ++ t3).
    assert (exists c4 l4, t4 = c4 :: l4 /\ is_flag_char c4 = false /\ ossl_isdigit c4 = false /\ c4 <> 42 /\ c4 <> 46 /\ c4 <> 0) as (c4 & l4 & E4 & G1 & G2 & G3 & G4 & G5).
    { unfold t4. destruct md; cbn [mod_text str app]; eexists _, _; (split; [reflexivity|done]). }
    assert (exists c3 l3, t3 = c3 :: l3 /\ is_flag_char c3 = false /\ ossl_isdigit c3 = false /\ c3 <> 42 /\ c3 <> 0) as (c3 & l3 & E3 & I1 & I2 & I3 & I4).
    { unfold t3. destruct p as [f|]; cbn [app]; [eexists _, _; (split; [reflexivity|done])|]. rewrite E4. by exists c4, l4. }
    assert (exists c2 l2, t2 = c2 :: l2 /\ is_flag_char c2 = false /\ c2 <> 0) as (c2 & l2 & E2 & J1 & J2).
    { unfold t2. destruct w as [[|x ds]|v]; cbn [field_text app]; [rewrite E3; by exists c3, l3| |by eexists _, _].
      destruct Hw as [Hx Hx48]. apply Forall_cons in Hx as [Hx _]. cbn in Hx48. unfold digit_char_ok in Hx. eexists _, _. split; [reflexivity|]. unfold is_flag_char. lia. }
    set (A1 := conv_args md cv ++ args). set (A2 := (match p with None => [] | Some f => field_args f end) ++ A1).
    assert (passes 1 (at_char (37 :: fl ++ t2) (field_args w ++ A2) DP_S_DEFAULT 0 0 0 (-1)) here (at_char (fl ++ t2) (field_args w ++ A2) DP_S_FLAGS 0 0 0 (-1)) here) as S1.
    { apply passes_1; [|done]. open_step. rewrite E2. by destruct fl. }
    pose proof (flags_phase fl c2 l2 (field_args w ++ A2) 0 0 0 (-1) Hfl J1 J2) as S2. rewrite <- E2 in S2.
    destruct (width_phase w c3 l3 A2 (flag_bits 0 fl) 0 (-1)) as (k3 & Hk3 & S3); [by destruct w as [ds|]; [destruct Hw|]|done|done|done|done|]. rewrite <- E3 in S3. fold t2 in S3.
    destruct (prec_phase p c4 l4 A1 (flag_bits 0 fl) 0 (width_value w) Hp Hpv G2 G3 G4 G5) as (k4 & Hk4 & S4). rewrite <- E4 in S4. fold t3 in S4. fold A2 in S4.
    pose proof (mod_phase md cc (c :: l) A1 (flag_bits 0 fl) (width_value w) (prec_value p) Hcc) as S5. fold t4 in S5.
    assert (passes 1 (at_char (cc :: c :: l) A1 DP_S_CONV (flag_bits 0 fl) (mod_cflags md) (width_value w) (prec_value p)) here
      (at_char (c :: l) args DP_S_DEFAULT 0 0 0 (-1)) (emitted b o n cur m (conv_text n (flag_bits 0 fl) (width_value w) (prec_value p) md cv))) as S6.
    { apply passes_1; [|done]. open_step. by rewrite (bind_ret _ _ _ _ _ (conv_run (flag_bits 0 fl) (width_value w) (prec_value p) md cv (c :: l) args Hwv Hpv Hcv)). }
    exists (1 + ((length fl + 1) + (k3 + (k4 + (1 + 1)))))%nat. split; [cbn [length]; rewrite !length_app; cbn [length]; lia|].
    eapply passes_trans; [exact S1|]. eapply passes_trans; [exact S2|]. eapply passes_trans; [exact S3|]. eapply passes_trans; [exact S4|]. eapply passes_trans; [exact S5|exact S6].
Qed.
End machine.

Section format.
Context {AL : Allocator} (fmtfp : Z -> Z -> Z -> Z -> Z -> M pst bool) (address : ptr -> Z).
Context (b : positive) (o n : Z) (P : mem -> Prop) (Hst : stable b P) (Hn : n <= INT_MAX).

(** A pass that stops. *)
Lemma loop_stops fuel d cur m : dp_ch d = 0 \/ n <= cur -> dopr_loop fmtfp address (S fuel) d (sink_at b o n cur, m) = Ret (true, (sink_at b o n cur, m)).
Proof.
  intros H. cbn [dopr_loop]. unfold dopr_step. rewrite bind_assoc, (bind_ret _ _ _ _ _ (get_sink_run _ _)). cbv zeta.
  replace ((dp_ch d =? 0) || (negb (sk_dynamic (sink_at b o n cur)) && (sk_maxlen (sink_at b o n cur) <=? sk_currlen (sink_at b o n cur)))) with true; [done|].
  unfold sink_at. cbn. destruct H as [->|H]; [done|]. destruct (Z.leb_spec n cur); [|lia]. by rewrite orb_true_r.
Qed.

Lemma format_of_cons d ds : format_of (d :: ds) = render d ++ format_of ds.
Proof. unfold format_of. cbn [map concat]. by rewrite app_assoc. Qed.

(** The loop over the directives of a format. *)
Lemma directives_run ds : Forall (wf_directive P) ds -> forall m cur fuel, P m -> room m (Ptr b o) n -> 0 <= cur <= n ->
  (7 * length (format_of ds) <= fuel)%nat ->
  dopr_loop fmtfp address fuel (at_char (format_of ds) (args_of ds) DP_S_DEFAULT 0 0 0 (-1)) (sink_at b o n cur, m) =
  Ret (true, emitted b o n cur m (text_of n ds)).
Proof using Hst Hn.
  induction 1 as [|d ds Hd Hds IH]; intros m cur fuel HP Hr Hc Hf.
  - destruct fuel as [|fuel]; [cbn in Hf; lia|]. rewrite loop_stops by by left. cbn [text_of map concat]. by rewrite emitted_nil.
  - destruct (Z.eq_dec cur n) as [->|Hne].
    { destruct fuel as [|fuel]; [unfold format_of in Hf; rewrite length_app in Hf; cbn in Hf; lia|]. rewrite loop_stops by (right; lia). by rewrite emitted_full by lia. }
    rewrite format_of_cons in *. rewrite length_app in Hf.
    destruct (format_of ds) as [|c l] eqn:El; [unfold format_of in El; by apply app_nil in El as [_ ?]|].
    destruct (directive_phase fmtfp address b o n P Hst cur m ltac:(lia) HP Hr ltac:(lia) Hn d c l (args_of ds) Hd) as (k & Hk & Hp).
    replace fuel with (k + (fuel - k))%nat by lia. change (args_of (d :: ds)) with (directive_args d ++ args_of ds). rewrite Hp.
    change (text_of n (d :: ds)) with (directive_text n d ++ text_of n ds). rewrite <- emitted_app by done.
    pose proof (emitted_keeps b o n P Hst m cur (directive_text n d) HP Hr Hc) as Hk'. unfold emitted at 1 2. unfold emitted at 1 in Hk'. destruct Hk' as [HP' Hr'].
    unfold sink_at at 2. cbn [sk_currlen]. apply IH; [done|done|lia|cbn [length] in *; lia].
Qed.
End format.

(** The zero behind the text that is stored. *)
Lemma terminate_text m b o n (t : list Z) : room m (Ptr b o) n -> 0 < n ->
  mwrite (mwrite m (Ptr b o) (take (Z.to_nat n) t)) (Ptr b (o + Z.min (n - 1) (Z.of_nat (length t)))) [0] = mwrite m (Ptr b o) (take (Z.to_nat (n - 1)) t ++ [0]).
Proof.
  intros Hr Hn. set (k := Z.to_nat (n - 1)). assert (Z.to_nat n = S k) as -> by lia.
  assert (Z.min (n - 1) (Z.of_nat (length t)) = Z.of_nat (length (take k t))) as -> by (rewrite length_take; lia).
  assert (length (take k t) <= k)%nat as Hk by (rewrite length_take; lia).
  destruct (t !! k) as [x|] eqn:Ex.
  - rewrite (take_S_r _ _ _ Ex). rewrite <- (mwrite_app m (Ptr b o) (take k t) [x]) by (eapply room_le; [exact Hr|cbn [length]; lia]).
    cbn [padd]. rewrite mwrite_over; [|apply room_mwrite; [eapply room_le; [exact Hr|lia]|cbn; lia|]|done].
    + apply (mwrite_app m (Ptr b o)). eapply room_le; [exact Hr|cbn [length]; lia].
    + apply (room_padd _ _ _ (Z.of_nat (length (take k t)))) in Hr; [|lia]. eapply room_le; [exact Hr|cbn; lia].
  - apply lookup_ge_None in Ex. rewrite !(take_ge t) by lia. rewrite (take_ge t) in Hk by lia.
    apply (mwrite_app m (Ptr b o)). eapply room_le; [exact Hr|cbn [length]; lia].
Qed.

(** BIO_snprintf stores the text, as much of it as fits before a terminating zero. *)
Lemma BIO_snprintf_run {AL : Allocator} fmtfp address m b o n P ds : stable b P -> P m -> room m (Ptr b o) n -> 0 < n <= INT_MAX ->
  Forall (wf_directive P) ds ->
  let t := text_of n ds in
  BIO_snprintf fmtfp address (Ptr b o) n (format_of ds) (args_of ds) m =
  Ret (if Z.of_nat (length t) <? n then Z.of_nat (length t) else -1, mwrite m (Ptr b o) (take (Z.to_nat (n - 1)) t ++ [0])).
Proof.
  intros Hst HP Hr Hn Hds t. unfold BIO_snprintf, BIO_vsnprintf, dopr.
  destruct (format_of ds) as [|c l] eqn:El; [unfold format_of in El; by apply app_nil in El as [_ ?]|].
  pose proof (directives_run fmtfp address b o n P Hst ltac:(lia) ds Hds m 0 (dopr_fuel (c :: l)) HP Hr ltac:(lia) ltac:(rewrite El; unfold dopr_fuel; lia)) as E.
  rewrite El in E. cbn [next]. rewrite mbind_mret. change (mkSink (Ptr b o) false NULL 0 n) with (sink_at b o n 0).
  change (mkDp c l (args_of ds) DP_S_DEFAULT 0 0 0 (-1)) with (at_char (c :: l) (args_of ds) DP_S_DEFAULT 0 0 0 (-1)).
  rewrite (bind_ret _ _ _ _ _ E). fold t. cbn [negb]. unfold emitted at 1. rewrite Z.sub_0_r, Z.add_0_l, Z.add_0_r. set (c0 := Z.min n (Z.of_nat (length t))).
  rewrite (bind_ret _ _ _ _ _ (get_sink_run _ _)). unfold sink_at at 1 2 3 4 5 6 7 8. cbn [sk_sbuffer sk_dynamic sk_buffer sk_currlen sk_maxlen negb andb].
  rewrite (to_size_id (n - 1)) by (unfold INT_MAX in Hn; lia). set (m1 := mwrite m (Ptr b o) (take (Z.to_nat n) t)).
  assert (room m1 (Ptr b o) n) as Hr1 by (apply room_mwrite; [eapply room_le; [exact Hr|rewrite length_take; lia]|lia|done]).
  assert (forall tr : bool, (if tr then put_sink (mkSink (Ptr b o) false NULL (n - 1) n) else mret tt) (sink_at b o n c0, m1) =
    Ret (tt, (sink_at b o n (if tr then n - 1 else c0), m1))) as Eput by by intros [].
  rewrite (bind_ret _ _ _ _ _ (Eput _)). set (c1 := if n - 1 <? c0 then n - 1 else c0). assert (c1 = Z.min (n - 1) (Z.of_nat (length t))) as E1 by (unfold c1; destruct (Z.ltb_spec (n - 1) c0); lia).
  rewrite (bind_ret _ _ _ _ _ (prints_outch b o n (fun _ => True) 0 m1 c1 I Hr1 ltac:(lia))). cbn [negb]. unfold emitted.
  rewrite (bind_ret _ _ _ _ _ (get_sink_run _ _)). unfold mret, M_ret, sink_at. cbn [sk_currlen length].
  rewrite (take_ge [to_uchar 0]) by (cbn [length]; lia). change (to_uchar 0) with 0. rewrite E1. unfold m1. rewrite terminate_text by (done || lia).
  do 2 f_equal. destruct (Z.ltb_spec (n - 1) c0), (Z.ltb_spec (Z.of_nat (length t)) n); try lia.
  rewrite to_size_id by (unfold INT_MAX in Hn; lia). unfold INT_MAX in *. destruct (Z.leb_spec (Z.min n (Z.min (n - 1) (Z.of_nat (length t)) + Z.of_nat 1) - 1) 2147483647); lia.
Qed.

(** ** Properties *)



(** ** Where the code departs *)

(** With the flag 0 and a precision the field is not filled to its width: [%05.3d]
    of 7 is three characters wide, not five. *)
Lemma fmtint_zero_precision :
  let m : mem := {[ 1%positive := replicate 8 1 ]} in
  BIO_snprintf (fun _ _ _ _ _ => mret true) (fun _ => 0) (Ptr 1 0) 8 (str "%05.3d" ++ [0]) [VInt 7] m =
    Ret (3, {[ 1%positive := str "007" ++ [0; 1; 1; 1; 1] ]}).
Proof. vm_compute. reflexivity. Qed.

(** A string that is longer than the array is measured only to the end of the
    array: with a field width above that, a space is stored in its place. *)
Lemma fmtstr_short_array :
  let m : mem := {[ 1%positive := replicate 4 1; 2%positive := str "abcdef" ++ [0] ]} in
  exists m', BIO_snprintf (fun _ _ _ _ _ => mret true) (fun _ => 0) (Ptr 1 0) 4 (str "%5s" ++ [0]) [VPtr (Ptr 2 0)] m = Ret (-1, m') /\
    m' !! 1%positive = Some (str " ab" ++ [0]).
Proof. eexists. split; vm_compute; reflexivity. Qed.
