(* ===== verification/AsnTime.v ===== *)
(** * Times of ASN.1

    crypto/asn1/a_time.c, a_utctm.c and a_gentm.c of the vendored OpenSSL: UTCTime
    and GeneralizedTime as text, from and to broken-down times, and their
    comparison, which decides whether a certificate is valid.  gmtime_r and the
    time of the clock are parameters.  Left out are the functions that print to a
    BIO and ossl_asn1_string_to_time_t, which calls mktime.

    The theorems: day of the week and of the year are those of the calendar;
    a time written in either form is read back; comparing two times compares
    their counts of seconds. *)

From Stdlib Require Import String.
From S2P Require Import Prelude Memory Print Heap Ctype AsnString DerInt OTime BioPrint.

(** ** Definitions *)

Definition V_ASN1_UNDEF : Z := -1.
Definition V_ASN1_UTCTIME : Z := 23.
Definition V_ASN1_GENERALIZEDTIME : Z := 24.
Definition ASN1_STRING_FLAG_X509_TIME : Z := 0x100.

Definition is_utc (year : Z) : bool := (50 <=? year) && (year <=? 149).

Definition leap_year (year : Z) : Z :=
  if (Z.rem year 400 =? 0) || (negb (Z.rem year 100 =? 0) && (Z.rem year 4 =? 0)) then 1 else 0.

Definition ydays : list Z := [0; 31; 59; 90; 120; 151; 181; 212; 243; 273; 304; 334].

Definition set_days (wday yday : Z) (t : tm) : tm :=
  mkTm (tm_sec t) (tm_min t) (tm_hour t) (tm_mday t) (tm_mon t) (tm_year t) wday yday (tm_isdst t).

Definition determine_days {S} (t : tm) : M S tm :=
  let y := tm_year t + 1900 in
  let m := tm_mon t in
  let d := tm_mday t in
  yd ← array_get ydays m;
  let yday := yd + d - 1 in
  let '(yday, m, y) := if 2 <=? m then (yday + leap_year y, m + 2, y) else (yday, m + 14, y - 1) in
  let c := Z.quot y 100 in
  let y := Z.rem y 100 in
  mret (set_days (Z.rem (d + Z.quot (13 * m) 5 + y + Z.quot y 4 + Z.quot c 4 + 5 * c + 6) 7) yday t).

(** One call after the other; [None] is the label [err]. *)
Definition or_err {A B} (f : M mem (option A)) (g : A -> M mem (option B)) : M mem (option B) :=
  r ← f; match r with None => mret None | Some x => g x end.
Notation "x ←? f ; g" := (or_err f (fun x => g)) (at level 20, f at level 100, g at level 200, right associativity).
Notation "' x ←? f ; g" := (or_err f (fun x => g)) (at level 20, x pattern, f at level 100, g at level 200, right associativity).

Definition guard_err (b : bool) : M mem (option unit) := mret (if b then None else Some tt).

Definition time_min : list Z := [0; 0; 1; 1; 0; 0; 0; 0; 0].
Definition time_max : list Z := [99; 99; 12; 31; 23; 59; 59; 12; 59].
Definition mdays : list Z := [31; 28; 31; 30; 31; 30; 31; 31; 30; 31; 30; 31].

(** A number of two digits at [a[o]] and the position behind it, which must not be
    the end. *)
Definition two_digits (a : ptr) (o l : Z) : M mem (option (Z * Z)) :=
  c ← load (padd a o);
  _ ←? guard_err (negb (ossl_ascii_isdigit c));
  let n := c - 48 in
  _ ←? guard_err (o + 1 =? l);
  c ← load (padd a (o + 1));
  _ ←? guard_err (negb (ossl_ascii_isdigit c));
  let n := n * 10 + c - 48 in
  _ ←? guard_err (o + 2 =? l);
  mret (Some (n, o + 2)).

Definition set_year (y : Z) (t : tm) : tm :=
  mkTm (tm_sec t) (tm_min t) (tm_hour t) (tm_mday t) (tm_mon t) y (tm_wday t) (tm_yday t) (tm_isdst t).
Definition set_mon (x : Z) (t : tm) : tm :=
  mkTm (tm_sec t) (tm_min t) (tm_hour t) (tm_mday t) x (tm_year t) (tm_wday t) (tm_yday t) (tm_isdst t).
Definition set_mday (x : Z) (t : tm) : tm :=
  mkTm (tm_sec t) (tm_min t) (tm_hour t) x (tm_mon t) (tm_year t) (tm_wday t) (tm_yday t) (tm_isdst t).
Definition set_hour (x : Z) (t : tm) : tm :=
  mkTm (tm_sec t) (tm_min t) x (tm_mday t) (tm_mon t) (tm_year t) (tm_wday t) (tm_yday t) (tm_isdst t).
Definition set_min (x : Z) (t : tm) : tm :=
  mkTm (tm_sec t) x (tm_hour t) (tm_mday t) (tm_mon t) (tm_year t) (tm_wday t) (tm_yday t) (tm_isdst t).
Definition set_sec (x : Z) (t : tm) : tm :=
  mkTm x (tm_min t) (tm_hour t) (tm_mday t) (tm_mon t) (tm_year t) (tm_wday t) (tm_yday t) (tm_isdst t).

(** The [switch] on the number of the field. *)
Definition time_field (utc : bool) (i2 n : Z) (tmp : tm) : M mem (option tm) :=
  if i2 =? 0 then mret (Some (set_year (n * 100 - 1900) tmp))
  else if i2 =? 1 then
    mret (Some (set_year (if utc then (if n <? 50 then n + 100 else n) else tm_year tmp + n) tmp))
  else if i2 =? 2 then mret (Some (set_mon (n - 1) tmp))
  else if i2 =? 3 then
    md ← (if tm_mon tmp =? 1 then mret (28 + leap_year (tm_year tmp + 1900)) else array_get mdays (tm_mon tmp));
    if md <? n then mret None else tmp ← determine_days (set_mday n tmp); mret (Some tmp)
  else if i2 =? 4 then mret (Some (set_hour n tmp))
  else if i2 =? 5 then mret (Some (set_min n tmp))
  else if i2 =? 6 then mret (Some (set_sec n tmp))
  else mret (Some tmp).

Definition in_range (i2 n : Z) : M mem bool :=
  lo ← array_get time_min i2;
  hi ← array_get time_max i2;
  mret (negb ((n <? lo) || (hi <? n))).

(** The loop over the fields, [k] of them to do. *)
Fixpoint time_fields (k : nat) (utc strict : bool) (btz : Z) (a : ptr) (i o l : Z) (tmp : tm) : M mem (option (Z * tm)) :=
  match k with
  | O => mret (Some (o, tmp))
  | S k =>
      zone ← (if negb strict && (i =? btz) then c ← load (padd a o); mret ((c =? 90) || (c =? 43) || (c =? 45)) else mret false);
      if zone : bool then mret (Some (o, tmp))
      else
        '(n, o) ←? two_digits a o l;
        let i2 := if utc then i + 1 else i in
        ok ← in_range i2 n;
        _ ←? guard_err (negb ok);
        tmp ←? time_field utc i2 n tmp;
        time_fields k utc strict btz a (i + 1) o l tmp
  end.

(** [while ((o < l) && ossl_ascii_isdigit(a[o])) o++] *)
Fixpoint skip_digits (k : nat) (a : ptr) (o : Z) : M mem Z :=
  match k with
  | O => mret o
  | S k => c ← load (padd a o); if ossl_ascii_isdigit c then skip_digits k a (o + 1) else mret o
  end.

(** Fractional seconds. *)
Definition time_fraction (utc strict : bool) (a : ptr) (o l : Z) : M mem (option Z) :=
  period ← (if utc then mret false else c ← load (padd a o); mret (c =? 46));
  if negb period then mret (Some o)
  else
    _ ←? guard_err strict;
    let o := o + 1 in
    _ ←? guard_err (o =? l);
    let i := o in
    o ← skip_digits (Z.to_nat (l - o)) a o;
    _ ←? guard_err (i =? o);
    _ ←? guard_err (o =? l);
    mret (Some o).

(** Two digits of the offset; [i] counts from [end]. *)
Definition offset_digits (a : ptr) (o i2 : Z) : M mem (option Z) :=
  c ← load (padd a o);
  _ ←? guard_err (negb (ossl_ascii_isdigit c));
  let n := c - 48 in
  c ← load (padd a (o + 1));
  _ ←? guard_err (negb (ossl_ascii_isdigit c));
  let n := n * 10 + c - 48 in
  ok ← in_range i2 n;
  _ ←? guard_err (negb ok);
  mret (Some n).

(** The time zone: the position behind it and the time. *)
Definition time_zone (want utc strict : bool) (end_ : Z) (a : ptr) (o l : Z) (tmp : tm) : M mem (option (Z * tm)) :=
  c ← load (padd a o);
  if c =? 90 then mret (Some (o + 1, tmp))
  else if negb strict && ((c =? 43) || (c =? 45)) then
    let offsign := if c =? 45 then 1 else -1 in
    let o := o + 1 in
    _ ←? guard_err (negb (o + 4 =? l));
    h ←? offset_digits a o (if utc then end_ + 1 else end_);
    mi ←? offset_digits a (o + 2) (if utc then end_ + 2 else end_ + 1);
    let offset := if want then h * 3600 + mi * 60 else 0 in
    if truthy offset then
      '(rc, tmp) ← OPENSSL_gmtime_adj tmp 0 (offset * offsign);
      if truthy rc then mret (Some (o + 4, tmp)) else mret None
    else mret (Some (o + 4, tmp))
  else mret None.

Definition tm_zero : tm := mkTm 0 0 0 0 0 0 0 0 0.

(** [want] tells whether there is a [tm] to fill; [None] for the return value 0. *)
Definition ossl_asn1_time_to_tm (want : bool) (d : ASN1_STRING) : M mem (option tm) :=
  let x509 := truthy (Z.land (as_flags d) ASN1_STRING_FLAG_X509_TIME) in
  let utc := as_type d =? V_ASN1_UTCTIME in
  if negb utc && negb (as_type d =? V_ASN1_GENERALIZEDTIME) then mret None
  else
    let end_ := if utc then 6 else 7 in
    let btz := if utc then 5 else 6 in
    let min_l := if utc then (if x509 then 13 else 11) else (if x509 then 15 else 13) in
    let strict := x509 in
    let l := as_length d in
    let a := as_data d in
    _ ←? guard_err (l <? min_l);
    '(o, tmp) ←? time_fields (Z.to_nat end_) utc strict btz a 0 0 l tm_zero;
    o ←? time_fraction utc strict a o l;
    '(o, tmp) ←? time_zone want utc strict end_ a o l tmp;
    if o =? l then mret (Some tmp) else mret None.

Definition ossl_asn1_utctime_to_tm (want : bool) (d : ASN1_STRING) : M mem (option tm) :=
  if negb (as_type d =? V_ASN1_UTCTIME) then mret None else ossl_asn1_time_to_tm want d.

Definition asn1_generalizedtime_to_tm (want : bool) (d : ASN1_STRING) : M mem (option tm) :=
  if negb (as_type d =? V_ASN1_GENERALIZEDTIME) then mret None else ossl_asn1_time_to_tm want d.

Definition is_some {A} (x : option A) : bool := match x with Some _ => true | None => false end.

Definition ASN1_UTCTIME_check (d : ASN1_STRING) : M mem bool := r ← ossl_asn1_utctime_to_tm false d; mret (is_some r).
Definition ASN1_GENERALIZEDTIME_check (d : ASN1_STRING) : M mem bool := r ← asn1_generalizedtime_to_tm false d; mret (is_some r).

Definition ASN1_TIME_check (t : ASN1_STRING) : M mem bool :=
  if as_type t =? V_ASN1_GENERALIZEDTIME then ASN1_GENERALIZEDTIME_check t
  else if as_type t =? V_ASN1_UTCTIME then ASN1_UTCTIME_check t
  else mret false.

(** The order of two times, from their difference. *)
Definition order_of (r : option (Z * Z)) : Z :=
  match r with
  | None => -2
  | Some (day, sec) =>
      if (0 <? day) || (0 <? sec) then 1
      else if (day <? 0) || (sec <? 0) then -1
      else 0
  end.

Section time.
Context {AL : Allocator} (fmtfp : Z -> Z -> Z -> Z -> Z -> M pst bool) (address : ptr -> Z).
(** gmtime_r and the time of the clock. *)
Context (gmtime_r : Z -> option tm) (now : Z).

(** The text of [ts], written into the structure; whether that was possible, and
    the structure afterwards. *)
Definition time_write (tmps : ASN1_STRING) (ts : tm) (type : Z) : M mem (bool * ASN1_STRING) :=
  let len := 20 in
  '(ok, tmps) ← ASN1_STRING_set tmps NULL len;
  if negb ok then mret (false, tmps)
  else
    let tmps := with_type type tmps in
    let p := as_data tmps in
    if INT_MAX - 1 <? tm_mon ts then mret (false, tmps)
    else
      let rest := [VInt (tm_mon ts + 1); VInt (tm_mday ts); VInt (tm_hour ts); VInt (tm_min ts); VInt (tm_sec ts)] in
      if type =? V_ASN1_GENERALIZEDTIME then
        if INT_MAX - 1900 <? tm_year ts then mret (false, tmps)
        else
          n ← BIO_snprintf fmtfp address p len (str "%04d%02d%02d%02d%02d%02dZ" ++ [0]) (VInt (tm_year ts + 1900) :: rest);
          mret (true, ASN1_STRING_length_set tmps n)
      else
        n ← BIO_snprintf fmtfp address p len (str "%02d%02d%02d%02d%02d%02dZ" ++ [0]) (VInt (Z.rem (tm_year ts) 100) :: rest);
        mret (true, ASN1_STRING_length_set tmps n).

(** Whether the result is the structure or null, and the structure afterwards:
    [s] or a new one. *)
Definition ossl_asn1_time_from_tm (s : option ASN1_STRING) (ts : tm) (type : Z) : M mem (bool * option ASN1_STRING) :=
  let type :=
    if type =? V_ASN1_UNDEF then Some (if is_utc (tm_year ts) then V_ASN1_UTCTIME else V_ASN1_GENERALIZEDTIME)
    else if type =? V_ASN1_UTCTIME then (if is_utc (tm_year ts) then Some type else None)
    else if type =? V_ASN1_GENERALIZEDTIME then Some type else None in
  match type with
  | None => mret (false, s)
  | Some type =>
      tmps ← (match s with None => ASN1_STRING_new | Some _ => mret s end);
      match tmps with
      | None => mret (false, None)
      | Some tmps =>
          '(ok, tmps) ← time_write tmps ts type;
          if ok : bool then mret (true, Some tmps)
          else match s with
               | None => ASN1_STRING_free (Some tmps);; mret (false, None)
               | Some _ => mret (false, Some tmps)
               end
      end
  end.

(** The time [t] of the clock and an offset, as a string of the type. *)
Definition time_adj (type : Z) (s : option ASN1_STRING) (t offset_day offset_sec : Z) : M mem (bool * option ASN1_STRING) :=
  let '(ts, _) := OPENSSL_gmtime gmtime_r t tm_zero in
  match ts with
  | None => mret (false, s)
  | Some ts =>
      if truthy offset_day || truthy offset_sec then
        '(rc, ts) ← OPENSSL_gmtime_adj ts offset_day offset_sec;
        if truthy rc then ossl_asn1_time_from_tm s ts type else mret (false, s)
      else ossl_asn1_time_from_tm s ts type
  end.

Definition ASN1_TIME_adj : option ASN1_STRING -> Z -> Z -> Z -> M mem (bool * option ASN1_STRING) := time_adj V_ASN1_UNDEF.
Definition ASN1_TIME_set (s : option ASN1_STRING) (t : Z) : M mem (bool * option ASN1_STRING) := ASN1_TIME_adj s t 0 0.
Definition ASN1_UTCTIME_adj : option ASN1_STRING -> Z -> Z -> Z -> M mem (bool * option ASN1_STRING) := time_adj V_ASN1_UTCTIME.
Definition ASN1_UTCTIME_set (s : option ASN1_STRING) (t : Z) : M mem (bool * option ASN1_STRING) := ASN1_UTCTIME_adj s t 0 0.
Definition ASN1_GENERALIZEDTIME_adj : option ASN1_STRING -> Z -> Z -> Z -> M mem (bool * option ASN1_STRING) := time_adj V_ASN1_GENERALIZEDTIME.
Definition ASN1_GENERALIZEDTIME_set (s : option ASN1_STRING) (t : Z) : M mem (bool * option ASN1_STRING) := ASN1_GENERALIZEDTIME_adj s t 0 0.

(** Without a time, that of the clock. *)
Definition ASN1_TIME_to_tm (s : option ASN1_STRING) : M mem (option tm) :=
  match s with
  | None => let '(ts, _) := OPENSSL_gmtime gmtime_r now tm_zero in mret ts
  | Some s => ossl_asn1_time_to_tm true s
  end.

Definition ASN1_TIME_diff (from to : option ASN1_STRING) : M mem (option (Z * Z)) :=
  tm_from ←? ASN1_TIME_to_tm from;
  tm_to ←? ASN1_TIME_to_tm to;
  OPENSSL_gmtime_diff tm_from tm_to.

Definition ASN1_TIME_compare (a b : option ASN1_STRING) : M mem Z :=
  r ← ASN1_TIME_diff b a; mret (order_of r).

Definition ASN1_TIME_cmp_time_t (s : option ASN1_STRING) (t : Z) : M mem Z :=
  stm ← ASN1_TIME_to_tm s;
  match stm, fst (OPENSSL_gmtime gmtime_r t tm_zero) with
  | Some stm, Some ttm => r ← OPENSSL_gmtime_diff ttm stm; mret (order_of r)
  | _, _ => mret (-2)
  end.

Definition ASN1_UTCTIME_cmp_time_t (s : ASN1_STRING) (t : Z) : M mem Z :=
  stm ← ossl_asn1_utctime_to_tm true s;
  match stm, fst (OPENSSL_gmtime gmtime_r t tm_zero) with
  | Some stm, Some ttm => r ← OPENSSL_gmtime_diff ttm stm; mret (order_of r)
  | _, _ => mret (-2)
  end.

Definition ASN1_TIME_normalize (t : option ASN1_STRING) : M mem (bool * option ASN1_STRING) :=
  match t with
  | None => mret (false, t)
  | Some s =>
      r ← ASN1_TIME_to_tm t;
      match r with
      | None => mret (false, t)
      | Some ts => ossl_asn1_time_from_tm (Some s) ts V_ASN1_UNDEF
      end
  end.

(** [out] is [*out], if there is one. *)
Definition ASN1_TIME_to_generalizedtime (t out : option ASN1_STRING) : M mem (bool * option ASN1_STRING) :=
  r ← ASN1_TIME_to_tm t;
  match r with
  | None => mret (false, out)
  | Some ts => ossl_asn1_time_from_tm out ts V_ASN1_GENERALIZEDTIME
  end.

(** A structure for the text [str] of the caller. *)
Definition text_string (type flags : Z) (str : ptr) : M mem ASN1_STRING :=
  n ← strlen str; mret (mkSTRING (to_int n) type str flags).

(** Whether the text is accepted, and the structure afterwards. *)
Definition ASN1_UTCTIME_set_string (s : option ASN1_STRING) (str : ptr) : M mem (bool * option ASN1_STRING) :=
  t ← text_string V_ASN1_UTCTIME 0 str;
  ok ← ASN1_UTCTIME_check t;
  if negb ok then mret (false, s)
  else
    match s with
    | None => mret (true, s)
    | Some s => '(ok, s) ← ASN1_STRING_copy s (Some t); mret (ok, Some s)
    end.

Definition ASN1_GENERALIZEDTIME_set_string (s : option ASN1_STRING) (str : ptr) : M mem (bool * option ASN1_STRING) :=
  t ← text_string V_ASN1_GENERALIZEDTIME 0 str;
  ok ← ASN1_GENERALIZEDTIME_check t;
  if negb ok then mret (false, s)
  else
    match s with
    | None => mret (true, s)
    | Some s => '(ok, s) ← ASN1_STRING_copy s (Some t); mret (ok, Some s)
    end.

Definition ASN1_TIME_set_string (s : option ASN1_STRING) (str : ptr) : M mem (bool * option ASN1_STRING) :=
  '(ok, s) ← ASN1_UTCTIME_set_string s str;
  if ok : bool then mret (true, s) else ASN1_GENERALIZEDTIME_set_string s str.

(** The part after the checks: the copy, and the free of a text of its own. *)
Definition x509_copy (s : option ASN1_STRING) (t : ASN1_STRING) (own : bool) : M mem (bool * option ASN1_STRING) :=
  r ← (match s with
       | None => mret (true, s)
       | Some s => '(ok, s) ← ASN1_STRING_copy s (Some t); mret (ok, Some s)
       end);
  (if own then CRYPTO_free (as_data t) else mret tt);;
  mret r.

Definition ASN1_TIME_set_string_X509 (s : option ASN1_STRING) (str : ptr) : M mem (bool * option ASN1_STRING) :=
  t ← text_string V_ASN1_UTCTIME ASN1_STRING_FLAG_X509_TIME str;
  ok ← ASN1_TIME_check t;
  if ok : bool then x509_copy s t false
  else
    let t := with_type V_ASN1_GENERALIZEDTIME t in
    ok ← ASN1_TIME_check t;
    if negb ok then mret (false, s)
    else
      match s with
      | None => x509_copy s t false
      | Some _ =>
          r ← ossl_asn1_time_to_tm true t;
          match r with
          | None => mret (false, s)
          | Some ts =>
              if is_utc (tm_year ts) then
                let length := as_length t - 2 in
                data ← CRYPTO_zalloc (to_size (length + 1));
                if is_null data then mret (false, s)
                else
                  memcpy data (padd str 2) length;;
                  x509_copy s (mkSTRING length V_ASN1_UTCTIME data (as_flags t)) true
              else x509_copy s t false
          end
      end.
End time.

(** ** Lemmas *)

(** *** The calendar *)

Lemma rem_zero a b : 0 < b -> (Z.rem a b =? 0) = (a mod b =? 0).
Proof.
  intros Hb. pose proof (Z.rem_divide a b ltac:(lia)) as H1. pose proof (Z.mod_divide a b ltac:(lia)) as H2.
  destruct (Z.eqb_spec (Z.rem a b) 0), (Z.eqb_spec (a mod b) 0); tauto.
Qed.

Lemma leap_year_leap y : leap_year y = if leap y then 1 else 0.
Proof.
  unfold leap_year, leap. rewrite !rem_zero by lia.
  destruct (Z.eqb_spec (y mod 400) 0) as [H4|H4], (Z.eqb_spec (y mod 100) 0) as [H1|H1], (Z.eqb_spec (y mod 4) 0) as [H0|H0]; cbn; try done; exfalso; clear -H4 H1 H0; Z.div_mod_to_equations; lia.
Qed.

(** The day of the week, 0 for Sunday, and of the year, from 0. *)
Definition calendar_days (t : tm) : tm :=
  let y := tm_year t + 1900 in
  let j := julian y (tm_mon t + 1) (tm_mday t) in
  set_days ((j + 1) mod 7) (j - julian y 1 1) t.

(** The congruence of Zeller gives the day of the week. *)
Lemma zeller c r M d : 1 <= M <= 12 ->
  (d + 13 * (M + 3) / 5 + r + r / 4 + c / 4 + 5 * c + 6) mod 7 =
  (1461 * (100 * (c + 48) + r) / 4 - 3 * (c + 48 + 1) / 4 + 367 * M / 12 + d - 32075 + 1) mod 7.
Proof.
  intros HM. replace (1461 * (100 * (c + 48) + r)) with (r + (365 * r + 36525 * (c + 48)) * 4) by lia. rewrite Z.div_add by lia.
  assert (3 * (c + 48 + 1) / 4 = c + 48 - (c / 4 + 12)) as -> by (Z.div_mod_to_equations; lia).
  set (a := c / 4). set (e := r / 4). clearbody a e.
  assert (367 * M / 12 = 13 * (M + 3) / 5 + 28 * M - 8) as -> by by apply (month_cases M (fun M => 367 * M / 12 = 13 * (M + 3) / 5 + 28 * M - 8)).
  rewrite <- (Z.mod_add (d + _ + r + e + a + 5 * c + 6) (5217 * c + 52 * r + 4 * M + 245868)) by lia. f_equal. lia.
Qed.

Lemma day_of_week y m d : 1 <= y -> 1 <= m <= 12 -> 1 <= d ->
  let '(m', y') := if 3 <=? m then (m + 1, y) else (m + 13, y - 1) in
  Z.rem (d + Z.quot (13 * m') 5 + Z.rem y' 100 + Z.quot (Z.rem y' 100) 4 + Z.quot (Z.quot y' 100) 4 + 5 * Z.quot y' 100 + 6) 7 = (julian y m d + 1) mod 7.
Proof.
  intros Hy Hm Hd. unfold julian. set (q := if m <=? 2 then -1 else 0).
  assert ((if 3 <=? m then (m + 1, y) else (m + 13, y - 1)) = (m - 2 - 12 * q + 3, y + q)) as ->.
  { unfold q. destruct (Z.leb_spec 3 m), (Z.leb_spec m 2); try lia; f_equal; lia. }
  assert (0 <= y + q /\ 1 <= m - 2 - 12 * q <= 12) as [Hy' HM] by (unfold q; destruct (Z.leb_spec m 2); lia).
  replace (y + 4800 + q) with (y + q + 48 * 100) by lia. set (M := m - 2 - 12 * q) in *. set (z := y + q) in *. clearbody M z.
  rewrite Z.div_add, !(Z.quot_div_nonneg z), (Z.rem_mod_nonneg z) by lia. pose proof (Z.div_pos z 100 ltac:(lia) ltac:(lia)) as Hc.
  pose proof (Z.mod_pos_bound z 100 ltac:(lia)) as Hr. pose proof (Z.div_mod z 100 ltac:(lia)) as Ez. set (c := z / 100) in *. set (r := z mod 100) in *. clearbody c r.
  replace (z + 48 * 100) with (100 * (c + 48) + r) by lia. rewrite <- zeller by done. rewrite !Z.quot_div_nonneg by lia.
  apply Z.rem_mod_nonneg; [|lia]. pose proof (Z.div_pos (13 * (M + 3)) 5). pose proof (Z.div_pos r 4). pose proof (Z.div_pos c 4). lia.
Qed.

Lemma day_of_year y m d : 1 <= m <= 12 ->
  julian y m d - julian y 1 1 = nth (Z.to_nat (m - 1)) ydays 0 + d - 1 + (if 3 <=? m then leap_year y else 0).
Proof.
  intros Hm. rewrite leap_year_leap. pose proof (march_years (y + 4800 + -1)) as EY. replace (y + 4800 + -1 - 4799) with y in EY by lia.
  replace (y + 4800 + -1 + 1) with (y + 4800 + 0) in EY by lia. revert EY. unfold julian. pattern m. apply (month_cases m); [done|..]; intros EY.
  all: repeat match goal with |- context [if ?c then _ else _] => lazymatch c with leap _ => fail | _ => let v := eval compute in c in change c with v; cbv iota end end.
  all: repeat match goal with |- context [367 * ?a / 12] => let v := eval compute in (367 * a / 12) in change (367 * a / 12) with v end.
  all: match goal with |- context [nth ?a ydays 0] => let v := eval compute in (nth a ydays 0) in change (nth a ydays 0) with v end.
  all: destruct (leap y); lia.
Qed.

Lemma determine_days_run {S} t (s : S) : 1 <= tm_year t + 1900 -> valid_date (tm_year t + 1900) (tm_mon t + 1) (tm_mday t) ->
  determine_days t s = Ret (calendar_days t, s).
Proof.
  intros Hy [Hm Hd]. unfold determine_days, calendar_days. cbv zeta. set (y := tm_year t + 1900) in *.
  pose proof (day_of_week y (tm_mon t + 1) (tm_mday t) Hy Hm ltac:(lia)) as Hw. pose proof (day_of_year y (tm_mon t + 1) (tm_mday t) Hm) as Hyd.
  rewrite Z.add_simpl_r in Hyd.
  assert (array_get ydays (tm_mon t) s = Ret (nth (Z.to_nat (tm_mon t)) ydays 0, s)) as E.
  { unfold array_get. change (Z.of_nat (length ydays)) with 12. destruct (Z.leb_spec 0 (tm_mon t)), (Z.ltb_spec (tm_mon t) 12); try lia. cbn [andb].
    assert (Z.to_nat (tm_mon t) < length ydays)%nat as Hlt by (cbn; lia).
    destruct (lookup_lt_is_Some_2 ydays (Z.to_nat (tm_mon t)) Hlt) as [x Ex]. rewrite Ex. by rewrite (nth_lookup_Some _ _ _ _ Ex). }
  rewrite (bind_ret _ _ _ _ _ E). rewrite Hyd. replace (3 <=? tm_mon t + 1) with (2 <=? tm_mon t) in * by lia.
  replace (tm_mon t + 1 + 1) with (tm_mon t + 2) in Hw by lia. replace (tm_mon t + 1 + 13) with (tm_mon t + 14) in Hw by lia.
  destruct (2 <=? tm_mon t); rewrite Hw; [done|]. by rewrite Z.add_0_r.
Qed.

Lemma determine_days_total {S} t (s : S) : 0 <= tm_mon t <= 11 -> exists w yd, determine_days t s = Ret (set_days w yd t, s).
Proof.
  intros Hm. unfold determine_days. assert (exists x, array_get ydays (tm_mon t) s = Ret (x, s)) as (x & E).
  { unfold array_get. change (Z.of_nat (length ydays)) with 12. destruct (Z.leb_spec 0 (tm_mon t)), (Z.ltb_spec (tm_mon t) 12); try lia. cbn [andb].
    destruct (lookup_lt_is_Some_2 ydays (Z.to_nat (tm_mon t)) ltac:(cbn; lia)) as [x Ex]. rewrite Ex. by exists x. }
  rewrite (bind_ret _ _ _ _ _ E). destruct (2 <=? tm_mon t); eexists _, _; done.
Qed.

Lemma mdays_length y m (s : mem) : 0 <= m <= 11 ->
  (if m =? 1 then mret (28 + leap_year y) else array_get mdays m) s = Ret (month_length y (m + 1), s).
Proof.
  intros Hm. rewrite leap_year_leap. remember (m + 1) as k eqn:Ek. replace m with (k - 1) by lia. apply (month_cases k (fun k =>
    (if k - 1 =? 1 then mret (28 + (if leap y then 1 else 0)) else array_get mdays (k - 1)) s = Ret (month_length y k, s))); try lia; try reflexivity.
  unfold month_length. cbn. by destruct (leap y).
Qed.

(** *** Parsing, whatever the octets are *)

(** What the fields before number [j] have given. *)
Definition time_inv (utc : bool) (j : Z) (t : tm) : Prop :=
  0 <= tm_sec t <= 59 /\ 0 <= tm_min t <= 59 /\ 0 <= tm_hour t <= 23 /\
  (utc = false -> j = 1 -> exists n, 0 <= n <= 99 /\ tm_year t = n * 100 - 1900) /\
  (2 <= j -> 0 <= tm_year t + 1900 <= 9999) /\ (3 <= j -> 0 <= tm_mon t <= 11) /\
  (4 <= j -> 1 <= tm_mday t <= month_length (tm_year t + 1900) (tm_mon t + 1)).

Lemma in_range_run j n (m : mem) : 0 <= j <= 8 -> exists ok, in_range j n m = Ret (ok, m) /\
  (ok = true <-> nth (Z.to_nat j) time_min 0 <= n <= nth (Z.to_nat j) time_max 0).
Proof.
  intros Hj. assert (exists k : nat, j = Z.of_nat k /\ (k <= 8)%nat) as (k & -> & Hk) by (exists (Z.to_nat j); lia). rewrite Nat2Z.id.
  do 9 (destruct k as [|k]; [eexists; split; [reflexivity|]; cbn; lia|]). lia.
Qed.

Lemma time_field_inv utc j n t (m : mem) : 0 <= j <= 6 -> (utc = true -> 1 <= j) -> nth (Z.to_nat j) time_min 0 <= n <= nth (Z.to_nat j) time_max 0 ->
  time_inv utc j t -> exists r, time_field utc j n t m = Ret (r, m) /\ forall t', r = Some t' -> time_inv utc (j + 1) t'.
Proof.
  intros Hj Hu Hn (H1 & H2 & H3 & H4 & H5 & H6 & H7). assert (j = 0 \/ j = 1 \/ j = 2 \/ j = 3 \/ j = 4 \/ j = 5 \/ j = 6) as Hc by lia.
  destruct_or! Hc; subst j; cbv [nth Z.to_nat Pos.to_nat Pos.iter_op Nat.add time_min time_max] in Hn; unfold time_field; cbn [Z.eqb Pos.eqb].
  4: { rewrite (bind_ret _ _ _ _ _ (mdays_length (tm_year t + 1900) (tm_mon t) m ltac:(lia))). destruct (Z.ltb_spec (month_length (tm_year t + 1900) (tm_mon t + 1)) n).
       { exists None. split; [done|]. by intros. }
       destruct (determine_days_total (set_mday n t) m) as (w & yd & E); [cbn; lia|]. rewrite (bind_ret _ _ _ _ _ E). eexists. split; [reflexivity|].
       intros t' [= <-]. unfold time_inv. cbn. split_and!; intros; first [lia | exfalso; lia]. }
  2: { eexists. split; [reflexivity|]. intros t' [= <-]. unfold time_inv. cbn. destruct utc; [destruct (Z.ltb_spec n 50); split_and!; intros; first [lia | exfalso; lia]|].
       destruct (H4 eq_refl eq_refl) as (c & Hc & Hy). split_and!; intros; first [lia | exfalso; lia]. }
  all: eexists; (split; [reflexivity|]); intros t' [= <-]; unfold time_inv; cbn; split_and!; intros; try first [lia | exfalso; lia].
  exists n. lia.
Qed.

(** A load inside the text. *)
Lemma load_char m a bs o : bytes_at m a bs -> 0 <= o < Z.of_nat (length bs) -> exists c, load (padd a o) m = Ret (c, m).
Proof.
  intros Hb Ho. destruct (lookup_lt_is_Some_2 bs (Z.to_nat o) ltac:(lia)) as [c Hc]. exists c. rewrite <- (take_drop_middle bs _ c Hc) in Hb.
  apply bytes_at_app in Hb as [_ Hb]. rewrite length_take_le in Hb by lia. rewrite Z2Nat.id in Hb by lia. by apply (load_at _ _ _ _ Hb).
Qed.

Section parse.
Context (m : mem) (a : ptr) (bs : list Z) (Hb : bytes_at m a bs).
Notation l := (Z.of_nat (length bs)).

Lemma digit_range c : negb (ossl_ascii_isdigit c) = false -> 48 <= c <= 57.
Proof. unfold ossl_ascii_isdigit, ASCII_IS_DIGIT. lia. Qed.

Lemma two_digits_total o : 0 <= o < l -> exists r, two_digits a o l m = Ret (r, m) /\
  forall n o', r = Some (n, o') -> 0 <= n <= 99 /\ o' = o + 2 /\ o' < l.
Proof using Hb.
  intros Ho. unfold two_digits, or_err, guard_err. destruct (load_char m a bs o Hb Ho) as [c E]. rewrite (bind_ret _ _ _ _ _ E).
  destruct (negb (ossl_ascii_isdigit c)) eqn:Ec; [by exists None|]. rewrite mbind_mret. apply digit_range in Ec.
  destruct (Z.eqb_spec (o + 1) l); [by exists None|]. rewrite mbind_mret. destruct (load_char m a bs (o + 1) Hb ltac:(lia)) as [c2 E2].
  rewrite (bind_ret _ _ _ _ _ E2). destruct (negb (ossl_ascii_isdigit c2)) eqn:Ec2; [by exists None|]. rewrite mbind_mret. apply digit_range in Ec2.
  destruct (Z.eqb_spec (o + 2) l); [by exists None|]. eexists. split; [reflexivity|]. intros n' o' [= <- <-]. lia.
Qed.

Lemma time_fields_total (utc strict : bool) btz k : forall i o t, let j := if utc then i + 1 else i in
  Z.of_nat k + j = 7 -> 0 <= i -> btz = (if utc then 5 else 6) -> 0 <= o < l -> time_inv utc j t ->
  exists r, time_fields k utc strict btz a i o l t m = Ret (r, m) /\ forall o' t', r = Some (o', t') -> o <= o' < l /\ time_inv utc 7 t'.
Proof using Hb.
  induction k as [|k IH]; intros i o t j Hk Hi Hbtz Ho Ht; cbn [time_fields].
  { eexists. split; [reflexivity|]. intros o' t' [= <- <-]. split; [lia|]. by replace 7 with j by lia. }
  assert (exists z, (if negb strict && (i =? btz) then c ← load (padd a o); mret ((c =? 90) || (c =? 43) || (c =? 45)) else mret false) m = Ret (z, m) /\ (z = true -> j = 6)) as (z & Ez & Hz).
  { destruct (negb strict && (i =? btz)) eqn:Eb; [|by eexists]. destruct (load_char m a bs o Hb Ho) as [c E]. rewrite (bind_ret _ _ _ _ _ E). eexists. split; [reflexivity|].
    intros _. unfold j. destruct strict, utc; cbn in Eb; lia. }
  rewrite (bind_ret _ _ _ _ _ Ez). destruct z.
  { eexists. split; [reflexivity|]. intros o' t' [= <- <-]. split; [lia|]. specialize (Hz eq_refl). rewrite Hz in Ht. destruct Ht as (G1 & G2 & G3 & G4 & G5 & G6 & G7).
    unfold time_inv. split_and!; intros; try lia. }
  unfold or_err. destruct (two_digits_total o Ho) as ([[n o1]|] & E & Hn); rewrite (bind_ret _ _ _ _ _ E); [|by exists None]. destruct (Hn _ _ eq_refl) as (Hn1 & Ho1 & Ho2).
  cbv zeta. change (if utc then i + 1 else i) with j. destruct (in_range_run j n m ltac:(unfold j; destruct utc; lia)) as (ok & Er & Hok). rewrite (bind_ret _ _ _ _ _ Er). unfold guard_err.
  destruct ok; [|by exists None]. rewrite mbind_mret. cbn [negb]. cbv iota.
  destruct (time_field_inv utc j n t m ltac:(unfold j in *; destruct utc; lia) ltac:(unfold j; destruct utc; [lia|done]) ltac:(by apply Hok) Ht) as ([t1|] & Ef & Hf); rewrite (bind_ret _ _ _ _ _ Ef); [|by exists None].
  specialize (Hf _ eq_refl). destruct (IH (i + 1) o1 t1) as (r & Er' & Hr); [unfold j in *; destruct utc; lia|lia|done|lia|unfold j in Hf; destruct utc; [by replace (i + 1 + 1) with (i + 1 + 1) by lia|done]|].
  exists r. split; [done|]. intros o' t' E'. destruct (Hr _ _ E'). split; [lia|done].
Qed.
Lemma skip_digits_total k : forall o, 0 <= o -> o + Z.of_nat k <= l -> exists o', skip_digits k a o m = Ret (o', m) /\ o <= o' <= o + Z.of_nat k.
Proof using Hb.
  induction k as [|k IH]; intros o Ho Hk; cbn [skip_digits]; [exists o; split; [done|lia]|].
  destruct (load_char m a bs o Hb ltac:(lia)) as [c E]. rewrite (bind_ret _ _ _ _ _ E). destruct (ossl_ascii_isdigit c); [|exists o; split; [done|lia]].
  destruct (IH (o + 1) ltac:(lia) ltac:(lia)) as (o' & E' & Ho'). exists o'. split; [done|lia].
Qed.

Lemma time_fraction_total utc strict o : 0 <= o < l -> exists r, time_fraction utc strict a o l m = Ret (r, m) /\ forall o', r = Some o' -> o <= o' < l.
Proof using Hb.
  intros Ho. unfold time_fraction, or_err, guard_err.
  assert (exists z, (if utc then mret false else c ← load (padd a o); mret (c =? 46)) m = Ret (z, m)) as (z & E).
  { destruct utc; [by eexists|]. destruct (load_char m a bs o Hb Ho) as [c Ec]. rewrite (bind_ret _ _ _ _ _ Ec). by eexists. }
  rewrite (bind_ret _ _ _ _ _ E). destruct z; cbn [negb]; [|eexists; split; [reflexivity|]; intros o' [= <-]; lia].
  destruct strict; [by exists None|]. rewrite mbind_mret. destruct (Z.eqb_spec (o + 1) l); [by exists None|]. rewrite mbind_mret.
  destruct (skip_digits_total (Z.to_nat (l - (o + 1))) (o + 1) ltac:(lia) ltac:(lia)) as (o2 & E2 & Ho2). rewrite (bind_ret _ _ _ _ _ E2).
  destruct (Z.eqb_spec (o + 1) o2); [by exists None|]. rewrite mbind_mret. destruct (Z.eqb_spec o2 l); [by exists None|].
  eexists. split; [reflexivity|]. intros o' [= <-]. lia.
Qed.

Lemma offset_digits_total o j : 0 <= o -> o + 1 < l -> 0 <= j <= 8 -> exists r, offset_digits a o j m = Ret (r, m) /\
  forall n, r = Some n -> nth (Z.to_nat j) time_min 0 <= n <= nth (Z.to_nat j) time_max 0.
Proof using Hb.
  intros Ho Ho1 Hj. unfold offset_digits, or_err, guard_err. destruct (load_char m a bs o Hb ltac:(lia)) as [c E]. rewrite (bind_ret _ _ _ _ _ E).
  destruct (negb (ossl_ascii_isdigit c)); [by exists None|]. rewrite mbind_mret. destruct (load_char m a bs (o + 1) Hb ltac:(lia)) as [c2 E2].
  rewrite (bind_ret _ _ _ _ _ E2). destruct (negb (ossl_ascii_isdigit c2)); [by exists None|]. rewrite mbind_mret.
  destruct (in_range_run j ((c - 48) * 10 + c2 - 48) m Hj) as (ok & Er & Hok). cbv zeta. rewrite (bind_ret _ _ _ _ _ Er). destruct ok; [|by exists None].
  eexists. split; [reflexivity|]. intros n [= <-]. by apply Hok.
Qed.

(** A time of the years 0 to 9999 without leap second. *)
Definition parsed_tm (t : tm) : Prop := valid_tm t /\ tm_sec t <= 59 /\ 0 <= tm_year t + 1900 <= 9999.

Lemma time_inv_parsed utc t : time_inv utc 7 t -> parsed_tm t.
Proof.
  intros (H1 & H2 & H3 & _ & H5 & H6 & H7). unfold parsed_tm, valid_tm, year_ok, valid_date. specialize (H5 ltac:(lia)). specialize (H6 ltac:(lia)). specialize (H7 ltac:(lia)).
  repeat split; lia.
Qed.

Lemma time_zone_total want (utc strict : bool) o t : 0 <= o < l -> parsed_tm t ->
  exists r, time_zone want utc strict (if utc then 6 else 7) a o l t m = Ret (r, m) /\ forall o' t', r = Some (o', t') -> parsed_tm t'.
Proof using Hb.
  intros Ho Ht. unfold time_zone, or_err, guard_err. destruct (load_char m a bs o Hb ltac:(lia)) as [c E]. rewrite (bind_ret _ _ _ _ _ E).
  destruct (c =? 90); [eexists; split; [reflexivity|]; by intros ? ? [= _ <-]|]. destruct (negb strict && ((c =? 43) || (c =? 45))); [|by exists None].
  cbv zeta. destruct (Z.eqb_spec (o + 1 + 4) l); [|by exists None]. rewrite mbind_mret. cbn [negb]. cbv iota.
  destruct (offset_digits_total (o + 1) (if utc then (if utc then 6 else 7) + 1 else if utc then 6 else 7)) as ([h|] & E1 & H1); [lia|lia|destruct utc; lia| |];
    rewrite (bind_ret _ _ _ _ _ E1); [|by exists None].
  destruct (offset_digits_total (o + 1 + 2) (if utc then (if utc then 6 else 7) + 2 else (if utc then 6 else 7) + 1)) as ([mi|] & E2 & H2); [lia|lia|destruct utc; lia| |];
    rewrite (bind_ret _ _ _ _ _ E2); [|by exists None].
  specialize (H1 _ eq_refl). specialize (H2 _ eq_refl). set (off := if want then h * 3600 + mi * 60 else 0).
  assert (0 <= off <= 100000) as Hoff by (unfold off; destruct want, utc; cbv [nth Z.to_nat Pos.to_nat Pos.iter_op Nat.add time_min time_max Z.add Pos.add Pos.succ] in H1, H2; lia).
  destruct (truthy off); [|eexists; split; [reflexivity|]; by intros ? ? [= _ <-]]. set (os := off * (if c =? 45 then 1 else -1)).
  assert (os <= 2 ^ 55) as Hos by (unfold os; destruct (c =? 45); lia).
  destruct (OPENSSL_gmtime_adj_sum t 0 os m (proj1 Ht) ltac:(unfold INT_MAX; lia) Hos) as (rc & t' & Ea & Hrc). rewrite (bind_ret _ _ _ _ _ Ea).
  destruct Hrc as [(-> & Hv & Hs & Hy & _)|(-> & _)]; [|by exists None]. eexists. split; [reflexivity|]. intros ? ? [= _ <-]. split; [done|]. lia.
Qed.
End parse.

(** Reading a time never leaves the text and, when it succeeds, gives a time of
    the calendar. *)
Lemma time_to_tm_total m d bs want : bytes_at m (as_data d) bs -> as_length d = Z.of_nat (length bs) ->
  exists r, ossl_asn1_time_to_tm want d m = Ret (r, m) /\ forall t, r = Some t -> parsed_tm t.
Proof.
  intros Hb Hl. unfold ossl_asn1_time_to_tm. set (utc := as_type d =? V_ASN1_UTCTIME). set (x := truthy (Z.land (as_flags d) ASN1_STRING_FLAG_X509_TIME)).
  destruct (negb utc && negb (as_type d =? V_ASN1_GENERALIZEDTIME)); [by exists None|]. cbv zeta. unfold or_err, guard_err. rewrite Hl.
  destruct (Z.ltb_spec (Z.of_nat (length bs)) (if utc then if x then 13 else 11 else if x then 15 else 13)) as [|Hlen]; [by exists None|]. rewrite mbind_mret.
  assert (0 < Z.of_nat (length bs)) as Hpos by (destruct utc, x; lia).
  destruct (time_fields_total m (as_data d) bs Hb utc x (if utc then 5 else 6) (Z.to_nat (if utc then 6 else 7)) 0 0 tm_zero) as ([[o t]|] & E & H);
    [destruct utc; lia|lia|done|lia|unfold time_inv; cbn; destruct utc; split_and!; intros; first [lia | exfalso; lia] | |]; rewrite (bind_ret _ _ _ _ _ E); [|by exists None].
  destruct (H _ _ eq_refl) as [Ho Ht]. destruct (time_fraction_total m (as_data d) bs Hb utc x o ltac:(lia)) as ([o2|] & E2 & H2); rewrite (bind_ret _ _ _ _ _ E2); [|by exists None].
  specialize (H2 _ eq_refl).
  destruct (time_zone_total m (as_data d) bs Hb want utc x o2 t ltac:(lia) (time_inv_parsed utc t Ht)) as ([[o3 t3]|] & E3 & H3); rewrite (bind_ret _ _ _ _ _ E3); [|by exists None].
  specialize (H3 _ _ eq_refl). destruct (o3 =? Z.of_nat (length bs)); eexists; (split; [reflexivity|]); intros t4 E4; [by injection E4 as <-|discriminate].
Qed.

(** *** Writing a time *)

Definition two (n : Z) : list Z := [48 + n / 10; 48 + n mod 10].

Lemma digits_step k n acc : 10 <= n -> Print.digits (S k) n acc = Print.digits k (n / 10) (48 + n mod 10 :: acc).
Proof. intros Hn. cbn [Print.digits]. by destruct (Z.ltb_spec n 10); [lia|]. Qed.

Lemma digits_last k n acc : n < 10 -> Print.digits (S k) n acc = 48 + n :: acc.
Proof. intros Hn. cbn [Print.digits]. by destruct (Z.ltb_spec n 10); [|lia]. Qed.

(** [%02d] and [%04d] of numbers that fit. *)
Lemma zero_padded n w : 0 <= n < 10 ^ 9 -> int_text DP_F_ZERO w (-1) 10 n = replicate (Z.to_nat (w - Z.of_nat (length (decimal n)))) 48 ++ decimal n.
Proof.
  intros Hn. unfold int_text. change (flag DP_F_ZERO DP_F_UNSIGNED) with false. change (flag DP_F_ZERO DP_F_PLUS) with false. change (flag DP_F_ZERO DP_F_SPACE) with false.
  change (flag DP_F_ZERO DP_F_NUM) with false. change (flag DP_F_ZERO DP_F_ZERO) with true. change (flag DP_F_ZERO DP_F_UP) with false. cbv iota zeta.
  destruct (Z.ltb_spec n 0); [lia|]. rewrite Z.abs_eq, number_text_decimal by lia. cbn [app length Nat.add]. replace (Z.to_nat (-1 - Z.of_nat (length (decimal n)))) with 0%nat by lia.
  by rewrite Nat.max_0_l, Nat.add_0_l.
Qed.

Lemma text_02 n : 0 <= n < 100 -> int_text DP_F_ZERO 2 (-1) 10 n = two n.
Proof.
  intros Hn. rewrite zero_padded by lia. unfold decimal, two. destruct (Z.lt_ge_cases n 10).
  - rewrite digits_last by lia. rewrite Z.div_small, Z.mod_small by lia. done.
  - rewrite digits_step by lia. rewrite digits_last by (apply Z.div_lt_upper_bound; lia). done.
Qed.

Lemma text_04 n : 0 <= n < 10000 -> int_text DP_F_ZERO 4 (-1) 10 n = two (n / 100) ++ two (n mod 100).
Proof.
  intros Hn. rewrite zero_padded by lia. unfold decimal, two. cbn [app].
  assert (n mod 100 / 10 = n / 10 mod 10 /\ n mod 100 mod 10 = n mod 10 /\ n / 100 / 10 = n / 1000 /\ n / 100 = n / 10 / 10 /\ n / 1000 = n / 10 / 10 / 10) as (E1 & E2 & E3 & E4 & E5) by (Z.div_mod_to_equations; lia).
  rewrite E1, E2, E3, E5, E4. set (a := n / 10) in *. destruct (Z.lt_ge_cases n 10).
  { rewrite digits_last by lia. assert (a = 0) as -> by (apply Z.div_small; lia). rewrite (Z.mod_small n) by lia. done. }
  rewrite digits_step by lia. fold a. assert (0 <= a < 1000) as Ha by (unfold a; Z.div_mod_to_equations; lia). destruct (Z.lt_ge_cases a 10).
  { rewrite digits_last by lia. rewrite (Z.div_small a), (Z.mod_small a) by lia. done. }
  rewrite digits_step by lia. set (b := a / 10) in *. assert (0 <= b < 100) as Hb by (unfold b; Z.div_mod_to_equations; lia). destruct (Z.lt_ge_cases b 10).
  { rewrite digits_last by lia. rewrite (Z.div_small b), (Z.mod_small b) by lia. done. }
  rewrite digits_step by lia. rewrite digits_last by (apply Z.div_lt_upper_bound; lia). done.
Qed.

(** The text of a time in one of the two forms. *)
Definition time_text (type : Z) (t : tm) : list Z :=
  (if type =? V_ASN1_GENERALIZEDTIME then two ((tm_year t + 1900) / 100) ++ two ((tm_year t + 1900) mod 100) else two (tm_year t mod 100)) ++
  two (tm_mon t + 1) ++ two (tm_mday t) ++ two (tm_hour t) ++ two (tm_min t) ++ two (tm_sec t) ++ [90].

Definition zpad (w n : Z) : directive := Spec [48] (Digits [48 + w]) None MNone (CSigned 100 n).

Definition time_directives (w y : Z) (t : tm) : list directive :=
  [zpad w y; zpad 2 (tm_mon t + 1); zpad 2 (tm_mday t); zpad 2 (tm_hour t); zpad 2 (tm_min t); zpad 2 (tm_sec t); Plain 90].

Lemma format_4 y t : format_of (time_directives 4 y t) = str "%04d%02d%02d%02d%02d%02dZ" ++ [0].
Proof. reflexivity. Qed.

Lemma format_2 y t : format_of (time_directives 2 y t) = str "%02d%02d%02d%02d%02d%02dZ" ++ [0].
Proof. reflexivity. Qed.

Lemma args_time w y t : args_of (time_directives w y t) = [VInt y; VInt (tm_mon t + 1); VInt (tm_mday t); VInt (tm_hour t); VInt (tm_min t); VInt (tm_sec t)].
Proof. reflexivity. Qed.

Lemma zpad_text w n : w = 2 /\ 0 <= n < 100 \/ w = 4 /\ 0 <= n < 10000 ->
  directive_text 20 (zpad w n) = if w =? 4 then two (n / 100) ++ two (n mod 100) else two n.
Proof.
  intros H. unfold zpad. cbn [directive_text conv_text]. change (flag_bits 0 [48]) with DP_F_ZERO. change (prec_value None) with (-1).
  assert (to_int n = n) as -> by (unfold to_int; rewrite Z.mod_small by lia; lia).
  destruct H as [[-> Hn]|[-> Hn]]; [by apply text_02|by apply text_04].
Qed.

Lemma zpad_wf w n : 1 <= w <= 9 -> wf_directive (fun _ => True) (zpad w n).
Proof.
  intros Hw. cbn. unfold digit_char_ok. split_and!; try lia; try done; try (repeat constructor; lia).
Qed.

(** The date of a time that was parsed or is to be written. *)
Lemma parsed_fields t : parsed_tm t -> 0 <= tm_year t + 1900 <= 9999 /\ 1 <= tm_mon t + 1 <= 12 /\ 1 <= tm_mday t <= 31 /\
  0 <= tm_hour t <= 23 /\ 0 <= tm_min t <= 59 /\ 0 <= tm_sec t <= 59.
Proof. intros ((_ & [Hm Hd] & Hh & Hmi & Hs) & Hs59 & Hy). pose proof (month_length_range (tm_year t + 1900) (tm_mon t + 1)). lia. Qed.

Lemma time_directives_text type t : parsed_tm t -> (type = V_ASN1_UTCTIME -> is_utc (tm_year t) = true) -> type = V_ASN1_UTCTIME \/ type = V_ASN1_GENERALIZEDTIME ->
  text_of 20 (if type =? V_ASN1_GENERALIZEDTIME then time_directives 4 (tm_year t + 1900) t else time_directives 2 (Z.rem (tm_year t) 100) t) = time_text type t.
Proof.
  intros Ht Hu Htype. destruct (parsed_fields t Ht) as (Hy & Hm & Hd & Hh & Hmi & Hs). unfold time_text, text_of, time_directives.
  destruct Htype as [-> | ->]; [change (V_ASN1_UTCTIME =? V_ASN1_GENERALIZEDTIME) with false|change (V_ASN1_GENERALIZEDTIME =? V_ASN1_GENERALIZEDTIME) with true]; cbv iota; cbn [map concat].
  - specialize (Hu eq_refl). unfold is_utc in Hu. rewrite Z.rem_mod_nonneg by lia. pose proof (Z.mod_pos_bound (tm_year t) 100 ltac:(lia)).
    rewrite !zpad_text by lia. done.
  - rewrite !zpad_text by lia. rewrite <- !app_assoc. done.
Qed.

Section strings.
Context {AL : Allocator} {ALL : AllocatorLaws}.

(** Room for [len] octets and one more, without contents. *)
Lemma ASN1_STRING_set_null m s c len : string_at m s c -> 0 <= len < INT_MAX ->
  exists ok s' m', ASN1_STRING_set s NULL len m = Ret ((ok, s'), m') /\
    if ok : bool then exists b, as_data s' = Ptr b 0 /\ room m' (Ptr b 0) (len + 1) /\ as_flags s' = as_flags s
    else s' = s /\ m' = m /\ alloc_ok m (len + 1) = false.
Proof using ALL.
  intros Hs Hl. unfold ASN1_STRING_set, string_set_len. destruct (Z.ltb_spec len 0); [lia|]. destruct (Z.ltb_spec (INT_MAX - 1) len); [lia|].
  destruct (string_room_run m s c len Hs Hl) as (r & m1 & E & Hr). rewrite (bind_ret _ _ _ _ _ E).
  destruct Hr as [(-> & -> & Hf)|(b & l & -> & Hb & Hlen & _)]; cbn [is_null]; [by eexists false, _, _|].
  eexists true, _, _. split; [reflexivity|]. exists b. split; [done|]. split; [|done]. apply room_block; [lia|]. exists l. split; [done|]. lia.
Qed.

Definition string_or_new (m : mem) (s : option ASN1_STRING) : Prop := match s with None => True | Some s => exists c, string_at m s c end.

Context (fmtfp : Z -> Z -> Z -> Z -> Z -> M pst bool) (address : ptr -> Z).

(** The type that is chosen. *)
Definition time_type (type : Z) (t : tm) : Z :=
  if type =? V_ASN1_UNDEF then (if is_utc (tm_year t) then V_ASN1_UTCTIME else V_ASN1_GENERALIZEDTIME) else type.

Lemma time_text_length type t : Z.of_nat (length (time_text type t)) = if type =? V_ASN1_GENERALIZEDTIME then 15 else 13.
Proof. unfold time_text. by destruct (type =? V_ASN1_GENERALIZEDTIME). Qed.

(** The text in the array of 20 octets. *)
Lemma time_printed m b type t w y : room m (Ptr b 0) 21 -> parsed_tm t -> (type = V_ASN1_UTCTIME -> is_utc (tm_year t) = true) ->
  type = V_ASN1_UTCTIME \/ type = V_ASN1_GENERALIZEDTIME -> (w, y) = (if type =? V_ASN1_GENERALIZEDTIME then (4, tm_year t + 1900) else (2, Z.rem (tm_year t) 100)) ->
  exists m', BIO_snprintf fmtfp address (Ptr b 0) 20 (format_of (time_directives w y t)) (args_of (time_directives w y t)) m = Ret (Z.of_nat (length (time_text type t)), m') /\
    bytes_at m' (Ptr b 0) (time_text type t).
Proof.
  intros Hr Ht Hu Htype Ewy. assert (text_of 20 (time_directives w y t) = time_text type t) as Et.
  { rewrite <- (time_directives_text type t Ht Hu Htype). destruct Htype as [-> | ->]; injection Ewy as -> ->; done. }
  assert (1 <= w <= 9) as Hw by (destruct Htype as [-> | ->]; injection Ewy as -> ->; lia). clear Ewy.
  pose proof (time_text_length type t) as Hl. rewrite (BIO_snprintf_run fmtfp address m b 0 20 (fun _ => True)).
  - rewrite Et. destruct (Z.ltb_spec (Z.of_nat (length (time_text type t))) 20); [|destruct (type =? V_ASN1_GENERALIZEDTIME); lia]. eexists. split; [done|].
    rewrite take_ge by lia. apply (bytes_at_app_l _ _ _ [0]). apply bytes_at_mwrite_eq. eapply room_le; [exact Hr|]. rewrite length_app. cbn [length]. lia.
  - done.
  - done.
  - eapply room_le; [exact Hr|lia].
  - unfold INT_MAX. lia.
  - unfold time_directives. repeat (apply Forall_cons_2; [by apply zpad_wf|]). apply Forall_cons_2; [|by apply Forall_nil_2]. cbn. unfold is_byte. lia.
Qed.

Lemma time_write_run m s c t ty : string_at m s c -> parsed_tm t -> ty = V_ASN1_UTCTIME \/ ty = V_ASN1_GENERALIZEDTIME ->
  (ty = V_ASN1_UTCTIME -> is_utc (tm_year t) = true) ->
  exists ok s' m', time_write fmtfp address s t ty m = Ret ((ok, s'), m') /\
    if ok : bool then as_type s' = ty /\ as_length s' = Z.of_nat (length (time_text ty t)) /\ bytes_at m' (as_data s') (time_text ty t)
    else s' = s /\ m' = m /\ alloc_ok m 21 = false.
Proof using ALL.
  intros Hs Ht Hty Hutc. destruct (parsed_fields t Ht) as (Hy & Hmo & _). unfold time_write.
  destruct (ASN1_STRING_set_null m s c 20 Hs ltac:(unfold INT_MAX; lia)) as (ok & s1 & m1 & E & Hok). rewrite (bind_ret _ _ _ _ _ E).
  destruct ok; cbn [negb]; [|by eexists false, _, _]. destruct Hok as (b & Ed & Hr & Hf).
  cbn [with_type as_data]. destruct (Z.ltb_spec (INT_MAX - 1) (tm_mon t)) as [Hbad|_]; [unfold INT_MAX in Hbad; lia|]. rewrite Ed. cbv zeta.
  destruct (time_printed m1 b ty t (if ty =? V_ASN1_GENERALIZEDTIME then 4 else 2) (if ty =? V_ASN1_GENERALIZEDTIME then tm_year t + 1900 else Z.rem (tm_year t) 100) Hr Ht Hutc Hty) as (m2 & E2 & Hb2);
    [by destruct (ty =? V_ASN1_GENERALIZEDTIME)|].
  destruct (ty =? V_ASN1_GENERALIZEDTIME) eqn:Egen; [destruct (Z.ltb_spec (INT_MAX - 1900) (tm_year t)) as [Hbad|_]; [unfold INT_MAX in Hbad; lia|]|].
  - rewrite format_4, args_time in E2. rewrite (bind_ret _ _ _ _ _ E2). eexists true, _, m2. split; [reflexivity|]. cbn [ASN1_STRING_length_set with_type as_type as_length as_data]. split; [reflexivity|]. split; [reflexivity|]. rewrite Ed. exact Hb2.
  - rewrite format_2, args_time in E2. rewrite (bind_ret _ _ _ _ _ E2). eexists true, _, m2. split; [reflexivity|]. cbn [ASN1_STRING_length_set with_type as_type as_length as_data]. split; [reflexivity|]. split; [reflexivity|]. rewrite Ed. exact Hb2.
Qed.

Lemma from_tm_run m s t type : string_or_new m s -> parsed_tm t ->
  type = V_ASN1_UNDEF \/ type = V_ASN1_GENERALIZEDTIME \/ (type = V_ASN1_UTCTIME /\ is_utc (tm_year t) = true) ->
  exists ok r m', ossl_asn1_time_from_tm fmtfp address s t type m = Ret ((ok, r), m') /\
    if ok : bool then exists s', r = Some s' /\ as_type s' = time_type type t /\ as_length s' = Z.of_nat (length (time_text (time_type type t) t)) /\
      bytes_at m' (as_data s') (time_text (time_type type t) t)
    else exists m1 k, alloc_ok m1 k = false.
Proof using ALL.
  intros Hs Ht Htype. unfold ossl_asn1_time_from_tm. set (ty := time_type type t).
  assert ((if type =? V_ASN1_UNDEF then Some (if is_utc (tm_year t) then V_ASN1_UTCTIME else V_ASN1_GENERALIZEDTIME)
    else if type =? V_ASN1_UTCTIME then (if is_utc (tm_year t) then Some type else None)
    else if type =? V_ASN1_GENERALIZEDTIME then Some type else None) = Some ty /\ (ty = V_ASN1_UTCTIME \/ ty = V_ASN1_GENERALIZEDTIME) /\
    (ty = V_ASN1_UTCTIME -> is_utc (tm_year t) = true)) as (-> & Hty & Hutc).
  { unfold ty, time_type. destruct Htype as [-> | [-> | [-> Hu]]]; [|by split; [|split; [right|]]|rewrite Hu; by split; [|split; [left|]]].
    change (V_ASN1_UNDEF =? V_ASN1_UNDEF) with true. cbv iota. destruct (is_utc (tm_year t)); by split; [|split; [auto|]]. }
  clearbody ty. clear Htype.
  assert (forall s0 c, string_at m s0 c -> (s = None -> as_data s0 = NULL) -> exists ok r m',
    ('(ok, tmps) ← time_write fmtfp address s0 t ty;
     if ok : bool then mret (true, Some tmps) else match s with None => ASN1_STRING_free (Some tmps);; mret (false, None) | Some _ => mret (false, Some tmps) end) m = Ret ((ok, r), m') /\
    if ok : bool then exists s', r = Some s' /\ as_type s' = ty /\ as_length s' = Z.of_nat (length (time_text ty t)) /\ bytes_at m' (as_data s') (time_text ty t)
    else exists m1 k, alloc_ok m1 k = false) as Hmain.
  { intros s0 c Hs0 Hnew. destruct (time_write_run m s0 c t ty Hs0 Ht Hty Hutc) as (ok & s1 & m1 & E & Hok). rewrite (bind_ret _ _ _ _ _ E). destruct ok.
    - eexists true, _, _. split; [reflexivity|]. by exists s1.
    - destruct Hok as (-> & -> & Hf). destruct s; eexists false, _, _; (split; [|by exists m, 21]); [done|].
      unfold ASN1_STRING_free, ossl_asn1_string_embed_free. rewrite (Hnew eq_refl). cbn. repeat case_match; done. }
  destruct s as [s0|].
  - destruct Hs as [c Hs]. rewrite mbind_mret. by apply (Hmain s0 c).
  - unfold ASN1_STRING_new, ASN1_STRING_type_new. destruct (alloc_ok m 24) eqn:Ea.
    + erewrite bind_ret; [|rewrite Ea; reflexivity]. apply (Hmain _ []); [|done]. split; [done|]. split; [done|]. by left.
    + erewrite bind_ret; [|rewrite Ea; reflexivity]. eexists false, _, _. split; [reflexivity|]. by exists m, 24.
Qed.
End strings.

(** *** Reading what was written *)

Lemma two_digits_run m a o l n c rest : bytes_at m (padd a o) (two n ++ c :: rest) -> 0 <= n < 100 -> o + 2 < l ->
  two_digits a o l m = Ret (Some (n, o + 2), m).
Proof.
  intros Hb Hn Ho. unfold two in Hb. cbn [app] in Hb. unfold two_digits, or_err, guard_err. rewrite (bind_ret _ _ _ _ _ (load_at _ _ _ _ Hb)).
  apply bytes_at_cons in Hb as [_ Hb]. rewrite padd_padd in Hb. assert (0 <= n / 10 <= 9) as Hq by (Z.div_mod_to_equations; lia). pose proof (Z.mod_pos_bound n 10 ltac:(lia)) as Hm.
  assert (forall x, 0 <= x <= 9 -> negb (ossl_ascii_isdigit (48 + x)) = false) as Hdig by (intros; unfold ossl_ascii_isdigit, ASCII_IS_DIGIT; lia).
  rewrite Hdig, mbind_mret by lia. destruct (Z.eqb_spec (o + 1) l); [lia|]. rewrite mbind_mret, (bind_ret _ _ _ _ _ (load_at _ _ _ _ Hb)), Hdig, mbind_mret by lia.
  destruct (Z.eqb_spec (o + 2) l); [lia|]. rewrite mbind_mret. cbv zeta. pose proof (Z.div_mod n 10 ltac:(lia)).
  replace ((48 + n / 10 - 48) * 10 + (48 + n mod 10) - 48) with n by lia. done.
Qed.

(** One field of the text. *)
Lemma field_run m a k (utc strict : bool) btz i o l n c rest t t' j : bytes_at m (padd a o) (two n ++ c :: rest) -> 0 <= n < 100 -> o + 2 < l ->
  (if utc then i + 1 else i) = j -> 0 <= j <= 6 -> nth (Z.to_nat j) time_min 0 <= n <= nth (Z.to_nat j) time_max 0 -> time_field utc j n t m = Ret (Some t', m) ->
  time_fields (S k) utc strict btz a i o l t m = time_fields k utc strict btz a (i + 1) (o + 2) l t' m.
Proof.
  intros Hb Hn Ho Ej Hj Hr Hf. cbn [time_fields]. assert (0 <= n / 10 <= 9) as Hq by (Z.div_mod_to_equations; lia).
  assert ((if negb strict && (i =? btz) then c ← load (padd a o); mret ((c =? 90) || (c =? 43) || (c =? 45)) else mret false) m = Ret (false, m)) as Ez.
  { destruct (negb strict && (i =? btz)); [|done]. rewrite (bind_ret _ _ _ _ _ (load_at _ _ _ _ Hb)). unfold mret, M_ret. do 2 f_equal. lia. }
  rewrite (bind_ret _ _ _ _ _ Ez). unfold or_err at 1. rewrite (bind_ret _ _ _ _ _ (two_digits_run m a o l n c rest Hb Hn Ho)). cbv zeta. rewrite Ej.
  destruct (in_range_run j n m ltac:(lia)) as (ok & Er & Hok). rewrite (bind_ret _ _ _ _ _ Er). assert (ok = true) as -> by by apply Hok.
  unfold or_err at 1, guard_err. rewrite mbind_mret. cbn [negb]. cbv iota. unfold or_err at 1. by rewrite (bind_ret _ _ _ _ _ Hf).
Qed.

(** The time with its day of the week and of the year. *)
Definition calendar_tm (t : tm) : tm :=
  calendar_days (mkTm (tm_sec t) (tm_min t) (tm_hour t) (tm_mday t) (tm_mon t) (tm_year t) 0 0 0).

(** The octets behind a field. *)
Lemma bytes_behind m a o n rest : bytes_at m (padd a o) (two n ++ rest) -> bytes_at m (padd a (o + 2)) rest.
Proof. intros [_ H]%bytes_at_app. by rewrite padd_padd in H. Qed.

(** The fields from the month on. *)
Lemma late_fields m a (utc strict : bool) btz i o l t : (if utc then i + 1 else i) = 2 ->
  bytes_at m (padd a o) (two (tm_mon t + 1) ++ two (tm_mday t) ++ two (tm_hour t) ++ two (tm_min t) ++ two (tm_sec t) ++ [90]) -> l = o + 11 ->
  parsed_tm t -> 1 <= tm_year t + 1900 ->
  time_fields 5 utc strict btz a i o l (mkTm 0 0 0 0 0 (tm_year t) 0 0 0) m = Ret (Some (o + 10, calendar_tm t), m).
Proof.
  intros Hj Hb Hl Ht Hy1. destruct (parsed_fields t Ht) as (Hy & Hmo & Hd & Hh & Hmi & Hs). destruct Ht as ((_ & Hdate & _) & _).
  pose proof (bytes_behind _ _ _ _ _ Hb) as Hb1. pose proof (bytes_behind _ _ _ _ _ Hb1) as Hb2. pose proof (bytes_behind _ _ _ _ _ Hb2) as Hb3. pose proof (bytes_behind _ _ _ _ _ Hb3) as Hb4.
  assert (forall i k, (if utc then i + 1 else i) = k -> (if utc then i + 1 + 1 else i + 1) = k + 1) as Hstep by (intros; destruct utc; lia).
  pose proof (Hstep _ _ Hj) as Hj3. pose proof (Hstep _ _ Hj3) as Hj4. pose proof (Hstep _ _ Hj4) as Hj5. pose proof (Hstep _ _ Hj5) as Hj6.
  rewrite (field_run m a 4 utc strict btz i o l _ _ _ _ (mkTm 0 0 0 0 (tm_mon t) (tm_year t) 0 0 0) 2 Hb);
    [|lia|lia|done|lia|by cbv [nth Z.to_nat Pos.to_nat Pos.iter_op Nat.add time_min time_max]; lia|cbn; unfold set_mon; cbn; by rewrite Z.add_simpl_r].
  set (t3 := calendar_days (mkTm 0 0 0 (tm_mday t) (tm_mon t) (tm_year t) 0 0 0)).
  rewrite (field_run m a 3 utc strict btz (i + 1) (o + 2) l _ _ _ _ t3 3 Hb1);
    [|lia|lia|lia|lia|by cbv [nth Z.to_nat Pos.to_nat Pos.iter_op Nat.add time_min time_max]; lia|].
  2: { unfold time_field. cbn [Z.eqb Pos.eqb]. erewrite bind_ret; [|apply (mdays_length (tm_year t + 1900) (tm_mon t)); lia]. destruct (Z.ltb_spec (month_length (tm_year t + 1900) (tm_mon t + 1)) (tm_mday t)) as [Hbad|_].
       { destruct Hdate as [_ Hdate]. lia. }
       erewrite bind_ret; [reflexivity|]. by apply (determine_days_run (set_mday (tm_mday t) (mkTm 0 0 0 0 (tm_mon t) (tm_year t) 0 0 0))). }
  rewrite (field_run m a 2 utc strict btz _ _ l _ _ _ _ (set_hour (tm_hour t) t3) 4 Hb2);
    [|lia|lia|lia|lia|by cbv [nth Z.to_nat Pos.to_nat Pos.iter_op Nat.add time_min time_max]; lia|done].
  rewrite (field_run m a 1 utc strict btz _ _ l _ _ _ _ (set_min (tm_min t) (set_hour (tm_hour t) t3)) 5 Hb3);
    [|lia|lia|lia|lia|by cbv [nth Z.to_nat Pos.to_nat Pos.iter_op Nat.add time_min time_max]; lia|done].
  rewrite (field_run m a 0 utc strict btz _ _ l _ _ _ _ (set_sec (tm_sec t) (set_min (tm_min t) (set_hour (tm_hour t) t3))) 6 Hb4);
    [|lia|lia|lia|lia|by cbv [nth Z.to_nat Pos.to_nat Pos.iter_op Nat.add time_min time_max]; lia|done].
  cbn [time_fields]. by replace (o + 2 + 2 + 2 + 2 + 2) with (o + 10) by lia.
Qed.

Lemma fields_text m a t (utc strict : bool) : bytes_at m (padd a 0) (time_text (if utc then V_ASN1_UTCTIME else V_ASN1_GENERALIZEDTIME) t) ->
  (utc = true -> is_utc (tm_year t) = true) -> parsed_tm t -> 1 <= tm_year t + 1900 -> let l := if utc then 13 else 15 in
  time_fields (Z.to_nat (if utc then 6 else 7)) utc strict (if utc then 5 else 6) a 0 0 l tm_zero m = Ret (Some (l - 1, calendar_tm t), m) /\
  bytes_at m (padd a (l - 1)) [90].
Proof.
  intros Hb Hu Ht Hy1. destruct (parsed_fields t Ht) as (Hy & _). destruct utc; cbv zeta.
  - specialize (Hu eq_refl). unfold is_utc in Hu. unfold time_text in Hb. change (V_ASN1_UTCTIME =? V_ASN1_GENERALIZEDTIME) with false in Hb. cbv iota in Hb.
    pose proof (Z.mod_pos_bound (tm_year t) 100 ltac:(lia)) as Hm. pose proof (bytes_behind _ _ _ _ _ Hb) as Hb1. change (0 + 2) with 2 in Hb1. split.
    + change (Z.to_nat 6) with 6%nat. rewrite (field_run m a 5 true strict 5 0 0 13 _ _ _ tm_zero (mkTm 0 0 0 0 0 (tm_year t) 0 0 0) 1 Hb);
        [|lia|lia|done|lia|by cbv [nth Z.to_nat Pos.to_nat Pos.iter_op Nat.add time_min time_max]; lia|].
      * apply (late_fields m a true strict 5 1 2 13 t); done.
      * unfold time_field. cbn [Z.eqb Pos.eqb]. assert ((if tm_year t mod 100 <? 50 then tm_year t mod 100 + 100 else tm_year t mod 100) = tm_year t) as ->; [|done].
        destruct (Z.ltb_spec (tm_year t mod 100) 50); Z.div_mod_to_equations; lia.
    + by do 5 apply bytes_behind in Hb1.
  - unfold time_text in Hb. change (V_ASN1_GENERALIZEDTIME =? V_ASN1_GENERALIZEDTIME) with true in Hb. cbv iota in Hb. rewrite <- !app_assoc in Hb.
    pose proof (Z.mod_pos_bound (tm_year t + 1900) 100 ltac:(lia)) as Hm. pose proof (Z.div_mod (tm_year t + 1900) 100 ltac:(lia)) as Ed. set (c := (tm_year t + 1900) / 100) in *.
    set (r := (tm_year t + 1900) mod 100) in *. clearbody c r. pose proof (bytes_behind _ _ _ _ _ Hb) as Hb1. change (0 + 2) with 2 in Hb1.
    pose proof (bytes_behind _ _ _ _ _ Hb1) as Hb2. change (2 + 2) with 4 in Hb2. split.
    + change (Z.to_nat 7) with 7%nat. rewrite (field_run m a 6 false strict 6 0 0 15 _ _ _ tm_zero (mkTm 0 0 0 0 0 (c * 100 - 1900) 0 0 0) 0 Hb);
        [|lia|lia|done|lia|by cbv [nth Z.to_nat Pos.to_nat Pos.iter_op Nat.add time_min time_max]; lia|done].
      rewrite (field_run m a 5 false strict 6 _ _ 15 _ _ _ _ (mkTm 0 0 0 0 0 (tm_year t) 0 0 0) 1 Hb1);
        [|lia|lia|done|lia|by cbv [nth Z.to_nat Pos.to_nat Pos.iter_op Nat.add time_min time_max]; lia|].
      * apply (late_fields m a false strict 6 2 4 15 t); done.
      * unfold time_field. cbn [Z.eqb Pos.eqb]. cbn [tm_year]. by replace (c * 100 - 1900 + r) with (tm_year t) by lia.
    + by do 5 apply bytes_behind in Hb2.
Qed.

(** The parser on the text of a time. *)
Lemma to_tm_text m d t ty want : bytes_at m (as_data d) (time_text ty t) -> as_length d = Z.of_nat (length (time_text ty t)) -> as_type d = ty ->
  ty = V_ASN1_UTCTIME \/ ty = V_ASN1_GENERALIZEDTIME -> (ty = V_ASN1_UTCTIME -> is_utc (tm_year t) = true) -> parsed_tm t -> 1 <= tm_year t + 1900 ->
  ossl_asn1_time_to_tm want d m = Ret (Some (calendar_tm t), m).
Proof.
  intros Hb Hl Hty Htype Hutc Ht Hy1. rewrite time_text_length in Hl. unfold ossl_asn1_time_to_tm. rewrite Hty, Hl.
  set (x := truthy (Z.land (as_flags d) ASN1_STRING_FLAG_X509_TIME)). set (a := as_data d) in *. rewrite <- (padd_0 a) in Hb.
  assert (exists utc : bool, ty = (if utc then V_ASN1_UTCTIME else V_ASN1_GENERALIZEDTIME)) as (utc & ->) by (destruct Htype as [-> | ->]; [by exists true|by exists false]).
  destruct (fields_text m a t utc x Hb) as [Ef Hz]; [by intros ->; apply Hutc|done|done|].
  assert ((if (if utc then V_ASN1_UTCTIME else V_ASN1_GENERALIZEDTIME) =? V_ASN1_GENERALIZEDTIME then 15 else 13) = if utc then 13 else 15) as -> by by destruct utc.
  assert (((if utc then V_ASN1_UTCTIME else V_ASN1_GENERALIZEDTIME) =? V_ASN1_UTCTIME) = utc) as -> by by destruct utc.
  assert (negb utc && negb ((if utc then V_ASN1_UTCTIME else V_ASN1_GENERALIZEDTIME) =? V_ASN1_GENERALIZEDTIME) = false) as -> by by destruct utc.
  cbv zeta. unfold or_err, guard_err. set (l := if utc then 13 else 15) in *.
  assert ((l <? (if utc then if x then 13 else 11 else if x then 15 else 13)) = false) as -> by (unfold l; by destruct utc, x). rewrite mbind_mret. cbv iota.
  rewrite (bind_ret _ _ _ _ _ Ef). assert (time_fraction utc x a (l - 1) l m = Ret (Some (l - 1), m)) as E2.
  { unfold time_fraction. destruct utc; [done|]. by rewrite bind_assoc, (bind_ret _ _ _ _ _ (load_at _ _ _ _ Hz)). }
  rewrite (bind_ret _ _ _ _ _ E2). assert (time_zone want utc x (if utc then 6 else 7) a (l - 1) l (calendar_tm t) m = Ret (Some (l - 1 + 1, calendar_tm t), m)) as E3.
  { unfold time_zone. by rewrite (bind_ret _ _ _ _ _ (load_at _ _ _ _ Hz)). }
  rewrite (bind_ret _ _ _ _ _ E3). rewrite Z.sub_add, Z.eqb_refl. done.
Qed.


(** ** Properties *)

(** C37: a time of the years 1 to 9999 that is written as UTCTime or
    GeneralizedTime, into a given or a new string, is read back from the string
    with the day of the week and of the year that the calendar gives it; writing
    fails only when the allocator refuses. *)
Theorem ASN1_TIME_roundtrip {AL : Allocator} {ALL : AllocatorLaws} fmtfp address m s t type : string_or_new m s -> parsed_tm t -> 1 <= tm_year t + 1900 ->
  type = V_ASN1_UNDEF \/ type = V_ASN1_GENERALIZEDTIME \/ (type = V_ASN1_UTCTIME /\ is_utc (tm_year t) = true) ->
  exists ok r m', ossl_asn1_time_from_tm fmtfp address s t type m = Ret ((ok, r), m') /\
    if ok : bool then exists s', r = Some s' /\ as_type s' = time_type type t /\ ossl_asn1_time_to_tm true s' m' = Ret (Some (calendar_tm t), m')
    else exists m1 k, alloc_ok m1 k = false.
Proof.
  intros Hs Ht Hy Htype. destruct (from_tm_run fmtfp address m s t type Hs Ht Htype) as (ok & r & m' & E & Hok). exists ok, r, m'. split; [done|].
  destruct ok; [|done]. destruct Hok as (s' & -> & Hty & Hl & Hb). exists s'. split; [done|]. split; [done|]. apply (to_tm_text m' s' t (time_type type t)); try done.
  all: unfold time_type; destruct Htype as [-> | [-> | [-> Hu]]]; cbn; try done; try (by left); try (by right); destruct (is_utc (tm_year t)); auto; done.
Qed.

Lemma ASN1_TIME_roundtrip_witness :
  exists ok r m', ossl_asn1_time_from_tm (fun _ _ _ _ _ => mret true) (fun _ => 0) None (mkTm 59 59 23 29 1 124 4 59 0) V_ASN1_UNDEF ∅ = Ret ((ok, r), m') /\
    (ok = true -> exists s', r = Some s' /\ as_type s' = V_ASN1_UTCTIME /\ ossl_asn1_time_to_tm true s' m' = Ret (Some (mkTm 59 59 23 29 1 124 4 59 0), m')).
Proof.
  destruct (ASN1_TIME_roundtrip (fun _ _ _ _ _ => mret true) (fun _ => 0) ∅ None (mkTm 59 59 23 29 1 124 4 59 0) V_ASN1_UNDEF) as (ok & r & m' & E & H).
  - exact I.
  - unfold parsed_tm, valid_tm, year_ok, valid_date. cbn [tm_sec tm_min tm_hour tm_mday tm_mon tm_year].
    change (month_length (124 + 1900) (1 + 1)) with 29. lia.
  - cbn. lia.
  - left. reflexivity.
  - exists ok, r, m'. split; [exact E|]. intros ->. exact H.
Defined.

(** C38: comparing two times, whatever octets their strings hold, never reads
    outside of them and ends: it gives -2 when one is not a time, and otherwise
    the order of their counts of seconds, both times being dates of the
    calendar. *)
Theorem ASN1_TIME_compare_orders gmtime_r now m a b bsa bsb : bytes_at m (as_data a) bsa -> as_length a = Z.of_nat (length bsa) ->
  bytes_at m (as_data b) bsb -> as_length b = Z.of_nat (length bsb) ->
  exists ra rb, ossl_asn1_time_to_tm true a m = Ret (ra, m) /\ ossl_asn1_time_to_tm true b m = Ret (rb, m) /\
    (forall t, ra = Some t \/ rb = Some t -> parsed_tm t) /\
    ASN1_TIME_compare gmtime_r now (Some a) (Some b) m =
      Ret (match ra, rb with Some ta, Some tb => Z.sgn (seconds ta - seconds tb) | _, _ => -2 end, m).
Proof.
  intros Ha Hla Hb Hlb. destruct (time_to_tm_total m a bsa true Ha Hla) as (ra & Ea & Hpa). destruct (time_to_tm_total m b bsb true Hb Hlb) as (rb & Eb & Hpb).
  exists ra, rb. do 2 (split; [done|]). split; [intros t [?|?]; auto|]. unfold ASN1_TIME_compare, ASN1_TIME_diff, or_err. cbn [ASN1_TIME_to_tm].
  rewrite bind_assoc, (bind_ret _ _ _ _ _ Eb). destruct rb as [tb|]; [|by destruct ra]. rewrite bind_assoc, (bind_ret _ _ _ _ _ Ea). destruct ra as [ta|]; [|done].
  specialize (Hpa _ eq_refl). specialize (Hpb _ eq_refl). destruct Hpa as (Hva & _ & Hya), Hpb as (Hvb & _ & Hyb).
  destruct (gmtime_diff_run tb ta m Hvb Hva ltac:(lia) ltac:(lia)) as (day & sec & E & Es & Hsign). rewrite (bind_ret _ _ _ _ _ E). cbn [order_of].
  unfold mret, M_ret. do 2 f_equal. change SECS_PER_DAY with 86400 in *. rewrite <- Es.
  destruct (Z.ltb_spec 0 day), (Z.ltb_spec 0 sec), (Z.ltb_spec day 0), (Z.ltb_spec sec 0); cbn [orb]; lia.
Qed.

Lemma ASN1_TIME_compare_orders_witness :
  let m : mem := {[ 1%positive := str "240229235959Z" ]} ∪ {[ 2%positive := str "20240301010000+0100" ]} in
  ASN1_TIME_compare (fun _ => None) 0 (Some (mkSTRING 13 V_ASN1_UTCTIME (Ptr 1 0) 0)) (Some (mkSTRING 19 V_ASN1_GENERALIZEDTIME (Ptr 2 0) 0)) m = Ret (-1, m).
Proof.
  intros m. destruct (ASN1_TIME_compare_orders (fun _ => None) 0 m (mkSTRING 13 V_ASN1_UTCTIME (Ptr 1 0) 0) (mkSTRING 19 V_ASN1_GENERALIZEDTIME (Ptr 2 0) 0)
    (str "240229235959Z") (str "20240301010000+0100")) as (ra & rb & Ea & Eb & _ & E).
  - exists []. reflexivity.
  - reflexivity.
  - exists []. reflexivity.
  - reflexivity.
  - rewrite E. assert (ra = Some (mkTm 59 59 23 29 1 124 4 59 0)) as -> by (vm_compute in Ea; injection Ea as <-; reflexivity).
    assert (rb = Some (mkTm 0 0 0 1 2 124 5 60 0)) as -> by (vm_compute in Eb; injection Eb as <-; reflexivity). reflexivity.
Defined.

(** ** Where the code departs *)

(** A time zone moves the date, but the days of the week and of the year are those
    of the date before: 00:30 on Monday 1 January 2024 at +0100 is 23:30 on
    Sunday 31 December 2023, and is given as a Monday, day 0 of the year. *)
Lemma zone_keeps_days :
  let m : mem := {[ 1%positive := str "20240101003000+0100" ]} in
  ossl_asn1_time_to_tm true (mkSTRING 19 V_ASN1_GENERALIZEDTIME (Ptr 1 0) 0) m = Ret (Some (mkTm 0 30 23 31 11 123 1 0 0), m) /\
  calendar_tm (mkTm 0 30 23 31 11 123 1 0 0) = mkTm 0 30 23 31 11 123 0 364 0.
Proof. split; vm_compute; reflexivity. Qed.

(** The result of BIO_snprintf is not checked: a year of nine digits does not fit
    the array, and the string that is returned has the length -1. *)
Lemma long_year_length :
  match ossl_asn1_time_from_tm (fun _ _ _ _ _ => mret true) (fun _ => 0) None (mkTm 0 0 0 1 0 (100000000 - 1900) 0 0 0) V_ASN1_GENERALIZEDTIME ∅ with
  | Ret ((ok, Some s), _) => ok = true /\ as_length s = -1
  | _ => False
  end.
Proof. vm_compute. done. Qed.

(** In the year 0 the congruence is used with a negative year: 1 January is a
    Saturday, and is given as a Sunday. *)
Lemma year_0_weekday :
  determine_days (mkTm 0 0 0 1 0 (-1900) 0 0 0) tt = Ret (mkTm 0 0 0 1 0 (-1900) 0 0 0, tt) /\
  calendar_days (mkTm 0 0 0 1 0 (-1900) 0 0 0) = mkTm 0 0 0 1 0 (-1900) 6 0 0.
Proof. split; vm_compute; reflexivity. Qed.
