(* ===== verification/DerWriter.v ===== *)
(** * Writing DER

    crypto/der_writer.c of the vendored OpenSSL: values in DER, written with the
    message writer (TlsWriter.v) from the end of an array to its start, so that
    lengths are known when they are written.  The functions for BIGNUM are left
    out.

    The theorems: a call writes the identifier, the length and the contents of the
    value, inside of its context tag if there is one, in front of what was
    written before, for values nested to any depth; an integer is written in
    the minimal octets that the reader (Der.v, DerInt.v) accepts, and is read
    back. *)

From S2P Require Import Prelude Memory TlsPacket Heap BufMem Vlint TlsWriter Der AsnString DerInt.

(** ** Definitions *)

Definition DER_P_BOOLEAN : Z := 1.
Definition DER_P_INTEGER : Z := 2.
Definition DER_P_OCTET_STRING : Z := 4.
Definition DER_P_NULL : Z := 5.
Definition DER_P_SEQUENCE : Z := 16.
Definition DER_F_CONSTRUCTED : Z := 0x20.
Definition DER_C_CONTEXT : Z := 0x80.

Section der.
Context {AL : Allocator}.

Definition WPACKET_put_bytes_u8 (v : Z) : M wstate bool := WPACKET_put_bytes__ v 1.

Definition int_start_context (tag : Z) : M wstate bool :=
  if tag <? 0 then mret true
  else if 30 <? tag then mret false
  else WPACKET_start_sub_packet.

Definition int_end_context (tag : Z) : M wstate bool :=
  if tag <? 0 then mret true
  else if 30 <? tag then mret false
  else
    let tag := Z.lor tag (Z.lor DER_F_CONSTRUCTED DER_C_CONTEXT) in
    size1 ← WPACKET_get_total_written;
    both WPACKET_close
      (size2 ← WPACKET_get_total_written;
       if size1 =? size2 then mret true else WPACKET_put_bytes_u8 tag).

Definition ossl_DER_w_precompiled (tag : Z) (precompiled : ptr) (precompiled_n : Z) : M wstate bool :=
  both (int_start_context tag) (both (WPACKET_memcpy precompiled precompiled_n) (int_end_context tag)).

(** [!f()] *)
Definition negated (f : M wstate bool) : M wstate bool := r ← f; mret (negb r).

Definition ossl_DER_w_boolean (tag b : Z) : M wstate bool :=
  both (int_start_context tag)
    (both WPACKET_start_sub_packet
      (both (if negb (truthy b) then mret true else WPACKET_put_bytes_u8 0xff)
        (both (negated WPACKET_close)
          (both (negated (WPACKET_put_bytes_u8 DER_P_BOOLEAN)) (int_end_context tag))))).

Definition ossl_DER_w_octet_string (tag : Z) (data : ptr) (data_n : Z) : M wstate bool :=
  both (int_start_context tag)
    (both WPACKET_start_sub_packet
      (both (WPACKET_memcpy data data_n)
        (both WPACKET_close
          (both (WPACKET_put_bytes_u8 DER_P_OCTET_STRING) (int_end_context tag))))).

(** The loop that stores the octets of [value], the lowest at [pbuf]; at most four. *)
Fixpoint uint32_loop (fuel : nat) (pbuf : ptr) (value : Z) : M mem unit :=
  match fuel with
  | O => if 0 <? value then nofuel else mret tt
  | S fuel =>
      if 0 <? value then
        store pbuf (Z.land value 0xff);; uint32_loop fuel (padd pbuf (-1)) (Z.shiftr value 8)
      else mret tt
  end.

(** [tmp] is the local array. *)
Definition ossl_DER_w_octet_string_uint32 (tmp : ptr) (tag value : Z) : M wstate bool :=
  in_mem (store_bytes tmp [0; 0; 0; 0]);;
  in_mem (uint32_loop 4 (padd tmp 3) value);;
  ossl_DER_w_octet_string tag tmp 4.

(** [put_bytes] gives its return value and [*top_byte]. *)
Definition int_der_w_integer (tag : Z) (put_bytes : M wstate (bool * Z)) : M wstate bool :=
  both (int_start_context tag)
    (both WPACKET_start_sub_packet
      ('(ok, top_byte) ← put_bytes;
       if negb ok then mret false
       else
         both (if Z.land top_byte 0x80 =? 0 then mret true else WPACKET_put_bytes_u8 0)
           (both WPACKET_close
             (both (WPACKET_put_bytes_u8 DER_P_INTEGER) (int_end_context tag))))).

(** The loop that counts the octets of [tmp]: [n] and [*top_byte]. *)
Fixpoint count_octets (fuel : nat) (tmp n top_byte : Z) : M wstate (Z * Z) :=
  match fuel with
  | O => if tmp =? 0 then mret (n, top_byte) else nofuel
  | S fuel =>
      if negb (tmp =? 0) then count_octets fuel (Z.shiftr tmp 8) (n + 1) (Z.land tmp 0xff)
      else mret (n, top_byte)
  end.

Definition int_put_bytes_uint32 (value : Z) : M wstate (bool * Z) :=
  '(n, top_byte) ← count_octets 4 value 0 0;
  let n := if n =? 0 then 1 else n in
  ok ← WPACKET_put_bytes__ value n;
  mret (ok, top_byte).

Definition ossl_DER_w_uint32 (tag v : Z) : M wstate bool := int_der_w_integer tag (int_put_bytes_uint32 v).

Definition ossl_DER_w_null (tag : Z) : M wstate bool :=
  both (int_start_context tag)
    (both WPACKET_start_sub_packet
      (both WPACKET_close
        (both (WPACKET_put_bytes_u8 DER_P_NULL) (int_end_context tag)))).

Definition ossl_DER_w_begin_sequence (tag : Z) : M wstate bool :=
  both (int_start_context tag) WPACKET_start_sub_packet.

Definition ossl_DER_w_end_sequence (tag : Z) : M wstate bool :=
  size1 ← WPACKET_get_total_written;
  both WPACKET_close
    (size2 ← WPACKET_get_total_written;
     both (if size1 =? size2 then WPACKET_set_flags WPACKET_FLAGS_ABANDON_ON_ZERO_LENGTH
           else WPACKET_put_bytes_u8 (Z.lor DER_F_CONSTRUCTED DER_P_SEQUENCE))
          (int_end_context tag)).
End der.

(** ** Specification *)

(** A value inside of its context tag, if there is one. *)
Definition in_context (tag : Z) (x : list Z) : list Z :=
  if tag <? 0 then x else (160 + tag) :: length_octets (Z.of_nat (length x)) ++ x.

(** Identifier, length and contents. *)
Definition tlv (id : Z) (c : list Z) : list Z := id :: length_octets (Z.of_nat (length c)) ++ c.

(** The octets of a number without leading zeros, and with an octet for the sign. *)
Definition uint_octets (v : Z) : list Z := be_bytes (Nat.max 1 (digits 4 8 v)) v.
Definition uint_contents (v : Z) : list Z := if 128 <=? hd 0 (uint_octets v) then 0 :: uint_octets v else uint_octets v.

(** A value and the calls that write it; the members of a sequence are written
    from the last to the first. *)
Inductive item : Type :=
| IUint (tag v : Z)
| INull (tag : Z)
| IOctets (tag : Z) (data : ptr) (bs : list Z)
| IPrecompiled (tag : Z) (data : ptr) (bs : list Z)
| ISequence (tag : Z) (l : list item).

Fixpoint encode (i : item) : list Z :=
  match i with
  | IUint tag v => in_context tag (tlv 2 (uint_contents v))
  | INull tag => in_context tag (tlv 5 [])
  | IOctets tag _ bs => in_context tag (tlv 4 bs)
  | IPrecompiled tag _ bs => in_context tag bs
  | ISequence tag l => in_context tag (tlv 48 (concat (map encode l)))
  end.

Fixpoint write_item {AL : Allocator} (i : item) : M wstate bool :=
  match i with
  | IUint tag v => ossl_DER_w_uint32 tag v
  | INull tag => ossl_DER_w_null tag
  | IOctets tag data bs => ossl_DER_w_octet_string tag data (Z.of_nat (length bs))
  | IPrecompiled tag data bs => ossl_DER_w_precompiled tag data (Z.of_nat (length bs))
  | ISequence tag l =>
      both (ossl_DER_w_begin_sequence tag)
        (both (fold_right (fun i rest => both rest (write_item i)) (mret true) l) (ossl_DER_w_end_sequence tag))
  end.

(** The tags are those a single octet can hold; the data are outside of the array. *)
Fixpoint item_ok (P : mem -> Prop) (b : positive) (i : item) : Prop :=
  match i with
  | IUint tag v => tag <= 30 /\ 0 <= v < 2 ^ 32
  | INull tag => tag <= 30
  | IOctets tag data bs | IPrecompiled tag data bs => tag <= 30 /\ (forall m, P m -> source_at m data bs) /\ ~ in_block data b
  | ISequence tag l => tag <= 30 /\ fold_right (fun i => and (item_ok P b i)) True l
  end.

(** ** Lemmas *)

Lemma both_run (f g : M wstate bool) s s' : f s = Ret (true, s') -> both f g s = g s'.
Proof. intros E. unfold both. by rewrite (bind_ret _ _ _ _ _ E). Qed.

Lemma both_assoc (f g h : M wstate bool) s : both (both f g) h s = both f (both g h) s.
Proof. unfold both. rewrite bind_assoc. unfold mbind, M_bind. destruct (f s) as [[[] s']| |]; reflexivity. Qed.

Lemma both_ext (f g h : M wstate bool) s : (forall s, g s = h s) -> both f g s = both f h s.
Proof. intros E. apply bind_ext. intros [] s'; [apply E|done]. Qed.

(** The octets of a number, counted in the two ways of the code. *)
Lemma len_octets_run s : forall f g n k, 0 < n < 256 ^ Z.of_nat f -> (f <= g)%nat ->
  len_octets g n k s = Ret (k - 1 + Z.of_nat (digits f 8 n), s).
Proof.
  induction f as [|f IH]; intros g n k Hn Hg; [cbn in Hn; lia|]. destruct g as [|g]; [lia|].
  rewrite pow256_S in Hn. cbn [len_octets digits]. rewrite Z.shiftr_div_pow2 by lia. change (2 ^ 8) with 256.
  destruct (Z.leb_spec n 0); [lia|]. destruct (Z.ltb_spec 0 (n / 256)) as [Hp|Hz].
  - rewrite IH; [do 2 f_equal; lia|split; [done|apply Z.div_lt_upper_bound; lia]|lia].
  - assert (n / 256 = 0) as -> by (pose proof (Z.div_pos n 256); lia). destruct f; unfold mret, M_ret; cbn [digits Z.leb Z.compare]; do 2 f_equal; lia.
Qed.

Lemma count_octets_run s : forall f v n t, 0 <= v < 256 ^ Z.of_nat f ->
  count_octets f v n t s =
    Ret ((n + Z.of_nat (digits f 8 v), if v =? 0 then t else hd 0 (be_bytes (digits f 8 v) v)), s).
Proof.
  induction f as [|f IH]; intros v n t Hv.
  { assert (v = 0) as -> by (cbn in Hv; lia). cbn. by rewrite Z.add_0_r. }
  rewrite pow256_S in Hv. cbn [count_octets digits]. destruct (Z.eqb_spec v 0) as [->|Hz]; cbn [negb].
  { cbn [Z.leb Z.compare]. by rewrite Z.add_0_r. }
  destruct (Z.leb_spec v 0); [lia|]. rewrite Z.shiftr_div_pow2 by lia. change (2 ^ 8) with 256.
  rewrite IH by (split; [apply Z.div_pos; lia|apply Z.div_lt_upper_bound; lia]).
  change 0xff with (Z.ones 8). rewrite Z.land_ones by lia. change (2 ^ 8) with 256. do 3 f_equal; [lia|]. cbn [be_bytes].
  destruct (Z.eqb_spec (v / 256) 0) as [E|E].
  - rewrite E. by destruct f.
  - destruct f as [|f]; [cbn in Hv; lia|]. cbn [digits]. destruct (Z.leb_spec (v / 256) 0); [pose proof (Z.div_pos v 256); lia|].
    by rewrite be_bytes_S.
Qed.

Lemma be_bytes_0 n : be_bytes n 0 = replicate n 0.
Proof. induction n as [|n IH]; [done|]. cbn [be_bytes]. change (0 / 256) with 0. change (0 mod 256) with 0. by rewrite IH, <- replicate_S_end. Qed.

Lemma uint32_loop_run f : forall m p v, 0 <= v < 256 ^ Z.of_nat f -> room m p (Z.of_nat f) ->
  uint32_loop f (padd p (Z.of_nat f - 1)) v (mwrite m p (replicate f 0)) = Ret (tt, mwrite m p (be_bytes f v)).
Proof.
  induction f as [|f IH]; intros m p v Hv Hr.
  { cbn in Hv. assert (v = 0) as -> by lia. done. }
  rewrite pow256_S in Hv. cbn [uint32_loop]. destruct (Z.ltb_spec 0 v) as [Hp|Hz].
  2: { assert (v = 0) as -> by lia. by rewrite be_bytes_0. }
  replace (Z.of_nat (S f) - 1) with (Z.of_nat f) by lia. change 0xff with (Z.ones 8). rewrite Z.land_ones, Z.shiftr_div_pow2 by lia. change (2 ^ 8) with 256.
  assert (room m (padd p (Z.of_nat f)) 1) as Hr1 by (apply (room_padd _ _ _ (Z.of_nat f)) in Hr; [|lia]; eapply room_le; [exact Hr|lia]).
  assert (room m p (Z.of_nat f)) as Hrf by (eapply room_le; [exact Hr|lia]).
  erewrite bind_ret; [|apply store_room, room_mwrite; [rewrite length_replicate; exact Hr|lia|exact Hr1]].
  replace (to_uchar (v mod 256)) with (v mod 256) by (unfold to_uchar; by rewrite Z.mod_mod).
  set (x := v mod 256). pose proof (length_replicate f 0) as Hl.
  assert (forall y : Z, room m p (Z.of_nat (length (replicate f 0) + length [y]))) as Ha by (intros y; rewrite Hl; cbn [length]; eapply room_le; [exact Hr|lia]).
  assert (mwrite (mwrite m p (replicate (S f) 0)) (padd p (Z.of_nat f)) [x] = mwrite (mwrite m (padd p (Z.of_nat f)) [x]) p (replicate f 0)) as ->.
  { rewrite replicate_S_end, <- (mwrite_app m p (replicate f 0) [0] (Ha 0)), Hl.
    rewrite mwrite_over; [|apply room_mwrite; [by rewrite Hl|cbn [length]; lia|exact Hr1]|done].
    replace (Z.of_nat f) with (Z.of_nat (length (replicate f 0))) by lia. rewrite (mwrite_app m p (replicate f 0) [x] (Ha x)).
    rewrite <- (mwrite_before m p (replicate f 0) [x] (Ha x)). by rewrite Hl. }
  rewrite padd_padd. rewrite IH; [|split; [apply Z.div_pos; lia|apply Z.div_lt_upper_bound; lia]|apply room_mwrite; [exact Hr1|lia|exact Hrf]].
  cbn [be_bytes]. fold x. rewrite <- (mwrite_before m p (be_bytes f (v / 256)) [x]) by (rewrite length_be_bytes; cbn [length]; eapply room_le; [exact Hr|lia]).
  by rewrite length_be_bytes.
Qed.

Lemma context_tag tag : 0 <= tag <= 30 -> Z.lor tag (Z.lor DER_F_CONSTRUCTED DER_C_CONTEXT) = 160 + tag.
Proof.
  intros Ht. assert (forallb (fun t => Z.lor t 160 =? 160 + t) (seqZ 0 31) = true) as H by reflexivity.
  rewrite forallb_forall in H. apply Z.eqb_eq, (H tag), list_elem_of_In, elem_of_seqZ. lia.
Qed.

Lemma uint_octets_top v : 0 <= v < 256 ^ Z.of_nat 4 ->
  (if v =? 0 then 0 else hd 0 (be_bytes (digits 4 8 v) v)) = hd 0 (uint_octets v).
Proof.
  intros Hv. unfold uint_octets. destruct (Z.eqb_spec v 0) as [->|]; [done|]. f_equal. f_equal.
  cbn [digits]. destruct (Z.leb_spec v 0); lia.
Qed.

Lemma uint_octets_bytes v : Forall is_byte (uint_octets v).
Proof. apply be_bytes_octets. Qed.

Lemma uint_octets_fit v : 0 <= v < 2 ^ 32 -> (0 < Nat.max 1 (digits 4 8 v) <= 8)%nat /\ v < 256 ^ Z.of_nat (Nat.max 1 (digits 4 8 v)).
Proof.
  intros Hv. destruct (digits_bounds 4 8 ltac:(lia) v) as (H1 & H2 & H3); [change (2 ^ (8 * Z.of_nat 4)) with (2 ^ 32); lia|].
  rewrite Z.pow_mul_r in H1 by lia. change (2 ^ 8) with 256 in H1. split; [lia|]. eapply Z.lt_le_trans; [exact H1|].
  apply Z.pow_le_mono_r; lia.
Qed.

Section runs.
Context {AL : Allocator}.
Variables (b : positive) (o N : Z) (P : mem -> Prop).

(** The writer after [k] octets. *)
Definition filled (k : Z) (l : list WPACKET_SUB) : WPACKET := mkWPACKET None (Ptr b o) k k N l true.

(** [f] puts [bs] in front of what was written. *)
Definition prepends (f : M wstate bool) (bs : list Z) : Prop :=
  forall m k l, l <> [] -> P m -> room m (Ptr b o) N -> 0 <= k -> k + Z.of_nat (length bs) <= N ->
    f (filled k l, m) = Ret (true, (filled (k + Z.of_nat (length bs)) l, mwrite m (Ptr b (o + (N - k - Z.of_nat (length bs)))) bs)).

Hypothesis HP : stable b P.
Hypothesis HN : 0 <= N <= INT_MAX.
Hypothesis Hsub : forall m, alloc_ok m 40 = true.

Lemma room_inside m k n : room m (Ptr b o) N -> 0 <= k -> 0 <= n -> k + n <= N -> room m (Ptr b (o + (N - k - n))) n.
Proof using.
  intros Hr Hk Hn Hkn. apply (room_padd _ _ _ (N - k - n)) in Hr; [|lia]. cbn [padd] in Hr. eapply room_le; [exact Hr|lia].
Qed.

Lemma mwrite_in_front m k x y : room m (Ptr b o) N -> 0 <= k -> k + Z.of_nat (length x) + Z.of_nat (length y) <= N ->
  mwrite (mwrite m (Ptr b (o + (N - k - Z.of_nat (length x)))) x) (Ptr b (o + (N - (k + Z.of_nat (length x)) - Z.of_nat (length y)))) y =
  mwrite m (Ptr b (o + (N - k - Z.of_nat (length (y ++ x))))) (y ++ x).
Proof using.
  intros Hr Hk Hn. rewrite length_app. rewrite <- (mwrite_before m (Ptr b (o + (N - k - Z.of_nat (length y + length x)))) y x) by (apply room_inside; lia || done).
  cbn [padd]. f_equal; [do 2 f_equal; lia|]. f_equal. lia.
Qed.

Lemma prepends_both f g x y : prepends f x -> prepends g y -> prepends (both f g) (y ++ x).
Proof using HN HP.
  intros Hf Hg m k l Hl Pm Hr Hk Hkn. rewrite length_app in *.
  assert (room m (Ptr b (o + (N - k - Z.of_nat (length x)))) (Z.of_nat (length x))) as Hx by (apply room_inside; lia || done).
  rewrite (both_run _ _ _ _ (Hf m k l Hl Pm Hr Hk ltac:(lia))), Hg; [|done|by apply HP|apply room_mwrite; [exact Hx|lia|done]|lia|lia].
  rewrite mwrite_in_front by (lia || done). rewrite length_app. do 3 f_equal. f_equal; lia.
Qed.

Lemma prepends_nil : prepends (mret true) [].
Proof using.
  intros m k l _ _ _ _ _. cbn [length]. rewrite mwrite_nil, Z.add_0_r. reflexivity.
Qed.

Lemma prepends_ext f g x : (forall s, f s = g s) -> prepends g x -> prepends f x.
Proof using. intros E Hg m k l ?????. rewrite E. by apply Hg. Qed.

Lemma allocate_filled m k l n : l <> [] -> 0 <= k -> 0 < n -> k + n <= N ->
  WPACKET_allocate_bytes n (filled k l, m) = Ret (Some (Ptr b (o + (N - k - n))), (filled (k + n) l, m)).
Proof using HN.
  intros Hl Hk Hn Hkn. unfold INT_MAX in HN. unfold WPACKET_allocate_bytes, WPACKET_reserve_bytes, wpkt, mbind, M_bind. cbn -[to_size].
  destruct l as [|s l]; [done|]. destruct (Z.eqb_spec n 0); [lia|]. rewrite to_size_id by lia. cbn [orb].
  destruct (Z.ltb_spec (N - k) n); [lia|]. cbn -[to_size]. unfold advance, filled. cbn -[to_size]. rewrite to_size_id by lia.
  by replace (o + (N - k - n)) with (o + (N - k) + - n) by lia.
Qed.

Lemma prepends_put v n : (0 < n <= 8)%nat -> 0 <= v < 256 ^ Z.of_nat n -> prepends (WPACKET_put_bytes__ v (Z.of_nat n)) (be_bytes n v).
Proof using HN.
  intros Hn Hv m k l Hl _ Hr Hk Hkn. rewrite length_be_bytes in *. unfold WPACKET_put_bytes__. destruct (Z.ltb_spec 8 (Z.of_nat n)); [lia|].
  erewrite bind_ret by (apply allocate_filled; lia || done). cbv beta iota.
  erewrite in_mem_run by (apply put_value_run; [done|lia|lia|apply room_inside; lia || done]). rewrite Nat2Z.id.
  destruct (Z.ltb_spec v (256 ^ Z.of_nat n)); [done|lia].
Qed.

Lemma prepends_u8 v : is_byte v -> prepends (WPACKET_put_bytes_u8 v) [v].
Proof using HN.
  intros Hv. unfold is_byte in Hv. pose proof (prepends_put v 1 ltac:(lia) ltac:(change (256 ^ Z.of_nat 1) with 256; lia)) as H.
  cbn [be_bytes app] in H. rewrite Z.mod_small in H by lia. exact H.
Qed.

Lemma prepends_memcpy src bs : (forall m, P m -> source_at m src bs) -> ~ in_block src b -> prepends (WPACKET_memcpy src (Z.of_nat (length bs))) bs.
Proof using HN.
  intros Hs Hnb m k l Hl Pm Hr Hk Hkn. unfold WPACKET_memcpy. destruct (Z.eqb_spec (Z.of_nat (length bs)) 0) as [E|E].
  { destruct bs; [|cbn in E; lia]. by apply prepends_nil. }
  erewrite bind_ret by (apply allocate_filled; lia || done). cbn [is_null negb].
  erewrite bind_ret by (apply in_mem_run, (memcpy_at _ _ _ b); [by apply Hs|apply room_inside; lia || done|done|done|unfold INT_MAX in HN; lia]).
  reflexivity.
Qed.

Lemma prepends_length n : 0 <= n <= INT_MAX -> prepends (der_length n) (length_octets n).
Proof using HN HP.
  intros Hn. unfold der_length, length_octets. unfold INT_MAX in Hn. destruct (Z.ltb_spec 127 n), (Z.leb_spec n 127); try lia.
  - destruct (len_digits n ltac:(unfold INT_MAX; lia)) as [Hd Hv]. set (d := digits 5 8 n) in *.
    apply (prepends_ext _ (both (WPACKET_put_bytes__ n (Z.of_nat d)) (WPACKET_put_bytes_u8 (128 + Z.of_nat d)))).
    { intros s. erewrite bind_ret by (apply (len_octets_run s 5 8 n 1); [change (256 ^ Z.of_nat 5) with 1099511627776|]; lia).
      cbv beta. fold d. replace (1 - 1 + Z.of_nat d) with (Z.of_nat d) by lia. rewrite lor_128 by lia. by rewrite (Z.add_comm 128). }
    apply (prepends_both _ _ _ [_]); [apply prepends_put; lia|apply prepends_u8; unfold is_byte; lia].
  - apply (prepends_ext _ (both (WPACKET_put_bytes_u8 n) (mret true))).
    { intros s. unfold WPACKET_put_bytes_u8. assert (len_octets 8 n 1 s = Ret (1, s)) as E.
      { cbn [len_octets]. rewrite Z.shiftr_div_pow2, Z.div_small by lia. done. }
      by rewrite (bind_ret _ _ _ _ _ E). }
    apply (prepends_both _ _ _ []); [apply prepends_u8; unfold is_byte; lia|apply prepends_nil].
Qed.

Lemma length_octets_some n : (1 <= length (length_octets n))%nat.
Proof using. unfold length_octets. destruct (_ <=? _); cbn [length]; lia. Qed.

(** [e] closes the sub-packet of the last [n] octets and goes on as [h]. *)
Definition closes (e h : M wstate bool) : Prop :=
  forall m k l n, l <> [] -> P m -> room m (Ptr b o) N -> 0 <= k -> 0 <= n ->
    let lo := length_octets n in k + n + Z.of_nat (length lo) <= N ->
    e (filled (k + n) (mkSub 0 0 k 0 :: l), m) =
    h (filled (k + n + Z.of_nat (length lo)) l, mwrite m (Ptr b (o + (N - (k + n) - Z.of_nat (length lo)))) lo).

Lemma close_filled : closes WPACKET_close (mret true).
Proof using HN HP.
  intros m k l n Hl Pm Hr Hk Hn lo Hkn. destruct l as [|s l]; [done|]. unfold WPACKET_close, wpkt. cbn [mbind M_bind filled subs fst snd].
  unfold wpacket_intern_close, wpkt, mbind, M_bind. cbn -[to_size der_length]. pose proof HN as HN'. unfold INT_MAX in HN'. replace (k + n - k) with n by lia. rewrite to_size_id by lia.
  rewrite !Z.land_0_l. change (truthy 0) with false. rewrite !andb_false_r, !orb_true_r. cbn -[to_size der_length].
  pose proof (prepends_length n ltac:(unfold INT_MAX; lia) m (k + n) (mkSub 0 0 k 0 :: s :: l) ltac:(done) Pm Hr ltac:(lia) Hkn) as E.
  unfold mret, M_ret, mbind, M_bind. fold lo in E. rewrite E. reflexivity.
Qed.

Lemma closes_both h : closes (both WPACKET_close h) h.
Proof using HN HP.
  intros m k l n Hl Pm Hr Hk Hn lo Hkn. apply both_run. by apply close_filled.
Qed.

Lemma closes_sized (g : bool -> M wstate bool) :
  closes (size1 ← WPACKET_get_total_written; both WPACKET_close (size2 ← WPACKET_get_total_written; g (size1 =? size2))) (g false).
Proof using HN HP.
  intros m k l n Hl Pm Hr Hk Hn lo Hkn. pose proof (length_octets_some n) as H1. fold lo in H1.
  erewrite bind_ret by reflexivity. rewrite (both_run _ _ _ _ (close_filled m k l n Hl Pm Hr Hk Hn Hkn)).
  erewrite bind_ret by reflexivity. cbn [written filled fst snd]. fold lo. destruct (Z.eqb_spec (k + n) (k + n + Z.of_nat (length lo))); [lia|done].
Qed.

Lemma start_filled m k l : l <> [] -> 0 <= k <= N -> WPACKET_start_sub_packet (filled k l, m) = Ret (true, (filled k (mkSub 0 0 k 0 :: l), m)).
Proof using HN Hsub.
  intros Hl Hk. destruct l as [|s l]; [done|]. unfold WPACKET_start_sub_packet, WPACKET_start_sub_packet_len__, wpkt, alloc_sub, mbind, M_bind, INT_MAX in *.
  cbn -[to_size]. rewrite Hsub. cbn -[to_size]. rewrite Z.add_0_r, to_size_id by lia. reflexivity.
Qed.

Lemma prepends_sub f e h x y : prepends f x -> closes e h -> prepends h y ->
  prepends (both WPACKET_start_sub_packet (both f e)) (y ++ length_octets (Z.of_nat (length x)) ++ x).
Proof using HN HP Hsub.
  intros Hf He Hh. set (lo := length_octets (Z.of_nat (length x))).
  intros m k l Hl Pm Hr Hk Hkn. rewrite !length_app in *.
  assert (room m (Ptr b (o + (N - k - Z.of_nat (length x)))) (Z.of_nat (length x))) as Hx by (apply room_inside; lia || done).
  rewrite (both_run _ _ _ _ (start_filled m k l Hl ltac:(lia))), (both_run _ _ _ _ (Hf m k (mkSub 0 0 k 0 :: l) ltac:(done) Pm Hr Hk ltac:(lia))).
  rewrite He; [|done|by apply HP|apply room_mwrite; [exact Hx|lia|done]|lia|lia|fold lo; lia]. fold lo.
  rewrite mwrite_in_front by (lia || done). assert (room m (Ptr b (o + (N - k - Z.of_nat (length (lo ++ x))))) (Z.of_nat (length (lo ++ x)))) as Hlx
    by (rewrite length_app; apply room_inside; lia || done).
  replace (k + Z.of_nat (length x) + Z.of_nat (length lo)) with (k + Z.of_nat (length (lo ++ x))) by (rewrite length_app; lia).
  rewrite Hh; [|done|by apply HP|apply room_mwrite; [exact Hlx|lia|done]|lia|rewrite length_app; lia].
  rewrite mwrite_in_front by (try done; rewrite ?length_app; lia). rewrite !length_app. do 3 f_equal. f_equal; lia.
Qed.

Lemma prepends_tlv f id x : prepends f x -> is_byte id ->
  prepends (both WPACKET_start_sub_packet (both f (both WPACKET_close (WPACKET_put_bytes_u8 id)))) (tlv id x).
Proof using HN HP Hsub.
  intros Hf Hid. apply (prepends_sub f _ (WPACKET_put_bytes_u8 id) x [id]); [done|apply closes_both|by apply prepends_u8].
Qed.

Lemma prepends_context tag f x : tag <= 30 -> prepends f x -> prepends (both (int_start_context tag) (both f (int_end_context tag))) (in_context tag x).
Proof using HN HP Hsub.
  intros Ht Hf. unfold int_start_context, int_end_context, in_context. destruct (Z.ltb_spec tag 0).
  - apply (prepends_ext _ (both f (mret true))); [done|]. apply (prepends_both _ _ _ []); [done|apply prepends_nil].
  - destruct (Z.ltb_spec 30 tag); [lia|].
    rewrite context_tag by lia.
    apply (prepends_sub f _ (WPACKET_put_bytes_u8 (160 + tag)) x [160 + tag]); [done| |apply prepends_u8; unfold is_byte; lia].
    apply (closes_sized (fun eq => if eq : bool then mret true else WPACKET_put_bytes_u8 (160 + tag))).
Qed.

(** A value of the shape that the functions share. *)
Lemma prepends_value tag f id x : tag <= 30 -> is_byte id -> prepends f x ->
  prepends (both (int_start_context tag) (both WPACKET_start_sub_packet (both f
    (both WPACKET_close (both (WPACKET_put_bytes_u8 id) (int_end_context tag)))))) (in_context tag (tlv id x)).
Proof using HN HP Hsub.
  intros Ht Hid Hf. eapply prepends_ext; [|exact (prepends_context tag _ _ Ht (prepends_tlv f id x Hf Hid))].
  intros s. do 3 (symmetry; rewrite ?both_assoc; symmetry; apply both_ext; intros ?). symmetry. apply both_assoc.
Qed.

(** What a number's octets are followed by in the code is one call more. *)
Lemma prepends_uint v : 0 <= v < 2 ^ 32 ->
  prepends ('(ok, top_byte) ← int_put_bytes_uint32 v;
            if negb ok then mret false else if Z.land top_byte 0x80 =? 0 then mret true else WPACKET_put_bytes_u8 0) (uint_contents v).
Proof using HN HP.
  intros Hv. destruct (uint_octets_fit v Hv) as [Hd Hfit]. set (d := Nat.max 1 (digits 4 8 v)) in *. set (t := hd 0 (uint_octets v)).
  apply (prepends_ext _ (both (WPACKET_put_bytes__ v (Z.of_nat d)) (if 128 <=? t then WPACKET_put_bytes_u8 0 else mret true))).
  - intros s. unfold int_put_bytes_uint32. rewrite bind_assoc. erewrite bind_ret by (apply (count_octets_run s 4 v 0 0); exact Hv).
    cbv beta iota. rewrite uint_octets_top by exact Hv. fold t.
    replace (if 0 + Z.of_nat (digits 4 8 v) =? 0 then 1 else 0 + Z.of_nat (digits 4 8 v)) with (Z.of_nat d) by (unfold d; destruct (Z.eqb_spec (0 + Z.of_nat (digits 4 8 v)) 0); lia).
    assert (is_byte t) as Ht by (unfold t; pose proof (uint_octets_bytes v) as Hb; destruct (uint_octets v); [done|by inversion Hb]).
    rewrite bind_assoc. apply bind_ext. intros [] s'; [|done]. rewrite mbind_mret. cbn [negb]. rewrite (proj1 (sign_bit t Ht)). by destruct (128 <=? t).
  - unfold uint_contents. fold t. destruct (128 <=? t).
    + apply (prepends_both _ _ _ [0]); [exact (prepends_put v d Hd (conj (proj1 Hv) Hfit))|apply prepends_u8; unfold is_byte; lia].
    + apply (prepends_both _ _ _ []); [exact (prepends_put v d Hd (conj (proj1 Hv) Hfit))|apply prepends_nil].
Qed.

Lemma prepends_uint32 tag v : tag <= 30 -> 0 <= v < 2 ^ 32 -> prepends (ossl_DER_w_uint32 tag v) (in_context tag (tlv 2 (uint_contents v))).
Proof using HN HP Hsub.
  intros Ht Hv. eapply prepends_ext; [|exact (prepends_value tag _ 2 _ Ht ltac:(unfold is_byte; lia) (prepends_uint v Hv))].
  intros s. unfold ossl_DER_w_uint32, int_der_w_integer. do 2 (apply both_ext; intros ?). symmetry. unfold both at 1. rewrite bind_assoc.
  apply bind_ext. intros [[] t] ?; [|done]. done.
Qed.

Lemma prepends_null tag : tag <= 30 -> prepends (ossl_DER_w_null tag) (in_context tag (tlv 5 [])).
Proof using HN HP Hsub.
  intros Ht. eapply prepends_ext; [|exact (prepends_value tag _ 5 _ Ht ltac:(unfold is_byte; lia) prepends_nil)].
  intros s. unfold ossl_DER_w_null. do 2 (apply both_ext; intros ?). done.
Qed.

Lemma prepends_sequence tag f x : tag <= 30 -> prepends f x ->
  prepends (both (ossl_DER_w_begin_sequence tag) (both f (ossl_DER_w_end_sequence tag))) (in_context tag (tlv 48 x)).
Proof using HN HP Hsub.
  intros Ht Hf.
  pose (e := fun eq : bool => if eq then WPACKET_set_flags WPACKET_FLAGS_ABANDON_ON_ZERO_LENGTH else WPACKET_put_bytes_u8 (Z.lor DER_F_CONSTRUCTED DER_P_SEQUENCE)).
  pose proof (prepends_sub f _ (e false) x [48] Hf (closes_sized e) (prepends_u8 48 ltac:(unfold is_byte; lia))) as H.
  eapply prepends_ext; [|exact (prepends_context tag _ _ Ht H)].
  intros s. unfold ossl_DER_w_begin_sequence, ossl_DER_w_end_sequence. rewrite both_assoc. apply both_ext; intros ?.
  symmetry. rewrite both_assoc. apply both_ext; intros ?. rewrite both_assoc. apply both_ext; intros ?.
  unfold both at 1. rewrite bind_assoc. apply bind_ext. intros size1 ?. change (both (both WPACKET_close (size2 ← WPACKET_get_total_written; e (size1 =? size2))) (int_end_context tag) s3 =
   both WPACKET_close (size2 ← WPACKET_get_total_written; both (e (size1 =? size2)) (int_end_context tag)) s3).
  rewrite both_assoc. apply both_ext; intros ?. unfold both. by rewrite bind_assoc.
Qed.

Lemma prepends_item : forall i, item_ok P b i -> prepends (write_item i) (encode i).
Proof using HN HP Hsub.
  fix IH 1. intros [tag v|tag|tag data bs|tag data bs|tag l]; cbn [item_ok write_item encode].
  - intros [Ht Hv]. by apply prepends_uint32.
  - apply prepends_null.
  - intros (Ht & Hs & Hn). apply (prepends_value tag _ 4); [done|unfold is_byte; lia|by apply prepends_memcpy].
  - intros (Ht & Hs & Hn). apply prepends_context; [done|by apply prepends_memcpy].
  - intros [Ht Hl]. apply prepends_sequence; [done|]. clear Ht. induction l as [|i l IHl]; [apply prepends_nil|].
    destruct Hl as [Hi Hl]. cbn [fold_right map concat]. apply prepends_both; [by apply IHl|by apply IH].
Qed.
End runs.

Lemma init_der_run {AL : Allocator} pkt m b o N : alloc_ok m 40 = true -> 0 < N ->
  WPACKET_init_der (Ptr b o) N (pkt, m) = Ret (true, (filled b o N 0 [mkSub 0 0 0 0], m)).
Proof.
  intros Ha HN. unfold WPACKET_init_der. cbn [is_null orb]. destruct (Z.leb_spec N 0); [lia|].
  unfold wpacket_intern_init_len, alloc_sub, wset, mbind, M_bind. cbn. by rewrite Ha.
Qed.

Lemma finish_filled {AL : Allocator} m b o N k : 0 <= k < 2 ^ 64 ->
  WPACKET_finish (filled b o N k [mkSub 0 0 0 0], m) = Ret (true, (filled b o N k [], m)).
Proof.
  intros Hk. unfold WPACKET_finish, wpkt, wpacket_intern_close, wset, mbind, M_bind. cbn -[to_size]. rewrite Z.sub_0_r, to_size_id by done.
  rewrite !Z.land_0_l. change (truthy 0) with false. rewrite !andb_false_r. reflexivity.
Qed.

(** The octets of an unsigned number are its shortest octets as a signed one. *)
Lemma digits_least f k : 0 < k -> forall v, 0 < v < 2 ^ (k * Z.of_nat f) -> 2 ^ (k * (Z.of_nat (digits f k v) - 1)) <= v.
Proof.
  intros Hk. induction f as [|f IH]; intros v Hv; [rewrite Z.mul_0_r in Hv; cbn in Hv; lia|].
  cbn [digits]. destruct (Z.leb_spec v 0); [lia|]. pose proof (Z.pow_pos_nonneg 2 k) as Hp.
  replace (k * Z.of_nat (S f)) with (k * Z.of_nat f + k) in Hv by lia. rewrite Z.pow_add_r in Hv by lia.
  assert (0 <= v / 2 ^ k) by (apply Z.div_pos; lia). destruct (Z.eq_dec (v / 2 ^ k) 0) as [E|E].
  - rewrite E. destruct f; cbn [digits Z.leb Z.compare]; change (Z.of_nat 1 - 1) with 0; rewrite Z.mul_0_r; cbn; lia.
  - pose proof (IH (v / 2 ^ k) ltac:(split; [lia|apply Z.div_lt_upper_bound; lia])) as H1.
    replace (k * (Z.of_nat (S (digits f k (v / 2 ^ k))) - 1)) with (k + k * (Z.of_nat (digits f k (v / 2 ^ k)) - 1)) by lia.
    destruct (Z.eq_dec (Z.of_nat (digits f k (v / 2 ^ k))) 0) as [E0|E0].
    { rewrite E0. replace (k + k * (0 - 1)) with 0 by lia. cbn. lia. }
    rewrite Z.pow_add_r by nia. pose proof (Z.mul_div_le v (2 ^ k)). nia.
Qed.

Lemma uint_contents_form v : 0 <= v < 2 ^ 32 -> exists n, uint_contents v = be_bytes (S n) v /\ v < 128 * 256 ^ Z.of_nat n /\ (n <= 4)%nat /\
  match n with O => True | S n => 128 * 256 ^ Z.of_nat n <= v end.
Proof.
  intros Hv. destruct (uint_octets_fit v Hv) as [Hd Hfit].
  assert (digits 4 8 v <= 4)%nat as H4 by (apply digits_bounds; [lia|change (2 ^ (8 * Z.of_nat 4)) with (2 ^ 32); lia]).
  assert ((1 < digits 4 8 v)%nat -> 256 ^ (Z.of_nat (digits 4 8 v) - 1) <= v) as Hleast.
  { intros H1. destruct (Z.eq_dec v 0) as [->|]; [cbn in H1; lia|].
    pose proof (digits_least 4 8 ltac:(lia) v ltac:(change (2 ^ (8 * Z.of_nat 4)) with (2 ^ 32); lia)) as H2. by rewrite Z.pow_mul_r in H2 by lia. }
  unfold uint_contents, uint_octets. destruct (Nat.max 1 (digits 4 8 v)) as [|n] eqn:Ed; [lia|].
  rewrite pow256_S in Hfit. pose proof (pow256_pos n) as Hp.
  assert (0 <= v / 256 ^ Z.of_nat n < 256) as Hq by (split; [apply Z.div_pos; lia|apply Z.div_lt_upper_bound; lia]).
  assert (hd 0 (be_bytes (S n) v) = v / 256 ^ Z.of_nat n) as -> by (rewrite be_bytes_S; cbn [hd]; by apply Z.mod_small).
  pose proof (Z.mul_div_le v _ Hp) as H1. pose proof (Z.mul_succ_div_gt v _ Hp) as H2. destruct (Z.leb_spec 128 (v / 256 ^ Z.of_nat n)).
  - exists (S n). rewrite (be_bytes_S (S n)), pow256_S, (Z.div_small v) by lia. split; [done|]. split; [lia|]. split; [lia|]. nia.
  - exists n. split; [done|]. split; [nia|]. split; [lia|]. destruct n as [|n]; [done|]. rewrite pow256_S in Hp.
    replace (Z.of_nat (digits 4 8 v) - 1) with (Z.of_nat (S n)) in Hleast by lia. rewrite pow256_S in Hleast. lia.
Qed.

Lemma uint_contents_value v : 0 <= v < 2 ^ 32 ->
  Forall is_byte (uint_contents v) /\ minimal (uint_contents v) = true /\ int_value (uint_contents v) = v /\ (1 <= length (uint_contents v) <= 5)%nat.
Proof.
  intros Hv. destruct (uint_contents_form v Hv) as (n & -> & Hn & Hn4 & Hlow). pose proof (pow256_pos n) as Hp.
  split; [apply be_bytes_octets|]. split; [|split; [apply int_value_be_bytes; lia|rewrite length_be_bytes; lia]].
  destruct n as [|n]; [done|]. apply minimal_be_bytes; lia.
Qed.

Lemma uint_octets_canonical v : 0 <= v < 2 ^ 32 -> canonical (uint_octets v) /\ be (uint_octets v) = v /\ (1 <= length (uint_octets v) <= 4)%nat.
Proof.
  intros Hv. destruct (uint_octets_fit v Hv) as [Hd Hfit]. unfold uint_octets.
  assert (digits 4 8 v <= 4)%nat as H4 by (apply digits_bounds; [lia|change (2 ^ (8 * Z.of_nat 4)) with (2 ^ 32); lia]).
  rewrite be_be_bytes, Z.mod_small, length_be_bytes by lia. split; [|lia]. unfold canonical. rewrite be_be_bytes, Z.mod_small, length_be_bytes by lia.
  split; [apply be_bytes_octets|]. split; [intros E; apply (f_equal length) in E; rewrite length_be_bytes in E; cbn in E; lia|].
  destruct (Nat.eq_dec (Nat.max 1 (digits 4 8 v)) 1%nat) as [E|E]; [by left|right]. destruct (Z.eq_dec v 0) as [->|]; [by cbn in E|].
  pose proof (digits_least 4 8 ltac:(lia) v ltac:(change (2 ^ (8 * Z.of_nat 4)) with (2 ^ 32); lia)) as H2. rewrite Z.pow_mul_r in H2 by lia.
  eapply Z.le_trans; [|exact H2]. apply Z.pow_le_mono_r; lia.
Qed.

(** A number as an octet string is the octet string of its four octets. *)
Lemma octet_string_uint32_run {AL : Allocator} tmp tag v pkt m : room m tmp 4 -> 0 <= v < 2 ^ 32 ->
  ossl_DER_w_octet_string_uint32 tmp tag v (pkt, m) = ossl_DER_w_octet_string tag tmp 4 (pkt, mwrite m tmp (be_bytes 4 v)).
Proof.
  intros Hr Hv. unfold ossl_DER_w_octet_string_uint32. erewrite bind_ret by (apply in_mem_run, store_bytes_room; exact Hr).
  erewrite bind_ret by (apply in_mem_run, (uint32_loop_run 4 m tmp v); [exact Hv|exact Hr]). done.
Qed.

(** A message of one value. *)
Definition write_der {AL : Allocator} (p : ptr) (n : Z) (i : item) : M wstate bool :=
  both (WPACKET_init_der p n) (both (write_item i) WPACKET_finish).

Lemma write_der_run {AL : Allocator} pkt m b o N P i : stable b P -> P m -> room m (Ptr b o) N -> 0 < N <= INT_MAX -> (forall m, alloc_ok m 40 = true) ->
  item_ok P b i -> let n := Z.of_nat (length (encode i)) in n <= N ->
  write_der (Ptr b o) N i (pkt, m) = Ret (true, (filled b o N n [], mwrite m (Ptr b (o + (N - n))) (encode i))).
Proof.
  intros HP Pm Hr HN Hsub Hi n Hn. unfold write_der. rewrite (both_run _ _ _ _ (init_der_run pkt m b o N (Hsub m) ltac:(lia))).
  rewrite (both_run _ _ _ _ (prepends_item b o N P HP ltac:(lia) Hsub i Hi m 0 [mkSub 0 0 0 0] ltac:(done) Pm Hr ltac:(lia) ltac:(lia))).
  fold n. rewrite Z.add_0_l, Z.sub_0_r. apply finish_filled. unfold INT_MAX in HN. lia.
Qed.

(** ** Properties *)

(** C40: any value made of integers, nulls, octet strings, octets in DER and
    sequences, nested to any depth and each with or without a context tag, is
    written as its DER encoding at the end of the array: the calls succeed
    when the encoding fits, and no other object changes. *)
Theorem DER_items_written {AL : Allocator} pkt m b o N P i : stable b P -> P m -> room m (Ptr b o) N -> 0 < N <= INT_MAX ->
  (forall m, alloc_ok m 40 = true) -> item_ok P b i -> Z.of_nat (length (encode i)) <= N ->
  exists m', write_der (Ptr b o) N i (pkt, m) = Ret (true, (filled b o N (Z.of_nat (length (encode i))) [], m')) /\
    bytes_at m' (Ptr b (o + (N - Z.of_nat (length (encode i))))) (encode i) /\ (forall b', b' <> b -> m' !! b' = m !! b').
Proof.
  intros HP Pm Hr HN Hsub Hi Hn. eexists. split; [by apply (write_der_run pkt m b o N P i)|]. split; [|intros b' Hne; by apply lookup_mwrite_ne].
  apply bytes_at_mwrite_eq. apply (room_padd _ _ _ (N - Z.of_nat (length (encode i)))) in Hr; [|lia]. eapply room_le; [exact Hr|lia].
Qed.

Lemma DER_items_written_witness :
  let m : mem := {[ 1%positive := replicate 32 0 ]} ∪ {[ 2%positive := [7; 8; 9] ]} in
  exists m', write_der (Ptr 1 0) 32 (ISequence (-1) [IUint 0 200; INull (-1); ISequence 2 [IOctets (-1) (Ptr 2 0) [7; 8; 9]]]) (mkWPACKET None NULL 0 0 0 [] false, m) =
      Ret (true, (filled 1 0 32 19 [], m')) /\
    bytes_at m' (Ptr 1 13) [48; 17; 160; 4; 2; 2; 0; 200; 5; 0; 162; 7; 48; 5; 4; 3; 7; 8; 9].
Proof.
  intros m.
  destruct (DER_items_written (mkWPACKET None NULL 0 0 0 [] false) m 1 0 32 (fun m => bytes_at m (Ptr 2 0) [7; 8; 9])
    (ISequence (-1) [IUint 0 200; INull (-1); ISequence 2 [IOctets (-1) (Ptr 2 0) [7; 8; 9]]])) as (m' & E & Hb & _).
  - intros m' o' bs Hb. apply (bytes_at_mwrite_ne m' (Ptr 1 o') bs (Ptr 2 0) _ 1); [reflexivity|cbn; discriminate|exact Hb].
  - exists []. reflexivity.
  - exists (replicate 32 0). split; [reflexivity|]. vm_compute. discriminate.
  - unfold INT_MAX. lia.
  - reflexivity.
  - cbn. repeat split; try lia; try (by right); discriminate.
  - vm_compute. discriminate.
  - exists m'. split; [exact E|exact Hb].
Defined.

(** A number written by ossl_DER_w_uint32 is read back by ASN1_get_object as an
    INTEGER that fills the rest of the octets, whose contents
    ossl_c2i_uint64_int accepts and gives as the number. *)
Theorem DER_uint32_roundtrip {AL : Allocator} pkt m b o N buf e v : room m (Ptr b o) N -> 7 <= N <= INT_MAX ->
  (forall m, alloc_ok m 40 = true) -> 0 <= v < 2 ^ 32 -> in_block buf e -> b <> e -> room m buf 8 ->
  exists n m' m'', write_der (Ptr b o) N (IUint (-1) v) (pkt, m) = Ret (true, (filled b o N n [], m')) /\
    let p := Ptr b (o + (N - n)) in
    ASN1_get_object p n m' = Ret (header_of false 0 2 (Some (n - 2)) (padd p 2), m') /\
    ossl_c2i_uint64_int buf (padd p 2) (n - 2) m' = Ret (Some (v, 0), m'').
Proof.
  intros Hr HN Hsub Hv He Hbe Hrb. destruct (uint_contents_value v Hv) as (Hy & Hmin & Hval & Hlen). set (c := uint_contents v) in *.
  destruct (uint_octets_canonical v Hv) as (Hcan & Hbv & Hl4). pose proof (length_octets_some (Z.of_nat (length c))) as H1.
  assert (encode (IUint (-1) v) = header_octets false 0 2 (Some (Z.of_nat (length c))) ++ c) as Ee.
  { cbn [encode in_context Z.ltb Z.compare]. unfold tlv. fold c. unfold header_octets. by rewrite <- app_assoc. }
  assert (length (header_octets false 0 2 (Some (Z.of_nat (length c)))) = 2%nat) as H2.
  { unfold header_octets, length_octets. destruct (Z.leb_spec (Z.of_nat (length c)) 127); [done|lia]. }
  pose proof (write_der_run pkt m b o N (fun _ => True) (IUint (-1) v) ltac:(done) I Hr ltac:(lia) Hsub ltac:(done)) as E. cbv zeta in E.
  assert (Z.of_nat (length (encode (IUint (-1) v))) = 2 + Z.of_nat (length c)) as En by (rewrite Ee, length_app, H2; lia).
  rewrite En in E. set (n := 2 + Z.of_nat (length c)) in *. set (m' := mwrite m (Ptr b (o + (N - n))) (encode (IUint (-1) v))) in *.
  assert (room m (Ptr b (o + (N - n))) n) as Hrn.
  { apply (room_padd _ _ _ (N - n)) in Hr; [|lia]. cbn [padd] in Hr. eapply room_le; [exact Hr|lia]. }
  assert (bytes_at m' (Ptr b (o + (N - n))) (encode (IUint (-1) v))) as Hb by (apply bytes_at_mwrite_eq; by rewrite En).
  rewrite Ee in Hb. apply bytes_at_app in Hb as [Hh Hc]. rewrite H2 in Hc. change (Z.of_nat 2) with 2 in Hc.
  exists n, m', (mwrite m' buf (uint_octets v)). split; [apply E; lia|]. cbv zeta. replace (n - 2) with (Z.of_nat (length c)) by lia. split.
  - erewrite ASN1_get_object_run; [by rewrite H2|by left|unfold INT_MAX; lia|unfold INT_MAX; lia|exact Hh|rewrite H2; cbn; lia].
  - assert (room m' buf (Z.of_nat (length (uint_octets v)))) as Hr'
      by (apply room_mwrite; [by rewrite En|lia|eapply room_le; [exact Hrb|lia]]).
    rewrite (c2i_uint64_run m' buf e _ c (uint_octets v) v Hc Hy Hmin Hval Hcan ltac:(lia) ltac:(lia) ltac:(lia) He Hbe Hr').
    destruct (Z.ltb_spec v 0); [lia|]. by rewrite Z.abs_eq by lia.
Qed.

(** ** Where the code departs *)

(** ossl_DER_w_boolean goes on when WPACKET_close fails and not when it succeeds:
    with room for the value it returns 0, for both values. *)
Lemma DER_w_boolean_fails :
  let m : mem := {[ 1%positive := replicate 8 0 ]} in
  Forall (fun v => match both (WPACKET_init_der (Ptr 1 0) 8) (ossl_DER_w_boolean (-1) v) (mkWPACKET None NULL 0 0 0 [] false, m) with
                   | Ret (r, _) => r = false
                   | _ => False
                   end) [0; 1].
Proof. repeat constructor. Qed.
