(* ===== verification/Utf8.v ===== *)
(** * UTF-8

    crypto/asn1/a_utf8.c of the vendored OpenSSL: reading and writing of one
    character.

    The theorems: a character is read back as it was written, and reading
    octets that begin with no character, whatever they are, is refused. *)

From S2P Require Import Prelude Memory.

(** ** Definitions *)

Definition SURROGATE_MIN : Z := 0xd800.
Definition SURROGATE_MAX : Z := 0xdfff.
Definition UNICODE_LIMIT : Z := 0x110000.

Definition is_unicode_surrogate (value : Z) : bool := (SURROGATE_MIN <=? value) && (value <=? SURROGATE_MAX).

(** [(c & 0xc0) != 0x80] *)
Definition not_continued (c : Z) : bool := negb (Z.land c 0xc0 =? 0x80).

(** The return value and [*val], [None] where it is not assigned. *)
Definition UTF8_getc (str : ptr) (len : Z) : M mem (Z * option Z) :=
  if len <=? 0 then mret (0, None)
  else
    c ← load str;
    if Z.land c 0x80 =? 0 then mret (1, Some (Z.land c 0x7f))
    else if Z.land c 0xe0 =? 0xc0 then
      if len <? 2 then mret (-1, None)
      else
        c1 ← load (padd str 1);
        if not_continued c1 then mret (-3, None)
        else
          let value := Z.lor (Z.shiftl (Z.land c 0x1f) 6) (Z.land c1 0x3f) in
          if value <? 0x80 then mret (-4, None) else mret (2, Some value)
    else if Z.land c 0xf0 =? 0xe0 then
      if len <? 3 then mret (-1, None)
      else
        c1 ← load (padd str 1);
        if not_continued c1 then mret (-3, None)
        else
          c2 ← load (padd str 2);
          if not_continued c2 then mret (-3, None)
          else
            let value := Z.lor (Z.lor (Z.shiftl (Z.land c 0xf) 12) (Z.shiftl (Z.land c1 0x3f) 6)) (Z.land c2 0x3f) in
            if value <? 0x800 then mret (-4, None)
            else if is_unicode_surrogate value then mret (-2, None)
            else mret (3, Some value)
    else if Z.land c 0xf8 =? 0xf0 then
      if len <? 4 then mret (-1, None)
      else
        c1 ← load (padd str 1);
        if not_continued c1 then mret (-3, None)
        else
          c2 ← load (padd str 2);
          if not_continued c2 then mret (-3, None)
          else
            c3 ← load (padd str 3);
            if not_continued c3 then mret (-3, None)
            else
              let value := Z.lor (Z.lor (Z.lor (Z.shiftl (Z.land c 0x7) 18) (Z.shiftl (Z.land c1 0x3f) 12))
                             (Z.shiftl (Z.land c2 0x3f) 6)) (Z.land c3 0x3f) in
              if value <? 0x10000 then mret (-4, None) else mret (4, Some value)
    else mret (-2, None).

Definition UTF8_putc (str : ptr) (len value : Z) : M mem Z :=
  let null := is_null str in
  let put p c : M mem unit := if null then mret tt else store p c in
  if negb null && (len <=? 0) then mret (-1)
  else
    let len := if null then 4 else len in
    if value <? 0x80 then put str value;; mret 1
    else if value <? 0x800 then
      if len <? 2 then mret (-1)
      else
        put str (Z.lor (Z.land (Z.shiftr value 6) 0x1f) 0xc0);;
        put (padd str 1) (Z.lor (Z.land value 0x3f) 0x80);;
        mret 2
    else if value <? 0x10000 then
      if is_unicode_surrogate value then mret (-2)
      else if len <? 3 then mret (-1)
      else
        put str (Z.lor (Z.land (Z.shiftr value 12) 0xf) 0xe0);;
        put (padd str 1) (Z.lor (Z.land (Z.shiftr value 6) 0x3f) 0x80);;
        put (padd str 2) (Z.lor (Z.land value 0x3f) 0x80);;
        mret 3
    else if value <? UNICODE_LIMIT then
      if len <? 4 then mret (-1)
      else
        put str (Z.lor (Z.land (Z.shiftr value 18) 0x7) 0xf0);;
        put (padd str 1) (Z.lor (Z.land (Z.shiftr value 12) 0x3f) 0x80);;
        put (padd str 2) (Z.lor (Z.land (Z.shiftr value 6) 0x3f) 0x80);;
        put (padd str 3) (Z.lor (Z.land value 0x3f) 0x80);;
        mret 4
    else mret (-2).

(** ** Specification *)

(** The octets of a character. *)
Definition utf8 (v : Z) : list Z :=
  if v <? 0x80 then [v]
  else if v <? 0x800 then [192 + v / 64; 128 + v mod 64]
  else if v <? 0x10000 then [224 + v / 4096; 128 + v / 64 mod 64; 128 + v mod 64]
  else [240 + v / 262144; 128 + v / 4096 mod 64; 128 + v / 64 mod 64; 128 + v mod 64].

(** The values that are read; those that are written are below [UNICODE_LIMIT]. *)
Definition readable (v : Z) : Prop := 0 <= v < 0x200000 /\ is_unicode_surrogate v = false.

(** ** Lemmas *)

(** The tests and the fields of an octet. *)
Lemma octet_tests c : is_byte c ->
  (Z.land c 0x80 =? 0) = (c <? 128) /\ (Z.land c 0xe0 =? 0xc0) = ((192 <=? c) && (c <? 224)) /\
  (Z.land c 0xf0 =? 0xe0) = ((224 <=? c) && (c <? 240)) /\ (Z.land c 0xf8 =? 0xf0) = ((240 <=? c) && (c <? 248)) /\
  not_continued c = negb ((128 <=? c) && (c <? 192)).
Proof.
  intros Hc. unfold is_byte in Hc.
  assert (forallb (fun c => eqb (Z.land c 0x80 =? 0) (c <? 128) && eqb (Z.land c 0xe0 =? 0xc0) ((192 <=? c) && (c <? 224)) &&
    eqb (Z.land c 0xf0 =? 0xe0) ((224 <=? c) && (c <? 240)) && eqb (Z.land c 0xf8 =? 0xf0) ((240 <=? c) && (c <? 248)) &&
    eqb (not_continued c) (negb ((128 <=? c) && (c <? 192)))) (seqZ 0 256) = true) as H by (vm_compute; reflexivity).
  rewrite forallb_forall in H. specialize (H c ltac:(apply list_elem_of_In, elem_of_seqZ; lia)).
  repeat (apply andb_prop in H as [H ?]). repeat split; by apply eqb_prop.
Qed.

Lemma land_field c k : 0 <= k -> Z.land c (Z.ones k) = c mod 2 ^ k.
Proof. apply Z.land_ones. Qed.

Lemma join_field a x k : 0 <= k -> 0 <= x < 2 ^ k -> Z.lor (Z.shiftl a k) x = a * 2 ^ k + x.
Proof. intros Hk Hx. rewrite Z.shiftl_mul_pow2 by done. by apply lor_low. Qed.

Lemma join_2 a x : 0 <= x < 64 -> Z.lor (Z.shiftl a 6) x = a * 64 + x.
Proof. intros Hx. by apply (join_field a x 6). Qed.

Lemma join_3 a x y : 0 <= x < 64 -> 0 <= y < 64 -> Z.lor (Z.lor (Z.shiftl a 12) (Z.shiftl x 6)) y = a * 4096 + x * 64 + y.
Proof.
  intros Hx Hy. replace (Z.shiftl a 12) with (Z.shiftl (Z.shiftl a 6) 6) by (rewrite Z.shiftl_shiftl by lia; done).
  rewrite <- Z.shiftl_lor, !join_2 by done. lia.
Qed.

Lemma join_4 a x y z : 0 <= x < 64 -> 0 <= y < 64 -> 0 <= z < 64 ->
  Z.lor (Z.lor (Z.lor (Z.shiftl a 18) (Z.shiftl x 12)) (Z.shiftl y 6)) z = a * 262144 + x * 4096 + y * 64 + z.
Proof.
  intros Hx Hy Hz. replace (Z.shiftl a 18) with (Z.shiftl (Z.shiftl a 12) 6) by (rewrite Z.shiftl_shiftl by lia; done).
  replace (Z.shiftl x 12) with (Z.shiftl (Z.shiftl x 6) 6) by (rewrite Z.shiftl_shiftl by lia; done).
  rewrite <- !Z.shiftl_lor, join_2, join_3 by done. lia.
Qed.

Lemma load_next m p c bs i : bytes_at m (padd p i) (c :: bs) -> load (padd p i) m = Ret (c, m) /\ bytes_at m (padd p (i + 1)) bs.
Proof. intros H. split; [by eapply load_at|]. apply bytes_at_cons in H as [_ H]. by rewrite padd_padd in H. Qed.

(** The fields of two, three and four octets give the octets of their value. *)
Lemma utf8_2 a x : 0 <= a < 32 -> 0 <= x < 64 -> let v := a * 64 + x in 128 <= v -> utf8 v = [192 + a; 128 + x].
Proof.
  intros Ha Hx v Hv. unfold utf8. destruct (Z.ltb_spec v 0x80), (Z.ltb_spec v 0x800); try lia.
  unfold v. rewrite Z.div_add_l, Z.div_small, (Z.add_comm _ x), Z.mod_add, Z.mod_small by lia. by rewrite Z.add_0_r.
Qed.

Lemma utf8_3 a x y : 0 <= a < 16 -> 0 <= x < 64 -> 0 <= y < 64 -> let v := a * 4096 + x * 64 + y in 0x800 <= v ->
  utf8 v = [224 + a; 128 + x; 128 + y].
Proof.
  intros Ha Hx Hy v Hv. unfold utf8. destruct (Z.ltb_spec v 0x80), (Z.ltb_spec v 0x800), (Z.ltb_spec v 0x10000); try lia.
  assert (v / 4096 = a /\ v / 64 mod 64 = x /\ v mod 64 = y) as (-> & -> & ->); [|done]. unfold v. clear - Ha Hx Hy. Z.div_mod_to_equations. lia.
Qed.

Lemma utf8_4 a x y z : 0 <= a < 8 -> 0 <= x < 64 -> 0 <= y < 64 -> 0 <= z < 64 -> let v := a * 262144 + x * 4096 + y * 64 + z in 0x10000 <= v ->
  utf8 v = [240 + a; 128 + x; 128 + y; 128 + z].
Proof.
  intros Ha Hx Hy Hz v Hv. unfold utf8. destruct (Z.ltb_spec v 0x80), (Z.ltb_spec v 0x800), (Z.ltb_spec v 0x10000); try lia.
  assert (v / 262144 = a /\ v / 4096 mod 64 = x /\ v / 64 mod 64 = y /\ v mod 64 = z) as (-> & -> & -> & ->); [|done]. unfold v. clear - Ha Hx Hy Hz. Z.div_mod_to_equations. lia.
Qed.

Lemma octet_fields c :
  (0 <= c < 128 -> Z.land c 0x7f = c) /\ (128 <= c < 192 -> Z.land c 0x3f = c - 128) /\ (192 <= c < 224 -> Z.land c 0x1f = c - 192) /\
  (224 <= c < 240 -> Z.land c 0xf = c - 224) /\ (240 <= c < 248 -> Z.land c 0x7 = c - 240).
Proof.
  change 0x7 with (Z.ones 3). change 0xf with (Z.ones 4). change 0x1f with (Z.ones 5). change 0x3f with (Z.ones 6). change 0x7f with (Z.ones 7).
  rewrite !Z.land_ones by lia. change (2 ^ 7) with 128. change (2 ^ 6) with 64. change (2 ^ 5) with 32. change (2 ^ 4) with 16. change (2 ^ 3) with 8.
  repeat split; intros; Z.div_mod_to_equations; lia.
Qed.

(** What a reading may give. *)
Definition read_ok (bs : list Z) (r : Z * option Z) : Prop :=
  match r.2 with
  | Some v => readable v /\ r.1 = Z.of_nat (length (utf8 v)) /\ exists rest, bs = utf8 v ++ rest
  | None => r.1 < 0
  end.

Lemma read_ok_utf8 bs v x rest : 0 <= v < 0x200000 -> is_unicode_surrogate v = false -> utf8 v = x -> bs = x ++ rest ->
  read_ok bs (Z.of_nat (length x), Some v).
Proof. intros Hv Hs <- ->. split; [done|]. split; [done|]. by exists rest. Qed.

Lemma not_surrogate v : v < SURROGATE_MIN \/ SURROGATE_MAX < v -> is_unicode_surrogate v = false.
Proof. unfold is_unicode_surrogate. lia. Qed.

(** A further octet: it is refused, or the reading goes on with it. *)
Lemma with_octet m p i xs bs (k : Z -> M mem (Z * option Z)) : bytes_at m (padd p i) bs -> Forall is_byte bs -> bs <> [] ->
  (forall c rest, bs = c :: rest -> 128 <= c < 192 -> Z.land c 0x3f = c - 128 -> Forall is_byte rest -> bytes_at m (padd p (i + 1)) rest ->
    exists r, k c m = Ret (r, m) /\ read_ok xs r) ->
  exists r, (c ← load (padd p i); if not_continued c then mret (-3, None) else k c) m = Ret (r, m) /\ read_ok xs r.
Proof.
  intros Hb Hy Hne Hk. destruct bs as [|c bs]; [done|]. apply Forall_cons in Hy as [Hc Hy]. apply load_next in Hb as [E Hb].
  rewrite (bind_ret _ _ _ _ _ E). destruct (octet_tests c Hc) as (_ & _ & _ & _ & ->). destruct (andb _ _) eqn:T; [|by eexists].
  cbn [negb]. apply (Hk c bs); try done; [lia|]. apply octet_fields. lia.
Qed.

Section first.
Variables (m : mem) (p : ptr) (c : Z) (bs : list Z).
Hypothesis Hb : bytes_at m (padd p 1) bs.
Hypothesis Hy : Forall is_byte bs.

(** After a first octet of each kind. *)
Lemma second_octet : 192 <= c < 224 -> (2 <= length (c :: bs))%nat ->
  exists r, (c1 ← load (padd p 1); if not_continued c1 then mret (-3, None) else
    let value := Z.lor (Z.shiftl (Z.land c 0x1f) 6) (Z.land c1 0x3f) in
    if value <? 0x80 then mret (-4, None) else mret (2, Some value)) m = Ret (r, m) /\ read_ok (c :: bs) r.
Proof using Hb Hy.
  intros Hc Hl. apply (with_octet m p 1 _ bs); [done|done|by destruct bs; [cbn in Hl; lia|]|]. intros c1 rest -> H1 -> _ _.
  destruct (octet_fields c) as (_ & _ & F & _). rewrite F, join_2 by lia. cbv zeta. destruct (Z.ltb_spec ((c - 192) * 64 + (c1 - 128)) 0x80); [by eexists|].
  eexists. split; [reflexivity|]. apply (read_ok_utf8 _ _ [c; c1] rest); [lia|apply not_surrogate; unfold SURROGATE_MIN; lia| |done].
  rewrite utf8_2 by lia. repeat f_equal; lia.
Qed.

Lemma two_octets : 224 <= c < 240 -> (3 <= length (c :: bs))%nat ->
  exists r, (c1 ← load (padd p 1); if not_continued c1 then mret (-3, None) else
    c2 ← load (padd p 2); if not_continued c2 then mret (-3, None) else
    let value := Z.lor (Z.lor (Z.shiftl (Z.land c 0xf) 12) (Z.shiftl (Z.land c1 0x3f) 6)) (Z.land c2 0x3f) in
    if value <? 0x800 then mret (-4, None)
    else if is_unicode_surrogate value then mret (-2, None)
    else mret (3, Some value)) m = Ret (r, m) /\ read_ok (c :: bs) r.
Proof using Hb Hy.
  intros Hc Hl. apply (with_octet m p 1 _ bs); [done|done|by destruct bs; [cbn in Hl; lia|]|]. intros c1 rest -> H1 -> Hy1 Hb1.
  apply (with_octet m p 2 _ rest); [done|done|by destruct rest; [cbn in Hl; lia|]|]. intros c2 rest2 -> H2 -> _ _.
  destruct (octet_fields c) as (_ & _ & _ & F & _). rewrite F, join_3 by lia. cbv zeta. set (v := (c - 224) * 4096 + (c1 - 128) * 64 + (c2 - 128)).
  destruct (Z.ltb_spec v 0x800); [by eexists|]. destruct (is_unicode_surrogate v) eqn:Es; [by eexists|].
  eexists. split; [reflexivity|]. apply (read_ok_utf8 _ _ [c; c1; c2] rest2); [lia|done| |done].
  unfold v. rewrite utf8_3 by lia. repeat f_equal; lia.
Qed.

Lemma three_octets : 240 <= c < 248 -> (4 <= length (c :: bs))%nat ->
  exists r, (c1 ← load (padd p 1); if not_continued c1 then mret (-3, None) else
    c2 ← load (padd p 2); if not_continued c2 then mret (-3, None) else
    c3 ← load (padd p 3); if not_continued c3 then mret (-3, None) else
    let value := Z.lor (Z.lor (Z.lor (Z.shiftl (Z.land c 0x7) 18) (Z.shiftl (Z.land c1 0x3f) 12)) (Z.shiftl (Z.land c2 0x3f) 6)) (Z.land c3 0x3f) in
    if value <? 0x10000 then mret (-4, None) else mret (4, Some value)) m = Ret (r, m) /\ read_ok (c :: bs) r.
Proof using Hb Hy.
  intros Hc Hl. apply (with_octet m p 1 _ bs); [done|done|by destruct bs; [cbn in Hl; lia|]|]. intros c1 rest -> H1 -> Hy1 Hb1.
  apply (with_octet m p 2 _ rest); [done|done|by destruct rest; [cbn in Hl; lia|]|]. intros c2 rest2 -> H2 -> Hy2 Hb2.
  apply (with_octet m p 3 _ rest2); [done|done|by destruct rest2; [cbn in Hl; lia|]|]. intros c3 rest3 -> H3 -> _ _.
  destruct (octet_fields c) as (_ & _ & _ & _ & F). rewrite F, join_4 by lia. cbv zeta.
  set (v := (c - 240) * 262144 + (c1 - 128) * 4096 + (c2 - 128) * 64 + (c3 - 128)). destruct (Z.ltb_spec v 0x10000); [by eexists|].
  eexists. split; [reflexivity|]. apply (read_ok_utf8 _ _ [c; c1; c2; c3] rest3); [lia|apply not_surrogate; unfold SURROGATE_MAX; lia| |done].
  unfold v. rewrite utf8_4 by lia. repeat f_equal; lia.
Qed.
End first.

Lemma getc_sound m p bs : bs <> [] -> bytes_at m p bs -> Forall is_byte bs ->
  exists r, UTF8_getc p (Z.of_nat (length bs)) m = Ret (r, m) /\ read_ok bs r.
Proof.
  intros Hne Hb Hy. destruct bs as [|c bs]; [done|]. unfold UTF8_getc. destruct (Z.leb_spec (Z.of_nat (length (c :: bs))) 0); [cbn [length] in *; lia|].
  rewrite <- (padd_0 p) in Hb. apply load_next in Hb as [E0 Hb]. rewrite padd_0 in E0. rewrite (bind_ret _ _ _ _ _ E0).
  apply Forall_cons in Hy as [Hc Hy]. destruct (octet_tests c Hc) as (-> & -> & -> & -> & _). unfold is_byte in Hc. destruct (Z.ltb_spec c 128).
  { destruct (octet_fields c) as (F & _). rewrite F by lia. eexists. split; [reflexivity|].
    apply (read_ok_utf8 _ c [c] bs); [lia|apply not_surrogate; unfold SURROGATE_MIN; lia| |done]. unfold utf8. destruct (Z.ltb_spec c 0x80); [done|lia]. }
  destruct (andb _ _) eqn:T2.
  { destruct (Z.ltb_spec (Z.of_nat (length (c :: bs))) 2); [by eexists|]. apply second_octet; [done|done|lia|lia]. }
  destruct (andb (224 <=? c) _) eqn:T3.
  { destruct (Z.ltb_spec (Z.of_nat (length (c :: bs))) 3); [by eexists|]. apply two_octets; [done|done|lia|lia]. }
  destruct (andb (240 <=? c) _) eqn:T4; [|by eexists].
  destruct (Z.ltb_spec (Z.of_nat (length (c :: bs))) 4); [by eexists|]. apply three_octets; [done|done|lia|lia].
Qed.

Lemma utf8_length v : (1 <= length (utf8 v) <= 4)%nat.
Proof. unfold utf8. destruct (v <? 0x80), (v <? 0x800), (v <? 0x10000); cbn [length]; lia. Qed.

Lemma utf8_octets v : readable v -> Forall is_byte (utf8 v).
Proof.
  intros [Hv _]. unfold utf8, is_byte. destruct (Z.ltb_spec v 0x80); [|destruct (Z.ltb_spec v 0x800); [|destruct (Z.ltb_spec v 0x10000)]];
    repeat constructor; Z.div_mod_to_equations; lia.
Qed.

(** The value of the fields. *)
Lemma utf8_value v : readable v ->
  (v < 0x80 /\ utf8 v = [v]) \/
  (exists a x, 0 <= a < 32 /\ 0 <= x < 64 /\ v = a * 64 + x /\ 0x80 <= v /\ utf8 v = [192 + a; 128 + x]) \/
  (exists a x y, 0 <= a < 16 /\ 0 <= x < 64 /\ 0 <= y < 64 /\ v = a * 4096 + x * 64 + y /\ 0x800 <= v /\ utf8 v = [224 + a; 128 + x; 128 + y]) \/
  (exists a x y z, 0 <= a < 8 /\ 0 <= x < 64 /\ 0 <= y < 64 /\ 0 <= z < 64 /\ v = a * 262144 + x * 4096 + y * 64 + z /\ 0x10000 <= v /\
     utf8 v = [240 + a; 128 + x; 128 + y; 128 + z]).
Proof.
  intros [Hv _]. unfold utf8. destruct (Z.ltb_spec v 0x80); [by left|right]. destruct (Z.ltb_spec v 0x800); [left|right; destruct (Z.ltb_spec v 0x10000); [left|right]].
  - exists (v / 64), (v mod 64). do 4 (split; [Z.div_mod_to_equations; lia|]). done.
  - exists (v / 4096), (v / 64 mod 64), (v mod 64). do 5 (split; [Z.div_mod_to_equations; lia|]). done.
  - exists (v / 262144), (v / 4096 mod 64), (v / 64 mod 64), (v mod 64). do 6 (split; [Z.div_mod_to_equations; lia|]). done.
Qed.

(** A further octet of a character is accepted. *)
Lemma next_octet m p i x bs : bytes_at m (padd p i) ((128 + x) :: bs) -> 0 <= x < 64 ->
  (forall (a : Z * option Z) (k : Z -> M mem (Z * option Z)), (c ← load (padd p i); if not_continued c then mret a else k c) m = k (128 + x) m) /\
  Z.land (128 + x) 0x3f = x /\ bytes_at m (padd p (i + 1)) bs.
Proof.
  intros Hb Hx. apply load_next in Hb as [E Hb]. split; [|split; [|done]].
  - intros a k. rewrite (bind_ret _ _ _ _ _ E). destruct (octet_tests (128 + x) ltac:(unfold is_byte; lia)) as (_ & _ & _ & _ & ->). by replace (negb _) with false by lia.
  - destruct (octet_fields (128 + x)) as (_ & F & _). rewrite F by lia. lia.
Qed.

Lemma getc_utf8 m p v len : readable v -> bytes_at m p (utf8 v) -> Z.of_nat (length (utf8 v)) <= len ->
  UTF8_getc p len m = Ret ((Z.of_nat (length (utf8 v)), Some v), m).
Proof.
  intros Hv Hb Hl. pose proof (utf8_octets v Hv) as Hy. rewrite <- (padd_0 p) in Hb. unfold UTF8_getc.
  pose proof (utf8_length v). destruct (Z.leb_spec len 0); [lia|].
  destruct (utf8_value v Hv) as [[H1 E]|[(a & x & Ha & Hx & Ev & Hge & E)|[(a & x & y & Ha & Hx & Hy' & Ev & Hge & E)|(a & x & y & z & Ha & Hx & Hy' & Hz & Ev & Hge & E)]]];
    rewrite E in *; cbn [length] in *; apply Forall_cons in Hy as [Hc _]; apply load_next in Hb as [E0 Hb]; rewrite padd_0 in E0; rewrite (bind_ret _ _ _ _ _ E0);
    destruct (octet_tests _ Hc) as (-> & -> & -> & -> & _); destruct (octet_fields v) as (F1 & _); destruct Hv as [Hv Hs].
  - destruct (Z.ltb_spec v 128); [|lia]. by rewrite F1 by lia.
  - destruct (Z.ltb_spec (192 + a) 128); [lia|]. replace (_ && _) with true by lia. destruct (Z.ltb_spec len 2); [lia|].
    destruct (next_octet m p 1 x _ Hb Hx) as (R1 & L1 & Hb1). rewrite R1, L1. destruct (octet_fields (192 + a)) as (_ & _ & F & _).
    rewrite F, join_2 by lia. replace (192 + a - 192) with a by lia. cbv zeta. rewrite <- Ev. by destruct (Z.ltb_spec v 0x80); [lia|].
  - destruct (Z.ltb_spec (224 + a) 128); [lia|]. replace ((192 <=? 224 + a) && _) with false by lia. replace (_ && _) with true by lia. destruct (Z.ltb_spec len 3); [lia|].
    destruct (next_octet m p 1 x _ Hb Hx) as (R1 & L1 & Hb1). rewrite R1, L1. destruct (next_octet m p 2 y _ Hb1 Hy') as (R2 & L2 & Hb2). rewrite R2, L2.
    destruct (octet_fields (224 + a)) as (_ & _ & _ & F & _). rewrite F, join_3 by lia. replace (224 + a - 224) with a by lia. cbv zeta. rewrite <- Ev, Hs.
    by destruct (Z.ltb_spec v 0x800); [lia|].
  - destruct (Z.ltb_spec (240 + a) 128); [lia|]. replace ((192 <=? 240 + a) && _) with false by lia. replace ((224 <=? 240 + a) && _) with false by lia.
    replace (_ && _) with true by lia. destruct (Z.ltb_spec len 4); [lia|].
    destruct (next_octet m p 1 x _ Hb Hx) as (R1 & L1 & Hb1). rewrite R1, L1. destruct (next_octet m p 2 y _ Hb1 Hy') as (R2 & L2 & Hb2). rewrite R2, L2.
    destruct (next_octet m p 3 z _ Hb2 Hz) as (R3 & L3 & Hb3). rewrite R3, L3.
    destruct (octet_fields (240 + a)) as (_ & _ & _ & _ & F). rewrite F, join_4 by lia. replace (240 + a - 240) with a by lia. cbv zeta. rewrite <- Ev.
    by destruct (Z.ltb_spec v 0x10000); [lia|].
Qed.

Lemma put_next m p xs c : room m p (Z.of_nat (length xs + 1)) -> is_byte c ->
  store (padd p (Z.of_nat (length xs))) c (mwrite m p xs) = Ret (tt, mwrite m p (xs ++ [c])).
Proof. intros Hr Hc. rewrite <- (to_uchar_id c Hc) at 2. by apply (store_bytes_after m p xs [to_uchar c]). Qed.

(** The octets that the code computes. *)
Lemma put_fields y : 0 <= y -> Z.lor (Z.land y 0x3f) 0x80 = 128 + y mod 64 /\ Z.lor (Z.land y 0x1f) 0xc0 = 192 + y mod 32 /\
  Z.lor (Z.land y 0xf) 0xe0 = 224 + y mod 16 /\ Z.lor (Z.land y 0x7) 0xf0 = 240 + y mod 8.
Proof.
  intros Hy. change 0x7 with (Z.ones 3). change 0x1f with (Z.ones 5). change 0x3f with (Z.ones 6). rewrite !Z.land_ones by lia.
  change 0xf with (Z.ones 4). rewrite Z.land_ones by lia. change 0x80 with (2 * 2 ^ 6). change 0xc0 with (6 * 2 ^ 5). change 0xe0 with (14 * 2 ^ 4). change 0xf0 with (30 * 2 ^ 3).
  rewrite !(Z.lor_comm (y mod _)). rewrite !lor_low by (try lia; apply Z.mod_pos_bound; lia). done.
Qed.

Definition scalar (v : Z) : Prop := 0 <= v < UNICODE_LIMIT /\ is_unicode_surrogate v = false.

Lemma scalar_readable v : scalar v -> readable v.
Proof. unfold scalar, readable, UNICODE_LIMIT. intros [? ?]. split; [lia|done]. Qed.

(** The next of the octets [cs] is stored. *)
Lemma put_nth {A} m p cs i c (k : M mem A) : Forall is_byte cs -> room m p (Z.of_nat (length cs)) -> cs !! i = Some c ->
  (store (padd p (Z.of_nat i)) c;; k) (mwrite m p (take i cs)) = k (mwrite m p (take (S i) cs)).
Proof.
  intros Hy Hr Hc. pose proof (lookup_lt_Some _ _ _ Hc) as Hi. rewrite (take_S_r _ _ _ Hc). assert (length (take i cs) = i) as El by (rewrite length_take; lia).
  erewrite bind_ret; [reflexivity|]. rewrite <- El at 1. apply put_next; [|by eapply Forall_lookup_1]. rewrite El. eapply room_le; [exact Hr|lia].
Qed.

Lemma putc_run m b o len v : scalar v -> room m (Ptr b o) (Z.of_nat (length (utf8 v))) -> Z.of_nat (length (utf8 v)) <= len ->
  UTF8_putc (Ptr b o) len v m = Ret (Z.of_nat (length (utf8 v)), mwrite m (Ptr b o) (utf8 v)).
Proof.
  intros Hv Hr Hl. pose proof (utf8_length v). pose proof (utf8_octets v (scalar_readable v Hv)) as Hy. destruct Hv as [Hv Hs]. unfold UTF8_putc. cbn [is_null negb andb].
  destruct (Z.leb_spec len 0); [lia|]. rewrite Hs, !Z.shiftr_div_pow2 by lia. change (2 ^ 6) with 64. change (2 ^ 12) with 4096. change (2 ^ 18) with 262144.
  destruct (put_fields v ltac:(lia)) as (-> & _). destruct (put_fields (v / 64) ltac:(apply Z.div_pos; lia)) as (-> & -> & _).
  destruct (put_fields (v / 4096) ltac:(apply Z.div_pos; lia)) as (-> & _ & -> & _). destruct (put_fields (v / 262144) ltac:(apply Z.div_pos; lia)) as (_ & _ & _ & ->).
  assert (forall c, utf8 v !! 0%nat = Some c -> store (Ptr b o) c m = Ret (tt, mwrite m (Ptr b o) [c])) as Hfirst.
  { intros c Hc. rewrite <- (to_uchar_id c) at 2 by (by eapply Forall_lookup_1). apply store_room. eapply room_le; [exact Hr|lia]. }
  unfold utf8, UNICODE_LIMIT in *. destruct (Z.ltb_spec v 0x80); [|destruct (Z.ltb_spec v 0x800); [|destruct (Z.ltb_spec v 0x10000)]]; cbn [length] in *;
    erewrite ?(Z.mod_small (v / 64) 32), ?(Z.mod_small (v / 4096) 16), ?(Z.mod_small (v / 262144) 8) by (split; [apply Z.div_pos; lia|apply Z.div_lt_upper_bound; lia]).
  - by rewrite (bind_ret _ _ _ _ _ (Hfirst _ eq_refl)).
  - destruct (Z.ltb_spec len 2); [lia|]. rewrite (bind_ret _ _ _ _ _ (Hfirst _ eq_refl)). exact (put_nth m (Ptr b o) _ 1 _ (mret 2) Hy Hr eq_refl).
  - destruct (Z.ltb_spec len 3); [lia|]. rewrite (bind_ret _ _ _ _ _ (Hfirst _ eq_refl)).
    etransitivity; [exact (put_nth m (Ptr b o) _ 1 _ _ Hy Hr eq_refl)|]. exact (put_nth m (Ptr b o) _ 2 _ (mret 3) Hy Hr eq_refl).
  - destruct (Z.ltb_spec len 4), (Z.ltb_spec v 0x110000); [lia..| |lia]. rewrite (bind_ret _ _ _ _ _ (Hfirst _ eq_refl)).
    etransitivity; [exact (put_nth m (Ptr b o) _ 1 _ _ Hy Hr eq_refl)|]. etransitivity; [exact (put_nth m (Ptr b o) _ 2 _ _ Hy Hr eq_refl)|].
    exact (put_nth m (Ptr b o) _ 3 _ (mret 4) Hy Hr eq_refl).
Qed.

(** ** Properties *)

(** A character that is written, in an array with room for it, is read back
    as the same character with the same number of octets, whatever follows it. *)
Theorem UTF8_roundtrip m b o len v len' : scalar v -> let n := Z.of_nat (length (utf8 v)) in
  room m (Ptr b o) n -> n <= len -> n <= len' ->
  exists m', UTF8_putc (Ptr b o) len v m = Ret (n, m') /\ bytes_at m' (Ptr b o) (utf8 v) /\ UTF8_getc (Ptr b o) len' m' = Ret ((n, Some v), m').
Proof.
  intros Hv n Hr Hl Hl'. eexists. split; [by apply putc_run|]. assert (bytes_at (mwrite m (Ptr b o) (utf8 v)) (Ptr b o) (utf8 v)) as Hb by by apply bytes_at_mwrite_eq.
  split; [done|]. apply getc_utf8; [by apply scalar_readable|done|done].
Qed.

(** Reading from any octets ends without reading past them: it gives the
    character that they begin with, and an error exactly when they begin with
    none. *)
Theorem UTF8_getc_exact m p bs : bs <> [] -> bytes_at m p bs -> Forall is_byte bs ->
  exists r, UTF8_getc p (Z.of_nat (length bs)) m = Ret (r, m) /\
    match r.2 with
    | Some v => readable v /\ r.1 = Z.of_nat (length (utf8 v)) /\ exists rest, bs = utf8 v ++ rest
    | None => r.1 < 0 /\ forall v rest, readable v -> bs <> utf8 v ++ rest
    end.
Proof.
  intros Hne Hb Hy. destruct (getc_sound m p bs Hne Hb Hy) as ([r val] & E & Hr). exists (r, val). split; [done|]. destruct val as [v|]; [done|].
  split; [exact Hr|]. intros v rest Hv ->. rewrite (getc_utf8 m p v) in E; [done|done|by eapply bytes_at_app_l|rewrite length_app; lia].
Qed.

(** ** Where the code departs *)

(** The reader accepts values beyond the last character, which the writer
    refuses. *)
Lemma getc_beyond_unicode :
  let m : mem := {[ 1%positive := [0xf4; 0x90; 0x80; 0x80] ]} in
  UTF8_getc (Ptr 1 0) 4 m = Ret ((4, Some UNICODE_LIMIT), m) /\ UTF8_putc (Ptr 1 0) 4 UNICODE_LIMIT m = Ret (-2, m).
Proof. split; reflexivity. Qed.
